(* ===== verification/_CoqProject ===== *)
-Q . S2P
Prelude.v
Words.v
Fips.v
Sha256d.v
Scan.v
Simd.v
X86ShaNi.v
ArmSha2.v
Backends.v
Hex.v
Float64.v
FloatOrder.v
FloatScale.v
Target.v
Job.v
Miner.v
MinerSteps.v
MinerSafety.v
Json.v
Stratum.v
PoolMessages.v
StratumNet.v
Client.v
ClientSafety.v
SessionTrace.v
ProxyRelay.v
ProxyConfig.v
CpuInfo.v
FrontEnd.v
AppConfig.v
Startup.v
Reconnect.v
Resources.v
GpuSha.v
GpuScan.v
CudaKernel.v
GpuSelfTest.v
CudaMiner.v
OpenclKernel.v
OpenclMiner.v
OpenclHost.v
GpuDevices.v
SelfCheck.v
AutotuneSave.v
Autotune.v
AutotuneRun.v
ClientStart.v
Bench.v
Stats.v
Lifetime.v
ClientRun.v
ProxyServer.v
