(* ===== verification/Prelude.v ===== *)
(** * BTCRig: a verification library

    BTCRig (src/) is a Bitcoin miner in C: it takes work from a Stratum pool, scans
    nonces with double SHA-256 on CPU threads and GPU devices, and submits the
    shares it finds; a small proxy forwards Stratum connections.  This library models
    its core as executable definitions translated from the sources and proves what
    makes them correct.  Theorems are named here by their file and name.

    ** The program and the files

    Work flows from the pool to the hash and back.  [stratum_main.c] starts a client
    and keeps reconnecting; a session ([stratum.c]) reads lines of JSON, keeps the
    block template, builds a job ([miner.c], [miner_build_job]) and installs it in the
    miner; worker threads take nonce ranges of the job, scan them with one of the
    backends ([sha256d*.c]) or on a GPU ([cuda_miner.c], [opencl_miner.c]) and queue
    matches; the session pops them and submits.  [main.c] is a second program, which checks
    the backends and measures hash rates; [proxy_main.c] is the proxy.

    - Prelude.v: machine integers, bit bounds, C loops over ranges, stored blocks.
    - Words.v, Fips.v: byte order, and SHA-256 as FIPS 180-4 defines it: the reference.
    - Sha256d.v, X86ShaNi.v, ArmSha2.v, Simd.v: the portable, SHA-NI and ARM
      implementations (sha256d.c, sha256d_x86_sha_ni.c, sha256d_arm_sha2.c), each proved
      to compute the reference ([x86_compress_portable], [arm_tail_portable]).  Scan.v
      says what a nonce scan promises and Backends.v (sha256d.c) that every selectable
      backend keeps it ([midstate_hash_header], [scan_exact], [backend_selection]).
    - SelfCheck.v, Bench.v: the check of the backends in main.c ([self_check_decides]) and
      the rest of that program: its options, the CPU workers with repeats, sweeps and
      medians, the GPU runs and its own tuning of CUDA ([bench_counts_scans]).
    - Hex.v, Float64.v, FloatOrder.v, FloatScale.v, Target.v, Job.v: hexadecimal codecs,
      binary64, its order and its exact scaling, share targets and block headers of miner.c
      ([target_of_difficulty], which pins the target of every double, and [build_job_correct]).
    - Miner.v: the structure [struct miner] and every operation on it (miner.c), one
      function per critical section ([share_queue_fifo]).  MinerSteps.v makes the threads
      a step relation over these operations, MinerSafety.v proves what holds in every
      interleaving ([popped_share_valid], [nonces_handed_out_once],
      [stop_joins_workers], [start_makes_initial]).
    - Json.v: the Jansson library as an interface with laws.  Stratum.v: the session
      state [stratum_state_t] and the message handlers ([notify_installs_job],
      [extranonce2_never_repeats], [pending_is_map]).  PoolMessages.v reads the lines of
      a pool without these handlers and says what work a history of lines asks for; the
      session's state follows it.  StratumNet.v: addresses, transports, writing and line
      framing, through timeouts ([lines_in_order]).  Client.v: the requests and the loop of
      [stratum_run_client] ([session_requests], [session_ends]).  ClientSafety.v puts
      the session and the workers together, in runs labelled with the lines handled, from
      a notification to the share that answers it; SessionTrace.v evaluates such a run.
      ClientRun.v: all of [stratum_run_client], with what its attempts at a connection, its
      miner and its cleanup hold and free and what it returns ([run_client_releases],
      [run_client_submissions]).  Stats.v: the hash rates a session reports
      ([stats_lines_partition]).
    - Lifetime.v: traces that create, use and free items.  ProxyRelay.v, ProxyConfig.v:
      the forwarding loop, a client's thread and the configuration of proxy_main.c.
      ProxyServer.v: its certificate, its sockets, the accept loop and [main], with the
      threads of all clients interleaved ([server_safe], [server_finishes]).
    - CpuInfo.v: detection of processors, the affinity plan and binding of cpu_info.c.
    - FrontEnd.v: the donation schedule (donation.c), names of kernel variants and the
      thread counts autotuning tries.  AppConfig.v: the client's configuration and its
      JSON file.  Startup.v: the command line and [main] up to autotuning.
      Reconnect.v: retries, pauses, change of pools and donation rounds.
    - Resources.v: traces of acquisitions and releases, the error paths of the GPU hosts.
      GpuSha.v: the compressions the kernels unroll, against the reference.  GpuScan.v: a
      launch, the threads of a grid in any interleaving over the counter and the result
      buffer.  CudaKernel.v (cuda_sha256d_kernel.cu) and OpenclKernel.v (the kernel
      text in opencl_miner.c): the device functions and the kernels, each an
      instance of GpuScan's thread.  GpuSelfTest.v: the sixteen nonces both hosts check.
      CudaMiner.v (cuda_miner.c), OpenclMiner.v and OpenclHost.v (opencl_miner.c):
      creation, release, scan and self-test of a device.  GpuDevices.v puts these in the
      place of the devices of miner.c.
    - Autotune.v: the benchmark of the modes a machine can mine in and the choice among
      them ([autotune_selects]).  AutotuneSave.v: what it writes to the configuration file
      and that loading restores it ([autotune_save_reloads]).  AutotuneRun.v: the whole
      of [run_autotune] ([run_autotune_returns], [gpu_params_tuned],
      [autotuned_config_ok]).  ClientStart.v: [main] up to the first session, autotuning
      included ([client_prepared]).  All four model stratum_main.c.

    ** How the parts meet

    A backend of sha256d.c and a kernel of a GPU both meet the same specification of a
    scan, that of Scan.v: the matches of a range.  MinerSteps.v needs of a device only
    [devices_honest]: what it reports is a match of the range it was given.
    [gpu_devices_honest] discharges that for the devices [cuda_miner_create] and
    [opencl_miner_create] make, for all replies of the drivers and every order of the
    threads, and [client_submissions_valid] states the end result: whatever the pool
    sends, each share submitted solves the work the pool's lines asked for at some point of
    the run, [pool_work]: the template of the last mining.notify, the last
    extranonce1, an extranonce2 of the size last given and the target of the last
    difficulty, as PoolMessages.v reads them from the lines.
    [run_client_submissions] starts earlier, at the call of [stratum_run_client]: the state
    its start of the miner leaves is one of the initial states of MinerSteps.v, and its
    connection has the transport of StratumNet.v.

    ClientRun.v and ProxyServer.v state who holds what in the vocabulary of Lifetime.v: a
    run emits an event for each object it creates, uses or frees, and an item's life
    through the trace fails when it is freed twice or used while it is not held.  In
    ProxyServer.v the events of [main] and of the threads interleave one at a time.

    ** Conventions

    A C integer is a [Z] with the wrap-around of its type written out; a C string is a
    [string] and a fixed array is bounded in the definition that writes it; [double] is
    the Standard Library's executable binary64.  A structure is a record with one setter
    per field.  A function that returns -1 returns [None], or the code where several are
    told apart.  Names are those of the sources; where two operations of one structure
    are parts of one C function they are named after what they do.

    Code outside the repository is a class with its documented laws and an instance that
    satisfies them: OpenSSL's SHA functions (Sha256d.v), the vector intrinsics
    (X86ShaNi.v, ArmSha2.v), Jansson (Json.v), [qsort] (CpuInfo.v), the [lop3]
    instruction (CudaKernel.v).  What comes from the outside at run time is an input of
    the definition that reads it: results of system and OpenSSL I/O calls, clock
    readings, key presses, files, environment variables, the replies of the CUDA and
    OpenCL runtimes and the order in which a GPU runs its threads.

    Loops are structural recursion on what bounds them in C, or on the list of inputs they
    consume.  Where fuel is used it is shown to be enough: 4 and 30 turns for the scaling
    loops of [miner_target_from_difficulty], which stop by their guards
    ([target_of_difficulty]); 16 digits for a 64-bit number in hexadecimal; as many
    doublings as attempts in [retry_delay_seconds].  Autotuning consumes one environment
    per measurement, the results of [miner_start], the clock and the hashes made; 4,232
    are enough on every machine and its table of 96 results never fills
    ([run_autotune_returns]); the tuning of main.c needs at most 258
    ([bench_tuning_spec]).  A reader of lines, a benchmark or an accept loop that runs out
    of inputs has not returned yet, and says so.

    The kernels compute thread indices and slots of the result buffer in 32 bits.  The
    theorems on GPU scans therefore ask that a launch's threads times nonces per thread,
    and the slots of its buffer, stay below 2^32; the defaults do, and the
    self-test's do.

    The build modelled is Linux with OpenCL, CUDA, x86 and ARM support compiled in; the
    processor's features decide what is available.

    ** Groups of theorems

    Hashing: equivalence of the optimised implementations with the reference, exactness
    of scans, a self check that passes for exactly the backends that work, a benchmark
    that counts what it scans. Scheduling: no nonce twice, no stale share, exact totals,
    termination after a stop, refinement of the C loops by the step relation. GPU:
    exactness of scans for every kernel, release of what was acquired on every error
    path, the self-test, selection of devices and backends, reports that are real
    matches. Protocol: round trips of addresses and requests, framing, an invariant of
    all bytes sent, shares that answer their template, sessions that end, runs that free
    all they held and return what their path calls for. Proxy: transparency, delivery,
    the whole conversation of each client accepted, no leaks and no use after a free in
    any interleaving, except that [main] frees the server's TLS context when it leaves
    its loop while threads may still use it ([server_context_race]). Start: well-formed
    configurations for every input. Autotuning: it returns, measures only well-formed
    settings, picks a working mode of the preferred kind within ten percent of the
    fastest (where the README and the build guides say the fastest), tunes a GPU to
    settings measured to work, and saves what it loads again. Reconnecting: schedule,
    bounds and end.

    ** Not modelled

    - cuda_sha256d_ptx.h, 48,745 lines that a compiler generates from the kernel text.
    - Text: printing, usage messages, terminal colours (console.c), the lists of devices
      and processors.  What is computed for the text is modelled where it has a state
      (Stats.v).
    - Sockets, files, threads, locks and TLS beyond the results of their calls; what is in a
      certificate and the cipher settings.
    - Allocation failures outside the GPU hosts, the proxy, the benchmark and the start of
      a client, and null arguments that no caller passes;
      Windows and macOS code paths; undefined behaviour, which a definition reports as
      [None] where a conversion can have it. *)
From stdpp Require Import base tactics decidable list numbers strings.
From Stdlib Require Import ZArith Lia.

#[global] Open Scope Z_scope.

(** * Machine integers

    A C unsigned integer of width [w] is a [Z] in [[0, 2^w)]; every operation
    that can leave the range is followed by the wrap-around of its type. *)

Declare Scope word_scope.
Delimit Scope word_scope with word.

Definition u8 (z : Z) : Z := z mod 2 ^ 8.
Definition u32 (z : Z) : Z := z mod 2 ^ 32.
Definition u64 (z : Z) : Z := z mod 2 ^ 64.

(** The conversion to [int]: the value modulo 2^32 in the signed range. *)
Definition i32 (z : Z) : Z := (z + 2 ^ 31) mod 2 ^ 32 - 2 ^ 31.

Definition is_u8 (z : Z) : Prop := 0 <= z < 2 ^ 8.
Definition is_u32 (z : Z) : Prop := 0 <= z < 2 ^ 32.
Definition is_u64 (z : Z) : Prop := 0 <= z < 2 ^ 64.

#[export] Instance is_u8_dec z : Decision (is_u8 z).
Proof. unfold is_u8. apply _. Defined.
#[export] Instance is_u32_dec z : Decision (is_u32 z).
Proof. unfold is_u32. apply _. Defined.
#[export] Instance is_u64_dec z : Decision (is_u64 z).
Proof. unfold is_u64. apply _. Defined.

Definition UINT32_MAX : Z := 0xffffffff.
Definition INT_MAX : Z := 0x7fffffff.

Definition add32 (x y : Z) : Z := u32 (x + y).
Definition not32 (x : Z) : Z := Z.lxor x 0xffffffff.

Infix "+w" := add32 (at level 50, left associativity) : word_scope.

Create HintDb words discriminated.
Create Rewrite HintDb words.

Lemma u8_range z : is_u8 (u8 z).
Proof. unfold u8, is_u8. apply Z.mod_pos_bound. lia. Qed.
Lemma u32_range z : is_u32 (u32 z).
Proof. unfold u32, is_u32. apply Z.mod_pos_bound. lia. Qed.
Lemma u64_range z : is_u64 (u64 z).
Proof. unfold u64, is_u64. apply Z.mod_pos_bound. lia. Qed.
Lemma add32_range x y : is_u32 (add32 x y).
Proof. apply u32_range. Qed.

Lemma u8_small z : is_u8 z -> u8 z = z.
Proof. apply Z.mod_small. Qed.
Lemma u32_small z : is_u32 z -> u32 z = z.
Proof. apply Z.mod_small. Qed.
Lemma u64_small z : is_u64 z -> u64 z = z.
Proof. apply Z.mod_small. Qed.

#[export] Hint Resolve u8_range u32_range u64_range add32_range : words.
#[export] Hint Rewrite u8_small u32_small u64_small using (solve [eauto with words]) : words.

(** Bounds of the bitwise operators: a value is below [2^n] exactly when it has
    no bit at or above [n]. *)

Lemma bounded_testbit n z :
  0 <= n -> 0 <= z < 2 ^ n <-> (0 <= z /\ forall i, n <= i -> Z.testbit z i = false).
Proof.
  intros Hn. split.
  - intros Hz. split; [lia|]. intros i Hi.
    rewrite <- (Z.mod_small z (2 ^ n)) by done.
    apply Z.mod_pow2_bits_high. lia.
  - intros [Hz Hb]. split; [done|].
    destruct (decide (z = 0)) as [->|Hnz]; [by apply Z.pow_pos_nonneg|].
    apply Z.log2_lt_pow2; [lia|].
    destruct (Z.lt_ge_cases (Z.log2 z) n) as [|Hge]; [done|].
    specialize (Hb _ Hge). rewrite Z.bit_log2 in Hb by lia. done.
Qed.

Ltac bits_range n :=
  match goal with
  | Hx : 0 <= ?x < _, Hy : 0 <= ?y < _ |- _ =>
      apply (bounded_testbit n) in Hx as [? Hx]; [|lia];
      apply (bounded_testbit n) in Hy as [? Hy]; [|lia];
      apply (bounded_testbit n); [lia|]; split
  end.

(** Rounding up to a multiple of 32, as the sources write it. *)
Lemma round_up_32 v : 32 <= v <= 1024 -> Z.land (add32 v 31) (not32 31) = 32 * ((v + 31) / 32).
Proof.
  intros Hv. unfold add32. rewrite u32_small by (unfold is_u32; lia).
  change (not32 31) with (Z.shiftl (Z.ones 27) 5).
  replace (32 * ((v + 31) / 32)) with (Z.shiftl (Z.shiftr (v + 31) 5) 5)
    by (rewrite Z.shiftl_mul_pow2, Z.shiftr_div_pow2, Z.mul_comm by lia; done).
  assert (Hu : is_u32 (v + 31)) by (unfold is_u32; lia).
  apply (bounded_testbit 32) in Hu as [_ Hb]; [|lia].
  apply Z.bits_inj'. intros i Hi. rewrite Z.land_spec, !Z.shiftl_spec by done.
  destruct (decide (i < 5)) as [Hlt|Hge].
  - rewrite !(Z.testbit_neg_r _ (i - 5)) by lia. apply andb_false_r.
  - rewrite Z.shiftr_spec by lia. replace (i - 5 + 5) with i by lia.
    destruct (decide (i < 32)).
    + rewrite Z.ones_spec_low by lia. apply andb_true_r.
    + by rewrite Hb by lia.
Qed.

(** [x] is a word of [n] bits. *)
Definition fits (n x : Z) : Prop := 0 <= x < 2 ^ n.

Lemma land_bounded n x y :
  0 <= n -> fits n x -> fits n y -> fits n (Z.land x y).
Proof.
  unfold fits. intros Hn Hx Hy. bits_range n.
  - apply Z.land_nonneg. by left.
  - intros i Hi. by rewrite Z.land_spec, Hx, Hy.
Qed.

Lemma lor_bounded n x y :
  0 <= n -> fits n x -> fits n y -> fits n (Z.lor x y).
Proof.
  unfold fits. intros Hn Hx Hy. bits_range n.
  - by apply Z.lor_nonneg.
  - intros i Hi. by rewrite Z.lor_spec, Hx, Hy.
Qed.

Lemma lxor_bounded n x y :
  0 <= n -> fits n x -> fits n y -> fits n (Z.lxor x y).
Proof.
  unfold fits. intros Hn Hx Hy. bits_range n.
  - by apply Z.lxor_nonneg.
  - intros i Hi. by rewrite Z.lxor_spec, Hx, Hy.
Qed.

Lemma shiftr_bounded n x k :
  0 <= n -> 0 <= k -> fits n x -> fits n (Z.shiftr x k).
Proof.
  unfold fits. intros Hn Hk Hx. rewrite Z.shiftr_div_pow2 by lia.
  assert (0 < 2 ^ k) by (apply Z.pow_pos_nonneg; lia).
  split; [apply Z.div_pos; lia|].
  apply Z.le_lt_trans with x; [|lia].
  apply Z.div_le_upper_bound; [lia|]. nia.
Qed.

Lemma land_u32 x y : is_u32 x -> is_u32 y -> is_u32 (Z.land x y).
Proof. apply land_bounded. lia. Qed.
Lemma lor_u32 x y : is_u32 x -> is_u32 y -> is_u32 (Z.lor x y).
Proof. apply lor_bounded. lia. Qed.
Lemma lxor_u32 x y : is_u32 x -> is_u32 y -> is_u32 (Z.lxor x y).
Proof. apply lxor_bounded. lia. Qed.
Lemma shiftr_u32 x k : 0 <= k -> is_u32 x -> is_u32 (Z.shiftr x k).
Proof. intros Hk. apply shiftr_bounded; lia. Qed.
Lemma not32_u32 x : is_u32 x -> is_u32 (not32 x).
Proof. intros Hx. apply lxor_u32; [done|]. unfold is_u32. lia. Qed.

#[export] Hint Resolve land_u32 lor_u32 lxor_u32 not32_u32 : words.
#[export] Hint Extern 1 (is_u32 (Z.shiftr _ _)) => (apply shiftr_u32; [lia|]) : words.
#[export] Hint Extern 2 (is_u32 (Zpos _)) => (unfold is_u32; lia) : words.
#[export] Hint Extern 2 (is_u32 Z0) => (unfold is_u32; lia) : words.
#[export] Hint Extern 2 (is_u8 (Zpos _)) => (unfold is_u8; lia) : words.
#[export] Hint Extern 2 (is_u8 Z0) => (unfold is_u8; lia) : words.

(** [add32] forms a commutative monoid up to the range of its results; the
    tactic [add32_ac] closes equalities between two sums of the same words. *)

Lemma add32_comm x y : add32 x y = add32 y x.
Proof. unfold add32. f_equal. lia. Qed.
Lemma add32_assoc x y z : add32 (add32 x y) z = add32 x (add32 y z).
Proof.
  unfold add32, u32. rewrite Zplus_mod_idemp_l, Zplus_mod_idemp_r. f_equal. lia.
Qed.
Lemma u32_congr x : exists k, u32 x = x + k * 4294967296.
Proof. exists (- (x / 2 ^ 32)). unfold u32. rewrite Z.mod_eq by lia. lia. Qed.
Lemma u32_shift x y k : x = y + k * 4294967296 -> u32 x = u32 y.
Proof. intros ->. unfold u32. by rewrite Z.mod_add. Qed.

(** [add32_ac] removes the inner wrap-arounds one by one. *)
Ltac add32_strip :=
  lazymatch goal with
  | |- u32 ?e = _ =>
      lazymatch e with
      | context C [u32 ?t] =>
          let e' := context C [t] in
          transitivity (u32 e');
          [let k := fresh in let Hk := fresh in
           destruct (u32_congr t) as [k Hk]; apply (u32_shift _ _ k); lia |]
      end
  end.
Ltac add32_ac :=
  unfold add32; repeat add32_strip; symmetry; repeat add32_strip; f_equal; lia.

(** * Loops

    [for_range lo n body s] is the C loop [for (i = lo; i < lo + n; ++i)]
    with the loop-carried variables gathered in [s]. *)

Definition for_range {A} (lo n : nat) (body : nat -> A -> A) (s : A) : A :=
  foldl (fun s i => body i s) s (seq lo n).

Lemma for_range_0 {A} lo (body : nat -> A -> A) s : for_range lo 0 body s = s.
Proof. done. Qed.

Lemma for_range_S {A} lo n (body : nat -> A -> A) s :
  for_range lo (S n) body s = for_range (S lo) n body (body lo s).
Proof. done. Qed.

Lemma for_range_S_r {A} lo n (body : nat -> A -> A) s :
  for_range lo (S n) body s = body (lo + n)%nat (for_range lo n body s).
Proof. unfold for_range. by rewrite seq_S, foldl_app. Qed.

Lemma for_range_inv {A} (P : nat -> A -> Prop) lo n body s :
  P lo s ->
  (forall i s, (lo <= i < lo + n)%nat -> P i s -> P (S i) (body i s)) ->
  P (lo + n)%nat (for_range lo n body s).
Proof.
  revert lo s. induction n as [|n IH]; intros lo s Hs Hstep.
  - by rewrite Nat.add_0_r.
  - rewrite for_range_S. replace (lo + S n)%nat with (S lo + n)%nat by lia.
    apply IH.
    + apply Hstep; [lia|done].
    + intros i s' Hi. apply Hstep. lia.
Qed.

Lemma for_range_ext {A} lo n (body1 body2 : nat -> A -> A) s :
  (forall i s, (lo <= i < lo + n)%nat -> body1 i s = body2 i s) ->
  for_range lo n body1 s = for_range lo n body2 s.
Proof.
  revert lo s. induction n as [|n IH]; intros lo s H; [done|].
  rewrite !for_range_S, H by lia. apply IH. intros. apply H. lia.
Qed.

Lemma for_range_add {A} lo n m (body : nat -> A -> A) s :
  for_range lo (n + m) body s = for_range (lo + n) m body (for_range lo n body s).
Proof. unfold for_range. by rewrite seq_app, foldl_app. Qed.

(** A loop over two independent variables is two loops. *)
Lemma for_range_pair {A B} lo n (f : nat -> A -> A) (g : nat -> B -> B) a b :
  for_range lo n (fun i '(a, b) => (f i a, g i b)) (a, b) = (for_range lo n f a, for_range lo n g b).
Proof. revert lo a b. induction n as [|n IH]; intros lo a b; [done|]. apply IH. Qed.

(** [for_stride lo step n body s] is
    [for (i = lo; i < lo + step * n; i += step)]. *)
Definition for_stride {A} (lo step n : nat) (body : nat -> A -> A) (s : A) : A :=
  for_range 0 n (fun j => body (lo + step * j)%nat) s.

(** Rounded-up division. *)
Lemma div_up n d : 0 <= n -> 0 < d -> n <= (n + d - 1) / d * d <= n + d - 1.
Proof.
  intros Hn Hd. pose proof (Z.div_mod (n + d - 1) d ltac:(lia)).
  pose proof (Z.mod_pos_bound (n + d - 1) d Hd). nia.
Qed.

(** Function application in the order of execution, for straight-line code. *)
Definition then_do {S T} (s : S) (step : S -> T) : T := step s.
Notation "x |> f" := (then_do x f) (at level 62, left associativity).

(** * Arrays

    A C array is the list of its elements; [store l off xs] is the effect of
    copying the block [xs] to the elements [off], [off + 1], ... of [l].  An
    uninitialised array of [n] elements is [replicate n 0]. *)

Definition store {A} (l : list A) (off : nat) (xs : list A) : list A :=
  take off l ++ xs ++ drop (off + length xs) l.

Lemma length_store {A} (l xs : list A) off :
  (off + length xs <= length l)%nat -> length (store l off xs) = length l.
Proof. intros. unfold store. rewrite !length_app, length_take, length_drop. lia. Qed.

Lemma Forall_store {A} (P : A -> Prop) l off xs :
  Forall P l -> Forall P xs -> Forall P (store l off xs).
Proof.
  intros Hl Hxs. unfold store. rewrite !Forall_app.
  split; [by apply Forall_take|]. split; [done|]. by apply Forall_drop.
Qed.

(** Storing the next block into an array filled up to [off]. *)
Lemma store_fill {A} (pre xs : list A) (x : A) off n m :
  off = length pre -> length xs = n -> (n <= m)%nat ->
  store (pre ++ replicate m x) off xs = (pre ++ xs) ++ replicate (m - n) x.
Proof.
  intros -> <- Hm. unfold store. rewrite take_app_length, drop_app_add, <- app_assoc.
  by rewrite drop_replicate.
Qed.

Lemma store_fill_0 {A} (xs : list A) (x : A) n m :
  length xs = n -> (n <= m)%nat -> store (replicate m x) 0 xs = xs ++ replicate (m - n) x.
Proof. intros. by apply (store_fill []). Qed.

(** Filling an array block by block, from the left: the effect of the loops
    [for (i = 0; i < n; ++i) memcpy(out + i * k, f(i), k)]. *)
Lemma for_range_store {A} (k : nat) (f : nat -> list A) (n : nat) (l : list A) :
  (forall i, length (f i) = k) -> (n * k <= length l)%nat ->
  for_range 0 n (fun i out => store out (i * k) (f i)) l =
  concat (f <$> seq 0 n) ++ drop (n * k) l.
Proof.
  intros Hf. induction n as [|n IH]; intros Hn; [done|].
  rewrite for_range_S_r, IH by lia. cbn [Nat.add].
  rewrite seq_S, fmap_app, concat_app. cbn. rewrite app_nil_r.
  assert (Hlen : length (concat (f <$> seq 0 n)) = (n * k)%nat).
  { clear -Hf. induction n as [|n IH]; [done|].
    rewrite seq_S, fmap_app, concat_app, length_app, IH. cbn. rewrite app_nil_r, Hf. lia. }
  unfold store. rewrite take_app_length' by done.
  rewrite drop_app_ge by lia. rewrite drop_drop, Hlen, Hf, <- app_assoc.
  do 3 f_equal. lia.
Qed.

(** The element-wise variant: [for (i = 0; i < n; ++i) out[i] = f(i)]. *)
Lemma for_range_fill {A} (f : nat -> A) (n : nat) (l : list A) :
  (n <= length l)%nat ->
  for_range 0 n (fun i out => <[i := f i]> out) l = (f <$> seq 0 n) ++ drop n l.
Proof.
  induction n as [|n IH]; intros Hn; [done|].
  rewrite for_range_S_r, IH by lia. cbn [Nat.add].
  rewrite insert_app_r_alt by (rewrite length_fmap, length_seq; lia).
  rewrite length_fmap, length_seq, Nat.sub_diag.
  rewrite seq_S, fmap_app, <- app_assoc. f_equal.
  destruct (lookup_lt_is_Some_2 l n) as [x Hx]; [lia|].
  by rewrite (drop_S l x n Hx).
Qed.

Lemma fmap_lookup_total {A} `{!Inhabited A} (l : list A) n :
  length l = n -> (fun i => l !!! i) <$> seq 0 n = l.
Proof.
  intros <-. induction l as [|x l IH]; [done|].
  cbn [length seq fmap list_fmap]. f_equal.
  rewrite <- (fmap_S_seq 0), <- list_fmap_compose. done.
Qed.

Lemma Forall_lookup_total {A} `{!Inhabited A} (P : A -> Prop) (l : list A) i :
  Forall P l -> (i < length l)%nat -> P (l !!! i).
Proof.
  intros HP Hi. apply lookup_lt_is_Some_2 in Hi as [x Hx].
  rewrite (list_lookup_total_correct _ _ _ Hx). by eapply Forall_lookup_1.
Qed.

Lemma lookup_total_app_add {A} `{!Inhabited A} (l1 l2 : list A) i :
  (l1 ++ l2) !!! (length l1 + i)%nat = l2 !!! i.
Proof. rewrite lookup_total_app_r by lia. f_equal. lia. Qed.

(** Induction on lists two elements at a time. *)
Lemma sum_list_insert i x y (l : list nat) :
  l !! i = Some x -> (sum_list (<[i := y]> l) + x = sum_list l + y)%nat.
Proof.
  revert i. induction l as [|z l IH]; intros [|i]; try done.
  - intros [= ->]. cbn. lia.
  - intros H. specialize (IH i H).
    change (z + sum_list (<[i:=y]> l) + x = z + sum_list l + y)%nat. lia.
Qed.

Lemma list_pair_ind {A} (P : list A -> Prop) :
  P [] -> (forall x, P [x]) -> (forall x y l, P l -> P (x :: y :: l)) -> forall l, P l.
Proof.
  intros H0 H1 H2. fix IH 1. intros [|x [|y l]]; [exact H0|exact (H1 x)|]. exact (H2 x y l (IH l)).
Qed.

Lemma destruct_last {A} (l : list A) n :
  length l = S n -> exists l' x, l = l' ++ [x] /\ length l' = n.
Proof.
  intros Hl. destruct l as [|x l' _] using rev_ind; [done|].
  rewrite length_app in Hl. cbn in Hl. exists l', x. split; [done|lia].
Qed.

(** Reduces [Forall P [x1; ..; xn]] to the goals [P x1], .., [P xn]. *)
Ltac solve_Forall :=
  lazymatch goal with
  | |- Forall _ _ => idtac
  | |- ?P => let P' := eval hnf in P in change P'
  end;
  repeat first [apply Forall_nil_2 | apply Forall_cons_2].

(** [destruct_list l H] names the elements of a list of known length. *)
Ltac destruct_list l H :=
  let rec go l H :=
    lazymatch type of H with
    | length l = O => destruct l; [clear H | discriminate H]
    | length l = S _ =>
        let x := fresh "x" in let l' := fresh "l" in
        destruct l as [|x l']; [discriminate H |
          cbn [length] in H; apply Nat.succ_inj in H; go l' H]
    end in
  go l H.
