(* ===== verification/Words.v ===== *)
(** Bytes and words: the big- and little-endian readings of byte lists that
    the component files use to state what their byte-level C helpers do. *)
From stdpp Require Import base tactics list numbers.
From Stdlib Require Import ZArith Lia.
From S2P Require Import Prelude.

Definition is_bytes (l : list Z) : Prop := Forall is_u8 l.
Definition is_words (l : list Z) : Prop := Forall is_u32 l.

(** [be n z] and [le n z]: the [n] low bytes of [z], most or least significant
    first; [of_be] and [of_le] read them back. *)
Fixpoint le (n : nat) (z : Z) : list Z :=
  match n with
  | O => []
  | S n => z mod 256 :: le n (z / 256)
  end.
Definition be (n : nat) (z : Z) : list Z := reverse (le n z).

Fixpoint of_le (l : list Z) : Z :=
  match l with
  | [] => 0
  | b :: l => b + 256 * of_le l
  end.
Definition of_be (l : list Z) : Z := of_le (reverse l).

Lemma length_le n z : length (le n z) = n.
Proof. revert z. induction n as [|n IH]; intros z; [done|]. cbn. by rewrite IH. Qed.
Lemma length_be n z : length (be n z) = n.
Proof. unfold be. by rewrite length_reverse, length_le. Qed.

Lemma le_bytes n z : is_bytes (le n z).
Proof.
  revert z. induction n as [|n IH]; intros z; constructor; [|apply IH].
  unfold is_u8. pose proof (Z.mod_pos_bound z 256). lia.
Qed.
Lemma be_bytes n z : is_bytes (be n z).
Proof. apply Forall_reverse, le_bytes. Qed.

Lemma of_le_le n z : of_le (le n z) = z mod 256 ^ Z.of_nat n.
Proof.
  revert z. induction n as [|n IH]; intros z; [by rewrite Z.mod_1_r|].
  cbn [le of_le]. rewrite IH, Nat2Z.inj_succ, Z.pow_succ_r by lia.
  rewrite Z.rem_mul_r; lia.
Qed.
Lemma of_be_be n z : of_be (be n z) = z mod 256 ^ Z.of_nat n.
Proof. unfold of_be, be. by rewrite reverse_involutive, of_le_le. Qed.

Lemma of_le_bound l : is_bytes l -> 0 <= of_le l < 256 ^ Z.of_nat (length l).
Proof.
  induction 1 as [|b l Hb Hl IH]; [cbn; lia|].
  cbn [of_le length]. rewrite Nat2Z.inj_succ, Z.pow_succ_r by lia.
  unfold is_u8 in Hb. lia.
Qed.
Lemma of_be_bound l : is_bytes l -> 0 <= of_be l < 256 ^ Z.of_nat (length l).
Proof.
  intros Hl. unfold of_be. rewrite <- (length_reverse l).
  apply of_le_bound. by apply Forall_reverse.
Qed.

Lemma le_of_le l : is_bytes l -> le (length l) (of_le l) = l.
Proof.
  induction 1 as [|b l Hb Hl IH]; [done|]. cbn [length le of_le].
  unfold is_u8 in Hb.
  rewrite (Z.mul_comm 256), Z.mod_add, Z.div_add, Z.mod_small, Z.div_small, Z.add_0_l by lia.
  by rewrite IH.
Qed.
Lemma be_of_be l : is_bytes l -> be (length l) (of_be l) = l.
Proof.
  intros Hl. unfold be, of_be. rewrite <- (length_reverse l), le_of_le.
  - apply reverse_involutive.
  - by apply Forall_reverse.
Qed.

Lemma of_le_app l1 l2 : of_le (l1 ++ l2) = of_le l1 + 256 ^ Z.of_nat (length l1) * of_le l2.
Proof.
  induction l1 as [|b l1 IH]; [cbn [app of_le length]; lia|].
  cbn [app of_le length]. rewrite IH, Nat2Z.inj_succ, Z.pow_succ_r by lia. lia.
Qed.

(** Comparison of little-endian numbers is decided by the last differing byte. *)
Lemma of_le_snoc l b : of_le (l ++ [b]) = of_le l + 256 ^ Z.of_nat (length l) * b.
Proof. rewrite of_le_app. cbn. lia. Qed.

Lemma of_le_snoc_lt l1 l2 b1 b2 :
  is_bytes l1 -> is_bytes l2 -> length l1 = length l2 -> b1 < b2 ->
  of_le (l1 ++ [b1]) < of_le (l2 ++ [b2]).
Proof.
  intros H1 H2 Hlen Hb. rewrite !of_le_snoc, <- Hlen.
  apply of_le_bound in H1, H2. rewrite <- Hlen in H2. nia.
Qed.

(** The disjoint bitwise-or of the C byte-assembly idiom is an addition. *)
Lemma land_shiftl_low k a b : 0 <= k -> 0 <= b < 2 ^ k -> Z.land (Z.shiftl a k) b = 0.
Proof.
  intros Hk Hb. apply Z.bits_inj'. intros i Hi.
  rewrite Z.land_spec, Z.bits_0.
  destruct (decide (i < k)) as [Hlt|Hge].
  - by rewrite Z.shiftl_spec_low.
  - apply (bounded_testbit k) in Hb as [_ Hb]; [|done].
    rewrite Hb by lia. apply andb_false_r.
Qed.

Lemma lor_shiftl_add k a b :
  0 <= k -> 0 <= b < 2 ^ k -> Z.lor (Z.shiftl a k) b = a * 2 ^ k + b.
Proof.
  intros Hk Hb. pose proof (land_shiftl_low k a b Hk Hb) as Hand.
  rewrite <- Z.shiftl_mul_pow2 by done.
  rewrite <- Z.lxor_lor by done. symmetry. by apply Z.add_nocarry_lxor.
Qed.

(** Assembling a word from four bytes and taking it apart again. *)
Definition word4 (b3 b2 b1 b0 : Z) : Z :=
  Z.lor (Z.lor (Z.lor (Z.shiftl b3 24) (Z.shiftl b2 16)) (Z.shiftl b1 8)) b0.

Lemma word4_eq b3 b2 b1 b0 :
  is_u8 b3 -> is_u8 b2 -> is_u8 b1 -> is_u8 b0 ->
  word4 b3 b2 b1 b0 = b3 * 2 ^ 24 + b2 * 2 ^ 16 + b1 * 2 ^ 8 + b0.
Proof.
  unfold is_u8, word4. intros.
  rewrite <- !Z.lor_assoc.
  rewrite (lor_shiftl_add 8), (lor_shiftl_add 16), (lor_shiftl_add 24) by lia. lia.
Qed.

Lemma word4_of_be b3 b2 b1 b0 :
  is_u8 b3 -> is_u8 b2 -> is_u8 b1 -> is_u8 b0 -> word4 b3 b2 b1 b0 = of_be [b3; b2; b1; b0].
Proof. intros. rewrite word4_eq by done. unfold of_be. cbn. lia. Qed.

Lemma word4_u32 b3 b2 b1 b0 :
  is_u8 b3 -> is_u8 b2 -> is_u8 b1 -> is_u8 b0 -> is_u32 (word4 b3 b2 b1 b0).
Proof. intros. rewrite word4_eq by done. unfold is_u8, is_u32 in *. lia. Qed.

Lemma shiftr_byte v k : 0 <= k -> u8 (Z.shiftr v k) = v / 2 ^ k mod 256.
Proof. intros. unfold u8. by rewrite Z.shiftr_div_pow2. Qed.

Lemma be_4 v :
  be 4 v = [u8 (Z.shiftr v 24); u8 (Z.shiftr v 16); u8 (Z.shiftr v 8); u8 v].
Proof.
  rewrite !shiftr_byte by lia. unfold be, u8. cbn [le reverse].
  rewrite !Z.div_div by lia. done.
Qed.

Lemma word4_split v :
  is_u32 v ->
  word4 (u8 (Z.shiftr v 24)) (u8 (Z.shiftr v 16)) (u8 (Z.shiftr v 8)) (u8 v) = v.
Proof.
  intros Hv. rewrite word4_of_be, <- be_4, of_be_be by apply u8_range.
  by apply Z.mod_small.
Qed.

Lemma word4_inj_bytes b3 b2 b1 b0 :
  is_u8 b3 -> is_u8 b2 -> is_u8 b1 -> is_u8 b0 -> be 4 (word4 b3 b2 b1 b0) = [b3; b2; b1; b0].
Proof.
  intros. rewrite word4_of_be by done.
  apply (be_of_be [b3; b2; b1; b0]). by solve_Forall.
Qed.

(** Cutting a byte string into big-endian words and back. *)
Fixpoint words_of_bytes (n : nat) (l : list Z) : list Z :=
  match n with
  | O => []
  | S n => of_be (take 4 l) :: words_of_bytes n (drop 4 l)
  end.
Definition bytes_of_words (ws : list Z) : list Z := concat (be 4 <$> ws).

Lemma words_of_bytes_of_words ws rest :
  is_words ws -> words_of_bytes (length ws) (bytes_of_words ws ++ rest) = ws.
Proof.
  induction 1 as [|w ws Hw Hws IH]; [done|].
  cbn [length words_of_bytes]. unfold bytes_of_words. cbn [fmap list_fmap concat].
  rewrite <- app_assoc, take_app_length', drop_app_length' by done.
  f_equal; [|done]. rewrite of_be_be. by apply Z.mod_small.
Qed.

Lemma bytes_of_words_of_bytes n l :
  is_bytes l -> length l = (4 * n)%nat -> bytes_of_words (words_of_bytes n l) = l.
Proof.
  revert l. induction n as [|n IH]; intros l Hl Hlen.
  - by destruct l.
  - cbn [words_of_bytes]. unfold bytes_of_words. cbn [fmap list_fmap concat].
    fold (bytes_of_words (words_of_bytes n (drop 4 l))).
    rewrite IH; [|by apply Forall_drop|rewrite length_drop; lia].
    rewrite <- (take_drop 4 l) at 3. f_equal.
    replace 4%nat with (length (take 4 l)) at 1 by (rewrite length_take; lia).
    apply be_of_be. by apply Forall_take.
Qed.

Lemma words_of_bytes_words n l : is_bytes l -> is_words (words_of_bytes n l).
Proof.
  revert l. induction n as [|n IH]; intros l Hl; solve_Forall.
  - pose proof (of_be_bound (take 4 l) (Forall_take _ _ _ Hl)) as Hb. unfold is_u32.
    split; [lia|]. apply Z.lt_le_trans with (1 := proj2 Hb).
    change (2 ^ 32) with (256 ^ 4). apply Z.pow_le_mono_r; [lia|].
    rewrite length_take. lia.
  - apply IH. by apply Forall_drop.
Qed.

Lemma words_of_bytes_app n m l1 l2 :
  length l1 = (4 * n)%nat ->
  words_of_bytes (n + m) (l1 ++ l2) = words_of_bytes n l1 ++ words_of_bytes m l2.
Proof.
  revert l1. induction n as [|n IH]; intros l1 Hl.
  - by destruct l1.
  - cbn [Nat.add words_of_bytes app].
    rewrite take_app_le, drop_app_le by lia. f_equal.
    apply IH. rewrite length_drop. lia.
Qed.

Lemma length_bytes_of_words ws : length (bytes_of_words ws) = (4 * length ws)%nat.
Proof.
  induction ws as [|w ws IH]; [done|]. unfold bytes_of_words in *. cbn [fmap list_fmap concat].
  rewrite length_app, length_be, IH. cbn. lia.
Qed.

Lemma bytes_of_words_bytes ws : is_bytes (bytes_of_words ws).
Proof.
  apply Forall_concat, Forall_fmap, Forall_forall. intros w _. apply be_bytes.
Qed.

#[export] Hint Resolve le_bytes be_bytes bytes_of_words_bytes word4_u32 : words.
