(* ===== verification/Fips.v ===== *)
(** SHA-256 as FIPS 180-4 specifies it: the reference the C, x86 and ARM
    implementations of the repository are compared with.  Nothing of this file
    is translated from src/; it is the specification side. *)
From stdpp Require Import base tactics list numbers.
From Stdlib Require Import ZArith Lia.
From S2P Require Import Prelude Words.

(** * Functions of section 4.1.2 *)

Definition rotr (n : Z) (x : Z) : Z := Z.lor (Z.shiftr x n) (u32 (Z.shiftl x (32 - n))).
Definition ch (x y z : Z) : Z := Z.lxor (Z.land x y) (Z.land (not32 x) z).
Definition maj (x y z : Z) : Z := Z.lxor (Z.lxor (Z.land x y) (Z.land x z)) (Z.land y z).
Definition bsig0 (x : Z) : Z := Z.lxor (Z.lxor (rotr 2 x) (rotr 13 x)) (rotr 22 x).
Definition bsig1 (x : Z) : Z := Z.lxor (Z.lxor (rotr 6 x) (rotr 11 x)) (rotr 25 x).
Definition ssig0 (x : Z) : Z := Z.lxor (Z.lxor (rotr 7 x) (rotr 18 x)) (Z.shiftr x 3).
Definition ssig1 (x : Z) : Z := Z.lxor (Z.lxor (rotr 17 x) (rotr 19 x)) (Z.shiftr x 10).

(** * Constants of sections 4.2.2 and 5.3.3

    The first thirty-two bits of the fractional parts of the cube roots of the
    first sixty-four primes, and of the square roots of the first eight. *)

Definition is_prime (n : nat) : bool :=
  (1 <? n)%nat && forallb (fun d => negb (n mod d =? 0)%nat) (seq 2 (n - 2)).
Definition primes : list Z := Eval vm_compute in (Z.of_nat <$> filter is_prime (seq 0 312)).

(** [icbrt n] is the integer cube root of [n < 2^105], built bit by bit. *)
Definition icbrt (n : Z) : Z :=
  foldl (fun r b => if (r + 2 ^ b) ^ 3 <=? n then r + 2 ^ b else r)
        0 (reverse (Z.of_nat <$> seq 0 35)).
Definition K : list Z := Eval vm_compute in ((fun p => u32 (icbrt (p * 2 ^ 96))) <$> primes).
Definition H0 : list Z := Eval vm_compute in ((fun p => u32 (Z.sqrt (p * 2 ^ 64))) <$> take 8 primes).

(** * Hash computation of section 6.2.2 *)

(** The message schedule, extended one word at a time from the sixteen words of
    the block. *)
Definition sched_word (w : list Z) (t : nat) : Z :=
  (ssig1 (w !!! (t - 2)%nat) +w w !!! (t - 7)%nat +w ssig0 (w !!! (t - 15)%nat)
   +w w !!! (t - 16)%nat)%word.
Fixpoint schedule (n : nat) (M : list Z) : list Z :=
  match n with
  | O => M
  | S n => let w := schedule n M in w ++ [sched_word w (16 + n)]
  end.
Definition W (M : list Z) (t : nat) : Z := schedule 48 M !!! t.

(** The eight working variables and one round. *)
Record regs := Regs { ra : Z; rb : Z; rc : Z; rd : Z; re : Z; rf : Z; rg : Z; rh : Z }.
Add Printing Constructor regs.

Definition round (k w : Z) (r : regs) : regs :=
  let t1 := (rh r +w bsig1 (re r) +w ch (re r) (rf r) (rg r) +w k +w w)%word in
  let t2 := (bsig0 (ra r) +w maj (ra r) (rb r) (rc r))%word in
  Regs (t1 +w t2)%word (ra r) (rb r) (rc r) (rd r +w t1)%word (re r) (rf r) (rg r).

Definition regs_of (H : list Z) : regs :=
  Regs (H !!! 0%nat) (H !!! 1%nat) (H !!! 2%nat) (H !!! 3%nat)
       (H !!! 4%nat) (H !!! 5%nat) (H !!! 6%nat) (H !!! 7%nat).
Definition of_regs (r : regs) : list Z := [ra r; rb r; rc r; rd r; re r; rf r; rg r; rh r].

Definition rounds (M : list Z) (n : nat) (r : regs) : regs :=
  let w := schedule 48 M in for_range 0 n (fun t => round (K !!! t) (w !!! t)) r.

Definition compress (H M : list Z) : list Z :=
  zip_with add32 H (of_regs (rounds M 64 (regs_of H))).

(** * Padding (section 5.1.1) and the whole hash *)

Definition pad (m : list Z) : list Z :=
  m ++ [0x80] ++ replicate (Z.to_nat ((55 - Z.of_nat (length m)) mod 64)) 0
    ++ be 8 (8 * Z.of_nat (length m)).

Fixpoint blocks (n : nat) (l : list Z) : list (list Z) :=
  match n with
  | O => []
  | S n => words_of_bytes 16 (take 64 l) :: blocks n (drop 64 l)
  end.

Definition digest (m : list Z) : list Z :=
  let p := pad m in foldl compress H0 (blocks (length p / 64) p).
Definition sha256 (m : list Z) : list Z := bytes_of_words (digest m).
Definition sha256d (m : list Z) : list Z := sha256 (sha256 m).

(** The published test vector for the message "abc". *)
Example sha256_abc :
  digest [0x61; 0x62; 0x63] =
  [0xba7816bf; 0x8f01cfea; 0x414140de; 0x5dae2223; 0xb00361a3; 0x96177a9c; 0xb410ff61; 0xf20015ad].
Proof. vm_compute. reflexivity. Qed.

(** * Laws *)

Lemma length_schedule n M : length (schedule n M) = (length M + n)%nat.
Proof. induction n as [|n IH]; cbn; [lia|]. rewrite length_app, IH. cbn. lia. Qed.

Lemma schedule_prefix n m M t :
  (t < length M + n)%nat -> schedule (n + m) M !!! t = schedule n M !!! t.
Proof.
  intros Ht. induction m as [|m IH]; [by rewrite Nat.add_0_r|].
  rewrite Nat.add_succ_r. cbn [schedule].
  rewrite lookup_total_app_l by (rewrite length_schedule; lia). done.
Qed.

Section schedule_words.
Context (M : list Z) (HM : length M = 16%nat).

Lemma W_schedule n t : (n <= 48)%nat -> (t < 16 + n)%nat -> schedule n M !!! t = W M t.
Proof.
  intros Hn Ht. unfold W. replace 48%nat with (n + (48 - n))%nat by lia.
  rewrite schedule_prefix; [done|lia].
Qed.

Lemma W_lo t : (t < 16)%nat -> W M t = M !!! t.
Proof. intros Ht. symmetry. apply (W_schedule 0); lia. Qed.

Lemma W_hi t :
  (16 <= t < 64)%nat ->
  W M t = (ssig1 (W M (t - 2)) +w W M (t - 7) +w ssig0 (W M (t - 15)) +w W M (t - 16))%word.
Proof.
  intros Ht. rewrite <- (W_schedule (S (t - 16)) t) by lia. cbn [schedule].
  rewrite lookup_total_app_r by (rewrite length_schedule; lia).
  rewrite length_schedule, HM.
  replace (t - (16 + (t - 16)))%nat with O by lia.
  rewrite Nat.add_comm, Nat.sub_add by lia.
  change ([sched_word (schedule (t - 16) M) t] !!! 0%nat)
    with (sched_word (schedule (t - 16) M) t).
  unfold sched_word.
  by rewrite !(W_schedule (t - 16)) by lia.
Qed.
End schedule_words.

Lemma regs_of_of_regs r : regs_of (of_regs r) = r.
Proof. by destruct r. Qed.
Lemma of_regs_regs_of H : length H = 8%nat -> of_regs (regs_of H) = H.
Proof. intros HH. by destruct_list H HH. Qed.

Lemma rounds_S M n r : rounds M (S n) r = round (K !!! n) (W M n) (rounds M n r).
Proof.
  unfold rounds, W. set (w := schedule 48 M). by rewrite for_range_S_r.
Qed.

Lemma compress_regs H M :
  length H = 8%nat ->
  compress H M =
  (let r := rounds M 64 (regs_of H) in
   let r0 := regs_of H in
   [ra r0 +w ra r; rb r0 +w rb r; rc r0 +w rc r; rd r0 +w rd r;
    re r0 +w re r; rf r0 +w rf r; rg r0 +w rg r; rh r0 +w rh r]%word).
Proof. intros HH. unfold compress. cbv zeta. by destruct_list H HH. Qed.

Lemma length_compress H M : length H = 8%nat -> length (compress H M) = 8%nat.
Proof. intros HH. by rewrite compress_regs. Qed.

Lemma compress_words H M : length H = 8%nat -> is_words (compress H M).
Proof. intros HH. rewrite compress_regs by done. cbv zeta. solve_Forall; apply add32_range. Qed.

Lemma H0_words : is_words H0.
Proof. solve_Forall; auto with words. Qed.

(** [compress] reads only the sixteen message words. *)
Lemma length_words_of_bytes n l : length (words_of_bytes n l) = n.
Proof. revert l. induction n as [|n IH]; intros l; [done|]. cbn. by rewrite IH. Qed.

Lemma length_digest m : length (digest m) = 8%nat.
Proof.
  unfold digest. generalize (blocks (length (pad m) / 64) (pad m)).
  assert (H : forall bs H, length H = 8%nat -> length (foldl compress H bs) = 8%nat).
  { intros bs. induction bs as [|b bs IH]; intros H HH; [done|]. by apply IH, length_compress. }
  intros bs. by apply H.
Qed.
Lemma length_sha256 m : length (sha256 m) = 32%nat.
Proof. unfold sha256. by rewrite length_bytes_of_words, length_digest. Qed.
Lemma sha256_bytes m : is_bytes (sha256 m).
Proof. apply bytes_of_words_bytes. Qed.

(** Hashing a message of a whole block and a rest, the rest and its padding
    filling one more block: the two compressions the miner splits the header
    into. *)
Lemma digest_two_blocks m1 m2 :
  length m1 = 64%nat -> (length m2 <= 55)%nat ->
  digest (m1 ++ m2) =
  compress (compress H0 (words_of_bytes 16 m1))
    (words_of_bytes 16 (m2 ++ [0x80] ++ replicate (55 - length m2) 0
                           ++ be 8 (8 * Z.of_nat (64 + length m2)))).
Proof.
  intros H1 H2. unfold digest, pad. rewrite (length_app m1 m2), H1.
  replace (Z.to_nat ((55 - Z.of_nat (64 + length m2)) mod 64)) with (55 - length m2)%nat.
  2:{ replace (55 - Z.of_nat (64 + length m2)) with (Z.of_nat (55 - length m2) + (-1) * 64) by lia.
      rewrite Z.mod_add, Z.mod_small by lia. lia. }
  rewrite <- app_assoc.
  set (rest := m2 ++ _).
  assert (Hrest : length rest = 64%nat).
  { unfold rest. rewrite !length_app, length_replicate, length_be. cbn. lia. }
  rewrite (length_app m1 rest), H1, Hrest. change ((64 + 64) / 64)%nat with 2%nat.
  cbn [blocks foldl]. rewrite take_app_length', drop_app_length' by done.
  by rewrite take_ge by lia.
Qed.

Lemma digest_one_block m :
  (length m <= 55)%nat ->
  digest m =
  compress H0 (words_of_bytes 16 (m ++ [0x80] ++ replicate (55 - length m) 0
                                    ++ be 8 (8 * Z.of_nat (length m)))).
Proof.
  intros Hm. unfold digest, pad.
  replace (Z.to_nat ((55 - Z.of_nat (length m)) mod 64)) with (55 - length m)%nat
    by (rewrite Z.mod_small; lia).
  set (rest := m ++ _).
  assert (Hrest : length rest = 64%nat).
  { unfold rest. rewrite !length_app, length_replicate, length_be. cbn. lia. }
  rewrite Hrest. change (64 / 64)%nat with 1%nat. cbn [blocks foldl].
  by rewrite take_ge by lia.
Qed.

(** The lemmas above are the interface of these functions: conversion must not
    run the hash. *)
#[global] Opaque schedule W rounds compress digest.
