(* ===== verification/Sha256d.v ===== *)
(** The portable double SHA-256 of src/src/sha256d.c: the word helpers, the
    compression function, the midstate, and the two tail hashes that need no
    vector instructions ("fast-c" and OpenSSL).

    OpenSSL is code outside the repository: the class [OpenSSL] holds the
    functions of <openssl/sha.h> the source calls, with what its documentation
    promises of them. *)
From stdpp Require Import base tactics list numbers.
From Stdlib Require Import ZArith Lia.
From S2P Require Import Prelude Words Fips.

(** * OpenSSL

    [ctx_h] reads the public field [h] of a [SHA256_CTX].  [SHA256_Init] gives
    the fresh context; [SHA256_Update] and [SHA256_Transform] return the context
    they write through their pointer. *)
Class OpenSSL := {
  SHA256_CTX : Type;
  ctx_h : SHA256_CTX -> list Z;
  SHA256 : list Z -> list Z;
  SHA256_Init : SHA256_CTX;
  SHA256_Update : SHA256_CTX -> list Z -> SHA256_CTX;
  SHA256_Transform : SHA256_CTX -> list Z -> SHA256_CTX;
}.

(** What the miner relies on: [SHA256] is the FIPS hash, a fresh context holds
    the initial value, and both the first whole block fed to a fresh context and
    a transform apply the compression function to the chaining value. *)
Class OpenSSLLaws (O : OpenSSL) := {
  SHA256_fips m : is_bytes m -> SHA256 m = Fips.sha256 m;
  SHA256_Init_h : ctx_h SHA256_Init = Fips.H0;
  SHA256_Update_block m :
    length m = 64%nat -> is_bytes m ->
    ctx_h (SHA256_Update SHA256_Init m) = Fips.compress Fips.H0 (words_of_bytes 16 m);
  SHA256_Transform_h c m :
    length m = 64%nat -> is_bytes m ->
    ctx_h (SHA256_Transform c m) = Fips.compress (ctx_h c) (words_of_bytes 16 m);
}.

(** A concrete OpenSSL, for the evaluations: the context is its chaining value. *)
Definition ref_openssl : OpenSSL := {|
  SHA256_CTX := list Z;
  ctx_h c := c;
  SHA256 := Fips.sha256;
  SHA256_Init := Fips.H0;
  SHA256_Update c m := Fips.compress c (words_of_bytes 16 m);
  SHA256_Transform c m := Fips.compress c (words_of_bytes 16 m);
|}.
Lemma ref_openssl_laws : OpenSSLLaws ref_openssl.
Proof. by split. Defined.

(** * Constants *)

Definition k_sha256_initial_state : list Z :=
  [0x6a09e667; 0xbb67ae85; 0x3c6ef372; 0xa54ff53a] ++
  [0x510e527f; 0x9b05688c; 0x1f83d9ab; 0x5be0cd19].

Definition k_sha256_round_constants : list Z :=
  [0x428a2f98; 0x71374491; 0xb5c0fbcf; 0xe9b5dba5] ++
  [0x3956c25b; 0x59f111f1; 0x923f82a4; 0xab1c5ed5] ++
  [0xd807aa98; 0x12835b01; 0x243185be; 0x550c7dc3] ++
  [0x72be5d74; 0x80deb1fe; 0x9bdc06a7; 0xc19bf174] ++
  [0xe49b69c1; 0xefbe4786; 0x0fc19dc6; 0x240ca1cc] ++
  [0x2de92c6f; 0x4a7484aa; 0x5cb0a9dc; 0x76f988da] ++
  [0x983e5152; 0xa831c66d; 0xb00327c8; 0xbf597fc7] ++
  [0xc6e00bf3; 0xd5a79147; 0x06ca6351; 0x14292967] ++
  [0x27b70a85; 0x2e1b2138; 0x4d2c6dfc; 0x53380d13] ++
  [0x650a7354; 0x766a0abb; 0x81c2c92e; 0x92722c85] ++
  [0xa2bfe8a1; 0xa81a664b; 0xc24b8b70; 0xc76c51a3] ++
  [0xd192e819; 0xd6990624; 0xf40e3585; 0x106aa070] ++
  [0x19a4c116; 0x1e376c08; 0x2748774c; 0x34b0bcb5] ++
  [0x391c0cb3; 0x4ed8aa4a; 0x5b9cca4f; 0x682e6ff3] ++
  [0x748f82ee; 0x78a5636f; 0x84c87814; 0x8cc70208] ++
  [0x90befffa; 0xa4506ceb; 0xbef9a3f7; 0xc67178f2].

(** * Word helpers *)

Definition rotr32 (x n : Z) : Z := Z.lor (Z.shiftr x n) (u32 (Z.shiftl x (32 - n))).

Definition bswap32 (v : Z) : Z :=
  Z.lor (Z.lor (Z.lor
    (u32 (Z.shiftl (Z.land v 0x000000ff) 24))
    (u32 (Z.shiftl (Z.land v 0x0000ff00) 8)))
    (Z.shiftr (Z.land v 0x00ff0000) 8))
    (Z.shiftr (Z.land v 0xff000000) 24).

(** [load_be32 (p + off)] *)
Definition load_be32 (p : list Z) (off : nat) : Z :=
  Z.lor (Z.lor (Z.lor
    (u32 (Z.shiftl (p !!! off) 24))
    (Z.shiftl (p !!! (off + 1)%nat) 16))
    (Z.shiftl (p !!! (off + 2)%nat) 8))
    (p !!! (off + 3)%nat).

(** [put_be32 (out + off) v] returns the array after the four stores. *)
Definition put_be32 (out : list Z) (off : nat) (v : Z) : list Z :=
  store out off [u8 (Z.shiftr v 24); u8 (Z.shiftr v 16); u8 (Z.shiftr v 8); u8 v].

(** [put_be64 (out + off) v]: the bytes are stored from index 7 down to 0. *)
Definition put_be64 (out : list Z) (off : nat) (v : Z) : list Z :=
  fst (for_range 0 8 (fun j '(out, v) =>
         let i := (7 - j)%nat in
         (<[(off + i)%nat := u8 v]> out, Z.shiftr v 8)) (out, v)).

(** * Compression *)

Definition sched_step (i : nat) (w : list Z) : list Z :=
  let s0 := Z.lxor (Z.lxor (rotr32 (w !!! (i - 15)%nat) 7) (rotr32 (w !!! (i - 15)%nat) 18))
                   (Z.shiftr (w !!! (i - 15)%nat) 3) in
  let s1 := Z.lxor (Z.lxor (rotr32 (w !!! (i - 2)%nat) 17) (rotr32 (w !!! (i - 2)%nat) 19))
                   (Z.shiftr (w !!! (i - 2)%nat) 10) in
  <[i := (w !!! (i - 16)%nat +w s0 +w w !!! (i - 7)%nat +w s1)%word]> w.

(** The body of the second loop; the record holds the locals [a] .. [h]. *)
Definition round_step (w : list Z) (i : nat) (v : Fips.regs) : Fips.regs :=
  let '(Fips.Regs a b c d e f g h) := v in
  let s1 := Z.lxor (Z.lxor (rotr32 e 6) (rotr32 e 11)) (rotr32 e 25) in
  let ch := Z.lxor (Z.land e f) (Z.land (not32 e) g) in
  let temp1 := (h +w s1 +w ch +w k_sha256_round_constants !!! i +w w !!! i)%word in
  let s0 := Z.lxor (Z.lxor (rotr32 a 2) (rotr32 a 13)) (rotr32 a 22) in
  let maj := Z.lxor (Z.lxor (Z.land a b) (Z.land a c)) (Z.land b c) in
  let temp2 := (s0 +w maj)%word in
  let h := g in
  let g := f in
  let f := e in
  let e := (d +w temp1)%word in
  let d := c in
  let c := b in
  let b := a in
  let a := (temp1 +w temp2)%word in
  Fips.Regs a b c d e f g h.

(** Returns the two arrays the function writes: [state] and [w]. *)
Definition sha256_compress_words (state w : list Z) : list Z * list Z :=
  let w := for_range 16 48 sched_step w in
  let v := Fips.Regs (state !!! 0%nat) (state !!! 1%nat) (state !!! 2%nat) (state !!! 3%nat)
                     (state !!! 4%nat) (state !!! 5%nat) (state !!! 6%nat) (state !!! 7%nat) in
  let '(Fips.Regs a b c d e f g h) := for_range 0 64 (round_step w) v in
  ([state !!! 0%nat +w a; state !!! 1%nat +w b; state !!! 2%nat +w c; state !!! 3%nat +w d;
    state !!! 4%nat +w e; state !!! 5%nat +w f; state !!! 6%nat +w g; state !!! 7%nat +w h]%word, w).

Definition sha256_compress_block (state block : list Z) : list Z :=
  let w := for_range 0 16 (fun i w => <[i := load_be32 block (i * 4)]> w) (replicate 64 0) in
  fst (sha256_compress_words state w).

(** * Hashing a header *)

Section openssl.
Context `{O : OpenSSL}.

Definition sha256d_80 (header : list Z) : list Z :=
  let first := SHA256 (take 80 header) in
  SHA256 (take 32 first).

Record sha256_midstate_t := Midstate {
  ms_ctx : SHA256_CTX;
  ms_second_ctx : SHA256_CTX;
  ms_fast_state : list Z;
}.

Definition sha256d_80_midstate_prepare (header_first64 : list Z) : sha256_midstate_t :=
  let ctx := SHA256_Update SHA256_Init (take 64 header_first64) in
  let second_ctx := SHA256_Init in
  let fast_state := sha256_compress_block k_sha256_initial_state header_first64 in
  Midstate ctx second_ctx fast_state.

Definition sha256d_80_midstate_hash_openssl (state : sha256_midstate_t) (tail_words : list Z)
  : list Z :=
  let first_block := replicate 64 0 in
  let second_block := replicate 64 0 in
  let first_block :=
    for_range 0 4 (fun i b => put_be32 b (i * 4) (tail_words !!! i)) first_block in
  let first_block := <[16%nat := 0x80]> first_block in
  let first_block := store first_block 17 (replicate 39 0) in
  let first_block := put_be64 first_block 56 (80 * 8) in
  let ctx := SHA256_Transform (ms_ctx state) first_block in
  let second_block :=
    for_range 0 8 (fun i b => put_be32 b (i * 4) (ctx_h ctx !!! i)) second_block in
  let second_block := <[32%nat := 0x80]> second_block in
  let second_block := store second_block 33 (replicate 23 0) in
  let second_block := put_be64 second_block 56 (32 * 8) in
  let second_ctx := SHA256_Transform (ms_second_ctx state) second_block in
  for_range 0 8 (fun i out => <[i := ctx_h second_ctx !!! i]> out) (replicate 8 0).

(** The array [w] is the same object in both compressions: the second one
    overwrites its first sixteen words only. *)
Definition sha256d_80_midstate_hash_fast_c (state : sha256_midstate_t) (tail_words : list Z)
  : list Z :=
  let first_state := ms_fast_state state in
  let w := replicate 64 0 in
  let w := <[0%nat := tail_words !!! 0%nat]> w in
  let w := <[1%nat := tail_words !!! 1%nat]> w in
  let w := <[2%nat := tail_words !!! 2%nat]> w in
  let w := <[3%nat := tail_words !!! 3%nat]> w in
  let w := <[4%nat := 0x80000000]> w in
  let w := for_range 5 10 (fun i w => <[i := 0]> w) w in
  let w := <[15%nat := 80 * 8]> w in
  let '(first_state, w) := sha256_compress_words first_state w in
  let second_state := k_sha256_initial_state in
  let w := for_range 0 8 (fun i w => <[i := first_state !!! i]> w) w in
  let w := <[8%nat := 0x80000000]> w in
  let w := for_range 9 6 (fun i w => <[i := 0]> w) w in
  let w := <[15%nat := 32 * 8]> w in
  let '(second_state, w) := sha256_compress_words second_state w in
  for_range 0 8 (fun i out => <[i := second_state !!! i]> out) (replicate 8 0).
End openssl.
Arguments sha256_midstate_t _ : clear implicits.

Definition sha256d_words_to_hash (words : list Z) : list Z :=
  for_range 0 8 (fun i out => put_be32 out (i * 4) (words !!! i)) (replicate 32 0).

(** [for (i = 7; i >= 0; --i)] with its two early returns; [n] is [i + 1]. *)
Fixpoint meet_target_loop (n : nat) (hash_words target_words : list Z) : bool :=
  match n with
  | O => true
  | S i =>
      let h := bswap32 (hash_words !!! i) in
      let t := target_words !!! i in
      if h <? t then true
      else if t <? h then false
      else meet_target_loop i hash_words target_words
  end.
Definition hash_words_meet_target (hash_words target_words : list Z) : bool :=
  meet_target_loop 8 hash_words target_words.

(** * The word helpers *)

Lemma land_byte v k :
  0 <= k -> Z.land v (Z.shiftl 255 k) = Z.shiftl (u8 (Z.shiftr v k)) k.
Proof.
  intros Hk. apply Z.bits_inj'. intros i Hi. rewrite Z.land_spec.
  destruct (decide (i < k)) as [Hlt|Hge].
  - rewrite !Z.shiftl_spec_low by done. apply andb_false_r.
  - rewrite !Z.shiftl_spec by lia. unfold u8. change 255 with (Z.ones 8).
    destruct (decide (i - k < 8)).
    + rewrite Z.ones_spec_low, Z.mod_pow2_bits_low, Z.shiftr_spec by lia.
      rewrite andb_true_r. f_equal. lia.
    + rewrite Z.ones_spec_high, Z.mod_pow2_bits_high by lia. apply andb_false_r.
Qed.

Lemma bswap32_word4 v :
  bswap32 v = word4 (u8 v) (u8 (Z.shiftr v 8)) (u8 (Z.shiftr v 16)) (u8 (Z.shiftr v 24)).
Proof.
  unfold bswap32, word4.
  change 0x000000ff with (Z.shiftl 255 0). change 0x0000ff00 with (Z.shiftl 255 8).
  change 0x00ff0000 with (Z.shiftl 255 16). change 0xff000000 with (Z.shiftl 255 24).
  rewrite !land_byte, Z.shiftl_0_r, Z.shiftr_0_r, Z.shiftl_shiftl by lia.
  rewrite !Z.shiftr_shiftl_l by lia.
  rewrite !u32_small; [done| |];
    [pose proof (u8_range (Z.shiftr v 8)) as H | pose proof (u8_range v) as H];
    unfold is_u8, is_u32 in *; rewrite Z.shiftl_mul_pow2 by lia; lia.
Qed.

Lemma bswap32_u32 v : is_u32 (bswap32 v).
Proof. rewrite bswap32_word4. auto with words. Qed.
#[export] Hint Resolve bswap32_u32 : words.

Lemma bswap32_of_le v : bswap32 v = of_le (be 4 v).
Proof.
  rewrite bswap32_word4, word4_of_be, be_4 by auto with words. unfold of_be. by cbn.
Qed.

Lemma bswap32_involutive v : is_u32 v -> bswap32 (bswap32 v) = v.
Proof.
  intros Hv. rewrite (bswap32_of_le (bswap32 v)).
  rewrite (bswap32_word4 v), word4_inj_bytes by auto with words.
  rewrite <- (word4_split v Hv) at 5. rewrite word4_of_be by auto with words.
  unfold of_be. by cbn.
Qed.

Lemma load_be32_of_be l1 l2 b3 b2 b1 b0 :
  is_u8 b3 -> is_u8 b2 -> is_u8 b1 -> is_u8 b0 ->
  load_be32 (l1 ++ [b3; b2; b1; b0] ++ l2) (length l1) = of_be [b3; b2; b1; b0].
Proof.
  intros ????. unfold load_be32. rewrite <- (Nat.add_0_r (length l1)) at 1.
  rewrite !lookup_total_app_add.
  change (([b3; b2; b1; b0] ++ l2) !!! 0%nat) with b3.
  change (([b3; b2; b1; b0] ++ l2) !!! 1%nat) with b2.
  change (([b3; b2; b1; b0] ++ l2) !!! 2%nat) with b1.
  change (([b3; b2; b1; b0] ++ l2) !!! 3%nat) with b0.
  rewrite u32_small by (unfold is_u8, is_u32 in *; rewrite Z.shiftl_mul_pow2; lia).
  by apply word4_of_be.
Qed.

Lemma put_be32_store out off v : put_be32 out off v = store out off (be 4 v).
Proof. unfold put_be32. by rewrite be_4. Qed.

Lemma words_to_hash_bytes words :
  length words = 8%nat -> sha256d_words_to_hash words = bytes_of_words words.
Proof.
  intros Hl. unfold sha256d_words_to_hash.
  rewrite (for_range_ext _ _ _ (fun i out => store out (i * 4) (be 4 (words !!! i))))
    by (intros; apply put_be32_store).
  rewrite for_range_store by (intros; by rewrite ?length_be).
  rewrite drop_ge, app_nil_r by done. by destruct_list words Hl.
Qed.

Lemma load_be32_drop p off : load_be32 p (4 + off) = load_be32 (drop 4 p) off.
Proof.
  unfold load_be32. rewrite !lookup_total_drop, <- !Nat.add_assoc. done.
Qed.

Lemma load_be32_words n p i :
  is_bytes p -> (4 * n <= length p)%nat -> (i < n)%nat ->
  load_be32 p (i * 4) = words_of_bytes n p !!! i.
Proof.
  revert p i. induction n as [|n IH]; intros p i Hp Hlen Hi; [lia|].
  destruct i as [|i].
  - do 4 (destruct p as [|? p]; [cbn in Hlen; lia|]).
    do 4 (apply Forall_cons_1 in Hp as [? Hp]).
    cbn [words_of_bytes take]. by apply (load_be32_of_be []).
  - cbn [Nat.mul words_of_bytes]. rewrite load_be32_drop, IH; [done| | |lia].
    + by apply Forall_drop.
    + rewrite length_drop. lia.
Qed.

(** * Compression *)

Lemma round_constants_fips : k_sha256_round_constants = Fips.K.
Proof. vm_compute. reflexivity. Qed.
Lemma initial_state_fips : k_sha256_initial_state = Fips.H0.
Proof. vm_compute. reflexivity. Qed.

Lemma sched_step_spec i w :
  sched_step i w =
  <[i := (w !!! (i - 16)%nat +w ssig0 (w !!! (i - 15)%nat) +w w !!! (i - 7)%nat
          +w ssig1 (w !!! (i - 2)%nat))%word]> w.
Proof. done. Qed.

(** The first loop fills the array with the message schedule. *)
Lemma sched_loop M w :
  length w = 64%nat -> take 16 w = M ->
  let w' := for_range 16 48 sched_step w in
  length w' = 64%nat /\ forall t, (t < 64)%nat -> w' !!! t = Fips.W M t.
Proof.
  intros Hw HM. assert (HMl : length M = 16%nat) by (subst M; rewrite length_take; lia).
  cbv zeta.
  apply (for_range_inv (fun i w => length w = 64%nat /\
           forall t, (t < i)%nat -> w !!! t = Fips.W M t) 16 48).
  - split; [done|]. intros t Ht. rewrite Fips.W_lo by done. subst M.
    by rewrite lookup_total_take_lt by done.
  - intros i v Hi [Hv IH]. rewrite sched_step_spec. split; [by rewrite length_insert|].
    intros t Ht. destruct (decide (t = i)) as [->|Hne].
    + rewrite list_lookup_total_insert_eq by lia. rewrite (Fips.W_hi M) by lia.
      rewrite !IH by lia. add32_ac.
    + rewrite list_lookup_total_insert_ne by done. apply IH. lia.
Qed.

Lemma round_step_spec w i v : round_step w i v = Fips.round (Fips.K !!! i) (w !!! i) v.
Proof. destruct v. unfold round_step. by rewrite round_constants_fips. Qed.

Lemma compress_words_fips state w :
  length state = 8%nat -> length w = 64%nat ->
  fst (sha256_compress_words state w) = Fips.compress state (take 16 w) /\
  length (snd (sha256_compress_words state w)) = 64%nat.
Proof.
  intros Hs Hw. unfold sha256_compress_words.
  destruct (sched_loop (take 16 w) w Hw eq_refl) as [Hl HW].
  set (w' := for_range 16 48 sched_step w) in *.
  change (Fips.Regs _ _ _ _ _ _ _ _) with (Fips.regs_of state).
  rewrite Fips.compress_regs by done. cbv zeta.
  assert (Hr : for_range 0 64 (round_step w') (Fips.regs_of state) =
               Fips.rounds (take 16 w) 64 (Fips.regs_of state)).
  { with_strategy transparent [Fips.rounds] unfold Fips.rounds. apply for_range_ext. intros i v Hi.
    rewrite round_step_spec, HW by lia. done. }
  rewrite Hr. generalize (Fips.rounds (take 16 w) 64 (Fips.regs_of state)).
  intros []. by split.
Qed.

Lemma compress_block_fips state block :
  length state = 8%nat -> length block = 64%nat -> is_bytes block ->
  sha256_compress_block state block = Fips.compress state (words_of_bytes 16 block).
Proof.
  intros Hs Hb Hbytes. unfold sha256_compress_block.
  rewrite for_range_fill by (rewrite length_replicate; lia).
  assert (Hw : (fun i => load_be32 block (i * 4)) <$> seq 0 16 = words_of_bytes 16 block).
  { rewrite <- (fmap_lookup_total (words_of_bytes 16 block) 16)
      by apply Fips.length_words_of_bytes.
    apply list_fmap_ext. intros j i Hj. apply lookup_seq in Hj.
    apply load_be32_words; [done|lia|lia]. }
  rewrite Hw. set (w := words_of_bytes 16 block ++ _).
  assert (Hlw : length w = 64%nat)
    by (unfold w; by rewrite length_app, Fips.length_words_of_bytes).
  destruct (compress_words_fips state w Hs Hlw) as [-> _]. unfold w.
  by rewrite take_app_length' by (by rewrite Fips.length_words_of_bytes).
Qed.

(** * The two-block tail hash

    What every backend computes from the midstate [S] (the chaining value after
    the first 64 bytes of the header) and the last four header words [T]. *)

Definition tail_block (T : list Z) : list Z := T ++ [0x80000000] ++ replicate 10 0 ++ [640].
Definition digest_block (D : list Z) : list Z := D ++ [0x80000000] ++ replicate 6 0 ++ [256].
Definition tail_hash (S T : list Z) : list Z :=
  Fips.compress Fips.H0 (digest_block (Fips.compress S (tail_block T))).

Lemma length_tail_hash S T : length (tail_hash S T) = 8%nat.
Proof. by apply Fips.length_compress. Qed.
Lemma tail_hash_words S T : is_words (tail_hash S T).
Proof. by apply Fips.compress_words. Qed.
#[export] Hint Resolve tail_hash_words : words.

(** The bytes of the two padded blocks. *)
Lemma tail_block_bytes T :
  is_words T -> length T = 4%nat ->
  words_of_bytes 16 (bytes_of_words T ++ [0x80] ++ replicate 39 0 ++ be 8 640) = tail_block T.
Proof.
  intros HT Hl.
  replace (bytes_of_words T ++ _) with (bytes_of_words (tail_block T) ++ []).
  - replace 16%nat with (length (tail_block T)) by (unfold tail_block; rewrite length_app, Hl; done).
    apply words_of_bytes_of_words.
    apply Forall_app_2; [done|]. cbn. solve_Forall; auto with words.
  - rewrite app_nil_r. unfold bytes_of_words, tail_block.
    rewrite fmap_app, concat_app. f_equal.
Qed.
Lemma digest_block_bytes D :
  is_words D -> length D = 8%nat ->
  words_of_bytes 16 (bytes_of_words D ++ [0x80] ++ replicate 23 0 ++ be 8 256) = digest_block D.
Proof.
  intros HD Hl.
  replace (bytes_of_words D ++ _) with (bytes_of_words (digest_block D) ++ []).
  - replace 16%nat with (length (digest_block D)) by (unfold digest_block; rewrite length_app, Hl; done).
    apply words_of_bytes_of_words.
    apply Forall_app_2; [done|]. cbn. solve_Forall; auto with words.
  - rewrite app_nil_r. unfold bytes_of_words, digest_block.
    rewrite fmap_app, concat_app. f_equal.
Qed.

(** The specification of the tail hash against the hash of whole headers. *)
Lemma sha256d_header h :
  is_bytes h -> length h = 80%nat ->
  Fips.sha256d h =
  bytes_of_words (tail_hash (Fips.compress Fips.H0 (words_of_bytes 16 (take 64 h)))
                            (words_of_bytes 4 (drop 64 h))).
Proof.
  intros Hb Hl. unfold Fips.sha256d.
  assert (Hd : Fips.digest h = Fips.compress (Fips.compress Fips.H0 (words_of_bytes 16 (take 64 h)))
                                 (tail_block (words_of_bytes 4 (drop 64 h)))).
  { rewrite <- (take_drop 64 h) at 1.
    assert (Hl2 : length (drop 64 h) = 16%nat) by (rewrite length_drop; lia).
    rewrite Fips.digest_two_blocks; rewrite ?Hl2; [|rewrite length_take; lia|lia].
    rewrite <- (tail_block_bytes (words_of_bytes 4 (drop 64 h))).
    - by rewrite (bytes_of_words_of_bytes 4) by (done || by apply Forall_drop).
    - apply words_of_bytes_words. by apply Forall_drop.
    - apply Fips.length_words_of_bytes. }
  unfold Fips.sha256. rewrite Hd. unfold tail_hash.
  set (D := Fips.compress _ (tail_block _)).
  assert (HD : length D = 8%nat) by by apply Fips.length_compress, Fips.length_compress.
  assert (HDw : is_words D) by by apply Fips.compress_words, Fips.length_compress.
  rewrite Fips.digest_one_block; rewrite length_bytes_of_words, HD; [|lia].
  by rewrite <- (digest_block_bytes D).
Qed.

Lemma copy_8 (l : list Z) :
  length l = 8%nat -> for_range 0 8 (fun i out => <[i := l !!! i]> out) (replicate 8 0) = l.
Proof.
  intros Hl. rewrite for_range_fill by done. by rewrite drop_ge, app_nil_r, fmap_lookup_total.
Qed.

Section tail.
Context `{O : OpenSSL} `{!OpenSSLLaws O}.

Lemma hash_fast_c_tail (st : sha256_midstate_t O) T :
  length (ms_fast_state st) = 8%nat -> length T = 4%nat ->
  sha256d_80_midstate_hash_fast_c st T = tail_hash (ms_fast_state st) T.
Proof.
  intros HS HT. unfold sha256d_80_midstate_hash_fast_c.
  destruct_list T HT.
  match goal with |- context [sha256_compress_words _ ?v] => set (w := v) end.
  assert (Hw : take 16 w = tail_block [x; x0; x1; x2]) by done.
  assert (Hwl : length w = 64%nat) by done. clearbody w.
  destruct (compress_words_fips (ms_fast_state st) w HS Hwl) as [Hc Hl].
  destruct (sha256_compress_words (ms_fast_state st) w) as [D w']. cbn [fst snd] in *.
  rewrite Hw in Hc. unfold tail_hash. rewrite <- Hc.
  assert (HD : length D = 8%nat) by (rewrite Hc; by apply Fips.length_compress).
  clear Hc Hw Hwl w. rewrite for_range_fill by lia. rewrite fmap_lookup_total by done.
  match goal with |- context [sha256_compress_words _ ?v] => set (w := v) end.
  assert (Hw : take 16 w = digest_block D /\ length w = 64%nat).
  { assert (Hr : length (drop 8 w') = 56%nat) by (rewrite length_drop; lia).
    unfold w. clear -HD Hr. generalize dependent (drop 8 w'). intros r Hr.
    destruct_list D HD. by destruct_list r Hr. }
  destruct Hw as [Hw Hwl]. clearbody w.
  destruct (compress_words_fips k_sha256_initial_state w eq_refl Hwl) as [Hc' _].
  destruct (sha256_compress_words k_sha256_initial_state w) as [E w'']. cbn [fst] in Hc'.
  rewrite Hw, initial_state_fips in Hc'. subst E. apply copy_8. by apply Fips.length_compress.
Qed.

Lemma put_be64_app pre mid v :
  length mid = 8%nat -> put_be64 (pre ++ mid) (length pre) v = pre ++ be 8 v.
Proof.
  intros Hm. unfold put_be64, for_range. destruct_list mid Hm.
  cbn [seq foldl Nat.sub]. rewrite !insert_app_r. cbn [insert list_insert fst]. f_equal.
  unfold be. cbn [le]. unfold u8.
  rewrite !Z.shiftr_shiftr, !Z.shiftr_div_pow2, !Z.div_div by lia. done.
Qed.

(** Filling the words of a padded block byte by byte. *)
Lemma put_words_block n (ws : list Z) :
  length ws = n -> (4 * n <= 64)%nat ->
  for_range 0 n (fun i b => put_be32 b (i * 4) (ws !!! i)) (replicate 64 0) =
  bytes_of_words ws ++ replicate (64 - 4 * n) 0.
Proof.
  intros Hl Hn.
  rewrite (for_range_ext _ _ _ (fun i b => store b (i * 4) (be 4 (ws !!! i))))
    by (intros; apply put_be32_store).
  rewrite for_range_store; [|intros; by rewrite length_be|rewrite length_replicate; lia].
  rewrite drop_replicate, Nat.mul_comm. f_equal. unfold bytes_of_words. f_equal.
  transitivity (be 4 <$> ((fun i => ws !!! i) <$> seq 0 n)); [by rewrite <- list_fmap_compose|].
  by rewrite fmap_lookup_total.
Qed.

Lemma pad_block n p q ws k v :
  length ws = n -> p = (4 * n)%nat -> q = (p + 1)%nat -> (q + k = 56)%nat ->
  put_be64 (store (<[p := 0x80]>
                     (for_range 0 n (fun i b => put_be32 b (i * 4) (ws !!! i)) (replicate 64 0)))
                  q (replicate k 0)) 56 v =
  bytes_of_words ws ++ [0x80] ++ replicate k 0 ++ be 8 v.
Proof.
  intros Hl -> -> Hk. rewrite put_words_block by lia.
  pose proof (length_bytes_of_words ws) as Hbl. rewrite Hl in Hbl.
  replace (64 - 4 * n)%nat with (1 + (k + 8))%nat by lia.
  rewrite !replicate_add. cbn [replicate app].
  rewrite insert_app_r_alt by lia. rewrite Hbl, Nat.sub_diag. cbn [insert list_insert].
  unfold store. rewrite length_replicate.
  assert (Hp : length (bytes_of_words ws ++ [0x80]) = (4 * n + 1)%nat)
    by (rewrite length_app, Hbl; done).
  rewrite (cons_middle 0x80), (app_assoc (bytes_of_words ws)).
  rewrite take_app_length' by done. rewrite <- Hp, drop_app_add.
  rewrite drop_app_length' by (by rewrite length_replicate).
  rewrite (app_assoc _ (replicate k 0)).
  replace 56%nat with (length ((bytes_of_words ws ++ [0x80]) ++ replicate k 0))
    by (rewrite length_app, Hp, length_replicate; lia).
  rewrite put_be64_app by done. by rewrite <- !app_assoc.
Qed.

Lemma length_pad_block n ws k v :
  length ws = n -> (4 * n + 1 + k = 56)%nat ->
  length (bytes_of_words ws ++ [0x80] ++ replicate k 0 ++ be 8 v) = 64%nat.
Proof.
  intros. rewrite !length_app, length_bytes_of_words, length_replicate, length_be. cbn. lia.
Qed.
Lemma pad_block_bytes ws k v : is_bytes (bytes_of_words ws ++ [0x80] ++ replicate k 0 ++ be 8 v).
Proof.
  repeat apply Forall_app_2.
  - apply bytes_of_words_bytes.
  - solve_Forall. auto with words.
  - apply Forall_replicate. auto with words.
  - apply be_bytes.
Qed.

Lemma hash_openssl_tail (st : sha256_midstate_t O) T :
  ctx_h (ms_second_ctx st) = Fips.H0 ->
  length (ctx_h (ms_ctx st)) = 8%nat -> length T = 4%nat -> is_words T ->
  sha256d_80_midstate_hash_openssl st T = tail_hash (ctx_h (ms_ctx st)) T.
Proof.
  intros H2 H1 HT HTw. unfold sha256d_80_midstate_hash_openssl.
  rewrite (pad_block 4 16 17 T 39 (80 * 8)) by done.
  set (ctx := SHA256_Transform (ms_ctx st) _).
  assert (Hc : ctx_h ctx = Fips.compress (ctx_h (ms_ctx st)) (tail_block T)).
  { unfold ctx. rewrite SHA256_Transform_h.
    - by rewrite tail_block_bytes.
    - by apply (length_pad_block 4).
    - apply pad_block_bytes. }
  clearbody ctx.
  assert (Hl : length (ctx_h ctx) = 8%nat) by (rewrite Hc; by apply Fips.length_compress).
  rewrite (pad_block 8 32 33 (ctx_h ctx) 23 (32 * 8)) by done.
  assert (Hd : ctx_h (SHA256_Transform (ms_second_ctx st)
                 (bytes_of_words (ctx_h ctx) ++ [0x80] ++ replicate 23 0 ++ be 8 (32 * 8)))
               = tail_hash (ctx_h (ms_ctx st)) T).
  { rewrite SHA256_Transform_h.
    - rewrite H2. unfold tail_hash. rewrite <- Hc.
      rewrite digest_block_bytes; [done|rewrite Hc; by apply Fips.compress_words|done].
    - by apply (length_pad_block 8).
    - apply pad_block_bytes. }
  rewrite Hd. apply copy_8, length_tail_hash.
Qed.
End tail.
