(* ===== verification/Scan.v ===== *)
(** What a nonce scan promises, whatever the backend: the matches of a range in
    increasing offset, each reported once through the callback. *)
From stdpp Require Import base tactics list numbers.
From Stdlib Require Import ZArith Lia.
From S2P Require Import Prelude Words Fips Sha256d.

(** A [sha256d_scan_match_func_t] with its [opaque] pointer: a function on the
    state [A] the callback owns; [None] is the null pointer. *)
Definition on_match_t (A : Type) : Type := option (Z -> list Z -> A -> A).

(** The call [if (hash_words_meet_target(...) && on_match != NULL) on_match(...)]
    that ends every iteration of every scan. *)
Definition check_nonce {A} (on_match : on_match_t A) (target_words : list Z)
    (nonce : Z) (hash_words : list Z) (opaque : A) : A :=
  if hash_words_meet_target hash_words target_words then
    match on_match with
    | Some f => f nonce hash_words opaque
    | None => opaque
    end
  else opaque.

(** * Specification *)

Section spec.
Context (hash : Z -> list Z) (target_words : list Z).

Definition nonce_at (start i : Z) : Z := add32 start i.
Definition meets (nonce : Z) : bool := hash_words_meet_target (hash nonce) target_words.

(** The nonces of the range, wrapping at 2^32, and those that meet the target. *)
Definition nonces (start : Z) (lo n : nat) : list Z :=
  (fun i => nonce_at start (Z.of_nat i)) <$> seq lo n.
Definition matches (start : Z) (n : nat) : list Z := filter meets (nonces start 0 n).

Definition report {A} (on_match : on_match_t A) (ns : list Z) (opaque : A) : A :=
  match on_match with
  | Some f => foldl (fun a nonce => f nonce (hash nonce) a) opaque ns
  | None => opaque
  end.

Lemma check_nonce_report {A} (on_match : on_match_t A) nonce (opaque : A) :
  check_nonce on_match target_words nonce (hash nonce) opaque =
  report on_match (filter meets [nonce]) opaque.
Proof.
  unfold check_nonce, report. rewrite filter_cons, filter_nil. unfold meets.
  destruct (hash_words_meet_target _ _); by destruct on_match.
Qed.

Lemma report_app {A} (on_match : on_match_t A) l1 l2 (opaque : A) :
  report on_match (l1 ++ l2) opaque = report on_match l2 (report on_match l1 opaque).
Proof. destruct on_match; cbn; [by rewrite foldl_app|done]. Qed.

Lemma nonces_app start lo n m : nonces start lo (n + m) = nonces start lo n ++ nonces start (lo + n) m.
Proof. unfold nonces. by rewrite seq_app, fmap_app. Qed.

(** The scan one nonce at a time. *)
Lemma scan_single {A} (on_match : on_match_t A) start n (opaque : A) :
  for_range 0 n (fun i a =>
    let nonce := nonce_at start (Z.of_nat i) in
    check_nonce on_match target_words nonce (hash nonce) a) opaque =
  report on_match (matches start n) opaque.
Proof.
  unfold matches. induction n as [|n IH]; [by destruct on_match|].
  rewrite for_range_S_r, IH. replace (S n) with (n + 1)%nat by lia.
  rewrite nonces_app, list.filter_app, report_app. cbv zeta. by rewrite check_nonce_report.
Qed.

(** The scan two nonces at a time. *)
Lemma scan_pairs {A} (on_match : on_match_t A) start n (opaque : A) :
  for_stride 0 2 n (fun i a =>
    let nonce_a := nonce_at start (Z.of_nat i) in
    let nonce_b := add32 nonce_a 1 in
    check_nonce on_match target_words nonce_b (hash nonce_b)
      (check_nonce on_match target_words nonce_a (hash nonce_a) a)) opaque =
  report on_match (matches start (2 * n)) opaque.
Proof.
  unfold matches, for_stride. induction n as [|n IH]; [by destruct on_match|].
  rewrite for_range_S_r, IH. replace (2 * S n)%nat with (2 * n + 1 + 1)%nat by lia.
  assert (Hb : add32 (nonce_at start (Z.of_nat (0 + 2 * (0 + n)))) 1 =
               nonce_at start (Z.of_nat (0 + (2 * n + 1)))).
  { replace (Z.of_nat (0 + (2 * n + 1))) with (Z.of_nat (0 + 2 * (0 + n)) + 1) by lia.
    unfold nonce_at. add32_ac. }
  rewrite !nonces_app, !list.filter_app, !report_app. cbv zeta.
  rewrite Hb, !check_nonce_report. done.
Qed.

(** Reporting is exact: the callback sees a nonce exactly when it is in the range
    and its hash meets the target. *)
Lemma elem_of_matches start n nonce :
  nonce ∈ matches start n <->
  meets nonce = true /\ exists i, (i < n)%nat /\ nonce = nonce_at start (Z.of_nat i).
Proof.
  unfold matches, nonces. rewrite list_elem_of_filter, list_elem_of_fmap.
  rewrite Is_true_true. split.
  - intros [Hm (i & -> & Hi)]. split; [done|]. apply elem_of_seq in Hi. exists i. split; [lia|done].
  - intros [Hm (i & Hi & ->)]. split; [done|]. exists i. split; [done|]. apply elem_of_seq. lia.
Qed.

Lemma nonces_NoDup start n : Z.of_nat n <= 2 ^ 32 -> NoDup (nonces start 0 n).
Proof.
  intros Hn. unfold nonces. apply NoDup_fmap_2_strong, NoDup_seq.
  intros x y Hx Hy Heq. apply elem_of_seq in Hx, Hy.
  unfold nonce_at, add32, u32 in Heq.
  assert (H : (Z.of_nat x - Z.of_nat y) mod 2 ^ 32 = 0).
  { replace (Z.of_nat x - Z.of_nat y) with ((start + Z.of_nat x) - (start + Z.of_nat y)) by lia.
    rewrite Zminus_mod, Heq, Z.sub_diag. done. }
  apply Z.mod_divide in H as [k Hk]; [|done]. nia.
Qed.

Lemma matches_NoDup start n : Z.of_nat n <= 2 ^ 32 -> NoDup (matches start n).
Proof. intros. by apply list.NoDup_filter, nonces_NoDup. Qed.
End spec.

(** The hash of a nonce, for a header whose first 64 bytes have the chaining value
    [S] and whose next three words are the first three of [T]. *)
Definition nonce_hash (S T : list Z) (nonce : Z) : list Z :=
  tail_hash S [T !!! 0%nat; T !!! 1%nat; T !!! 2%nat; bswap32 nonce].

(** The abstract scan: what the callback has done when a scan returns. *)
Definition scan {A} (S T target_words : list Z) (start_nonce nonce_count : Z)
    (on_match : on_match_t A) (opaque : A) : A :=
  report (nonce_hash S T) on_match
    (matches (nonce_hash S T) target_words start_nonce (Z.to_nat nonce_count)) opaque.

(** [nonce_count & ~1U] *)
Lemma land_not_1 n : is_u32 n -> Z.land n (not32 1) = 2 * (n / 2).
Proof.
  intros Hn. change (not32 1) with (Z.shiftl (Z.ones 31) 1).
  replace (2 * (n / 2)) with (Z.shiftl (Z.shiftr n 1) 1)
    by (rewrite Z.shiftl_mul_pow2, Z.shiftr_div_pow2, Z.mul_comm by lia; done).
  apply (bounded_testbit 32) in Hn as [Hn Hb]; [|lia].
  apply Z.bits_inj'. intros i Hi. rewrite Z.land_spec, !Z.shiftl_spec by done.
  destruct (decide (i = 0)) as [->|Hi0].
  - rewrite !(Z.testbit_neg_r _ (0 - 1)) by lia. apply andb_false_r.
  - rewrite Z.shiftr_spec by lia. replace (i - 1 + 1) with i by lia.
    destruct (decide (i < 32)).
    + rewrite Z.ones_spec_low by lia. apply andb_true_r.
    + by rewrite Hb by lia.
Qed.

(** The shape all paired scans share: pairs up to the even count, then the last
    nonce of an odd range. *)
Lemma scan_pairs_odd {A} S T target_words start n (on_match : on_match_t A) (opaque : A)
    (pair : Z -> Z -> list Z * list Z) (single : Z -> list Z) :
  is_u32 n ->
  (forall a b, pair a b = (nonce_hash S T a, nonce_hash S T b)) ->
  (forall a, single a = nonce_hash S T a) ->
  let paired := Z.land n (not32 1) in
  let opaque' := for_stride 0 2 (Z.to_nat (paired / 2)) (fun i opaque =>
      let nonce_a := add32 start (Z.of_nat i) in
      let nonce_b := add32 nonce_a 1 in
      let '(ha, hb) := pair nonce_a nonce_b in
      let opaque := check_nonce on_match target_words nonce_a ha opaque in
      check_nonce on_match target_words nonce_b hb opaque) opaque in
  (if paired <? n then
     let nonce := add32 start paired in
     check_nonce on_match target_words nonce (single nonce) opaque'
   else opaque') = scan S T target_words start n on_match opaque.
Proof.
  intros Hn Hp Hs. cbv zeta. rewrite land_not_1 by done. unfold scan.
  rewrite (Z.mul_comm 2), Z.div_mul by lia.
  match goal with |- context [for_stride 0 2 ?c ?b opaque] =>
    assert (Hloop : for_stride 0 2 c b opaque =
      report (nonce_hash S T) on_match
        (matches (nonce_hash S T) target_words start (2 * c)) opaque) end.
  { rewrite <- scan_pairs. unfold for_stride. apply for_range_ext. intros i s Hi.
    cbv zeta. by rewrite Hp. }
  rewrite Hloop. clear Hloop. unfold is_u32 in Hn.
  pose proof (Z.div_mod n 2 ltac:(lia)). pose proof (Z.mod_pos_bound n 2 ltac:(lia)).
  destruct (Z.ltb_spec (n / 2 * 2) n) as [Hlt|Hge].
  - rewrite Hs, check_nonce_report, <- report_app. f_equal. unfold matches.
    replace (Z.to_nat n) with (2 * Z.to_nat (n / 2) + 1)%nat by lia.
    assert (Hlast : nonces start (0 + 2 * Z.to_nat (n / 2)) 1 = [add32 start (n / 2 * 2)]).
    { unfold nonces, nonce_at. cbn [seq fmap list_fmap].
      by replace (Z.of_nat (0 + 2 * Z.to_nat (n / 2))) with (n / 2 * 2) by lia. }
    by rewrite nonces_app, list.filter_app, Hlast.
  - by replace (Z.to_nat n) with (2 * Z.to_nat (n / 2))%nat by lia.
Qed.
