(* ===== verification/Simd.v ===== *)
(** What the two vector backends share: 128-bit registers as lanes, the hardware
    SHA-256 round, and the vectors of schedule words and working variables their
    straight-line code goes through. *)
From stdpp Require Import base tactics list numbers.
From Stdlib Require Import ZArith Lia.
From S2P Require Import Prelude Words Fips.

#[local] Open Scope word_scope.

(** A 128-bit register as its four 32-bit lanes, the lowest first. *)
Record vec4 := V4 { lane0 : Z; lane1 : Z; lane2 : Z; lane3 : Z }.
Add Printing Constructor vec4.
Definition lanes (v : vec4) : list Z := [lane0 v; lane1 v; lane2 v; lane3 v].

(** Four registers as the sixteen words of a block. *)
Definition four (v0 v1 v2 v3 : vec4) : list Z := lanes v0 ++ lanes v1 ++ lanes v2 ++ lanes v3.

(** One SHA-256 round as the instruction set reference writes it, [wk] being the
    sum of the schedule word and the round constant. *)
Definition hw_round (wk : Z) (r : Fips.regs) : Fips.regs :=
  let '(Fips.Regs a b c d e f g h) := r in
  Fips.Regs (ch e f g +w bsig1 e +w wk +w h +w maj a b c +w bsig0 a) a b c
            (ch e f g +w bsig1 e +w wk +w h +w d) e f g.

Lemma hw_round_fips k w r : hw_round (add32 w k) r = Fips.round k w r.
Proof. destruct r as [a b c d e f g h]. unfold hw_round, Fips.round. cbn. f_equal; add32_ac. Qed.

Section block.
Context (M : list Z) (r0 : Fips.regs).

(** The working variables after [n] rounds and the vector of the schedule words
    [4j .. 4j+3]. *)
Definition R (n : nat) : Fips.regs := Fips.rounds M n r0.
Definition Wv (j : nat) : vec4 :=
  V4 (Fips.W M (4 * j)) (Fips.W M (4 * j + 1)) (Fips.W M (4 * j + 2)) (Fips.W M (4 * j + 3)).

Lemma R_4 n :
  R (4 * S n) =
  Fips.round (Fips.K !!! (4 * n + 3)%nat) (Fips.W M (4 * n + 3))
    (Fips.round (Fips.K !!! (4 * n + 2)%nat) (Fips.W M (4 * n + 2))
      (Fips.round (Fips.K !!! (4 * n + 1)%nat) (Fips.W M (4 * n + 1))
        (Fips.round (Fips.K !!! (4 * n)%nat) (Fips.W M (4 * n)) (R (4 * n))))).
Proof.
  unfold R. replace (4 * S n)%nat with (S (S (S (S (4 * n))))) by lia.
  rewrite !Fips.rounds_S.
  replace (4 * n + 3)%nat with (S (S (S (4 * n)))) by lia.
  replace (4 * n + 2)%nat with (S (S (4 * n))) by lia.
  by replace (4 * n + 1)%nat with (S (4 * n)) by lia.
Qed.

Context (HM : length M = 16%nat).

(** The four schedule words that follow twelve known ones, in the grouping of the
    message-schedule instructions. *)
Lemma W_next p i :
  (2 <= p < 14)%nat -> (i < 4)%nat ->
  Fips.W M (4 * S (S p) + i) =
  add32 (add32 (add32 (Fips.W M (4 * (p - 2) + i)) (ssig0 (Fips.W M (4 * (p - 2) + S i))))
               (Fips.W M (4 * p + S i)))
        (ssig1 (Fips.W M (4 * S p + 2 + i))).
Proof.
  intros Hp Hi. rewrite (Fips.W_hi M HM) by lia.
  replace (4 * S (S p) + i - 2)%nat with (4 * S p + 2 + i)%nat by lia.
  replace (4 * S (S p) + i - 7)%nat with (4 * p + S i)%nat by lia.
  replace (4 * S (S p) + i - 15)%nat with (4 * (p - 2) + S i)%nat by lia.
  replace (4 * S (S p) + i - 16)%nat with (4 * (p - 2) + i)%nat by lia.
  add32_ac.
Qed.
End block.

Lemma Wv_block v0 v1 v2 v3 :
  let M := four v0 v1 v2 v3 in
  Wv M 0 = v0 /\ Wv M 1 = v1 /\ Wv M 2 = v2 /\ Wv M 3 = v3.
Proof.
  cbv zeta. unfold Wv. rewrite !Fips.W_lo by (done || cbn; lia).
  by destruct v0, v1, v2, v3.
Qed.

(** * Word-ranged working variables *)

Definition regs_u32 (r : Fips.regs) : Prop := is_words (Fips.of_regs r).

Lemma regs_of_u32 H : length H = 8%nat -> is_words H -> regs_u32 (Fips.regs_of H).
Proof. intros HH HW. unfold regs_u32. by rewrite Fips.of_regs_regs_of. Qed.

Lemma round_u32 k w r : regs_u32 r -> regs_u32 (Fips.round k w r).
Proof.
  destruct r as [a b c d e f g h]. unfold regs_u32, is_words, Fips.of_regs, Fips.round. cbn.
  rewrite !list.Forall_cons. intros (Ha & Hb & Hc & Hd & He & Hf & Hg & Hh & _). split_and!; auto with words.
Qed.

Lemma R_u32 M r0 n : regs_u32 r0 -> regs_u32 (R M r0 n).
Proof.
  intros Hr. unfold R. induction n as [|n IH]; [done|]. rewrite Fips.rounds_S. by apply round_u32.
Qed.
