(* ===== verification/X86ShaNi.v ===== *)
(** The x86 SHA-NI backend (src/src/sha256d_x86_sha_ni.c): straight-line vector
    code proved equal to the FIPS compression function, its two-lane variant,
    and the nonce scan that hashes two nonces at a time.

    The compiler intrinsics are code outside the repository: the class [X86]
    holds them and [X86Laws] what Intel's intrinsics guide says they compute. *)
From stdpp Require Import base tactics list numbers.
From Stdlib Require Import ZArith Lia.
From S2P Require Import Prelude Words Fips Sha256d Scan Simd.

#[local] Open Scope word_scope.

(** * The intrinsics *)

Class X86 := {
  mm_set_epi32 : Z -> Z -> Z -> Z -> vec4;
  mm_setzero_si128 : vec4;
  mm_loadu_si128 : list Z -> vec4;
  mm_storeu_si128 : vec4 -> list Z;
  mm_add_epi32 : vec4 -> vec4 -> vec4;
  mm_shuffle_epi32 : vec4 -> Z -> vec4;
  mm_alignr_epi8 : vec4 -> vec4 -> Z -> vec4;
  mm_blend_epi16 : vec4 -> vec4 -> Z -> vec4;
  mm_sha256rnds2_epu32 : vec4 -> vec4 -> vec4 -> vec4;
  mm_sha256msg1_epu32 : vec4 -> vec4 -> vec4;
  mm_sha256msg2_epu32 : vec4 -> vec4 -> vec4;
}.

Class X86Laws (X : X86) := {
  set_epi32_law e3 e2 e1 e0 : mm_set_epi32 e3 e2 e1 e0 = V4 e0 e1 e2 e3;
  setzero_law : mm_setzero_si128 = V4 0 0 0 0;
  loadu_law a b c d l : mm_loadu_si128 (a :: b :: c :: d :: l) = V4 a b c d;
  storeu_law a b c d : mm_storeu_si128 (V4 a b c d) = [a; b; c; d];
  add_epi32_law a b c d a' b' c' d' :
    mm_add_epi32 (V4 a b c d) (V4 a' b' c' d') = V4 (a +w a') (b +w b') (c +w c') (d +w d');
  shuffle_b1_law a b c d : mm_shuffle_epi32 (V4 a b c d) 0xb1 = V4 b a d c;
  shuffle_1b_law a b c d : mm_shuffle_epi32 (V4 a b c d) 0x1b = V4 d c b a;
  shuffle_0e_law a b c d : mm_shuffle_epi32 (V4 a b c d) 0x0e = V4 c d a a;
  alignr_8_law a b c d a' b' c' d' :
    mm_alignr_epi8 (V4 a b c d) (V4 a' b' c' d') 8 = V4 c' d' a b;
  alignr_4_law a b c d a' b' c' d' :
    mm_alignr_epi8 (V4 a b c d) (V4 a' b' c' d') 4 = V4 b' c' d' a;
  blend_f0_law a b c d a' b' c' d' :
    mm_blend_epi16 (V4 a b c d) (V4 a' b' c' d') 0xf0 = V4 a b c' d';
  rnds2_law a b c d e f g h wk0 wk1 x y :
    mm_sha256rnds2_epu32 (V4 h g d c) (V4 f e b a) (V4 wk0 wk1 x y) =
    (let r := hw_round wk1 (hw_round wk0 (Fips.Regs a b c d e f g h)) in
     V4 (rf r) (re r) (rb r) (ra r));
  msg1_law w0 w1 w2 w3 w4 w5 w6 w7 :
    mm_sha256msg1_epu32 (V4 w0 w1 w2 w3) (V4 w4 w5 w6 w7) =
    V4 (w0 +w ssig0 w1) (w1 +w ssig0 w2) (w2 +w ssig0 w3) (w3 +w ssig0 w4);
  msg2_law a b c d x y w14 w15 :
    mm_sha256msg2_epu32 (V4 a b c d) (V4 x y w14 w15) =
    (let w16 := (a +w ssig1 w14) in
     let w17 := (b +w ssig1 w15) in
     V4 w16 w17 (c +w ssig1 w16) (d +w ssig1 w17));
}.

(** A concrete instruction set with these laws, for the evaluations. *)
Definition vlane (v : vec4) (i : Z) : Z := lanes v !!! Z.to_nat (Z.land i 3).
Definition ref_x86 : X86 := {|
  mm_set_epi32 e3 e2 e1 e0 := V4 e0 e1 e2 e3;
  mm_setzero_si128 := V4 0 0 0 0;
  mm_loadu_si128 l := V4 (l !!! 0%nat) (l !!! 1%nat) (l !!! 2%nat) (l !!! 3%nat);
  mm_storeu_si128 := lanes;
  mm_add_epi32 v v' := V4 (lane0 v +w lane0 v') (lane1 v +w lane1 v') (lane2 v +w lane2 v')
                          (lane3 v +w lane3 v');
  mm_shuffle_epi32 v imm := V4 (vlane v imm) (vlane v (Z.shiftr imm 2)) (vlane v (Z.shiftr imm 4))
                               (vlane v (Z.shiftr imm 6));
  mm_alignr_epi8 v v' n :=
    let l := drop (Z.to_nat (n / 4)) (lanes v' ++ lanes v) in
    V4 (l !!! 0%nat) (l !!! 1%nat) (l !!! 2%nat) (l !!! 3%nat);
  mm_blend_epi16 v v' imm :=
    V4 (if Z.testbit imm 0 then lane0 v' else lane0 v) (if Z.testbit imm 2 then lane1 v' else lane1 v)
       (if Z.testbit imm 4 then lane2 v' else lane2 v) (if Z.testbit imm 6 then lane3 v' else lane3 v);
  mm_sha256rnds2_epu32 v v' k :=
    let r := hw_round (lane1 k) (hw_round (lane0 k)
      (Fips.Regs (lane3 v') (lane2 v') (lane3 v) (lane2 v) (lane1 v') (lane0 v') (lane1 v) (lane0 v))) in
    V4 (rf r) (re r) (rb r) (ra r);
  mm_sha256msg1_epu32 v v' :=
    V4 (lane0 v +w ssig0 (lane1 v)) (lane1 v +w ssig0 (lane2 v)) (lane2 v +w ssig0 (lane3 v))
       (lane3 v +w ssig0 (lane0 v'));
  mm_sha256msg2_epu32 v v' :=
    let w16 := (lane0 v +w ssig1 (lane2 v')) in
    let w17 := (lane1 v +w ssig1 (lane3 v')) in
    V4 w16 w17 (lane2 v +w ssig1 w16) (lane3 v +w ssig1 w17);
|}.
Lemma ref_x86_laws : X86Laws ref_x86.
Proof. by split. Defined.

(** * The code *)

Section x86.
Context `{X : X86}.

Definition make_u32x4 (a b c d : Z) : vec4 := mm_set_epi32 d c b a.

Definition make_k (offset : nat) : vec4 :=
  mm_set_epi32
    (k_sha256_round_constants !!! (offset + 3)%nat)
    (k_sha256_round_constants !!! (offset + 2)%nat)
    (k_sha256_round_constants !!! (offset + 1)%nat)
    (k_sha256_round_constants !!! offset).

(** Returns [*state0, *state1]. *)
Definition sha256_x86_load_state_vec (state : list Z) : vec4 * vec4 :=
  let tmp := mm_loadu_si128 (drop 0 state) in
  let state1 := mm_loadu_si128 (drop 4 state) in
  let tmp := mm_shuffle_epi32 tmp 0xb1 in
  let state1 := mm_shuffle_epi32 state1 0x1b in
  let state0 := mm_alignr_epi8 tmp state1 8 in
  let state1 := mm_blend_epi16 state1 tmp 0xf0 in
  (state0, state1).

Definition sha256_x86_store_state_vec (state : list Z) (state0 state1 : vec4) : list Z :=
  let tmp := mm_shuffle_epi32 state0 0x1b in
  let state1 := mm_shuffle_epi32 state1 0xb1 in
  let state0 := mm_blend_epi16 tmp state1 0xf0 in
  let state1 := mm_alignr_epi8 state1 tmp 8 in
  let state := store state 0 (mm_storeu_si128 state0) in
  store state 4 (mm_storeu_si128 state1).

(** The locals of the compression function that outlive a macro ([msg] and [tmp]
    are written before they are read in each), and the names of its four message
    registers. *)
Record xst := XST { state0 : vec4; state1 : vec4; m0 : vec4; m1 : vec4; m2 : vec4; m3 : vec4 }.
Inductive msg_var := msg0 | msg1 | msg2 | msg3.
Definition get (k : msg_var) (s : xst) : vec4 :=
  match k with msg0 => m0 s | msg1 => m1 s | msg2 => m2 s | msg3 => m3 s end.
Definition set (k : msg_var) (v : vec4) (s : xst) : xst :=
  match k with
  | msg0 => XST (state0 s) (state1 s) v (m1 s) (m2 s) (m3 s)
  | msg1 => XST (state0 s) (state1 s) (m0 s) v (m2 s) (m3 s)
  | msg2 => XST (state0 s) (state1 s) (m0 s) (m1 s) v (m3 s)
  | msg3 => XST (state0 s) (state1 s) (m0 s) (m1 s) (m2 s) v
  end.

Definition ROUND4_MSG (k : msg_var) (offset : nat) (s : xst) : xst :=
  let msg := mm_add_epi32 (get k s) (make_k offset) in
  let s1 := mm_sha256rnds2_epu32 (state1 s) (state0 s) msg in
  let msg := mm_shuffle_epi32 msg 0x0e in
  let s0 := mm_sha256rnds2_epu32 (state0 s) s1 msg in
  XST s0 s1 (m0 s) (m1 s) (m2 s) (m3 s).

Definition MSG2 (dst prev last : msg_var) (s : xst) : xst :=
  let tmp := mm_alignr_epi8 (get last s) (get prev s) 4 in
  let s := set dst (mm_add_epi32 (get dst s) tmp) s in
  set dst (mm_sha256msg2_epu32 (get dst s) (get last s)) s.

(** [dst = _mm_sha256msg1_epu32(dst, next)] *)
Definition MSG1 (dst next : msg_var) (s : xst) : xst :=
  set dst (mm_sha256msg1_epu32 (get dst s) (get next s)) s.

Definition sha256_x86_compress_vec (state : list Z) (v0 v1 v2 v3 : vec4) : list Z :=
  let '(s0, s1) := sha256_x86_load_state_vec state in
  let abef_save := s0 in
  let cdgh_save := s1 in
  let s := XST s0 s1 v0 v1 v2 v3
    |> ROUND4_MSG msg0 0
    |> ROUND4_MSG msg1 4
    |> MSG1 msg0 msg1
    |> ROUND4_MSG msg2 8
    |> MSG1 msg1 msg2
    |> ROUND4_MSG msg3 12
    |> MSG2 msg0 msg2 msg3
    |> MSG1 msg2 msg3

    |> ROUND4_MSG msg0 16
    |> MSG2 msg1 msg3 msg0
    |> MSG1 msg3 msg0
    |> ROUND4_MSG msg1 20
    |> MSG2 msg2 msg0 msg1
    |> MSG1 msg0 msg1
    |> ROUND4_MSG msg2 24
    |> MSG2 msg3 msg1 msg2
    |> MSG1 msg1 msg2
    |> ROUND4_MSG msg3 28
    |> MSG2 msg0 msg2 msg3
    |> MSG1 msg2 msg3

    |> ROUND4_MSG msg0 32
    |> MSG2 msg1 msg3 msg0
    |> MSG1 msg3 msg0
    |> ROUND4_MSG msg1 36
    |> MSG2 msg2 msg0 msg1
    |> MSG1 msg0 msg1
    |> ROUND4_MSG msg2 40
    |> MSG2 msg3 msg1 msg2
    |> MSG1 msg1 msg2
    |> ROUND4_MSG msg3 44
    |> MSG2 msg0 msg2 msg3
    |> MSG1 msg2 msg3

    |> ROUND4_MSG msg0 48
    |> MSG2 msg1 msg3 msg0
    |> MSG1 msg3 msg0
    |> ROUND4_MSG msg1 52
    |> MSG2 msg2 msg0 msg1
    |> ROUND4_MSG msg2 56
    |> MSG2 msg3 msg1 msg2
    |> ROUND4_MSG msg3 60 in
  let s0 := mm_add_epi32 (state0 s) abef_save in
  let s1 := mm_add_epi32 (state1 s) cdgh_save in
  sha256_x86_store_state_vec state s0 s1.

(** The two interleaved computations [a_] and [b_]. *)
Definition ROUND4_MSG2 (k : msg_var) (offset : nat) (s : xst * xst) : xst * xst :=
  let '(a, b) := s in
  let k__ := make_k offset in
  let a_msg := mm_add_epi32 (get k a) k__ in
  let b_msg := mm_add_epi32 (get k b) k__ in
  let a_state1 := mm_sha256rnds2_epu32 (state1 a) (state0 a) a_msg in
  let b_state1 := mm_sha256rnds2_epu32 (state1 b) (state0 b) b_msg in
  let a_msg := mm_shuffle_epi32 a_msg 0x0e in
  let b_msg := mm_shuffle_epi32 b_msg 0x0e in
  let a_state0 := mm_sha256rnds2_epu32 (state0 a) a_state1 a_msg in
  let b_state0 := mm_sha256rnds2_epu32 (state0 b) b_state1 b_msg in
  (XST a_state0 a_state1 (m0 a) (m1 a) (m2 a) (m3 a),
   XST b_state0 b_state1 (m0 b) (m1 b) (m2 b) (m3 b)).

Definition MSG2_PAIR (dst prev last : msg_var) (s : xst * xst) : xst * xst :=
  let '(a, b) := s in
  let a_tmp := mm_alignr_epi8 (get last a) (get prev a) 4 in
  let b_tmp := mm_alignr_epi8 (get last b) (get prev b) 4 in
  let a := set dst (mm_add_epi32 (get dst a) a_tmp) a in
  let b := set dst (mm_add_epi32 (get dst b) b_tmp) b in
  let a := set dst (mm_sha256msg2_epu32 (get dst a) (get last a)) a in
  let b := set dst (mm_sha256msg2_epu32 (get dst b) (get last b)) b in
  (a, b).

Definition MSG1_PAIR (dst next : msg_var) (s : xst * xst) : xst * xst :=
  let '(a, b) := s in
  let a := set dst (mm_sha256msg1_epu32 (get dst a) (get next a)) a in
  let b := set dst (mm_sha256msg1_epu32 (get dst b) (get next b)) b in
  (a, b).

Definition sha256_x86_compress_vec2 (state_a state_b : list Z)
    (a0 a1 a2 a3 b0 b1 b2 b3 : vec4) : list Z * list Z :=
  let '(a_state0, a_state1) := sha256_x86_load_state_vec state_a in
  let '(b_state0, b_state1) := sha256_x86_load_state_vec state_b in
  let a_abef_save := a_state0 in
  let a_cdgh_save := a_state1 in
  let b_abef_save := b_state0 in
  let b_cdgh_save := b_state1 in
  let s := (XST a_state0 a_state1 a0 a1 a2 a3, XST b_state0 b_state1 b0 b1 b2 b3)
    |> ROUND4_MSG2 msg0 0
    |> ROUND4_MSG2 msg1 4
    |> MSG1_PAIR msg0 msg1
    |> ROUND4_MSG2 msg2 8
    |> MSG1_PAIR msg1 msg2
    |> ROUND4_MSG2 msg3 12
    |> MSG2_PAIR msg0 msg2 msg3
    |> MSG1_PAIR msg2 msg3

    |> ROUND4_MSG2 msg0 16
    |> MSG2_PAIR msg1 msg3 msg0
    |> MSG1_PAIR msg3 msg0
    |> ROUND4_MSG2 msg1 20
    |> MSG2_PAIR msg2 msg0 msg1
    |> MSG1_PAIR msg0 msg1
    |> ROUND4_MSG2 msg2 24
    |> MSG2_PAIR msg3 msg1 msg2
    |> MSG1_PAIR msg1 msg2
    |> ROUND4_MSG2 msg3 28
    |> MSG2_PAIR msg0 msg2 msg3
    |> MSG1_PAIR msg2 msg3

    |> ROUND4_MSG2 msg0 32
    |> MSG2_PAIR msg1 msg3 msg0
    |> MSG1_PAIR msg3 msg0
    |> ROUND4_MSG2 msg1 36
    |> MSG2_PAIR msg2 msg0 msg1
    |> MSG1_PAIR msg0 msg1
    |> ROUND4_MSG2 msg2 40
    |> MSG2_PAIR msg3 msg1 msg2
    |> MSG1_PAIR msg1 msg2
    |> ROUND4_MSG2 msg3 44
    |> MSG2_PAIR msg0 msg2 msg3
    |> MSG1_PAIR msg2 msg3

    |> ROUND4_MSG2 msg0 48
    |> MSG2_PAIR msg1 msg3 msg0
    |> MSG1_PAIR msg3 msg0
    |> ROUND4_MSG2 msg1 52
    |> MSG2_PAIR msg2 msg0 msg1
    |> ROUND4_MSG2 msg2 56
    |> MSG2_PAIR msg3 msg1 msg2
    |> ROUND4_MSG2 msg3 60 in
  let a_state0 := mm_add_epi32 (state0 (fst s)) a_abef_save in
  let a_state1 := mm_add_epi32 (state1 (fst s)) a_cdgh_save in
  let b_state0 := mm_add_epi32 (state0 (snd s)) b_abef_save in
  let b_state1 := mm_add_epi32 (state1 (snd s)) b_cdgh_save in
  (sha256_x86_store_state_vec state_a a_state0 a_state1,
   sha256_x86_store_state_vec state_b b_state0 b_state1).

(** [sha256d_x86_sha_ni_available]: three feature tests of the running processor. *)
Definition sha256d_x86_sha_ni_available (cpu_supports_sha cpu_supports_ssse3 cpu_supports_sse4_1 : bool)
  : bool :=
  cpu_supports_sha && cpu_supports_ssse3 && cpu_supports_sse4_1.

Context `{O : OpenSSL}.

Definition sha256d_hash_tail_words_x86_raw (state : sha256_midstate_t O) (tail_words : list Z)
  : list Z :=
  let first_state := ms_fast_state state in
  let first_state := sha256_x86_compress_vec first_state
    (make_u32x4 (tail_words !!! 0%nat) (tail_words !!! 1%nat)
                (tail_words !!! 2%nat) (tail_words !!! 3%nat))
    (make_u32x4 0x80000000 0 0 0)
    mm_setzero_si128
    (make_u32x4 0 0 0 (80 * 8)) in
  let second_state := k_sha256_initial_state in
  let second_state := sha256_x86_compress_vec second_state
    (make_u32x4 (first_state !!! 0%nat) (first_state !!! 1%nat)
                (first_state !!! 2%nat) (first_state !!! 3%nat))
    (make_u32x4 (first_state !!! 4%nat) (first_state !!! 5%nat)
                (first_state !!! 6%nat) (first_state !!! 7%nat))
    (make_u32x4 0x80000000 0 0 0)
    (make_u32x4 0 0 0 (32 * 8)) in
  for_range 0 8 (fun i out => <[i := second_state !!! i]> out) (replicate 8 0).

Definition sha256d_hash_nonce_pair_x86_raw (state : sha256_midstate_t O)
    (tail0 tail1 tail2 nonce_a nonce_b : Z) : list Z * list Z :=
  let first_a := ms_fast_state state in
  let first_b := ms_fast_state state in
  let '(first_a, first_b) := sha256_x86_compress_vec2 first_a first_b
    (make_u32x4 tail0 tail1 tail2 (bswap32 nonce_a))
    (make_u32x4 0x80000000 0 0 0)
    mm_setzero_si128
    (make_u32x4 0 0 0 (80 * 8))
    (make_u32x4 tail0 tail1 tail2 (bswap32 nonce_b))
    (make_u32x4 0x80000000 0 0 0)
    mm_setzero_si128
    (make_u32x4 0 0 0 (80 * 8)) in
  let second_a := k_sha256_initial_state in
  let second_b := k_sha256_initial_state in
  let '(second_a, second_b) := sha256_x86_compress_vec2 second_a second_b
    (make_u32x4 (first_a !!! 0%nat) (first_a !!! 1%nat) (first_a !!! 2%nat) (first_a !!! 3%nat))
    (make_u32x4 (first_a !!! 4%nat) (first_a !!! 5%nat) (first_a !!! 6%nat) (first_a !!! 7%nat))
    (make_u32x4 0x80000000 0 0 0)
    (make_u32x4 0 0 0 (32 * 8))
    (make_u32x4 (first_b !!! 0%nat) (first_b !!! 1%nat) (first_b !!! 2%nat) (first_b !!! 3%nat))
    (make_u32x4 (first_b !!! 4%nat) (first_b !!! 5%nat) (first_b !!! 6%nat) (first_b !!! 7%nat))
    (make_u32x4 0x80000000 0 0 0)
    (make_u32x4 0 0 0 (32 * 8)) in
  for_range 0 8 (fun i '(out_a, out_b) =>
      (<[i := second_a !!! i]> out_a, <[i := second_b !!! i]> out_b))
    (replicate 8 0, replicate 8 0).

Definition sha256d_80_midstate_hash_tail_words_x86_sha_ni (state : sha256_midstate_t O)
    (tail_words : list Z) : list Z :=
  sha256d_hash_tail_words_x86_raw state tail_words.

(** [nonce_count & ~1U] is the bound of the pair loop; the loop variable never
    wraps, being below it and even. *)
Definition sha256d_scan_nonce_range_x86_sha_ni {A} (state : sha256_midstate_t O)
    (base_tail_words target_words : list Z) (start_nonce nonce_count : Z)
    (on_match : on_match_t A) (opaque : A) : A :=
  let tail_words := replicate 4 0 in
  let tail_words := <[0%nat := base_tail_words !!! 0%nat]> tail_words in
  let tail_words := <[1%nat := base_tail_words !!! 1%nat]> tail_words in
  let tail_words := <[2%nat := base_tail_words !!! 2%nat]> tail_words in
  let paired_count := Z.land nonce_count (not32 1) in
  let opaque := for_stride 0 2 (Z.to_nat (paired_count / 2)) (fun i opaque =>
      let nonce_a := add32 start_nonce (Z.of_nat i) in
      let nonce_b := add32 nonce_a 1 in
      let '(hash_words_a, hash_words_b) := sha256d_hash_nonce_pair_x86_raw state
        (tail_words !!! 0%nat) (tail_words !!! 1%nat) (tail_words !!! 2%nat) nonce_a nonce_b in
      let opaque := check_nonce on_match target_words nonce_a hash_words_a opaque in
      check_nonce on_match target_words nonce_b hash_words_b opaque) opaque in
  let i := paired_count in
  if i <? nonce_count then
    let nonce := add32 start_nonce i in
    let tail_words := <[3%nat := bswap32 nonce]> tail_words in
    let hash_words_a := sha256d_hash_tail_words_x86_raw state tail_words in
    check_nonce on_match target_words nonce hash_words_a opaque
  else opaque.
End x86.

(** * Equivalence with the compression function *)

Section laws.
Context `{X : X86} `{!X86Laws X}.

Create Rewrite HintDb x86.
#[local] Hint Rewrite set_epi32_law setzero_law loadu_law storeu_law add_epi32_law
  shuffle_b1_law shuffle_1b_law shuffle_0e_law alignr_8_law alignr_4_law blend_f0_law : x86.

Section block.
Context (M : list Z) (HM : length M = 16%nat) (r0 : Fips.regs).

#[local] Abbreviation R := (Simd.R M r0).
#[local] Abbreviation Wv := (Simd.Wv M).

(** The registers during the computation: the state vectors after [4 * n] rounds,
    and a message vector half computed. *)
Definition abef (r : Fips.regs) : vec4 := V4 (rf r) (re r) (rb r) (ra r).
Definition cdgh (r : Fips.regs) : vec4 := V4 (rh r) (rg r) (rd r) (rc r).
Definition Pv (j : nat) : vec4 := mm_sha256msg1_epu32 (Wv (j - 4)) (Wv (j - 3)).
Definition at_round (n : nat) : vec4 -> vec4 -> vec4 -> vec4 -> xst :=
  XST (abef (R (4 * n))) (cdgh (R (4 * n))).

Lemma rnds2_cdgh r k0 w0 k1 w1 x y :
  mm_sha256rnds2_epu32 (cdgh r) (abef r) (V4 (add32 w0 k0) (add32 w1 k1) x y) =
  abef (Fips.round k1 w1 (Fips.round k0 w0 r)).
Proof.
  destruct r as [a b c d e f g h]. unfold cdgh, abef. cbn [ra rb rc rd re rf rg rh].
  rewrite rnds2_law. by rewrite !hw_round_fips.
Qed.

Lemma cdgh_round2 k1 w1 k0 w0 r : cdgh (Fips.round k1 w1 (Fips.round k0 w0 r)) = abef r.
Proof. by destruct r. Qed.

Lemma ROUND4_MSG_round n k off v0 v1 v2 v3 :
  off = (4 * n)%nat -> get k (at_round n v0 v1 v2 v3) = Wv n ->
  ROUND4_MSG k off (at_round n v0 v1 v2 v3) = at_round (S n) v0 v1 v2 v3.
Proof.
  intros -> Hk. unfold ROUND4_MSG. rewrite Hk. unfold make_k, Simd.Wv. rewrite round_constants_fips.
  autorewrite with x86. unfold at_round. cbn [state0 state1 m0 m1 m2 m3].
  rewrite rnds2_cdgh. set (r2 := Fips.round _ _ (Fips.round _ _ _)).
  rewrite <- (cdgh_round2 (Fips.K !!! (4 * n + 1)%nat) (Fips.W M (4 * n + 1))
                (Fips.K !!! (4 * n)%nat) (Fips.W M (4 * n)) (R (4 * n))).
  fold r2. rewrite rnds2_cdgh, R_4. fold r2. by rewrite cdgh_round2.
Qed.

(** The schedule step: four more words from the half computed vector. *)
Lemma msg2_schedule p q j :
  q = S p -> j = S q -> (4 <= j < 16)%nat ->
  mm_sha256msg2_epu32 (mm_add_epi32 (Pv j) (mm_alignr_epi8 (Wv q) (Wv p) 4)) (Wv q) = Wv j.
Proof.
  intros -> -> Hj. unfold Pv, Simd.Wv. rewrite msg1_law. autorewrite with x86. rewrite msg2_law.
  cbv zeta. pose proof (W_next M HM p) as E.
  pose proof (E 0%nat ltac:(lia) ltac:(lia)) as E0. pose proof (E 1%nat ltac:(lia) ltac:(lia)) as E1.
  pose proof (E 2%nat ltac:(lia) ltac:(lia)) as E2. pose proof (E 3%nat ltac:(lia) ltac:(lia)) as E3.
  clear E. rewrite ?Nat.add_0_r in *.
  replace (S (S p) - 4)%nat with (p - 2)%nat by lia.
  replace (4 * (S (S p) - 3))%nat with (4 * (p - 2) + 4)%nat by lia.
  replace (4 * S p + 2 + 1)%nat with (4 * S p + 3)%nat in * by lia.
  replace (4 * S p + 2 + 2)%nat with (4 * S (S p))%nat in * by lia.
  replace (4 * S p + 2 + 3)%nat with (4 * S (S p) + 1)%nat in * by lia.
  replace (4 * p + 4)%nat with (4 * S p)%nat in * by lia.
  by rewrite <- E0, <- E1, <- E2, <- E3.
Qed.
(** The two message macros on the abstract registers.  The last premise names
    the registers after the assignment; it holds by computation. *)
Lemma MSG1_round n dst next p v0 v1 v2 v3 u0 u1 u2 u3 :
  get dst (at_round n v0 v1 v2 v3) = Wv p ->
  get next (at_round n v0 v1 v2 v3) = Wv (S p) ->
  set dst (Pv (p + 4)) (at_round n v0 v1 v2 v3) = at_round n u0 u1 u2 u3 ->
  MSG1 dst next (at_round n v0 v1 v2 v3) = at_round n u0 u1 u2 u3.
Proof.
  intros Hd Hn <-. unfold MSG1. rewrite Hd, Hn. unfold Pv.
  replace (p + 4 - 4)%nat with p by lia. replace (p + 4 - 3)%nat with (S p) by lia. done.
Qed.

Lemma MSG2_round n dst prev last p v0 v1 v2 v3 u0 u1 u2 u3 :
  get prev (at_round n v0 v1 v2 v3) = Wv p ->
  get last (at_round n v0 v1 v2 v3) = Wv (S p) ->
  get dst (at_round n v0 v1 v2 v3) = Pv (S (S p)) ->
  (2 <= p < 14)%nat -> dst <> last ->
  set dst (Wv (S (S p))) (at_round n v0 v1 v2 v3) = at_round n u0 u1 u2 u3 ->
  MSG2 dst prev last (at_round n v0 v1 v2 v3) = at_round n u0 u1 u2 u3.
Proof.
  intros Hp Hl Hd Hr Hne <-. unfold MSG2. cbv zeta. rewrite Hp, Hl, Hd.
  set (s := at_round n v0 v1 v2 v3) in *.
  assert (Hgs : forall v, get dst (set dst v s) = v) by (by intros; destruct dst).
  assert (Hgl : forall v, get last (set dst v s) = get last s) by (by intros; destruct dst, last).
  assert (Hss : forall v v', set dst v (set dst v' s) = set dst v s) by (by intros; destruct dst).
  rewrite Hgs, Hgl, Hss, Hl. by rewrite (msg2_schedule p (S p) (S (S p))) by lia.
Qed.

(** One macro of the straight-line code, the innermost one; the index of the
    schedule vector it reads and the registers it leaves are computed. *)
Ltac vec_index k s :=
  lazymatch eval cbv [get at_round m0 m1 m2 m3] in (get k s) with Wv ?p => p end.
Ltac with_regs s cont :=
  lazymatch eval cbv [set at_round state0 state1 m0 m1 m2 m3] in s with
  | XST _ _ ?u0 ?u1 ?u2 ?u3 => cont u0 u1 u2 u3
  end.
Ltac x86_step :=
  lazymatch goal with
  | |- context [ROUND4_MSG ?k ?off (at_round ?n ?v0 ?v1 ?v2 ?v3)] =>
      rewrite (ROUND4_MSG_round n k off v0 v1 v2 v3) by reflexivity
  | |- context [MSG1 ?dst ?next (at_round ?n ?v0 ?v1 ?v2 ?v3)] =>
      let p := vec_index dst (at_round n v0 v1 v2 v3) in
      let j := eval cbv in (p + 4)%nat in
      with_regs (set dst (Pv j) (at_round n v0 v1 v2 v3)) ltac:(fun u0 u1 u2 u3 =>
        rewrite (MSG1_round n dst next p v0 v1 v2 v3 u0 u1 u2 u3) by reflexivity)
  | |- context [MSG2 ?dst ?prev ?last (at_round ?n ?v0 ?v1 ?v2 ?v3)] =>
      let p := vec_index prev (at_round n v0 v1 v2 v3) in
      with_regs (set dst (Wv (S (S p))) (at_round n v0 v1 v2 v3)) ltac:(fun u0 u1 u2 u3 =>
        rewrite (MSG2_round n dst prev last p v0 v1 v2 v3 u0 u1 u2 u3)
          by first [reflexivity | lia | discriminate])
  end.
#[local] Opaque ROUND4_MSG MSG1 MSG2 Pv Simd.Wv Simd.R.

Lemma compress_vec_rounds s :
  s = at_round 0 (Wv 0) (Wv 1) (Wv 2) (Wv 3) ->
  (s
    |> ROUND4_MSG msg0 0 |> ROUND4_MSG msg1 4 |> MSG1 msg0 msg1 |> ROUND4_MSG msg2 8
    |> MSG1 msg1 msg2 |> ROUND4_MSG msg3 12 |> MSG2 msg0 msg2 msg3 |> MSG1 msg2 msg3
    |> ROUND4_MSG msg0 16 |> MSG2 msg1 msg3 msg0 |> MSG1 msg3 msg0
    |> ROUND4_MSG msg1 20 |> MSG2 msg2 msg0 msg1 |> MSG1 msg0 msg1
    |> ROUND4_MSG msg2 24 |> MSG2 msg3 msg1 msg2 |> MSG1 msg1 msg2
    |> ROUND4_MSG msg3 28 |> MSG2 msg0 msg2 msg3 |> MSG1 msg2 msg3
    |> ROUND4_MSG msg0 32 |> MSG2 msg1 msg3 msg0 |> MSG1 msg3 msg0
    |> ROUND4_MSG msg1 36 |> MSG2 msg2 msg0 msg1 |> MSG1 msg0 msg1
    |> ROUND4_MSG msg2 40 |> MSG2 msg3 msg1 msg2 |> MSG1 msg1 msg2
    |> ROUND4_MSG msg3 44 |> MSG2 msg0 msg2 msg3 |> MSG1 msg2 msg3
    |> ROUND4_MSG msg0 48 |> MSG2 msg1 msg3 msg0 |> MSG1 msg3 msg0
    |> ROUND4_MSG msg1 52 |> MSG2 msg2 msg0 msg1 |> ROUND4_MSG msg2 56
    |> MSG2 msg3 msg1 msg2 |> ROUND4_MSG msg3 60)
  = at_round 16 (Wv 12) (Wv 13) (Wv 14) (Wv 15).
Proof.
  intros ->. unfold then_do.
  repeat x86_step.
  reflexivity.
Qed.
End block.

#[local] Transparent Simd.Wv Simd.R.

Lemma load_state_regs state :
  length state = 8%nat ->
  sha256_x86_load_state_vec state =
  (abef (Fips.regs_of state), cdgh (Fips.regs_of state)).
Proof.
  intros Hs. destruct_list state Hs. unfold sha256_x86_load_state_vec. cbn [drop].
  by autorewrite with x86.
Qed.

Lemma store_state_regs state r :
  length state = 8%nat ->
  sha256_x86_store_state_vec state (abef r) (cdgh r) = Fips.of_regs r.
Proof.
  intros Hs. destruct_list state Hs. unfold sha256_x86_store_state_vec, abef, cdgh.
  by autorewrite with x86.
Qed.

Lemma compress_vec_fips state v0 v1 v2 v3 :
  length state = 8%nat ->
  sha256_x86_compress_vec state v0 v1 v2 v3 = Fips.compress state (four v0 v1 v2 v3).
Proof.
  intros Hs. unfold sha256_x86_compress_vec. rewrite load_state_regs by done.
  set (M := four v0 v1 v2 v3).
  destruct (Wv_block v0 v1 v2 v3) as (E0 & E1 & E2 & E3). fold M in E0, E1, E2, E3.
  rewrite (compress_vec_rounds M eq_refl (Fips.regs_of state)).
  2:{ rewrite E0, E1, E2, E3. reflexivity. }
  cbn [at_round state0 state1]. rewrite Fips.compress_regs by done. cbv zeta.
  unfold Simd.R.
  generalize (Fips.regs_of state). intros r0. change (4 * 16)%nat with 64%nat.
  generalize (Fips.rounds M 64 r0). intros r.
  unfold abef, cdgh. autorewrite with x86.
  transitivity (Fips.of_regs (Fips.Regs (ra r +w ra r0) (rb r +w rb r0) (rc r +w rc r0)
    (rd r +w rd r0) (re r +w re r0) (rf r +w rf r0) (rg r +w rg r0) (rh r +w rh r0))).
  - match goal with |- _ = Fips.of_regs ?x => exact (store_state_regs state x Hs) end.
  - unfold Fips.of_regs. cbn [ra rb rc rd re rf rg rh].
    by rewrite (add32_comm (ra r)), (add32_comm (rb r)), (add32_comm (rc r)), (add32_comm (rd r)),
      (add32_comm (re r)), (add32_comm (rf r)), (add32_comm (rg r)), (add32_comm (rh r)).
Qed.

(** The interleaved code is the two computations side by side. *)
Lemma ROUND4_MSG2_pair k off a b : ROUND4_MSG2 k off (a, b) = (ROUND4_MSG k off a, ROUND4_MSG k off b).
Proof. reflexivity. Qed.
Lemma MSG2_PAIR_pair dst prev last a b :
  MSG2_PAIR dst prev last (a, b) = (MSG2 dst prev last a, MSG2 dst prev last b).
Proof. reflexivity. Qed.
Lemma MSG1_PAIR_pair dst next a b : MSG1_PAIR dst next (a, b) = (MSG1 dst next a, MSG1 dst next b).
Proof. reflexivity. Qed.

Lemma compress_vec2_pair sa sb a0 a1 a2 a3 b0 b1 b2 b3 :
  sha256_x86_compress_vec2 sa sb a0 a1 a2 a3 b0 b1 b2 b3 =
  (sha256_x86_compress_vec sa a0 a1 a2 a3, sha256_x86_compress_vec sb b0 b1 b2 b3).
Proof.
  unfold sha256_x86_compress_vec2, sha256_x86_compress_vec.
  destruct (sha256_x86_load_state_vec sa), (sha256_x86_load_state_vec sb).
  unfold then_do.
  rewrite ?ROUND4_MSG2_pair, ?MSG1_PAIR_pair.
  repeat first [rewrite ROUND4_MSG2_pair | rewrite MSG1_PAIR_pair | rewrite MSG2_PAIR_pair].
  reflexivity.
Qed.

Context `{O : OpenSSL}.

Lemma first_block_four t0 t1 t2 t3 :
  four (make_u32x4 t0 t1 t2 t3) (make_u32x4 0x80000000 0 0 0) mm_setzero_si128
       (make_u32x4 0 0 0 (80 * 8)) = tail_block [t0; t1; t2; t3].
Proof. unfold four, make_u32x4. by autorewrite with x86. Qed.

Lemma second_block_four D :
  length D = 8%nat ->
  four (make_u32x4 (D !!! 0%nat) (D !!! 1%nat) (D !!! 2%nat) (D !!! 3%nat))
       (make_u32x4 (D !!! 4%nat) (D !!! 5%nat) (D !!! 6%nat) (D !!! 7%nat))
       (make_u32x4 0x80000000 0 0 0) (make_u32x4 0 0 0 (32 * 8)) = digest_block D.
Proof.
  intros HD. destruct_list D HD. unfold four, make_u32x4. by autorewrite with x86.
Qed.

Lemma x86_raw_tail (st : sha256_midstate_t O) T :
  length (ms_fast_state st) = 8%nat ->
  sha256d_hash_tail_words_x86_raw st T =
  tail_hash (ms_fast_state st) [T !!! 0%nat; T !!! 1%nat; T !!! 2%nat; T !!! 3%nat].
Proof.
  intros HS. unfold sha256d_hash_tail_words_x86_raw. rewrite initial_state_fips.
  rewrite (compress_vec_fips (ms_fast_state st)), first_block_four by done.
  rewrite compress_vec_fips by done. rewrite second_block_four by by apply Fips.length_compress.
  apply copy_8. by apply Fips.length_compress.
Qed.

Lemma x86_pair_tail (st : sha256_midstate_t O) T a b :
  length (ms_fast_state st) = 8%nat ->
  sha256d_hash_nonce_pair_x86_raw st (T !!! 0%nat) (T !!! 1%nat) (T !!! 2%nat) a b =
  (nonce_hash (ms_fast_state st) T a, nonce_hash (ms_fast_state st) T b).
Proof.
  intros HS. unfold sha256d_hash_nonce_pair_x86_raw. rewrite initial_state_fips.
  rewrite compress_vec2_pair, !(compress_vec_fips (ms_fast_state st)), !first_block_four by done.
  rewrite compress_vec2_pair, !compress_vec_fips by done.
  rewrite !second_block_four by by apply Fips.length_compress.
  unfold nonce_hash, tail_hash.
  rewrite (for_range_pair _ _ (fun i out => <[i := _ !!! i]> out) (fun i out => <[i := _ !!! i]> out)).
  by rewrite !copy_8 by by apply Fips.length_compress.
Qed.

(** The paired vector scan is the abstract scan. *)
Lemma x86_scan_spec {A} (st : sha256_midstate_t O) T target_words start n
    (on_match : on_match_t A) (opaque : A) :
  length (ms_fast_state st) = 8%nat -> is_u32 n ->
  sha256d_scan_nonce_range_x86_sha_ni st T target_words start n on_match opaque =
  scan (ms_fast_state st) T target_words start n on_match opaque.
Proof.
  intros HS Hn. unfold sha256d_scan_nonce_range_x86_sha_ni.
  apply (scan_pairs_odd (ms_fast_state st) T target_words start n on_match opaque
    (sha256d_hash_nonce_pair_x86_raw st (T !!! 0%nat) (T !!! 1%nat) (T !!! 2%nat))
    (fun nonce => sha256d_hash_tail_words_x86_raw st
       [T !!! 0%nat; T !!! 1%nat; T !!! 2%nat; bswap32 nonce])); [done| |].
  - intros a b. by apply x86_pair_tail.
  - intros a. by apply x86_raw_tail.
Qed.
End laws.

(** * Properties *)

(** C17.  The SHA-NI compression is the portable one: for every chaining value and
    every block, the vector code with its interleaved schedule returns the same
    eight words as [sha256_compress_words]. *)
Theorem x86_compress_portable `{X : X86} `{!X86Laws X} state v0 v1 v2 v3 w :
  length state = 8%nat -> length w = 64%nat -> take 16 w = four v0 v1 v2 v3 ->
  sha256_x86_compress_vec state v0 v1 v2 v3 = fst (sha256_compress_words state w).
Proof.
  intros Hs Hw Ht. rewrite compress_vec_fips by done.
  destruct (compress_words_fips state w Hs Hw) as [-> _]. by rewrite Ht.
Qed.

Lemma x86_compress_portable_witness :
  @sha256_x86_compress_vec ref_x86 k_sha256_initial_state
    (V4 0x61626380 0 0 0) (V4 0 0 0 0) (V4 0 0 0 0) (V4 0 0 0 24) =
  fst (sha256_compress_words k_sha256_initial_state
         ([0x61626380] ++ replicate 14 0 ++ [24] ++ replicate 48 0)).
Proof.
  apply (@x86_compress_portable ref_x86 ref_x86_laws); reflexivity.
Defined.
