(* ===== verification/ArmSha2.v ===== *)
(** The ARMv8 SHA2 backend (src/src/sha256d_arm_sha2.c): the two specialised
    compressions (the padded header tail and the second hash, with precomputed
    sums of schedule words and round constants), their two-lane variants, and the
    nonce scan.

    The NEON intrinsics are code outside the repository: the class [ARM] holds
    them and [ARMLaws] the pseudocode of the ARM architecture reference manual. *)
From stdpp Require Import base tactics list numbers.
From Stdlib Require Import ZArith Lia.
From S2P Require Import Prelude Words Fips Sha256d Scan Simd.

#[local] Open Scope word_scope.

(** * The intrinsics *)

Class ARM := {
  vld1q_u32 : list Z -> vec4;
  vst1q_u32 : vec4 -> list Z;
  vaddq_u32 : vec4 -> vec4 -> vec4;
  vsha256hq_u32 : vec4 -> vec4 -> vec4 -> vec4;
  vsha256h2q_u32 : vec4 -> vec4 -> vec4 -> vec4;
  vsha256su0q_u32 : vec4 -> vec4 -> vec4;
  vsha256su1q_u32 : vec4 -> vec4 -> vec4 -> vec4;
}.

(** [SHAchoose], [SHAmajority] and the loop body of [SHA256hash]. *)
Definition SHAchoose (x y z : Z) : Z := Z.lxor (Z.land (Z.lxor y z) x) z.
Definition SHAmajority (x y z : Z) : Z := Z.lor (Z.land x y) (Z.land (Z.lor x y) z).
Definition SHA256hash_step (w : Z) (r : Fips.regs) : Fips.regs :=
  let '(Fips.Regs a b c d e f g h) := r in
  let t := h +w bsig1 e +w SHAchoose e f g +w w in
  Fips.Regs (t +w bsig0 a +w SHAmajority a b c) a b c (t +w d) e f g.
Definition SHA256hash (r : Fips.regs) (w : vec4) : Fips.regs :=
  SHA256hash_step (lane3 w) (SHA256hash_step (lane2 w)
    (SHA256hash_step (lane1 w) (SHA256hash_step (lane0 w) r))).

Definition abcd_of (r : Fips.regs) : vec4 := V4 (ra r) (rb r) (rc r) (rd r).
Definition efgh_of (r : Fips.regs) : vec4 := V4 (re r) (rf r) (rg r) (rh r).

Class ARMLaws (A : ARM) := {
  vld1q_law a b c d l : vld1q_u32 (a :: b :: c :: d :: l) = V4 a b c d;
  vst1q_law a b c d : vst1q_u32 (V4 a b c d) = [a; b; c; d];
  vaddq_law a b c d a' b' c' d' :
    vaddq_u32 (V4 a b c d) (V4 a' b' c' d') = V4 (a +w a') (b +w b') (c +w c') (d +w d');
  sha256h_law r w : vsha256hq_u32 (abcd_of r) (efgh_of r) w = abcd_of (SHA256hash r w);
  sha256h2_law r w : vsha256h2q_u32 (efgh_of r) (abcd_of r) w = efgh_of (SHA256hash r w);
  sha256su0_law w0 w1 w2 w3 w4 w5 w6 w7 :
    vsha256su0q_u32 (V4 w0 w1 w2 w3) (V4 w4 w5 w6 w7) =
    V4 (ssig0 w1 +w w0) (ssig0 w2 +w w1) (ssig0 w3 +w w2) (ssig0 w4 +w w3);
  sha256su1_law a b c d w8 w9 w10 w11 w12 w13 w14 w15 :
    vsha256su1q_u32 (V4 a b c d) (V4 w8 w9 w10 w11) (V4 w12 w13 w14 w15) =
    (let w16 := ssig1 w14 +w a +w w9 in
     let w17 := ssig1 w15 +w b +w w10 in
     V4 w16 w17 (ssig1 w16 +w c +w w11) (ssig1 w17 +w d +w w12));
}.

(** A concrete instruction set with these laws, for the evaluations. *)
Definition regs_of_vecs (abcd efgh : vec4) : Fips.regs :=
  Fips.Regs (lane0 abcd) (lane1 abcd) (lane2 abcd) (lane3 abcd)
            (lane0 efgh) (lane1 efgh) (lane2 efgh) (lane3 efgh).
Definition ref_arm : ARM := {|
  vld1q_u32 l := V4 (l !!! 0%nat) (l !!! 1%nat) (l !!! 2%nat) (l !!! 3%nat);
  vst1q_u32 := lanes;
  vaddq_u32 v v' := V4 (lane0 v +w lane0 v') (lane1 v +w lane1 v') (lane2 v +w lane2 v')
                       (lane3 v +w lane3 v');
  vsha256hq_u32 abcd efgh w := abcd_of (SHA256hash (regs_of_vecs abcd efgh) w);
  vsha256h2q_u32 efgh abcd w := efgh_of (SHA256hash (regs_of_vecs abcd efgh) w);
  vsha256su0q_u32 v v' :=
    V4 (ssig0 (lane1 v) +w lane0 v) (ssig0 (lane2 v) +w lane1 v) (ssig0 (lane3 v) +w lane2 v)
       (ssig0 (lane0 v') +w lane3 v);
  vsha256su1q_u32 v y z :=
    let w16 := ssig1 (lane2 z) +w lane0 v +w lane1 y in
    let w17 := ssig1 (lane3 z) +w lane1 v +w lane2 y in
    V4 w16 w17 (ssig1 w16 +w lane2 v +w lane3 y) (ssig1 w17 +w lane3 v +w lane0 z);
|}.
Lemma ref_arm_laws : ARMLaws ref_arm.
Proof. split; try done; intros []; done. Defined.

(** * The code *)

Definition k_first_tail_wk1 : list Z := [0xb956c25b; 0x59f111f1; 0x923f82a4; 0xab1c5ed5].
Definition k_first_tail_wk2 : list Z := [0xd807aa98; 0x12835b01; 0x243185be; 0x550c7dc3].
Definition k_first_tail_wk3 : list Z := [0x72be5d74; 0x80deb1fe; 0x9bdc06a7; 0xc19bf3f4].
Definition k_second_hash_wk2 : list Z := [0x5807aa98; 0x12835b01; 0x243185be; 0x550c7dc3].
Definition k_second_hash_wk3 : list Z := [0x72be5d74; 0x80deb1fe; 0x9bdc06a7; 0xc19bf274].

Section arm.
Context `{A : ARM}.

(** [sha256d_arm_sha2_available] on Linux: the HWCAP_SHA2 bit of the auxiliary
    vector. *)
Definition sha256d_arm_sha2_available (hwcap hwcap_sha2 : Z) : bool :=
  negb (Z.land hwcap hwcap_sha2 =? 0).

Definition make_u32x4 (a b c d : Z) : vec4 := V4 a b c d.

(** The locals of a compression: the working variables and the four schedule
    vectors. *)
Record ast := AST { abcd : vec4; efgh : vec4; sched0 : vec4; sched1 : vec4; sched2 : vec4; sched3 : vec4 }.
Inductive sched_var := s0 | s1 | s2 | s3.
Definition get (k : sched_var) (s : ast) : vec4 :=
  match k with s0 => sched0 s | s1 => sched1 s | s2 => sched2 s | s3 => sched3 s end.
Definition set (k : sched_var) (v : vec4) (s : ast) : ast :=
  match k with
  | s0 => AST (abcd s) (efgh s) v (sched1 s) (sched2 s) (sched3 s)
  | s1 => AST (abcd s) (efgh s) (sched0 s) v (sched2 s) (sched3 s)
  | s2 => AST (abcd s) (efgh s) (sched0 s) (sched1 s) v (sched3 s)
  | s3 => AST (abcd s) (efgh s) (sched0 s) (sched1 s) (sched2 s) v
  end.

Definition ROUND4_WK (wk_vec : vec4) (s : ast) : ast :=
  let abcd_prev := abcd s in
  let abcd' := vsha256hq_u32 abcd_prev (efgh s) wk_vec in
  let efgh' := vsha256h2q_u32 (efgh s) abcd_prev wk_vec in
  AST abcd' efgh' (sched0 s) (sched1 s) (sched2 s) (sched3 s).

Definition ROUND4 (schedule : sched_var) (offset : nat) (s : ast) : ast :=
  let wk := vaddq_u32 (get schedule s) (vld1q_u32 (drop offset k_sha256_round_constants)) in
  let abcd_prev := abcd s in
  let abcd' := vsha256hq_u32 abcd_prev (efgh s) wk in
  let efgh' := vsha256h2q_u32 (efgh s) abcd_prev wk in
  AST abcd' efgh' (sched0 s) (sched1 s) (sched2 s) (sched3 s).

(** [a = vsha256su1q_u32(vsha256su0q_u32(a, b), c, d)] *)
Definition SU (a b c d : sched_var) (s : ast) : ast :=
  set a (vsha256su1q_u32 (vsha256su0q_u32 (get a s) (get b s)) (get c s) (get d s)) s.

Definition ROUNDS16 (offset : nat) (s : ast) : ast :=
  s |> SU s0 s1 s2 s3 |> ROUND4 s0 offset
    |> SU s1 s2 s3 s0 |> ROUND4 s1 (offset + 4)
    |> SU s2 s3 s0 s1 |> ROUND4 s2 (offset + 8)
    |> SU s3 s0 s1 s2 |> ROUND4 s3 (offset + 12).

(** Both functions return [*out_abcd, *out_efgh]. *)
Definition sha256_arm_compress_btc_tail (start_abcd start_efgh sched0 : vec4) : vec4 * vec4 :=
  let sched1 := make_u32x4 0x80000000 0 0 0 in
  let sched2 := make_u32x4 0 0 0 0 in
  let sched3 := make_u32x4 0 0 0 (80 * 8) in
  let abcd_orig := start_abcd in
  let efgh_orig := start_efgh in
  let s := AST start_abcd start_efgh sched0 sched1 sched2 sched3
    |> ROUND4 s0 0
    |> ROUND4_WK (vld1q_u32 k_first_tail_wk1)
    |> ROUND4_WK (vld1q_u32 k_first_tail_wk2)
    |> ROUND4_WK (vld1q_u32 k_first_tail_wk3)
    |> ROUNDS16 16
    |> ROUNDS16 32
    |> ROUNDS16 48 in
  (vaddq_u32 (abcd s) abcd_orig, vaddq_u32 (efgh s) efgh_orig).

Definition initial_abcd : vec4 :=
  make_u32x4 (k_sha256_initial_state !!! 0%nat) (k_sha256_initial_state !!! 1%nat)
             (k_sha256_initial_state !!! 2%nat) (k_sha256_initial_state !!! 3%nat).
Definition initial_efgh : vec4 :=
  make_u32x4 (k_sha256_initial_state !!! 4%nat) (k_sha256_initial_state !!! 5%nat)
             (k_sha256_initial_state !!! 6%nat) (k_sha256_initial_state !!! 7%nat).

Definition sha256_arm_compress_second_hash (sched0 sched1 : vec4) : vec4 * vec4 :=
  let abcd_orig := initial_abcd in
  let efgh_orig := initial_efgh in
  let sched2 := make_u32x4 0x80000000 0 0 0 in
  let sched3 := make_u32x4 0 0 0 (32 * 8) in
  let s := AST initial_abcd initial_efgh sched0 sched1 sched2 sched3
    |> ROUND4 s0 0
    |> ROUND4 s1 4
    |> ROUND4_WK (vld1q_u32 k_second_hash_wk2)
    |> ROUND4_WK (vld1q_u32 k_second_hash_wk3)
    |> ROUNDS16 16
    |> ROUNDS16 32
    |> ROUNDS16 48 in
  (vaddq_u32 (abcd s) abcd_orig, vaddq_u32 (efgh s) efgh_orig).

(** The interleaved macros. *)
Definition ROUND4_WK_PAIR (wk_vec : vec4) (s : ast * ast) : ast * ast :=
  let '(a, b) := s in
  let wk := wk_vec in
  let a_abcd_prev := abcd a in
  let b_abcd_prev := abcd b in
  let a_abcd := vsha256hq_u32 a_abcd_prev (efgh a) wk in
  let b_abcd := vsha256hq_u32 b_abcd_prev (efgh b) wk in
  let a_efgh := vsha256h2q_u32 (efgh a) a_abcd_prev wk in
  let b_efgh := vsha256h2q_u32 (efgh b) b_abcd_prev wk in
  (AST a_abcd a_efgh (sched0 a) (sched1 a) (sched2 a) (sched3 a),
   AST b_abcd b_efgh (sched0 b) (sched1 b) (sched2 b) (sched3 b)).

Definition ROUND4_PAIR (schedule : sched_var) (offset : nat) (s : ast * ast) : ast * ast :=
  let '(a, b) := s in
  let k := vld1q_u32 (drop offset k_sha256_round_constants) in
  let a_wk := vaddq_u32 (get schedule a) k in
  let b_wk := vaddq_u32 (get schedule b) k in
  let a_abcd_prev := abcd a in
  let b_abcd_prev := abcd b in
  let a_abcd := vsha256hq_u32 a_abcd_prev (efgh a) a_wk in
  let b_abcd := vsha256hq_u32 b_abcd_prev (efgh b) b_wk in
  let a_efgh := vsha256h2q_u32 (efgh a) a_abcd_prev a_wk in
  let b_efgh := vsha256h2q_u32 (efgh b) b_abcd_prev b_wk in
  (AST a_abcd a_efgh (sched0 a) (sched1 a) (sched2 a) (sched3 a),
   AST b_abcd b_efgh (sched0 b) (sched1 b) (sched2 b) (sched3 b)).

Definition SU_PAIR (x y z t : sched_var) (s : ast * ast) : ast * ast :=
  let '(a, b) := s in
  let a := set x (vsha256su1q_u32 (vsha256su0q_u32 (get x a) (get y a)) (get z a) (get t a)) a in
  let b := set x (vsha256su1q_u32 (vsha256su0q_u32 (get x b) (get y b)) (get z b) (get t b)) b in
  (a, b).

Definition ROUNDS16_PAIR (offset : nat) (s : ast * ast) : ast * ast :=
  s |> SU_PAIR s0 s1 s2 s3 |> ROUND4_PAIR s0 offset
    |> SU_PAIR s1 s2 s3 s0 |> ROUND4_PAIR s1 (offset + 4)
    |> SU_PAIR s2 s3 s0 s1 |> ROUND4_PAIR s2 (offset + 8)
    |> SU_PAIR s3 s0 s1 s2 |> ROUND4_PAIR s3 (offset + 12).

(** [*a_out_abcd, *a_out_efgh, *b_out_abcd, *b_out_efgh] *)
Definition sha256_arm_compress_btc_tail2 (start_abcd start_efgh a_sched0 b_sched0 : vec4)
  : (vec4 * vec4) * (vec4 * vec4) :=
  let a_sched1 := make_u32x4 0x80000000 0 0 0 in
  let a_sched2 := make_u32x4 0 0 0 0 in
  let a_sched3 := make_u32x4 0 0 0 (80 * 8) in
  let s := (AST start_abcd start_efgh a_sched0 a_sched1 a_sched2 a_sched3,
            AST start_abcd start_efgh b_sched0 a_sched1 a_sched2 a_sched3)
    |> ROUND4_PAIR s0 0
    |> ROUND4_WK_PAIR (vld1q_u32 k_first_tail_wk1)
    |> ROUND4_WK_PAIR (vld1q_u32 k_first_tail_wk2)
    |> ROUND4_WK_PAIR (vld1q_u32 k_first_tail_wk3)
    |> ROUNDS16_PAIR 16
    |> ROUNDS16_PAIR 32
    |> ROUNDS16_PAIR 48 in
  ((vaddq_u32 (abcd (fst s)) start_abcd, vaddq_u32 (efgh (fst s)) start_efgh),
   (vaddq_u32 (abcd (snd s)) start_abcd, vaddq_u32 (efgh (snd s)) start_efgh)).

Definition sha256_arm_compress_second_hash2 (a_sched0 a_sched1 b_sched0 b_sched1 : vec4)
  : (vec4 * vec4) * (vec4 * vec4) :=
  let a_sched2 := make_u32x4 0x80000000 0 0 0 in
  let a_sched3 := make_u32x4 0 0 0 (32 * 8) in
  let s := (AST initial_abcd initial_efgh a_sched0 a_sched1 a_sched2 a_sched3,
            AST initial_abcd initial_efgh b_sched0 b_sched1 a_sched2 a_sched3)
    |> ROUND4_PAIR s0 0
    |> ROUND4_PAIR s1 4
    |> ROUND4_WK_PAIR (vld1q_u32 k_second_hash_wk2)
    |> ROUND4_WK_PAIR (vld1q_u32 k_second_hash_wk3)
    |> ROUNDS16_PAIR 16
    |> ROUNDS16_PAIR 32
    |> ROUNDS16_PAIR 48 in
  ((vaddq_u32 (abcd (fst s)) initial_abcd, vaddq_u32 (efgh (fst s)) initial_efgh),
   (vaddq_u32 (abcd (snd s)) initial_abcd, vaddq_u32 (efgh (snd s)) initial_efgh)).

Context `{O : OpenSSL}.

Definition sha256d_hash_nonce_pair_arm_raw (state : sha256_midstate_t O)
    (tail0 tail1 tail2 nonce_a nonce_b : Z) : list Z * list Z :=
  let start_abcd := vld1q_u32 (drop 0 (ms_fast_state state)) in
  let start_efgh := vld1q_u32 (drop 4 (ms_fast_state state)) in
  let '((first_a_abcd, first_a_efgh), (first_b_abcd, first_b_efgh)) :=
    sha256_arm_compress_btc_tail2 start_abcd start_efgh
      (make_u32x4 tail0 tail1 tail2 (bswap32 nonce_a))
      (make_u32x4 tail0 tail1 tail2 (bswap32 nonce_b)) in
  let '((second_a_abcd, second_a_efgh), (second_b_abcd, second_b_efgh)) :=
    sha256_arm_compress_second_hash2 first_a_abcd first_a_efgh first_b_abcd first_b_efgh in
  let out_a := store (replicate 8 0) 0 (vst1q_u32 second_a_abcd) in
  let out_a := store out_a 4 (vst1q_u32 second_a_efgh) in
  let out_b := store (replicate 8 0) 0 (vst1q_u32 second_b_abcd) in
  let out_b := store out_b 4 (vst1q_u32 second_b_efgh) in
  (out_a, out_b).

Definition sha256d_hash_tail_words_arm_raw (state : sha256_midstate_t O) (tail_words : list Z)
  : list Z :=
  let first_abcd := vld1q_u32 (drop 0 (ms_fast_state state)) in
  let first_efgh := vld1q_u32 (drop 4 (ms_fast_state state)) in
  let '(first_abcd, first_efgh) := sha256_arm_compress_btc_tail first_abcd first_efgh
    (make_u32x4 (tail_words !!! 0%nat) (tail_words !!! 1%nat)
                (tail_words !!! 2%nat) (tail_words !!! 3%nat)) in
  let '(second_abcd, second_efgh) := sha256_arm_compress_second_hash first_abcd first_efgh in
  let out_words := store (replicate 8 0) 0 (vst1q_u32 second_abcd) in
  store out_words 4 (vst1q_u32 second_efgh).

Definition sha256d_80_midstate_hash_tail_words_arm_sha2 (state : sha256_midstate_t O)
    (tail_words : list Z) : list Z :=
  sha256d_hash_tail_words_arm_raw state tail_words.

Definition sha256d_scan_nonce_range_arm_sha2 {B} (state : sha256_midstate_t O)
    (base_tail_words target_words : list Z) (start_nonce nonce_count : Z)
    (on_match : on_match_t B) (opaque : B) : B :=
  let start_abcd := vld1q_u32 (drop 0 (ms_fast_state state)) in
  let start_efgh := vld1q_u32 (drop 4 (ms_fast_state state)) in
  let tail0 := base_tail_words !!! 0%nat in
  let tail1 := base_tail_words !!! 1%nat in
  let tail2 := base_tail_words !!! 2%nat in
  let paired_count := Z.land nonce_count (not32 1) in
  let opaque := for_stride 0 2 (Z.to_nat (paired_count / 2)) (fun i opaque =>
      let nonce_a := add32 start_nonce (Z.of_nat i) in
      let nonce_b := add32 nonce_a 1 in
      let '(hash_words_a, hash_words_b) :=
        sha256d_hash_nonce_pair_arm_raw state tail0 tail1 tail2 nonce_a nonce_b in
      let opaque := check_nonce on_match target_words nonce_a hash_words_a opaque in
      check_nonce on_match target_words nonce_b hash_words_b opaque) opaque in
  let i := paired_count in
  if i <? nonce_count then
    let nonce := add32 start_nonce i in
    let '(first_abcd, first_efgh) := sha256_arm_compress_btc_tail start_abcd start_efgh
      (make_u32x4 tail0 tail1 tail2 (bswap32 nonce)) in
    let '(second_abcd, second_efgh) := sha256_arm_compress_second_hash first_abcd first_efgh in
    let hash_words_a := store (replicate 8 0) 0 (vst1q_u32 second_abcd) in
    let hash_words_a := store hash_words_a 4 (vst1q_u32 second_efgh) in
    check_nonce on_match target_words nonce hash_words_a opaque
  else opaque.

Definition sha256d_80_midstate_hash_words_arm_sha2 (state : sha256_midstate_t O)
    (header_tail16 : list Z) : list Z :=
  let tail_words :=
    for_range 0 4 (fun i t => <[i := load_be32 header_tail16 (i * 4)]> t) (replicate 4 0) in
  sha256d_80_midstate_hash_tail_words_arm_sha2 state tail_words.
End arm.

(** * Equivalence with the compression function *)

Lemma choose_ch x y z : is_u32 x -> is_u32 z -> SHAchoose x y z = ch x y z.
Proof.
  intros Hx Hz. apply (bounded_testbit 32) in Hx as [_ Hx], Hz as [_ Hz]; [|lia..].
  apply Z.bits_inj'. intros i Hi. unfold SHAchoose, ch, not32.
  change 0xffffffff with (Z.ones 32).
  rewrite !Z.lxor_spec, !Z.land_spec, !Z.lxor_spec.
  destruct (decide (i < 32)).
  - rewrite Z.ones_spec_low by lia. by destruct (Z.testbit x i), (Z.testbit y i), (Z.testbit z i).
  - rewrite Hx, Hz by lia. by destruct (Z.testbit y i), (Z.testbit (Z.ones 32) i).
Qed.

Lemma majority_maj x y z : SHAmajority x y z = maj x y z.
Proof.
  apply Z.bits_inj'. intros i Hi. unfold SHAmajority, maj.
  rewrite !Z.lor_spec, !Z.lxor_spec, !Z.land_spec, !Z.lor_spec.
  by destruct (Z.testbit x i), (Z.testbit y i), (Z.testbit z i).
Qed.

Lemma hash_step_fips k w r : regs_u32 r -> SHA256hash_step (w +w k) r = Fips.round k w r.
Proof.
  destruct r as [a b c d e f g h]. unfold regs_u32, is_words, Fips.of_regs. cbn.
  rewrite !list.Forall_cons. intros (Ha & Hb & Hc & Hd & He & Hf & Hg & Hh & _).
  unfold Fips.round. cbn. rewrite choose_ch, majority_maj by done. f_equal; add32_ac.
Qed.

Section laws.
Context `{A : ARM} `{!ARMLaws A}.

Definition Kv (n : nat) : vec4 :=
  V4 (Fips.K !!! (4 * n)%nat) (Fips.K !!! (4 * n + 1)%nat)
     (Fips.K !!! (4 * n + 2)%nat) (Fips.K !!! (4 * n + 3)%nat).

Lemma vld1q_drop l n :
  (n + 3 < length l)%nat ->
  vld1q_u32 (drop n l) = V4 (l !!! n) (l !!! (n + 1)%nat) (l !!! (n + 2)%nat) (l !!! (n + 3)%nat).
Proof.
  intros Hn.
  rewrite (drop_S l (l !!! n) n), (drop_S l (l !!! (n + 1)%nat) (S n)),
    (drop_S l (l !!! (n + 2)%nat) (S (S n))), (drop_S l (l !!! (n + 3)%nat) (S (S (S n)))).
  1: apply vld1q_law.
  all: rewrite (list_lookup_lookup_total_lt l) by lia; do 2 f_equal; lia.
Qed.

Lemma load_k n : (n < 16)%nat -> vld1q_u32 (drop (4 * n) k_sha256_round_constants) = Kv n.
Proof.
  intros Hn. rewrite round_constants_fips. apply vld1q_drop. change (length Fips.K) with 64%nat. lia.
Qed.

Section block.
Context (M : list Z) (HM : length M = 16%nat) (r0 : Fips.regs) (Hr0 : regs_u32 r0).
#[local] Abbreviation R := (Simd.R M r0).
#[local] Abbreviation Wv := (Simd.Wv M).

Definition at_round (n : nat) : vec4 -> vec4 -> vec4 -> vec4 -> ast :=
  AST (abcd_of (R (4 * n))) (efgh_of (R (4 * n))).

Lemma hash_4 n : SHA256hash (R (4 * n)) (vaddq_u32 (Wv n) (Kv n)) = R (4 * S n).
Proof.
  unfold Simd.Wv, Kv. rewrite vaddq_law. unfold SHA256hash. cbn [lane0 lane1 lane2 lane3].
  rewrite R_4. pose proof (R_u32 M r0 (4 * n) Hr0) as Hr.
  rewrite (hash_step_fips _ _ (R (4 * n))) by done.
  do 3 (rewrite (hash_step_fips _ _ (Fips.round _ _ _)); [|by repeat apply round_u32]). done.
Qed.

Lemma ROUND4_WK_round n wk v0 v1 v2 v3 :
  wk = vaddq_u32 (Wv n) (Kv n) ->
  ROUND4_WK wk (at_round n v0 v1 v2 v3) = at_round (S n) v0 v1 v2 v3.
Proof.
  intros ->. unfold ROUND4_WK, at_round. cbn [abcd efgh sched0 sched1 sched2 sched3].
  by rewrite sha256h_law, sha256h2_law, hash_4.
Qed.

Lemma ROUND4_round n k off v0 v1 v2 v3 :
  (n < 16)%nat -> off = (4 * n)%nat -> get k (at_round n v0 v1 v2 v3) = Wv n ->
  ROUND4 k off (at_round n v0 v1 v2 v3) = at_round (S n) v0 v1 v2 v3.
Proof.
  intros Hn -> Hk. rewrite <- (ROUND4_WK_round n _ v0 v1 v2 v3 eq_refl).
  unfold ROUND4, ROUND4_WK. by rewrite Hk, load_k.
Qed.

Lemma su_schedule p :
  (p < 12)%nat ->
  vsha256su1q_u32 (vsha256su0q_u32 (Wv p) (Wv (S p))) (Wv (S (S p))) (Wv (S (S (S p)))) =
  Wv (S (S (S (S p)))).
Proof.
  intros Hp. unfold Simd.Wv. rewrite sha256su0_law, sha256su1_law. cbv zeta.
  pose proof (W_next M HM (S (S p))) as E.
  pose proof (E 0%nat ltac:(lia) ltac:(lia)) as E0. pose proof (E 1%nat ltac:(lia) ltac:(lia)) as E1.
  pose proof (E 2%nat ltac:(lia) ltac:(lia)) as E2. pose proof (E 3%nat ltac:(lia) ltac:(lia)) as E3.
  clear E. rewrite ?Nat.add_0_r in *. replace (S (S p) - 2)%nat with p in * by lia.
  replace (4 * S (S (S p)) + 2 + 1)%nat with (4 * S (S (S p)) + 3)%nat in * by lia.
  replace (4 * S (S (S p)) + 2 + 2)%nat with (4 * S (S (S (S p))))%nat in * by lia.
  replace (4 * S (S (S p)) + 2 + 3)%nat with (4 * S (S (S (S p))) + 1)%nat in * by lia.
  replace (4 * S (S p) + 4)%nat with (4 * S (S (S p)))%nat in * by lia.
  replace (4 * p + 4)%nat with (4 * S p)%nat in * by lia.
  assert (H0 : ssig1 (Fips.W M (4 * S (S (S p)) + 2)) +w (ssig0 (Fips.W M (4 * p + 1)) +w Fips.W M (4 * p))
               +w Fips.W M (4 * S (S p) + 1) = Fips.W M (4 * S (S (S (S p))))) by (rewrite E0; add32_ac).
  assert (H1 : ssig1 (Fips.W M (4 * S (S (S p)) + 3)) +w (ssig0 (Fips.W M (4 * p + 2)) +w Fips.W M (4 * p + 1))
               +w Fips.W M (4 * S (S p) + 2) = Fips.W M (4 * S (S (S (S p))) + 1)) by (rewrite E1; add32_ac).
  rewrite H0, H1. f_equal; [rewrite E2|rewrite E3]; add32_ac.
Qed.

Lemma SU_round n a b c d p v0 v1 v2 v3 u0 u1 u2 u3 :
  get a (at_round n v0 v1 v2 v3) = Wv p ->
  get b (at_round n v0 v1 v2 v3) = Wv (S p) ->
  get c (at_round n v0 v1 v2 v3) = Wv (S (S p)) ->
  get d (at_round n v0 v1 v2 v3) = Wv (S (S (S p))) ->
  (p < 12)%nat ->
  set a (Wv (S (S (S (S p))))) (at_round n v0 v1 v2 v3) = at_round n u0 u1 u2 u3 ->
  SU a b c d (at_round n v0 v1 v2 v3) = at_round n u0 u1 u2 u3.
Proof. intros Ha Hb Hc Hd Hp <-. unfold SU. by rewrite Ha, Hb, Hc, Hd, su_schedule. Qed.

(** Sixteen rounds with a fresh schedule: the block of macros used three times. *)
Lemma ROUNDS16_round n off :
  (4 <= n <= 12)%nat -> off = (4 * n)%nat ->
  ROUNDS16 off (at_round n (Wv (n - 4)) (Wv (n - 3)) (Wv (n - 2)) (Wv (n - 1))) =
  at_round (4 + n) (Wv n) (Wv (S n)) (Wv (S (S n))) (Wv (S (S (S n)))).
Proof.
  intros Hn ->. destruct (Nat.le_exists_sub 4 n) as (p & -> & _); [lia|].
  replace (p + 4 - 4)%nat with p by lia. replace (p + 4 - 3)%nat with (S p) by lia.
  replace (p + 4 - 2)%nat with (S (S p)) by lia. replace (p + 4 - 1)%nat with (S (S (S p))) by lia.
  replace (p + 4)%nat with (S (S (S (S p)))) in * by lia.
  unfold ROUNDS16, then_do.
  rewrite (SU_round _ s0 s1 s2 s3 p _ _ _ _ (Wv (S (S (S (S p)))))
             (Wv (S p)) (Wv (S (S p))) (Wv (S (S (S p))))) by (done || lia).
  rewrite ROUND4_round by (done || lia).
  rewrite (SU_round _ s1 s2 s3 s0 (S p) _ _ _ _ (Wv (S (S (S (S p)))))
             (Wv (S (S (S (S (S p)))))) (Wv (S (S p))) (Wv (S (S (S p))))) by (done || lia).
  rewrite ROUND4_round by (done || lia).
  rewrite (SU_round _ s2 s3 s0 s1 (S (S p)) _ _ _ _ (Wv (S (S (S (S p)))))
             (Wv (S (S (S (S (S p)))))) (Wv (S (S (S (S (S (S p))))))) (Wv (S (S (S p)))))
    by (done || lia).
  rewrite ROUND4_round by (done || lia).
  rewrite (SU_round _ s3 s0 s1 s2 (S (S (S p))) _ _ _ _ (Wv (S (S (S (S p)))))
             (Wv (S (S (S (S (S p)))))) (Wv (S (S (S (S (S (S p)))))))
             (Wv (S (S (S (S (S (S (S p))))))))) by (done || lia).
  by rewrite ROUND4_round by (done || lia).
Qed.

Lemma final_rounds s :
  s = at_round 4 (Wv 0) (Wv 1) (Wv 2) (Wv 3) ->
  (s |> ROUNDS16 16 |> ROUNDS16 32 |> ROUNDS16 48) = at_round 16 (Wv 12) (Wv 13) (Wv 14) (Wv 15).
Proof.
  intros ->. unfold then_do.
  rewrite (ROUNDS16_round 4) by lia. rewrite (ROUNDS16_round 8) by lia.
  by rewrite (ROUNDS16_round 12) by lia.
Qed.
End block.

(** The sums at the end of both compressions. *)
Lemma final_sum S M :
  length S = 8%nat ->
  let r := Fips.rounds M 64 (Fips.regs_of S) in
  let r0 := Fips.regs_of S in
  let r' := Fips.regs_of (Fips.compress S M) in
  vaddq_u32 (abcd_of r) (abcd_of r0) = abcd_of r' /\
  vaddq_u32 (efgh_of r) (efgh_of r0) = efgh_of r'.
Proof.
  intros HS. cbv zeta. rewrite Fips.compress_regs by done. cbv zeta.
  generalize (Fips.regs_of S). intros r0. generalize (Fips.rounds M 64 r0). intros r.
  unfold abcd_of, efgh_of. rewrite !vaddq_law. cbn.
  by rewrite (add32_comm (ra r)), (add32_comm (rb r)), (add32_comm (rc r)), (add32_comm (rd r)),
    (add32_comm (re r)), (add32_comm (rf r)), (add32_comm (rg r)), (add32_comm (rh r)).
Qed.

(** A digest as the pair of vectors it is kept in. *)
Definition vecs_of (D : list Z) : vec4 * vec4 :=
  (abcd_of (Fips.regs_of D), efgh_of (Fips.regs_of D)).

(** A round-4 step whose addend is a precomputed constant vector. *)
Lemma wk_const M n (l : list Z) (w0 w1 w2 w3 : Z) :
  Wv M n = V4 w0 w1 w2 w3 ->
  l = zip_with add32 [w0; w1; w2; w3] (take 4 (drop (4 * n) Fips.K)) -> (n < 16)%nat ->
  vld1q_u32 l = vaddq_u32 (Wv M n) (Kv n).
Proof.
  intros -> -> Hn. rewrite <- (load_k n) by done. rewrite round_constants_fips.
  assert (Hl : length (take 4 (drop (4 * n) Fips.K)) = 4%nat).
  { rewrite length_take, length_drop. change (length Fips.K) with 64%nat. lia. }
  rewrite <- (take_drop 4 (drop (4 * n) Fips.K)) at 2.
  generalize dependent (take 4 (drop (4 * n) Fips.K)). intros k Hk. destruct_list k Hk.
  cbn [zip_with app]. by rewrite !vld1q_law, vaddq_law.
Qed.

Lemma arm_btc_tail S t0 t1 t2 t3 :
  length S = 8%nat -> is_words S ->
  sha256_arm_compress_btc_tail (fst (vecs_of S)) (snd (vecs_of S)) (make_u32x4 t0 t1 t2 t3) =
  vecs_of (Fips.compress S (tail_block [t0; t1; t2; t3])).
Proof.
  intros HS HSw. set (M := tail_block [t0; t1; t2; t3]).
  assert (HM : length M = 16%nat) by done.
  destruct (Wv_block (V4 t0 t1 t2 t3) (V4 0x80000000 0 0 0) (V4 0 0 0 0) (V4 0 0 0 640))
    as (E0 & E1 & E2 & E3). change (four _ _ _ _) with M in E0, E1, E2, E3.
  pose proof (regs_of_u32 S HS HSw) as Hr. set (r := Fips.regs_of S) in *.
  unfold sha256_arm_compress_btc_tail. cbv zeta.
  rewrite (final_rounds M HM r Hr).
  - cbn [abcd efgh at_round]. change (4 * 16)%nat with 64%nat. unfold R, vecs_of. cbn [fst snd].
    destruct (final_sum S M HS) as [Ha He]. cbv zeta in Ha, He. unfold r. by rewrite Ha, He.
  - unfold then_do, vecs_of. cbn [fst snd]. fold r. unfold make_u32x4.
    rewrite <- E0, <- E1, <- E2, <- E3 at 1.
    change (AST (abcd_of r) (efgh_of r)) with (at_round M r 0).
    rewrite (ROUND4_round M r Hr 0) by (done || lia).
    rewrite (ROUND4_WK_round M r Hr 1) by by apply (wk_const M 1 _ _ _ _ _ E1); [reflexivity|lia].
    rewrite (ROUND4_WK_round M r Hr 2) by by apply (wk_const M 2 _ _ _ _ _ E2); [reflexivity|lia].
    by rewrite (ROUND4_WK_round M r Hr 3) by by apply (wk_const M 3 _ _ _ _ _ E3); [reflexivity|lia].
Qed.

Lemma arm_second_hash D :
  length D = 8%nat ->
  sha256_arm_compress_second_hash (fst (vecs_of D)) (snd (vecs_of D)) =
  vecs_of (Fips.compress Fips.H0 (digest_block D)).
Proof.
  intros HD. set (M := digest_block D).
  assert (HM : length M = 16%nat) by (unfold M, digest_block; by rewrite length_app, HD).
  destruct (Wv_block (fst (vecs_of D)) (snd (vecs_of D)) (V4 0x80000000 0 0 0) (V4 0 0 0 256))
    as (E0 & E1 & E2 & E3).
  assert (HMv : four (fst (vecs_of D)) (snd (vecs_of D)) (V4 0x80000000 0 0 0) (V4 0 0 0 256) = M)
    by (unfold M; by destruct_list D HD).
  rewrite HMv in E0, E1, E2, E3.
  pose proof (regs_of_u32 Fips.H0 eq_refl Fips.H0_words) as Hr.
  unfold sha256_arm_compress_second_hash. cbv zeta.
  change initial_abcd with (abcd_of (Fips.regs_of Fips.H0)).
  change initial_efgh with (efgh_of (Fips.regs_of Fips.H0)).
  set (r := Fips.regs_of Fips.H0) in *.
  rewrite (final_rounds M HM r Hr).
  - cbn [abcd efgh at_round]. change (4 * 16)%nat with 64%nat. unfold R, vecs_of.
    destruct (final_sum Fips.H0 M eq_refl) as [Ha He]. cbv zeta in Ha, He. unfold r.
    by rewrite Ha, He.
  - unfold then_do, make_u32x4.
    rewrite <- E0, <- E1, <- E2, <- E3 at 1.
    change (AST (abcd_of r) (efgh_of r)) with (at_round M r 0).
    rewrite (ROUND4_round M r Hr 0) by (done || lia).
    rewrite (ROUND4_round M r Hr 1) by (done || lia).
    rewrite (ROUND4_WK_round M r Hr 2) by by apply (wk_const M 2 _ _ _ _ _ E2); [reflexivity|lia].
    by rewrite (ROUND4_WK_round M r Hr 3) by by apply (wk_const M 3 _ _ _ _ _ E3); [reflexivity|lia].
Qed.

(** The interleaved code is the two computations side by side. *)
Lemma ROUND4_WK_PAIR_pair wk a b : ROUND4_WK_PAIR wk (a, b) = (ROUND4_WK wk a, ROUND4_WK wk b).
Proof. reflexivity. Qed.
Lemma ROUND4_PAIR_pair k off a b : ROUND4_PAIR k off (a, b) = (ROUND4 k off a, ROUND4 k off b).
Proof. reflexivity. Qed.
Lemma SU_PAIR_pair x y z t a b : SU_PAIR x y z t (a, b) = (SU x y z t a, SU x y z t b).
Proof. reflexivity. Qed.
Lemma ROUNDS16_PAIR_pair off a b : ROUNDS16_PAIR off (a, b) = (ROUNDS16 off a, ROUNDS16 off b).
Proof.
  unfold ROUNDS16_PAIR, ROUNDS16, then_do.
  repeat first [rewrite SU_PAIR_pair | rewrite ROUND4_PAIR_pair]. reflexivity.
Qed.
#[local] Opaque ROUND4_WK_PAIR ROUND4_WK ROUND4_PAIR ROUND4 ROUNDS16_PAIR ROUNDS16.

Lemma arm_btc_tail2_pair sa se a0 b0 :
  sha256_arm_compress_btc_tail2 sa se a0 b0 =
  (sha256_arm_compress_btc_tail sa se a0, sha256_arm_compress_btc_tail sa se b0).
Proof.
  unfold sha256_arm_compress_btc_tail2, sha256_arm_compress_btc_tail, then_do. cbv zeta.
  by rewrite ROUND4_PAIR_pair, !ROUND4_WK_PAIR_pair, !ROUNDS16_PAIR_pair.
Qed.
Lemma arm_second_hash2_pair a0 a1 b0 b1 :
  sha256_arm_compress_second_hash2 a0 a1 b0 b1 =
  (sha256_arm_compress_second_hash a0 a1, sha256_arm_compress_second_hash b0 b1).
Proof.
  unfold sha256_arm_compress_second_hash2, sha256_arm_compress_second_hash, then_do. cbv zeta.
  by rewrite !ROUND4_PAIR_pair, !ROUND4_WK_PAIR_pair, !ROUNDS16_PAIR_pair.
Qed.

Lemma load_vecs D :
  length D = 8%nat -> (vld1q_u32 (drop 0 D), vld1q_u32 (drop 4 D)) = vecs_of D.
Proof. intros HD. destruct_list D HD. cbn [drop]. by rewrite !vld1q_law. Qed.

Lemma store_vecs D :
  length D = 8%nat ->
  store (store (replicate 8 0) 0 (vst1q_u32 (fst (vecs_of D)))) 4 (vst1q_u32 (snd (vecs_of D))) = D.
Proof.
  intros HD. destruct_list D HD. unfold vecs_of, abcd_of, efgh_of. cbn [fst snd].
  by rewrite !vst1q_law.
Qed.

Context `{O : OpenSSL}.

Lemma arm_tail_chain S t0 t1 t2 t3 :
  length S = 8%nat -> is_words S ->
  let '(fa, fe) := sha256_arm_compress_btc_tail
    (vld1q_u32 (drop 0 S)) (vld1q_u32 (drop 4 S)) (make_u32x4 t0 t1 t2 t3) in
  sha256_arm_compress_second_hash fa fe = vecs_of (tail_hash S [t0; t1; t2; t3]).
Proof.
  intros HS HSw. pose proof (load_vecs S HS) as Hl.
  pose proof (arm_btc_tail S t0 t1 t2 t3 HS HSw) as Hb. rewrite <- Hl in Hb. cbn [fst snd] in Hb.
  rewrite Hb. set (D := Fips.compress S _). unfold tail_hash. fold D.
  assert (HD : length D = 8%nat) by by apply Fips.length_compress.
  rewrite <- (arm_second_hash D HD). by destruct (vecs_of D).
Qed.

Lemma arm_raw_tail (st : sha256_midstate_t O) T :
  length (ms_fast_state st) = 8%nat -> is_words (ms_fast_state st) ->
  sha256d_hash_tail_words_arm_raw st T =
  tail_hash (ms_fast_state st) [T !!! 0%nat; T !!! 1%nat; T !!! 2%nat; T !!! 3%nat].
Proof.
  intros HS HSw. unfold sha256d_hash_tail_words_arm_raw.
  pose proof (arm_tail_chain (ms_fast_state st) (T !!! 0%nat) (T !!! 1%nat) (T !!! 2%nat)
    (T !!! 3%nat) HS HSw) as Hc.
  destruct (sha256_arm_compress_btc_tail _ _ _) as [fa fe]. rewrite Hc.
  rewrite <- store_vecs by apply length_tail_hash. by destruct (vecs_of _).
Qed.

Lemma arm_pair_tail (st : sha256_midstate_t O) T a b :
  length (ms_fast_state st) = 8%nat -> is_words (ms_fast_state st) ->
  sha256d_hash_nonce_pair_arm_raw st (T !!! 0%nat) (T !!! 1%nat) (T !!! 2%nat) a b =
  (nonce_hash (ms_fast_state st) T a, nonce_hash (ms_fast_state st) T b).
Proof.
  intros HS HSw. unfold sha256d_hash_nonce_pair_arm_raw. rewrite arm_btc_tail2_pair.
  pose proof (arm_tail_chain (ms_fast_state st) (T !!! 0%nat) (T !!! 1%nat) (T !!! 2%nat)
    (bswap32 a) HS HSw) as Ha.
  pose proof (arm_tail_chain (ms_fast_state st) (T !!! 0%nat) (T !!! 1%nat) (T !!! 2%nat)
    (bswap32 b) HS HSw) as Hb.
  destruct (sha256_arm_compress_btc_tail _ _ (make_u32x4 _ _ _ (bswap32 a))) as [aa ae].
  destruct (sha256_arm_compress_btc_tail _ _ (make_u32x4 _ _ _ (bswap32 b))) as [ba be'].
  rewrite arm_second_hash2_pair, Ha, Hb. fold (nonce_hash (ms_fast_state st) T a).
  fold (nonce_hash (ms_fast_state st) T b).
  pose proof (store_vecs (nonce_hash (ms_fast_state st) T a) (length_tail_hash _ _)) as Sa.
  pose proof (store_vecs (nonce_hash (ms_fast_state st) T b) (length_tail_hash _ _)) as Sb.
  destruct (vecs_of (nonce_hash (ms_fast_state st) T a)),
    (vecs_of (nonce_hash (ms_fast_state st) T b)).
  cbn [fst snd] in Sa, Sb. by rewrite Sa, Sb.
Qed.

Lemma arm_scan_spec {B} (st : sha256_midstate_t O) T target_words start n
    (on_match : on_match_t B) (opaque : B) :
  length (ms_fast_state st) = 8%nat -> is_words (ms_fast_state st) -> is_u32 n ->
  sha256d_scan_nonce_range_arm_sha2 st T target_words start n on_match opaque =
  scan (ms_fast_state st) T target_words start n on_match opaque.
Proof.
  intros HS HSw Hn. unfold sha256d_scan_nonce_range_arm_sha2. cbv zeta.
  rewrite <- (scan_pairs_odd (ms_fast_state st) T target_words start n on_match opaque
    (sha256d_hash_nonce_pair_arm_raw st (T !!! 0%nat) (T !!! 1%nat) (T !!! 2%nat))
    (fun nonce => nonce_hash (ms_fast_state st) T nonce)); [|done| |done].
  2:{ intros a b. by apply arm_pair_tail. }
  cbv zeta. destruct (_ <? n); [|done].
  pose proof (arm_tail_chain (ms_fast_state st) (T !!! 0%nat) (T !!! 1%nat) (T !!! 2%nat)
    (bswap32 (add32 start (Z.land n (not32 1)))) HS HSw) as Ha.
  destruct (sha256_arm_compress_btc_tail _ _ _) as [fa fe]. rewrite Ha.
  match goal with |- _ = check_nonce _ _ ?n _ _ =>
    pose proof (store_vecs (nonce_hash (ms_fast_state st) T n) (length_tail_hash _ _)) as Sa;
    fold (nonce_hash (ms_fast_state st) T n); destruct (vecs_of (nonce_hash (ms_fast_state st) T n))
  end.
  cbn [fst snd] in Sa. by rewrite Sa.
Qed.
End laws.

(** * Properties *)

(** C18.  The ARM tail hash, with its precomputed schedule-plus-constant vectors,
    returns for every midstate and every four tail words what the portable
    "fast-c" hash returns. *)
Theorem arm_tail_portable `{A : ARM} `{!ARMLaws A} `{O : OpenSSL} (st : sha256_midstate_t O) T :
  length (ms_fast_state st) = 8%nat -> is_words (ms_fast_state st) -> length T = 4%nat ->
  sha256d_80_midstate_hash_tail_words_arm_sha2 st T = sha256d_80_midstate_hash_fast_c st T.
Proof.
  intros HS HSw HT. unfold sha256d_80_midstate_hash_tail_words_arm_sha2.
  rewrite arm_raw_tail, hash_fast_c_tail by done. by destruct_list T HT.
Qed.

Lemma arm_tail_portable_witness :
  let st : sha256_midstate_t ref_openssl :=
    @Midstate ref_openssl [] [] k_sha256_initial_state in
  @sha256d_80_midstate_hash_tail_words_arm_sha2 ref_arm ref_openssl st [1; 2; 3; 4] =
  sha256d_80_midstate_hash_fast_c st [1; 2; 3; 4].
Proof.
  apply (@arm_tail_portable ref_arm ref_arm_laws ref_openssl).
  - reflexivity.
  - change (Forall is_u32 k_sha256_initial_state). unfold k_sha256_initial_state.
    apply (bool_decide_unpack _). vm_compute. exact I.
  - reflexivity.
Defined.
