(* ===== verification/Backends.v ===== *)
(** Backend selection of src/src/sha256d.c: the enumeration and its names, the
    selected backend [g_backend], the two dispatchers and the functions behind
    them, and the guarantee that every choice computes the same hashes and scans
    the same nonces. *)
From stdpp Require Import base tactics list numbers strings.
From Stdlib Require Import ZArith Lia.
From S2P Require Import Prelude Words Fips Sha256d Scan Simd X86ShaNi ArmSha2.

#[local] Open Scope Z_scope.

(** * The enumeration *)

Inductive sha256d_backend_t :=
  | SHA256D_BACKEND_OPENSSL
  | SHA256D_BACKEND_FAST_C
  | SHA256D_BACKEND_ARM_SHA2
  | SHA256D_BACKEND_X86_SHA_NI.

#[export] Instance sha256d_backend_t_eq_dec : EqDecision sha256d_backend_t.
Proof. solve_decision. Defined.

Definition sha256d_backend_name (backend : sha256d_backend_t) : string :=
  match backend with
  | SHA256D_BACKEND_OPENSSL => "openssl"
  | SHA256D_BACKEND_FAST_C => "fast-c"
  | SHA256D_BACKEND_ARM_SHA2 => "arm-sha2"
  | SHA256D_BACKEND_X86_SHA_NI => "x86-sha-ni"
  end.

(** [None] is the null pointer on the left and the error return -1, which leaves
    [*out] alone, on the right. *)
Definition sha256d_parse_backend (text : option string) : option sha256d_backend_t :=
  match text with
  | None => None
  | Some text =>
      if String.eqb text "openssl" || String.eqb text "ossl" then Some SHA256D_BACKEND_OPENSSL
      else if String.eqb text "fast-c" || String.eqb text "fastc" ||
              String.eqb text "portable" || String.eqb text "c" then Some SHA256D_BACKEND_FAST_C
      else if String.eqb text "arm-sha2" || String.eqb text "armv8-sha2" ||
              String.eqb text "sha2" || String.eqb text "neon" then Some SHA256D_BACKEND_ARM_SHA2
      else if String.eqb text "x86-sha-ni" || String.eqb text "x86-shani" ||
              String.eqb text "sha-ni" || String.eqb text "shani" then Some SHA256D_BACKEND_X86_SHA_NI
      else None
  end.

(** What the running processor answers to the feature tests. *)
Record cpu := Cpu {
  cpu_sha : bool; cpu_ssse3 : bool; cpu_sse4_1 : bool;
  cpu_hwcap : Z; cpu_hwcap_sha2 : Z;
}.

Definition sha256d_backend_available (c : cpu) (backend : sha256d_backend_t) : bool :=
  match backend with
  | SHA256D_BACKEND_OPENSSL | SHA256D_BACKEND_FAST_C => true
  | SHA256D_BACKEND_ARM_SHA2 => sha256d_arm_sha2_available (cpu_hwcap c) (cpu_hwcap_sha2 c)
  | SHA256D_BACKEND_X86_SHA_NI =>
      sha256d_x86_sha_ni_available (cpu_sha c) (cpu_ssse3 c) (cpu_sse4_1 c)
  end.

Definition sha256d_auto_backend (c : cpu) : sha256d_backend_t :=
  if sha256d_backend_available c SHA256D_BACKEND_X86_SHA_NI then SHA256D_BACKEND_X86_SHA_NI
  else if sha256d_backend_available c SHA256D_BACKEND_ARM_SHA2 then SHA256D_BACKEND_ARM_SHA2
  else SHA256D_BACKEND_OPENSSL.

(** The file-level variable [g_backend] is passed and returned. *)
Definition g_backend_initial : sha256d_backend_t := SHA256D_BACKEND_OPENSSL.
Definition sha256d_set_backend (c : cpu) (g_backend backend : sha256d_backend_t)
  : Z * sha256d_backend_t :=
  if negb (sha256d_backend_available c backend) then (-1, g_backend) else (0, backend).

(** * Dispatch *)

Section dispatch.
Context `{O : OpenSSL} `{X : X86} `{A : ARM}.

Definition sha256d_tail_words_func (g_backend : sha256d_backend_t)
  : sha256_midstate_t O -> list Z -> list Z :=
  match g_backend with
  | SHA256D_BACKEND_FAST_C => sha256d_80_midstate_hash_fast_c
  | SHA256D_BACKEND_ARM_SHA2 => sha256d_80_midstate_hash_tail_words_arm_sha2
  | SHA256D_BACKEND_X86_SHA_NI => sha256d_80_midstate_hash_tail_words_x86_sha_ni
  | SHA256D_BACKEND_OPENSSL => sha256d_80_midstate_hash_openssl
  end.

Definition sha256d_scan_nonce_range_generic {B} (g_backend : sha256d_backend_t)
    (state : sha256_midstate_t O) (base_tail_words target_words : list Z)
    (start_nonce nonce_count : Z) (on_match : on_match_t B) (opaque : B) : B :=
  let hash_tail_words := sha256d_tail_words_func g_backend in
  let tail_words := take 4 base_tail_words in
  snd (for_range 0 (Z.to_nat nonce_count) (fun i '(tail_words, opaque) =>
    let nonce := add32 start_nonce (Z.of_nat i) in
    let tail_words := <[3%nat := bswap32 nonce]> tail_words in
    let hash_words := hash_tail_words state tail_words in
    (tail_words, check_nonce on_match target_words nonce hash_words opaque))
    (tail_words, opaque)).

Definition sha256d_nonce_range_func {B} (g_backend : sha256d_backend_t)
  : sha256_midstate_t O -> list Z -> list Z -> Z -> Z -> on_match_t B -> B -> B :=
  match g_backend with
  | SHA256D_BACKEND_X86_SHA_NI => sha256d_scan_nonce_range_x86_sha_ni
  | SHA256D_BACKEND_ARM_SHA2 => sha256d_scan_nonce_range_arm_sha2
  | SHA256D_BACKEND_OPENSSL | SHA256D_BACKEND_FAST_C => sha256d_scan_nonce_range_generic g_backend
  end.

Definition sha256d_80_midstate_hash_tail_words (g_backend : sha256d_backend_t)
    (state : sha256_midstate_t O) (tail_words : list Z) : list Z :=
  sha256d_tail_words_func g_backend state tail_words.

Definition sha256d_80_midstate_hash_words (g_backend : sha256d_backend_t)
    (state : sha256_midstate_t O) (header_tail16 : list Z) : list Z :=
  let tail_words :=
    for_range 0 4 (fun i t => <[i := load_be32 header_tail16 (i * 4)]> t) (replicate 4 0) in
  sha256d_80_midstate_hash_tail_words g_backend state tail_words.

Definition sha256d_80_midstate_hash (g_backend : sha256d_backend_t)
    (state : sha256_midstate_t O) (header_tail16 : list Z) : list Z :=
  let words := sha256d_80_midstate_hash_words g_backend state header_tail16 in
  sha256d_words_to_hash words.
End dispatch.

(** * Midstates *)

(** The midstate of the chaining value [S]: both copies agree. *)
Record midstate_of {O : OpenSSL} (S : list Z) (st : sha256_midstate_t O) : Prop := {
  mo_fast : ms_fast_state st = S;
  mo_ctx : ctx_h (ms_ctx st) = S;
  mo_second : ctx_h (ms_second_ctx st) = Fips.H0;
  mo_length : length S = 8%nat;
  mo_words : is_words S;
}.

Section equivalence.
Context `{O : OpenSSL} `{!OpenSSLLaws O} `{X : X86} `{!X86Laws X} `{A : ARM} `{!ARMLaws A}.

Lemma prepare_midstate h64 :
  length h64 = 64%nat -> is_bytes h64 ->
  midstate_of (Fips.compress Fips.H0 (words_of_bytes 16 h64)) (sha256d_80_midstate_prepare h64).
Proof.
  intros Hl Hb. unfold sha256d_80_midstate_prepare. rewrite take_ge by lia.
  split; cbn [ms_fast_state ms_ctx ms_second_ctx].
  - rewrite compress_block_fips by done. by rewrite initial_state_fips.
  - by apply SHA256_Update_block.
  - apply SHA256_Init_h.
  - by apply Fips.length_compress.
  - by apply Fips.compress_words.
Qed.

(** Every backend computes the tail hash. *)
Lemma tail_words_func_spec b st S T :
  midstate_of S st -> length T = 4%nat -> is_words T ->
  sha256d_tail_words_func b st T = tail_hash S T.
Proof.
  intros [Hf Hc H2 Hl Hw] HT HTw.
  assert (HTe : [T !!! 0%nat; T !!! 1%nat; T !!! 2%nat; T !!! 3%nat] = T) by by destruct_list T HT.
  destruct b; cbn [sha256d_tail_words_func].
  - rewrite hash_openssl_tail; by rewrite ?Hc.
  - rewrite hash_fast_c_tail; by rewrite ?Hf.
  - unfold sha256d_80_midstate_hash_tail_words_arm_sha2.
    rewrite arm_raw_tail; rewrite ?Hf; [by rewrite HTe|done..].
  - unfold sha256d_80_midstate_hash_tail_words_x86_sha_ni.
    rewrite x86_raw_tail; rewrite ?Hf; [by rewrite HTe|done..].
Qed.

Lemma load_tail16 t16 :
  length t16 = 16%nat -> is_bytes t16 ->
  for_range 0 4 (fun i t => <[i := load_be32 t16 (i * 4)]> t) (replicate 4 0) =
  words_of_bytes 4 t16.
Proof.
  intros Hl Hb. rewrite for_range_fill by done. rewrite drop_ge, app_nil_r by done.
  rewrite <- (fmap_lookup_total (words_of_bytes 4 t16) 4) by apply Fips.length_words_of_bytes.
  apply list_fmap_ext. intros j i Hj. apply lookup_seq in Hj.
  apply load_be32_words; [done|lia|lia].
Qed.

Lemma midstate_hash_spec b st S t16 :
  midstate_of S st -> length t16 = 16%nat -> is_bytes t16 ->
  sha256d_80_midstate_hash b st t16 = bytes_of_words (tail_hash S (words_of_bytes 4 t16)).
Proof.
  intros HS Hl Hb. unfold sha256d_80_midstate_hash, sha256d_80_midstate_hash_words.
  rewrite load_tail16 by done. unfold sha256d_80_midstate_hash_tail_words.
  rewrite (tail_words_func_spec b st S) by
    (done || apply Fips.length_words_of_bytes || by apply words_of_bytes_words).
  apply words_to_hash_bytes, length_tail_hash.
Qed.

Lemma sha256d_80_spec h :
  length h = 80%nat -> is_bytes h -> sha256d_80 h = Fips.sha256d h.
Proof.
  intros Hl Hb. unfold sha256d_80. rewrite (take_ge h) by lia.
  rewrite (SHA256_fips h) by done. unfold Fips.sha256d.
  assert (Hd : length (Fips.sha256 h) = 32%nat).
  { unfold Fips.sha256. rewrite length_bytes_of_words.
    rewrite <- (take_drop 64 h), Fips.digest_two_blocks.
    - by rewrite Fips.length_compress by by apply Fips.length_compress.
    - rewrite length_take. lia.
    - rewrite length_drop. lia. }
  rewrite take_ge by lia. apply SHA256_fips. apply bytes_of_words_bytes.
Qed.

Lemma generic_scan_spec {B} b st S T target_words start n (on_match : on_match_t B) (opaque : B) :
  midstate_of S st -> length T = 4%nat -> is_words T ->
  sha256d_scan_nonce_range_generic b st T target_words start n on_match opaque =
  scan S T target_words start n on_match opaque.
Proof.
  intros HS HT HTw. unfold sha256d_scan_nonce_range_generic, scan.
  rewrite take_ge by lia. rewrite <- scan_single.
  assert (H : forall m T', length T' = 4%nat -> is_words T' -> take 3 T' = take 3 T ->
    snd (for_range 0 m (fun i '(tail_words, opaque) =>
      let nonce := add32 start (Z.of_nat i) in
      let tail_words := <[3%nat := bswap32 nonce]> tail_words in
      let hash_words := sha256d_tail_words_func b st tail_words in
      (tail_words, check_nonce on_match target_words nonce hash_words opaque)) (T', opaque)) =
    for_range 0 m (fun i a => let nonce := nonce_at start (Z.of_nat i) in
      check_nonce on_match target_words nonce (nonce_hash S T nonce) a) opaque).
  2:{ by apply H. }
  intros m T' HT' HTw' Htake.
  cut (forall m, let r := for_range 0 m (fun i '(tail_words, opaque) =>
      let nonce := add32 start (Z.of_nat i) in
      let tail_words := <[3%nat := bswap32 nonce]> tail_words in
      let hash_words := sha256d_tail_words_func b st tail_words in
      (tail_words, check_nonce on_match target_words nonce hash_words opaque)) (T', opaque) in
    (length (fst r) = 4%nat /\ is_words (fst r) /\ take 3 (fst r) = take 3 T) /\
    snd r = for_range 0 m (fun i a => let nonce := nonce_at start (Z.of_nat i) in
      check_nonce on_match target_words nonce (nonce_hash S T nonce) a) opaque).
  { intros Hm. apply Hm. }
  clear m. intros m. induction m as [|m IH]; [done|]. cbv zeta in *.
  rewrite !for_range_S_r. destruct (for_range 0 m _ (T', opaque)) as [T'' a].
  cbn [fst snd] in *. destruct IH as [(Hl & Hw & Ht) ->].
  assert (Hn : <[3%nat := bswap32 (nonce_at start (Z.of_nat (0 + m)))]> T'' =
    [T !!! 0%nat; T !!! 1%nat; T !!! 2%nat; bswap32 (nonce_at start (Z.of_nat (0 + m)))]).
  { destruct_list T HT. destruct_list T'' Hl. cbn in Ht. by simplify_eq. }
  assert (HTs : is_words (<[3%nat := bswap32 (nonce_at start (Z.of_nat (0 + m)))]> T'')).
  { apply Forall_insert; [done|]. auto with words. }
  fold (nonce_at start (Z.of_nat (0 + m))).
  rewrite (tail_words_func_spec b st S) by (done || by rewrite length_insert).
  split; [split_and!|].
  - by rewrite length_insert.
  - done.
  - by rewrite take_insert_ge by lia.
  - unfold nonce_hash. by rewrite Hn.
Qed.

(** The dispatched scan is the abstract scan. *)
Lemma nonce_range_scan {B} b st S T target_words start n (on_match : on_match_t B) (opaque : B) :
  midstate_of S st -> length T = 4%nat -> is_words T -> is_u32 n ->
  sha256d_nonce_range_func b st T target_words start n on_match opaque =
  scan S T target_words start n on_match opaque.
Proof.
  intros HS HT HTw Hn.
  pose proof (mo_fast _ _ HS) as Hf. pose proof (mo_length _ _ HS). pose proof (mo_words _ _ HS).
  destruct b; cbn [sha256d_nonce_range_func].
  - by apply generic_scan_spec.
  - by apply generic_scan_spec.
  - rewrite arm_scan_spec; by rewrite ?Hf.
  - rewrite x86_scan_spec; by rewrite ?Hf.
Qed.
End equivalence.

(** * Properties *)

(** The header of the first block of the chain, a concrete input. *)
Definition genesis_header : list Z :=
  le 4 1 ++ replicate 32 0 ++
  be 32 0x3ba3edfd7a7b12b27ac72c3e67768f617fc81bc3888a51323a9fb8aa4b1e5e4a ++
  le 4 1231006505 ++ le 4 0x1d00ffff ++ le 4 2083236893.

Example genesis_hash :
  Fips.sha256d genesis_header =
  le 32 0x000000000019d6689c085ae165831e934ff763ae46a2a6c172b3f1b60a8ce26f.
Proof. vm_compute. reflexivity. Qed.

Lemma midstate_hash_80 `{O : OpenSSL} `{!OpenSSLLaws O} `{X : X86} `{!X86Laws X}
    `{A : ARM} `{!ARMLaws A} (b : sha256d_backend_t) (h : list Z) :
  length h = 80%nat -> is_bytes h ->
  sha256d_80_midstate_hash b (sha256d_80_midstate_prepare (take 64 h)) (drop 64 h) = sha256d_80 h /\
  sha256d_80 h = Fips.sha256d h.
Proof.
  intros Hl Hb. rewrite sha256d_80_spec by done. split; [|done].
  rewrite sha256d_header by done. apply midstate_hash_spec.
  - apply prepare_midstate; [rewrite length_take; lia|by apply Forall_take].
  - rewrite length_drop. lia.
  - by apply Forall_drop.
Qed.

(** C1.  Whatever backend is selected, preparing the midstate from the first 64
    bytes of a header and hashing its last 16 gives the double SHA-256 of the 80
    bytes, which is also what the direct function [sha256d_80] returns. *)
Theorem midstate_hash_header `{O : OpenSSL} `{!OpenSSLLaws O} `{X : X86} `{!X86Laws X}
    `{A : ARM} `{!ARMLaws A} (b : sha256d_backend_t) (h : list Z) :
  length h = 80%nat -> is_bytes h ->
  sha256d_80_midstate_hash b (sha256d_80_midstate_prepare (take 64 h)) (drop 64 h) = sha256d_80 h /\
  sha256d_80 h = Fips.sha256d h.
Proof. apply midstate_hash_80. Qed.

Lemma midstate_hash_header_witness :
  @sha256d_80_midstate_hash ref_openssl ref_x86 ref_arm SHA256D_BACKEND_X86_SHA_NI
    (sha256d_80_midstate_prepare (take 64 genesis_header)) (drop 64 genesis_header) =
  @sha256d_80 ref_openssl genesis_header.
Proof.
  refine (proj1 (@midstate_hash_header ref_openssl ref_openssl_laws ref_x86 ref_x86_laws
                  ref_arm ref_arm_laws SHA256D_BACKEND_X86_SHA_NI genesis_header _ _)).
  - reflexivity.
  - apply (bool_decide_unpack (Forall is_u8 genesis_header)). vm_compute. exact I.
Defined.

(** C2.  A nonce scan is exact, whatever backend runs it: the callback is invoked
    once for each nonce of the (wrapping) range whose header hash meets the
    target, in range order and with that hash, and for no other. *)
Theorem scan_exact `{O : OpenSSL} `{!OpenSSLLaws O} `{X : X86} `{!X86Laws X}
    `{A : ARM} `{!ARMLaws A} {B : Type} (b : sha256d_backend_t) (st : sha256_midstate_t O)
    (S T target_words : list Z) (start n : Z) (f : Z -> list Z -> B -> B) (opaque : B) :
  midstate_of S st -> length T = 4%nat -> is_words T -> is_u32 n ->
  let ms := matches (nonce_hash S T) target_words start (Z.to_nat n) in
  sha256d_nonce_range_func b st T target_words start n (Some f) opaque =
    foldl (fun a nonce => f nonce (nonce_hash S T nonce) a) opaque ms /\
  NoDup ms /\
  (forall nonce, nonce ∈ ms <->
     hash_words_meet_target (nonce_hash S T nonce) target_words = true /\
     exists i, 0 <= i < n /\ nonce = u32 (start + i)).
Proof.
  intros HS HT HTw Hn ms. split_and!.
  - change (foldl _ opaque ms) with (scan S T target_words start n (Some f) opaque).
    by apply nonce_range_scan.
  - apply matches_NoDup. unfold is_u32 in Hn. lia.
  - intros nonce. unfold ms. rewrite elem_of_matches. unfold meets, nonce_at, add32.
    unfold is_u32 in Hn. split.
    + intros [Hm (i & Hi & ->)]. split; [done|]. exists (Z.of_nat i). split; [lia|done].
    + intros [Hm (i & Hi & ->)]. split; [done|]. exists (Z.to_nat i). split; [lia|].
      by rewrite Z2Nat.id by lia.
Qed.

Lemma scan_exact_witness :
  let h64 := take 64 genesis_header in
  let S := Fips.compress Fips.H0 (words_of_bytes 16 h64) in
  let T := words_of_bytes 4 (drop 64 genesis_header) in
  let target := [0; 0; 0; 0; 0; 0; 0xffff0000; 0] in
  @sha256d_nonce_range_func ref_openssl ref_x86 ref_arm _ SHA256D_BACKEND_X86_SHA_NI
    (sha256d_80_midstate_prepare h64) T target 2083236892 3
    (Some (fun nonce _ found => found ++ [nonce])) [] = [2083236893].
Proof.
  intros h64 S T target.
  destruct (@scan_exact ref_openssl ref_openssl_laws ref_x86 ref_x86_laws ref_arm ref_arm_laws
    (list Z) SHA256D_BACKEND_X86_SHA_NI (sha256d_80_midstate_prepare h64) S T target
    2083236892 3 (fun nonce _ found => found ++ [nonce]) []) as [-> _].
  - apply (@prepare_midstate ref_openssl ref_openssl_laws); [reflexivity|].
    apply (bool_decide_unpack (Forall is_u8 h64)). vm_compute. exact I.
  - reflexivity.
  - apply (bool_decide_unpack (Forall is_u32 T)). vm_compute. exact I.
  - unfold is_u32. lia.
  - vm_compute. reflexivity.
Defined.

(** Backend selection: the automatic choice is available and prefers SHA-NI,
    then ARM; setting a backend succeeds exactly when it is available, and from a
    state in which the selected backend is available it stays so, failures
    leaving it alone; every backend is parsed back from its own name. *)
Theorem backend_selection (c : cpu) (g b : sha256d_backend_t) :
  sha256d_backend_available c (sha256d_auto_backend c) = true /\
  (fst (sha256d_set_backend c g b) = 0 <-> sha256d_backend_available c b = true) /\
  (sha256d_backend_available c g = true ->
   sha256d_backend_available c (snd (sha256d_set_backend c g b)) = true) /\
  (fst (sha256d_set_backend c g b) <> 0 -> snd (sha256d_set_backend c g b) = g) /\
  sha256d_backend_available c g_backend_initial = true /\
  sha256d_parse_backend (Some (sha256d_backend_name b)) = Some b.
Proof.
  split_and!.
  - unfold sha256d_auto_backend.
    destruct (sha256d_backend_available c SHA256D_BACKEND_X86_SHA_NI) eqn:E; [done|].
    destruct (sha256d_backend_available c SHA256D_BACKEND_ARM_SHA2) eqn:E'; done.
  - unfold sha256d_set_backend. by destruct (sha256d_backend_available c b).
  - unfold sha256d_set_backend. by destruct (sha256d_backend_available c b) eqn:E.
  - unfold sha256d_set_backend. by destruct (sha256d_backend_available c b) eqn:E.
  - done.
  - by destruct b.
Qed.
