(* ===== verification/Hex.v ===== *)
(** C strings and the hexadecimal codecs of src/src/miner.c.

    A C string is a [string]; [strlen] is its length and the bytes after its
    terminator are not represented.  A failing function returns [None] for its -1;
    what it wrote to its output before failing is not used by any caller. *)
From stdpp Require Import base tactics list numbers strings option.
From Stdlib Require Import ZArith Lia Ascii.
From S2P Require Import Prelude Words.

#[local] Open Scope Z_scope.

Definition chars (s : string) : list ascii := String.list_ascii_of_string s.
Definition of_chars (l : list ascii) : string := String.string_of_list_ascii l.
Definition strlen (s : string) : nat := String.length s.

(** Reading the terminator gives the null character. *)
#[export] Instance ascii_inhabited : Inhabited ascii := populate zero.

(** The code of a character, its [char] value for the ASCII range. *)
Definition code (c : ascii) : Z := Z.of_N (N_of_ascii c).

Lemma chars_of_chars l : chars (of_chars l) = l.
Proof. apply String.list_ascii_of_string_of_list_ascii. Qed.
Lemma of_chars_chars s : of_chars (chars s) = s.
Proof. apply String.string_of_list_ascii_of_string. Qed.
Lemma length_chars s : length (chars s) = strlen s.
Proof. unfold chars, strlen. induction s as [|c s IH]; [done|]. cbn. by rewrite IH. Qed.
Lemma chars_append s1 s2 : chars (s1 ++ s2)%string = chars s1 ++ chars s2.
Proof. unfold chars. induction s1 as [|c s1 IH]; [done|]. exact (f_equal (cons c) IH). Qed.

(** * Digits *)

Definition hex_value (c : ascii) : Z :=
  if (code "0" <=? code c) && (code c <=? code "9") then code c - code "0"
  else if (code "a" <=? code c) && (code c <=? code "f") then code c - code "a" + 10
  else if (code "A" <=? code c) && (code c <=? code "F") then code c - code "A" + 10
  else -1.

(** [strlen] and the two early returns, then the loop over the byte positions,
    which stops at the first bad digit. *)
Definition hex_to_bytes (hex : string) (out_len : nat) : option (list Z) :=
  let hex_len := strlen hex in
  if negb (hex_len mod 2 =? 0)%nat || negb (hex_len / 2 =? out_len)%nat then None
  else
    mapM (fun i =>
      let hi := hex_value (chars hex !!! (i * 2)%nat) in
      let lo := hex_value (chars hex !!! (i * 2 + 1)%nat) in
      if (hi <? 0) || (lo <? 0) then None
      else Some (u8 (Z.lor (Z.shiftl hi 4) lo))) (seq 0 out_len).

Definition hex_to_alloc (hex : string) : option (list Z) :=
  let hex_len := strlen hex in
  if negb (hex_len mod 2 =? 0)%nat then None
  else hex_to_bytes hex (hex_len / 2).

(** [copy_checked(dst, dst_size, src)] *)
Definition copy_checked (dst_size : nat) (src : string) : option string :=
  let len := strlen src in
  if (dst_size <=? len)%nat then None else Some src.

(** * Specification: lower-case hexadecimal *)

Definition hex_digit (d : Z) : ascii :=
  if d <? 10 then ascii_of_N (Z.to_N (code "0" + d)) else ascii_of_N (Z.to_N (code "a" + d - 10)).
Definition hex_byte (b : Z) : list ascii := [hex_digit (b / 16); hex_digit (b mod 16)].
Definition hex_of_bytes (bs : list Z) : string := of_chars (concat (hex_byte <$> bs)).

Definition lower_char (c : ascii) : ascii :=
  if (code "A" <=? code c) && (code c <=? code "F") then ascii_of_N (N_of_ascii c + 32) else c.
Definition lower (s : string) : string := of_chars (lower_char <$> chars s).

(** Facts on single characters are checked on all of them. *)
Definition all_ascii : list ascii := (fun n => ascii_of_nat n) <$> seq 0 256.
Lemma all_ascii_complete c : c ∈ all_ascii.
Proof.
  unfold all_ascii. apply list_elem_of_fmap. exists (nat_of_ascii c).
  split; [by rewrite ascii_nat_embedding|]. apply elem_of_seq.
  pose proof (nat_ascii_bounded c). lia.
Qed.
Lemma ascii_forall (P : ascii -> Prop) `{!forall c, Decision (P c)} :
  forallb (fun c => bool_decide (P c)) all_ascii = true -> forall c, P c.
Proof.
  intros Hall c. rewrite forallb_forall in Hall.
  specialize (Hall c (proj1 (list_elem_of_In _ _) (all_ascii_complete c))).
  by apply bool_decide_eq_true in Hall.
Qed.

Lemma hex_value_range c : -1 <= hex_value c < 16.
Proof. revert c. refine (ascii_forall _ _). vm_compute. reflexivity. Qed.

Lemma hex_value_digit c :
  0 <= hex_value c -> hex_digit (hex_value c) = lower_char c.
Proof. revert c. refine (ascii_forall _ _). vm_compute. reflexivity. Qed.

Lemma small_digits d : 0 <= d < 16 -> d ∈ Z.of_nat <$> seq 0 16.
Proof.
  intros Hd. apply list_elem_of_fmap. exists (Z.to_nat d). split; [lia|]. apply elem_of_seq. lia.
Qed.

Lemma lower_value c d : 0 <= d < 16 -> lower_char c = hex_digit d -> hex_value c = d.
Proof.
  intros Hd. revert c.
  assert (H : Forall (fun d => forall c, lower_char c = hex_digit d -> hex_value c = d)
                (Z.of_nat <$> seq 0 16)).
  { cbn [seq fmap list_fmap]. solve_Forall; refine (ascii_forall _ _); vm_compute; reflexivity. }
  rewrite list.Forall_forall in H. by apply H, small_digits.
Qed.

Lemma hex_byte_pair hi lo :
  0 <= hi < 16 -> 0 <= lo < 16 -> u8 (Z.lor (Z.shiftl hi 4) lo) = hi * 16 + lo.
Proof.
  intros. rewrite lor_shiftl_add by lia. apply u8_small. unfold is_u8. lia.
Qed.

(** The decoder as a structural recursion on the characters. *)
Definition hex_pair (hi lo : ascii) : option Z :=
  if (hex_value hi <? 0) || (hex_value lo <? 0) then None
  else Some (hex_value hi * 16 + hex_value lo).
Fixpoint hex_pairs (l : list ascii) : option (list Z) :=
  match l with
  | [] => Some []
  | hi :: lo :: l =>
      b ← hex_pair hi lo; bs ← hex_pairs l; Some (b :: bs)
  | _ => None
  end.

Lemma mapM_fmap_eq {A B C} (g : A -> B) (f : B -> option C) l :
  mapM f (g <$> l) = mapM (f ∘ g) l.
Proof. induction l as [|x l IH]; [done|]. cbn. by rewrite IH. Qed.

Lemma mapM_ext_eq {A B} (f g : A -> option B) l : (forall x, f x = g x) -> mapM f l = mapM g l.
Proof. intros H. induction l as [|x l IH]; [done|]. cbn. by rewrite H, IH. Qed.

Lemma mapM_hex_pairs n l :
  length l = (2 * n)%nat ->
  mapM (fun i => hex_pair (l !!! (i * 2)%nat) (l !!! (i * 2 + 1)%nat)) (seq 0 n) = hex_pairs l.
Proof.
  revert l. induction n as [|n IH]; intros l Hl; [by destruct l|].
  destruct l as [|hi [|lo l]]; [cbn in Hl; lia..|].
  cbn [seq mapM hex_pairs]. rewrite <- (fmap_S_seq 0), mapM_fmap_eq.
  rewrite <- (IH l) by (cbn in Hl; lia). done.
Qed.

Lemma hex_to_bytes_pairs s n :
  hex_to_bytes s n = if bool_decide (strlen s = (2 * n)%nat) then hex_pairs (chars s) else None.
Proof.
  unfold hex_to_bytes. cbv zeta.
  pose proof (Nat.div_mod (strlen s) 2 ltac:(lia)) as Hd.
  pose proof (Nat.mod_upper_bound (strlen s) 2 ltac:(lia)) as Hm.
  case_bool_decide as Hs.
  - rewrite (proj2 (Nat.eqb_eq (strlen s mod 2) 0)) by lia.
    rewrite (proj2 (Nat.eqb_eq (strlen s / 2) n)) by lia. cbn [negb orb].
    rewrite <- (mapM_hex_pairs n) by by rewrite length_chars.
    apply mapM_ext_eq. intros i. unfold hex_pair.
    pose proof (hex_value_range (chars s !!! (i * 2)%nat)).
    pose proof (hex_value_range (chars s !!! (i * 2 + 1)%nat)).
    destruct (Z.ltb_spec (hex_value (chars s !!! (i * 2)%nat)) 0); [done|].
    destruct (Z.ltb_spec (hex_value (chars s !!! (i * 2 + 1)%nat)) 0); [done|].
    by rewrite hex_byte_pair by lia.
  - destruct (Nat.eqb_spec (strlen s mod 2) 0); [|done].
    destruct (Nat.eqb_spec (strlen s / 2) n); [|done]. lia.
Qed.

Lemma hex_byte_lower hi lo b :
  is_u8 b -> hex_pair hi lo = Some b <-> [lower_char hi; lower_char lo] = hex_byte b.
Proof.
  intros Hb. unfold hex_pair, hex_byte.
  assert (Hdm : b = 16 * (b / 16) + b mod 16 /\ 0 <= b mod 16 < 16 /\ 0 <= b / 16 < 16).
  { unfold is_u8 in Hb. split; [apply Z.div_mod; lia|]. split; [apply Z.mod_pos_bound; lia|].
    split; [apply Z.div_pos; lia|apply Z.div_lt_upper_bound; lia]. }
  pose proof (hex_value_range hi) as Hhi. pose proof (hex_value_range lo) as Hlo.
  split.
  - destruct (Z.ltb_spec (hex_value hi) 0); [done|].
    destruct (Z.ltb_spec (hex_value lo) 0); [done|]. cbn [orb]. intros [= Heq].
    rewrite <- (hex_value_digit hi), <- (hex_value_digit lo) by lia.
    assert (hex_value hi = b / 16) as -> by lia. by assert (hex_value lo = b mod 16) as -> by lia.
  - intros [= Hh Hl]. apply lower_value in Hh, Hl; [|lia..].
    destruct (Z.ltb_spec (hex_value hi) 0); [lia|].
    destruct (Z.ltb_spec (hex_value lo) 0); [lia|]. cbn [orb]. f_equal. lia.
Qed.

Lemma hex_pair_range hi lo b : hex_pair hi lo = Some b -> is_u8 b.
Proof.
  unfold hex_pair. pose proof (hex_value_range hi). pose proof (hex_value_range lo).
  destruct (Z.ltb_spec (hex_value hi) 0); [done|].
  destruct (Z.ltb_spec (hex_value lo) 0); [done|]. cbn [orb]. intros [= <-].
  unfold is_u8. lia.
Qed.

Lemma hex_pairs_spec l bs :
  hex_pairs l = Some bs <-> is_bytes bs /\ lower_char <$> l = concat (hex_byte <$> bs).
Proof.
  split.
  - revert bs. induction l as [| c | hi lo l IH] using list_pair_ind; intros bs H.
    + injection H as <-. split; [constructor|done].
    + done.
    + cbn [hex_pairs] in H. destruct (hex_pair hi lo) as [b|] eqn:E; [|done]. cbn in H.
      destruct (hex_pairs l) as [bs'|]; [|done]. injection H as <-.
      destruct (IH bs' eq_refl) as [Hb Hl]. pose proof (hex_pair_range _ _ _ E) as Hbb.
      split; [by constructor|]. apply (hex_byte_lower hi lo b Hbb) in E.
      cbn [fmap list_fmap concat] in *. rewrite <- Hl, <- E. done.
  - intros [Hb Hl]. revert l Hl. induction Hb as [|b bs Hb Hbs IH]; intros l Hl.
    + by destruct l.
    + destruct l as [|hi [|lo l]]; [done..|]. cbn [fmap list_fmap concat] in Hl.
      injection Hl as Hh Hlo Hl. cbn [hex_pairs].
      rewrite (proj2 (hex_byte_lower hi lo b Hb)) by (unfold hex_byte; congruence).
      cbn. by rewrite (IH l Hl).
Qed.

Lemma length_hex_bytes bs : length (concat (hex_byte <$> bs)) = (2 * length bs)%nat.
Proof. induction bs as [|b bs IH]; [done|]. cbn in *. lia. Qed.

Lemma chars_lower s : chars (lower s) = lower_char <$> chars s.
Proof. unfold lower. apply chars_of_chars. Qed.
Lemma chars_hex_of_bytes bs : chars (hex_of_bytes bs) = concat (hex_byte <$> bs).
Proof. apply chars_of_chars. Qed.
Lemma chars_inj s1 s2 : chars s1 = chars s2 -> s1 = s2.
Proof. intros H. by rewrite <- (of_chars_chars s1), <- (of_chars_chars s2), H. Qed.

Lemma lower_eq s bs :
  lower s = hex_of_bytes bs <-> lower_char <$> chars s = concat (hex_byte <$> bs).
Proof.
  rewrite <- chars_lower, <- chars_hex_of_bytes. split; [by intros ->|apply chars_inj].
Qed.

Lemma lower_strlen s bs : lower s = hex_of_bytes bs -> strlen s = (2 * length bs)%nat.
Proof.
  intros H. apply lower_eq in H. rewrite <- length_chars, <- length_hex_bytes, <- H.
  symmetry. apply length_fmap.
Qed.

(** The decoder accepts exactly the encodings, of any case, of [out_len] bytes. *)
Lemma hex_to_bytes_spec s n bs :
  hex_to_bytes s n = Some bs <-> is_bytes bs /\ length bs = n /\ lower s = hex_of_bytes bs.
Proof.
  rewrite hex_to_bytes_pairs. case_bool_decide as Hs.
  - rewrite hex_pairs_spec, lower_eq. split; [|naive_solver].
    intros [Hb Hl]. split; [done|]. split; [|done].
    apply (f_equal length) in Hl. rewrite length_fmap, length_chars, length_hex_bytes in Hl. lia.
  - split; [done|]. intros (_ & <- & Hl). by apply lower_strlen in Hl.
Qed.

Lemma hex_to_alloc_spec s bs :
  hex_to_alloc s = Some bs <-> is_bytes bs /\ lower s = hex_of_bytes bs.
Proof.
  unfold hex_to_alloc. cbv zeta. pose proof (Nat.div_mod (strlen s) 2 ltac:(lia)) as Hd.
  destruct (Nat.eqb_spec (strlen s mod 2) 0) as [Hm|Hm]; cbn [negb].
  - rewrite hex_to_bytes_spec. split; [naive_solver|]. intros [Hb Hl]. split; [done|].
    split; [|done]. apply lower_strlen in Hl. lia.
  - split; [done|]. intros [_ Hl]. apply lower_strlen in Hl. exfalso. apply Hm.
    rewrite Hl, Nat.mul_comm. by apply Nat.Div0.mod_mul.
Qed.

Lemma lower_hex_of_bytes bs : is_bytes bs -> lower (hex_of_bytes bs) = hex_of_bytes bs.
Proof.
  intros Hb. apply lower_eq. rewrite chars_hex_of_bytes.
  assert (Hd : forall d, 0 <= d < 16 -> lower_char (hex_digit d) = hex_digit d).
  { intros d Hd. apply small_digits in Hd. revert d Hd. apply list.Forall_forall.
    apply (bool_decide_unpack _). vm_compute. exact I. }
  induction Hb as [|b bs Hb Hbs IH]; [done|].
  change (concat (hex_byte <$> b :: bs))
    with (hex_digit (b / 16) :: hex_digit (b mod 16) :: concat (hex_byte <$> bs)).
  unfold is_u8 in Hb. rewrite !fmap_cons, !Hd, IH; [done| |].
  - apply Z.mod_pos_bound. lia.
  - split; [apply Z.div_pos; lia|apply Z.div_lt_upper_bound; lia].
Qed.

Lemma hex_roundtrip bs : is_bytes bs -> hex_to_bytes (hex_of_bytes bs) (length bs) = Some bs.
Proof. intros Hb. apply hex_to_bytes_spec. by rewrite lower_hex_of_bytes. Qed.

(** * Field decoders *)

Definition hex_u32_to_le (hex : string) : option (list Z) :=
  tmp ← hex_to_bytes hex 4;
  Some [tmp !!! 3%nat; tmp !!! 2%nat; tmp !!! 1%nat; tmp !!! 0%nat].

(** The loop over the eight words; [memcpy(chunk, hex + i * 2, 8)]. *)
Definition prevhash_to_header_bytes (hex : string) : option (list Z) :=
  if negb (strlen hex =? 64)%nat then None
  else
    words ← mapM (fun k =>
      let i := (k * 4)%nat in
      let chunk := of_chars (take 8 (drop (i * 2) (chars hex))) in
      tmp ← hex_to_bytes chunk 4;
      Some [tmp !!! 3%nat; tmp !!! 2%nat; tmp !!! 1%nat; tmp !!! 0%nat]) (seq 0 8);
    Some (concat words).

Lemma rev4 (l : list Z) :
  length l = 4%nat -> [l !!! 3%nat; l !!! 2%nat; l !!! 1%nat; l !!! 0%nat] = reverse l.
Proof. intros Hl. by destruct_list l Hl. Qed.

Lemma hex_u32_to_le_spec hex out :
  hex_u32_to_le hex = Some out <->
  exists v, is_u32 v /\ lower hex = hex_of_bytes (be 4 v) /\ out = le 4 v.
Proof.
  unfold hex_u32_to_le. split.
  - destruct (hex_to_bytes hex 4) as [tmp|] eqn:E; [|done]. cbn [mbind option_bind]. intros [= <-].
    apply hex_to_bytes_spec in E as (Hb & Hl & Hlow). exists (of_be tmp).
    split; [|split].
    + pose proof (of_be_bound tmp Hb) as Hr. by rewrite Hl in Hr.
    + rewrite Hlow. by rewrite <- Hl, be_of_be.
    + rewrite rev4 by done. rewrite <- (be_of_be tmp Hb) at 1. rewrite Hl.
      unfold be. by rewrite reverse_involutive.
  - intros (v & Hv & Hlow & ->).
    rewrite (proj2 (hex_to_bytes_spec hex 4 (be 4 v))) by (split; [apply be_bytes|split; [apply length_be|done]]).
    cbn [mbind option_bind]. rewrite rev4 by apply length_be. unfold be.
    by rewrite reverse_involutive.
Qed.

(** The previous-hash field: eight big-endian words, each stored little-endian. *)
Definition words_le (ws : list Z) : list Z := concat (le 4 <$> ws).

Lemma hex_of_bytes_app b1 b2 :
  chars (hex_of_bytes (b1 ++ b2)) = chars (hex_of_bytes b1) ++ chars (hex_of_bytes b2).
Proof. by rewrite !chars_hex_of_bytes, fmap_app, concat_app. Qed.

Lemma lower_chunk l bs :
  lower_char <$> l = concat (hex_byte <$> bs) -> lower (of_chars l) = hex_of_bytes bs.
Proof. intros H. apply lower_eq. by rewrite chars_of_chars. Qed.

(** The body of the loop on one chunk, as [hex_u32_to_le]. *)
Lemma prevhash_chunks n l out :
  length l = (8 * n)%nat ->
  mapM (fun k => hex_u32_to_le (of_chars (take 8 (drop (k * 4 * 2) l)))) (seq 0 n) = Some out <->
  exists ws, length ws = n /\ is_words ws /\
    lower_char <$> l = concat (hex_byte <$> bytes_of_words ws) /\ out = le 4 <$> ws.
Proof.
  revert l out. induction n as [|n IH]; intros l out Hl.
  - destruct l; [|done]. split.
    + intros [= <-]. exists []. repeat split. constructor.
    + intros (ws & Hws & _ & _ & ->). by destruct ws.
  - cbn [seq mapM]. rewrite <- (fmap_S_seq 0), mapM_fmap_eq.
    rewrite (mapM_ext_eq _ (fun k => hex_u32_to_le (of_chars (take 8 (drop (k * 4 * 2) (drop 8 l))))))
      by (intros k; cbn; by rewrite drop_drop).
    assert (Hsplit : forall w ws, lower_char <$> l = concat (hex_byte <$> bytes_of_words (w :: ws)) <->
      lower_char <$> take 8 l = concat (hex_byte <$> be 4 w) /\
      lower_char <$> drop 8 l = concat (hex_byte <$> bytes_of_words ws)).
    { intros w ws. change (bytes_of_words (w :: ws)) with (be 4 w ++ bytes_of_words ws).
      rewrite fmap_app, concat_app. rewrite <- (take_drop 8 l) at 1. rewrite fmap_app.
      assert (H8 : length (lower_char <$> take 8 l) = length (concat (hex_byte <$> be 4 w))).
      { rewrite length_fmap, length_take, length_hex_bytes, length_be. lia. }
      split; [|by intros [-> ->]]. intros H. by apply app_inj_1. }
    change (0 * 4 * 2)%nat with 0%nat. rewrite drop_0. split.
    + destruct (hex_u32_to_le (of_chars (take 8 l))) as [b|] eqn:E; [|done]. cbn [mbind option_bind].
      destruct (mapM _ (seq 0 n)) as [bs|] eqn:E2; [|done]. intros [= <-].
      apply (IH (drop 8 l) bs) in E2 as (ws & Hws & Hw & Hlow & ->); [|rewrite length_drop; lia].
      apply hex_u32_to_le_spec in E as (v & Hv & Hlv & ->).
      apply lower_eq in Hlv. rewrite chars_of_chars in Hlv.
      exists (v :: ws). rewrite Hsplit. split; [by rewrite <- Hws|]. split; [by constructor|]. done.
    + intros (ws & Hws & Hw & Hlow & ->). destruct ws as [|w ws]; [done|].
      apply Hsplit in Hlow as [Hl1 Hl2]. apply Forall_cons_1 in Hw as [Hw Hws'].
      rewrite (proj2 (hex_u32_to_le_spec _ (le 4 w)))
        by (exists w; split; [done|]; split; [by apply lower_chunk|done]).
      cbn [mbind option_bind].
      rewrite (proj2 (IH (drop 8 l) (le 4 <$> ws) ltac:(rewrite length_drop; lia)));
        [done|]. exists ws. cbn in Hws. split; [lia|]. done.
Qed.

Lemma prevhash_spec hex out :
  prevhash_to_header_bytes hex = Some out <->
  exists ws, length ws = 8%nat /\ is_words ws /\
    lower hex = hex_of_bytes (bytes_of_words ws) /\ out = words_le ws.
Proof.
  unfold prevhash_to_header_bytes. cbv zeta.
  destruct (Nat.eqb_spec (strlen hex) 64) as [Hl|Hl]; cbn [negb].
  - rewrite <- length_chars in Hl.
    change (mapM _ (seq 0 8)) with
      (mapM (fun k => hex_u32_to_le (of_chars (take 8 (drop (k * 4 * 2) (chars hex))))) (seq 0 8)).
    split.
    + destruct (mapM _ (seq 0 8)) as [ws|] eqn:E; [|done]. cbn [mbind option_bind]. intros [= <-].
      apply prevhash_chunks in E as (us & Hu & Huw & Hlow & ->); [|done].
      exists us. by rewrite lower_eq.
    + intros (us & Hu & Huw & Hlow & ->). apply lower_eq in Hlow.
      rewrite (proj2 (prevhash_chunks 8 (chars hex) (le 4 <$> us) Hl)); [done|]. by exists us.
  - split; [done|]. intros (ws & Hws & _ & Hlow & _). exfalso. apply Hl.
    apply lower_strlen in Hlow. rewrite Hlow, length_bytes_of_words, Hws. done.
Qed.
