(* ===== verification/Float64.v ===== *)
(** The C type [double] as IEEE 754 binary64, on the Standard Library's
    executable specification, and the conversions the sources use. *)
From stdpp Require Import base tactics option.
From Stdlib Require Import ZArith Lia SpecFloat.
From S2P Require Import Prelude.

#[local] Open Scope Z_scope.

Definition double : Type := spec_float.
Definition prec : Z := 53.
Definition emax : Z := 1024.

Definition f64_add : double -> double -> double := SFadd prec emax.
Definition f64_sub : double -> double -> double := SFsub prec emax.
Definition f64_mul : double -> double -> double := SFmul prec emax.
Definition f64_div : double -> double -> double := SFdiv prec emax.
Definition f64_lt (x y : double) : bool := SFltb x y.
Definition f64_le (x y : double) : bool := SFleb x y.
Definition f64_eq (x y : double) : bool := SFeqb x y.

(** The double nearest to an integer: exact for every literal of the sources. *)
Definition f64_of_Z (z : Z) : double := binary_normalize prec emax z 0 false.
Definition f64_infinity : double := S754_infinity false.

Definition f64_finite (x : double) : bool :=
  match x with S754_zero _ | S754_finite _ _ _ => true | _ => false end.

(** The value truncated toward zero; [None] for infinities and NaN. *)
Definition f64_trunc (x : double) : option Z :=
  match x with
  | S754_zero _ => Some 0
  | S754_finite s m e =>
      let a := if 0 <=? e then Z.shiftl (Zpos m) e else Z.shiftr (Zpos m) (- e) in
      Some (if s then - a else a)
  | _ => None
  end.

(** A conversion to an unsigned type is undefined when the truncated value does
    not fit: [None]. *)
Definition f64_to_u32 (x : double) : option Z :=
  z ← f64_trunc x; if (0 <=? z) && (z <? 2 ^ 32) then Some z else None.

Lemma f64_to_u32_range x m : f64_to_u32 x = Some m -> is_u32 m.
Proof.
  unfold f64_to_u32. destruct (f64_trunc x) as [z|]; [|done]. cbn [mbind option_bind].
  destruct (Z.leb_spec 0 z); [|done]. destruct (Z.ltb_spec z (2 ^ 32)); [|done].
  cbn. intros [= <-]. done.
Qed.

Example f64_small : f64_trunc (f64_div (f64_of_Z 65535) (f64_of_Z 2)) = Some 32767.
Proof. vm_compute. reflexivity. Qed.

(** * Mantissas

    The results of rounding have at most 53 bits. *)
Definition f64_mantissa (x : double) : Prop :=
  match x with S754_finite _ m _ => Zpos m < 2 ^ 53 | _ => True end.

Lemma digits2_bounds p : 2 ^ (Zpos (digits2_pos p) - 1) <= Zpos p < 2 ^ Zpos (digits2_pos p).
Proof.
  induction p as [p IH|p IH|]; cbn [digits2_pos]; [| |done];
    rewrite Pos2Z.inj_succ, Z.pow_succ_r by lia;
    replace (Z.succ (Zpos (digits2_pos p)) - 1) with (Z.succ (Zpos (digits2_pos p) - 1)) by lia;
    rewrite Z.pow_succ_r by lia; lia.
Qed.
Lemma valid_mantissa x : valid_binary prec emax x = true -> f64_mantissa x.
Proof.
  destruct x as [| | |s m e]; try done. cbn. unfold bounded, canonical_mantissa, fexp.
  intros H. apply andb_true_iff in H as [H _]. apply Z.eqb_eq in H.
  pose proof (digits2_bounds m) as [_ Hm]. unfold prec in *.
  assert (2 ^ Zpos (digits2_pos m) <= 2 ^ 53) by (apply Z.pow_le_mono_r; lia). lia.
Qed.

Lemma shr_1_div2 r : 0 <= shr_m r -> shr_m (shr_1 r) = shr_m r / 2.
Proof.
  destruct r as [m r s]. cbn [shr_m]. intros Hm. destruct m as [|[p|p|]|]; try done; cbn [shr_1 shr_m];
    [rewrite Pos2Z.inj_xI|rewrite Pos2Z.inj_xO]; Z.to_euclidean_division_equations; lia.
Qed.
Lemma iter_shr_1 n r : 0 <= shr_m r -> shr_m (iter_pos shr_1 n r) = shr_m r / 2 ^ Zpos n.
Proof.
  assert (Hpos : forall k, 0 < 2 ^ Zpos k) by (intros; by apply Z.pow_pos_nonneg).
  revert r. induction n as [n IH|n IH|]; intros r Hr; cbn [iter_pos].
  - assert (0 <= shr_m (shr_1 r)) by (rewrite shr_1_div2 by done; apply Z.div_pos; lia).
    assert (0 <= shr_m (iter_pos shr_1 n (shr_1 r))) by (rewrite IH by done; apply Z.div_pos; [done|apply Hpos]).
    rewrite !IH, shr_1_div2 by done. specialize (Hpos n). rewrite !Z.div_div by lia. f_equal.
    replace (Zpos n~1) with (1 + (Zpos n + Zpos n)) by lia. rewrite !Z.pow_add_r by lia. lia.
  - assert (0 <= shr_m (iter_pos shr_1 n r)) by (rewrite IH by done; apply Z.div_pos; [done|apply Hpos]).
    rewrite !IH by done. specialize (Hpos n). rewrite Z.div_div by lia. f_equal.
    replace (Zpos n~0) with (Zpos n + Zpos n) by lia. rewrite Z.pow_add_r by lia. lia.
  - by apply shr_1_div2.
Qed.
Lemma shr_record_m m l : shr_m (shr_record_of_loc m l) = m.
Proof. by destruct l as [|[]]. Qed.
Lemma shr_fexp_bound m e l : 0 <= m -> 0 <= shr_m (fst (shr_fexp prec emax m e l)) < 2 ^ 53.
Proof.
  intros Hm. unfold shr_fexp, fexp. set (n := Z.max (Zdigits2 m + e - prec) (emin prec emax) - e).
  assert (Hn : Zdigits2 m - 53 <= n) by (unfold n, prec; lia). clearbody n.
  assert (Hd : m < 2 ^ Zdigits2 m) by (destruct m as [|p|]; [done|apply digits2_bounds|lia]).
  assert (Hpow : 2 ^ Zdigits2 m <= 2 ^ (53 + Z.max 0 n)).
  { apply Z.pow_le_mono_r; lia. }
  rewrite Z.pow_add_r in Hpow by lia.
  unfold shr. destruct n as [|n|n]; cbn [fst].
  - rewrite shr_record_m. rewrite Z.max_l in Hpow by lia. rewrite Z.mul_1_r in Hpow. lia.
  - rewrite iter_shr_1, shr_record_m by (by rewrite shr_record_m). rewrite Z.max_r in Hpow by lia. assert (0 < 2 ^ Zpos n) by (by apply Z.pow_pos_nonneg).
    split; [apply Z.div_pos; lia|apply Z.div_lt_upper_bound; lia].
  - rewrite shr_record_m. rewrite Z.max_l in Hpow by lia. rewrite Z.mul_1_r in Hpow. lia.
Qed.
Lemma binary_round_aux_mantissa s m e l : 0 <= m -> f64_mantissa (binary_round_aux prec emax s m e l).
Proof.
  intros Hm. unfold binary_round_aux. pose proof (shr_fexp_bound m e l Hm) as H1.
  destruct (shr_fexp prec emax m e l) as [r1 e1]. cbn [fst] in H1.
  assert (H2 : 0 <= round_nearest_even (shr_m r1) (loc_of_shr_record r1)).
  { unfold round_nearest_even. repeat case_match; lia. }
  pose proof (shr_fexp_bound _ e1 loc_Exact H2) as H3.
  destruct (shr_fexp prec emax _ e1 loc_Exact) as [r2 e2]. cbn [fst] in H3.
  destruct (shr_m r2); try done. case_match; [exact (proj2 H3)|done].
Qed.
Lemma binary_normalize_mantissa m e z : f64_mantissa (binary_normalize prec emax m e z).
Proof.
  destruct m; cbn [binary_normalize]; [done|..]; unfold binary_round;
    destruct (shl_align _ _ _); apply binary_round_aux_mantissa; lia.
Qed.
Lemma f64_sub_mantissa x y : f64_mantissa x -> f64_mantissa y -> f64_mantissa (f64_sub x y).
Proof.
  intros Hx Hy. destruct x as [[]|[]| |sx mx ex], y as [[]|[]| |sy my ey]; try done; apply binary_normalize_mantissa.
Qed.
