(* ===== verification/FloatOrder.v ===== *)
(** Rounding and order of binary64: results of the operations are canonical, the
    comparisons are an order, and a scaling by a factor below one never grows. *)
From stdpp Require Import base tactics option list.
From Stdlib Require Import ZArith Lia SpecFloat.
From S2P Require Import Prelude Float64.

#[local] Open Scope Z_scope.

(** * Digits *)

Lemma digits_bounds m : 0 < m -> 0 < Zdigits2 m /\ 2 ^ (Zdigits2 m - 1) <= m < 2 ^ Zdigits2 m.
Proof. destruct m as [|p|p]; try done. intros _. split; [done|apply digits2_bounds]. Qed.
Lemma digits_nonneg m : 0 <= m -> 0 <= Zdigits2 m.
Proof. by destruct m. Qed.
Lemma digits_le m k : 0 <= m -> 0 <= k -> m < 2 ^ k -> Zdigits2 m <= k.
Proof.
  intros Hm Hk Hlt. destruct (decide (m = 0)) as [->|Hne]; [done|].
  destruct (digits_bounds m) as [Hd [Hb _]]; [lia|].
  destruct (Z.le_gt_cases (Zdigits2 m) k) as [|Hgt]; [done|].
  assert (2 ^ k <= 2 ^ (Zdigits2 m - 1)) by (apply Z.pow_le_mono_r; lia). lia.
Qed.
Lemma digits_ge m k : 0 <= k -> 2 ^ k <= m -> k < Zdigits2 m.
Proof.
  intros Hk Hm. assert (0 < 2 ^ k) by (by apply Z.pow_pos_nonneg).
  destruct (digits_bounds m) as [_ [_ Hb]]; [lia|].
  apply (Z.pow_lt_mono_r_iff 2); [lia| |lia]. apply digits_nonneg. lia.
Qed.
Lemma digits_eq m k : 0 <= k -> 2 ^ k <= m < 2 ^ (k + 1) -> Zdigits2 m = k + 1.
Proof.
  intros Hk [Hl Hu]. assert (0 < 2 ^ k) by (by apply Z.pow_pos_nonneg).
  pose proof (digits_ge m k Hk Hl). pose proof (digits_le m (k + 1)). lia.
Qed.

(** * Rounding *)

(** A mantissa of at most 53 bits, or 2^53, as a double. *)
Definition normalized (s : bool) (m e : Z) : double :=
  if m =? 0 then S754_zero s
  else
    let '(m, e) := if m =? 2 ^ 53 then (2 ^ 52, e + 1) else (m, e) in
    if e <=? emax - prec then S754_finite s (Z.to_pos m) e else S754_infinity s.

Lemma shr_to m e l :
  0 <= m -> e <= fexp prec emax (Zdigits2 m + e) ->
  let E := fexp prec emax (Zdigits2 m + e) in
  shr_m (fst (shr_fexp prec emax m e l)) = m / 2 ^ (E - e) /\ snd (shr_fexp prec emax m e l) = E.
Proof.
  intros Hm HE E. unfold shr_fexp. fold E. destruct (E - e) as [|n|n] eqn:En; [| |lia]; cbn [shr fst snd].
  - rewrite shr_record_m, Z.div_1_r. lia.
  - rewrite iter_shr_1, shr_record_m by (by rewrite shr_record_m). lia.
Qed.

Lemma round_even_cases m l : round_nearest_even m l = m \/ round_nearest_even m l = m + 1.
Proof. unfold round_nearest_even. repeat case_match; auto. Qed.

(** A mantissa in the range of its exponent. *)
Definition in_binade (m E : Z) : Prop :=
  0 <= m <= 2 ^ 53 /\ emin prec emax <= E /\ (2 ^ 52 <= m \/ E = emin prec emax).

Lemma shr_normalized s m E :
  in_binade m E ->
  (let '(r, e) := shr_fexp prec emax m E loc_Exact in
   match shr_m r with
   | Z0 => S754_zero s
   | Zpos p => if Z.leb e (emax - prec) then S754_finite s p e else S754_infinity s
   | _ => S754_nan
   end) = normalized s m E.
Proof.
  intros (Hm & HE & Hr).
  assert (Hd : Zdigits2 m <= 54) by (apply digits_le; lia).
  assert (Hdn : 0 <= Zdigits2 m) by (apply digits_nonneg; lia).
  assert (Hfe : fexp prec emax (Zdigits2 m + E) = if m =? 2 ^ 53 then E + 1 else E).
  { unfold fexp, prec. destruct (Z.eqb_spec m (2 ^ 53)) as [->|Hne].
    - change (Zdigits2 (2 ^ 53)) with 54. unfold prec in *. lia.
    - assert (Zdigits2 m <= 53) by (apply digits_le; lia). unfold prec in *.
      destruct Hr as [Hr|Hr]; [|lia]. assert (52 < Zdigits2 m) by (apply digits_ge; lia). lia. }
  destruct (shr_to m E loc_Exact) as [Hs He]; [lia|rewrite Hfe; case_match; lia|].
  destruct (shr_fexp prec emax m E loc_Exact) as [r e]. cbn [fst snd] in Hs, He. rewrite Hfe in Hs, He.
  unfold normalized. destruct (Z.eqb_spec m (2 ^ 53)) as [->|Hne].
  - rewrite Hs, He. by replace (E + 1 - E) with 1 by lia.
  - rewrite Z.sub_diag, Z.div_1_r in Hs. rewrite Hs, He. by destruct m as [|p|p]; [..|lia].
Qed.

Lemma round_spec s m e l :
  0 <= m -> e <= fexp prec emax (Zdigits2 m + e) ->
  let E := fexp prec emax (Zdigits2 m + e) in
  exists m1, (m1 = m / 2 ^ (E - e) \/ m1 = m / 2 ^ (E - e) + 1) /\ in_binade m1 E /\
    binary_round_aux prec emax s m e l = normalized s m1 E.
Proof.
  intros Hm HE E. destruct (shr_to m e l Hm HE) as [Hs He]. fold E in Hs, He.
  unfold binary_round_aux. destruct (shr_fexp prec emax m e l) as [r e']. cbn [fst snd] in Hs, He. subst e'.
  set (m1 := round_nearest_even (shr_m r) (loc_of_shr_record r)).
  assert (Hm1 : m1 = m / 2 ^ (E - e) \/ m1 = m / 2 ^ (E - e) + 1) by (rewrite <- Hs; apply round_even_cases).
  clearbody m1. exists m1. split; [done|].
  assert (Hp : 0 < 2 ^ (E - e)) by (apply Z.pow_pos_nonneg; lia).
  assert (Hq : 0 <= m / 2 ^ (E - e)) by (by apply Z.div_pos).
  assert (Hb : in_binade m1 E); [|split; [done|by apply shr_normalized]].
  assert (Hd0 : 0 <= Zdigits2 m) by (by apply digits_nonneg).
  assert (HE2 : E = Zdigits2 m + e - 53 /\ emin prec emax <= E \/ E = emin prec emax /\ Zdigits2 m + e - 53 <= E)
    by (unfold E, fexp, prec; lia).
  assert (Hlt : m < 2 ^ Zdigits2 m) by (destruct m as [|p|]; [done|apply digits2_bounds|lia]).
  assert (Hup : m / 2 ^ (E - e) < 2 ^ 53).
  { apply Z.div_lt_upper_bound; [done|]. rewrite <- Z.pow_add_r by lia.
    assert (2 ^ Zdigits2 m <= 2 ^ (E - e + 53)) by (apply Z.pow_le_mono_r; lia). lia. }
  split; [lia|]. split; [lia|]. destruct HE2 as [[Heq _]|[? _]]; [left|by right].
  destruct (decide (m = 0)) as [->|Hne]; [exfalso; cbn in Heq; lia|].
  destruct (digits_bounds m) as [_ [Hlow _]]; [lia|].
  enough (2 ^ 52 <= m / 2 ^ (E - e)) by lia.
  apply Z.div_le_lower_bound; [done|]. rewrite <- Z.pow_add_r by lia.
  by replace (E - e + 52) with (Zdigits2 m - 1) by lia.
Qed.

Lemma normalized_valid s m E : in_binade m E -> valid_binary prec emax (normalized s m E) = true.
Proof.
  intros (Hm & HE & Hr). unfold normalized. destruct (Z.eqb_spec m 0) as [|Hne]; [done|].
  assert (Hgen : forall m E, 0 < m < 2 ^ 53 -> emin prec emax <= E -> (2 ^ 52 <= m \/ E = emin prec emax) ->
    valid_binary prec emax (if E <=? emax - prec then S754_finite s (Z.to_pos m) E else S754_infinity s) = true).
  { clear. intros m E Hm HE Hr. destruct (Z.leb_spec E (emax - prec)) as [HEm|]; [|done].
    cbn [valid_binary]. unfold bounded. apply andb_true_iff. split; [|by apply Z.leb_le].
    unfold canonical_mantissa. apply Z.eqb_eq. change (Zpos (digits2_pos (Z.to_pos m))) with (Zdigits2 (Zpos (Z.to_pos m))).
    rewrite Z2Pos.id by lia. assert (Zdigits2 m <= 53) by (apply digits_le; lia). unfold fexp, prec in *.
    destruct Hr as [Hr|Hr]; [|lia]. assert (52 < Zdigits2 m) by (apply digits_ge; lia). lia. }
  destruct (Z.eqb_spec m (2 ^ 53)) as [->|Hn]; apply Hgen; first [lia|by left].
Qed.

Lemma round_valid s m e l :
  0 <= m -> e <= fexp prec emax (Zdigits2 m + e) -> valid_binary prec emax (binary_round_aux prec emax s m e l) = true.
Proof.
  intros Hm He. destruct (round_spec s m e l Hm He) as (m1 & _ & Hb & ->). by apply normalized_valid.
Qed.

(** Doubles that are not negative and not NaN. *)
Definition nonneg (x : double) : Prop :=
  valid_binary prec emax x = true /\
  match x with S754_nan | S754_zero true | S754_infinity true | S754_finite true _ _ => False | _ => True end.

Lemma normalized_nonneg m E : in_binade m E -> nonneg (normalized false m E).
Proof. intros Hb. split; [by apply normalized_valid|]. unfold normalized. by repeat case_match. Qed.

Lemma digits_iter m d : Zdigits2 (Zpos (Pos.iter xO m d)) = Zdigits2 (Zpos m) + Zpos d.
Proof.
  induction d as [|d IH] using Pos.peano_ind; [cbn; lia|]. rewrite Pos.iter_succ.
  cbn [Zdigits2 digits2_pos] in *. lia.
Qed.
(** Aligning never loses digits and stops at the exponent asked for. *)
Lemma shl_align_spec m e e' :
  let '(m', e1) := shl_align m e e' in Zdigits2 (Zpos m') + e1 = Zdigits2 (Zpos m) + e /\ e1 = Z.min e e'.
Proof.
  unfold shl_align. destruct (e' - e) as [|d|d] eqn:Ed; [lia..|]. rewrite digits_iter. lia.
Qed.
Lemma binary_round_spec s m e :
  let E := fexp prec emax (Zdigits2 (Zpos m) + e) in
  exists m1, in_binade m1 E /\ binary_round prec emax s m e = normalized s m1 E.
Proof.
  intros E. unfold binary_round. fold (Zdigits2 (Zpos m)). fold E.
  pose proof (shl_align_spec m e E) as H. destruct (shl_align m e E) as [m' e1]. destruct H as [Hd He].
  destruct (round_spec s (Zpos m') e1 loc_Exact) as (m1 & _ & Hb & ->); [done|rewrite Hd; fold E; lia|].
  rewrite Hd in Hb |- *. by exists m1.
Qed.

Lemma normalize_valid m e z : valid_binary prec emax (binary_normalize prec emax m e z) = true.
Proof.
  destruct m as [|p|p]; [done|..]; cbn [binary_normalize];
    [destruct (binary_round_spec false p e) as (m1 & Hb & ->)|destruct (binary_round_spec true p e) as (m1 & Hb & ->)];
    by apply normalized_valid.
Qed.
Lemma f64_sub_valid x y :
  valid_binary prec emax x = true -> valid_binary prec emax y = true -> valid_binary prec emax (f64_sub x y) = true.
Proof.
  intros Hx Hy. destruct x as [[]|[]| |sx mx ex], y as [[]|[]| |sy my ey]; try done; apply normalize_valid.
Qed.

(** A difference of finite doubles that is not below or equal to zero. *)
Lemma f64_sub_positive x y :
  valid_binary prec emax x = true -> valid_binary prec emax y = true -> f64_finite x = true -> f64_finite y = true ->
  f64_le (f64_sub x y) (f64_of_Z 0) = false -> nonneg (f64_sub x y).
Proof.
  intros Vx Vy Fx Fy Hle. split; [by apply f64_sub_valid|]. revert Hle.
  assert (Hn : forall m e z, binary_normalize prec emax m e z <> S754_nan).
  { intros m e z. destruct m as [|p|p]; [done|..]; cbn [binary_normalize];
      [destruct (binary_round_spec false p e) as (m1 & _ & ->)|destruct (binary_round_spec true p e) as (m1 & _ & ->)];
      unfold normalized; by repeat case_match. }
  assert (Hnan : f64_sub x y <> S754_nan).
  { destruct x as [[]| | |[] mx ex], y as [[]| | |[] my ey]; try done; apply Hn. }
  by destruct (f64_sub x y) as [[]|[]| |[] m e].
Qed.

(** Counts convert to finite doubles. *)
Lemma f64_of_count n : 0 < n < 2 ^ 64 -> exists m e, f64_of_Z n = S754_finite false m e.
Proof.
  intros Hn. destruct n as [|p|p]; [lia| |lia]. unfold f64_of_Z. cbn [binary_normalize].
  destruct (binary_round_spec false p 0) as (m1 & (Hm & HE & Hr) & ->). revert Hm HE Hr.
  assert (Hd : Zdigits2 (Zpos p) <= 64) by (apply digits_le; lia).
  assert (Hl : 0 < Zdigits2 (Zpos p)) by done.
  set (d := Zdigits2 (Zpos p)) in *. clearbody d.
  unfold fexp, prec. set (E := Z.max _ _). intros Hm HE Hr.
  assert (HE2 : E <= 11) by (unfold E, emin, prec, emax; lia).
  assert (HE3 : E <> emin 53 emax) by (unfold E, emin, prec, emax; lia).
  unfold normalized. destruct (Z.eqb_spec m1 0); [lia|]. destruct (m1 =? 2 ^ 53); cbv iota beta;
    match goal with |- context [?e <=? _] => destruct (Z.leb_spec e (emax - prec)) as [|Hx] end;
    try (by eauto); unfold emax, prec in Hx; lia.
Qed.

(** A quotient is rounded once, at an exponent its operands bound. *)
Lemma f64_div_spec m e my ey :
  exists m1 D, Zdigits2 (Zpos m) + e - (Zdigits2 (Zpos my) + ey) <= D /\ in_binade m1 (fexp prec emax D) /\
    f64_div (S754_finite false m e) (S754_finite false my ey) = normalized false m1 (fexp prec emax D).
Proof.
  unfold f64_div, SFdiv, SFdiv_core_binary. cbn [xorb].
  set (d1 := Zdigits2 (Zpos m)). set (d2 := Zdigits2 (Zpos my)).
  set (e' := Z.min _ _). set (sh := e - ey - e').
  assert (Hm' : match sh with Z0 => Zpos m | Zpos _ => Z.shiftl (Zpos m) sh | Zneg _ => 0 end = Zpos m * 2 ^ sh).
  { assert (0 <= sh) by (unfold sh, e'; lia). destruct sh as [|k|k]; [by rewrite Z.mul_1_r|by apply Z.shiftl_mul_pow2|lia]. }
  rewrite Hm'. clear Hm'. destruct (Z.div_eucl (Zpos m * 2 ^ sh) (Zpos my)) as [q r] eqn:Eq.
  assert (Hsh : 0 <= sh) by (unfold sh, e'; lia).
  assert (Hq : q = Zpos m * 2 ^ sh / Zpos my) by (unfold Z.div; by rewrite Eq).
  assert (Hp : 0 < 2 ^ sh) by (by apply Z.pow_pos_nonneg).
  assert (Hq0 : 0 <= q) by (rewrite Hq; apply Z.div_pos; lia).
  assert (Hdq : d1 + sh - d2 <= Zdigits2 q).
  { destruct (Z.le_gt_cases (d1 + sh - d2) 0) as [Hle|Hgt]; [pose proof (digits_nonneg q Hq0); lia|].
    enough (d1 + sh - 1 - d2 < Zdigits2 q) by lia. apply digits_ge; [lia|]. rewrite Hq.
    apply Z.div_le_lower_bound; [done|].
    destruct (digits_bounds (Zpos m)) as [Hd1 [Hlo _]]; [done|]. destruct (digits_bounds (Zpos my)) as [Hd2 [_ Hhi]]; [done|].
    fold d1 in Hd1, Hlo. fold d2 in Hd2, Hhi.
    assert (2 ^ d2 * 2 ^ (d1 + sh - 1 - d2) = 2 ^ (d1 - 1) * 2 ^ sh) as Hpow by (rewrite <- !Z.pow_add_r by lia; f_equal; lia).
    assert (0 < 2 ^ (d1 + sh - 1 - d2)) by (apply Z.pow_pos_nonneg; lia). nia. }
  assert (He' : e' <= fexp prec emax (d1 + e - (d2 + ey))) by (unfold e'; fold d1 d2; lia).
  destruct (round_spec false q e' (new_location (Zpos my) r)) as (m1 & _ & Hb & E);
    [done|unfold fexp in *; unfold sh in Hdq; lia|].
  exists m1, (Zdigits2 q + e'). split; [unfold sh in Hdq; lia|]. by split.
Qed.

Lemma f64_div_nonneg m e y :
  nonneg y -> f64_le y (f64_of_Z 0) = false -> nonneg (f64_div (S754_finite false m e) y).
Proof.
  intros [_ Hy] H0. destruct y as [[]|[]| |[] my ey]; try done.
  destruct (f64_div_spec m e my ey) as (m1 & D & _ & Hb & ->). by apply normalized_nonneg.
Qed.

(** * Order *)

(** Infinities and NaN aside, the comparison is by sign, exponent and mantissa. *)
Lemma f64_lt_finite m1 e1 m2 e2 :
  f64_lt (S754_finite false m1 e1) (S754_finite false m2 e2) = true <->
  e1 < e2 \/ e1 = e2 /\ Zpos m1 < Zpos m2.
Proof.
  unfold f64_lt, SFltb. cbn [SFcompare]. change (Pos.compare_cont Eq m1 m2) with (Pos.compare m1 m2).
  destruct (Z.compare_spec e1 e2) as [->|H|H]; [|split; [by left|done]|split; [done|lia]].
  destruct (Pos.compare_spec m1 m2) as [->|H|H]; split; try done; lia.
Qed.

Lemma f64_lt_irrefl x : f64_lt x x = false.
Proof.
  destruct x as [[]|[]| |[] m e]; try done; unfold f64_lt, SFltb; cbn [SFcompare];
    rewrite Z.compare_refl; change (Pos.compare_cont Eq m m) with (Pos.compare m m); by rewrite Pos.compare_refl.
Qed.

(** On the doubles that occur as rates the order is total. *)
Lemma f64_lt_trans x y z : nonneg x -> nonneg y -> nonneg z -> f64_lt x y = true -> f64_lt y z = true -> f64_lt x z = true.
Proof.
  intros [_ Hx] [_ Hy] [_ Hz].
  destruct x as [[]|[]| |[] mx ex], y as [[]|[]| |[] my ey], z as [[]|[]| |[] mz ez]; try done.
  rewrite !f64_lt_finite. lia.
Qed.
Lemma f64_not_lt_trans x y z :
  nonneg x -> nonneg y -> nonneg z -> f64_lt y x = false -> f64_lt z y = false -> f64_lt z x = false.
Proof.
  intros [_ Hx] [_ Hy] [_ Hz].
  destruct x as [[]|[]| |[] mx ex], y as [[]|[]| |[] my ey], z as [[]|[]| |[] mz ez]; try done.
  rewrite <- !not_true_iff_false, !f64_lt_finite. lia.
Qed.
Lemma f64_lt_asym x y : nonneg x -> nonneg y -> f64_lt x y = true -> f64_lt y x = false.
Proof.
  intros [_ Hx] [_ Hy]. destruct x as [[]|[]| |[] mx ex], y as [[]|[]| |[] my ey]; try done.
  rewrite <- not_true_iff_false, !f64_lt_finite. lia.
Qed.

(** * Scaling *)

(** A factor of at least one half and below one. *)
Definition below_one (c : double) : Prop :=
  match c with S754_finite false m e => e = - 53 /\ 2 ^ 52 <= Zpos m < 2 ^ 53 | _ => False end.

Lemma f64_scale_le x c : nonneg x -> below_one c -> f64_lt x (f64_mul x c) = false /\ nonneg (f64_mul x c).
Proof.
  intros [Hv Hx] Hc. destruct c as [| | |[] mc ec]; try done. destruct Hc as [-> Hc].
  destruct x as [[]|[]| |[] m e]; try done.
  unfold f64_mul, SFmul. cbn [xorb]. cbn [valid_binary] in Hv. unfold bounded in Hv.
  apply andb_true_iff in Hv as [Hcan He]. apply Z.leb_le in He. unfold canonical_mantissa in Hcan. apply Z.eqb_eq in Hcan.
  fold (Zdigits2 (Zpos m)) in Hcan. set (M := Zpos (m * mc)).
  assert (HM : M = Zpos m * Zpos mc) by done.
  assert (HdM : Zdigits2 (Zpos m) + 52 <= Zdigits2 M <= Zdigits2 (Zpos m) + 53).
  { destruct (digits_bounds (Zpos m)) as [Hd [Hlo Hhi]]; [done|]. set (d := Zdigits2 (Zpos m)) in *. clearbody d.
    assert (2 ^ (d + 53) = 2 ^ d * 2 ^ 53) by (apply Z.pow_add_r; lia).
    assert (2 ^ (d - 1 + 52) = 2 ^ (d - 1) * 2 ^ 52) by (apply Z.pow_add_r; lia).
    split; [enough (d - 1 + 52 < Zdigits2 M) by lia; apply digits_ge; [lia|]|apply digits_le; [lia..|]]; rewrite HM; nia. }
  assert (Hm53 : Zpos m < 2 ^ 53).
  { destruct (digits_bounds (Zpos m)) as [Hd [_ Hhi]]; [done|]. unfold fexp, prec in Hcan.
    assert (2 ^ Zdigits2 (Zpos m) <= 2 ^ 53) by (apply Z.pow_le_mono_r; lia). lia. }
  assert (HE1 : fexp prec emax (Zdigits2 M + (e + -53)) <= e) by (rewrite <- Hcan at 2; unfold fexp; lia).
  assert (HE0 : e - 1 <= fexp prec emax (Zdigits2 M + (e + -53))) by (rewrite <- Hcan at 1; unfold fexp; lia).
  destruct (round_spec false M (e + -53) loc_Exact) as (m1 & Hm1 & Hb & ->); [done|lia|].
  set (E := fexp prec emax (Zdigits2 M + (e + -53))) in *. clearbody E.
  split; [|by apply normalized_nonneg].
  destruct (decide (E = e)) as [->|Hne].
  - replace (e - (e + -53)) with 53 in Hm1 by lia.
    assert (M / 2 ^ 53 < Zpos m) by (apply Z.div_lt_upper_bound; [done|]; nia).
    unfold normalized. destruct (Z.eqb_spec m1 0); [done|]. destruct (Z.eqb_spec m1 (2 ^ 53)); [lia|].
    destruct (Z.leb_spec e (emax - prec)); [|lia]. apply not_true_iff_false. rewrite f64_lt_finite.
    destruct Hb. lia.
  - assert (Hmin : e <> emin prec emax) by (destruct Hb as (_ & ? & _); lia).
    assert (2 ^ 52 <= Zpos m).
    { destruct (digits_bounds (Zpos m)) as [Hd [Hlo _]]; [done|]. unfold fexp, prec in Hcan, Hmin.
      assert (2 ^ 52 <= 2 ^ (Zdigits2 (Zpos m) - 1)) by (apply Z.pow_le_mono_r; lia). lia. }
    unfold normalized. destruct (Z.eqb_spec m1 0); [done|]. destruct (m1 =? 2 ^ 53);
      match goal with |- context [?e <=? _] => destruct (Z.leb_spec e (emax - prec)); [|lia] end;
      apply not_true_iff_false; rewrite f64_lt_finite; [change (Zpos (Z.to_pos (2 ^ 52))) with (2 ^ 52)|]; lia.
Qed.
