(* ===== verification/FloatScale.v ===== *)
(** Scaling of binary64 by powers of two: multiplication and division by 256 of a
    normal double are exact, and a quotient of 65535 is a normal double, zero or an
    infinity. *)
From stdpp Require Import base tactics option list.
From Stdlib Require Import ZArith Lia SpecFloat.
From S2P Require Import Prelude Float64 FloatOrder.

#[local] Open Scope Z_scope.

(** * Exact rounding *)

Definition exact_record (m : Z) : shr_record := {| shr_m := m; shr_r := false; shr_s := false |}.

Lemma shr_1_even m : 0 <= m -> shr_1 (exact_record (m * 2)) = exact_record m.
Proof. by destruct m as [|p|p]; [|intros _; rewrite Z.mul_comm|lia]. Qed.

Lemma iter_shr_even n m : 0 <= m -> iter_pos shr_1 n (exact_record (m * 2 ^ Zpos n)) = exact_record m.
Proof.
  assert (Hpos : forall k, 0 < 2 ^ Zpos k) by (intros; by apply Z.pow_pos_nonneg).
  revert m. induction n as [n IH|n IH|]; intros m Hm; cbn [iter_pos]; [..|by apply shr_1_even].
  - replace (m * 2 ^ Zpos n~1) with (m * 2 ^ Zpos n * 2 ^ Zpos n * 2)
      by (replace (Zpos n~1) with (Zpos n + Zpos n + 1) by lia; rewrite !Z.pow_add_r by lia; lia).
    specialize (Hpos n). rewrite shr_1_even by nia. by rewrite !IH by nia.
  - replace (m * 2 ^ Zpos n~0) with (m * 2 ^ Zpos n * 2 ^ Zpos n)
      by (replace (Zpos n~0) with (Zpos n + Zpos n) by lia; rewrite Z.pow_add_r by lia; lia).
    specialize (Hpos n). by rewrite !IH by nia.
Qed.

(** A mantissa that only loses zeros is not rounded. *)
Lemma round_exact s m e E :
  in_binade m E -> e <= E -> fexp prec emax (Zdigits2 (m * 2 ^ (E - e)) + e) = E ->
  binary_round_aux prec emax s (m * 2 ^ (E - e)) e loc_Exact = normalized s m E.
Proof.
  intros Hb He HE. unfold binary_round_aux, shr_fexp. rewrite HE.
  assert (Hs : shr (shr_record_of_loc (m * 2 ^ (E - e)) loc_Exact) e (E - e) = (exact_record m, E)).
  { destruct Hb as [Hm _]. unfold shr. destruct (E - e) as [|n|n] eqn:En; [| |lia].
    - f_equal; [by rewrite Z.mul_1_r|lia].
    - f_equal; [apply (iter_shr_even n m); lia|lia]. }
  rewrite Hs. cbn [shr_m exact_record loc_of_shr_record round_nearest_even]. by apply shr_normalized.
Qed.

(** * Normal doubles *)

Record normal (m : positive) (e : Z) : Prop := {
  no_mantissa : 2 ^ 52 <= Zpos m < 2 ^ 53;
  no_exponent : -1074 <= e <= 971;
}.

Lemma normalized_normal m e : normal m e -> normalized false (Zpos m) e = S754_finite false m e.
Proof.
  intros [Hm He]. unfold normalized. rewrite (proj2 (Z.eqb_neq _ 0)), (proj2 (Z.eqb_neq _ (2 ^ 53))) by lia.
  by rewrite (proj2 (Z.leb_le e (emax - prec))) by (unfold emax, prec; lia).
Qed.
Lemma normal_binade m e : normal m e -> in_binade (Zpos m) e.
Proof. intros [Hm He]. unfold in_binade, emin, prec, emax. lia. Qed.

Lemma digits_shift m k : 0 < m -> 0 <= k -> Zdigits2 (m * 2 ^ k) = Zdigits2 m + k.
Proof.
  intros Hm Hk. destruct (digits_bounds m Hm) as [Hd [Hlo Hhi]].
  replace (Zdigits2 m + k) with (Zdigits2 m - 1 + k + 1) by lia. assert (0 < 2 ^ k) by (by apply Z.pow_pos_nonneg).
  apply digits_eq; [lia|]. replace (Zdigits2 m - 1 + k + 1) with (Zdigits2 m + k) by lia.
  rewrite !Z.pow_add_r by lia. nia.
Qed.
Lemma normal_digits m e : normal m e -> Zdigits2 (Zpos m) = 53.
Proof. intros [Hm _]. apply (digits_eq _ 52); lia. Qed.

Lemma of_Z_256 : f64_of_Z 256 = S754_finite false (2 ^ 52) (-44).
Proof. reflexivity. Qed.

Lemma f64_mul_256 m e :
  normal m e -> e + 8 <= 971 -> f64_mul (S754_finite false m e) (f64_of_Z 256) = S754_finite false m (e + 8).
Proof.
  intros Hn He. assert (Hn' : normal m (e + 8)) by (destruct Hn; split; lia).
  rewrite of_Z_256. unfold f64_mul, SFmul. cbn [xorb].
  replace (Zpos (m * 2 ^ 52)) with (Zpos m * 2 ^ (e + 8 - (e + -44)))
    by (replace (e + 8 - (e + -44)) with 52 by lia; done).
  rewrite round_exact; [by apply normalized_normal|by apply normal_binade|lia|].
  rewrite digits_shift, (normal_digits m e) by (done || lia). destruct Hn. unfold fexp, emin, prec, emax. lia.
Qed.

Lemma f64_div_256 m e :
  normal m e -> -1074 <= e - 9 -> f64_div (S754_finite false m e) (f64_of_Z 256) = S754_finite false m (e - 8).
Proof.
  intros Hn He. assert (Hn' : normal m (e - 8)) by (destruct Hn; split; lia).
  rewrite of_Z_256. unfold f64_div, SFdiv, SFdiv_core_binary. cbn [xorb].
  rewrite (normal_digits m e) by done. change (Zdigits2 (Zpos (2 ^ 52))) with 53.
  replace (Z.min (fexp prec emax (53 + e - (53 + -44))) (e - -44)) with (e - 9)
    by (destruct Hn; unfold fexp, emin, prec, emax; lia).
  replace (e - -44 - (e - 9)) with 53 by lia. rewrite Z.shiftl_mul_pow2 by lia.
  assert (Hq : Z.div_eucl (Zpos m * 2 ^ 53) (Zpos (2 ^ 52)) = (Zpos m * 2, 0)).
  { pose proof (Z.div_mod (Zpos m * 2 ^ 53) (2 ^ 52) ltac:(lia)) as Hdm. unfold Z.div, Z.modulo in Hdm.
    pose proof (Z_div_mult (Zpos m * 2) (2 ^ 52) ltac:(lia)) as Hd. pose proof (Z_mod_mult (Zpos m * 2) (2 ^ 52)) as Hm.
    replace (Zpos m * 2 ^ 53) with (Zpos m * 2 * 2 ^ 52) by lia. unfold Z.div in Hd. unfold Z.modulo in Hm.
    change (Zpos (2 ^ 52)) with (2 ^ 52). destruct (Z.div_eucl (Zpos m * 2 * 2 ^ 52) (2 ^ 52)). by subst. }
  rewrite Hq. change (new_location (Zpos (2 ^ 52)) 0) with loc_Exact.
  replace (Zpos m * 2) with (Zpos m * 2 ^ (e - 8 - (e - 9))) by (replace (e - 8 - (e - 9)) with 1 by lia; lia).
  rewrite round_exact; [by apply normalized_normal|by apply normal_binade|lia|].
  rewrite digits_shift, (normal_digits m e) by (done || lia). destruct Hn. unfold fexp, emin, prec, emax. lia.
Qed.

(** * Quotients of 65535 *)

Lemma of_Z_65535 : f64_of_Z 65535 = S754_finite false 9007061815787520 (-37).
Proof. reflexivity. Qed.

(** Dividing by a finite double never underflows. *)
Lemma div_65535_finite my ey :
  valid_binary prec emax (S754_finite false my ey) = true ->
  f64_div (f64_of_Z 65535) (S754_finite false my ey) = S754_infinity false \/
  exists m e, normal m e /\ f64_div (f64_of_Z 65535) (S754_finite false my ey) = S754_finite false m e.
Proof.
  intros Hv. pose proof (valid_mantissa _ Hv) as Hmy. cbn [f64_mantissa] in Hmy.
  assert (Hey : ey <= 971) by (apply andb_true_iff in Hv as [_ Hv]; by apply Z.leb_le in Hv).
  pose proof (digits_le (Zpos my) 53 ltac:(lia) ltac:(lia) Hmy) as Hdy.
  rewrite of_Z_65535. destruct (f64_div_spec 9007061815787520 (-37) my ey) as (m1 & D & HD & (Hm & _ & Hr) & ->).
  change (Zdigits2 9007061815787520) with 53 in HD.
  assert (HE : fexp prec emax D = D - 53) by (unfold fexp, emin, prec, emax; lia). rewrite HE in *.
  assert (Hm1 : 2 ^ 52 <= m1) by (destruct Hr as [|Hr]; [done|unfold emin, prec, emax in Hr; lia]).
  unfold normalized. rewrite (proj2 (Z.eqb_neq m1 0)) by lia.
  destruct (Z.eqb_spec m1 (2 ^ 53)) as [->|Hne];
    match goal with |- context [?e <=? _] => destruct (Z.leb_spec e (emax - prec)) as [He|He] end;
    (by left) || (right; eexists _, _; split; [|done]; unfold emax, prec in He; split; lia).
Qed.

(** * The value of a normal double, scaled *)

(** Multiplied by 2^k and truncated. *)
Definition scaled (m : positive) (e k : Z) : Z := Z.shiftl (Zpos m) (e + k).

Lemma scaled_floor m e k : scaled m e k = if 0 <=? e + k then Zpos m * 2 ^ (e + k) else Zpos m / 2 ^ (- (e + k)).
Proof.
  unfold scaled. destruct (Z.leb_spec 0 (e + k)); [by apply Z.shiftl_mul_pow2|].
  rewrite <- (Z.opp_involutive (e + k)) at 1. rewrite Z.shiftl_opp_r. apply Z.shiftr_div_pow2. lia.
Qed.

(** The scaled value of a normal double reaches 2^n when its exponent does. *)
Lemma scaled_reaches m e k n : normal m e -> 0 <= n <= 52 -> 2 ^ n <= scaled m e k <-> n - 52 <= e + k.
Proof.
  intros [Hm _] Hn. rewrite scaled_floor. destruct (Z.leb_spec 0 (e + k)) as [H|H].
  - split; [lia|]. intros _. assert (0 < 2 ^ (e + k)) by (by apply Z.pow_pos_nonneg).
    assert (2 ^ n <= 2 ^ 52) by (apply Z.pow_le_mono_r; lia). nia.
  - assert (Hp : 0 < 2 ^ (- (e + k))) by (apply Z.pow_pos_nonneg; lia). split; intros Hle.
    + apply Z.nlt_ge. intros Hlt. assert (Zpos m / 2 ^ (- (e + k)) < 2 ^ n); [|lia].
      apply Z.div_lt_upper_bound; [done|]. rewrite <- Z.pow_add_r by lia.
      assert (2 ^ 53 <= 2 ^ (- (e + k) + n)) by (apply Z.pow_le_mono_r; lia). lia.
    + apply Z.div_le_lower_bound; [done|]. rewrite <- Z.pow_add_r by lia.
      assert (2 ^ (- (e + k) + n) <= 2 ^ 52) by (apply Z.pow_le_mono_r; lia). lia.
Qed.
