(* ===== verification/Target.v ===== *)
(** Share targets and difficulties of src/src/miner.c: the target computed from a
    pool difficulty, and the comparison of hashes with it, on bytes and on the
    words of the scans. *)
From stdpp Require Import base tactics list option numbers.
From Stdlib Require Import ZArith Lia SpecFloat.
From S2P Require Import Prelude Words Fips Sha256d Scan Float64 FloatOrder FloatScale.

#[local] Open Scope Z_scope.

(** * The target of a difficulty *)

(** The two loops carry [(mant, exp)]; each runs while its guard holds.  The
    guards bound [exp], so the fuel of [miner_target_from_difficulty] is never
    used up ([scale_down_done] and [scale_up_done]). *)
Definition scale_down_guard (s : double * Z) : bool :=
  f64_le (f64_of_Z 0x800000) (fst s) && (snd s <? 32).
Fixpoint scale_down (fuel : nat) (s : double * Z) : double * Z :=
  match fuel with
  | O => s
  | S fuel =>
      if scale_down_guard s
      then scale_down fuel (f64_div (fst s) (f64_of_Z 256), snd s + 1)
      else s
  end.

Definition scale_up_guard (s : double * Z) : bool :=
  f64_lt (f64_of_Z 0) (fst s) && f64_lt (fst s) (f64_of_Z 0x8000) && (3 <? snd s).
Fixpoint scale_up (fuel : nat) (s : double * Z) : double * Z :=
  match fuel with
  | O => s
  | S fuel =>
      if scale_up_guard s
      then scale_up fuel (f64_mul (fst s) (f64_of_Z 256), snd s - 1)
      else s
  end.

(** The mantissa and exponent the function arrives at. *)
Definition target_mantissa (difficulty : double) : double * Z :=
  let difficulty := if f64_le difficulty (f64_of_Z 0) then f64_of_Z 1 else difficulty in
  let mant := f64_div (f64_of_Z 65535) difficulty in
  scale_up 30 (scale_down 4 (mant, 29)).

(** [None]: the conversion [(uint32_t)mant] is undefined. *)
Definition miner_target_from_difficulty (difficulty : double) : option (list Z) :=
  let be_target := replicate 32 0 in
  let target := replicate 32 0 in
  let '(mant, exp) := target_mantissa difficulty in
  m ← f64_to_u32 mant;
  let idx := 32 - exp in
  if (0 <=? idx) && (idx + 2 <? 32) then
    let i := Z.to_nat idx in
    let be_target := <[i := u8 (Z.shiftr m 16)]> be_target in
    let be_target := <[(i + 1)%nat := u8 (Z.shiftr m 8)]> be_target in
    let be_target := <[(i + 2)%nat := u8 m]> be_target in
    Some (for_range 0 32 (fun i target => <[i := be_target !!! (31 - i)%nat]> target) target)
  else if idx <? 0 then Some (replicate 32 0xff)
  else Some target.

(** * Comparison *)

(** [for (i = 31; i >= 0; --i)] with its early returns; [n] is [i + 1]. *)
Fixpoint meets_loop (n : nat) (hash target : list Z) : bool :=
  match n with
  | O => true
  | S i =>
      if hash !!! i <? target !!! i then true
      else if target !!! i <? hash !!! i then false
      else meets_loop i hash target
  end.
Definition miner_hash_meets_target (hash target : list Z) : bool := meets_loop 32 hash target.

Definition diff1 : double :=
  f64_of_Z 26959535291011309493156476344723991336010898738574164086137773096960.
Definition miner_hash_difficulty (hash : list Z) : double :=
  let value := for_range 0 32 (fun j value =>
    let i := (31 - j)%nat in
    f64_add (f64_mul value (f64_of_Z 256)) (f64_of_Z (hash !!! i))) (f64_of_Z 0) in
  if f64_le value (f64_of_Z 0) then f64_infinity else f64_div diff1 value.

(** [load_le32 (p + off)] of miner.c. *)
Definition load_le32 (p : list Z) (off : nat) : Z :=
  Z.lor (Z.lor (Z.lor
    (p !!! off)
    (Z.shiftl (p !!! (off + 1)%nat) 8))
    (Z.shiftl (p !!! (off + 2)%nat) 16))
    (u32 (Z.shiftl (p !!! (off + 3)%nat) 24)).

(** * Lemmas *)

Lemma meets_loop_prefix n h h' t t' :
  (n <= length h)%nat -> (n <= length t)%nat ->
  meets_loop n (h ++ h') (t ++ t') = meets_loop n h t.
Proof.
  intros Hh Ht. induction n as [|n IH]; [done|]. cbn [meets_loop].
  rewrite !lookup_total_app_l by lia. by rewrite IH by lia.
Qed.

Lemma meets_loop_le n h t :
  length h = n -> length t = n -> is_bytes h -> is_bytes t ->
  meets_loop n h t = (of_le h <=? of_le t).
Proof.
  revert h t. induction n as [|n IH]; intros h t Hh Ht Hhb Htb.
  - destruct h, t; try done.
  - destruct (destruct_last h n Hh) as (h' & x & -> & Hh').
    destruct (destruct_last t n Ht) as (t' & y & -> & Ht').
    apply Forall_app in Hhb as [Hhb Hx], Htb as [Htb Hy].
    apply Forall_cons_1 in Hx as [Hx _], Hy as [Hy _].
    cbn [meets_loop]. rewrite !lookup_total_app_r by lia. rewrite Hh', Ht', Nat.sub_diag.
    change ([x] !!! 0%nat) with x. change ([y] !!! 0%nat) with y.
    destruct (Z.ltb_spec x y) as [Hlt|Hge].
    { symmetry. apply Z.leb_le, Z.lt_le_incl. by apply of_le_snoc_lt; [..|congruence|]. }
    destruct (Z.ltb_spec y x) as [Hlt|Hge'].
    { symmetry. apply Z.leb_gt. by apply of_le_snoc_lt; [..|congruence|]. }
    assert (x = y) as -> by lia.
    rewrite (meets_loop_prefix n h' [y] t' [y]) by lia.
    rewrite IH by done. rewrite !of_le_snoc, Hh', Ht'.
    destruct (Z.leb_spec (of_le h') (of_le t')); symmetry; [apply Z.leb_le|apply Z.leb_gt]; lia.
Qed.

(** The same for little-endian numbers of 32-bit digits. *)
Fixpoint of_words_le (l : list Z) : Z :=
  match l with [] => 0 | w :: l => w + 2 ^ 32 * of_words_le l end.

Lemma of_words_le_bytes ws :
  of_words_le ((fun w => of_le (be 4 w)) <$> ws) = of_le (bytes_of_words ws).
Proof.
  induction ws as [|w ws IH]; [done|].
  change (bytes_of_words (w :: ws)) with (be 4 w ++ bytes_of_words ws).
  rewrite of_le_app, length_be, <- IH. done.
Qed.

Lemma of_words_le_snoc l w :
  of_words_le (l ++ [w]) = of_words_le l + (2 ^ 32) ^ Z.of_nat (length l) * w.
Proof.
  induction l as [|x l IH]; [cbn [app of_words_le length]; lia|].
  cbn [app of_words_le length]. rewrite IH, Nat2Z.inj_succ, Z.pow_succ_r by lia. lia.
Qed.

Lemma of_words_le_bound l : is_words l -> 0 <= of_words_le l < (2 ^ 32) ^ Z.of_nat (length l).
Proof.
  induction 1 as [|w l Hw Hl IH]; [cbn; lia|].
  cbn [of_words_le length]. rewrite Nat2Z.inj_succ, Z.pow_succ_r by lia.
  unfold is_u32 in Hw. lia.
Qed.

Lemma meet_target_loop_prefix n h h' t t' :
  (n <= length h)%nat -> (n <= length t)%nat ->
  meet_target_loop n (h ++ h') (t ++ t') = meet_target_loop n h t.
Proof.
  intros Hh Ht. induction n as [|n IH]; [done|]. cbn [meet_target_loop].
  rewrite !lookup_total_app_l by lia. by rewrite IH by lia.
Qed.

Lemma meet_target_loop_le n h t :
  length h = n -> length t = n -> is_words t ->
  meet_target_loop n h t = (of_words_le (bswap32 <$> h) <=? of_words_le t).
Proof.
  revert h t. induction n as [|n IH]; intros h t Hh Ht Htw.
  - by destruct h, t.
  - destruct (destruct_last h n Hh) as (h' & x & -> & Hh').
    destruct (destruct_last t n Ht) as (t' & y & -> & Ht').
    apply Forall_app in Htw as [Htw Hy]. apply Forall_cons_1 in Hy as [Hy _].
    cbn [meet_target_loop]. rewrite !lookup_total_app_r by lia. rewrite Hh', Ht', Nat.sub_diag.
    change ([x] !!! 0%nat) with x. change ([y] !!! 0%nat) with y.
    rewrite meet_target_loop_prefix, IH by (done || lia).
    rewrite fmap_app. change (bswap32 <$> [x]) with [bswap32 x].
    rewrite !of_words_le_snoc, length_fmap, Hh', Ht'.
    assert (Hhb : is_words (bswap32 <$> h')) by (apply Forall_fmap, Forall_true; intros; apply bswap32_u32).
    apply of_words_le_bound in Hhb, Htw. rewrite length_fmap, Hh' in Hhb. rewrite Ht' in Htw.
    set (B := (2 ^ 32) ^ Z.of_nat n) in *.
    destruct (Z.ltb_spec (bswap32 x) y) as [Hlt|Hge].
    { symmetry. apply Z.leb_le. nia. }
    destruct (Z.ltb_spec y (bswap32 x)) as [Hlt|Hge'].
    { symmetry. apply Z.leb_gt. nia. }
    assert (bswap32 x = y) as -> by lia.
    destruct (Z.leb_spec (of_words_le (bswap32 <$> h')) (of_words_le t')); symmetry;
      [apply Z.leb_le|apply Z.leb_gt]; lia.
Qed.

Lemma load_le32_of_le p b0 b1 b2 b3 l :
  is_u8 b0 -> is_u8 b1 -> is_u8 b2 -> is_u8 b3 ->
  load_le32 (p ++ [b0; b1; b2; b3] ++ l) (length p) = of_le [b0; b1; b2; b3].
Proof.
  intros H0 H1 H2 H3. unfold load_le32. rewrite <- (Nat.add_0_r (length p)) at 1.
  rewrite !lookup_total_app_add. cbn [app lookup_total list_lookup_total].
  rewrite u32_small by (unfold is_u8, is_u32 in *; rewrite Z.shiftl_mul_pow2; lia).
  rewrite (Z.lor_comm b0), Z.lor_comm, (Z.lor_comm _ (Z.shiftl b2 16)), !Z.lor_assoc.
  fold (word4 b3 b2 b1 b0). by rewrite word4_of_be.
Qed.

Lemma load_le32_drop p off : load_le32 p (4 + off) = load_le32 (drop 4 p) off.
Proof. unfold load_le32. rewrite !lookup_total_drop, <- !Nat.add_assoc. done. Qed.

Lemma load_le32_words n t :
  length t = (4 * n)%nat -> is_bytes t ->
  is_words ((fun i => load_le32 t (i * 4)) <$> seq 0 n) /\
  of_words_le ((fun i => load_le32 t (i * 4)) <$> seq 0 n) = of_le t.
Proof.
  revert t. induction n as [|n IH]; intros t Hl Hb.
  - destruct t; [|done]. split; [constructor|done].
  - do 4 (destruct t as [|? t]; [cbn in Hl; lia|]).
    do 4 (apply Forall_cons_1 in Hb as [? Hb]).
    cbn [seq]. rewrite fmap_cons, <- (fmap_S_seq 0), <- list_fmap_compose.
    destruct (IH t ltac:(cbn in Hl; lia) Hb) as [Hw Heq].
    assert (Hload : load_le32 (z :: z0 :: z1 :: z2 :: t) (0 * 4) = of_le [z; z0; z1; z2])
      by by apply (load_le32_of_le []).
    rewrite Hload.
    assert (Hext : (fun i => load_le32 (z :: z0 :: z1 :: z2 :: t) (i * 4)) ∘ S <$> seq 0 n =
                   (fun i => load_le32 t (i * 4)) <$> seq 0 n).
    { apply list_fmap_ext. intros _ i _. cbn [compose Nat.mul].
      by rewrite load_le32_drop. }
    rewrite Hext. split.
    + constructor; [|done]. pose proof (of_le_bound [z; z0; z1; z2]) as Hz.
      apply Hz. by solve_Forall.
    + cbn [of_words_le]. rewrite Heq.
      change (z :: z0 :: z1 :: z2 :: t) with ([z; z0; z1; z2] ++ t). by rewrite of_le_app.
Qed.

Lemma hash_meets_le h t :
  length h = 32%nat -> length t = 32%nat -> is_bytes h -> is_bytes t ->
  miner_hash_meets_target h t = (of_le h <=? of_le t).
Proof. by apply meets_loop_le. Qed.

(** * The scaling loops *)

Lemma scale_down_stops fuel s :
  32 < snd s + Z.of_nat fuel -> scale_down_guard (scale_down fuel s) = false.
Proof.
  revert s. induction fuel as [|fuel IH]; intros s Hs.
  - cbn. unfold scale_down_guard. rewrite (proj2 (Z.ltb_ge (snd s) 32)) by lia. apply andb_false_r.
  - cbn [scale_down]. destruct (scale_down_guard s) eqn:E; [|done]. apply IH. cbn [snd]. lia.
Qed.

Lemma scale_down_exp fuel s :
  snd s <= 32 -> snd s <= snd (scale_down fuel s) <= 32.
Proof.
  revert s. induction fuel as [|fuel IH]; intros s Hs; [cbn; lia|].
  cbn [scale_down]. destruct (scale_down_guard s) eqn:E; [|lia].
  unfold scale_down_guard in E. apply andb_true_iff in E as [_ E]. apply Z.ltb_lt in E.
  specialize (IH (f64_div (fst s) (f64_of_Z 256), snd s + 1)). cbn [snd] in IH. lia.
Qed.

Lemma scale_up_stops fuel s :
  snd s - Z.of_nat fuel <= 3 -> scale_up_guard (scale_up fuel s) = false.
Proof.
  revert s. induction fuel as [|fuel IH]; intros s Hs.
  - cbn. unfold scale_up_guard. rewrite (proj2 (Z.ltb_ge 3 (snd s))) by lia. apply andb_false_r.
  - cbn [scale_up]. destruct (scale_up_guard s) eqn:E; [|done]. apply IH. cbn [snd]. lia.
Qed.

Lemma scale_up_exp fuel s :
  3 <= snd s -> 3 <= snd (scale_up fuel s) <= snd s.
Proof.
  revert s. induction fuel as [|fuel IH]; intros s Hs; [cbn; lia|].
  cbn [scale_up]. destruct (scale_up_guard s) eqn:E; [|lia].
  unfold scale_up_guard in E. apply andb_true_iff in E as [_ E]. apply Z.ltb_lt in E.
  specialize (IH (f64_mul (fst s) (f64_of_Z 256), snd s - 1)). cbn [snd] in IH. lia.
Qed.

Lemma target_mantissa_exp d : 3 <= snd (target_mantissa d) <= 32.
Proof.
  unfold target_mantissa. cbv zeta.
  set (s := scale_down 4 _).
  assert (Hs : 29 <= snd s <= 32) by (unfold s; apply (scale_down_exp 4 (_, 29)); cbn; lia).
  pose proof (scale_up_exp 30 s ltac:(lia)). lia.
Qed.

(** The target is the low 24 bits of the mantissa, placed by the exponent. *)
Lemma target_value m (e : nat) :
  is_u32 m -> (e <= 29)%nat ->
  let i := (29 - e)%nat in
  let be_target := replicate 32 0 in
  let be_target := <[i := u8 (Z.shiftr m 16)]> be_target in
  let be_target := <[(i + 1)%nat := u8 (Z.shiftr m 8)]> be_target in
  let be_target := <[(i + 2)%nat := u8 m]> be_target in
  let t := for_range 0 32 (fun i target => <[i := be_target !!! (31 - i)%nat]> target)
             (replicate 32 0) in
  t = replicate e 0 ++ le 3 m ++ replicate (29 - e) 0.
Proof.
  intros Hm He. cbv zeta. rewrite for_range_fill by done. rewrite drop_ge, app_nil_r by done.
  assert (Hle : le 3 m = [u8 m; u8 (Z.shiftr m 8); u8 (Z.shiftr m 16)]).
  { rewrite !shiftr_byte by lia. unfold u8. cbn [le]. by rewrite Z.div_div by lia. }
  rewrite Hle. clear Hle Hm.
  do 30 (destruct e as [|e]; [reflexivity|]). lia.
Qed.

(** * Properties *)

(** The three readings of "the hash meets the target" agree: the word loop of
    the scans on the byte-swapped hash words and the words of the target, the
    byte loop of [miner_hash_meets_target] on the serialised hash, and the
    comparison of the two 256-bit little-endian numbers. *)
Theorem meets_target_agree (hash_words target : list Z) :
  length hash_words = 8%nat -> length target = 32%nat -> is_bytes target ->
  let hash := sha256d_words_to_hash hash_words in
  let target_words := (fun i => load_le32 target (i * 4)) <$> seq 0 8 in
  hash_words_meet_target hash_words target_words = (of_le hash <=? of_le target) /\
  miner_hash_meets_target hash target = (of_le hash <=? of_le target).
Proof.
  intros Hw Ht Hb. cbv zeta. rewrite words_to_hash_bytes by done. split.
  - destruct (load_le32_words 8 target Ht Hb) as [Htw Hto].
    unfold hash_words_meet_target. rewrite meet_target_loop_le by done.
    rewrite Hto, <- of_words_le_bytes. do 2 f_equal. apply list_fmap_ext.
    intros _ w _. apply bswap32_of_le.
  - apply hash_meets_le; auto with words. by rewrite length_bytes_of_words, Hw.
Qed.

Lemma meets_target_agree_witness :
  let words := [1; 2; 3; 4; 5; 6; 7; 8] in
  let target := replicate 24 0xff ++ replicate 8 1 in
  miner_hash_meets_target (sha256d_words_to_hash words) target = false.
Proof.
  destruct (meets_target_agree [1; 2; 3; 4; 5; 6; 7; 8] (replicate 24 0xff ++ replicate 8 1))
    as [_ Hm].
  - reflexivity.
  - reflexivity.
  - apply (bool_decide_unpack (Forall is_u8 _)). vm_compute. exact I.
  - cbv zeta. rewrite Hm. vm_compute. reflexivity.
Defined.

(** The target in terms of the mantissa and the exponent. *)
Lemma target_layout (d : double) mant exp :
  target_mantissa d = (mant, exp) ->
  miner_target_from_difficulty d =
    (m ← f64_to_u32 mant;
     Some (replicate (Z.to_nat (exp - 3)) 0 ++ le 3 m ++ replicate (Z.to_nat (32 - exp)) 0)).
Proof.
  intros E. pose proof (target_mantissa_exp d) as He. rewrite E in He. cbn [snd] in He.
  unfold miner_target_from_difficulty. rewrite E. cbv zeta.
  destruct (f64_to_u32 mant) as [m|] eqn:Em; [|done]. cbn [mbind option_bind].
  apply f64_to_u32_range in Em.
  rewrite (proj2 (Z.leb_le 0 (32 - exp))), (proj2 (Z.ltb_lt (32 - exp + 2) 32)) by lia.
  cbn [andb]. f_equal.
  pose proof (target_value m (Z.to_nat (exp - 3)) Em ltac:(lia)) as Hv. cbv zeta in Hv.
  replace (29 - Z.to_nat (exp - 3))%nat with (Z.to_nat (32 - exp)) in Hv by lia. exact Hv.
Qed.

Lemma target_bytes (d : double) t :
  miner_target_from_difficulty d = Some t -> length t = 32%nat /\ is_bytes t.
Proof.
  destruct (target_mantissa d) as [mant exp] eqn:E. rewrite (target_layout d mant exp E).
  pose proof (target_mantissa_exp d) as He. rewrite E in He. cbn [snd] in He.
  destruct (f64_to_u32 mant) as [m|]; [|done]. cbn [mbind option_bind].
  intros H. apply (inj Some) in H as <-. split.
  - rewrite !length_app, !length_replicate, length_le. lia.
  - repeat apply Forall_app_2; try apply Forall_replicate; try apply le_bytes; done.
Qed.

(** ** The loops on a normal double *)

Lemma down_guard_normal m e x :
  normal m e -> scale_down_guard (S754_finite false m e, x) = (-29 <=? e) && (x <? 32).
Proof.
  intros [Hm _]. unfold scale_down_guard. cbn [fst snd]. f_equal.
  assert (Hc : exists c, Zpos c = 2 ^ 52 /\ f64_of_Z 0x800000 = S754_finite false c (-29)) by (by eexists).
  destruct Hc as (c & Hc & ->). unfold f64_le, SFleb. cbn [SFcompare].
  change (Pos.compare_cont Eq c m) with (Pos.compare c m). destruct (Z.compare_spec (-29) e) as [He|He|He].
  - rewrite (proj2 (Z.leb_le _ _)) by lia. destruct (Pos.compare_spec c m); [done..|lia].
  - by rewrite (proj2 (Z.leb_le _ _)) by lia.
  - by rewrite (proj2 (Z.leb_gt _ _)) by lia.
Qed.
Lemma up_guard_normal m e x :
  normal m e -> scale_up_guard (S754_finite false m e, x) = (e <? -37) && (3 <? x).
Proof.
  intros [Hm _]. unfold scale_up_guard. cbn [fst snd]. f_equal.
  change (f64_lt (f64_of_Z 0) (S754_finite false m e)) with true. cbn [andb].
  change (f64_of_Z 0x8000) with (S754_finite false 4503599627370496 (-37)).
  apply eq_bool_prop_intro. rewrite !Is_true_true, f64_lt_finite, Z.ltb_lt. lia.
Qed.

(** [scale_down] takes whole bytes off, and only ones above the 24 bits. *)
Lemma scale_down_normal fuel m e x :
  normal m e -> exists k, 0 <= k /\ normal m (e - 8 * k) /\ (k = 0 \/ -37 <= e - 8 * k) /\
    scale_down fuel (S754_finite false m e, x) = (S754_finite false m (e - 8 * k), x + k).
Proof.
  assert (Hstay : forall e x, normal m e -> exists k, 0 <= k /\ normal m (e - 8 * k) /\ (k = 0 \/ -37 <= e - 8 * k) /\
    (S754_finite false m e, x) = (S754_finite false m (e - 8 * k), x + k)).
  { clear. intros e x Hn. exists 0. rewrite Z.sub_0_r, Z.add_0_r. by split_and!; [|..|left|]. }
  revert e x. induction fuel as [|fuel IH]; intros e x Hn; cbn [scale_down]; [by apply Hstay|].
  rewrite down_guard_normal by done. destruct (Z.leb_spec (-29) e); cbn [andb]; [|by apply Hstay].
  destruct (x <? 32); [|by apply Hstay]. cbn [fst snd]. rewrite f64_div_256 by (done || lia).
  destruct (IH (e - 8) (x + 1)) as (k & Hk & Hn' & Hc & E); [destruct Hn; split; lia|].
  exists (k + 1). replace (e - 8 * (k + 1)) with (e - 8 - 8 * k) by lia.
  replace (x + (k + 1)) with (x + 1 + k) by lia. split_and!; [lia|done|right; lia|exact E].
Qed.
Lemma scale_up_normal fuel m e x :
  normal m e -> exists k, 0 <= k /\ normal m (e + 8 * k) /\ (k = 0 \/ e + 8 * k < -29) /\
    scale_up fuel (S754_finite false m e, x) = (S754_finite false m (e + 8 * k), x - k).
Proof.
  assert (Hstay : forall e x, normal m e -> exists k, 0 <= k /\ normal m (e + 8 * k) /\ (k = 0 \/ e + 8 * k < -29) /\
    (S754_finite false m e, x) = (S754_finite false m (e + 8 * k), x - k)).
  { clear. intros e x Hn. exists 0. rewrite Z.sub_0_r, Z.add_0_r. by split_and!; [|..|left|]. }
  revert e x. induction fuel as [|fuel IH]; intros e x Hn; cbn [scale_up]; [by apply Hstay|].
  rewrite up_guard_normal by done. destruct (Z.ltb_spec e (-37)); cbn [andb]; [|by apply Hstay].
  destruct (3 <? x); [|by apply Hstay]. cbn [fst snd]. rewrite f64_mul_256 by (done || lia).
  destruct (IH (e + 8) (x - 1)) as (k & Hk & Hn' & Hc & E); [destruct Hn; split; lia|].
  exists (k + 1). replace (e + 8 * (k + 1)) with (e + 8 + 8 * k) by lia.
  replace (x - (k + 1)) with (x - 1 - k) by lia. split_and!; [lia|done|right; lia|exact E].
Qed.

Lemma down_guard_false d :
  scale_down_guard (scale_down 4 (d, 29)) = false.
Proof. apply scale_down_stops. cbn. lia. Qed.
Lemma up_guard_false d :
  scale_up_guard (scale_up 30 (scale_down 4 (d, 29))) = false.
Proof. apply scale_up_stops. pose proof (scale_down_exp 4 (d, 29) ltac:(cbn; lia)). lia. Qed.

(** The mantissa is the quotient with whole bytes cut off or added, and between 2^15
    and 2^23 unless the exponent is at its bound. *)
Lemma target_mantissa_normal m e :
  normal m e -> exists exp, 3 <= exp <= 32 /\
    scale_up 30 (scale_down 4 (S754_finite false m e, 29)) = (S754_finite false m (e + 8 * (29 - exp)), exp) /\
    (exp = 32 \/ scaled m e (8 * (29 - exp)) < 2 ^ 23) /\ (exp = 3 \/ 2 ^ 15 <= scaled m e (8 * (29 - exp))).
Proof.
  intros Hn.
  assert (Gd : scale_down_guard (scale_down 4 (S754_finite false m e, 29)) = false) by apply down_guard_false.
  assert (Gu : scale_up_guard (scale_up 30 (scale_down 4 (S754_finite false m e, 29))) = false) by apply up_guard_false.
  pose proof (scale_down_exp 4 (S754_finite false m e, 29) ltac:(cbn; lia)) as Ed.
  destruct (scale_down_normal 4 m e 29 Hn) as (k & Hk & Hn1 & Hc1 & E1). rewrite E1 in *. cbn [snd] in Ed.
  pose proof (scale_up_exp 30 (S754_finite false m (e - 8 * k), 29 + k) ltac:(cbn; lia)) as Eu.
  destruct (scale_up_normal 30 m (e - 8 * k) (29 + k) Hn1) as (j & Hj & Hn2 & Hc2 & E2). rewrite E2 in *. cbn [snd] in Eu.
  rewrite down_guard_normal in Gd by done. rewrite up_guard_normal in Gu by done.
  apply andb_false_iff in Gd as [Gd|Gd]; [apply Z.leb_gt in Gd|apply Z.ltb_ge in Gd];
    (apply andb_false_iff in Gu as [Gu|Gu]; [apply Z.ltb_ge in Gu|apply Z.ltb_ge in Gu]);
    exists (29 + k - j); (split; [lia|]);
    (split; [by replace (e + 8 * (29 - (29 + k - j))) with (e - 8 * k + 8 * j) by lia|]);
    rewrite Z.lt_nge, !scaled_reaches by (done || lia); lia.
Qed.

(** The loops on the quotients that are not finite and on zero. *)
Lemma scale_zero : scale_up 30 (scale_down 4 (S754_zero false : double, 29)) = (S754_zero false, 29).
Proof. vm_compute. reflexivity. Qed.
Lemma scale_infinity : scale_up 30 (scale_down 4 (S754_infinity false : double, 29)) = (S754_infinity false, 32).
Proof. vm_compute. reflexivity. Qed.
Lemma scale_nan : scale_up 30 (scale_down 4 (S754_nan : double, 29)) = (S754_nan, 29).
Proof. vm_compute. reflexivity. Qed.

(** The quotient of every double. *)
Lemma quotient_cases d :
  valid_binary prec emax d = true ->
  let q := f64_div (f64_of_Z 65535) (if f64_le d (f64_of_Z 0) then f64_of_Z 1 else d) in
  q = S754_zero false \/ q = S754_infinity false \/ q = S754_nan \/
  exists m e, normal m e /\ q = S754_finite false m e.
Proof.
  intros Hv. assert (H1 : exists m e, normal m e /\ f64_div (f64_of_Z 65535) (f64_of_Z 1) = S754_finite false m e).
  { eexists _, _. split; [|vm_compute; reflexivity]. split; lia. }
  destruct d as [[]|[]| |[] m e]; try (right; right; right; exact H1); [by left|by right; right; left|].
  destruct (div_65535_finite m e Hv) as [H|H]; [right; left; exact H|right; right; right; exact H].
Qed.

(** The number a target stands for. *)
Lemma of_le_placed a (m : Z) b : of_le (replicate a 0 ++ le 3 m ++ replicate b 0) = m mod 2 ^ 24 * 2 ^ (8 * Z.of_nat a).
Proof.
  assert (Hz : forall n, of_le (replicate n 0) = 0) by (induction n as [|n IH]; cbn; [done|by rewrite IH]).
  rewrite !of_le_app, !Hz, length_replicate, of_le_le. change (256 ^ Z.of_nat 3) with (2 ^ 24).
  rewrite Z.pow_mul_r by lia. change (2 ^ 8) with 256. lia.
Qed.

Lemma target_mantissa_eq d q :
  f64_div (f64_of_Z 65535) (if f64_le d (f64_of_Z 0) then f64_of_Z 1 else d) = q ->
  target_mantissa d = scale_up 30 (scale_down 4 (q, 29)).
Proof. intros <-. reflexivity. Qed.
Lemma target_mantissa_idem d :
  target_mantissa d = target_mantissa (if f64_le d (f64_of_Z 0) then f64_of_Z 1 else d).
Proof.
  symmetry. apply target_mantissa_eq. by destruct (f64_le d (f64_of_Z 0)) eqn:Ed; [|rewrite Ed].
Qed.
Lemma target_guards d :
  scale_down_guard (scale_down 4 (f64_div (f64_of_Z 65535) (if f64_le d (f64_of_Z 0) then f64_of_Z 1 else d), 29)) = false /\
  scale_up_guard (target_mantissa d) = false /\ 3 <= snd (target_mantissa d) <= 32.
Proof.
  split; [apply down_guard_false|]. split; [|apply target_mantissa_exp].
  rewrite (target_mantissa_eq d _ eq_refl). apply up_guard_false.
Qed.

(** The value for a normal quotient. *)
Lemma target_pinned d m e mant exp :
  normal m e -> scale_up 30 (scale_down 4 (S754_finite false m e, 29)) = (mant, exp) ->
  miner_target_from_difficulty d =
    (m ← f64_to_u32 mant;
     Some (replicate (Z.to_nat (exp - 3)) 0 ++ le 3 m ++ replicate (Z.to_nat (32 - exp)) 0)) ->
  let k := 8 * (29 - exp) in
  let q := if 0 <=? e + k then Zpos m * 2 ^ (e + k) else Zpos m / 2 ^ (- (e + k)) in
  (exp = 32 \/ q < 2 ^ 23) /\ (exp = 3 \/ 2 ^ 15 <= q) /\
  of_le <$> miner_target_from_difficulty d =
    if q <? 2 ^ 32 then Some (q mod 2 ^ 24 * 2 ^ (8 * (exp - 3))) else None.
Proof.
  intros Hn E Hl k q. destruct (target_mantissa_normal m e Hn) as (x & Hx & Es & Hup & Hlo).
  rewrite E in Es. injection Es as -> ->. assert (Hq : q = scaled m e k) by (symmetry; apply scaled_floor).
  clearbody q. fold k in Hup, Hlo, Hl. rewrite Hq. split; [done|]. split; [done|].
  assert (Ht : f64_to_u32 (S754_finite false m (e + k)) = if scaled m e k <? 2 ^ 32 then Some (scaled m e k) else None).
  { unfold f64_to_u32, f64_trunc. cbn [mbind option_bind].
    replace (if 0 <=? e + k then Z.shiftl (Zpos m) (e + k) else Z.shiftr (Zpos m) (- (e + k))) with (scaled m e k).
    - by rewrite (proj2 (Z.leb_le 0 _)) by (unfold scaled; by apply Z.shiftl_nonneg).
    - unfold scaled. case_match; [done|]. by rewrite <- Z.shiftl_opp_r, Z.opp_involutive. }
  rewrite Hl, Ht. destruct (scaled m e k <? 2 ^ 32); [|done].
  cbn [mbind option_bind fmap option_fmap option_map]. rewrite of_le_placed, Z2Nat.id by lia. done.
Qed.

(** C21.  The target of a difficulty.  Both loops end by their guards with an exponent
    between 3 and 32, and the result is the low 24 bits of the truncated mantissa at
    byte position [exp - 3], undefined exactly when the conversion of the mantissa is;
    a non-positive difficulty counts as 1.  For every double the value is pinned: with
    the quotient 65535/difficulty a finite double, the mantissa is the quotient times
    256^(29 - exp), truncated, [exp] being the one with at least 16 and at most 23 bits
    left, or at a bound; the target is that mantissa times 256^(exp - 3), a mantissa
    that does not fit 24 bits losing its upper ones (so only when [exp] is 32), and one
    of 2^32 or more being undefined.  An infinite difficulty has the target 0, and for
    NaN and for quotients that overflow the conversion is undefined. *)
Theorem target_of_difficulty (d : double) :
  let '(mant, exp) := target_mantissa d in
  let d' := if f64_le d (f64_of_Z 0) then f64_of_Z 1 else d in
  let s := scale_down 4 (f64_div (f64_of_Z 65535) d', 29) in
  (scale_down_guard s = false /\ scale_up_guard (mant, exp) = false /\ 3 <= exp <= 32 /\
   miner_target_from_difficulty d =
     (m ← f64_to_u32 mant;
      Some (replicate (Z.to_nat (exp - 3)) 0 ++ le 3 m ++ replicate (Z.to_nat (32 - exp)) 0)) /\
   target_mantissa d = target_mantissa d') /\
  (valid_binary prec emax d = true ->
   match f64_div (f64_of_Z 65535) d' with
   | S754_finite s m e =>
       s = false /\
       let k := 8 * (29 - exp) in
       let q := if 0 <=? e + k then Zpos m * 2 ^ (e + k) else Zpos m / 2 ^ (- (e + k)) in
       (exp = 32 \/ q < 2 ^ 23) /\ (exp = 3 \/ 2 ^ 15 <= q) /\
       of_le <$> miner_target_from_difficulty d =
         if q <? 2 ^ 32 then Some (q mod 2 ^ 24 * 2 ^ (8 * (exp - 3))) else None
   | S754_zero _ => miner_target_from_difficulty d = Some (replicate 32 0)
   | _ => miner_target_from_difficulty d = None
   end).
Proof.
  pose proof (target_guards d) as (Gd & Gu & He). pose proof (target_mantissa_idem d) as Hidem.
  pose proof (fun q Hq => target_mantissa_eq d q Hq) as Hq.
  destruct (target_mantissa d) as [mant exp] eqn:E. pose proof (target_layout d mant exp E) as Hl. split; [done|].
  intros Hv. destruct (quotient_cases d Hv) as [Eq|[Eq|[Eq|(m & e & Hn & Eq)]]]; specialize (Hq _ Eq); cbv zeta; rewrite Eq.
  - rewrite scale_zero in Hq. injection Hq as -> ->. by rewrite Hl.
  - rewrite scale_infinity in Hq. injection Hq as -> ->. by rewrite Hl.
  - rewrite scale_nan in Hq. injection Hq as -> ->. by rewrite Hl.
  - split; [done|]. by apply (target_pinned d m e mant exp).
Qed.

(** The power of two [2^k] as a double. *)
Definition pow2 (k : Z) : double := SpecFloat.binary_normalize prec emax 1 k false.

(** On powers of two the target is the difficulty-1 target divided by the
    difficulty, exactly, from 2^-32 (the largest target that fits 32 bytes) to
    2^208; below, the 24-bit mantissa wraps: difficulty 2^-33 has a smaller
    target, and so demands more work, than difficulty 2^-32; and at 2^-41 the
    conversion of the mantissa is already undefined. *)
Theorem target_power_of_two :
  (forall k, -32 <= k <= 208 ->
     of_le <$> miner_target_from_difficulty (pow2 k) = Some (0xffff * 2 ^ (208 - k))) /\
  (of_le <$> miner_target_from_difficulty (pow2 (-33))) = Some (0xfffe * 2 ^ 240) /\
  (of_le <$> miner_target_from_difficulty (pow2 (-40))) = Some (0xff00 * 2 ^ 240) /\
  miner_target_from_difficulty (pow2 (-41)) = None.
Proof.
  split; [|by vm_compute].
  intros k Hk.
  assert (H : Forall (fun k => of_le <$> miner_target_from_difficulty (pow2 k) =
                                Some (0xffff * 2 ^ (208 - k)))
                ((fun n => Z.of_nat n - 32) <$> seq 0 241)).
  { apply (bool_decide_unpack _). vm_compute. exact I. }
  rewrite list.Forall_forall in H. apply H, list_elem_of_fmap.
  exists (Z.to_nat (k + 32)). split; [lia|]. apply elem_of_seq. lia.
Qed.

(** Difficulty 2048: the quotient 65535/2^11 has five bits, so two bytes are added. *)
Lemma target_of_difficulty_witness :
  of_le <$> miner_target_from_difficulty (f64_of_Z 2048) = Some (65535 * 2 ^ 197).
Proof.
  pose proof (target_of_difficulty (f64_of_Z 2048)) as H.
  assert (E : target_mantissa (f64_of_Z 2048) = (S754_finite false 9007061815787520 (-32), 27)) by (vm_compute; reflexivity).
  rewrite E in H. destruct H as [_ H]. specialize (H eq_refl). revert H.
  assert (Eq : f64_div (f64_of_Z 65535) (if f64_le (f64_of_Z 2048) (f64_of_Z 0) then f64_of_Z 1 else f64_of_Z 2048) =
    S754_finite false 9007061815787520 (-48)) by (vm_compute; reflexivity).
  rewrite Eq. intros (_ & _ & _ & ->). vm_compute. reflexivity.
Defined.
