(* ===== verification/Job.v ===== *)
(** Building a block header from a mining.notify template: [miner_build_job] and
    [miner_format_extranonce2] of src/src/miner.c.  Memory allocation is taken to
    succeed; a job the function fails to build is not used by its caller, so
    failure is [None]. *)
From stdpp Require Import base tactics list option numbers strings.
From Stdlib Require Import ZArith Lia Ascii SpecFloat.
From S2P Require Import Prelude Words Fips Sha256d Scan Float64 Target Hex.

#[local] Open Scope Z_scope.

(** * The extranonce2 text *)

(** The digits [printf] writes for [%llx]: without leading zeros, at least one. *)
Fixpoint hex_digits (fuel : nat) (v : Z) (acc : list ascii) : list ascii :=
  match fuel with
  | O => acc
  | S fuel =>
      let acc := hex_digit (v mod 16) :: acc in
      if v / 16 =? 0 then acc else hex_digits fuel (v / 16) acc
  end.
(** [%0*llx]: padded with zeros on the left to [width] characters. *)
Definition format_0llx (width : nat) (v : Z) : list ascii :=
  let ds := hex_digits 16 v [] in
  replicate (width - length ds) "0"%char ++ ds.

(** The contents of [out] afterwards; [None] when nothing is written
    ([out_size] is 0).  [snprintf] stores at most [out_size - 1] characters. *)
Definition miner_format_extranonce2 (out_size : nat) (extranonce2_size : Z) (value : Z)
  : option string :=
  let n := extranonce2_size * 2 in
  if (n <=? 0) || (Z.of_nat out_size <? n + 1) then
    if (0 <? out_size)%nat then Some "" else None
  else Some (of_chars (take (out_size - 1) (format_0llx (Z.to_nat n) value))).

(** * Jobs *)

Record miner_job_t := MinerJob {
  job_seq : Z;
  job_id : string;
  job_extranonce2 : string;
  job_ntime : string;
  job_header : list Z;
  job_target : list Z;
}.

Section build.
Context `{O : OpenSSL}.

Definition sha256d_data (data : list Z) : list Z := SHA256 (take 32 (SHA256 data)).

(** The loop over the merkle branches, with its early exit. *)
Fixpoint merkle_loop (merkle : list string) (merkle_root : list Z) : option (list Z) :=
  match merkle with
  | [] => Some merkle_root
  | m :: merkle =>
      branch ← hex_to_bytes m 32;
      let combined := store (store (replicate 64 0) 0 (take 32 merkle_root)) 32 branch in
      merkle_loop merkle (sha256d_data combined)
  end.

Definition miner_build_job (id prevhash coinb1 coinb2 : string) (merkle : list string)
    (version nbits ntime extranonce1 extranonce2 : string) (difficulty : double)
  : option miner_job_t :=
  out_job_id ← copy_checked 128 id;
  out_extranonce2 ← copy_checked 32 extranonce2;
  out_ntime ← copy_checked 16 ntime;
  let coinbase_hex := (coinb1 ++ extranonce1 ++ extranonce2 ++ coinb2)%string in
  coinbase ← hex_to_alloc coinbase_hex;
  let merkle_root := sha256d_data coinbase in
  merkle_root ← merkle_loop merkle merkle_root;
  let header := replicate 80 0 in
  version_le ← hex_u32_to_le version;
  let header := store header 0 version_le in
  prev ← prevhash_to_header_bytes prevhash;
  let header := store header 4 prev in
  let header := store header 36 (take 32 merkle_root) in
  ntime_le ← hex_u32_to_le ntime;
  let header := store header 68 ntime_le in
  nbits_le ← hex_u32_to_le nbits;
  let header := store header 72 nbits_le in
  let header := store header 76 (replicate 4 0) in
  target ← miner_target_from_difficulty difficulty;
  Some (MinerJob 0 out_job_id out_extranonce2 out_ntime header target).
End build.

(** * Lemmas *)

Lemma mbind_Some_iff {A B} (f : A -> option B) (o : option A) b :
  (x ← o; f x) = Some b <-> exists a, o = Some a /\ f a = Some b.
Proof. destruct o; cbn; naive_solver. Qed.

Lemma copy_checked_Some n s t : copy_checked n s = Some t <-> t = s /\ (strlen s < n)%nat.
Proof.
  unfold copy_checked. cbv zeta. destruct (Nat.leb_spec n (strlen s)).
  - split; [done|]. lia.
  - split; [intros [= <-]; done|]. by intros [-> _].
Qed.

(** The merkle root of a coinbase and its branch. *)
Definition merkle_root_of (coinbase : list Z) (branches : list (list Z)) : list Z :=
  foldl (fun root b => Fips.sha256d (root ++ b)) (Fips.sha256d coinbase) branches.

Definition hex32 (m : string) (b : list Z) : Prop :=
  is_bytes b /\ length b = 32%nat /\ lower m = hex_of_bytes b.

Section laws.
Context `{O : OpenSSL} `{!OpenSSLLaws O}.

Lemma sha256d_data_spec data : is_bytes data -> sha256d_data data = Fips.sha256d data.
Proof.
  intros Hb. unfold sha256d_data. rewrite (SHA256_fips data) by done.
  rewrite take_ge by by rewrite Fips.length_sha256.
  apply SHA256_fips, Fips.sha256_bytes.
Qed.

Lemma sha256d_root data :
  length (Fips.sha256d data) = 32%nat /\ is_bytes (Fips.sha256d data).
Proof. split; [apply Fips.length_sha256|apply Fips.sha256_bytes]. Qed.

Lemma merkle_loop_spec merkle root out :
  length root = 32%nat -> is_bytes root ->
  merkle_loop merkle root = Some out <->
  exists bs, Forall2 hex32 merkle bs /\
    out = foldl (fun root b => Fips.sha256d (root ++ b)) root bs.
Proof.
  revert root. induction merkle as [|m merkle IH]; intros root Hl Hb.
  - cbn. split.
    + intros [= <-]. by exists [].
    + intros (bs & Hbs & ->). by inversion Hbs.
  - cbn [merkle_loop]. rewrite mbind_Some_iff.
    assert (Hstore : forall b, length b = 32%nat ->
      store (store (replicate 64 0) 0 (take 32 root)) 32 b = root ++ b).
    { intros b Hlb. rewrite take_ge by lia.
      rewrite (store_fill_0 root 0 32 64) by (done || lia).
      rewrite (store_fill _ b 0 32 32 _) by (done || lia). by rewrite app_nil_r. }
    split.
    + intros (b & Hm & Hrest). apply hex_to_bytes_spec in Hm as (Hbb & Hbl & Hlow).
      rewrite Hstore, sha256d_data_spec in Hrest by (done || by apply Forall_app).
      destruct (sha256d_root (root ++ b)). apply IH in Hrest as (bs & Hbs & ->); [|done..].
      exists (b :: bs). split; [|done]. constructor; [|done]. by split.
    + intros (bs & Hbs & ->). apply Forall2_cons_inv_l in Hbs as (b & bs' & (Hbb & Hbl & Hlow) & Hbs & ->).
      exists b. split; [by apply hex_to_bytes_spec|].
      rewrite Hstore, sha256d_data_spec by (done || by apply Forall_app).
      destruct (sha256d_root (root ++ b)). apply IH; [done..|]. by exists bs'.
Qed.

(** The header the stores assemble. *)
Lemma header_layout v p r t b :
  length v = 4%nat -> length p = 32%nat -> length r = 32%nat -> length t = 4%nat -> length b = 4%nat ->
  store (store (store (store (store (store (replicate 80 0) 0 v) 4 p) 36 (take 32 r)) 68 t) 72 b)
        76 (replicate 4 0) = v ++ p ++ r ++ t ++ b ++ replicate 4 0.
Proof.
  intros Hv Hp Hr Ht Hb. rewrite (take_ge r) by lia.
  rewrite (store_fill_0 v 0 4 80) by (done || lia).
  rewrite (store_fill _ p 0 4 32 _) by (rewrite ?length_app; cbn; lia).
  rewrite (store_fill _ r 0 36 32 _) by (rewrite ?length_app; cbn; lia).
  rewrite (store_fill _ t 0 68 4 _) by (rewrite ?length_app; cbn; lia).
  rewrite (store_fill _ b 0 72 4 _) by (rewrite ?length_app; cbn; lia).
  rewrite (store_fill _ (replicate 4 0) 0 76 4 _) by (rewrite ?length_app; cbn; lia).
  cbn [Nat.sub replicate app]. by rewrite app_nil_r, <- !app_assoc.
Qed.

Lemma length_words_le ws : length (words_le ws) = (4 * length ws)%nat.
Proof.
  induction ws as [|w ws IH]; [done|]. unfold words_le in *. cbn [fmap list_fmap concat].
  rewrite length_app, length_le, IH. cbn. lia.
Qed.

Lemma merkle_root_of_length c bs : length (merkle_root_of c bs) = 32%nat.
Proof.
  unfold merkle_root_of. destruct bs as [|b bs _] using rev_ind; [apply sha256d_root|].
  rewrite foldl_app. apply sha256d_root.
Qed.
Lemma merkle_root_of_bytes c bs : is_bytes (merkle_root_of c bs).
Proof.
  unfold merkle_root_of. destruct bs as [|b bs _] using rev_ind; [apply sha256d_root|].
  rewrite foldl_app. apply sha256d_root.
Qed.
End laws.

(** * The digits of extranonce2 *)

(** The [n] low hexadecimal digits, most significant first. *)
Fixpoint nibbles (n : nat) (v : Z) : list ascii :=
  match n with O => [] | S n => nibbles n (v / 16) ++ [hex_digit (v mod 16)] end.

Lemma length_nibbles n v : length (nibbles n v) = n.
Proof. revert v. induction n as [|n IH]; intros v; [done|]. cbn. rewrite length_app, IH. cbn. lia. Qed.

Lemma hex_digits_nibbles fuel v acc :
  0 <= v < 16 ^ Z.of_nat fuel -> (0 < fuel)%nat ->
  exists k, (1 <= k <= fuel)%nat /\ hex_digits fuel v acc = nibbles k v ++ acc /\
    v < 16 ^ Z.of_nat k /\ (k = 1%nat \/ 16 ^ (Z.of_nat k - 1) <= v).
Proof.
  revert v acc. induction fuel as [|fuel IH]; intros v acc Hv Hf; [lia|].
  rewrite Nat2Z.inj_succ, Z.pow_succ_r in Hv by lia. cbn [hex_digits].
  pose proof (Z.div_mod v 16 ltac:(lia)). pose proof (Z.mod_pos_bound v 16 ltac:(lia)).
  destruct (Z.eqb_spec (v / 16) 0) as [Hz|Hz].
  - exists 1%nat. split; [lia|]. split; [done|]. split; [|by left].
    change (16 ^ Z.of_nat 1) with 16. lia.
  - assert (Hq : 0 < v / 16) by (assert (0 <= v / 16) by (apply Z.div_pos; lia); lia).
    destruct fuel as [|fuel]; [change (16 ^ Z.of_nat 0) with 1 in Hv; lia|].
    destruct (IH (v / 16) (hex_digit (v mod 16) :: acc)) as (k & Hk & Heq & Hlt & Hge); [lia|lia|].
    exists (S k). split; [lia|]. rewrite Heq. split.
    + cbn [nibbles]. by rewrite <- app_assoc.
    + rewrite Nat2Z.inj_succ, Z.pow_succ_r by lia. split; [lia|]. right.
      replace (Z.succ (Z.of_nat k) - 1) with (Z.of_nat k) by lia.
      destruct Hge as [->|Hge]; [change (16 ^ Z.of_nat 1) with 16; lia|].
      replace (Z.of_nat k) with (Z.succ (Z.of_nat k - 1)) by lia. rewrite Z.pow_succ_r by lia. lia.
Qed.

Lemma nibbles_pad j k v :
  0 <= v < 16 ^ Z.of_nat k -> nibbles (j + k) v = replicate j "0"%char ++ nibbles k v.
Proof.
  revert v. induction k as [|k IH]; intros v Hv.
  - assert (v = 0) as -> by (cbn in Hv; lia). clear Hv. rewrite Nat.add_0_r.
    induction j as [|j IH]; [done|]. cbn [nibbles]. change (0 / 16) with 0. rewrite IH.
    rewrite !app_nil_r. change (hex_digit (0 mod 16)) with "0"%char.
    by rewrite <- replicate_cons_app.
  - rewrite Nat.add_succ_r. cbn [nibbles]. rewrite IH, app_assoc; [done|].
    rewrite Nat2Z.inj_succ, Z.pow_succ_r in Hv by lia.
    pose proof (Z.div_mod v 16 ltac:(lia)). pose proof (Z.mod_pos_bound v 16 ltac:(lia)).
    split; [apply Z.div_pos; lia|apply Z.div_lt_upper_bound; lia].
Qed.

Lemma nibbles_be n v : nibbles (2 * n) v = concat (hex_byte <$> be n v).
Proof.
  revert v. induction n as [|n IH]; intros v; [done|].
  replace (2 * S n)%nat with (S (S (2 * n))) by lia. cbn [nibbles].
  unfold be. cbn [le]. rewrite reverse_cons, fmap_app, concat_app. fold (be n (v / 256)).
  rewrite Z.div_div by lia. change (16 * 16) with 256. rewrite IH, <- app_assoc. f_equal.
  change (concat (hex_byte <$> [v mod 256]))
    with [hex_digit (v mod 256 / 16); hex_digit ((v mod 256) mod 16)].
  rewrite (Z.mod_mod_divide v 256 16) by by exists 16.
  replace ((v / 16) mod 16) with (v mod 256 / 16); [done|].
  replace 256 with (16 * 16) by lia. rewrite Z.rem_mul_r by lia.
  rewrite Z.mul_comm, Z.div_add by lia. rewrite (Z.div_small (v mod 16)); [lia|].
  apply Z.mod_pos_bound. lia.
Qed.

Lemma format_0llx_fits n v :
  0 <= v < 2 ^ 64 -> v < 256 ^ Z.of_nat n ->
  (0 < n)%nat -> format_0llx (2 * n) v = chars (hex_of_bytes (be n v)).
Proof.
  intros Hv Hn Hpos. unfold format_0llx. cbv zeta.
  destruct (hex_digits_nibbles 16 v []) as (k & Hk & -> & Hlt & Hge); [done|lia|].
  rewrite app_nil_r, length_nibbles, chars_hex_of_bytes, <- nibbles_be.
  assert (Hkn : (k <= 2 * n)%nat).
  { destruct Hge as [->|Hge]; [lia|]. apply Nat2Z.inj_le.
    change 256 with (16 ^ 2) in Hn. rewrite <- Z.pow_mul_r in Hn by lia.
    assert (H16 : 16 ^ (Z.of_nat k - 1) < 16 ^ (2 * Z.of_nat n)) by lia.
    apply Z.pow_lt_mono_r_iff in H16; lia. }
  rewrite <- (nibbles_pad (2 * n - k) k) by lia. f_equal. lia.
Qed.

Lemma format_0llx_overflow n v :
  0 <= v < 2 ^ 64 -> 256 ^ Z.of_nat n <= v -> (2 * n < length (format_0llx (2 * n) v))%nat.
Proof.
  intros Hv Hn. unfold format_0llx. cbv zeta.
  destruct (hex_digits_nibbles 16 v []) as (k & Hk & -> & Hlt & _); [done|lia|].
  rewrite app_nil_r, length_app, length_replicate, length_nibbles.
  change 256 with (16 ^ 2) in Hn. rewrite <- Z.pow_mul_r in Hn by lia.
  assert (H16 : 16 ^ (2 * Z.of_nat n) < 16 ^ Z.of_nat k) by lia.
  apply Z.pow_lt_mono_r_iff in H16; lia.
Qed.

(** * Properties *)

(** What a template has to satisfy, and the header it then stands for: the fields
    are hexadecimal of the right widths, the ids fit their buffers. *)
Record job_spec (id prevhash coinb1 coinb2 : string) (merkle : list string)
    (version nbits ntime extranonce1 extranonce2 : string) (difficulty : double)
    (coinbase : list Z) (branches : list (list Z)) (v t b : Z) (prev : list Z)
    (j : miner_job_t) : Prop := {
  js_id : (strlen id < 128)%nat;
  js_extranonce2 : (strlen extranonce2 < 32)%nat;
  js_ntime : (strlen ntime < 16)%nat;
  js_coinbase : is_bytes coinbase /\
    lower (coinb1 ++ extranonce1 ++ extranonce2 ++ coinb2)%string = hex_of_bytes coinbase;
  js_merkle : Forall2 hex32 merkle branches;
  js_version : is_u32 v /\ lower version = hex_of_bytes (be 4 v);
  js_prevhash : length prev = 8%nat /\ is_words prev /\
    lower prevhash = hex_of_bytes (bytes_of_words prev);
  js_time : is_u32 t /\ lower ntime = hex_of_bytes (be 4 t);
  js_bits : is_u32 b /\ lower nbits = hex_of_bytes (be 4 b);
  js_target : miner_target_from_difficulty difficulty = Some (job_target j);
  js_header : job_header j =
    le 4 v ++ words_le prev ++ merkle_root_of coinbase branches ++ le 4 t ++ le 4 b ++ replicate 4 0;
  js_ids : job_seq j = 0 /\ job_id j = id /\ job_extranonce2 j = extranonce2 /\ job_ntime j = ntime;
}.

Lemma build_job_sound `{O : OpenSSL} `{!OpenSSLLaws O} id prevhash coinb1 coinb2 merkle
    version nbits ntime extranonce1 extranonce2 difficulty (j : miner_job_t) :
  miner_build_job id prevhash coinb1 coinb2 merkle version nbits ntime extranonce1 extranonce2
    difficulty = Some j ->
  exists coinbase branches v t b prev,
    job_spec id prevhash coinb1 coinb2 merkle version nbits ntime extranonce1 extranonce2
      difficulty coinbase branches v t b prev j.
Proof.
  unfold miner_build_job. cbv zeta.
  intros H. repeat (apply mbind_Some_iff in H as (? & ? & H)). injection H as <-.
  repeat match goal with
  | H : copy_checked _ _ = Some _ |- _ => apply copy_checked_Some in H as [-> ?]
  | H : hex_to_alloc _ = Some _ |- _ => apply hex_to_alloc_spec in H as [? ?]
  | H : hex_u32_to_le _ = Some _ |- _ => apply hex_u32_to_le_spec in H as (? & ? & ? & ->)
  | H : prevhash_to_header_bytes _ = Some _ |- _ =>
      apply prevhash_spec in H as (? & ? & ? & ? & ->)
  end.
  rewrite sha256d_data_spec in * by done.
  match goal with H : merkle_loop _ (Fips.sha256d ?c) = Some _ |- _ =>
    destruct (sha256d_root c); apply merkle_loop_spec in H as (bs & ? & ->); [|done..];
    fold (merkle_root_of c bs); exists c, bs end.
  eexists _, _, _, _. split; try done; try by eauto.
  cbn [job_header]. apply header_layout;
    rewrite ?length_le, ?length_words_le, ?merkle_root_of_length; congruence || lia.
Qed.

Lemma build_job_complete `{O : OpenSSL} `{!OpenSSLLaws O} id prevhash coinb1 coinb2 merkle
    version nbits ntime extranonce1 extranonce2 difficulty c bs v t b prev (j : miner_job_t) :
  job_spec id prevhash coinb1 coinb2 merkle version nbits ntime extranonce1 extranonce2
    difficulty c bs v t b prev j ->
  miner_build_job id prevhash coinb1 coinb2 merkle version nbits ntime extranonce1 extranonce2
    difficulty = Some j.
Proof.
  unfold miner_build_job. cbv zeta. intros Hj.
  destruct Hj as [Hi He Hn [Hc Hcl] Hm [Hv Hvl]
    (Hp & Hpw & Hpl) [Ht Htl] [Hb Hbl] Htg Hh (Hs & Hji & Hje & Hjn)].
  apply mbind_Some_iff. exists id. split; [by apply copy_checked_Some|].
  apply mbind_Some_iff. exists extranonce2. split; [by apply copy_checked_Some|].
  apply mbind_Some_iff. exists ntime. split; [by apply copy_checked_Some|].
  apply mbind_Some_iff. exists c. split; [by apply hex_to_alloc_spec|].
  rewrite sha256d_data_spec by done. destruct (sha256d_root c) as [Hrl Hrb].
  apply mbind_Some_iff. exists (merkle_root_of c bs).
  split; [apply merkle_loop_spec; [done..|]; by exists bs|].
  apply mbind_Some_iff. exists (le 4 v). split; [apply hex_u32_to_le_spec; by exists v|].
  apply mbind_Some_iff. exists (words_le prev). split; [apply prevhash_spec; by exists prev|].
  apply mbind_Some_iff. exists (le 4 t). split; [apply hex_u32_to_le_spec; by exists t|].
  apply mbind_Some_iff. exists (le 4 b). split; [apply hex_u32_to_le_spec; by exists b|].
  apply mbind_Some_iff. exists (job_target j). split; [done|].
  rewrite header_layout by (rewrite ?length_le, ?length_words_le, ?merkle_root_of_length; congruence || lia).
  destruct j as [sq ji je jn jh jt]. cbn [job_seq job_id job_extranonce2 job_ntime job_header job_target] in *.
  by rewrite Hh, Hs, Hji, Hje, Hjn.
Qed.

(** A job that was built has an 80-byte header and a 32-byte target. *)
Lemma build_job_sizes `{O : OpenSSL} `{!OpenSSLLaws O} id prevhash coinb1 coinb2 merkle
    version nbits ntime extranonce1 extranonce2 difficulty (j : miner_job_t) :
  miner_build_job id prevhash coinb1 coinb2 merkle version nbits ntime extranonce1 extranonce2
    difficulty = Some j ->
  length (job_header j) = 80%nat /\ is_bytes (job_header j) /\
  length (job_target j) = 32%nat /\ is_bytes (job_target j).
Proof.
  intros (c & bs & v & t & b & prev & Hj)%build_job_sound.
  destruct (target_bytes _ _ (js_target _ _ _ _ _ _ _ _ _ _ _ _ _ _ _ _ _ _ Hj)) as [Htl Htb].
  destruct (js_prevhash _ _ _ _ _ _ _ _ _ _ _ _ _ _ _ _ _ _ Hj) as (Hp & Hpw & _).
  rewrite (js_header _ _ _ _ _ _ _ _ _ _ _ _ _ _ _ _ _ _ Hj). split_and!; try done.
  - rewrite !length_app, !length_le, length_words_le, merkle_root_of_length, Hp. done.
  - repeat apply Forall_app_2; try apply le_bytes.
    + apply Forall_concat, Forall_fmap, list.Forall_forall. intros w _. apply le_bytes.
    + apply merkle_root_of_bytes.
    + by apply Forall_replicate.
Qed.

(** C16.  [miner_build_job] succeeds exactly on well-formed templates, and then the
    job holds the header of the block: version, previous hash (word by word
    reversed), the merkle root of the assembled coinbase and the branches, time,
    bits and a zero nonce, with the target of the difficulty. *)
Theorem build_job_correct `{O : OpenSSL} `{!OpenSSLLaws O} id prevhash coinb1 coinb2 merkle
    version nbits ntime extranonce1 extranonce2 difficulty (j : miner_job_t) :
  miner_build_job id prevhash coinb1 coinb2 merkle version nbits ntime extranonce1 extranonce2
    difficulty = Some j <->
  exists coinbase branches v t b prev,
    job_spec id prevhash coinb1 coinb2 merkle version nbits ntime extranonce1 extranonce2
      difficulty coinbase branches v t b prev j.
Proof.
  split; [apply build_job_sound|].
  intros (c & bs & v & t & b & prev & Hj). by eapply build_job_complete.
Qed.

(** The template of the first block of the chain, split at an arbitrary place of
    its coinbase. *)
Definition genesis_coinb1 : string :=
  "01000000010000000000000000000000000000000000000000000000000000000000000000ffffffff4d04ffff001d010445".
Definition genesis_coinb2 : string :=
  "732030332f4a616e2f32303039204368616e63656c6c6f72206f6e206272696e6b206f66207365636f6e64206261696c6f757420666f722062616e6b73ffffffff0100f2052a01000000434104678afdb0fe5548271967f1a67130b7105cd6a828e03909a67962e0ea1f61deb649f6bc3f4cef38c4f35504e51ec112de5c384df7ba0b8d578a4c702b6bf11d5fac00000000".
Definition zeros64 : string := of_chars (replicate 64 "0"%char).

Definition genesis_job : miner_job_t :=
  MinerJob 0 "g" "54696d65" "495fab29"
    (le 4 1 ++ replicate 32 0 ++
     be 32 0x3ba3edfd7a7b12b27ac72c3e67768f617fc81bc3888a51323a9fb8aa4b1e5e4a ++
     le 4 1231006505 ++ le 4 0x1d00ffff ++ [0; 0; 0; 0])
    (replicate 26 0 ++ [0xff; 0xff] ++ replicate 4 0).

Lemma build_job_correct_witness :
  exists coinbase branches v t b prev,
    job_spec "g" zeros64 genesis_coinb1 genesis_coinb2 [] "00000001" "1d00ffff" "495fab29"
      "54686520" "54696d65" (f64_of_Z 1) coinbase branches v t b prev genesis_job.
Proof.
  apply (@build_job_correct ref_openssl ref_openssl_laws). vm_compute. reflexivity.
Defined.

Lemma format_extranonce2_fits (out_size size : nat) (value : Z) :
  (0 < size)%nat -> (2 * size < out_size)%nat -> 0 <= value < 256 ^ Z.of_nat size -> value < 2 ^ 64 ->
  miner_format_extranonce2 out_size (Z.of_nat size) value = Some (hex_of_bytes (be size value)).
Proof.
  intros Hs Ho Hv H64. unfold miner_format_extranonce2. cbv zeta.
  rewrite (proj2 (Z.leb_gt _ _)), (proj2 (Z.ltb_ge _ _)) by lia. cbn [orb].
  replace (Z.to_nat (Z.of_nat size * 2)) with (2 * size)%nat by lia.
  rewrite format_0llx_fits by (done || lia). rewrite take_ge; [by rewrite of_chars_chars|].
  rewrite chars_hex_of_bytes, length_hex_bytes, length_be. lia.
Qed.

(** A counter that fits the extranonce2 width is written as exactly that many
    bytes in hexadecimal; a counter past the width is written with more digits
    than the width (up to the buffer), so it no longer is an extranonce2 of the
    size the pool asked for. *)
Theorem extranonce2_width (out_size : nat) (size : nat) (value : Z) :
  (0 < size)%nat -> (2 * size < out_size)%nat -> 0 <= value < 2 ^ 64 ->
  exists s, miner_format_extranonce2 out_size (Z.of_nat size) value = Some s /\
    (value < 256 ^ Z.of_nat size -> s = hex_of_bytes (be size value)) /\
    (256 ^ Z.of_nat size <= value -> (2 * size + 1 < out_size)%nat ->
     (2 * size < strlen s < out_size)%nat).
Proof.
  intros Hs Ho Hv. unfold miner_format_extranonce2. cbv zeta.
  rewrite (proj2 (Z.leb_gt _ _)), (proj2 (Z.ltb_ge _ _)) by lia. cbn [orb].
  replace (Z.to_nat (Z.of_nat size * 2)) with (2 * size)%nat by lia.
  eexists. split; [done|]. split.
  - intros Hfit. rewrite format_0llx_fits by done. rewrite take_ge; [apply of_chars_chars|].
    rewrite chars_hex_of_bytes, length_hex_bytes, length_be. lia.
  - intros Hover Hroom. pose proof (format_0llx_overflow size value Hv Hover) as Hlen.
    rewrite <- length_chars, chars_of_chars, length_take. lia.
Qed.

Lemma extranonce2_width_witness :
  miner_format_extranonce2 32 1 255 = Some "ff"%string /\
  miner_format_extranonce2 32 1 256 = Some "100"%string.
Proof.
  split.
  - destruct (extranonce2_width 32 1 255) as (s & Hs & Hfit & _); [lia|lia|lia|].
    rewrite Hfit in Hs by lia. exact Hs.
  - vm_compute. reflexivity.
Defined.
