(* ===== verification/Miner.v ===== *)
(** The work scheduler of src/src/miner.c: the structure [struct miner], its
    configuration and construction, and every operation on it.

    Each operation that takes the lock is one function on the structure: the lock
    makes its body atomic (MinerSteps.v interleaves them).  Device handles are of
    an abstract type; allocations succeed and the pointers passed are not null. *)
From stdpp Require Import base tactics list option numbers strings.
From Stdlib Require Import ZArith Lia SpecFloat.
From S2P Require Import Prelude Words Fips Sha256d Scan Float64 Target Hex Job.

#[local] Open Scope Z_scope.

Definition MINER_BATCH_SIZE : Z := 262144.
Definition MINER_MIXED_CPU_BATCH_SIZE : Z := 65536.
Definition SHARE_QUEUE_SIZE : nat := 256.

Definition MINER_OPENCL_MAX_DEVICES : nat := 8.
Definition MINER_OPENCL_KERNEL_AUTO : Z := 0.
Definition MINER_OPENCL_KERNEL_COMPACT : Z := 1.
Definition MINER_OPENCL_KERNEL_UNROLLED : Z := 2.
Definition MINER_OPENCL_KERNEL_FIXED_NPI1 : Z := 3.
Definition MINER_OPENCL_KERNEL_FIXED_NPI2 : Z := 4.
Definition MINER_OPENCL_KERNEL_FIXED_NPI4 : Z := 5.
Definition MINER_OPENCL_KERNEL_REGISTER_HEAVY : Z := 6.
Definition MINER_OPENCL_BACKEND_AUTO : Z := 0.
Definition MINER_OPENCL_BACKEND_COMPAT10 : Z := 1.
Definition MINER_OPENCL_BACKEND_MODERN : Z := 2.
Definition MINER_OPENCL_DEFAULT_BATCH_SIZE : Z := 1048576.
Definition MINER_OPENCL_DEFAULT_NONCES_PER_WORK_ITEM : Z := 1.
Definition MINER_OPENCL_DEFAULT_MAX_RESULTS : Z := 256.
Definition MINER_CUDA_DEFAULT_DEVICE : Z := 0.
Definition MINER_CUDA_DEFAULT_BATCH_SIZE : Z := 4194304.
Definition MINER_CUDA_DEFAULT_THREADS_PER_BLOCK : Z := 256.
Definition MINER_CUDA_DEFAULT_NONCES_PER_THREAD : Z := 1.
Definition MINER_CUDA_DEFAULT_MAX_RESULTS : Z := 256.
Definition MINER_CUDA_KERNEL_STANDARD : Z := 0.
Definition MINER_CUDA_KERNEL_LAST : Z := 8.
Definition MINER_CUDA_DEFAULT_KERNEL_VARIANT : Z := MINER_CUDA_KERNEL_STANDARD.

(** * Data *)

Record miner_opencl_device_config_t := OpenclDevice {
  od_platform : Z; od_device : Z; od_batch_size : Z; od_local_work_size : Z;
  od_nonces_per_work_item : Z; od_max_results : Z; od_backend_variant : Z; od_kernel_variant : Z;
}.
Record miner_opencl_config_t := OpenclConfig {
  oc_enabled : bool; oc_all_devices : bool; oc_platform : Z; oc_device : Z; oc_batch_size : Z;
  oc_local_work_size : Z; oc_nonces_per_work_item : Z; oc_max_results : Z;
  oc_backend_variant : Z; oc_kernel_variant : Z; oc_device_count : Z;
  oc_devices : list miner_opencl_device_config_t;
}.
Record miner_cuda_config_t := CudaConfig {
  cc_enabled : bool; cc_device : Z; cc_batch_size : Z; cc_threads_per_block : Z;
  cc_nonces_per_thread : Z; cc_max_results : Z; cc_kernel_variant : Z;
}.

Record miner_share_t := MinerShare {
  share_seq : Z;
  share_nonce : Z;
  share_difficulty : double;
  share_hash : list Z;
  share_job_id : string;
  share_extranonce2 : string;
  share_ntime : string;
}.
(** All bytes zero. *)
Definition zero_share : miner_share_t := MinerShare 0 0 (f64_of_Z 0) (replicate 32 0) "" "" "".
#[export] Instance miner_share_inhabited : Inhabited miner_share_t := populate zero_share.

Definition miner_opencl_config_defaults : miner_opencl_config_t :=
  OpenclConfig false true 0 0 MINER_OPENCL_DEFAULT_BATCH_SIZE 0
    MINER_OPENCL_DEFAULT_NONCES_PER_WORK_ITEM MINER_OPENCL_DEFAULT_MAX_RESULTS
    MINER_OPENCL_BACKEND_AUTO MINER_OPENCL_KERNEL_AUTO 0
    (replicate MINER_OPENCL_MAX_DEVICES (OpenclDevice 0 0 0 0 0 0 0 0)).

(** [miner_cuda_config_defaults] (src/src/cuda_miner.c). *)
Definition miner_cuda_config_defaults : miner_cuda_config_t :=
  CudaConfig false MINER_CUDA_DEFAULT_DEVICE MINER_CUDA_DEFAULT_BATCH_SIZE
    MINER_CUDA_DEFAULT_THREADS_PER_BLOCK MINER_CUDA_DEFAULT_NONCES_PER_THREAD
    MINER_CUDA_DEFAULT_MAX_RESULTS MINER_CUDA_DEFAULT_KERNEL_VARIANT.

(** Zero keeps the inherited value, for every setting. *)
Definition or_else (v zero inherited : Z) : Z := if negb (v =? zero) then v else inherited.

Definition opencl_device_to_config (base : option miner_opencl_config_t)
    (device : option miner_opencl_device_config_t) : miner_opencl_config_t :=
  let out := match base with Some base => base | None => miner_opencl_config_defaults end in
  match device with
  | None =>
      OpenclConfig true false (oc_platform out) (oc_device out) (oc_batch_size out)
        (oc_local_work_size out) (oc_nonces_per_work_item out) (oc_max_results out)
        (oc_backend_variant out) (oc_kernel_variant out) 0 (oc_devices out)
  | Some d =>
      OpenclConfig true false (od_platform d) (od_device d)
        (or_else (od_batch_size d) 0 (oc_batch_size out))
        (or_else (od_local_work_size d) 0 (oc_local_work_size out))
        (or_else (od_nonces_per_work_item d) 0 (oc_nonces_per_work_item out))
        (or_else (od_max_results d) 0 (oc_max_results out))
        (or_else (od_backend_variant d) MINER_OPENCL_BACKEND_AUTO (oc_backend_variant out))
        (or_else (od_kernel_variant d) MINER_OPENCL_KERNEL_AUTO (oc_kernel_variant out))
        0 (oc_devices out)
  end.

Section miner.
Context `{O : OpenSSL} {D : Type}.

Record active_job_t := ActiveJob {
  public_job : miner_job_t;
  aj_midstate : sha256_midstate_t O;
  aj_tail_words : list Z;
  aj_target_words : list Z;
  aj_pause_epoch : Z;
  valid : bool;
}.

(** [struct miner], less the lock, the condition variable and the thread handles.
    [D] is the type of device handles; arrays sized by a count are lists. *)
Record miner := Miner {
  thread_count : Z;
  opencl_devices : list (option D);
  opencl_started : nat;
  opencl_hashes : list Z;
  cuda_device : option D;
  cuda_started : bool;
  cuda_hashes : Z;
  cpu_affinity_enabled : bool;
  cpu_affinity_count : Z;
  cpu_affinity_plan : list Z;
  started : bool;
  stop : bool;
  paused : bool;
  pause_epoch : Z;
  opencl_config : miner_opencl_config_t;
  cuda_config : miner_cuda_config_t;
  job : active_job_t;
  next_nonce : Z;
  nonce_exhausted : bool;
  hashes : Z;
  thread_hashes : list Z;
  shares : list miner_share_t;
  share_head : nat;
  share_tail : nat;
  share_count : nat;
}.

(** Assignments to one field. *)
Definition set_thread_count (v : Z) (m : miner) : miner :=
    Miner v (opencl_devices m) (opencl_started m) (opencl_hashes m) (cuda_device m) (cuda_started
    m) (cuda_hashes m) (cpu_affinity_enabled m) (cpu_affinity_count m) (cpu_affinity_plan m)
    (started m) (stop m) (paused m) (pause_epoch m) (opencl_config m) (cuda_config m) (job m)
    (next_nonce m) (nonce_exhausted m) (hashes m) (thread_hashes m) (shares m) (share_head m)
    (share_tail m) (share_count m).
Definition set_opencl_devices (v : list (option D)) (m : miner) : miner :=
    Miner (thread_count m) v (opencl_started m) (opencl_hashes m) (cuda_device m) (cuda_started m)
    (cuda_hashes m) (cpu_affinity_enabled m) (cpu_affinity_count m) (cpu_affinity_plan m) (started
    m) (stop m) (paused m) (pause_epoch m) (opencl_config m) (cuda_config m) (job m) (next_nonce
    m) (nonce_exhausted m) (hashes m) (thread_hashes m) (shares m) (share_head m) (share_tail m)
    (share_count m).
Definition set_opencl_started (v : nat) (m : miner) : miner :=
    Miner (thread_count m) (opencl_devices m) v (opencl_hashes m) (cuda_device m) (cuda_started m)
    (cuda_hashes m) (cpu_affinity_enabled m) (cpu_affinity_count m) (cpu_affinity_plan m) (started
    m) (stop m) (paused m) (pause_epoch m) (opencl_config m) (cuda_config m) (job m) (next_nonce
    m) (nonce_exhausted m) (hashes m) (thread_hashes m) (shares m) (share_head m) (share_tail m)
    (share_count m).
Definition set_opencl_hashes (v : list Z) (m : miner) : miner :=
    Miner (thread_count m) (opencl_devices m) (opencl_started m) v (cuda_device m) (cuda_started
    m) (cuda_hashes m) (cpu_affinity_enabled m) (cpu_affinity_count m) (cpu_affinity_plan m)
    (started m) (stop m) (paused m) (pause_epoch m) (opencl_config m) (cuda_config m) (job m)
    (next_nonce m) (nonce_exhausted m) (hashes m) (thread_hashes m) (shares m) (share_head m)
    (share_tail m) (share_count m).
Definition set_cuda_device (v : option D) (m : miner) : miner :=
    Miner (thread_count m) (opencl_devices m) (opencl_started m) (opencl_hashes m) v (cuda_started
    m) (cuda_hashes m) (cpu_affinity_enabled m) (cpu_affinity_count m) (cpu_affinity_plan m)
    (started m) (stop m) (paused m) (pause_epoch m) (opencl_config m) (cuda_config m) (job m)
    (next_nonce m) (nonce_exhausted m) (hashes m) (thread_hashes m) (shares m) (share_head m)
    (share_tail m) (share_count m).
Definition set_cuda_started (v : bool) (m : miner) : miner :=
    Miner (thread_count m) (opencl_devices m) (opencl_started m) (opencl_hashes m) (cuda_device m)
    v (cuda_hashes m) (cpu_affinity_enabled m) (cpu_affinity_count m) (cpu_affinity_plan m)
    (started m) (stop m) (paused m) (pause_epoch m) (opencl_config m) (cuda_config m) (job m)
    (next_nonce m) (nonce_exhausted m) (hashes m) (thread_hashes m) (shares m) (share_head m)
    (share_tail m) (share_count m).
Definition set_cuda_hashes (v : Z) (m : miner) : miner :=
    Miner (thread_count m) (opencl_devices m) (opencl_started m) (opencl_hashes m) (cuda_device m)
    (cuda_started m) v (cpu_affinity_enabled m) (cpu_affinity_count m) (cpu_affinity_plan m)
    (started m) (stop m) (paused m) (pause_epoch m) (opencl_config m) (cuda_config m) (job m)
    (next_nonce m) (nonce_exhausted m) (hashes m) (thread_hashes m) (shares m) (share_head m)
    (share_tail m) (share_count m).
Definition set_cpu_affinity_enabled (v : bool) (m : miner) : miner :=
    Miner (thread_count m) (opencl_devices m) (opencl_started m) (opencl_hashes m) (cuda_device m)
    (cuda_started m) (cuda_hashes m) v (cpu_affinity_count m) (cpu_affinity_plan m) (started m)
    (stop m) (paused m) (pause_epoch m) (opencl_config m) (cuda_config m) (job m) (next_nonce m)
    (nonce_exhausted m) (hashes m) (thread_hashes m) (shares m) (share_head m) (share_tail m)
    (share_count m).
Definition set_cpu_affinity_count (v : Z) (m : miner) : miner :=
    Miner (thread_count m) (opencl_devices m) (opencl_started m) (opencl_hashes m) (cuda_device m)
    (cuda_started m) (cuda_hashes m) (cpu_affinity_enabled m) v (cpu_affinity_plan m) (started m)
    (stop m) (paused m) (pause_epoch m) (opencl_config m) (cuda_config m) (job m) (next_nonce m)
    (nonce_exhausted m) (hashes m) (thread_hashes m) (shares m) (share_head m) (share_tail m)
    (share_count m).
Definition set_cpu_affinity_plan (v : list Z) (m : miner) : miner :=
    Miner (thread_count m) (opencl_devices m) (opencl_started m) (opencl_hashes m) (cuda_device m)
    (cuda_started m) (cuda_hashes m) (cpu_affinity_enabled m) (cpu_affinity_count m) v (started m)
    (stop m) (paused m) (pause_epoch m) (opencl_config m) (cuda_config m) (job m) (next_nonce m)
    (nonce_exhausted m) (hashes m) (thread_hashes m) (shares m) (share_head m) (share_tail m)
    (share_count m).
Definition set_started (v : bool) (m : miner) : miner :=
    Miner (thread_count m) (opencl_devices m) (opencl_started m) (opencl_hashes m) (cuda_device m)
    (cuda_started m) (cuda_hashes m) (cpu_affinity_enabled m) (cpu_affinity_count m)
    (cpu_affinity_plan m) v (stop m) (paused m) (pause_epoch m) (opencl_config m) (cuda_config m)
    (job m) (next_nonce m) (nonce_exhausted m) (hashes m) (thread_hashes m) (shares m) (share_head
    m) (share_tail m) (share_count m).
Definition set_stop (v : bool) (m : miner) : miner :=
    Miner (thread_count m) (opencl_devices m) (opencl_started m) (opencl_hashes m) (cuda_device m)
    (cuda_started m) (cuda_hashes m) (cpu_affinity_enabled m) (cpu_affinity_count m)
    (cpu_affinity_plan m) (started m) v (paused m) (pause_epoch m) (opencl_config m) (cuda_config
    m) (job m) (next_nonce m) (nonce_exhausted m) (hashes m) (thread_hashes m) (shares m)
    (share_head m) (share_tail m) (share_count m).
Definition set_paused (v : bool) (m : miner) : miner :=
    Miner (thread_count m) (opencl_devices m) (opencl_started m) (opencl_hashes m) (cuda_device m)
    (cuda_started m) (cuda_hashes m) (cpu_affinity_enabled m) (cpu_affinity_count m)
    (cpu_affinity_plan m) (started m) (stop m) v (pause_epoch m) (opencl_config m) (cuda_config m)
    (job m) (next_nonce m) (nonce_exhausted m) (hashes m) (thread_hashes m) (shares m) (share_head
    m) (share_tail m) (share_count m).
Definition set_pause_epoch (v : Z) (m : miner) : miner :=
    Miner (thread_count m) (opencl_devices m) (opencl_started m) (opencl_hashes m) (cuda_device m)
    (cuda_started m) (cuda_hashes m) (cpu_affinity_enabled m) (cpu_affinity_count m)
    (cpu_affinity_plan m) (started m) (stop m) (paused m) v (opencl_config m) (cuda_config m) (job
    m) (next_nonce m) (nonce_exhausted m) (hashes m) (thread_hashes m) (shares m) (share_head m)
    (share_tail m) (share_count m).
Definition set_opencl_config (v : miner_opencl_config_t) (m : miner) : miner :=
    Miner (thread_count m) (opencl_devices m) (opencl_started m) (opencl_hashes m) (cuda_device m)
    (cuda_started m) (cuda_hashes m) (cpu_affinity_enabled m) (cpu_affinity_count m)
    (cpu_affinity_plan m) (started m) (stop m) (paused m) (pause_epoch m) v (cuda_config m) (job
    m) (next_nonce m) (nonce_exhausted m) (hashes m) (thread_hashes m) (shares m) (share_head m)
    (share_tail m) (share_count m).
Definition set_cuda_config (v : miner_cuda_config_t) (m : miner) : miner :=
    Miner (thread_count m) (opencl_devices m) (opencl_started m) (opencl_hashes m) (cuda_device m)
    (cuda_started m) (cuda_hashes m) (cpu_affinity_enabled m) (cpu_affinity_count m)
    (cpu_affinity_plan m) (started m) (stop m) (paused m) (pause_epoch m) (opencl_config m) v (job
    m) (next_nonce m) (nonce_exhausted m) (hashes m) (thread_hashes m) (shares m) (share_head m)
    (share_tail m) (share_count m).
Definition set_job (v : active_job_t) (m : miner) : miner :=
    Miner (thread_count m) (opencl_devices m) (opencl_started m) (opencl_hashes m) (cuda_device m)
    (cuda_started m) (cuda_hashes m) (cpu_affinity_enabled m) (cpu_affinity_count m)
    (cpu_affinity_plan m) (started m) (stop m) (paused m) (pause_epoch m) (opencl_config m)
    (cuda_config m) v (next_nonce m) (nonce_exhausted m) (hashes m) (thread_hashes m) (shares m)
    (share_head m) (share_tail m) (share_count m).
Definition set_next_nonce (v : Z) (m : miner) : miner :=
    Miner (thread_count m) (opencl_devices m) (opencl_started m) (opencl_hashes m) (cuda_device m)
    (cuda_started m) (cuda_hashes m) (cpu_affinity_enabled m) (cpu_affinity_count m)
    (cpu_affinity_plan m) (started m) (stop m) (paused m) (pause_epoch m) (opencl_config m)
    (cuda_config m) (job m) v (nonce_exhausted m) (hashes m) (thread_hashes m) (shares m)
    (share_head m) (share_tail m) (share_count m).
Definition set_nonce_exhausted (v : bool) (m : miner) : miner :=
    Miner (thread_count m) (opencl_devices m) (opencl_started m) (opencl_hashes m) (cuda_device m)
    (cuda_started m) (cuda_hashes m) (cpu_affinity_enabled m) (cpu_affinity_count m)
    (cpu_affinity_plan m) (started m) (stop m) (paused m) (pause_epoch m) (opencl_config m)
    (cuda_config m) (job m) (next_nonce m) v (hashes m) (thread_hashes m) (shares m) (share_head
    m) (share_tail m) (share_count m).
Definition set_hashes (v : Z) (m : miner) : miner :=
    Miner (thread_count m) (opencl_devices m) (opencl_started m) (opencl_hashes m) (cuda_device m)
    (cuda_started m) (cuda_hashes m) (cpu_affinity_enabled m) (cpu_affinity_count m)
    (cpu_affinity_plan m) (started m) (stop m) (paused m) (pause_epoch m) (opencl_config m)
    (cuda_config m) (job m) (next_nonce m) (nonce_exhausted m) v (thread_hashes m) (shares m)
    (share_head m) (share_tail m) (share_count m).
Definition set_thread_hashes (v : list Z) (m : miner) : miner :=
    Miner (thread_count m) (opencl_devices m) (opencl_started m) (opencl_hashes m) (cuda_device m)
    (cuda_started m) (cuda_hashes m) (cpu_affinity_enabled m) (cpu_affinity_count m)
    (cpu_affinity_plan m) (started m) (stop m) (paused m) (pause_epoch m) (opencl_config m)
    (cuda_config m) (job m) (next_nonce m) (nonce_exhausted m) (hashes m) v (shares m) (share_head
    m) (share_tail m) (share_count m).
Definition set_shares (v : list miner_share_t) (m : miner) : miner :=
    Miner (thread_count m) (opencl_devices m) (opencl_started m) (opencl_hashes m) (cuda_device m)
    (cuda_started m) (cuda_hashes m) (cpu_affinity_enabled m) (cpu_affinity_count m)
    (cpu_affinity_plan m) (started m) (stop m) (paused m) (pause_epoch m) (opencl_config m)
    (cuda_config m) (job m) (next_nonce m) (nonce_exhausted m) (hashes m) (thread_hashes m) v
    (share_head m) (share_tail m) (share_count m).
Definition set_share_head (v : nat) (m : miner) : miner :=
    Miner (thread_count m) (opencl_devices m) (opencl_started m) (opencl_hashes m) (cuda_device m)
    (cuda_started m) (cuda_hashes m) (cpu_affinity_enabled m) (cpu_affinity_count m)
    (cpu_affinity_plan m) (started m) (stop m) (paused m) (pause_epoch m) (opencl_config m)
    (cuda_config m) (job m) (next_nonce m) (nonce_exhausted m) (hashes m) (thread_hashes m)
    (shares m) v (share_tail m) (share_count m).
Definition set_share_tail (v : nat) (m : miner) : miner :=
    Miner (thread_count m) (opencl_devices m) (opencl_started m) (opencl_hashes m) (cuda_device m)
    (cuda_started m) (cuda_hashes m) (cpu_affinity_enabled m) (cpu_affinity_count m)
    (cpu_affinity_plan m) (started m) (stop m) (paused m) (pause_epoch m) (opencl_config m)
    (cuda_config m) (job m) (next_nonce m) (nonce_exhausted m) (hashes m) (thread_hashes m)
    (shares m) (share_head m) v (share_count m).
Definition set_share_count (v : nat) (m : miner) : miner :=
    Miner (thread_count m) (opencl_devices m) (opencl_started m) (opencl_hashes m) (cuda_device m)
    (cuda_started m) (cuda_hashes m) (cpu_affinity_enabled m) (cpu_affinity_count m)
    (cpu_affinity_plan m) (started m) (stop m) (paused m) (pause_epoch m) (opencl_config m)
    (cuda_config m) (job m) (next_nonce m) (nonce_exhausted m) (hashes m) (thread_hashes m)
    (shares m) (share_head m) (share_tail m) v.


(** * Construction *)

Definition zero_job : active_job_t :=
  ActiveJob (MinerJob 0 "" "" "" (replicate 80 0) (replicate 32 0))
    (Midstate SHA256_Init SHA256_Init (replicate 8 0)) (replicate 4 0) (replicate 8 0) 0 false.

Definition in_range (v lo hi dflt : Z) : Z := if (v <? lo) || (hi <? v) then dflt else v.

Definition miner_create_with_backend_options (n : Z) (ocl : option miner_opencl_config_t)
    (cuda : option miner_cuda_config_t) : miner :=
  let n := if n <? 0 then 0 else n in
  let ocl := match ocl with
    | None => miner_opencl_config_defaults
    | Some c =>
        OpenclConfig (oc_enabled c) (oc_all_devices c) (oc_platform c) (oc_device c)
          (or_else (oc_batch_size c) 0 MINER_OPENCL_DEFAULT_BATCH_SIZE)
          (oc_local_work_size c)
          (or_else (oc_nonces_per_work_item c) 0 MINER_OPENCL_DEFAULT_NONCES_PER_WORK_ITEM)
          (or_else (oc_max_results c) 0 MINER_OPENCL_DEFAULT_MAX_RESULTS)
          (in_range (oc_backend_variant c) MINER_OPENCL_BACKEND_AUTO MINER_OPENCL_BACKEND_MODERN
             MINER_OPENCL_BACKEND_AUTO)
          (in_range (oc_kernel_variant c) MINER_OPENCL_KERNEL_AUTO
             MINER_OPENCL_KERNEL_REGISTER_HEAVY MINER_OPENCL_KERNEL_AUTO)
          (oc_device_count c) (oc_devices c)
    end in
  let cuda := match cuda with
    | None => miner_cuda_config_defaults
    | Some c =>
        CudaConfig (cc_enabled c) (cc_device c)
          (or_else (cc_batch_size c) 0 MINER_CUDA_DEFAULT_BATCH_SIZE)
          (or_else (cc_threads_per_block c) 0 MINER_CUDA_DEFAULT_THREADS_PER_BLOCK)
          (or_else (cc_nonces_per_thread c) 0 MINER_CUDA_DEFAULT_NONCES_PER_THREAD)
          (or_else (cc_max_results c) 0 MINER_CUDA_DEFAULT_MAX_RESULTS)
          (in_range (cc_kernel_variant c) MINER_CUDA_KERNEL_STANDARD MINER_CUDA_KERNEL_LAST
             MINER_CUDA_DEFAULT_KERNEL_VARIANT)
    end in
  {| thread_count := n;
     opencl_devices := []; opencl_started := 0; opencl_hashes := [];
     cuda_device := None; cuda_started := false; cuda_hashes := 0;
     cpu_affinity_enabled := false; cpu_affinity_count := 0; cpu_affinity_plan := [];
     started := false; stop := false; paused := false; pause_epoch := 0;
     opencl_config := ocl; cuda_config := cuda;
     job := zero_job; next_nonce := 0; nonce_exhausted := false; hashes := 0;
     thread_hashes := replicate (Z.to_nat n) 0;
     shares := replicate SHARE_QUEUE_SIZE zero_share;
     share_head := 0; share_tail := 0; share_count := 0 |}.

Definition miner_create_with_options (n : Z) (ocl : option miner_opencl_config_t) : miner :=
  miner_create_with_backend_options n ocl None.
Definition miner_create (n : Z) : miner := miner_create_with_options n None.

Definition miner_set_cpu_affinity (enabled : bool) (m : miner) : miner :=
  if started m then m else set_cpu_affinity_enabled enabled m.

(** * The share queue *)

Definition queue_share_locked (m : miner) (j : miner_job_t) (nonce : Z) (hash : list Z) : miner :=
  if (SHARE_QUEUE_SIZE <=? share_count m)%nat then m
  else
    let share := MinerShare (job_seq j) nonce (miner_hash_difficulty hash) (take 32 hash)
      (default "" (copy_checked 128 (job_id j)))
      (default "" (copy_checked 32 (job_extranonce2 j)))
      (default "" (copy_checked 16 (job_ntime j))) in
    let m := set_shares (<[share_tail m := share]> (shares m)) m in
    let m := set_share_tail ((share_tail m + 1) mod SHARE_QUEUE_SIZE)%nat m in
    set_share_count (share_count m + 1)%nat m.

(** Returns [found] with [*share]. *)
Definition miner_pop_share (m : miner) : miner * option miner_share_t :=
  if (0 <? share_count m)%nat then
    let share := shares m !!! share_head m in
    let m := set_share_head ((share_head m + 1) mod SHARE_QUEUE_SIZE)%nat m in
    let m := set_share_count (share_count m - 1)%nat m in
    (m, Some share)
  else (m, None).

(** * Taking work *)

Definition miner_cpu_batch_size (m : miner) : Z :=
  if (0 <? opencl_started m)%nat then MINER_MIXED_CPU_BATCH_SIZE
  else if cuda_started m then MINER_MIXED_CPU_BATCH_SIZE
  else MINER_BATCH_SIZE.

(** The condition under which [miner_wait_for_work] returns. *)
Definition miner_wait_for_work_done (m : miner) : bool :=
  negb (negb (stop m) && (paused m || negb (valid (job m)))).

(** The job copy, the first nonce and the count; [None] when nothing is handed out. *)
Definition copy_job_and_nonce_range_sized (m : miner) (batch_size : Z)
  : miner * option (active_job_t * Z * Z) :=
  let batch_size := if batch_size =? 0 then MINER_BATCH_SIZE else batch_size in
  if negb (stop m) && negb (paused m) && valid (job m) then
    if UINT32_MAX <? next_nonce m then
      let j := job m in
      let m := set_job (ActiveJob (public_job j) (aj_midstate j) (aj_tail_words j)
                          (aj_target_words j) (aj_pause_epoch j) false) m in
      (set_nonce_exhausted true m, None)
    else
      let remaining := u64 (UINT32_MAX - next_nonce m + 1) in
      let range := if remaining <? batch_size then u32 remaining else batch_size in
      let j := job m in
      let j := ActiveJob (public_job j) (aj_midstate j) (aj_tail_words j)
                 (aj_target_words j) (pause_epoch m) (valid j) in
      let start_nonce := u32 (next_nonce m) in
      (set_next_nonce (u64 (next_nonce m + range)) m, Some (j, start_nonce, range))
  else (m, None).

Definition copy_job_and_nonce_range (m : miner) : miner * option (active_job_t * Z * Z) :=
  let batch_size := MINER_BATCH_SIZE in
  let batch_size := if (0 <? opencl_started m)%nat then MINER_MIXED_CPU_BATCH_SIZE else batch_size in
  let batch_size := if cuda_started m then MINER_MIXED_CPU_BATCH_SIZE else batch_size in
  copy_job_and_nonce_range_sized m batch_size.

(** * Results *)

Definition scan_result_still_current_locked (m : miner) (j : active_job_t) : bool :=
  negb (stop m) && negb (paused m) && (pause_epoch m =? aj_pause_epoch j) &&
  (job_seq (public_job (job m)) =? job_seq (public_job j)).

Definition queue_scan_match (j : active_job_t) (nonce : Z) (hash_words : list Z) (m : miner) : miner :=
  let hash := sha256d_words_to_hash hash_words in
  if scan_result_still_current_locked m j then queue_share_locked m (public_job j) nonce hash
  else m.

(** The locked block after a scan, in the three worker functions. *)
Definition worker_account (id : nat) (j : active_job_t) (local_hashes : Z) (m : miner) : miner :=
  if scan_result_still_current_locked m j then
    let m := set_hashes (u64 (hashes m + local_hashes)) m in
    if Z.of_nat id <? thread_count m then
      set_thread_hashes (<[id := u64 (thread_hashes m !!! id + local_hashes)]> (thread_hashes m)) m
    else m
  else m.

Definition opencl_worker_account (id : nat) (j : active_job_t) (nonce_count : Z) (m : miner) : miner :=
  if scan_result_still_current_locked m j then
    let m := set_hashes (u64 (hashes m + nonce_count)) m in
    if (id <? opencl_started m)%nat then
      set_opencl_hashes (<[id := u64 (opencl_hashes m !!! id + nonce_count)]> (opencl_hashes m)) m
    else m
  else m.

Definition cuda_worker_account (j : active_job_t) (nonce_count : Z) (m : miner) : miner :=
  if scan_result_still_current_locked m j then
    let m := set_hashes (u64 (hashes m + nonce_count)) m in
    set_cuda_hashes (u64 (cuda_hashes m + nonce_count)) m
  else m.

(** * Control *)

Definition miner_set_job (m : miner) (j : miner_job_t) : miner :=
  let midstate := sha256d_80_midstate_prepare (take 64 (job_header j)) in
  let tail_words :=
    for_range 0 4 (fun i t => <[i := load_be32 (job_header j) (64 + i * 4)]> t) (replicate 4 0) in
  let target_words :=
    for_range 0 8 (fun i t => <[i := load_le32 (job_target j) (i * 4)]> t) (replicate 8 0) in
  let seq := u64 (job_seq (public_job (job m)) + 1) in
  let active := ActiveJob
    (MinerJob seq (job_id j) (job_extranonce2 j) (job_ntime j) (job_header j) (job_target j))
    midstate tail_words target_words 0 true in
  let m := set_job active m in
  let m := set_next_nonce 0 m in
  let m := set_nonce_exhausted false m in
  let m := set_share_head 0 m in
  let m := set_share_tail 0 m in
  set_share_count 0 m.

Definition miner_set_paused (m : miner) (p : bool) : miner :=
  let m := if negb (paused m) && p then set_pause_epoch (u64 (pause_epoch m + 1)) m else m in
  set_paused p m.

Definition miner_is_paused (m : miner) : bool := paused m.

Definition miner_take_nonce_exhausted (m : miner) : miner * bool :=
  let exhausted := nonce_exhausted m in
  (set_nonce_exhausted false m, exhausted).

Definition miner_hashes (m : miner) : Z := hashes m.

(** Devices with a handle among the first [opencl_started]. *)
Definition live_devices (m : miner) : list nat :=
  filter (fun i => is_Some (mjoin (opencl_devices m !! i))) (seq 0 (opencl_started m)).

Definition opencl_count (m : miner) : Z := Z.of_nat (length (live_devices m)).
Definition cuda_count (m : miner) : Z :=
  if cuda_started m && bool_decide (is_Some (cuda_device m)) then 1 else 0.
Definition miner_thread_count (m : miner) : Z := thread_count m + opencl_count m + cuda_count m.

(** The array [out] of capacity [max_count], up to the returned count. *)
Definition miner_snapshot_thread_hashes (m : miner) (max_count : Z) : list Z :=
  if max_count <=? 0 then []
  else
    let count := thread_count m + opencl_count m + cuda_count m in
    let count := if max_count <? count then max_count else count in
    let cpu_count := if thread_count m <? count then thread_count m else count in
    let out := (fun i => thread_hashes m !!! i) <$> seq 0 (Z.to_nat cpu_count) in
    let out := foldl (fun out i =>
        if (Z.of_nat (length out) <? count) && bool_decide (is_Some (mjoin (opencl_devices m !! i)))
        then out ++ [opencl_hashes m !!! i] else out)
      out (seq 0 (opencl_started m)) in
    if cuda_started m && bool_decide (is_Some (cuda_device m)) && (Z.of_nat (length out) <? count)
    then out ++ [cuda_hashes m] else out.

(** [miner_stop]: the flag, then every worker is joined and the devices are
    destroyed. *)
Definition miner_stop_request (m : miner) : miner := set_stop true m.
Definition miner_stop (m : miner) : miner :=
  if negb (started m) then m
  else
    let m := miner_stop_request m in
    let m := set_opencl_devices
      (imap (fun i d => if (i <? opencl_started m)%nat then None else d) (opencl_devices m)) m in
    let m := set_opencl_started 0 m in
    let m := if cuda_started m then set_cuda_device None m else m in
    let m := set_cuda_started false m in
    set_started false m.
End miner.
Arguments miner _ _ : clear implicits.
Arguments active_job_t _ : clear implicits.

(** * Starting

    What [miner_start] learns from outside: the affinity plan, the resolved
    devices, the outcome of each self-test, device creation and thread creation. *)
Record start_env (D : Type) := StartEnv {
  se_affinity_supported : bool;
  se_affinity_plan : list Z;
  se_resolved : list miner_opencl_device_config_t;
  se_opencl_self_test : miner_opencl_config_t -> bool;
  se_opencl_create : miner_opencl_config_t -> option D;
  se_cuda_self_test : miner_cuda_config_t -> bool;
  se_cuda_create : miner_cuda_config_t -> option D;
  se_cpu_thread : nat -> bool;
  se_opencl_thread : nat -> bool;
  se_cuda_thread : bool;
}.
Arguments se_affinity_supported {_} _.
Arguments se_affinity_plan {_} _.
Arguments se_resolved {_} _.
Arguments se_opencl_self_test {_} _ _.
Arguments se_opencl_create {_} _ _.
Arguments se_cuda_self_test {_} _ _.
Arguments se_cuda_create {_} _ _.
Arguments se_cpu_thread {_} _ _.
Arguments se_opencl_thread {_} _ _.
Arguments se_cuda_thread {_} _.

(** A worker thread: its kind, its id, and for CPU workers the processor it binds
    to ([-1] for none). *)
Inductive worker_kind :=
  | cpu_worker (id : nat) (target_cpu : Z)
  | opencl_worker (id : nat)
  | cuda_worker.

Section start.
Context `{O : OpenSSL} {D : Type}.

Definition destroy_unstarted_gpu_devices (m : miner O D) : miner O D :=
  let m := set_opencl_devices
    (imap (fun i d => if (i <? opencl_started m)%nat then None else d) (opencl_devices m)) m in
  let m := set_opencl_started 0 m in
  let m := set_cuda_device None m in
  set_cuda_started false m.

Definition stop_partially_started_cpu_threads (n : nat) (m : miner O D) : miner O D :=
  let m := destroy_unstarted_gpu_devices m in
  let m := set_thread_count (Z.of_nat n) m in
  let m := set_started true m in
  miner_stop m.

(** One resolved device: self-test, creation, next free slot. *)
Definition start_opencl_device (e : start_env D) (m : miner O D)
    (device : miner_opencl_device_config_t) : miner O D :=
  let device_config := opencl_device_to_config (Some (opencl_config m)) (Some device) in
  if negb (se_opencl_self_test e device_config) then m
  else
    match se_opencl_create e device_config with
    | None => m
    | Some opencl =>
        let slot := opencl_started m in
        let m := set_opencl_started (opencl_started m + 1)%nat m in
        set_opencl_devices (<[slot := Some opencl]> (opencl_devices m)) m
    end.

(** The CPU thread loop from [i]; [None] when a thread could not be created, with
    the number of threads created before it. *)
Fixpoint start_cpu_threads (e : start_env D) (i n : nat) (m : miner O D)
    (spawned : list worker_kind) : miner O D * list worker_kind * bool :=
  match n with
  | 0%nat => (m, spawned, true)
  | S n =>
      let target_cpu :=
        if cpu_affinity_enabled m && (0 <? cpu_affinity_count m) then
          cpu_affinity_plan m !!! (i mod Z.to_nat (cpu_affinity_count m))%nat
        else -1 in
      let m := set_thread_count (Z.of_nat i + 1) m in
      if se_cpu_thread e i then start_cpu_threads e (S i) n m (spawned ++ [cpu_worker i target_cpu])
      else (stop_partially_started_cpu_threads i m, spawned, false)
  end.

Definition start_opencl_thread (e : start_env D) (s : miner O D * list worker_kind) (i : nat)
  : miner O D * list worker_kind :=
  let '(m, spawned) := s in
  match mjoin (opencl_devices m !! i) with
  | None => (m, spawned)
  | Some _ =>
      if se_opencl_thread e i then (m, spawned ++ [opencl_worker i])
      else (set_opencl_devices (<[i := None]> (opencl_devices m)) m, spawned)
  end.

Definition start_affinity (e : start_env D) (m : miner O D) : miner O D :=
  if cpu_affinity_enabled m && (0 <? thread_count m) && se_affinity_supported e then
    let m := set_cpu_affinity_plan (se_affinity_plan e) m in
    let m := set_cpu_affinity_count (Z.of_nat (length (se_affinity_plan e))) m in
    if cpu_affinity_count m <=? 0 then set_cpu_affinity_enabled false m else m
  else set_cpu_affinity_count 0 (set_cpu_affinity_enabled false m).

Definition start_opencl_devices (e : start_env D) (m : miner O D) : miner O D :=
  if oc_enabled (opencl_config m) then
    match se_resolved e with
    | [] => m
    | resolved =>
        let m := set_opencl_devices (replicate (length resolved) None) m in
        let m := set_opencl_hashes (replicate (length resolved) 0) m in
        foldl (start_opencl_device e) m resolved
    end
  else m.

Definition start_cuda_device (e : start_env D) (m : miner O D) : miner O D :=
  if cc_enabled (cuda_config m) then
    if negb (se_cuda_self_test e (cuda_config m)) then m
    else
      match se_cuda_create e (cuda_config m) with
      | None => set_cuda_device None m
      | Some d => set_cuda_started true (set_cuda_device (Some d) m)
      end
  else m.

Definition start_cuda_thread (e : start_env D) (s : miner O D * list worker_kind)
  : miner O D * list worker_kind :=
  let '(m, spawned) := s in
  if cuda_started m && bool_decide (is_Some (cuda_device m)) then
    if se_cuda_thread e then (m, spawned ++ [cuda_worker])
    else (set_cuda_started false (set_cuda_device None m), spawned)
  else (m, spawned).

(** The structure, the threads created and the return code. *)
Definition miner_start (e : start_env D) (m : miner O D) : miner O D * list worker_kind * Z :=
  if started m then (m, [], 0)
  else
    let requested_cpu_threads := thread_count m in
    let m := start_affinity e m in
    let m := start_opencl_devices e m in
    let m := start_cuda_device e m in
    if (requested_cpu_threads <=? 0) && (opencl_started m =? 0)%nat && negb (cuda_started m)
    then (m, [], -1)
    else
      let m := set_thread_count 0 m in
      let '(m, spawned, ok) := start_cpu_threads e 0 (Z.to_nat requested_cpu_threads) m [] in
      if negb ok then (m, spawned, -1)
      else
        let '(m, spawned) := foldl (start_opencl_thread e) (m, spawned) (seq 0 (opencl_started m)) in
        let '(m, spawned) := start_cuda_thread e (m, spawned) in
        (* no CPU thread, no OpenCL thread and no CUDA thread is running *)
        match spawned with
        | [] => (m, spawned, -1)
        | _ => (set_started true m, spawned, 0)
        end.
End start.

(** * The queue as a bounded FIFO *)

Section queue.
Context `{O : OpenSSL} {D : Type}.
Implicit Types m : miner O D.

(** The shares waiting, oldest first. *)
Definition queue m : list miner_share_t :=
  (fun i => shares m !!! ((share_head m + i) mod SHARE_QUEUE_SIZE)%nat) <$> seq 0 (share_count m).

Record ring_ok m : Prop := {
  ring_length : length (shares m) = SHARE_QUEUE_SIZE;
  ring_head : (share_head m < SHARE_QUEUE_SIZE)%nat;
  ring_tail : share_tail m = ((share_head m + share_count m) mod SHARE_QUEUE_SIZE)%nat;
  ring_count : (share_count m <= SHARE_QUEUE_SIZE)%nat;
}.

Lemma length_queue m : length (queue m) = share_count m.
Proof. unfold queue. by rewrite length_fmap, length_seq. Qed.

Lemma mod_inj_lt a b n : (0 < n)%nat -> (a < b < a + n)%nat -> (a mod n <> b mod n)%nat.
Proof.
  intros Hn Hab Heq.
  pose proof (Nat.div_mod a n ltac:(lia)) as Ha. pose proof (Nat.div_mod b n ltac:(lia)) as Hb.
  rewrite <- Heq in Hb.
  destruct (Nat.lt_trichotomy (a / n) (b / n)) as [H|[H|H]].
  - assert (n * (a / n) + n <= n * (b / n))%nat by nia. lia.
  - rewrite H in Ha. lia.
  - assert (n * (b / n) + n <= n * (a / n))%nat by nia. lia.
Qed.

(** The share [queue_share_locked] makes of a job, a nonce and a hash. *)
Definition share_of (j : miner_job_t) (nonce : Z) (hash : list Z) : miner_share_t :=
  MinerShare (job_seq j) nonce (miner_hash_difficulty hash) (take 32 hash)
    (default "" (copy_checked 128 (job_id j)))
    (default "" (copy_checked 32 (job_extranonce2 j)))
    (default "" (copy_checked 16 (job_ntime j))).

Lemma queue_push m j nonce hash :
  ring_ok m ->
  ring_ok (queue_share_locked m j nonce hash) /\
  queue (queue_share_locked m j nonce hash) =
    if (SHARE_QUEUE_SIZE <=? length (queue m))%nat then queue m
    else queue m ++ [share_of j nonce hash].
Proof.
  intros [Hl Hh Ht Hc]. rewrite length_queue. unfold queue_share_locked. cbv zeta.
  destruct (Nat.leb_spec SHARE_QUEUE_SIZE (share_count m)) as [Hfull|Hroom]; [by split|].
  fold (share_of j nonce hash). set (sh := share_of j nonce hash).
  assert (Htl : (share_tail m < SHARE_QUEUE_SIZE)%nat)
    by (rewrite Ht; apply Nat.mod_upper_bound; done).
  split.
  - split; cbn [shares share_head share_tail share_count set_share_count set_share_tail set_shares].
    + by rewrite length_insert.
    + done.
    + rewrite Ht. rewrite Nat.Div0.add_mod_idemp_l. f_equal. lia.
    + lia.
  - unfold queue. cbn [shares share_head share_tail share_count set_share_count set_share_tail set_shares].
    rewrite seq_app, fmap_app. cbn [seq fmap list_fmap Nat.add]. f_equal.
    + apply list_fmap_ext. intros k i Hi. apply lookup_seq in Hi as [-> Hi].
      rewrite list_lookup_total_insert_ne; [done|]. rewrite Ht.
      apply not_eq_sym, mod_inj_lt; [unfold SHARE_QUEUE_SIZE; lia|]. lia.
    + rewrite <- Ht. rewrite list_lookup_total_insert_eq by lia. done.
Qed.

Lemma queue_pop m :
  ring_ok m ->
  ring_ok (fst (miner_pop_share m)) /\
  match queue m with
  | [] => miner_pop_share m = (m, None)
  | sh :: q => snd (miner_pop_share m) = Some sh /\ queue (fst (miner_pop_share m)) = q
  end.
Proof.
  intros Hok. pose proof Hok as [Hl Hh Ht Hc]. unfold miner_pop_share. cbv zeta. unfold queue.
  destruct (share_count m) as [|n] eqn:Hn.
  - cbn [Nat.ltb Nat.leb fst]. by split.
  - cbn [Nat.ltb Nat.leb fst snd]. split.
    + split; cbn [shares share_head share_tail share_count set_share_count set_share_head].
      * done.
      * apply Nat.mod_upper_bound. done.
      * rewrite Ht, Nat.Div0.add_mod_idemp_l. f_equal. rewrite Hn. lia.
      * rewrite Hn. lia.
    + cbn [shares share_head share_tail share_count set_share_count set_share_head].
      rewrite Hn. cbn [seq fmap list_fmap Nat.sub]. rewrite Nat.add_0_r, Nat.sub_0_r.
      rewrite Nat.mod_small by done. split; [done|].
      rewrite <- (fmap_S_seq 0), <- list_fmap_compose. apply list_fmap_ext.
      intros _ i _. cbn [compose]. rewrite Nat.Div0.add_mod_idemp_l. do 2 f_equal. lia.
Qed.

Lemma queue_set_job m j :
  length (shares m) = SHARE_QUEUE_SIZE ->
  ring_ok (miner_set_job m j) /\ queue (miner_set_job m j) = [].
Proof.
  intros Hl. split; [|done].
  split; [exact Hl|exact (Nat.lt_0_succ 255)|reflexivity|exact (Nat.le_0_l 256)].
Qed.

(** * Handing out nonces *)

(** The batch actually used. *)
Definition batch_or_default (b : Z) : Z := if b =? 0 then MINER_BATCH_SIZE else b.

Definition may_work m : bool := negb (stop m) && negb (paused m) && valid (job m).

Definition with_epoch m : active_job_t O :=
  ActiveJob (public_job (job m)) (aj_midstate (job m)) (aj_tail_words (job m))
    (aj_target_words (job m)) (pause_epoch m) (valid (job m)).

Lemma copy_idle m b : may_work m = false -> copy_job_and_nonce_range_sized m b = (m, None).
Proof.
  intros H. unfold copy_job_and_nonce_range_sized. cbv zeta. unfold may_work in H. by rewrite H.
Qed.

Lemma copy_exhausted m b :
  may_work m = true -> next_nonce m = 2 ^ 32 ->
  copy_job_and_nonce_range_sized m b =
  (set_nonce_exhausted true
     (set_job (ActiveJob (public_job (job m)) (aj_midstate (job m)) (aj_tail_words (job m))
                 (aj_target_words (job m)) (aj_pause_epoch (job m)) false) m), None).
Proof.
  intros H Hn. unfold copy_job_and_nonce_range_sized. cbv zeta. unfold may_work in H.
  rewrite H, Hn. done.
Qed.

Lemma copy_range m b :
  may_work m = true -> 0 <= next_nonce m < 2 ^ 32 -> is_u32 b ->
  let n := Z.min (batch_or_default b) (2 ^ 32 - next_nonce m) in
  0 < n /\ next_nonce m + n <= 2 ^ 32 /\
  copy_job_and_nonce_range_sized m b =
  (set_next_nonce (next_nonce m + n) m, Some (with_epoch m, next_nonce m, n)).
Proof.
  intros H Hn Hb. cbv zeta. unfold copy_job_and_nonce_range_sized. cbv zeta.
  unfold may_work in H. rewrite H. fold (batch_or_default b).
  assert (Hbd : 0 < batch_or_default b < 2 ^ 32).
  { unfold batch_or_default, MINER_BATCH_SIZE. unfold is_u32 in Hb.
    destruct (Z.eqb_spec b 0); lia. }
  unfold UINT32_MAX. rewrite (proj2 (Z.ltb_ge _ _)) by lia.
  rewrite (u64_small (0xffffffff - next_nonce m + 1)) by (unfold is_u64; lia).
  replace (0xffffffff - next_nonce m + 1) with (2 ^ 32 - next_nonce m) by lia.
  rewrite (u32_small (next_nonce m)) by (unfold is_u32; lia).
  split; [lia|]. split; [lia|].
  destruct (Z.ltb_spec (2 ^ 32 - next_nonce m) (batch_or_default b)) as [Hlt|Hge].
  - rewrite Z.min_r by lia. destruct (Z.eq_dec (next_nonce m) 0) as [H0|H0]; [lia|].
    rewrite (u32_small (2 ^ 32 - next_nonce m)) by (unfold is_u32; lia).
    by rewrite u64_small by (unfold is_u64; lia).
  - rewrite Z.min_l by lia. by rewrite u64_small by (unfold is_u64; lia).
Qed.
End queue.

(** * Counters and threads *)

Section counters.
Context `{O : OpenSSL} {D : Type}.
Implicit Types m : miner O D.

(** Every counter a snapshot reports, in its order: CPU threads, live OpenCL
    devices, CUDA. *)
Definition all_counters m : list Z :=
  take (Z.to_nat (thread_count m)) (thread_hashes m) ++
  ((fun i => opencl_hashes m !!! i) <$> live_devices m) ++
  (if cuda_started m && bool_decide (is_Some (cuda_device m)) then [cuda_hashes m] else []).

Lemma append_while (live : nat -> bool) (h : nat -> Z) count l out :
  Z.of_nat (length out) <= count ->
  foldl (fun out i => if (Z.of_nat (length out) <? count) && live i then out ++ [h i] else out) out l =
  out ++ take (Z.to_nat count - length out) (h <$> filter (fun i => live i) l).
Proof.
  revert out. induction l as [|i l IH]; intros out Hout; cbn [foldl].
  - change (h <$> filter _ []) with (@nil Z). by rewrite take_nil, app_nil_r.
  - rewrite filter_cons. destruct (live i) eqn:Hi.
    + rewrite andb_true_r. rewrite decide_True by done.
      destruct (Z.ltb_spec (Z.of_nat (length out)) count) as [Hlt|Hge].
      * rewrite IH by (rewrite length_app; cbn; lia).
        rewrite length_app. cbn [length]. rewrite <- app_assoc. f_equal.
        replace (Z.to_nat count - length out)%nat
          with (S (Z.to_nat count - (length out + 1)))%nat by lia. done.
      * rewrite IH by lia. by replace (Z.to_nat count - length out)%nat with 0%nat by lia.
    + rewrite andb_false_r, decide_False by (intros H; exact H). by apply IH.
Qed.

Lemma length_all_counters m :
  0 <= thread_count m <= Z.of_nat (length (thread_hashes m)) ->
  Z.of_nat (length (all_counters m)) = miner_thread_count m.
Proof.
  intros Ht. unfold all_counters, miner_thread_count, opencl_count, cuda_count.
  rewrite !length_app, length_take, length_fmap.
  destruct (cuda_started m && bool_decide (is_Some (cuda_device m))); cbn [length]; lia.
Qed.

(** The devices still alive among the first [k]. *)
Definition live_among (ds : list (option D)) (k : nat) : list nat :=
  filter (fun i => is_Some (mjoin (ds !! i))) (seq 0 k).

Lemma live_among_S ds k :
  live_among ds (S k) =
  live_among ds k ++ (if decide (is_Some (mjoin (ds !! k))) then [k] else []).
Proof. unfold live_among. rewrite seq_S, list.filter_app. f_equal. Qed.

Lemma live_among_insert ds k i v : (k <= i)%nat -> live_among (<[i := v]> ds) k = live_among ds k.
Proof.
  induction k as [|k IH]; [done|]. intros Hi. rewrite !live_among_S, IH by lia.
  by rewrite list_lookup_insert_ne by lia.
Qed.

(** Starting the OpenCL threads: one thread per device left alive. *)
Lemma start_opencl_threads_live e m spawned k :
  let r := foldl (start_opencl_thread e) (m, spawned) (seq 0 k) in
  length (snd r) = (length spawned + length (live_among (opencl_devices (fst r)) k))%nat /\
  exists ds, fst r = set_opencl_devices ds m.
Proof.
  induction k as [|k IH].
  - cbn. split; [lia|]. exists (opencl_devices m). by destruct m.
  - cbv zeta in *. rewrite seq_S, foldl_app. cbn [foldl Nat.add].
    destruct (foldl _ _ (seq 0 k)) as [m' sp]. cbn [fst snd] in IH.
    destruct IH as [Hlen [ds Hds]]. unfold start_opencl_thread.
    destruct (mjoin (opencl_devices m' !! k)) as [d|] eqn:Hd.
    + destruct (se_opencl_thread e k); cbn [fst snd].
      * split; [|by exists ds]. rewrite live_among_S, Hd, decide_True by done.
        rewrite !length_app. cbn [length]. lia.
      * split; [|by exists (<[k:=None]> (opencl_devices m')); rewrite Hds].
        cbn [opencl_devices set_opencl_devices]. rewrite live_among_S, live_among_insert by lia.
        rewrite list_lookup_insert_eq by (destruct (opencl_devices m' !! k) eqn:E; [by eapply lookup_lt_Some|done]).
        cbn [mjoin option_join]. rewrite decide_False by by intros [? ?].
        by rewrite app_nil_r.
    + cbn [fst snd]. split; [|by exists ds]. rewrite live_among_S, Hd.
      rewrite decide_False by by intros [? ?]. by rewrite app_nil_r.
Qed.

Lemma start_cpu_threads_ok e i n m spawned m' spawned' :
  start_cpu_threads e i n m spawned = (m', spawned', true) ->
  length spawned' = (length spawned + n)%nat /\
  m' = set_thread_count (if (n =? 0)%nat then thread_count m else Z.of_nat (i + n)) m.
Proof.
  revert i m spawned. induction n as [|n IH]; intros i m spawned; cbn [start_cpu_threads].
  - intros [= <- <-]. split; [lia|]. by destruct m.
  - cbv zeta. destruct (se_cpu_thread e i); [|done]. intros H. apply IH in H as [Hl ->].
    rewrite length_app in Hl. cbn [length] in Hl. split; [lia|].
    destruct n; cbn [Nat.eqb]; unfold set_thread_count; cbn; f_equal; lia.
Qed.

Lemma start_cpu_threads_fail e i n m spawned m' spawned' :
  start_cpu_threads e i n m spawned = (m', spawned', false) -> started m' = false.
Proof.
  revert i m spawned. induction n as [|n IH]; intros i m spawned; cbn [start_cpu_threads]; [done|].
  cbv zeta. destruct (se_cpu_thread e i); [by apply IH|]. by intros [= <- _].
Qed.

(** The device phases do not touch the [started] flag. *)
Lemma start_devices_started e m :
  started m = false ->
  started (start_cuda_device e (start_opencl_devices e (start_affinity e m))) = false.
Proof.
  intros Hs.
  assert (Ha : started (start_affinity e m) = false).
  { unfold start_affinity. cbv zeta. by repeat case_match. }
  assert (Hf : forall l m', started m' = false -> started (foldl (start_opencl_device e) m' l) = false).
  { intros l. induction l as [|d l IH]; intros m' Hm'; [done|]. apply IH.
    unfold start_opencl_device. cbv zeta. by repeat case_match. }
  assert (Ho : started (start_opencl_devices e (start_affinity e m)) = false).
  { unfold start_opencl_devices. repeat case_match; [done| |done]. by apply Hf. }
  unfold start_cuda_device. by repeat case_match.
Qed.
End counters.

(** * Properties *)

Section properties.
Context `{O : OpenSSL} {D : Type}.
Implicit Types m : miner O D.

(** C20.  The ring buffer of found shares is a FIFO of at most 256: on a well-formed
    ring, queueing appends unless 256 shares wait (then the share is dropped),
    popping removes the oldest or reports none and changes nothing, installing a
    job empties it, and all three keep the ring well formed. *)
Theorem share_queue_fifo m j nonce hash :
  ring_ok m ->
  (ring_ok (queue_share_locked m j nonce hash) /\
   queue (queue_share_locked m j nonce hash) =
     take 256 (queue m ++ [share_of j nonce hash])) /\
  (ring_ok (fst (miner_pop_share m)) /\
   snd (miner_pop_share m) = head (queue m) /\
   queue (fst (miner_pop_share m)) = tail (queue m)) /\
  (ring_ok (miner_set_job m j) /\ queue (miner_set_job m j) = []).
Proof.
  intros Hok. split; [|split].
  - destruct (queue_push m j nonce hash Hok) as [Hr Hq]. split; [done|]. rewrite Hq.
    pose proof (ring_count m Hok) as Hc. rewrite <- length_queue in Hc.
    unfold SHARE_QUEUE_SIZE in *.
    destruct (Nat.leb_spec 256 (length (queue m))) as [Hfull|Hroom].
    + rewrite take_app_le, take_ge by lia. done.
    + rewrite take_ge; [done|]. rewrite length_app. cbn. lia.
  - destruct (queue_pop m Hok) as [Hr Hq]. split; [done|].
    destruct (queue m) as [|sh q] eqn:E; [by rewrite Hq|]. by destruct Hq as [-> ->].
  - apply queue_set_job, Hok.
Qed.

(** Work is handed out exactly: a caller is refused while the miner is stopped,
    paused or without a valid job, leaving the structure alone; otherwise it gets
    the next [min (batch, 2^32 - next)] nonces of the current job, a positive
    number, and the next call starts where they end; when all 2^32 nonces have been
    handed out it is refused, the job is invalidated and [nonce_exhausted] is set. *)
Theorem nonce_handout m batch :
  0 <= next_nonce m <= 2 ^ 32 -> is_u32 batch ->
  let '(m', r) := copy_job_and_nonce_range_sized m batch in
  match r with
  | Some (j, start, n) =>
      may_work m = true /\ start = next_nonce m /\ 0 < n /\ start + n <= 2 ^ 32 /\
      n = Z.min (if batch =? 0 then MINER_BATCH_SIZE else batch) (2 ^ 32 - start) /\
      public_job j = public_job (job m) /\ aj_pause_epoch j = pause_epoch m /\
      m' = set_next_nonce (start + n) m
  | None =>
      (may_work m = false /\ m' = m) \/
      (may_work m = true /\ next_nonce m = 2 ^ 32 /\ may_work m' = false /\
       nonce_exhausted m' = true /\ next_nonce m' = 2 ^ 32)
  end.
Proof.
  intros Hn Hb. destruct (may_work m) eqn:Hw.
  - destruct (Z.eq_dec (next_nonce m) (2 ^ 32)) as [He|He].
    + rewrite copy_exhausted by done. right. split_and!; try done.
      unfold may_work. cbn. apply andb_false_r.
    + destruct (copy_range m batch Hw ltac:(lia) Hb) as (Hp & Hle & ->).
      split_and!; done.
  - rewrite copy_idle by done. by left.
Qed.

(** A snapshot is the first [min (max_count, threads)] counters of the CPU
    threads, the live OpenCL devices and CUDA, in that order, and there are as many
    of them as [miner_thread_count] reports. *)
Theorem snapshot_exact m max_count :
  0 <= thread_count m <= Z.of_nat (length (thread_hashes m)) ->
  miner_snapshot_thread_hashes m max_count =
    take (Z.to_nat (Z.min max_count (miner_thread_count m))) (all_counters m) /\
  Z.of_nat (length (all_counters m)) = miner_thread_count m.
Proof.
  intros Ht. pose proof (length_all_counters m Ht) as Hall. split; [|done].
  unfold miner_snapshot_thread_hashes. destruct (Z.leb_spec max_count 0) as [Hm|Hm].
  { by replace (Z.to_nat (Z.min max_count (miner_thread_count m))) with 0%nat by lia. }
  cbv zeta. fold (miner_thread_count m).
  set (count := if max_count <? miner_thread_count m then max_count else miner_thread_count m).
  assert (Hc : count = Z.min max_count (miner_thread_count m))
    by (unfold count; destruct (Z.ltb_spec max_count (miner_thread_count m)); lia).
  assert (Htotal : thread_count m <= miner_thread_count m)
    by (unfold miner_thread_count, opencl_count, cuda_count;
        destruct (cuda_started m && _); lia).
  set (cpu := if thread_count m <? count then thread_count m else count).
  assert (Hcpu : cpu = Z.min (thread_count m) count)
    by (unfold cpu; destruct (Z.ltb_spec (thread_count m) count); lia).
  clearbody count cpu. rewrite <- Hc.
  assert (Hout : (fun i => thread_hashes m !!! i) <$> seq 0 (Z.to_nat cpu) =
                 take (Z.to_nat cpu) (thread_hashes m)).
  { rewrite <- (fmap_lookup_total (take (Z.to_nat cpu) (thread_hashes m)) (Z.to_nat cpu))
      by (rewrite length_take; lia).
    apply list_fmap_ext. intros k i Hi. apply lookup_seq in Hi as [-> Hi].
    by rewrite lookup_total_take_lt by lia. }
  rewrite Hout.
  rewrite (append_while (fun i => bool_decide (is_Some (mjoin (opencl_devices m !! i)))))
    by (rewrite length_take; lia).
  unfold all_counters. set (A := take (Z.to_nat (thread_count m)) (thread_hashes m)).
  assert (HA : length A = Z.to_nat (thread_count m)) by (unfold A; rewrite length_take; lia).
  assert (HtA : take (Z.to_nat cpu) (thread_hashes m) = take (Z.to_nat count) A)
    by (unfold A; rewrite take_take; f_equal; lia).
  rewrite HtA, length_take, HA.
  replace (Z.to_nat count - Z.to_nat count `min` Z.to_nat (thread_count m))%nat
    with (Z.to_nat count - length A)%nat by lia.
  replace (filter (fun i => bool_decide (is_Some (mjoin (opencl_devices m !! i))))
             (seq 0 (opencl_started m))) with (live_devices m)
    by (apply list_filter_iff; intros i; symmetry; apply bool_decide_spec).
  set (B := (fun i => opencl_hashes m !!! i) <$> live_devices m).
  rewrite (take_app A), (take_app B), HA, app_assoc.
  destruct (cuda_started m && bool_decide (is_Some (cuda_device m))); cbn [andb].
  - rewrite length_app, !length_take, HA.
    destruct (Z.ltb_spec (Z.of_nat (Z.to_nat count `min` Z.to_nat (thread_count m) +
                (Z.to_nat count - Z.to_nat (thread_count m)) `min` length B)) count) as [Hlt|Hge].
    + replace (Z.to_nat count - Z.to_nat (thread_count m) - length B)%nat
        with (S (Z.to_nat count - Z.to_nat (thread_count m) - length B - 1))%nat by lia.
      cbn [take]. by rewrite take_nil, <- app_assoc.
    + replace (Z.to_nat count - Z.to_nat (thread_count m) - length B)%nat with 0%nat by lia.
      cbn [take]. by rewrite app_nil_r.
  - by rewrite take_nil, app_nil_r.
Qed.

(** Starting an idle miner either succeeds, with at least one worker thread and
    exactly as many as [miner_thread_count] then reports, or returns -1 and leaves
    the miner not started. *)
Theorem start_result (e : start_env D) m :
  started m = false -> 0 <= thread_count m ->
  let '(m', spawned, rc) := miner_start e m in
  (rc = 0 /\ started m' = true /\ spawned <> [] /\
   Z.of_nat (length spawned) = miner_thread_count m') \/
  (rc = -1 /\ started m' = false).
Proof.
  intros Hs Ht. unfold miner_start. rewrite Hs. cbv zeta.
  set (m1 := start_cuda_device e (start_opencl_devices e (start_affinity e m))).
  assert (Hs1 : started m1 = false) by by apply start_devices_started.
  destruct (_ && negb (cuda_started m1)); [by right|].
  destruct (start_cpu_threads e 0 _ (set_thread_count 0 m1) []) as [[m2 sp] [|]] eqn:Ecpu; cbn [negb].
  2:{ right. split; [done|]. by eapply start_cpu_threads_fail. }
  apply start_cpu_threads_ok in Ecpu as [Hlen Hm2].
  pose proof (start_opencl_threads_live e m2 sp (opencl_started m2)) as Hocl. cbv zeta in Hocl.
  destruct (foldl _ (m2, sp) _) as [m3 sp3]. cbn [fst snd] in Hocl. destruct Hocl as [Hlen3 [ds Hm3]].
  assert (Hcpu : thread_count m2 = Z.of_nat (length sp)).
  { rewrite Hm2, Hlen. cbn [thread_count set_thread_count length Nat.add].
    destruct (Nat.eqb_spec (Z.to_nat (thread_count m)) 0) as [->|]; done. }
  assert (Hs3 : started m3 = false) by by rewrite Hm3, Hm2.
  assert (Hcount : opencl_started m3 = opencl_started m2 /\ thread_count m3 = thread_count m2)
    by by rewrite Hm3.
  destruct Hcount as [Ho3 Ht3].
  assert (Hocl : opencl_count m3 = Z.of_nat (length sp3) - Z.of_nat (length sp)).
  { unfold opencl_count, live_devices. rewrite Ho3. fold (live_among (opencl_devices m3) (opencl_started m2)). lia. }
  destruct (start_cuda_thread e (m3, sp3)) as [m4 sp4] eqn:Ecuda.
  assert (H4 : started m4 = false /\ Z.of_nat (length sp4) = miner_thread_count m4).
  { unfold start_cuda_thread in Ecuda. unfold miner_thread_count.
    destruct (cuda_started m3 && bool_decide (is_Some (cuda_device m3))) eqn:Ec.
    - destruct (se_cuda_thread e); injection Ecuda as <- <-.
      + split; [done|]. unfold cuda_count. rewrite Ec, length_app. cbn [length]. lia.
      + split; [done|]. change (thread_count _) with (thread_count m3).
        change (opencl_count _) with (opencl_count m3). change (cuda_count _) with 0. lia.
    - injection Ecuda as <- <-. split; [done|]. unfold cuda_count. rewrite Ec. lia. }
  destruct H4 as [Hs4 Hc4]. destruct sp4 as [|w sp4]; [by right|]. left.
  split_and!; try done.
Qed.
End properties.

(** A small instance for the evaluations. *)
Definition m0 : miner ref_openssl unit := miner_create 2.
Definition wjob : miner_job_t :=
  MinerJob 0 "j" "00000000" "495fab29" (replicate 80 0) (replicate 32 0xff).

Lemma m0_ring : ring_ok m0.
Proof. split; [reflexivity|exact (Nat.lt_0_succ 255)|reflexivity|exact (Nat.le_0_l 256)]. Defined.

Lemma share_queue_fifo_witness :
  queue (queue_share_locked m0 wjob 7 (replicate 32 1)) = [share_of wjob 7 (replicate 32 1)].
Proof.
  destruct (share_queue_fifo m0 wjob 7 (replicate 32 1)) as [[_ ->] _].
  - exact m0_ring.
  - reflexivity.
Defined.

Lemma nonce_handout_witness :
  let m := set_next_nonce (2 ^ 32 - 5) (miner_set_job m0 wjob) in
  let '(m', r) := copy_job_and_nonce_range_sized m 0 in
  match r with Some (_, start, n) => start = 2 ^ 32 - 5 /\ n = 5 | None => False end.
Proof.
  set (m := set_next_nonce (2 ^ 32 - 5) (miner_set_job m0 wjob)).
  pose proof (nonce_handout m 0 ltac:(cbn; lia) ltac:(unfold is_u32; lia)) as H.
  destruct (copy_job_and_nonce_range_sized m 0) as [m' [[[j start] n]|]].
  - destruct H as (_ & -> & _ & _ & -> & _). vm_compute. split; reflexivity.
  - destruct H as [[H _]|(_ & H & _)]; vm_compute in H; discriminate H.
Defined.

Lemma snapshot_exact_witness :
  miner_snapshot_thread_hashes m0 1 = [0] /\ Z.of_nat (length (all_counters m0)) = 2.
Proof.
  destruct (snapshot_exact m0 1 ltac:(vm_compute; split; discriminate)) as [-> ->].
  split; vm_compute; reflexivity.
Defined.

(** Two CPU threads, no devices, every thread creation succeeding. *)
Definition env0 : start_env unit :=
  StartEnv unit false [] [] (fun _ => true) (fun _ => None) (fun _ => true) (fun _ => None)
    (fun _ => true) (fun _ => true) true.

Lemma start_result_witness :
  let '(m', spawned, rc) := miner_start env0 m0 in
  rc = 0 /\ Z.of_nat (length spawned) = miner_thread_count m'.
Proof.
  pose proof (start_result env0 m0 eq_refl ltac:(vm_compute; discriminate)) as H.
  assert (E : snd (miner_start env0 m0) = 0) by (vm_compute; reflexivity).
  destruct (miner_start env0 m0) as [[m' spawned] rc]. cbn [snd] in E.
  destruct H as [(Hrc & _ & _ & Hl)|[Hrc _]].
  - split; [exact Hrc|exact Hl].
  - rewrite E in Hrc. discriminate Hrc.
Defined.
