(* ===== verification/MinerSteps.v ===== *)
(** The miner as a concurrent program: worker threads and the main thread
    interleave at the granularity of the lock of src/src/miner.c.

    A worker is a small state machine ([worker_main], [opencl_worker_main] and
    [cuda_worker_main] are the same loop): at the top it reads the flags, then it
    takes a nonce range, scans it, reporting matches one at a time, and accounts
    for the hashes.  The main thread installs jobs, pauses, pops shares, reads the
    exhausted flag and asks for the stop.  The scan itself touches no shared state;
    a CPU scan reports the matches of its range (scan_exact of Backends.v), a device
    scan reports whatever [device_reports] allows, or fails and reports nothing. *)
From stdpp Require Import base tactics list option numbers strings relations.
From Stdlib Require Import ZArith Lia.
From S2P Require Import Prelude Words Fips Sha256d Scan Simd X86ShaNi ArmSha2 Backends.
From S2P Require Import Float64 Target Hex Job Miner.

#[local] Open Scope Z_scope.

Section machine.
Context `{O : OpenSSL} `{X : X86} `{A : ARM} {D : Type}.

(** The backend the build and the processor select ([backend_selection]). *)
Context (backend : sha256d_backend_t).

(** What a device kernel may report for a job and a range. *)
Context (device_reports : active_job_t O -> Z -> Z -> list (Z * list Z) -> Prop).

(** * Workers *)

Inductive pc :=
  | AtTop
  | Waiting
  | Copying
  | Scanning (j : active_job_t O) (start count : Z) (rest : list (Z * list Z)) (failed : bool)
  | Finished.

(** [w_batch] is the batch size a device worker reads from its device. *)
Record worker := Worker { w_kind : worker_kind; w_batch : Z; w_pc : pc }.

(** What a CPU scan passes to its callback, in order. *)
Definition cpu_reports (j : active_job_t O) (start n : Z) : list (Z * list Z) :=
  sha256d_nonce_range_func backend (aj_midstate j) (aj_tail_words j) (aj_target_words j) start n
    (Some (fun nonce hash_words found => found ++ [(nonce, hash_words)])) [].


(** A device scan reports before it returns 0, or fails and reports nothing. *)
Inductive device_scan (j : active_job_t O) (start n : Z) : list (Z * list Z) -> bool -> Prop :=
  | scan_done rest : device_reports j start n rest -> device_scan j start n rest false
  | scan_failed : device_scan j start n [] true.

(** What differs between the three worker functions: how they take a range, what
    the scan reports, and the accounting after it. *)
Record worker_code := WorkerCode {
  wc_take : miner O D -> miner O D * option (active_job_t O * Z * Z);
  wc_scan : active_job_t O -> Z -> Z -> list (Z * list Z) -> bool -> Prop;
  wc_account : active_job_t O -> Z -> miner O D -> miner O D;
}.

Definition worker_main (id : nat) : worker_code :=
  WorkerCode copy_job_and_nonce_range
    (fun j start n rest failed => rest = cpu_reports j start n /\ failed = false)
    (worker_account id).
Definition opencl_worker_main (batch_size : Z) (id : nat) : worker_code :=
  WorkerCode (fun m => copy_job_and_nonce_range_sized m batch_size) device_scan
    (opencl_worker_account id).
Definition cuda_worker_main (batch_size : Z) : worker_code :=
  WorkerCode (fun m => copy_job_and_nonce_range_sized m batch_size) device_scan cuda_worker_account.

Definition worker_function (w : worker) : worker_code :=
  match w_kind w with
  | cpu_worker id _ => worker_main id
  | opencl_worker id => opencl_worker_main (w_batch w) id
  | cuda_worker => cuda_worker_main (w_batch w)
  end.
Definition take_range (w : worker) := wc_take (worker_function w).
Definition reports (w : worker) := wc_scan (worker_function w).
Definition account (w : worker) := wc_account (worker_function w).

Definition at_pc (w : worker) (p : pc) : worker := Worker (w_kind w) (w_batch w) p.

(** One step of the loop the three functions share, with the nonce range it takes,
    if it does. *)
Inductive wstep (m : miner O D) (w : worker) : miner O D -> worker -> option (Z * Z * Z) -> Prop :=
  | ws_stop :
      w_pc w = AtTop -> stop m = true -> wstep m w m (at_pc w Finished) None
  | ws_paused :
      w_pc w = AtTop -> stop m = false -> paused m = true -> wstep m w m (at_pc w Waiting) None
  | ws_go :
      w_pc w = AtTop -> stop m = false -> paused m = false -> wstep m w m (at_pc w Copying) None
  | ws_wake :
      w_pc w = Waiting -> miner_wait_for_work_done m = true -> wstep m w m (at_pc w AtTop) None
  | ws_refused m' :
      w_pc w = Copying -> take_range w m = (m', None) -> wstep m w m' (at_pc w Waiting) None
  | ws_take m' j start n rest failed :
      w_pc w = Copying -> take_range w m = (m', Some (j, start, n)) ->
      reports w j start n rest failed ->
      wstep m w m' (at_pc w (Scanning j start n rest failed))
        (Some (job_seq (public_job j), start, n))
  | ws_match j start n nonce hash_words rest failed :
      w_pc w = Scanning j start n ((nonce, hash_words) :: rest) failed ->
      wstep m w (queue_scan_match j nonce hash_words m) (at_pc w (Scanning j start n rest failed)) None
  | ws_account j start n :
      w_pc w = Scanning j start n [] false ->
      wstep m w (account w j n m) (at_pc w AtTop) None
  | ws_failed j start n :
      w_pc w = Scanning j start n [] true -> wstep m w m (at_pc w AtTop) None.

(** * The system *)

(** [issued] is a ghost: the ranges handed out so far with the sequence number of
    their job, the latest last. *)
Record sys := Sys { sm : miner O D; sworkers : list worker; issued : list (Z * Z * Z) }.

(** A job as [miner_build_job] makes it: 80 header bytes, 32 target bytes. *)
Definition job_wf (j : miner_job_t) : Prop :=
  length (job_header j) = 80%nat /\ is_bytes (job_header j) /\
  length (job_target j) = 32%nat /\ is_bytes (job_target j).

Inductive worker_step (s : sys) : sys -> Prop :=
  | worker_steps i w m' w' r :
      sworkers s !! i = Some w -> wstep (sm s) w m' w' r ->
      worker_step s (Sys m' (<[i := w']> (sworkers s)) (issued s ++ option_list r)).

Inductive sys_step (s : sys) : sys -> Prop :=
  | ss_worker s' : worker_step s s' -> sys_step s s'
  | ss_set_job j :
      (* fewer than 2^64 jobs *)
      job_wf j -> job_seq (public_job (job (sm s))) + 1 < 2 ^ 64 ->
      sys_step s (Sys (miner_set_job (sm s) j) (sworkers s) (issued s))
  | ss_set_paused b :
      sys_step s (Sys (miner_set_paused (sm s) b) (sworkers s) (issued s))
  | ss_pop :
      sys_step s (Sys (fst (miner_pop_share (sm s))) (sworkers s) (issued s))
  | ss_take_exhausted :
      sys_step s (Sys (fst (miner_take_nonce_exhausted (sm s))) (sworkers s) (issued s))
  | ss_stop :
      sys_step s (Sys (miner_stop_request (sm s)) (sworkers s) (issued s)).

(** At the start the workers are at the top of their loops and no job is set. *)
Record initial (s : sys) : Prop := {
  in_ring : ring_ok (sm s);
  in_queue : queue (sm s) = [];
  in_job : job_seq (public_job (job (sm s))) = 0 /\ valid (job (sm s)) = false;
  in_nonce : next_nonce (sm s) = 0 /\ nonce_exhausted (sm s) = false;
  in_flags : stop (sm s) = false;
  in_workers : Forall (fun w => w_pc w = AtTop /\ is_u32 (w_batch w)) (sworkers s);
  in_issued : issued s = [];
}.

Definition reachable (s : sys) : Prop := exists s0, initial s0 /\ rtc sys_step s0 s.

(** * Valid matches *)

(** The header of a job with a nonce in its last four bytes. *)
Definition header_with (j : miner_job_t) (nonce : Z) : list Z := take 76 (job_header j) ++ le 4 nonce.

(** A hash a worker may report for a job: that of the header with the nonce, at or
    below the target. *)
Definition good_match (j : miner_job_t) (nonce : Z) (hash : list Z) : Prop :=
  hash = Fips.sha256d (header_with j nonce) /\ of_le hash <= of_le (job_target j).

(** The private fields of an active job are what [miner_set_job] computes. *)
Record prepared (j : active_job_t O) : Prop := {
  pr_wf : job_wf (public_job j);
  pr_midstate : midstate_of
    (Fips.compress Fips.H0 (words_of_bytes 16 (take 64 (job_header (public_job j))))) (aj_midstate j);
  pr_tail : aj_tail_words j = words_of_bytes 4 (drop 64 (job_header (public_job j)));
  pr_target : aj_target_words j =
    (fun i => load_le32 (job_target (public_job j)) (i * 4)) <$> seq 0 8;
}.
End machine.
Arguments sys _ _ : clear implicits.
Arguments worker _ : clear implicits.
Arguments pc _ : clear implicits.

(** Cases on the kind of worker. *)
Ltac by_kind w :=
  unfold account, take_range, worker_function; destruct (w_kind w);
  cbn [wc_account wc_take worker_main opencl_worker_main cuda_worker_main];
  unfold worker_account, opencl_worker_account, cuda_worker_account, copy_job_and_nonce_range;
  cbv zeta.

(** * Correctness of a scan's reports *)

Section laws.
Context `{O : OpenSSL} `{!OpenSSLLaws O} `{X : X86} `{!X86Laws X} `{A : ARM} `{!ARMLaws A} {D : Type}.
Context (backend : sha256d_backend_t).

(** The hash a CPU scan computes for a nonce of a job. *)
Definition job_hash (j : active_job_t O) (nonce : Z) : list Z :=
  nonce_hash (ms_fast_state (aj_midstate j)) (aj_tail_words j) nonce.

Lemma set_job_prepared (m : miner O D) j :
  job_wf j -> prepared (job (miner_set_job m j)) /\
  public_job (job (miner_set_job m j)) =
    MinerJob (u64 (job_seq (public_job (job m)) + 1)) (job_id j) (job_extranonce2 j) (job_ntime j)
      (job_header j) (job_target j) /\ valid (job (miner_set_job m j)) = true.
Proof.
  intros (Hh & Hb & Ht & Htb). split; [|done]. split.
  - done.
  - apply (prepare_midstate (take 64 (job_header j))); [rewrite length_take; lia|by apply Forall_take].
  - change (job_header (public_job _)) with (job_header j).
    rewrite <- load_tail16; [|rewrite length_drop; lia|by apply Forall_drop].
    apply (for_range_ext 0 4). intros i t _. f_equal. unfold load_be32.
    by rewrite !lookup_total_drop, <- !Nat.add_assoc.
  - change (job_target (public_job _)) with (job_target j).
    change (aj_target_words _) with
      (for_range 0 8 (fun i t => <[i := load_le32 (job_target j) (i * 4)]> t) (replicate 8 0)).
    rewrite for_range_fill by done. by rewrite drop_ge, app_nil_r by done.
Qed.

Lemma nonce_hash_header (j : active_job_t O) nonce :
  prepared j ->
  bytes_of_words (job_hash j nonce) = Fips.sha256d (header_with (public_job j) nonce).
Proof.
  intros [(Hh & Hb & _) Hm Ht _]. unfold job_hash, nonce_hash, header_with.
  rewrite (mo_fast _ _ Hm), Ht.
  set (h := job_header (public_job j)) in *.
  assert (Hl : length (take 76 h ++ le 4 nonce) = 80%nat)
    by (rewrite length_app, length_take, length_le; lia).
  assert (Hby : is_bytes (take 76 h ++ le 4 nonce))
    by (apply Forall_app_2; [by apply Forall_take|apply le_bytes]).
  rewrite sha256d_header by done.
  rewrite take_app_le, take_take by (rewrite length_take; lia).
  change (64 `min` 76)%nat with 64%nat.
  assert (Hw : words_of_bytes 4 (drop 64 (take 76 h ++ le 4 nonce)) =
    [words_of_bytes 4 (drop 64 h) !!! 0%nat; words_of_bytes 4 (drop 64 h) !!! 1%nat;
     words_of_bytes 4 (drop 64 h) !!! 2%nat; bswap32 nonce]).
  { rewrite drop_app_le by (rewrite length_take; lia).
    replace (drop 64 (take 76 h)) with (take 12 (drop 64 h)) by by rewrite take_drop_commute.
    assert (Hd : length (drop 64 h) = 16%nat) by (rewrite length_drop; lia).
    rewrite bswap32_of_le. clear -Hd. generalize dependent (drop 64 h). intros d Hd. by destruct_list d Hd. }
  by rewrite Hw.
Qed.

Lemma length_target_words j : prepared (O := O) j -> length (aj_target_words j) = 8%nat.
Proof. intros Hp. by rewrite (pr_target j Hp). Qed.

Lemma prepared_tail_words (j : active_job_t O) :
  prepared j -> length (aj_tail_words j) = 4%nat /\ is_words (aj_tail_words j).
Proof.
  intros [(Hh & Hb & _) _ Ht _]. rewrite Ht.
  split; [by rewrite length_words_of_bytes|]. by apply words_of_bytes_words, Forall_drop.
Qed.

(** A scan with any callback folds it over the matches. *)
Lemma cpu_scan_fold {B} (j : active_job_t O) start n (f : Z -> list Z -> B -> B) (b : B) :
  prepared j -> is_u32 n ->
  sha256d_nonce_range_func backend (aj_midstate j) (aj_tail_words j) (aj_target_words j) start n
    (Some f) b =
  foldl (fun b nonce => f nonce (job_hash j nonce) b) b
    (matches (job_hash j) (aj_target_words j) start (Z.to_nat n)).
Proof.
  intros Hp Hn. destruct (prepared_tail_words j Hp) as [Hl Hw].
  rewrite (nonce_range_scan backend _ _ _ _ _ _ _ _ (pr_midstate j Hp) Hl Hw Hn).
  unfold scan, report, job_hash. by rewrite (mo_fast _ _ (pr_midstate j Hp)).
Qed.

Lemma cpu_reports_matches (j : active_job_t O) start n :
  prepared j -> is_u32 n ->
  cpu_reports backend j start n =
  (fun nonce => (nonce, job_hash j nonce)) <$>
  matches (job_hash j) (aj_target_words j) start (Z.to_nat n).
Proof.
  intros Hp Hn. unfold cpu_reports. rewrite cpu_scan_fold by done.
  generalize (matches (job_hash j) (aj_target_words j) start (Z.to_nat n)). intros l.
  enough (H : forall acc, foldl (fun found nonce => found ++ [(nonce, job_hash j nonce)]) acc l =
    acc ++ ((fun nonce => (nonce, job_hash j nonce)) <$> l)) by apply (H []).
  induction l as [|x l IH]; intros acc; cbn [foldl].
  - by rewrite app_nil_r.
  - by rewrite IH, <- app_assoc.
Qed.

(** A nonce whose hash meets the target words of a job is a good match of it. *)
Lemma meets_good (j : active_job_t O) x :
  prepared j -> meets (job_hash j) (aj_target_words j) x = true ->
  good_match (public_job j) x (sha256d_words_to_hash (job_hash j x)).
Proof.
  intros Hp Hm. unfold meets in Hm.
  pose proof (length_tail_hash (ms_fast_state (aj_midstate j))
    [aj_tail_words j !!! 0%nat; aj_tail_words j !!! 1%nat; aj_tail_words j !!! 2%nat; bswap32 x]) as Hl.
  change (tail_hash _ _) with (job_hash j x) in Hl.
  rewrite words_to_hash_bytes by done. split; [by apply nonce_hash_header|].
  rewrite (pr_target j Hp) in Hm.
  destruct (pr_wf j Hp) as (_ & _ & Ht & Htb).
  destruct (load_le32_words 8 _ Ht Htb) as [Htw Hto].
  unfold hash_words_meet_target in Hm. rewrite meet_target_loop_le in Hm by done.
  rewrite Hto in Hm.
  assert (Hb : of_words_le (bswap32 <$> job_hash j x) = of_le (bytes_of_words (job_hash j x))).
  { rewrite <- of_words_le_bytes. f_equal. apply list_fmap_ext. intros _ w _. apply bswap32_of_le. }
  rewrite <- Hb. by apply Z.leb_le.
Qed.

(** What a CPU scan reports is a good match of its job. *)
Lemma cpu_reports_good (j : active_job_t O) start n nonce hw :
  prepared j -> is_u32 n -> (nonce, hw) ∈ cpu_reports backend j start n ->
  good_match (public_job j) nonce (sha256d_words_to_hash hw).
Proof.
  intros Hp Hn Hin. rewrite cpu_reports_matches in Hin by done.
  apply list_elem_of_fmap in Hin as (x & [= -> ->] & Hx).
  apply elem_of_matches in Hx as [Hm _]. by apply meets_good.
Qed.
End laws.

(** * The invariant *)

(** The ranges handed out under the sequence number [q], in order. *)
Definition ranges_of (q : Z) (l : list (Z * Z * Z)) : list (Z * Z) :=
  omap (fun '(q', start, n) => if q' =? q then Some (start, n) else None) l.

(** [chain lo l hi]: non-empty ranges that follow each other from [lo] to [hi]. *)
Fixpoint chain (lo : Z) (l : list (Z * Z)) (hi : Z) : Prop :=
  match l with
  | [] => lo = hi
  | (start, n) :: l => start = lo /\ 0 < n /\ chain (lo + n) l hi
  end.

Lemma chain_snoc lo l hi n : chain lo l hi -> 0 < n -> chain lo (l ++ [(hi, n)]) (hi + n).
Proof.
  revert lo. induction l as [|[st k] l IH]; intros lo; cbn.
  - by intros ->.
  - intros (-> & Hk & Hc) Hn. split; [done|]. split; [done|]. by apply IH.
Qed.

Lemma ranges_of_app q l1 l2 : ranges_of q (l1 ++ l2) = ranges_of q l1 ++ ranges_of q l2.
Proof. apply omap_app. Qed.

Section invariant.
Context `{O : OpenSSL} `{!OpenSSLLaws O} `{X : X86} `{!X86Laws X} `{A : ARM} `{!ARMLaws A} {D : Type}.
Context (backend : sha256d_backend_t) (device_reports : active_job_t O -> Z -> Z -> list (Z * list Z) -> Prop).
Implicit Types m : miner O D.
#[local] Abbreviation take_range := (take_range (D := D) backend device_reports).
#[local] Abbreviation account := (account (D := D) backend device_reports).

Definition cur m : miner_job_t := public_job (job m).
Definition sq m : Z := job_seq (cur m).

(** The devices report only real matches of the job they were given. *)
Definition devices_honest : Prop :=
  forall j start n rest, prepared j -> device_reports j start n rest ->
    Forall (fun '(nonce, hw) => good_match (public_job j) nonce (sha256d_words_to_hash hw)) rest.

(** What is known of a reported match: [good_match] when the devices are honest. *)
Context (good : miner_job_t -> Z -> list Z -> Prop).
Definition all_good (j : active_job_t O) (rest : list (Z * list Z)) : Prop :=
  Forall (fun '(nonce, hw) => good (public_job j) nonce (sha256d_words_to_hash hw)) rest.
Definition reports_are_good : Prop :=
  forall w j start n rest failed, prepared j -> is_u32 n ->
    reports (D := D) backend device_reports w j start n rest failed -> all_good j rest.

Definition good_share m (sh : miner_share_t) : Prop :=
  0 < sq m /\ exists nonce hash, sh = share_of (cur m) nonce hash /\ good (cur m) nonce hash.

Definition worker_inv m (w : worker O) : Prop :=
  is_u32 (w_batch w) /\
  match w_pc w with
  | Scanning j _ _ rest _ =>
      prepared j /\ 0 < job_seq (public_job j) <= sq m /\
      (job_seq (public_job j) = sq m -> public_job j = cur m) /\
      all_good j rest
  | _ => True
  end.

Record work_inv m : Prop := {
  wi_seq : 0 <= sq m < 2 ^ 64;
  wi_nonce : 0 <= next_nonce m <= 2 ^ 32;
  wi_job : (sq m = 0 /\ valid (job m) = false /\ next_nonce m = 0) \/ (0 < sq m /\ prepared (job m));
  wi_valid : 0 < sq m -> valid (job m) = false -> next_nonce m = 2 ^ 32;
  wi_exhausted : nonce_exhausted m = true -> 0 < sq m /\ valid (job m) = false;
}.

Definition issued_inv m (l : list (Z * Z * Z)) : Prop :=
  chain 0 (ranges_of (sq m) l) (next_nonce m) /\
  (forall q, q < sq m -> exists hi, hi <= 2 ^ 32 /\ chain 0 (ranges_of q l) hi) /\
  (forall q, sq m < q -> ranges_of q l = []).

Record inv (s : sys O D) : Prop := {
  i_ring : ring_ok (sm s);
  i_queue : Forall (good_share (sm s)) (queue (sm s));
  i_work : work_inv (sm s);
  i_workers : Forall (worker_inv (sm s)) (sworkers s);
  i_issued : issued_inv (sm s) (issued s);
}.

(** Two structures with the same job and nonce state. *)
Record same_work m m' : Prop := {
  sw_job : job m' = job m;
  sw_nonce : next_nonce m' = next_nonce m;
  sw_exhausted : nonce_exhausted m' = nonce_exhausted m;
}.

Lemma same_work_inv m m' : same_work m m' -> work_inv m -> work_inv m'.
Proof.
  intros [Hj Hn He] [H1 H2 H3 H4 H5]. unfold sq, cur in *.
  split; unfold sq, cur; by rewrite ?Hj, ?Hn, ?He.
Qed.
Lemma same_work_worker m m' w : same_work m m' -> worker_inv m w -> worker_inv m' w.
Proof. intros [Hj _ _]. unfold worker_inv, sq, cur. by rewrite Hj. Qed.
Lemma same_work_issued m m' l : same_work m m' -> issued_inv m l -> issued_inv m' l.
Proof. intros [Hj Hn _]. unfold issued_inv, sq, cur. by rewrite Hj, Hn. Qed.
Lemma same_work_share m m' sh : same_work m m' -> good_share m sh -> good_share m' sh.
Proof. intros [Hj _ _]. unfold good_share, sq, cur. by rewrite Hj. Qed.

(** A step that keeps the work state keeps the invariant, if the new queue is good
    and the acting worker is. *)
Lemma inv_frame s m' ws' :
  inv s -> same_work (sm s) m' -> ring_ok m' -> Forall (good_share (sm s)) (queue m') ->
  Forall (worker_inv (sm s)) ws' -> inv (Sys m' ws' (issued s)).
Proof.
  intros [_ _ Hw _ Hi] Hs Hr Hq Hws. split; cbn [sm sworkers issued].
  - done.
  - eapply Forall_impl; [exact Hq|]. intros sh. by apply same_work_share.
  - by eapply same_work_inv.
  - eapply Forall_impl; [exact Hws|]. intros w. by apply same_work_worker.
  - by eapply same_work_issued.
Qed.

(** The operations that keep the work state. *)
Lemma same_work_refl m : same_work m m.
Proof. done. Qed.
Lemma same_work_queue m j nonce hash : same_work m (queue_share_locked m j nonce hash).
Proof. unfold queue_share_locked. cbv zeta. by case_match. Qed.
Lemma same_work_match m j nonce hw : same_work m (queue_scan_match j nonce hw m).
Proof. unfold queue_scan_match. cbv zeta. case_match; [apply same_work_queue|done]. Qed.
Lemma same_work_account w j n m : same_work m (account w j n m).
Proof.
  by_kind w; by repeat case_match.
Qed.
Lemma same_work_pop m : same_work m (fst (miner_pop_share m)).
Proof. unfold miner_pop_share. by case_match. Qed.

Lemma ring_same m m' :
  shares m' = shares m -> share_head m' = share_head m -> share_tail m' = share_tail m ->
  share_count m' = share_count m -> ring_ok m -> ring_ok m' /\ queue m' = queue m.
Proof.
  intros H1 H2 H3 H4 [R1 R2 R3 R4]. split.
  - split; by rewrite ?H1, ?H2, ?H3, ?H4.
  - unfold queue. by rewrite H1, H2, H4.
Qed.
Lemma ring_account w j n m : ring_ok m -> ring_ok (account w j n m) /\ queue (account w j n m) = queue m.
Proof.
  apply ring_same; by_kind w; by repeat case_match.
Qed.

(** Queueing a good match of a current job keeps the queue good. *)
Lemma queue_match_good m j nonce hw :
  ring_ok m -> Forall (good_share m) (queue m) ->
  0 < job_seq (public_job j) -> (job_seq (public_job j) = sq m -> public_job j = cur m) ->
  good (public_job j) nonce (sha256d_words_to_hash hw) ->
  ring_ok (queue_scan_match j nonce hw m) /\ Forall (good_share m) (queue (queue_scan_match j nonce hw m)).
Proof.
  intros Hr Hq Hpos Hcur Hg. unfold queue_scan_match. cbv zeta.
  destruct (scan_result_still_current_locked m j) eqn:E; [|done].
  unfold scan_result_still_current_locked in E. apply andb_true_iff in E as [_ E].
  apply Z.eqb_eq in E. symmetry in E. specialize (Hcur E).
  destruct (queue_push m (public_job j) nonce (sha256d_words_to_hash hw) Hr) as [Hr' Hq'].
  split; [done|]. rewrite Hq'. case_match; [done|].
  apply Forall_app_2; [done|]. apply Forall_singleton. rewrite Hcur in Hg |- *.
  split; [unfold sq; by rewrite <- Hcur|by eexists _, _].
Qed.

Lemma take_range_sized w m :
  is_u32 (w_batch w) ->
  exists b, is_u32 b /\ take_range w m = copy_job_and_nonce_range_sized m b.
Proof.
  intros Hb. by_kind w; [|by exists (w_batch w)..]. eexists. split; [|reflexivity].
  repeat case_match; unfold is_u32, MINER_BATCH_SIZE, MINER_MIXED_CPU_BATCH_SIZE; lia.
Qed.
(** The structure after the nonces of a job have run out. *)
Definition invalidated m : miner O D :=
  set_nonce_exhausted true
    (set_job (ActiveJob (public_job (job m)) (aj_midstate (job m)) (aj_tail_words (job m))
                (aj_target_words (job m)) (aj_pause_epoch (job m)) false) m).

Lemma take_range_cases w m m' r :
  is_u32 (w_batch w) -> 0 <= next_nonce m <= 2 ^ 32 -> take_range w m = (m', r) ->
  match r with
  | Some (j, start, n) =>
      may_work m = true /\ j = with_epoch m /\ start = next_nonce m /\ 0 < n /\
      is_u32 n /\ start + n <= 2 ^ 32 /\ m' = set_next_nonce (start + n) m
  | None =>
      m' = m \/
      (may_work m = true /\ next_nonce m = 2 ^ 32 /\ m' = invalidated m)
  end.
Proof.
  intros Hb Hn. destruct (take_range_sized w m Hb) as (b & Hub & ->).
  destruct (may_work m) eqn:Hw.
  - destruct (Z.eq_dec (next_nonce m) (2 ^ 32)) as [He|He].
    + rewrite copy_exhausted by done. intros [= <- <-]. by right.
    + destruct (copy_range m b Hw ltac:(lia) Hub) as (Hp & Hle & ->). intros [= <- <-].
      assert (batch_or_default b < 2 ^ 32)
        by (unfold batch_or_default, MINER_BATCH_SIZE; unfold is_u32 in Hub; case_match; lia).
      do 4 (split; [done|]). split; [unfold is_u32; lia|done].
  - rewrite copy_idle by done. intros [= <- <-]. by left.
Qed.

(** Only these fields matter for a job being prepared. *)
Lemma prepared_ext (j j' : active_job_t O) :
  public_job j' = public_job j -> aj_midstate j' = aj_midstate j ->
  aj_tail_words j' = aj_tail_words j -> aj_target_words j' = aj_target_words j ->
  prepared j -> prepared j'.
Proof. intros H1 H2 H3 H4 [P1 P2 P3 P4]. split; by rewrite ?H1, ?H2, ?H3, ?H4. Qed.

Lemma may_work_valid m : may_work m = true -> valid (job m) = true.
Proof. unfold may_work. rewrite !andb_true_iff. by intros [_ ?]. Qed.

Lemma may_work_prepared m : work_inv m -> may_work m = true -> 0 < sq m /\ prepared (job m).
Proof. intros Hw Hm%may_work_valid. destruct (wi_job m Hw) as [(_ & Hv & _)|?]; [congruence|done]. Qed.

Lemma invalidated_inv s ws' :
  inv s -> may_work (sm s) = true -> next_nonce (sm s) = 2 ^ 32 ->
  Forall (worker_inv (sm s)) ws' -> inv (Sys (invalidated (sm s)) ws' (issued s)).
Proof.
  intros [Hr Hq Hw _ Hi] Hm Hn Hws. destruct (may_work_prepared _ Hw Hm) as [Hs Hp].
  split; cbn [sm sworkers issued]; try done.
  - by apply (ring_same (sm s)).
  - destruct Hw as [H1 H2 _ _ _]. split; try done. right. split; [done|]. by apply (prepared_ext (job (sm s))).
Qed.

Lemma issued_take m l n :
  issued_inv m l -> 0 < n -> next_nonce m + n <= 2 ^ 32 ->
  issued_inv (set_next_nonce (next_nonce m + n) m) (l ++ [(sq m, next_nonce m, n)]).
Proof.
  intros (H1 & H2 & H3) Hn Hle. unfold issued_inv.
  change (sq (set_next_nonce _ m)) with (sq m). cbn [next_nonce set_next_nonce].
  assert (Hone : forall q, ranges_of q [(sq m, next_nonce m, n)] = if sq m =? q then [(next_nonce m, n)] else [])
    by (intros q; unfold ranges_of; cbn; by destruct (sq m =? q)).
  split; [|split].
  - rewrite ranges_of_app, Hone, Z.eqb_refl. by apply chain_snoc.
  - intros q Hq. rewrite ranges_of_app, Hone. rewrite (proj2 (Z.eqb_neq _ _)) by lia.
    rewrite app_nil_r. by apply H2.
  - intros q Hq. rewrite ranges_of_app, Hone. rewrite (proj2 (Z.eqb_neq _ _)) by lia.
    rewrite app_nil_r. by apply H3.
Qed.

Lemma set_job_inv s j :
  inv s -> job_wf j -> sq (sm s) + 1 < 2 ^ 64 -> inv (Sys (miner_set_job (sm s) j) (sworkers s) (issued s)).
Proof.
  intros [Hr _ Hw Hws Hi] Hj Hlt. destruct (set_job_prepared (sm s) j Hj) as (Hp & Hpub & Hv).
  pose proof (wi_seq _ Hw) as Hsq.
  assert (Hsq' : sq (miner_set_job (sm s) j) = sq (sm s) + 1).
  { unfold sq at 1, cur. rewrite Hpub. cbn [job_seq]. fold (cur (sm s)). fold (sq (sm s)).
    by rewrite u64_small by (unfold is_u64; lia). }
  destruct (queue_set_job (sm s) j (ring_length _ Hr)) as [Hr' Hq'].
  destruct Hi as (Hi1 & Hi2 & Hi3).
  split; cbn [sm sworkers issued].
  - done.
  - by rewrite Hq'.
  - split; rewrite ?Hsq'; try done; try lia.
    right. split; [lia|done].
  - eapply Forall_impl; [exact Hws|]. intros w [Hb Hpc]. split; [done|].
    destruct (w_pc w); try done. destruct Hpc as (P1 & P2 & _ & P4). rewrite Hsq'.
    split_and!; try done; lia.
  - unfold issued_inv. rewrite Hsq'. cbn [next_nonce miner_set_job set_share_count set_share_tail
      set_share_head set_nonce_exhausted set_next_nonce]. split_and!.
    + by rewrite Hi3 by lia.
    + intros q Hq. destruct (Z.eq_dec q (sq (sm s))) as [->|Hne]; [|apply Hi2; lia].
      exists (next_nonce (sm s)). split; [apply Hw|done].
    + intros q Hq. apply Hi3. lia.
Qed.

Lemma take_exhausted_inv s :
  inv s -> inv (Sys (fst (miner_take_nonce_exhausted (sm s))) (sworkers s) (issued s)).
Proof.
  intros [Hr Hq [H1 H2 H3 H4 _] Hws Hi]. split; cbn [sm sworkers issued]; try done.
  by apply (ring_same (sm s)).
Qed.

Lemma wstep_inv s i w m' w' r :
  reports_are_good -> inv s -> sworkers s !! i = Some w -> wstep backend device_reports (sm s) w m' w' r ->
  inv (Sys m' (<[i := w']> (sworkers s)) (issued s ++ option_list r)).
Proof.
  intros Hd Hinv Hi Hstep. pose proof Hinv as [Hr Hq Hw Hws Hl].
  assert (Hwi : worker_inv (sm s) w) by (rewrite list.Forall_forall in Hws; eapply Hws, list_elem_of_lookup_2, Hi).
  pose proof Hwi as [Hb Hpc].
  assert (Hupd : forall m w', Forall (worker_inv m) (sworkers s) -> worker_inv m w' ->
    Forall (worker_inv m) (<[i := w']> (sworkers s))) by (intros; by apply Forall_insert).
  destruct Hstep as [H|H|H|H|m' H Ht|m' j start n rest failed H Ht Hrep|j start n nonce hw rest failed H|j start n H|j start n H];
    rewrite H in Hpc; cbn [option_list]; rewrite ?app_nil_r.
  1-4: apply inv_frame; try done; apply Hupd; done.
  - apply take_range_cases in Ht; [|done|apply Hw]. destruct Ht as [->|(Hm & Hn & ->)].
    + apply inv_frame; try done. by apply Hupd.
    + apply invalidated_inv; try done. by apply Hupd.
  - apply take_range_cases in Ht; [|done|apply Hw]. destruct Ht as (Hm & -> & -> & Hn & Hn32 & Hle & ->).
    destruct (may_work_prepared _ Hw Hm) as [Hsq Hp].
    assert (Hp' : prepared (with_epoch (sm s))) by by apply (prepared_ext (job (sm s))).
    split; cbn [sm sworkers issued].
    + by apply (ring_same (sm s)).
    + done.
    + destruct Hw as [H1 H2 H3 H4 H5]. split; try done.
      * cbn. lia.
      * by right.
      * intros _ Hv. apply may_work_valid in Hm. change (valid (job (sm s)) = false) in Hv. congruence.
    + apply Hupd; [done|]. split; [done|]. cbn [w_pc at_pc]. split_and!; try done.
      eapply (Hd w); [exact Hp'|exact Hn32|exact Hrep].
    + by apply issued_take.
  - destruct Hpc as (P1 & P2 & P3 & P4). apply Forall_cons in P4 as [P4 P5].
    destruct (queue_match_good (sm s) j nonce hw Hr Hq (proj1 P2) P3 P4) as [Hr' Hq'].
    apply inv_frame; try done; [apply same_work_match|]. apply Hupd; [done|]. by split.
  - destruct (ring_account w j n (sm s) Hr) as [Hr' Hq'].
    apply inv_frame; try done; [apply same_work_account|by rewrite Hq'|]. by apply Hupd.
  - apply inv_frame; try done. by apply Hupd.
Qed.

(** Neither the work state, the ring nor the workers change. *)
Lemma inv_idle s m' :
  inv s -> same_work (sm s) m' -> shares m' = shares (sm s) -> share_head m' = share_head (sm s) ->
  share_tail m' = share_tail (sm s) -> share_count m' = share_count (sm s) ->
  inv (Sys m' (sworkers s) (issued s)).
Proof.
  intros Hinv Hs H1 H2 H3 H4.
  destruct (ring_same (sm s) m' H1 H2 H3 H4 (i_ring s Hinv)) as [Hr Hq].
  apply inv_frame; [done..| |apply Hinv]. rewrite Hq. apply Hinv.
Qed.

Lemma step_inv s s' : reports_are_good -> inv s -> sys_step backend device_reports s s' -> inv s'.
Proof.
  intros Hd Hinv [s1 [i w m' w' r Hi Hs]|j Hj Hlt|b| | |].
  - by eapply wstep_inv.
  - by apply set_job_inv.
  - apply inv_idle; [done|unfold miner_set_paused; cbv zeta; by case_match..].
  - destruct (queue_pop (sm s) (i_ring s Hinv)) as [Hr Hq].
    apply inv_frame; [done|apply same_work_pop|done| |apply Hinv].
    pose proof (i_queue s Hinv) as Hall. destruct (queue (sm s)) as [|sh q] eqn:E.
    + rewrite Hq. by apply Hinv.
    + destruct Hq as [_ ->]. by apply Forall_cons in Hall as [_ ?].
  - by apply take_exhausted_inv.
  - by apply inv_idle.
Qed.

Lemma initial_inv s : initial s -> inv s.
Proof.
  intros [Hr Hq [Hj Hv] [Hn He] _ Hws Hi]. split.
  - done.
  - by rewrite Hq.
  - split; unfold sq, cur; rewrite ?Hj, ?Hn, ?He, ?Hv; try done; try lia; by left.
  - eapply Forall_impl; [exact Hws|]. intros w [Hpc Hb]. split; [done|]. by rewrite Hpc.
  - unfold issued_inv, sq, cur. rewrite Hi, Hn. split_and!; [done| |done].
    intros q _. by exists 0.
Qed.

Lemma reachable_inv s : reports_are_good -> reachable backend device_reports s -> inv s.
Proof.
  intros Hd (s0 & H0 & Hs). apply initial_inv in H0.
  induction Hs as [|s0 s1 s2 Hst _ IH]; [done|]. apply IH. by eapply step_inv.
Qed.

(** What the main thread pops is good for the current job. *)
Lemma popped_good s sh :
  reports_are_good -> reachable backend device_reports s -> snd (miner_pop_share (sm s)) = Some sh ->
  good_share (sm s) sh.
Proof.
  intros Hd Hr Hpop. pose proof (reachable_inv s Hd Hr) as Hinv.
  destruct (queue_pop (sm s) (i_ring _ Hinv)) as [_ Hq].
  pose proof (i_queue _ Hinv) as Hall. destruct (queue (sm s)) as [|sh' q].
  { rewrite Hq in Hpop. discriminate Hpop. }
  destruct Hq as [Hsh _]. rewrite Hsh in Hpop. injection Hpop as ->. by apply Forall_cons in Hall as [? _].
Qed.
End invariant.
