(* ===== verification/MinerSafety.v ===== *)
(** What the running miner guarantees, over every interleaving of its workers and
    the main thread: valid shares, nonces handed out once, exact hash totals, and
    termination after a stop.  The initial states are those [miner_start] makes. *)
From stdpp Require Import base tactics list option numbers strings relations.
From Stdlib Require Import ZArith Lia.
From S2P Require Import Prelude Words Fips Sha256d Scan Simd X86ShaNi ArmSha2 Backends.
From S2P Require Import Float64 Target Hex Job Miner MinerSteps.

#[local] Open Scope Z_scope.

(** * Counting the times a nonce is handed out *)

Definition covers (nonce : Z) (r : Z * Z) : bool :=
  let '(start, n) := r in (start <=? nonce) && (nonce <? start + n).
Definition times (nonce : Z) (l : list (Z * Z)) : nat := length (filter (covers nonce) l).

Lemma chain_le lo l hi : chain lo l hi -> lo <= hi.
Proof.
  revert lo. induction l as [|[st n] l IH]; intros lo; cbn; [lia|].
  intros (-> & Hn & Hc). apply IH in Hc. lia.
Qed.

Lemma chain_times lo l hi nonce :
  chain lo l hi -> times nonce l = if (lo <=? nonce) && (nonce <? hi) then 1%nat else 0%nat.
Proof.
  revert lo. induction l as [|[st n] l IH]; intros lo; cbn [chain].
  - intros ->. unfold times. cbn. destruct (Z.leb_spec hi nonce), (Z.ltb_spec nonce hi); done || lia.
  - intros (-> & Hn & Hc). pose proof (chain_le _ _ _ Hc) as Hle. specialize (IH _ Hc).
    assert (Hcons : times nonce ((lo, n) :: l) = ((if covers nonce (lo, n) then 1 else 0) + times nonce l)%nat).
    { unfold times. rewrite filter_cons.
      destruct (covers nonce (lo, n)); [by rewrite decide_True|by rewrite decide_False by intros []]. }
    rewrite Hcons, IH. unfold covers.
    destruct (Z.leb_spec lo nonce), (Z.ltb_spec nonce (lo + n)), (Z.leb_spec (lo + n) nonce),
      (Z.ltb_spec nonce hi); done || lia.
Qed.

(** * Stopping *)

Section stopping.
Context `{O : OpenSSL} `{X : X86} `{A : ARM} {D : Type}.
Context (backend : sha256d_backend_t) (device_reports : active_job_t O -> Z -> Z -> list (Z * list Z) -> Prop).
#[local] Abbreviation take_range := (take_range (D := D) backend device_reports).
#[local] Abbreviation account := (account (D := D) backend device_reports).

(** The steps a worker still has to make once the miner is stopped. *)
Definition worker_left (w : worker O) : nat :=
  match w_pc w with
  | Finished => 0
  | AtTop => 1
  | Waiting => 2
  | Copying => 3
  | Scanning _ _ _ rest _ => 2 + length rest
  end.
Definition steps_left (s : sys O D) : nat := sum_list (worker_left <$> sworkers s).
Definition all_finished (s : sys O D) : Prop := Forall (fun w => w_pc w = Finished) (sworkers s).

#[export] Instance finished_dec (w : worker O) : Decision (w_pc w = Finished).
Proof. unfold Decision. destruct (w_pc w); (by left) || (by right). Defined.

Lemma stopped_wstep m w m' w' r :
  stop m = true -> wstep (D := D) backend device_reports m w m' w' r ->
  m' = m /\ (worker_left w' < worker_left w)%nat.
Proof.
  intros Hs.
  assert (Hidle : may_work m = false) by (unfold may_work; by rewrite Hs).
  assert (Hrange : take_range w m = (m, None)).
  { by_kind w; by apply copy_idle. }
  assert (Hcur : forall j, scan_result_still_current_locked m j = false)
    by (intros j; unfold scan_result_still_current_locked; by rewrite Hs).
  unfold worker_left.
  intros [H|H|H|H|m1 H Ht|m1 j start n rest failed H Ht _|j start n nonce hw rest failed H|j start n H|j start n H];
    rewrite H; cbn [at_pc w_pc length]; try congruence; (split; [|lia]).
  - done.
  - done.
  - congruence.
  - unfold queue_scan_match. by rewrite Hcur.
  - by_kind w; by rewrite Hcur.
  - done.
Qed.

Lemma stopped_wstep_exists m w :
  stop m = true -> w_pc w <> Finished -> exists m' w' r, wstep (D := D) backend device_reports m w m' w' r.
Proof.
  intros Hs Hpc. destruct (w_pc w) as [| | |j start n rest failed|] eqn:E; [..|done].
  - do 3 eexists. by apply ws_stop.
  - do 3 eexists. apply ws_wake; [done|]. unfold miner_wait_for_work_done. by rewrite Hs.
  - do 3 eexists. apply ws_refused; [done|]. by_kind w; apply copy_idle; unfold may_work; by rewrite Hs.
  - destruct rest as [|[nonce hw] rest]; [destruct failed|].
    + do 3 eexists. by eapply ws_failed.
    + do 3 eexists. by eapply ws_account.
    + do 3 eexists. by eapply ws_match.
Qed.

Lemma stopped_worker_step s s' :
  stop (sm s) = true -> worker_step backend device_reports s s' ->
  sm s' = sm s /\ (steps_left s' < steps_left s)%nat.
Proof.
  intros Hs [i w m' w' r Hi Hw]. apply stopped_wstep in Hw as [-> Hlt]; [|done]. split; [done|].
  unfold steps_left. cbn [sworkers]. rewrite list_fmap_insert.
  pose proof (sum_list_insert i (worker_left w) (worker_left w') (worker_left <$> sworkers s)
    ltac:(by rewrite list_lookup_fmap, Hi)). lia.
Qed.
End stopping.

(** * Counting hashes *)

Definition sumZ (l : list Z) : Z := foldr Z.add 0 l.

Lemma sumZ_insert i x l : (i < length l)%nat -> sumZ (<[i := x]> l) = sumZ l - l !!! i + x.
Proof.
  revert i. induction l as [|z l IH]; intros [|i] Hi; cbn [length] in Hi; try lia.
  - change (x + sumZ l = z + sumZ l - z + x). lia.
  - change (z + sumZ (<[i:=x]> l) = z + sumZ l - l !!! i + x). rewrite IH by lia. lia.
Qed.

Lemma sumZ_replicate n : sumZ (replicate n 0) = 0.
Proof. induction n as [|n IH]; [done|]. exact IH. Qed.

Section counting.
Context `{O : OpenSSL} `{X : X86} `{A : ARM} {D : Type}.
Context (backend : sha256d_backend_t) (device_reports : active_job_t O -> Z -> Z -> list (Z * list Z) -> Prop).
#[local] Abbreviation take_range := (take_range (D := D) backend device_reports).
#[local] Abbreviation account := (account (D := D) backend device_reports).
Implicit Types m : miner O D.

(** The counter a worker adds to exists. *)
Definition counter_exists m (w : worker O) : Prop :=
  match w_kind w with
  | cpu_worker id _ => Z.of_nat id < thread_count m
  | opencl_worker id => (id < opencl_started m)%nat
  | cuda_worker => True
  end.

(** All that is counted per thread and per device. *)
Definition counted m : Z := sumZ (thread_hashes m) + sumZ (opencl_hashes m) + cuda_hashes m.

Record counts_ok (s : sys O D) : Prop := {
  co_threads : thread_count (sm s) <= Z.of_nat (length (thread_hashes (sm s)));
  co_opencl : (opencl_started (sm s) <= length (opencl_hashes (sm s)))%nat;
  co_workers : Forall (counter_exists (sm s)) (sworkers s);
  co_total : hashes (sm s) = u64 (counted (sm s));
}.

(** The fields the counting is about. *)
Definition counting m :=
  (thread_count m, opencl_started m, hashes m, thread_hashes m, opencl_hashes m, cuda_hashes m).

Lemma counting_keep m m' ws ws' l l' :
  counting m' = counting m -> w_kind <$> ws' = w_kind <$> ws ->
  counts_ok (Sys m ws l) -> counts_ok (Sys m' ws' l').
Proof.
  intros [= E1 E2 E3 E4 E5 E6] Hk [H1 H2 H3 H4]; cbn [sm sworkers] in *.
  split; cbn [sm sworkers]; unfold counted; rewrite ?E1, ?E2, ?E3, ?E4, ?E5, ?E6; try done.
  clear - E1 E2 Hk H3. revert ws Hk H3. induction ws' as [|w' ws' IH]; intros [|w ws] Hk H3; try done.
  injection Hk as Hw Hk. apply Forall_cons in H3 as [Hx H3]. constructor; [|by eapply IH].
  unfold counter_exists in *. by rewrite Hw, E1, E2.
Qed.

Lemma u64_counted a b n : a = u64 b -> u64 (a + n) = u64 (b + n).
Proof. intros ->. unfold u64. by rewrite Zplus_mod_idemp_l. Qed.

Lemma u64_sub_add s t n : u64 (s - t + u64 (t + n)) = u64 (s + n).
Proof. unfold u64. rewrite Zplus_mod_idemp_r. f_equal. lia. Qed.

(** A worker adds the same number to the total and to its own counter. *)
Lemma account_counts m ws l w j n :
  counts_ok (Sys m ws l) -> counter_exists m w -> counts_ok (Sys (account w j n m) ws l).
Proof.
  intros Hok Hw. pose proof Hok as [H1 H2 H3 H4]; cbn [sm sworkers] in *.
  unfold counter_exists in Hw. revert Hw. by_kind w; intros Hw; (destruct (scan_result_still_current_locked m j); [|done]).
  - change (thread_count (set_hashes _ m)) with (thread_count m). rewrite (proj2 (Z.ltb_lt _ _)) by done.
    split; cbn [sm sworkers]; try done; cbn [set_thread_hashes set_hashes thread_hashes thread_count];
      [by rewrite length_insert|].
    unfold counted. cbn [set_thread_hashes set_hashes hashes thread_hashes opencl_hashes cuda_hashes].
    rewrite sumZ_insert by lia. rewrite (u64_counted _ _ _ H4). unfold counted.
    rewrite <- (u64_sub_add _ (thread_hashes m !!! id) n). f_equal. lia.
  - change (opencl_started (set_hashes _ m)) with (opencl_started m). rewrite (proj2 (Nat.ltb_lt _ _)) by done.
    split; cbn [sm sworkers]; try done; cbn [set_opencl_hashes set_hashes opencl_hashes opencl_started];
      [by rewrite length_insert|].
    unfold counted. cbn [set_opencl_hashes set_hashes hashes thread_hashes opencl_hashes cuda_hashes].
    rewrite sumZ_insert by lia. rewrite (u64_counted _ _ _ H4). unfold counted.
    rewrite <- (u64_sub_add _ (opencl_hashes m !!! id) n). f_equal. lia.
  - split; cbn [sm sworkers]; try done. unfold counted.
    cbn [set_cuda_hashes set_hashes hashes thread_hashes opencl_hashes cuda_hashes].
    rewrite (u64_counted _ _ _ H4). unfold counted.
    rewrite <- (u64_sub_add _ (cuda_hashes m) n). f_equal. lia.
Qed.
Lemma counting_take w m : counting (fst (take_range w m)) = counting m.
Proof.
  by_kind w; unfold copy_job_and_nonce_range_sized; cbv zeta; by repeat case_match.
Qed.
Lemma counting_match m j nonce hw : counting (queue_scan_match j nonce hw m) = counting m.
Proof. unfold queue_scan_match, queue_share_locked. cbv zeta. by repeat case_match. Qed.
Lemma counting_main m :
  counting (fst (miner_pop_share m)) = counting m /\
  (forall b, counting (miner_set_paused m b) = counting m).
Proof.
  unfold miner_pop_share, miner_set_paused. split; [by case_match|]. intros b. cbv zeta. by case_match.
Qed.

Lemma kind_insert i w w' (ws : list (worker O)) :
  ws !! i = Some w -> w_kind w' = w_kind w -> w_kind <$> <[i := w']> ws = w_kind <$> ws.
Proof.
  intros Hi Hk. rewrite list_fmap_insert, Hk. apply list_insert_id. by rewrite list_lookup_fmap, Hi.
Qed.

Lemma step_counts s s' : counts_ok s -> sys_step backend device_reports s s' -> counts_ok s'.
Proof.
  intros Hok Hs. destruct s as [m ws l].
  assert (Hkeep : forall m' l', counting m' = counting m -> counts_ok (Sys m' ws l'))
    by (intros m' l' Hm; by eapply counting_keep).
  destruct Hs as [s' Hw|j _ _|b| | |]; cbn [sm sworkers issued].
  - destruct Hw as [i w m' w' r Hi Hw]. cbn [sm sworkers issued] in *.
    assert (Hwk : counter_exists m w)
      by (pose proof (co_workers _ Hok) as H; rewrite list.Forall_forall in H; eapply H, list_elem_of_lookup_2, Hi).
    assert (Hq : forall m', counting m' = counting m ->
      counts_ok (Sys m' (<[i := w']> ws) (l ++ option_list r))).
    { intros m1 Hm. eapply counting_keep; [exact Hm| |exact Hok].
      eapply kind_insert; [done|]. by destruct Hw. }
    destruct Hw as [H|H|H|H|m' H Ht|m' j start n rest failed H Ht _|j start n nonce hw rest failed H|j start n H|j start n H];
      try (by apply Hq).
    + apply Hq. by rewrite <- (counting_take w m), Ht.
    + apply Hq. by rewrite <- (counting_take w m), Ht.
    + apply Hq, counting_match.
    + eapply counting_keep; [reflexivity| |by eapply (account_counts m ws)]. by eapply kind_insert.
  - by apply Hkeep.
  - apply Hkeep, counting_main.
  - apply Hkeep, counting_main.
  - by apply Hkeep.
  - by apply Hkeep.
Qed.
End counting.

(** * What [miner_start] makes *)

Section starting.
Context `{O : OpenSSL} {D : Type}.
Implicit Types m : miner O D.

(** The fields [miner_start] leaves alone until a failure. *)
Definition core m :=
  (shares m, share_head m, share_tail m, share_count m, job m, next_nonce m, nonce_exhausted m,
   (stop m, hashes m, thread_hashes m, cuda_hashes m)).

(** The ids of created workers are below these numbers. *)
Definition id_below (cpus : Z) (devices : nat) (k : worker_kind) : Prop :=
  match k with
  | cpu_worker id _ => Z.of_nat id < cpus
  | opencl_worker id => (id < devices)%nat
  | cuda_worker => True
  end.

Lemma id_below_mono c c' d k : c <= c' -> id_below c d k -> id_below c' d k.
Proof. destruct k; cbn; try done. lia. Qed.

Lemma core_affinity e m :
  core (start_affinity e m) = core m /\ opencl_started (start_affinity e m) = opencl_started m /\
  opencl_hashes (start_affinity e m) = opencl_hashes m.
Proof. unfold start_affinity. cbv zeta. by repeat case_match. Qed.

Lemma core_opencl_fold e l m :
  core (foldl (start_opencl_device e) m l) = core m /\
  opencl_hashes (foldl (start_opencl_device e) m l) = opencl_hashes m /\
  (opencl_started (foldl (start_opencl_device e) m l) <= opencl_started m + length l)%nat.
Proof.
  revert m. induction l as [|d l IH]; intros m; cbn [foldl length]; [split_and!; [done..|lia]|].
  destruct (IH (start_opencl_device e m d)) as (-> & -> & Hle).
  assert (H : core (start_opencl_device e m d) = core m /\
    opencl_hashes (start_opencl_device e m d) = opencl_hashes m /\
    (opencl_started (start_opencl_device e m d) <= opencl_started m + 1)%nat).
  { unfold start_opencl_device. cbv zeta. repeat case_match; split_and!; try done; cbn; lia. }
  destruct H as (-> & -> & H). split_and!; [done..|lia].
Qed.

(** After the device phases: one hash counter per device that can be started. *)
Lemma core_devices e m :
  opencl_started m = 0%nat -> sumZ (opencl_hashes m) = 0 ->
  let m' := start_cuda_device e (start_opencl_devices e (start_affinity e m)) in
  core m' = core m /\ (opencl_started m' <= length (opencl_hashes m'))%nat /\
  sumZ (opencl_hashes m') = 0.
Proof.
  intros H0 Hs m'. destruct (core_affinity e m) as (Ha & Hb & Hc).
  assert (H : core (start_opencl_devices e (start_affinity e m)) = core m /\
    (opencl_started (start_opencl_devices e (start_affinity e m)) <=
     length (opencl_hashes (start_opencl_devices e (start_affinity e m))))%nat /\
    sumZ (opencl_hashes (start_opencl_devices e (start_affinity e m))) = 0).
  { unfold start_opencl_devices. destruct (oc_enabled _); [|rewrite Ha, Hb, Hc, H0; split_and!; [done|lia|done]].
    destruct (se_resolved e) as [|d ds] eqn:E; [rewrite Ha, Hb, Hc, H0; split_and!; [done|lia|done]|].
    rewrite <- E. cbv zeta.
    destruct (core_opencl_fold e (se_resolved e)
      (set_opencl_hashes (replicate (length (se_resolved e)) 0)
         (set_opencl_devices (replicate (length (se_resolved e)) None) (start_affinity e m)))) as (H1 & H2 & H3).
    rewrite H1, H2. cbn [opencl_hashes set_opencl_hashes]. rewrite length_replicate, sumZ_replicate.
    split; [exact Ha|]. split; [|done].
    change (opencl_started (set_opencl_hashes _ _)) with (opencl_started (start_affinity e m)) in H3. lia. }
  subst m'. unfold start_cuda_device. by repeat case_match.
Qed.

Lemma start_cpu_ids e i n m spawned m' spawned' d :
  start_cpu_threads e i n m spawned = (m', spawned', true) ->
  Forall (id_below (Z.of_nat i) d) spawned -> Forall (id_below (Z.of_nat (i + n)) d) spawned'.
Proof.
  revert i m spawned. induction n as [|n IH]; intros i m spawned; cbn [start_cpu_threads].
  - intros [= _ <-]. by rewrite Nat.add_0_r.
  - cbv zeta. destruct (se_cpu_thread e i); [|done]. intros H Hf.
    replace (i + S n)%nat with (S i + n)%nat by lia. eapply IH; [exact H|].
    apply Forall_app_2.
    + eapply Forall_impl; [exact Hf|]. intros k. apply id_below_mono. lia.
    + apply Forall_singleton. cbn. lia.
Qed.

Lemma start_opencl_ids e m spawned c d k :
  (k <= d)%nat -> Forall (id_below c d) spawned ->
  Forall (id_below c d) (snd (foldl (start_opencl_thread e) (m, spawned) (seq 0 k))).
Proof.
  induction k as [|k IH]; intros Hk Hf; [done|]. rewrite seq_S, foldl_app. cbn [foldl Nat.add].
  specialize (IH ltac:(lia) Hf). destruct (foldl _ _ (seq 0 k)) as [m1 sp]. cbn [snd] in IH.
  unfold start_opencl_thread. repeat case_match; try done. cbn [snd].
  apply Forall_app_2; [done|]. by apply Forall_singleton.
Qed.

(** A successful start, when the structure is as [miner_create] made it. *)
Lemma start_success e m m' spawned :
  started m = false -> 0 <= thread_count m -> opencl_started m = 0%nat -> sumZ (opencl_hashes m) = 0 ->
  miner_start e m = (m', spawned, 0) ->
  core m' = core m /\ thread_count m' = thread_count m /\
  (opencl_started m' <= length (opencl_hashes m'))%nat /\ sumZ (opencl_hashes m') = 0 /\
  Forall (id_below (thread_count m') (opencl_started m')) spawned.
Proof.
  intros Hst Ht H0 Hs. unfold miner_start. rewrite Hst. cbv zeta.
  pose proof (core_devices e m H0 Hs) as Hdev. cbv zeta in Hdev.
  set (m1 := start_cuda_device e (start_opencl_devices e (start_affinity e m))) in *. clearbody m1.
  destruct Hdev as (Hcore & Hle & Hsum).
  destruct (_ && negb (cuda_started m1)); [done|].
  destruct (start_cpu_threads e 0 _ (set_thread_count 0 m1) []) as [[m2 sp] [|]] eqn:Ecpu; cbn [negb]; [|done].
  pose proof (start_cpu_ids e _ _ _ _ _ _ (opencl_started m1) Ecpu ltac:(constructor)) as Hids.
  apply start_cpu_threads_ok in Ecpu as [_ Hm2].
  assert (Htc : thread_count m2 = thread_count m).
  { rewrite Hm2. cbn [thread_count set_thread_count Nat.add].
    destruct (Nat.eqb_spec (Z.to_nat (thread_count m)) 0); lia. }
  assert (Ho2 : opencl_started m2 = opencl_started m1) by by rewrite Hm2.
  pose proof (start_opencl_threads_live e m2 sp (opencl_started m2)) as Hocl. cbv zeta in Hocl.
  pose proof (start_opencl_ids e m2 sp (thread_count m) (opencl_started m1) (opencl_started m2)) as Hids2.
  destruct (foldl _ (m2, sp) _) as [m3 sp3]. cbn [fst snd] in Hocl, Hids2. destruct Hocl as [_ [ds Hm3]].
  specialize (Hids2 ltac:(lia)). rewrite Nat.add_0_l, Z2Nat.id in Hids by done. specialize (Hids2 Hids).
  assert (Hm4 : forall m4, (m4 = m3 \/ m4 = set_cuda_started false (set_cuda_device None m3)) ->
    core (set_started true m4) = core m /\ thread_count (set_started true m4) = thread_count m /\
    opencl_started (set_started true m4) = opencl_started m1 /\
    opencl_hashes (set_started true m4) = opencl_hashes m1).
  { intros m4 Hm4. rewrite <- Hcore, <- Htc, <- Ho2. destruct Hm4 as [->| ->]; rewrite Hm3, Hm2; by split_and!. }
  destruct (start_cuda_thread e (m3, sp3)) as [m4 sp4] eqn:Ecuda.
  assert (H4 : (m4 = m3 \/ m4 = set_cuda_started false (set_cuda_device None m3)) /\
    Forall (id_below (thread_count m) (opencl_started m1)) sp4).
  { unfold start_cuda_thread in Ecuda. repeat case_match; injection Ecuda as <- <-; (split; [by auto|]); try done;
      (apply Forall_app_2; [done|]; by apply Forall_singleton). }
  destruct H4 as [H4 Hf]. destruct sp4 as [|w sp4]; [done|]. intros [= <- <-].
  destruct (Hm4 m4 H4) as (E1 & E2 & E3 & E4). rewrite E1, E2, E3, E4. by split_and!.
Qed.
End starting.

(** * Properties *)

Section properties.
Context `{O : OpenSSL} `{!OpenSSLLaws O} `{X : X86} `{!X86Laws X} `{A : ARM} `{!ARMLaws A} {D : Type}.
Context (backend : sha256d_backend_t) (device_reports : active_job_t O -> Z -> Z -> list (Z * list Z) -> Prop).
Implicit Types (m : miner O D) (s : sys O D).

Lemma honest_reports :
  devices_honest device_reports -> reports_are_good (D := D) backend device_reports good_match.
Proof.
  intros Hd w j start n rest failed Hp Hn Hr. unfold reports, worker_function in Hr.
  destruct (w_kind w); [|by destruct Hr; [eapply Hd|constructor]..].
  destruct Hr as [-> _]. apply list.Forall_forall. intros [nonce hw] Hin. by eapply cpu_reports_good.
Qed.

(** A share of a job: the hash of its header with the share's nonce meets its target. *)
Definition valid_share (j : miner_job_t) (sh : miner_share_t) : Prop :=
  share_seq sh = job_seq j /\
  share_hash sh = Fips.sha256d (header_with j (share_nonce sh)) /\
  of_le (share_hash sh) <= of_le (job_target j) /\
  share_difficulty sh = miner_hash_difficulty (share_hash sh) /\
  (strlen (job_id j) < 128 -> strlen (job_extranonce2 j) < 32 -> strlen (job_ntime j) < 16 ->
   share_job_id sh = job_id j /\ share_extranonce2 sh = job_extranonce2 j /\
   share_ntime sh = job_ntime j)%nat.

Lemma good_match_share j nonce hash : good_match j nonce hash -> valid_share j (share_of j nonce hash).
Proof.
  intros [Hhash Hle]. unfold valid_share.
  cbn [share_of share_seq share_hash share_nonce share_difficulty share_job_id share_extranonce2 share_ntime].
  rewrite take_ge by (rewrite Hhash; apply Nat.eq_le_incl, length_sha256).
  do 4 (split; [done|]). intros H1 H2 H3.
  split_and!; by rewrite (proj2 (copy_checked_Some _ _ _)) by done.
Qed.

(** The whole scan of a CPU worker, matches queued as they are found. *)
Definition scan_performed (s : sys O D) (i : nat) (w : worker O) (j : active_job_t O)
    (start n : Z) : sys O D :=
  Sys (sha256d_nonce_range_func backend (aj_midstate j) (aj_tail_words j) (aj_target_words j) start n
         (Some (queue_scan_match j)) (sm s))
    (<[i := at_pc w (Scanning j start n [] false)]> (sworkers s)) (issued s).

Lemma any_reports : reports_are_good (D := D) backend device_reports (fun _ _ _ => True).
Proof.
  intros w j start n rest failed _ _ _. apply list.Forall_forall. by intros [nonce hw].
Qed.

(** C4.  In every interleaving, a share popped from the queue belongs to the job
    then current (never to an older one), its hash is the double SHA-256 of that
    job's header with the share's nonce in the last four bytes, and it meets the
    job's target; provided the devices report only such matches. *)
Theorem popped_share_valid s sh :
  devices_honest device_reports -> reachable backend device_reports s ->
  snd (miner_pop_share (sm s)) = Some sh -> valid_share (public_job (job (sm s))) sh.
Proof.
  intros Hd%honest_reports Hr Hpop. by destruct (popped_good backend device_reports _ s sh Hd Hr Hpop) as
    [_ (nonce & hash & -> & Hg)]; apply good_match_share.
Qed.

(** C5.  In every interleaving, each nonce below [next_nonce] has been handed out
    exactly once for the current job and no other nonce has; for an earlier job each
    nonce was handed out at most once; and when the exhausted flag is up all 2^32
    nonces of the current job have been handed out. *)
Theorem nonces_handed_out_once s :
  reachable backend device_reports s ->
  let m := sm s in
  let q := job_seq (public_job (job m)) in
  (forall nonce, 0 <= nonce ->
     times nonce (ranges_of q (issued s)) = if nonce <? next_nonce m then 1%nat else 0%nat) /\
  (forall q' nonce, q' < q -> 0 <= nonce -> (times nonce (ranges_of q' (issued s)) <= 1)%nat) /\
  next_nonce m <= 2 ^ 32 /\
  (nonce_exhausted m = true -> next_nonce m = 2 ^ 32).
Proof.
  intros Hr m q. pose proof (reachable_inv backend device_reports _ s any_reports Hr) as Hinv.
  destruct (i_issued _ _ Hinv) as (Hc & Hold & _). pose proof (i_work _ _ Hinv) as Hw.
  split_and!.
  - intros nonce Hn. etransitivity; [apply (chain_times _ _ _ nonce Hc)|]. by rewrite (proj2 (Z.leb_le _ _)).
  - intros q' nonce Hq Hn. destruct (Hold q' Hq) as (hi & _ & Hc'). rewrite (chain_times _ _ _ nonce Hc').
    case_match; lia.
  - apply Hw.
  - intros He. destruct (wi_exhausted _ Hw He). by apply Hw.
Qed.

(** C19.  Once the stop flag is up, [miner_stop] can join every worker: the workers
    make at most [steps_left] further steps, the flag stays up, and as long as one
    of them has not finished there is a step to make, whatever they were doing. *)
Theorem stop_joins_workers s s' n :
  stop (sm s) = true -> nsteps (worker_step backend device_reports) n s s' ->
  (n + steps_left s' <= steps_left s)%nat /\ stop (sm s') = true /\
  (all_finished s' \/ exists s'', worker_step backend device_reports s' s'').
Proof.
  intros Hs Hn.
  assert (Hle : (n + steps_left s' <= steps_left s)%nat /\ stop (sm s') = true).
  { induction Hn as [s|n s s1 s2 Hst _ IH]; [done|].
    apply stopped_worker_step in Hst as [He Hlt]; [|done]. rewrite <- He in Hs.
    destruct (IH Hs). split; [lia|done]. }
  destruct Hle as [Hle Hs']. split_and!; try done. clear -Hs'.
  destruct (decide (Exists (fun w => w_pc w <> Finished) (sworkers s'))) as [He|He].
  - right. apply list.Exists_exists in He as (w & Hin & Hw). apply list_elem_of_lookup in Hin as [i Hi].
    destruct (stopped_wstep_exists backend device_reports (sm s') w Hs' Hw) as (m' & w' & r & Hst).
    eexists. by eapply worker_steps.
  - left. apply list.Forall_forall. intros w Hin.
    destruct (decide (w_pc w = Finished)) as [|Hne]; [done|]. exfalso. apply He.
    apply list.Exists_exists. by exists w.
Qed.

(** In every interleaving the total [hashes] is the sum of all per-thread and
    per-device counters, modulo 2^64. *)
Theorem hash_totals s s' :
  counts_ok s -> rtc (sys_step backend device_reports) s s' ->
  counts_ok s' /\ miner_hashes (sm s') = u64 (counted (sm s')).
Proof.
  intros Hok Hs. assert (H : counts_ok s') by (induction Hs; [done|]; eauto using step_counts).
  split; [done|]. apply H.
Qed.

(** The steps of a scanning CPU worker are the program's: without
    interference they reach the state in which the dispatched scan function has run
    with [queue_scan_match] as its callback. *)
Theorem cpu_scan_refines s i w j start n :
  sworkers s !! i = Some w -> w_pc w = Scanning j start n (cpu_reports backend j start n) false ->
  prepared j -> is_u32 n ->
  rtc (worker_step backend device_reports) s (scan_performed s i w j start n).
Proof.
  intros Hi Hpc Hp Hn. unfold scan_performed. rewrite cpu_scan_fold by done. rewrite cpu_reports_matches in Hpc by done.
  revert Hpc. generalize (matches (job_hash j) (aj_target_words j) start (Z.to_nat n)). intros l.
  revert s w Hi. induction l as [|x l IH]; intros s w Hi Hpc; cbn [foldl].
  - assert (Hw : at_pc w (Scanning j start n [] false) = w) by (destruct w; cbn in *; by rewrite Hpc).
    rewrite Hw. rewrite list_insert_id by done. by destruct s.
  - rewrite fmap_cons in Hpc. eapply rtc_l; [eapply worker_steps; [exact Hi|eapply ws_match, Hpc]|].
    cbn [option_list]. rewrite app_nil_r.
    set (w1 := at_pc w _). specialize (IH (Sys (queue_scan_match j x (job_hash j x) (sm s))
      (<[i:=w1]> (sworkers s)) (issued s)) w1).
    cbn [sm sworkers issued] in IH. rewrite list_insert_insert_eq in IH. apply IH; [|done].
    apply list_lookup_insert_eq. by eapply lookup_lt_Some.
Qed.

(** A successful [miner_start] of a fresh structure gives an initial state of
    the concurrent program, with every worker's counter in place and all totals
    equal. *)
Theorem start_makes_initial (e : start_env D) n ocl cuda affinity (batch : worker_kind -> Z) m' spawned :
  (forall k, is_u32 (batch k)) ->
  miner_start e (miner_set_cpu_affinity affinity (miner_create_with_backend_options n ocl cuda))
    = (m', spawned, 0) ->
  let s := Sys m' ((fun k => Worker k (batch k) AtTop) <$> spawned) [] in
  initial s /\ counts_ok s.
Proof.
  intros Hb Hstart s. set (m := miner_set_cpu_affinity _ _) in Hstart.
  assert (Ht : 0 <= thread_count m /\ length (thread_hashes m) = Z.to_nat (thread_count m)).
  { cbn. rewrite length_replicate. destruct (Z.ltb_spec n 0); lia. }
  destruct Ht as [Ht Hlen].
  destruct (start_success e m m' spawned eq_refl Ht eq_refl eq_refl Hstart) as (Hcore & Htc & Hle & Hsum & Hids).
  injection Hcore as E1 E2 E3 E4 E5 E6 E7 E8 E9 E10 E11.
  subst s. split; split; cbn [sm sworkers issued].
  - split; rewrite ?E1, ?E2, ?E3, ?E4;
      [reflexivity|exact (Nat.lt_0_succ 255)|reflexivity|exact (Nat.le_0_l 256)].
  - unfold queue. by rewrite E4.
  - by rewrite E5.
  - by rewrite E6, E7.
  - by rewrite E8.
  - apply Forall_fmap, list.Forall_forall. intros k _. split; [done|apply Hb].
  - done.
  - rewrite Htc, E10. change (thread_count m <= Z.of_nat (length (thread_hashes m))). rewrite Hlen. lia.
  - done.
  - apply Forall_fmap. eapply Forall_impl; [exact Hids|]. by intros [].
  - unfold counted. rewrite E9, E10, E11, Hsum. cbn. by rewrite sumZ_replicate.
Qed.
End properties.

(** * A concrete run

    One device worker with a batch of one nonce; the job accepts any hash. *)
#[local] Existing Instances ref_openssl ref_x86 ref_arm.
Definition wreports (j : active_job_t ref_openssl) (start n : Z) (rest : list (Z * list Z)) : Prop :=
  is_u32 n /\ rest = @cpu_reports ref_openssl ref_x86 ref_arm SHA256D_BACKEND_FAST_C j start n.
#[local] Abbreviation wreachable := (@reachable ref_openssl ref_x86 ref_arm unit SHA256D_BACKEND_FAST_C wreports).
#[local] Abbreviation wstep_to := (@worker_step ref_openssl ref_x86 ref_arm unit SHA256D_BACKEND_FAST_C wreports).

Definition wm1 : miner ref_openssl unit := miner_set_job m0 wjob.
Definition wm2 : miner ref_openssl unit := set_next_nonce 1 wm1.
Definition wj : active_job_t ref_openssl := with_epoch wm1.
Definition whash : list Z :=
  Eval vm_compute in @job_hash ref_openssl (with_epoch wm1) 0.
Definition wsys (m : miner ref_openssl unit) (p : pc ref_openssl) (l : list (Z * Z * Z)) : sys ref_openssl unit :=
  Sys m [Worker cuda_worker 1 p] l.
Definition wscan (rest : list (Z * list Z)) : pc ref_openssl := Scanning wj 0 1 rest false.

Lemma wreports_honest : devices_honest wreports.
Proof.
  intros j start n rest Hp [Hn ->]. apply list.Forall_forall. intros [nonce hw] Hin.
  exact (@cpu_reports_good ref_openssl ref_openssl_laws ref_x86 ref_x86_laws ref_arm ref_arm_laws
    _ j start n nonce hw Hp Hn Hin).
Qed.

Lemma winitial : initial (wsys m0 AtTop []).
Proof.
  split; try done; [exact m0_ring|]. apply Forall_singleton. split; [done|]. unfold is_u32. cbn. lia.
Qed.

Lemma wjob_wf : job_wf wjob.
Proof.
  split; [reflexivity|]. split; [|split; [reflexivity|]];
    apply (bool_decide_unpack (Forall is_u8 _)); vm_compute; exact I.
Qed.

Lemma wworker_step m m' p p' l r :
  wstep SHA256D_BACKEND_FAST_C wreports m (Worker cuda_worker 1 p) m' (Worker cuda_worker 1 p') r ->
  wstep_to (wsys m p l) (wsys m' p' (l ++ option_list r)).
Proof. intros H. exact (worker_steps _ _ (wsys m p l) 0 (Worker cuda_worker 1 p) m' _ r eq_refl H). Qed.

Lemma wset_job m p l :
  job_seq (public_job (job m)) + 1 < 2 ^ 64 ->
  sys_step SHA256D_BACKEND_FAST_C wreports (wsys m p l) (wsys (miner_set_job m wjob) p l).
Proof. intros H. exact (ss_set_job _ _ (wsys m p l) wjob wjob_wf H). Qed.

Lemma wmatch m j start n nonce hw rest l :
  wstep_to (wsys m (Scanning j start n ((nonce, hw) :: rest) false) l)
    (wsys (queue_scan_match j nonce hw m) (Scanning j start n rest false) (l ++ [])).
Proof. apply (wworker_step _ _ _ _ l None). by eapply ws_match. Qed.

Lemma wtake :
  wstep SHA256D_BACKEND_FAST_C wreports wm1 (Worker cuda_worker 1 Copying) wm2
    (Worker cuda_worker 1 (wscan [(0, whash)])) (Some (1, 0, 1)).
Proof.
  assert (Hseq : job_seq (public_job wj) = 1) by (vm_compute; reflexivity).
  assert (Ht : take_range SHA256D_BACKEND_FAST_C wreports (Worker cuda_worker 1 Copying) wm1 = (wm2, Some (wj, 0, 1))).
  { destruct (copy_range wm1 1 eq_refl ltac:(split; [exact (Z.le_refl 0)|reflexivity])
      ltac:(unfold is_u32; lia)) as (_ & _ & H). exact H. }
  assert (Hr : reports (D := unit) SHA256D_BACKEND_FAST_C wreports (Worker cuda_worker 1 Copying) wj 0 1 [(0, whash)] false).
  { apply scan_done. split; [unfold is_u32; lia|]. vm_compute. reflexivity. }
  rewrite <- Hseq.
  exact (ws_take _ _ wm1 (Worker cuda_worker 1 Copying) wm2 wj 0 1 _ false eq_refl Ht Hr).
Qed.

Lemma wpath :
  rtc (sys_step SHA256D_BACKEND_FAST_C wreports) (wsys m0 AtTop [])
    (wsys (queue_scan_match wj 0 whash wm2) (wscan []) [(1, 0, 1)]).
Proof.
  apply rtc_l with (wsys wm1 AtTop []); [by apply (wset_job m0)|].
  apply rtc_l with (wsys wm1 Copying []).
  { apply ss_worker, (wworker_step wm1 wm1 AtTop Copying [] None). by apply ws_go. }
  apply rtc_l with (wsys wm2 (wscan [(0, whash)]) [(1, 0, 1)]).
  { apply ss_worker, (wworker_step wm1 wm2 Copying (wscan [(0, whash)]) [] (Some (1, 0, 1))), wtake. }
  apply rtc_once, ss_worker, (wmatch wm2 wj 0 1 0 whash [] [(1, 0, 1)]).
Qed.

Lemma wrun : wreachable (wsys (queue_scan_match wj 0 whash wm2) (wscan []) [(1, 0, 1)]).
Proof. exists (wsys m0 AtTop []). split; [exact winitial|exact wpath]. Qed.

(** The run up to the accounting of the scanned nonce. *)
Definition wm3 : miner ref_openssl unit := cuda_worker_account wj 1 (queue_scan_match wj 0 whash wm2).

Lemma wpath_account :
  rtc (sys_step SHA256D_BACKEND_FAST_C wreports) (wsys m0 AtTop []) (wsys wm3 AtTop ([(1, 0, 1)] ++ [])).
Proof.
  eapply rtc_r; [exact wpath|].
  apply ss_worker, (wworker_step _ wm3 (wscan []) AtTop [(1, 0, 1)] None).
  exact (ws_account _ _ _ (Worker cuda_worker 1 (wscan [])) wj 0 1 eq_refl).
Qed.

Lemma wcounts : counts_ok (wsys m0 AtTop []).
Proof.
  split; [vm_compute; discriminate|exact (le_n 0)| |reflexivity].
  apply Forall_singleton. exact I.
Qed.

Lemma popped_share_valid_witness :
  exists sh, snd (miner_pop_share (queue_scan_match wj 0 whash wm2)) = Some sh /\
    share_seq sh = 1 /\ share_hash sh = Fips.sha256d (header_with wjob 0).
Proof.
  eexists. split; [reflexivity|].
  destruct (@popped_share_valid ref_openssl ref_openssl_laws ref_x86 ref_x86_laws ref_arm ref_arm_laws
    unit SHA256D_BACKEND_FAST_C wreports _ _ wreports_honest wrun eq_refl) as (Hseq & Hh & _).
  split; [exact Hseq|exact Hh].
Defined.

Lemma nonces_handed_out_once_witness : times 0 (ranges_of 1 [(1, 0, 1)]) = 1%nat.
Proof.
  destruct (@nonces_handed_out_once ref_openssl ref_openssl_laws ref_x86 ref_arm
    unit SHA256D_BACKEND_FAST_C wreports _ wrun) as [H _].
  exact (H 0 (Z.le_refl 0)).
Defined.

Lemma stop_joins_workers_witness :
  let s := wsys (miner_stop_request wm2) (wscan [(0, whash)]) [] in
  all_finished s \/ exists s', wstep_to s s'.
Proof.
  exact (proj2 (proj2 (@stop_joins_workers ref_openssl ref_x86 ref_arm unit SHA256D_BACKEND_FAST_C wreports
    (wsys (miner_stop_request wm2) (wscan [(0, whash)]) []) _ 0 eq_refl (nsteps_O _ _)))).
Defined.

Lemma hash_totals_witness : miner_hashes wm3 = 1.
Proof.
  etransitivity.
  - exact (proj2 (@hash_totals ref_openssl ref_x86 ref_arm unit SHA256D_BACKEND_FAST_C wreports
      _ _ wcounts wpath_account)).
  - vm_compute. reflexivity.
Defined.

Lemma wj_prepared : prepared wj.
Proof.
  apply (prepared_ext (job wm1)); try reflexivity.
  exact (proj1 (@set_job_prepared ref_openssl ref_openssl_laws unit m0 wjob wjob_wf)).
Qed.

(** A CPU worker about to report what its scan of nonce 0 found. *)
Definition wcpu : worker ref_openssl :=
  Worker (cpu_worker 0 0) 0 (Scanning wj 0 1 (cpu_reports SHA256D_BACKEND_FAST_C wj 0 1) false).

Lemma cpu_scan_refines_witness :
  exists s', rtc wstep_to (Sys wm2 [wcpu] []) s' /\
    queue (sm s') = [share_of (public_job wj) 0 (sha256d_words_to_hash whash)].
Proof.
  eexists. split.
  - apply (@cpu_scan_refines ref_openssl ref_openssl_laws ref_x86 ref_x86_laws ref_arm ref_arm_laws
      unit SHA256D_BACKEND_FAST_C wreports (Sys wm2 [wcpu] []) 0 wcpu wj 0 1 eq_refl eq_refl wj_prepared).
    unfold is_u32. lia.
  - vm_compute. reflexivity.
Defined.

Lemma start_makes_initial_witness :
  let '(m', spawned, _) := miner_start env0 (miner_set_cpu_affinity false m0) in
  length spawned = 2%nat /\ initial (Sys m' ((fun k => Worker k 0 AtTop) <$> spawned) []).
Proof.
  destruct (miner_start env0 (miner_set_cpu_affinity false m0)) as [[m' spawned] rc] eqn:E.
  assert (Hrc : rc = 0) by (change rc with (snd (m', spawned, rc)); rewrite <- E; vm_compute; reflexivity).
  subst rc. split.
  - change spawned with (snd (fst (m', spawned, 0))). rewrite <- E. vm_compute. reflexivity.
  - exact (proj1 (start_makes_initial env0 2 None None false (fun _ => 0) m' spawned
      ltac:(intros; unfold is_u32; lia) E)).
Defined.
