(* ===== verification/Json.v ===== *)
(** The part of the Jansson library the sources call, as a class: its operations,
    and as laws the documented facts the client relies on.  A NULL pointer is
    [None]; the accessors accept it as the library does.  [ref_jansson] is an
    instance, so the laws can hold. *)
From stdpp Require Import base tactics list option strings countable numbers.
From Stdlib Require Import ZArith Lia Ascii SpecFloat.
From S2P Require Import Prelude Float64 Hex.

#[local] Open Scope Z_scope.

Class Jansson := {
  json_t : Type;
  json_loads : string -> option json_t;
  (** With [JSON_COMPACT]; NULL on failure. *)
  json_dumps : json_t -> option string;
  json_object_get' : json_t -> string -> option json_t;
  json_is_integer' : json_t -> bool;
  json_is_number' : json_t -> bool;
  json_is_string' : json_t -> bool;
  json_is_array' : json_t -> bool;
  json_is_object' : json_t -> bool;
  json_is_true' : json_t -> bool;
  json_is_boolean' : json_t -> bool;
  json_is_null' : json_t -> bool;
  json_integer_value' : json_t -> Z;
  json_number_value' : json_t -> double;
  json_string_value' : json_t -> option string;
  json_array_size' : json_t -> nat;
  json_array_get' : json_t -> nat -> option json_t;
  json_object : json_t;
  json_array : json_t;
  json_integer : Z -> json_t;
  json_string : string -> option json_t;
  json_real : double -> option json_t;
  json_true : json_t;
  json_false : json_t;
  (** The text [json_dump_file] writes with [JSON_INDENT(2)]; NULL on failure. *)
  json_dump_text : json_t -> option string;
  json_object_del' : json_t -> string -> json_t;
  json_object_set_new' : json_t -> string -> json_t -> json_t;
  json_array_append_new' : json_t -> json_t -> json_t;
}.
Arguments json_t _ : clear implicits.

(** * The accessors on pointers *)

Section pointers.
Context `{J : Jansson}.
Implicit Types p : option (json_t J).

Definition json_object_get p (key : string) : option (json_t J) := v ← p; json_object_get' v key.
Definition json_is_integer p : bool := from_option json_is_integer' false p.
Definition json_is_number p : bool := from_option json_is_number' false p.
Definition json_is_string p : bool := from_option json_is_string' false p.
Definition json_is_array p : bool := from_option json_is_array' false p.
Definition json_is_object p : bool := from_option json_is_object' false p.
Definition json_is_true p : bool := from_option json_is_true' false p.
Definition json_is_boolean p : bool := from_option json_is_boolean' false p.
Definition json_is_null p : bool := from_option json_is_null' false p.
Definition json_integer_value p : Z := from_option json_integer_value' 0 p.
Definition json_number_value p : double := from_option json_number_value' (f64_of_Z 0) p.
Definition json_string_value p : option string := v ← p; json_string_value' v.
Definition json_array_size p : nat := from_option json_array_size' 0%nat p.
Definition json_array_get p (i : nat) : option (json_t J) := v ← p; json_array_get' v i.

(** Setting or appending NULL fails and changes nothing. *)
Definition json_object_set_new (o : json_t J) (key : string) p : json_t J :=
  from_option (json_object_set_new' o key) o p.
Definition json_array_append_new (a : json_t J) p : json_t J :=
  from_option (json_array_append_new' a) a p.
(** [json_array_append_new] for each value in order. *)
Definition json_array_of (l : list (option (json_t J))) : json_t J :=
  foldl json_array_append_new json_array l.
End pointers.

(** Characters of a C string in the ASCII range. *)
Definition is_ascii_string (s : string) : Prop := Forall (fun c => 0 < code c < 128) (chars s).
Definition ascii_key (key : string) : bool :=
  forallb (fun c => (0 <? code c) && (code c <? 128)) (chars key).
Definition newline : ascii := ascii_of_nat 10.

(** What the values the client builds look like to the accessors, that a compact
    dump is one line without NUL characters, and that reading it back gives the
    same value. *)
Class JanssonLaws (J : Jansson) : Prop := {
  dumps_loads v s : json_dumps v = Some s -> json_loads s = Some v;
  dumps_line v s : json_dumps v = Some s ->
    Forall (fun c => c <> newline /\ c <> zero) (chars s);
  dumps_object o : json_is_object' o = true -> is_Some (json_dumps o);
  string_value s v : json_string s = Some v -> json_string_value' v = Some s;
  string_ascii s : is_ascii_string s -> is_Some (json_string s);
  integer_is z : json_is_integer' (json_integer z) = true;
  integer_value z : - 2 ^ 63 <= z < 2 ^ 63 -> json_integer_value' (json_integer z) = z;
  object_get_empty k : json_object_get' json_object k = None;
  (** The library takes keys in UTF-8 only. *)
  object_get_set o k v k' :
    json_is_object' o = true -> ascii_key k = true ->
    json_object_get' (json_object_set_new' o k v) k' =
      if String.eqb k' k then Some v else json_object_get' o k';
  object_is : json_is_object' json_object = true;
  object_set_is o k v : json_is_object' o = true -> json_is_object' (json_object_set_new' o k v) = true;
  array_is : json_is_array' json_array = true;
  array_size_empty : json_array_size' json_array = 0%nat;
  array_append_is a v : json_is_array' a = true -> json_is_array' (json_array_append_new' a v) = true;
  array_size_append a v : json_is_array' a = true ->
    json_array_size' (json_array_append_new' a v) = S (json_array_size' a);
  array_get_append a v i : json_is_array' a = true ->
    json_array_get' (json_array_append_new' a v) i =
      if (i =? json_array_size' a)%nat then Some v else json_array_get' a i;
  dump_text_loads v s : json_dump_text v = Some s -> json_loads s = Some v;
  object_get_del o k k' :
    json_is_object' o = true ->
    json_object_get' (json_object_del' o k) k' = if String.eqb k' k then None else json_object_get' o k';
  object_del_is o k : json_is_object' o = true -> json_is_object' (json_object_del' o k) = true;
  boolean_is : json_is_boolean' json_true = true /\ json_is_boolean' json_false = true;
  boolean_value : json_is_true' json_true = true /\ json_is_true' json_false = false;
  real_value d : f64_finite d = true ->
    exists v, json_real d = Some v /\ json_is_number' v = true /\ json_number_value' v = d;
}.

(** * An instance

    Values are labelled trees and a dump is the binary numeral of the tree's code:
    not the JSON text, but an injective one-line encoding, which is all the laws ask
    of it. *)

Definition double_code := (bool + (bool + unit) + (bool * positive * Z))%type.
Definition double_to (d : double) : double_code :=
  match d with
  | S754_zero s => inl (inl s)
  | S754_infinity s => inl (inr (inl s))
  | S754_nan => inl (inr (inr tt))
  | S754_finite s m e => inr (s, m, e)
  end.
Definition double_of (c : double_code) : double :=
  match c with
  | inl (inl s) => S754_zero s
  | inl (inr (inl s)) => S754_infinity s
  | inl (inr (inr _)) => S754_nan
  | inr (s, m, e) => S754_finite s m e
  end.
Definition leaf := (string + Z + double_code)%type.

(** Trees: arrays are nodes labelled 0, objects 1 with their entries, the latest
    first, each a node 2 of key and value; nodes 3, 4 and 5 are null, true, false. *)
Definition tree := gen_tree leaf.
Definition entry (k : string) (v : tree) : tree := GenNode 2 [GenLeaf (inl (inl k)); v].
Fixpoint find_entry (es : list tree) (k : string) : option tree :=
  match es with
  | GenNode 2 [GenLeaf (inl (inl k')); v] :: es =>
      if String.eqb k k' then Some v else find_entry es k
  | _ => None
  end.

Fixpoint remove_entry (es : list tree) (k : string) : list tree :=
  match es with
  | GenNode 2 [GenLeaf (inl (inl k')); v] :: es =>
      if String.eqb k k' then remove_entry es k else entry k' v :: remove_entry es k
  | _ => []
  end.
Lemma find_removed es k k' : find_entry (remove_entry es k) k' = if String.eqb k' k then None else find_entry es k'.
Proof.
  induction es as [|e es IH]; [by case_match|]. cbn [remove_entry find_entry].
  destruct e as [|[|[|[|]]] [|[[[k1|]|]|] [|v [|]]]]; try (cbn; by case_match).
  destruct (String.eqb_spec k k1); cbn [find_entry entry]; rewrite ?IH;
    destruct (String.eqb_spec k' k1), (String.eqb_spec k' k); congruence.
Qed.

Fixpoint bits_of (p : positive) : list ascii :=
  match p with
  | xH => []
  | xO p => "0"%char :: bits_of p
  | xI p => "1"%char :: bits_of p
  end.
Fixpoint of_bits (l : list ascii) : positive :=
  match l with
  | [] => xH
  | c :: l => if Ascii.eqb c "1" then xI (of_bits l) else xO (of_bits l)
  end.
Lemma of_bits_of p : of_bits (bits_of p) = p.
Proof. induction p as [p IH|p IH|]; cbn; by rewrite ?IH. Qed.
Lemma bits_line p : Forall (fun c => c <> newline /\ c <> zero) (bits_of p).
Proof. induction p; constructor; try done; by split. Qed.

Definition ref_jansson : Jansson := {|
  json_t := tree;
  json_loads s := decode (of_bits (chars s));
  json_dumps v := Some (of_chars (bits_of (encode v)));
  json_object_get' v k := match v with GenNode 1 es => find_entry es k | _ => None end;
  json_is_integer' v := match v with GenLeaf (inl (inr _)) => true | _ => false end;
  json_is_number' v := match v with GenLeaf (inl (inr _)) | GenLeaf (inr _) => true | _ => false end;
  json_is_string' v := match v with GenLeaf (inl (inl _)) => true | _ => false end;
  json_is_array' v := match v with GenNode 0 _ => true | _ => false end;
  json_is_object' v := match v with GenNode 1 _ => true | _ => false end;
  json_is_true' v := match v with GenNode 4 _ => true | _ => false end;
  json_is_boolean' v := match v with GenNode 4 _ | GenNode 5 _ => true | _ => false end;
  json_is_null' v := match v with GenNode 3 _ => true | _ => false end;
  json_integer_value' v := match v with GenLeaf (inl (inr z)) => z | _ => 0 end;
  json_number_value' v :=
    match v with
    | GenLeaf (inl (inr z)) => f64_of_Z z | GenLeaf (inr d) => double_of d | _ => f64_of_Z 0
    end;
  json_string_value' v := match v with GenLeaf (inl (inl s)) => Some s | _ => None end;
  json_array_size' v := match v with GenNode 0 l => length l | _ => 0%nat end;
  json_array_get' v i := match v with GenNode 0 l => l !! i | _ => None end;
  json_object := GenNode 1 [];
  json_array := GenNode 0 [];
  json_integer z := GenLeaf (inl (inr z));
  json_string s := Some (GenLeaf (inl (inl s)));
  json_real d := Some (GenLeaf (inr (double_to d)));
  json_true := GenNode 4 [];
  json_false := GenNode 5 [];
  json_dump_text v := Some (of_chars (bits_of (encode v)));
  json_object_del' o k := match o with GenNode 1 es => GenNode 1 (remove_entry es k) | o => o end;
  json_object_set_new' o k v := match o with GenNode 1 es => GenNode 1 (entry k v :: es) | o => o end;
  json_array_append_new' a v := match a with GenNode 0 l => GenNode 0 (l ++ [v]) | a => a end;
|}.

Lemma lookup_snoc {A} (l : list A) x i :
  (l ++ [x]) !! i = if (i =? length l)%nat then Some x else l !! i.
Proof.
  destruct (Nat.eqb_spec i (length l)) as [->|Hne]; [by apply list_lookup_middle|].
  destruct (decide (i < length l)%nat) as [Hi|Hi]; [by rewrite lookup_app_l|].
  rewrite !lookup_ge_None_2; [done|lia|rewrite length_app; cbn; lia].
Qed.

#[export] Instance ref_jansson_laws : JanssonLaws ref_jansson.
Proof.
  assert (Hobj : forall o : tree, json_is_object' (Jansson := ref_jansson) o = true -> exists es, o = GenNode 1 es).
  { intros [|[|[|]] es]; try done. by exists es. }
  assert (Harr : forall o : tree, json_is_array' (Jansson := ref_jansson) o = true -> exists l, o = GenNode 0 l).
  { intros [|[|] es]; try done. by exists es. }
  split; try done.
  - intros v s [= <-]. cbn. rewrite chars_of_chars, of_bits_of. apply decode_encode.
  - intros v s [= <-]. rewrite chars_of_chars. apply bits_line.
  - intros s v [= <-]. done.
  - intros o k v k' Ho _. destruct (Hobj o Ho) as [es ->]. cbn. by case_match.
  - intros o k v Ho. by destruct (Hobj o Ho) as [es ->].
  - intros a v Ha. by destruct (Harr a Ha) as [l ->].
  - intros a v Ha. destruct (Harr a Ha) as [l ->].
    exact (eq_trans (length_app (A := tree) l [v]) (Nat.add_1_r (length l))).
  - intros a v i Ha. destruct (Harr a Ha) as [l ->].
    exact (lookup_snoc l v i).
  - intros v s [= <-]. cbn. rewrite chars_of_chars, of_bits_of. apply decode_encode.
  - intros o k k' Ho. destruct (Hobj o Ho) as [es ->]. apply find_removed.
  - intros o k Ho. by destruct (Hobj o Ho) as [es ->].
  - intros d _. eexists. split; [done|]. split; [done|]. by destruct d.
Qed.

(** * Arrays *)

Section arrays.
Context `{J : Jansson} `{!JanssonLaws J}.

Lemma array_of_app (l : list (option (json_t J))) v :
  json_array_of (l ++ [Some v]) = json_array_append_new' (json_array_of l) v.
Proof. unfold json_array_of. by rewrite foldl_app. Qed.

(** An array built by appending holds the values appended. *)
Lemma array_of_spec (xs : list (json_t J)) :
  json_is_array' (json_array_of (Some <$> xs)) = true /\
  json_array_size' (json_array_of (Some <$> xs)) = length xs /\
  forall i x, xs !! i = Some x -> json_array_get' (json_array_of (Some <$> xs)) i = Some x.
Proof.
  induction xs as [|x xs (Ha & Hs & Hg)] using rev_ind.
  - split; [exact array_is|]. split; [exact array_size_empty|done].
  - rewrite fmap_app. cbn [fmap list_fmap]. rewrite array_of_app. split_and!.
    + by apply array_append_is.
    + rewrite array_size_append, Hs, length_app by done. cbn. lia.
    + intros i y Hi. rewrite array_get_append, Hs by done. rewrite lookup_snoc in Hi.
      destruct (i =? length xs)%nat; [done|]. by apply Hg.
Qed.
End arrays.
