(* ===== verification/Stratum.v ===== *)
(** The state of a Stratum session and the handling of its messages:
    [stratum_state_t] of src/src/stratum.h and the handlers of src/src/stratum.c.

    What the handlers print is left out.  The clock readings they take are
    arguments.  The fields of the C structure are grouped in records: the pool's
    address, the block template, the share statistics. *)
From stdpp Require Import base tactics list option strings gmap.
From Stdlib Require Import ZArith Lia Ascii.
From S2P Require Import Prelude Words Fips Sha256d Float64 Hex Target Job Miner Json.

#[local] Open Scope Z_scope.

Definition STRATUM_PENDING_SHARES : nat := 64.
Definition STRATUM_MAX_MERKLE_BRANCHES : nat := 128.
Definition STRATUM_MAX_COINBASE_HEX : nat := Z.to_nat 16384.

(** [snprintf(dst, size, "%s", s)]: at most [size - 1] characters. *)
Definition snprintf_s (size : nat) (s : string) : string := of_chars (take (size - 1) (chars s)).

(** * Data *)

Record stratum_pending_share_t := PendingShare {
  ps_id : Z; ps_active : bool; ps_difficulty : double; ps_submitted_at : double;
}.
#[export] Instance pending_share_inhabited : Inhabited stratum_pending_share_t :=
  populate (PendingShare 0 false (f64_of_Z 0) (f64_of_Z 0)).

Record pool_info_t := PoolInfo {
  pool_url : string; pool_host : string; pool_port : string; user : string;
  started_at : double; connected_at : double; connect_count : Z;
}.

(** The merkle branches stored so far, [template_merkle_count] of them. *)
Record template_t := Template {
  template_job_id : string; template_prevhash : string;
  template_coinb1 : string; template_coinb2 : string;
  template_version : string; template_nbits : string; template_ntime : string;
  template_merkle : list string;
}.

Record share_stats_t := ShareStats {
  last_share_difficulty : double; best_share_difficulty : double;
  last_result_difficulty : double; last_result_elapsed : double; last_result_accepted : Z;
  submit_count : Z; accept_count : Z; reject_count : Z;
  pending_count : Z; pending : list stratum_pending_share_t;
}.

Section state.
Context `{O : OpenSSL} {D : Type}.

Record stratum_state_t := StratumState {
  st_pool : pool_info_t;
  extranonce1 : string;
  extranonce2_size : Z;
  extranonce2_counter : Z;
  difficulty : double;
  current_job_id : string;
  current_ntime : string;
  notify_count : Z;
  template_valid : bool;
  st_template : template_t;
  st_shares : share_stats_t;
  subscribed : bool;
  authorized : bool;
  st_miner : option (miner O D);
}.

(** Assignments to one field. *)
Definition set_extranonce1 (v : string) (s : stratum_state_t) : stratum_state_t :=
    StratumState (st_pool s) v (extranonce2_size s) (extranonce2_counter s) (difficulty s)
    (current_job_id s) (current_ntime s) (notify_count s) (template_valid s) (st_template s)
    (st_shares s) (subscribed s) (authorized s) (st_miner s).
Definition set_extranonce2_size (v : Z) (s : stratum_state_t) : stratum_state_t :=
    StratumState (st_pool s) (extranonce1 s) v (extranonce2_counter s) (difficulty s)
    (current_job_id s) (current_ntime s) (notify_count s) (template_valid s) (st_template s)
    (st_shares s) (subscribed s) (authorized s) (st_miner s).
Definition set_extranonce2_counter (v : Z) (s : stratum_state_t) : stratum_state_t :=
    StratumState (st_pool s) (extranonce1 s) (extranonce2_size s) v (difficulty s)
    (current_job_id s) (current_ntime s) (notify_count s) (template_valid s) (st_template s)
    (st_shares s) (subscribed s) (authorized s) (st_miner s).
Definition set_difficulty (v : double) (s : stratum_state_t) : stratum_state_t :=
    StratumState (st_pool s) (extranonce1 s) (extranonce2_size s) (extranonce2_counter s) v
    (current_job_id s) (current_ntime s) (notify_count s) (template_valid s) (st_template s)
    (st_shares s) (subscribed s) (authorized s) (st_miner s).
Definition set_current_job_id (v : string) (s : stratum_state_t) : stratum_state_t :=
    StratumState (st_pool s) (extranonce1 s) (extranonce2_size s) (extranonce2_counter s)
    (difficulty s) v (current_ntime s) (notify_count s) (template_valid s) (st_template s)
    (st_shares s) (subscribed s) (authorized s) (st_miner s).
Definition set_current_ntime (v : string) (s : stratum_state_t) : stratum_state_t :=
    StratumState (st_pool s) (extranonce1 s) (extranonce2_size s) (extranonce2_counter s)
    (difficulty s) (current_job_id s) v (notify_count s) (template_valid s) (st_template s)
    (st_shares s) (subscribed s) (authorized s) (st_miner s).
Definition set_notify_count (v : Z) (s : stratum_state_t) : stratum_state_t :=
    StratumState (st_pool s) (extranonce1 s) (extranonce2_size s) (extranonce2_counter s)
    (difficulty s) (current_job_id s) (current_ntime s) v (template_valid s) (st_template s)
    (st_shares s) (subscribed s) (authorized s) (st_miner s).
Definition set_template_valid (v : bool) (s : stratum_state_t) : stratum_state_t :=
    StratumState (st_pool s) (extranonce1 s) (extranonce2_size s) (extranonce2_counter s)
    (difficulty s) (current_job_id s) (current_ntime s) (notify_count s) v (st_template s)
    (st_shares s) (subscribed s) (authorized s) (st_miner s).
Definition set_st_template (v : template_t) (s : stratum_state_t) : stratum_state_t :=
    StratumState (st_pool s) (extranonce1 s) (extranonce2_size s) (extranonce2_counter s)
    (difficulty s) (current_job_id s) (current_ntime s) (notify_count s) (template_valid s)
    v (st_shares s) (subscribed s) (authorized s) (st_miner s).
Definition set_st_shares (v : share_stats_t) (s : stratum_state_t) : stratum_state_t :=
    StratumState (st_pool s) (extranonce1 s) (extranonce2_size s) (extranonce2_counter s)
    (difficulty s) (current_job_id s) (current_ntime s) (notify_count s) (template_valid s)
    (st_template s) v (subscribed s) (authorized s) (st_miner s).
Definition set_subscribed (v : bool) (s : stratum_state_t) : stratum_state_t :=
    StratumState (st_pool s) (extranonce1 s) (extranonce2_size s) (extranonce2_counter s)
    (difficulty s) (current_job_id s) (current_ntime s) (notify_count s) (template_valid s)
    (st_template s) (st_shares s) v (authorized s) (st_miner s).
Definition set_authorized (v : bool) (s : stratum_state_t) : stratum_state_t :=
    StratumState (st_pool s) (extranonce1 s) (extranonce2_size s) (extranonce2_counter s)
    (difficulty s) (current_job_id s) (current_ntime s) (notify_count s) (template_valid s)
    (st_template s) (st_shares s) (subscribed s) v (st_miner s).
Definition set_st_miner (v : option (miner O D)) (s : stratum_state_t) : stratum_state_t :=
    StratumState (st_pool s) (extranonce1 s) (extranonce2_size s) (extranonce2_counter s)
    (difficulty s) (current_job_id s) (current_ntime s) (notify_count s) (template_valid s)
    (st_template s) (st_shares s) (subscribed s) (authorized s) v.

Definition template0 : template_t := Template "" "" "" "" "" "" "" [].
Definition stats0 : share_stats_t :=
  ShareStats (f64_of_Z 0) (f64_of_Z 0) (f64_of_Z 0) (f64_of_Z 0) 0 0 0 0 0
    (replicate STRATUM_PENDING_SHARES inhabitant).

Definition stratum_state_init (now : double) : stratum_state_t :=
  {| st_pool := PoolInfo "" "" "" "" now (f64_of_Z 0) 0;
     extranonce1 := ""; extranonce2_size := 4; extranonce2_counter := 1;
     difficulty := f64_of_Z 1; current_job_id := ""; current_ntime := ""; notify_count := 0;
     template_valid := false; st_template := template0; st_shares := stats0;
     subscribed := false; authorized := false; st_miner := None |}.
End state.
Arguments stratum_state_t _ _ : clear implicits.

(** * Pending shares *)

(** The slot search of [register_pending_share]: a slot already active for this id,
    else the first free one. *)
Fixpoint find_slot (id : Z) (l : list stratum_pending_share_t) (i : nat) (slot : option nat) : option nat :=
  match l with
  | [] => slot
  | p :: l =>
      if ps_active p && (ps_id p =? id) then Some i
      else find_slot id l (S i)
             (if bool_decide (slot = None) && negb (ps_active p) then Some i else slot)
  end.

Definition register_pending_share (s : share_stats_t) (id : Z) (share : miner_share_t) (now : double)
  : share_stats_t :=
  let slot :=
    match find_slot id (pending s) 0 None with
    | Some slot => slot
    | None =>
        let slot := Z.rem id (Z.of_nat STRATUM_PENDING_SHARES) in
        Z.to_nat (if slot <? 0 then 0 else slot)
    end in
  let count := if negb (ps_active (pending s !!! slot)) then pending_count s + 1 else pending_count s in
  let d := share_difficulty share in
  ShareStats d
    (if f64_lt (best_share_difficulty s) d then d else best_share_difficulty s)
    (last_result_difficulty s) (last_result_elapsed s) (last_result_accepted s)
    (submit_count s) (accept_count s) (reject_count s)
    count (<[slot := PendingShare id true d now]> (pending s)).

(** The first active slot with this id. *)
Fixpoint find_active (id : Z) (l : list stratum_pending_share_t) (i : nat) : option nat :=
  match l with
  | [] => None
  | p :: l => if ps_active p && (ps_id p =? id) then Some i else find_active id l (S i)
  end.

(** The statistics, the latency and the difficulty of the share. *)
Definition complete_pending_share (s : share_stats_t) (id : Z) (accepted : bool) (now : double)
  : share_stats_t * double * double :=
  let '(diff, elapsed, count, ps) :=
    match find_active id (pending s) 0 with
    | Some i =>
        let p := pending s !!! i in
        (ps_difficulty p, f64_sub now (ps_submitted_at p),
         if 0 <? pending_count s then pending_count s - 1 else pending_count s,
         <[i := PendingShare (ps_id p) false (ps_difficulty p) (ps_submitted_at p)]> (pending s))
    | None => (f64_of_Z 0, f64_of_Z 0, pending_count s, pending s)
    end in
  (ShareStats (last_share_difficulty s) (best_share_difficulty s) diff elapsed
     (if accepted then 1 else -1) (submit_count s) (accept_count s) (reject_count s) count ps,
   elapsed, diff).

(** [++state->reject_count] and its siblings; [unsigned long] has 64 bits. *)
Definition count_submit (s : share_stats_t) : share_stats_t :=
  ShareStats (last_share_difficulty s) (best_share_difficulty s) (last_result_difficulty s)
    (last_result_elapsed s) (last_result_accepted s) (u64 (submit_count s + 1)) (accept_count s)
    (reject_count s) (pending_count s) (pending s).
Definition count_accept (s : share_stats_t) : share_stats_t :=
  ShareStats (last_share_difficulty s) (best_share_difficulty s) (last_result_difficulty s)
    (last_result_elapsed s) (last_result_accepted s) (submit_count s) (u64 (accept_count s + 1))
    (reject_count s) (pending_count s) (pending s).
Definition count_reject (s : share_stats_t) : share_stats_t :=
  ShareStats (last_share_difficulty s) (best_share_difficulty s) (last_result_difficulty s)
    (last_result_elapsed s) (last_result_accepted s) (submit_count s) (accept_count s)
    (u64 (reject_count s + 1)) (pending_count s) (pending s).

(** * Jobs *)

Section handlers.
Context `{J : Jansson} `{O : OpenSSL} {D : Type}.
#[local] Abbreviation state := (stratum_state_t O D).

Definition json_string_or_empty (value : option (json_t J)) : string :=
  default "" (json_string_value value).

(** Only the messages it prints depend on the reason. *)
Definition rebuild_miner_job (s : state) : state * Z :=
  match st_miner s with
  | None => (s, 0)
  | Some m =>
      if negb (template_valid s) || String.eqb (extranonce1 s) "" || (extranonce2_size s <=? 0) then (s, 0)
      else
        let value := extranonce2_counter s in
        let s := set_extranonce2_counter (u64 (value + 1)) s in
        let extranonce2 := default "" (miner_format_extranonce2 32 (extranonce2_size s) value) in
        if String.eqb extranonce2 "" then (s, -1)
        else
          let t := st_template s in
          match miner_build_job (template_job_id t) (template_prevhash t) (template_coinb1 t)
                  (template_coinb2 t) (template_merkle t) (template_version t) (template_nbits t)
                  (template_ntime t) (extranonce1 s) extranonce2 (difficulty s) with
          | None => (s, -1)
          | Some job => (set_st_miner (Some (miner_set_job m job)) s, 1)
          end
  end.

Definition handle_set_difficulty (s : state) (params : option (json_t J)) : state :=
  let value := if json_is_array params then json_array_get params 0 else None in
  if json_is_number value then
    let s := set_difficulty (json_number_value value) s in
    if template_valid s then fst (rebuild_miner_job s) else s
  else s.

Definition handle_set_extranonce (s : state) (params : option (json_t J)) : state :=
  let en1 := if json_is_array params then json_array_get params 0 else None in
  let en2_size := if json_is_array params then json_array_get params 1 else None in
  let s := if json_is_string en1
           then set_extranonce1 (snprintf_s 128 (json_string_or_empty en1)) s else s in
  let s := if json_is_integer en2_size
           then set_extranonce2_size (i32 (json_integer_value en2_size)) s else s in
  if template_valid s then fst (rebuild_miner_job s) else s.

(** The merkle branches of a notification, up to one that does not fit. *)
Fixpoint store_branches (branches : list (option (json_t J))) (stored : list string) : list string * bool :=
  match branches with
  | [] => (stored, true)
  | b :: branches =>
      match copy_checked 65 (json_string_or_empty b) with
      | None => (stored, false)
      | Some branch => store_branches branches (stored ++ [branch])
      end
  end.

(** The chain of [store_template_string] calls: the fields stored before the first
    one that does not fit, and whether all did. *)
Definition store_template (t : template_t) (job_id prevhash coinb1 coinb2 version nbits ntime : string)
  : template_t * bool :=
  let 'Template a b c d e f g ms := t in
  match copy_checked 128 job_id with None => (t, false) | Some a =>
  match copy_checked 65 prevhash with None => (Template a b c d e f g ms, false) | Some b =>
  match copy_checked STRATUM_MAX_COINBASE_HEX coinb1 with None => (Template a b c d e f g ms, false) | Some c =>
  match copy_checked STRATUM_MAX_COINBASE_HEX coinb2 with None => (Template a b c d e f g ms, false) | Some d =>
  match copy_checked 9 version with None => (Template a b c d e f g ms, false) | Some e =>
  match copy_checked 9 nbits with None => (Template a b c d e f g ms, false) | Some f =>
  match copy_checked 9 ntime with None => (Template a b c d e f g ms, false) | Some g =>
  (Template a b c d e f g ms, true)
  end end end end end end end.

Definition with_merkle (ms : list string) (t : template_t) : template_t :=
  Template (template_job_id t) (template_prevhash t) (template_coinb1 t) (template_coinb2 t)
    (template_version t) (template_nbits t) (template_ntime t) ms.

(** Steps of [handle_notify] before the job is rebuilt: the state with the template
    stored, and whether all of it was. *)
Definition store_notify (s : state) (params : option (json_t J)) : state * bool :=
  let job_id := json_string_or_empty (json_array_get params 0) in
  let prevhash := json_string_or_empty (json_array_get params 1) in
  let coinb1 := json_string_or_empty (json_array_get params 2) in
  let coinb2 := json_string_or_empty (json_array_get params 3) in
  let merkle_branch := json_array_get params 4 in
  let version := json_string_or_empty (json_array_get params 5) in
  let nbits := json_string_or_empty (json_array_get params 6) in
  let ntime := json_string_or_empty (json_array_get params 7) in
  let s := set_notify_count (u64 (notify_count s + 1)) s in
  let s := set_current_job_id (snprintf_s 128 job_id) s in
  let s := set_current_ntime (snprintf_s 16 ntime) s in
  let s := set_template_valid false s in
  let s := set_st_template (with_merkle [] (st_template s)) s in
  let '(t, ok) := store_template (st_template s) job_id prevhash coinb1 coinb2 version nbits ntime in
  let s := set_st_template t s in
  if negb ok then (s, false)
  else
    let count := if json_is_array merkle_branch
                 then Nat.min (json_array_size merkle_branch) STRATUM_MAX_MERKLE_BRANCHES else 0%nat in
    let '(ms, ok) := store_branches (json_array_get merkle_branch <$> seq 0 count) [] in
    (set_st_template (with_merkle ms (st_template s)) s, ok).

Definition handle_notify (s : state) (params : option (json_t J)) : state :=
  if negb (json_is_array params) || (json_array_size params <? 9)%nat then s
  else
    let '(s, ok) := store_notify s params in
    if negb ok then s
    else
      let s := set_template_valid true s in
      fst (rebuild_miner_job s).

Definition handle_method (s : state) (root : option (json_t J)) : state :=
  let params := json_object_get root "params" in
  match json_string_value (json_object_get root "method") with
  | None => s
  | Some method =>
      if String.eqb method "mining.set_difficulty" then handle_set_difficulty s params
      else if String.eqb method "mining.notify" then handle_notify s params
      else if String.eqb method "mining.set_extranonce" then handle_set_extranonce s params
      else s
  end.

Definition handle_response (s : state) (root : option (json_t J)) (now : double) : state :=
  let id_value := json_object_get root "id" in
  let result := json_object_get root "result" in
  let error := json_object_get root "error" in
  let id := if json_is_integer id_value then json_integer_value id_value else -1 in
  if bool_decide (is_Some error) && negb (json_is_null error) then
    if 4 <=? id then
      let stats := count_reject (st_shares s) in
      let '(stats, latency, diff) := complete_pending_share stats (i32 id) false now in
      set_st_shares stats s
    else s
  else if id =? 1 then
    if json_is_array result && (3 <=? json_array_size result)%nat then
      let en1 := json_string_value (json_array_get result 1) in
      let en2_size := json_array_get result 2 in
      let s := match en1 with Some en1 => set_extranonce1 (snprintf_s 128 en1) s | None => s end in
      let s := if json_is_integer en2_size
               then set_extranonce2_size (i32 (json_integer_value en2_size)) s else s in
      set_subscribed true s
    else s
  else if id =? 2 then set_authorized (json_is_true result) s
  else if 4 <=? id then
    let '(stats, latency, diff) :=
      complete_pending_share (st_shares s) (i32 id) (json_is_true result) now in
    set_st_shares (if json_is_true result then count_accept stats else count_reject stats) s
  else s.

Definition stratum_process_line (s : state) (line : string) (now : double) : state * Z :=
  match json_loads line with
  | None => (s, -1)
  | Some root =>
      if bool_decide (is_Some (json_object_get (Some root) "method"))
      then (handle_method s (Some root), 0)
      else (handle_response s (Some root) now, 0)
  end.

Definition maybe_roll_extranonce (s : state) : state :=
  match st_miner s with
  | None => s
  | Some m =>
      let '(m, exhausted) := miner_take_nonce_exhausted m in
      let s := set_st_miner (Some m) s in
      if exhausted then fst (rebuild_miner_job s) else s
  end.
End handlers.

(** * The pending table as a map from ids *)

Definition pmatch (id : Z) (p : stratum_pending_share_t) : bool := ps_active p && (ps_id p =? id).

(** No id is active in two slots. *)
Definition unique_ids (l : list stratum_pending_share_t) : Prop :=
  forall i j p q, l !! i = Some p -> l !! j = Some q ->
    ps_active p = true -> ps_active q = true -> ps_id p = ps_id q -> i = j.
Fixpoint count_active (l : list stratum_pending_share_t) : Z :=
  match l with [] => 0 | p :: l => (if ps_active p then 1 else 0) + count_active l end.

Record pending_ok (s : share_stats_t) : Prop := {
  po_length : length (pending s) = STRATUM_PENDING_SHARES;
  po_unique : unique_ids (pending s);
  po_count : pending_count s = count_active (pending s);
}.

Definition lookup_slot (l : list stratum_pending_share_t) (id : Z) : option (double * double) :=
  (fun i => (ps_difficulty (l !!! i), ps_submitted_at (l !!! i))) <$> find_active id l 0.
(** Difficulty and time of submission of a pending share. *)
Definition lookup_pending (s : share_stats_t) (id : Z) : option (double * double) :=
  lookup_slot (pending s) id.

Lemma find_active_Some id l i k :
  find_active id l i = Some k -> exists j p, k = (i + j)%nat /\ l !! j = Some p /\ pmatch id p = true.
Proof.
  revert i. induction l as [|p l IH]; intros i; cbn [find_active]; [done|].
  fold (pmatch id p). destruct (pmatch id p) eqn:E.
  - intros [= <-]. exists 0%nat, p. split_and!; [lia|done..].
  - intros (j & q & -> & Hj & Hq)%IH. exists (S j), q. split_and!; [lia|done..].
Qed.

Lemma find_active_None id l i :
  find_active id l i = None -> forall j p, l !! j = Some p -> pmatch id p = false.
Proof.
  revert i. induction l as [|p l IH]; intros i; cbn [find_active]; [done|].
  fold (pmatch id p). destruct (pmatch id p) eqn:E; [done|].
  intros H [|j] q; cbn; [by intros [= <-]|]. by apply (IH (S i)).
Qed.

Lemma pmatch_unique l i j p q id :
  unique_ids l -> l !! i = Some p -> l !! j = Some q -> pmatch id p = true -> pmatch id q = true -> i = j.
Proof.
  unfold pmatch. rewrite !andb_true_iff, !Z.eqb_eq. intros Hu Hi Hj [Hp <-] [Hq Heq]. by apply (Hu i j p q).
Qed.

Lemma lookup_slot_iff l id v :
  unique_ids l ->
  lookup_slot l id = Some v <->
  exists j p, l !! j = Some p /\ pmatch id p = true /\ v = (ps_difficulty p, ps_submitted_at p).
Proof.
  intros Hu. unfold lookup_slot. destruct (find_active id l 0) as [k|] eqn:E; cbn.
  - apply find_active_Some in E as (j & p & -> & Hj & Hp). cbn [Nat.add].
    rewrite (list_lookup_total_correct _ _ _ Hj). split.
    + intros [= <-]. by exists j, p.
    + intros (j' & p' & Hj' & Hp' & ->).
      assert (j = j') as <- by by apply (pmatch_unique l j j' p p' id). congruence.
  - split; [done|]. intros (j & p & Hj & Hp & _).
    rewrite (find_active_None id l 0 E j p Hj) in Hp. done.
Qed.

(** Writing a slot changes the lookups of its old and its new id only. *)
Lemma lookup_slot_insert l slot old q k :
  unique_ids l -> l !! slot = Some old -> unique_ids (<[slot := q]> l) ->
  lookup_slot (<[slot := q]> l) k =
    if pmatch k q then Some (ps_difficulty q, ps_submitted_at q)
    else if pmatch k old then None else lookup_slot l k.
Proof.
  intros Hu Hold Hu'. assert (Hlt : (slot < length l)%nat) by by eapply lookup_lt_Some.
  apply option_eq. intros v. rewrite (lookup_slot_iff _ _ _ Hu'). split.
  - intros (j & p & Hj & Hp & ->). apply list_lookup_insert_Some in Hj as [(-> & -> & _)|[Hne Hj]].
    + by rewrite Hp.
    + destruct (pmatch k q) eqn:Hq.
      { assert (Hs : <[slot:=q]> l !! slot = Some q) by by apply list_lookup_insert_eq.
        assert (Hj' : <[slot:=q]> l !! j = Some p) by by rewrite list_lookup_insert_ne.
        destruct Hne. by apply (pmatch_unique _ slot j q p k Hu' Hs Hj'). }
      destruct (pmatch k old) eqn:Ho; [destruct Hne; by apply (pmatch_unique l slot j old p k)|].
      apply lookup_slot_iff; [done|]. by exists j, p.
  - destruct (pmatch k q) eqn:Hq.
    { intros [= <-]. exists slot, q. split_and!; try done. by apply list_lookup_insert_eq. }
    destruct (pmatch k old) eqn:Ho; [done|].
    intros (j & p & Hj & Hp & ->)%lookup_slot_iff; [|done]. exists j, p. split_and!; try done.
    rewrite list_lookup_insert_ne; [done|]. intros ->. congruence.
Qed.

Lemma count_active_insert l i p q :
  l !! i = Some p ->
  count_active (<[i := q]> l) =
    count_active l - (if ps_active p then 1 else 0) + (if ps_active q then 1 else 0).
Proof.
  revert i. induction l as [|x l IH]; intros [|i]; try done.
  - intros [= ->]. cbn. lia.
  - intros H. specialize (IH i H). cbn [count_active].
    change (<[S i:=q]> (x :: l)) with (x :: <[i:=q]> l). cbn [count_active]. lia.
Qed.

Lemma count_active_bound l : 0 <= count_active l <= Z.of_nat (length l).
Proof. induction l as [|p l IH]; cbn [count_active length]; [lia|]. destruct (ps_active p); lia. Qed.

Lemma count_active_full l :
  count_active l = Z.of_nat (length l) <-> forall j p, l !! j = Some p -> ps_active p = true.
Proof.
  induction l as [|p l IH]; cbn [count_active length]; [done|].
  pose proof (count_active_bound l) as Hb. split.
  - intros Hc. destruct (ps_active p) eqn:E; [|lia].
    intros [|j] q; [by intros [= <-]|]. apply (proj1 IH). lia.
  - intros Hall. rewrite (Hall 0%nat p eq_refl), (proj2 IH); [lia|]. intros j q Hj. by apply (Hall (S j)).
Qed.

(** The slot chosen: the one already active for the id, else a free one, else none. *)
Lemma find_slot_spec id l i slot :
  match find_slot id l i slot with
  | Some k =>
      find_active id l i = Some k \/
      (find_active id l i = None /\
       (slot = Some k \/ (slot = None /\ exists j p, k = (i + j)%nat /\ l !! j = Some p /\ ps_active p = false)))
  | None => find_active id l i = None /\ slot = None /\ forall j p, l !! j = Some p -> ps_active p = true
  end.
Proof.
  revert i slot. induction l as [|p l IH]; intros i slot; cbn [find_slot find_active].
  { destruct slot; [right; by auto|done]. }
  fold (pmatch id p). destruct (pmatch id p) eqn:E; [by left|].
  specialize (IH (S i) (if bool_decide (slot = None) && negb (ps_active p) then Some i else slot)).
  destruct (find_slot id l (S i) _) as [k|].
  - destruct IH as [IH|[Hn IH]]; [by left|]. right. split; [done|].
    destruct slot as [k'|]; cbn [bool_decide decide_rel andb negb] in IH; [by naive_solver|].
    destruct (ps_active p) eqn:Ep; cbn in IH.
    + destruct IH as [?|(_ & j & q & -> & Hj & Hq)]; [done|]. right. split; [done|].
      exists (S j), q. split_and!; [lia|done..].
    + destruct IH as [[= <-]|[? _]]; [|done]. right. split; [done|]. exists 0%nat, p. split_and!; [lia|done..].
  - destruct IH as (Hn & Hs & Hall). split; [done|].
    destruct slot as [k'|]; cbn in Hs; [done|]. split; [done|].
    destruct (ps_active p) eqn:Ep; [|done]. intros [|j] q; [by intros [= <-]|]. by apply Hall.
Qed.

Lemma unique_insert l slot q :
  unique_ids l ->
  (ps_active q = true -> forall j p, l !! j = Some p -> j <> slot -> pmatch (ps_id q) p = false) ->
  unique_ids (<[slot := q]> l).
Proof.
  intros Hu Hq i j p p' Hi Hj Hp Hp' Heq.
  apply list_lookup_insert_Some in Hi, Hj.
  destruct Hi as [(<- & <- & _)|[Hi' Hi]], Hj as [(<- & <- & _)|[Hj' Hj]]; try done.
  - specialize (Hq Hp j p' Hj ltac:(done)). unfold pmatch in Hq. rewrite Hp', Heq, Z.eqb_refl in Hq. done.
  - specialize (Hq Hp' i p Hi ltac:(done)). unfold pmatch in Hq. rewrite Hp, Heq, Z.eqb_refl in Hq. done.
  - by apply (Hu i j p p').
Qed.

(** Registering a share: the slot it takes and what it writes. *)
Lemma register_slot s id share now :
  pending_ok s ->
  exists slot old, pending s !! slot = Some old /\
    (ps_active old = true -> pmatch id old = true \/
       (lookup_pending s id = None /\ pending_count s = Z.of_nat STRATUM_PENDING_SHARES)) /\
    (forall j p, pending s !! j = Some p -> j <> slot -> pmatch id p = false) /\
    pending (register_pending_share s id share now) =
      <[slot := PendingShare id true (share_difficulty share) now]> (pending s) /\
    pending_count (register_pending_share s id share now) =
      pending_count s + (if ps_active old then 0 else 1).
Proof.
  intros [Hl Hu Hc]. pose proof (find_slot_spec id (pending s) 0 None) as Hs.
  unfold register_pending_share. cbv zeta. cbn [pending pending_count].
  set (slot := match find_slot id (pending s) 0 None with Some slot => slot | None => _ end).
  enough (H : exists old, pending s !! slot = Some old /\
    (ps_active old = true -> pmatch id old = true \/
       (lookup_pending s id = None /\ pending_count s = Z.of_nat STRATUM_PENDING_SHARES)) /\
    (forall j p, pending s !! j = Some p -> j <> slot -> pmatch id p = false)).
  { destruct H as (old & Hold & H1 & H2). exists slot, old. split_and!; try done.
    rewrite (list_lookup_total_correct _ _ _ Hold). destruct (ps_active old); cbn; lia. }
  subst slot. destruct (find_slot id (pending s) 0 None) as [k|].
  - destruct Hs as [Hs|[Hn [?|(_ & j & p & -> & Hj & Hp)]]]; [|done|].
    + apply find_active_Some in Hs as (j & p & -> & Hj & Hp). exists p. split; [done|]. split; [by left|].
      intros j' p' Hj' Hne. destruct (pmatch id p') eqn:E; [|done].
      destruct Hne. by apply (pmatch_unique (pending s) j' (0 + j) p' p id).
    + exists p. split; [done|]. split; [congruence|].
      intros j' p' Hj' _. by apply (find_active_None id (pending s) 0 Hn j').
  - destruct Hs as (Hn & _ & Hall).
    set (slot := Z.to_nat _).
    assert (Hlt : (slot < length (pending s))%nat).
    { rewrite Hl. subst slot. cbv zeta. pose proof (Z.rem_bound_abs id 64 ltac:(lia)).
      change (Z.of_nat STRATUM_PENDING_SHARES) with 64.
      unfold STRATUM_PENDING_SHARES. destruct (Z.ltb_spec (Z.rem id 64) 0); lia. }
    destruct (lookup_lt_is_Some_2 _ _ Hlt) as [old Hold]. exists old. split; [done|]. split.
    + intros _. right. unfold lookup_pending, lookup_slot. rewrite Hn. split; [done|].
      rewrite Hc, <- Hl. by apply count_active_full.
    + intros j p Hj _. by apply (find_active_None id (pending s) 0 Hn j).
Qed.

(** What a lookup gives after a registration. *)
Lemma pending_register s id share now :
  pending_ok s ->
  let s' := register_pending_share s id share now in
  let added k := if k =? id then Some (share_difficulty share, now) else lookup_pending s k in
  pending_ok s' /\
  (pending_count s < 64 \/ lookup_pending s id <> None -> forall k, lookup_pending s' k = added k) /\
  (pending_count s = 64 -> lookup_pending s id = None ->
     exists victim, lookup_pending s victim <> None /\
       forall k, lookup_pending s' k = if k =? victim then None else added k).
Proof.
  intros Hok s' added.
  destruct (register_slot s id share now Hok) as (slot & old & Hold & Hact & Hother & Hps & Hcnt).
  fold s' in Hps, Hcnt. clearbody s'. pose proof Hok as [Hl Hu Hc].
  set (q := PendingShare id true (share_difficulty share) now) in *.
  assert (Hu' : unique_ids (<[slot := q]> (pending s))) by (apply unique_insert; [done|intros _; exact Hother]).
  assert (Hlook : forall k, lookup_pending s' k =
    if k =? id then Some (share_difficulty share, now)
    else if pmatch k old then None else lookup_pending s k).
  { intros k. unfold lookup_pending. rewrite Hps.
    rewrite (lookup_slot_insert _ slot old q k Hu Hold Hu'). unfold pmatch at 1. cbn [q ps_active ps_id andb].
    by rewrite (Z.eqb_sym id k). }
  assert (Hfree : forall k, lookup_pending s id <> None \/ ps_active old = false -> k <> id -> pmatch k old = false).
  { intros k Hf Hne. destruct (pmatch k old) eqn:Ep; [|done]. exfalso.
    pose proof Ep as Ep'. unfold pmatch in Ep'. apply andb_true_iff in Ep' as [Ha Hk]. apply Z.eqb_eq in Hk.
    destruct (Hact Ha) as [Hm|[Hm _]]; [|by destruct Hf; congruence].
    unfold pmatch in Hm. apply andb_true_iff in Hm as [_ Hm]. apply Z.eqb_eq in Hm. congruence. }
  split; [|split].
  - split; rewrite ?Hps, ?Hcnt; [by rewrite length_insert|done|].
    rewrite (count_active_insert _ _ _ _ Hold). cbn [q ps_active]. rewrite Hc. destruct (ps_active old); lia.
  - intros Hcase k. rewrite Hlook. unfold added. destruct (Z.eqb_spec k id) as [|Hne]; [done|].
    rewrite Hfree; try done. destruct Hcase as [Hlt|?]; [|by left].
    destruct (ps_active old) eqn:Ha; [|by right]. left. intros Hn.
    destruct (Hact eq_refl) as [Hm|[_ ?]]; [|unfold STRATUM_PENDING_SHARES in *; lia].
    assert (Hv : lookup_pending s id = Some (ps_difficulty old, ps_submitted_at old))
      by (apply lookup_slot_iff; [done|]; by exists slot, old).
    congruence.
  - intros Hfull Hnone. exists (ps_id old).
    assert (Ha : ps_active old = true).
    { apply (proj1 (count_active_full (pending s)) ltac:(rewrite <- Hc, Hl; exact Hfull) slot), Hold. }
    assert (Hmo : pmatch (ps_id old) old = true) by (unfold pmatch; by rewrite Ha, Z.eqb_refl).
    assert (Hv : lookup_pending s (ps_id old) = Some (ps_difficulty old, ps_submitted_at old))
      by (apply lookup_slot_iff; [done|]; by exists slot, old).
    split; [congruence|]. intros k. rewrite Hlook. unfold added, pmatch. rewrite Ha, (Z.eqb_sym (ps_id old)).
    cbn [andb]. destruct (Z.eqb_spec k id) as [->|]; [|done].
    destruct (Z.eqb_spec id (ps_id old)) as [->|]; [congruence|done].
Qed.

(** What a lookup gives after a completion. *)
Lemma pending_complete s id accepted now :
  pending_ok s ->
  let '(s', elapsed, diff) := complete_pending_share s id accepted now in
  pending_ok s' /\
  (forall k, lookup_pending s' k = if k =? id then None else lookup_pending s k) /\
  (elapsed, diff) =
    match lookup_pending s id with
    | Some (d, t) => (f64_sub now t, d)
    | None => (f64_of_Z 0, f64_of_Z 0)
    end.
Proof.
  intros Hok. pose proof Hok as [Hl Hu Hc]. unfold complete_pending_share.
  destruct (find_active id (pending s) 0) as [i|] eqn:E; cbn [fst snd].
  - unfold lookup_pending at 3, lookup_slot at 1. rewrite E. cbn [fmap option_fmap option_map].
    apply find_active_Some in E as (j & p & -> & Hj & Hp). cbn [Nat.add].
    rewrite (list_lookup_total_correct _ _ _ Hj).
    set (q := PendingShare (ps_id p) false (ps_difficulty p) (ps_submitted_at p)).
    assert (Hu' : unique_ids (<[j := q]> (pending s))) by by apply unique_insert.
    pose proof Hp as Hp'. unfold pmatch in Hp'. apply andb_true_iff in Hp' as [Ha Hid]. apply Z.eqb_eq in Hid.
    assert (Hpos : 0 < pending_count s).
    { rewrite Hc. pose proof (count_active_insert (pending s) j p q Hj) as H. rewrite Ha in H. cbn [q ps_active] in H.
      pose proof (count_active_bound (<[j:=q]> (pending s))). lia. }
    split; [|split; [|done]].
    + split; cbn [pending pending_count]; [by rewrite length_insert|done|].
      rewrite (count_active_insert _ _ _ _ Hj), Ha. cbn [q ps_active].
      rewrite (proj2 (Z.ltb_lt _ _)) by done. lia.
    + intros k. unfold lookup_pending. cbn [pending].
      rewrite (lookup_slot_insert _ j p q k Hu Hj Hu'). unfold pmatch. cbn [q ps_active andb].
      rewrite Ha, Hid. cbn [andb]. by rewrite (Z.eqb_sym id k).
  - assert (Hn : lookup_pending s id = None) by (unfold lookup_pending, lookup_slot; by rewrite E).
    rewrite Hn. split; [by split|]. split; [|done].
    intros k. change (lookup_pending _ k) with (lookup_pending s k) at 1.
    destruct (Z.eqb_spec k id) as [->|]; done.
Qed.

(** * Installing jobs *)

Section jobs.
Context `{J : Jansson} `{O : OpenSSL} {D : Type}.
Implicit Types s : stratum_state_t O D.

(** A well-formed mining.notify: nine parameters whose strings fit their fields. *)
Record notify_fields (params : option (json_t J)) (t : template_t) : Prop := {
  nf_array : json_is_array params = true;
  nf_size : (9 <= json_array_size params)%nat;
  nf_job_id : json_string_or_empty (json_array_get params 0) = template_job_id t;
  nf_prevhash : json_string_or_empty (json_array_get params 1) = template_prevhash t;
  nf_coinb1 : json_string_or_empty (json_array_get params 2) = template_coinb1 t;
  nf_coinb2 : json_string_or_empty (json_array_get params 3) = template_coinb2 t;
  nf_branches : json_is_array (json_array_get params 4) = true /\
    (json_array_size (json_array_get params 4) <= STRATUM_MAX_MERKLE_BRANCHES)%nat /\
    template_merkle t = (fun i => json_string_or_empty (json_array_get (json_array_get params 4) i)) <$>
      seq 0 (json_array_size (json_array_get params 4));
  nf_version : json_string_or_empty (json_array_get params 5) = template_version t;
  nf_nbits : json_string_or_empty (json_array_get params 6) = template_nbits t;
  nf_ntime : json_string_or_empty (json_array_get params 7) = template_ntime t;
  nf_fit : (strlen (template_job_id t) < 128)%nat /\ (strlen (template_prevhash t) < 65)%nat /\
    (strlen (template_coinb1 t) < STRATUM_MAX_COINBASE_HEX)%nat /\
    (strlen (template_coinb2 t) < STRATUM_MAX_COINBASE_HEX)%nat /\
    (strlen (template_version t) < 9)%nat /\ (strlen (template_nbits t) < 9)%nat /\
    (strlen (template_ntime t) < 9)%nat /\
    Forall (fun b => (strlen b < 65)%nat) (template_merkle t);
}.

Lemma copy_checked_fits n x : (strlen x < n)%nat -> copy_checked n x = Some x.
Proof. intros H. by apply copy_checked_Some. Qed.

Lemma store_template_fits t0 t :
  (strlen (template_job_id t) < 128)%nat -> (strlen (template_prevhash t) < 65)%nat ->
  (strlen (template_coinb1 t) < STRATUM_MAX_COINBASE_HEX)%nat ->
  (strlen (template_coinb2 t) < STRATUM_MAX_COINBASE_HEX)%nat ->
  (strlen (template_version t) < 9)%nat -> (strlen (template_nbits t) < 9)%nat ->
  (strlen (template_ntime t) < 9)%nat ->
  store_template t0 (template_job_id t) (template_prevhash t) (template_coinb1 t) (template_coinb2 t)
    (template_version t) (template_nbits t) (template_ntime t) = (with_merkle (template_merkle t0) t, true).
Proof. intros. destruct t0. unfold store_template. by rewrite !copy_checked_fits by done. Qed.

Lemma store_branches_fit (f : nat -> option (json_t J)) l stored :
  Forall (fun i => (strlen (json_string_or_empty (f i)) < 65)%nat) l ->
  store_branches (f <$> l) stored = (stored ++ ((fun i => json_string_or_empty (f i)) <$> l), true).
Proof.
  revert stored. induction l as [|i l IH]; intros stored Hf; cbn [fmap list_fmap store_branches].
  - by rewrite app_nil_r.
  - apply Forall_cons in Hf as [Hi Hf]. rewrite copy_checked_fits by done. by rewrite IH, <- app_assoc.
Qed.

(** The job a state would build with a given extranonce2. *)
Definition job_of s (extranonce2 : string) : option miner_job_t :=
  let t := st_template s in
  miner_build_job (template_job_id t) (template_prevhash t) (template_coinb1 t) (template_coinb2 t)
    (template_merkle t) (template_version t) (template_nbits t) (template_ntime t) (extranonce1 s)
    extranonce2 (difficulty s).

(** The extranonce2 the next job gets, while the counter fits its width. *)
Definition next_extranonce2 s : string :=
  hex_of_bytes (be (Z.to_nat (extranonce2_size s)) (extranonce2_counter s)).
Definition counter_fits s : Prop :=
  0 < extranonce2_size s <= 15 /\ 0 <= extranonce2_counter s < 2 ^ 64 /\
  extranonce2_counter s < 256 ^ extranonce2_size s.

Lemma next_extranonce2_nonempty s : counter_fits s -> String.eqb (next_extranonce2 s) "" = false.
Proof.
  intros [Hs _]. apply String.eqb_neq. unfold next_extranonce2. intros H.
  assert (Hl : length (chars (hex_of_bytes (be (Z.to_nat (extranonce2_size s)) (extranonce2_counter s)))) = 0%nat)
    by by rewrite H.
  rewrite chars_hex_of_bytes, length_hex_bytes, length_be in Hl. lia.
Qed.

(** [rebuild_miner_job] with a valid template. *)
Lemma rebuild_valid s m :
  st_miner s = Some m -> template_valid s = true -> extranonce1 s <> "" -> counter_fits s ->
  rebuild_miner_job s =
    let s' := set_extranonce2_counter (u64 (extranonce2_counter s + 1)) s in
    match job_of s (next_extranonce2 s) with
    | Some j => (set_st_miner (Some (miner_set_job m j)) s', 1)
    | None => (s', -1)
    end.
Proof.
  intros Hm Hv He Hc. pose proof Hc as (Hs & Hc1 & Hc2). unfold rebuild_miner_job. rewrite Hm, Hv.
  rewrite (proj2 (String.eqb_neq _ _) He), (proj2 (Z.leb_gt _ _)) by lia. cbn [negb orb]. cbv zeta.
  change (extranonce2_size (set_extranonce2_counter _ s)) with (extranonce2_size s).
  rewrite <- (Z2Nat.id (extranonce2_size s)) by lia.
  rewrite format_extranonce2_fits by (rewrite ?Z2Nat.id by lia; lia).
  cbn [from_option default id]. fold (next_extranonce2 s). rewrite next_extranonce2_nonempty by done. done.
Qed.

Lemma rebuild_one s s' :
  rebuild_miner_job s = (s', 1) ->
  exists m, st_miner s = Some m /\ template_valid s = true /\ extranonce1 s <> "".
Proof.
  unfold rebuild_miner_job. destruct (st_miner s) as [m|]; [|done]. intros H. exists m. split; [done|].
  destruct (template_valid s), (String.eqb_spec (extranonce1 s) ""); by cbn [negb orb] in H.
Qed.

(** A successful rebuild: the job that was installed and the counter after it. *)
Lemma rebuild_installed `{!OpenSSLLaws O} s s' m' :
  rebuild_miner_job s = (s', 1) -> counter_fits s -> st_miner s' = Some m' ->
  job_extranonce2 (public_job (job m')) = next_extranonce2 s /\
  extranonce2_counter s' = u64 (extranonce2_counter s + 1).
Proof.
  intros H Hc Hm'. destruct (rebuild_one s s' H) as (m & Hm & Hv & He).
  rewrite (rebuild_valid s m Hm Hv He Hc) in H. cbv zeta in H.
  destruct (job_of s (next_extranonce2 s)) as [j|] eqn:Ej; [|done].
  apply (f_equal fst) in H. cbn [fst] in H. subst s'.
  cbn [st_miner set_st_miner] in Hm'. apply (inj Some) in Hm' as <-. split; [|done].
  apply build_job_sound in Ej as (c & bs & v & t & b & prev & Hj).
  by destruct (js_ids _ _ _ _ _ _ _ _ _ _ _ _ _ _ _ _ _ _ Hj) as (_ & _ & Hen2 & _).
Qed.

Lemma rebuild_counter s :
  extranonce2_counter (fst (rebuild_miner_job s)) = extranonce2_counter s \/
  extranonce2_counter (fst (rebuild_miner_job s)) = u64 (extranonce2_counter s + 1).
Proof.
  unfold rebuild_miner_job. destruct (st_miner s) as [m|]; [|by left].
  destruct (_ || _ || _); [by left|]. cbv zeta.
  destruct (String.eqb _ ""); [by right|]. case_match; by right.
Qed.

(** What may happen to a session between two jobs: messages, the rolling of an
    exhausted job, and any change to the miner or to the statistics by the workers
    and the other operations.  Fewer than 2^64 jobs are built. *)
Inductive session_step s : stratum_state_t O D -> Prop :=
  | se_line line now :
      extranonce2_counter s + 1 < 2 ^ 64 -> session_step s (fst (stratum_process_line s line now))
  | se_roll : extranonce2_counter s + 1 < 2 ^ 64 -> session_step s (maybe_roll_extranonce s)
  | se_miner m : session_step s (set_st_miner m s)
  | se_shares st : session_step s (set_st_shares st s).

Lemma response_counter s root now :
  extranonce2_counter (handle_response s root now) = extranonce2_counter s.
Proof. unfold handle_response. cbv zeta. by repeat case_match. Qed.

(** What storing a template leaves alone. *)
Lemma store_notify_keeps s params :
  let s' := fst (store_notify s params) in
  st_miner s' = st_miner s /\ extranonce1 s' = extranonce1 s /\
  extranonce2_size s' = extranonce2_size s /\ extranonce2_counter s' = extranonce2_counter s /\
  difficulty s' = difficulty s /\ subscribed s' = subscribed s /\ authorized s' = authorized s.
Proof.
  unfold store_notify. cbv zeta. destruct (store_template _ _ _ _ _ _ _ _) as [t ok].
  destruct (negb ok); [by split_and!|]. destruct (store_branches _ _) as [ms ok']. by split_and!.
Qed.

Lemma store_notify_fields s params t :
  notify_fields params t ->
  snd (store_notify s params) = true /\ st_template (fst (store_notify s params)) = t.
Proof.
  intros [Ha Hn H0 H1 H2 H3 (Hb & Hbn & Hbs) H5 H6 H7 (F0 & F1 & F2 & F3 & F5 & F6 & F7 & F4)].
  unfold store_notify. rewrite H0, H1, H2, H3, H5, H6, H7. cbv zeta.
  rewrite store_template_fits by done. cbn [negb]. rewrite Hb, Nat.min_l by done.
  rewrite store_branches_fit by (rewrite Hbs in F4; by apply Forall_fmap in F4).
  cbn [app fst snd]. rewrite <- Hbs. by destruct t.
Qed.

Ltac by_rebuild :=
  match goal with
  | |- context [rebuild_miner_job ?x] => destruct (rebuild_counter x) as [->| ->]; [by left|by right]
  end.

Lemma method_counter s root :
  extranonce2_counter (handle_method s root) = extranonce2_counter s \/
  extranonce2_counter (handle_method s root) = u64 (extranonce2_counter s + 1).
Proof.
  unfold handle_method. cbv zeta. case_match; [|by left].
  case_match; [|case_match; [|case_match; [|by left]]].
  - unfold handle_set_difficulty. cbv zeta. destruct (json_is_number _); [|by left].
    destruct (template_valid _); [by_rebuild|by left].
  - unfold handle_notify. destruct (_ || _); [by left|].
    pose proof (store_notify_keeps s (json_object_get root "params")) as (_ & _ & _ & Hc & _).
    destruct (store_notify s (json_object_get root "params")) as [s1 ok]. cbn [fst] in Hc.
    rewrite <- Hc. destruct (negb ok); [by left|]. cbv zeta.
    destruct (rebuild_counter (set_template_valid true s1)) as [->| ->]; [by left|by right].
  - unfold handle_set_extranonce. cbv zeta.
    set (s1 := if json_is_string _ then _ else s). set (s2 := if json_is_integer _ then _ else s1).
    assert (Hs2 : extranonce2_counter s2 = extranonce2_counter s) by (subst s2 s1; by repeat case_match).
    clearbody s2. rewrite <- Hs2. destruct (template_valid s2); [by_rebuild|by left].
Qed.

Lemma session_step_counter s s' :
  0 <= extranonce2_counter s -> session_step s s' -> extranonce2_counter s <= extranonce2_counter s'.
Proof.
  intros H0 [line now Hlt|Hlt|m|st]; [..|done|done].
  - unfold stratum_process_line. case_match; [|done]. case_match; cbn [fst].
    + destruct (method_counter s (Some j)) as [->| ->]; [done|]. rewrite u64_small by (unfold is_u64; lia). lia.
    + by rewrite response_counter.
  - unfold maybe_roll_extranonce. destruct (st_miner s) as [m|]; [|done].
    destruct (miner_take_nonce_exhausted m) as [m' e]. cbv zeta. destruct e; [|done].
    destruct (rebuild_counter (set_st_miner (Some m') s)) as [->| ->]; cbn [extranonce2_counter set_st_miner];
      [done|]. rewrite u64_small by (unfold is_u64; lia). lia.
Qed.

Lemma be_hex_inj n a b :
  0 <= a < 256 ^ Z.of_nat n -> 0 <= b < 256 ^ Z.of_nat n ->
  hex_of_bytes (be n a) = hex_of_bytes (be n b) -> a = b.
Proof.
  intros Ha Hb H. pose proof (hex_roundtrip (be n a) (be_bytes n a)) as Hra.
  rewrite H, length_be in Hra. rewrite <- (length_be n b) in Hra at 2.
  rewrite (hex_roundtrip (be n b) (be_bytes n b)) in Hra. apply (inj Some) in Hra.
  apply (f_equal of_be) in Hra. rewrite !of_be_be, !Z.mod_small in Hra by done. done.
Qed.
End jobs.

(** * Properties of the pending table *)

(** The table of pending shares is a map from request ids to difficulty and
    time of submission.  Completing a share removes its id and reports its
    difficulty and latency, zeros when it is not there.  Registering a share adds
    it; only when 64 others are pending does it replace one of them.  Both keep the
    table consistent, with [pending_count] the number of its entries. *)
Theorem pending_is_map (s : share_stats_t) (id : Z) share (now : double) accepted :
  pending_ok s ->
  (let s' := register_pending_share s id share now in
   let added k := if k =? id then Some (share_difficulty share, now) else lookup_pending s k in
   pending_ok s' /\
   (pending_count s < 64 \/ lookup_pending s id <> None -> forall k, lookup_pending s' k = added k) /\
   (pending_count s = 64 -> lookup_pending s id = None ->
      exists victim, lookup_pending s victim <> None /\
        forall k, lookup_pending s' k = if k =? victim then None else added k)) /\
  (let '(s', elapsed, diff) := complete_pending_share s id accepted now in
   pending_ok s' /\
   (forall k, lookup_pending s' k = if k =? id then None else lookup_pending s k) /\
   (elapsed, diff) =
     match lookup_pending s id with
     | Some (d, t) => (f64_sub now t, d)
     | None => (f64_of_Z 0, f64_of_Z 0)
     end).
Proof.
  intros Hok. split.
  - apply pending_register. done.
  - apply pending_complete. done.
Qed.

(** * Properties of the jobs *)

Section job_properties.
Context `{J : Jansson} `{O : OpenSSL} {D : Type}.
Implicit Types s : stratum_state_t O D.

(** C22.  A well-formed mining.notify stores exactly the template it carries and
    installs in the miner the job built from it with the session's extranonce1, the
    next extranonce2 at its full width, and the current difficulty; when the job
    cannot be built the miner keeps the one it has. *)
Theorem notify_installs_job s m params t :
  notify_fields params t -> st_miner s = Some m -> extranonce1 s <> "" -> counter_fits s ->
  let s' := handle_notify s params in
  st_template s' = t /\ template_valid s' = true /\
  extranonce2_counter s' = u64 (extranonce2_counter s + 1) /\
  st_miner s' =
    match miner_build_job (template_job_id t) (template_prevhash t) (template_coinb1 t)
            (template_coinb2 t) (template_merkle t) (template_version t) (template_nbits t)
            (template_ntime t) (extranonce1 s) (next_extranonce2 s) (difficulty s) with
    | Some j => Some (miner_set_job m j)
    | None => Some m
    end.
Proof.
  intros Hf Hm He Hc. cbv zeta. unfold handle_notify.
  rewrite (nf_array _ _ Hf), (proj2 (Nat.ltb_ge _ _)) by apply Hf. cbn [negb orb].
  pose proof (store_notify_keeps s params) as (Km & Ke & Ks & Kc & Kd & _).
  pose proof (store_notify_fields s params t Hf) as [Hok Ht].
  destruct (store_notify s params) as [s0 ok]. cbn [fst snd] in *. subst ok. cbn [negb].
  rewrite (rebuild_valid (set_template_valid true s0) m);
    [|cbn [st_miner set_template_valid]; congruence|done|cbn [extranonce1 set_template_valid]; congruence|].
  2:{ unfold counter_fits in *. cbn [extranonce2_size extranonce2_counter set_template_valid]. by rewrite Ks, Kc. }
  unfold job_of, next_extranonce2. cbn [extranonce1 extranonce2_size extranonce2_counter difficulty
    st_template set_template_valid]. rewrite Ht, Ke, Ks, Kc, Kd.
  destruct (miner_build_job _ _ _ _ _ _ _ _ _ _ _) as [j|]; cbn [fst];
    cbn [st_template template_valid extranonce2_counter st_miner set_st_miner set_extranonce2_counter
      set_template_valid]; split_and!; congruence.
Qed.

(** C23.  No work is built twice: of two jobs a session installs with the same
    extranonce2 width, whatever messages, rolls and mining happen in between, the
    extranonce2 fields differ, as long as the counter fits the width. *)
Theorem extranonce2_never_repeats `{!OpenSSLLaws O} s1 s1' m1 s2 s2' m2 :
  rebuild_miner_job s1 = (s1', 1) -> st_miner s1' = Some m1 ->
  rtc session_step s1' s2 ->
  rebuild_miner_job s2 = (s2', 1) -> st_miner s2' = Some m2 ->
  counter_fits s1 -> counter_fits s2 -> extranonce2_size s1 = extranonce2_size s2 ->
  extranonce2_counter s1 + 1 < 2 ^ 64 ->
  job_extranonce2 (public_job (job m1)) <> job_extranonce2 (public_job (job m2)).
Proof.
  intros R1 M1 Hs R2 M2 F1 F2 Hsz Hlt Heq.
  destruct (rebuild_installed s1 s1' m1 R1 F1 M1) as [E1 C1].
  destruct (rebuild_installed s2 s2' m2 R2 F2 M2) as [E2 _]. rewrite E1, E2 in Heq.
  destruct F1 as (Hz1 & B1 & B1'), F2 as (Hz2 & B2 & B2').
  rewrite u64_small in C1 by (unfold is_u64; lia).
  assert (Hmono : extranonce2_counter s1' <= extranonce2_counter s2).
  { assert (H0 : 0 <= extranonce2_counter s1') by lia. clear -Hs H0.
    induction Hs as [|a b c Hab _ IH]; [done|]. apply session_step_counter in Hab; [|done].
    etransitivity; [exact Hab|]. apply IH. lia. }
  unfold next_extranonce2 in Heq. rewrite Hsz in Heq, B1'. apply be_hex_inj in Heq; rewrite ?Z2Nat.id by lia; lia.
Qed.
End job_properties.

(** * Concrete instances *)

Lemma stats0_ok : pending_ok stats0.
Proof.
  split; [reflexivity| |reflexivity]. intros i j p q Hi _ Hp.
  apply lookup_replicate in Hi as [-> _]. discriminate Hp.
Qed.

Lemma pending_is_map_witness :
  lookup_pending (register_pending_share stats0 4 zero_share (f64_of_Z 7)) 4 =
    Some (f64_of_Z 0, f64_of_Z 7).
Proof.
  destruct (pending_is_map stats0 4 zero_share (f64_of_Z 7) true stats0_ok) as ((_ & H & _) & _).
  rewrite (H (or_introl eq_refl) 4). reflexivity.
Defined.

#[local] Existing Instances ref_openssl ref_jansson.

(** The notification of the first block of the chain. *)
Definition wstr (s : string) : tree := GenLeaf (inl (inl s)).
Definition wparams : json_t ref_jansson :=
  GenNode 0 [wstr "g"; wstr zeros64; wstr genesis_coinb1; wstr genesis_coinb2; GenNode 0 [];
             wstr "00000001"; wstr "1d00ffff"; wstr "495fab29"; GenNode 4 []].
Definition wtemplate : template_t :=
  Template "g" zeros64 genesis_coinb1 genesis_coinb2 "00000001" "1d00ffff" "495fab29" [].
Definition wstate : stratum_state_t ref_openssl unit :=
  set_extranonce1 "54686520" (set_extranonce2_counter 0x54696d65
    (set_st_miner (Some m0) (stratum_state_init (f64_of_Z 0)))).

Lemma wfields : notify_fields (Some wparams) wtemplate.
Proof.
  split; try reflexivity.
  - split; [reflexivity|]. split; [apply Nat.le_0_l|reflexivity].
  - split_and!; try (apply Nat.ltb_lt; vm_compute; reflexivity). constructor.
Qed.

Lemma notify_installs_job_witness :
  st_miner (handle_notify wstate (Some wparams)) = Some (miner_set_job m0 genesis_job).
Proof.
  destruct (notify_installs_job wstate m0 (Some wparams) wtemplate wfields eq_refl
    ltac:(discriminate) ltac:(repeat split; discriminate)) as (_ & _ & _ & ->).
  assert (E : miner_build_job (template_job_id wtemplate) (template_prevhash wtemplate)
    (template_coinb1 wtemplate) (template_coinb2 wtemplate) (template_merkle wtemplate)
    (template_version wtemplate) (template_nbits wtemplate) (template_ntime wtemplate)
    (extranonce1 wstate) (next_extranonce2 wstate) (difficulty wstate) = Some genesis_job)
    by (vm_compute; reflexivity).
  rewrite E. reflexivity.
Defined.

(** Two jobs in a row from the same template. *)
Definition ws1 : stratum_state_t ref_openssl unit :=
  set_template_valid true (set_st_template wtemplate wstate).
Definition wjob2 : miner_job_t :=
  Eval vm_compute in default genesis_job (job_of (set_extranonce2_counter 0x54696d66 ws1) "54696d66").
Definition ws1' : stratum_state_t ref_openssl unit :=
  set_st_miner (Some (miner_set_job m0 genesis_job)) (set_extranonce2_counter 0x54696d66 ws1).
Definition ws2' : stratum_state_t ref_openssl unit :=
  set_st_miner (Some (miner_set_job (miner_set_job m0 genesis_job) wjob2))
    (set_extranonce2_counter 0x54696d67 ws1').

Lemma wfits1 : counter_fits ws1.
Proof. repeat split; discriminate. Qed.
Lemma wfits2 : counter_fits ws1'.
Proof. repeat split; discriminate. Qed.
Lemma wrebuild1 : rebuild_miner_job ws1 = (ws1', 1).
Proof.
  assert (E : job_of ws1 (next_extranonce2 ws1) = Some genesis_job) by (vm_compute; reflexivity).
  rewrite (rebuild_valid ws1 m0 eq_refl eq_refl ltac:(discriminate) wfits1). cbv zeta. rewrite E. reflexivity.
Qed.
Lemma wrebuild2 : rebuild_miner_job ws1' = (ws2', 1).
Proof.
  assert (E : job_of ws1' (next_extranonce2 ws1') = Some wjob2) by (vm_compute; reflexivity).
  rewrite (rebuild_valid ws1' (miner_set_job m0 genesis_job) eq_refl eq_refl ltac:(discriminate) wfits2).
  cbv zeta. rewrite E. reflexivity.
Qed.

Lemma extranonce2_never_repeats_witness : job_extranonce2 genesis_job <> job_extranonce2 wjob2.
Proof.
  exact (@extranonce2_never_repeats ref_jansson ref_openssl unit ref_openssl_laws ws1 ws1'
    (miner_set_job m0 genesis_job) ws1' ws2' (miner_set_job (miner_set_job m0 genesis_job) wjob2)
    wrebuild1 eq_refl (rtc_refl _ _) wrebuild2 eq_refl wfits1 wfits2 eq_refl eq_refl).
Defined.
