(* ===== verification/PoolMessages.v ===== *)
(** What the messages of a pool say: decoders of a received line that are independent
    of the handlers of Stratum.v, and the work a history of lines asks for, the last
    word on each subject.  The session's state is shown to follow the history, and
    every job it installs to be built from it. *)
From stdpp Require Import base tactics list option strings.
From Stdlib Require Import ZArith Lia Ascii.
From S2P Require Import Prelude Words Fips Sha256d Float64 Hex Target Job Miner Json Stratum.

#[local] Open Scope Z_scope.

(** * Messages *)

Section messages.
Context `{J : Jansson}.
#[local] Abbreviation value := (option (json_t J)).

(** The parameters of a call of [method]. *)
Definition call_params (method : string) (root : value) : option value :=
  m ← json_string_value (json_object_get root "method");
  if String.eqb m method then Some (json_object_get root "params") else None.

(** The result of the answer to mining.subscribe, the request with id 1. *)
Definition subscribe_result (root : value) : option value :=
  let error := json_object_get root "error" in
  let id := json_object_get root "id" in
  let result := json_object_get root "result" in
  if bool_decide (json_object_get root "method" = None) &&
     (bool_decide (error = None) || json_is_null error) &&
     json_is_integer id && (json_integer_value id =? 1) &&
     json_is_array result && (3 <=? json_array_size result)%nat
  then Some result else None.

Definition nth_string (params : value) (i : nat) : string :=
  default "" (json_string_value (json_array_get params i)).

Definition difficulty_said (root : value) : option double :=
  params ← call_params "mining.set_difficulty" root;
  if json_is_array params && json_is_number (json_array_get params 0)
  then Some (json_number_value (json_array_get params 0)) else None.

(** The block template of mining.notify, whose parameters are the job's id, the hash
    of the previous block, the two halves of the coinbase, the branches, the version,
    the bits, the time and a flag. *)
Definition template_said (root : value) : option template_t :=
  params ← call_params "mining.notify" root;
  if json_is_array params && (9 <=? json_array_size params)%nat then
    let branches := json_array_get params 4 in
    let count := if json_is_array branches then Nat.min (json_array_size branches) 128 else 0%nat in
    Some {|
      template_job_id := nth_string params 0; template_prevhash := nth_string params 1;
      template_coinb1 := nth_string params 2; template_coinb2 := nth_string params 3;
      template_merkle := nth_string branches <$> seq 0 count;
      template_version := nth_string params 5; template_nbits := nth_string params 6;
      template_ntime := nth_string params 7;
    |}
  else None.

(** The extranonce1, at most 127 characters of it, is in the answer to mining.subscribe
    and in mining.set_extranonce, and so is the size of the extranonce2. *)
Definition extranonce1_said (root : value) : option string :=
  match subscribe_result root with
  | Some result => snprintf_s 128 <$> json_string_value (json_array_get result 1)
  | None =>
      params ← call_params "mining.set_extranonce" root;
      if json_is_array params && json_is_string (json_array_get params 0)
      then Some (snprintf_s 128 (nth_string params 0)) else None
  end.
Definition extranonce2_size_said (root : value) : option Z :=
  match subscribe_result root with
  | Some result =>
      let size := json_array_get result 2 in
      if json_is_integer size then Some (i32 (json_integer_value size)) else None
  | None =>
      params ← call_params "mining.set_extranonce" root;
      let size := json_array_get params 1 in
      if json_is_array params && json_is_integer size then Some (i32 (json_integer_value size)) else None
  end.

(** The last word of a history of lines on a subject; lines that are not JSON say
    nothing. *)
Definition latest {B} (said : value -> option B) (lines : list string) : option B :=
  last (omap (fun line => root ← json_loads line; said (Some root)) lines).

Lemma latest_snoc {B} (said : value -> option B) lines line :
  latest said (lines ++ [line]) =
    match json_loads line with
    | Some root => match said (Some root) with Some x => Some x | None => latest said lines end
    | None => latest said lines
    end.
Proof.
  unfold latest. rewrite omap_app, last_app. cbn [omap list_omap].
  destruct (json_loads line) as [root|]; [|done]. cbn [mbind option_bind]. by destruct (said (Some root)).
Qed.

(** The work a history asks for: the last template, extranonce1, size and difficulty
    (4 and 1 before any), with some extranonce2 of that size. *)
Record pool_work (lines : list string) (t : template_t) (en1 en2 : string) (d : double) : Prop := {
  pw_template : latest template_said lines = Some t;
  pw_extranonce1 : latest extranonce1_said lines = Some en1;
  pw_extranonce2 : exists counter,
    miner_format_extranonce2 32 (default 4 (latest extranonce2_size_said lines)) counter = Some en2;
  pw_difficulty : d = default (f64_of_Z 1) (latest difficulty_said lines);
}.
End messages.

(** * The session follows its messages *)

Section session.
Context `{J : Jansson} `{O : OpenSSL} {D : Type}.
Implicit Types s : stratum_state_t O D.
Implicit Types root : option (json_t J).

(** A job built from that work. *)
Definition built_job (lines : list string) (j : miner_job_t) : Prop :=
  exists t extranonce1 extranonce2 difficulty,
    pool_work lines t extranonce1 extranonce2 difficulty /\
    miner_build_job (template_job_id t) (template_prevhash t) (template_coinb1 t) (template_coinb2 t)
      (template_merkle t) (template_version t) (template_nbits t) (template_ntime t) extranonce1
      extranonce2 difficulty = Some j.
(** The state agrees with a difficulty, an extranonce1 and so on. *)
Record holds (d : option double) (en1 : option string) (size : option Z) (t : option template_t) s : Prop := {
  ho_difficulty : difficulty s = default (f64_of_Z 1) d;
  ho_extranonce1 : extranonce1 s = default "" en1;
  ho_size : extranonce2_size s = default 4 size;
  ho_template : template_valid s = true -> t = Some (st_template s);
}.
Definition follows (lines : list string) : stratum_state_t O D -> Prop :=
  holds (latest difficulty_said lines) (latest extranonce1_said lines) (latest extranonce2_size_said lines)
    (latest template_said lines).

Lemma follows_init now : follows [] (stratum_state_init now).
Proof. by split. Qed.

(** Only five fields matter. *)
Lemma holds_frame d en1 size t s s' :
  difficulty s' = difficulty s -> extranonce1 s' = extranonce1 s -> extranonce2_size s' = extranonce2_size s ->
  template_valid s' = template_valid s -> st_template s' = st_template s ->
  holds d en1 size t s -> holds d en1 size t s'.
Proof. intros E1 E2 E3 E4 E5 []. split; by rewrite ?E1, ?E2, ?E3, ?E4, ?E5. Qed.

Lemma follows_miner lines s m : follows lines s -> follows lines (set_st_miner m s).
Proof. by apply holds_frame. Qed.
Lemma follows_shares lines s st : follows lines s -> follows lines (set_st_shares st s).
Proof. by apply holds_frame. Qed.

(** What a message may do to the miner: nothing, or install a job built from the
    history up to it. *)
Definition miner_update (lines : list string) s s' : Prop :=
  st_miner s' = st_miner s \/
  exists m j, st_miner s = Some m /\ built_job lines j /\ st_miner s' = Some (miner_set_job m j).

Lemma rebuild_follows lines s :
  follows lines s -> follows lines (fst (rebuild_miner_job s)) /\ miner_update lines s (fst (rebuild_miner_job s)).
Proof.
  intros Hf. unfold rebuild_miner_job. destruct (st_miner s) as [m|] eqn:Em; [|split; [done|by left]].
  destruct (template_valid s) eqn:Ev; cbn [negb orb]; [|split; [done|by left]].
  destruct (String.eqb_spec (extranonce1 s) "") as [|Hne]; cbn [orb]; [split; [done|by left]|].
  destruct (extranonce2_size s <=? 0); [split; [done|by left]|]. cbv zeta.
  set (en2 := miner_format_extranonce2 _ _ _).
  destruct (String.eqb_spec (default "" en2) "") as [|Hne2].
  { split; [eapply holds_frame; [..|exact Hf]; done|by left]. }
  match goal with |- context [miner_build_job ?a ?b ?c ?d ?e ?f ?g ?h ?i ?k ?l] =>
    destruct (miner_build_job a b c d e f g h i k l) as [j|] eqn:Ej end;
    (split; [eapply holds_frame; [..|exact Hf]; done|]); [|by left].
  right. exists m, j. split; [done|]. split; [|done]. destruct Hf as [Hd H1 Hs Ht].
  exists (st_template s), (extranonce1 s), (default "" en2), (difficulty s). split; [|exact Ej]. split.
  - by apply Ht.
  - rewrite H1 in Hne |- *. destruct (latest extranonce1_said lines); [done|by destruct Hne].
  - exists (extranonce2_counter s). rewrite <- Hs. change (en2 = Some (default "" en2)).
    destruct en2; [done|by destruct Hne2].
  - done.
Qed.

Lemma update_frame lines s0 s1 s' : st_miner s1 = st_miner s0 -> miner_update lines s1 s' -> miner_update lines s0 s'.
Proof. unfold miner_update. by intros ->. Qed.

(** A rebuild after the fields were set. *)
Lemma rebuild_after lines s0 s1 :
  follows lines s1 -> st_miner s1 = st_miner s0 ->
  let s' := if template_valid s1 then fst (rebuild_miner_job s1) else s1 in
  follows lines s' /\ miner_update lines s0 s'.
Proof.
  intros Hf Hm. cbv zeta. destruct (template_valid s1); [|split; [done|by left]].
  destruct (rebuild_follows lines s1 Hf) as [Hf' Hu]. split; [done|]. by eapply update_frame.
Qed.

(** ** Storing a template *)

Lemma store_template_whole t0 a b c d e f g t :
  store_template t0 a b c d e f g = (t, true) -> t = Template a b c d e f g (template_merkle t0).
Proof.
  destruct t0. unfold store_template. repeat case_match; intros [= <-].
  by repeat match goal with H : copy_checked _ _ = Some _ |- _ => apply copy_checked_Some in H as [-> _] end.
Qed.
Lemma store_branches_whole (f : nat -> option (json_t J)) l stored ms :
  store_branches (f <$> l) stored = (ms, true) -> ms = stored ++ ((fun i => json_string_or_empty (f i)) <$> l).
Proof.
  revert stored. induction l as [|i l IH]; intros stored; cbn [fmap list_fmap store_branches].
  - intros [= <-]. by rewrite app_nil_r.
  - destruct (copy_checked 65 _) as [b|] eqn:E; [|done]. apply copy_checked_Some in E as [-> _].
    intros ->%IH. by rewrite <- app_assoc.
Qed.

(** A template that was stored whole is the one the notification says. *)
Lemma store_notify_said s root params s' :
  call_params "mining.notify" root = Some params -> json_is_array params = true ->
  (9 <= json_array_size params)%nat -> store_notify s params = (s', true) ->
  template_said root = Some (st_template s').
Proof.
  intros Hc Ha Hn. unfold template_said. rewrite Hc. cbn [mbind option_bind]. rewrite Ha, (proj2 (Nat.leb_le _ _)) by done.
  unfold store_notify. cbv zeta. destruct (store_template _ _ _ _ _ _ _ _) as [t ok] eqn:Et.
  destruct ok; [|done]. apply store_template_whole in Et as ->. cbn [negb].
  destruct (store_branches _ []) as [ms ok] eqn:Eb. intros [= <- ->]. apply store_branches_whole in Eb as ->. done.
Qed.

(** A template that was not stored whole is not valid. *)
Lemma store_notify_invalid s params : template_valid (fst (store_notify s params)) = false.
Proof. unfold store_notify. cbv zeta. by repeat case_match. Qed.

(** ** Handling a line *)

Definition newer {B} (said old : option B) : option B := match said with Some x => Some x | None => old end.

Lemma follows_said lines line (root : json_t J) s :
  json_loads line = Some root ->
  holds (newer (difficulty_said (Some root)) (latest difficulty_said lines))
    (newer (extranonce1_said (Some root)) (latest extranonce1_said lines))
    (newer (extranonce2_size_said (Some root)) (latest extranonce2_size_said lines))
    (newer (template_said (Some root)) (latest template_said lines)) s ->
  follows (lines ++ [line]) s.
Proof. unfold follows, newer. intros E. by rewrite !latest_snoc, E. Qed.

(** A message that is not about a subject. *)
Lemma no_call method root : json_object_get root "method" = None -> call_params method root = None.
Proof. unfold call_params. by intros ->. Qed.
Lemma other_call method root m :
  json_string_value (json_object_get root "method") = Some m -> m <> method -> call_params method root = None.
Proof. unfold call_params. intros -> Hne. cbn. by rewrite (proj2 (String.eqb_neq _ _) Hne). Qed.
Lemma a_call method root :
  json_string_value (json_object_get root "method") = Some method ->
  call_params method root = Some (json_object_get root "params").
Proof. unfold call_params. intros ->. cbn. by rewrite String.eqb_refl. Qed.
Lemma no_result root : is_Some (json_object_get root "method") -> subscribe_result root = None.
Proof. intros [m Hm]. unfold subscribe_result. by rewrite Hm. Qed.

Lemma response_miner s root now : st_miner (handle_response s root now) = st_miner s.
Proof. unfold handle_response. cbv zeta. by repeat case_match. Qed.

(** An answer from the pool. *)
Lemma response_result d en1 size t s root now :
  json_object_get root "method" = None -> holds d en1 size t s ->
  match subscribe_result root with
  | Some result =>
      holds d (newer (snprintf_s 128 <$> json_string_value (json_array_get result 1)) en1)
        (newer (if json_is_integer (json_array_get result 2)
                then Some (i32 (json_integer_value (json_array_get result 2))) else None) size) t
        (handle_response s root now)
  | None => holds d en1 size t (handle_response s root now)
  end.
Proof.
  intros Hm H. unfold handle_response, subscribe_result. cbv zeta. rewrite Hm, (bool_decide_true (None = None)) by done. cbn [andb].
  set (error := json_object_get root "error"). set (id := json_object_get root "id").
  set (result := json_object_get root "result"). clearbody error id result.
  assert (Hsame : forall st, holds d en1 size t (set_st_shares st s)) by (intros; by apply (holds_frame _ _ _ _ s)).
  assert (Herr : bool_decide (error = None) || json_is_null error =
    negb (bool_decide (is_Some error) && negb (json_is_null error))) by (destruct error; cbn; by rewrite ?negb_involutive).
  rewrite Herr. destruct (bool_decide (is_Some error) && negb (json_is_null error)); cbn [negb andb].
  { repeat case_match; auto. }
  destruct (json_is_integer id); cbn [andb]; [|done].
  destruct (Z.eqb_spec (json_integer_value id) 1) as [_|_]; cbn [andb].
  2:{ repeat case_match; auto. by apply (holds_frame _ _ _ _ s). }
  destruct (json_is_array result && _); [|done].
  destruct H as [Hd H1 Hs Ht].
  destruct (json_string_value (json_array_get result 1)), (json_is_integer (json_array_get result 2));
    by split.
Qed.

Lemma response_follows lines line (root : json_t J) s now :
  json_loads line = Some root -> json_object_get (Some root) "method" = None -> follows lines s ->
  follows (lines ++ [line]) (handle_response s (Some root) now).
Proof.
  intros El Hm Hf. apply (follows_said lines line root); [done|].
  pose proof (response_result _ _ _ _ s (Some root) now Hm Hf) as H.
  unfold difficulty_said, template_said, extranonce1_said, extranonce2_size_said.
  rewrite !no_call by done. cbn [mbind option_bind newer].
  by destruct (subscribe_result (Some root)).
Qed.

(** A call from the pool. *)
Lemma method_follows lines line (root : json_t J) s :
  json_loads line = Some root -> is_Some (json_object_get (Some root) "method") -> follows lines s ->
  follows (lines ++ [line]) (handle_method s (Some root)) /\
  miner_update (lines ++ [line]) s (handle_method s (Some root)).
Proof.
  intros El Hm Hf. pose proof (follows_said lines line root) as Hs. specialize (fun s => Hs s El).
  unfold difficulty_said, template_said, extranonce1_said, extranonce2_size_said in Hs.
  rewrite no_result in Hs by done. unfold handle_method. cbv zeta.
  set (params := json_object_get (Some root) "params").
  destruct (json_string_value (json_object_get (Some root) "method")) as [m|] eqn:Em.
  2:{ unfold call_params in Hs. rewrite Em in Hs. cbn in Hs. split; [by apply Hs|by left]. }
  destruct (String.eqb_spec m "mining.set_difficulty") as [->|N1].
  { rewrite (a_call _ _ Em), !(other_call _ _ _ Em) in Hs by done. cbn [mbind option_bind newer] in Hs.
    unfold handle_set_difficulty. cbv zeta. fold params in Hs.
    destruct (json_is_array params); cbn [andb] in Hs; [|split; [by apply Hs|by left]].
    destruct (json_is_number (json_array_get params 0)); [|split; [by apply Hs|by left]].
    apply rebuild_after; [|done]. apply Hs. destruct Hf. by split. }
  destruct (String.eqb_spec m "mining.notify") as [->|N2].
  { rewrite !(other_call "mining.set_difficulty" _ _ Em), !(other_call "mining.set_extranonce" _ _ Em) in Hs by done.
    cbn [mbind option_bind newer] in Hs. pose proof (store_notify_said s (Some root) params) as Hsaid.
    specialize (fun s' => Hsaid s' (a_call _ _ Em)). unfold template_said in Hsaid.
    rewrite (a_call _ _ Em) in Hs, Hsaid. cbn [mbind option_bind] in Hs, Hsaid. fold params in Hs, Hsaid.
    unfold handle_notify.
    destruct (json_is_array params); cbn [negb orb andb] in *; [|split; [by apply Hs|by left]].
    rewrite (Nat.ltb_antisym 9) in *. destruct (Nat.leb_spec 9 (json_array_size params)) as [Hn|Hn]; cbn [negb];
      [|split; [by apply Hs|by left]].
    pose proof (store_notify_keeps s params) as (Km & Ke & Ks & _ & Kd & _).
    pose proof (store_notify_invalid s params) as Hinv.
    destruct (store_notify s params) as [s1 ok]. cbn [fst] in *. destruct Hf as [Hd H1 Hz Ht].
    destruct ok; cbn [negb].
    - specialize (Hsaid s1 eq_refl Hn eq_refl). injection Hsaid as Hsaid.
      apply (rebuild_after (lines ++ [line]) s (set_template_valid true s1)); [|done].
      apply Hs. cbn [newer]. rewrite Hsaid. split; cbn [difficulty extranonce1 extranonce2_size template_valid st_template set_template_valid];
        [rewrite Kd; exact Hd|rewrite Ke; exact H1|rewrite Ks; exact Hz|congruence].
    - split; [|by left]. apply Hs. split; cbn [difficulty extranonce1 extranonce2_size template_valid st_template set_template_valid];
        [rewrite Kd; exact Hd|rewrite Ke; exact H1|rewrite Ks; exact Hz|congruence]. }
  destruct (String.eqb_spec m "mining.set_extranonce") as [->|N3].
  { rewrite !(other_call "mining.set_difficulty" _ _ Em), !(other_call "mining.notify" _ _ Em) in Hs by done.
    rewrite (a_call _ _ Em) in Hs. cbn [mbind option_bind newer] in Hs. fold params in Hs.
    unfold handle_set_extranonce. cbv zeta. destruct (json_is_array params); cbn [andb] in Hs.
    - destruct (json_is_string (json_array_get params 0)), (json_is_integer (json_array_get params 1));
        (apply rebuild_after; [|done]; apply Hs; destruct Hf; by split).
    - apply rebuild_after; [|done]. by apply Hs. }
  rewrite !(other_call _ _ _ Em) in Hs by done. split; [by apply Hs|by left].
Qed.

Lemma line_follows lines line s now :
  follows lines s ->
  let s' := fst (stratum_process_line s line now) in
  follows (lines ++ [line]) s' /\ miner_update (lines ++ [line]) s s'.
Proof.
  intros Hf. unfold stratum_process_line. destruct (json_loads line) as [root|] eqn:El.
  - destruct (bool_decide_reflect (is_Some (json_object_get (Some root) "method"))) as [Hm|Hm]; cbn [fst].
    + by apply method_follows.
    + split; [apply (response_follows lines line root); [done|by apply eq_None_not_Some|done]|].
      left. apply response_miner.
  - cbn [fst]. split; [|by left]. unfold follows. by rewrite !latest_snoc, El.
Qed.
End session.
