(* ===== verification/StratumNet.v ===== *)
(** The connection to the pool: the address, the transport and the line framing of
    src/src/stratum.c.

    The results of the system calls and of OpenSSL's I/O calls are inputs: a raw
    result is the value returned with what the error query answers next. *)
From stdpp Require Import base tactics sets list option strings.
From Stdlib Require Import ZArith Lia Ascii.
From S2P Require Import Prelude Hex Json Stratum.

#[local] Open Scope Z_scope.

(** * The pool's address *)

Record pool_endpoint_t := PoolEndpoint {
  ep_host : string; ep_port : string; ep_use_tls : bool; ep_verify_tls : bool;
}.

(** The comparisons of [parse_pool_url] in their order, with the flags each sets:
    [use_tls] and [verify_tls]. *)
Definition url_schemes : list (string * (bool * bool)) :=
  [("stratum+tcp://", (false, true));
   ("stratum+tls-insecure://", (true, false)); ("stratum+ssl-insecure://", (true, false));
   ("stratum+tls://", (true, true)); ("stratum+ssl://", (true, true));
   ("tcp://", (false, true));
   ("tls-insecure://", (true, false)); ("ssl-insecure://", (true, false));
   ("tls://", (true, true)); ("ssl://", (true, true))]%string.

(** [strncmp(p, prefix, n) == 0] and [p += n]. *)
Fixpoint strip_prefix (prefix l : list ascii) : option (list ascii) :=
  match prefix, l with
  | [], l => Some l
  | a :: prefix, b :: l => if Ascii.eqb a b then strip_prefix prefix l else None
  | _ :: _, [] => None
  end.
Fixpoint strip_scheme (table : list (string * (bool * bool))) (p : list ascii)
  : list ascii * (bool * bool) :=
  match table with
  | [] => (p, (false, true))
  | (scheme, flags) :: table =>
      match strip_prefix (chars scheme) p with
      | Some p => (p, flags)
      | None => strip_scheme table p
      end
  end.

(** The characters before the first [c]. *)
Fixpoint before (c : ascii) (l : list ascii) : list ascii :=
  match l with
  | [] => []
  | x :: l => if Ascii.eqb x c then [] else x :: before c l
  end.
(** The parts around the last [c]. *)
Fixpoint split_last (c : ascii) (l : list ascii) : option (list ascii * list ascii) :=
  match l with
  | [] => None
  | x :: l =>
      match split_last c l with
      | Some (a, b) => Some (x :: a, b)
      | None => if Ascii.eqb x c then Some ([], l) else None
      end
  end.

Definition parse_pool_url (url : string) : option pool_endpoint_t :=
  let '(p, (use_tls, verify_tls)) := strip_scheme url_schemes (chars url) in
  match p with
  | [] => None
  | _ =>
      let hostport := before "/" (take 319 p) in
      match split_last ":" hostport with
      | None =>
          host ← copy_checked 256 (of_chars hostport);
          port ← copy_checked 16 (if use_tls then "4333" else "3333")%string;
          if String.eqb host "" then None else Some (PoolEndpoint host port use_tls verify_tls)
      | Some (h, p) =>
          host ← copy_checked 256 (of_chars h);
          port ← copy_checked 16 (of_chars p);
          if String.eqb host "" || String.eqb port "" then None
          else Some (PoolEndpoint host port use_tls verify_tls)
      end
  end.

(** * Opening *)

(** How one attempt goes: each field is whether that step succeeds. *)
Record attempt := Attempt {
  at_connect_tcp : bool; at_ssl_ctx_new : bool; at_ssl_new : bool; at_ssl_connect : bool;
}.
Inductive transport := plain_tcp | tls (verified : bool).

(** The transport, and [tls_handshake_failed]. *)
Definition conn_open_once (endpoint : pool_endpoint_t) (verify_tls : bool) (a : attempt)
  : option transport * bool :=
  if negb (at_connect_tcp a) then (None, false)
  else if negb (ep_use_tls endpoint) then (Some plain_tcp, false)
  else if negb (at_ssl_ctx_new a) then (None, false)
  else if negb (at_ssl_new a) then (None, false)
  else if negb (at_ssl_connect a) then (None, true)
  else (Some (tls verify_tls), false).

(** [attempts k] is the [k]-th call of [conn_open_once]; the number of calls made is
    returned too. *)
Definition conn_open (endpoint : pool_endpoint_t) (attempts : nat -> attempt)
  : option transport * nat :=
  let '(r, failed) := conn_open_once endpoint (ep_verify_tls endpoint) (attempts 0%nat) in
  match r with
  | Some t => (Some t, 1%nat)
  | None =>
      let '(r, calls) :=
        if ep_use_tls endpoint && ep_verify_tls endpoint && failed
        then (fst (conn_open_once endpoint false (attempts 1%nat)), 2%nat)
        else (None, 1%nat) in
      match r with
      | Some t => (Some t, calls)
      | None =>
          if ep_use_tls endpoint then
            let plain := PoolEndpoint (ep_host endpoint) (ep_port endpoint) false false in
            (fst (conn_open_once plain false (attempts calls)), S calls)
          else (None, calls)
      end
  end.

(** * Writing and reading *)

(** The value a call returns, whether the error query then asks for a retry, and
    for TLS whether it reports an orderly shutdown. *)
Record io_result := IoResult { io_ret : Z; io_retry : bool; io_closed : bool }.

(** The bytes handed to the transport, the unused results, and the return code:
    [None] when the results run out first. *)
Fixpoint conn_write (use_tls : bool) (data : list ascii) (results : list io_result)
  : list ascii * list io_result * option Z :=
  match data with
  | [] => ([], results, Some 0)
  | _ =>
      match results with
      | [] => ([], [], None)
      | r :: results =>
          if (if use_tls then io_ret r <=? 0 else io_ret r <? 0) then
            if io_retry r then conn_write use_tls data results else ([], results, Some (-1))
          else
            let n := Z.to_nat (io_ret r) in
            let '(sent, rest, rc) := conn_write use_tls (drop n data) results in
            (take n data ++ sent, rest, rc)
      end
  end.

(** A read returns the count, 0 at the end, -3 to be retried, -1 on an error. *)
Definition conn_read (use_tls : bool) (r : io_result) : Z :=
  if use_tls then
    if io_ret r <=? 0 then
      if io_closed r then 0 else if io_retry r then -3 else -1
    else io_ret r
  else
    if io_ret r =? 0 then 0
    else if io_ret r <? 0 then (if io_retry r then -3 else -1)
    else io_ret r.

(** * Lines *)

Definition LINE_BUFFER_SIZE : nat := Z.to_nat 65536.

Inductive poll := poll_pending | poll_ready | poll_timeout | poll_eintr | poll_error.
(** One round of the loop of [read_line]: the poll, then the read with its bytes. *)
Record read_event := ReadEvent { re_poll : poll; re_result : io_result; re_data : list ascii }.

Definition carriage_return : ascii := ascii_of_nat 13.

(** The first newline, with what precedes and what follows it. *)
Fixpoint split_line (l : list ascii) : option (list ascii * list ascii) :=
  match l with
  | [] => None
  | c :: l =>
      if Ascii.eqb c newline then Some ([], l)
      else match split_line l with Some (a, b) => Some (c :: a, b) | None => None end
  end.
Definition strip_cr (line : list ascii) : list ascii :=
  match last line with
  | Some c => if Ascii.eqb c carriage_return then take (length line - 1) line else line
  | None => line
  end.

Record read_outcome := ReadOutcome {
  ro_rc : Z; ro_line : list ascii; ro_buffer : list ascii; ro_events : list read_event;
}.

(** [None] when the events run out: the call is still waiting. *)
Fixpoint read_line (use_tls : bool) (out_size : nat) (buffer : list ascii) (events : list read_event)
  : option read_outcome :=
  match split_line buffer with
  | Some (line, rest) =>
      let line := strip_cr line in
      if (out_size <=? length line)%nat then Some (ReadOutcome (-2) [] buffer events)
      else Some (ReadOutcome 1 line rest events)
  | None =>
      if (length buffer =? LINE_BUFFER_SIZE)%nat then Some (ReadOutcome (-2) [] buffer events)
      else
        match events with
        | [] => None
        | e :: events =>
            match re_poll e with
            | poll_timeout => Some (ReadOutcome (-3) [] buffer events)
            | poll_eintr => read_line use_tls out_size buffer events
            | poll_error => Some (ReadOutcome (-1) [] buffer events)
            | poll_pending | poll_ready =>
                let n := conn_read use_tls (re_result e) in
                if n =? 0 then Some (ReadOutcome 0 [] buffer events)
                else if n <? 0 then
                  if n =? -3 then read_line use_tls out_size buffer events
                  else Some (ReadOutcome (-1) [] buffer events)
                else read_line use_tls out_size (buffer ++ take (Z.to_nat n) (re_data e)) events
            end
        end
  end.

(** The C string in a buffer: up to the first null character. *)
Definition c_string (l : list ascii) : string := of_chars (before zero l).

(** * Lemmas on addresses *)

Definition no_char (c : ascii) (l : list ascii) : Prop := Forall (fun x => x <> c) l.

Lemma before_app c l1 l2 :
  no_char c l1 -> (l2 = [] \/ head l2 = Some c) -> before c (l1 ++ l2) = l1.
Proof.
  intros H1 H2. induction H1 as [|x l1 Hx _ IH]; cbn [app before].
  - destruct H2 as [->|H2]; [done|]. destruct l2 as [|y l2]; [done|]. injection H2 as ->.
    cbn [before]. by rewrite Ascii.eqb_refl.
  - rewrite (proj2 (Ascii.eqb_neq _ _) Hx). by rewrite IH.
Qed.

Lemma split_last_none c l : no_char c l -> split_last c l = None.
Proof.
  induction 1 as [|x l Hx _ IH]; cbn [split_last]; [done|]. by rewrite IH, (proj2 (Ascii.eqb_neq _ _) Hx).
Qed.
Lemma split_last_app c l1 l2 : no_char c l2 -> split_last c (l1 ++ c :: l2) = Some (l1, l2).
Proof.
  intros H2. induction l1 as [|x l1 IH]; cbn [app split_last].
  - by rewrite split_last_none, Ascii.eqb_refl.
  - by rewrite IH.
Qed.

(** A scheme is a word followed by "://". *)
Definition colon_slashes : list ascii := chars "://".
Lemma strip_prefix_app w l : strip_prefix w (w ++ l) = Some l.
Proof. induction w as [|c w IH]; cbn; [done|]. by rewrite Ascii.eqb_refl. Qed.

Lemma strip_prefix_cons a w b l :
  strip_prefix (a :: w) (b :: l) = if Ascii.eqb a b then strip_prefix w l else None.
Proof. done. Qed.

(** Without a scheme, nothing is stripped: the first colon is not followed by a
    slash. *)
Definition plain_tail (tail : list ascii) : Prop :=
  tail = [] \/ (exists rest, tail = "/"%char :: rest) \/
  (exists c rest, tail = ":"%char :: c :: rest /\ c <> "/"%char).

Lemma strip_prefix_plain w h tail :
  no_char ":" w -> no_char "/" w -> no_char ":" h -> plain_tail tail ->
  strip_prefix (w ++ colon_slashes) (h ++ tail) = None.
Proof.
  intros Hw Hs Hh Htail. revert h Hh. induction Hw as [|a w Ha _ IH]; intros h Hh.
  - change ([] ++ colon_slashes) with (":"%char :: "/"%char :: chars "/").
    destruct Hh as [|b h Hb _]; cbn [app].
    + destruct Htail as [->|[(rest & ->)|(c & rest & -> & Hc)]]; [done..|].
      rewrite strip_prefix_cons, Ascii.eqb_refl, strip_prefix_cons.
      by rewrite (proj2 (Ascii.eqb_neq _ _) (not_eq_sym Hc)).
    + rewrite strip_prefix_cons. by rewrite (proj2 (Ascii.eqb_neq _ _) (not_eq_sym Hb)).
  - apply Forall_cons in Hs as [Has Hs]. specialize (IH Hs).
    destruct Hh as [|b h Hb Hh]; cbn [app strip_prefix].
    + destruct Htail as [->|[(rest & ->)|(c & rest & -> & Hc)]]; [done|..].
      * by rewrite (proj2 (Ascii.eqb_neq _ _) Has).
      * by rewrite (proj2 (Ascii.eqb_neq _ _) Ha).
    + destruct (Ascii.eqb a b); [by apply IH|done].
Qed.

Lemma strip_scheme_plain h tail :
  no_char ":" h -> plain_tail tail ->
  strip_scheme url_schemes (h ++ tail) = (h ++ tail, (false, true)).
Proof.
  intros Hh Ht.
  assert (Hw : Forall (fun '(scheme, _) => exists w, chars scheme = w ++ colon_slashes /\
            no_char ":" w /\ no_char "/" w) url_schemes).
  { unfold url_schemes. repeat constructor;
      match goal with |- exists w, ?s = _ /\ _ => exists (take (length s - 3) s) end;
      (split; [reflexivity|]); split; apply (bool_decide_unpack (Forall _ _)); reflexivity. }
  induction Hw as [|[scheme flags] table (w & E & Hc & Hs) _ IH]; cbn [strip_scheme]; [done|].
  by rewrite E, strip_prefix_plain.
Qed.

(** Each scheme is recognised as itself. *)
Lemma strip_scheme_known scheme flags p :
  (scheme, flags) ∈ url_schemes -> strip_scheme url_schemes (chars scheme ++ p) = (p, flags).
Proof. unfold url_schemes. intros H. repeat (apply elem_of_cons in H as [[= -> ->]|H]; [reflexivity|]). by apply elem_of_nil in H. Qed.

(** What follows a host or a port: the end or a path. *)
Definition path_tail (path : string) : Prop := path = ""%string \/ head (chars path) = Some "/"%char.

(** Parsing once the scheme is stripped. *)
Lemma parse_stripped url p use_tls verify_tls hostport path :
  strip_scheme url_schemes (chars url) = (p, (use_tls, verify_tls)) ->
  p = hostport ++ chars path -> hostport <> [] -> (length hostport <= 319)%nat ->
  no_char "/" hostport -> path_tail path ->
  parse_pool_url url =
    match split_last ":" hostport with
    | None =>
        host ← copy_checked 256 (of_chars hostport);
        port ← copy_checked 16 (if use_tls then "4333" else "3333")%string;
        if String.eqb host "" then None else Some (PoolEndpoint host port use_tls verify_tls)
    | Some (h, q) =>
        host ← copy_checked 256 (of_chars h);
        port ← copy_checked 16 (of_chars q);
        if String.eqb host "" || String.eqb port "" then None
        else Some (PoolEndpoint host port use_tls verify_tls)
    end.
Proof.
  intros Hs -> Hne Hlen Hc Hp. unfold parse_pool_url. rewrite Hs. clear Hs.
  destruct (hostport ++ chars path) as [|x l] eqn:E; [by apply app_nil in E as [-> _]|].
  rewrite <- E. clear x l E.
  assert (Hb : before "/" (take 319 (hostport ++ chars path)) = hostport); [|by rewrite Hb].
  rewrite take_app, take_ge by done. apply before_app; [done|].
  destruct Hp as [->|Hp]; [left; apply take_nil|].
  destruct (chars path) as [|y l]; [done|]. injection Hp as ->.
  destruct (319 - length hostport)%nat; [by left|by right].
Qed.

Lemma chars_nonempty s : s <> ""%string -> chars s <> [].
Proof. intros H E. apply H. by rewrite <- (of_chars_chars s), E. Qed.

(** * Lemmas on lines *)

Definition no_newline (l : list ascii) : Prop := no_char newline l.

Lemma split_line_Some l a b : split_line l = Some (a, b) <-> l = a ++ newline :: b /\ no_newline a.
Proof.
  revert a. induction l as [|c l IH]; intros a; cbn [split_line].
  - split; [done|]. intros [H _]. by destruct a.
  - destruct (Ascii.eqb_spec c newline) as [->|Hc].
    + split; [intros [= <- <-]; split; [done|constructor]|]. intros [H Ha]. destruct a as [|x a]; [by injection H as ->|].
      injection H as <- H. apply Forall_cons in Ha as [? _]. done.
    + destruct (split_line l) as [[a' b']|].
      * split; [intros [= <- <-]|].
        -- destruct (proj1 (IH a') eq_refl) as [-> Ha]. split; [done|by constructor].
        -- intros [H Ha]. destruct a as [|x a]; [injection H as -> _; done|].
           injection H as <- H. apply Forall_cons in Ha as [_ Ha].
           pose proof (proj2 (IH a) (conj H Ha)) as [= -> ->]. done.
      * split; [done|]. intros [H Ha]. destruct a as [|x a]; [injection H as -> _; done|].
        injection H as <- H. apply Forall_cons in Ha as [_ Ha]. by specialize (proj2 (IH a) (conj H Ha)).
Qed.

Lemma split_line_None l : split_line l = None <-> no_newline l.
Proof.
  induction l as [|c l IH]; cbn [split_line]; [split; [constructor|done]|].
  destruct (Ascii.eqb_spec c newline) as [->|Hc].
  - split; [done|]. intros H. apply Forall_cons in H as [H _]. done.
  - destruct (split_line l) as [[a b]|].
    + split; [done|]. intros H. apply Forall_cons in H as [_ H]. by apply IH in H.
    + split; [intros _; constructor; [done|by apply IH]|done].
Qed.

(** The bytes an event delivers. *)
Definition event_data (use_tls : bool) (e : read_event) : list ascii :=
  match re_poll e with
  | poll_pending | poll_ready =>
      let n := conn_read use_tls (re_result e) in
      if 0 <? n then take (Z.to_nat n) (re_data e) else []
  | _ => []
  end.
Definition events_data (use_tls : bool) (l : list read_event) : list ascii :=
  concat (event_data use_tls <$> l).

(** What one call does to the stream: the events it used delivered [data]. *)
Definition read_spec (out_size : nat) (buffer data : list ascii) (r : read_outcome) : Prop :=
  (ro_rc r = 1 /\ exists raw, no_newline raw /\ buffer ++ data = raw ++ newline :: ro_buffer r /\
     ro_line r = strip_cr raw /\ (length (ro_line r) < out_size)%nat) \/
  (ro_rc r = -2 /\ ro_buffer r = buffer ++ data /\
     ((length (ro_buffer r) = LINE_BUFFER_SIZE /\ no_newline (ro_buffer r)) \/
      exists raw rest, no_newline raw /\ buffer ++ data = raw ++ newline :: rest /\
        (out_size <= length (strip_cr raw))%nat)) \/
  (ro_rc r ∈ [0; -1; -3] /\ ro_buffer r = buffer ++ data /\ no_newline (ro_buffer r)).

Lemma read_line_spec use_tls out_size buffer events r :
  read_line use_tls out_size buffer events = Some r ->
  exists used, events = used ++ ro_events r /\ read_spec out_size buffer (events_data use_tls used) r.
Proof.
  revert buffer. induction events as [|e events IH]; intros buffer; cbn [read_line];
    (destruct (split_line buffer) as [[line rest]|] eqn:E;
      [apply split_line_Some in E as [-> Hl]; destruct (Nat.leb_spec out_size (length (strip_cr line)));
        intros [= <-]; exists []; (split; [done|])
      |apply split_line_None in E; destruct (Nat.eqb_spec (length buffer) LINE_BUFFER_SIZE) as [Hf|Hf];
        [intros [= <-]; exists []; (split; [done|])|]]).
  1,5: right; left; cbn [ro_rc ro_buffer events_data fmap list_fmap concat]; rewrite app_nil_r;
       (split; [done|]); (split; [done|]); right; by exists line, rest.
  1,4: left; cbn [ro_rc ro_buffer ro_line events_data fmap list_fmap concat]; rewrite app_nil_r;
       (split; [done|]); by exists line.
  1,3: right; left; cbn [ro_rc ro_buffer events_data fmap list_fmap concat]; rewrite app_nil_r;
       (split; [done|]); (split; [done|]); by left.
  - done.
  - assert (Hnext : forall buffer', buffer' = buffer ++ event_data use_tls e ->
      read_line use_tls out_size buffer' events = Some r ->
      exists used, e :: events = used ++ ro_events r /\ read_spec out_size buffer (events_data use_tls used) r).
    { intros buffer' -> H. apply IH in H as (used & -> & Hs). exists (e :: used). split; [done|].
      unfold events_data in *. cbn [fmap list_fmap concat]. unfold read_spec in *. by rewrite app_assoc. }
    assert (Hend : forall rc, rc ∈ [0; -1; -3] -> event_data use_tls e = [] ->
      Some (ReadOutcome rc [] buffer events) = Some r ->
      exists used, e :: events = used ++ ro_events r /\ read_spec out_size buffer (events_data use_tls used) r).
    { intros rc Hrc Hd [= <-]. exists [e]. split; [done|]. right; right.
      unfold events_data. cbn [fmap list_fmap concat ro_rc ro_buffer]. rewrite Hd, !app_nil_r. by split. }
    unfold event_data in Hnext, Hend. destruct (re_poll e).
    1,2: cbv zeta in *; destruct (Z.eqb_spec (conn_read use_tls (re_result e)) 0) as [H0|H0];
      [rewrite H0 in *; apply Hend; [set_solver|done]|];
      destruct (Z.ltb_spec (conn_read use_tls (re_result e)) 0) as [Hn|Hn];
      [rewrite (proj2 (Z.ltb_ge 0 _)) in Hnext, Hend by lia;
       destruct (_ =? -3); [apply Hnext; by rewrite app_nil_r|apply Hend; [set_solver|done]]
      |rewrite (proj2 (Z.ltb_lt 0 _)) in Hnext by lia; by apply Hnext].
    + apply Hend; [set_solver|done].
    + apply Hnext. by rewrite app_nil_r.
    + apply Hend; [set_solver|done].
Qed.

(** Successive calls as the session makes them: after a line or a timeout it calls
    again with the buffer the call left, any other result ends it. *)
Fixpoint read_lines (use_tls : bool) (out_size : nat) (k : nat) (buffer : list ascii)
    (events : list read_event) : list (list ascii) * list ascii * list read_event :=
  match k with
  | O => ([], buffer, events)
  | S k =>
      match read_line use_tls out_size buffer events with
      | None => ([], buffer, events)
      | Some (ReadOutcome rc line buffer events) =>
          if rc =? 1 then
            let '(lines, buffer, events) := read_lines use_tls out_size k buffer events in
            (line :: lines, buffer, events)
          else if rc =? -3 then read_lines use_tls out_size k buffer events
          else ([], buffer, events)
      end
  end.

(** The lines of a stream: each one whole, then what is still buffered. *)
Definition lines_of (use_tls : bool) (out_size : nat) (buffer : list ascii) (events : list read_event)
    (lines : list (list ascii)) (buffer' : list ascii) (events' : list read_event) : Prop :=
  exists used raws,
    events = used ++ events' /\
    buffer ++ events_data use_tls used = concat ((fun raw => raw ++ [newline]) <$> raws) ++ buffer' /\
    Forall2 (fun line raw => line = strip_cr raw /\ no_newline raw /\ (length line < out_size)%nat)
      lines raws.

Lemma lines_of_nil use_tls out_size buffer events : lines_of use_tls out_size buffer events [] buffer events.
Proof. exists [], []. cbn. split_and!; [done|by rewrite app_nil_r|constructor]. Qed.

Lemma events_data_app use_tls l l' : events_data use_tls (l ++ l') = events_data use_tls l ++ events_data use_tls l'.
Proof. unfold events_data. by rewrite fmap_app, concat_app. Qed.

(** A call that returns no line only moves bytes into the buffer. *)
Lemma lines_of_wait use_tls out_size buffer used events lines buffer' events' :
  lines_of use_tls out_size (buffer ++ events_data use_tls used) events lines buffer' events' ->
  lines_of use_tls out_size buffer (used ++ events) lines buffer' events'.
Proof.
  intros (more & raws & -> & Heq & Hall). exists (used ++ more), raws.
  split; [by rewrite app_assoc|]. split; [|done]. by rewrite events_data_app, app_assoc.
Qed.

Lemma lines_of_cons use_tls out_size buffer used events raw rest lines buffer' events' :
  buffer ++ events_data use_tls used = raw ++ newline :: rest -> no_newline raw ->
  (length (strip_cr raw) < out_size)%nat ->
  lines_of use_tls out_size rest events lines buffer' events' ->
  lines_of use_tls out_size buffer (used ++ events) (strip_cr raw :: lines) buffer' events'.
Proof.
  intros Hcut Hraw Hlen (more & raws & -> & Heq & Hall). exists (used ++ more), (raw :: raws).
  split; [by rewrite app_assoc|]. split; [|by constructor].
  rewrite events_data_app, app_assoc, Hcut. cbn [fmap list_fmap concat].
  rewrite <- !app_assoc. cbn [app]. by rewrite <- Heq.
Qed.

(** * Properties *)

(** C24.  A pool URL means what its parts say: for every scheme, or none, a host and a
    port without slashes and colons, with any path after them, parse to that host
    and port with the flags of the scheme; without a port, 4333 for TLS and 3333
    otherwise. *)
Theorem pool_url_parses scheme use_tls verify_tls host port path :
  (scheme, (use_tls, verify_tls)) ∈ url_schemes \/
    (scheme = ""%string /\ use_tls = false /\ verify_tls = true) ->
  host <> ""%string -> port <> ""%string -> (strlen host < 256)%nat -> (strlen port < 16)%nat ->
  no_char "/" (chars host) -> no_char ":" (chars host) ->
  no_char "/" (chars port) -> no_char ":" (chars port) -> path_tail path ->
  parse_pool_url (scheme ++ host ++ ":" ++ port ++ path) =
    Some (PoolEndpoint host port use_tls verify_tls) /\
  parse_pool_url (scheme ++ host ++ path) =
    Some (PoolEndpoint host (if use_tls then "4333" else "3333")%string use_tls verify_tls).
Proof.
  intros Hscheme Hh0 Hp0 Hh Hp Hhs Hhc Hps Hpc Hpath.
  assert (Hstrip : forall tail, plain_tail tail ->
    strip_scheme url_schemes (chars scheme ++ chars host ++ tail) = (chars host ++ tail, (use_tls, verify_tls))).
  { intros tail Ht. destruct Hscheme as [Hin|(-> & -> & ->)]; [exact (strip_scheme_known _ _ (chars host ++ tail) Hin)|].
    exact (strip_scheme_plain (chars host) tail Hhc Ht). }
  pose proof (chars_nonempty host Hh0) as Hhn. pose proof (chars_nonempty port Hp0) as Hpn.
  split.
  - rewrite (parse_stripped _ (chars host ++ chars (":" ++ port ++ path)) use_tls verify_tls
      (chars host ++ ":"%char :: chars port) path).
    + rewrite split_last_app by done. rewrite !of_chars_chars.
      rewrite copy_checked_fits by done. cbn [mbind option_bind].
      rewrite copy_checked_fits by done. cbn [mbind option_bind].
      rewrite (proj2 (String.eqb_neq _ _) Hh0), (proj2 (String.eqb_neq _ _) Hp0). done.
    + rewrite !chars_append. apply Hstrip. right; right. destruct (chars port) as [|c rest]; [done|].
      apply Forall_cons in Hps as [Hc _]. by exists c, (rest ++ chars path).
    + rewrite !chars_append. rewrite <- app_assoc. done.
    + by destruct (chars host).
    + rewrite length_app. cbn [length]. rewrite !length_chars. lia.
    + apply Forall_app_2; [done|]. by constructor.
    + done.
  - rewrite (parse_stripped _ (chars host ++ chars path) use_tls verify_tls (chars host) path); try done.
    + rewrite split_last_none by done. rewrite of_chars_chars.
      rewrite (copy_checked_fits 16) by (destruct use_tls; apply Nat.ltb_lt; reflexivity).
      rewrite (copy_checked_fits 256) by done. cbn [mbind option_bind].
      rewrite (proj2 (String.eqb_neq _ _) Hh0). by destruct use_tls.
    + rewrite !chars_append. apply Hstrip. destruct Hpath as [->|Hpath]; [by left|].
      right; left. destruct (chars path) as [|c rest]; [done|]. injection Hpath as ->. by exists rest.
    + rewrite length_chars. lia.
Qed.

(** A TLS attempt that reaches a session. *)
Definition tls_ok (a : attempt) : bool :=
  at_connect_tcp a && at_ssl_ctx_new a && at_ssl_new a && at_ssl_connect a.
(** One that fails in the handshake. *)
Definition tls_refused (a : attempt) : bool :=
  at_connect_tcp a && at_ssl_ctx_new a && at_ssl_new a && negb (at_ssl_connect a).

Lemma tls_ok_refused a : tls_ok a = true -> tls_refused a = false.
Proof. by destruct a as [[] [] [] []]. Qed.
Lemma conn_open_once_tls endpoint verify a :
  ep_use_tls endpoint = true ->
  conn_open_once endpoint verify a = (if tls_ok a then Some (tls verify) else None, tls_refused a).
Proof. intros H. unfold conn_open_once, tls_ok, tls_refused. rewrite H. by destruct a as [[] [] [] []]. Qed.
Lemma conn_open_once_plain endpoint verify a :
  ep_use_tls endpoint = false ->
  conn_open_once endpoint verify a = (if at_connect_tcp a then Some plain_tcp else None, false).
Proof. intros H. unfold conn_open_once. rewrite H. by destruct (at_connect_tcp a). Qed.

(** Which transport a pool gets.  Without TLS, one plain attempt decides.  With
    TLS the connection is verified exactly when verification is asked for and the
    first attempt succeeds; it is unverified TLS when verification is off, or when
    the verified handshake failed and the unverified attempt succeeds; it is plain
    TCP, unencrypted, when every TLS attempt made has failed and the last plain
    attempt connects.  At most three attempts are made. *)
Theorem conn_open_transport endpoint attempts :
  let '(r, calls) := conn_open endpoint attempts in
  let a0 := attempts 0%nat in
  let a1 := attempts 1%nat in
  let retry := ep_verify_tls endpoint && tls_refused a0 in
  (calls <= 3)%nat /\
  if ep_use_tls endpoint then
    (r = Some (tls true) <-> ep_verify_tls endpoint = true /\ tls_ok a0 = true) /\
    (r = Some (tls false) <-> (ep_verify_tls endpoint = false /\ tls_ok a0 = true) \/
                              (retry = true /\ tls_ok a1 = true)) /\
    (r = Some plain_tcp <-> tls_ok a0 = false /\ (retry = true -> tls_ok a1 = false) /\
                            at_connect_tcp (attempts (if retry then 2 else 1)%nat) = true)
  else calls = 1%nat /\ r = if at_connect_tcp a0 then Some plain_tcp else None.
Proof.
  destruct endpoint as [h p u v]. unfold conn_open. cbn [ep_use_tls ep_verify_tls ep_host ep_port].
  destruct u; cbn [andb].
  - cbv zeta. rewrite !conn_open_once_tls by done. cbn [fst].
    destruct (tls_ok (attempts 0%nat)) eqn:E0.
    { rewrite (tls_ok_refused _ E0), andb_false_r. split; [lia|]. destruct v; naive_solver. }
    destruct v, (tls_refused (attempts 0%nat)), (tls_ok (attempts 1%nat)); cbn [andb fst];
      rewrite ?conn_open_once_plain by done; cbn [fst];
      (split; [lia|]); try (case_match); naive_solver.
  - rewrite conn_open_once_plain by done. destruct (at_connect_tcp (attempts 0%nat)); cbn; (split; [lia|done]).
Qed.

(** Writing is exact over partial writes and retries, with and without TLS: on
    success the bytes handed to the transport are exactly the data; whatever
    happens they are a prefix of it; and calls that each make progress finish it. *)
Theorem conn_write_exact use_tls data results :
  let '(sent, rest, rc) := conn_write use_tls data results in
  (rc = Some 0 -> sent = data) /\ (exists unsent, data = sent ++ unsent) /\
  (rc = Some 0 \/ rc = Some (-1) \/ (rc = None /\ rest = [])) /\
  (Forall (fun r => 0 < io_ret r) results -> (length data <= length results)%nat -> rc = Some 0).
Proof.
  revert data. induction results as [|r results IH]; intros data.
  - destruct data as [|c data]; cbn [conn_write length].
    + split_and!; [done|by exists []|by left|done].
    + split_and!; [done|by exists (c :: data)|by right; right|lia].
  - destruct data as [|c data]; [cbn; split_and!; [done|by exists []|by left|done]|].
    cbn [conn_write]. set (d := c :: data). assert (Hd : (0 < length d)%nat) by (cbn; lia). clearbody d.
    destruct (if use_tls then io_ret r <=? 0 else io_ret r <? 0) eqn:E.
    + assert (Hn : 0 < io_ret r -> False)
        by (destruct use_tls; [apply Z.leb_le in E|apply Z.ltb_lt in E]; lia).
      destruct (io_retry r).
      * specialize (IH d). destruct (conn_write use_tls d results) as [[sent rest] rc].
        destruct IH as (H1 & H2 & H3 & _). split_and!; try done.
        intros Hf. apply Forall_cons in Hf as [Hf _]. done.
      * split_and!; [done|by exists d|naive_solver|]. intros Hf. apply Forall_cons in Hf as [Hf _]. done.
    + specialize (IH (drop (Z.to_nat (io_ret r)) d)).
      destruct (conn_write use_tls _ results) as [[sent rest] rc]. destruct IH as (H1 & (u & H2) & H3 & H4).
      split_and!; [|exists u|done|].
      * intros Hrc. by rewrite (H1 Hrc), take_drop.
      * by rewrite <- app_assoc, <- H2, take_drop.
      * intros Hf Hlen. apply Forall_cons in Hf as [Hpos Hf]. apply H4; [done|].
        rewrite length_drop. cbn [length] in Hlen. lia.
Qed.

(** C25.  The line reader neither loses, repeats nor reorders bytes, however the
    stream is cut into reads and however many calls time out on the way: the lines
    returned by successive calls, each with its newline and possibly a carriage return
    put back, followed by what is still buffered, are exactly the bytes buffered before
    and delivered since. *)
Theorem lines_in_order use_tls out_size k buffer events :
  let '(lines, buffer', events') := read_lines use_tls out_size k buffer events in
  exists used raws,
    events = used ++ events' /\
    buffer ++ events_data use_tls used = concat ((fun raw => raw ++ [newline]) <$> raws) ++ buffer' /\
    Forall2 (fun line raw => line = strip_cr raw /\ no_newline raw /\ (length line < out_size)%nat)
      lines raws.
Proof.
  enough (H : let '(lines, buffer', events') := read_lines use_tls out_size k buffer events in
    lines_of use_tls out_size buffer events lines buffer' events') by by destruct (read_lines _ _ _ _ _) as [[? ?] ?].
  revert buffer events. induction k as [|k IH]; intros buffer events; cbn [read_lines]; [apply lines_of_nil|].
  destruct (read_line use_tls out_size buffer events) as [r|] eqn:E; [|apply lines_of_nil].
  apply read_line_spec in E as (used & -> & Hspec). destruct r as [rc line b es].
  unfold read_spec in Hspec. cbn [ro_rc ro_line ro_buffer ro_events] in *. specialize (IH b es).
  destruct Hspec as [(-> & raw & Hraw & Hcut & -> & Hlen)|[(-> & -> & _)|(Hrc & -> & _)]].
  - cbn [Z.eqb Pos.eqb]. destruct (read_lines use_tls out_size k b es) as [[lines b'] es']. by eapply lines_of_cons.
  - apply lines_of_wait, lines_of_nil.
  - destruct (Z.eqb_spec rc 1) as [->|_]; [by rewrite !elem_of_cons in Hrc; destruct Hrc as [?|[?|[?|?%elem_of_nil]]]|].
    destruct (rc =? -3); [|apply lines_of_wait, lines_of_nil].
    destruct (read_lines use_tls out_size k _ es) as [[lines b'] es']. by apply lines_of_wait.
Qed.

Lemma pool_url_parses_witness :
  parse_pool_url "stratum+tls://pool.example:443/x" = Some (PoolEndpoint "pool.example" "443" true true).
Proof.
  apply (proj1 (pool_url_parses "stratum+tls://" true true "pool.example" "443" "/x"
    ltac:(left; unfold url_schemes; set_solver) ltac:(discriminate) ltac:(discriminate)
    ltac:(apply Nat.ltb_lt; reflexivity) ltac:(apply Nat.ltb_lt; reflexivity)
    ltac:(apply (bool_decide_unpack (Forall _ _)); reflexivity)
    ltac:(apply (bool_decide_unpack (Forall _ _)); reflexivity)
    ltac:(apply (bool_decide_unpack (Forall _ _)); reflexivity)
    ltac:(apply (bool_decide_unpack (Forall _ _)); reflexivity)
    ltac:(right; reflexivity))).
Defined.

(** Four bytes, a timeout, then the rest of the line and the start of the next: the
    line comes back whole. *)
Definition wread (data : string) : read_event :=
  ReadEvent poll_ready (IoResult (Z.of_nat (String.length data)) false false) (chars data).
Definition wstream : list read_event :=
  [wread "{id"; ReadEvent poll_timeout (IoResult 0 false false) []; wread (String "}" (String newline "{"))].
Lemma lines_in_order_witness :
  fst (read_lines false 64 3 [] wstream) = ([chars "{id}"], chars "{") /\
  exists raws, chars "{id" ++ chars "}" ++ [newline] ++ chars "{" =
    concat ((fun raw => raw ++ [newline]) <$> raws) ++ chars "{".
Proof.
  split; [reflexivity|]. destruct (lines_in_order false 64 3 [] wstream) as (used & raws & Hu & H & _).
  exists raws. destruct used as [|? [|? [|? [|]]]]; try discriminate Hu.
  injection Hu as <- <- <-. exact H.
Defined.
