(* ===== verification/Client.v ===== *)
(** The session loop of src/src/stratum.c ([stratum_run_client]) and the requests it
    sends.

    The loop is a machine whose steps contain at most one operation on the miner, so
    that the workers can interleave with it (ClientSafety.v).  Clock readings, key
    presses and the transport are inputs of the steps.  The statistics are in Stats.v,
    the start and the end of the run in ClientRun.v. *)
From stdpp Require Import base tactics list option strings relations.
From Stdlib Require Import ZArith Lia Ascii SpecFloat.
From S2P Require Import Prelude Words Fips Sha256d Float64 Hex Target Job Miner Json Stratum StratumNet.

#[local] Open Scope Z_scope.

(** * Requests *)

(** The sending side of the connection: the bytes sent so far and the number of
    [conn_write] calls made. *)
Record conn := Conn { c_sent : list ascii; c_writes : nat }.

Section requests.
Context `{J : Jansson}.

(** How the [k]-th [conn_write] ends: [None] when all was sent, or the number of
    bytes that were before it failed (conn_write_exact of StratumNet.v). *)
Context (write_result : nat -> option nat).
(** Defined by the build in btcrig_version.h. *)
Context (BTCRIG_USER_AGENT : string).

Definition conn_put (c : conn) (data : list ascii) : conn * Z :=
  match write_result (c_writes c) with
  | None => (Conn (c_sent c ++ data) (S (c_writes c)), 0)
  | Some k => (Conn (c_sent c ++ take k data) (S (c_writes c)), -1)
  end.

Definition request (id : Z) (method : string) (params : json_t J) : json_t J :=
  let root := json_object in
  let root := json_object_set_new root "id" (Some (json_integer id)) in
  let root := json_object_set_new root "method" (json_string method) in
  json_object_set_new root "params" (Some params).

Definition send_request (c : conn) (id : Z) (method : string) (params : json_t J) : conn * Z :=
  match json_dumps (request id method params) with
  | None => (c, -1)
  | Some line =>
      let '(c, rc) := conn_put c (chars line) in
      if rc =? 0 then
        let '(c, rc) := conn_put c [newline] in
        (c, if rc =? 0 then 0 else -1)
      else (c, -1)
  end.

Definition send_subscribe (c : conn) : conn * Z :=
  send_request c 1 "mining.subscribe" (json_array_of [json_string BTCRIG_USER_AGENT]).
Definition send_authorize (c : conn) (user password : string) : conn * Z :=
  send_request c 2 "mining.authorize" (json_array_of [json_string user; json_string password]).
Definition send_suggest_difficulty (c : conn) (difficulty : double) : conn * Z :=
  send_request c 3 "mining.suggest_difficulty" (json_array_of [json_real difficulty]).

(** [snprintf(nonce_hex, 9, "%08x", nonce)] *)
Definition nonce_hex (nonce : Z) : string := of_chars (take 8 (format_0llx 8 nonce)).
Definition submit_params (user : string) (share : miner_share_t) : json_t J :=
  json_array_of [json_string user; json_string (share_job_id share);
    json_string (share_extranonce2 share); json_string (share_ntime share);
    json_string (nonce_hex (share_nonce share))].
Definition send_submit_share (c : conn) (id : Z) (user : string) (share : miner_share_t) : conn * Z :=
  send_request c id "mining.submit" (submit_params user share).

(** * The session *)

Context `{O : OpenSSL} {D : Type}.

Record client_config := ClientConfig {
  cf_user : string; cf_password : string; cf_suggest_difficulty : double;
  cf_stop_at : double; cf_session_seconds : double; cf_use_tls : bool;
}.
Context (cf : client_config).

(** Where the loop is. *)
Inductive cpc :=
  | CTop
  | CKeys (keys : list ascii)
  | CFlush
  | CRoll
  | CRebuild
  | CRead
  | CHandle (line : string)
  | CSend
  | CExit (run_result : Z).

(** [submitted] is a ghost: the shares sent, with their request id and the job of the
    miner when they were taken. *)
Record client := Client {
  cl_state : stratum_state_t O D;
  cl_conn : conn;
  cl_buffer : list ascii;
  authorize_sent : bool;
  suggest_sent : bool;
  next_rpc_id : Z;
  session_stop_at : double;
  cl_pc : cpc;
  submitted : list (Z * miner_share_t * miner_job_t);
}.

Definition at_cpc (p : cpc) (c : client) : client :=
  Client (cl_state c) (cl_conn c) (cl_buffer c) (authorize_sent c) (suggest_sent c) (next_rpc_id c)
    (session_stop_at c) p (submitted c).
Definition with_state (s : stratum_state_t O D) (p : cpc) (c : client) : client :=
  Client s (cl_conn c) (cl_buffer c) (authorize_sent c) (suggest_sent c) (next_rpc_id c)
    (session_stop_at c) p (submitted c).

(** The exit conditions at the top of the loop. *)
Definition loop_top (c : client) (now : double) (keys : list ascii) : client :=
  if f64_lt (f64_of_Z 0) (cf_stop_at cf) && f64_le (cf_stop_at cf) now then at_cpc (CExit 0) c
  else if f64_lt (f64_of_Z 0) (session_stop_at c) && f64_le (session_stop_at c) now
  then at_cpc (CExit 0) c
  else at_cpc (CKeys keys) c.

(** One key: 'p' pauses, 'r' resumes, the others only print. *)
Definition handle_key (s : stratum_state_t O D) (ch : ascii) : stratum_state_t O D :=
  match st_miner s with
  | None => s
  | Some m =>
      if Ascii.eqb ch "p" || Ascii.eqb ch "P" then
        if miner_is_paused m then s else set_st_miner (Some (miner_set_paused m true)) s
      else if Ascii.eqb ch "r" || Ascii.eqb ch "R" then
        if negb (miner_is_paused m) then s else set_st_miner (Some (miner_set_paused m false)) s
      else s
  end.

(** One turn of the loop of [flush_shares]. *)
Definition flush_share (c : client) (now : double) : client :=
  let s := cl_state c in
  match st_miner s with
  | None => at_cpc CRoll c
  | Some m =>
      match miner_pop_share m with
      | (_, None) => at_cpc CRoll c
      | (m', Some share) =>
          let s := set_st_miner (Some m') s in
          let id := next_rpc_id c in
          let '(conn, rc) := send_submit_share (cl_conn c) id (cf_user cf) share in
          if negb (rc =? 0) then
            Client s conn (cl_buffer c) (authorize_sent c) (suggest_sent c) (id + 1)
              (session_stop_at c) (CExit 1) (submitted c)
          else
            let s := set_st_shares (count_submit (register_pending_share (st_shares s) id share now)) s in
            Client s conn (cl_buffer c) (authorize_sent c) (suggest_sent c) (id + 1)
              (session_stop_at c) CFlush (submitted c ++ [(id, share, public_job (job m))])
      end
  end.

(** The two calls of [maybe_roll_extranonce]. *)
Definition roll_take (c : client) : client :=
  match st_miner (cl_state c) with
  | None => at_cpc CRead c
  | Some m =>
      let '(m, exhausted) := miner_take_nonce_exhausted m in
      with_state (set_st_miner (Some m) (cl_state c)) (if exhausted then CRebuild else CRead) c
  end.
Definition roll_rebuild (c : client) : client :=
  with_state (fst (rebuild_miner_job (cl_state c))) CRead c.

(** What the loop does with the outcome of [read_line]. *)
Definition after_read (c : client) (r : read_outcome) : client :=
  let c' p := Client (cl_state c) (cl_conn c) (ro_buffer r) (authorize_sent c) (suggest_sent c)
                (next_rpc_id c) (session_stop_at c) p (submitted c) in
  if ro_rc r =? -3 then c' CTop
  else if ro_rc r =? 0 then c' (CExit 1)
  else if ro_rc r <? 0 then c' (CExit 1)
  else if String.eqb (c_string (ro_line r)) "" then c' CSend
  else c' (CHandle (c_string (ro_line r))).

(** A request sent the first time its condition holds: the connection, whether it
    has been sent, and whether the session goes on. *)
Definition send_once (cond : bool) (send : conn -> conn * Z) (c : conn) (sent : bool)
  : conn * bool * bool :=
  if cond && negb sent then
    let '(c, rc) := send c in
    if negb (rc =? 0) then (c, sent, false) else (c, true, true)
  else (c, sent, true).

(** The requests and the session clock after a line. *)
Definition authorize_once (c : client) : client * bool :=
  let s := cl_state c in
  let '(conn, sent, ok) :=
    send_once (subscribed s) (fun conn => send_authorize conn (cf_user cf) (cf_password cf))
      (cl_conn c) (authorize_sent c) in
  (Client s conn (cl_buffer c) sent (suggest_sent c) (next_rpc_id c) (session_stop_at c) (cl_pc c)
     (submitted c), ok).
Definition suggest_once (c : client) : client * bool :=
  let s := cl_state c in
  let '(conn, sent, ok) :=
    send_once (authorized s && f64_lt (f64_of_Z 0) (cf_suggest_difficulty cf))
      (fun conn => send_suggest_difficulty conn (cf_suggest_difficulty cf))
      (cl_conn c) (suggest_sent c) in
  (Client s conn (cl_buffer c) (authorize_sent c) sent (next_rpc_id c) (session_stop_at c) (cl_pc c)
     (submitted c), ok).
Definition session_clock (c : client) (now : double) : client :=
  let s := cl_state c in
  let stop_at :=
    if f64_eq (session_stop_at c) (f64_of_Z 0) && f64_lt (f64_of_Z 0) (cf_session_seconds cf) &&
       authorized s && (0 <? notify_count s)
    then f64_add now (cf_session_seconds cf) else session_stop_at c in
  Client s (cl_conn c) (cl_buffer c) (authorize_sent c) (suggest_sent c) (next_rpc_id c) stop_at
    (cl_pc c) (submitted c).
Definition after_line (c : client) (now : double) : client :=
  let '(c, ok) := authorize_once c in
  if negb ok then at_cpc (CExit 1) c
  else
    let '(c, ok) := suggest_once c in
    if negb ok then at_cpc (CExit 1) c else at_cpc CTop (session_clock c now).

Inductive client_step (c : client) : client -> Prop :=
  | cs_top now keys : cl_pc c = CTop -> client_step c (loop_top c now keys)
  | cs_key k ks : cl_pc c = CKeys (k :: ks) ->
      client_step c (with_state (handle_key (cl_state c) k) (CKeys ks) c)
  | cs_keys : cl_pc c = CKeys [] -> client_step c (at_cpc CFlush c)
  | cs_flush now : cl_pc c = CFlush -> client_step c (flush_share c now)
  | cs_roll : cl_pc c = CRoll -> client_step c (roll_take c)
  | cs_rebuild : cl_pc c = CRebuild -> client_step c (roll_rebuild c)
  | cs_read events r : cl_pc c = CRead ->
      read_line (cf_use_tls cf) (Z.to_nat 65536) (cl_buffer c) events = Some r ->
      client_step c (after_read c r)
  | cs_handle line now : cl_pc c = CHandle line ->
      client_step c (with_state (fst (stratum_process_line (cl_state c) line now)) CSend c)
  | cs_send now : cl_pc c = CSend -> client_step c (after_line c now).

(** The session once connected, with the miner started or mining disabled, and the
    subscribe request sent. *)
Definition client_start (url host port : string) (now : double) (miner : option (miner O D)) : client :=
  let s : stratum_state_t O D := stratum_state_init now in
  let pool := PoolInfo (snprintf_s 256 url) (snprintf_s 256 host) (snprintf_s 16 port)
                (snprintf_s 256 (cf_user cf)) now now 1 in
  let s := StratumState pool (extranonce1 s) (extranonce2_size s) (extranonce2_counter s) (difficulty s)
             (current_job_id s) (current_ntime s) (notify_count s) (template_valid s) (st_template s)
             (st_shares s) (subscribed s) (authorized s) miner in
  let '(conn, rc) := send_subscribe (Conn [] 0) in
  Client s conn [] false false 4 (f64_of_Z 0) (if rc =? 0 then CTop else CExit 1) [].
End requests.
Arguments client _ _ : clear implicits.

(** * Lemmas on requests *)

Section request_lemmas.
Context `{J : Jansson} `{!JanssonLaws J}.
Context (write_result : nat -> option nat).

(** The strings of an array of strings, as the pool reads them. *)
Lemma strings_spec (l : list string) :
  Forall is_ascii_string l ->
  let a := json_array_of (json_string (Jansson := J) <$> l) in
  json_is_array' a = true /\ json_array_size' a = length l /\
  forall i s, l !! i = Some s -> json_string_value (json_array_get (Some a) i) = Some s.
Proof.
  intros Hl a.
  assert (H : exists xs, json_string <$> l = Some <$> xs /\ Forall2 (fun s x => json_string (Jansson := J) s = Some x) l xs).
  { induction Hl as [|s l Hs _ (xs & He & Hf)]; [by exists []|].
    destruct (string_ascii s Hs) as [x Hx]. exists (x :: xs). cbn. rewrite Hx. split; [by f_equal|by constructor]. }
  destruct H as (xs & He & Hf). subst a. rewrite He. destruct (array_of_spec xs) as (Ha & Hs & Hg).
  split; [done|]. split; [by rewrite Hs, (Forall2_length _ _ _ Hf)|].
  intros i s Hi. destruct (Forall2_lookup_l _ _ _ _ _ Hf Hi) as (x & Hx & Hv).
  unfold json_array_get. cbn [mbind option_bind]. rewrite (Hg i x Hx). by apply string_value.
Qed.

(** What [send_request] builds, read back. *)
Lemma request_spec id method (params : json_t J) :
  is_ascii_string method ->
  let r := request id method params in
  json_is_object' r = true /\ json_object_get' r "id" = Some (json_integer id) /\
  json_string_value (json_object_get' r "method") = Some method /\
  json_object_get' r "params" = Some params.
Proof.
  intros Hm. unfold request, json_object_set_new. cbv zeta. cbn [from_option].
  destruct (string_ascii method Hm) as [x Hx]. rewrite Hx. cbn [from_option].
  pose proof (object_is (J := J)) as H0.
  assert (H1 : json_is_object' (json_object_set_new' json_object "id" (json_integer id)) = true) by by apply object_set_is.
  assert (H2 : json_is_object' (json_object_set_new'
    (json_object_set_new' json_object "id" (json_integer id)) "method" x) = true) by by apply object_set_is.
  split; [by apply object_set_is|]. rewrite !object_get_set by done. cbn.
  split; [done|]. split; [|done]. by apply string_value.
Qed.

(** A request that is sent is one line. *)
Definition request_line (id : Z) (method : string) (params : json_t J) : list ascii :=
  chars (default "" (json_dumps (request id method params))) ++ [newline].

Lemma send_request_cases c id method (params : json_t J) :
  let '(c', rc) := send_request write_result c id method params in
  (rc = 0 /\ c_sent c' = c_sent c ++ request_line id method params /\
   is_Some (json_dumps (request id method params))) \/
  (rc = -1 /\ exists part, c_sent c' = c_sent c ++ part).
Proof.
  unfold send_request, request_line, conn_put.
  destruct (json_dumps (request id method params)) as [line|]; cbn [default];
    [|right; split; [done|]; exists []; by rewrite app_nil_r].
  destruct (write_result (c_writes c)) as [k|]; cbn [Z.eqb]; [right; split; [done|]; by eexists|].
  cbn [c_writes c_sent]. destruct (write_result (S (c_writes c))) as [k|]; cbn [Z.eqb c_sent].
  - right. split; [done|]. eexists. by rewrite <- app_assoc.
  - left. split; [done|]. split; [by rewrite <- app_assoc|by eexists].
Qed.

Lemma send_request_ok c id method (params : json_t J) :
  is_ascii_string method -> write_result (c_writes c) = None -> write_result (S (c_writes c)) = None ->
  send_request write_result c id method params =
    (Conn (c_sent c ++ request_line id method params) (S (S (c_writes c))), 0).
Proof.
  intros Hm H1 H2. destruct (request_spec id method params Hm) as (Ho & _).
  destruct (dumps_object _ Ho) as [line Hl].
  unfold send_request, request_line, conn_put. rewrite Hl, H1. cbn [Z.eqb c_writes c_sent default]. rewrite H2.
  by rewrite <- app_assoc.
Qed.
End request_lemmas.

(** The nonce is sent as its four bytes in hexadecimal, most significant first. *)
Lemma nonce_hex_be nonce : is_u32 nonce -> nonce_hex nonce = hex_of_bytes (be 4 nonce).
Proof.
  intros [H1 H2]. unfold nonce_hex. change 8%nat with (2 * 4)%nat.
  rewrite format_0llx_fits by (cbn; lia). rewrite take_ge; [apply of_chars_chars|].
  rewrite chars_hex_of_bytes, length_hex_bytes, length_be. done.
Qed.
Lemma hex_digit_ascii d : 0 <= d < 16 -> 0 < code (hex_digit d) < 128.
Proof.
  intros Hd. assert (H : Forall (fun d => 0 < code (hex_digit d) < 128) (seqZ 0 16))
    by (apply (bool_decide_unpack _); vm_compute; exact I).
  rewrite list.Forall_forall in H. apply H, elem_of_seqZ. lia.
Qed.
Lemma nonce_hex_ascii nonce : is_u32 nonce -> is_ascii_string (nonce_hex nonce).
Proof.
  intros Hn. rewrite nonce_hex_be by done. unfold is_ascii_string. rewrite chars_hex_of_bytes.
  apply Forall_concat, Forall_fmap. eapply Forall_impl; [apply be_bytes|]. intros b Hb.
  unfold is_u8 in Hb. assert (0 <= b / 16 < 16) by (split; [apply Z.div_pos|apply Z.div_lt_upper_bound]; lia).
  pose proof (Z.mod_pos_bound b 16 ltac:(lia)).
  unfold compose, hex_byte. repeat constructor; by apply hex_digit_ascii.
Qed.

(** * The log of a session *)

Section session.
Context `{J : Jansson} `{!JanssonLaws J} `{O : OpenSSL} {D : Type}.
Context (write_result : nat -> option nat) (BTCRIG_USER_AGENT : string) (cf : client_config).
#[local] Abbreviation client := (client O D).
#[local] Abbreviation client_step := (client_step (J := J) (D := D) write_result cf).
#[local] Abbreviation client_start := (client_start (J := J) (D := D) write_result BTCRIG_USER_AGENT cf).
Implicit Types c : client.

(** The requests a session sends, and their lines. *)
Inductive cmd := Subscribe | Authorize | Suggest | Submit (id : Z) (share : miner_share_t).
Definition cmd_line (x : cmd) : list ascii :=
  match x with
  | Subscribe => request_line (J := J) 1 "mining.subscribe" (json_array_of [json_string BTCRIG_USER_AGENT])
  | Authorize => request_line (J := J) 2 "mining.authorize"
      (json_array_of [json_string (cf_user cf); json_string (cf_password cf)])
  | Suggest => request_line (J := J) 3 "mining.suggest_difficulty"
      (json_array_of [json_real (cf_suggest_difficulty cf)])
  | Submit id share => request_line (J := J) id "mining.submit" (submit_params (cf_user cf) share)
  end.
Definition cmd_id (x : cmd) : Z :=
  match x with Subscribe => 1 | Authorize => 2 | Suggest => 3 | Submit id _ => id end.
Definition submission (x : cmd) : option (Z * miner_share_t) :=
  match x with Submit id share => Some (id, share) | _ => None end.
Definition exited c : Prop := exists r, cl_pc c = CExit r.

(** What the bytes sent and the bookkeeping of the session say together.  After a
    failed write a part of one more line may have been sent. *)
Record session_log c (cmds : list cmd) (part : list ascii) : Prop := {
  sl_sent : c_sent (cl_conn c) = concat (cmd_line <$> cmds) ++ part;
  sl_part : part = [] \/ exited c;
  sl_ids : NoDup (cmd_id <$> cmds);
  sl_first : match cmds with [] => exited c | x :: _ => x = Subscribe end;
  sl_authorize : Authorize ∈ cmds <-> authorize_sent c = true;
  sl_suggest : Suggest ∈ cmds <-> suggest_sent c = true;
  sl_submits : omap submission cmds = fst <$> submitted c;
  sl_numbers : (fun x => fst (fst x)) <$> submitted c = seqZ 4 (Z.of_nat (length (submitted c)));
  sl_next : exited c \/ next_rpc_id c = 4 + Z.of_nat (length (submitted c));
  sl_subscribed : authorize_sent c = true -> subscribed (cl_state c) = true;
}.

(** What a step may do to the fields the log is about. *)
Lemma submission_ids cmds :
  Forall (fun x => match x with Submit id _ => 4 <= id | _ => True end) cmds ->
  filter (fun id => 4 <= id) (cmd_id <$> cmds) = fst <$> omap submission cmds.
Proof.
  induction 1 as [|x cmds Hx _ IH]; [done|]. rewrite fmap_cons, filter_cons.
  destruct x; cbn [cmd_id omap list_omap submission]; rewrite ?decide_False by lia; try exact IH.
  rewrite decide_True by done. rewrite fmap_cons. by rewrite IH.
Qed.

Lemma elem_submission id share (cmds : list cmd) : Submit id share ∈ cmds -> (id, share) ∈ omap submission cmds.
Proof. intros H. apply list_elem_of_omap. by exists (Submit id share). Qed.

Lemma submit_id_bound c cmds part id share :
  session_log c cmds part -> Submit id share ∈ cmds -> 4 <= id < 4 + Z.of_nat (length (submitted c)).
Proof.
  intros Hl Hin. apply elem_submission in Hin. rewrite (sl_submits _ _ _ Hl) in Hin.
  apply list_elem_of_fmap in Hin as ([[i sh] j] & [= -> ->] & Hin).
  assert (H : i ∈ (fun x : Z * miner_share_t * miner_job_t => fst (fst x)) <$> submitted c)
    by (apply list_elem_of_fmap; exists (i, sh, j); by split).
  rewrite (sl_numbers _ _ _ Hl) in H. apply elem_of_seqZ in H. lia.
Qed.

(** A step that sends nothing. *)
Lemma log_keep c c' cmds part :
  session_log c cmds part -> ~ exited c ->
  cl_conn c' = cl_conn c -> authorize_sent c' = authorize_sent c -> suggest_sent c' = suggest_sent c ->
  submitted c' = submitted c -> next_rpc_id c' = next_rpc_id c ->
  (subscribed (cl_state c) = true -> subscribed (cl_state c') = true) ->
  session_log c' cmds part.
Proof.
  intros [H1 H2 H3 H4 H5 H6 H7 H8 H9 H10] Hne E1 E2 E3 E4 E5 E6.
  split; rewrite ?E1, ?E2, ?E3, ?E4, ?E5; try done.
  - destruct H2; [by left|done].
  - by destruct cmds.
  - destruct H9; [done|by right].
  - intros H. by apply E6, H10.
Qed.

(** A failed write: a part of a line is sent and the session ends. *)
Lemma log_fail c c' cmds part more :
  session_log c cmds part -> ~ exited c ->
  c_sent (cl_conn c') = c_sent (cl_conn c) ++ more ->
  authorize_sent c' = authorize_sent c -> suggest_sent c' = suggest_sent c ->
  submitted c' = submitted c -> subscribed (cl_state c') = subscribed (cl_state c) ->
  exited c' -> session_log c' cmds (part ++ more).
Proof.
  intros [H1 H2 H3 H4 H5 H6 H7 H8 H9 H10] Hne E1 E2 E3 E4 E5 E6.
  split; rewrite ?E1, ?E2, ?E3, ?E4, ?E5; try done.
  - by rewrite H1, <- app_assoc.
  - by right.
  - by destruct cmds.
  - by left.
Qed.

Lemma cmd_id_cases c cmds part x :
  session_log c cmds part -> (x = Authorize /\ authorize_sent c = false \/
    x = Suggest /\ suggest_sent c = false) -> cmd_id x ∉ cmd_id <$> cmds.
Proof.
  intros Hl Hx Hin. apply list_elem_of_fmap in Hin as (y & Hy & Hin).
  destruct Hx as [[-> Hf]|[-> Hf]], y as [| | |id share]; try done; cbn in Hy.
  - apply (sl_authorize _ _ _ Hl) in Hin. congruence.
  - pose proof (submit_id_bound _ _ _ _ _ Hl Hin). lia.
  - apply (sl_suggest _ _ _ Hl) in Hin. congruence.
  - pose proof (submit_id_bound _ _ _ _ _ Hl Hin). lia.
Qed.

(** An authorize or suggest request was sent. *)
Lemma log_login c c' cmds part x :
  session_log c cmds part -> ~ exited c ->
  c_sent (cl_conn c') = c_sent (cl_conn c) ++ cmd_line x ->
  (x = Authorize /\ authorize_sent c = false /\ authorize_sent c' = true /\
     suggest_sent c' = suggest_sent c /\ subscribed (cl_state c) = true \/
   x = Suggest /\ suggest_sent c = false /\ suggest_sent c' = true /\
     authorize_sent c' = authorize_sent c) ->
  submitted c' = submitted c -> next_rpc_id c' = next_rpc_id c -> cl_state c' = cl_state c ->
  session_log c' (cmds ++ [x]) [].
Proof.
  intros Hl Hne E1 Hx E2 E3 E4.
  assert (Hid : cmd_id x ∉ cmd_id <$> cmds) by (eapply cmd_id_cases; [exact Hl|naive_solver]).
  destruct Hl as [H1 H2 H3 H4 H5 H6 H7 H8 H9 H10]. destruct H2 as [->|]; [|done].
  rewrite app_nil_r in H1.
  split; rewrite ?E2, ?E3, ?E4; try done.
  - rewrite E1, H1, fmap_app, concat_app. cbn [fmap list_fmap concat]. by rewrite !app_nil_r.
  - by left.
  - rewrite fmap_app. apply NoDup_app. split; [done|]. split; [|apply NoDup_singleton].
    intros i Hi. cbn [fmap list_fmap]. rewrite list_elem_of_singleton. congruence.
  - destruct cmds; [done|exact H4].
  - rewrite elem_of_app, list_elem_of_singleton, H5. destruct Hx as [(-> & -> & -> & _)|(-> & _ & _ & ->)]; naive_solver.
  - rewrite elem_of_app, list_elem_of_singleton, H6. destruct Hx as [(-> & _ & _ & -> & _)|(-> & -> & -> & _)]; naive_solver.
  - rewrite omap_app, H7. destruct Hx as [(-> & _)|(-> & _)]; apply app_nil_r.
  - destruct H9; [done|by right].
  - destruct Hx as [(_ & _ & _ & _ & Hs)|(_ & _ & _ & ->)]; [done|exact H10].
Qed.

(** A share was submitted. *)
Lemma log_submit c c' cmds part share j :
  session_log c cmds part -> ~ exited c ->
  c_sent (cl_conn c') = c_sent (cl_conn c) ++ cmd_line (Submit (next_rpc_id c) share) ->
  authorize_sent c' = authorize_sent c -> suggest_sent c' = suggest_sent c ->
  submitted c' = submitted c ++ [(next_rpc_id c, share, j)] -> next_rpc_id c' = next_rpc_id c + 1 ->
  subscribed (cl_state c') = subscribed (cl_state c) ->
  session_log c' (cmds ++ [Submit (next_rpc_id c) share]) [].
Proof.
  intros Hl Hne E1 E2 E3 E4 E5 E6.
  assert (Hid : next_rpc_id c ∉ cmd_id <$> cmds).
  { intros Hin. apply list_elem_of_fmap in Hin as (y & Hy & Hin).
    destruct (sl_next _ _ _ Hl) as [?|Hn]; [done|]. destruct y as [| | |id sh]; cbn in Hy; try lia.
    pose proof (submit_id_bound _ _ _ _ _ Hl Hin). lia. }
  destruct Hl as [H1 H2 H3 H4 H5 H6 H7 H8 H9 H10]. destruct H2 as [->|]; [|done].
  rewrite app_nil_r in H1. destruct H9 as [|H9]; [done|].
  split; rewrite ?E2, ?E3, ?E4, ?E6; try done.
  - rewrite E1, H1, fmap_app, concat_app. cbn [fmap list_fmap concat]. by rewrite !app_nil_r.
  - by left.
  - rewrite fmap_app. apply NoDup_app. split; [done|]. split; [|apply NoDup_singleton].
    intros i Hi. cbn [fmap list_fmap cmd_id]. rewrite list_elem_of_singleton. congruence.
  - destruct cmds; [done|exact H4].
  - rewrite elem_of_app, list_elem_of_singleton, <- H5. naive_solver.
  - rewrite elem_of_app, list_elem_of_singleton, <- H6. naive_solver.
  - by rewrite omap_app, fmap_app, H7.
  - rewrite fmap_app, H8, length_app. cbn [fmap list_fmap fst length].
    rewrite Nat2Z.inj_add. change (Z.of_nat 1) with 1. rewrite seqZ_app by lia. by rewrite H9.
  - right. rewrite E5, H9, length_app. cbn. lia.
Qed.

Lemma rebuild_flags (s : stratum_state_t O D) :
  subscribed (fst (rebuild_miner_job s)) = subscribed s /\
  authorized (fst (rebuild_miner_job s)) = authorized s.
Proof. unfold rebuild_miner_job. cbv zeta. by repeat case_match. Qed.

(** A session that is subscribed stays so. *)
Lemma line_subscribed (s : stratum_state_t O D) line now :
  subscribed s = true -> subscribed (fst (stratum_process_line s line now)) = true.
Proof.
  intros Hs. unfold stratum_process_line. case_match; [|done]. case_match; cbn [fst].
  - unfold handle_method. cbv zeta. case_match; [|done].
    case_match; [|case_match; [|case_match; [|done]]].
    + unfold handle_set_difficulty. cbv zeta. destruct (json_is_number _); [|done].
      destruct (template_valid _); [|done]. by rewrite (proj1 (rebuild_flags _)).
    + unfold handle_notify. destruct (_ || _); [done|].
      pose proof (store_notify_keeps s (json_object_get (Some j) "params")) as (_ & _ & _ & _ & _ & Hk & _).
      destruct (store_notify s (json_object_get (Some j) "params")) as [s1 ok]. cbn [fst] in Hk.
      destruct (negb ok); [congruence|]. cbv zeta. rewrite (proj1 (rebuild_flags _)).
      cbn [subscribed set_template_valid]. congruence.
    + unfold handle_set_extranonce. cbv zeta.
      set (s1 := if json_is_string _ then _ else s). set (s2 := if json_is_integer _ then _ else s1).
      assert (Hs2 : subscribed s2 = true) by (subst s2 s1; by repeat case_match).
      clearbody s2. destruct (template_valid s2); [|done]. by rewrite (proj1 (rebuild_flags _)).
  - unfold handle_response. cbv zeta. by repeat case_match.
Qed.

Lemma exited_at c p : (forall r, p <> CExit r) -> cl_pc c = p -> ~ exited c.
Proof. intros Hp Hc [r Hr]. apply (Hp r). congruence. Qed.

(** [send_once] either sends nothing, or one line, or a part of one and fails. *)
Lemma send_once_cases cond (send : conn -> conn * Z) (line : list ascii) conn sent :
  (let '(conn', rc) := send conn in
   (rc = 0 /\ c_sent conn' = c_sent conn ++ line) \/
   (rc = -1 /\ exists part, c_sent conn' = c_sent conn ++ part)) ->
  let '(conn', sent', ok) := send_once cond send conn sent in
  (ok = true /\ conn' = conn /\ sent' = sent) \/
  (ok = true /\ c_sent conn' = c_sent conn ++ line /\ cond = true /\ sent = false /\ sent' = true) \/
  (ok = false /\ sent' = sent /\ exists part, c_sent conn' = c_sent conn ++ part).
Proof.
  intros H. unfold send_once. destruct cond, sent; cbn [andb negb]; try by left.
  destruct (send conn) as [conn' rc]. destruct H as [[-> H]|[-> H]]; cbn [Z.eqb negb].
  - by right; left.
  - by right; right.
Qed.

(** The two requests of [after_line]. *)
Lemma authorize_once_log c cmds part :
  session_log c cmds part -> ~ exited c ->
  let '(c', ok) := authorize_once write_result cf c in
  suggest_sent c' = suggest_sent c /\ cl_state c' = cl_state c /\ cl_pc c' = cl_pc c /\
  (authorize_sent c = false -> authorize_sent c' = true -> subscribed (cl_state c) = true) /\
  exists cmds' part', session_log (if ok then c' else at_cpc (CExit 1) c') cmds' part'.
Proof.
  intros Hl Hne. unfold authorize_once. cbv zeta.
  pose proof (send_once_cases (subscribed (cl_state c))
    (fun conn => send_authorize write_result conn (cf_user cf) (cf_password cf)) (cmd_line Authorize)
    (cl_conn c) (authorize_sent c)) as H1.
  destruct (send_once _ _ _ _) as [[conn1 auth] ok1].
  lapply H1; clear H1.
  2:{ unfold send_authorize. pose proof (send_request_cases write_result (cl_conn c) 2 "mining.authorize"
        (json_array_of [json_string (cf_user cf); json_string (cf_password cf)])) as H.
      destruct (send_request _ _ _ _ _) as [? ?]. destruct H as [(? & ? & _)|?]; [by left|by right]. }
  intros [(-> & -> & ->)|[(-> & Hc & Hcond & Hs & ->)|(-> & -> & more & Hc)]];
    cbn [authorize_sent suggest_sent cl_state cl_pc]; split_and!; try done; try congruence.
  - exists cmds, part. by apply (log_keep c).
  - exists (cmds ++ [Authorize]), []. apply (log_login c _ _ part); try done. by left.
  - exists cmds, (part ++ more). apply (log_fail c); try done. by eexists.
Qed.

Lemma suggest_once_log c cmds part :
  session_log c cmds part -> ~ exited c ->
  let '(c', ok) := suggest_once write_result cf c in
  authorize_sent c' = authorize_sent c /\ cl_state c' = cl_state c /\ cl_pc c' = cl_pc c /\
  (suggest_sent c = false -> suggest_sent c' = true -> authorized (cl_state c) = true) /\
  exists cmds' part', session_log (if ok then c' else at_cpc (CExit 1) c') cmds' part'.
Proof.
  intros Hl Hne. unfold suggest_once. cbv zeta.
  pose proof (send_once_cases (authorized (cl_state c) && f64_lt (f64_of_Z 0) (cf_suggest_difficulty cf))
    (fun conn => send_suggest_difficulty write_result conn (cf_suggest_difficulty cf)) (cmd_line Suggest)
    (cl_conn c) (suggest_sent c)) as H1.
  destruct (send_once _ _ _ _) as [[conn1 sug] ok1].
  lapply H1; clear H1.
  2:{ unfold send_suggest_difficulty.
      pose proof (send_request_cases write_result (cl_conn c) 3 "mining.suggest_difficulty"
        (json_array_of [json_real (cf_suggest_difficulty cf)])) as H.
      destruct (send_request _ _ _ _ _) as [? ?]. destruct H as [(? & ? & _)|?]; [by left|by right]. }
  intros [(-> & -> & ->)|[(-> & Hc & Hcond & Hs & ->)|(-> & -> & more & Hc)]];
    cbn [authorize_sent suggest_sent cl_state cl_pc]; split_and!; try done; try congruence.
  - exists cmds, part. by apply (log_keep c).
  - intros _ _. by apply andb_true_iff in Hcond as [? _].
  - exists (cmds ++ [Suggest]), []. apply (log_login c _ _ part); try done. by right.
  - exists cmds, (part ++ more). apply (log_fail c); try done. by eexists.
Qed.

Lemma after_line_log c now cmds part :
  session_log c cmds part -> ~ exited c ->
  let c' := after_line write_result cf c now in
  (exists cmds' part', session_log c' cmds' part') /\
  (authorize_sent c = false -> authorize_sent c' = true -> subscribed (cl_state c) = true) /\
  (suggest_sent c = false -> suggest_sent c' = true -> authorized (cl_state c) = true).
Proof.
  intros Hl Hne. unfold after_line. pose proof (authorize_once_log c cmds part Hl Hne) as H1.
  destruct (authorize_once write_result cf c) as [c1 ok1].
  destruct H1 as (Hg1 & Hs1 & Hp1 & Ha1 & cmds1 & part1 & Hl1).
  destruct ok1; cbn [negb]; [|split; [by eexists _, _|]; split; [done|]; cbn; congruence].
  assert (Hne1 : ~ exited c1) by (intros [r Hr]; apply Hne; exists r; congruence).
  pose proof (suggest_once_log c1 cmds1 part1 Hl1 Hne1) as H2.
  destruct (suggest_once write_result cf c1) as [c2 ok2].
  destruct H2 as (Ha2 & Hs2 & Hp2 & Hg2 & cmds2 & part2 & Hl2). rewrite Hs1, ?Hg1 in Hg2.
  split; [exists cmds2, part2|split; destruct ok2; cbn [negb at_cpc session_clock authorize_sent suggest_sent]; rewrite ?Ha2; done].
  destruct ok2; cbn [negb]; [|done]. apply (log_keep c2); try done.
  intros [r Hr]. apply Hne1. exists r. congruence.
Qed.

(** The other steps. *)
Lemma flush_log c now cmds part :
  session_log c cmds part -> ~ exited c ->
  let c' := flush_share write_result cf c now in
  (exists cmds' part', session_log c' cmds' part') /\
  authorize_sent c' = authorize_sent c /\ suggest_sent c' = suggest_sent c.
Proof.
  intros Hl Hne. unfold flush_share. cbv zeta.
  assert (Hkeep : (exists cmds' part', session_log (at_cpc CRoll c) cmds' part') /\
    authorize_sent (at_cpc CRoll c) = authorize_sent c /\ suggest_sent (at_cpc CRoll c) = suggest_sent c)
    by (split; [exists cmds, part; by apply (log_keep c)|done]).
  destruct (st_miner (cl_state c)) as [m|]; [|done].
  destruct (miner_pop_share m) as [m' [share|]]; [|done]. clear Hkeep.
  pose proof (send_request_cases write_result (cl_conn c) (next_rpc_id c) "mining.submit"
    (submit_params (cf_user cf) share)) as H. unfold send_submit_share.
  destruct (send_request _ _ _ _ _) as [conn' rc].
  destruct H as [(-> & Hc & _)|(-> & more & Hc)]; cbn [Z.eqb negb]; (split; [|done]).
  - exists (cmds ++ [Submit (next_rpc_id c) share]), [].
    by apply (log_submit c _ _ part share (public_job (job m))).
  - exists cmds, (part ++ more). apply (log_fail c); try done. by eexists.
Qed.

Lemma step_not_exited c c' : client_step c c' -> ~ exited c.
Proof. intros H [r Hr]. destruct H; congruence. Qed.

Lemma client_step_log c c' cmds part :
  session_log c cmds part -> client_step c c' ->
  (exists cmds' part', session_log c' cmds' part') /\
  (authorize_sent c = false -> authorize_sent c' = true -> subscribed (cl_state c) = true) /\
  (suggest_sent c = false -> suggest_sent c' = true -> authorized (cl_state c) = true).
Proof.
  intros Hl Hs. pose proof (step_not_exited _ _ Hs) as Hne.
  assert (Hkeep : forall c', cl_conn c' = cl_conn c -> authorize_sent c' = authorize_sent c ->
    suggest_sent c' = suggest_sent c -> submitted c' = submitted c -> next_rpc_id c' = next_rpc_id c ->
    (subscribed (cl_state c) = true -> subscribed (cl_state c') = true) ->
    (exists cmds' part', session_log c' cmds' part') /\
    (authorize_sent c = false -> authorize_sent c' = true -> subscribed (cl_state c) = true) /\
    (suggest_sent c = false -> suggest_sent c' = true -> authorized (cl_state c) = true)).
  { intros x E1 E2 E3 E4 E5 E6. split; [exists cmds, part; by apply (log_keep c)|]. split; congruence. }
  destruct Hs as [now keys H|k ks H|H|now H|H|H|events r H Hr|line now H|now H].
  - unfold loop_top. repeat case_match; by apply Hkeep.
  - apply Hkeep; try done. cbn [with_state cl_state]. unfold handle_key. by repeat case_match.
  - by apply Hkeep.
  - destruct (flush_log c now cmds part Hl Hne) as (He & E1 & E2). split; [done|]. split; congruence.
  - unfold roll_take. case_match; [|by apply Hkeep].
    destruct (miner_take_nonce_exhausted m) as [m' e]. by apply Hkeep.
  - apply Hkeep; try done. cbn [roll_rebuild with_state cl_state]. by rewrite (proj1 (rebuild_flags _)).
  - unfold after_read. cbv zeta. repeat case_match; by apply Hkeep.
  - apply Hkeep; try done. apply line_subscribed.
  - by eapply after_line_log.
Qed.

Lemma start_log url host port now m :
  exists cmds part, session_log (client_start url host port now m) cmds part.
Proof.
  unfold client_start. cbv zeta.
  pose proof (send_request_cases write_result (Conn [] 0) 1 "mining.subscribe"
    (json_array_of [json_string BTCRIG_USER_AGENT])) as H. unfold send_subscribe.
  destruct (send_request _ _ _ _ _) as [conn rc].
  destruct H as [(-> & Hc & _)|(-> & part & Hc)]; cbn [Z.eqb].
  - exists [Subscribe], []. split; try done; cbn [cl_conn authorize_sent suggest_sent fmap list_fmap].
    + rewrite Hc. cbn [c_sent concat app]. by rewrite !app_nil_r.
    + by left.
    + apply NoDup_singleton.
    + by rewrite list_elem_of_singleton.
    + by rewrite list_elem_of_singleton.
    + by right.
  - exists [], part. split; try done; cbn [cl_conn authorize_sent suggest_sent fmap list_fmap].
    + right. by eexists.
    + apply NoDup_nil_2.
    + by eexists.
    + split; [intros []%elem_of_nil|done].
    + split; [intros []%elem_of_nil|done].
    + by right.
Qed.
End session.

(** * Turns of the loop *)

Section turns.
Context `{J : Jansson} `{O : OpenSSL} {D : Type}.
Context (write_result : nat -> option nat) (cf : client_config).
#[local] Abbreviation client := (client O D).
#[local] Abbreviation client_step := (client_step (J := J) (D := D) write_result cf).
Implicit Types c : client.

(** The shares waiting in the miner's queue. *)
Definition queued c : nat :=
  match st_miner (cl_state c) with Some m => share_count m | None => 0 end.
(** The steps left in the turn of the loop. *)
Definition turn_left c : nat :=
  match cl_pc c with
  | CTop | CExit _ => 0
  | CKeys ks => length ks + queued c + 7
  | CFlush => queued c + 6
  | CRoll => 5
  | CRebuild => 4
  | CRead => 3
  | CHandle _ => 2
  | CSend => 1
  end.

Lemma key_queued c k ks : queued (with_state (handle_key (cl_state c) k) (CKeys ks) c) = queued c.
Proof.
  unfold queued. cbn [with_state cl_state]. unfold handle_key.
  destruct (st_miner (cl_state c)) as [m|] eqn:E; [|by rewrite E].
  assert (H : forall b, share_count (miner_set_paused m b) = share_count m)
    by (intros b; unfold miner_set_paused; cbv zeta; by case_match).
  repeat case_match; cbn [st_miner set_st_miner] in *; simplify_eq; by rewrite ?H.
Qed.

Lemma after_line_pc c now :
  cl_pc (after_line write_result cf c now) = CTop \/ cl_pc (after_line write_result cf c now) = CExit 1.
Proof.
  unfold after_line. destruct (authorize_once _ _ _) as [c1 ok1]. destruct (negb ok1); [by right|].
  destruct (suggest_once _ _ _) as [c2 ok2]. destruct (negb ok2); [by right|by left].
Qed.

(** Inside a turn every step comes closer to its end. *)
Lemma turn_step c c' : client_step c c' -> cl_pc c <> CTop -> (turn_left c' < turn_left c)%nat.
Proof.
  intros Hs Hne. unfold turn_left at 2.
  destruct Hs as [now keys H|k ks H|H|now H|H|H|events r H Hr|line now H|now H]; rewrite H.
  - done.
  - unfold turn_left. cbn [with_state cl_pc]. fold (with_state (handle_key (cl_state c) k) (CKeys ks) c).
    rewrite key_queued. cbn [length]. lia.
  - unfold turn_left. cbn [at_cpc cl_pc]. change (queued (at_cpc CFlush c)) with (queued c). cbn. lia.
  - unfold flush_share, queued. cbv zeta. destruct (st_miner (cl_state c)) as [m|]; [|cbn; lia].
    unfold miner_pop_share. destruct (Nat.ltb_spec 0 (share_count m)) as [Hn|]; [|cbn; lia]. cbv zeta.
    destruct (send_submit_share _ _ _ _ _) as [conn rc]. destruct (negb (rc =? 0)); [cbn; lia|].
    unfold turn_left, queued. cbn [cl_pc cl_state st_miner set_st_shares set_st_miner].
    cbn [share_count set_share_count set_share_head]. lia.
  - unfold roll_take. destruct (st_miner (cl_state c)); [|cbn; lia].
    destruct (miner_take_nonce_exhausted m) as [m' []]; cbn; lia.
  - cbn. lia.
  - unfold after_read. cbv zeta. repeat case_match; cbn; lia.
  - cbn. lia.
  - unfold turn_left. by destruct (after_line_pc c now) as [-> | ->]; cbn; lia.
Qed.

(** A session that has not ended can go on. *)
Lemma client_progress c : (forall r, cl_pc c <> CExit r) -> exists c', client_step c c'.
Proof.
  intros Hne. destruct (cl_pc c) as [|[|k ks]| | | | |line| |r] eqn:E.
  - eexists. by eapply (cs_top _ _ _ (f64_of_Z 0) []).
  - eexists. by eapply cs_keys.
  - eexists. by eapply cs_key.
  - eexists. by eapply (cs_flush _ _ _ (f64_of_Z 0)).
  - eexists. by eapply cs_roll.
  - eexists. by eapply cs_rebuild.
  - set (e := ReadEvent poll_timeout (IoResult 0 false false) []).
    assert (H : is_Some (read_line (cf_use_tls cf) (Z.to_nat 65536) (cl_buffer c) [e])).
    { cbn [read_line]. destruct (split_line _) as [[line rest]|]; cbv zeta; repeat case_match; try discriminate; (eexists; reflexivity). }
    destruct H as [r Hr]. eexists. by eapply cs_read.
  - eexists. by eapply (cs_handle _ _ _ line (f64_of_Z 0)).
  - eexists. by eapply (cs_send _ _ _ (f64_of_Z 0)).
  - by destruct (Hne r).
Qed.
End turns.

(** A positive time is not NaN, so the clock can reach it. *)
Lemma stop_at_reached (t : double) : f64_lt (f64_of_Z 0) t = true -> f64_le t t = true.
Proof.
  unfold f64_lt, f64_le, SFltb, SFleb. destruct t as [|[]| |[] m e]; try done.
  intros _. cbn [SFcompare]. by rewrite Z.compare_refl, Pos.compare_cont_refl.
Qed.

(** * Properties *)

(** C26.  A share that is submitted reaches the pool as one line of JSON that says
    exactly which share it is: the request id, the method, and the five strings
    user, job, extranonce2, time and nonce, the nonce as its four bytes in
    hexadecimal. *)
Theorem submit_request_readable `{J : Jansson} `{!JanssonLaws J} write_result c id user share :
  is_ascii_string user -> is_ascii_string (share_job_id share) ->
  is_ascii_string (share_extranonce2 share) -> is_ascii_string (share_ntime share) ->
  is_u32 (share_nonce share) -> - 2 ^ 31 <= id < 2 ^ 31 ->
  write_result (c_writes c) = None -> write_result (S (c_writes c)) = None ->
  exists line v params,
    send_submit_share write_result c id user share =
      (Conn (c_sent c ++ chars line ++ [newline]) (S (S (c_writes c))), 0) /\
    split_line (chars line ++ [newline]) = Some (chars line, []) /\ c_string (chars line) = line /\
    json_loads line = Some v /\ json_integer_value (json_object_get (Some v) "id") = id /\
    json_string_value (json_object_get (Some v) "method") = Some "mining.submit"%string /\
    json_object_get (Some v) "params" = Some params /\ json_array_size (Some params) = 5%nat /\
    (forall i s, [user; share_job_id share; share_extranonce2 share; share_ntime share;
                  nonce_hex (share_nonce share)] !! i = Some s ->
       json_string_value (json_array_get (Some params) i) = Some s) /\
    hex_to_bytes (nonce_hex (share_nonce share)) 4 = Some (be 4 (share_nonce share)).
Proof.
  intros Hu Hj He Ht Hn Hid Hw1 Hw2.
  assert (Hm : is_ascii_string "mining.submit") by (apply (bool_decide_unpack _); vm_compute; exact I).
  destruct (request_spec id "mining.submit" (submit_params user share) Hm) as (Ho & Hgi & Hgm & Hgp).
  destruct (dumps_object _ Ho) as [line Hl].
  exists line, (request id "mining.submit" (submit_params user share)), (submit_params user share).
  destruct (strings_spec (J := J) [user; share_job_id share; share_extranonce2 share; share_ntime share;
    nonce_hex (share_nonce share)]) as (_ & Hs & Hg).
  { repeat constructor; try done. by apply nonce_hex_ascii. }
  pose proof (dumps_line _ _ Hl) as Hline. split_and!.
  - unfold send_submit_share. rewrite send_request_ok by done. unfold request_line. by rewrite Hl.
  - apply split_line_Some. split; [done|]. eapply Forall_impl; [exact Hline|]. by intros ? [].
  - unfold c_string. rewrite <- (app_nil_r (chars line)) at 1. rewrite before_app; [apply of_chars_chars| |by left].
    eapply Forall_impl; [exact Hline|]. by intros ? [].
  - by apply dumps_loads.
  - unfold json_object_get. cbn [mbind option_bind]. rewrite Hgi. cbn [json_integer_value from_option].
    apply integer_value. lia.
  - exact Hgm.
  - exact Hgp.
  - exact Hs.
  - exact Hg.
  - rewrite nonce_hex_be by done. apply (hex_roundtrip (be 4 (share_nonce share))), be_bytes.
Qed.

Section properties.
Context `{J : Jansson} `{O : OpenSSL} {D : Type}.
Context (write_result : nat -> option nat) (BTCRIG_USER_AGENT : string) (cf : client_config).

(** C27.  In every reachable state of a session the bytes sent are whole requests, up
    to a part of one when a write has failed and the session has ended.  The first
    is the subscription; no id is used twice; authorize and suggest are sent at most
    once, after the pool has confirmed the subscription and the authorization; the
    submissions are numbered from 4 on without gaps, and are those recorded. *)
Theorem session_requests url host port now miner c :
  rtc (client_step write_result cf)
    (client_start (J := J) (O := O) (D := D) write_result BTCRIG_USER_AGENT cf url host port now miner) c ->
  (exists cmds part, session_log BTCRIG_USER_AGENT cf c cmds part) /\
  forall c', client_step write_result cf c c' ->
    (authorize_sent c = false -> authorize_sent c' = true -> subscribed (cl_state c) = true) /\
    (suggest_sent c = false -> suggest_sent c' = true -> authorized (cl_state c) = true).
Proof.
  intros Hr.
  assert (Hl : exists cmds part, session_log BTCRIG_USER_AGENT cf c cmds part).
  { destruct (start_log (D := D) write_result BTCRIG_USER_AGENT cf url host port now miner) as (cmds & part & Hl).
    revert cmds part Hl. induction Hr as [|c0 c1 c2 Hs _ IH]; intros cmds part Hl; [by eexists _, _|].
    destruct (client_step_log _ _ _ _ _ _ _ Hl Hs) as [(cmds1 & part1 & Hl1) _]. by eapply IH. }
  split; [done|]. intros c' Hs. destruct Hl as (cmds & part & Hl).
  by destruct (client_step_log _ _ _ _ _ _ _ Hl Hs) as [_ ?].
Qed.

(** Steps taken when the clock is past the configured end. *)
Definition late_step (c c' : client O D) : Prop :=
  client_step write_result cf c c' /\
  (cl_pc c = CTop -> exists now keys, c' = loop_top cf c now keys /\ f64_le (cf_stop_at cf) now = true).

(** C28.  A session ends in time: once the clock is past [stop_at], at most the rest of
    the turn and one more step are made (with the shares already queued), and until
    the session has ended there is a step to make. *)
Theorem session_ends c c' n :
  f64_lt (f64_of_Z 0) (cf_stop_at cf) = true ->
  nsteps late_step n c c' ->
  (n + turn_left c' <= turn_left c + 1)%nat /\
  ((exists r, cl_pc c' = CExit r) \/ exists c'', late_step c' c'').
Proof.
  intros Hstop Hn.
  assert (Hexit : forall x y, late_step x y -> cl_pc x = CTop -> cl_pc y = CExit 0).
  { intros x y [_ Hl] Hx. destruct (Hl Hx) as (now & keys & -> & Hlate).
    unfold loop_top. by rewrite Hstop, Hlate. }
  assert (Hstuck : forall x y r, late_step x y -> cl_pc x <> CExit r).
  { intros x y r [Hs _] Hx. apply (step_not_exited _ _ _ _ Hs). by exists r. }
  split.
  - revert c Hn. induction n as [|n IH]; intros c Hn.
    + inversion Hn; subst. lia.
    + inversion Hn as [|? ? c1 ? Hs Hr]; subst.
      destruct (cl_pc c) eqn:E; try (pose proof (turn_step _ _ _ _ (proj1 Hs)) as Hlt;
        specialize (IH c1 Hr); rewrite E in Hlt; specialize (Hlt ltac:(done)); lia).
      * pose proof (Hexit _ _ Hs E) as E1. destruct n as [|n].
        -- inversion Hr; subst. unfold turn_left. rewrite E1, E. lia.
        -- inversion Hr as [|? ? c2 ? Hs2 _]; subst. by destruct (Hstuck _ _ 0 Hs2).
  - destruct (cl_pc c') as [| | | | | | | |r] eqn:E; [..|left; by eexists]; right.
    1:{ exists (loop_top cf c' (cf_stop_at cf) []). split; [by apply cs_top|]. intros _. eexists _, _. split; [done|].
        by apply stop_at_reached. }
    all: destruct (client_progress (J := J) write_result cf c') as [c'' Hs]; [congruence|];
      exists c''; split; [done|congruence].
Qed.
End properties.

(** * Concrete instances *)

#[local] Existing Instances ref_openssl ref_jansson.

Definition wshare : miner_share_t :=
  MinerShare 1 0x7c2bac1d (f64_of_Z 1) (replicate 32 0) "g" "54696d65" "495fab29".

Lemma submit_request_readable_witness :
  hex_to_bytes (nonce_hex 0x7c2bac1d) 4 = Some [0x7c; 0x2b; 0xac; 0x1d].
Proof.
  destruct (@submit_request_readable ref_jansson ref_jansson_laws (fun _ => None) (Conn [] 0) 4 "user" wshare)
    as (line & v & params & _ & _ & _ & _ & _ & _ & _ & _ & _ & H).
  1-4: apply (bool_decide_unpack _); vm_compute; exact I.
  - unfold is_u32. cbn. lia.
  - lia.
  - reflexivity.
  - reflexivity.
  - exact H.
Defined.

Definition wcf : client_config := ClientConfig "user" "x" (f64_of_Z 0) (f64_of_Z 60) (f64_of_Z 0) false.
Definition wstart : client ref_openssl unit :=
  client_start (J := ref_jansson) (fun _ => None) "btcrig" wcf "pool:3333" "pool" "3333" (f64_of_Z 0) None.

Lemma session_requests_witness :
  exists cmds part, session_log (J := ref_jansson) "btcrig" wcf wstart cmds part.
Proof.
  exact (proj1 (@session_requests ref_jansson ref_openssl unit (fun _ => None) "btcrig" wcf
    "pool:3333" "pool" "3333" (f64_of_Z 0) None wstart (rtc_refl _ _))).
Defined.

Lemma session_ends_witness :
  (exists r, cl_pc wstart = CExit r) \/ exists c, late_step (J := ref_jansson) (fun _ => None) wcf wstart c.
Proof.
  exact (proj2 (@session_ends ref_jansson ref_openssl unit (fun _ => None) wcf wstart wstart 0 eq_refl
    (nsteps_O _ _))).
Defined.
