(* ===== verification/ClientSafety.v ===== *)
(** A Stratum session together with the running miner: the session's thread and the
    workers interleave, and what is submitted to the pool is shown valid from the
    messages of the pool it came from to the bytes of its hash. *)
From stdpp Require Import base tactics list option strings relations.
From Stdlib Require Import ZArith Lia Ascii.
From S2P Require Import Prelude Words Fips Sha256d Scan Simd X86ShaNi ArmSha2 Backends.
From S2P Require Import Float64 Hex Target Job Miner MinerSteps MinerSafety Json Stratum PoolMessages StratumNet Client.

#[local] Open Scope Z_scope.

Section world.
Context `{J : Jansson} `{O : OpenSSL} `{X : X86} `{A : ARM} {D : Type}.
Context (backend : sha256d_backend_t) (device_reports : active_job_t O -> Z -> Z -> list (Z * list Z) -> Prop).
Context (write_result : nat -> option nat) (BTCRIG_USER_AGENT : string) (cf : client_config).

(** * The steps of a session and its miner *)

(** The structure [struct miner] the session and the workers share is [st_miner] of
    the session's state. *)
Record world := World {
  w_client : client O D; w_workers : list (worker O); w_issued : list (Z * Z * Z);
}.

Definition client_miner (c : client O D) : option (miner O D) := st_miner (cl_state c).
Definition set_client_miner (m : miner O D) (c : client O D) : client O D :=
  with_state (set_st_miner (Some m) (cl_state c)) (cl_pc c) c.

(** Fewer than 2^64 jobs. *)
Definition jobs_left (c : client O D) : Prop :=
  forall m, client_miner c = Some m -> job_seq (public_job (job m)) + 1 < 2 ^ 64.

(** The line a step of the session handles. *)
Definition handled (c : client O D) : list string :=
  match cl_pc c with CHandle line => [line] | _ => [] end.

(** The steps, labelled with the lines they handle. *)
Inductive world_step (w : world) : list string -> world -> Prop :=
  | wo_client c :
      jobs_left (w_client w) -> client_step (J := J) write_result cf (w_client w) c ->
      world_step w (handled (w_client w)) (World c (w_workers w) (w_issued w))
  | wo_worker m s :
      client_miner (w_client w) = Some m ->
      worker_step backend device_reports (Sys m (w_workers w) (w_issued w)) s ->
      world_step w [] (World (set_client_miner (sm s) (w_client w)) (sworkers s) (issued s)).

(** A run, with the lines of the pool the session has handled in it. *)
Inductive world_run (w0 : world) : list string -> world -> Prop :=
  | wr_start : world_run w0 [] w0
  | wr_step lines w line w' :
      world_run w0 lines w -> world_step w line w' -> world_run w0 (lines ++ line) w'.

(** A session whose miner has just been started. *)
Definition world_start (url host port : string) (now : double) (m : miner O D)
    (workers : list (worker O)) : world :=
  World (client_start (J := J) write_result BTCRIG_USER_AGENT cf url host port now (Some m)) workers [].

(** * Jobs *)

(** A job built from what the pool had said by some point, but for its sequence number,
    which [miner_set_job] gives. *)
Definition job_from (lines : list string) (j : miner_job_t) : Prop :=
  exists before j0, before `prefix_of` lines /\ built_job (J := J) (O := O) before j0 /\ j = MinerJob (job_seq j) (job_id j0) (job_extranonce2 j0) (job_ntime j0)
    (job_header j0) (job_target j0).

(** A submission and the job it was found for. *)
Definition valid_submission (lines : list string) (x : Z * miner_share_t * miner_job_t) : Prop :=
  let '(id, share, j) := x in job_from lines j /\ valid_share j share.

Lemma job_from_later lines more j : job_from lines j -> job_from (lines ++ more) j.
Proof. intros (before & j0 & Hb & H). exists before, j0. split; [by apply prefix_app_r|done]. Qed.
Lemma submissions_later lines more l :
  Forall (valid_submission lines) l -> Forall (valid_submission (lines ++ more)) l.
Proof. intros H. eapply Forall_impl; [exact H|]. intros [[id share] j] [Hj Hs]. split; [by apply job_from_later|done]. Qed.

(** * Effects of a session step on the miner *)

Inductive effect (lines : list string) (m : miner O D) : miner O D -> Prop :=
  | ef_none : effect lines m m
  | ef_job j : built_job (J := J) lines j -> effect lines m (miner_set_job m j)
  | ef_paused b : effect lines m (miner_set_paused m b)
  | ef_pop : effect lines m (fst (miner_pop_share m))
  | ef_exhausted : effect lines m (fst (miner_take_nonce_exhausted m)).

Lemma update_effect lines (s s' : stratum_state_t O D) m :
  miner_update lines s s' -> st_miner s = Some m -> exists m', st_miner s' = Some m' /\ effect lines m m'.
Proof.
  intros [He|(m1 & j & Hm & Hj & He)] Hs; rewrite He.
  - exists m. split; [done|apply ef_none].
  - rewrite Hs in Hm. apply (inj Some) in Hm as <-. eexists. split; [done|by apply ef_job].
Qed.

Lemma key_effect lines (s : stratum_state_t O D) k m :
  st_miner s = Some m -> exists m', st_miner (handle_key s k) = Some m' /\ effect lines m m'.
Proof.
  intros Hs. unfold handle_key. rewrite Hs.
  repeat case_match; cbn [st_miner set_st_miner]; eexists; (split; [done|]); apply ef_none || apply ef_paused.
Qed.

Lemma after_line_keeps (c : client O D) now :
  cl_state (after_line write_result cf c now) = cl_state c /\
  submitted (after_line write_result cf c now) = submitted c.
Proof.
  unfold after_line, authorize_once. cbv zeta. destruct (send_once _ _ _ _) as [[conn1 a1] []]; [|done].
  cbn [negb]. unfold suggest_once. cbv zeta. destruct (send_once _ _ _ _) as [[conn2 a2] []]; done.
Qed.

(** A session begins with nothing said, its miner, and nothing submitted. *)
Lemma client_started url host port now miner :
  let c := client_start (J := J) (O := O) (D := D) write_result BTCRIG_USER_AGENT cf url host port now miner in
  follows (J := J) [] (cl_state c) /\ client_miner c = miner /\ submitted c = [].
Proof. unfold client_start. cbv zeta. destruct (send_subscribe _ _ _). split; [by split|done]. Qed.

(** The session's state follows the lines it handles. *)
Lemma client_step_follows lines (c c' : client O D) :
  client_step (J := J) write_result cf c c' -> follows lines (cl_state c) ->
  follows (lines ++ handled c) (cl_state c').
Proof.
  intros Hs Hf. unfold handled.
  destruct Hs as [now keys H|k ks H|H|now H|H|H|events r H Hr|line now H|now H]; rewrite H; rewrite ?app_nil_r.
  - unfold loop_top. by repeat case_match.
  - cbn [with_state cl_state]. unfold handle_key. repeat case_match; try done; by apply (follows_miner lines (cl_state c)).
  - done.
  - unfold flush_share. cbv zeta. destruct (st_miner (cl_state c)); [|done].
    destruct (miner_pop_share _) as [m' [share|]]; [|done]. destruct (send_submit_share _ _ _ _ _) as [conn rc].
    destruct (negb (rc =? 0)); [by apply (follows_miner lines (cl_state c))|].
    by apply (follows_shares lines (set_st_miner (Some m') (cl_state c))), follows_miner.
  - unfold roll_take. destruct (st_miner (cl_state c)); [|done]. destruct (miner_take_nonce_exhausted _).
    by apply (follows_miner lines (cl_state c)).
  - by apply rebuild_follows.
  - unfold after_read. cbv zeta. by repeat case_match.
  - by apply line_follows.
  - by rewrite (proj1 (after_line_keeps c now)).
Qed.

(** What a step of the session does to the miner and to the submissions. *)
Lemma client_step_effect lines (c c' : client O D) m :
  client_step (J := J) write_result cf c c' -> follows lines (cl_state c) -> client_miner c = Some m ->
  exists m', client_miner c' = Some m' /\ effect (lines ++ handled c) m m' /\
    (submitted c' = submitted c \/
     exists id share, snd (miner_pop_share m) = Some share /\
       submitted c' = submitted c ++ [(id, share, public_job (job m))]).
Proof.
  unfold client_miner. intros Hs Hf Hm.
  assert (Hkeep : forall c', cl_state c' = cl_state c -> submitted c' = submitted c ->
    exists m', st_miner (cl_state c') = Some m' /\ effect (lines ++ handled c) m m' /\ (submitted c' = submitted c \/
     exists id share, snd (miner_pop_share m) = Some share /\
       submitted c' = submitted c ++ [(id, share, public_job (job m))])).
  { intros x Hx Hsub. exists m. rewrite Hx. split; [done|]. split; [apply ef_none|by left]. }
  destruct Hs as [now keys H|k ks H|H|now H|H|H|events r H Hr|line now H|now H].
  - unfold loop_top. repeat case_match; by apply Hkeep.
  - destruct (key_effect (lines ++ handled c) (cl_state c) k m Hm) as (m' & Hm' & He). exists m'. split; [exact Hm'|]. by auto.
  - by apply Hkeep.
  - unfold flush_share. cbv zeta. rewrite Hm. pose proof (ef_pop (lines ++ handled c) m) as Hpop.
    destruct (miner_pop_share m) as [m' [share|]]; [|by apply Hkeep]. cbn [fst snd] in *.
    destruct (send_submit_share _ _ _ _ _) as [conn rc]. destruct (negb (rc =? 0)); exists m'.
    + split; [done|]. split; [done|by left].
    + split; [done|]. split; [done|]. right. by eexists _, _.
  - unfold roll_take. rewrite Hm. pose proof (ef_exhausted (lines ++ handled c) m) as Hex.
    destruct (miner_take_nonce_exhausted m) as [m' e]. exists m'. split; [done|]. split; [done|by left].
  - unfold handled. rewrite H, app_nil_r.
    destruct (update_effect _ _ _ m (proj2 (rebuild_follows lines (cl_state c) Hf)) Hm) as (m' & Hm' & He).
    exists m'. split; [exact Hm'|]. split; [done|by left].
  - unfold after_read. cbv zeta. repeat case_match; by apply Hkeep.
  - unfold handled. rewrite H.
    destruct (update_effect _ _ _ m (proj2 (line_follows lines line (cl_state c) now Hf)) Hm) as (m' & Hm' & He).
    exists m'. split; [exact Hm'|]. split; [done|by left].
  - destruct (after_line_keeps c now) as [E1 E2]. by apply Hkeep.
Qed.

End world.
Arguments world _ _ : clear implicits.

(** * The invariant *)

Section safety.
Context `{J : Jansson} `{O : OpenSSL} `{!OpenSSLLaws O} `{X : X86} `{!X86Laws X} `{A : ARM} `{!ARMLaws A} {D : Type}.
Context (backend : sha256d_backend_t) (device_reports : active_job_t O -> Z -> Z -> list (Z * list Z) -> Prop).
Context (write_result : nat -> option nat) (BTCRIG_USER_AGENT : string) (cf : client_config).
#[local] Abbreviation world_step := (world_step (J := J) (D := D) backend device_reports write_result cf).

Lemma built_wf lines j : built_job (J := J) lines j -> job_wf j.
Proof. intros (t & en1 & en2 & d & _ & Hj). exact (build_job_sizes _ _ _ _ _ _ _ _ _ _ _ _ Hj). Qed.

(** A session step is a step of the concurrent miner, or none. *)
Lemma effect_step lines (m m' : miner O D) ws l :
  effect lines m m' -> job_seq (public_job (job m)) + 1 < 2 ^ 64 ->
  rtc (sys_step backend device_reports) (Sys m ws l) (Sys m' ws l).
Proof.
  intros [|j Hj|b| |] Hlt; [apply rtc_refl|apply rtc_once..].
  - apply (ss_set_job _ _ (Sys m ws l)); [by eapply built_wf|done].
  - apply (ss_set_paused _ _ (Sys m ws l)).
  - apply (ss_pop _ _ (Sys m ws l)).
  - apply (ss_take_exhausted _ _ (Sys m ws l)).
Qed.

Lemma wstep_public (m m' : miner O D) w w' r :
  wstep backend device_reports m w m' w' r -> public_job (job m') = public_job (job m).
Proof.
  assert (Htake : forall m' r, take_range backend device_reports w m = (m', r) ->
    public_job (job m') = public_job (job m)).
  { intros m1 r1. by_kind w; unfold copy_job_and_nonce_range_sized; cbv zeta; repeat case_match; by intros [= <- _]. }
  intros [H|H|H|H|m1 H Ht|m1 j start n rest failed H Ht _|j start n nonce hw rest failed H|j start n H|j start n H];
    try done; try by eapply Htake.
  - by rewrite (sw_job _ _ (same_work_match _ _ _ _)).
  - by rewrite (sw_job _ _ (same_work_account backend device_reports _ _ _ _)).
Qed.

Lemma effect_public lines (m m' : miner O D) :
  effect lines m m' -> public_job (job m') = public_job (job m) \/
    (job_from lines (public_job (job m')) /\
     job_seq (public_job (job m')) = u64 (job_seq (public_job (job m)) + 1)).
Proof.
  intros [|j Hj|b| |].
  - by left.
  - right. destruct (set_job_prepared m j (built_wf _ j Hj)) as (_ & -> & _). split; [|done]. by exists lines, j.
  - left. unfold miner_set_paused. cbv zeta. by case_match.
  - left. by rewrite (sw_job _ _ (same_work_pop _)).
  - by left.
Qed.

(** The state follows the lines handled; the job of the miner, once it has one, and all
    submissions come from them. *)
Record world_ok (lines : list string) (w : world O D) : Prop := {
  wk_follows : follows lines (cl_state (w_client w));
  wk_miner : exists m, client_miner (w_client w) = Some m /\
    reachable backend device_reports (Sys m (w_workers w) (w_issued w)) /\
    (job_seq (public_job (job m)) = 0 \/ job_from lines (public_job (job m)));
  wk_log : exists cmds part, session_log BTCRIG_USER_AGENT cf (w_client w) cmds part;
  wk_submitted : Forall (valid_submission lines) (submitted (w_client w));
}.

Lemma log_set_miner (c : client O D) cmds part (m : miner O D) :
  session_log BTCRIG_USER_AGENT cf c cmds part ->
  session_log BTCRIG_USER_AGENT cf (set_client_miner m c) cmds part.
Proof. by intros [? ? ? ? ? ? ? ? ? ?]. Qed.

Lemma client_ok lines w c :
  devices_honest device_reports -> world_ok lines w -> jobs_left (w_client w) ->
  client_step (J := J) write_result cf (w_client w) c ->
  world_ok (lines ++ handled (w_client w)) (World c (w_workers w) (w_issued w)).
Proof.
  intros Hd [Hf (m & Hm & Hr & Hj) Hlog Hsub] Hlt Hs.
  destruct (client_step_effect write_result cf lines _ _ m Hs Hf Hm) as (m' & Hm' & He & Hs').
  split; cbn [w_client w_workers w_issued].
  - by apply (client_step_follows write_result cf).
  - exists m'. split; [done|]. split.
    + destruct Hr as (s0 & H0 & Hr). exists s0. split; [done|].
      etransitivity; [exact Hr|]. eapply effect_step; [exact He|]. by apply Hlt.
    + destruct (effect_public _ m m' He) as [->|[Hb _]]; [|by right].
      destruct Hj as [|Hj]; [by left|right; by apply job_from_later].
  - destruct Hlog as (cmds & part & Hlog). by apply (client_step_log _ _ _ _ _ _ _ Hlog Hs).
  - apply (submissions_later _ (handled (w_client w))) in Hsub.
    destruct Hs' as [->|(id & share & Hpop & ->)]; [done|].
    apply Forall_app_2; [done|]. apply Forall_singleton.
    destruct (popped_good backend device_reports good_match _ share (honest_reports _ _ Hd) Hr Hpop)
      as [Hpos (nonce & hash & -> & Hg)].
    split; [|by apply good_match_share]. destruct Hj as [Hz|]; [|by apply job_from_later].
    cbn [sm] in Hpos. unfold sq, cur in Hpos. lia.
Qed.

Lemma worker_ok lines w m s :
  world_ok lines w -> client_miner (w_client w) = Some m ->
  worker_step backend device_reports (Sys m (w_workers w) (w_issued w)) s ->
  world_ok lines (World (set_client_miner (sm s) (w_client w)) (sworkers s) (issued s)).
Proof.
  intros [Hf (m1 & Hm & Hr & Hj) Hlog Hsub] Hm1 Hs. rewrite Hm in Hm1. apply (inj Some) in Hm1 as ->.
  assert (Hp : public_job (job (sm s)) = public_job (job m)) by (destruct Hs; by eapply wstep_public).
  split; cbn [w_client w_workers w_issued].
  - by apply (follows_miner lines (cl_state (w_client w))).
  - exists (sm s). split; [done|]. split.
    + destruct Hr as (s0 & H0 & Hr). exists s0. split; [done|]. eapply rtc_r; [exact Hr|].
      apply ss_worker. by destruct s.
    + by rewrite Hp.
  - destruct Hlog as (cmds & part & Hlog). exists cmds, part. by apply log_set_miner.
  - done.
Qed.

Lemma world_step_ok lines w line w' :
  devices_honest device_reports -> world_ok lines w -> world_step w line w' -> world_ok (lines ++ line) w'.
Proof.
  intros Hd Hok [c Hlt Hs|m s Hm Hs]; [by apply client_ok|]. rewrite app_nil_r. by eapply worker_ok.
Qed.

Lemma start_ok url host port now (m : miner O D) workers :
  initial (Sys m workers []) ->
  world_ok [] (world_start (J := J) write_result BTCRIG_USER_AGENT cf url host port now m workers).
Proof.
  intros Hi.
  destruct (start_log (D := D) write_result BTCRIG_USER_AGENT cf url host port now (Some m)) as (cmds & part & Hlog).
  destruct (client_started (J := J) write_result BTCRIG_USER_AGENT cf url host port now (Some m)) as (Hf & Hm & Hs).
  split; cbn [world_start w_client w_workers w_issued]; [exact Hf| | |].
  - exists m. split; [done|]. split; [by exists (Sys m workers [])|]. left. by destruct (in_job _ Hi).
  - by exists cmds, part.
  - rewrite Hs. constructor.
Qed.

Lemma world_run_ok url host port now (m : miner O D) workers lines w :
  devices_honest device_reports -> initial (Sys m workers []) ->
  world_run (J := J) backend device_reports write_result cf
    (world_start (J := J) write_result BTCRIG_USER_AGENT cf url host port now m workers) lines w ->
  world_ok lines w.
Proof. intros Hd Hi Hr. induction Hr as [|lines w line w' _ IH Hs]; [by apply start_ok|]. by eapply world_step_ok. Qed.

(** The header [job_spec] describes, with the nonce of a share in place of its last
    four bytes. *)
Lemma header_solution id prevhash coinb1 coinb2 merkle version nbits ntime en1 en2 d c bs v tm b prev j q nonce :
  job_spec id prevhash coinb1 coinb2 merkle version nbits ntime en1 en2 d c bs v tm b prev j ->
  header_with (MinerJob q (job_id j) (job_extranonce2 j) (job_ntime j) (job_header j) (job_target j)) nonce =
    le 4 v ++ words_le prev ++ merkle_root_of c bs ++ le 4 tm ++ le 4 b ++ le 4 nonce.
Proof.
  intros Hj. unfold header_with. cbn [job_header]. rewrite (js_header _ _ _ _ _ _ _ _ _ _ _ _ _ _ _ _ _ _ Hj).
  destruct (js_prevhash _ _ _ _ _ _ _ _ _ _ _ _ _ _ _ _ _ _ Hj) as (Hp & _).
  pose proof (merkle_root_of_length c bs) as Hm.
  rewrite !app_assoc. f_equal. rewrite take_app_length'; [done|].
  rewrite !length_app, !length_le, length_words_le, Hp, Hm. done.
Qed.
End safety.

(** * Property *)

(** A share answers a notification: its ids are those of the template and of the
    extranonce2 used, and the double SHA-256 of the header they determine, with its
    nonce, is its hash and meets the target of the difficulty. *)
Definition answers (t : template_t) (extranonce1 extranonce2 : string) (d : double)
    (share : miner_share_t) : Prop :=
  exists coinbase branches v tm b prev j,
    job_spec (template_job_id t) (template_prevhash t) (template_coinb1 t) (template_coinb2 t)
      (template_merkle t) (template_version t) (template_nbits t) (template_ntime t)
      extranonce1 extranonce2 d coinbase branches v tm b prev j /\
    share_job_id share = template_job_id t /\ share_extranonce2 share = extranonce2 /\
    share_ntime share = template_ntime t /\
    share_hash share = Fips.sha256d (le 4 v ++ words_le prev ++ merkle_root_of coinbase branches ++
      le 4 tm ++ le 4 b ++ le 4 (share_nonce share)) /\
    exists target, miner_target_from_difficulty d = Some target /\ of_le (share_hash share) <= of_le target.

(** The work is what the pool's lines had asked for at some point. *)
Definition answers_pool `{J : Jansson} (lines : list string) (share : miner_share_t) : Prop :=
  exists before t extranonce1 extranonce2 d, before `prefix_of` lines /\
    pool_work before t extranonce1 extranonce2 d /\ answers t extranonce1 extranonce2 d share.

Section property.
Context `{J : Jansson} `{O : OpenSSL} `{!OpenSSLLaws O} `{X : X86} `{!X86Laws X} `{A : ARM} `{!ARMLaws A} {D : Type}.
Context (backend : sha256d_backend_t) (device_reports : active_job_t O -> Z -> Z -> list (Z * list Z) -> Prop).
Context (write_result : nat -> option nat) (BTCRIG_USER_AGENT : string) (cf : client_config).

Lemma valid_submission_answers lines id share j :
  valid_submission (J := J) lines (id, share, j) -> answers_pool lines share.
Proof.
  intros [(before & j0 & Hb & (t & en1 & en2 & d & Hw & Hj0) & Hj) (Hs & Hh & Hle & _ & Hids)].
  exists before, t, en1, en2, d. split; [done|]. split; [done|].
  apply build_job_sound in Hj0 as (c & bs & v & tm & b & prev & Hj0).
  exists c, bs, v, tm, b, prev, j0. split; [done|].
  destruct (js_ids _ _ _ _ _ _ _ _ _ _ _ _ _ _ _ _ _ _ Hj0) as (_ & Hi & He & Hn).
  pose proof (js_id _ _ _ _ _ _ _ _ _ _ _ _ _ _ _ _ _ _ Hj0) as L1.
  pose proof (js_extranonce2 _ _ _ _ _ _ _ _ _ _ _ _ _ _ _ _ _ _ Hj0) as L2.
  pose proof (js_ntime _ _ _ _ _ _ _ _ _ _ _ _ _ _ _ _ _ _ Hj0) as L3.
  rewrite Hj in Hids. cbn [job_id job_extranonce2 job_ntime] in Hids. rewrite Hi, He, Hn in Hids.
  destruct (Hids L1 L2 L3) as (-> & -> & ->). do 3 (split; [done|]).
  rewrite Hj in Hh, Hle. rewrite (header_solution _ _ _ _ _ _ _ _ _ _ _ _ _ _ _ _ _ _ _ _ Hj0) in Hh.
  split; [done|]. exists (job_target j0). split; [|exact Hle].
  exact (js_target _ _ _ _ _ _ _ _ _ _ _ _ _ _ _ _ _ _ Hj0).
Qed.

(** Whatever the pool sends and however the workers and the session interleave,
    every share submitted answers the pool: with the template, the extranonce1, the
    size of the extranonce2 and the difficulty that the pool's last messages on them
    said at some point of the session, the hash in the share is the double SHA-256 of
    the header they determine with its nonce, and it meets the target of the
    difficulty.  These shares are exactly the submit requests among the bytes sent. *)
Lemma submissions_answer url host port now (m : miner O D) workers lines w :
  devices_honest device_reports -> initial (Sys m workers []) ->
  world_run (J := J) backend device_reports write_result cf
    (world_start (J := J) write_result BTCRIG_USER_AGENT cf url host port now m workers) lines w ->
  Forall (fun '(_, share, _) => answers_pool lines share) (submitted (w_client w)) /\
  exists cmds part, session_log BTCRIG_USER_AGENT cf (w_client w) cmds part /\
    omap submission cmds = fst <$> submitted (w_client w).
Proof.
  intros Hd Hi Hr. pose proof (world_run_ok backend device_reports write_result BTCRIG_USER_AGENT cf _ _ _ _ _ _ _ _ Hd Hi Hr) as Hok.
  split.
  - eapply Forall_impl; [exact (wk_submitted _ _ _ _ _ _ Hok)|]. intros [[id share] j]. apply valid_submission_answers.
  - destruct (wk_log _ _ _ _ _ _ Hok) as (cmds & part & Hl). exists cmds, part. split; [done|]. apply Hl.
Qed.

(** The job of a miner in a run is one [miner_set_job] prepared, once there is one. *)
Lemma run_prepared url host port now (m0 : miner O D) workers lines w m :
  devices_honest device_reports -> initial (Sys m0 workers []) ->
  world_run (J := J) backend device_reports write_result cf
    (world_start (J := J) write_result BTCRIG_USER_AGENT cf url host port now m0 workers) lines w ->
  client_miner (w_client w) = Some m -> 0 < job_seq (public_job (job m)) -> prepared (job m).
Proof.
  intros Hd Hi Hr Hm Hpos. pose proof (world_run_ok backend device_reports write_result BTCRIG_USER_AGENT cf _ _ _ _ _ _ _ _ Hd Hi Hr) as Hok.
  destruct (wk_miner _ _ _ _ _ _ Hok) as (m1 & Hm1 & Hreach & _). rewrite Hm in Hm1. apply (inj Some) in Hm1 as <-.
  destruct (reachable_inv backend device_reports good_match _ (honest_reports _ _ Hd) Hreach) as [_ _ [_ _ Hj _ _] _ _].
  cbn [sm] in Hj. destruct Hj as [(Hz & _)|[_ Hp]]; [|done]. unfold sq, cur in Hz. lia.
Qed.
End property.
