(* ===== verification/SessionTrace.v ===== *)
(** Runs of a session by evaluation: the machine of Client.v as a function of its
    inputs, and a run in which the pool answers the subscription, sets a difficulty and
    sends a template, a device finds a share for it and the session submits it. *)
From stdpp Require Import base tactics list option strings countable.
From Stdlib Require Import ZArith Lia Ascii SpecFloat.
From S2P Require Import Prelude Words Fips Sha256d Scan Simd X86ShaNi ArmSha2 Backends.
From S2P Require Import Float64 Hex Target Job Miner MinerSteps MinerSafety Json Stratum PoolMessages.
From S2P Require Import StratumNet Client ClientSafety.

#[local] Open Scope Z_scope.

Section execution.
Context `{J : Jansson} `{O : OpenSSL} `{X : X86} `{A : ARM} {D : Type}.
Context (backend : sha256d_backend_t) (device_reports : active_job_t O -> Z -> Z -> list (Z * list Z) -> Prop).
Context (write_result : nat -> option nat) (cf : client_config).
#[local] Abbreviation run := (world_run (J := J) (D := D) backend device_reports write_result cf).

(** The next step with no key pressed; [None] when the session has ended, or when
    [read_line] waits for more than [events]. *)
Definition client_next (now : double) (events : list read_event) (c : client O D) : option (client O D) :=
  match cl_pc c with
  | CTop => Some (loop_top cf c now [])
  | CKeys (k :: ks) => Some (with_state (handle_key (cl_state c) k) (CKeys ks) c)
  | CKeys [] => Some (at_cpc CFlush c)
  | CFlush => Some (flush_share (J := J) write_result cf c now)
  | CRoll => Some (roll_take c)
  | CRebuild => Some (roll_rebuild c)
  | CRead => r ← read_line (cf_use_tls cf) (Z.to_nat 65536) (cl_buffer c) events; Some (after_read c r)
  | CHandle line => Some (with_state (fst (stratum_process_line (J := J) (cl_state c) line now)) CSend c)
  | CSend => Some (after_line (J := J) write_result cf c now)
  | CExit _ => None
  end.

Lemma client_next_step now events c c' :
  client_next now events c = Some c' -> client_step (J := J) write_result cf c c'.
Proof.
  unfold client_next. destruct (cl_pc c) as [|[|k ks]| | | | |line| |rc] eqn:E; [..|done].
  7: destruct (read_line _ _ _ _) as [r|] eqn:Er; [|done].
  all: intros H; injection H as <-.
  - by apply cs_top.
  - by apply cs_keys.
  - by apply cs_key.
  - by apply cs_flush.
  - by apply cs_roll.
  - by apply cs_rebuild.
  - by apply (cs_read _ _ _ events).
  - by apply cs_handle.
  - by apply cs_send.
Qed.

Definition jobs_left_b (c : client O D) : bool :=
  match client_miner c with Some m => job_seq (public_job (job m)) + 1 <? 2 ^ 64 | None => true end.
Lemma jobs_left_b_true c : jobs_left_b c = true -> jobs_left c.
Proof. unfold jobs_left_b, jobs_left. intros H m Hm. rewrite Hm in H. by apply Z.ltb_lt. Qed.

(** [k] steps of the session, the [i]-th read meeting the [i]-th list of events: the
    lines it handles and where it ends. *)
Fixpoint play (k : nat) (now : double) (reads : list (list read_event)) (w : world O D)
    : list string * world O D :=
  match k with
  | 0%nat => ([], w)
  | S k =>
      let c := w_client w in
      match client_next now (default [] (head reads)) c with
      | Some c' =>
          if jobs_left_b c then
            let reads := match cl_pc c with CRead => tail reads | _ => reads end in
            let '(lines, w') := play k now reads (World c' (w_workers w) (w_issued w)) in
            (handled c ++ lines, w')
          else ([], w)
      | None => ([], w)
      end
  end.

Lemma play_run k now reads w0 lines w :
  run w0 lines w -> run w0 (lines ++ fst (play k now reads w)) (snd (play k now reads w)).
Proof.
  revert reads lines w. induction k as [|k IH]; intros reads lines w Hr; cbn [play]; [by rewrite app_nil_r|].
  destruct (client_next now (default [] (head reads)) (w_client w)) as [c'|] eqn:Ec; [|by rewrite app_nil_r].
  destruct (jobs_left_b (w_client w)) eqn:Ej; [|by rewrite app_nil_r].
  set (reads' := match cl_pc (w_client w) with CRead => tail reads | _ => reads end).
  specialize (IH reads' (lines ++ handled (w_client w)) (World c' (w_workers w) (w_issued w))).
  destruct (play k now reads' _) as [more w']. cbn [fst snd] in *. rewrite <- app_assoc in IH. apply IH.
  eapply wr_step; [exact Hr|]. apply wo_client; [by apply jobs_left_b_true|]. by eapply client_next_step.
Qed.

Lemma play_workers k now reads w : w_workers (snd (play k now reads w)) = w_workers w.
Proof.
  revert reads w. induction k as [|k IH]; intros reads w; cbn [play]; [done|].
  destruct (client_next _ _ _); [|done]. destruct (jobs_left_b _); [|done].
  specialize (IH (match cl_pc (w_client w) with CRead => tail reads | _ => reads end)
    (World c (w_workers w) (w_issued w))). by destruct (play k now _ _).
Qed.

(** A device worker takes a range and reports one match. *)
Definition after_match (w : world O D) (m : miner O D) (b : Z) (j : active_job_t O) (start n nonce : Z) (hw : list Z)
    : world O D :=
  World (set_client_miner (queue_scan_match j nonce hw m) (w_client w))
    [Worker cuda_worker b (Scanning j start n [] false)] (w_issued w ++ [(job_seq (public_job j), start, n)]).

Lemma device_match w0 lines w m m' b j start n nonce hw :
  run w0 lines w -> client_miner (w_client w) = Some m -> w_workers w = [Worker cuda_worker b AtTop] ->
  stop m = false -> paused m = false ->
  copy_job_and_nonce_range_sized m b = (m', Some (j, start, n)) -> device_reports j start n [(nonce, hw)] ->
  run w0 lines (after_match w m' b j start n nonce hw).
Proof.
  intros Hr Hm Hw Hstop Hpaused Hcopy Hrep.
  assert (Hstep : forall w1 m1 p1 m2 p2 r,
    run w0 lines w1 -> client_miner (w_client w1) = Some m1 -> w_workers w1 = [Worker cuda_worker b p1] ->
    wstep backend device_reports m1 (Worker cuda_worker b p1) m2 (Worker cuda_worker b p2) r ->
    run w0 lines (World (set_client_miner m2 (w_client w1)) [Worker cuda_worker b p2] (w_issued w1 ++ option_list r))).
  { intros w1 m1 p1 m2 p2 r Hr1 Hm1 Hw1 Hs. rewrite <- (app_nil_r lines). eapply wr_step; [exact Hr1|].
    refine (wo_worker _ _ _ _ _ m1 (Sys m2 [Worker cuda_worker b p2] (w_issued w1 ++ option_list r)) Hm1 _).
    rewrite Hw1. exact (worker_steps _ _ (Sys m1 [Worker cuda_worker b p1] (w_issued w1)) 0 _ m2 _ r eq_refl Hs). }
  eapply (Hstep w m AtTop m Copying None) in Hr; [|done..|by apply ws_go].
  eapply (Hstep _ m Copying m' (Scanning j start n [(nonce, hw)] false) (Some _)) in Hr;
    [|done..|by eapply (ws_take _ _ m (Worker cuda_worker b Copying)); [..|apply scan_done]].
  eapply (Hstep _ m' _ (queue_scan_match j nonce hw m') (Scanning j start n [] false) None) in Hr;
    [|done..|by eapply ws_match].
  cbn [w_client w_issued option_list] in Hr. rewrite !app_nil_r in Hr. exact Hr.
Qed.
End execution.

(** * Messages of a pool *)

#[local] Existing Instances ref_openssl ref_x86 ref_arm ref_jansson.

Definition wcall (method : string) (params : json_t ref_jansson) : json_t ref_jansson :=
  GenNode 1 [entry "method" (wstr method); entry "params" params].
(** The answer to the subscription: an extranonce1 of four bytes, an extranonce2 of four. *)
Definition wsubscribed : json_t ref_jansson :=
  GenNode 1 [entry "id" (GenLeaf (inl (inr 1)));
             entry "result" (GenNode 0 [GenNode 0 []; wstr "54686520"; GenLeaf (inl (inr 4))])].
(** The difficulty 2^-32, for which nearly every hash will do. *)
Definition weasy : double := S754_finite false (2 ^ 52) (-84).
Definition wline (v : json_t ref_jansson) : string := default "" (json_dumps v).
Definition wlines : list string :=
  wline <$> [wsubscribed; wcall "mining.set_difficulty" (GenNode 0 [GenLeaf (inr (double_to weasy))]);
             wcall "mining.notify" wparams].
Definition wreceived (line : string) : read_event :=
  ReadEvent poll_ready (IoResult (Z.of_nat (S (strlen line))) false false) (chars line ++ [newline]).
Definition wreads : list (list read_event) := (fun line => [wreceived line]) <$> wlines.
Definition wtimeout : list read_event := [ReadEvent poll_timeout (IoResult 0 false false) []].

(** The session handles them, then the device's match is submitted. *)
Section scenario.
Context (cf : client_config).
Definition wtemplated (w : world ref_openssl unit) : list string * world ref_openssl unit :=
  play (fun _ => None) cf 40 (f64_of_Z 0) wreads w.
Definition wmining (w : world ref_openssl unit) : miner ref_openssl unit :=
  default m0 (client_miner (w_client (snd (wtemplated w)))).
Definition wfound (w : world ref_openssl unit) : world ref_openssl unit :=
  after_match (snd (wtemplated w)) (set_next_nonce 1 (wmining w)) 1 (with_epoch (wmining w)) 0 1 0
    (job_hash (with_epoch (wmining w)) 0).
Definition wsubmitted (w : world ref_openssl unit) : list string * world ref_openssl unit :=
  play (fun _ => None) cf 10 (f64_of_Z 0) [wtimeout] (wfound w).

Lemma wtemplated_eq w : exists k, wtemplated w = play (fun _ => None) cf k (f64_of_Z 0) wreads w.
Proof. by exists 40%nat. Qed.
Lemma wsubmitted_eq w : exists k, wsubmitted w = play (fun _ => None) cf k (f64_of_Z 0) [wtimeout] (wfound w).
Proof. by exists 10%nat. Qed.

(** The miner waits for nothing, and the nonce 0 meets the target. *)
Definition wmining_ok (w : world ref_openssl unit) : bool :=
  let m := wmining w in
  bool_decide (is_Some (client_miner (w_client (snd (wtemplated w))))) && negb (stop m) && negb (paused m) &&
  may_work m && (next_nonce m =? 0) && (0 <? job_seq (public_job (job m))) &&
  bool_decide (matches (job_hash (with_epoch m)) (aj_target_words (with_epoch m)) 0 1 = [0]).

Record mining_ready (w : world ref_openssl unit) : Prop := {
  mr_miner : client_miner (w_client (snd (wtemplated w))) = Some (wmining w);
  mr_flags : stop (wmining w) = false /\ paused (wmining w) = false;
  mr_work : may_work (wmining w) = true /\ next_nonce (wmining w) = 0;
  mr_job : 0 < job_seq (public_job (job (wmining w)));
  mr_matches : matches (job_hash (with_epoch (wmining w))) (aj_target_words (with_epoch (wmining w))) 0 1 = [0];
}.
Lemma wmining_ready w : wmining_ok w = true -> mining_ready w.
Proof.
  unfold wmining_ok. rewrite !andb_true_iff, !negb_true_iff, Z.eqb_eq, Z.ltb_lt, !bool_decide_eq_true.
  intros ((((((Hm & Hs) & Hp) & Hw) & Hn) & Hj) & Hmatch). split; try done.
  unfold wmining. by destruct Hm as [m ->].
Qed.

Context (device_reports : active_job_t ref_openssl -> Z -> Z -> list (Z * list Z) -> Prop).
#[local] Abbreviation run :=
  (world_run (J := ref_jansson) (O := ref_openssl) (D := unit) SHA256D_BACKEND_FAST_C device_reports (fun _ => None) cf).

Lemma templated_run w : run w (fst (wtemplated w)) (snd (wtemplated w)).
Proof. destruct (wtemplated_eq w) as [k ->]. exact (play_run _ _ _ cf k _ wreads w [] w (wr_start _ _ _ _ w)). Qed.

(** A device that can report the match makes the session submit it. *)
Lemma submitted_run w :
  mining_ready w -> w_workers w = [Worker cuda_worker 1 AtTop] ->
  device_reports (with_epoch (wmining w)) 0 1 [(0, job_hash (with_epoch (wmining w)) 0)] ->
  run w (fst (wtemplated w) ++ fst (wsubmitted w)) (snd (wsubmitted w)).
Proof.
  intros [Hm [Hs Hp] [Hw Hn] _ _] Hworkers Hrep. destruct (wsubmitted_eq w) as [k ->]. apply play_run.
  destruct (copy_range (wmining w) 1 Hw) as (_ & _ & Hc); [rewrite Hn; lia|unfold is_u32; lia|].
  rewrite Hn in Hc. eapply device_match; [apply templated_run|done| |done..].
  destruct (wtemplated_eq w) as [k' ->]. by rewrite play_workers.
Qed.
End scenario.

(** ** A plain connection, one device *)

Definition wbegin : world ref_openssl unit :=
  world_start (J := ref_jansson) (fun _ => None) "btcrig" wcf "pool:3333" "pool" "3333" (f64_of_Z 0)
    m0 [Worker cuda_worker 1 AtTop].

Lemma wbegin_ready : mining_ready wcf wbegin.
Proof. apply wmining_ready. vm_compute. reflexivity. Qed.
Lemma wbegin_lines : fst (wtemplated wcf wbegin) ++ fst (wsubmitted wcf wbegin) = wlines.
Proof. apply (bool_decide_unpack _). vm_compute. exact I. Qed.
Lemma wbegin_submits : length (submitted (w_client (snd (wsubmitted wcf wbegin)))) = 1%nat.
Proof. vm_compute. reflexivity. Qed.
