(* ===== verification/ProxyRelay.v ===== *)
(** The forwarding side of the proxy, src/src/proxy_main.c: the two buffers between a
    client and its upstream pool connection, the loop that moves bytes between
    them, and the thread of a client with the resources it holds.

    The results of system calls and of OpenSSL's I/O calls are inputs, as in
    StratumNet.v: the value returned with the answer of the error query. *)
From stdpp Require Import base tactics list option.
From Stdlib Require Import ZArith Lia.
From S2P Require Import Prelude StratumNet.

#[local] Open Scope Z_scope.
#[local] Hint Extern 0 (_ `prefix_of` _) => reflexivity : core.

Definition BUFFER_SIZE : nat := Z.to_nat 32768.

(** * Reading and writing a stream *)

(** The count; 0 at the end of the stream, -2 to be retried, -1 on an error. *)
Definition stream_read (use_tls : bool) (r : io_result) : Z :=
  if use_tls then
    if 0 <? io_ret r then io_ret r
    else if io_closed r then 0 else if io_retry r then -2 else -1
  else
    if 0 <? io_ret r then io_ret r
    else if io_ret r =? 0 then 0 else if io_retry r then -2 else -1.

Definition stream_write (use_tls : bool) (r : io_result) : Z :=
  if 0 <? io_ret r then io_ret r else if io_retry r then -2 else -1.

(** * Buffers *)

Record buffer_t := Buffer { b_data : list Z; b_off : nat; b_len : nat }.

Definition buffer_empty (b : buffer_t) : bool := (b_len b <=? b_off b)%nat.
Definition buffer_reset (b : buffer_t) : buffer_t := Buffer (b_data b) 0 0.

(** The bytes of a buffer that are still to be written. *)
Definition waiting (b : buffer_t) : list Z := drop (b_off b) (take (b_len b) (b_data b)).

(** One direction: the buffer, and as ghosts all bytes read into it and all bytes
    written from it. *)
Record pipe := Pipe { p_buf : buffer_t; p_in : list Z; p_out : list Z }.

(** The write of one direction: [None] leaves the loop, otherwise whether there was
    progress. *)
Definition pipe_write (use_tls : bool) (p : pipe) (r : io_result) : pipe * option bool :=
  let b := p_buf p in
  if negb (buffer_empty b) then
    let n := stream_write use_tls r in
    if 0 <? n then
      let out := p_out p ++ take (Z.to_nat n) (waiting b) in
      let b := Buffer (b_data b) (b_off b + Z.to_nat n)%nat (b_len b) in
      let b := if buffer_empty b then buffer_reset b else b in
      (Pipe b (p_in p) out, Some true)
    else if n <? -1 then (p, Some false)
    else (p, None)
  else (p, Some false).

(** The read of one direction; [bytes] are those a successful call stores.  The loop
    is left at the end of the stream. *)
Definition pipe_read (use_tls : bool) (p : pipe) (r : io_result) (bytes : list Z) : pipe * option bool :=
  let b := p_buf p in
  if buffer_empty b then
    let n := stream_read use_tls r in
    if 0 <? n then
      let stored := take (Z.to_nat n) bytes in
      let b := Buffer (stored ++ drop (length stored) (b_data b)) 0 (Z.to_nat n) in
      (Pipe b (p_in p ++ stored) (p_out p), Some true)
    else if n =? 0 then (p, None)
    else if n <? -1 then (p, Some false)
    else (p, None)
  else (p, Some false).

(** * The loop *)

(** What the calls of one turn answer: the two writes, the two reads with their
    bytes, and whether [select] failed other than by an interruption. *)
Record turn_io := TurnIO {
  ti_write_up : io_result; ti_write_cl : io_result;
  ti_read_cl : io_result; ti_bytes_cl : list Z;
  ti_read_up : io_result; ti_bytes_up : list Z;
  ti_select_failed : bool;
}.

Record relay := Relay { c2u : pipe; u2c : pipe }.

(** One turn, and whether the loop goes on. *)
Definition proxy_turn (client_tls upstream_tls : bool) (s : relay) (io : turn_io) : relay * bool :=
  let '(c, r1) := pipe_write upstream_tls (c2u s) (ti_write_up io) in
  match r1 with
  | None => (Relay c (u2c s), false)
  | Some p1 =>
      let '(u, r2) := pipe_write client_tls (u2c s) (ti_write_cl io) in
      match r2 with
      | None => (Relay c u, false)
      | Some p2 =>
          let '(c, r3) := pipe_read client_tls c (ti_read_cl io) (ti_bytes_cl io) in
          match r3 with
          | None => (Relay c u, false)
          | Some p3 =>
              let '(u, r4) := pipe_read upstream_tls u (ti_read_up io) (ti_bytes_up io) in
              match r4 with
              | None => (Relay c u, false)
              | Some p4 =>
                  let progress := p1 || p2 || p3 || p4 in
                  (Relay c u, progress || negb (ti_select_failed io))
              end
          end
      end
  end.

(** The turns made, until the loop is left or the results run out; whether it is
    still running. *)
Fixpoint proxy_turns (client_tls upstream_tls : bool) (s : relay) (ios : list turn_io) : relay * bool :=
  match ios with
  | [] => (s, true)
  | io :: ios =>
      let '(s, running) := proxy_turn client_tls upstream_tls s io in
      if running then proxy_turns client_tls upstream_tls s ios else (s, false)
  end.

(** The buffers are uninitialised memory of [BUFFER_SIZE] bytes. *)
Definition proxy_start (garbage1 garbage2 : list Z) : relay :=
  Relay (Pipe (buffer_reset (Buffer garbage1 0 0)) [] []) (Pipe (buffer_reset (Buffer garbage2 0 0)) [] []).
Definition proxy_loop (client_tls upstream_tls : bool) (garbage1 garbage2 : list Z) (ios : list turn_io)
  : relay * bool :=
  proxy_turns client_tls upstream_tls (proxy_start garbage1 garbage2) ios.

(** What the calls guarantee: a write takes no more than it is given, a read stores
    no more than the buffer holds. *)
Record turn_ok (s : relay) (io : turn_io) : Prop := {
  to_write_up : io_ret (ti_write_up io) <= Z.of_nat (length (waiting (p_buf (c2u s))));
  to_write_cl : io_ret (ti_write_cl io) <= Z.of_nat (length (waiting (p_buf (u2c s))));
  to_read_cl : Z.to_nat (io_ret (ti_read_cl io)) = length (ti_bytes_cl io) /\
    (length (ti_bytes_cl io) <= BUFFER_SIZE)%nat;
  to_read_up : Z.to_nat (io_ret (ti_read_up io)) = length (ti_bytes_up io) /\
    (length (ti_bytes_up io) <= BUFFER_SIZE)%nat;
}.
(** A connection that is given bytes takes at least one. *)
Definition turn_takes (s : relay) (io : turn_io) : Prop :=
  (waiting (p_buf (c2u s)) <> [] -> 0 < io_ret (ti_write_up io)) /\
  (waiting (p_buf (u2c s)) <> [] -> 0 < io_ret (ti_write_cl io)).

(** A condition on every turn that is made. *)
Fixpoint turns_all (P : relay -> turn_io -> Prop) (client_tls upstream_tls : bool) (s : relay)
    (ios : list turn_io) : Prop :=
  match ios with
  | [] => True
  | io :: ios =>
      P s io /\
      (let '(s, running) := proxy_turn client_tls upstream_tls s io in
       running = true -> turns_all P client_tls upstream_tls s ios)
  end.
Abbreviation turns_ok := (turns_all turn_ok).

(** * The invariant of a direction *)

(** Everything read has been written or is waiting, in order, inside the buffer. *)
Record pipe_ok (p : pipe) : Prop := {
  pk_size : length (b_data (p_buf p)) = BUFFER_SIZE;
  pk_bounds : (b_off (p_buf p) <= b_len (p_buf p) <= BUFFER_SIZE)%nat;
  pk_bytes : p_in p = p_out p ++ waiting (p_buf p);
}.
Definition relay_ok (s : relay) : Prop := pipe_ok (c2u s) /\ pipe_ok (u2c s).

Lemma length_waiting p :
  pipe_ok p -> length (waiting (p_buf p)) = (b_len (p_buf p) - b_off (p_buf p))%nat.
Proof. intros [Hs Hb _]. unfold waiting. rewrite length_drop, length_take. lia. Qed.

Lemma waiting_empty p : pipe_ok p -> buffer_empty (p_buf p) = true <-> waiting (p_buf p) = [].
Proof.
  intros Hp. pose proof (length_waiting p Hp) as Hl. unfold buffer_empty. rewrite Nat.leb_le.
  rewrite <- length_zero_iff_nil. lia.
Qed.

(** What a write does. *)
Lemma pipe_write_ok use_tls p r :
  pipe_ok p -> io_ret r <= Z.of_nat (length (waiting (p_buf p))) ->
  let '(p', res) := pipe_write use_tls p r in
  pipe_ok p' /\ p_in p' = p_in p /\ p_out p `prefix_of` p_out p' /\
  (res <> None -> waiting (p_buf p) <> [] -> 0 < io_ret r -> (length (p_out p) < length (p_out p'))%nat).
Proof.
  intros Hp Hr. pose proof Hp as [Hs Hb Hbytes]. pose proof (length_waiting p Hp) as Hl.
  pose proof (waiting_empty p Hp) as He. unfold pipe_write. cbv zeta.
  destruct (buffer_empty (p_buf p)) eqn:E; cbn [negb].
  { do 3 (split; [done|]). intros _ Hw _. destruct Hw. by apply He. }
  unfold stream_write. destruct (Z.ltb_spec 0 (io_ret r)) as [Hn|Hn].
  2:{ destruct (io_retry r); cbn; do 3 (split; [done|]); lia. }
  rewrite (proj2 (Z.ltb_lt _ _)) by done. set (n := Z.to_nat (io_ret r)).
  assert (Hnl : (0 < n <= length (waiting (p_buf p)))%nat) by lia.
  assert (Hdrop : drop (b_off (p_buf p) + n) (take (b_len (p_buf p)) (b_data (p_buf p))) = drop n (waiting (p_buf p)))
    by (unfold waiting; by rewrite drop_drop).
  cbn [p_buf p_in p_out]. split; [|split; [done|split]].
  - set (b' := Buffer (b_data (p_buf p)) (b_off (p_buf p) + n) (b_len (p_buf p))).
    assert (Hb' : pipe_ok (Pipe b' (p_in p) (p_out p ++ take n (waiting (p_buf p))))).
    { split; cbn [p_buf p_in p_out]; subst b'; cbn [b_data b_off b_len]; [done|lia|].
      unfold waiting at 2. cbn [b_data b_off b_len]. rewrite Hdrop, <- app_assoc, take_drop. done. }
    destruct (buffer_empty b') eqn:E'; [|exact Hb'].
    apply (waiting_empty _ Hb') in E'. destruct Hb' as [_ _ Hb']. cbn [p_buf p_in p_out] in *.
    split; cbn [p_buf p_in p_out buffer_reset b_data b_off b_len]; [done|lia|].
    rewrite Hb', E'. done.
  - by eexists.
  - intros _ _ _. rewrite length_app, length_take. lia.
Qed.

(** What a read does. *)
Lemma pipe_read_ok use_tls p r bytes :
  pipe_ok p -> Z.to_nat (io_ret r) = length bytes -> (length bytes <= BUFFER_SIZE)%nat ->
  let '(p', res) := pipe_read use_tls p r bytes in
  pipe_ok p' /\ p_out p' = p_out p /\ p_in p `prefix_of` p_in p' /\
  (res = None -> p' = p /\ waiting (p_buf p) = []).
Proof.
  intros Hp Hn Hsz. pose proof Hp as [Hs Hb Hbytes]. unfold pipe_read. cbv zeta.
  destruct (buffer_empty (p_buf p)) eqn:E; [|by split_and!].
  apply (waiting_empty p Hp) in E.
  destruct (Z.ltb_spec 0 (stream_read use_tls r)) as [Hpos|Hpos].
  - assert (Hr : stream_read use_tls r = io_ret r).
    { revert Hpos. unfold stream_read. destruct use_tls, (0 <? io_ret r); try done; repeat case_match; lia. }
    rewrite Hr, Hn, firstn_all. split_and!; [|done|by eexists|done].
    rewrite E, app_nil_r in Hbytes.
    split; cbn [p_buf p_in p_out b_data b_off b_len]; [|lia|].
    + rewrite length_app, length_drop. lia.
    + unfold waiting. cbn [b_data b_off b_len]. rewrite take_app_length, drop_0. by rewrite Hbytes.
  - destruct (_ =? 0); [by split_and!|]. destruct (_ <? -1); by split_and!.
Qed.

(** A turn keeps the invariant and only extends what was read and written. *)
Record turn_effect (s s' : relay) : Prop := {
  te_ok : relay_ok s';
  te_in : p_in (c2u s) `prefix_of` p_in (c2u s') /\ p_in (u2c s) `prefix_of` p_in (u2c s');
  te_out : p_out (c2u s) `prefix_of` p_out (c2u s') /\ p_out (u2c s) `prefix_of` p_out (u2c s');
}.

Lemma turn_effect_trans s1 s2 s3 : turn_effect s1 s2 -> turn_effect s2 s3 -> turn_effect s1 s3.
Proof. intros [_ [? ?] [? ?]] [? [? ?] [? ?]]. split; [done|split; by etransitivity..]. Qed.

(** The two write results of a turn that goes on. *)
Lemma proxy_turn_effect ctls utls s io :
  relay_ok s -> turn_ok s io ->
  let '(s', running) := proxy_turn ctls utls s io in
  turn_effect s s' /\
  (running = true ->
   (waiting (p_buf (c2u s)) <> [] -> 0 < io_ret (ti_write_up io) ->
      (length (p_out (c2u s)) < length (p_out (c2u s')))%nat) /\
   (waiting (p_buf (u2c s)) <> [] -> 0 < io_ret (ti_write_cl io) ->
      (length (p_out (u2c s)) < length (p_out (u2c s')))%nat)).
Proof.
  intros [Hc Hu] [T1 T2 [T3 T3'] [T4 T4']]. unfold proxy_turn.
  pose proof (pipe_write_ok utls _ _ Hc T1) as W1.
  destruct (pipe_write utls (c2u s) (ti_write_up io)) as [c r1]. destruct W1 as (Hc1 & I1 & O1 & G1).
  destruct r1 as [p1|].
  2:{ split; [|done]. split; cbn [c2u u2c]; [by split| |]; split; by rewrite ?I1. }
  pose proof (pipe_write_ok ctls _ _ Hu T2) as W2.
  destruct (pipe_write ctls (u2c s) (ti_write_cl io)) as [u r2]. destruct W2 as (Hu1 & I2 & O2 & G2).
  assert (Hmid : turn_effect s (Relay c u)) by (split; cbn [c2u u2c]; [by split|split; by rewrite ?I1, ?I2|by split]).
  destruct r2 as [p2|]; [|by split].
  pose proof (pipe_read_ok ctls _ _ _ Hc1 T3 T3') as W3.
  destruct (pipe_read ctls c (ti_read_cl io) (ti_bytes_cl io)) as [c' r3]. destruct W3 as (Hc2 & O3 & I3 & _).
  assert (Hmid3 : turn_effect s (Relay c' u)).
  { eapply turn_effect_trans; [exact Hmid|]. split; cbn [c2u u2c]; [by split|by split|split; by rewrite ?O3]. }
  destruct r3 as [p3|]; [|by split].
  pose proof (pipe_read_ok utls _ _ _ Hu1 T4 T4') as W4.
  destruct (pipe_read utls u (ti_read_up io) (ti_bytes_up io)) as [u' r4]. destruct W4 as (Hu2 & O4 & I4 & _).
  assert (Hmid4 : turn_effect s (Relay c' u')).
  { eapply turn_effect_trans; [exact Hmid3|]. split; cbn [c2u u2c]; [by split|by split|split; by rewrite ?O4]. }
  destruct r4 as [p4|]; [|by split]. split; [done|]. intros _. cbn [c2u u2c]. rewrite O3, O4.
  split; intros; [by apply G1|by apply G2].
Qed.

Lemma proxy_turns_effect ctls utls ios s :
  relay_ok s -> turns_ok ctls utls s ios ->
  turn_effect s (fst (proxy_turns ctls utls s ios)).
Proof.
  revert s. induction ios as [|io ios IH]; intros s Hok Hios; cbn [proxy_turns].
  - by split.
  - destruct Hios as [Hio Hios]. pose proof (proxy_turn_effect ctls utls s io Hok Hio) as H.
    destruct (proxy_turn ctls utls s io) as [s1 running]. destruct H as [He _].
    destruct running; [|exact He]. eapply turn_effect_trans; [exact He|].
    apply IH; [by destruct He|]. by apply Hios.
Qed.

Lemma prefix_by_length {A} (l1 l2 l3 : list A) :
  l1 `prefix_of` l3 -> l2 `prefix_of` l3 -> (length l1 <= length l2)%nat -> l1 `prefix_of` l2.
Proof.
  intros H1 H2 Hl. destruct (prefix_weak_total _ _ _ H1 H2) as [|H]; [done|].
  by rewrite (prefix_length_eq _ _ H Hl).
Qed.

(** The directions by name, to state what holds of both. *)
Definition dir (up : bool) (s : relay) : pipe := if up then c2u s else u2c s.
Definition write_of (up : bool) (io : turn_io) : io_result := if up then ti_write_up io else ti_write_cl io.

(** Turns that always write bring the bytes written up to any position already read. *)
Lemma turns_grow ctls utls up ios s n :
  relay_ok s -> turns_ok ctls utls s ios -> turns_all turn_takes ctls utls s ios ->
  snd (proxy_turns ctls utls s ios) = true ->
  (n <= length (p_in (dir up s)))%nat -> (n <= length (p_out (dir up s)) + length ios)%nat ->
  (n <= length (p_out (dir up (fst (proxy_turns ctls utls s ios)))))%nat.
Proof.
  revert s. induction ios as [|io ios IH]; intros s Hok Hios Hpos Hrun Hn Hlen; cbn [proxy_turns fst length] in *; [lia|].
  destruct Hios as [Hio Hios], Hpos as [[Hw1 Hw2] Hpos].
  pose proof (proxy_turn_effect ctls utls s io Hok Hio) as H.
  destruct (proxy_turn ctls utls s io) as [s1 running]. destruct H as [[Hok1 Hin Hout] Hg].
  destruct running; [|done]. destruct (Hg eq_refl) as [Hg1 Hg2].
  assert (H : (length (p_in (dir up s)) <= length (p_in (dir up s1)))%nat /\
    (length (p_out (dir up s)) <= length (p_out (dir up s1)))%nat)
    by (destruct up; split; apply prefix_length; (apply Hin || apply Hout)).
  assert (Hpb : p_in (dir up s) = p_out (dir up s) ++ waiting (p_buf (dir up s)))
    by (destruct up; apply pk_bytes; apply Hok).
  assert (Hgr : waiting (p_buf (dir up s)) <> [] ->
    (length (p_out (dir up s)) < length (p_out (dir up s1)))%nat) by (destruct up; auto).
  apply IH; try done; [by apply Hios|by apply Hpos|lia|].
  destruct (decide (n <= length (p_out (dir up s)))%nat) as [|Hlt]; [lia|].
  enough (length (p_out (dir up s)) < length (p_out (dir up s1)))%nat by lia.
  apply Hgr. intros He. rewrite He, app_nil_r in Hpb. rewrite Hpb in Hn. lia.
Qed.

Lemma start_relay_ok g1 g2 :
  length g1 = BUFFER_SIZE -> length g2 = BUFFER_SIZE -> relay_ok (proxy_start g1 g2).
Proof. intros H1 H2. by split; split; cbn; try lia. Qed.

(** * The thread of a client *)

Definition LISTEN_TCP : Z := 0.
Definition LISTEN_TLS : Z := 1.
Definition LISTEN_AUTO : Z := 2.

(** Whether the client speaks TLS: -1 when nothing can be peeked.  [peeked] is the
    first byte, if the peek gives one. *)
Definition client_uses_tls (peeked : option Z) (listen_mode : Z) : Z :=
  if listen_mode =? LISTEN_TLS then 1
  else if listen_mode =? LISTEN_TCP then 0
  else match peeked with
       | None => -1
       | Some first_byte => if first_byte =? 0x16 then 1 else 0
       end.

(** Things that have to be released: sockets, contexts and TLS sessions of the two
    streams. *)
Inductive side := client_side | upstream_side.
Inductive resource := Socket (s : side) | Context (s : side) | Session (s : side).
Inductive event := Acquire (r : resource) | Release (r : resource) | Forward.

#[export] Instance side_eq_dec : EqDecision side.
Proof. solve_decision. Defined.
#[export] Instance resource_eq_dec : EqDecision resource.
Proof. solve_decision. Defined.

(** [stream_t], less the pointers: whether each handle is set. *)
Record stream_t := Stream { s_fd : bool; s_use_tls : bool; s_ctx : bool; s_ssl : bool }.
Definition no_stream : stream_t := Stream false false false false.

Definition stream_close (k : side) (s : stream_t) : list event :=
  (if s_ssl s then [Release (Session k)] else []) ++
  (if s_ctx s then [Release (Context k)] else []) ++
  (if s_fd s then [Release (Socket k)] else []).

(** The answers of the calls a client thread makes. *)
Record thread_env := ThreadEnv {
  te_peek : option Z; te_client_ssl : bool; te_client_accept : bool;
  te_connect : bool; te_up_ctx : bool; te_up_ssl : bool; te_up_connect : bool;
}.

(** The stream when it could be opened, and what happened.  The client's socket is
    open already. *)
Definition stream_open_client (e : thread_env) (listen_mode : Z) : option stream_t * list event :=
  let use_tls := client_uses_tls (te_peek e) listen_mode in
  let s := Stream true false false false in
  if use_tls <? 0 then (None, stream_close client_side s)
  else
    let s := Stream true (negb (use_tls =? 0)) false false in
    if negb (s_use_tls s) then (Some s, [])
    else if negb (te_client_ssl e) then (None, stream_close client_side s)
    else
      let s := Stream true true false true in
      if negb (te_client_accept e) then (None, Acquire (Session client_side) :: stream_close client_side s)
      else (Some s, [Acquire (Session client_side)]).

Definition stream_open_upstream (e : thread_env) (use_tls : bool) : option stream_t * list event :=
  if negb (te_connect e) then (None, [])
  else
    let opened := [Acquire (Socket upstream_side)] in
    let s := Stream true use_tls false false in
    if negb use_tls then (Some s, opened)
    else if negb (te_up_ctx e) then (None, opened ++ stream_close upstream_side s)
    else
      let opened := opened ++ [Acquire (Context upstream_side)] in
      let s := Stream true use_tls true false in
      if negb (te_up_ssl e) then (None, opened ++ stream_close upstream_side s)
      else
        let opened := opened ++ [Acquire (Session upstream_side)] in
        let s := Stream true use_tls true true in
        if negb (te_up_connect e) then (None, opened ++ stream_close upstream_side s)
        else (Some s, opened).

(** The whole thread, with the loop as one event. *)
Definition client_thread (e : thread_env) (listen_mode : Z) (upstream_tls : bool) : list event :=
  let '(client, ev1) := stream_open_client e listen_mode in
  Acquire (Socket client_side) :: ev1 ++
  match client with
  | None => []
  | Some client =>
      let '(upstream, ev2) := stream_open_upstream e upstream_tls in
      ev2 ++
      match upstream with
      | None => stream_close client_side client
      | Some upstream =>
          Forward :: stream_close upstream_side upstream ++ stream_close client_side client
      end
  end.

(** The resources held after a trace; [None] when something is acquired twice or
    released without being held, or bytes are forwarded without both sockets. *)
Fixpoint held (l : list event) (rs : list resource) : option (list resource) :=
  match l with
  | [] => Some rs
  | Acquire r :: l => if decide (r ∈ rs) then None else held l (r :: rs)
  | Release r :: l => if decide (r ∈ rs) then held l (filter (fun r' => r' <> r) rs) else None
  | Forward :: l =>
      if decide (Socket client_side ∈ rs) then
        if decide (Socket upstream_side ∈ rs) then held l rs else None
      else None
  end.

(** * Properties *)

(** C30.  The proxy is transparent: at every moment, in each direction, what was
    forwarded followed by what waits in the buffer is exactly what was read, byte by
    byte and in order, whatever the calls answer and however the two directions
    interleave; the buffer is never overrun. *)
Theorem relay_transparent client_tls upstream_tls garbage1 garbage2 ios :
  length garbage1 = BUFFER_SIZE -> length garbage2 = BUFFER_SIZE ->
  turns_ok client_tls upstream_tls (proxy_start garbage1 garbage2) ios ->
  let s := fst (proxy_loop client_tls upstream_tls garbage1 garbage2 ios) in
  forall p, p = c2u s \/ p = u2c s ->
    p_in p = p_out p ++ waiting (p_buf p) /\ (b_off (p_buf p) <= b_len (p_buf p) <= BUFFER_SIZE)%nat.
Proof.
  intros H1 H2 Hios s p Hp.
  destruct (te_ok _ _ (proxy_turns_effect _ _ _ _ (start_relay_ok _ _ H1 H2) Hios)) as [Hc Hu].
  fold (proxy_loop client_tls upstream_tls garbage1 garbage2 ios) in Hc, Hu.
  destruct Hp as [-> | ->]; [destruct Hc|destruct Hu]; by split.
Qed.

(** C31.  Bytes are delivered: if in every turn each connection that is given bytes
    takes at least one, then as many turns as bytes are waiting forward everything
    that had been read from both sides. *)
Theorem relay_delivers client_tls upstream_tls s ios :
  relay_ok s -> turns_ok client_tls upstream_tls s ios -> turns_all turn_takes client_tls upstream_tls s ios ->
  snd (proxy_turns client_tls upstream_tls s ios) = true ->
  let s' := fst (proxy_turns client_tls upstream_tls s ios) in
  ((length (waiting (p_buf (c2u s))) <= length ios)%nat -> p_in (c2u s) `prefix_of` p_out (c2u s')) /\
  ((length (waiting (p_buf (u2c s))) <= length ios)%nat -> p_in (u2c s) `prefix_of` p_out (u2c s')).
Proof.
  intros Hok Hios Hpos Hrun s'.
  assert (Hdir : forall up, (length (waiting (p_buf (dir up s))) <= length ios)%nat ->
    p_in (dir up s) `prefix_of` p_out (dir up s')); [|split; [exact (Hdir true)|exact (Hdir false)]].
  intros up Hlen. pose proof (te_ok _ _ (proxy_turns_effect _ _ _ _ Hok Hios)) as Hok'.
  pose proof (te_out _ _ (proxy_turns_effect _ _ _ _ Hok Hios)) as Hout.
  pose proof (te_in _ _ (proxy_turns_effect _ _ _ _ Hok Hios)) as Hin. fold s' in Hok', Hout, Hin.
  assert (Hp : pipe_ok (dir up s) /\ pipe_ok (dir up s') /\ p_in (dir up s) `prefix_of` p_in (dir up s'))
    by (destruct up; repeat split; by apply Hok || apply Hok' || apply Hin).
  destruct Hp as (Hp & Hp' & Hpre).
  pose proof (f_equal length (pk_bytes _ Hp)) as Hb. rewrite length_app in Hb.
  assert (Hgrow : (length (p_in (dir up s)) <= length (p_out (dir up s')))%nat)
    by (apply (turns_grow client_tls upstream_tls up ios); done || lia).
  eapply prefix_by_length; [exact Hpre| |exact Hgrow]. eexists. exact (pk_bytes _ Hp').
Qed.

(** A client thread leaks nothing: on every path, through every failure of a
    call, each socket, context and TLS session is acquired at most once, released
    exactly once after that, and bytes are forwarded only while both sockets are
    open. *)
Theorem thread_releases_all e listen_mode upstream_tls :
  held (client_thread e listen_mode upstream_tls) [] = Some [].
Proof.
  destruct e as [peek b1 b2 b3 b4 b5 b6]. unfold client_thread, stream_open_client, client_uses_tls. cbn [te_peek].
  assert (Hmode : exists u : Z, (u = -1 \/ u = 0 \/ u = 1) /\
    (if listen_mode =? LISTEN_TLS then 1 else if listen_mode =? LISTEN_TCP then 0
     else match peek with None => -1 | Some b => if b =? 0x16 then 1 else 0 end) = u).
  { eexists. split; [|reflexivity]. repeat case_match; auto. }
  destruct Hmode as (u & Hu & ->).
  destruct Hu as [-> | [-> | ->]], b1, b2, b3, b4, b5, b6, upstream_tls; vm_compute; reflexivity.
Qed.

(** * A concrete run: the client sends three bytes, of which the pool takes two *)

Definition io_wait : io_result := IoResult (-1) true false.
Definition io_got (n : Z) : io_result := IoResult n false false.
Definition turn1 : turn_io := TurnIO io_wait io_wait (io_got 3) [1; 2; 3] io_wait [] false.
Definition turn2 : turn_io := TurnIO (io_got 2) io_wait io_wait [] io_wait [] false.
Definition garbage : list Z := replicate BUFFER_SIZE 0.

Lemma wait_reads : Z.to_nat (io_ret io_wait) = length (@nil Z) /\ (length (@nil Z) <= BUFFER_SIZE)%nat.
Proof. split; [reflexivity|apply Nat.le_0_l]. Qed.

Lemma turns12_ok : turns_ok false true (proxy_start garbage garbage) [turn1; turn2].
Proof.
  split; [|intros _; split; [|done]].
  - split; [discriminate..| |exact wait_reads]. split; [reflexivity|].
    apply Nat.leb_le. vm_compute. reflexivity.
  - split; [|discriminate|exact wait_reads|exact wait_reads].
    apply Z.leb_le. vm_compute. reflexivity.
Qed.

Lemma relay_transparent_witness :
  let p := c2u (fst (proxy_loop false true garbage garbage [turn1; turn2])) in
  [1; 2; 3] = p_out p ++ waiting (p_buf p) /\ p_out p = [1; 2].
Proof.
  intros p. destruct (relay_transparent false true garbage garbage [turn1; turn2]
    (length_replicate BUFFER_SIZE 0) (length_replicate BUFFER_SIZE 0) turns12_ok p (or_introl eq_refl)) as [<- _].
  split; vm_compute; reflexivity.
Defined.

(** A direction with one byte waiting, and a pool that takes it. *)
Definition one_waiting : relay :=
  Relay (Pipe (Buffer (7 :: replicate 32767 0) 0 1) [7] []) (Pipe (Buffer garbage 0 0) [] []).
Definition turn3 : turn_io := TurnIO (io_got 1) io_wait io_wait [] io_wait [] false.

Lemma one_waiting_ok : relay_ok one_waiting.
Proof.
  split; split; cbn [one_waiting c2u u2c p_buf p_in p_out b_data b_off b_len].
  - apply Nat.eqb_eq. vm_compute. reflexivity.
  - split; [apply Nat.le_0_l|apply Nat.leb_le; vm_compute; reflexivity].
  - reflexivity.
  - apply length_replicate.
  - split; apply Nat.le_0_l.
  - reflexivity.
Qed.

Lemma turn3_ok : turns_ok false false one_waiting [turn3].
Proof. split; [|done]. split; [discriminate|discriminate|exact wait_reads|exact wait_reads]. Qed.
Lemma turn3_takes : turns_all turn_takes false false one_waiting [turn3].
Proof. split; [|done]. split; [reflexivity|]. intros H. destruct (H eq_refl). Qed.

Lemma relay_delivers_witness :
  [7] `prefix_of` p_out (c2u (fst (proxy_turns false false one_waiting [turn3]))).
Proof.
  apply (relay_delivers false false one_waiting [turn3] one_waiting_ok turn3_ok turn3_takes);
    vm_compute; reflexivity || exact (le_n 1).
Defined.
