(* ===== verification/ProxyConfig.v ===== *)
(** The configuration of the proxy, src/src/proxy_main.c: addresses, the JSON file,
    the command line and the certificate paths, up to the accept loop.

    Files, directories and certificates belong to the environment; their answers
    are inputs.  A failed parse ends the program, so what it leaves in its output is
    not modelled. *)
From stdpp Require Import countable base tactics list option strings.
From Stdlib Require Import ZArith Lia Ascii DecimalString.
From S2P Require Import Prelude Hex Target Job Json Stratum StratumNet ProxyRelay.

#[local] Open Scope Z_scope.

(** * Addresses *)

Record endpoint_t := Endpoint { e_host : string; e_port : string; e_use_tls : bool }.

(** A NULL source gives the empty string. *)
Definition copy_text (dst_size : nat) (src : option string) : string :=
  match src with
  | None => ""
  | Some src => of_chars (take (dst_size - 1) (chars src))
  end.

Definition parse_host_port (text : string) : option (string * string) :=
  if String.eqb text "" then None
  else
    let tmp := take 319 (chars text) in
    match split_last ":" tmp with
    | None => None
    | Some (h, p) =>
        let host := copy_text 256 (Some (match h with [] => "0.0.0.0"%string | _ => of_chars h end)) in
        let port := copy_text 16 (Some (of_chars p)) in
        if String.eqb host "" || String.eqb port "" then None else Some (host, port)
    end.

(** The comparisons of [parse_endpoint] in their order, with the flag each sets. *)
Definition endpoint_schemes : list (string * bool) :=
  [("stratum+tcp://", false); ("stratum+tls://", true); ("stratum+ssl://", true);
   ("tcp://", false); ("tls://", true); ("ssl://", true)]%string.
Fixpoint strip_endpoint_scheme (table : list (string * bool)) (p : list ascii) : list ascii * bool :=
  match table with
  | [] => (p, false)
  | (scheme, use_tls) :: table =>
      match strip_prefix (chars scheme) p with
      | Some p => (p, use_tls)
      | None => strip_endpoint_scheme table p
      end
  end.

Definition parse_endpoint (url : string) : option endpoint_t :=
  let '(p, use_tls) := strip_endpoint_scheme endpoint_schemes (chars url) in
  match p with
  | [] => None
  | _ =>
      let hostport := before "/" (take 319 p) in
      let '(host, port) :=
        match split_last ":" hostport with
        | None =>
            (copy_text 256 (Some (of_chars hostport)),
             copy_text 16 (Some (if use_tls then "4333" else "3333")%string))
        | Some (h, p) => (copy_text 256 (Some (of_chars h)), copy_text 16 (Some (of_chars p)))
        end in
      if String.eqb host "" || String.eqb port "" then None else Some (Endpoint host port use_tls)
  end.

(** * The configuration *)

Record proxy_config_t := ProxyConfig {
  listen_host : string; listen_port : string; listen_mode : Z;
  data_dir : string; cert_path : string; key_path : string;
  upstream : endpoint_t; upstream_verify : bool;
}.

Definition set_listen (host port : string) (c : proxy_config_t) : proxy_config_t :=
  ProxyConfig host port (listen_mode c) (data_dir c) (cert_path c) (key_path c) (upstream c) (upstream_verify c).
Definition set_listen_mode (mode : Z) (c : proxy_config_t) : proxy_config_t :=
  ProxyConfig (listen_host c) (listen_port c) mode (data_dir c) (cert_path c) (key_path c) (upstream c)
    (upstream_verify c).
Definition set_data_dir (d : string) (c : proxy_config_t) : proxy_config_t :=
  ProxyConfig (listen_host c) (listen_port c) (listen_mode c) d (cert_path c) (key_path c) (upstream c)
    (upstream_verify c).
Definition set_cert_key (cert key : string) (c : proxy_config_t) : proxy_config_t :=
  ProxyConfig (listen_host c) (listen_port c) (listen_mode c) (data_dir c) cert key (upstream c)
    (upstream_verify c).
Definition set_upstream (u : endpoint_t) (c : proxy_config_t) : proxy_config_t :=
  ProxyConfig (listen_host c) (listen_port c) (listen_mode c) (data_dir c) (cert_path c) (key_path c) u
    (upstream_verify c).
Definition set_upstream_verify (v : bool) (c : proxy_config_t) : proxy_config_t :=
  ProxyConfig (listen_host c) (listen_port c) (listen_mode c) (data_dir c) (cert_path c) (key_path c)
    (upstream c) v.

Definition set_listen_url (c : proxy_config_t) (url : string) : option proxy_config_t :=
  match parse_endpoint url with
  | None => None
  | Some e =>
      let c := set_listen (copy_text 256 (Some (e_host e))) (copy_text 16 (Some (e_port e))) c in
      Some (set_listen_mode (if e_use_tls e then LISTEN_TLS else LISTEN_TCP) c)
  end.

(** * The JSON file *)

Section json.
Context `{J : Jansson}.

Definition json_bool_value (value : option (json_t J)) (fallback : bool) : bool :=
  if json_is_boolean value then json_is_true value else fallback.
(** The destination afterwards; [old] is its contents before. *)
Definition json_string_copy (value : option (json_t J)) (dst_size : nat) (old : string) : string :=
  match json_string_value value with Some text => copy_text dst_size (Some text) | None => old end.
(** [snprintf(dst, dst_size, "%lld", v)] *)
Definition snprintf_lld (dst_size : nat) (v : Z) : string :=
  of_chars (take (dst_size - 1) (chars (NilEmpty.string_of_int (Z.to_int v)))).
Definition json_port_copy (value : option (json_t J)) (dst_size : nat) (old : string) : string :=
  if json_is_string value then json_string_copy value dst_size old
  else if json_is_integer value then snprintf_lld dst_size (json_integer_value value)
  else old.

Definition load_listen (c : proxy_config_t) (listen : option (json_t J)) : option proxy_config_t :=
  if json_is_string listen then set_listen_url c (default "" (json_string_value listen))
  else if json_is_object listen then
    let url := json_object_get listen "url" in
    match (if json_is_string url then set_listen_url c (default "" (json_string_value url)) else Some c) with
    | None => None
    | Some c =>
        let c :=
          match json_string_value (json_object_get listen "mode") with
          | None => c
          | Some mode_text =>
              if String.eqb mode_text "tls" || String.eqb mode_text "ssl" then set_listen_mode LISTEN_TLS c
              else if String.eqb mode_text "tcp" then set_listen_mode LISTEN_TCP c
              else if String.eqb mode_text "auto" then set_listen_mode LISTEN_AUTO c
              else c
          end in
        let tls := json_object_get listen "tls" in
        let c :=
          if json_is_boolean tls
          then set_listen_mode (if json_is_true tls then LISTEN_TLS else LISTEN_AUTO) c else c in
        let c := set_listen (json_string_copy (json_object_get listen "host") 256 (listen_host c))
                   (json_port_copy (json_object_get listen "port") 16 (listen_port c)) c in
        Some (set_cert_key (json_string_copy (json_object_get listen "cert") 512 (cert_path c))
                (json_string_copy (json_object_get listen "key") 512 (key_path c)) c)
    end
  else Some c.

Definition load_upstream (c : proxy_config_t) (up : option (json_t J)) : option proxy_config_t :=
  if json_is_string up then
    e ← parse_endpoint (default "" (json_string_value up)); Some (set_upstream e c)
  else if json_is_object up then
    let url := json_object_get up "url" in
    match (if json_is_string url
           then e ← parse_endpoint (default "" (json_string_value url)); Some (set_upstream e c)
           else Some c) with
    | None => None
    | Some c =>
        Some (set_upstream_verify (json_bool_value (json_object_get up "verify") (upstream_verify c)) c)
    end
  else Some c.

(** [root] is what [json_load_file] gives; [None] is a return of -1. *)
Definition load_proxy_config (c : proxy_config_t) (root : option (json_t J)) (required : bool)
  : option proxy_config_t :=
  match root with
  | None => if required then None else Some c
  | Some _ =>
      c ← load_listen c (json_object_get root "listen");
      c ← load_upstream c (json_object_get root "upstream");
      let c := set_cert_key (json_string_copy (json_object_get root "cert") 512 (cert_path c))
                 (json_string_copy (json_object_get root "key") 512 (key_path c)) c in
      let c := set_data_dir (json_string_copy (json_object_get root "data-dir") 512 (data_dir c)) c in
      Some (set_upstream_verify
              (json_bool_value (json_object_get root "upstream-verify") (upstream_verify c)) c)
  end.
End json.

(** * The command line *)

Inductive outcome (A : Type) := Go (a : A) | Quit (rc : Z).
Arguments Go {A} a.
Arguments Quit {A} rc.

(** [args] are the arguments after the program's name. *)
Fixpoint find_config_arg (args : list string) : option string :=
  match args with
  | [] => None
  | a :: args =>
      match args with
      | path :: _ => if String.eqb a "--config" then Some path else find_config_arg args
      | [] => None
      end
  end.
Definition has_help_arg (args : list string) : bool :=
  existsb (fun a => String.eqb a "-h" || String.eqb a "--help") args.
Definition has_version_arg (args : list string) : bool := existsb (String.eqb "--version") args.

Definition listen_arg (mode : Z) (text : string) (c : proxy_config_t) : outcome proxy_config_t :=
  match parse_host_port text with
  | None => Quit 2
  | Some (host, port) => Go (set_listen_mode mode (set_listen host port c))
  end.

(** An option with its value; [None] when the option takes none or is unknown. *)
Definition value_arg (opt v : string) (c : proxy_config_t) : option (outcome proxy_config_t) :=
  if String.eqb opt "--config" then Some (Go c)
  else if String.eqb opt "--listen-auto" then Some (listen_arg LISTEN_AUTO v c)
  else if String.eqb opt "--listen-tcp" then Some (listen_arg LISTEN_TCP v c)
  else if String.eqb opt "--listen-tls" then Some (listen_arg LISTEN_TLS v c)
  else if String.eqb opt "--data-dir" then Some (Go (set_data_dir (copy_text 512 (Some v)) c))
  else if String.eqb opt "--cert" then Some (Go (set_cert_key (copy_text 512 (Some v)) (key_path c) c))
  else if String.eqb opt "--key" then Some (Go (set_cert_key (cert_path c) (copy_text 512 (Some v)) c))
  else if String.eqb opt "--upstream" then
    Some (match parse_endpoint v with None => Quit 2 | Some e => Go (set_upstream e c) end)
  else None.
(** The options without a value. *)
Definition flag_arg (opt : string) (c : proxy_config_t) : outcome proxy_config_t :=
  if String.eqb opt "--upstream-no-verify" then Go (set_upstream_verify false c)
  else if String.eqb opt "-h" || String.eqb opt "--help" then Quit 0
  else Quit 2.

Fixpoint parse_args (args : list string) (c : proxy_config_t) : outcome proxy_config_t :=
  match args with
  | [] => Go c
  | opt :: args =>
      let alone := match flag_arg opt c with Go c => parse_args args c | Quit rc => Quit rc end in
      match args with
      | [] => alone
      | v :: args =>
          match value_arg opt v c with
          | Some (Go c) => parse_args args c
          | Some (Quit rc) => Quit rc
          | None => alone
          end
      end
  end.

(** * Directories and certificates *)

Definition is_separator (c : ascii) : bool := Ascii.eqb c "/" || Ascii.eqb c "\".

(** Trailing separators are removed, the first character is kept. *)
Fixpoint trim_separators (rev_path : list ascii) : list ascii :=
  match rev_path with
  | c :: ((_ :: _) as l) => if is_separator c then trim_separators l else rev_path
  | l => l
  end.

(** The directories [ensure_directory] makes, in order: the parts before each inner
    separator, less the root of a drive, and the whole. *)
Definition directories (path : string) : list string :=
  let tmp := rev (trim_separators (rev (take 511 (chars path)))) in
  let inner := filter (fun i => is_separator (tmp !!! i) && negb ((i =? 2)%nat && Ascii.eqb (tmp !!! 1%nat) ":") = true)
                 (seq 1 (length tmp - 1)) in
  ((fun i => of_chars (take i tmp)) <$> inner) ++ [of_chars tmp].
Definition ensure_directory (make_directory : string -> bool) (path : string) : bool :=
  forallb make_directory (directories path).

Definition join_path (out_size : nat) (dir name : string) : string :=
  let sep := match last (chars dir) with
             | Some c => if is_separator c then "" else "/"
             | None => "/"
             end%string in
  of_chars (take (out_size - 1) (chars dir ++ chars sep ++ chars name)).

(** What the environment answers. *)
Record proxy_env (J : Jansson) := ProxyEnv {
  pe_data_dir : option string;
  pe_readable : string -> bool;
  pe_load_file : string -> option (json_t J);
  pe_make_directory : string -> bool;
  pe_generate : string -> string -> bool;
  pe_ctx_new : bool;
  pe_use_certificate : string -> string -> bool;
  pe_listen : string -> string -> bool;
}.
Arguments pe_data_dir {J} _.
Arguments pe_readable {J} _ _.
Arguments pe_load_file {J} _ _.
Arguments pe_make_directory {J} _ _.
Arguments pe_generate {J} _ _ _.
Arguments pe_ctx_new {J} _.
Arguments pe_use_certificate {J} _ _ _.
Arguments pe_listen {J} _ _ _.

Section setup.
Context `{J : Jansson} (e : proxy_env J).

Definition set_default_data_dir : string :=
  match pe_data_dir e with
  | Some configured => if String.eqb configured "" then copy_text 512 (Some "."%string)
                       else copy_text 512 (Some configured)
  | None => copy_text 512 (Some "."%string)
  end.
Definition file_exists (path : string) : bool := negb (String.eqb path "") && pe_readable e path.

(** The certificate part of [main]: where the files are, then the files. *)
Definition certificate_paths (c : proxy_config_t) : outcome proxy_config_t :=
  if String.eqb (cert_path c) "" && String.eqb (key_path c) "" then
    if negb (ensure_directory (pe_make_directory e) (data_dir c)) then Quit 1
    else Go (set_cert_key (join_path 512 (data_dir c) "cert.pem") (join_path 512 (data_dir c) "cert_key.pem") c)
  else if String.eqb (cert_path c) "" || String.eqb (key_path c) "" then Quit 2
  else Go c.
Definition certificate_missing (c : proxy_config_t) : bool :=
  negb (file_exists (cert_path c)) || negb (file_exists (key_path c)).
Definition prepare_certificate (c : proxy_config_t) : outcome proxy_config_t :=
  if listen_mode c =? LISTEN_TCP then Go c
  else
    match certificate_paths c with
    | Quit rc => Quit rc
    | Go c =>
        if certificate_missing c && negb (pe_generate e (cert_path c) (key_path c)) then Quit 1
        else if negb (pe_ctx_new e) then Quit 1
        else if negb (pe_use_certificate e (cert_path c) (key_path c)) then Quit 1
        else Go c
    end.

(** The configuration before the file and the command line. *)
Definition config_defaults (default_upstream : endpoint_t) : proxy_config_t :=
  ProxyConfig (copy_text 256 (Some "0.0.0.0"%string)) (copy_text 16 (Some "4333"%string)) LISTEN_AUTO
    set_default_data_dir "" "" default_upstream false.

(** [main] up to the end of the command line. *)
Definition proxy_settings (args : list string) : outcome proxy_config_t :=
  match parse_endpoint "stratum+tls://public-pool.io:4333" with
  | None => Quit 1
  | Some default_upstream =>
      let c := config_defaults default_upstream in
      if has_help_arg args then Quit 0
      else if has_version_arg args then Quit 0
      else
        let '(config_path, config_required) :=
          match find_config_arg args with
          | Some path => (Some path, true)
          | None =>
              (if pe_readable e "proxy.json" then Some "proxy.json"%string
               else if pe_readable e "../proxy.json" then Some "../proxy.json"%string else None, false)
          end in
        match match config_path with
              | Some path => load_proxy_config c (pe_load_file e path) config_required
              | None => Some c
              end with
        | None => Quit 1
        | Some c => parse_args args c
        end
  end.

(** [main] up to the accept loop. *)
Definition proxy_setup (args : list string) : outcome proxy_config_t :=
  match proxy_settings args with
  | Quit rc => Quit rc
  | Go c =>
      match prepare_certificate c with
      | Quit rc => Quit rc
      | Go c => if negb (pe_listen e (listen_host c) (listen_port c)) then Quit 1 else Go c
      end
  end.
End setup.

(** * The well-formedness of the configuration *)

Definition endpoint_fits (e : endpoint_t) : Prop :=
  e_host e <> ""%string /\ (strlen (e_host e) < 256)%nat /\
  e_port e <> ""%string /\ (strlen (e_port e) < 16)%nat.

(** Every string fits its array, the mode is one of the three, the upstream has a host
    and a port. *)
Record config_fits (c : proxy_config_t) : Prop := {
  cf_host : (strlen (listen_host c) < 256)%nat;
  cf_port : (strlen (listen_port c) < 16)%nat;
  cf_mode : listen_mode c ∈ [LISTEN_TCP; LISTEN_TLS; LISTEN_AUTO];
  cf_dir : (strlen (data_dir c) < 512)%nat;
  cf_cert : (strlen (cert_path c) < 512)%nat;
  cf_key : (strlen (key_path c) < 512)%nat;
  cf_upstream : endpoint_fits (upstream c);
}.

Lemma strlen_take n l : (0 < n)%nat -> (strlen (of_chars (take (n - 1) l)) < n)%nat.
Proof. intros Hn. rewrite <- length_chars, chars_of_chars, length_take. lia. Qed.
Lemma copy_text_fits n src : (0 < n)%nat -> (strlen (copy_text n src) < n)%nat.
Proof. intros Hn. destruct src as [s|]; [by apply strlen_take|exact Hn]. Qed.
#[local] Arguments copy_text : simpl never.
Create HintDb fits.
#[local] Hint Resolve copy_text_fits strlen_take : fits.
#[local] Hint Extern 0 (0 < _)%nat => (apply Nat.ltb_lt; vm_compute; reflexivity) : fits.
#[local] Hint Extern 2 (_ ∈ [LISTEN_TCP; LISTEN_TLS; LISTEN_AUTO]) => (apply (bool_decide_unpack _); vm_compute; exact I) : fits.

(** Assignments to fields, one at a time. *)
Ltac by_fits := intros; match goal with H : config_fits _ |- _ => destruct H end; split; eauto with fits.
Lemma fits_listen h p c :
  config_fits c -> (strlen h < 256)%nat -> (strlen p < 16)%nat -> config_fits (set_listen h p c).
Proof. by_fits. Qed.
Lemma fits_mode m c : config_fits c -> m ∈ [LISTEN_TCP; LISTEN_TLS; LISTEN_AUTO] -> config_fits (set_listen_mode m c).
Proof. by_fits. Qed.
Lemma fits_dir d c : config_fits c -> (strlen d < 512)%nat -> config_fits (set_data_dir d c).
Proof. by_fits. Qed.
Lemma fits_cert a b c :
  config_fits c -> (strlen a < 512)%nat -> (strlen b < 512)%nat -> config_fits (set_cert_key a b c).
Proof. by_fits. Qed.
Lemma fits_upstream u c : config_fits c -> endpoint_fits u -> config_fits (set_upstream u c).
Proof. by_fits. Qed.
Lemma fits_verify v c : config_fits c -> config_fits (set_upstream_verify v c).
Proof. by_fits. Qed.
#[local] Hint Resolve fits_listen fits_mode fits_dir fits_cert fits_upstream fits_verify cf_host cf_port cf_dir
  cf_cert cf_key : fits.

Lemma parse_endpoint_fits url e : parse_endpoint url = Some e -> endpoint_fits e.
Proof.
  unfold parse_endpoint. destruct (strip_endpoint_scheme _ _) as [p tls]. destruct p as [|x p]; [done|].
  set (hp := match split_last ":" (before "/" (take 319 (x :: p))) with Some _ => _ | None => _ end).
  assert (H : (strlen (fst hp) < 256)%nat /\ (strlen (snd hp) < 16)%nat).
  { subst hp. destruct (split_last _ _) as [[h q]|]; split; eauto with fits. }
  destruct hp as [host port]. cbn [fst snd] in H.
  destruct (String.eqb_spec host ""); [done|]. destruct (String.eqb_spec port ""); [done|].
  cbn [orb]. intros [= <-]. split; [done|]. split; [apply H|]. split; [done|apply H].
Qed.

Section fits_json.
Context `{J : Jansson}.

Lemma string_copy_fits (v : option (json_t J)) n old :
  (0 < n)%nat -> (strlen old < n)%nat -> (strlen (json_string_copy v n old) < n)%nat.
Proof. intros. unfold json_string_copy. destruct (json_string_value v); eauto with fits. Qed.
Lemma port_copy_fits (v : option (json_t J)) n old :
  (0 < n)%nat -> (strlen old < n)%nat -> (strlen (json_port_copy v n old) < n)%nat.
Proof.
  intros. unfold json_port_copy, snprintf_lld. case_match; [by apply string_copy_fits|].
  case_match; eauto with fits.
Qed.
#[local] Hint Resolve string_copy_fits port_copy_fits : fits.

Lemma listen_url_fits c url c' : config_fits c -> set_listen_url c url = Some c' -> config_fits c'.
Proof.
  unfold set_listen_url. destruct (parse_endpoint url) as [e|]; [|done]. intros Hc [= <-].
  destruct (e_use_tls e); eauto with fits.
Qed.

Lemma load_listen_fits c (v : option (json_t J)) c' : config_fits c -> load_listen c v = Some c' -> config_fits c'.
Proof.
  intros Hc. unfold load_listen. destruct (json_is_string v); [by apply listen_url_fits|].
  destruct (json_is_object v); [|by intros [= <-]]. cbv zeta.
  destruct (if json_is_string (json_object_get v "url") then _ else Some c) as [c1|] eqn:E; [|done].
  assert (Hc1 : config_fits c1)
    by (destruct (json_is_string (json_object_get v "url")); [by eapply listen_url_fits|by injection E as <-]).
  clear E. set (c2 := match json_string_value (json_object_get v "mode") with Some _ => _ | None => _ end).
  assert (Hc2 : config_fits c2) by (subst c2; repeat case_match; eauto with fits).
  clearbody c2. set (c3 := if json_is_boolean _ then _ else c2).
  assert (Hc3 : config_fits c3) by (subst c3; repeat case_match; eauto with fits).
  clearbody c3. intros [= <-].
  apply fits_cert; [apply fits_listen; [done| |]| |];
    (apply string_copy_fits || apply port_copy_fits); eauto with fits; apply Hc3.
Qed.

Lemma load_upstream_fits c (v : option (json_t J)) c' : config_fits c -> load_upstream c v = Some c' -> config_fits c'.
Proof.
  intros Hc. unfold load_upstream.
  assert (Hset : forall url c', (e ← parse_endpoint url; Some (set_upstream e c)) = Some c' -> config_fits c').
  { intros url x H. destruct (parse_endpoint url) as [e|] eqn:E; [|done]. injection H as <-.
    apply fits_upstream; [done|]. by eapply parse_endpoint_fits. }
  destruct (json_is_string v); [by apply Hset|]. destruct (json_is_object v); [|by intros [= <-]]. cbv zeta.
  destruct (if json_is_string (json_object_get v "url") then _ else Some c) as [c1|] eqn:E; [|done].
  intros [= <-]. apply fits_verify.
  destruct (json_is_string (json_object_get v "url")); [by eapply Hset|by injection E as <-].
Qed.

Lemma load_config_fits c (root : option (json_t J)) required c' :
  config_fits c -> load_proxy_config c root required = Some c' -> config_fits c'.
Proof.
  intros Hc. unfold load_proxy_config. destruct root as [r|]; [|destruct required; [done|by intros [= <-]]].
  destruct (load_listen c _) as [c1|] eqn:E1; [|done]. cbn [mbind option_bind].
  destruct (load_upstream c1 _) as [c2|] eqn:E2; [|done]. cbn [mbind option_bind]. intros [= <-].
  apply load_listen_fits in E1; [|done]. apply load_upstream_fits in E2; [|done].
  apply fits_verify, fits_dir; [apply fits_cert; [done| |]|];
    apply string_copy_fits; eauto with fits; apply E2.
Qed.
End fits_json.

Lemma host_port_fits text h p :
  parse_host_port text = Some (h, p) -> (strlen h < 256)%nat /\ (strlen p < 16)%nat.
Proof.
  unfold parse_host_port. case_match; [done|]. destruct (split_last _ _) as [[a b]|]; [|done]. cbv zeta.
  case_match; [done|]. intros [= <- <-]. split; eauto with fits.
Qed.

Lemma listen_arg_fits mode text c c' :
  config_fits c -> mode ∈ [LISTEN_TCP; LISTEN_TLS; LISTEN_AUTO] -> listen_arg mode text c = Go c' -> config_fits c'.
Proof.
  unfold listen_arg. destruct (parse_host_port text) as [[h p]|] eqn:E; [|done].
  apply host_port_fits in E as [??]. intros Hc Hm [= <-]. eauto with fits.
Qed.

Lemma value_arg_fits opt v c c' : config_fits c -> value_arg opt v c = Some (Go c') -> config_fits c'.
Proof.
  intros Hc H. unfold value_arg in H.
  repeat match type of H with (if ?b then _ else _) = _ => destruct b end; try discriminate H;
    apply (inj Some) in H.
  - by injection H as <-.
  - eapply listen_arg_fits; [exact Hc| |exact H]. eauto with fits.
  - eapply listen_arg_fits; [exact Hc| |exact H]. eauto with fits.
  - eapply listen_arg_fits; [exact Hc| |exact H]. eauto with fits.
  - injection H as <-. eauto with fits.
  - injection H as <-. eauto with fits.
  - injection H as <-. eauto with fits.
  - destruct (parse_endpoint v) as [e|] eqn:E; [|done]. injection H as <-.
    apply fits_upstream; [done|]. by eapply parse_endpoint_fits.
Qed.

Lemma flag_arg_fits opt c c' : config_fits c -> flag_arg opt c = Go c' -> config_fits c'.
Proof. intros Hc. unfold flag_arg. case_match; [intros [= <-]; eauto with fits|]. by case_match. Qed.

Lemma parse_args_fits args c c' : config_fits c -> parse_args args c = Go c' -> config_fits c'.
Proof.
  assert (Hn : forall n args c c', (length args <= n)%nat -> config_fits c -> parse_args args c = Go c' -> config_fits c').
  { clear. intros n. induction n as [|n IH]; intros [|opt args] c c' Hl Hc; cbn [parse_args length] in *; try lia;
      try by intros [= <-].
    assert (Halone : match flag_arg opt c with Go c => parse_args args c | Quit rc => Quit rc end = Go c' -> config_fits c').
    { destruct (flag_arg opt c) as [c1|rc] eqn:E; [|done]. apply flag_arg_fits in E; [|done].
      intros H. eapply (IH args c1); [lia|done|exact H]. }
    destruct args as [|v args]; [exact Halone|].
    destruct (value_arg opt v c) as [[c1|rc]|] eqn:E; [|done|exact Halone].
    apply value_arg_fits in E; [|done]. cbn [length] in Hl. intros H. eapply (IH args c1); [lia|done|exact H]. }
  by apply (Hn (length args)).
Qed.

Lemma join_path_fits n dir name : (0 < n)%nat -> (strlen (join_path n dir name) < n)%nat.
Proof. intros Hn. by apply strlen_take. Qed.
Lemma join_path_nonempty n dir name : (1 < n)%nat -> name <> ""%string -> join_path n dir name <> ""%string.
Proof.
  intros Hn Hname H. apply (f_equal chars) in H. unfold join_path in H. rewrite chars_of_chars in H.
  apply (f_equal length) in H. rewrite length_take, !length_app in H.
  pose proof (chars_nonempty name Hname) as Hc. destruct (chars name); [done|].
  change (length (chars "")) with 0%nat in H. cbn [length] in H. lia.
Qed.

Section fits_setup.
Context `{J : Jansson} (e : proxy_env J).

(** The certificate is in place, unless clients never use TLS. *)
Definition certificate_ready (c : proxy_config_t) : Prop :=
  listen_mode c = LISTEN_TCP \/
  (cert_path c <> ""%string /\ key_path c <> ""%string /\
   ((file_exists e (cert_path c) = true /\ file_exists e (key_path c) = true) \/
    pe_generate e (cert_path c) (key_path c) = true) /\
   pe_use_certificate e (cert_path c) (key_path c) = true).

Lemma prepare_certificate_fits c c' :
  config_fits c -> prepare_certificate e c = Go c' -> config_fits c' /\ certificate_ready c'.
Proof.
  intros Hc. unfold prepare_certificate, certificate_ready. destruct (Z.eqb_spec (listen_mode c) LISTEN_TCP) as [Hm|Hm].
  { intros [= <-]. by auto. }
  assert (Hp : forall c1, certificate_paths e c = Go c1 ->
    config_fits c1 /\ cert_path c1 <> ""%string /\ key_path c1 <> ""%string).
  { intros c1. unfold certificate_paths.
    destruct (String.eqb_spec (cert_path c) "") as [Hce|Hce], (String.eqb_spec (key_path c) "") as [Hke|Hke]; cbn [andb orb];
      [|done|done|by intros [= <-]].
    destruct (negb (ensure_directory _ _)); [done|]. intros [= <-].
    split; [apply fits_cert; [done| |]; apply join_path_fits; eauto with fits|].
    split; apply join_path_nonempty; try discriminate; apply Nat.ltb_lt; vm_compute; reflexivity. }
  destruct (certificate_paths e c) as [c1|rc]; [|done]. unfold certificate_missing. destruct (Hp c1 eq_refl) as (Hf & Hce & Hke).
  destruct (file_exists e (cert_path c1)) eqn:E1, (file_exists e (key_path c1)) eqn:E2,
    (pe_generate e (cert_path c1) (key_path c1)) eqn:E3; cbn [negb orb andb]; try done;
    (destruct (pe_ctx_new e); [|done]); cbn [negb];
    (destruct (pe_use_certificate e (cert_path c1) (key_path c1)) eqn:E4; [|done]); cbn [negb];
    intros [= <-]; (split; [done|]); right; rewrite E1, E2, E3, E4;
    (split; [done|]); (split; [done|]); (split; [|done]); by auto.
Qed.

Lemma proxy_settings_fits args c : proxy_settings e args = Go c -> config_fits c.
Proof.
  unfold proxy_settings. destruct (parse_endpoint "stratum+tls://public-pool.io:4333") as [u|] eqn:Eu; [|done].
  apply parse_endpoint_fits in Eu. cbv zeta. destruct (has_help_arg args); [done|].
  destruct (has_version_arg args); [done|].
  assert (H0 : config_fits (config_defaults e u)).
  { unfold config_defaults, set_default_data_dir. split; cbn [listen_host listen_port listen_mode data_dir cert_path key_path upstream];
      repeat case_match; eauto with fits; apply Nat.ltb_lt; vm_compute; reflexivity. }
  generalize dependent (config_defaults e u). intros c0 H0.
  match goal with |- context [let '(p, r) := ?x in _] => destruct x as [path required] end.
  destruct (match path with Some p => _ | None => _ end) as [c1|] eqn:E1; [|done].
  assert (H1 : config_fits c1) by (destruct path; [by eapply load_config_fits|by injection E1 as <-]).
  by apply parse_args_fits.
Qed.
End fits_setup.

(** Reading into a larger array truncates nothing. *)
Lemma copy_text_checked n s s' : copy_checked n s = Some s' -> copy_text n (Some s) = s'.
Proof.
  intros [-> Hl]%copy_checked_Some. unfold copy_text. rewrite take_ge; [apply of_chars_chars|].
  rewrite length_chars. lia.
Qed.

(** The two tables agree, the insecure schemes apart. *)
Lemma schemes_agree l p use_tls :
  strip_scheme url_schemes l = (p, (use_tls, true)) -> strip_endpoint_scheme endpoint_schemes l = (p, use_tls).
Proof.
  unfold url_schemes, endpoint_schemes. cbn [strip_scheme strip_endpoint_scheme].
  repeat match goal with
  | |- context [strip_prefix (chars ?s) l] => destruct (strip_prefix (chars s) l)
  end; congruence.
Qed.

(** * Properties *)

(** The proxy and the mining client read pool addresses alike: a URL that the
    client accepts with certificate verification means the same host, port and
    transport to the proxy. *)
Theorem endpoints_agree url ep :
  parse_pool_url url = Some ep -> ep_verify_tls ep = true ->
  parse_endpoint url = Some (Endpoint (ep_host ep) (ep_port ep) (ep_use_tls ep)).
Proof.
  unfold parse_pool_url, parse_endpoint. intros H Hv.
  destruct (strip_scheme url_schemes (chars url)) as [p [use_tls verify]] eqn:E.
  assert (Hverify : verify = true).
  { revert H. destruct p as [|x p]; [done|]. destruct (split_last _ _) as [[h q]|];
      (destruct (copy_checked 256 _); [|done]); cbn [mbind option_bind];
      (destruct (copy_checked 16 _); [|done]); cbn [mbind option_bind];
      case_match; try done; by intros [= <-]. }
  subst verify. rewrite (schemes_agree _ _ _ E). clear E. cbv zeta in *.
  destruct p as [|x p]; [done|]. destruct (split_last _ _) as [[h q]|].
  - destruct (copy_checked 256 (of_chars h)) as [host|] eqn:Eh; [|done]. cbn [mbind option_bind] in H.
    destruct (copy_checked 16 (of_chars q)) as [port|] eqn:Ep; [|done]. cbn [mbind option_bind] in H.
    rewrite (copy_text_checked _ _ _ Eh), (copy_text_checked _ _ _ Ep).
    destruct (_ || _); [done|]. by injection H as <-.
  - destruct (copy_checked 256 _) as [host|] eqn:Eh; [|done]. cbn [mbind option_bind] in H.
    destruct (copy_checked 16 _) as [port|] eqn:Ep; [|done]. cbn [mbind option_bind] in H.
    rewrite (copy_text_checked _ _ _ Eh), (copy_text_checked _ _ _ Ep).
    destruct (String.eqb_spec host ""); [done|]. apply copy_checked_Some in Ep as [-> _].
    injection H as <-. by destruct use_tls.
Qed.

(** C34.  When the proxy starts to accept clients, its configuration is well formed,
    whatever the file and the command line say: every string fits its array, the
    mode is one of the three, the upstream has a host and a port, and unless it
    listens for plain TCP only there is a certificate and key that were loaded. *)
Theorem proxy_setup_fits `{J : Jansson} (e : proxy_env J) args c :
  proxy_setup e args = Go c -> config_fits c /\ certificate_ready e c.
Proof.
  unfold proxy_setup. destruct (proxy_settings e args) as [c2|] eqn:E2; [|done]. apply proxy_settings_fits in E2.
  destruct (prepare_certificate e c2) as [c3|] eqn:E3; [|done].
  apply prepare_certificate_fits in E3; [|done]. destruct (negb _); [done|]. by intros [= <-].
Qed.

(** * Concrete instances *)

Lemma endpoints_agree_witness :
  parse_endpoint "stratum+tls://public-pool.io:14333" = Some (Endpoint "public-pool.io" "14333" true).
Proof.
  exact (endpoints_agree "stratum+tls://public-pool.io:14333" (PoolEndpoint "public-pool.io" "14333" true true)
    ltac:(vm_compute; reflexivity) eq_refl).
Defined.

(** The configuration file of the repository and a command line that overrides it. *)
Definition wentry (k : string) (v : tree) : tree := entry k v.
Definition wfile : tree :=
  GenNode 1 [wentry "listen" (GenNode 1 [wentry "mode" (wstr "auto"); wentry "host" (wstr "0.0.0.0");
               wentry "port" (GenLeaf (inl (inr 4333)))]);
             wentry "upstream" (GenNode 1 [wentry "url" (wstr "stratum+tls://public-pool.io:14333");
               wentry "verify" (GenNode 4 [])])].
Definition wenv : proxy_env ref_jansson :=
  ProxyEnv ref_jansson None (fun path => String.eqb path "proxy.json") (fun _ => Some wfile) (fun _ => true)
    (fun _ _ => true) true (fun _ _ => true) (fun _ _ => true).
Definition wconfig : proxy_config_t :=
  ProxyConfig "127.0.0.1" "3334" LISTEN_TLS "." "./cert.pem" "./cert_key.pem"
    (Endpoint "public-pool.io" "14333" true) true.

Example setup_default : proxy_setup wenv ["--listen-tls"; "127.0.0.1:3334"]%string = Go wconfig.
Proof. vm_compute. reflexivity. Qed.

Lemma proxy_setup_fits_witness : config_fits wconfig /\ certificate_ready wenv wconfig.
Proof.
  exact (@proxy_setup_fits ref_jansson wenv ["--listen-tls"; "127.0.0.1:3334"]%string wconfig
    ltac:(vm_compute; reflexivity)).
Defined.
