(* ===== verification/CpuInfo.v ===== *)
(** The processor topology of src/src/cpu_info.c, as built for Linux: the detection
    from sysfs and the order in which worker threads are bound to processors.

    The directory listing, the contents of files and [sysconf] are inputs; [qsort]
    of the C library is a class with its documented behaviour. *)
From stdpp Require Import base tactics sorting list option strings.
From Stdlib Require Import ZArith Lia Ascii DecimalString.
From S2P Require Import Prelude Hex StratumNet.

#[local] Open Scope Z_scope.

(** * qsort *)

Class QSort := qsort : forall {A : Type}, (A -> A -> Z) -> list A -> list A.

(** For a comparison that is a total preorder the result is a sorted permutation;
    the order of elements that compare equal is unspecified. *)
Class QSortLaws (Q : QSort) : Prop := {
  qsort_permutation {A} (cmp : A -> A -> Z) l : qsort cmp l ≡ₚ l;
  qsort_sorted {A} (cmp : A -> A -> Z) l :
    (forall x y, cmp x y <= 0 \/ cmp y x <= 0) ->
    (forall x y z, cmp x y <= 0 -> cmp y z <= 0 -> cmp x z <= 0) ->
    Sorted (fun x y => cmp x y <= 0) (qsort cmp l);
}.

#[export] Instance cmp_dec {A} (cmp : A -> A -> Z) : RelDecision (fun x y => cmp x y <= 0).
Proof. intros x y. apply Z_le_dec. Defined.
Definition ref_qsort : QSort := fun A cmp l => merge_sort (fun x y => cmp x y <= 0) (H := cmp_dec cmp) l.
#[export] Instance ref_qsort_laws : QSortLaws ref_qsort.
Proof.
  split.
  - intros A cmp l. apply merge_sort_Permutation.
  - intros A cmp l Ht _. apply Sorted_merge_sort. exact Ht.
Qed.

(** * Data *)

Definition CPU_INFO_MAX_CPUS : nat := 256.
Definition CPU_INFO_SIBLINGS_SIZE : nat := 64.

Record cpu_info_entry_t := CpuEntry {
  ce_id : Z; package_id : Z; core_id : Z; max_freq_khz : Z; capacity : Z;
  thread_siblings : list ascii;
}.

(** The entries in use, [entry_count] of them. *)
Record cpu_info_t := CpuInfo {
  logical_count : Z; physical_count : Z; has_smt : bool; recommended_threads : Z;
  source : string; entries : list cpu_info_entry_t;
}.
Definition entry_count (info : cpu_info_t) : Z := Z.of_nat (length (entries info)).

(** [count] is what [sysconf(_SC_NPROCESSORS_ONLN)] gives. *)
Definition sysconf_online_cpus (count : Z) : Z :=
  if (0 <? count) && (count <=? Z.of_nat CPU_INFO_MAX_CPUS) then count else 1.

Definition set_fallback (count : Z) : cpu_info_t :=
  let n := sysconf_online_cpus count in CpuInfo n n false n "sysconf" [].

Definition compare_cpu_entries (a b : cpu_info_entry_t) : Z := ce_id a - ce_id b.

(** * Reading sysfs *)

Definition isdigit (c : ascii) : bool := (code "0" <=? code c) && (code c <=? code "9").

(** The digits of [parse_cpu_dir_name], from the value so far. *)
Fixpoint parse_digits (id : Z) (p : list ascii) : Z :=
  match p with
  | [] => id
  | c :: p =>
      if negb (isdigit c) then -1
      else
        let id := id * 10 + (code c - code "0") in
        if Z.of_nat CPU_INFO_MAX_CPUS <=? id then -1 else parse_digits id p
  end.
Definition parse_cpu_dir_name (name : list ascii) : Z :=
  match name with
  | a :: b :: c :: (d :: _) as l =>
      if negb (Ascii.eqb a "c") || negb (Ascii.eqb b "p") || negb (Ascii.eqb c "u") || negb (isdigit d)
      then -1 else parse_digits 0 (drop 3 name)
  | _ => -1
  end.

(** [fgets(buf, size, fp)] at the start of a file: up to and with the first newline. *)
Fixpoint through_newline (l : list ascii) : list ascii :=
  match l with
  | [] => []
  | c :: l => if Ascii.eqb c Json.newline then [c] else c :: through_newline l
  end.
Definition fgets (size : nat) (content : list ascii) : option (list ascii) :=
  match content with [] => None | _ => Some (through_newline (take (size - 1) content)) end.

(** [strtol(buf, &end, 10)]; [None] when [end == buf]. *)
Definition isspace (c : ascii) : bool := (code c =? 32) || ((9 <=? code c) && (code c <=? 13)).
Fixpoint skip_spaces (l : list ascii) : list ascii :=
  match l with c :: l' => if isspace c then skip_spaces l' else l | [] => [] end.
Fixpoint digits_value (acc : Z) (l : list ascii) : Z :=
  match l with c :: l => if isdigit c then digits_value (acc * 10 + (code c - code "0")) l else acc | [] => acc end.
Definition strtol (l : list ascii) : option Z :=
  let l := skip_spaces l in
  let '(negative, l) :=
    match l with
    | c :: l' => if Ascii.eqb c "-" then (true, l') else if Ascii.eqb c "+" then (false, l') else (false, l)
    | [] => (false, [])
    end in
  match l with
  | c :: _ =>
      if isdigit c then
        let v := digits_value 0 l in
        let v := if negative then - v else v in
        Some (Z.max (- 2 ^ 63) (Z.min (2 ^ 63 - 1) v))
      else None
  | [] => None
  end.

(** The contents of a file, when it can be opened. *)
Definition files := string -> option (list ascii).

Definition read_long_file (fs : files) (path : string) : option Z :=
  content ← fs path; buf ← fgets 64 content; strtol buf.

Definition is_trailing (c : ascii) : bool :=
  (code c =? 10) || (code c =? 13) || (code c =? 32) || (code c =? 9).
Fixpoint trim_front (l : list ascii) : list ascii :=
  match l with c :: l' => if is_trailing c then trim_front l' else l | [] => [] end.
Definition read_text_file (fs : files) (path : string) (out_size : nat) : option (list ascii) :=
  content ← fs path; out ← fgets out_size content; Some (rev (trim_front (rev (before zero out)))).

Definition decimal (v : Z) : string := NilEmpty.string_of_int (Z.to_int v).
Definition cpu_path (id : Z) (file : string) : string :=
  "/sys/devices/system/cpu/cpu" ++ decimal id ++ "/" ++ file.

Definition cpu_is_online (fs : files) (id : Z) : bool :=
  match read_long_file fs (cpu_path id "online") with None => true | Some online => negb (online =? 0) end.

Definition read_cpu_entry (fs : files) (id : Z) : cpu_info_entry_t :=
  {| ce_id := id;
     package_id := default 0 (i32 <$> read_long_file fs (cpu_path id "topology/physical_package_id"));
     core_id := default id (i32 <$> read_long_file fs (cpu_path id "topology/core_id"));
     max_freq_khz := default 0 (read_long_file fs (cpu_path id "cpufreq/cpuinfo_max_freq"));
     capacity := default 0 (read_long_file fs (cpu_path id "cpu_capacity"));
     thread_siblings :=
       default [] (read_text_file fs (cpu_path id "topology/thread_siblings_list") CPU_INFO_SIBLINGS_SIZE) |}.

(** * The summary *)

Definition same_physical_core (a b : cpu_info_entry_t) : bool :=
  (package_id a =? package_id b) && (core_id a =? core_id b).
Definition sibling_list_implies_smt (text : list ascii) : bool :=
  existsb (fun c => Ascii.eqb c "," || Ascii.eqb c "-") text.
Definition same_affinity_group (a b : cpu_info_entry_t) : bool :=
  match thread_siblings a, thread_siblings b with
  | (_ :: _) as x, (_ :: _) as y => bool_decide (x = y)
  | _, _ => same_physical_core a b
  end.

(** The entries that belong to the group of no earlier one are counted. *)
Fixpoint count_groups (before l : list cpu_info_entry_t) : Z :=
  match l with
  | [] => 0
  | e :: l =>
      (if existsb (same_affinity_group e) before then 0 else 1) + count_groups (before ++ [e]) l
  end.

Definition finalize_sysfs_info (info : cpu_info_t) : cpu_info_t :=
  let physical := count_groups [] (entries info) in
  let smt := existsb (fun e => sibling_list_implies_smt (thread_siblings e)) (entries info) in
  let logical := entry_count info in
  let physical := if 0 <? physical then physical else logical in
  let smt := if physical <? logical then true else smt in
  let recommended := if logical <=? 0 then 1 else logical in
  CpuInfo logical physical smt recommended (source info) (entries info).

Section detection.
Context `{Q : QSort} (fs : files).

(** The loop of [detect_sysfs] over the directory. *)
Fixpoint read_entries (names : list (list ascii)) (found : list cpu_info_entry_t) : list cpu_info_entry_t :=
  match names with
  | [] => found
  | name :: names =>
      if (length found <? CPU_INFO_MAX_CPUS)%nat then
        let id := parse_cpu_dir_name name in
        if (id <? 0) || negb (cpu_is_online fs id) then read_entries names found
        else read_entries names (found ++ [read_cpu_entry fs id])
      else found
  end.

(** [dir] is the listing of /sys/devices/system/cpu, when it can be opened. *)
Definition detect_sysfs (dir : option (list (list ascii))) (info : cpu_info_t) : cpu_info_t :=
  match dir with
  | None => info
  | Some names =>
      match read_entries names (entries info) with
      | [] => info
      | found =>
          let info := CpuInfo (logical_count info) (physical_count info) (has_smt info)
                        (recommended_threads info) (source info) (qsort compare_cpu_entries found) in
          let info := finalize_sysfs_info info in
          CpuInfo (logical_count info) (physical_count info) (has_smt info) (recommended_threads info)
            "linux-sysfs" (entries info)
      end
  end.

Definition cpu_info_detect (online : Z) (dir : option (list (list ascii))) : cpu_info_t :=
  detect_sysfs dir (set_fallback online).
Definition cpu_info_recommended_threads (online : Z) (dir : option (list (list ascii))) : Z :=
  let info := cpu_info_detect online dir in
  if 0 <? recommended_threads info then recommended_threads info else 1.
End detection.

(** * The affinity plan *)

(** [out], the ids so far, gets the id unless it is negative, there is no room, or it
    is there already. *)
Definition append_cpu_id (max_count : nat) (out : list Z) (id : Z) : list Z :=
  if (id <? 0) || (max_count <=? length out)%nat then out
  else if existsb (Z.eqb id) out then out
  else out ++ [id].

(** The loops stop when the output is full. *)
Fixpoint append_ids (max_count : nat) (out ids : list Z) : list Z :=
  match ids with
  | [] => out
  | id :: ids =>
      if (length out <? max_count)%nat then append_ids max_count (append_cpu_id max_count out id) ids
      else out
  end.
Definition append_sysconf_order (online : Z) (max_count : nat) : list Z :=
  append_ids max_count [] (seqZ 0 (sysconf_online_cpus online)).
Definition append_entry_order (info : cpu_info_t) (max_count : nat) : list Z :=
  append_ids max_count [] (ce_id <$> entries info).

Definition cpu_entry_rank (e : cpu_info_entry_t) : Z :=
  if 0 <? capacity e then capacity e
  else if 0 <? max_freq_khz e then max_freq_khz e
  else 0.

Definition compare_cpu_entries_by_speed (a b : cpu_info_entry_t) : Z :=
  let ar := cpu_entry_rank a in
  let br := cpu_entry_rank b in
  if negb (ar =? br) then (if ar <? br then 1 else -1)
  else ce_id a - ce_id b.

(** The plan; its length is what the function returns. *)
Definition cpu_info_affinity_plan `{Q : QSort} (online : Z) (info : option cpu_info_t) (max_count : Z) : list Z :=
  if max_count <=? 0 then []
  else
    let max_count := Z.to_nat max_count in
    match info with
    | None => append_sysconf_order online max_count
    | Some info =>
        if entry_count info <=? 0 then append_sysconf_order online max_count
        else
          let ordered := qsort compare_cpu_entries_by_speed (take CPU_INFO_MAX_CPUS (entries info)) in
          append_entry_order
            (CpuInfo (logical_count info) (physical_count info) (has_smt info) (recommended_threads info)
               (source info) ordered) max_count
    end.

(** Binding the current thread; [setaffinity] is [sched_setaffinity] on a set of CPUs. *)
Definition CPU_SETSIZE : Z := 1024.
Definition cpu_info_bind_current_thread (setaffinity : list Z -> Z) (cpu_id : Z) : Z :=
  if cpu_id <? 0 then -1
  else if CPU_SETSIZE <=? cpu_id then -1
  else setaffinity [cpu_id].

(** * Lemmas on the plan *)

Lemma append_cpu_id_fresh n out id :
  0 <= id -> id ∉ out -> (length out < n)%nat -> append_cpu_id n out id = out ++ [id].
Proof.
  intros H0 Hid Hn. unfold append_cpu_id. rewrite (proj2 (Z.ltb_ge _ _)), (proj2 (Nat.leb_gt _ _)) by lia.
  cbn [orb]. destruct (existsb (Z.eqb id) out) eqn:E; [|done].
  apply existsb_exists in E as (x & Hx & Heq). apply Z.eqb_eq in Heq as <-. destruct Hid.
  by apply list_elem_of_In.
Qed.

(** Distinct ids are taken in order until the output is full. *)
Lemma append_ids_distinct n out ids :
  NoDup (out ++ ids) -> Forall (fun id => 0 <= id) ids -> (length out <= n)%nat ->
  append_ids n out ids = take n (out ++ ids).
Proof.
  revert out. induction ids as [|id ids IH]; intros out Hd Hp Hn; cbn [append_ids].
  - by rewrite app_nil_r, take_ge.
  - apply Forall_cons in Hp as [Hid Hp]. destruct (Nat.ltb_spec (length out) n) as [Hlt|Hge].
    + rewrite append_cpu_id_fresh; [|done| |done].
      * rewrite IH; [by rewrite <- app_assoc|by rewrite <- app_assoc|done|rewrite length_app; cbn; lia].
      * apply NoDup_app in Hd as (_ & Hd & _). intros Hin. apply (Hd id Hin). by left.
    + by rewrite take_app_le, take_ge by lia.
Qed.

(** The order of the plan: faster first, then by id. *)
Definition before_in_plan (a b : cpu_info_entry_t) : Prop :=
  cpu_entry_rank b < cpu_entry_rank a \/ (cpu_entry_rank a = cpu_entry_rank b /\ ce_id a < ce_id b).

Lemma by_speed_spec a b :
  compare_cpu_entries_by_speed a b <= 0 <->
  cpu_entry_rank b < cpu_entry_rank a \/ (cpu_entry_rank a = cpu_entry_rank b /\ ce_id a <= ce_id b).
Proof.
  unfold compare_cpu_entries_by_speed. cbv zeta.
  destruct (Z.eqb_spec (cpu_entry_rank a) (cpu_entry_rank b)); cbn [negb]; [lia|].
  destruct (Z.ltb_spec (cpu_entry_rank a) (cpu_entry_rank b)); lia.
Qed.

Lemma sorted_strict {A} (R S : relation A) (f : A -> Z) l :
  Transitive R -> (forall x y, R x y -> f x <> f y -> S x y) ->
  Sorted R l -> NoDup (f <$> l) -> StronglySorted S l.
Proof.
  intros Ht HS Hs Hd. apply Sorted_StronglySorted in Hs; [|done].
  induction Hs as [|x l Hs IH Hx]; [constructor|].
  rewrite fmap_cons in Hd. apply NoDup_cons in Hd as [Hni Hd]. constructor; [by apply IH|].
  rewrite list.Forall_forall in Hx |- *. intros y Hy. apply HS; [by apply Hx|].
  intros Heq. apply Hni. rewrite Heq. by apply list_elem_of_fmap_2.
Qed.

(** * Lemmas on the detection *)

(** The ids of the processors listed that are online. *)
Definition listed (fs : files) (names : list (list ascii)) : list Z :=
  filter (fun id => 0 <= id /\ cpu_is_online fs id = true) (parse_cpu_dir_name <$> names).

Lemma read_entries_spec fs names found :
  (length found <= CPU_INFO_MAX_CPUS)%nat ->
  read_entries fs names found = take CPU_INFO_MAX_CPUS (found ++ (read_cpu_entry fs <$> listed fs names)).
Proof.
  unfold listed. revert found. induction names as [|name names IH]; intros found Hl; cbn [read_entries].
  - cbn. by rewrite app_nil_r, take_ge.
  - rewrite fmap_cons, filter_cons. destruct (Nat.ltb_spec (length found) CPU_INFO_MAX_CPUS) as [Hlt|Hge].
    + destruct (Z.ltb_spec (parse_cpu_dir_name name) 0) as [Hn|Hn]; cbn [orb].
      { rewrite decide_False by lia. by apply IH. }
      destruct (cpu_is_online fs (parse_cpu_dir_name name)) eqn:E; cbn [negb].
      * rewrite decide_True by done. rewrite fmap_cons, IH by (rewrite length_app; cbn; lia).
        by rewrite <- app_assoc.
      * rewrite decide_False by (intros [_ ?]; congruence). by apply IH.
    + by rewrite take_app_le, take_ge by lia.
Qed.

Lemma parse_digits_range id p : 0 <= id < 256 -> -1 <= parse_digits id p < 256.
Proof.
  revert id. induction p as [|c p IH]; intros id Hid; cbn [parse_digits]; [lia|].
  unfold isdigit. destruct (Z.leb_spec (code "0") (code c)); cbn [andb negb]; [|lia].
  destruct (Z.leb_spec (code c) (code "9")); cbn [negb]; [|lia].
  destruct (Z.leb_spec (Z.of_nat CPU_INFO_MAX_CPUS) (id * 10 + (code c - code "0"))) as [|Hlt]; [lia|].
  apply IH. change (Z.of_nat CPU_INFO_MAX_CPUS) with 256 in Hlt. lia.
Qed.
Lemma parse_cpu_dir_name_range name : -1 <= parse_cpu_dir_name name < 256.
Proof.
  unfold parse_cpu_dir_name. destruct name as [|a [|b [|c [|d l]]]]; try lia.
  case_match; [lia|]. by apply parse_digits_range.
Qed.

(** Every name the kernel gives a processor is understood. *)
Lemma parse_cpu_names :
  Forall (fun id => parse_cpu_dir_name (chars ("cpu" ++ decimal id)) = id) (seqZ 0 256).
Proof. apply (bool_decide_unpack _). vm_compute. exact I. Qed.

Lemma count_groups_bounds before l :
  0 <= count_groups before l <= Z.of_nat (length l) /\ (before = [] -> l <> [] -> 1 <= count_groups before l).
Proof.
  revert before. induction l as [|e l IH]; intros before; cbn [count_groups length]; [done|].
  destruct (IH (before ++ [e])) as [Hb _]. split; [case_match; lia|].
  intros -> _. cbn [existsb]. lia.
Qed.

Lemma sorted_weaken {A} (R S : relation A) l : (forall x y, R x y -> S x y) -> Sorted R l -> Sorted S l.
Proof.
  intros HRS. induction 1 as [|x l Hs IH Hx]; constructor; [done|].
  destruct Hx; constructor. by apply HRS.
Qed.

Lemma by_id_sorted `{Q : QSort} `{!QSortLaws Q} l :
  Sorted (fun a b => ce_id a <= ce_id b) (qsort compare_cpu_entries l).
Proof.
  assert (H : Sorted (fun a b => compare_cpu_entries a b <= 0) (qsort compare_cpu_entries l))
    by (apply qsort_sorted; unfold compare_cpu_entries; lia).
  eapply sorted_weaken; [|exact H]. unfold compare_cpu_entries. intros. lia.
Qed.

(** * Properties *)

Section properties.
Context `{Q : QSort} `{!QSortLaws Q}.

Lemma recommended_threads_range fs online dir : 1 <= cpu_info_recommended_threads fs online dir <= 256.
Proof.
  assert (Hn : 1 <= sysconf_online_cpus online <= 256).
  { unfold sysconf_online_cpus. change (Z.of_nat CPU_INFO_MAX_CPUS) with 256.
    destruct (Z.ltb_spec 0 online); cbn [andb]; [|lia]. destruct (Z.leb_spec online 256); lia. }
  assert (Hr : recommended_threads (cpu_info_detect fs online dir) <= 256).
  { unfold cpu_info_detect, detect_sysfs. destruct dir as [names|]; [|cbn; lia].
    cbn [set_fallback entries]. rewrite read_entries_spec by apply Nat.le_0_l. cbn [app].
    remember (take CPU_INFO_MAX_CPUS (read_cpu_entry fs <$> listed fs names)) as found eqn:Hfound.
    assert (Hlen : (length found <= 256)%nat) by (rewrite Hfound, length_take; unfold CPU_INFO_MAX_CPUS; lia).
    clear Hfound. destruct found as [|e0 l0]; [cbn; lia|]. cbv zeta.
    pose proof (Permutation_length (qsort_permutation compare_cpu_entries (e0 :: l0))) as Hl.
    unfold finalize_sysfs_info, entry_count. cbn [recommended_threads entries]. rewrite Hl. case_match; lia. }
  unfold cpu_info_recommended_threads. cbv zeta.
  destruct (Z.ltb_spec 0 (recommended_threads (cpu_info_detect fs online dir))); lia.
Qed.

(** C35.  The affinity plan lists the processors fastest first, those of equal rank by
    id, each once, as many as fit: for a topology of distinct processors it is the
    beginning of that one order, whatever order [qsort] leaves equal elements in. *)
Theorem affinity_plan_correct online info max_count :
  (0 < length (entries info) <= CPU_INFO_MAX_CPUS)%nat -> 0 < max_count ->
  NoDup (ce_id <$> entries info) -> Forall (fun e => 0 <= ce_id e) (entries info) ->
  exists order,
    order ≡ₚ entries info /\ StronglySorted before_in_plan order /\
    cpu_info_affinity_plan online (Some info) max_count = take (Z.to_nat max_count) (ce_id <$> order).
Proof.
  intros [Hl0 Hl] Hm Hd Hp.
  exists (qsort compare_cpu_entries_by_speed (entries info)).
  assert (Hperm : qsort compare_cpu_entries_by_speed (entries info) ≡ₚ entries info) by apply qsort_permutation.
  assert (Hd' : NoDup (ce_id <$> qsort compare_cpu_entries_by_speed (entries info))) by by rewrite Hperm.
  split; [done|]. split.
  - apply (sorted_strict (fun a b => compare_cpu_entries_by_speed a b <= 0) _ ce_id); [| | |done].
    + intros a b c. rewrite !by_speed_spec. lia.
    + intros a b. rewrite by_speed_spec. unfold before_in_plan. lia.
    + apply qsort_sorted; intros *; rewrite !by_speed_spec; lia.
  - unfold cpu_info_affinity_plan. rewrite (proj2 (Z.leb_gt _ _)) by done.
    unfold entry_count. rewrite (proj2 (Z.leb_gt _ _)) by lia. rewrite (take_ge (entries info)) by done.
    unfold append_entry_order. cbn [entries]. apply append_ids_distinct; [done| |cbn; lia].
    rewrite Forall_fmap. unfold compose. by rewrite Hperm.
Qed.

(** Detection always gives a usable topology, whatever sysfs contains: between 1
    and 256 threads are recommended, there are between one and as many physical
    processors, without SMT all are physical, the entries are those of the online
    processors listed (the first 256), and they are sorted by id. *)
Theorem detect_sound (fs : files) online dir :
  let info := cpu_info_detect fs online dir in
  1 <= logical_count info <= 256 /\ recommended_threads info = logical_count info /\
  1 <= physical_count info <= logical_count info /\
  (has_smt info = false -> physical_count info = logical_count info) /\
  (entries info <> [] -> logical_count info = entry_count info) /\
  Sorted (fun a b => ce_id a <= ce_id b) (entries info) /\
  Forall (fun e => 0 <= ce_id e < 256) (entries info) /\
  (forall names, dir = Some names ->
     entries info ≡ₚ take CPU_INFO_MAX_CPUS (read_cpu_entry fs <$> listed fs names)).
Proof.
  cbv zeta. unfold cpu_info_detect, detect_sysfs.
  assert (Hn : 1 <= sysconf_online_cpus online <= 256).
  { unfold sysconf_online_cpus. change (Z.of_nat CPU_INFO_MAX_CPUS) with 256.
    destruct (Z.ltb_spec 0 online); cbn [andb]; [|lia]. destruct (Z.leb_spec online 256); lia. }
  destruct dir as [names|]; [|cbn; split_and!; try done; try lia; constructor].
  cbn [set_fallback entries]. rewrite read_entries_spec by apply Nat.le_0_l. cbn [app].
  remember (take CPU_INFO_MAX_CPUS (read_cpu_entry fs <$> listed fs names)) as found eqn:Hfound.
  destruct found as [|e0 l0] eqn:Ef.
  { cbn [set_fallback logical_count physical_count has_smt recommended_threads entries].
    split_and!; try done; try lia; intros ? [= <-]. by rewrite <- Hfound. }
  rewrite <- Ef in Hfound |- *. assert (Hne : found <> []) by congruence. clear Ef. cbv zeta.
  assert (Hlen : (1 <= length found <= 256)%nat).
  { split; [destruct found; [done|cbn; lia]|]. rewrite Hfound, length_take. unfold CPU_INFO_MAX_CPUS. lia. }
  assert (Hids : Forall (fun e => 0 <= ce_id e < 256) found).
  { rewrite Hfound. apply Forall_take, Forall_fmap, list.Forall_forall. intros id Hid.
    apply list_elem_of_filter in Hid as [[H0 _] Hin]. apply list_elem_of_fmap in Hin as (name & -> & _).
    pose proof (parse_cpu_dir_name_range name). unfold compose, read_cpu_entry. cbn [ce_id]. lia. }
  pose proof (qsort_permutation compare_cpu_entries found) as Hperm.
  pose proof (by_id_sorted found) as Hsorted.
  generalize dependent (qsort compare_cpu_entries found). intros sorted Hperm Hsorted.
  pose proof (Permutation_length Hperm) as Hls.
  unfold finalize_sysfs_info, entry_count.
  cbn [entries logical_count physical_count has_smt recommended_threads]. rewrite Hls.
  destruct (count_groups_bounds [] sorted) as [Hb Hb1]. rewrite Hls in Hb.
  specialize (Hb1 eq_refl ltac:(intros ->; cbn in Hls; lia)).
  rewrite (proj2 (Z.ltb_lt 0 (count_groups [] sorted))), (proj2 (Z.leb_gt _ _)) by lia.
  split_and!; try done; try lia.
  - destruct (Z.ltb_spec (count_groups [] sorted) (Z.of_nat (length found))); [done|lia].
  - by apply (Permutation_Forall (Permutation_sym Hperm)).
  - intros ? [= <-]. by rewrite <- Hfound.
Qed.
End properties.

(** * A concrete instance: a big core, two little cores *)

#[local] Existing Instance ref_qsort.
Definition wentry_of (id cap : Z) : cpu_info_entry_t := CpuEntry id 0 id 0 cap [].
Definition winfo : cpu_info_t :=
  CpuInfo 3 3 false 3 "linux-sysfs" [wentry_of 0 250; wentry_of 1 250; wentry_of 2 1024].

Example plan_big_first : cpu_info_affinity_plan 3 (Some winfo) 2 = [2; 0].
Proof. vm_compute. reflexivity. Qed.

Lemma affinity_plan_correct_witness :
  exists order, order ≡ₚ entries winfo /\ StronglySorted before_in_plan order /\
    [2; 0] = take 2 (ce_id <$> order).
Proof.
  destruct (@affinity_plan_correct ref_qsort ref_qsort_laws 3 winfo 2) as (order & H1 & H2 & H3).
  - split; apply Nat.leb_le; vm_compute; reflexivity.
  - reflexivity.
  - apply (bool_decide_unpack _). vm_compute. exact I.
  - apply (bool_decide_unpack _). vm_compute. exact I.
  - exists order. split; [exact H1|]. split; [exact H2|]. exact H3.
Defined.

(** Two processors in any order of the directory, nothing known about them. *)
Definition wnames : list (list ascii) := [chars "cpu1"; chars "cpufreq"; chars "cpu0"].
Example detect_two : entries (cpu_info_detect (fun _ => None) 2 (Some wnames)) =
  [CpuEntry 0 0 0 0 0 []; CpuEntry 1 0 1 0 0 []].
Proof. vm_compute. reflexivity. Qed.

Lemma detect_sound_witness :
  let info := cpu_info_detect (fun _ => None) 2 (Some wnames) in
  1 <= logical_count info <= 256 /\ 1 <= physical_count info <= logical_count info /\
  entries info ≡ₚ take CPU_INFO_MAX_CPUS (read_cpu_entry (fun _ => None) <$> listed (fun _ => None) wnames).
Proof.
  destruct (@detect_sound ref_qsort ref_qsort_laws (fun _ => None) 2 (Some wnames))
    as (H1 & _ & H2 & _ & _ & _ & _ & H3).
  split; [exact H1|]. split; [exact H2|]. exact (H3 wnames eq_refl).
Defined.
