(* ===== verification/FrontEnd.v ===== *)
(** Parts of the mining client's front end: the donation schedule of
    src/src/donation.c, and of src/src/stratum_main.c the constants, the names of the
    OpenCL and CUDA variants and the thread counts that autotuning tries.

    Clock readings and the sources of the random seed are arguments.  A decimal
    literal is the quotient of two exact doubles, which rounds as the literal does. *)
From stdpp Require Import countable base tactics list option strings relations.
From Stdlib Require Import ZArith Lia Ascii SpecFloat.
From S2P Require Import Prelude Words Fips Sha256d Float64 Hex Target Job Miner Json Stratum.

#[local] Open Scope Z_scope.

Definition MAX_POOLS : nat := 8.
Definition DEFAULT_POOL_URL : string := "stratum+tls://public-pool.io:14333".
Definition DEFAULT_USER : string := "bc1qqz0wutk9kk5mmaf7fu4dm5w4fq4fhaah9hpzr3".
Definition DEFAULT_PASSWORD : string := "x".
Definition DEFAULT_SUGGEST_DIFFICULTY : double := f64_div (f64_of_Z 1) (f64_of_Z 1000).
Definition DEFAULT_RETRIES : Z := -1.
Definition DEFAULT_RECONNECT_DELAY : Z := 2.
Definition MAX_RECONNECT_DELAY : Z := 60.
Definition DEFAULT_STATS_INTERVAL : double := f64_of_Z 5.
Definition DEFAULT_AUTOTUNE_SECONDS : double := f64_div (f64_of_Z 3) (f64_of_Z 2).
Definition DONATION_DEFAULT_LEVEL : Z := 1.
Definition DONATION_MINIMUM_LEVEL : Z := 1.
Definition DONATION_CYCLE_MINUTES : Z := 100.
Definition DONATION_USER : string := "bc1qqz0wutk9kk5mmaf7fu4dm5w4fq4fhaah9hpzr3".
Definition MINER_CUDA_KERNEL_DUAL : Z := 1.
Definition MINER_CUDA_KERNEL_FIXED_NPT1 : Z := 2.
Definition MINER_CUDA_KERNEL_FIXED_NPT2 : Z := 3.
Definition MINER_CUDA_KERNEL_FIXED_NPT4 : Z := 4.
Definition MINER_CUDA_KERNEL_LOP3 : Z := 5.
Definition MINER_CUDA_KERNEL_FIXED_LOP3_NPT1 : Z := 6.
Definition MINER_CUDA_KERNEL_FIXED_LOP3_NPT2 : Z := 7.
Definition MINER_CUDA_KERNEL_FIXED_LOP3_NPT4 : Z := 8.

(** * Donation *)

(** [now] is the clock in microseconds, converted to [uint64_t]; [seed_time] and
    [pid] are the other sources. *)
Definition donation_seed (seed_time now pid : Z) : Z :=
  let seed := u64 seed_time in
  let seed := Z.lxor seed (u64 now) in
  let seed := Z.lxor seed (u64 (Z.shiftl (u64 pid) 32)) in
  let seed := Z.lxor seed (Z.shiftr seed 12) in
  let seed := Z.lxor seed (u64 (Z.shiftl seed 25)) in
  let seed := Z.lxor seed (Z.shiftr seed 27) in
  u64 (seed * 2685821657736338717).

Definition donation_level_valid (level : Z) : bool :=
  (DONATION_MINIMUM_LEVEL <=? level) && (level <? DONATION_CYCLE_MINUTES).
Definition donation_phase_seconds (level : Z) (donating : bool) : double :=
  let minutes := if donating then level else DONATION_CYCLE_MINUTES - level in
  f64_mul (f64_of_Z minutes) (f64_of_Z 60).
Definition donation_initial_user_seconds (level seed : Z) : double :=
  let unit := f64_mul (f64_of_Z (Z.shiftr seed 11)) (f64_div (f64_of_Z 1) (f64_of_Z 9007199254740992)) in
  f64_mul (donation_phase_seconds level false) (f64_add (f64_div (f64_of_Z 1) (f64_of_Z 2)) unit).

(** * Names of the kernel and backend variants *)

Definition copy_string (dst_size : nat) (src : option string) : string :=
  match src with None => "" | Some src => snprintf_s dst_size src end.

Definition ascii_tolower_char (ch : ascii) : ascii :=
  if (code "A" <=? code ch) && (code ch <=? code "Z") then ascii_of_N (Z.to_N (code ch - code "A" + code "a"))
  else ch.
Definition string_equals_ci (a b : string) : bool :=
  bool_decide ((ascii_tolower_char <$> chars a) = (ascii_tolower_char <$> chars b)).

(** The comparisons of a parser in their order. *)
Fixpoint find_variant (table : list (string * Z)) (value : string) (fallback : Z) : Z :=
  match table with
  | [] => fallback
  | (name, v) :: table => if string_equals_ci value name then v else find_variant table value fallback
  end.
(** NULL and the empty string select the default. *)
Definition parse_variant (dflt : Z) (table : list (string * Z)) (value : option string) (fallback : Z) : Z :=
  match value with
  | None => dflt
  | Some value => if String.eqb value "" then dflt else find_variant table value fallback
  end.

Definition opencl_kernel_names : list (string * Z) :=
  [("auto", MINER_OPENCL_KERNEL_AUTO);
   ("compact", MINER_OPENCL_KERNEL_COMPACT);
   ("unrolled", MINER_OPENCL_KERNEL_UNROLLED);
   ("fixed-npi1", MINER_OPENCL_KERNEL_FIXED_NPI1); ("fixed_npi1", MINER_OPENCL_KERNEL_FIXED_NPI1);
   ("modern-fixed-npi1", MINER_OPENCL_KERNEL_FIXED_NPI1); ("modern_fixed_npi1", MINER_OPENCL_KERNEL_FIXED_NPI1);
   ("fixed-npi2", MINER_OPENCL_KERNEL_FIXED_NPI2); ("fixed_npi2", MINER_OPENCL_KERNEL_FIXED_NPI2);
   ("modern-fixed-npi2", MINER_OPENCL_KERNEL_FIXED_NPI2); ("modern_fixed_npi2", MINER_OPENCL_KERNEL_FIXED_NPI2);
   ("fixed-npi4", MINER_OPENCL_KERNEL_FIXED_NPI4); ("fixed_npi4", MINER_OPENCL_KERNEL_FIXED_NPI4);
   ("modern-fixed-npi4", MINER_OPENCL_KERNEL_FIXED_NPI4); ("modern_fixed_npi4", MINER_OPENCL_KERNEL_FIXED_NPI4);
   ("register-heavy", MINER_OPENCL_KERNEL_REGISTER_HEAVY); ("register_heavy", MINER_OPENCL_KERNEL_REGISTER_HEAVY);
   ("modern-register-heavy", MINER_OPENCL_KERNEL_REGISTER_HEAVY);
   ("modern_register_heavy", MINER_OPENCL_KERNEL_REGISTER_HEAVY)]%string.
Definition parse_opencl_kernel_variant : option string -> Z -> Z :=
  parse_variant MINER_OPENCL_KERNEL_AUTO opencl_kernel_names.
Definition opencl_kernel_variant_name (variant : Z) : string :=
  if variant =? MINER_OPENCL_KERNEL_COMPACT then "compact"
  else if variant =? MINER_OPENCL_KERNEL_UNROLLED then "unrolled"
  else if variant =? MINER_OPENCL_KERNEL_FIXED_NPI1 then "fixed-npi1"
  else if variant =? MINER_OPENCL_KERNEL_FIXED_NPI2 then "fixed-npi2"
  else if variant =? MINER_OPENCL_KERNEL_FIXED_NPI4 then "fixed-npi4"
  else if variant =? MINER_OPENCL_KERNEL_REGISTER_HEAVY then "register-heavy"
  else "auto".

Definition opencl_backend_names : list (string * Z) :=
  [("auto", MINER_OPENCL_BACKEND_AUTO);
   ("compat10", MINER_OPENCL_BACKEND_COMPAT10); ("compat", MINER_OPENCL_BACKEND_COMPAT10);
   ("modern", MINER_OPENCL_BACKEND_MODERN)]%string.
Definition parse_opencl_backend_variant : option string -> Z -> Z :=
  parse_variant MINER_OPENCL_BACKEND_AUTO opencl_backend_names.
Definition opencl_backend_variant_name (variant : Z) : string :=
  if variant =? MINER_OPENCL_BACKEND_COMPAT10 then "compat10"
  else if variant =? MINER_OPENCL_BACKEND_MODERN then "modern"
  else "auto".

Definition cuda_kernel_names : list (string * Z) :=
  [("standard", MINER_CUDA_KERNEL_STANDARD);
   ("dual", MINER_CUDA_KERNEL_DUAL); ("dual-nonce", MINER_CUDA_KERNEL_DUAL); ("dual_nonce", MINER_CUDA_KERNEL_DUAL);
   ("fixed-npt1", MINER_CUDA_KERNEL_FIXED_NPT1); ("fixed_npt1", MINER_CUDA_KERNEL_FIXED_NPT1);
   ("fixed-npt2", MINER_CUDA_KERNEL_FIXED_NPT2); ("fixed_npt2", MINER_CUDA_KERNEL_FIXED_NPT2);
   ("fixed-npt4", MINER_CUDA_KERNEL_FIXED_NPT4); ("fixed_npt4", MINER_CUDA_KERNEL_FIXED_NPT4);
   ("lop3", MINER_CUDA_KERNEL_LOP3); ("standard-lop3", MINER_CUDA_KERNEL_LOP3);
   ("standard_lop3", MINER_CUDA_KERNEL_LOP3);
   ("fixed-lop3-npt1", MINER_CUDA_KERNEL_FIXED_LOP3_NPT1); ("fixed_lop3_npt1", MINER_CUDA_KERNEL_FIXED_LOP3_NPT1);
   ("lop3-npt1", MINER_CUDA_KERNEL_FIXED_LOP3_NPT1); ("lop3_npt1", MINER_CUDA_KERNEL_FIXED_LOP3_NPT1);
   ("fixed-lop3-npt2", MINER_CUDA_KERNEL_FIXED_LOP3_NPT2); ("fixed_lop3_npt2", MINER_CUDA_KERNEL_FIXED_LOP3_NPT2);
   ("lop3-npt2", MINER_CUDA_KERNEL_FIXED_LOP3_NPT2); ("lop3_npt2", MINER_CUDA_KERNEL_FIXED_LOP3_NPT2);
   ("fixed-lop3-npt4", MINER_CUDA_KERNEL_FIXED_LOP3_NPT4); ("fixed_lop3_npt4", MINER_CUDA_KERNEL_FIXED_LOP3_NPT4);
   ("lop3-npt4", MINER_CUDA_KERNEL_FIXED_LOP3_NPT4); ("lop3_npt4", MINER_CUDA_KERNEL_FIXED_LOP3_NPT4)]%string.
Definition parse_cuda_kernel_variant : option string -> Z -> Z :=
  parse_variant MINER_CUDA_KERNEL_STANDARD cuda_kernel_names.
Definition cuda_kernel_variant_name (variant : Z) : string :=
  if variant =? MINER_CUDA_KERNEL_FIXED_NPT1 then "fixed-npt1"
  else if variant =? MINER_CUDA_KERNEL_FIXED_NPT2 then "fixed-npt2"
  else if variant =? MINER_CUDA_KERNEL_FIXED_NPT4 then "fixed-npt4"
  else if variant =? MINER_CUDA_KERNEL_LOP3 then "lop3"
  else if variant =? MINER_CUDA_KERNEL_FIXED_LOP3_NPT1 then "fixed-lop3-npt1"
  else if variant =? MINER_CUDA_KERNEL_FIXED_LOP3_NPT2 then "fixed-lop3-npt2"
  else if variant =? MINER_CUDA_KERNEL_FIXED_LOP3_NPT4 then "fixed-lop3-npt4"
  else if variant =? MINER_CUDA_KERNEL_DUAL then "dual"
  else "standard".

(** What the kernels need of the backend. *)
Definition opencl_kernel_fixed_npi (variant : Z) : Z :=
  if variant =? MINER_OPENCL_KERNEL_FIXED_NPI1 then 1
  else if variant =? MINER_OPENCL_KERNEL_FIXED_NPI2 then 2
  else if variant =? MINER_OPENCL_KERNEL_FIXED_NPI4 then 4
  else 0.
Definition opencl_kernel_forced_npi (variant : Z) : Z :=
  let fixed_npi := opencl_kernel_fixed_npi variant in
  if negb (fixed_npi =? 0) then fixed_npi
  else if variant =? MINER_OPENCL_KERNEL_REGISTER_HEAVY then 2 else 0.
Definition opencl_kernel_modern_only (variant : Z) : bool :=
  negb (opencl_kernel_fixed_npi variant =? 0) || (variant =? MINER_OPENCL_KERNEL_REGISTER_HEAVY).
Definition opencl_kernel_backend_compatible (backend kernel : Z) : bool :=
  if opencl_kernel_modern_only kernel then backend =? MINER_OPENCL_BACKEND_MODERN else true.

(** * Autotuning: how many threads to try *)

Definition int_value_seen (values : list Z) (value : Z) : bool := existsb (Z.eqb value) values.

Fixpoint add_candidates (full_threads : Z) (max_count : nat) (raw out : list Z) : list Z :=
  match raw with
  | [] => out
  | value :: raw =>
      if (length out <? max_count)%nat then
        if value <? 1 then add_candidates full_threads max_count raw out
        else
          let value := if full_threads <? value then full_threads else value in
          add_candidates full_threads max_count raw
            (if negb (int_value_seen out value) then out ++ [value] else out)
      else out
  end.
(** The candidates of [int] arithmetic, which does not overflow while
    [3 * full_threads + 3] fits an [int], below 715,827,882 threads. *)
Definition autotune_cpu_thread_candidates (full_threads max_count : Z) : list Z :=
  if (full_threads <=? 0) || (max_count <=? 0) then []
  else
    add_candidates full_threads (Z.to_nat max_count)
      [full_threads; full_threads - 1; Z.quot (full_threads * 3 + 3) 4; Z.quot (full_threads * 2 + 2) 3;
       Z.quot full_threads 2; 1] [].
