(* ===== verification/AppConfig.v ===== *)
(** The mining client's configuration: src/src/stratum_main.c's [app_config_t], its
    defaults, the JSON file and the checks [main] makes before it starts.

    [load_config_file] takes what [json_load_file_allow_bom] returns.  A conversion
    of [json_int_t] to [int] keeps the low 32 bits, as the platform's compilers do.
    A C flag is a [bool]. *)
From stdpp Require Import countable base tactics list option strings.
From Stdlib Require Import ZArith Lia Ascii SpecFloat.
From S2P Require Import Prelude Words Fips Sha256d Float64 Hex Target Job Miner Json Stratum FrontEnd.

#[local] Open Scope Z_scope.

(** * Data *)

Record pool_config_t := PoolConfig {
  pl_url : string; pl_user : string; pl_pass : string; pl_difficulty : double;
}.
Record app_config_t := AppConfig {
  ac_pools : list pool_config_t;
  ac_pool_count : Z;
  ac_retries : Z;
  ac_reconnect_delay : Z;
  ac_thread_count : Z;
  ac_cpu_affinity : bool;
  ac_cpu_enabled : bool;
  ac_enable_mining : bool;
  ac_autosave : bool;
  ac_autotune_enabled : bool;
  ac_cpu_autotune_done : bool;
  ac_gpu_autotune_done : bool;
  ac_opencl : miner_opencl_config_t;
  ac_cuda : miner_cuda_config_t;
  ac_runtime_seconds : double;
  ac_stats_interval : double;
  ac_autotune_seconds : double;
  ac_donate_level : Z;
}.

(** Assignments to one field. *)
Definition set_pools (v : list pool_config_t) (c : app_config_t) : app_config_t :=
  AppConfig v (ac_pool_count c) (ac_retries c) (ac_reconnect_delay c) (ac_thread_count c)
    (ac_cpu_affinity c) (ac_cpu_enabled c) (ac_enable_mining c) (ac_autosave c) (ac_autotune_enabled
    c) (ac_cpu_autotune_done c) (ac_gpu_autotune_done c) (ac_opencl c) (ac_cuda c)
    (ac_runtime_seconds c) (ac_stats_interval c) (ac_autotune_seconds c) (ac_donate_level c).
Definition set_pool_count (v : Z) (c : app_config_t) : app_config_t :=
  AppConfig (ac_pools c) v (ac_retries c) (ac_reconnect_delay c) (ac_thread_count c)
    (ac_cpu_affinity c) (ac_cpu_enabled c) (ac_enable_mining c) (ac_autosave c) (ac_autotune_enabled
    c) (ac_cpu_autotune_done c) (ac_gpu_autotune_done c) (ac_opencl c) (ac_cuda c)
    (ac_runtime_seconds c) (ac_stats_interval c) (ac_autotune_seconds c) (ac_donate_level c).
Definition set_retries (v : Z) (c : app_config_t) : app_config_t :=
  AppConfig (ac_pools c) (ac_pool_count c) v (ac_reconnect_delay c) (ac_thread_count c)
    (ac_cpu_affinity c) (ac_cpu_enabled c) (ac_enable_mining c) (ac_autosave c) (ac_autotune_enabled
    c) (ac_cpu_autotune_done c) (ac_gpu_autotune_done c) (ac_opencl c) (ac_cuda c)
    (ac_runtime_seconds c) (ac_stats_interval c) (ac_autotune_seconds c) (ac_donate_level c).
Definition set_reconnect_delay (v : Z) (c : app_config_t) : app_config_t :=
  AppConfig (ac_pools c) (ac_pool_count c) (ac_retries c) v (ac_thread_count c) (ac_cpu_affinity c)
    (ac_cpu_enabled c) (ac_enable_mining c) (ac_autosave c) (ac_autotune_enabled c)
    (ac_cpu_autotune_done c) (ac_gpu_autotune_done c) (ac_opencl c) (ac_cuda c) (ac_runtime_seconds
    c) (ac_stats_interval c) (ac_autotune_seconds c) (ac_donate_level c).
Definition set_thread_count (v : Z) (c : app_config_t) : app_config_t :=
  AppConfig (ac_pools c) (ac_pool_count c) (ac_retries c) (ac_reconnect_delay c) v (ac_cpu_affinity
    c) (ac_cpu_enabled c) (ac_enable_mining c) (ac_autosave c) (ac_autotune_enabled c)
    (ac_cpu_autotune_done c) (ac_gpu_autotune_done c) (ac_opencl c) (ac_cuda c) (ac_runtime_seconds
    c) (ac_stats_interval c) (ac_autotune_seconds c) (ac_donate_level c).
Definition set_cpu_affinity (v : bool) (c : app_config_t) : app_config_t :=
  AppConfig (ac_pools c) (ac_pool_count c) (ac_retries c) (ac_reconnect_delay c) (ac_thread_count c)
    v (ac_cpu_enabled c) (ac_enable_mining c) (ac_autosave c) (ac_autotune_enabled c)
    (ac_cpu_autotune_done c) (ac_gpu_autotune_done c) (ac_opencl c) (ac_cuda c) (ac_runtime_seconds
    c) (ac_stats_interval c) (ac_autotune_seconds c) (ac_donate_level c).
Definition set_cpu_enabled (v : bool) (c : app_config_t) : app_config_t :=
  AppConfig (ac_pools c) (ac_pool_count c) (ac_retries c) (ac_reconnect_delay c) (ac_thread_count c)
    (ac_cpu_affinity c) v (ac_enable_mining c) (ac_autosave c) (ac_autotune_enabled c)
    (ac_cpu_autotune_done c) (ac_gpu_autotune_done c) (ac_opencl c) (ac_cuda c) (ac_runtime_seconds
    c) (ac_stats_interval c) (ac_autotune_seconds c) (ac_donate_level c).
Definition set_enable_mining (v : bool) (c : app_config_t) : app_config_t :=
  AppConfig (ac_pools c) (ac_pool_count c) (ac_retries c) (ac_reconnect_delay c) (ac_thread_count c)
    (ac_cpu_affinity c) (ac_cpu_enabled c) v (ac_autosave c) (ac_autotune_enabled c)
    (ac_cpu_autotune_done c) (ac_gpu_autotune_done c) (ac_opencl c) (ac_cuda c) (ac_runtime_seconds
    c) (ac_stats_interval c) (ac_autotune_seconds c) (ac_donate_level c).
Definition set_autosave (v : bool) (c : app_config_t) : app_config_t :=
  AppConfig (ac_pools c) (ac_pool_count c) (ac_retries c) (ac_reconnect_delay c) (ac_thread_count c)
    (ac_cpu_affinity c) (ac_cpu_enabled c) (ac_enable_mining c) v (ac_autotune_enabled c)
    (ac_cpu_autotune_done c) (ac_gpu_autotune_done c) (ac_opencl c) (ac_cuda c) (ac_runtime_seconds
    c) (ac_stats_interval c) (ac_autotune_seconds c) (ac_donate_level c).
Definition set_autotune_enabled (v : bool) (c : app_config_t) : app_config_t :=
  AppConfig (ac_pools c) (ac_pool_count c) (ac_retries c) (ac_reconnect_delay c) (ac_thread_count c)
    (ac_cpu_affinity c) (ac_cpu_enabled c) (ac_enable_mining c) (ac_autosave c) v
    (ac_cpu_autotune_done c) (ac_gpu_autotune_done c) (ac_opencl c) (ac_cuda c) (ac_runtime_seconds
    c) (ac_stats_interval c) (ac_autotune_seconds c) (ac_donate_level c).
Definition set_cpu_autotune_done (v : bool) (c : app_config_t) : app_config_t :=
  AppConfig (ac_pools c) (ac_pool_count c) (ac_retries c) (ac_reconnect_delay c) (ac_thread_count c)
    (ac_cpu_affinity c) (ac_cpu_enabled c) (ac_enable_mining c) (ac_autosave c) (ac_autotune_enabled
    c) v (ac_gpu_autotune_done c) (ac_opencl c) (ac_cuda c) (ac_runtime_seconds c)
    (ac_stats_interval c) (ac_autotune_seconds c) (ac_donate_level c).
Definition set_gpu_autotune_done (v : bool) (c : app_config_t) : app_config_t :=
  AppConfig (ac_pools c) (ac_pool_count c) (ac_retries c) (ac_reconnect_delay c) (ac_thread_count c)
    (ac_cpu_affinity c) (ac_cpu_enabled c) (ac_enable_mining c) (ac_autosave c) (ac_autotune_enabled
    c) (ac_cpu_autotune_done c) v (ac_opencl c) (ac_cuda c) (ac_runtime_seconds c)
    (ac_stats_interval c) (ac_autotune_seconds c) (ac_donate_level c).
Definition set_opencl (v : miner_opencl_config_t) (c : app_config_t) : app_config_t :=
  AppConfig (ac_pools c) (ac_pool_count c) (ac_retries c) (ac_reconnect_delay c) (ac_thread_count c)
    (ac_cpu_affinity c) (ac_cpu_enabled c) (ac_enable_mining c) (ac_autosave c) (ac_autotune_enabled
    c) (ac_cpu_autotune_done c) (ac_gpu_autotune_done c) v (ac_cuda c) (ac_runtime_seconds c)
    (ac_stats_interval c) (ac_autotune_seconds c) (ac_donate_level c).
Definition set_cuda (v : miner_cuda_config_t) (c : app_config_t) : app_config_t :=
  AppConfig (ac_pools c) (ac_pool_count c) (ac_retries c) (ac_reconnect_delay c) (ac_thread_count c)
    (ac_cpu_affinity c) (ac_cpu_enabled c) (ac_enable_mining c) (ac_autosave c) (ac_autotune_enabled
    c) (ac_cpu_autotune_done c) (ac_gpu_autotune_done c) (ac_opencl c) v (ac_runtime_seconds c)
    (ac_stats_interval c) (ac_autotune_seconds c) (ac_donate_level c).
Definition set_runtime_seconds (v : double) (c : app_config_t) : app_config_t :=
  AppConfig (ac_pools c) (ac_pool_count c) (ac_retries c) (ac_reconnect_delay c) (ac_thread_count c)
    (ac_cpu_affinity c) (ac_cpu_enabled c) (ac_enable_mining c) (ac_autosave c) (ac_autotune_enabled
    c) (ac_cpu_autotune_done c) (ac_gpu_autotune_done c) (ac_opencl c) (ac_cuda c) v
    (ac_stats_interval c) (ac_autotune_seconds c) (ac_donate_level c).
Definition set_stats_interval (v : double) (c : app_config_t) : app_config_t :=
  AppConfig (ac_pools c) (ac_pool_count c) (ac_retries c) (ac_reconnect_delay c) (ac_thread_count c)
    (ac_cpu_affinity c) (ac_cpu_enabled c) (ac_enable_mining c) (ac_autosave c) (ac_autotune_enabled
    c) (ac_cpu_autotune_done c) (ac_gpu_autotune_done c) (ac_opencl c) (ac_cuda c)
    (ac_runtime_seconds c) v (ac_autotune_seconds c) (ac_donate_level c).
Definition set_autotune_seconds (v : double) (c : app_config_t) : app_config_t :=
  AppConfig (ac_pools c) (ac_pool_count c) (ac_retries c) (ac_reconnect_delay c) (ac_thread_count c)
    (ac_cpu_affinity c) (ac_cpu_enabled c) (ac_enable_mining c) (ac_autosave c) (ac_autotune_enabled
    c) (ac_cpu_autotune_done c) (ac_gpu_autotune_done c) (ac_opencl c) (ac_cuda c)
    (ac_runtime_seconds c) (ac_stats_interval c) v (ac_donate_level c).
Definition set_donate_level (v : Z) (c : app_config_t) : app_config_t :=
  AppConfig (ac_pools c) (ac_pool_count c) (ac_retries c) (ac_reconnect_delay c) (ac_thread_count c)
    (ac_cpu_affinity c) (ac_cpu_enabled c) (ac_enable_mining c) (ac_autosave c) (ac_autotune_enabled
    c) (ac_cpu_autotune_done c) (ac_gpu_autotune_done c) (ac_opencl c) (ac_cuda c)
    (ac_runtime_seconds c) (ac_stats_interval c) (ac_autotune_seconds c) v.

(** All bytes zero. *)
Definition zero_pool : pool_config_t := PoolConfig "" "" "" (f64_of_Z 0).
#[export] Instance pool_config_inhabited : Inhabited pool_config_t := populate zero_pool.
Definition app_config_set_defaults : app_config_t :=
  {| ac_pools := PoolConfig (copy_string 256 (Some DEFAULT_POOL_URL)) (copy_string 256 (Some DEFAULT_USER))
                   (copy_string 128 (Some DEFAULT_PASSWORD)) DEFAULT_SUGGEST_DIFFICULTY
                 :: replicate (MAX_POOLS - 1) zero_pool;
     ac_pool_count := 1; ac_retries := DEFAULT_RETRIES; ac_reconnect_delay := DEFAULT_RECONNECT_DELAY;
     ac_thread_count := 0; ac_cpu_affinity := false; ac_cpu_enabled := true; ac_enable_mining := true;
     ac_autosave := true; ac_autotune_enabled := true; ac_cpu_autotune_done := false;
     ac_gpu_autotune_done := false; ac_opencl := miner_opencl_config_defaults;
     ac_cuda := miner_cuda_config_defaults; ac_runtime_seconds := f64_of_Z 0;
     ac_stats_interval := DEFAULT_STATS_INTERVAL; ac_autotune_seconds := DEFAULT_AUTOTUNE_SECONDS;
     ac_donate_level := DONATION_DEFAULT_LEVEL |}.

Definition app_config_set_donate_level (level : Z) (c : app_config_t) : app_config_t :=
  if donation_level_valid level then set_donate_level level c else c.

(** * The configuration file *)

Section json.
Context `{J : Jansson}.
Implicit Types value root : option (json_t J).

Definition json_bool_value value (fallback : bool) : bool :=
  if json_is_boolean value then json_is_true value else fallback.
Definition json_int_value value (fallback : Z) : Z :=
  if json_is_integer value then i32 (json_integer_value value) else fallback.
Definition json_u32_value value (fallback : Z) : Z :=
  if negb (json_is_integer value) then fallback
  else
    let parsed := json_integer_value value in
    if (parsed <? 0) || (UINT32_MAX <? parsed) then fallback else parsed.
Definition json_number_value_or value (fallback : double) : double :=
  if json_is_number value then json_number_value value else fallback.

(** [x = value(get(o, k1), x); x = value(get(o, k2), x); ...], the keys in the order
    they are read. *)
Definition read_keys {A} (value : option (json_t J) -> A -> A) (o : option (json_t J)) (keys : list string) (x : A) : A :=
  fold_left (fun x key => value (json_object_get o key) x) keys x.
Definition backend_value value (fallback : Z) : Z := parse_opencl_backend_variant (json_string_value value) fallback.
Definition kernel_value value (fallback : Z) : Z := parse_opencl_kernel_variant (json_string_value value) fallback.
Definition cuda_kernel_value value (fallback : Z) : Z := parse_cuda_kernel_variant (json_string_value value) fallback.

Definition load_autotune (autotune : option (json_t J)) (c : app_config_t) : app_config_t :=
  if json_is_object autotune then
    let c := set_autotune_enabled (read_keys json_bool_value autotune ["enabled"]%string (ac_autotune_enabled c)) c in
    let c := set_cpu_autotune_done
               (read_keys json_bool_value autotune
                  ["self-test"; "self_test"; "done"; "completed"; "cpu-self-test"; "cpu_self_test"]%string
                  (ac_cpu_autotune_done c)) c in
    let c := set_gpu_autotune_done
               (read_keys json_bool_value autotune
                  ["gpu-self-test"; "gpu_self_test"; "opencl-self-test"; "opencl_self_test"]%string
                  (ac_gpu_autotune_done c)) c in
    set_autotune_seconds (read_keys json_number_value_or autotune ["seconds"]%string (ac_autotune_seconds c)) c
  else c.

Definition load_cpu (cpu : option (json_t J)) (c : app_config_t) : app_config_t :=
  if json_is_object cpu then
    let c := set_cpu_enabled (read_keys json_bool_value cpu ["enabled"]%string (ac_cpu_enabled c)) c in
    let c := set_thread_count (read_keys json_int_value cpu ["threads"]%string (ac_thread_count c)) c in
    set_cpu_affinity (read_keys json_bool_value cpu ["affinity"]%string (ac_cpu_affinity c)) c
  else c.

(** One entry of [devices]; what it does not set it takes from the object around it. *)
Definition load_opencl_device (oc : miner_opencl_config_t) (device : option (json_t J))
  : miner_opencl_device_config_t :=
  {| od_platform := read_keys json_int_value device ["platform"]%string (oc_platform oc);
     od_device := read_keys json_int_value device ["device"]%string (oc_device oc);
     od_batch_size := read_keys json_u32_value device ["batch-size"; "batch_size"]%string (oc_batch_size oc);
     od_local_work_size :=
       read_keys json_u32_value device ["local-work-size"; "local_work_size"]%string (oc_local_work_size oc);
     od_nonces_per_work_item :=
       read_keys json_u32_value device ["nonces-per-work-item"; "nonces_per_work_item"; "npi"]%string
         (oc_nonces_per_work_item oc);
     od_max_results := read_keys json_u32_value device ["max-results"; "max_results"]%string (oc_max_results oc);
     od_backend_variant :=
       read_keys backend_value device ["backend"; "backend-variant"; "backend_variant"]%string (oc_backend_variant oc);
     od_kernel_variant :=
       read_keys kernel_value device ["kernel"; "kernel-variant"; "kernel_variant"]%string (oc_kernel_variant oc) |}.

Definition set_devices (count : Z) (devices : list miner_opencl_device_config_t) (oc : miner_opencl_config_t) :=
  OpenclConfig (oc_enabled oc) (oc_all_devices oc) (oc_platform oc) (oc_device oc) (oc_batch_size oc)
    (oc_local_work_size oc) (oc_nonces_per_work_item oc) (oc_max_results oc) (oc_backend_variant oc)
    (oc_kernel_variant oc) count devices.
Definition set_all_devices (v : bool) (oc : miner_opencl_config_t) :=
  OpenclConfig (oc_enabled oc) v (oc_platform oc) (oc_device oc) (oc_batch_size oc)
    (oc_local_work_size oc) (oc_nonces_per_work_item oc) (oc_max_results oc) (oc_backend_variant oc)
    (oc_kernel_variant oc) (oc_device_count oc) (oc_devices oc).

(** The body of [json_array_foreach(devices, index, device)]. *)
Definition add_opencl_device (devices : option (json_t J)) (index : nat) (oc : miner_opencl_config_t)
  : miner_opencl_config_t :=
  let device := json_array_get devices index in
  if negb (json_is_object device) || (Z.of_nat MINER_OPENCL_MAX_DEVICES <=? oc_device_count oc) then oc
  else
    set_devices (oc_device_count oc + 1)
      (<[Z.to_nat (oc_device_count oc) := load_opencl_device oc device]> (oc_devices oc)) oc.

Definition load_opencl (opencl : option (json_t J)) (oc : miner_opencl_config_t) : miner_opencl_config_t :=
  if json_is_object opencl then
    let oc :=
      {| oc_enabled := read_keys json_bool_value opencl ["enabled"]%string (oc_enabled oc);
         oc_all_devices := read_keys json_bool_value opencl ["all-devices"; "all_devices"]%string (oc_all_devices oc);
         oc_platform := read_keys json_int_value opencl ["platform"]%string (oc_platform oc);
         oc_device := read_keys json_int_value opencl ["device"]%string (oc_device oc);
         oc_batch_size := read_keys json_u32_value opencl ["batch-size"; "batch_size"]%string (oc_batch_size oc);
         oc_local_work_size :=
           read_keys json_u32_value opencl ["local-work-size"; "local_work_size"]%string (oc_local_work_size oc);
         oc_nonces_per_work_item :=
           read_keys json_u32_value opencl ["nonces-per-work-item"; "nonces_per_work_item"; "npi"]%string
             (oc_nonces_per_work_item oc);
         oc_max_results := read_keys json_u32_value opencl ["max-results"; "max_results"]%string (oc_max_results oc);
         oc_backend_variant :=
           read_keys backend_value opencl ["backend"; "backend-variant"; "backend_variant"]%string
             (oc_backend_variant oc);
         oc_kernel_variant :=
           read_keys kernel_value opencl ["kernel"; "kernel-variant"; "kernel_variant"]%string (oc_kernel_variant oc);
         oc_device_count := oc_device_count oc; oc_devices := oc_devices oc |} in
    let devices := json_object_get opencl "devices" in
    if json_is_array devices then
      for_range 0 (json_array_size devices) (add_opencl_device devices)
        (set_all_devices false (set_devices 0 (oc_devices oc) oc))
    else oc
  else oc.

Definition load_cuda (cuda : option (json_t J)) (cc : miner_cuda_config_t) : miner_cuda_config_t :=
  if json_is_object cuda then
    {| cc_enabled := read_keys json_bool_value cuda ["enabled"]%string (cc_enabled cc);
       cc_device := read_keys json_int_value cuda ["device"]%string (cc_device cc);
       cc_batch_size := read_keys json_u32_value cuda ["batch-size"; "batch_size"]%string (cc_batch_size cc);
       cc_threads_per_block :=
         read_keys json_u32_value cuda ["threads-per-block"; "threads_per_block"; "block"]%string
           (cc_threads_per_block cc);
       cc_nonces_per_thread :=
         read_keys json_u32_value cuda ["nonces-per-thread"; "nonces_per_thread"; "npt"]%string
           (cc_nonces_per_thread cc);
       cc_max_results := read_keys json_u32_value cuda ["max-results"; "max_results"]%string (cc_max_results cc);
       cc_kernel_variant :=
         read_keys cuda_kernel_value cuda ["kernel"; "kernel-variant"; "kernel_variant"]%string
           (cc_kernel_variant cc) |}
  else cc.

(** A pool entry; [None] when it has no URL. *)
Definition load_pool (pool : option (json_t J)) : option pool_config_t :=
  url ← json_string_value (json_object_get pool "url");
  if String.eqb url "" then None
  else
    let user := copy_string 256 (json_string_value (json_object_get pool "user")) in
    let pass := copy_string 128 (json_string_value (json_object_get pool "pass")) in
    Some {| pl_url := copy_string 256 (Some url);
            pl_user := if String.eqb user "" then copy_string 256 (Some DEFAULT_USER) else user;
            pl_pass := if String.eqb pass "" then copy_string 128 (Some DEFAULT_PASSWORD) else pass;
            pl_difficulty :=
              read_keys json_number_value_or pool ["diff"; "difficulty"]%string DEFAULT_SUGGEST_DIFFICULTY |}.

(** The body of [json_array_foreach(pools, index, pool)] on the array and [count]. *)
Definition add_pool (pools : option (json_t J)) (index : nat) (s : list pool_config_t * nat)
  : list pool_config_t * nat :=
  let '(dst, count) := s in
  let pool := json_array_get pools index in
  if negb (json_is_object pool) || (MAX_POOLS <=? count)%nat then s
  else
    match load_pool pool with
    | None => s
    | Some p => (<[count := p]> dst, S count)
    end.

Definition load_pools (pools : option (json_t J)) (c : app_config_t) : app_config_t :=
  if json_is_array pools then
    let '(dst, count) := for_range 0 (json_array_size pools) (add_pool pools) (ac_pools c, 0%nat) in
    let c := set_pools dst c in
    if (0 <? count)%nat then set_pool_count (Z.of_nat count) c else c
  else c.

(** [None] is a return of -1. *)
Definition load_config_file (c : app_config_t) root (required : bool) : option app_config_t :=
  match root with
  | None => if required then None else Some c
  | Some _ =>
      let get := json_object_get root in
      let c := set_autosave (read_keys json_bool_value root ["autosave"]%string (ac_autosave c)) c in
      let c := load_autotune (get "autotune") c in
      let c := load_cpu (get "cpu") c in
      let c := set_opencl (load_opencl (get "opencl") (ac_opencl c)) c in
      let c := set_cuda (load_cuda (get "cuda") (ac_cuda c)) c in
      let c := set_thread_count (read_keys json_int_value root ["threads"]%string (ac_thread_count c)) c in
      let c := set_retries (read_keys json_int_value root ["retries"]%string (ac_retries c)) c in
      let c := set_reconnect_delay
                 (read_keys json_int_value root ["retry-pause"; "reconnect-delay"]%string (ac_reconnect_delay c)) c in
      let c := set_stats_interval
                 (read_keys json_number_value_or root ["print-time"; "stats"]%string (ac_stats_interval c)) c in
      let c := set_runtime_seconds
                 (read_keys json_number_value_or root ["runtime"]%string (ac_runtime_seconds c)) c in
      let donate_level := get "donate-level" in
      let c := if json_is_integer donate_level
               then app_config_set_donate_level (i32 (json_integer_value donate_level)) c else c in
      Some (load_pools (get "pools") c)
  end.
End json.

(** * Before the first session *)

(** The checks of [main] after the command line: [inl] is the exit code.  A NaN pause
    for autotuning is raised to the minimum too. *)
Definition check_config (default_thread_count : Z) (c : app_config_t) : Z + app_config_t :=
  if ac_pool_count c <=? 0 then inl 1
  else
    let c := if ac_cpu_enabled c && (ac_thread_count c <=? 0) then set_thread_count default_thread_count c else c in
    let c := if negb (ac_cpu_enabled c) then set_thread_count 0 c else c in
    let c := if ac_reconnect_delay c <? 0 then set_reconnect_delay DEFAULT_RECONNECT_DELAY c else c in
    let c := if f64_lt (ac_stats_interval c) (f64_of_Z 0) then set_stats_interval (f64_of_Z 0) c else c in
    if negb (donation_level_valid (ac_donate_level c)) then inl 2
    else
      let quarter := f64_div (f64_of_Z 1) (f64_of_Z 4) in
      inr (if negb (f64_le quarter (ac_autotune_seconds c)) then set_autotune_seconds quarter c else c).

Definition APP_AUTOTUNE_REQUIRED_CPU : Z := 1.
Definition APP_AUTOTUNE_REQUIRED_GPU : Z := 2.
Definition app_config_autotune_required (c : app_config_t) : Z :=
  if negb (ac_autotune_enabled c) || negb (ac_enable_mining c) then 0
  else
    let required :=
      if ac_cpu_enabled c && (0 <? ac_thread_count c) && negb (ac_cpu_autotune_done c)
      then Z.lor 0 APP_AUTOTUNE_REQUIRED_CPU else 0 in
    if (oc_enabled (ac_opencl c) || cc_enabled (ac_cuda c)) && negb (ac_gpu_autotune_done c)
    then Z.lor required APP_AUTOTUNE_REQUIRED_GPU else required.
(** Whether [main] runs the benchmark. *)
Definition runs_autotune (worker_override force_autotune : bool) (c : app_config_t) : bool :=
  let autotune_required := app_config_autotune_required c in
  negb (autotune_required =? 0) &&
  negb (worker_override && negb force_autotune && (Z.land autotune_required APP_AUTOTUNE_REQUIRED_GPU =? 0)).

(** * Well-formed configurations *)

Definition is_i32 (z : Z) : Prop := - 2 ^ 31 <= z < 2 ^ 31.
Definition opencl_backend_ok (v : Z) : Prop := MINER_OPENCL_BACKEND_AUTO <= v <= MINER_OPENCL_BACKEND_MODERN.
Definition opencl_kernel_ok (v : Z) : Prop := MINER_OPENCL_KERNEL_AUTO <= v <= MINER_OPENCL_KERNEL_REGISTER_HEAVY.
Definition cuda_kernel_ok (v : Z) : Prop := MINER_CUDA_KERNEL_STANDARD <= v <= MINER_CUDA_KERNEL_LAST.

Record pool_ok (p : pool_config_t) : Prop := {
  pk_url : (strlen (pl_url p) < 256)%nat;
  pk_user : (strlen (pl_user p) < 256)%nat;
  pk_pass : (strlen (pl_pass p) < 128)%nat;
}.
(** A pool a session can be started with. *)
Definition pool_set (p : pool_config_t) : Prop := pl_url p <> ""%string /\ pl_user p <> ""%string /\ pl_pass p <> ""%string.

Record device_ok (d : miner_opencl_device_config_t) : Prop := {
  dk_platform : is_i32 (od_platform d); dk_device : is_i32 (od_device d);
  dk_batch : is_u32 (od_batch_size d); dk_local : is_u32 (od_local_work_size d);
  dk_npi : is_u32 (od_nonces_per_work_item d); dk_max : is_u32 (od_max_results d);
  dk_backend : opencl_backend_ok (od_backend_variant d); dk_kernel : opencl_kernel_ok (od_kernel_variant d);
}.
Record opencl_ok (oc : miner_opencl_config_t) : Prop := {
  ok_platform : is_i32 (oc_platform oc); ok_device : is_i32 (oc_device oc);
  ok_batch : is_u32 (oc_batch_size oc); ok_local : is_u32 (oc_local_work_size oc);
  ok_npi : is_u32 (oc_nonces_per_work_item oc); ok_max : is_u32 (oc_max_results oc);
  ok_backend : opencl_backend_ok (oc_backend_variant oc); ok_kernel : opencl_kernel_ok (oc_kernel_variant oc);
  ok_count : 0 <= oc_device_count oc <= Z.of_nat MINER_OPENCL_MAX_DEVICES;
  ok_length : length (oc_devices oc) = MINER_OPENCL_MAX_DEVICES;
  ok_devices : Forall device_ok (oc_devices oc);
}.
Record cuda_ok (cc : miner_cuda_config_t) : Prop := {
  ck_device : is_i32 (cc_device cc); ck_batch : is_u32 (cc_batch_size cc);
  ck_threads : is_u32 (cc_threads_per_block cc); ck_npt : is_u32 (cc_nonces_per_thread cc);
  ck_max : is_u32 (cc_max_results cc); ck_kernel : cuda_kernel_ok (cc_kernel_variant cc);
}.
Record config_ok (c : app_config_t) : Prop := {
  co_length : length (ac_pools c) = MAX_POOLS;
  co_pools : Forall pool_ok (ac_pools c);
  co_count : 1 <= ac_pool_count c <= Z.of_nat MAX_POOLS;
  co_retries : is_i32 (ac_retries c);
  co_delay : is_i32 (ac_reconnect_delay c);
  co_threads : is_i32 (ac_thread_count c);
  co_opencl : opencl_ok (ac_opencl c);
  co_cuda : cuda_ok (ac_cuda c);
  co_level : donation_level_valid (ac_donate_level c) = true;
}.
(** Every pool in use can be connected to. *)
Definition pools_set (c : app_config_t) : Prop :=
  Forall pool_set (take (Z.to_nat (ac_pool_count c)) (ac_pools c)).


Create HintDb config.
#[local] Arguments copy_string : simpl never.
#[local] Arguments read_keys : simpl never.

Lemma copy_string_fits n src : (0 < n)%nat -> (strlen (copy_string n src) < n)%nat.
Proof.
  intros Hn. destruct src as [s|]; [|exact Hn]. unfold copy_string, snprintf_s.
  rewrite <- length_chars, chars_of_chars, length_take. lia.
Qed.
Lemma copy_string_set n s : (1 < n)%nat -> s <> ""%string -> copy_string n (Some s) <> ""%string.
Proof.
  intros Hn Hs E. apply Hs. destruct s as [|a s]; [done|]. exfalso. revert E.
  unfold copy_string, snprintf_s. destruct n as [|[|n]]; [lia|lia|]. done.
Qed.

Lemma find_variant_inv (P : Z -> Prop) table value fallback :
  Forall (fun e => P (snd e)) table -> P fallback -> P (find_variant table value fallback).
Proof.
  intros Ht Hf. induction Ht as [|[name v] table Hv _ IH]; [done|]. cbn. by case_match.
Qed.
Lemma parse_variant_inv (P : Z -> Prop) dflt table value fallback :
  P dflt -> Forall (fun e => P (snd e)) table -> P fallback -> P (parse_variant dflt table value fallback).
Proof.
  intros Hd Ht Hf. destruct value as [value|]; [|done]. cbn. case_match; [done|]. by apply find_variant_inv.
Qed.

Ltac by_variants :=
  intros v x Hx; refine (parse_variant_inv _ _ _ v x _ _ Hx); [by split|];
  repeat (apply list.Forall_cons; split; [by split|]); by apply list.Forall_nil.
Lemma backend_ok : forall v x, opencl_backend_ok x -> opencl_backend_ok (parse_opencl_backend_variant v x).
Proof. by_variants. Qed.
Lemma kernel_ok : forall v x, opencl_kernel_ok x -> opencl_kernel_ok (parse_opencl_kernel_variant v x).
Proof. by_variants. Qed.
Lemma cuda_variant_ok : forall v x, cuda_kernel_ok x -> cuda_kernel_ok (parse_cuda_kernel_variant v x).
Proof. by_variants. Qed.

Lemma i32_range z : is_i32 (i32 z).
Proof. unfold is_i32, i32. pose proof (Z.mod_pos_bound (z + 2 ^ 31) (2 ^ 32)). lia. Qed.

Lemma donate_level_ok level c : config_ok c -> config_ok (app_config_set_donate_level level c).
Proof.
  intros H. unfold app_config_set_donate_level. destruct (donation_level_valid level) eqn:E; [|done].
  by destruct H; split.
Qed.

Lemma defaults_ok : config_ok app_config_set_defaults.
Proof.
  split; [done|..|done].
  - constructor; [|cbn; repeat constructor; vm_compute; lia].
    split; apply copy_string_fits; vm_compute; lia.
  - unfold app_config_set_defaults, ac_pool_count. vm_compute. split; intros; discriminate.
  - vm_compute. split; [intros|]; done.
  - vm_compute. split; [intros|]; done.
  - vm_compute. split; [intros|]; done.
  - split; try (vm_compute; split; [intros|]; done); try done.
    apply Forall_replicate. split; vm_compute; split; try (intros; discriminate); done.
  - split; vm_compute; split; try (intros; discriminate); done.
Qed.
Lemma defaults_set : pools_set app_config_set_defaults.
Proof. constructor; [|constructor]. repeat split; apply copy_string_set; try done; vm_compute; lia. Qed.

Section load.
Context `{J : Jansson}.
Implicit Types o value root : option (json_t J).

Lemma read_keys_inv {A} (P : A -> Prop) (value : option (json_t J) -> A -> A) o keys x :
  (forall v x, P x -> P (value v x)) -> P x -> P (read_keys value o keys x).
Proof. intros Hv. unfold read_keys. revert x. induction keys as [|k keys IH]; cbn; auto. Qed.
Lemma read_int o keys x : is_i32 x -> is_i32 (read_keys json_int_value o keys x).
Proof. apply read_keys_inv. intros v y Hy. unfold json_int_value. case_match; [apply i32_range|done]. Qed.
Lemma read_u32 o keys x : is_u32 x -> is_u32 (read_keys json_u32_value o keys x).
Proof.
  apply read_keys_inv. intros v y Hy. unfold json_u32_value. case_match; [done|].
  destruct (Z.ltb_spec (json_integer_value v) 0); [done|].
  destruct (Z.ltb_spec UINT32_MAX (json_integer_value v)); [done|]. unfold is_u32, UINT32_MAX in *. cbn. lia.
Qed.
Lemma read_backend o keys x : opencl_backend_ok x -> opencl_backend_ok (read_keys backend_value o keys x).
Proof. apply read_keys_inv. intros v. apply backend_ok. Qed.
Lemma read_kernel o keys x : opencl_kernel_ok x -> opencl_kernel_ok (read_keys kernel_value o keys x).
Proof. apply read_keys_inv. intros v. apply kernel_ok. Qed.
Lemma read_cuda_kernel o keys x : cuda_kernel_ok x -> cuda_kernel_ok (read_keys cuda_kernel_value o keys x).
Proof. apply read_keys_inv. intros v. apply cuda_variant_ok. Qed.
#[local] Hint Resolve read_int read_u32 read_backend read_kernel read_cuda_kernel : config.

Lemma load_device_ok oc device : opencl_ok oc -> device_ok (load_opencl_device oc device).
Proof. intros []. split; cbn; auto with config. Qed.

Lemma add_device_ok devices i oc : opencl_ok oc -> opencl_ok (add_opencl_device devices i oc).
Proof.
  intros H. unfold add_opencl_device. cbv zeta. destruct (negb _); [done|]. cbn [orb].
  destruct (Z.leb_spec (Z.of_nat MINER_OPENCL_MAX_DEVICES) (oc_device_count oc)) as [|Hn]; [done|].
  pose proof (load_device_ok oc (json_array_get devices i) H) as Hd.
  destruct H as [? ? ? ? ? ? ? ? Hc Hl Hf].
  split; cbn [set_devices oc_platform oc_device oc_batch_size oc_local_work_size oc_nonces_per_work_item
    oc_max_results oc_backend_variant oc_kernel_variant oc_device_count oc_devices]; try done.
  - lia.
  - by rewrite length_insert.
  - by apply Forall_insert.
Qed.

Lemma load_opencl_ok o oc : opencl_ok oc -> opencl_ok (load_opencl o oc).
Proof.
  intros H. unfold load_opencl. destruct (json_is_object o); [|done]. cbv zeta.
  match goal with |- opencl_ok (if _ then for_range _ _ _ (set_all_devices _ (set_devices _ _ ?x)) else _) =>
    assert (H1 : opencl_ok x) by (destruct H; split; cbn; auto with config); generalize dependent x end.
  intros x H1. destruct (json_is_array _); [|done].
  apply (for_range_inv (fun _ oc => opencl_ok oc)); [|intros; by apply add_device_ok].
  destruct H1. split; cbn [set_all_devices set_devices oc_platform oc_device oc_batch_size oc_local_work_size
    oc_nonces_per_work_item oc_max_results oc_backend_variant oc_kernel_variant oc_device_count oc_devices]; try done; lia.
Qed.

Lemma load_cuda_ok o cc : cuda_ok cc -> cuda_ok (load_cuda o cc).
Proof.
  intros H. unfold load_cuda. destruct (json_is_object o); [|done].
  destruct H. split; cbn; auto with config.
Qed.

Lemma load_pool_ok o p : load_pool o = Some p -> pool_ok p /\ pool_set p.
Proof.
  unfold load_pool. destruct (json_string_value (json_object_get o "url")) as [url|]; [|done]. cbn [mbind option_bind].
  destruct (String.eqb_spec url ""); [done|]. cbv zeta. intros [= <-].
  destruct (String.eqb_spec (copy_string 256 (json_string_value (json_object_get o "user"))) "") as [|Hu];
  destruct (String.eqb_spec (copy_string 128 (json_string_value (json_object_get o "pass"))) "") as [|Hp];
  (split; [split; cbn [pl_url pl_user pl_pass]; apply copy_string_fits; lia|]);
  repeat split; cbn [pl_url pl_user pl_pass]; try assumption; apply copy_string_set; try done; lia.
Qed.

(** The array and count of the loop over [pools]. *)
Definition pools_inv (old : list pool_config_t) (s : list pool_config_t * nat) : Prop :=
  length (fst s) = MAX_POOLS /\ Forall pool_ok (fst s) /\ (snd s <= MAX_POOLS)%nat /\
  Forall pool_set (take (snd s) (fst s)) /\ (snd s = 0%nat -> fst s = old).

Lemma add_pool_inv old o i s : pools_inv old s -> pools_inv old (add_pool o i s).
Proof.
  destruct s as [dst count]. intros (Hl & Hp & Hc & Hs & H0). cbn [fst snd] in *. unfold add_pool. cbv zeta.
  destruct (negb _); [done|]. cbn [orb]. destruct (Nat.leb_spec MAX_POOLS count); [done|].
  destruct (load_pool _) as [p|] eqn:Ep; [|done]. apply load_pool_ok in Ep as [Hok Hset].
  unfold pools_inv. cbn [fst snd]. rewrite length_insert. split; [done|]. split; [by apply Forall_insert|].
  split; [lia|]. split; [|done].
  rewrite (take_S_r _ _ p) by (apply list_lookup_insert_eq; lia).
  rewrite take_insert_ge by lia. apply Forall_app_2; [done|]. by apply list.Forall_singleton.
Qed.

Lemma load_pools_ok o c :
  config_ok c -> config_ok (load_pools o c) /\ (pools_set c -> pools_set (load_pools o c)).
Proof.
  intros H. unfold load_pools. destruct (json_is_array o); [|done].
  assert (Hi : pools_inv (ac_pools c) (for_range 0 (json_array_size o) (add_pool o) (ac_pools c, 0%nat))).
  { apply (for_range_inv (fun _ => pools_inv (ac_pools c))); [|intros; by apply add_pool_inv].
    destruct H. split; [done|]. split; [done|]. split; [cbn [snd]; lia|]. split; [constructor|done]. }
  destruct (for_range _ _ _ _) as [dst count]. destruct Hi as (Hl & Hp & Hc & Hs & H0). cbn [fst snd] in *.
  destruct (Nat.ltb_spec 0 count) as [Hn|Hn].
  - split; [destruct H; split; try assumption; cbn; lia|].
    intros _. unfold pools_set. cbn. by rewrite Nat2Z.id.
  - assert (dst = ac_pools c) as -> by (apply H0; lia). by split; [destruct H; split|].
Qed.

(** Assignments to fields, one at a time. *)
Ltac by_config := intros; match goal with H : config_ok _ |- _ => by destruct H; split end.
Lemma ok_flag c v : config_ok c ->
  config_ok (set_autosave v c) /\ config_ok (set_autotune_enabled v c) /\ config_ok (set_cpu_autotune_done v c) /\
  config_ok (set_gpu_autotune_done v c) /\ config_ok (set_cpu_enabled v c) /\ config_ok (set_cpu_affinity v c).
Proof. intros []. do 5 (split; [by split|]). by split. Qed.
Lemma ok_seconds c v : config_ok c ->
  config_ok (set_runtime_seconds v c) /\ config_ok (set_stats_interval v c) /\ config_ok (set_autotune_seconds v c).
Proof. intros []. do 2 (split; [by split|]). by split. Qed.
Lemma ok_thread_count c v : config_ok c -> is_i32 v -> config_ok (set_thread_count v c).
Proof. by_config. Qed.
Lemma ok_retries c v : config_ok c -> is_i32 v -> config_ok (set_retries v c).
Proof. by_config. Qed.
Lemma ok_reconnect_delay c v : config_ok c -> is_i32 v -> config_ok (set_reconnect_delay v c).
Proof. by_config. Qed.
Lemma ok_opencl c v : config_ok c -> opencl_ok v -> config_ok (set_opencl v c).
Proof. by_config. Qed.
Lemma ok_cuda c v : config_ok c -> cuda_ok v -> config_ok (set_cuda v c).
Proof. by_config. Qed.
Lemma load_autotune_ok o c : config_ok c -> config_ok (load_autotune o c).
Proof.
  intros H. unfold load_autotune. destruct (json_is_object o); [|done]. cbv zeta.
  apply ok_seconds, ok_flag, ok_flag, ok_flag, H.
Qed.
Lemma load_cpu_ok o c : config_ok c -> config_ok (load_cpu o c).
Proof.
  intros H. unfold load_cpu. destruct (json_is_object o); [|done]. cbv zeta.
  apply ok_flag, ok_thread_count; [by apply ok_flag|]. apply read_int, H.
Qed.
Lemma load_level_ok o c :
  config_ok c ->
  config_ok (if json_is_integer o then app_config_set_donate_level (i32 (json_integer_value o)) c else c).
Proof. intros H. case_match; [by apply donate_level_ok|done]. Qed.

(** By the outermost operation. *)
Ltac config_step :=
  lazymatch goal with
  | |- config_ok (load_pools _ _) => refine (proj1 (load_pools_ok _ _ _))
  | |- config_ok (if json_is_integer _ then _ else _) => apply load_level_ok
  | |- config_ok (load_cpu _ _) => apply load_cpu_ok
  | |- config_ok (load_autotune _ _) => apply load_autotune_ok
  | |- config_ok (set_thread_count _ _) => apply ok_thread_count; [|apply read_int, co_threads]
  | |- config_ok (set_retries _ _) => apply ok_retries; [|apply read_int, co_retries]
  | |- config_ok (set_reconnect_delay _ _) => apply ok_reconnect_delay; [|apply read_int, co_delay]
  | |- config_ok (set_opencl _ _) => apply ok_opencl; [|apply load_opencl_ok, co_opencl]
  | |- config_ok (set_cuda _ _) => apply ok_cuda; [|apply load_cuda_ok, co_cuda]
  | |- config_ok (set_autosave ?v ?c) => refine (proj1 (ok_flag c v _))
  | |- config_ok (set_stats_interval ?v ?c) => refine (proj1 (proj2 (ok_seconds c v _)))
  | |- config_ok (set_runtime_seconds ?v ?c) => refine (proj1 (ok_seconds c v _))
  end.
Lemma load_config_ok c root required c' :
  config_ok c -> load_config_file c root required = Some c' -> config_ok c'.
Proof.
  intros H. unfold load_config_file. destruct root as [v|]; [|by destruct required; [|intros [= <-]]].
  cbv zeta. intros [= <-]. repeat config_step; exact H.
Qed.
Lemma load_autotune_set o c : pools_set c -> pools_set (load_autotune o c).
Proof. unfold load_autotune. by case_match. Qed.
Lemma load_cpu_set o c : pools_set c -> pools_set (load_cpu o c).
Proof. unfold load_cpu. by case_match. Qed.
Lemma load_level_set o c :
  pools_set c ->
  pools_set (if json_is_integer o then app_config_set_donate_level (i32 (json_integer_value o)) c else c).
Proof. unfold app_config_set_donate_level. by repeat case_match. Qed.
Ltac set_step :=
  lazymatch goal with
  | |- pools_set (if json_is_integer _ then _ else _) => apply load_level_set
  | |- pools_set (load_cpu _ _) => apply load_cpu_set
  | |- pools_set (load_autotune _ _) => apply load_autotune_set
  | |- pools_set (_ _ ?c) => change (pools_set c)
  end.
Lemma load_config_set c root required c' :
  config_ok c -> pools_set c -> load_config_file c root required = Some c' -> pools_set c'.
Proof.
  intros H Hs. unfold load_config_file. destruct root as [v|]; [|by destruct required; [|intros [= <-]]].
  cbv zeta. intros [= <-]. apply load_pools_ok; [repeat config_step; exact H|].
  repeat set_step. exact Hs.
Qed.
End load.

(** The limits [main] sets. *)
Record limits_ok (c : app_config_t) : Prop := {
  lo_threads : if ac_cpu_enabled c then 0 < ac_thread_count c else ac_thread_count c = 0;
  lo_delay : 0 <= ac_reconnect_delay c;
  lo_stats : f64_lt (ac_stats_interval c) (f64_of_Z 0) = false;
  lo_seconds : f64_le (f64_div (f64_of_Z 1) (f64_of_Z 4)) (ac_autotune_seconds c) = true;
}.

(** The checks of [main] pass on a well-formed configuration. *)
Lemma check_config_ok default_threads c :
  is_i32 default_threads -> 0 < default_threads -> config_ok c ->
  exists c', check_config default_threads c = inr c' /\ config_ok c' /\ limits_ok c' /\ (pools_set c -> pools_set c').
Proof.
  intros Hi Hp H. unfold check_config. pose proof (co_count c H) as Hc. destruct (Z.leb_spec (ac_pool_count c) 0); [lia|].
  set (c1 := if ac_cpu_enabled c && _ then _ else c).
  assert (H1 : config_ok c1 /\ (ac_cpu_enabled c1 = true -> 0 < ac_thread_count c1) /\ (pools_set c -> pools_set c1)).
  { subst c1. destruct (ac_cpu_enabled c) eqn:E; cbn [andb]; [|by rewrite E].
    destruct (Z.leb_spec (ac_thread_count c) 0); [split; [by apply ok_thread_count|done]|done]. }
  clearbody c1. destruct H1 as (H1 & Ht1 & Hs1). cbv zeta.
  set (c2 := if negb (ac_cpu_enabled c1) then _ else c1).
  assert (H2 : config_ok c2 /\ (if ac_cpu_enabled c2 then 0 < ac_thread_count c2 else ac_thread_count c2 = 0) /\
    (pools_set c1 -> pools_set c2)).
  { subst c2. destruct (ac_cpu_enabled c1) eqn:E; cbn [negb]; [rewrite E; auto|].
    split; [by apply ok_thread_count|]. split; [cbn; by rewrite E|done]. }
  clearbody c2. destruct H2 as (H2 & Ht2 & Hs2).
  set (c3 := if ac_reconnect_delay c2 <? 0 then _ else c2).
  assert (H3 : config_ok c3 /\ (if ac_cpu_enabled c3 then 0 < ac_thread_count c3 else ac_thread_count c3 = 0) /\
    0 <= ac_reconnect_delay c3 /\ (pools_set c2 -> pools_set c3)).
  { subst c3. destruct (Z.ltb_spec (ac_reconnect_delay c2) 0); [|done].
    split; [by apply ok_reconnect_delay|]. split; [exact Ht2|]. done. }
  clearbody c3. destruct H3 as (H3 & Ht3 & Hd3 & Hs3).
  set (c4 := if f64_lt (ac_stats_interval c3) _ then _ else c3).
  assert (H4 : config_ok c4 /\ (if ac_cpu_enabled c4 then 0 < ac_thread_count c4 else ac_thread_count c4 = 0) /\
    0 <= ac_reconnect_delay c4 /\ f64_lt (ac_stats_interval c4) (f64_of_Z 0) = false /\ (pools_set c3 -> pools_set c4)).
  { subst c4. destruct (f64_lt (ac_stats_interval c3) _) eqn:E; [|done]. split; [by apply ok_seconds|]. done. }
  clearbody c4. destruct H4 as (H4 & Ht4 & Hd4 & Hst4 & Hs4).
  rewrite (co_level c4 H4). cbn [negb]. destruct (f64_le _ (ac_autotune_seconds c4)) eqn:E; cbn [negb].
  - exists c4. split; [done|]. split; [done|]. split; [by split|auto].
  - eexists. split; [done|]. split; [by apply ok_seconds|]. split; [by split|auto].
Qed.

(** * Variant names *)

Ltac by_names := cbn; repeat (apply list.Forall_cons; split; [vm_compute; reflexivity|]); by apply list.Forall_nil.
(** Every variant is read back from the name that is printed for it, whatever the
    fallback. *)
Lemma variant_names_roundtrip fallback :
  (forall v, opencl_backend_ok v -> parse_opencl_backend_variant (Some (opencl_backend_variant_name v)) fallback = v) /\
  (forall v, opencl_kernel_ok v -> parse_opencl_kernel_variant (Some (opencl_kernel_variant_name v)) fallback = v) /\
  (forall v, cuda_kernel_ok v -> parse_cuda_kernel_variant (Some (cuda_kernel_variant_name v)) fallback = v).
Proof.
  assert (Hn : forall (P : Z -> Prop) (n : nat), Forall P (Z.of_nat <$> seq 0 n) ->
    forall v, 0 <= v < Z.of_nat n -> P v).
  { intros P n H v Hv. rewrite list.Forall_forall in H. apply H, list_elem_of_fmap.
    exists (Z.to_nat v). rewrite elem_of_seq. lia. }
  split; [|split].
  - intros v Hv. refine (Hn (fun v => parse_opencl_backend_variant (Some (opencl_backend_variant_name v)) fallback = v) 3%nat _ v _);
      [by_names|exact (conj (proj1 Hv) (proj2 (Z.lt_succ_r v _) (proj2 Hv)))].
  - intros v Hv. refine (Hn (fun v => parse_opencl_kernel_variant (Some (opencl_kernel_variant_name v)) fallback = v) 7%nat _ v _);
      [by_names|exact (conj (proj1 Hv) (proj2 (Z.lt_succ_r v _) (proj2 Hv)))].
  - intros v Hv. refine (Hn (fun v => parse_cuda_kernel_variant (Some (cuda_kernel_variant_name v)) fallback = v) 9%nat _ v _);
      [by_names|exact (conj (proj1 Hv) (proj2 (Z.lt_succ_r v _) (proj2 Hv)))].
Qed.

(** What an OpenCL object says under [kernel] and [backend] never counts: an absent
    last alias resets the setting to automatic.  The same holds of CUDA's [kernel]. *)
Lemma kernel_key_ignored `{J : Jansson} (o : option (json_t J)) oc cc :
  json_is_object o = true -> json_string_value (json_object_get o "kernel_variant") = None ->
  oc_kernel_variant (load_opencl o oc) = MINER_OPENCL_KERNEL_AUTO /\
  cc_kernel_variant (load_cuda o cc) = MINER_CUDA_KERNEL_STANDARD.
Proof.
  intros Ho Hk. unfold load_opencl, load_cuda. rewrite Ho. cbv zeta.
  split; [|cbn; unfold read_keys; cbn; unfold cuda_kernel_value; by rewrite Hk].
  destruct (json_is_array _).
  - apply (for_range_inv (fun _ oc => oc_kernel_variant oc = MINER_OPENCL_KERNEL_AUTO)).
    + cbn. unfold read_keys. cbn. unfold kernel_value. by rewrite Hk.
    + intros i x _ Hx. unfold add_opencl_device. cbv zeta. by case_match.
  - cbn. unfold read_keys. cbn. unfold kernel_value. by rewrite Hk.
Qed.

(** * Concrete instances *)

(** A file in the form of the repository's config.json. *)
Definition jint (z : Z) : tree := GenLeaf (inl (inr z)).
Definition jstr (s : string) : tree := GenLeaf (inl (inl s)).
Definition jtrue : tree := GenNode 4 [].
Definition sample_config : tree :=
  GenNode 1 [entry "autosave" jtrue;
             entry "cpu" (GenNode 1 [entry "enabled" jtrue; entry "threads" (jint 0)]);
             entry "opencl" (GenNode 1 [entry "enabled" jtrue; entry "batch-size" (jint 2097152);
               entry "kernel" (jstr "fixed-npi2");
               entry "devices" (GenNode 0 [GenNode 1 [entry "device" (jint 1); entry "npi" (jint 4)]])]);
             entry "pools" (GenNode 0 [GenNode 1 [entry "url" (jstr "stratum+tcp://a.example:3333"); entry "diff" (jint 1)];
               GenNode 1 [entry "user" (jstr "nobody")];
               GenNode 1 [entry "url" (jstr "stratum+tcp://b.example:3333"); entry "user" (jstr "me")]]);
             entry "retry-pause" (jint (-5)); entry "donate-level" (jint 0)].
Definition sample_loaded : app_config_t :=
  default app_config_set_defaults
    (load_config_file (J := ref_jansson) app_config_set_defaults (Some sample_config) true).

Example sample_pools : take 2 (ac_pools sample_loaded) =
  [PoolConfig "stratum+tcp://a.example:3333" DEFAULT_USER "x" (f64_of_Z 1);
   PoolConfig "stratum+tcp://b.example:3333" "me" "x" DEFAULT_SUGGEST_DIFFICULTY].
Proof. vm_compute. reflexivity. Qed.
(** The device inherits the batch size, and the kernel that was asked for is lost. *)
Example sample_device :
  oc_device_count (ac_opencl sample_loaded) = 1 /\
  oc_devices (ac_opencl sample_loaded) !! 0%nat = Some (OpenclDevice 0 1 2097152 0 4 256 0 MINER_OPENCL_KERNEL_AUTO).
Proof. by vm_compute. Qed.
