(* ===== verification/Startup.v ===== *)
(** The start of the mining client: the command line of src/src/stratum_main.c and what
    [main] does up to the first session, from the defaults through the
    configuration file and the options to the checks.

    [strtod] of the C library is an argument: the value, the characters left, and
    whether it set errno.  What the self tests return is an argument too. *)
From stdpp Require Import countable base tactics list option strings.
From Stdlib Require Import ZArith Lia Ascii SpecFloat.
From S2P Require Import Prelude Words Fips Sha256d Float64 Hex Target Job Miner Json Stratum CpuInfo FrontEnd AppConfig Scan Simd X86ShaNi ArmSha2 Backends.

#[local] Open Scope Z_scope.

(** * Numbers on the command line *)

Definition LONG_MAX : Z := 2 ^ 63 - 1.
Definition LONG_MIN : Z := - 2 ^ 63.
Definition ULONG_MAX : Z := 2 ^ 64 - 1.

(** The sign, the digits and what follows them, of a number in base 10; [None] when
    there is no digit. *)
Fixpoint span_digits (acc : Z) (l : list ascii) : Z * list ascii :=
  match l with
  | c :: l' => if isdigit c then span_digits (acc * 10 + (code c - code "0")) l' else (acc, l)
  | [] => (acc, [])
  end.
Definition scan_number (l : list ascii) : option (bool * Z * list ascii) :=
  let l := skip_spaces l in
  let '(negative, l) :=
    match l with
    | c :: l' => if Ascii.eqb c "-" then (true, l') else if Ascii.eqb c "+" then (false, l') else (false, l)
    | [] => (false, [])
    end in
  match l with
  | c :: _ => if isdigit c then Some (negative, span_digits 0 l) else None
  | [] => None
  end ≫= fun '(negative, (v, rest)) => Some (negative, v, rest).

(** [errno = 0; value = strtol(text, &end, 10)] and the tests on the result. *)
Definition parse_int_option (text : string) (min_value max_value : Z) : option Z :=
  match scan_number (chars text) with
  | Some (negative, v, []) =>
      let value := if negative : bool then - v else v in
      if (value <? LONG_MIN) || (LONG_MAX <? value) then None
      else if (value <? min_value) || (max_value <? value) then None
      else Some (i32 value)
  | _ => None
  end.

(** [strtoul] takes a minus sign too, and negates in its type. *)
Definition parse_u32_option (text : string) (min_value max_value : Z) : option Z :=
  match chars text with
  | "-"%char :: _ => None
  | l =>
      match scan_number l with
      | Some (negative, v, []) =>
          if ULONG_MAX <? v then None
          else
            let value := if negative : bool then u64 (- v) else v in
            if (value <? min_value) || (max_value <? value) then None else Some (u32 value)
      | _ => None
      end
  end.

Definition f64_isfinite (x : double) : bool :=
  match x with S754_zero _ | S754_finite _ _ _ => true | _ => false end.

(** * Assignments *)

Definition set_pool0 (f : pool_config_t -> pool_config_t) (c : app_config_t) : app_config_t :=
  set_pools (alter f 0%nat (ac_pools c)) c.
Definition set_oc_enabled (v : bool) (x : miner_opencl_config_t) : miner_opencl_config_t :=
  OpenclConfig v (oc_all_devices x) (oc_platform x) (oc_device x) (oc_batch_size x)
    (oc_local_work_size x) (oc_nonces_per_work_item x) (oc_max_results x) (oc_backend_variant x)
    (oc_kernel_variant x) (oc_device_count x) (oc_devices x).
Definition set_oc_all_devices (v : bool) (x : miner_opencl_config_t) : miner_opencl_config_t :=
  OpenclConfig (oc_enabled x) v (oc_platform x) (oc_device x) (oc_batch_size x) (oc_local_work_size
    x) (oc_nonces_per_work_item x) (oc_max_results x) (oc_backend_variant x) (oc_kernel_variant x)
    (oc_device_count x) (oc_devices x).
Definition set_oc_platform (v : Z) (x : miner_opencl_config_t) : miner_opencl_config_t :=
  OpenclConfig (oc_enabled x) (oc_all_devices x) v (oc_device x) (oc_batch_size x)
    (oc_local_work_size x) (oc_nonces_per_work_item x) (oc_max_results x) (oc_backend_variant x)
    (oc_kernel_variant x) (oc_device_count x) (oc_devices x).
Definition set_oc_device (v : Z) (x : miner_opencl_config_t) : miner_opencl_config_t :=
  OpenclConfig (oc_enabled x) (oc_all_devices x) (oc_platform x) v (oc_batch_size x)
    (oc_local_work_size x) (oc_nonces_per_work_item x) (oc_max_results x) (oc_backend_variant x)
    (oc_kernel_variant x) (oc_device_count x) (oc_devices x).
Definition set_oc_batch_size (v : Z) (x : miner_opencl_config_t) : miner_opencl_config_t :=
  OpenclConfig (oc_enabled x) (oc_all_devices x) (oc_platform x) (oc_device x) v (oc_local_work_size
    x) (oc_nonces_per_work_item x) (oc_max_results x) (oc_backend_variant x) (oc_kernel_variant x)
    (oc_device_count x) (oc_devices x).
Definition set_oc_local_work_size (v : Z) (x : miner_opencl_config_t) : miner_opencl_config_t :=
  OpenclConfig (oc_enabled x) (oc_all_devices x) (oc_platform x) (oc_device x) (oc_batch_size x) v
    (oc_nonces_per_work_item x) (oc_max_results x) (oc_backend_variant x) (oc_kernel_variant x)
    (oc_device_count x) (oc_devices x).
Definition set_oc_nonces_per_work_item (v : Z) (x : miner_opencl_config_t) : miner_opencl_config_t :=
  OpenclConfig (oc_enabled x) (oc_all_devices x) (oc_platform x) (oc_device x) (oc_batch_size x)
    (oc_local_work_size x) v (oc_max_results x) (oc_backend_variant x) (oc_kernel_variant x)
    (oc_device_count x) (oc_devices x).
Definition set_oc_backend_variant (v : Z) (x : miner_opencl_config_t) : miner_opencl_config_t :=
  OpenclConfig (oc_enabled x) (oc_all_devices x) (oc_platform x) (oc_device x) (oc_batch_size x)
    (oc_local_work_size x) (oc_nonces_per_work_item x) (oc_max_results x) v (oc_kernel_variant x)
    (oc_device_count x) (oc_devices x).
Definition set_oc_kernel_variant (v : Z) (x : miner_opencl_config_t) : miner_opencl_config_t :=
  OpenclConfig (oc_enabled x) (oc_all_devices x) (oc_platform x) (oc_device x) (oc_batch_size x)
    (oc_local_work_size x) (oc_nonces_per_work_item x) (oc_max_results x) (oc_backend_variant x) v
    (oc_device_count x) (oc_devices x).
Definition set_oc_device_count (v : Z) (x : miner_opencl_config_t) : miner_opencl_config_t :=
  OpenclConfig (oc_enabled x) (oc_all_devices x) (oc_platform x) (oc_device x) (oc_batch_size x)
    (oc_local_work_size x) (oc_nonces_per_work_item x) (oc_max_results x) (oc_backend_variant x)
    (oc_kernel_variant x) v (oc_devices x).
Definition set_cc_enabled (v : bool) (x : miner_cuda_config_t) : miner_cuda_config_t :=
  CudaConfig v (cc_device x) (cc_batch_size x) (cc_threads_per_block x) (cc_nonces_per_thread x)
    (cc_max_results x) (cc_kernel_variant x).
Definition set_cc_device (v : Z) (x : miner_cuda_config_t) : miner_cuda_config_t :=
  CudaConfig (cc_enabled x) v (cc_batch_size x) (cc_threads_per_block x) (cc_nonces_per_thread x)
    (cc_max_results x) (cc_kernel_variant x).
Definition set_cc_batch_size (v : Z) (x : miner_cuda_config_t) : miner_cuda_config_t :=
  CudaConfig (cc_enabled x) (cc_device x) v (cc_threads_per_block x) (cc_nonces_per_thread x)
    (cc_max_results x) (cc_kernel_variant x).
Definition set_cc_threads_per_block (v : Z) (x : miner_cuda_config_t) : miner_cuda_config_t :=
  CudaConfig (cc_enabled x) (cc_device x) (cc_batch_size x) v (cc_nonces_per_thread x)
    (cc_max_results x) (cc_kernel_variant x).
Definition set_cc_nonces_per_thread (v : Z) (x : miner_cuda_config_t) : miner_cuda_config_t :=
  CudaConfig (cc_enabled x) (cc_device x) (cc_batch_size x) (cc_threads_per_block x) v
    (cc_max_results x) (cc_kernel_variant x).
Definition set_cc_kernel_variant (v : Z) (x : miner_cuda_config_t) : miner_cuda_config_t :=
  CudaConfig (cc_enabled x) (cc_device x) (cc_batch_size x) (cc_threads_per_block x)
    (cc_nonces_per_thread x) (cc_max_results x) v.

(** * The options *)

(** The configuration and the local flags of [main]. *)
Record args_t := Args {
  a_config : app_config_t;
  a_opencl_self_test : bool; a_cuda_self_test : bool;
  a_worker_override : bool; a_force_autotune : bool;
}.
Definition on_config (f : app_config_t -> app_config_t) (s : args_t) : args_t :=
  Args (f (a_config s)) (a_opencl_self_test s) (a_cuda_self_test s) (a_worker_override s) (a_force_autotune s).
Definition override (s : args_t) : args_t :=
  Args (a_config s) (a_opencl_self_test s) (a_cuda_self_test s) true (a_force_autotune s).
Definition on_opencl (f : miner_opencl_config_t -> miner_opencl_config_t) : args_t -> args_t :=
  on_config (fun c => set_opencl (f (ac_opencl c)) c).
Definition on_cuda (f : miner_cuda_config_t -> miner_cuda_config_t) : args_t -> args_t :=
  on_config (fun c => set_cuda (f (ac_cuda c)) c).
Definition one_device (oc : miner_opencl_config_t) : miner_opencl_config_t :=
  set_oc_device_count 0 (set_oc_all_devices false oc).

(** An invalid value ends the program with 2. *)
Definition assign {A} (value : option A) (f : A -> args_t) : Z + args_t :=
  match value with None => inl 2 | Some v => inr (f v) end.
Definition known (variant : Z) : option Z := if variant <? 0 then None else Some variant.

Definition is_opt (opt : string) (names : list string) : bool := existsb (String.eqb opt) names.

Section args.
Context (strtod : list ascii -> double * list ascii * bool) (self_test_rc : Z).

Definition parse_double_option (text : string) (min_value : double) : option double :=
  let '(value, rest, range_error) := strtod (chars text) in
  if (range_error : bool) || bool_decide (rest = chars text) || negb (bool_decide (rest = [])) ||
     negb (f64_isfinite value) || f64_lt value min_value
  then None else Some value.

(** The options with a value; [None] for any other. *)
Definition value_arg (opt v : string) (s : args_t) : option (Z + args_t) :=
  let zero := f64_of_Z 0 in
  if is_opt opt ["-c"; "--config"] then Some (inr s)
  else if is_opt opt ["-o"; "--url"] then
    Some (inr (on_config (fun c =>
      let c := set_pool0 (fun p => PoolConfig (copy_string 256 (Some v)) (pl_user p) (pl_pass p) (pl_difficulty p)) c in
      if ac_pool_count c <=? 0 then set_pool_count 1 c else c) s))
  else if is_opt opt ["-u"; "--user"] then
    Some (inr (on_config (set_pool0 (fun p =>
      PoolConfig (pl_url p) (copy_string 256 (Some v)) (pl_pass p) (pl_difficulty p))) s))
  else if is_opt opt ["-p"; "--pass"] then
    Some (inr (on_config (set_pool0 (fun p =>
      PoolConfig (pl_url p) (pl_user p) (copy_string 128 (Some v)) (pl_difficulty p))) s))
  else if is_opt opt ["-d"; "--suggest-diff"] then
    Some (assign (parse_double_option v zero) (fun d => on_config (set_pool0 (fun p =>
      PoolConfig (pl_url p) (pl_user p) (pl_pass p) d)) s))
  else if is_opt opt ["-r"; "--retries"] then
    Some (assign (parse_int_option v (-1) INT_MAX) (fun n => on_config (set_retries n) s))
  else if is_opt opt ["-t"; "--threads"] then
    Some (assign (parse_int_option v 0 1024) (fun n =>
      override (on_config (fun c => set_cpu_enabled true (set_thread_count n c)) s)))
  else if is_opt opt ["--runtime"] then
    Some (assign (parse_double_option v zero) (fun d => on_config (set_runtime_seconds d) s))
  else if is_opt opt ["--stats"] then
    Some (assign (parse_double_option v zero) (fun d => on_config (set_stats_interval d) s))
  else if is_opt opt ["--reconnect-delay"] then
    Some (assign (parse_int_option v 0 INT_MAX) (fun n => on_config (set_reconnect_delay n) s))
  else if is_opt opt ["--donate-level"] then
    Some (assign (parse_int_option v 0 99) (fun n => on_config (app_config_set_donate_level n) s))
  else if is_opt opt ["--opencl-platform"] then
    Some (assign (parse_int_option v 0 INT_MAX) (fun n =>
      override (on_opencl (fun oc => one_device (set_oc_platform n oc)) s)))
  else if is_opt opt ["--opencl-device"] then
    Some (assign (parse_int_option v 0 INT_MAX) (fun n =>
      override (on_opencl (fun oc => one_device (set_oc_device n oc)) s)))
  else if is_opt opt ["--opencl-batch"] then
    Some (assign (parse_u32_option v 0 UINT32_MAX) (fun n => override (on_opencl (set_oc_batch_size n) s)))
  else if is_opt opt ["--opencl-local"] then
    Some (assign (parse_u32_option v 0 UINT32_MAX) (fun n => override (on_opencl (set_oc_local_work_size n) s)))
  else if is_opt opt ["--opencl-npi"; "--opencl-nonces-per-work-item"] then
    Some (assign (parse_u32_option v 0 UINT32_MAX) (fun n => override (on_opencl (set_oc_nonces_per_work_item n) s)))
  else if is_opt opt ["--opencl-backend"] then
    Some (assign (known (parse_opencl_backend_variant (Some v) (-1))) (fun n =>
      override (on_opencl (set_oc_backend_variant n) s)))
  else if is_opt opt ["--opencl-kernel"] then
    Some (assign (known (parse_opencl_kernel_variant (Some v) (-1))) (fun n =>
      override (on_opencl (set_oc_kernel_variant n) s)))
  else if is_opt opt ["--cuda-device"] then
    Some (assign (parse_int_option v 0 INT_MAX) (fun n => override (on_cuda (set_cc_device n) s)))
  else if is_opt opt ["--cuda-batch"] then
    Some (assign (parse_u32_option v 0 UINT32_MAX) (fun n => override (on_cuda (set_cc_batch_size n) s)))
  else if is_opt opt ["--cuda-block"] then
    Some (assign (parse_u32_option v 0 UINT32_MAX) (fun n => override (on_cuda (set_cc_threads_per_block n) s)))
  else if is_opt opt ["--cuda-npt"] then
    Some (assign (parse_u32_option v 0 UINT32_MAX) (fun n => override (on_cuda (set_cc_nonces_per_thread n) s)))
  else if is_opt opt ["--cuda-kernel"] then
    Some (assign (known (parse_cuda_kernel_variant (Some v) (-1))) (fun n =>
      override (on_cuda (set_cc_kernel_variant n) s)))
  else if is_opt opt ["--autotune-seconds"] then
    Some (assign (parse_double_option v zero) (fun d => on_config (set_autotune_seconds d) s))
  else None.

(** The options without a value; any other is a usage error. *)
Definition flag_arg (opt : string) (s : args_t) : Z + args_t :=
  if is_opt opt ["--self-test"] then inl self_test_rc
  else if is_opt opt ["--version"; "--cpu-info"] then inl 0
  else if is_opt opt ["--no-mine"] then inr (on_config (set_enable_mining false) s)
  else if is_opt opt ["--no-cpu"] then inr (override (on_config (set_cpu_enabled false) s))
  else if is_opt opt ["--cpu-affinity"] then inr (override (on_config (set_cpu_affinity true) s))
  else if is_opt opt ["--no-cpu-affinity"] then inr (override (on_config (set_cpu_affinity false) s))
  else if is_opt opt ["--opencl"] then inr (override (on_opencl (set_oc_enabled true) s))
  else if is_opt opt ["--opencl-all"] then
    inr (override (on_opencl (fun oc =>
      set_oc_device_count 0 (set_oc_all_devices true (set_oc_enabled true oc))) s))
  else if is_opt opt ["--opencl-self-test"] then
    let s := on_opencl (set_oc_enabled true) s in
    inr (Args (a_config s) true (a_cuda_self_test s) (a_worker_override s) (a_force_autotune s))
  else if is_opt opt ["--cuda"] then inr (override (on_cuda (set_cc_enabled true) s))
  else if is_opt opt ["--cuda-self-test"] then
    let s := on_cuda (set_cc_enabled true) s in
    inr (Args (a_config s) (a_opencl_self_test s) true (a_worker_override s) (a_force_autotune s))
  else if is_opt opt ["--autotune"] then
    let s := on_config (fun c =>
      set_gpu_autotune_done false (set_cpu_autotune_done false (set_autotune_enabled true c))) s in
    inr (Args (a_config s) (a_opencl_self_test s) (a_cuda_self_test s) (a_worker_override s) true)
  else if is_opt opt ["--no-autotune"] then inr (on_config (set_autotune_enabled false) s)
  else if is_opt opt ["-h"; "--help"] then inl 0
  else inl 2.

Fixpoint parse_args (args : list string) (s : args_t) : Z + args_t :=
  match args with
  | [] => inr s
  | opt :: args =>
      let alone := match flag_arg opt s with inr s => parse_args args s | inl rc => inl rc end in
      match args with
      | [] => alone
      | v :: args =>
          match value_arg opt v s with
          | Some (inr s) => parse_args args s
          | Some (inl rc) => inl rc
          | None => alone
          end
      end
  end.

(** Commands that are carried out before anything else. *)
Fixpoint handle_early_command (args : list string) : option Z :=
  match args with
  | [] => None
  | a :: args =>
      if is_opt a ["--self-test"] then Some self_test_rc
      else if is_opt a ["--version"; "--cpu-info"; "-h"; "--help"] then Some 0
      else handle_early_command args
  end.

Fixpoint find_config_arg (args : list string) : option string :=
  match args with
  | [] => None
  | a :: args =>
      match args with
      | path :: _ => if is_opt a ["-c"; "--config"] then Some path else find_config_arg args
      | [] => None
      end
  end.
End args.

(** * Up to the first session *)

(** [text] is the environment variable BTC_MINER_SHA_BACKEND; the selected backend is
    passed and returned. *)
Definition configure_sha_backend_from_env (c : cpu) (g_backend : sha256d_backend_t) (text : option string)
  : Z * sha256d_backend_t :=
  let automatic := sha256d_set_backend c g_backend (sha256d_auto_backend c) in
  match text with
  | None => automatic
  | Some text =>
      if is_opt text [""; "auto"] then automatic
      else
        match sha256d_parse_backend (Some text) with
        | None => (-1, g_backend)
        | Some backend =>
            let '(rc, g_backend) := sha256d_set_backend c g_backend backend in
            (if negb (rc =? 0) then -1 else 0, g_backend)
        end
  end.

(** The world at the start: the processor's features and topology, the environment
    variable, which files can be read and what they parse to. *)
Record start_env (J : Jansson) := StartEnv {
  se_cpu : cpu; se_backend : option string;
  se_readable : string -> bool; se_load : string -> option (json_t J);
  se_strtod : list ascii -> double * list ascii * bool;
  se_self_test_rc : Z; se_opencl_self_test_rc : Z; se_cuda_self_test_rc : Z;
  se_sysfs : files; se_online : Z; se_cpu_dir : option (list (list ascii));
}.
Arguments se_cpu {J}. Arguments se_backend {J}. Arguments se_readable {J}. Arguments se_load {J}.
Arguments se_strtod {J}. Arguments se_self_test_rc {J}. Arguments se_opencl_self_test_rc {J}.
Arguments se_cuda_self_test_rc {J}. Arguments se_sysfs {J}. Arguments se_online {J}. Arguments se_cpu_dir {J}.

Section setup.
Context `{J : Jansson} `{Q : QSort} (e : start_env J).

(** The configuration file, and whether the command line asks for it. *)
Definition config_path (args : list string) : option string * bool :=
  match find_config_arg args with
  | Some path => (Some path, true)
  | None => (if se_readable e "config.json" then Some "config.json"%string else None, false)
  end.

(** [main] until autotuning: the exit code, or the configuration and whether it is
    autotuned. *)
Definition client_setup (args : list string) : Z + (app_config_t * bool) :=
  if negb (fst (configure_sha_backend_from_env (se_cpu e) g_backend_initial (se_backend e)) =? 0) then inl 2
  else
    let early_rc := default (-1) (handle_early_command (se_self_test_rc e) args) in
    if 0 <=? early_rc then inl early_rc
    else
      let '(path, required) := config_path args in
      match (match path with
             | Some path => load_config_file app_config_set_defaults (se_load e path) required
             | None => Some app_config_set_defaults
             end) with
      | None => inl 1
      | Some c =>
          match parse_args (se_strtod e) (se_self_test_rc e) args (Args c false false false false) with
          | inl rc => inl rc
          | inr s =>
              if a_opencl_self_test s then inl (se_opencl_self_test_rc e)
              else if a_cuda_self_test s then inl (se_cuda_self_test_rc e)
              else
                match check_config (cpu_info_recommended_threads (se_sysfs e) (se_online e) (se_cpu_dir e))
                        (a_config s) with
                | inl rc => inl rc
                | inr c => inr (c, runs_autotune (a_worker_override s) (a_force_autotune s) c)
                end
          end
      end.
End setup.

(** * The options keep the configuration well formed *)

Lemma parse_int_i32 text lo hi v : parse_int_option text lo hi = Some v -> is_i32 v.
Proof.
  unfold parse_int_option. destruct (scan_number _) as [[[n z] [|]]|]; try done. cbv zeta.
  generalize (if n then - z else z). intros value H. destruct (_ || _); [done|]. destruct (_ || _); [done|].
  apply (inj Some) in H as <-. apply i32_range.
Qed.
Lemma parse_u32_u32 text lo hi v : parse_u32_option text lo hi = Some v -> is_u32 v.
Proof.
  unfold parse_u32_option. intros H. repeat case_match; try done; injection H as <-; apply u32_range.
Qed.

Lemma known_ok (P : Z -> Prop) dflt table text v :
  P dflt -> Forall (fun x => P (snd x)) table -> known (parse_variant dflt table text (-1)) = Some v -> P v.
Proof.
  intros Hd Ht. pose proof (parse_variant_inv (fun x => x = -1 \/ P x) dflt table text (-1) (or_intror Hd)) as H.
  specialize (H ltac:(eapply Forall_impl; [exact Ht|]; auto) (or_introl eq_refl)).
  unfold known. destruct (Z.ltb_spec (parse_variant dflt table text (-1)) 0); [done|].
  intros E. apply (inj Some) in E as <-. destruct H as [H|H]; [lia|done].
Qed.

Lemma assign_inv {A} (value : option A) f s : assign value f = inr s -> exists v, value = Some v /\ s = f v.
Proof. destruct value; [|done]. intros [= <-]. eauto. Qed.

Definition pool_options : list string := ["-o"; "--url"; "-u"; "--user"; "-p"; "--pass"].

(** What an option must not change. *)
Definition keeps (opt : string) (s s' : args_t) : Prop :=
  config_ok (a_config s) -> config_ok (a_config s') /\
  (opt ∉ pool_options -> pools_set (a_config s) -> pools_set (a_config s')).

(** Updates that leave the pools alone. *)
Lemma keeps_same opt s s' :
  (config_ok (a_config s) -> config_ok (a_config s')) ->
  ac_pools (a_config s') = ac_pools (a_config s) -> ac_pool_count (a_config s') = ac_pool_count (a_config s) ->
  keeps opt s s'.
Proof. intros Hc Hp Hn H. split; [auto|]. intros _. unfold pools_set. by rewrite Hp, Hn. Qed.

Lemma donate_same n c :
  ac_pools (app_config_set_donate_level n c) = ac_pools c /\
  ac_pool_count (app_config_set_donate_level n c) = ac_pool_count c.
Proof. unfold app_config_set_donate_level. by case_match. Qed.

Lemma set_pool0_ok f c : (forall p, pool_ok p -> pool_ok (f p)) -> config_ok c -> config_ok (set_pool0 f c).
Proof.
  intros Hf [Hl Hp]. split; try done; cbn; [by rewrite length_alter|].
  destruct (ac_pools c); [done|]. apply list.Forall_cons in Hp as [Hp Hps]. constructor; auto.
Qed.
(** Only the difficulty of the first pool. *)
Lemma set_difficulty_set d c :
  pools_set c -> pools_set (set_pool0 (fun p => PoolConfig (pl_url p) (pl_user p) (pl_pass p) d) c).
Proof.
  unfold pools_set. cbn. destruct (Z.to_nat (ac_pool_count c)) as [|n], (ac_pools c) as [|p ps]; try done.
  cbn. intros H. apply list.Forall_cons in H as [Hp Hps]. by constructor.
Qed.

Create HintDb options.
#[local] Hint Resolve ok_retries ok_reconnect_delay ok_thread_count ok_opencl ok_cuda donate_level_ok
  parse_int_i32 parse_u32_u32 co_opencl co_cuda : options.

Lemma variants_known v :
  (forall n, known (parse_opencl_backend_variant v (-1)) = Some n -> opencl_backend_ok n) /\
  (forall n, known (parse_opencl_kernel_variant v (-1)) = Some n -> opencl_kernel_ok n) /\
  (forall n, known (parse_cuda_kernel_variant v (-1)) = Some n -> cuda_kernel_ok n).
Proof.
  split; [|split]; intros n; refine (known_ok _ _ _ v n _ _); try (by split);
    repeat (apply list.Forall_cons; split; [by split|]); by apply list.Forall_nil.
Qed.


#[local] Arguments parse_variant : simpl never.
#[local] Opaque parse_opencl_backend_variant parse_opencl_kernel_variant parse_cuda_kernel_variant.

Section keeps.
Context (strtod : list ascii -> double * list ascii * bool) (self_test_rc : Z).

(** The settings of a device type after an assignment to one of them. *)
Ltac by_settings Hok :=
  first [refine (ok_opencl _ _ Hok _); destruct (co_opencl _ Hok); split; try assumption; by eauto with options
        |refine (ok_cuda _ _ Hok _); destruct (co_cuda _ Hok); split; try assumption; by eauto with options].
(** An option that leaves the pools alone. *)
Ltac by_field :=
  intros E; apply (inj Some) in E; apply assign_inv in E as (x & Hx & ->);
  apply keeps_same; [intros Hok|done|done].

Lemma device_count_ok : 0 <= 0 <= Z.of_nat MINER_OPENCL_MAX_DEVICES.
Proof. done. Qed.
#[local] Hint Resolve device_count_ok : options.
Lemma backend_known v n : known (parse_opencl_backend_variant v (-1)) = Some n -> opencl_backend_ok n.
Proof. exact (proj1 (variants_known v) n). Qed.
Lemma kernel_known v n : known (parse_opencl_kernel_variant v (-1)) = Some n -> opencl_kernel_ok n.
Proof. exact (proj1 (proj2 (variants_known v)) n). Qed.
Lemma cuda_known v n : known (parse_cuda_kernel_variant v (-1)) = Some n -> cuda_kernel_ok n.
Proof. exact (proj2 (proj2 (variants_known v)) n). Qed.
#[local] Hint Resolve backend_known kernel_known cuda_known : options.

Lemma is_opt_pool opt names : is_opt opt names = true -> names ⊆ pool_options -> opt ∈ pool_options.
Proof.
  unfold is_opt. intros H Hn. apply existsb_exists in H as (x & Hx & He). apply String.eqb_eq in He as <-.
  apply Hn. by apply list_elem_of_In.
Qed.
(** An option that sets the address or the identity at the first pool. *)
Lemma keeps_pool0 opt names f s :
  is_opt opt names = true -> names ⊆ pool_options -> (forall p, pool_ok p -> pool_ok (f p)) ->
  keeps opt s (on_config (set_pool0 f) s).
Proof.
  intros Ho Hn Hf Hc. split; [by apply set_pool0_ok|]. intros Hp. destruct Hp. by eapply is_opt_pool.
Qed.

Lemma value_arg_keeps opt v s s' : value_arg strtod opt v s = Some (inr s') -> keeps opt s s'.
Proof.
  unfold value_arg. cbv zeta.
  destruct (is_opt opt ["-c"; "--config"]); [intros [= <-]; by apply keeps_same|].
  destruct (is_opt opt ["-o"; "--url"]) eqn:Eo.
  { intros E. apply (inj Some), (inj inr) in E as <-. intros Hc.
    destruct (keeps_pool0 opt ["-o"; "--url"]%string
      (fun p => PoolConfig (copy_string 256 (Some v)) (pl_user p) (pl_pass p) (pl_difficulty p)) s Eo) as [H1 H2];
      [by apply (bool_decide_unpack _); vm_compute|by intros p []; split; try done; apply copy_string_fits; lia|done|].
    cbn [a_config on_config] in *. pose proof (co_count _ H1) as Hn.
    rewrite (proj2 (Z.leb_gt _ 0)) by lia. by split. }
  destruct (is_opt opt ["-u"; "--user"]) eqn:Eu.
  { intros E. apply (inj Some), (inj inr) in E as <-. apply (keeps_pool0 opt _ _ s Eu).
    - by apply (bool_decide_unpack _); vm_compute.
    - intros p []; split; try done; apply copy_string_fits; lia. }
  destruct (is_opt opt ["-p"; "--pass"]) eqn:Ep.
  { intros E. apply (inj Some), (inj inr) in E as <-. apply (keeps_pool0 opt _ _ s Ep).
    - by apply (bool_decide_unpack _); vm_compute.
    - intros p []; split; try done; apply copy_string_fits; lia. }
  destruct (is_opt opt ["-d"; "--suggest-diff"]).
  { intros E. apply (inj Some) in E. apply assign_inv in E as (d & _ & ->). intros Hc.
    split; [apply set_pool0_ok; [by intros p []|done]|]. intros _. apply set_difficulty_set. }
  destruct (is_opt opt ["-r"; _]); [by_field; refine (ok_retries _ _ Hok _); by eapply parse_int_i32|].
  destruct (is_opt opt ["-t"; _]).
  { by_field. apply (ok_flag _ true). apply (ok_thread_count _ _ Hok). by eapply parse_int_i32. }
  destruct (is_opt opt ["--runtime"]); [by_field; by apply ok_seconds|].
  destruct (is_opt opt ["--stats"]); [by_field; by apply ok_seconds|].
  destruct (is_opt opt ["--reconnect-delay"]);
    [by_field; refine (ok_reconnect_delay _ _ Hok _); by eapply parse_int_i32|].
  destruct (is_opt opt ["--donate-level"]).
  { intros E. apply (inj Some) in E. apply assign_inv in E as (x & Hx & ->).
    apply keeps_same; [by apply donate_level_ok|apply donate_same..]. }
  do 12 (match goal with |- (if is_opt opt ?names then _ else _) = _ -> _ => destruct (is_opt opt names) end;
    [by_field; by_settings Hok|]).
  destruct (is_opt opt ["--autotune-seconds"]); [by_field; by apply ok_seconds|done].
Qed.

Lemma flag_arg_keeps opt s s' : flag_arg self_test_rc opt s = inr s' -> keeps opt s s'.
Proof.
  unfold flag_arg. cbv zeta.
  repeat (match goal with |- (if is_opt opt ?names then _ else _) = _ -> _ => destruct (is_opt opt names) end;
    [intros E; first [discriminate E
       |apply (inj inr) in E as <-; apply keeps_same; [intros Hok|reflexivity|reflexivity];
        first [exact Hok | by_settings Hok | by (destruct Hok; split)]]|]).
  done.
Qed.

Lemma parse_args_keeps args s s' :
  parse_args strtod self_test_rc args s = inr s' -> config_ok (a_config s) ->
  config_ok (a_config s') /\
  (Forall (fun a => a ∉ pool_options) args -> pools_set (a_config s) -> pools_set (a_config s')).
Proof.
  assert (Hgen : forall n args s s', (length args <= n)%nat ->
    parse_args strtod self_test_rc args s = inr s' -> config_ok (a_config s) ->
    config_ok (a_config s') /\
    (Forall (fun a => a ∉ pool_options) args -> pools_set (a_config s) -> pools_set (a_config s'))).
  { clear args s s'. induction n as [|n IH]; intros [|opt args] s s' Hl; cbn [parse_args length] in *; try lia;
      [by intros [= <-]|by intros [= <-]|].
    assert (Halone : match flag_arg self_test_rc opt s with
                     | inl rc => inl rc | inr s => parse_args strtod self_test_rc args s end = inr s' ->
      config_ok (a_config s) -> config_ok (a_config s') /\
      (Forall (fun a => a ∉ pool_options) (opt :: args) -> pools_set (a_config s) -> pools_set (a_config s'))).
    { destruct (flag_arg self_test_rc opt s) as [rc|s1] eqn:E; [done|]. intros H Hc.
      destruct (flag_arg_keeps _ _ _ E Hc) as [Hc1 Hs1]. destruct (IH args s1 s' ltac:(lia) H Hc1) as [Hc2 Hs2].
      split; [done|]. intros Hargs Hs. apply list.Forall_cons in Hargs as [Ho Hargs]. auto. }
    destruct args as [|v args]; [exact Halone|].
    destruct (value_arg strtod opt v s) as [[rc|s1]|] eqn:E; [done| |exact Halone]. intros H Hc.
    destruct (value_arg_keeps _ _ _ _ E Hc) as [Hc1 Hs1].
    destruct (IH args s1 s' ltac:(cbn in Hl; lia) H Hc1) as [Hc2 Hs2].
    split; [done|]. intros Hargs Hs. apply list.Forall_cons in Hargs as [Ho Hargs].
    apply list.Forall_cons in Hargs as [_ Hargs]. auto. }
  by apply (Hgen (length args)).
Qed.
End keeps.

(** * The property *)

Lemma client_setup_ok `{J : Jansson} `{Q : QSort} `{!QSortLaws Q} (e : start_env J) args :
  match client_setup e args with
  | inr (c, _) =>
      config_ok c /\ limits_ok c /\ (Forall (fun a => a ∉ pool_options) args -> pools_set c)
  | inl rc =>
      args <> [] \/
      rc = 2 /\ fst (configure_sha_backend_from_env (se_cpu e) g_backend_initial (se_backend e)) <> 0
  end.
Proof.
  unfold client_setup. destruct (Z.eqb_spec (fst (configure_sha_backend_from_env (se_cpu e) g_backend_initial
    (se_backend e))) 0) as [_|Hb]; cbn [negb]; [|by right].
  cbv zeta. destruct (Z.leb_spec 0 (default (-1) (handle_early_command (se_self_test_rc e) args))) as [He|_].
  { left. by intros ->. }
  destruct (config_path e args) as [path required] eqn:Epath.
  assert (Hreq : args = [] -> required = false) by (intros ->; unfold config_path in Epath; by injection Epath as _ <-). clear Epath.
  destruct (match path with Some p => _ | None => _ end) as [c|] eqn:Eload.
  2:{ left. intros ->. rewrite Hreq in Eload by done. destruct path as [path|]; [|done].
      unfold load_config_file in Eload. by destruct (se_load e path). }
  assert (Hc : config_ok c /\ pools_set c).
  { destruct path as [path|]; [|injection Eload as <-; by split; [apply defaults_ok|apply defaults_set]].
    split; [by eapply load_config_ok; [apply defaults_ok|]|].
    by eapply load_config_set; [apply defaults_ok|apply defaults_set|]. }
  clear Eload. destruct Hc as [Hc Hset].
  destruct (parse_args _ _ args _) as [rc|s] eqn:Eargs; [left; by intros ->|].
  apply parse_args_keeps in Eargs as Hargs; [|exact Hc]. destruct Hargs as [Hs Hp].
  assert (Htests : args = [] -> a_opencl_self_test s = false /\ a_cuda_self_test s = false).
  { intros ->. by injection Eargs as <-. }
  destruct (a_opencl_self_test s); [left; intros Ha; by destruct (Htests Ha)|].
  destruct (a_cuda_self_test s); [left; intros Ha; by destruct (Htests Ha)|].
  pose proof (recommended_threads_range (se_sysfs e) (se_online e) (se_cpu_dir e)) as Hn.
  destruct (check_config_ok (cpu_info_recommended_threads (se_sysfs e) (se_online e) (se_cpu_dir e)) (a_config s))
    as (c' & -> & Hok & Hlim & Hset'); [unfold is_i32; lia|lia|done|]. auto.
Qed.

(** Whatever the configuration file and the command line say, the client starts
    only with a well-formed configuration: one to eight pools, every string within
    its array, every number within its type, every variant one of the enumeration,
    and the limits [main] sets; when no option touches the pools, each has an
    address, a user and a password.  Without options it always starts, unless the
    environment variable asks for a SHA backend that is not available. *)
Theorem startup_config `{J : Jansson} `{Q : QSort} `{!QSortLaws Q} (e : start_env J) args :
  match client_setup e args with
  | inr (c, _) =>
      config_ok c /\ limits_ok c /\ (Forall (fun a => a ∉ pool_options) args -> pools_set c)
  | inl rc =>
      args <> [] \/
      rc = 2 /\ fst (configure_sha_backend_from_env (se_cpu e) g_backend_initial (se_backend e)) <> 0
  end.
Proof. apply client_setup_ok. Qed.

(** * A concrete instance *)

(** No SHA extensions, two processors, a file in the form of config.json, and a
    [strtod] that reads whole numbers. *)
Definition sample_strtod (l : list ascii) : double * list ascii * bool :=
  match scan_number l with
  | Some (negative, v, rest) => (f64_of_Z (if negative then - v else v), rest, false)
  | None => (f64_of_Z 0, l, false)
  end.
Definition sample_env : start_env ref_jansson :=
  StartEnv ref_jansson (Cpu false false false 0 1) None (fun path => String.eqb path "config.json")
    (fun _ => Some sample_config) sample_strtod 0 0 0 (fun _ => None) 2 None.
Definition sample_args : list string := ["-r"; "3"; "--threads"; "1"; "--opencl-kernel"; "compact"; "--runtime"; "60"].
#[local] Existing Instance ref_qsort.
Definition sample_started : app_config_t :=
  match client_setup sample_env sample_args with inr (c, _) => c | inl _ => app_config_set_defaults end.

Example sample_options :
  ac_retries sample_started = 3 /\ ac_thread_count sample_started = 1 /\
  oc_kernel_variant (ac_opencl sample_started) = MINER_OPENCL_KERNEL_COMPACT /\
  ac_reconnect_delay sample_started = 2 /\ ac_runtime_seconds sample_started = f64_of_Z 60.
Proof. by vm_compute. Qed.
Example sample_errors :
  client_setup sample_env ["-t"; "1025"] = inl 2 /\ client_setup sample_env ["--opencl-batch"; "4294967296"] = inl 2 /\
  client_setup sample_env ["-t"; "2x"] = inl 2 /\ client_setup sample_env ["-o"] = inl 2 /\
  client_setup sample_env ["--no-mine"; "--version"] = inl 0.
Proof. by vm_compute. Qed.

Lemma startup_config_witness :
  match client_setup sample_env sample_args with
  | inr (c, _) =>
      config_ok c /\ limits_ok c /\ (Forall (fun a => a ∉ pool_options) sample_args -> pools_set c)
  | inl rc =>
      sample_args <> [] \/
      rc = 2 /\ fst (configure_sha_backend_from_env (se_cpu sample_env) g_backend_initial (se_backend sample_env)) <> 0
  end.
Proof. exact (@startup_config ref_jansson ref_qsort ref_qsort_laws sample_env sample_args). Defined.
