(* ===== verification/Reconnect.v ===== *)
(** The reconnect loop of the mining client ([main] of src/src/stratum_main.c): the
    pauses between attempts, the change of pools and the donation rounds.

    A turn of the loop takes the clock where it is read and the result of the session
    it runs; the loop gives the sessions it starts and the pauses it makes. *)
From stdpp Require Import countable base tactics list option strings.
From Stdlib Require Import ZArith Lia Ascii SpecFloat.
From S2P Require Import Prelude Float64 Hex Miner Json Stratum FrontEnd AppConfig.

#[local] Open Scope Z_scope.

(** The loop of [retry_delay_seconds]: at most [n] turns. *)
Fixpoint double_delay (n : nat) (delay : Z) : Z :=
  match n with
  | O => delay
  | S n =>
      if delay <? MAX_RECONNECT_DELAY
      then double_delay n (if Z.quot MAX_RECONNECT_DELAY 2 <? delay then MAX_RECONNECT_DELAY else delay * 2)
      else delay
  end.
Definition retry_delay_seconds (base_delay attempt : Z) : Z :=
  let delay := base_delay in
  let delay := if delay <=? 0 then 1 else delay in
  if MAX_RECONNECT_DELAY <? delay then MAX_RECONNECT_DELAY
  else
    let delay := double_delay (Z.to_nat (attempt - 1)) delay in
    if MAX_RECONNECT_DELAY <? delay then MAX_RECONNECT_DELAY else delay.

(** What a session is started with, and the clock when the loop decides to. *)
Record session_t := Session {
  ss_time : double;
  ss_pool : pool_config_t;
  ss_enable_mining : bool;
  ss_stop_at : double;
  ss_session_seconds : double;
  ss_donating : bool;
}.
Inductive event := Run (s : session_t) | Wait (seconds : Z).

Record loop_t := Loop {
  lp_pool_index : nat;
  lp_donating : bool;
  lp_phase_seconds : double;
  lp_attempt : Z;
}.
(** The clock before the session, the session's result, and the clock after it and
    before the pause. *)
Record turn_t := Turn { t_top : double; t_rc : Z; t_after : double; t_wait : double }.

Section main.
Context (c : app_config_t).

Definition worker_enabled : bool := ac_cpu_enabled c || oc_enabled (ac_opencl c) || cc_enabled (ac_cuda c).
Definition mining_enabled : bool := ac_enable_mining c && worker_enabled.
Definition stop_at_of (now : double) : double :=
  if f64_lt (f64_of_Z 0) (ac_runtime_seconds c) then f64_add now (ac_runtime_seconds c) else f64_of_Z 0.
Definition donation_enabled : bool := mining_enabled && (0 <? ac_donate_level c).
Definition loop_start (seed : Z) : loop_t :=
  Loop 0 false (if donation_enabled then donation_initial_user_seconds (ac_donate_level c) seed else f64_of_Z 0) 0.

Context (stop_at : double).

Definition session_pool (s : loop_t) : pool_config_t :=
  let pool := ac_pools c !!! lp_pool_index s in
  if lp_donating s
  then PoolConfig (pl_url pool) (copy_string 256 (Some DONATION_USER)) (pl_pass pool) (pl_difficulty pool)
  else pool.
Definition session_of (now : double) (s : loop_t) : session_t :=
  Session now (session_pool s) mining_enabled stop_at (lp_phase_seconds s) (lp_donating s).

Definition past (now : double) : bool := f64_lt (f64_of_Z 0) stop_at && f64_le stop_at now.

(** The pause before the next attempt; [None] when the run time is over. *)
Definition pause (now : double) (attempt : Z) : option Z :=
  let delay := retry_delay_seconds (ac_reconnect_delay c) (u64 (attempt + 1)) in
  if f64_lt (f64_of_Z 0) stop_at then
    let remaining := f64_sub stop_at now in
    if f64_le remaining (f64_of_Z 0) then None
    else
      let delay := if f64_lt remaining (f64_of_Z 1) then 1 else delay in
      Some (if f64_lt remaining (f64_of_Z delay) then
              let delay := default 0 (f64_trunc remaining) in
              if delay <=? 0 then 1 else delay
            else delay)
  else Some delay.

(** One turn: its events, and the exit code or the state of the next turn. *)
Definition loop_turn (s : loop_t) (last_rc : Z) (t : turn_t) : list event * (Z + loop_t) :=
  if past (t_top t) then ([], inl last_rc)
  else
    let run := Run (session_of (t_top t) s) in
    if past (t_after t) then ([run], inl (t_rc t))
    else if donation_enabled && (t_rc t =? 0) then
      let donating := negb (lp_donating s) in
      ([run], inr (Loop (lp_pool_index s) donating (donation_phase_seconds (ac_donate_level c) donating) 0))
    else
      let s1 :=
        if lp_donating s && negb (t_rc t =? 0) then
          Loop (lp_pool_index s) false (donation_phase_seconds (ac_donate_level c) false) (lp_attempt s)
        else if 1 <? ac_pool_count c then
          Loop (Z.to_nat (Z.rem (Z.of_nat (lp_pool_index s) + 1) (ac_pool_count c))) (lp_donating s)
            (lp_phase_seconds s) (lp_attempt s)
        else s in
      if (0 <=? ac_retries c) && (ac_retries c <=? lp_attempt s1) then ([run], inl (t_rc t))
      else
        match pause (t_wait t) (lp_attempt s1) with
        | None => ([run], inl (t_rc t))
        | Some delay =>
            (run :: (if 0 <? delay then [Wait delay] else []),
             inr (Loop (lp_pool_index s1) (lp_donating s1) (lp_phase_seconds s1) (u64 (lp_attempt s1 + 1))))
        end.

(** The loop on the turns' inputs: [None] when it is still running after them. *)
Fixpoint reconnect_loop (s : loop_t) (last_rc : Z) (turns : list turn_t) : list event * option Z :=
  match turns with
  | [] => ([], None)
  | t :: turns =>
      match loop_turn s last_rc t with
      | (events, inl rc) => (events, Some rc)
      | (events, inr s) =>
          let '(later, rc) := reconnect_loop s (t_rc t) turns in
          (events ++ later, rc)
      end
  end.
End main.

(** * Pauses *)

Lemma double_delay_min n d :
  0 < d <= MAX_RECONNECT_DELAY -> double_delay n d = Z.min MAX_RECONNECT_DELAY (d * 2 ^ Z.of_nat n).
Proof.
  unfold MAX_RECONNECT_DELAY. revert d. induction n as [|n IH]; intros d Hd; [cbn; lia|].
  rewrite Nat2Z.inj_succ, Z.pow_succ_r by lia. pose proof (Z.pow_pos_nonneg 2 (Z.of_nat n)).
  cbn [double_delay]. destruct (Z.ltb_spec d MAX_RECONNECT_DELAY) as [Hlt|]; unfold MAX_RECONNECT_DELAY in *; [|nia].
  change (60 ÷ 2) with 30. destruct (Z.ltb_spec 30 d).
  - rewrite IH by lia. nia.
  - rewrite IH by lia. f_equal. lia.
Qed.

(** The pause doubles from the configured one up to a minute. *)
Lemma retry_delay_is base attempt :
  1 <= attempt ->
  retry_delay_seconds base attempt = Z.min MAX_RECONNECT_DELAY (Z.max 1 base * 2 ^ (attempt - 1)).
Proof.
  intros Ha. unfold retry_delay_seconds. cbv zeta. pose proof (Z.pow_pos_nonneg 2 (attempt - 1)).
  set (d := if base <=? 0 then 1 else base).
  assert (Hd : d = Z.max 1 base) by (subst d; destruct (Z.leb_spec base 0); lia). rewrite Hd.
  destruct (Z.ltb_spec MAX_RECONNECT_DELAY (Z.max 1 base)); [nia|].
  rewrite double_delay_min, Z2Nat.id by lia.
  destruct (Z.ltb_spec MAX_RECONNECT_DELAY (Z.min MAX_RECONNECT_DELAY (Z.max 1 base * 2 ^ (attempt - 1)))); lia.
Qed.
Lemma retry_delay_range base attempt : 1 <= retry_delay_seconds base attempt <= MAX_RECONNECT_DELAY.
Proof.
  destruct (Z.le_gt_cases 1 attempt).
  - rewrite retry_delay_is by done. pose proof (Z.pow_pos_nonneg 2 (attempt - 1)). unfold MAX_RECONNECT_DELAY. nia.
  - unfold retry_delay_seconds. replace (Z.to_nat (attempt - 1)) with 0%nat by lia. cbn [double_delay].
    unfold MAX_RECONNECT_DELAY. repeat case_match; lia.
Qed.

(** A time under a minute has fewer than 60 whole seconds. *)
Lemma trunc_below x n z :
  1 <= n <= MAX_RECONNECT_DELAY -> f64_mantissa x -> f64_le x (f64_of_Z 0) = false ->
  f64_lt x (f64_of_Z n) = true -> f64_trunc x = Some z -> z <= MAX_RECONNECT_DELAY.
Proof.
  intros Hn Hx H0 Hlt Hz.
  assert (Hb : exists m2 e2, f64_of_Z n = S754_finite false m2 e2 /\ e2 <= -47 /\
    (e2 = -47 -> Zpos m2 <= 60 * 2 ^ 47)).
  { assert (Hall : Forall (fun k => match f64_of_Z (Z.of_nat k) with
        | S754_finite false m2 e2 => (e2 <=? -47) && ((e2 <? -47) || (Zpos m2 <=? 60 * 2 ^ 47))
        | _ => false end = true) (seq 1 60)).
    { apply Forall_forall. intros k Hk.
      assert (Hk' : forallb (fun k => match f64_of_Z (Z.of_nat k) with
        | S754_finite false m2 e2 => (e2 <=? -47) && ((e2 <? -47) || (Zpos m2 <=? 60 * 2 ^ 47))
        | _ => false end) (seq 1 60) = true) by (vm_compute; reflexivity).
      rewrite forallb_forall in Hk'. apply Hk'. by apply list_elem_of_In. }
    rewrite list.Forall_forall in Hall. unfold MAX_RECONNECT_DELAY in Hn.
    specialize (Hall (Z.to_nat n)). rewrite Z2Nat.id in Hall by lia.
    specialize (Hall ltac:(apply elem_of_seq; lia)).
    destruct (f64_of_Z n) as [| | |[] m2 e2]; try done. exists m2, e2. split; [done|].
    apply andb_true_iff in Hall as [He Hm]. apply Z.leb_le in He. split; [done|]. intros ->.
    cbn [orb Z.ltb] in Hm. by apply Z.leb_le in Hm. }
  destruct Hb as (m2 & e2 & Hn2 & He2 & Hm2). rewrite Hn2 in Hlt.
  destruct x as [s|[]| |[] m e]; try done. unfold f64_lt, SFltb, SFcompare in Hlt.
  cbn [f64_mantissa] in Hx. unfold f64_trunc in Hz. injection Hz as <-.
  assert (Hs : Z.shiftr (Zpos m) (- e) <= MAX_RECONNECT_DELAY).
  { assert (e <= -48 \/ e = -47 /\ Zpos m < 60 * 2 ^ 47) as [He|[-> Hm]].
    { destruct (Z.compare_spec e e2) as [->|He|]; [|lia|done].
      destruct (Z.eq_dec e2 (-47)) as [->|]; [right|lia]. specialize (Hm2 eq_refl). split; [done|].
      change (Pos.compare_cont Eq m m2) with (Pos.compare m m2) in Hlt.
      destruct (Pos.compare_spec m m2); try done. lia. }
    - rewrite Z.shiftr_div_pow2 by lia.
      assert (2 ^ 48 <= 2 ^ (- e)) by (apply Z.pow_le_mono_r; lia).
      transitivity (2 ^ 53 / 2 ^ 48); [|done].
      apply Z.div_le_lower_bound; [done|]. Z.to_euclidean_division_equations; nia.
    - rewrite Z.shiftr_div_pow2 by lia. change (- -47) with 47. apply Z.lt_le_incl, Z.div_lt_upper_bound; [done|].
      unfold MAX_RECONNECT_DELAY. lia. }
  destruct (Z.leb_spec 0 e); [|exact Hs]. destruct (Z.compare_spec e e2); [lia|lia|done].
Qed.

(** * The sessions and pauses of a run *)

Section safety.
Context (c : app_config_t) (Hc : config_ok c) (stop_at first : double).
Context (Hstop : valid_binary prec emax stop_at = true).

(** How long user mining lasts: until the first round, between rounds. *)
Definition user_seconds (seconds : double) : Prop :=
  seconds = first \/ seconds = donation_phase_seconds (ac_donate_level c) false.

Record loop_ok (s : loop_t) : Prop := {
  lk_index : (Z.of_nat (lp_pool_index s) < ac_pool_count c);
  lk_donating : lp_donating s = true ->
    donation_enabled c = true /\ lp_phase_seconds s = donation_phase_seconds (ac_donate_level c) true;
  lk_user : lp_donating s = false -> user_seconds (lp_phase_seconds s);
}.

(** A session is with one of the configured pools, as its configured user or, in a
    donation round of the configured length, with only the user replaced; with a run
    time, it starts before the end. *)
Definition session_ok (x : session_t) : Prop :=
  past stop_at (ss_time x) = false /\
  exists i pool, Z.of_nat i < ac_pool_count c /\ ac_pools c !! i = Some pool /\ (pools_set c -> pool_set pool) /\
    if ss_donating x then
      ss_pool x = PoolConfig (pl_url pool) DONATION_USER (pl_pass pool) (pl_difficulty pool) /\
      mining_enabled c = true /\ ss_session_seconds x = donation_phase_seconds (ac_donate_level c) true
    else ss_pool x = pool /\ user_seconds (ss_session_seconds x).
Definition event_ok (e : event) : Prop :=
  match e with Run x => session_ok x | Wait n => 1 <= n <= MAX_RECONNECT_DELAY end.

(** What may follow: after a user session only one that returned 0 leads to a donation
    round, and a donation round is followed by user mining. *)
Fixpoint rounds_ok (donating : bool) (turns : list turn_t) (events : list event) : Prop :=
  match events with
  | [] => True
  | Wait _ :: events => rounds_ok donating turns events
  | Run x :: events =>
      match turns with
      | [] => False
      | t :: turns => ss_donating x = donating /\ rounds_ok (negb donating && (t_rc t =? 0) && donation_enabled c) turns events
      end
  end.

Lemma session_of_ok now s : past stop_at now = false -> loop_ok s -> session_ok (session_of c stop_at now s).
Proof.
  intros Hn [Hi Hd Hu]. split; [done|]. pose proof (co_count c Hc) as Hcount. pose proof (co_length c Hc) as Hl.
  destruct (lookup_lt_is_Some_2 (ac_pools c) (lp_pool_index s)) as [pool Hp]; [lia|].
  exists (lp_pool_index s), pool. split; [done|]. split; [done|].
  assert (Ht : ac_pools c !!! lp_pool_index s = pool) by (by apply list_lookup_total_correct).
  split.
  - intros Hset. apply (Forall_lookup_1 _ _ (lp_pool_index s) pool Hset). by rewrite lookup_take_lt by lia.
  - unfold session_of. cbn [ss_donating ss_pool ss_session_seconds]. unfold session_pool. rewrite Ht.
    destruct (lp_donating s) eqn:E; [|by split; [|apply Hu]]. destruct Hd as [He Hs]; [done|].
    split; [|split; [|exact Hs]].
    + change (copy_string 256 (Some DONATION_USER)) with DONATION_USER. done.
    + by apply andb_true_iff in He as [].
Qed.

Lemma pause_range now attempt delay :
  valid_binary prec emax now = true -> pause c stop_at now attempt = Some delay ->
  1 <= delay <= MAX_RECONNECT_DELAY.
Proof.
  intros Hnow. unfold pause. pose proof (retry_delay_range (ac_reconnect_delay c) (u64 (attempt + 1))) as Hd.
  generalize dependent (retry_delay_seconds (ac_reconnect_delay c) (u64 (attempt + 1))). intros d Hd.
  cbv zeta. destruct (f64_lt _ stop_at); [|intros [= <-]; exact Hd].
  assert (Hm : f64_mantissa (f64_sub stop_at now)) by (apply f64_sub_mantissa; by apply valid_mantissa).
  generalize dependent (f64_sub stop_at now). intros remaining Hm.
  destruct (f64_le remaining _) eqn:H0; [done|].
  set (d' := if f64_lt remaining (f64_of_Z 1) then 1 else d).
  assert (Hd' : 1 <= d' <= MAX_RECONNECT_DELAY) by (subst d'; case_match; [by split|exact Hd]). clearbody d'. intros E. apply (inj Some) in E as <-.
  destruct (f64_lt remaining (f64_of_Z d')) eqn:Hlt; [|exact Hd'].
  destruct (f64_trunc remaining) as [z|] eqn:Hz; [|done]. cbn [default from_option].
  pose proof (trunc_below remaining d' z Hd' Hm H0 Hlt Hz). unfold id, MAX_RECONNECT_DELAY in *.
  destruct (Z.leb_spec z 0); lia.
Qed.

(** One turn, on every branch. *)
Lemma turn_ok s last_rc t :
  loop_ok s -> valid_binary prec emax (t_wait t) = true ->
  let '(events, next) := loop_turn c stop_at s last_rc t in
  Forall event_ok events /\
  (events = [] \/ exists waits, events = Run (session_of c stop_at (t_top t) s) :: waits /\
     (waits = [] \/ exists n, waits = [Wait n])) /\
  match next with
  | inl _ => True
  | inr s' => events <> [] /\ loop_ok s' /\
      lp_donating s' = negb (lp_donating s) && (t_rc t =? 0) && donation_enabled c
  end.
Proof.
  intros Hs Ht. unfold loop_turn. cbv zeta. destruct (past stop_at (t_top t)) eqn:Hp; [by auto|].
  pose proof (session_of_ok _ s Hp Hs) as Hsess.
  assert (Hone : forall waits, Forall event_ok waits ->
    Forall event_ok (Run (session_of c stop_at (t_top t) s) :: waits)) by (intros; by constructor).
  assert (Hstopped : Forall event_ok [Run (session_of c stop_at (t_top t) s)] /\
    ([Run (session_of c stop_at (t_top t) s)] = [] \/
     exists waits, [Run (session_of c stop_at (t_top t) s)] = Run (session_of c stop_at (t_top t) s) :: waits /\
       (waits = [] \/ exists n, waits = [Wait n])) /\ True) by (split; [by apply Hone|]; split; [right; exists []; auto|done]).
  destruct (past stop_at (t_after t)); [exact Hstopped|].
  destruct (donation_enabled c && (t_rc t =? 0)) eqn:Hdon.
  - apply andb_true_iff in Hdon as [He Hrc]. split; [by apply Hone|]. split; [right; exists []; auto|].
    split; [done|]. split; [|cbn; by rewrite Hrc, He, !andb_true_r].
    destruct Hs as [Hi Hd Hu]. split; [done|..]; cbn [lp_donating lp_phase_seconds]; intros E; rewrite E; [done|by right].
  - set (s1 := if lp_donating s && negb (t_rc t =? 0) then _ else _).
    assert (H1 : loop_ok s1 /\ lp_donating s1 = false).
    { subst s1. pose proof Hs as Hs0. destruct Hs as [Hi Hd Hu]. destruct (lp_donating s) eqn:E; cbn [andb].
      - assert ((t_rc t =? 0) = false) as Hrc.
        { destruct Hd as [He _]; [done|]. by rewrite He in Hdon. }
        rewrite Hrc. cbn [negb]. split; [|done]. split; [done|done|]. by right.
      - destruct (Z.ltb_spec 1 (ac_pool_count c)); [|exact (conj Hs0 E)]. split; [|reflexivity]. split; [|exact Hd|exact Hu].
        cbn [lp_pool_index]. pose proof (Z.rem_bound_pos (Z.of_nat (lp_pool_index s) + 1) (ac_pool_count c)). lia. }
    assert (Hnext : lp_donating s1 = negb (lp_donating s) && (t_rc t =? 0) && donation_enabled c).
    { rewrite (proj2 H1), andb_comm, (andb_comm (negb _)), andb_assoc, Hdon. done. }
    clearbody s1. destruct H1 as [H1 _]. destruct ((0 <=? ac_retries c) && _); [exact Hstopped|].
    destruct (pause _ _ _ _) as [delay|] eqn:Epause; [|exact Hstopped].
    apply pause_range in Epause; [|done]. destruct (Z.ltb_spec 0 delay); [|lia].
    split; [apply Hone; by constructor|]. split; [right; exists [Wait delay]; eauto|]. split; [done|].
    split; [|exact Hnext]. by destruct H1.
Qed.

Lemma rounds_waits d turns waits later :
  (waits = [] \/ exists n, waits = [Wait n]) -> rounds_ok d turns (waits ++ later) = rounds_ok d turns later.
Proof. by intros [->|[n ->]]. Qed.

Lemma reconnect_ok turns : Forall (fun t => valid_binary prec emax (t_wait t) = true) turns ->
  forall s last_rc, loop_ok s ->
  Forall event_ok (fst (reconnect_loop c stop_at s last_rc turns)) /\
  rounds_ok (lp_donating s) turns (fst (reconnect_loop c stop_at s last_rc turns)).
Proof.
  induction 1 as [|t turns Ht _ IH]; intros s last_rc Hs; [by split; [constructor|]|]. cbn [reconnect_loop].
  pose proof (turn_ok s last_rc t Hs Ht) as H. destruct (loop_turn _ _ _ _ _) as [events [rc|s']].
  - destruct H as (Hev & Hform & _). cbn [fst]. split; [done|].
    destruct Hform as [->|(waits & -> & Hw)]; [done|]. cbn [rounds_ok]. split; [done|].
    rewrite <- (app_nil_r waits), rounds_waits by done. done.
  - destruct H as (Hev & Hform & Hne & Hs' & Hd). specialize (IH s' (t_rc t) Hs').
    destruct (reconnect_loop c stop_at s' (t_rc t) turns) as [later rc]. cbn [fst] in *.
    split; [apply list.Forall_app; split; [done|apply IH]|]. destruct Hform as [->|(waits & -> & Hw)]; [done|].
    cbn [app rounds_ok]. split; [done|]. rewrite rounds_waits by done. rewrite <- Hd. apply IH.
Qed.
End safety.

(** C39.  With a well-formed configuration, every session the client runs is with one of
    the configured pools: as its configured user, for the user phase's length, or,
    only right after a user session that ended with 0 and while mining, in a donation
    round of the configured length, with nothing but the user replaced; a donation
    round is followed by user mining whatever its result.  Every pause is 1 to 60
    seconds, and with a run time no session starts after its end. *)
Theorem reconnect_sessions c stop_at seed turns :
  config_ok c -> valid_binary prec emax stop_at = true ->
  Forall (fun t => valid_binary prec emax (t_wait t) = true) turns ->
  let events := fst (reconnect_loop c stop_at (loop_start c seed) 0 turns) in
  Forall (event_ok c stop_at (lp_phase_seconds (loop_start c seed))) events /\ rounds_ok c false turns events.
Proof.
  intros Hc Hstop Ht. apply (reconnect_ok c Hc stop_at (lp_phase_seconds (loop_start c seed)) Hstop turns Ht).
  pose proof (co_count c Hc). split; cbn; [lia|done|by left].
Qed.

(** * Failing connections *)

Section failover.
Context (c : app_config_t) (Hc : config_ok c) (stop_at first : double).
Context (Hstop : f64_lt (f64_of_Z 0) stop_at = false).

(** The [k]-th attempt of a row of failures, from 0: the pools in turn, and a pause that
    doubles up to a minute. *)
Definition pool_of (k : nat) : pool_config_t := ac_pools c !!! (k mod Z.to_nat (ac_pool_count c))%nat.
Definition attempt_run (k : nat) (t : turn_t) : event :=
  Run (Session (t_top t) (pool_of k) (mining_enabled c) stop_at first false).
Definition attempt_pause (k : nat) : Z :=
  Z.min MAX_RECONNECT_DELAY (Z.max 1 (ac_reconnect_delay c) * 2 ^ Z.of_nat k).
Definition attempt_events (k : nat) (t : turn_t) : list event := [attempt_run k t; Wait (attempt_pause k)].
Fixpoint attempts (k : nat) (turns : list turn_t) : list event :=
  match turns with [] => [] | t :: turns => attempt_events k t ++ attempts (S k) turns end.

Definition failing (t : turn_t) : Prop := t_rc t <> 0.
Definition loop_at (k : nat) : loop_t :=
  Loop (k mod Z.to_nat (ac_pool_count c)) false first (Z.of_nat k).

Lemma not_past now : past stop_at now = false.
Proof. unfold past. by rewrite Hstop. Qed.

Lemma next_pool k :
  (if 1 <? ac_pool_count c then
     Loop (Z.to_nat (Z.rem (Z.of_nat (lp_pool_index (loop_at k)) + 1) (ac_pool_count c))) (lp_donating (loop_at k))
       (lp_phase_seconds (loop_at k)) (lp_attempt (loop_at k))
   else loop_at k) = Loop (S k mod Z.to_nat (ac_pool_count c)) false first (Z.of_nat k).
Proof.
  pose proof (co_count c Hc) as Hn. unfold loop_at. cbn [lp_pool_index lp_donating lp_phase_seconds lp_attempt].
  destruct (Z.ltb_spec 1 (ac_pool_count c)).
  - f_equal. rewrite Z.rem_mod_nonneg by lia. apply Nat2Z.inj.
    rewrite Z2Nat.id by (apply Z.mod_pos_bound; lia). rewrite !Nat2Z.inj_mod, Z2Nat.id by lia.
    rewrite Zplus_mod_idemp_l. f_equal. lia.
  - replace (ac_pool_count c) with 1 by lia. by rewrite !Nat.mod_1_r.
Qed.

(** A failing session: the last one when the retries are used up. *)
Lemma failing_turn k t last_rc :
  failing t -> Z.of_nat k + 1 < 2 ^ 64 ->
  loop_turn c stop_at (loop_at k) last_rc t =
    if (0 <=? ac_retries c) && (ac_retries c <=? Z.of_nat k) then ([attempt_run k t], inl (t_rc t))
    else (attempt_events k t, inr (loop_at (S k))).
Proof.
  intros Ht Hk. unfold loop_turn. rewrite !not_past. cbv zeta.
  assert ((t_rc t =? 0) = false) as -> by (by apply Z.eqb_neq). rewrite andb_false_r.
  cbn [lp_donating loop_at andb]. change (Loop _ false first _) with (loop_at k).
  rewrite next_pool. cbn [lp_attempt lp_pool_index lp_donating lp_phase_seconds].
  destruct ((0 <=? ac_retries c) && (ac_retries c <=? Z.of_nat k)); [done|].
  unfold pause. rewrite Hstop. rewrite u64_small by (unfold is_u64; lia). rewrite retry_delay_is by lia.
  replace (Z.of_nat k + 1 - 1) with (Z.of_nat k) by lia. fold (attempt_pause k).
  assert (0 < attempt_pause k) as Hp.
  { unfold attempt_pause, MAX_RECONNECT_DELAY. pose proof (Z.pow_pos_nonneg 2 (Z.of_nat k)). nia. }
  destruct (Z.ltb_spec 0 (attempt_pause k)); [|lia]. unfold loop_at.
  by replace (Z.of_nat k + 1) with (Z.of_nat (S k)) by lia.
Qed.

Lemma failing_turns turns rest : Forall failing turns -> forall k last_rc,
  Z.of_nat (k + length turns) < 2 ^ 64 ->
  ac_retries c < 0 \/ Z.of_nat (k + length turns) <= ac_retries c ->
  reconnect_loop c stop_at (loop_at k) last_rc (turns ++ rest) =
    let '(later, rc) :=
      reconnect_loop c stop_at (loop_at (k + length turns)) (default last_rc (t_rc <$> last turns)) rest in
    (attempts k turns ++ later, rc).
Proof.
  induction 1 as [|t turns Ht Hts IH]; intros k last_rc Hk Hr; cbn [length app] in *.
  - rewrite Nat.add_0_r. cbn. by destruct (reconnect_loop _ _ _ _ rest).
  - cbn [reconnect_loop]. rewrite failing_turn by (done || lia).
    destruct (Z.leb_spec 0 (ac_retries c)); cbn [andb];
      [destruct (Z.leb_spec (ac_retries c) (Z.of_nat k)); [lia|]|];
      (rewrite IH by lia; replace (S k + length turns)%nat with (k + S (length turns))%nat by lia;
       replace (default (t_rc t) (t_rc <$> last turns)) with (default last_rc (t_rc <$> last (t :: turns)))
         by (by rewrite last_cons; destruct (last turns)); by destruct (reconnect_loop _ _ _ _ rest) as [later rc]).
Qed.
End failover.

(** C40.  While connections fail and there is no run time, the client goes through the
    configured pools in turn, waiting after the k-th failure the configured pause
    doubled k times, at most a minute; without a limit on the retries it never gives
    up, and with the limit [r] it gives up after exactly [r + 1] sessions, with the
    result of the last one. *)
Theorem reconnect_failover c stop_at seed turns :
  config_ok c -> f64_lt (f64_of_Z 0) stop_at = false -> Forall failing turns -> Z.of_nat (length turns) < 2 ^ 64 ->
  let first := lp_phase_seconds (loop_start c seed) in
  if ac_retries c <? 0 then
    reconnect_loop c stop_at (loop_start c seed) 0 turns = (attempts c stop_at first 0 turns, None)
  else
    let r := Z.to_nat (ac_retries c) in
    match drop r turns with
    | [] => reconnect_loop c stop_at (loop_start c seed) 0 turns = (attempts c stop_at first 0 turns, None)
    | t :: _ =>
        reconnect_loop c stop_at (loop_start c seed) 0 turns =
          (attempts c stop_at first 0 (take r turns) ++ [attempt_run c stop_at first r t], Some (t_rc t))
    end.
Proof.
  intros Hc Hstop Hf Hlen first. pose proof (co_count c Hc) as Hn.
  assert (Hs : loop_start c seed = loop_at c first 0).
  { unfold loop_start, loop_at. by rewrite Nat.Div0.mod_0_l. }
  rewrite Hs.
  assert (Hall : ac_retries c < 0 \/ Z.of_nat (length turns) <= ac_retries c ->
    reconnect_loop c stop_at (loop_at c first 0) 0 turns = (attempts c stop_at first 0 turns, None)).
  { intros Hr. rewrite <- (app_nil_r turns) at 1. rewrite (failing_turns c Hc stop_at first Hstop) by done.
    cbn [reconnect_loop]. by rewrite app_nil_r. }
  destruct (Z.ltb_spec (ac_retries c) 0); [by apply Hall; left|]. cbv zeta.
  set (r := Z.to_nat (ac_retries c)). destruct (drop r turns) as [|t rest] eqn:Ed.
  - apply Hall. right. apply (f_equal length) in Ed. rewrite length_drop in Ed. cbn in Ed. lia.
  - assert (Hr : (r < length turns)%nat).
    { apply (f_equal length) in Ed. rewrite length_drop in Ed. cbn in Ed. lia. }
    rewrite <- (take_drop r turns) at 1. rewrite Ed.
    assert (Hl : length (take r turns) = r) by (rewrite length_take; lia).
    rewrite (failing_turns c Hc stop_at first Hstop); rewrite ?Hl; [|by apply Forall_take|lia|right; lia].
    cbn [reconnect_loop Nat.add]. rewrite (failing_turn c Hc stop_at first Hstop); [| |lia].
    2:{ rewrite <- (take_drop r turns), Ed in Hf. apply list.Forall_app in Hf as [_ Hf].
        by apply list.Forall_cons in Hf as [Ht _]. }
    destruct (Z.leb_spec 0 (ac_retries c)); [|lia].
    destruct (Z.leb_spec (ac_retries c) (Z.of_nat r)); [|lia]. done.
Qed.

(** * Concrete instances *)

(** Two pools, two retries, a pause that starts at 20 seconds. *)
Definition sample : app_config_t := set_reconnect_delay 20 (set_retries 2 sample_loaded).
Lemma sample_ok : config_ok sample.
Proof.
  apply ok_reconnect_delay; [|by split]. apply ok_retries; [|by split].
  apply (@load_config_ok ref_jansson app_config_set_defaults (Some sample_config) true); [apply defaults_ok|].
  vm_compute. reflexivity.
Qed.
Definition turn_with (rc : Z) : turn_t := Turn (f64_of_Z 0) rc (f64_of_Z 0) (f64_of_Z 0).

(** What happens: pool, whether donating, and the pauses. *)
Definition brief (e : event) : string * bool * Z :=
  match e with Run x => (pl_url (ss_pool x), ss_donating x, 0) | Wait n => (""%string, false, n) end.
Example sample_run :
  (brief <$> fst (reconnect_loop sample (f64_of_Z 0) (loop_start sample 0) 0
     (turn_with <$> [1; 0; 0; 1; 0; 1; 1; 1; 1]))) =
  [("stratum+tcp://a.example:3333", false, 0); ("", false, 20); ("stratum+tcp://b.example:3333", false, 0);
   ("stratum+tcp://b.example:3333", true, 0); ("stratum+tcp://b.example:3333", false, 0); ("", false, 20);
   ("stratum+tcp://a.example:3333", false, 0); ("stratum+tcp://a.example:3333", true, 0); ("", false, 20);
   ("stratum+tcp://a.example:3333", false, 0); ("", false, 40); ("stratum+tcp://b.example:3333", false, 0)]%string.
Proof. vm_compute. reflexivity. Qed.

Lemma reconnect_sessions_witness :
  let events := fst (reconnect_loop sample (f64_of_Z 100) (loop_start sample 7) 0 (turn_with <$> [0; 1; 1])) in
  Forall (event_ok sample (f64_of_Z 100) (lp_phase_seconds (loop_start sample 7))) events /\
  rounds_ok sample false (turn_with <$> [0; 1; 1]) events.
Proof.
  exact (reconnect_sessions sample (f64_of_Z 100) 7 (turn_with <$> [0; 1; 1]) sample_ok
    ltac:(vm_compute; reflexivity) ltac:(repeat (apply list.Forall_cons; split; [vm_compute; reflexivity|]); by apply list.Forall_nil)).
Defined.

Lemma reconnect_failover_witness :
  Forall failing (turn_with <$> [1; -1; 3; 1]) /\
  reconnect_loop sample (f64_of_Z 0) (loop_start sample 7) 0 (turn_with <$> [1; -1; 3; 1]) =
    (attempts sample (f64_of_Z 0) (lp_phase_seconds (loop_start sample 7)) 0 (turn_with <$> [1; -1]) ++
     [attempt_run sample (f64_of_Z 0) (lp_phase_seconds (loop_start sample 7)) 2 (turn_with 3)], Some 3).
Proof.
  assert (H : Forall failing (turn_with <$> [1; -1; 3; 1])) by (repeat (apply list.Forall_cons; split; [done|]); by apply list.Forall_nil).
  split; [exact H|].
  exact (reconnect_failover sample (f64_of_Z 0) 7 (turn_with <$> [1; -1; 3; 1]) sample_ok
    ltac:(vm_compute; reflexivity) H ltac:(vm_compute; reflexivity)).
Defined.
