(* ===== verification/Resources.v ===== *)
(** Traces of the acquisition and release of resources, for the error paths of the
    GPU hosts: nothing is leaked and nothing is released twice. *)
From stdpp Require Import base tactics list option.

Section traces.
Context {R : Type} `{!EqDecision R}.

Inductive event := Acquire (r : R) | Release (r : R).

(** What is held after a trace; [None] when a resource is acquired twice or released
    without being held. *)
Definition track (held : option (list R)) (e : event) : option (list R) :=
  held ← held;
  match e with
  | Acquire r => if decide (r ∈ held) then None else Some (held ++ [r])
  | Release r => if decide (r ∈ held) then Some (filter (fun r' => r' <> r) held) else None
  end.
Definition held_after (tr : list event) : option (list R) := foldl track (Some []) tr.

Lemma held_after_app tr1 tr2 l :
  held_after tr1 = Some l -> held_after (tr1 ++ tr2) = foldl track (Some l) tr2.
Proof. intros H. unfold held_after in *. by rewrite foldl_app, H. Qed.

(** [if (handle != NULL) release(handle)] *)
Definition released_if (b : bool) (r : R) : list event := if b then [Release r] else [].

End traces.
Arguments event : clear implicits.
