(* ===== verification/GpuSha.v ===== *)
(** The SHA-256 compression the GPU kernels share: the macros of
    src/src/cuda_sha256d_kernel.cu, which the OpenCL sources inside
    src/src/opencl_miner.c repeat, and their relation to FIPS 180-4.

    The macros do not move the eight working variables: each [ROUND] writes two of
    them and the next one is called with its arguments rotated, so after [n] rounds
    variable [v] holds the register of FIPS 180-4 that is [n mod 8] places away.  The
    message schedule is a window of sixteen words overwritten in place. *)
From stdpp Require Import base tactics list numbers.
From Stdlib Require Import ZArith Lia.
From S2P Require Import Prelude Words Fips Sha256d Simd.

#[local] Open Scope Z_scope.

(** * Words *)

Definition rotr32 (x n : Z) : Z := Z.lor (Z.shiftr x n) (u32 (Z.shiftl x (32 - n))).
Definition bswap32 (v : Z) : Z :=
  Z.lor (Z.lor (Z.lor
    (u32 (Z.shiftl (Z.land v 0x000000ff) 24))
    (u32 (Z.shiftl (Z.land v 0x0000ff00) 8)))
    (Z.shiftr (Z.land v 0x00ff0000) 8))
    (Z.shiftr (Z.land v 0xff000000) 24).

Definition SS0 (x : Z) : Z := Z.lxor (Z.lxor (rotr32 x 7) (rotr32 x 18)) (Z.shiftr x 3).
Definition SS1 (x : Z) : Z := Z.lxor (Z.lxor (rotr32 x 17) (rotr32 x 19)) (Z.shiftr x 10).
Definition BS0 (x : Z) : Z := Z.lxor (Z.lxor (rotr32 x 2) (rotr32 x 13)) (rotr32 x 22).
Definition BS1 (x : Z) : Z := Z.lxor (Z.lxor (rotr32 x 6) (rotr32 x 11)) (rotr32 x 25).
Definition CH (x y z : Z) : Z := Z.lxor (Z.land x y) (Z.land (not32 x) z).
Definition MAJ (x y z : Z) : Z := Z.lxor (Z.lxor (Z.land x y) (Z.land x z)) (Z.land y z).

Lemma SS0_fips x : SS0 x = Fips.ssig0 x.
Proof. reflexivity. Qed.
Lemma SS1_fips x : SS1 x = Fips.ssig1 x.
Proof. reflexivity. Qed.
Lemma BS0_fips x : BS0 x = Fips.bsig0 x.
Proof. reflexivity. Qed.
Lemma BS1_fips x : BS1 x = Fips.bsig1 x.
Proof. reflexivity. Qed.
Lemma bswap32_eq v : bswap32 v = Sha256d.bswap32 v.
Proof. reflexivity. Qed.

(** * Local variables of a compression

    The working variables [a] .. [h] and the message words [w0] .. [w15]. *)

Inductive var := va | vb | vc | vd | ve | vf | vg | vh.
Record locals := Locals { vars : Fips.regs; msg : list Z }.

Definition get (v : var) (s : locals) : Z :=
  let '(Fips.Regs a b c d e f g h) := vars s in
  match v with va => a | vb => b | vc => c | vd => d | ve => e | vf => f | vg => g | vh => h end.
Definition set (v : var) (x : Z) (s : locals) : locals :=
  let '(Fips.Regs a b c d e f g h) := vars s in
  Locals
    match v with
    | va => Fips.Regs x b c d e f g h | vb => Fips.Regs a x c d e f g h
    | vc => Fips.Regs a b x d e f g h | vd => Fips.Regs a b c x e f g h
    | ve => Fips.Regs a b c d x f g h | vf => Fips.Regs a b c d e x g h
    | vg => Fips.Regs a b c d e f x h | vh => Fips.Regs a b c d e f g x
    end (msg s).

(** An expression for a message word, with its effect: a variable [wi], or
    [(w0) += SS0(w1) + (w9) + SS1(w14)], whose value is the new [w0]. *)
Definition wexpr : Type := locals -> locals * Z.
Definition w (i : nat) : wexpr := fun s => (s, msg s !!! i).
Definition MSG (w0 w1 w9 w14 : nat) : wexpr := fun s =>
  let v := (msg s !!! w0 +w (SS0 (msg s !!! w1) +w msg s !!! w9 +w SS1 (msg s !!! w14)))%word in
  (Locals (vars s) (<[w0 := v]> (msg s)), v).

(** The selection functions are macros the CUDA kernels redefine. *)
Section rounds.
Context (CH MAJ : Z -> Z -> Z -> Z).

Definition ROUND (a b c d e f g h : var) (word : wexpr) (k : Z) (s : locals) : locals :=
  let '(s, w) := word s in
  let t1 := (get h s +w BS1 (get e s) +w CH (get e s) (get f s) (get g s) +w k +w w)%word in
  let t2 := (BS0 (get a s) +w MAJ (get a s) (get b s) (get c s))%word in
  let s := set d (get d s +w t1)%word s in
  set h (t1 +w t2)%word s.

(** * The rotated rounds

    Round [n] of the 64 written out in the macros. *)

Definition var_at (i : nat) : var :=
  match i with
  | 0 => va | 1 => vb | 2 => vc | 3 => vd | 4 => ve | 5 => vf | 6 => vg | _ => vh
  end%nat.
Definition arg (n j : nat) : var := var_at ((j + 8 - n mod 8) mod 8).
Definition word_of (n : nat) : wexpr :=
  if (n <? 16)%nat then w n
  else MSG (n mod 16) ((n + 1) mod 16) ((n + 9) mod 16) ((n + 14) mod 16).
Definition nth_round (n : nat) : locals -> locals :=
  ROUND (arg n 0) (arg n 1) (arg n 2) (arg n 3) (arg n 4) (arg n 5) (arg n 6) (arg n 7)
    (word_of n) (Fips.K !!! n).

(** The variables after [n] rounds hold the registers rotated. *)
Definition rot1 (r : Fips.regs) : Fips.regs :=
  Fips.Regs (rb r) (rc r) (rd r) (re r) (rf r) (rg r) (rh r) (ra r).
Definition rot (n : nat) (r : Fips.regs) : Fips.regs := Nat.iter (n mod 8) rot1 r.

Class SelectLaws : Prop := {
  ch_ok x y z : is_u32 x -> is_u32 y -> is_u32 z -> CH x y z = Fips.ch x y z;
  maj_ok x y z : is_u32 x -> is_u32 y -> is_u32 z -> MAJ x y z = Fips.maj x y z;
}.
Context `{!SelectLaws}.

Lemma round_rotated n (word : wexpr) k r m m' x :
  regs_u32 r -> word (Locals (rot n r) m) = (Locals (rot n r) m', x) ->
  ROUND (arg n 0) (arg n 1) (arg n 2) (arg n 3) (arg n 4) (arg n 5) (arg n 6) (arg n 7) word k
    (Locals (rot n r) m) = Locals (rot (S n) (Fips.round k x r)) m'.
Proof.
  intros Hr Hw. unfold ROUND. rewrite Hw. clear Hw.
  assert (Hs : (S n mod 8 = S (n mod 8) mod 8)%nat)
    by (rewrite <- (Nat.add_1_r n), <- (Nat.add_1_r (n mod 8)), Nat.Div0.add_mod_idemp_l; done).
  unfold rot, arg. rewrite Hs. clear Hs.
  pose proof (Nat.mod_upper_bound n 8 ltac:(lia)) as Hb. generalize dependent (n mod 8)%nat. intros p Hp.
  destruct r as [a b c d e f g h]. unfold regs_u32, is_words, Fips.of_regs in Hr.
  cbn in Hr. rewrite !list.Forall_cons in Hr. destruct Hr as (Ha & Hb & Hc & Hd & He & Hf & Hg & Hh & _).
  unfold Fips.round. cbn [Fips.ra Fips.rb Fips.rc Fips.rd Fips.re Fips.rf Fips.rg Fips.rh].
  rewrite <- (ch_ok e f g He Hf Hg), <- (maj_ok a b c Ha Hb Hc).
  change (Fips.bsig0 a) with (BS0 a). change (Fips.bsig1 e) with (BS1 e).
  do 8 (destruct p as [|p]; [with_strategy opaque [add32 BS0 BS1] reflexivity|]). lia.
Qed.
End rounds.

(** * The window of the schedule *)

Section window.
Context (M : list Z) (HM : length M = 16%nat).

(** The message word [wj] holds before round [n >= 16]. *)
Definition held (n j : nat) : nat :=
  (16 * (n / 16) + j - (if (j <? n mod 16)%nat then 0 else 16))%nat.
Definition window (n : nat) : list Z := (fun j => W M (held n j)) <$> seq 0 16.

Lemma window_lookup n j : (j < 16)%nat -> window n !!! j = W M (held n j).
Proof.
  clear HM. intros Hj. unfold window. apply list_lookup_total_correct.
  rewrite list_lookup_fmap, lookup_seq_lt by done. done.
Qed.

Lemma window_back n d :
  (16 <= n)%nat -> (1 <= d <= 16)%nat -> window n !!! ((n + (16 - d)) mod 16)%nat = W M (n - d).
Proof.
  clear HM. intros Hn Hd. pose proof (Nat.mod_upper_bound (n + (16 - d)) 16 ltac:(lia)).
  rewrite window_lookup by done. f_equal. unfold held.
  pose proof (Nat.div_mod_eq n 16). pose proof (Nat.mod_upper_bound n 16 ltac:(lia)).
  pose proof (Nat.div_mod_eq (n + (16 - d)) 16).
  destruct (Nat.ltb_spec ((n + (16 - d)) mod 16) (n mod 16)); lia.
Qed.

Lemma window_16 : window 16 = M.
Proof.
  apply list_eq. intros i. destruct (decide (i < 16)%nat) as [Hi|Hi].
  - rewrite !list_lookup_lookup_total_lt by (unfold window; rewrite ?length_fmap, ?length_seq; lia).
    rewrite window_lookup by done. unfold held. change (16 / 16)%nat with 1%nat.
    change (16 mod 16)%nat with O. cbn [Nat.ltb Nat.leb]. rewrite W_lo by lia.
    f_equal. f_equal. lia.
  - rewrite !lookup_ge_None_2 by (unfold window; rewrite ?length_fmap, ?length_seq; lia). done.
Qed.

Lemma window_S n : (16 <= n)%nat -> <[(n mod 16)%nat := W M n]> (window n) = window (S n).
Proof.
  clear HM. intros Hn. pose proof (Nat.div_mod_eq n 16). pose proof (Nat.mod_upper_bound n 16 ltac:(lia)).
  pose proof (Nat.div_mod_eq (S n) 16). pose proof (Nat.mod_upper_bound (S n) 16 ltac:(lia)).
  assert (Hl : forall k, length (window k) = 16%nat) by (intros k; unfold window; by rewrite length_fmap).
  apply list_eq. intros i. destruct (decide (i < 16)%nat) as [Hi|Hi].
  2:{ rewrite !lookup_ge_None_2 by (rewrite ?length_insert, Hl; lia). done. }
  rewrite !list_lookup_lookup_total_lt by (rewrite ?length_insert, Hl; lia).
  rewrite (window_lookup (S n)) by done. f_equal.
  destruct (decide (i = n mod 16)%nat) as [->|Hne].
  - rewrite list_lookup_total_insert_eq by (rewrite Hl; lia). f_equal. unfold held.
    destruct (Nat.ltb_spec (n mod 16) (S n mod 16)); lia.
  - rewrite list_lookup_total_insert_ne, window_lookup by done. f_equal. unfold held.
    destruct (Nat.ltb_spec i (n mod 16)), (Nat.ltb_spec i (S n mod 16)); lia.
Qed.
End window.

(** * All rounds *)

Section rounds_spec.
Context (CH MAJ : Z -> Z -> Z -> Z) `{!SelectLaws CH MAJ}.
Context (M : list Z) (HM : length M = 16%nat) (r0 : Fips.regs) (Hr : regs_u32 r0).

Definition after (n : nat) : locals :=
  Locals (rot n (Fips.rounds M n r0)) (if (n <? 16)%nat then M else window M n).

Lemma nth_round_after n : (n < 64)%nat -> nth_round CH MAJ n (after n) = after (S n).
Proof.
  intros Hn. unfold nth_round, after. rewrite Fips.rounds_S.
  set (r := Fips.rounds M n r0).
  assert (Hu : regs_u32 r) by (by apply (R_u32 M r0 n)).
  destruct (Nat.ltb_spec n 16) as [Hlo|Hhi].
  - rewrite (round_rotated CH MAJ n _ _ r M M (W M n) Hu).
    + f_equal. destruct (Nat.ltb_spec (S n) 16); [done|].
      by replace (S n) with 16%nat by lia; rewrite window_16.
    + unfold word_of. rewrite (proj2 (Nat.ltb_lt n 16)) by done. unfold w. cbn [msg].
      by rewrite W_lo.
  - destruct (Nat.ltb_spec (S n) 16); [lia|].
    rewrite <- (window_S M n) by done.
    apply round_rotated; [done|done|]. unfold word_of.
    rewrite (proj2 (Nat.ltb_ge n 16)) by done. unfold MSG. cbn [msg vars].
    pose proof (window_back M n 16 Hhi ltac:(lia)) as H16. rewrite Nat.add_0_r in H16.
    pose proof (window_back M n 15 Hhi ltac:(lia)) as H15.
    pose proof (window_back M n 7 Hhi ltac:(lia)) as H7.
    pose proof (window_back M n 2 Hhi ltac:(lia)) as H2.
    cbn [Nat.sub] in H15, H7, H2. rewrite H16, H15, H7, H2. clear H16 H15 H7 H2.
    assert (HW : (W M (n - 16) +w (SS0 (W M (n - 15)) +w W M (n - 7) +w SS1 (W M (n - 2))))%word = W M n).
    { rewrite (W_hi M HM n), SS0_fips, SS1_fips by lia. add32_ac. }
    by rewrite HW.
Qed.

Lemma rounds_after n : (n <= 64)%nat -> for_range 0 n (nth_round CH MAJ) (Locals r0 M) = after n.
Proof.
  induction n as [|n IH]; intros Hn; [done|].
  rewrite for_range_S_r, IH by lia. by apply nth_round_after.
Qed.

Lemma all_rounds : vars (for_range 0 64 (nth_round CH MAJ) (Locals r0 M)) = Fips.rounds M 64 r0.
Proof. rewrite rounds_after by lia. unfold after. by destruct (Fips.rounds M 64 r0). Qed.
End rounds_spec.

(** The macros of [CH] and [MAJ] are the functions themselves. *)
#[export] Instance select_laws : SelectLaws CH MAJ.
Proof. by split. Qed.

(** The eight additions that end a compression. *)
Definition add_state (st : list Z) (r : Fips.regs) : list Z :=
  [st !!! 0%nat +w ra r; st !!! 1%nat +w rb r; st !!! 2%nat +w rc r; st !!! 3%nat +w rd r;
   st !!! 4%nat +w re r; st !!! 5%nat +w rf r; st !!! 6%nat +w rg r; st !!! 7%nat +w rh r]%word.

Lemma add_state_compress st M :
  length st = 8%nat -> add_state st (Fips.rounds M 64 (Fips.regs_of st)) = Fips.compress st M.
Proof. intros Hst. by rewrite compress_regs. Qed.
