(* ===== verification/GpuScan.v ===== *)
(** The launch of a scan kernel on a GPU, CUDA or OpenCL: the threads of the grid run
    in any interleaving over two buffers of device memory, the result counter and
    the matches.

    What a thread computes is private to it, so a thread is the list of its calls of
    [store_match_words]; a call is an atomic increment of the counter and, when the
    old value is below [max_results], nine stores to the slot of that number.  Every
    increment and every store is a step. *)
From stdpp Require Import base tactics list numbers relations.
From Stdlib Require Import ZArith Lia.
From S2P Require Import Prelude Words Fips Sha256d Scan GpuSha.

#[local] Open Scope Z_scope.

(** * The arguments of a scan kernel *)

Record scan_args := ScanArgs {
  fast : list Z; target : list Z; tail : list Z;
  start_nonce : Z; nonce_count : Z; nonces_per_thread : Z; max_results : Z;
}.

(** A call of [store_match_words]: the nonce and the eight hash words. *)
Definition match_t : Type := Z * list Z.

(** * The two device functions *)

Definition meets_target_words (h0 h1 h2 h3 h4 h5 h6 h7 t0 t1 t2 t3 t4 t5 t6 t7 : Z) : bool :=
  let h := bswap32 h7 in if h <? t7 then true else if t7 <? h then false else
  let h := bswap32 h6 in if h <? t6 then true else if t6 <? h then false else
  let h := bswap32 h5 in if h <? t5 then true else if t5 <? h then false else
  let h := bswap32 h4 in if h <? t4 then true else if t4 <? h then false else
  let h := bswap32 h3 in if h <? t3 then true else if t3 <? h then false else
  let h := bswap32 h2 in if h <? t2 then true else if t2 <? h then false else
  let h := bswap32 h1 in if h <? t1 then true else if t1 <? h then false else
  let h := bswap32 h0 in if h <? t0 then true else if t0 <? h then false else
  true.

(** The call with both arrays spread over its sixteen parameters. *)
Definition meets_words (h t : list Z) : bool :=
  meets_target_words (h !!! 0%nat) (h !!! 1%nat) (h !!! 2%nat) (h !!! 3%nat)
    (h !!! 4%nat) (h !!! 5%nat) (h !!! 6%nat) (h !!! 7%nat)
    (t !!! 0%nat) (t !!! 1%nat) (t !!! 2%nat) (t !!! 3%nat)
    (t !!! 4%nat) (t !!! 5%nat) (t !!! 6%nat) (t !!! 7%nat).

Lemma meets_words_spec h t : meets_words h t = hash_words_meet_target h t.
Proof. reflexivity. Qed.

(** The body of [store_match_words] after the increment returned [idx]: the stores
    it makes, as (index, value). *)
Definition store_match_words (idx max_results : Z) (m : match_t) : list (Z * Z) :=
  let '(nonce, h) := m in
  if idx <? max_results then
    let base := u32 (idx * 9) in
    [(base, nonce); (add32 base 1, h !!! 0%nat); (add32 base 2, h !!! 1%nat);
     (add32 base 3, h !!! 2%nat); (add32 base 4, h !!! 3%nat); (add32 base 5, h !!! 4%nat);
     (add32 base 6, h !!! 5%nat); (add32 base 7, h !!! 6%nat); (add32 base 8, h !!! 7%nat)]
  else [].

(** * Threads and memory *)

(** The stores a thread has left of the call it is in, and its later calls. *)
Record thread := Thread { stores : list (Z * Z); calls : list match_t }.

(** [counted] is a ghost: the calls counted so far, in the order of the counter. *)
Record device := Device {
  result_count : Z; matches_buf : list Z; threads : list thread; counted : list match_t;
}.

Inductive device_step (max : Z) (s : device) : device -> Prop :=
  | ds_count i m rest :
      threads s !! i = Some (Thread [] (m :: rest)) ->
      device_step max s
        (Device (add32 (result_count s) 1) (matches_buf s)
           (<[i := Thread (store_match_words (result_count s) max m) rest]> (threads s))
           (counted s ++ [m]))
  | ds_store i a v ws rest :
      threads s !! i = Some (Thread ((a, v) :: ws) rest) ->
      device_step max s
        (Device (result_count s) (<[Z.to_nat a := v]> (matches_buf s))
           (<[i := Thread ws rest]> (threads s)) (counted s)).

(** The launch: the counter set to zero, whatever is in the other buffer. *)
Definition launched (buf : list Z) (work : list (list match_t)) : device :=
  Device 0 buf (Thread [] <$> work) [].
Definition completed (s : device) : Prop := Forall (fun t => t = Thread [] []) (threads s).

(** What the host reads back: the slots below the smaller of the counter and
    [max_results]. *)
Definition read_slot (buf : list Z) (base : nat) : match_t :=
  (buf !!! base, take 8 (drop (base + 1) buf)).
Definition limited (count max : Z) : Z := if count <? max then count else max.
Definition read_matches (slot_index : nat -> nat) (s : device) (max : Z) : list match_t :=
  (fun i => read_slot (matches_buf s) (slot_index i)) <$> seq 0 (Z.to_nat (limited (result_count s) max)).

(** * Termination *)

Definition thread_left (t : thread) : nat := (length (stores t) + 10 * length (calls t))%nat.
Definition device_left (s : device) : nat := sum_list (thread_left <$> threads s).

Lemma device_left_insert i t t' (ts : list thread) :
  ts !! i = Some t ->
  (sum_list (thread_left <$> <[i := t']> ts) + thread_left t = sum_list (thread_left <$> ts) + thread_left t')%nat.
Proof.
  intros H. rewrite list_fmap_insert. apply sum_list_insert. by rewrite list_lookup_fmap, H.
Qed.

Lemma length_store_match idx max m : (length (store_match_words idx max m) <= 9)%nat.
Proof. destruct m as [nonce h]. unfold store_match_words. destruct (_ <? _); cbn; lia. Qed.

Lemma device_step_left max s s' : device_step max s s' -> (device_left s' < device_left s)%nat.
Proof.
  intros [i m rest Hi|i a v ws rest Hi]; unfold device_left; cbn [threads].
  - pose proof (device_left_insert i _ (Thread (store_match_words (result_count s) max m) rest) _ Hi) as H.
    pose proof (length_store_match (result_count s) max m).
    unfold thread_left at 2 4 in H. cbn [stores calls length] in H. lia.
  - pose proof (device_left_insert i _ (Thread ws rest) _ Hi) as H.
    unfold thread_left at 2 4 in H. cbn [stores calls length] in H. lia.
Qed.

Lemma thread_finished t : thread_left t = 0%nat -> t = Thread [] [].
Proof.
  destruct t as [st cs]. unfold thread_left. cbn [stores calls]. intros H.
  destruct st, cs; cbn in H; done || lia.
Qed.

Lemma device_step_exists max s : completed s \/ exists s', device_step max s s'.
Proof.
  unfold completed. destruct (decide (Forall (fun t => thread_left t = 0%nat) (threads s))) as [H|H].
  - left. eapply Forall_impl; [exact H|]. exact thread_finished.
  - right. apply not_Forall_Exists in H; [|apply _].
    apply list.Exists_exists in H as ([st cs] & Hin & Hne). apply list_elem_of_lookup_1 in Hin as [i Hi].
    destruct st as [|[a v] ws]; [destruct cs as [|m rest]|].
    + by destruct Hne.
    + eexists. by apply (ds_count max s i m rest).
    + eexists. by apply (ds_store max s i a v ws cs).
Qed.

Lemma launch_completes max s : exists s', rtc (device_step max) s s' /\ completed s'.
Proof.
  remember (device_left s) as n eqn:Hn. revert s Hn.
  induction (lt_wf n) as [n _ IH]. intros s ->.
  destruct (device_step_exists max s) as [Hc|[s1 H1]]; [by exists s|].
  destruct (IH _ (device_step_left _ _ _ H1) s1 eq_refl) as (s' & Hr & Hc).
  exists s'. split; [by apply rtc_l with s1|done].
Qed.

(** * Interleavings *)

(** The nine words of a slot. *)
Definition slot (m : match_t) : list Z :=
  let '(nonce, h) := m in
  [nonce; h !!! 0%nat; h !!! 1%nat; h !!! 2%nat; h !!! 3%nat;
   h !!! 4%nat; h !!! 5%nat; h !!! 6%nat; h !!! 7%nat].

Lemma length_slots (l : list match_t) : length (concat (slot <$> l)) = (9 * length l)%nat.
Proof.
  induction l as [|m l IH]; [done|].
  change (concat (slot <$> m :: l)) with (slot m ++ concat (slot <$> l)).
  rewrite length_app, IH. destruct m as [nonce h]. cbn [slot length]. lia.
Qed.

Lemma calls_launched (l : list (list match_t)) : calls <$> (Thread [] <$> l) = l.
Proof. induction l as [|c l IH]; [done|]. rewrite !fmap_cons. by f_equal. Qed.

Section interleaving.
Context (max : Z) (buf : list Z) (work : list (list match_t)).
Context (Hslots : 9 * max <= 2 ^ 32) (Hbuf : length buf = Z.to_nat (9 * max)).
Context (Hwork : Z.of_nat (length (concat work)) < 2 ^ 32).

Lemma store_match_imap idx m :
  0 <= idx < max ->
  store_match_words idx max m =
  imap (fun k v => (Z.of_nat (9 * Z.to_nat idx + k), v)) (slot m).
Proof.
  intros Hi. destruct m as [nonce h]. unfold store_match_words.
  rewrite (proj2 (Z.ltb_lt idx max)) by lia. unfold add32.
  rewrite (u32_small (idx * 9)) by (unfold is_u32; lia).
  cbn [slot imap]. unfold compose. cbn [imap].
  rewrite !u32_small by (unfold is_u32; lia).
  repeat f_equal; lia.
Qed.

(** The words the counted calls have to leave in the buffer. *)
Definition expected (s : device) : list Z := concat (slot <$> take (Z.to_nat max) (counted s)).
Definition storing (s : device) (a v : Z) : Prop :=
  exists i t, threads s !! i = Some t /\ (a, v) ∈ stores t.

Record device_inv (s : device) : Prop := {
  di_count : result_count s = Z.of_nat (length (counted s));
  di_calls : counted s ++ concat (calls <$> threads s) ≡ₚ concat work;
  di_buf : length (matches_buf s) = Z.to_nat (9 * max);
  di_stores : forall a v, storing s a v -> 0 <= a /\ expected s !! Z.to_nat a = Some v;
  di_memory : forall k v, expected s !! k = Some v ->
    matches_buf s !! k = Some v \/ storing s (Z.of_nat k) v;
}.

Lemma calls_insert i t t' (ts : list thread) c :
  ts !! i = Some t -> calls t = c ++ calls t' ->
  concat (calls <$> ts) ≡ₚ c ++ concat (calls <$> <[i := t']> ts).
Proof.
  intros Hi Hc. assert (Hl : (i < length ts)%nat) by (by eapply lookup_lt_Some).
  rewrite insert_take_drop by done.
  rewrite <- (take_drop_middle ts i t Hi) at 1.
  rewrite !fmap_app, !fmap_cons, !concat_app. cbn [concat]. rewrite Hc.
  rewrite <- !app_assoc. rewrite !(Permutation_app_comm (concat (calls <$> take i ts))).
  by rewrite <- !app_assoc.
Qed.

Lemma storing_insert s i t t' a v count b cs :
  threads s !! i = Some t ->
  storing (Device count b (<[i := t']> (threads s)) cs) a v <->
  (a, v) ∈ stores t' \/ exists j u, j <> i /\ threads s !! j = Some u /\ (a, v) ∈ stores u.
Proof.
  intros Hi. unfold storing. cbn [threads]. split.
  - intros (j & u & Hj & Hin). destruct (decide (j = i)) as [->|Hne].
    + rewrite list_lookup_insert_eq in Hj by (by eapply lookup_lt_Some). left. by injection Hj as <-.
    + rewrite list_lookup_insert_ne in Hj by done. right. by exists j, u.
  - intros [Hin|(j & u & Hne & Hj & Hin)].
    + exists i, t'. split; [|done]. rewrite list_lookup_insert_eq; [done|by eapply lookup_lt_Some].
    + exists j, u. by rewrite list_lookup_insert_ne.
Qed.

Lemma launched_inv : device_inv (launched buf work).
Proof.
  split; cbn [launched result_count counted matches_buf threads].
  - done.
  - cbn [app]. by rewrite calls_launched.
  - done.
  - intros a v (i & t & Hi & Hin). cbn [launched threads] in Hi. rewrite list_lookup_fmap in Hi.
    destruct (work !! i); [|done]. injection Hi as <-. by apply not_elem_of_nil in Hin.
  - unfold expected. cbn [launched counted]. by rewrite take_nil.
Qed.

Lemma expected_lt s k v : expected s !! k = Some v -> (k < Z.to_nat (9 * max))%nat.
Proof.
  intros H%lookup_lt_Some. unfold expected in H. rewrite length_slots, length_take in H. lia.
Qed.

Lemma count_inv s i m rest :
  threads s !! i = Some (Thread [] (m :: rest)) -> device_inv s ->
  device_inv (Device (add32 (result_count s) 1) (matches_buf s)
    (<[i := Thread (store_match_words (result_count s) max m) rest]> (threads s)) (counted s ++ [m])).
Proof.
  intros Hi [Hc Hp Hb Hs Hm]. set (n := length (counted s)) in *.
  set (s' := Device _ _ _ _).
  assert (Hperm : counted s' ++ concat (calls <$> threads s') ≡ₚ concat work).
  { rewrite <- Hp. subst s'. cbn [counted threads].
    rewrite (calls_insert i _ (Thread (store_match_words (result_count s) max m) rest) _ [m] Hi) by done.
    by rewrite app_assoc. }
  assert (Hn : Z.of_nat n + 1 < 2 ^ 32).
  { pose proof (Permutation_length Hperm) as Hl.
    subst s'. cbn [counted] in Hl. rewrite !length_app in Hl. cbn [length] in Hl. lia. }
  assert (Hexp : expected s' = expected s ++ (if (n <? Z.to_nat max)%nat then slot m else [])).
  { unfold expected. subst s'. cbn [counted]. rewrite take_app, fmap_app, concat_app. f_equal.
    fold n. destruct (Nat.ltb_spec n (Z.to_nat max)).
    - rewrite take_ge by (cbn [length]; lia). cbn. by rewrite app_nil_r.
    - by replace (Z.to_nat max - n)%nat with O by lia. }
  assert (Hlen : (n <= Z.to_nat max)%nat -> length (expected s) = (9 * n)%nat).
  { intros Hle. unfold expected. rewrite length_slots, length_take. fold n. lia. }
  assert (Hnew : forall a v, (a, v) ∈ store_match_words (result_count s) max m <->
    exists k, (n < Z.to_nat max)%nat /\ a = Z.of_nat (9 * n + k) /\ slot m !! k = Some v).
  { intros a v. destruct (decide (n < Z.to_nat max)%nat) as [Hlt|Hge].
    - rewrite store_match_imap, Hc, Nat2Z.id by lia. rewrite elem_of_lookup_imap. split.
      + intros (k & x & [= -> ->] & Hk). by exists k.
      + intros (k & _ & -> & Hk). by exists k, v.
    - destruct m as [nonce h]. unfold store_match_words. rewrite (proj2 (Z.ltb_ge _ _)) by lia.
      split; [by intros ?%not_elem_of_nil|]. intros (k & ? & _). lia. }
  split; [| exact Hperm | exact Hb | |].
  - subst s'. cbn [result_count counted]. unfold add32. rewrite Hc, length_app. fold n. cbn [length].
    rewrite u32_small by (unfold is_u32; lia). lia.
  - intros a v Hst. rewrite Hexp. apply (storing_insert s i _ _ a v _ _ _ Hi) in Hst as [Hin|(j & u & Hne & Hj & Hin)].
    + apply Hnew in Hin as (k & Hlt & -> & Hk). split; [lia|].
      rewrite Nat2Z.id, (proj2 (Nat.ltb_lt _ _)) by done.
      rewrite lookup_app_r by (rewrite Hlen; lia). rewrite Hlen by lia.
      by replace (9 * n + k - 9 * n)%nat with k by lia.
    + destruct (Hs a v) as [Ha Hl]; [by exists j, u|]. split; [done|]. by apply lookup_app_l_Some.
  - intros k v Hk. rewrite Hexp in Hk. apply lookup_app_Some in Hk as [Hk|[Hge Hk]].
    + destruct (Hm k v Hk) as [Hbk|(j & u & Hj & Hin)]; [by left|]. right.
      apply (storing_insert s i _ _ _ _ _ _ _ Hi). right. exists j, u. split; [|done].
      intros ->. rewrite Hi in Hj. injection Hj as <-. by apply not_elem_of_nil in Hin.
    + right. apply (storing_insert s i _ _ _ _ _ _ _ Hi). left. apply Hnew.
      destruct (Nat.ltb_spec n (Z.to_nat max)); [|done].
      rewrite Hlen in Hge, Hk by lia. exists (k - 9 * n)%nat. split_and!; [done|lia|done].
Qed.

Lemma store_inv s i a v ws rest :
  threads s !! i = Some (Thread ((a, v) :: ws) rest) -> device_inv s ->
  device_inv (Device (result_count s) (<[Z.to_nat a := v]> (matches_buf s))
    (<[i := Thread ws rest]> (threads s)) (counted s)).
Proof.
  intros Hi [Hc Hp Hb Hs Hm]. set (s' := Device _ _ _ _).
  assert (He : expected s' = expected s) by done.
  destruct (Hs a v) as [Ha Hav]; [exists i; eexists; split; [exact Hi|by left]|].
  pose proof (expected_lt s _ _ Hav) as Hlt.
  split.
  - exact Hc.
  - rewrite <- Hp. subst s'. cbn [counted threads].
    by rewrite (calls_insert i _ (Thread ws rest) _ [] Hi).
  - subst s'. cbn [matches_buf]. by rewrite length_insert.
  - intros a' v' Hst. rewrite He. apply Hs.
    apply (storing_insert s i _ _ a' v' _ _ _ Hi) in Hst as [Hin|(j & u & _ & Hj & Hin)].
    + exists i. eexists. split; [exact Hi|by right].
    + by exists j, u.
  - intros k v' Hk. rewrite He in Hk. subst s'. cbn [matches_buf].
    destruct (decide (k = Z.to_nat a)) as [->|Hne].
    + left. rewrite list_lookup_insert_eq by lia. congruence.
    + rewrite list_lookup_insert_ne by done.
      destruct (Hm k v' Hk) as [Hbk|(j & u & Hj & Hin)]; [by left|right].
      apply (storing_insert s i _ _ _ _ _ _ _ Hi).
      destruct (decide (j = i)) as [->|Hji]; [|right; by exists j, u].
      left. rewrite Hi in Hj. injection Hj as <-. cbn [stores] in Hin |- *.
      apply list_elem_of_In in Hin. destruct Hin as [[= Hak _]|Hin]; [lia|by apply list_elem_of_In].
Qed.

Lemma run_inv s : rtc (device_step max) (launched buf work) s -> device_inv s.
Proof.
  revert s. refine (rtc_ind_r device_inv _ launched_inv _). intros s1 s2 _ H IH.
  destruct H as [i m rest Hi|i a v ws rest Hi]; [by apply count_inv|by apply store_inv].
Qed.
End interleaving.

(** * The results *)

Lemma read_slot_app pre m post :
  length (snd m) = 8%nat -> read_slot (pre ++ slot m ++ post) (length pre) = m.
Proof.
  destruct m as [nonce h]. cbn [snd]. intros Hl. unfold read_slot.
  rewrite lookup_total_app_r, Nat.sub_diag by lia.
  rewrite drop_app, drop_ge by lia. replace (length pre + 1 - length pre)%nat with 1%nat by lia.
  by destruct_list h Hl.
Qed.

Lemma read_slots (pre post : list match_t) m buf rest :
  Forall (fun m : match_t => length (snd m) = 8%nat) (pre ++ m :: post) ->
  buf = concat (slot <$> pre ++ m :: post) ++ rest ->
  read_slot buf (9 * length pre) = m.
Proof.
  intros HF ->. rewrite fmap_app, concat_app, <- app_assoc, <- length_slots.
  change (concat (slot <$> m :: post)) with (slot m ++ concat (slot <$> post)).
  rewrite <- app_assoc. apply read_slot_app. apply Forall_app in HF as [_ HF]. by inversion HF.
Qed.

(** Whatever the interleaving, the slots the host reads are the first calls counted,
    in the order of the counter, and the calls counted are all the calls made. *)
Lemma completed_reads max buf (work : list (list match_t)) slot_index s :
  0 <= max -> 9 * max <= 2 ^ 32 -> length buf = Z.to_nat (9 * max) ->
  Z.of_nat (length (concat work)) < 2 ^ 32 ->
  Forall (fun m : match_t => length (snd m) = 8%nat) (concat work) ->
  (forall i, Z.of_nat i < max -> slot_index i = (9 * i)%nat) ->
  rtc (device_step max) (launched buf work) s -> completed s ->
  counted s ≡ₚ concat work /\ result_count s = Z.of_nat (length (concat work)) /\
  read_matches slot_index s max = take (Z.to_nat max) (counted s).
Proof.
  intros H0 Hmax Hbuf Hwork H8 Hidx Hr Hc.
  destruct (run_inv max buf work Hmax Hbuf Hwork s Hr) as [Hn Hp Hb _ Hm].
  assert (Hcalls : concat (calls <$> threads s) = []).
  { clear Hp Hm Hn. unfold completed in Hc. induction Hc as [|t ts -> _ IH]; [done|]. exact IH. }
  rewrite Hcalls, app_nil_r in Hp. rewrite <- (Permutation_length Hp).
  split; [exact Hp|]. split; [exact Hn|].
  assert (HF : Forall (fun m : match_t => length (snd m) = 8%nat) (counted s)) by by rewrite Hp.
  assert (Hmem : matches_buf s = expected max s ++ drop (length (expected max s)) (matches_buf s)).
  { rewrite <- (take_drop (length (expected max s)) (matches_buf s)) at 1. f_equal.
    apply list_eq_same_length with (length (expected max s)); [done| |].
    - rewrite length_take, Hb. unfold expected. rewrite length_slots, length_take. lia.
    - intros i x y Hi Hx Hy. rewrite lookup_take_lt in Hx by done.
      destruct (Hm i y Hy) as [Hbk|(j & t & Hj & Hin)]; [congruence|].
      unfold completed in Hc. rewrite list.Forall_lookup in Hc. rewrite (Hc j t Hj) in Hin.
      by apply not_elem_of_nil in Hin. }
  unfold read_matches, limited. rewrite Hn.
  set (l := take (Z.to_nat max) (counted s)).
  assert (Hlen : Z.to_nat (if Z.of_nat (length (counted s)) <? max then Z.of_nat (length (counted s)) else max)
    = length l).
  { unfold l. rewrite length_take. destruct (Z.ltb_spec (Z.of_nat (length (counted s))) max); lia. }
  rewrite Hlen. apply list_eq. intros i. rewrite list_lookup_fmap.
  destruct (decide (i < length l)%nat) as [Hi|Hi].
  2:{ rewrite !lookup_ge_None_2; [done|lia|rewrite length_seq; lia]. }
  rewrite lookup_seq_lt by done. cbn [fmap option_fmap option_map].
  destruct (lookup_lt_is_Some_2 l i Hi) as [m Hlm]. rewrite Hlm. f_equal. cbn [Nat.add].
  assert (Hlmax : (length l <= Z.to_nat max)%nat) by (unfold l; rewrite length_take; lia).
  rewrite Hidx by lia.
  replace i with (length (take i l)) at 1 by (rewrite length_take; lia).
  apply (read_slots _ (drop (S i) l) _ _ (drop (length (expected max s)) (matches_buf s))).
  - rewrite take_drop_middle by done. unfold l. by apply Forall_take.
  - rewrite take_drop_middle by done. exact Hmem.
Qed.

(** * The nonces of a thread

    Thread [g] of a launch takes [per] nonces from [per * g] on, the last thread
    what is left. *)
Definition thread_nonces (start : Z) (count per g : nat) : list Z :=
  nonces start (per * g) (per `min` (count - per * g)).

Lemma thread_nonces_cover start count per G :
  concat (thread_nonces start count per <$> seq 0 G) = nonces start 0 ((per * G) `min` count).
Proof.
  induction G as [|G IH]; [by rewrite Nat.mul_0_r|].
  rewrite seq_S, fmap_app, concat_app, IH.
  change (concat (thread_nonces start count per <$> [(0 + G)%nat]))
    with (thread_nonces start count per G ++ []).
  rewrite app_nil_r. unfold thread_nonces.
  destruct (decide (per * G <= count)%nat) as [Hle|Hgt].
  - rewrite (Nat.min_l (per * G) count) by exact Hle.
    change (per * G)%nat with (0 + per * G)%nat at 2. rewrite <- nonces_app. f_equal. lia.
  - replace (per `min` (count - per * G))%nat with O by lia.
    change (nonces start (per * G) 0) with (@nil Z). rewrite app_nil_r. f_equal. lia.
Qed.

(** The calls a thread makes for a list of nonces. *)
Definition hits (hash : Z -> list Z) (target : list Z) (ns : list Z) : list match_t :=
  (fun nonce => (nonce, hash nonce)) <$> filter (meets hash target) ns.

Lemma hits_app hash t l1 l2 : hits hash t (l1 ++ l2) = hits hash t l1 ++ hits hash t l2.
Proof. unfold hits. by rewrite list.filter_app, fmap_app. Qed.
Lemma hits_concat hash t ls : concat (hits hash t <$> ls) = hits hash t (concat ls).
Proof.
  induction ls as [|l ls IH]; [done|].
  change (concat (hits hash t <$> l :: ls)) with (hits hash t l ++ concat (hits hash t <$> ls)).
  change (concat (l :: ls)) with (l ++ concat ls). by rewrite hits_app, IH.
Qed.
Lemma hits_matches hash t start n :
  hits hash t (nonces start 0 n) = (fun nonce => (nonce, hash nonce)) <$> matches hash t start n.
Proof. done. Qed.

(** The launch of [G] threads that cover the range: whatever the interleaving, the
    host reads the first [max] matches of the range, in some order. *)
Lemma launch_exact hash t start count per G max buf (work : list (list match_t)) slot_index s :
  (forall nonce, length (hash nonce) = 8%nat) ->
  Z.of_nat count < 2 ^ 32 -> (count <= per * G)%nat ->
  work = (fun g => hits hash t (thread_nonces start count per g)) <$> seq 0 G ->
  0 <= max -> 9 * max <= 2 ^ 32 -> length buf = Z.to_nat (9 * max) ->
  (forall i, Z.of_nat i < max -> slot_index i = (9 * i)%nat) ->
  rtc (device_step max) (launched buf work) s -> completed s ->
  exists order, order ≡ₚ matches hash t start count /\
    result_count s = Z.of_nat (length order) /\
    read_matches slot_index s max = (fun nonce => (nonce, hash nonce)) <$> take (Z.to_nat max) order.
Proof.
  intros Hl Hc HG Hw H0 Hmax Hbuf Hidx Hr Hs.
  assert (Hall : concat work = (fun nonce => (nonce, hash nonce)) <$> matches hash t start count).
  { rewrite Hw. rewrite (list_fmap_compose (thread_nonces start count per) (hits hash t)), hits_concat.
    rewrite thread_nonces_cover. by rewrite Nat.min_r. }
  assert (Hlen : (length (concat work) <= count)%nat).
  { rewrite Hall, length_fmap. unfold matches. etransitivity; [apply list.length_filter|].
    unfold nonces. by rewrite length_fmap, length_seq. }
  destruct (completed_reads max buf work slot_index s) as (Hp & Hn & Hread); try done; [lia| |].
  { rewrite Hall. apply list.Forall_forall. intros m (x & -> & _)%list_elem_of_fmap. apply Hl. }
  rewrite Hall in Hp. apply Permutation_map_inv in Hp as (order & Heq & Ho).
  exists order. split; [by symmetry|]. split.
  - rewrite Hn, Hall, length_fmap. by rewrite (Permutation_length Ho).
  - rewrite Hread, Heq. by rewrite <- fmap_take.
Qed.

(** * The scheduler

    A device runs a launch to its end in some interleaving of its own; the client's
    theorems are proved for every such device. *)
Class Gpu := { run_device : Z -> device -> device }.
Class GpuLaws (G : Gpu) : Prop := {
  run_device_steps max s : rtc (device_step max) s (run_device max s);
  run_device_completes max s : completed (run_device max s);
}.

(** A device that runs its threads one after the other, for the evaluations. *)
Definition step_thread (max : Z) (s : device) (i : nat) (t : thread) : device :=
  match t with
  | Thread ((a, v) :: ws) rest =>
      Device (result_count s) (<[Z.to_nat a := v]> (matches_buf s)) (<[i := Thread ws rest]> (threads s)) (counted s)
  | Thread [] (m :: rest) =>
      Device (add32 (result_count s) 1) (matches_buf s)
        (<[i := Thread (store_match_words (result_count s) max m) rest]> (threads s)) (counted s ++ [m])
  | Thread [] [] => s
  end.
Definition unfinished (t : thread) : Prop := thread_left t <> 0%nat.
Fixpoint run_threads (fuel : nat) (max : Z) (s : device) : device :=
  match fuel with
  | O => s
  | S fuel =>
      match list_find unfinished (threads s) with
      | Some (i, t) => run_threads fuel max (step_thread max s i t)
      | None => s
      end
  end.
Definition seq_gpu : Gpu := {| run_device max s := run_threads (device_left s) max s |}.

Lemma step_thread_step max s i t :
  threads s !! i = Some t -> unfinished t -> device_step max s (step_thread max s i t).
Proof.
  intros Hi Hu. destruct t as [[|[a v] ws] [|m rest]]; cbn [step_thread].
  - by destruct Hu.
  - by apply (ds_count max s i m rest).
  - by apply (ds_store max s i a v ws []).
  - by apply (ds_store max s i a v ws (m :: rest)).
Qed.

Lemma run_threads_spec fuel max s :
  (device_left s <= fuel)%nat ->
  rtc (device_step max) s (run_threads fuel max s) /\ completed (run_threads fuel max s).
Proof.
  revert s. induction fuel as [|fuel IH]; intros s Hf; cbn [run_threads].
  - split; [done|]. destruct (device_step_exists max s) as [Hc|[s' H%device_step_left]]; [done|lia].
  - destruct (list_find unfinished (threads s)) as [[i t]|] eqn:E.
    + apply list_find_Some in E as (Hi & Hu & _). pose proof (step_thread_step max s i t Hi Hu) as Hs.
      destruct (IH (step_thread max s i t)) as [Hr Hc]; [apply device_step_left in Hs; lia|].
      split; [by apply rtc_l with (step_thread max s i t)|done].
    + split; [done|]. apply list_find_None in E. eapply Forall_impl; [exact E|].
      intros t Ht. apply thread_finished. unfold unfinished in Ht. lia.
Qed.

Lemma seq_gpu_laws : GpuLaws seq_gpu.
Proof. split; intros max s; apply (run_threads_spec (device_left s) max s), Nat.le_refl. Qed.
