(* ===== verification/CudaKernel.v ===== *)
(** The CUDA scan kernels of src/src/cuda_sha256d_kernel.cu, and what a thread of
    each does for the nonces it is given. *)
From stdpp Require Import base tactics list numbers strings.
From Stdlib Require Import ZArith Lia.
From S2P Require Import Prelude Words Fips Sha256d Scan Simd GpuSha GpuScan.

#[local] Open Scope Z_scope.

(** * The PTX instruction [lop3.b32]

    The kernel text reaches it through inline assembly.  The ISA manual gives it
    bit by bit: the three operand bits select a bit of the immediate. *)
Class PTX := { lop3_b32 : Z -> Z -> Z -> Z -> Z }.
Class PTXLaws (P : PTX) : Prop := {
  lop3_u32 x y z lut : is_u32 x -> is_u32 y -> is_u32 z -> is_u32 (lop3_b32 x y z lut);
  lop3_bits x y z lut i :
    is_u32 x -> is_u32 y -> is_u32 z -> 0 <= i < 32 ->
    Z.testbit (lop3_b32 x y z lut) i =
    Z.testbit lut (4 * Z.b2z (Z.testbit x i) + 2 * Z.b2z (Z.testbit y i) + Z.b2z (Z.testbit z i));
}.

(** Disjunctive form of the table, for the witnesses. *)
Definition ref_ptx : PTX := {|
  lop3_b32 x y z lut :=
    let lit (b : bool) v := if b then v else not32 v in
    let term k bx b_y bz :=
      if Z.testbit lut k then Z.land (Z.land (lit bx x) (lit b_y y)) (lit bz z) else 0 in
    Z.lor (Z.lor (Z.lor (term 0 false false false) (term 1 false false true))
                 (Z.lor (term 2 false true false) (term 3 false true true)))
          (Z.lor (Z.lor (term 4 true false false) (term 5 true false true))
                 (Z.lor (term 6 true true false) (term 7 true true true)))
|}.

Section lop3.
Context `{P : PTX}.
Definition ch_lop3 (x y z : Z) : Z := lop3_b32 x y z 0xca.
Definition maj_lop3 (x y z : Z) : Z := lop3_b32 x y z 0xe8.
End lop3.

(** * Compression *)

Section compress.
Context (CH MAJ : Z -> Z -> Z -> Z).
#[local] Abbreviation ROUND := (GpuSha.ROUND CH MAJ).

(** The macro updates its arguments: the eight state words and the sixteen message
    words. *)
Definition SHA256_COMPRESS (s m : list Z) : list Z * list Z :=
  let l := Locals (Fips.Regs (s !!! 0%nat) (s !!! 1%nat) (s !!! 2%nat) (s !!! 3%nat)
                             (s !!! 4%nat) (s !!! 5%nat) (s !!! 6%nat) (s !!! 7%nat)) m
    |> ROUND va vb vc vd ve vf vg vh (w 0) 0x428a2f98
    |> ROUND vh va vb vc vd ve vf vg (w 1) 0x71374491
    |> ROUND vg vh va vb vc vd ve vf (w 2) 0xb5c0fbcf
    |> ROUND vf vg vh va vb vc vd ve (w 3) 0xe9b5dba5
    |> ROUND ve vf vg vh va vb vc vd (w 4) 0x3956c25b
    |> ROUND vd ve vf vg vh va vb vc (w 5) 0x59f111f1
    |> ROUND vc vd ve vf vg vh va vb (w 6) 0x923f82a4
    |> ROUND vb vc vd ve vf vg vh va (w 7) 0xab1c5ed5
    |> ROUND va vb vc vd ve vf vg vh (w 8) 0xd807aa98
    |> ROUND vh va vb vc vd ve vf vg (w 9) 0x12835b01
    |> ROUND vg vh va vb vc vd ve vf (w 10) 0x243185be
    |> ROUND vf vg vh va vb vc vd ve (w 11) 0x550c7dc3
    |> ROUND ve vf vg vh va vb vc vd (w 12) 0x72be5d74
    |> ROUND vd ve vf vg vh va vb vc (w 13) 0x80deb1fe
    |> ROUND vc vd ve vf vg vh va vb (w 14) 0x9bdc06a7
    |> ROUND vb vc vd ve vf vg vh va (w 15) 0xc19bf174
    |> ROUND va vb vc vd ve vf vg vh (MSG 0 1 9 14) 0xe49b69c1
    |> ROUND vh va vb vc vd ve vf vg (MSG 1 2 10 15) 0xefbe4786
    |> ROUND vg vh va vb vc vd ve vf (MSG 2 3 11 0) 0x0fc19dc6
    |> ROUND vf vg vh va vb vc vd ve (MSG 3 4 12 1) 0x240ca1cc
    |> ROUND ve vf vg vh va vb vc vd (MSG 4 5 13 2) 0x2de92c6f
    |> ROUND vd ve vf vg vh va vb vc (MSG 5 6 14 3) 0x4a7484aa
    |> ROUND vc vd ve vf vg vh va vb (MSG 6 7 15 4) 0x5cb0a9dc
    |> ROUND vb vc vd ve vf vg vh va (MSG 7 8 0 5) 0x76f988da
    |> ROUND va vb vc vd ve vf vg vh (MSG 8 9 1 6) 0x983e5152
    |> ROUND vh va vb vc vd ve vf vg (MSG 9 10 2 7) 0xa831c66d
    |> ROUND vg vh va vb vc vd ve vf (MSG 10 11 3 8) 0xb00327c8
    |> ROUND vf vg vh va vb vc vd ve (MSG 11 12 4 9) 0xbf597fc7
    |> ROUND ve vf vg vh va vb vc vd (MSG 12 13 5 10) 0xc6e00bf3
    |> ROUND vd ve vf vg vh va vb vc (MSG 13 14 6 11) 0xd5a79147
    |> ROUND vc vd ve vf vg vh va vb (MSG 14 15 7 12) 0x06ca6351
    |> ROUND vb vc vd ve vf vg vh va (MSG 15 0 8 13) 0x14292967
    |> ROUND va vb vc vd ve vf vg vh (MSG 0 1 9 14) 0x27b70a85
    |> ROUND vh va vb vc vd ve vf vg (MSG 1 2 10 15) 0x2e1b2138
    |> ROUND vg vh va vb vc vd ve vf (MSG 2 3 11 0) 0x4d2c6dfc
    |> ROUND vf vg vh va vb vc vd ve (MSG 3 4 12 1) 0x53380d13
    |> ROUND ve vf vg vh va vb vc vd (MSG 4 5 13 2) 0x650a7354
    |> ROUND vd ve vf vg vh va vb vc (MSG 5 6 14 3) 0x766a0abb
    |> ROUND vc vd ve vf vg vh va vb (MSG 6 7 15 4) 0x81c2c92e
    |> ROUND vb vc vd ve vf vg vh va (MSG 7 8 0 5) 0x92722c85
    |> ROUND va vb vc vd ve vf vg vh (MSG 8 9 1 6) 0xa2bfe8a1
    |> ROUND vh va vb vc vd ve vf vg (MSG 9 10 2 7) 0xa81a664b
    |> ROUND vg vh va vb vc vd ve vf (MSG 10 11 3 8) 0xc24b8b70
    |> ROUND vf vg vh va vb vc vd ve (MSG 11 12 4 9) 0xc76c51a3
    |> ROUND ve vf vg vh va vb vc vd (MSG 12 13 5 10) 0xd192e819
    |> ROUND vd ve vf vg vh va vb vc (MSG 13 14 6 11) 0xd6990624
    |> ROUND vc vd ve vf vg vh va vb (MSG 14 15 7 12) 0xf40e3585
    |> ROUND vb vc vd ve vf vg vh va (MSG 15 0 8 13) 0x106aa070
    |> ROUND va vb vc vd ve vf vg vh (MSG 0 1 9 14) 0x19a4c116
    |> ROUND vh va vb vc vd ve vf vg (MSG 1 2 10 15) 0x1e376c08
    |> ROUND vg vh va vb vc vd ve vf (MSG 2 3 11 0) 0x2748774c
    |> ROUND vf vg vh va vb vc vd ve (MSG 3 4 12 1) 0x34b0bcb5
    |> ROUND ve vf vg vh va vb vc vd (MSG 4 5 13 2) 0x391c0cb3
    |> ROUND vd ve vf vg vh va vb vc (MSG 5 6 14 3) 0x4ed8aa4a
    |> ROUND vc vd ve vf vg vh va vb (MSG 6 7 15 4) 0x5b9cca4f
    |> ROUND vb vc vd ve vf vg vh va (MSG 7 8 0 5) 0x682e6ff3
    |> ROUND va vb vc vd ve vf vg vh (MSG 8 9 1 6) 0x748f82ee
    |> ROUND vh va vb vc vd ve vf vg (MSG 9 10 2 7) 0x78a5636f
    |> ROUND vg vh va vb vc vd ve vf (MSG 10 11 3 8) 0x84c87814
    |> ROUND vf vg vh va vb vc vd ve (MSG 11 12 4 9) 0x8cc70208
    |> ROUND ve vf vg vh va vb vc vd (MSG 12 13 5 10) 0x90befffa
    |> ROUND vd ve vf vg vh va vb vc (MSG 13 14 6 11) 0xa4506ceb
    |> ROUND vc vd ve vf vg vh va vb (MSG 14 15 7 12) 0xbef9a3f7
    |> ROUND vb vc vd ve vf vg vh va (MSG 15 0 8 13) 0xc67178f2 in
  (add_state s (vars l), msg l).

(** Two compressions in lockstep, over two sets of variables. *)
Definition ROUND_PAIR (a b c d e f g h : var) (word : wexpr)
    (aa bb cc dd ee ff gg hh : var) (wword : wexpr) (k : Z) (l : locals * locals) : locals * locals :=
  (ROUND a b c d e f g h word k l.1, ROUND aa bb cc dd ee ff gg hh wword k l.2).

Definition SHA256_COMPRESS_DUAL (s m q x : list Z) : (list Z * list Z) * (list Z * list Z) :=
  let l := (Locals (Fips.Regs (s !!! 0%nat) (s !!! 1%nat) (s !!! 2%nat) (s !!! 3%nat)
                              (s !!! 4%nat) (s !!! 5%nat) (s !!! 6%nat) (s !!! 7%nat)) m,
            Locals (Fips.Regs (q !!! 0%nat) (q !!! 1%nat) (q !!! 2%nat) (q !!! 3%nat)
                              (q !!! 4%nat) (q !!! 5%nat) (q !!! 6%nat) (q !!! 7%nat)) x)
    |> ROUND_PAIR va vb vc vd ve vf vg vh (w 0)
                   va vb vc vd ve vf vg vh (w 0) 0x428a2f98
    |> ROUND_PAIR vh va vb vc vd ve vf vg (w 1)
                   vh va vb vc vd ve vf vg (w 1) 0x71374491
    |> ROUND_PAIR vg vh va vb vc vd ve vf (w 2)
                   vg vh va vb vc vd ve vf (w 2) 0xb5c0fbcf
    |> ROUND_PAIR vf vg vh va vb vc vd ve (w 3)
                   vf vg vh va vb vc vd ve (w 3) 0xe9b5dba5
    |> ROUND_PAIR ve vf vg vh va vb vc vd (w 4)
                   ve vf vg vh va vb vc vd (w 4) 0x3956c25b
    |> ROUND_PAIR vd ve vf vg vh va vb vc (w 5)
                   vd ve vf vg vh va vb vc (w 5) 0x59f111f1
    |> ROUND_PAIR vc vd ve vf vg vh va vb (w 6)
                   vc vd ve vf vg vh va vb (w 6) 0x923f82a4
    |> ROUND_PAIR vb vc vd ve vf vg vh va (w 7)
                   vb vc vd ve vf vg vh va (w 7) 0xab1c5ed5
    |> ROUND_PAIR va vb vc vd ve vf vg vh (w 8)
                   va vb vc vd ve vf vg vh (w 8) 0xd807aa98
    |> ROUND_PAIR vh va vb vc vd ve vf vg (w 9)
                   vh va vb vc vd ve vf vg (w 9) 0x12835b01
    |> ROUND_PAIR vg vh va vb vc vd ve vf (w 10)
                   vg vh va vb vc vd ve vf (w 10) 0x243185be
    |> ROUND_PAIR vf vg vh va vb vc vd ve (w 11)
                   vf vg vh va vb vc vd ve (w 11) 0x550c7dc3
    |> ROUND_PAIR ve vf vg vh va vb vc vd (w 12)
                   ve vf vg vh va vb vc vd (w 12) 0x72be5d74
    |> ROUND_PAIR vd ve vf vg vh va vb vc (w 13)
                   vd ve vf vg vh va vb vc (w 13) 0x80deb1fe
    |> ROUND_PAIR vc vd ve vf vg vh va vb (w 14)
                   vc vd ve vf vg vh va vb (w 14) 0x9bdc06a7
    |> ROUND_PAIR vb vc vd ve vf vg vh va (w 15)
                   vb vc vd ve vf vg vh va (w 15) 0xc19bf174
    |> ROUND_PAIR va vb vc vd ve vf vg vh (MSG 0 1 9 14)
                   va vb vc vd ve vf vg vh (MSG 0 1 9 14) 0xe49b69c1
    |> ROUND_PAIR vh va vb vc vd ve vf vg (MSG 1 2 10 15)
                   vh va vb vc vd ve vf vg (MSG 1 2 10 15) 0xefbe4786
    |> ROUND_PAIR vg vh va vb vc vd ve vf (MSG 2 3 11 0)
                   vg vh va vb vc vd ve vf (MSG 2 3 11 0) 0x0fc19dc6
    |> ROUND_PAIR vf vg vh va vb vc vd ve (MSG 3 4 12 1)
                   vf vg vh va vb vc vd ve (MSG 3 4 12 1) 0x240ca1cc
    |> ROUND_PAIR ve vf vg vh va vb vc vd (MSG 4 5 13 2)
                   ve vf vg vh va vb vc vd (MSG 4 5 13 2) 0x2de92c6f
    |> ROUND_PAIR vd ve vf vg vh va vb vc (MSG 5 6 14 3)
                   vd ve vf vg vh va vb vc (MSG 5 6 14 3) 0x4a7484aa
    |> ROUND_PAIR vc vd ve vf vg vh va vb (MSG 6 7 15 4)
                   vc vd ve vf vg vh va vb (MSG 6 7 15 4) 0x5cb0a9dc
    |> ROUND_PAIR vb vc vd ve vf vg vh va (MSG 7 8 0 5)
                   vb vc vd ve vf vg vh va (MSG 7 8 0 5) 0x76f988da
    |> ROUND_PAIR va vb vc vd ve vf vg vh (MSG 8 9 1 6)
                   va vb vc vd ve vf vg vh (MSG 8 9 1 6) 0x983e5152
    |> ROUND_PAIR vh va vb vc vd ve vf vg (MSG 9 10 2 7)
                   vh va vb vc vd ve vf vg (MSG 9 10 2 7) 0xa831c66d
    |> ROUND_PAIR vg vh va vb vc vd ve vf (MSG 10 11 3 8)
                   vg vh va vb vc vd ve vf (MSG 10 11 3 8) 0xb00327c8
    |> ROUND_PAIR vf vg vh va vb vc vd ve (MSG 11 12 4 9)
                   vf vg vh va vb vc vd ve (MSG 11 12 4 9) 0xbf597fc7
    |> ROUND_PAIR ve vf vg vh va vb vc vd (MSG 12 13 5 10)
                   ve vf vg vh va vb vc vd (MSG 12 13 5 10) 0xc6e00bf3
    |> ROUND_PAIR vd ve vf vg vh va vb vc (MSG 13 14 6 11)
                   vd ve vf vg vh va vb vc (MSG 13 14 6 11) 0xd5a79147
    |> ROUND_PAIR vc vd ve vf vg vh va vb (MSG 14 15 7 12)
                   vc vd ve vf vg vh va vb (MSG 14 15 7 12) 0x06ca6351
    |> ROUND_PAIR vb vc vd ve vf vg vh va (MSG 15 0 8 13)
                   vb vc vd ve vf vg vh va (MSG 15 0 8 13) 0x14292967
    |> ROUND_PAIR va vb vc vd ve vf vg vh (MSG 0 1 9 14)
                   va vb vc vd ve vf vg vh (MSG 0 1 9 14) 0x27b70a85
    |> ROUND_PAIR vh va vb vc vd ve vf vg (MSG 1 2 10 15)
                   vh va vb vc vd ve vf vg (MSG 1 2 10 15) 0x2e1b2138
    |> ROUND_PAIR vg vh va vb vc vd ve vf (MSG 2 3 11 0)
                   vg vh va vb vc vd ve vf (MSG 2 3 11 0) 0x4d2c6dfc
    |> ROUND_PAIR vf vg vh va vb vc vd ve (MSG 3 4 12 1)
                   vf vg vh va vb vc vd ve (MSG 3 4 12 1) 0x53380d13
    |> ROUND_PAIR ve vf vg vh va vb vc vd (MSG 4 5 13 2)
                   ve vf vg vh va vb vc vd (MSG 4 5 13 2) 0x650a7354
    |> ROUND_PAIR vd ve vf vg vh va vb vc (MSG 5 6 14 3)
                   vd ve vf vg vh va vb vc (MSG 5 6 14 3) 0x766a0abb
    |> ROUND_PAIR vc vd ve vf vg vh va vb (MSG 6 7 15 4)
                   vc vd ve vf vg vh va vb (MSG 6 7 15 4) 0x81c2c92e
    |> ROUND_PAIR vb vc vd ve vf vg vh va (MSG 7 8 0 5)
                   vb vc vd ve vf vg vh va (MSG 7 8 0 5) 0x92722c85
    |> ROUND_PAIR va vb vc vd ve vf vg vh (MSG 8 9 1 6)
                   va vb vc vd ve vf vg vh (MSG 8 9 1 6) 0xa2bfe8a1
    |> ROUND_PAIR vh va vb vc vd ve vf vg (MSG 9 10 2 7)
                   vh va vb vc vd ve vf vg (MSG 9 10 2 7) 0xa81a664b
    |> ROUND_PAIR vg vh va vb vc vd ve vf (MSG 10 11 3 8)
                   vg vh va vb vc vd ve vf (MSG 10 11 3 8) 0xc24b8b70
    |> ROUND_PAIR vf vg vh va vb vc vd ve (MSG 11 12 4 9)
                   vf vg vh va vb vc vd ve (MSG 11 12 4 9) 0xc76c51a3
    |> ROUND_PAIR ve vf vg vh va vb vc vd (MSG 12 13 5 10)
                   ve vf vg vh va vb vc vd (MSG 12 13 5 10) 0xd192e819
    |> ROUND_PAIR vd ve vf vg vh va vb vc (MSG 13 14 6 11)
                   vd ve vf vg vh va vb vc (MSG 13 14 6 11) 0xd6990624
    |> ROUND_PAIR vc vd ve vf vg vh va vb (MSG 14 15 7 12)
                   vc vd ve vf vg vh va vb (MSG 14 15 7 12) 0xf40e3585
    |> ROUND_PAIR vb vc vd ve vf vg vh va (MSG 15 0 8 13)
                   vb vc vd ve vf vg vh va (MSG 15 0 8 13) 0x106aa070
    |> ROUND_PAIR va vb vc vd ve vf vg vh (MSG 0 1 9 14)
                   va vb vc vd ve vf vg vh (MSG 0 1 9 14) 0x19a4c116
    |> ROUND_PAIR vh va vb vc vd ve vf vg (MSG 1 2 10 15)
                   vh va vb vc vd ve vf vg (MSG 1 2 10 15) 0x1e376c08
    |> ROUND_PAIR vg vh va vb vc vd ve vf (MSG 2 3 11 0)
                   vg vh va vb vc vd ve vf (MSG 2 3 11 0) 0x2748774c
    |> ROUND_PAIR vf vg vh va vb vc vd ve (MSG 3 4 12 1)
                   vf vg vh va vb vc vd ve (MSG 3 4 12 1) 0x34b0bcb5
    |> ROUND_PAIR ve vf vg vh va vb vc vd (MSG 4 5 13 2)
                   ve vf vg vh va vb vc vd (MSG 4 5 13 2) 0x391c0cb3
    |> ROUND_PAIR vd ve vf vg vh va vb vc (MSG 5 6 14 3)
                   vd ve vf vg vh va vb vc (MSG 5 6 14 3) 0x4ed8aa4a
    |> ROUND_PAIR vc vd ve vf vg vh va vb (MSG 6 7 15 4)
                   vc vd ve vf vg vh va vb (MSG 6 7 15 4) 0x5b9cca4f
    |> ROUND_PAIR vb vc vd ve vf vg vh va (MSG 7 8 0 5)
                   vb vc vd ve vf vg vh va (MSG 7 8 0 5) 0x682e6ff3
    |> ROUND_PAIR va vb vc vd ve vf vg vh (MSG 8 9 1 6)
                   va vb vc vd ve vf vg vh (MSG 8 9 1 6) 0x748f82ee
    |> ROUND_PAIR vh va vb vc vd ve vf vg (MSG 9 10 2 7)
                   vh va vb vc vd ve vf vg (MSG 9 10 2 7) 0x78a5636f
    |> ROUND_PAIR vg vh va vb vc vd ve vf (MSG 10 11 3 8)
                   vg vh va vb vc vd ve vf (MSG 10 11 3 8) 0x84c87814
    |> ROUND_PAIR vf vg vh va vb vc vd ve (MSG 11 12 4 9)
                   vf vg vh va vb vc vd ve (MSG 11 12 4 9) 0x8cc70208
    |> ROUND_PAIR ve vf vg vh va vb vc vd (MSG 12 13 5 10)
                   ve vf vg vh va vb vc vd (MSG 12 13 5 10) 0x90befffa
    |> ROUND_PAIR vd ve vf vg vh va vb vc (MSG 13 14 6 11)
                   vd ve vf vg vh va vb vc (MSG 13 14 6 11) 0xa4506ceb
    |> ROUND_PAIR vc vd ve vf vg vh va vb (MSG 14 15 7 12)
                   vc vd ve vf vg vh va vb (MSG 14 15 7 12) 0xbef9a3f7
    |> ROUND_PAIR vb vc vd ve vf vg vh va (MSG 15 0 8 13)
                   vb vc vd ve vf vg vh va (MSG 15 0 8 13) 0xc67178f2 in
  ((add_state s (vars l.1), msg l.1), (add_state q (vars l.2), msg l.2)).
End compress.

(** * One and two nonces *)

Section scan.
Context (CH MAJ : Z -> Z -> Z -> Z).

(** [h0] .. [h7] before the second compression. *)
Definition initial_words : list Z :=
  [0x6a09e667; 0xbb67ae85; 0x3c6ef372; 0xa54ff53a] ++
  [0x510e527f; 0x9b05688c; 0x1f83d9ab; 0x5be0cd19].

(** [if (meets_target_words(...)) store_match_words(...)]: the call, if it is made. *)
Definition check_words (a : scan_args) (nonce : Z) (h : list Z) : list match_t :=
  if meets_words h (target a) then [(nonce, h)] else [].

(** [w0] .. [w15] before the first compression and before the second. *)
Definition first_words (a : scan_args) (nonce : Z) : list Z :=
  [tail a !!! 0%nat; tail a !!! 1%nat; tail a !!! 2%nat; bswap32 nonce;
   0x80000000; 0; 0; 0; 0; 0; 0; 0; 0; 0; 0; 640].
Definition second_words (s : list Z) : list Z :=
  [s !!! 0%nat; s !!! 1%nat; s !!! 2%nat; s !!! 3%nat; s !!! 4%nat; s !!! 5%nat; s !!! 6%nat; s !!! 7%nat;
   0x80000000; 0; 0; 0; 0; 0; 0; 256].

Definition scan_one_nonce_with (a : scan_args) (nonce : Z) : list match_t :=
  let s := fast a in
  let w := first_words a nonce in
  let '(s, w) := SHA256_COMPRESS CH MAJ s w in
  let h := initial_words in
  let w := second_words s in
  let '(h, w) := SHA256_COMPRESS CH MAJ h w in
  check_words a nonce h.
End scan.

Definition scan_one_nonce (a : scan_args) (nonce : Z) : list match_t :=
  scan_one_nonce_with CH MAJ a nonce.

Definition scan_two_nonces (a : scan_args) (nonce0 nonce1 : Z) : list match_t :=
  let s := fast a in
  let q := fast a in
  let w := first_words a nonce0 in
  let x := first_words a nonce1 in
  let '((s, w), (q, x)) := SHA256_COMPRESS_DUAL CH MAJ s w q x in
  let h := initial_words in
  let y := initial_words in
  let w := second_words s in
  let x := second_words q in
  let '((h, w), (y, x)) := SHA256_COMPRESS_DUAL CH MAJ h w y x in
  check_words a nonce0 h ++ check_words a nonce1 y.

(** * The kernels

    A kernel is what one thread does, from the arguments and the three indices
    [%ctaid.x], [%ntid.x] and [%tid.x]. *)
Definition kernel : Type := scan_args -> Z -> Z -> Z -> list match_t.

Definition cuda_gid (ctaid ntid tid : Z) : Z := add32 (u32 (ctaid * ntid)) tid.

(** [for (u32 item = 0U; item < limit; ++item)] *)
Definition scan_items (one : Z -> list match_t) (a : scan_args) (base_nonce limit : Z) : list match_t :=
  for_range 0 (Z.to_nat limit)
    (fun item found => found ++ one (add32 (add32 (start_nonce a) base_nonce) (Z.of_nat item))) [].

Section kernels.
Context `{P : PTX}.

Definition scan_one_nonce_lop3 (a : scan_args) (nonce : Z) : list match_t :=
  scan_one_nonce_with ch_lop3 maj_lop3 a nonce.

(** [for (; item + 1U < limit; item += 2U)], with the value of [item] after it;
    [limit] is fuel enough. *)
Fixpoint scan_item_pairs (fuel : nat) (a : scan_args) (base_nonce limit item : Z)
    (found : list match_t) : Z * list match_t :=
  match fuel with
  | O => (item, found)
  | S fuel =>
      if add32 item 1 <? limit then
        let nonce := add32 (add32 (start_nonce a) base_nonce) item in
        scan_item_pairs fuel a base_nonce limit (add32 item 2)
          (found ++ scan_two_nonces a nonce (add32 nonce 1))
      else (item, found)
  end.

Definition btcrig_cuda_scan_nonce_range_dual : kernel := fun a ctaid ntid tid =>
  let gid := cuda_gid ctaid ntid tid in
  let base_nonce := u32 (gid * nonces_per_thread a) in
  if nonce_count a <=? base_nonce then [] else
  let limit := nonces_per_thread a in
  let limit := if nonce_count a <? add32 base_nonce limit then u32 (nonce_count a - base_nonce) else limit in
  let '(item, found) := scan_item_pairs (Z.to_nat limit) a base_nonce limit 0 [] in
  if item <? limit then
    found ++ scan_one_nonce a (add32 (add32 (start_nonce a) base_nonce) item)
  else found.

Definition btcrig_cuda_scan_nonce_range_fixed_npt1 : kernel := fun a ctaid ntid tid =>
  let gid := cuda_gid ctaid ntid tid in
  if nonce_count a <=? gid then [] else
  scan_one_nonce a (add32 (start_nonce a) gid).

Definition btcrig_cuda_scan_nonce_range_fixed_npt2 : kernel := fun a ctaid ntid tid =>
  let gid := cuda_gid ctaid ntid tid in
  let base_nonce := u32 (gid * 2) in
  if nonce_count a <=? base_nonce then [] else
  let limit := u32 (nonce_count a - base_nonce) in
  let limit := if 2 <? limit then 2 else limit in
  scan_items (scan_one_nonce a) a base_nonce limit.

Definition btcrig_cuda_scan_nonce_range_fixed_npt4 : kernel := fun a ctaid ntid tid =>
  let gid := cuda_gid ctaid ntid tid in
  let base_nonce := u32 (gid * 4) in
  if nonce_count a <=? base_nonce then [] else
  let limit := u32 (nonce_count a - base_nonce) in
  let limit := if 4 <? limit then 4 else limit in
  scan_items (scan_one_nonce a) a base_nonce limit.

Definition btcrig_cuda_scan_nonce_range_lop3 : kernel := fun a ctaid ntid tid =>
  let gid := cuda_gid ctaid ntid tid in
  let base_nonce := u32 (gid * nonces_per_thread a) in
  if nonce_count a <=? base_nonce then [] else
  let limit := nonces_per_thread a in
  let limit := if nonce_count a <? add32 base_nonce limit then u32 (nonce_count a - base_nonce) else limit in
  scan_items (scan_one_nonce_lop3 a) a base_nonce limit.

Definition btcrig_cuda_scan_nonce_range_fixed_lop3_npt1 : kernel := fun a ctaid ntid tid =>
  let gid := cuda_gid ctaid ntid tid in
  if nonce_count a <=? gid then [] else
  scan_one_nonce_lop3 a (add32 (start_nonce a) gid).

Definition btcrig_cuda_scan_nonce_range_fixed_lop3_npt2 : kernel := fun a ctaid ntid tid =>
  let gid := cuda_gid ctaid ntid tid in
  let base_nonce := u32 (gid * 2) in
  if nonce_count a <=? base_nonce then [] else
  let limit := u32 (nonce_count a - base_nonce) in
  let limit := if 2 <? limit then 2 else limit in
  scan_items (scan_one_nonce_lop3 a) a base_nonce limit.

Definition btcrig_cuda_scan_nonce_range_fixed_lop3_npt4 : kernel := fun a ctaid ntid tid =>
  let gid := cuda_gid ctaid ntid tid in
  let base_nonce := u32 (gid * 4) in
  if nonce_count a <=? base_nonce then [] else
  let limit := u32 (nonce_count a - base_nonce) in
  let limit := if 4 <? limit then 4 else limit in
  scan_items (scan_one_nonce_lop3 a) a base_nonce limit.

Definition btcrig_cuda_scan_nonce_range : kernel := fun a ctaid ntid tid =>
  let gid := cuda_gid ctaid ntid tid in
  let base_nonce := u32 (gid * nonces_per_thread a) in
  if nonce_count a <=? base_nonce then [] else
  let limit := nonces_per_thread a in
  let limit := if nonce_count a <? add32 base_nonce limit then u32 (nonce_count a - base_nonce) else limit in
  scan_items (scan_one_nonce a) a base_nonce limit.
End kernels.

(** * Correctness of the compression *)

#[local] Opaque GpuSha.ROUND add_state.

Section compress_spec.
Context (CH MAJ : Z -> Z -> Z -> Z) `{!SelectLaws CH MAJ}.

Lemma compress_rounds s m :
  fst (SHA256_COMPRESS CH MAJ s m) =
  add_state s (vars (for_range 0 64 (nth_round CH MAJ) (Locals (Fips.regs_of s) m))).
Proof. reflexivity. Qed.

Lemma compress_fips s m :
  length s = 8%nat -> is_words s -> length m = 16%nat ->
  fst (SHA256_COMPRESS CH MAJ s m) = Fips.compress s m.
Proof.
  intros Hs Hw Hm. rewrite compress_rounds, all_rounds by (done || by apply regs_of_u32).
  by apply add_state_compress.
Qed.

Lemma dual_pair s m q x :
  SHA256_COMPRESS_DUAL CH MAJ s m q x = (SHA256_COMPRESS CH MAJ s m, SHA256_COMPRESS CH MAJ q x).
Proof. reflexivity. Qed.
End compress_spec.

(** The lemmas above are the interface of the macros. *)
#[local] Opaque SHA256_COMPRESS SHA256_COMPRESS_DUAL.

(** * The [lop3] selections *)

Section lop3_spec.
Context `{P : PTX} `{!PTXLaws P}.

Lemma select_bits x y z lut (f : Z -> Z -> Z -> Z) :
  is_u32 x -> is_u32 y -> is_u32 z -> is_u32 (f x y z) ->
  (forall i, 0 <= i < 32 -> Z.testbit (f x y z) i =
    Z.testbit lut (4 * Z.b2z (Z.testbit x i) + 2 * Z.b2z (Z.testbit y i) + Z.b2z (Z.testbit z i))) ->
  lop3_b32 x y z lut = f x y z.
Proof.
  intros Hx Hy Hz Hf Hbits. pose proof (lop3_u32 x y z lut Hx Hy Hz) as Hl.
  apply Z.bits_inj'. intros i Hi. destruct (decide (i < 32)) as [Hlt|Hge].
  - rewrite lop3_bits, Hbits by (done || lia). done.
  - apply (bounded_testbit 32) in Hl as [_ Hl], Hf as [_ Hf]; [|lia..]. by rewrite Hl, Hf by lia.
Qed.

#[export] Instance lop3_laws : SelectLaws ch_lop3 maj_lop3.
Proof.
  split; intros x y z Hx Hy Hz; unfold ch_lop3, maj_lop3; apply select_bits; try done.
  - unfold Fips.ch. auto with words.
  - intros i Hi. unfold Fips.ch, not32. rewrite !Z.lxor_spec, !Z.land_spec, Z.lxor_spec.
    change 0xffffffff with (Z.ones 32). rewrite Z.ones_spec_low by done.
    by destruct (Z.testbit x i), (Z.testbit y i), (Z.testbit z i).
  - unfold Fips.maj. auto with words.
  - intros i Hi. unfold Fips.maj. rewrite !Z.lxor_spec, !Z.land_spec.
    by destruct (Z.testbit x i), (Z.testbit y i), (Z.testbit z i).
Qed.
End lop3_spec.

Lemma ref_ptx_laws : PTXLaws ref_ptx.
Proof.
  split.
  - intros x y z lut Hx Hy Hz. unfold lop3_b32, ref_ptx.
    repeat apply lor_u32; (case_match; [|unfold is_u32; lia]); auto with words.
  - intros x y z lut i Hx Hy Hz Hi. unfold lop3_b32, ref_ptx.
    assert (Hterm : forall k (b : bool), Z.testbit (if b then k else 0) i = b && Z.testbit k i)
      by (intros k []; [done|apply Z.bits_0]).
    rewrite !Z.lor_spec, !Hterm, !Z.land_spec. unfold not32. rewrite !Z.lxor_spec.
    change 0xffffffff with (Z.ones 32). rewrite !Z.ones_spec_low by done.
    destruct (Z.testbit x i), (Z.testbit y i), (Z.testbit z i);
      cbn [xorb andb Z.b2z Z.mul Z.add Pos.mul Pos.add Pos.succ];
      rewrite ?andb_true_r, ?andb_false_r, ?orb_false_r; done.
Qed.

(** * What a thread does *)

Definition arg_hash (a : scan_args) : Z -> list Z := nonce_hash (fast a) (tail a).

Lemma length_nonce_hash S T nonce : length (nonce_hash S T nonce) = 8%nat.
Proof. apply length_tail_hash. Qed.

Section threads.
Context (a : scan_args) (Hfast : length (fast a) = 8%nat) (Hwords : is_words (fast a)).

Definition thread_hits (ns : list Z) : list match_t := hits (arg_hash a) (target a) ns.

Lemma check_words_hits nonce : check_words a nonce (arg_hash a nonce) = thread_hits [nonce].
Proof.
  unfold check_words, thread_hits, hits, meets. rewrite meets_words_spec, filter_cons, filter_nil.
  by destruct (hash_words_meet_target _ _).
Qed.

Lemma thread_hits_app l1 l2 : thread_hits (l1 ++ l2) = thread_hits l1 ++ thread_hits l2.
Proof. apply hits_app. Qed.

Lemma second_block (s : list Z) : length s = 8%nat ->
  second_words s = digest_block s.
Proof. intros H. by destruct_list s H. Qed.

(** The two compressions of a nonce, with any correct selection functions. *)
Lemma two_compressions ch maj `{!SelectLaws ch maj} nonce :
  let s := fst (SHA256_COMPRESS ch maj (fast a) (first_words a nonce)) in
  fst (SHA256_COMPRESS ch maj initial_words (second_words s)) = arg_hash a nonce.
Proof.
  cbv zeta. rewrite (compress_fips ch maj (fast a)) by done.
  rewrite second_block by (by apply length_compress).
  rewrite (compress_fips ch maj); [done|done| |].
  - solve_Forall; unfold is_u32; lia.
  - unfold digest_block. rewrite length_app, length_compress by done. done.
Qed.

Lemma scan_one_with ch maj `{!SelectLaws ch maj} nonce :
  scan_one_nonce_with ch maj a nonce = thread_hits [nonce].
Proof.
  rewrite <- check_words_hits. rewrite <- (two_compressions ch maj nonce).
  unfold scan_one_nonce_with.
  destruct (SHA256_COMPRESS ch maj (fast a) (first_words a nonce)) as [s w]. cbn [fst].
  by destruct (SHA256_COMPRESS ch maj initial_words (second_words s)) as [h w'].
Qed.

Lemma scan_one_hits nonce : scan_one_nonce a nonce = thread_hits [nonce].
Proof. apply (scan_one_with CH MAJ). Qed.

Lemma scan_two_hits nonce0 nonce1 : scan_two_nonces a nonce0 nonce1 = thread_hits [nonce0; nonce1].
Proof.
  change [nonce0; nonce1] with ([nonce0] ++ [nonce1]).
  rewrite thread_hits_app, <- !scan_one_hits. unfold scan_two_nonces, scan_one_nonce, scan_one_nonce_with.
  rewrite dual_pair.
  destruct (SHA256_COMPRESS CH MAJ (fast a) (first_words a nonce0)) as [s w].
  destruct (SHA256_COMPRESS CH MAJ (fast a) (first_words a nonce1)) as [q x].
  rewrite dual_pair.
  destruct (SHA256_COMPRESS CH MAJ initial_words (second_words s)) as [h w'].
  by destruct (SHA256_COMPRESS CH MAJ initial_words (second_words q)) as [y x'].
Qed.

(** A run of nonces from the offset [base]. *)
Definition run_of (base : Z) (n : nat) : list Z := nonces (start_nonce a) (Z.to_nat base) n.

Lemma run_of_S base n :
  0 <= base ->
  run_of base (S n) = run_of base n ++ [add32 (add32 (start_nonce a) base) (Z.of_nat n)].
Proof.
  clear Hfast Hwords. intros Hb. unfold run_of. rewrite <- Nat.add_1_r, nonces_app. f_equal.
  unfold nonces. cbn [seq fmap list_fmap]. f_equal. unfold nonce_at. rewrite add32_assoc.
  replace (Z.of_nat (Z.to_nat base + n)) with (base + Z.of_nat n) by lia. unfold add32. add32_ac.
Qed.

Lemma scan_items_hits one base limit :
  (forall nonce, one nonce = thread_hits [nonce]) -> 0 <= base ->
  scan_items one a base limit = thread_hits (run_of base (Z.to_nat limit)).
Proof.
  clear Hfast Hwords. intros Hone Hb. unfold scan_items. generalize (Z.to_nat limit). intros n.
  induction n as [|n IH]; [done|].
  by rewrite for_range_S_r, IH, run_of_S, thread_hits_app, Hone by done.
Qed.

Lemma scan_pairs_hits fuel base limit item :
  0 <= base -> 0 <= limit <= 2 ^ 31 -> 0 <= item <= limit -> limit - item <= Z.of_nat fuel ->
  exists item',
    scan_item_pairs fuel a base limit item (thread_hits (run_of base (Z.to_nat item))) =
      (item', thread_hits (run_of base (Z.to_nat item'))) /\ item' <= limit <= item' + 1.
Proof.
  intros Hb Hl. revert item. induction fuel as [|fuel IH]; intros item Hi Hf; cbn [scan_item_pairs].
  - exists item. split; [done|lia].
  - unfold add32 at 1. rewrite u32_small by (unfold is_u32; lia).
    destruct (Z.ltb_spec (item + 1) limit) as [Hlt|Hge]; [|exists item; split; [done|lia]].
    assert (Hrun : thread_hits (run_of base (Z.to_nat item)) ++
        scan_two_nonces a (add32 (add32 (start_nonce a) base) item)
          (add32 (add32 (add32 (start_nonce a) base) item) 1) =
      thread_hits (run_of base (Z.to_nat (item + 2)))).
    { rewrite scan_two_hits, <- thread_hits_app. f_equal.
      replace (Z.to_nat (item + 2)) with (S (S (Z.to_nat item))) by lia.
      rewrite !run_of_S, <- app_assoc by done. cbn [app]. rewrite Nat2Z.inj_succ, Z2Nat.id by lia.
      do 3 f_equal. unfold Z.succ. add32_ac. }
    rewrite Hrun. unfold add32 at 1.
    rewrite u32_small by (unfold is_u32; lia). apply IH; lia.
Qed.
End threads.

(** Thread [g] of a launch with [per] nonces a thread reports the hits of its share of
    the range.  The index of its first nonce has to stay below 2^32, and so does the
    end of a whole share from any nonce of the range. *)
Definition kernel_correct (k : kernel) (per : Z) (a : scan_args) : Prop :=
  forall ctaid ntid tid, 0 <= ctaid * ntid + tid -> (ctaid * ntid + tid) * per < 2 ^ 32 ->
    k a ctaid ntid tid =
    thread_hits a (thread_nonces (start_nonce a) (Z.to_nat (nonce_count a)) (Z.to_nat per)
      (Z.to_nat (ctaid * ntid + tid))).

Section kernels_spec.
Context `{P : PTX} `{!PTXLaws P}.
Context (a : scan_args) (Hfast : length (fast a) = 8%nat) (Hwords : is_words (fast a)).
Context (Hcount : 0 <= nonce_count a).

Lemma gid_small ctaid ntid tid per :
  1 <= per -> 0 <= ctaid * ntid + tid -> (ctaid * ntid + tid) * per < 2 ^ 32 ->
  cuda_gid ctaid ntid tid = ctaid * ntid + tid.
Proof.
  clear Hfast Hwords Hcount. intros Hp H0 H1. unfold cuda_gid, add32, u32.
  rewrite Zplus_mod_idemp_l, Z.mod_small by nia. done.
Qed.

Lemma share_run base per g :
  1 <= per -> 0 <= g -> base = g * per -> base < nonce_count a ->
  run_of a base (Z.to_nat (Z.min per (nonce_count a - base))) =
  thread_nonces (start_nonce a) (Z.to_nat (nonce_count a)) (Z.to_nat per) (Z.to_nat g).
Proof.
  clear Hfast Hwords. intros Hp Hg -> Hlt. unfold run_of, thread_nonces. f_equal; nia.
Qed.

Lemma share_empty per g :
  1 <= per -> 0 <= g -> nonce_count a <= g * per ->
  thread_hits a (thread_nonces (start_nonce a) (Z.to_nat (nonce_count a)) (Z.to_nat per) (Z.to_nat g)) = [].
Proof.
  clear Hfast Hwords. intros Hp Hg Hge. unfold thread_nonces.
  replace (Z.to_nat per `min` (Z.to_nat (nonce_count a) - Z.to_nat per * Z.to_nat g))%nat with O by nia.
  done.
Qed.

(** The two ways the kernels compute the number of nonces of a thread. *)
Lemma limit_min base per :
  0 <= base < nonce_count a -> 1 <= per -> nonce_count a + per <= 2 ^ 32 ->
  (if nonce_count a <? add32 base per then u32 (nonce_count a - base) else per) =
  Z.min per (nonce_count a - base).
Proof.
  clear Hfast Hwords. intros Hb Hp Hf. unfold add32. rewrite !u32_small by (unfold is_u32; lia).
  destruct (Z.ltb_spec (nonce_count a) (base + per)); lia.
Qed.
Lemma limit_fixed base per :
  0 <= base < nonce_count a -> nonce_count a <= 2 ^ 32 ->
  (if per <? u32 (nonce_count a - base) then per else u32 (nonce_count a - base)) =
  Z.min per (nonce_count a - base) \/ nonce_count a - base = 2 ^ 32.
Proof.
  clear Hfast Hwords. intros Hb Hf. destruct (decide (nonce_count a - base = 2 ^ 32)) as [|Hne]; [by right|left].
  rewrite !u32_small by (unfold is_u32; lia). destruct (Z.ltb_spec per (nonce_count a - base)); lia.
Qed.

(** The case split every kernel starts with. *)
Ltac enter_kernel per :=
  intros ctaid ntid tid Hg0 Hg1; cbv zeta;
  rewrite (gid_small ctaid ntid tid per) by (done || lia);
  set (g := ctaid * ntid + tid) in *.

Lemma ranged_kernel (one : Z -> list match_t) :
  (forall nonce, one nonce = thread_hits a [nonce]) ->
  1 <= nonces_per_thread a -> nonce_count a + nonces_per_thread a <= 2 ^ 32 ->
  kernel_correct (fun a ctaid ntid tid =>
    let gid := cuda_gid ctaid ntid tid in
    let base_nonce := u32 (gid * nonces_per_thread a) in
    if nonce_count a <=? base_nonce then [] else
    let limit := nonces_per_thread a in
    let limit := if nonce_count a <? add32 base_nonce limit then u32 (nonce_count a - base_nonce) else limit in
    scan_items one a base_nonce limit) (nonces_per_thread a) a.
Proof.
  intros Hone Hp Hf. enter_kernel (nonces_per_thread a).
  rewrite u32_small by (unfold is_u32; nia).
  destruct (Z.leb_spec (nonce_count a) (g * nonces_per_thread a)) as [Hge|Hlt].
  - by rewrite share_empty.
  - rewrite limit_min by nia. rewrite (scan_items_hits a) by (done || nia). f_equal. by apply share_run.
Qed.

Lemma fixed_kernel (one : Z -> list match_t) per :
  (forall nonce, one nonce = thread_hits a [nonce]) -> 1 <= per -> nonce_count a < 2 ^ 32 ->
  kernel_correct (fun a ctaid ntid tid =>
    let gid := cuda_gid ctaid ntid tid in
    let base_nonce := u32 (gid * per) in
    if nonce_count a <=? base_nonce then [] else
    let limit := u32 (nonce_count a - base_nonce) in
    let limit := if per <? limit then per else limit in
    scan_items one a base_nonce limit) per a.
Proof.
  intros Hone Hp Hf. enter_kernel per.
  rewrite (u32_small (g * per)) by (unfold is_u32; nia).
  destruct (Z.leb_spec (nonce_count a) (g * per)) as [Hge|Hlt].
  - by rewrite share_empty.
  - destruct (limit_fixed (g * per) per) as [->|]; [nia|lia| |nia].
    rewrite (scan_items_hits a) by (done || nia). f_equal. by apply share_run.
Qed.

Lemma single_kernel (one : Z -> list match_t) :
  (forall nonce, one nonce = thread_hits a [nonce]) ->
  kernel_correct (fun a ctaid ntid tid =>
    let gid := cuda_gid ctaid ntid tid in
    if nonce_count a <=? gid then [] else one (add32 (start_nonce a) gid)) 1 a.
Proof.
  intros Hone. enter_kernel 1.
  destruct (Z.leb_spec (nonce_count a) g) as [Hge|Hlt].
  - by rewrite (share_empty 1) by lia.
  - rewrite Hone. f_equal. rewrite <- (share_run g 1 g) by lia.
    replace (Z.to_nat (Z.min 1 (nonce_count a - g))) with 1%nat by lia.
    unfold run_of, nonces, nonce_at. cbn [seq fmap list_fmap]. by rewrite Z2Nat.id.
Qed.

Lemma scan_one_lop3_hits nonce : scan_one_nonce_lop3 a nonce = thread_hits a [nonce].
Proof. by apply (scan_one_with a Hfast Hwords ch_lop3 maj_lop3). Qed.

Lemma dual_kernel :
  1 <= nonces_per_thread a -> nonce_count a + nonces_per_thread a <= 2 ^ 32 ->
  kernel_correct btcrig_cuda_scan_nonce_range_dual (nonces_per_thread a) a.
Proof.
  intros Hp Hf. unfold btcrig_cuda_scan_nonce_range_dual. enter_kernel (nonces_per_thread a).
  rewrite u32_small by (unfold is_u32; nia). set (per := nonces_per_thread a) in *.
  destruct (Z.leb_spec (nonce_count a) (g * per)) as [Hge|Hlt].
  - by rewrite share_empty.
  - rewrite limit_min by nia. set (limit := Z.min per (nonce_count a - g * per)).
    destruct (scan_pairs_hits a Hfast Hwords (Z.to_nat limit) (g * per) limit 0) as (item & Hs & Hi);
      [nia|subst limit; assert (0 <= g * per) by nia; lia|subst limit; lia|lia|].
    change (thread_hits a (run_of a (g * per) (Z.to_nat 0))) with (@nil match_t) in Hs. rewrite Hs.
    rewrite <- (share_run (g * per) per g) by done. fold limit.
    destruct (Z.ltb_spec item limit) as [Hil|Hil].
    + rewrite (scan_one_hits a Hfast Hwords), <- (thread_hits_app a). f_equal.
      replace (Z.to_nat limit) with (S (Z.to_nat item)) by lia.
      rewrite run_of_S by nia. by rewrite Z2Nat.id by lia.
    + by replace limit with item by lia.
Qed.
#[local] Opaque scan_one_nonce scan_one_nonce_lop3 scan_items.

(** The kernels one by one. *)
Lemma range_correct :
  1 <= nonces_per_thread a -> nonce_count a + nonces_per_thread a <= 2 ^ 32 ->
  kernel_correct btcrig_cuda_scan_nonce_range (nonces_per_thread a) a /\
  kernel_correct btcrig_cuda_scan_nonce_range_lop3 (nonces_per_thread a) a.
Proof.
  intros Hp Hf. split; intros ctaid ntid tid H0 H1.
  - exact (ranged_kernel (scan_one_nonce a) (scan_one_hits a Hfast Hwords) Hp Hf ctaid ntid tid H0 H1).
  - exact (ranged_kernel (scan_one_nonce_lop3 a) scan_one_lop3_hits Hp Hf ctaid ntid tid H0 H1).
Qed.

Lemma fixed_correct :
  nonce_count a < 2 ^ 32 ->
  kernel_correct btcrig_cuda_scan_nonce_range_fixed_npt2 2 a /\
  kernel_correct btcrig_cuda_scan_nonce_range_fixed_npt4 4 a.
Proof.
  intros Hf. split; intros ctaid ntid tid H0 H1.
  - exact (fixed_kernel (scan_one_nonce a) 2 (scan_one_hits a Hfast Hwords) ltac:(lia) Hf ctaid ntid tid H0 H1).
  - exact (fixed_kernel (scan_one_nonce a) 4 (scan_one_hits a Hfast Hwords) ltac:(lia) Hf ctaid ntid tid H0 H1).
Qed.

Lemma fixed_lop3_correct :
  nonce_count a < 2 ^ 32 ->
  kernel_correct btcrig_cuda_scan_nonce_range_fixed_lop3_npt2 2 a /\
  kernel_correct btcrig_cuda_scan_nonce_range_fixed_lop3_npt4 4 a.
Proof.
  intros Hf. split; intros ctaid ntid tid H0 H1.
  - exact (fixed_kernel (scan_one_nonce_lop3 a) 2 scan_one_lop3_hits ltac:(lia) Hf ctaid ntid tid H0 H1).
  - exact (fixed_kernel (scan_one_nonce_lop3 a) 4 scan_one_lop3_hits ltac:(lia) Hf ctaid ntid tid H0 H1).
Qed.

Lemma single_correct :
  kernel_correct btcrig_cuda_scan_nonce_range_fixed_npt1 1 a /\
  kernel_correct btcrig_cuda_scan_nonce_range_fixed_lop3_npt1 1 a.
Proof.
  split; intros ctaid ntid tid H0 H1.
  - exact (single_kernel (scan_one_nonce a) (scan_one_hits a Hfast Hwords) ctaid ntid tid H0 H1).
  - exact (single_kernel (scan_one_nonce_lop3 a) scan_one_lop3_hits ctaid ntid tid H0 H1).
Qed.
End kernels_spec.
