(* ===== verification/GpuSelfTest.v ===== *)
(** The self-test both GPU hosts run before they start a device
    (src/src/cuda_miner.c, src/src/opencl_miner.c): a scan of sixteen nonces with a
    target every hash meets, whose reports are checked against the CPU one by one. *)
From stdpp Require Import base tactics list numbers strings.
From Stdlib Require Import ZArith Lia.
From S2P Require Import Prelude Words Fips Sha256d Scan Simd X86ShaNi ArmSha2 Backends Target.
From S2P Require Import Hex Job Float64 Miner MinerSteps GpuScan.

#[local] Open Scope Z_scope.

(** * The test *)

Definition make_self_test_header : list Z :=
  <[71%nat := 0x1d]> (<[70%nat := 0x00]> (<[69%nat := 0xff]> (<[68%nat := 0xff]>
    (<[0%nat := 0x01]> (replicate 80 0))))).

Record cuda_self_test_context_t := SelfTest {
  st_header : list Z; st_start_nonce : Z; st_nonce_count : Z; st_seen_mask : Z; st_failed : bool;
}.

(** [store_le32(&header[off], v)] *)
Definition store_le32 (p : list Z) (off : nat) (v : Z) : list Z :=
  store p off [u8 v; u8 (Z.shiftr v 8); u8 (Z.shiftr v 16); u8 (Z.shiftr v 24)].

Section test.
Context `{O : OpenSSL}.

(** The callback. *)
Definition cuda_self_test_match (nonce : Z) (hash_words : list Z) (ctx : cuda_self_test_context_t)
    : cuda_self_test_context_t :=
  let '(SelfTest header start count mask failed) := ctx in
  if (nonce <? start) || (add32 start count <=? nonce) then SelfTest header start count mask true
  else
    let offset := u32 (nonce - start) in
    let bit := u32 (Z.shiftl 1 offset) in
    if negb (Z.land mask bit =? 0) then SelfTest header start count mask true
    else
      let mask := Z.lor mask bit in
      let header := store_le32 header 76 nonce in
      let cpu_hash := sha256d_80 header in
      let cuda_hash := sha256d_words_to_hash hash_words in
      SelfTest header start count mask (if bool_decide (cpu_hash = cuda_hash) then failed else true).

Definition self_test_start : cuda_self_test_context_t :=
  SelfTest make_self_test_header 0x13579b00 16 0 false.

(** [sha256d_80_midstate_prepare(&midstate, header)], [tail_words] and [target_words]. *)
Definition self_test_midstate : sha256_midstate_t O := sha256d_80_midstate_prepare (take 64 make_self_test_header).
Definition self_test_tail : list Z :=
  for_range 0 4 (fun i t => <[i := load_be32 make_self_test_header (64 + i * 4)]> t) (replicate 4 0).
Definition self_test_target : list Z := replicate 8 UINT32_MAX.

(** The verdict after the scan: [context.failed || context.seen_mask != expected_mask]. *)
Definition self_test_passed (ctx : cuda_self_test_context_t) : bool :=
  negb (st_failed ctx || negb (st_seen_mask ctx =? u32 (Z.shiftl 1 16) - 1)).
End test.

(** * What passing means *)

Definition test_start : Z := 0x13579b00.
Definition test_nonces : list Z := nonces test_start 0 16.

(** The hash of the test header with a nonce. *)
Definition test_hash (nonce : Z) : list Z := Fips.sha256d (take 76 make_self_test_header ++ le 4 nonce).
Definition report_right (m : match_t) : Prop := sha256d_words_to_hash (snd m) = test_hash (fst m).

Section spec.
Context `{O : OpenSSL} `{!OpenSSLLaws O}.

Definition run_test (l : list match_t) : cuda_self_test_context_t :=
  foldl (fun ctx '(nonce, h) => cuda_self_test_match nonce h ctx) self_test_start l.

Lemma store_nonce (h : list Z) nonce :
  length h = 80%nat -> store_le32 h 76 nonce = take 76 h ++ le 4 nonce.
Proof.
  intros Hh. unfold store_le32.
  assert (H4 : le 4 nonce = [u8 nonce; u8 (Z.shiftr nonce 8); u8 (Z.shiftr nonce 16); u8 (Z.shiftr nonce 24)]).
  { pose proof (be_4 nonce) as Hb. unfold be in Hb. apply (f_equal reverse) in Hb.
    rewrite reverse_involutive in Hb. rewrite Hb. reflexivity. }
  rewrite <- H4. clear H4. generalize (le 4 nonce), (length_le 4 nonce). intros l Hl.
  unfold store. by destruct_list h Hh; destruct_list l Hl.
Qed.

Lemma report_right_iff nonce h : report_right (nonce, h) <-> test_hash nonce = sha256d_words_to_hash h.
Proof. unfold report_right. cbn [fst snd]. split; intros H; symmetry; exact H. Qed.
#[local] Opaque test_hash make_self_test_header report_right sha256d_words_to_hash.

(** The reports seen so far are of distinct nonces of the range, with the right hash. *)
Record good_reports (l : list match_t) : Prop := {
  gr_distinct : NoDup (fst <$> l);
  gr_range : Forall (fun m => test_start <= fst m < test_start + 16) l;
  gr_right : Forall report_right l;
}.

Lemma good_snoc l m :
  good_reports (l ++ [m]) <->
  good_reports l /\ (test_start <= fst m < test_start + 16) /\ (fst m ∉ (fst <$> l)) /\ report_right m.
Proof.
  split.
  - intros [Hd Hr Hh]. rewrite fmap_app in Hd. apply list.NoDup_app in Hd as (Hd & Hn & _).
    apply Forall_app in Hr as [Hr Hrm]. apply Forall_app in Hh as [Hh Hhm].
    rewrite list.Forall_singleton in Hrm, Hhm. split; [split; assumption|]. split; [exact Hrm|]. split; [|exact Hhm].
    intros Hin. apply (Hn _ Hin). by left.
  - intros ([Hd Hr Hh] & Hrm & Hn & Hhm). split.
    + rewrite fmap_app. apply list.NoDup_app. split; [exact Hd|]. split; [|constructor; [apply not_elem_of_nil|constructor]].
      intros x Hx Hx'. change ([m].*1) with [fst m] in Hx'. apply list_elem_of_singleton in Hx' as ->. by apply Hn.
    + apply Forall_app_2; [exact Hr|]. by rewrite list.Forall_singleton.
    + apply Forall_app_2; [exact Hh|]. by rewrite list.Forall_singleton.
Qed.

Record test_inv (l : list match_t) (ctx : cuda_self_test_context_t) : Prop := {
  ti_header : length (st_header ctx) = 80%nat /\ take 76 (st_header ctx) = take 76 make_self_test_header;
  ti_range : st_start_nonce ctx = test_start /\ st_nonce_count ctx = 16;
  ti_failed : st_failed ctx = false <-> good_reports l;
  ti_mask : st_failed ctx = false -> is_u32 (st_seen_mask ctx) /\
    forall i, 0 <= i < 32 -> Z.testbit (st_seen_mask ctx) i = bool_decide (test_start + i ∈ (fst <$> l));
}.

Lemma start_inv : test_inv [] self_test_start.
Proof.
  split; [done|done| |].
  - split; [|done]. intros _. split; [apply NoDup_nil_2|done|done].
  - intros _. split; [unfold is_u32; cbn; lia|]. intros i _. cbn [self_test_start st_seen_mask].
    rewrite Z.bits_0. symmetry. apply bool_decide_eq_false_2. apply not_elem_of_nil.
Qed.

(** A callback that sets [failed] keeps the invariant when the report is bad. *)
Lemma reject_inv l m ctx : test_inv l ctx -> ~ good_reports (l ++ [m]) ->
  forall header mask, length header = 80%nat -> take 76 header = take 76 make_self_test_header ->
  test_inv (l ++ [m]) (SelfTest header (st_start_nonce ctx) (st_nonce_count ctx) mask true).
Proof.
  intros [_ Hrg _ _] Hbad header mask H1 H2. split; [done|exact Hrg| |done].
  cbn [st_failed]. by split.
Qed.

Lemma bit_value i : 0 <= i < 32 -> u32 (Z.shiftl 1 i) = 2 ^ i.
Proof.
  intros Hi. rewrite Z.shiftl_mul_pow2, Z.mul_1_l by lia. apply u32_small. unfold is_u32.
  split; [lia|]. apply Z.pow_lt_mono_r; lia.
Qed.
Lemma land_bit mask i : 0 <= i -> (Z.land mask (2 ^ i) =? 0) = negb (Z.testbit mask i).
Proof.
  intros Hi. destruct (Z.eqb_spec (Z.land mask (2 ^ i)) 0) as [E|E].
  - apply (f_equal (fun z => Z.testbit z i)) in E.
    rewrite Z.land_spec, Z.pow2_bits_true, andb_true_r, Z.bits_0 in E by done. by rewrite E.
  - destruct (Z.testbit mask i) eqn:Ht; [done|]. destruct E. apply Z.bits_inj'. intros j Hj.
    rewrite Z.land_spec, Z.bits_0. destruct (decide (j = i)) as [->|Hne]; [by rewrite Ht|].
    rewrite Z.pow2_bits_false by done. apply andb_false_r.
Qed.

Lemma match_inv l m ctx :
  test_inv l ctx -> test_inv (l ++ [m]) (cuda_self_test_match (fst m) (snd m) ctx).
Proof.
  intros Hinv. destruct m as [nonce h]. cbn [fst snd]. pose proof Hinv as [[Hl Hh] [Hs Hc] Hf Hm].
  destruct ctx as [header start count mask failed].
  cbn [st_header st_start_nonce st_nonce_count st_failed st_seen_mask] in *. subst start count.
  unfold cuda_self_test_match. change (add32 test_start 16) with (test_start + 16).
  destruct ((nonce <? test_start) || (test_start + 16 <=? nonce)) eqn:Er.
  { apply (reject_inv l _ _ Hinv); [|assumption|assumption]. intros (_ & Hr & _)%good_snoc. cbn [fst] in Hr.
    apply orb_true_iff in Er as [?%Z.ltb_lt|?%Z.leb_le]; lia. }
  apply orb_false_iff in Er as [Er1%Z.ltb_ge Er2%Z.leb_gt].
  assert (Hoff : u32 (nonce - test_start) = nonce - test_start).
  { apply u32_small. unfold is_u32, test_start in *. lia. }
  rewrite Hoff, bit_value by lia. set (i := nonce - test_start). rewrite land_bit, negb_involutive by lia.
  assert (Hsl : length (store_le32 header 76 nonce) = 80%nat)
    by (rewrite store_nonce, length_app, length_take, length_le by done; lia).
  assert (Hst : take 76 (store_le32 header 76 nonce) = take 76 make_self_test_header).
  { rewrite store_nonce, take_app_le, take_take by (done || rewrite length_take; lia). done. }
  destruct failed.
  - assert (Hbad : ~ good_reports (l ++ [(nonce, h)])).
    { intros [Hg _]%good_snoc. by apply Hf in Hg. }
    destruct (Z.testbit mask i); [by apply (reject_inv l _ _ Hinv)|].
    destruct (bool_decide _); apply (reject_inv l _ _ Hinv); assumption.
  - destruct (Hm eq_refl) as [Hu Hbits]. rewrite Hbits by lia.
    replace (test_start + i) with nonce by lia.
    destruct (bool_decide_reflect (nonce ∈ (fst <$> l))) as [Hin|Hnin].
    { apply (reject_inv l _ _ Hinv); [|assumption|assumption]. by intros (_ & _ & Hn & _)%good_snoc. }
    assert (Hhash : sha256d_80 (store_le32 header 76 nonce) = test_hash nonce).
    { rewrite store_nonce, Hh by done. apply sha256d_80_spec.
      - by rewrite length_app, length_le.
      - apply Forall_app_2; [|apply le_bytes].
        apply (bool_decide_unpack (Forall is_u8 _)). vm_compute. exact I. }
    rewrite Hhash. destruct (bool_decide_reflect (test_hash nonce = sha256d_words_to_hash h)) as [Hr|Hr].
    2:{ apply (reject_inv l _ _ Hinv); [|assumption|assumption]. intros (_ & _ & _ & Hright)%good_snoc. by apply Hr, report_right_iff. }
    split; cbn [st_header st_start_nonce st_nonce_count st_failed st_seen_mask];
      [split; assumption|split; reflexivity| |].
    + rewrite good_snoc. split; [|done]. intros _. split; [by apply Hf|]. split; [cbn; lia|]. split; [done|]. by apply report_right_iff.
    + intros _. split; [apply lor_u32; [done|]; unfold is_u32; split; [lia|apply Z.pow_lt_mono_r; lia]|].
      intros j Hj. rewrite Z.lor_spec, Hbits by done. rewrite fmap_app.
      destruct (decide (j = i)) as [->|Hne].
      * rewrite Z.pow2_bits_true, orb_true_r by lia. symmetry. apply bool_decide_eq_true_2.
        apply elem_of_app. right. cbn. apply list_elem_of_singleton. lia.
      * rewrite Z.pow2_bits_false, orb_false_r by lia. apply bool_decide_ext.
        rewrite elem_of_app. split; [by left|]. intros [H|H]; [done|].
        cbn in H. apply list_elem_of_singleton in H. lia.
Qed.

Lemma run_test_inv l : test_inv l (run_test l).
Proof.
  unfold run_test. induction l as [|[nonce h] l IH] using rev_ind; [apply start_inv|].
  rewrite foldl_app. by apply (match_inv l (nonce, h)) in IH.
Qed.

(** The test passes exactly when each of the sixteen nonces was reported once, with
    the double SHA-256 of the test header. *)
Lemma self_test_passed_iff l :
  self_test_passed (run_test l) = true <-> ((fst <$> l) ≡ₚ test_nonces) /\ Forall report_right l.
Proof.
  destruct (run_test_inv l) as [_ _ Hf Hm]. unfold self_test_passed.
  rewrite negb_true_iff, orb_false_iff, negb_false_iff, Z.eqb_eq. rewrite (bit_value 16) by lia.
  assert (Htn : test_nonces = (fun i => test_start + Z.of_nat i) <$> seq 0 16) by reflexivity.
  assert (Hin : forall x, x ∈ test_nonces <-> test_start <= x < test_start + 16).
  { intros x. rewrite Htn, list_elem_of_fmap. split.
    - intros (i & -> & Hi%elem_of_seq). lia.
    - intros Hx. exists (Z.to_nat (x - test_start)). rewrite elem_of_seq. lia. }
  assert (Hnd : NoDup test_nonces) by (apply nonces_NoDup; lia).
  split.
  - intros [Hfail Hmask]. destruct (Hm Hfail) as [_ Hbits]. apply Hf in Hfail as [Hd Hr Hh].
    split; [|done]. apply NoDup_Permutation; [done|done|]. intros x. rewrite Hin. split.
    + intros (m & -> & Hx)%list_elem_of_fmap. by eapply list.Forall_forall in Hr.
    + intros Hx. specialize (Hbits (x - test_start) ltac:(lia)). rewrite Hmask in Hbits.
      change (2 ^ 16 - 1) with (Z.ones 16) in Hbits. rewrite Z.ones_spec_low in Hbits by lia.
      symmetry in Hbits. apply bool_decide_eq_true_1 in Hbits.
      by replace (test_start + (x - test_start)) with x in Hbits by lia.
  - intros [Hp Hh].
    assert (Hg : good_reports l).
    { split; [by rewrite Hp| |done]. apply list.Forall_forall. intros m Hx. apply Hin. rewrite <- Hp.
      by apply list_elem_of_fmap_2. }
    apply Hf in Hg. split; [done|]. destruct (Hm Hg) as [Hu Hbits].
    change (2 ^ 16 - 1) with (Z.ones 16). apply Z.bits_inj'. intros i Hi.
    destruct (decide (i < 32)) as [Hlt|Hge].
    + rewrite Hbits by lia. destruct (decide (i < 16)).
      * rewrite Z.ones_spec_low by lia. apply bool_decide_eq_true_2. rewrite Hp, Hin. lia.
      * rewrite Z.ones_spec_high by lia. apply bool_decide_eq_false_2. rewrite Hp, Hin. lia.
    + apply (bounded_testbit 32) in Hu as [_ Hu]; [|lia]. rewrite Hu, Z.ones_spec_high by lia. done.
Qed.
End spec.

(** * A correct device passes *)

Section pass.
Context `{O : OpenSSL} `{!OpenSSLLaws O}.

(** The chaining value after the first block of the header. *)
Definition test_chain : list Z := Fips.compress Fips.H0 (words_of_bytes 16 (take 64 make_self_test_header)).

(** The header as a job of the miner. *)
Definition test_job : active_job_t O :=
  ActiveJob (MinerJob 0 "" "" "" make_self_test_header (replicate 32 255)) self_test_midstate
    self_test_tail self_test_target 0 true.

Lemma header_bytes : is_bytes make_self_test_header.
Proof. apply (bool_decide_unpack (Forall is_u8 _)). vm_compute. exact I. Qed.

Lemma test_midstate : midstate_of test_chain self_test_midstate.
Proof.
  apply (prepare_midstate (take 64 make_self_test_header)); [reflexivity|].
  apply Forall_take, header_bytes.
Qed.

Lemma test_prepared : prepared test_job.
Proof.
  split.
  - split; [reflexivity|]. split; [exact header_bytes|]. split; [reflexivity|].
    apply (bool_decide_unpack (Forall is_u8 _)). vm_compute. exact I.
  - exact test_midstate.
  - vm_compute. reflexivity.
  - vm_compute. reflexivity.
Qed.

Lemma test_hash_right nonce : report_right (nonce, nonce_hash test_chain self_test_tail nonce).
Proof.
  apply report_right_iff. rewrite words_to_hash_bytes by apply length_tail_hash.
  pose proof (nonce_hash_header test_job nonce test_prepared) as H. unfold job_hash in H.
  change (aj_midstate test_job) with (self_test_midstate (O := O)) in H.
  rewrite (mo_fast _ _ test_midstate) in H. symmetry. exact H.
Qed.

Lemma loop_below n h t :
  (forall i, (i < n)%nat -> bswap32 (h !!! i) <= t !!! i) -> meet_target_loop n h t = true.
Proof.
  induction n as [|n IH]; intros H; [done|]. cbn [meet_target_loop].
  destruct (Z.ltb_spec (bswap32 (h !!! n)) (t !!! n)); [done|].
  destruct (Z.ltb_spec (t !!! n) (bswap32 (h !!! n))); [pose proof (H n ltac:(lia)); lia|].
  apply IH. intros i Hi. apply H. lia.
Qed.

(** The target of the test is met by every hash. *)
Lemma test_meets x : meets (nonce_hash test_chain self_test_tail) self_test_target x = true.
Proof.
  unfold meets, hash_words_meet_target. apply loop_below. intros j Hj.
  assert (Ht : self_test_target !!! j = UINT32_MAX).
  { unfold self_test_target. do 8 (destruct j as [|j]; [reflexivity|]). lia. }
  rewrite Ht. pose proof (bswap32_u32 (nonce_hash test_chain self_test_tail x !!! j)) as Hu.
  unfold is_u32 in Hu. unfold UINT32_MAX. lia.
Qed.
Lemma test_all_match start n :
  matches (nonce_hash test_chain self_test_tail) self_test_target start n = nonces start 0 n.
Proof.
  unfold matches. induction (nonces start 0 n) as [|x l IH]; [done|].
  rewrite filter_cons, test_meets. by rewrite decide_True, IH by done.
Qed.
Lemma test_matches : matches (nonce_hash test_chain self_test_tail) self_test_target test_start 16 = test_nonces.
Proof. apply test_all_match. Qed.

(** The reports of the sixteen nonces in any order pass. *)
Lemma test_reports_pass order :
  order ≡ₚ test_nonces ->
  self_test_passed (run_test ((fun nonce => (nonce, nonce_hash test_chain self_test_tail nonce)) <$> order)) = true.
Proof.
  intros Hp. apply self_test_passed_iff. split.
  - rewrite <- list_fmap_compose. change (fst ∘ _) with (fun nonce : Z => nonce). by rewrite list_fmap_id.
  - apply list.Forall_forall. intros m (x & -> & _)%list_elem_of_fmap. apply test_hash_right.
Qed.
End pass.
