(* ===== verification/CudaMiner.v ===== *)
(** The CUDA host, src/src/cuda_miner.c: its configuration, the driver library, the
    construction and release of a miner with every error path, and the scan of a
    nonce range.

    The driver is not in the repository: its replies are arguments.  A kernel runs as
    GpuScan.v describes; the module the driver loads is the PTX compiled from the
    kernel text, so a function of the module is a kernel of CudaKernel.v. *)
From stdpp Require Import base tactics list option numbers strings relations.
From Stdlib Require Import ZArith Lia.
From S2P Require Import Prelude Words Fips Sha256d Scan Simd X86ShaNi ArmSha2 Backends.
From S2P Require Import Float64 Target Hex Job Miner MinerSteps FrontEnd.
From S2P Require Import Resources GpuSha GpuScan CudaKernel GpuSelfTest.

#[local] Open Scope Z_scope.

(** * Configuration *)

Definition config_u32_or (value fallback : Z) : Z := if negb (value =? 0) then value else fallback.

Definition clamp_threads_per_block (value : Z) : Z :=
  let value := config_u32_or value MINER_CUDA_DEFAULT_THREADS_PER_BLOCK in
  if value <? 32 then 32
  else if 1024 <? value then 1024
  else Z.land (add32 value 31) (not32 31).

Definition clamp_nonces_per_thread (value : Z) : Z :=
  let value := config_u32_or value MINER_CUDA_DEFAULT_NONCES_PER_THREAD in
  if value <? 1 then 1
  else if 16 <? value then 16
  else value.

Definition normalize_kernel_variant (value : Z) : Z :=
  if (value <? MINER_CUDA_KERNEL_STANDARD) || (MINER_CUDA_KERNEL_LAST <? value)
  then MINER_CUDA_DEFAULT_KERNEL_VARIANT else value.

Definition kernel_variant_forced_npt (variant : Z) : Z :=
  let variant := normalize_kernel_variant variant in
  if (variant =? MINER_CUDA_KERNEL_FIXED_NPT1) || (variant =? MINER_CUDA_KERNEL_FIXED_LOP3_NPT1) then 1
  else if (variant =? MINER_CUDA_KERNEL_FIXED_NPT2) || (variant =? MINER_CUDA_KERNEL_FIXED_LOP3_NPT2) then 2
  else if (variant =? MINER_CUDA_KERNEL_FIXED_NPT4) || (variant =? MINER_CUDA_KERNEL_FIXED_LOP3_NPT4) then 4
  else 0.

Definition cuda_miner_kernel_variant_name (variant : Z) : string :=
  let variant := normalize_kernel_variant variant in
  if variant =? MINER_CUDA_KERNEL_FIXED_NPT1 then "fixed-npt1"
  else if variant =? MINER_CUDA_KERNEL_FIXED_NPT2 then "fixed-npt2"
  else if variant =? MINER_CUDA_KERNEL_FIXED_NPT4 then "fixed-npt4"
  else if variant =? MINER_CUDA_KERNEL_LOP3 then "lop3"
  else if variant =? MINER_CUDA_KERNEL_FIXED_LOP3_NPT1 then "fixed-lop3-npt1"
  else if variant =? MINER_CUDA_KERNEL_FIXED_LOP3_NPT2 then "fixed-lop3-npt2"
  else if variant =? MINER_CUDA_KERNEL_FIXED_LOP3_NPT4 then "fixed-lop3-npt4"
  else if variant =? MINER_CUDA_KERNEL_DUAL then "dual"
  else "standard".

Definition cuda_miner_kernel_function_name (variant : Z) : string :=
  let variant := normalize_kernel_variant variant in
  if variant =? MINER_CUDA_KERNEL_FIXED_NPT1 then "btcrig_cuda_scan_nonce_range_fixed_npt1"
  else if variant =? MINER_CUDA_KERNEL_FIXED_NPT2 then "btcrig_cuda_scan_nonce_range_fixed_npt2"
  else if variant =? MINER_CUDA_KERNEL_FIXED_NPT4 then "btcrig_cuda_scan_nonce_range_fixed_npt4"
  else if variant =? MINER_CUDA_KERNEL_LOP3 then "btcrig_cuda_scan_nonce_range_lop3"
  else if variant =? MINER_CUDA_KERNEL_FIXED_LOP3_NPT1 then "btcrig_cuda_scan_nonce_range_fixed_lop3_npt1"
  else if variant =? MINER_CUDA_KERNEL_FIXED_LOP3_NPT2 then "btcrig_cuda_scan_nonce_range_fixed_lop3_npt2"
  else if variant =? MINER_CUDA_KERNEL_FIXED_LOP3_NPT4 then "btcrig_cuda_scan_nonce_range_fixed_lop3_npt4"
  else if variant =? MINER_CUDA_KERNEL_DUAL then "btcrig_cuda_scan_nonce_range_dual"
  else "btcrig_cuda_scan_nonce_range".

(** The first lines of [cuda_miner_create]. *)
Definition effective_config (config : option miner_cuda_config_t) : miner_cuda_config_t :=
  let '(CudaConfig enabled device batch threads npt max variant) :=
    match config with Some config => config | None => miner_cuda_config_defaults end in
  let batch := config_u32_or batch MINER_CUDA_DEFAULT_BATCH_SIZE in
  let threads := clamp_threads_per_block threads in
  let npt := clamp_nonces_per_thread npt in
  let max := config_u32_or max MINER_CUDA_DEFAULT_MAX_RESULTS in
  let variant := normalize_kernel_variant variant in
  let forced_npt := kernel_variant_forced_npt variant in
  let npt := if negb (forced_npt =? 0) then forced_npt else npt in
  CudaConfig enabled device batch threads npt max variant.

(** * The driver library *)

Definition CUDA_SUCCESS : Z := 0.

(** The global [g_cuda], as far as it changes. *)
Record cuda_driver_t := CudaDriver { attempted : bool; loaded : bool }.

Definition cuda_symbols : list string :=
  ["cuInit"; "cuDriverGetVersion"; "cuDeviceGetCount"; "cuDeviceGet"; "cuDeviceGetName";
   "cuDeviceComputeCapability"; "cuDeviceTotalMem_v2"; "cuCtxCreate_v2"; "cuCtxDestroy_v2";
   "cuCtxSetCurrent"; "cuModuleLoadData"; "cuModuleUnload"; "cuModuleGetFunction"; "cuMemAlloc_v2";
   "cuMemFree_v2"; "cuMemsetD32_v2"; "cuMemcpyDtoH_v2"; "cuMemcpyHtoD_v2"; "cuLaunchKernel";
   "cuCtxSynchronize"; "cuGetErrorString"]%string.

(** What the system has: the library or not, its symbols, and what [cuInit] returns. *)
Record cuda_library := CudaLibrary { lib_found : bool; lib_symbol : string -> bool; lib_init : Z }.

(** The error is the text without the driver's own words; [inr tt] is the return of 0. *)
Definition cuda_driver_load (lib : cuda_library) (g : cuda_driver_t) : cuda_driver_t * (string + unit) :=
  if loaded g then (g, inr tt)
  else if attempted g then (g, inl "CUDA driver is not available"%string)
  else
    let g := CudaDriver true (loaded g) in
    if negb (lib_found lib) then (g, inl "CUDA driver library not found"%string)
    else
      match list_find (fun name => lib_symbol lib name = false) cuda_symbols with
      | Some (_, name) => (g, inl ("CUDA driver is missing required symbol " ++ name)%string)
      | None =>
          if negb (lib_init lib =? CUDA_SUCCESS) then (g, inl "CUDA driver initialization failed"%string)
          else (CudaDriver (attempted g) true, inr tt)
      end.

(** * Construction *)

(** What a miner owns; the flags of the structure say which handles are not null. *)
Inductive resource := MinerStruct | Context_ | Module_ | CountBuf | MatchesBuf | HostMatches.
#[export] Instance resource_eq_dec : EqDecision resource.
Proof. solve_decision. Defined.

Record cuda_miner := CudaMiner {
  cm_batch_size : Z; cm_threads_per_block : Z; cm_nonces_per_thread : Z; cm_max_results : Z;
  cm_kernel_variant : Z;
  cm_context : bool; cm_module : bool; cm_count_buf : bool; cm_matches_buf : bool; cm_matches : bool;
}.

(** The replies of the calls of [cuda_miner_create], in their order; those whose
    result is ignored are left out.  [rep_matches] and [rep_miner] are whether the
    two [calloc] succeed. *)
Record create_replies := CreateReplies {
  rep_count : Z * Z; rep_miner : bool; rep_device : Z; rep_context : Z; rep_module : Z;
  rep_function : Z; rep_count_buf : Z; rep_matches_buf : Z; rep_matches : bool;
}.

(** [cuda_miner_destroy]; [g_cuda.loaded] holds whenever there is a miner. *)
Definition cuda_miner_destroy (m : cuda_miner) : list (event resource) :=
  released_if (cm_matches_buf m) MatchesBuf ++ released_if (cm_count_buf m) CountBuf ++
  released_if (cm_module m) Module_ ++ released_if (cm_context m) Context_ ++
  released_if (cm_matches m) HostMatches ++ [Release MinerStruct].

(** The result with what was acquired and released on the way. *)
Definition cuda_miner_create (lib : cuda_library) (r : create_replies) (g : cuda_driver_t)
    (config : option miner_cuda_config_t) : cuda_driver_t * (string + cuda_miner) * list (event resource) :=
  let '(CudaConfig _ device batch threads npt max variant) := effective_config config in
  match cuda_driver_load lib g with
  | (g, inl error) => (g, inl error, [])
  | (g, inr _) =>
      let '(rc, count) := rep_count r in
      if negb (rc =? CUDA_SUCCESS) then (g, inl "failed to enumerate CUDA devices"%string, [])
      else if count <=? 0 then (g, inl "no CUDA devices found"%string, [])
      else if (device <? 0) || (count <=? device) then
        (g, inl "configured CUDA device index is out of range"%string, [])
      else if negb (rep_miner r) then (g, inl "CUDA miner allocation failed"%string, [])
      else
        let m := CudaMiner batch threads npt max variant false false false false false in
        let tr := [Acquire MinerStruct] in
        let fail error m tr := (g, inl error, tr ++ cuda_miner_destroy m) in
        if negb (rep_device r =? CUDA_SUCCESS) then fail "failed to select CUDA device"%string m tr else
        if negb (rep_context r =? CUDA_SUCCESS) then fail "failed to create CUDA context"%string m tr else
        let m := CudaMiner batch threads npt max variant true false false false false in
        let tr := tr ++ [Acquire Context_] in
        if negb (rep_module r =? CUDA_SUCCESS) then fail "failed to load CUDA SHA256d PTX"%string m tr else
        let m := CudaMiner batch threads npt max variant true true false false false in
        let tr := tr ++ [Acquire Module_] in
        if negb (rep_function r =? CUDA_SUCCESS) then fail "failed to find CUDA SHA256d kernel"%string m tr else
        if negb (rep_count_buf r =? CUDA_SUCCESS) then
          fail "failed to allocate CUDA result count buffer"%string m tr else
        let m := CudaMiner batch threads npt max variant true true true false false in
        let tr := tr ++ [Acquire CountBuf] in
        if negb (rep_matches_buf r =? CUDA_SUCCESS) then
          fail "failed to allocate CUDA matches buffer"%string m tr else
        let m := CudaMiner batch threads npt max variant true true true true false in
        let tr := tr ++ [Acquire MatchesBuf] in
        if negb (rep_matches r) then fail "CUDA host result allocation failed"%string m tr else
        let m := CudaMiner batch threads npt max variant true true true true true in
        (g, inr m, tr ++ [Acquire HostMatches])
  end.

(** * Scan *)

(** The functions of the loaded module. *)
Definition cuda_module `{P : PTX} : list (string * kernel) :=
  [("btcrig_cuda_scan_nonce_range_dual", btcrig_cuda_scan_nonce_range_dual);
   ("btcrig_cuda_scan_nonce_range_fixed_npt1", btcrig_cuda_scan_nonce_range_fixed_npt1);
   ("btcrig_cuda_scan_nonce_range_fixed_npt2", btcrig_cuda_scan_nonce_range_fixed_npt2);
   ("btcrig_cuda_scan_nonce_range_fixed_npt4", btcrig_cuda_scan_nonce_range_fixed_npt4);
   ("btcrig_cuda_scan_nonce_range_lop3", btcrig_cuda_scan_nonce_range_lop3);
   ("btcrig_cuda_scan_nonce_range_fixed_lop3_npt1", btcrig_cuda_scan_nonce_range_fixed_lop3_npt1);
   ("btcrig_cuda_scan_nonce_range_fixed_lop3_npt2", btcrig_cuda_scan_nonce_range_fixed_lop3_npt2);
   ("btcrig_cuda_scan_nonce_range_fixed_lop3_npt4", btcrig_cuda_scan_nonce_range_fixed_lop3_npt4);
   ("btcrig_cuda_scan_nonce_range", btcrig_cuda_scan_nonce_range)]%string.

Fixpoint module_function (module : list (string * kernel)) (name : string) : option kernel :=
  match module with
  | [] => None
  | (n, k) :: module => if String.eqb n name then Some k else module_function module name
  end.

(** The replies of the calls of a scan. *)
Record scan_replies := ScanReplies {
  rep_set_current : Z; rep_memset : Z; rep_launch : Z; rep_synchronize : Z; rep_copy_count : Z;
  rep_copy_matches : Z;
}.
Definition all_success (r : scan_replies) : Prop :=
  rep_set_current r = CUDA_SUCCESS /\ rep_memset r = CUDA_SUCCESS /\ rep_launch r = CUDA_SUCCESS /\
  rep_synchronize r = CUDA_SUCCESS /\ rep_copy_count r = CUDA_SUCCESS /\ rep_copy_matches r = CUDA_SUCCESS.

(** The threads of a launch of [grid] blocks of [block] threads, thread [g] being
    thread [g mod block] of block [g / block]. *)
Definition launch_threads (k : kernel) (a : scan_args) (grid block : Z) : list (list match_t) :=
  (fun g => k a (Z.of_nat g / block) block (Z.of_nat g mod block)) <$> seq 0 (Z.to_nat (grid * block)).

(** [miner->matches[i * 9U]] *)
Definition cuda_slot (i : nat) : nat := Z.to_nat (u32 (Z.of_nat i * 9)).

Section scan.
Context `{O : OpenSSL} `{G : Gpu} {A : Type}.

(** [buf] is what the matches buffer holds before the launch. *)
Definition cuda_miner_scan (m : cuda_miner) (kernel : kernel) (r : scan_replies) (buf : list Z)
    (state : sha256_midstate_t O) (tail_words target_words : list Z) (start_nonce nonce_count : Z)
    (opaque : A) (on_match : on_match_t A) : Z * A :=
  if nonce_count =? 0 then (0, opaque)
  else if negb (rep_set_current r =? CUDA_SUCCESS) then (-1, opaque)
  else if negb (rep_memset r =? CUDA_SUCCESS) then (-1, opaque)
  else
    let npt := cm_nonces_per_thread m in
    let args := ScanArgs (ms_fast_state state) target_words
      [tail_words !!! 0%nat; tail_words !!! 1%nat; tail_words !!! 2%nat]
      start_nonce nonce_count npt (cm_max_results m) in
    let work_items := u64 (nonce_count + npt - 1) / npt in
    let grid := u64 (work_items + cm_threads_per_block m - 1) / cm_threads_per_block m in
    if (grid =? 0) || (UINT32_MAX <? grid) then (-1, opaque)
    else if negb (rep_launch r =? CUDA_SUCCESS) then (-1, opaque)
    else
      let s := run_device (cm_max_results m)
                 (launched buf (launch_threads kernel args grid (cm_threads_per_block m))) in
      if negb (rep_synchronize r =? CUDA_SUCCESS) then (-1, opaque)
      else if negb (rep_copy_count r =? CUDA_SUCCESS) then (-1, opaque)
      else
        match on_match with
        | Some f =>
            if result_count s =? 0 then (0, opaque)
            else if negb (rep_copy_matches r =? CUDA_SUCCESS) then (-1, opaque)
            else (0, foldl (fun a '(nonce, h) => f nonce h a) opaque
                       (read_matches cuda_slot s (cm_max_results m)))
        | None => (0, opaque)
        end.
End scan.

(** * The miners [cuda_miner_create] makes

    The two conditions on the sizes are those of a configuration that fits: the
    slots of the matches buffer are indexed in 32 bits, and so are the nonces of a
    launch with its last threads. *)
Record cuda_miner_ok (m : cuda_miner) : Prop := {
  mk_threads : 32 <= cm_threads_per_block m <= 1024;
  mk_npt : 1 <= cm_nonces_per_thread m <= 16;
  mk_max : 0 < cm_max_results m /\ 9 * cm_max_results m <= 2 ^ 32;
  mk_batch : 0 < cm_batch_size m /\
    cm_batch_size m + cm_threads_per_block m * cm_nonces_per_thread m <= 2 ^ 32;
  mk_variant : MINER_CUDA_KERNEL_STANDARD <= cm_kernel_variant m <= MINER_CUDA_KERNEL_LAST;
  mk_forced : kernel_variant_forced_npt (cm_kernel_variant m) <> 0 ->
    cm_nonces_per_thread m = kernel_variant_forced_npt (cm_kernel_variant m);
}.

(** * Resources *)

Definition all_resources : list resource :=
  [MinerStruct; Context_; Module_; CountBuf; MatchesBuf; HostMatches].

(** [cuda_miner_create] neither leaks nor frees twice: on every error path what was
    acquired has been released, each resource once; a miner that is returned holds
    all six resources, and [cuda_miner_destroy] then releases exactly those. *)
Theorem create_releases lib r g config :
  match cuda_miner_create lib r g config with
  | (_, inl _, tr) => held_after tr = Some []
  | (_, inr m, tr) =>
      held_after tr = Some all_resources /\ held_after (tr ++ cuda_miner_destroy m) = Some []
  end.
Proof.
  unfold cuda_miner_create. destruct (effective_config config) as [enabled device batch threads npt max variant].
  destruct (cuda_driver_load lib g) as [g' [error|[]]]; [done|].
  destruct (rep_count r) as [rc count].
  do 4 (match goal with |- context [if ?b then _ else _] => destruct b end; [reflexivity|]).
  do 7 (match goal with |- context [if ?b then _ else _] => destruct b end; [vm_compute; reflexivity|]).
  split; vm_compute; reflexivity.
Qed.

(** * The configuration of a miner *)

Lemma clamp_threads_bounds v :
  is_u32 v -> 32 <= clamp_threads_per_block v <= 1024 /\ clamp_threads_per_block v mod 32 = 0.
Proof.
  intros Hv. unfold clamp_threads_per_block. set (u := config_u32_or _ _).
  destruct (Z.ltb_spec u 32); [done|]. destruct (Z.ltb_spec 1024 u); [done|].
  rewrite round_up_32 by lia. pose proof (Z.div_mod (u + 31) 32 ltac:(lia)).
  pose proof (Z.mod_pos_bound (u + 31) 32 ltac:(lia)). split; [lia|].
  rewrite Z.mul_comm. apply Z.mod_mul. lia.
Qed.

Lemma clamp_npt_bounds v : 1 <= clamp_nonces_per_thread v <= 16.
Proof.
  unfold clamp_nonces_per_thread. set (u := config_u32_or _ _).
  destruct (Z.ltb_spec u 1); [lia|]. destruct (Z.ltb_spec 16 u); lia.
Qed.

Lemma normalize_range v :
  MINER_CUDA_KERNEL_STANDARD <= normalize_kernel_variant v <= MINER_CUDA_KERNEL_LAST.
Proof.
  unfold normalize_kernel_variant, MINER_CUDA_KERNEL_STANDARD, MINER_CUDA_KERNEL_LAST,
    MINER_CUDA_DEFAULT_KERNEL_VARIANT, MINER_CUDA_KERNEL_STANDARD.
  destruct (Z.ltb_spec v 0), (Z.ltb_spec 8 v); cbn; lia.
Qed.
Lemma normalize_in v :
  MINER_CUDA_KERNEL_STANDARD <= v <= MINER_CUDA_KERNEL_LAST -> normalize_kernel_variant v = v.
Proof.
  intros Hv. unfold normalize_kernel_variant.
  destruct (Z.ltb_spec v MINER_CUDA_KERNEL_STANDARD), (Z.ltb_spec MINER_CUDA_KERNEL_LAST v); cbn; lia.
Qed.

(** Cases on a kernel variant in range. *)
Lemma variant_cases (P : Z -> Prop) v :
  MINER_CUDA_KERNEL_STANDARD <= v <= MINER_CUDA_KERNEL_LAST ->
  P 0 -> P 1 -> P 2 -> P 3 -> P 4 -> P 5 -> P 6 -> P 7 -> P 8 -> P v.
Proof.
  unfold MINER_CUDA_KERNEL_STANDARD, MINER_CUDA_KERNEL_LAST. intros Hv H0 H1 H2 H3 H4 H5 H6 H7 H8.
  assert (Hc : In v (seqZ 0 9)) by (apply list_elem_of_In, elem_of_seqZ; lia).
  by repeat (destruct Hc as [<-|Hc]; [assumption|]).
Qed.

Lemma forced_npt_range v : 0 <= kernel_variant_forced_npt v <= 4.
Proof. unfold kernel_variant_forced_npt. cbv zeta. by repeat case_match. Qed.

(** The sizes that fit, for the configured values. *)
Definition config_fits (c : miner_cuda_config_t) : Prop :=
  is_u32 (cc_batch_size c) /\ is_u32 (cc_threads_per_block c) /\ is_u32 (cc_max_results c) /\
  cc_batch_size c <= 2 ^ 32 - 16384 /\ 9 * cc_max_results c <= 2 ^ 32.

Lemma create_miner lib r g config m g' tr :
  cuda_miner_create lib r g config = (g', inr m, tr) ->
  match effective_config config with
  | CudaConfig _ _ batch threads npt max variant =>
      m = CudaMiner batch threads npt max variant true true true true true
  end.
Proof.
  unfold cuda_miner_create. destruct (effective_config config) as [enabled device batch threads npt max variant].
  destruct (cuda_driver_load lib g) as [g1 [error|[]]]; [done|].
  destruct (rep_count r) as [rc count].
  do 11 (match goal with |- context [if ?b then _ else _] => destruct b end; [discriminate|]).
  by intros [= _ <- _].
Qed.

Lemma create_ok lib r g config m g' tr :
  config_fits (match config with Some c => c | None => miner_cuda_config_defaults end) ->
  cuda_miner_create lib r g config = (g', inr m, tr) ->
  cuda_miner_ok m /\ cm_threads_per_block m mod 32 = 0.
Proof.
  intros Hf Hc. apply create_miner in Hc. unfold effective_config in Hc.
  set (c := match config with Some c => c | None => miner_cuda_config_defaults end) in *.
  destruct c as [enabled device batch threads npt max variant].
  destruct Hf as (Hb & Ht & Hm & Hb' & Hm').
  cbn [cc_batch_size cc_threads_per_block cc_max_results] in *. subst m.
  set (v := normalize_kernel_variant variant).
  pose proof (normalize_range variant) as Hv. fold v in Hv.
  pose proof (clamp_threads_bounds threads Ht) as [Htb Htm].
  pose proof (clamp_npt_bounds npt) as Hn. pose proof (forced_npt_range v) as Hfr.
  unfold is_u32 in *.
  split; [|exact Htm].
  split; cbn [cm_threads_per_block cm_nonces_per_thread cm_max_results cm_batch_size cm_kernel_variant].
  - exact Htb.
  - destruct (Z.eqb_spec (kernel_variant_forced_npt v) 0); cbn [negb]; lia.
  - unfold config_u32_or, MINER_CUDA_DEFAULT_MAX_RESULTS. destruct (Z.eqb_spec max 0); cbn [negb]; lia.
  - assert (Hmul : clamp_threads_per_block threads *
      (if negb (kernel_variant_forced_npt v =? 0) then kernel_variant_forced_npt v else clamp_nonces_per_thread npt)
      <= 16384).
    { destruct (Z.eqb_spec (kernel_variant_forced_npt v) 0); cbn [negb]; nia. }
    unfold config_u32_or, MINER_CUDA_DEFAULT_BATCH_SIZE. destruct (Z.eqb_spec batch 0); cbn [negb]; lia.
  - exact Hv.
  - intros Hne. by destruct (Z.eqb_spec (kernel_variant_forced_npt v) 0).
Qed.

(** A miner [cuda_miner_create] returns is well-formed whenever the configured
    batch and result sizes fit 32-bit indexing: threads per block a multiple of 32
    from 32 to 1024, 1 to 16 nonces a thread, as many as the kernel is compiled for
    when it is a fixed one, and a known variant. *)
Theorem create_well_formed lib r g config m g' tr :
  config_fits (match config with Some c => c | None => miner_cuda_config_defaults end) ->
  cuda_miner_create lib r g config = (g', inr m, tr) ->
  cuda_miner_ok m /\ cm_threads_per_block m mod 32 = 0.
Proof. apply create_ok. Qed.

Lemma create_well_formed_witness :
  cuda_miner_ok (CudaMiner 4194304 96 4 256 8 true true true true true) /\ 96 mod 32 = 0.
Proof.
  refine (create_well_formed (CudaLibrary true (fun _ => true) 0)
    (CreateReplies (0, 2) true 0 0 0 0 0 0 true) (CudaDriver false false)
    (Some (CudaConfig true 1 4194304 65 3 256 8)) _ (CudaDriver true true)
    (Acquire <$> all_resources) _ _).
  - unfold config_fits, is_u32. cbn. lia.
  - vm_compute. reflexivity.
Defined.

(** * The kernel of a miner *)

Section kernels.
Context `{P : PTX} `{!PTXLaws P}.

(** The module has the function a miner asks for, and it is correct for the miner's
    number of nonces a thread. *)
Lemma miner_kernel m a :
  cuda_miner_ok m -> nonces_per_thread a = cm_nonces_per_thread m ->
  length (fast a) = 8%nat -> is_words (fast a) ->
  0 <= nonce_count a -> nonce_count a + cm_nonces_per_thread m <= 2 ^ 32 ->
  exists k, module_function cuda_module (cuda_miner_kernel_function_name (cm_kernel_variant m)) = Some k /\
    kernel_correct k (cm_nonces_per_thread m) a.
Proof.
  intros [_ Hn _ _ Hv Hf] Hnpt Hl Hw Hc Hfit. revert Hf.
  generalize (cm_kernel_variant m), Hv. clear Hv. intros v Hv. rewrite <- Hnpt in *.
  destruct (range_correct a Hl Hw Hc ltac:(lia) ltac:(lia)) as [Hrange Hlop3].
  destruct (fixed_correct a Hl Hw Hc ltac:(lia)) as [Hf2 Hf4].
  destruct (fixed_lop3_correct a Hl Hw Hc ltac:(lia)) as [Hl2 Hl4].
  destruct (single_correct a Hl Hw Hc) as [Hf1 Hl1].
  pose proof (dual_kernel a Hl Hw Hc ltac:(lia) ltac:(lia)) as Hdual.
  assert (Hfixed : forall per : Z, kernel_variant_forced_npt v = per -> per <> 0 ->
    (kernel_variant_forced_npt v <> 0 -> nonces_per_thread a = kernel_variant_forced_npt v) ->
    nonces_per_thread a = per) by (intros per <- Hne H; by apply H).
  revert Hfixed. pattern v. apply (variant_cases _ v Hv); clear v Hv; intros Hfixed Hf;
    (eexists; split; [reflexivity|]).
  - exact Hrange.
  - exact Hdual.
  - rewrite (Hfixed 1 eq_refl ltac:(lia) Hf). exact Hf1.
  - rewrite (Hfixed 2 eq_refl ltac:(lia) Hf). exact Hf2.
  - rewrite (Hfixed 4 eq_refl ltac:(lia) Hf). exact Hf4.
  - exact Hlop3.
  - rewrite (Hfixed 1 eq_refl ltac:(lia) Hf). exact Hl1.
  - rewrite (Hfixed 2 eq_refl ltac:(lia) Hf). exact Hl2.
  - rewrite (Hfixed 4 eq_refl ltac:(lia) Hf). exact Hl4.
Qed.
End kernels.

(** * Exactness of a scan *)

(** A thread index of the grid. *)
Lemma thread_index g block : 0 < block -> g / block * block + g mod block = g.
Proof. intros Hb. pose proof (Z.div_mod g block ltac:(lia)). lia. Qed.

Lemma launch_work (k : kernel) per a grid block :
  kernel_correct k per a -> 0 < block -> 0 < per -> 0 <= grid ->
  (grid * block - 1) * per < 2 ^ 32 ->
  launch_threads k a grid block =
  (fun g => thread_hits a (thread_nonces (start_nonce a) (Z.to_nat (nonce_count a)) (Z.to_nat per) g))
    <$> seq 0 (Z.to_nat (grid * block)).
Proof.
  intros Hk Hb Hp Hg Hfit. unfold launch_threads. apply list_fmap_ext. intros i g Hi.
  apply lookup_seq in Hi as [Hi Hlt]. assert (Hgb : Z.of_nat g <= grid * block - 1) by lia.
  rewrite (Hk _ block _); rewrite thread_index by done; [by rewrite Nat2Z.id|lia|nia].
Qed.

Lemma thread_hits_with a hash ns :
  arg_hash a = hash -> thread_hits a ns = hits hash (target a) ns.
Proof. by intros <-. Qed.

Section exact.
Context `{O : OpenSSL} `{P : PTX} `{!PTXLaws P} `{G : Gpu} `{!GpuLaws G}.

(** The launch of a miner on a range, with the sizes the host computes. *)
Lemma cuda_launch m k S T tgt start count buf :
  cuda_miner_ok m ->
  module_function cuda_module (cuda_miner_kernel_function_name (cm_kernel_variant m)) = Some k ->
  length S = 8%nat -> is_words S -> 0 < count ->
  count + cm_threads_per_block m * cm_nonces_per_thread m <= 2 ^ 32 ->
  length buf = Z.to_nat (9 * cm_max_results m) ->
  let npt := cm_nonces_per_thread m in
  let block := cm_threads_per_block m in
  let a := ScanArgs S tgt T start count npt (cm_max_results m) in
  let grid := u64 (u64 (count + npt - 1) / npt + block - 1) / block in
  let s := run_device (cm_max_results m) (launched buf (launch_threads k a grid block)) in
  0 < grid <= UINT32_MAX /\
  exists order, order ≡ₚ matches (nonce_hash S T) tgt start (Z.to_nat count) /\
    result_count s = Z.of_nat (length order) /\
    read_matches cuda_slot s (cm_max_results m) =
      (fun nonce => (nonce, nonce_hash S T nonce)) <$> take (Z.to_nat (cm_max_results m)) order.
Proof.
  intros Hm Hk Hl Hw Hc Hfit Hbuf npt block a.
  pose proof Hm as Hok. destruct Hm as [Ht Hn [Hmax0 Hmax] _ Hv Hf].
  fold npt in Hn, Hfit. fold block in Ht, Hfit.
  rewrite (u64_small (count + npt - 1)) by (unfold is_u64; lia).
  set (work := (count + npt - 1) / npt).
  pose proof (div_up count npt ltac:(lia) ltac:(lia)) as Hwork. fold work in Hwork.
  assert (Hw1 : 1 <= work <= count + 16) by nia.
  rewrite (u64_small (work + block - 1)) by (unfold is_u64; lia).
  set (grid := (work + block - 1) / block).
  pose proof (div_up work block ltac:(lia) ltac:(lia)) as Hgrid. fold grid in Hgrid.
  assert (Hg1 : 1 <= grid <= work) by nia. cbv zeta.
  split; [unfold UINT32_MAX; nia|].
  destruct (miner_kernel m a Hok eq_refl Hl Hw) as (k' & Hk' & Hcorrect); [cbn; lia|cbn; nia|].
  rewrite Hk in Hk'. injection Hk' as <-.
  apply (launch_exact (nonce_hash S T) tgt start (Z.to_nat count) (Z.to_nat npt) (Z.to_nat (grid * block))
           (cm_max_results m) buf (launch_threads k a grid block)).
  - intros nonce. apply length_nonce_hash.
  - lia.
  - nia.
  - rewrite (launch_work k npt a grid block Hcorrect) by nia. reflexivity.
  - lia.
  - exact Hmax.
  - exact Hbuf.
  - intros i Hi. unfold cuda_slot. rewrite u32_small by (unfold is_u32; lia). lia.
  - apply run_device_steps.
  - apply run_device_completes.
Qed.

Context {A : Type}.

Lemma cuda_scan_cases m k r buf S (st : sha256_midstate_t O) T tgt start count (opaque : A) f :
  cuda_miner_ok m ->
  module_function cuda_module (cuda_miner_kernel_function_name (cm_kernel_variant m)) = Some k ->
  midstate_of S st -> 0 <= count ->
  count + cm_threads_per_block m * cm_nonces_per_thread m <= 2 ^ 32 ->
  length buf = Z.to_nat (9 * cm_max_results m) ->
  exists order, order ≡ₚ matches (nonce_hash S T) tgt start (Z.to_nat count) /\
    (cuda_miner_scan m k r buf st T tgt start count opaque (Some f) =
       (0, report (nonce_hash S T) (Some f) (take (Z.to_nat (cm_max_results m)) order) opaque) \/
     ~ all_success r /\ cuda_miner_scan m k r buf st T tgt start count opaque (Some f) = (-1, opaque)).
Proof.
  intros Hm Hk HS Hc Hfit Hbuf. unfold cuda_miner_scan, all_success.
  destruct (Z.eqb_spec count 0) as [->|Hne].
  { exists []. split; [done|]. left. by rewrite take_nil. }
  rewrite (mo_fast _ _ HS). set (T' := [T !!! 0%nat; T !!! 1%nat; T !!! 2%nat]).
  destruct (cuda_launch m k S T' tgt start count buf Hm Hk (mo_length _ _ HS) (mo_words _ _ HS)
    ltac:(lia) Hfit Hbuf) as [Hgrid (order & Hp & Hn & Hread)].
  change (nonce_hash S T') with (nonce_hash S T) in Hp, Hread.
  exists order. split; [exact Hp|]. cbv zeta in Hgrid, Hn, Hread |- *.
  set (grid := u64 _ / cm_threads_per_block m) in *. set (s := run_device _ _) in *.
  destruct (Z.eqb_spec (rep_set_current r) CUDA_SUCCESS); cbn [negb]; [|right; by intuition].
  destruct (Z.eqb_spec (rep_memset r) CUDA_SUCCESS); cbn [negb]; [|right; by intuition].
  rewrite (proj2 (Z.eqb_neq grid 0)), (proj2 (Z.ltb_ge UINT32_MAX grid)) by lia. cbn [orb].
  destruct (Z.eqb_spec (rep_launch r) CUDA_SUCCESS); cbn [negb]; [|right; by intuition].
  destruct (Z.eqb_spec (rep_synchronize r) CUDA_SUCCESS); cbn [negb]; [|right; by intuition].
  destruct (Z.eqb_spec (rep_copy_count r) CUDA_SUCCESS); cbn [negb]; [|right; by intuition].
  rewrite Hn. destruct order as [|x order].
  { left. cbn. by rewrite take_nil. }
  rewrite (proj2 (Z.eqb_neq _ 0)) by (cbn; lia).
  destruct (Z.eqb_spec (rep_copy_matches r) CUDA_SUCCESS); cbn [negb]; [|right; by intuition].
  left. rewrite Hread. f_equal. unfold report. by rewrite foldl_fmap.
Qed.

(** C9.  The CUDA scan is exact: whatever order the device runs its threads in and
    whatever the driver replies, the scan fails without a callback, and then a call
    failed, or the callback has been called on matches of the range only, each once,
    with their hashes, in some order; on all of them when they fit the result buffer,
    and on [max_results] of them otherwise. *)
Theorem cuda_scan_exact m k r buf S (st : sha256_midstate_t O) T tgt start count (opaque : A) f :
  cuda_miner_ok m ->
  module_function cuda_module (cuda_miner_kernel_function_name (cm_kernel_variant m)) = Some k ->
  midstate_of S st -> 0 <= count ->
  count + cm_threads_per_block m * cm_nonces_per_thread m <= 2 ^ 32 ->
  length buf = Z.to_nat (9 * cm_max_results m) ->
  exists order, order ≡ₚ matches (nonce_hash S T) tgt start (Z.to_nat count) /\
    (cuda_miner_scan m k r buf st T tgt start count opaque (Some f) =
       (0, report (nonce_hash S T) (Some f) (take (Z.to_nat (cm_max_results m)) order) opaque) \/
     ~ all_success r /\ cuda_miner_scan m k r buf st T tgt start count opaque (Some f) = (-1, opaque)).
Proof. apply cuda_scan_cases. Qed.
End exact.

(** A run of the theorem: two nonces, block of 32 threads, any hash accepted. *)
#[local] Existing Instances ref_openssl ref_openssl_laws ref_ptx ref_ptx_laws seq_gpu seq_gpu_laws.
Definition wminer : cuda_miner := CudaMiner 1024 32 1 4 0 true true true true true.
Definition wtarget : list Z := replicate 8 UINT32_MAX.
Lemma wminer_ok : cuda_miner_ok wminer.
Proof. split; cbn; try lia; try (unfold MINER_CUDA_KERNEL_STANDARD, MINER_CUDA_KERNEL_LAST; lia). Qed.
Lemma wmidstate : midstate_of (O := ref_openssl) Fips.H0 (Midstate Fips.H0 Fips.H0 Fips.H0 : sha256_midstate_t ref_openssl).
Proof. split; try done. apply Fips.H0_words. Qed.

Lemma cuda_scan_exact_witness :
  exists order, order ≡ₚ matches (nonce_hash Fips.H0 [1; 2; 3; 4]) wtarget 7 2 /\
    (cuda_miner_scan wminer btcrig_cuda_scan_nonce_range (ScanReplies 0 0 0 0 0 0) (replicate 36 0)
       (Midstate Fips.H0 Fips.H0 Fips.H0 : sha256_midstate_t ref_openssl) [1; 2; 3; 4] wtarget 7 2 []
       (Some (fun nonce _ found => found ++ [nonce])) =
     (0, report (nonce_hash Fips.H0 [1; 2; 3; 4]) (Some (fun nonce _ found => found ++ [nonce])) (take 4 order) []) \/
     ~ all_success (ScanReplies 0 0 0 0 0 0) /\
     cuda_miner_scan wminer btcrig_cuda_scan_nonce_range (ScanReplies 0 0 0 0 0 0) (replicate 36 0)
       (Midstate Fips.H0 Fips.H0 Fips.H0 : sha256_midstate_t ref_openssl) [1; 2; 3; 4] wtarget 7 2 []
       (Some (fun nonce _ found => found ++ [nonce])) = (-1, [])).
Proof.
  refine (cuda_scan_exact wminer btcrig_cuda_scan_nonce_range (ScanReplies 0 0 0 0 0 0) (replicate 36 0)
    Fips.H0 _ [1; 2; 3; 4] wtarget 7 2 [] _ wminer_ok eq_refl wmidstate _ _ eq_refl).
  - lia.
  - cbn. lia.
Defined.

(** * The self-test *)

Section self_test.
Context `{O : OpenSSL} `{G : Gpu}.

(** [None] is the return of 0.  The kernel is whatever function the driver found. *)
Definition cuda_miner_self_test (lib : cuda_library) (r : create_replies) (g : cuda_driver_t)
    (config : option miner_cuda_config_t) (kernel : kernel) (sr : scan_replies) (buf : list Z)
    : cuda_driver_t * option string :=
  let '(CudaConfig enabled device _ threads npt _ variant) :=
    match config with Some config => config | None => miner_cuda_config_defaults end in
  let test_config := CudaConfig enabled device 1024 threads npt 32 variant in
  match cuda_miner_create lib r g (Some test_config) with
  | (g, inl create_error, _) => (g, Some create_error)
  | (g, inr miner, _) =>
      let '(rc, context) :=
        cuda_miner_scan miner kernel sr buf self_test_midstate self_test_tail self_test_target
          (st_start_nonce self_test_start) (st_nonce_count self_test_start)
          self_test_start (Some cuda_self_test_match) in
      if negb (rc =? 0) then (g, Some "CUDA self-test scan failed"%string)
      else if negb (self_test_passed context) then
        (g, Some "CUDA self-test hash verification failed"%string)
      else (g, None)
  end.

End self_test.

Section self_test_spec.
Context `{O : OpenSSL} `{!OpenSSLLaws O} `{P : PTX} `{!PTXLaws P} `{G : Gpu} `{!GpuLaws G}.

(** The self-test accepts a device that works: when the miner is created and the
    driver calls of the scan succeed, a device that runs the kernel of the miner, in
    any order, passes, for every kernel variant and block size. *)
Theorem cuda_self_test_passes lib r g config g' m tr k sr buf :
  let c := match config with Some c => c | None => miner_cuda_config_defaults end in
  is_u32 (cc_threads_per_block c) ->
  cuda_miner_create lib r g (Some (CudaConfig (cc_enabled c) (cc_device c) 1024 (cc_threads_per_block c)
    (cc_nonces_per_thread c) 32 (cc_kernel_variant c))) = (g', inr m, tr) ->
  module_function cuda_module (cuda_miner_kernel_function_name (cm_kernel_variant m)) = Some k ->
  all_success sr -> length buf = 288%nat ->
  cuda_miner_self_test lib r g config k sr buf = (g', None).
Proof.
  intros c Ht Hc Hk Hsr Hbuf. unfold cuda_miner_self_test. fold c.
  destruct c as [enabled device batch threads npt max variant].
  cbn [cc_enabled cc_device cc_threads_per_block cc_nonces_per_thread cc_kernel_variant] in Hc, Ht.
  rewrite Hc.
  destruct (create_ok lib r g (Some (CudaConfig enabled device 1024 threads npt 32 variant)) m g' tr) as [Hm _];
    [|exact Hc|]; [unfold config_fits, is_u32 in *; cbn [cc_batch_size cc_threads_per_block cc_max_results]; lia|].
  apply create_miner in Hc. unfold effective_config in Hc.
  assert (Hmax : cm_max_results m = 32) by (by rewrite Hc). clear Hc.
  pose proof (mk_threads m Hm). pose proof (mk_npt m Hm).
  destruct (cuda_scan_cases m k sr buf test_chain self_test_midstate self_test_tail self_test_target
    test_start 16 self_test_start cuda_self_test_match Hm Hk test_midstate) as (order & Hp & [Hscan|[Hn _]]);
    [lia|nia|by rewrite Hmax, Hbuf| |by destruct Hn].
  change (st_start_nonce self_test_start) with test_start.
  change (st_nonce_count self_test_start) with 16. rewrite Hscan. cbn [negb Z.eqb].
  change (Z.to_nat 16) with 16%nat in Hp. rewrite test_matches in Hp.
  assert (Hlen : length order = 16%nat) by (by rewrite Hp).
  rewrite Hmax, take_ge by (rewrite Hlen; vm_compute; lia).
  pose proof (test_reports_pass order Hp) as Hpass. unfold run_test in Hpass. rewrite foldl_fmap in Hpass.
  unfold report. by rewrite Hpass.
Qed.
End self_test_spec.

Lemma cuda_self_test_passes_witness :
  cuda_miner_self_test (CudaLibrary true (fun _ => true) 0) (CreateReplies (0, 1) true 0 0 0 0 0 0 true)
    (CudaDriver false false) None btcrig_cuda_scan_nonce_range (ScanReplies 0 0 0 0 0 0) (replicate 288 7) =
  (CudaDriver true true, None).
Proof.
  refine (cuda_self_test_passes (CudaLibrary true (fun _ => true) 0)
    (CreateReplies (0, 1) true 0 0 0 0 0 0 true) (CudaDriver false false) None (CudaDriver true true)
    (CudaMiner 1024 256 1 32 0 true true true true true) (Acquire <$> all_resources)
    btcrig_cuda_scan_nonce_range (ScanReplies 0 0 0 0 0 0) (replicate 288 7) _ _ eq_refl _ eq_refl).
  - split; vm_compute; [discriminate|reflexivity].
  - vm_compute. reflexivity.
  - split_and!; reflexivity.
Defined.
