(* ===== verification/OpenclKernel.v ===== *)
(** The OpenCL scan kernels, whose text is in the string constants of
    src/src/opencl_miner.c: three ways to write the compression (the unrolled
    function, the macro of the modern backend, the loop of the compact kernel and its
    two-lane vector form), and the kernels over them. *)
From stdpp Require Import base tactics list numbers strings.
From Stdlib Require Import ZArith Lia.
From S2P Require Import Prelude Words Fips Sha256d Scan Simd GpuSha GpuScan CudaKernel.

#[local] Open Scope Z_scope.

(** * The unrolled compressions *)

#[local] Abbreviation ROUND := (GpuSha.ROUND CH MAJ).

(** [k_opencl_kernel] and [k_opencl_kernel_rounds]: the arrays are copied to
    variables, and only the state is written back. *)
Definition compress (st m : list Z) : list Z :=
  let l := Locals (Fips.Regs (st !!! 0%nat) (st !!! 1%nat) (st !!! 2%nat) (st !!! 3%nat)
                             (st !!! 4%nat) (st !!! 5%nat) (st !!! 6%nat) (st !!! 7%nat)) m
    |> ROUND va vb vc vd ve vf vg vh (w 0) 0x428a2f98
    |> ROUND vh va vb vc vd ve vf vg (w 1) 0x71374491
    |> ROUND vg vh va vb vc vd ve vf (w 2) 0xb5c0fbcf
    |> ROUND vf vg vh va vb vc vd ve (w 3) 0xe9b5dba5
    |> ROUND ve vf vg vh va vb vc vd (w 4) 0x3956c25b
    |> ROUND vd ve vf vg vh va vb vc (w 5) 0x59f111f1
    |> ROUND vc vd ve vf vg vh va vb (w 6) 0x923f82a4
    |> ROUND vb vc vd ve vf vg vh va (w 7) 0xab1c5ed5
    |> ROUND va vb vc vd ve vf vg vh (w 8) 0xd807aa98
    |> ROUND vh va vb vc vd ve vf vg (w 9) 0x12835b01
    |> ROUND vg vh va vb vc vd ve vf (w 10) 0x243185be
    |> ROUND vf vg vh va vb vc vd ve (w 11) 0x550c7dc3
    |> ROUND ve vf vg vh va vb vc vd (w 12) 0x72be5d74
    |> ROUND vd ve vf vg vh va vb vc (w 13) 0x80deb1fe
    |> ROUND vc vd ve vf vg vh va vb (w 14) 0x9bdc06a7
    |> ROUND vb vc vd ve vf vg vh va (w 15) 0xc19bf174
    |> ROUND va vb vc vd ve vf vg vh (MSG 0 1 9 14) 0xe49b69c1
    |> ROUND vh va vb vc vd ve vf vg (MSG 1 2 10 15) 0xefbe4786
    |> ROUND vg vh va vb vc vd ve vf (MSG 2 3 11 0) 0x0fc19dc6
    |> ROUND vf vg vh va vb vc vd ve (MSG 3 4 12 1) 0x240ca1cc
    |> ROUND ve vf vg vh va vb vc vd (MSG 4 5 13 2) 0x2de92c6f
    |> ROUND vd ve vf vg vh va vb vc (MSG 5 6 14 3) 0x4a7484aa
    |> ROUND vc vd ve vf vg vh va vb (MSG 6 7 15 4) 0x5cb0a9dc
    |> ROUND vb vc vd ve vf vg vh va (MSG 7 8 0 5) 0x76f988da
    |> ROUND va vb vc vd ve vf vg vh (MSG 8 9 1 6) 0x983e5152
    |> ROUND vh va vb vc vd ve vf vg (MSG 9 10 2 7) 0xa831c66d
    |> ROUND vg vh va vb vc vd ve vf (MSG 10 11 3 8) 0xb00327c8
    |> ROUND vf vg vh va vb vc vd ve (MSG 11 12 4 9) 0xbf597fc7
    |> ROUND ve vf vg vh va vb vc vd (MSG 12 13 5 10) 0xc6e00bf3
    |> ROUND vd ve vf vg vh va vb vc (MSG 13 14 6 11) 0xd5a79147
    |> ROUND vc vd ve vf vg vh va vb (MSG 14 15 7 12) 0x06ca6351
    |> ROUND vb vc vd ve vf vg vh va (MSG 15 0 8 13) 0x14292967
    |> ROUND va vb vc vd ve vf vg vh (MSG 0 1 9 14) 0x27b70a85
    |> ROUND vh va vb vc vd ve vf vg (MSG 1 2 10 15) 0x2e1b2138
    |> ROUND vg vh va vb vc vd ve vf (MSG 2 3 11 0) 0x4d2c6dfc
    |> ROUND vf vg vh va vb vc vd ve (MSG 3 4 12 1) 0x53380d13
    |> ROUND ve vf vg vh va vb vc vd (MSG 4 5 13 2) 0x650a7354
    |> ROUND vd ve vf vg vh va vb vc (MSG 5 6 14 3) 0x766a0abb
    |> ROUND vc vd ve vf vg vh va vb (MSG 6 7 15 4) 0x81c2c92e
    |> ROUND vb vc vd ve vf vg vh va (MSG 7 8 0 5) 0x92722c85
    |> ROUND va vb vc vd ve vf vg vh (MSG 8 9 1 6) 0xa2bfe8a1
    |> ROUND vh va vb vc vd ve vf vg (MSG 9 10 2 7) 0xa81a664b
    |> ROUND vg vh va vb vc vd ve vf (MSG 10 11 3 8) 0xc24b8b70
    |> ROUND vf vg vh va vb vc vd ve (MSG 11 12 4 9) 0xc76c51a3
    |> ROUND ve vf vg vh va vb vc vd (MSG 12 13 5 10) 0xd192e819
    |> ROUND vd ve vf vg vh va vb vc (MSG 13 14 6 11) 0xd6990624
    |> ROUND vc vd ve vf vg vh va vb (MSG 14 15 7 12) 0xf40e3585
    |> ROUND vb vc vd ve vf vg vh va (MSG 15 0 8 13) 0x106aa070
    |> ROUND va vb vc vd ve vf vg vh (MSG 0 1 9 14) 0x19a4c116
    |> ROUND vh va vb vc vd ve vf vg (MSG 1 2 10 15) 0x1e376c08
    |> ROUND vg vh va vb vc vd ve vf (MSG 2 3 11 0) 0x2748774c
    |> ROUND vf vg vh va vb vc vd ve (MSG 3 4 12 1) 0x34b0bcb5
    |> ROUND ve vf vg vh va vb vc vd (MSG 4 5 13 2) 0x391c0cb3
    |> ROUND vd ve vf vg vh va vb vc (MSG 5 6 14 3) 0x4ed8aa4a
    |> ROUND vc vd ve vf vg vh va vb (MSG 6 7 15 4) 0x5b9cca4f
    |> ROUND vb vc vd ve vf vg vh va (MSG 7 8 0 5) 0x682e6ff3
    |> ROUND va vb vc vd ve vf vg vh (MSG 8 9 1 6) 0x748f82ee
    |> ROUND vh va vb vc vd ve vf vg (MSG 9 10 2 7) 0x78a5636f
    |> ROUND vg vh va vb vc vd ve vf (MSG 10 11 3 8) 0x84c87814
    |> ROUND vf vg vh va vb vc vd ve (MSG 11 12 4 9) 0x8cc70208
    |> ROUND ve vf vg vh va vb vc vd (MSG 12 13 5 10) 0x90befffa
    |> ROUND vd ve vf vg vh va vb vc (MSG 13 14 6 11) 0xa4506ceb
    |> ROUND vc vd ve vf vg vh va vb (MSG 14 15 7 12) 0xbef9a3f7
    |> ROUND vb vc vd ve vf vg vh va (MSG 15 0 8 13) 0xc67178f2 in
  add_state st (vars l).

(** [k_opencl_kernel_modern_scalar_macro]: it updates its arguments. *)
Definition SHA256_COMPRESS_SCALAR (st m : list Z) : list Z * list Z :=
  let l := Locals (Fips.Regs (st !!! 0%nat) (st !!! 1%nat) (st !!! 2%nat) (st !!! 3%nat)
                             (st !!! 4%nat) (st !!! 5%nat) (st !!! 6%nat) (st !!! 7%nat)) m
    |> ROUND va vb vc vd ve vf vg vh (w 0) 0x428a2f98
    |> ROUND vh va vb vc vd ve vf vg (w 1) 0x71374491
    |> ROUND vg vh va vb vc vd ve vf (w 2) 0xb5c0fbcf
    |> ROUND vf vg vh va vb vc vd ve (w 3) 0xe9b5dba5
    |> ROUND ve vf vg vh va vb vc vd (w 4) 0x3956c25b
    |> ROUND vd ve vf vg vh va vb vc (w 5) 0x59f111f1
    |> ROUND vc vd ve vf vg vh va vb (w 6) 0x923f82a4
    |> ROUND vb vc vd ve vf vg vh va (w 7) 0xab1c5ed5
    |> ROUND va vb vc vd ve vf vg vh (w 8) 0xd807aa98
    |> ROUND vh va vb vc vd ve vf vg (w 9) 0x12835b01
    |> ROUND vg vh va vb vc vd ve vf (w 10) 0x243185be
    |> ROUND vf vg vh va vb vc vd ve (w 11) 0x550c7dc3
    |> ROUND ve vf vg vh va vb vc vd (w 12) 0x72be5d74
    |> ROUND vd ve vf vg vh va vb vc (w 13) 0x80deb1fe
    |> ROUND vc vd ve vf vg vh va vb (w 14) 0x9bdc06a7
    |> ROUND vb vc vd ve vf vg vh va (w 15) 0xc19bf174
    |> ROUND va vb vc vd ve vf vg vh (MSG 0 1 9 14) 0xe49b69c1
    |> ROUND vh va vb vc vd ve vf vg (MSG 1 2 10 15) 0xefbe4786
    |> ROUND vg vh va vb vc vd ve vf (MSG 2 3 11 0) 0x0fc19dc6
    |> ROUND vf vg vh va vb vc vd ve (MSG 3 4 12 1) 0x240ca1cc
    |> ROUND ve vf vg vh va vb vc vd (MSG 4 5 13 2) 0x2de92c6f
    |> ROUND vd ve vf vg vh va vb vc (MSG 5 6 14 3) 0x4a7484aa
    |> ROUND vc vd ve vf vg vh va vb (MSG 6 7 15 4) 0x5cb0a9dc
    |> ROUND vb vc vd ve vf vg vh va (MSG 7 8 0 5) 0x76f988da
    |> ROUND va vb vc vd ve vf vg vh (MSG 8 9 1 6) 0x983e5152
    |> ROUND vh va vb vc vd ve vf vg (MSG 9 10 2 7) 0xa831c66d
    |> ROUND vg vh va vb vc vd ve vf (MSG 10 11 3 8) 0xb00327c8
    |> ROUND vf vg vh va vb vc vd ve (MSG 11 12 4 9) 0xbf597fc7
    |> ROUND ve vf vg vh va vb vc vd (MSG 12 13 5 10) 0xc6e00bf3
    |> ROUND vd ve vf vg vh va vb vc (MSG 13 14 6 11) 0xd5a79147
    |> ROUND vc vd ve vf vg vh va vb (MSG 14 15 7 12) 0x06ca6351
    |> ROUND vb vc vd ve vf vg vh va (MSG 15 0 8 13) 0x14292967
    |> ROUND va vb vc vd ve vf vg vh (MSG 0 1 9 14) 0x27b70a85
    |> ROUND vh va vb vc vd ve vf vg (MSG 1 2 10 15) 0x2e1b2138
    |> ROUND vg vh va vb vc vd ve vf (MSG 2 3 11 0) 0x4d2c6dfc
    |> ROUND vf vg vh va vb vc vd ve (MSG 3 4 12 1) 0x53380d13
    |> ROUND ve vf vg vh va vb vc vd (MSG 4 5 13 2) 0x650a7354
    |> ROUND vd ve vf vg vh va vb vc (MSG 5 6 14 3) 0x766a0abb
    |> ROUND vc vd ve vf vg vh va vb (MSG 6 7 15 4) 0x81c2c92e
    |> ROUND vb vc vd ve vf vg vh va (MSG 7 8 0 5) 0x92722c85
    |> ROUND va vb vc vd ve vf vg vh (MSG 8 9 1 6) 0xa2bfe8a1
    |> ROUND vh va vb vc vd ve vf vg (MSG 9 10 2 7) 0xa81a664b
    |> ROUND vg vh va vb vc vd ve vf (MSG 10 11 3 8) 0xc24b8b70
    |> ROUND vf vg vh va vb vc vd ve (MSG 11 12 4 9) 0xc76c51a3
    |> ROUND ve vf vg vh va vb vc vd (MSG 12 13 5 10) 0xd192e819
    |> ROUND vd ve vf vg vh va vb vc (MSG 13 14 6 11) 0xd6990624
    |> ROUND vc vd ve vf vg vh va vb (MSG 14 15 7 12) 0xf40e3585
    |> ROUND vb vc vd ve vf vg vh va (MSG 15 0 8 13) 0x106aa070
    |> ROUND va vb vc vd ve vf vg vh (MSG 0 1 9 14) 0x19a4c116
    |> ROUND vh va vb vc vd ve vf vg (MSG 1 2 10 15) 0x1e376c08
    |> ROUND vg vh va vb vc vd ve vf (MSG 2 3 11 0) 0x2748774c
    |> ROUND vf vg vh va vb vc vd ve (MSG 3 4 12 1) 0x34b0bcb5
    |> ROUND ve vf vg vh va vb vc vd (MSG 4 5 13 2) 0x391c0cb3
    |> ROUND vd ve vf vg vh va vb vc (MSG 5 6 14 3) 0x4ed8aa4a
    |> ROUND vc vd ve vf vg vh va vb (MSG 6 7 15 4) 0x5b9cca4f
    |> ROUND vb vc vd ve vf vg vh va (MSG 7 8 0 5) 0x682e6ff3
    |> ROUND va vb vc vd ve vf vg vh (MSG 8 9 1 6) 0x748f82ee
    |> ROUND vh va vb vc vd ve vf vg (MSG 9 10 2 7) 0x78a5636f
    |> ROUND vg vh va vb vc vd ve vf (MSG 10 11 3 8) 0x84c87814
    |> ROUND vf vg vh va vb vc vd ve (MSG 11 12 4 9) 0x8cc70208
    |> ROUND ve vf vg vh va vb vc vd (MSG 12 13 5 10) 0x90befffa
    |> ROUND vd ve vf vg vh va vb vc (MSG 13 14 6 11) 0xa4506ceb
    |> ROUND vc vd ve vf vg vh va vb (MSG 14 15 7 12) 0xbef9a3f7
    |> ROUND vb vc vd ve vf vg vh va (MSG 15 0 8 13) 0xc67178f2 in
  (add_state st (vars l), msg l).

(** * The compact loop *)

Definition K256 : list Z :=
  [0x428a2f98; 0x71374491; 0xb5c0fbcf; 0xe9b5dba5] ++
  [0x3956c25b; 0x59f111f1; 0x923f82a4; 0xab1c5ed5] ++
  [0xd807aa98; 0x12835b01; 0x243185be; 0x550c7dc3] ++
  [0x72be5d74; 0x80deb1fe; 0x9bdc06a7; 0xc19bf174] ++
  [0xe49b69c1; 0xefbe4786; 0x0fc19dc6; 0x240ca1cc] ++
  [0x2de92c6f; 0x4a7484aa; 0x5cb0a9dc; 0x76f988da] ++
  [0x983e5152; 0xa831c66d; 0xb00327c8; 0xbf597fc7] ++
  [0xc6e00bf3; 0xd5a79147; 0x06ca6351; 0x14292967] ++
  [0x27b70a85; 0x2e1b2138; 0x4d2c6dfc; 0x53380d13] ++
  [0x650a7354; 0x766a0abb; 0x81c2c92e; 0x92722c85] ++
  [0xa2bfe8a1; 0xa81a664b; 0xc24b8b70; 0xc76c51a3] ++
  [0xd192e819; 0xd6990624; 0xf40e3585; 0x106aa070] ++
  [0x19a4c116; 0x1e376c08; 0x2748774c; 0x34b0bcb5] ++
  [0x391c0cb3; 0x4ed8aa4a; 0x5b9cca4f; 0x682e6ff3] ++
  [0x748f82ee; 0x78a5636f; 0x84c87814; 0x8cc70208] ++
  [0x90befffa; 0xa4506ceb; 0xbef9a3f7; 0xc67178f2].

(** The body of the loop of [k_opencl_kernel_compact]: [a] .. [h] and the array [w]. *)
Definition compact_round (i : nat) (s : Fips.regs * list Z) : Fips.regs * list Z :=
  let '(Fips.Regs a b c d e f g h, w) := s in
  let '(wi, w) :=
    if (i <? 16)%nat then (w !!! i, w)
    else
      let j := Nat.land i 15 in
      let wi := (w !!! j +w SS1 (w !!! Nat.land (j + 14) 15) +w w !!! Nat.land (j + 9) 15
                 +w SS0 (w !!! Nat.land (j + 1) 15))%word in
      (wi, <[j := wi]> w) in
  let t1 := (h +w BS1 e +w CH e f g +w K256 !!! i +w wi)%word in
  let t2 := (BS0 a +w MAJ a b c)%word in
  (* h = g, .., e = d + t1, .., a = t1 + t2 *)
  (Fips.Regs (t1 +w t2)%word a b c (d +w t1)%word e f g, w).

Definition compress_compact (st w : list Z) : list Z * list Z :=
  let '(r, w) := for_range 0 64 compact_round
    (Fips.Regs (st !!! 0%nat) (st !!! 1%nat) (st !!! 2%nat) (st !!! 3%nat)
                             (st !!! 4%nat) (st !!! 5%nat) (st !!! 6%nat) (st !!! 7%nat), w) in
  (add_state st r, w).

(** * The two-lane loop of the register-heavy kernel

    [uint2]: every operator acts on both components. *)
Record u32v := U32V { lane0 : Z; lane1 : Z }.
#[export] Instance u32v_inhabited : Inhabited u32v := populate (U32V inhabitant inhabitant).
Definition splat (x : Z) : u32v := U32V x x.
Definition vmap (f : Z -> Z) (x : u32v) : u32v := U32V (f (lane0 x)) (f (lane1 x)).
Definition vmap2 (f : Z -> Z -> Z) (x y : u32v) : u32v := U32V (f (lane0 x) (lane0 y)) (f (lane1 x) (lane1 y)).
Definition vadd : u32v -> u32v -> u32v := vmap2 add32.
Definition vxor : u32v -> u32v -> u32v := vmap2 Z.lxor.
Definition vand : u32v -> u32v -> u32v := vmap2 Z.land.
Definition vor : u32v -> u32v -> u32v := vmap2 Z.lor.
Definition vnot : u32v -> u32v := vmap not32.
Definition vshr (x : u32v) (n : Z) : u32v := vmap (fun x => Z.shiftr x n) x.
Definition vshl (x : u32v) (n : Z) : u32v := vmap (fun x => u32 (Z.shiftl x n)) x.

Definition rotr32v (x : u32v) (n : Z) : u32v := vor (vshr x n) (vshl x (32 - n)).
Definition bswap32v (v : u32v) : u32v :=
  vor (vor (vor
    (vshl (vand v (splat 0x000000ff)) 24)
    (vshl (vand v (splat 0x0000ff00)) 8))
    (vshr (vand v (splat 0x00ff0000)) 8))
    (vshr (vand v (splat 0xff000000)) 24).
Definition SS0V (x : u32v) : u32v := vxor (vxor (rotr32v x 7) (rotr32v x 18)) (vshr x 3).
Definition SS1V (x : u32v) : u32v := vxor (vxor (rotr32v x 17) (rotr32v x 19)) (vshr x 10).
Definition BS0V (x : u32v) : u32v := vxor (vxor (rotr32v x 2) (rotr32v x 13)) (rotr32v x 22).
Definition BS1V (x : u32v) : u32v := vxor (vxor (rotr32v x 6) (rotr32v x 11)) (rotr32v x 25).
Definition CHV (x y z : u32v) : u32v := vxor (vand x y) (vand (vnot x) z).
Definition MAJV (x y z : u32v) : u32v := vxor (vxor (vand x y) (vand x z)) (vand y z).

Record vregs := VRegs { ava : u32v; avb : u32v; avc : u32v; avd : u32v; ave : u32v; avf : u32v; avg : u32v; avh : u32v }.

Definition K256V : list Z :=
  [0x428a2f98; 0x71374491; 0xb5c0fbcf; 0xe9b5dba5] ++
  [0x3956c25b; 0x59f111f1; 0x923f82a4; 0xab1c5ed5] ++
  [0xd807aa98; 0x12835b01; 0x243185be; 0x550c7dc3] ++
  [0x72be5d74; 0x80deb1fe; 0x9bdc06a7; 0xc19bf174] ++
  [0xe49b69c1; 0xefbe4786; 0x0fc19dc6; 0x240ca1cc] ++
  [0x2de92c6f; 0x4a7484aa; 0x5cb0a9dc; 0x76f988da] ++
  [0x983e5152; 0xa831c66d; 0xb00327c8; 0xbf597fc7] ++
  [0xc6e00bf3; 0xd5a79147; 0x06ca6351; 0x14292967] ++
  [0x27b70a85; 0x2e1b2138; 0x4d2c6dfc; 0x53380d13] ++
  [0x650a7354; 0x766a0abb; 0x81c2c92e; 0x92722c85] ++
  [0xa2bfe8a1; 0xa81a664b; 0xc24b8b70; 0xc76c51a3] ++
  [0xd192e819; 0xd6990624; 0xf40e3585; 0x106aa070] ++
  [0x19a4c116; 0x1e376c08; 0x2748774c; 0x34b0bcb5] ++
  [0x391c0cb3; 0x4ed8aa4a; 0x5b9cca4f; 0x682e6ff3] ++
  [0x748f82ee; 0x78a5636f; 0x84c87814; 0x8cc70208] ++
  [0x90befffa; 0xa4506ceb; 0xbef9a3f7; 0xc67178f2].

Definition vec_round (i : nat) (s : vregs * list u32v) : vregs * list u32v :=
  let '(VRegs a b c d e f g h, w) := s in
  let '(wi, w) :=
    if (i <? 16)%nat then (w !!! i, w)
    else
      let j := Nat.land i 15 in
      let wi := vadd (vadd (vadd (w !!! j) (SS1V (w !!! Nat.land (j + 14) 15))) (w !!! Nat.land (j + 9) 15))
                     (SS0V (w !!! Nat.land (j + 1) 15)) in
      (wi, <[j := wi]> w) in
  let t1 := vadd (vadd (vadd (vadd h (BS1V e)) (CHV e f g)) (splat (K256V !!! i))) wi in
  let t2 := vadd (BS0V a) (MAJV a b c) in
  (* h = g, .., e = d + t1, .., a = t1 + t2 *)
  (VRegs (vadd t1 t2) a b c (vadd d t1) e f g, w).

Definition compress_vec2 (st w : list u32v) : list u32v * list u32v :=
  let '(VRegs a b c d e f g h, w) := for_range 0 64 vec_round
    (VRegs (st !!! 0%nat) (st !!! 1%nat) (st !!! 2%nat) (st !!! 3%nat)
           (st !!! 4%nat) (st !!! 5%nat) (st !!! 6%nat) (st !!! 7%nat), w) in
  ([vadd (st !!! 0%nat) a; vadd (st !!! 1%nat) b; vadd (st !!! 2%nat) c; vadd (st !!! 3%nat) d;
    vadd (st !!! 4%nat) e; vadd (st !!! 5%nat) f; vadd (st !!! 6%nat) g; vadd (st !!! 7%nat) h], w).

(** * Correctness of the compressions *)

#[local] Opaque GpuSha.ROUND add_state.

Lemma compress_unrolled_rounds st w :
  compress st w = add_state st (vars (for_range 0 64 (nth_round CH MAJ) (Locals (Fips.regs_of st) w))).
Proof. reflexivity. Qed.
Lemma compress_scalar_rounds st w :
  fst (SHA256_COMPRESS_SCALAR st w) =
  add_state st (vars (for_range 0 64 (nth_round CH MAJ) (Locals (Fips.regs_of st) w))).
Proof. reflexivity. Qed.

Section compress_spec.
Context (st : list Z) (Hst : length st = 8%nat) (Hw : is_words st).
Context (M : list Z) (HM : length M = 16%nat).

Lemma unrolled_fips : compress st M = Fips.compress st M.
Proof.
  rewrite compress_unrolled_rounds, all_rounds by (done || by apply regs_of_u32).
  by apply add_state_compress.
Qed.
Lemma scalar_fips : fst (SHA256_COMPRESS_SCALAR st M) = Fips.compress st M.
Proof.
  rewrite compress_scalar_rounds, all_rounds by (done || by apply regs_of_u32).
  by apply add_state_compress.
Qed.

Lemma land_15 n : Nat.land n 15 = (n mod 16)%nat.
Proof. change 15%nat with (Nat.ones 4). rewrite Nat.land_ones. done. Qed.
Lemma land_15_add n k : Nat.land (Nat.land n 15 + k) 15 = ((n + k) mod 16)%nat.
Proof. rewrite !land_15. apply Nat.Div0.add_mod_idemp_l. Qed.

Definition compact_after (n : nat) : Fips.regs * list Z :=
  (Fips.rounds M n (Fips.regs_of st), if (n <? 16)%nat then M else window M n).

Lemma compact_round_after n : (n < 64)%nat -> compact_round n (compact_after n) = compact_after (S n).
Proof.
  intros Hn. unfold compact_after. rewrite Fips.rounds_S.
  assert (Hround : forall r (w w' : list Z) x,
    (if (n <? 16)%nat then (w !!! n, w)
     else let j := Nat.land n 15 in
       let wi := (w !!! j +w SS1 (w !!! Nat.land (j + 14) 15) +w w !!! Nat.land (j + 9) 15
                  +w SS0 (w !!! Nat.land (j + 1) 15))%word in (wi, <[j := wi]> w)) = (x, w') ->
    compact_round n (r, w) = (Fips.round (Fips.K !!! n) x r, w')).
  { intros [a b c d e f g h] w w' x Hx. unfold compact_round. cbv beta iota zeta in Hx |- *. rewrite Hx. reflexivity. }
  destruct (Nat.ltb_spec n 16) as [Hlo|Hhi].
  - rewrite (Hround _ M M (W M n)) by (by rewrite W_lo). f_equal.
    destruct (Nat.ltb_spec (S n) 16); [done|].
    by replace (S n) with 16%nat by lia; rewrite window_16.
  - destruct (Nat.ltb_spec (S n) 16); [lia|]. rewrite <- (window_S M n) by done.
    apply Hround. cbv zeta. rewrite !land_15_add, land_15.
    pose proof (window_back M n 16 Hhi ltac:(lia)) as H16. rewrite Nat.add_0_r in H16.
    pose proof (window_back M n 15 Hhi ltac:(lia)) as H15.
    pose proof (window_back M n 7 Hhi ltac:(lia)) as H7.
    pose proof (window_back M n 2 Hhi ltac:(lia)) as H2.
    cbn [Nat.sub] in H15, H7, H2. rewrite H16, H15, H7, H2. clear H16 H15 H7 H2.
    assert (HW : (W M (n - 16) +w SS1 (W M (n - 2)) +w W M (n - 7) +w SS0 (W M (n - 15)))%word = W M n).
    { rewrite (W_hi M HM n), SS0_fips, SS1_fips by lia. add32_ac. }
    by rewrite HW.
Qed.

Lemma compact_rounds_after n : (n <= 64)%nat ->
  for_range 0 n compact_round (Fips.regs_of st, M) = compact_after n.
Proof.
  induction n as [|n IH]; intros Hn; [done|].
  rewrite for_range_S_r, IH by lia. by apply compact_round_after.
Qed.

Lemma compact_fips : fst (compress_compact st M) = Fips.compress st M.
Proof.
  unfold compress_compact.
  change (Fips.Regs _ _ _ _ _ _ _ _) with (Fips.regs_of st).
  rewrite compact_rounds_after by lia. unfold compact_after. cbn [fst]. by apply add_state_compress.
Qed.
End compress_spec.

(** Each lane of the vector loop is the compact loop. *)
Definition lane (l : bool) (x : u32v) : Z := if l then lane1 x else lane0 x.
Definition lane_regs (l : bool) (r : vregs) : Fips.regs :=
  Fips.Regs (lane l (ava r)) (lane l (avb r)) (lane l (avc r)) (lane l (avd r))
            (lane l (ave r)) (lane l (avf r)) (lane l (avg r)) (lane l (avh r)).

Lemma lane_lookup l (w : list u32v) i : (lane l <$> w) !!! i = lane l (w !!! i).
Proof.
  rewrite !list_lookup_total_alt, list_lookup_fmap. destruct (w !! i); [done|]. by destruct l.
Qed.

Lemma vec_round_lane l n r w :
  let s := vec_round n (r, w) in
  (lane_regs l (fst s), lane l <$> snd s) = compact_round n (lane_regs l r, lane l <$> w).
Proof.
  destruct r as [a b c d e f g h]. unfold vec_round, compact_round. cbn [lane_regs ava avb avc avd ave avf avg avh].
  change K256V with K256. rewrite !lane_lookup.
  destruct (n <? 16)%nat; cbv beta iota zeta; cbn [fst snd lane_regs ava avb avc avd ave avf avg avh];
    rewrite ?list_fmap_insert; by destruct l.
Qed.

Lemma vec_rounds_lane l n r w :
  let s := for_range 0 n vec_round (r, w) in
  (lane_regs l (fst s), lane l <$> snd s) = for_range 0 n compact_round (lane_regs l r, lane l <$> w).
Proof.
  cbv zeta. induction n as [|n IH]; [done|]. rewrite !for_range_S_r, <- IH.
  destruct (for_range 0 n vec_round (r, w)) as [r' w']. apply vec_round_lane.
Qed.

#[local] Transparent add_state.
Lemma vec2_lane l st w :
  lane l <$> fst (compress_vec2 st w) = fst (compress_compact (lane l <$> st) (lane l <$> w)).
Proof.
  unfold compress_vec2, compress_compact. rewrite !lane_lookup.
  set (r := VRegs _ _ _ _ _ _ _ _). pose proof (vec_rounds_lane l 64 r w) as H. cbv zeta in H.
  change (Fips.Regs _ _ _ _ _ _ _ _) with (lane_regs l r). rewrite <- H.
  destruct (for_range 0 64 vec_round (r, w)) as [[a b c d e f g h] w'].
  cbn [fst snd lane_regs ava avb avc avd ave avf avg avh]. unfold add_state. rewrite !lane_lookup.
  by destruct l.
Qed.

(** * The device functions over the arrays *)

(** [meets_target] and [store_match] of [k_opencl_kernel_tail_helpers] are
    [meets_target_words] and [store_match_words] on an array. *)
Definition meets_target (hash : list Z) (t0 t1 t2 t3 t4 t5 t6 t7 : Z) : bool :=
  let h := bswap32 (hash !!! 7%nat) in if h <? t7 then true else if t7 <? h then false else
  let h := bswap32 (hash !!! 6%nat) in if h <? t6 then true else if t6 <? h then false else
  let h := bswap32 (hash !!! 5%nat) in if h <? t5 then true else if t5 <? h then false else
  let h := bswap32 (hash !!! 4%nat) in if h <? t4 then true else if t4 <? h then false else
  let h := bswap32 (hash !!! 3%nat) in if h <? t3 then true else if t3 <? h then false else
  let h := bswap32 (hash !!! 2%nat) in if h <? t2 then true else if t2 <? h then false else
  let h := bswap32 (hash !!! 1%nat) in if h <? t1 then true else if t1 <? h then false else
  let h := bswap32 (hash !!! 0%nat) in if h <? t0 then true else if t0 <? h then false else
  true.

(** [scan_one_nonce] of [k_opencl_kernel_tail_helpers], over the [compress] of the
    program it is in. *)
Definition scan_one_nonce_arrays (compress : list Z -> list Z -> list Z) (a : scan_args) (nonce : Z)
    : list match_t :=
  let st := fast a in
  let w := first_words a nonce in
  let st := compress st w in
  let out := initial_words in
  let w := second_words st in
  let out := compress out w in
  let t i := target a !!! i in
  if meets_target out (t 0%nat) (t 1%nat) (t 2%nat) (t 3%nat) (t 4%nat) (t 5%nat) (t 6%nat) (t 7%nat)
  then [(nonce, out)] else [].

(** [scan_one_nonce] of [k_opencl_kernel_modern_tail_helpers]. *)
Definition scan_one_nonce_modern (a : scan_args) (nonce : Z) : list match_t :=
  let s := fast a in
  let w := first_words a nonce in
  let '(s, w) := SHA256_COMPRESS_SCALAR s w in
  let h := initial_words in
  let w := second_words s in
  let '(h, w) := SHA256_COMPRESS_SCALAR h w in
  check_words a nonce h.

Definition scan_two_nonces_vec (a : scan_args) (nonce0 : Z) (second_valid : bool) : list match_t :=
  let nonce := U32V nonce0 (add32 nonce0 1) in
  let s := splat <$> fast a in
  let w := [splat (tail a !!! 0%nat); splat (tail a !!! 1%nat); splat (tail a !!! 2%nat); bswap32v nonce;
            splat 0x80000000; splat 0; splat 0; splat 0; splat 0; splat 0; splat 0; splat 0;
            splat 0; splat 0; splat 0; splat 640] in
  let '(s, w) := compress_vec2 s w in
  let h := splat <$> ([0x6a09e667; 0xbb67ae85; 0x3c6ef372; 0xa54ff53a] ++
                     [0x510e527f; 0x9b05688c; 0x1f83d9ab; 0x5be0cd19]) in
  let w := [s !!! 0%nat; s !!! 1%nat; s !!! 2%nat; s !!! 3%nat; s !!! 4%nat; s !!! 5%nat; s !!! 6%nat; s !!! 7%nat;
            splat 0x80000000; splat 0; splat 0; splat 0; splat 0; splat 0; splat 0; splat 256] in
  let '(h, w) := compress_vec2 h w in
  (if meets_words (lane0 <$> h) (target a) then [(nonce0, lane0 <$> h)] else []) ++
  (if second_valid && meets_words (lane1 <$> h) (target a)
   then [(add32 nonce0 1, lane1 <$> h)] else []).

(** * The kernels

    A work item is the arguments and [get_global_id(0)]. *)
Definition cl_kernel : Type := scan_args -> Z -> list match_t.

(** [SCAN_ONE(base_nonce)], over the [scan_one_nonce] of the program. *)
Definition SCAN_ONE (scan_one_nonce : scan_args -> Z -> list match_t) (a : scan_args) (base_nonce : Z)
    : list match_t := scan_one_nonce a (add32 (start_nonce a) base_nonce).

Section cl_kernels.
Context (scan_one_nonce : scan_args -> Z -> list match_t).
#[local] Abbreviation SCAN_ONE := (SCAN_ONE scan_one_nonce).

Definition scan_nonce_range_npi1 : cl_kernel := fun a global_id =>
  let gid := u32 global_id in
  if nonce_count a <=? gid then [] else SCAN_ONE a gid.

Definition scan_nonce_range_npi2 : cl_kernel := fun a global_id =>
  let base_nonce := u32 (u32 global_id * 2) in
  if nonce_count a <=? base_nonce then [] else
  SCAN_ONE a base_nonce ++
  (if add32 base_nonce 1 <? nonce_count a then SCAN_ONE a (add32 base_nonce 1) else []).

Definition scan_nonce_range_npi4 : cl_kernel := fun a global_id =>
  let base_nonce := u32 (u32 global_id * 4) in
  if nonce_count a <=? base_nonce then [] else
  SCAN_ONE a base_nonce ++
  (if add32 base_nonce 1 <? nonce_count a then SCAN_ONE a (add32 base_nonce 1) else []) ++
  (if add32 base_nonce 2 <? nonce_count a then SCAN_ONE a (add32 base_nonce 2) else []) ++
  (if add32 base_nonce 3 <? nonce_count a then SCAN_ONE a (add32 base_nonce 3) else []).

Definition scan_nonce_range : cl_kernel := fun a global_id =>
  let gid := u32 global_id in
  if nonce_count a =? 0 then [] else
  let work_items := add32 (u32 (nonce_count a - 1) / nonces_per_thread a) 1 in
  if work_items <=? gid then [] else
  let base_nonce := u32 (gid * nonces_per_thread a) in
  let limit := nonces_per_thread a in
  let limit := if nonce_count a <? add32 base_nonce limit then u32 (nonce_count a - base_nonce) else limit in
  for_range 0 (Z.to_nat limit)
    (fun item found => found ++ SCAN_ONE a (add32 base_nonce (Z.of_nat item))) [].

(** The kernels of [k_opencl_kernel_modern_fixed_kernels]. *)
Definition modern_scan_nonce_range_fixed_npi1 : cl_kernel := fun a global_id =>
  let gid := u32 global_id in
  if nonce_count a <=? gid then [] else SCAN_ONE a gid.

Definition modern_scan_nonce_range_fixed_npi2 : cl_kernel := fun a global_id =>
  let base_nonce := u32 (u32 global_id * 2) in
  if nonce_count a <=? base_nonce then [] else
  SCAN_ONE a base_nonce ++
  (if add32 base_nonce 1 <? nonce_count a then SCAN_ONE a (add32 base_nonce 1) else []).

Definition modern_scan_nonce_range_fixed_npi4 : cl_kernel := fun a global_id =>
  let base_nonce := u32 (u32 global_id * 4) in
  if nonce_count a <=? base_nonce then [] else
  SCAN_ONE a base_nonce ++
  (if add32 base_nonce 1 <? nonce_count a then SCAN_ONE a (add32 base_nonce 1) else []) ++
  (if add32 base_nonce 2 <? nonce_count a then SCAN_ONE a (add32 base_nonce 2) else []) ++
  (if add32 base_nonce 3 <? nonce_count a then SCAN_ONE a (add32 base_nonce 3) else []).
End cl_kernels.

Definition modern_scan_nonce_range_register_heavy : cl_kernel := fun a global_id =>
  let base_nonce := u32 (u32 global_id * 2) in
  if nonce_count a <=? base_nonce then [] else
  scan_two_nonces_vec a (add32 (start_nonce a) base_nonce) (add32 base_nonce 1 <? nonce_count a).

(** * What a work item does *)

Definition cl_kernel_correct (k : cl_kernel) (per : Z) (a : scan_args) : Prop :=
  forall gid, 0 <= gid -> gid * per < 2 ^ 32 ->
    k a gid = thread_hits a (thread_nonces (start_nonce a) (Z.to_nat (nonce_count a)) (Z.to_nat per) (Z.to_nat gid)).

#[local] Opaque compress SHA256_COMPRESS_SCALAR compress_compact compress_vec2.

Lemma initial_words_u32 : is_words initial_words.
Proof. unfold initial_words. solve_Forall; unfold is_u32; lia. Qed.
Lemma length_digest_block s : length s = 8%nat -> length (digest_block s) = 16%nat.
Proof. intros H. unfold digest_block. by rewrite length_app, H. Qed.

Section scan_one.
Context (a : scan_args) (Hfast : length (fast a) = 8%nat) (Hwords : is_words (fast a)).

(** Any function that compresses as FIPS 180-4 hashes a nonce. *)
Lemma two_blocks (f : list Z -> list Z -> list Z) nonce :
  (forall s M, length s = 8%nat -> is_words s -> length M = 16%nat -> f s M = Fips.compress s M) ->
  f initial_words (second_words (f (fast a) (first_words a nonce))) = arg_hash a nonce.
Proof.
  intros Hf. rewrite (Hf (fast a)) by done.
  rewrite second_block by (by apply length_compress).
  rewrite Hf; [done|done|exact initial_words_u32|by apply length_digest_block, length_compress].
Qed.

Lemma arrays_hits f nonce :
  (forall s M, length s = 8%nat -> is_words s -> length M = 16%nat -> f s M = Fips.compress s M) ->
  scan_one_nonce_arrays f a nonce = thread_hits a [nonce].
Proof.
  intros Hf. rewrite <- check_words_hits, <- (two_blocks f nonce Hf).
  unfold scan_one_nonce_arrays, check_words, meets_words, meets_target, meets_target_words. done.
Qed.

Lemma unrolled_hits nonce : scan_one_nonce_arrays compress a nonce = thread_hits a [nonce].
Proof. apply arrays_hits. intros s M H1 H2 H3. by apply unrolled_fips. Qed.
Lemma compact_hits nonce :
  scan_one_nonce_arrays (fun st w => fst (compress_compact st w)) a nonce = thread_hits a [nonce].
Proof. apply arrays_hits. intros s M H1 _ H3. by apply compact_fips. Qed.
Lemma modern_hits nonce : scan_one_nonce_modern a nonce = thread_hits a [nonce].
Proof.
  rewrite <- check_words_hits, <- (two_blocks (fun s M => fst (SHA256_COMPRESS_SCALAR s M)) nonce)
    by (intros s M H1 H2 H3; by apply scalar_fips).
  unfold scan_one_nonce_modern.
  destruct (SHA256_COMPRESS_SCALAR (fast a) (first_words a nonce)) as [s w]. cbn [fst].
  by destruct (SHA256_COMPRESS_SCALAR initial_words (second_words s)).
Qed.

(** The two lanes are the two nonces. *)
Lemma vec_hits nonce0 valid :
  scan_two_nonces_vec a nonce0 valid =
  thread_hits a (if valid then [nonce0; add32 nonce0 1] else [nonce0]).
Proof.
  set (f := fun s M => fst (compress_compact s M)).
  assert (Hf : forall s M, length s = 8%nat -> is_words s -> length M = 16%nat -> f s M = Fips.compress s M).
  { intros s M H1 _ H3. by apply compact_fips. }
  unfold scan_two_nonces_vec. cbv zeta.
  set (w := [splat (tail a !!! 0%nat); _; _; bswap32v _; _; _; _; _; _; _; _; _; _; _; _; _]).
  destruct (compress_vec2 (splat <$> fast a) w) as [s w1] eqn:E1.
  set (w2 := [s !!! 0%nat; _; _; _; _; _; _; _; splat 0x80000000; _; _; _; _; _; _; _]).
  destruct (compress_vec2 (splat <$> ([0x6a09e667; 0xbb67ae85; 0x3c6ef372; 0xa54ff53a] ++
                     [0x510e527f; 0x9b05688c; 0x1f83d9ab; 0x5be0cd19])) w2) as [h w3] eqn:E2.
  assert (Hsplat : forall l (x : list Z), lane l <$> (splat <$> x) = x).
  { intros l x. rewrite <- list_fmap_compose. induction x as [|y x IH]; [done|]. rewrite fmap_cons, IH. by destruct l. }
  assert (Hs : forall l, lane l <$> s = f (fast a) (first_words a (if l then add32 nonce0 1 else nonce0))).
  { intros l. change s with (fst (s, w1)). rewrite <- E1, vec2_lane, Hsplat. unfold f. do 2 f_equal. by destruct l. }
  assert (Hh : forall l, lane l <$> h = arg_hash a (if l then add32 nonce0 1 else nonce0)).
  { intros l. rewrite <- (two_blocks f _ Hf), <- Hs. change h with (fst (h, w3)). rewrite <- E2, vec2_lane, Hsplat.
    unfold f, second_words. rewrite !lane_lookup. by destruct l. }
  pose proof (Hh false) as H0. pose proof (Hh true) as H1.
  change (lane false) with lane0 in H0. change (lane true) with lane1 in H1. rewrite H0, H1.
  change (if meets_words (arg_hash a nonce0) (target a) then [(nonce0, arg_hash a nonce0)] else [])
    with (check_words a nonce0 (arg_hash a nonce0)).
  rewrite check_words_hits. destruct valid; cbn [andb].
  - change [nonce0; add32 nonce0 1] with ([nonce0] ++ [add32 nonce0 1]). rewrite thread_hits_app. f_equal.
    apply check_words_hits.
  - by rewrite app_nil_r.
Qed.
End scan_one.

Section items.
Context (a : scan_args) (one : scan_args -> Z -> list match_t).
Context (Hone : forall nonce, one a nonce = thread_hits a [nonce]) (Hcount : 0 <= nonce_count a).

Lemma first_item base : SCAN_ONE one a base = thread_hits a [add32 (start_nonce a) base].
Proof. apply Hone. Qed.

(** The conditional call for the [i]-th nonce of an item. *)
Lemma guarded_item base i :
  0 <= base < nonce_count a -> 0 <= i -> nonce_count a + i <= 2 ^ 32 ->
  (if add32 base i <? nonce_count a then SCAN_ONE one a (add32 base i) else []) =
  (if i <? nonce_count a - base then thread_hits a [add32 (add32 (start_nonce a) base) i] else []).
Proof.
  intros Hb Hi Hf. unfold add32 at 1. rewrite u32_small by (unfold is_u32; lia).
  destruct (Z.ltb_spec (base + i) (nonce_count a)), (Z.ltb_spec i (nonce_count a - base)); try lia; [|done].
  unfold SCAN_ONE. rewrite Hone. by rewrite add32_assoc.
Qed.

(** The nonces of an item one at a time. *)
Lemma run_step base n :
  0 <= base -> thread_hits a (run_of a base (S n)) =
  thread_hits a (run_of a base n) ++ thread_hits a [add32 (add32 (start_nonce a) base) (Z.of_nat n)].
Proof. intros Hb. rewrite run_of_S by done. apply thread_hits_app. Qed.
Lemma run_first base : 0 <= base -> run_of a base 1 = [add32 (start_nonce a) base].
Proof. intros Hb. unfold run_of, nonces, nonce_at. cbn [seq fmap list_fmap]. by rewrite Z2Nat.id. Qed.

#[local] Opaque run_of thread_hits.

Ltac enter_item per :=
  intros gid Hg0 Hg1; cbv zeta;
  rewrite ?(u32_small gid) by (unfold is_u32; nia).

Lemma npi1_correct : cl_kernel_correct (scan_nonce_range_npi1 one) 1 a.
Proof.
  unfold scan_nonce_range_npi1. enter_item 1.
  destruct (Z.leb_spec (nonce_count a) gid) as [Hge|Hlt].
  - by rewrite (share_empty a 1) by lia.
  - rewrite first_item. f_equal. rewrite <- (share_run a Hcount gid 1 gid) by lia.
    replace (Z.to_nat (Z.min 1 (nonce_count a - gid))) with 1%nat by lia.
    by rewrite run_first.
Qed.

Lemma npi2_correct : nonce_count a + 2 <= 2 ^ 32 -> cl_kernel_correct (scan_nonce_range_npi2 one) 2 a.
Proof.
  intros Hf. unfold scan_nonce_range_npi2. enter_item 2. rewrite (u32_small (gid * 2)) by (unfold is_u32; lia).
  destruct (Z.leb_spec (nonce_count a) (gid * 2)) as [Hge|Hlt]; [by rewrite (share_empty a 2) by lia|].
  rewrite first_item, guarded_item by lia. rewrite <- (share_run a Hcount (gid * 2) 2 gid) by lia.
  set (base := gid * 2) in *.
  rewrite <- run_first by lia. destruct (Z.ltb_spec 1 (nonce_count a - base)).
  - replace (Z.to_nat (Z.min 2 (nonce_count a - base))) with 2%nat by lia. rewrite (run_step base 1) by lia. f_equal.
  - replace (Z.to_nat (Z.min 2 (nonce_count a - base))) with 1%nat by lia. by rewrite app_nil_r.
Qed.

Lemma npi4_correct : nonce_count a + 4 <= 2 ^ 32 -> cl_kernel_correct (scan_nonce_range_npi4 one) 4 a.
Proof.
  intros Hf. unfold scan_nonce_range_npi4. enter_item 4. rewrite (u32_small (gid * 4)) by (unfold is_u32; lia).
  destruct (Z.leb_spec (nonce_count a) (gid * 4)) as [Hge|Hlt]; [by rewrite (share_empty a 4) by lia|].
  rewrite first_item, !guarded_item by lia. rewrite <- (share_run a Hcount (gid * 4) 4 gid) by lia.
  set (base := gid * 4) in *.
  assert (Hr : forall n, (1 <= n <= 3)%nat -> thread_hits a (run_of a base (S n)) =
    thread_hits a (run_of a base n) ++ thread_hits a [add32 (add32 (start_nonce a) base) (Z.of_nat n)])
    by (intros n _; apply run_step; lia).
  rewrite <- run_first by lia.
  destruct (Z.ltb_spec 1 (nonce_count a - base)), (Z.ltb_spec 2 (nonce_count a - base)),
    (Z.ltb_spec 3 (nonce_count a - base)); try lia.
  - replace (Z.to_nat (Z.min 4 (nonce_count a - base))) with 4%nat by lia.
    rewrite (Hr 3%nat), (Hr 2%nat), (Hr 1%nat) by lia. rewrite <- !app_assoc. f_equal.
  - replace (Z.to_nat (Z.min 4 (nonce_count a - base))) with 3%nat by lia.
    rewrite (Hr 2%nat), (Hr 1%nat) by lia. rewrite <- !app_assoc, !app_nil_r. f_equal.
  - replace (Z.to_nat (Z.min 4 (nonce_count a - base))) with 2%nat by lia.
    rewrite (Hr 1%nat) by lia. rewrite !app_nil_r. f_equal.
  - replace (Z.to_nat (Z.min 4 (nonce_count a - base))) with 1%nat by lia. by rewrite !app_nil_r.
Qed.

Lemma range_kernel_correct :
  1 <= nonces_per_thread a -> nonce_count a + nonces_per_thread a <= 2 ^ 32 ->
  cl_kernel_correct (scan_nonce_range one) (nonces_per_thread a) a.
Proof.
  intros Hp Hf. unfold scan_nonce_range. enter_item (nonces_per_thread a). set (per := nonces_per_thread a) in *.
  destruct (Z.eqb_spec (nonce_count a) 0) as [H0|Hne]; [by rewrite (share_empty a per) by nia|].
  pose proof (Z.div_mod (nonce_count a - 1) per ltac:(lia)) as Hd.
  pose proof (Z.mod_pos_bound (nonce_count a - 1) per ltac:(lia)) as Hm.
  rewrite (u32_small (nonce_count a - 1)) by (unfold is_u32; lia).
  set (q := (nonce_count a - 1) / per) in *. assert (0 <= q) by (apply Z.div_pos; lia).
  replace (add32 q 1) with (q + 1) by (symmetry; apply u32_small; unfold is_u32; nia).
  destruct (Z.leb_spec (q + 1) gid) as [Hge|Hlt]; [by rewrite (share_empty a per) by nia|].
  assert (Hbase : 0 <= gid * per < nonce_count a) by nia.
  rewrite (u32_small (gid * per)) by (unfold is_u32; lia).
  rewrite (limit_min a) by lia.
  rewrite <- (share_run a Hcount (gid * per) per gid) by lia.
  generalize (Z.to_nat (Z.min per (nonce_count a - gid * per))). intros n.
  induction n as [|n IH]; [done|]. rewrite for_range_S_r, IH, run_step by lia. f_equal.
  unfold SCAN_ONE. rewrite Hone. by rewrite add32_assoc.
Qed.
End items.

Lemma register_heavy_correct a :
  length (fast a) = 8%nat -> is_words (fast a) -> 0 <= nonce_count a -> nonce_count a + 2 <= 2 ^ 32 ->
  cl_kernel_correct modern_scan_nonce_range_register_heavy 2 a.
Proof.
  intros Hl Hw Hc Hf gid Hg0 Hg1.
  rewrite <- (npi2_correct a scan_one_nonce_modern (modern_hits a Hl Hw) Hc Hf gid Hg0 Hg1).
  unfold modern_scan_nonce_range_register_heavy, scan_nonce_range_npi2. cbv zeta.
  rewrite !(u32_small gid), (u32_small (gid * 2)) by (unfold is_u32; lia).
  destruct (Z.leb_spec (nonce_count a) (gid * 2)) as [|Hlt]; [done|].
  rewrite (vec_hits a Hl Hw). rewrite (first_item a scan_one_nonce_modern (modern_hits a Hl Hw)).
  destruct (add32 (gid * 2) 1 <? nonce_count a).
  - rewrite (first_item a scan_one_nonce_modern (modern_hits a Hl Hw)), <- thread_hits_app, <- add32_assoc. done.
  - by rewrite app_nil_r.
Qed.
