(* ===== verification/OpenclMiner.v ===== *)
(** The OpenCL host, src/src/opencl_miner.c and src/src/opencl_loader.c: the device
    configuration, the choice of the backend from what the device says of itself, the
    program put together from the kernel texts, the construction and release of a
    miner with every error path, and the scan of a nonce range.

    The OpenCL runtime is not in the repository: its replies are arguments.  A kernel
    runs as GpuScan.v describes. *)
From stdpp Require Import base tactics list option numbers strings relations.
From Stdlib Require Import ZArith Lia Ascii.
From S2P Require Import Prelude Words Fips Sha256d Scan Simd X86ShaNi ArmSha2 Backends.
From S2P Require Import Float64 Target Hex Job Miner MinerSteps Json StratumNet CpuInfo FrontEnd.
From S2P Require Import GpuSha GpuScan CudaKernel GpuSelfTest OpenclKernel.

#[local] Open Scope Z_scope.

(** * Configuration *)

Definition OPENCL_DEFAULT_BATCH_SIZE : Z := 1048576.
Definition OPENCL_DEFAULT_MAX_RESULTS : Z := 256.
Definition OPENCL_DEFAULT_NONCES_PER_WORK_ITEM : Z := 1.
Definition OPENCL_MAX_NONCES_PER_WORK_ITEM : Z := 64.
Definition CL_SUCCESS : Z := 0.

Definition config_u32_or (value fallback : Z) : Z := if value =? 0 then fallback else value.

Definition clamp_nonces_per_work_item (value : Z) : Z :=
  if value =? 0 then OPENCL_DEFAULT_NONCES_PER_WORK_ITEM
  else if OPENCL_MAX_NONCES_PER_WORK_ITEM <? value then OPENCL_MAX_NONCES_PER_WORK_ITEM
  else value.

(** The inner loop of [string_contains_ci]: the needle at the start of [p]. *)
Fixpoint starts_with_ci (needle p : list ascii) : bool :=
  match needle, p with
  | [], _ => true
  | a :: needle, b :: p =>
      Ascii.eqb (ascii_tolower_char b) (ascii_tolower_char a) && starts_with_ci needle p
  | _ :: _, [] => false
  end.
Fixpoint contains_ci (needle p : list ascii) : bool :=
  match p with
  | [] => false
  | _ :: p' => starts_with_ci needle p || contains_ci needle p'
  end.
Definition string_contains_ci (text needle : string) : bool :=
  match chars needle with
  | [] => true
  | needle => contains_ci needle (chars text)
  end.

Definition local_work_candidates : list Z := [512; 256; 128; 64; 32; 16; 8; 4; 2; 1].
Definition choose_local_work_size (preferred max_work_group : Z) : Z :=
  if max_work_group =? 0 then 0
  else if (0 <? preferred) && (preferred <=? max_work_group) then preferred
  else
    match list_find (fun c => (c <=? max_work_group) = true) local_work_candidates with
    | Some (_, c) => c
    | None => 0
    end.

Definition default_local_work_size_for_device (vendor name : string) (max_work_group : Z) : Z :=
  let has := string_contains_ci in
  let preferred :=
    if has vendor "intel" || has name "intel" then 128
    else if has vendor "amd" || has vendor "advanced micro" || has name "amd" || has name "radeon" then 256
    else if has vendor "nvidia" || has name "nvidia" then 256
    else 256 in
  choose_local_work_size preferred max_work_group.

Definition kernel_name_for_npi (nonces_per_work_item : Z) : string :=
  if nonces_per_work_item =? 1 then "scan_nonce_range_npi1"
  else if nonces_per_work_item =? 2 then "scan_nonce_range_npi2"
  else if nonces_per_work_item =? 4 then "scan_nonce_range_npi4"
  else "scan_nonce_range".

Definition kernel_variant_fixed_npi (variant : Z) : Z :=
  if variant =? MINER_OPENCL_KERNEL_FIXED_NPI1 then 1
  else if variant =? MINER_OPENCL_KERNEL_FIXED_NPI2 then 2
  else if variant =? MINER_OPENCL_KERNEL_FIXED_NPI4 then 4
  else 0.
Definition kernel_variant_forced_npi (variant : Z) : Z :=
  let fixed_npi := kernel_variant_fixed_npi variant in
  if negb (fixed_npi =? 0) then fixed_npi
  else if variant =? MINER_OPENCL_KERNEL_REGISTER_HEAVY then 2
  else 0.
Definition kernel_variant_modern_only (variant : Z) : bool :=
  negb (kernel_variant_fixed_npi variant =? 0) || (variant =? MINER_OPENCL_KERNEL_REGISTER_HEAVY).

Definition kernel_name_for_variant (variant nonces_per_work_item : Z) : string :=
  if variant =? MINER_OPENCL_KERNEL_FIXED_NPI1 then "modern_scan_nonce_range_fixed_npi1"
  else if variant =? MINER_OPENCL_KERNEL_FIXED_NPI2 then "modern_scan_nonce_range_fixed_npi2"
  else if variant =? MINER_OPENCL_KERNEL_FIXED_NPI4 then "modern_scan_nonce_range_fixed_npi4"
  else if variant =? MINER_OPENCL_KERNEL_REGISTER_HEAVY then "modern_scan_nonce_range_register_heavy"
  else kernel_name_for_npi nonces_per_work_item.

Definition normalize_kernel_variant (variant : Z) : Z :=
  if (variant =? MINER_OPENCL_KERNEL_COMPACT) || (variant =? MINER_OPENCL_KERNEL_UNROLLED) ||
     (variant =? MINER_OPENCL_KERNEL_FIXED_NPI1) || (variant =? MINER_OPENCL_KERNEL_FIXED_NPI2) ||
     (variant =? MINER_OPENCL_KERNEL_FIXED_NPI4) || (variant =? MINER_OPENCL_KERNEL_REGISTER_HEAVY)
  then variant else MINER_OPENCL_KERNEL_AUTO.
Definition normalize_backend_variant (variant : Z) : Z :=
  if (variant =? MINER_OPENCL_BACKEND_COMPAT10) || (variant =? MINER_OPENCL_BACKEND_MODERN)
  then variant else MINER_OPENCL_BACKEND_AUTO.

(** * What the device says of itself *)

(** [%d] of [sscanf]: the number and the rest; the value is assumed to fit an [int]. *)
Definition scan_digits (l : list ascii) : option (Z * list ascii) :=
  match l with
  | c :: _ =>
      if isdigit c then
        let fix rest l := match l with c :: l' => if isdigit c then rest l' else l | [] => [] end in
        Some (digits_value 0 l, rest l)
      else None
  | [] => None
  end.
Definition scan_int (l : list ascii) : option (Z * list ascii) :=
  match skip_spaces l with
  | c :: l' =>
      if Ascii.eqb c "-" then '(v, l) ← scan_digits l'; Some (- v, l)
      else if Ascii.eqb c "+" then scan_digits l'
      else scan_digits (c :: l')
  | [] => None
  end.

(** [sscanf(text, "OpenCL %d.%d", ...)] *)
Definition parse_opencl_version (text : string) : option (Z * Z) :=
  l ← strip_prefix (chars "OpenCL") (chars text);
  '(major, l) ← scan_int l;
  l ← strip_prefix (chars ".") l;
  '(minor, _) ← scan_int l;
  Some (major, minor).

Definition opencl_version_at_least (text : string) (major minor : Z) : bool :=
  match parse_opencl_version text with
  | None => false
  | Some (parsed_major, parsed_minor) =>
      (major <? parsed_major) || ((parsed_major =? major) && (minor <=? parsed_minor))
  end.

(** [strstr(p, needle)]: the characters before the first occurrence and the string
    from it on. *)
Fixpoint strstr (needle p : list ascii) : option (list ascii * list ascii) :=
  match strip_prefix needle p with
  | Some _ => Some ([], p)
  | None =>
      match p with
      | [] => None
      | c :: p' => '(before, q) ← strstr needle p'; Some (c :: before, q)
      end
  end.

(** The loop of [extension_list_has]; [last] is [p[-1]], or [None] at the start. *)
Fixpoint extension_loop (fuel : nat) (needle p : list ascii) (last : option ascii) : bool :=
  match fuel with
  | O => false
  | S fuel =>
      match strstr needle p with
      | None => false
      | Some (before, q) =>
          let last := match list.last before with Some c => Some c | None => last end in
          let left_ok := match last with None => true | Some c => Ascii.eqb c " " end in
          let rest := drop (length needle) q in
          let right_ok := match rest with [] => true | c :: _ => Ascii.eqb c " " end in
          if left_ok && right_ok then true
          else extension_loop fuel needle rest (list.last (take (length needle) q))
      end
  end.
Definition extension_list_has (extensions needle : string) : bool :=
  match chars needle with
  | [] => false
  | n => extension_loop (S (length (chars extensions))) n (chars extensions) None
  end.

Definition validate_compat10_device (device_extensions : option string) (device_version : string)
    : option string :=
  if negb (opencl_version_at_least device_version 1 0) then
    Some "selected OpenCL device did not report a usable OpenCL 1.x version"%string
  else if negb (opencl_version_at_least device_version 1 1) &&
          negb match device_extensions with
               | Some extensions => extension_list_has extensions "cl_khr_global_int32_base_atomics"
               | None => false
               end then
    Some "compat10 backend requires OpenCL 1.1+ or cl_khr_global_int32_base_atomics"%string
  else None.
Definition validate_modern_device (device_version : string) : option string :=
  if negb (opencl_version_at_least device_version 1 2) then
    Some "modern backend requires OpenCL 1.2 or newer"%string
  else None.

(** The extensions are [None] when the query or its allocation fails. *)
Definition resolve_backend_variant (device_extensions : option string) (device_version : string)
    (requested : Z) : string + Z :=
  let requested := normalize_backend_variant requested in
  let requested :=
    if requested =? MINER_OPENCL_BACKEND_AUTO then
      if opencl_version_at_least device_version 1 2 then MINER_OPENCL_BACKEND_MODERN
      else MINER_OPENCL_BACKEND_COMPAT10
    else requested in
  if requested =? MINER_OPENCL_BACKEND_MODERN then
    match validate_modern_device device_version with
    | Some error => inl error
    | None => inr MINER_OPENCL_BACKEND_MODERN
    end
  else
    match validate_compat10_device device_extensions device_version with
    | Some error => inl error
    | None => inr MINER_OPENCL_BACKEND_COMPAT10
    end.

(** * The runtime library *)

(** [g_opencl], as far as it changes: [error] is the text of the last failure. *)
Record btcrig_opencl_loader_t := OpenclLoader { ol_attempted : bool; ol_loaded : bool; ol_error : string }.

Definition opencl_symbols : list string :=
  ["clGetPlatformIDs"; "clGetDeviceIDs"; "clGetDeviceInfo"; "clCreateContext"; "clCreateCommandQueue";
   "clCreateBuffer"; "clCreateProgramWithSource"; "clBuildProgram"; "clGetProgramBuildInfo";
   "clCreateKernel"; "clReleaseKernel"; "clReleaseProgram"; "clReleaseMemObject";
   "clReleaseCommandQueue"; "clReleaseContext"; "clEnqueueWriteBuffer"; "clSetKernelArg";
   "clEnqueueNDRangeKernel"; "clEnqueueReadBuffer"]%string.

(** What the system has: the library or not, under any of its names, and its symbols. *)
Record opencl_library := OpenclLibrary { clib_found : bool; clib_symbol : string -> bool }.

Definition loader_error (g : btcrig_opencl_loader_t) : string :=
  if String.eqb (ol_error g) "" then "OpenCL runtime unavailable" else ol_error g.

(** The error copied to the caller, or [inr tt] for the return of 0. *)
Definition btcrig_opencl_load (lib : opencl_library) (g : btcrig_opencl_loader_t)
    : btcrig_opencl_loader_t * (string + unit) :=
  if ol_loaded g then (g, inr tt)
  else if ol_attempted g then (g, inl (loader_error g))
  else if negb (clib_found lib) then
    let g := OpenclLoader true false "OpenCL runtime library not found" in (g, inl (loader_error g))
  else
    match list_find (fun name => clib_symbol lib name = false) opencl_symbols with
    | Some (_, name) =>
        let g := OpenclLoader true false ("OpenCL runtime is missing required symbol " ++ name) in
        (g, inl (loader_error g))
    | None => (OpenclLoader true true "", inr tt)
    end.

(** * Devices *)

(** A device as the runtime lists it: the type query's result, whether the type has
    the GPU bit, and the texts the miner reads ([None] when the query fails). *)
Record cl_device := ClDevice {
  cd_type_rc : Z; cd_gpu : bool; cd_name : string; cd_vendor : string; cd_version : string;
  cd_extensions : option string; cd_max_work_group : Z;
}.
(** A platform: the results of the two calls that count and list its devices. *)
Record cl_platform := ClPlatform { cp_count_rc : Z; cp_list_rc : Z; cp_devices : list cl_device }.
(** The runtime: the same for its platforms.  Both calls of a pair see one list. *)
Record cl_runtime := ClRuntime { cr_count_rc : Z; cr_list_rc : Z; cr_platforms : list cl_platform }.

(** [select_platform_device]; the host allocations succeed. *)
Definition select_platform_device (rt : cl_runtime) (config : option miner_opencl_config_t)
    : string + cl_device :=
  if negb (cr_count_rc rt =? CL_SUCCESS) || (length (cr_platforms rt) =? 0)%nat then
    inl "no OpenCL platforms found"%string
  else if negb (cr_list_rc rt =? CL_SUCCESS) then inl "failed to enumerate OpenCL platforms"%string
  else
    let platform_index := match config with Some c => oc_platform c | None => 0 end in
    if (platform_index <? 0) || (Z.of_nat (length (cr_platforms rt)) <=? platform_index) then
      inl "configured OpenCL platform index is out of range"%string
    else
      match cr_platforms rt !! Z.to_nat platform_index with
      | None => inl ""%string (* not reached *)
      | Some platform =>
          if negb (cp_count_rc platform =? CL_SUCCESS) || (length (cp_devices platform) =? 0)%nat then
            inl "no OpenCL devices found on selected platform"%string
          else if negb (cp_list_rc platform =? CL_SUCCESS) then inl "failed to enumerate OpenCL devices"%string
          else
            let device_index := match config with Some c => oc_device c | None => 0 end in
            if (device_index <? 0) || (Z.of_nat (length (cp_devices platform)) <=? device_index) then
              inl "configured OpenCL device index is out of range"%string
            else
              match cp_devices platform !! Z.to_nat device_index with
              | None => inl ""%string (* not reached *)
              | Some device => inr device
              end
      end.

Definition opencl_device_config_apply_defaults (device : miner_opencl_device_config_t)
    (config : miner_opencl_config_t) : miner_opencl_device_config_t :=
  OpenclDevice (od_platform device) (od_device device)
    (if od_batch_size device =? 0 then config_u32_or (oc_batch_size config) OPENCL_DEFAULT_BATCH_SIZE
     else od_batch_size device)
    (if od_local_work_size device =? 0 then oc_local_work_size config else od_local_work_size device)
    (if od_nonces_per_work_item device =? 0 then clamp_nonces_per_work_item (oc_nonces_per_work_item config)
     else clamp_nonces_per_work_item (od_nonces_per_work_item device))
    (if od_max_results device =? 0 then config_u32_or (oc_max_results config) OPENCL_DEFAULT_MAX_RESULTS
     else od_max_results device)
    (if od_backend_variant device =? MINER_OPENCL_BACKEND_AUTO
     then normalize_backend_variant (oc_backend_variant config)
     else normalize_backend_variant (od_backend_variant device))
    (if od_kernel_variant device =? MINER_OPENCL_KERNEL_AUTO
     then normalize_kernel_variant (oc_kernel_variant config)
     else normalize_kernel_variant (od_kernel_variant device)).

(** The settings given to a device that has none of its own. *)
Definition device_of_config (config : miner_opencl_config_t) (platform device : Z)
    : miner_opencl_device_config_t :=
  OpenclDevice platform device (config_u32_or (oc_batch_size config) OPENCL_DEFAULT_BATCH_SIZE)
    (oc_local_work_size config) (clamp_nonces_per_work_item (oc_nonces_per_work_item config))
    (config_u32_or (oc_max_results config) OPENCL_DEFAULT_MAX_RESULTS)
    (normalize_backend_variant (oc_backend_variant config))
    (normalize_kernel_variant (oc_kernel_variant config)).

(** The two loops of the enumeration; [p] and [d] count platforms and devices. *)
Fixpoint gpu_devices (config : miner_opencl_config_t) (max_devices : nat) (p d : Z)
    (devices : list cl_device) (found : list miner_opencl_device_config_t)
    : list miner_opencl_device_config_t :=
  match devices with
  | [] => found
  | device :: devices =>
      if (length found <? max_devices)%nat then
        if negb (cd_type_rc device =? CL_SUCCESS) || negb (cd_gpu device)
        then gpu_devices config max_devices p (d + 1) devices found
        else gpu_devices config max_devices p (d + 1) devices (found ++ [device_of_config config p d])
      else found
  end.
Fixpoint gpu_platforms (config : miner_opencl_config_t) (max_devices : nat) (p : Z)
    (platforms : list cl_platform) (found : list miner_opencl_device_config_t)
    : list miner_opencl_device_config_t :=
  match platforms with
  | [] => found
  | platform :: platforms =>
      if (length found <? max_devices)%nat then
        if negb (cp_count_rc platform =? CL_SUCCESS) || (length (cp_devices platform) =? 0)%nat
           || negb (cp_list_rc platform =? CL_SUCCESS)
        then gpu_platforms config max_devices (p + 1) platforms found
        else gpu_platforms config max_devices (p + 1) platforms
               (gpu_devices config max_devices p 0 (cp_devices platform) found)
      else found
  end.

(** The devices written to [devices_out], or the error of a return of -1. *)
Definition opencl_miner_resolve_devices (lib : opencl_library) (rt : cl_runtime)
    (g : btcrig_opencl_loader_t) (config : miner_opencl_config_t) (max_devices : Z)
    : btcrig_opencl_loader_t * (string + list miner_opencl_device_config_t) :=
  if negb (oc_enabled config) || (max_devices <=? 0) then (g, inr [])
  else if 0 <? oc_device_count config then
    let count := if oc_device_count config <? max_devices then oc_device_count config else max_devices in
    (g, inr ((fun i => opencl_device_config_apply_defaults
                         (default (OpenclDevice 0 0 0 0 0 0 0 0) (oc_devices config !! i)) config)
              <$> seq 0 (Z.to_nat count)))
  else if negb (oc_all_devices config) then
    (g, inr [device_of_config config (oc_platform config) (oc_device config)])
  else
    match btcrig_opencl_load lib g with
    | (g, inl error) => (g, inl error)
    | (g, inr _) =>
        if negb (cr_count_rc rt =? CL_SUCCESS) || (length (cr_platforms rt) =? 0)%nat then
          (g, inl "no OpenCL platforms found"%string)
        else if negb (cr_list_rc rt =? CL_SUCCESS) then
          (g, inl "failed to enumerate OpenCL platforms"%string)
        else
          let found := gpu_platforms config (Z.to_nat max_devices) 0 (cr_platforms rt) [] in
          if (length found =? 0)%nat then (g, inl "no OpenCL GPU devices found"%string)
          else (g, inr found)
    end.

(** * The program *)

(** The string constants with the kernel texts. *)
Inductive source :=
  | k_opencl_kernel_compact | k_opencl_kernel | k_opencl_kernel_rounds | k_opencl_kernel_tail_helpers
  | k_opencl_kernel_modern_scalar_macro | k_opencl_kernel_modern_tail_helpers
  | k_opencl_kernel_tail_kernels | k_opencl_kernel_modern_fixed_kernels
  | k_opencl_kernel_modern_register_prefix | k_opencl_kernel_modern_register_scan
  | k_opencl_kernel_modern_register_kernel.
#[export] Instance source_eq_dec : EqDecision source.
Proof. solve_decision. Defined.

(** The sources [build_program] passes, in their order. *)
Definition program_sources (backend_variant kernel_variant : Z) : list source :=
  let modern := backend_variant =? MINER_OPENCL_BACKEND_MODERN in
  let use_modern_unrolled := modern && (kernel_variant =? MINER_OPENCL_KERNEL_UNROLLED) in
  let use_modern_fixed := modern && negb (kernel_variant_fixed_npi kernel_variant =? 0) in
  let use_modern_register := modern && (kernel_variant =? MINER_OPENCL_KERNEL_REGISTER_HEAVY) in
  let use_modern_scalar := use_modern_unrolled || use_modern_fixed || use_modern_register in
  (if kernel_variant =? MINER_OPENCL_KERNEL_COMPACT then [k_opencl_kernel_compact]
   else [k_opencl_kernel; k_opencl_kernel_rounds]) ++
  (if use_modern_scalar then [k_opencl_kernel_modern_scalar_macro; k_opencl_kernel_modern_tail_helpers]
   else [k_opencl_kernel_tail_helpers]) ++
  (if use_modern_register then [k_opencl_kernel_modern_register_prefix; k_opencl_kernel_modern_register_scan]
   else []) ++
  [if use_modern_register then k_opencl_kernel_modern_register_kernel
   else if use_modern_fixed then k_opencl_kernel_modern_fixed_kernels
   else k_opencl_kernel_tail_kernels].

(** What the texts define and what they use of the texts before them.  The function
    [compress] of the unrolled text is opened by one constant and closed by the next. *)
Definition defines (s : source) : list string :=
  match s with
  | k_opencl_kernel_compact => ["u32"; "bswap32"; "compress"]
  | k_opencl_kernel => ["u32"; "bswap32"; "ROUND"; "MSG"; "compress-open"]
  | k_opencl_kernel_rounds => ["compress"]
  | k_opencl_kernel_tail_helpers => ["meets_target"; "store_match"; "scan_one_nonce"]
  | k_opencl_kernel_modern_scalar_macro => ["SHA256_COMPRESS_SCALAR"]
  | k_opencl_kernel_modern_tail_helpers => ["meets_target_words"; "store_match_words"; "scan_one_nonce"]
  | k_opencl_kernel_tail_kernels =>
      ["SCAN_KERNEL_ARGS"; "SCAN_ONE"; "scan_nonce_range_npi1"; "scan_nonce_range_npi2";
       "scan_nonce_range_npi4"; "scan_nonce_range"]
  | k_opencl_kernel_modern_fixed_kernels =>
      ["SCAN_KERNEL_ARGS"; "SCAN_ONE"; "modern_scan_nonce_range_fixed_npi1";
       "modern_scan_nonce_range_fixed_npi2"; "modern_scan_nonce_range_fixed_npi4"]
  | k_opencl_kernel_modern_register_prefix => ["u32v"; "bswap32v"; "compress_vec2"]
  | k_opencl_kernel_modern_register_scan => ["scan_two_nonces_vec"]
  | k_opencl_kernel_modern_register_kernel => ["SCAN_KERNEL_ARGS"; "modern_scan_nonce_range_register_heavy"]
  end%string.
Definition uses (s : source) : list string :=
  match s with
  | k_opencl_kernel_compact | k_opencl_kernel => []
  | k_opencl_kernel_rounds => ["u32"; "ROUND"; "MSG"; "compress-open"]
  | k_opencl_kernel_tail_helpers => ["u32"; "bswap32"; "compress"]
  | k_opencl_kernel_modern_scalar_macro => ["u32"; "ROUND"; "MSG"]
  | k_opencl_kernel_modern_tail_helpers => ["u32"; "bswap32"; "SHA256_COMPRESS_SCALAR"]
  | k_opencl_kernel_tail_kernels | k_opencl_kernel_modern_fixed_kernels => ["u32"; "scan_one_nonce"]
  | k_opencl_kernel_modern_register_prefix => ["u32"]
  | k_opencl_kernel_modern_register_scan =>
      ["u32"; "u32v"; "bswap32v"; "compress_vec2"; "meets_target_words"; "store_match_words"]
  | k_opencl_kernel_modern_register_kernel => ["u32"; "scan_two_nonces_vec"]
  end%string.

(** Every name is defined once, before it is used, and no text is left open. *)
Fixpoint well_linked (defined : list string) (l : list source) : bool :=
  match l with
  | [] => negb (bool_decide ("compress-open"%string ∈ defined)) || bool_decide ("compress"%string ∈ defined)
  | s :: l =>
      forallb (fun n => bool_decide (n ∈ defined)) (uses s) &&
      forallb (fun n => negb (bool_decide (n ∈ defined))) (defines s) &&
      well_linked (defined ++ defines s) l
  end.

(** The [scan_one_nonce] of a program. *)
Definition program_scan_one (l : list source) : scan_args -> Z -> list match_t :=
  if decide (k_opencl_kernel_modern_tail_helpers ∈ l) then scan_one_nonce_modern
  else if decide (k_opencl_kernel_compact ∈ l) then
    scan_one_nonce_arrays (fun st w => fst (compress_compact st w))
  else scan_one_nonce_arrays compress.

(** The kernels of a program by name. *)
Definition source_kernels (one : scan_args -> Z -> list match_t) (s : source) : list (string * cl_kernel) :=
  match s with
  | k_opencl_kernel_tail_kernels =>
      [("scan_nonce_range_npi1", scan_nonce_range_npi1 one); ("scan_nonce_range_npi2", scan_nonce_range_npi2 one);
       ("scan_nonce_range_npi4", scan_nonce_range_npi4 one); ("scan_nonce_range", scan_nonce_range one)]
  | k_opencl_kernel_modern_fixed_kernels =>
      [("modern_scan_nonce_range_fixed_npi1", modern_scan_nonce_range_fixed_npi1 one);
       ("modern_scan_nonce_range_fixed_npi2", modern_scan_nonce_range_fixed_npi2 one);
       ("modern_scan_nonce_range_fixed_npi4", modern_scan_nonce_range_fixed_npi4 one)]
  | k_opencl_kernel_modern_register_kernel =>
      [("modern_scan_nonce_range_register_heavy", modern_scan_nonce_range_register_heavy)]
  | _ => []
  end%string.
Definition program_kernels (l : list source) : list (string * cl_kernel) :=
  concat (source_kernels (program_scan_one l) <$> l).
Fixpoint program_kernel (kernels : list (string * cl_kernel)) (name : string) : option cl_kernel :=
  match kernels with
  | [] => None
  | (n, k) :: kernels => if String.eqb n name then Some k else program_kernel kernels name
  end.

(** * The extension list *)

(** The character before the position [a] in a text that follows [last]. *)
Definition char_before (last : option ascii) (a : list ascii) : option ascii :=
  match list.last a with Some c => Some c | None => last end.
Definition space_or_end (c : option ascii) : Prop := default " "%char c = " "%char.

(** [n] is a word of [l], between spaces or the ends. *)
Definition word_in (last : option ascii) (n l : list ascii) : Prop :=
  exists a b, l = a ++ n ++ b /\ space_or_end (char_before last a) /\ space_or_end (head b).

Lemma space_or_end_test c :
  match c with None => true | Some c => Ascii.eqb c " " end = true <-> space_or_end c.
Proof. unfold space_or_end. destruct c as [c|]; cbn; [apply Ascii.eqb_eq|done]. Qed.

Lemma strip_prefix_inv n p q : strip_prefix n p = Some q -> p = n ++ q.
Proof.
  revert p. induction n as [|c n IH]; intros p; cbn; [by intros [= ->]|].
  destruct p as [|d p]; [done|]. destruct (Ascii.eqb_spec c d) as [->|]; [|done]. by intros ->%IH.
Qed.

(** [strstr] finds the first occurrence. *)
Lemma strstr_Some n p before q :
  strstr n p = Some (before, q) -> p = before ++ q /\ (exists rest, q = n ++ rest) /\
  forall a b, p = a ++ n ++ b -> (length before <= length a)%nat.
Proof.
  revert before. induction p as [|c p IH]; intros before; cbn [strstr].
  - destruct (strip_prefix n []) as [rest|] eqn:E; [|done]. intros [= <- <-].
    split; [done|]. split; [exists rest; by apply strip_prefix_inv|]. cbn. lia.
  - destruct (strip_prefix n (c :: p)) as [rest|] eqn:E.
    { intros [= <- <-]. split; [done|]. split; [exists rest; by apply strip_prefix_inv|]. cbn. lia. }
    destruct (strstr n p) as [[before' q']|]; [|done]. cbn. intros [= <- <-].
    destruct (IH before' eq_refl) as (-> & Hr & Hf). split; [done|]. split; [done|].
    intros [|a0 a] b Hab; cbn [length].
    + cbn [app] in Hab. rewrite Hab in E. by rewrite strip_prefix_app in E.
    + injection Hab as _ Hab. apply Hf in Hab. lia.
Qed.
Lemma strstr_None n p a b : strstr n p = None -> p <> a ++ n ++ b.
Proof.
  revert a. induction p as [|c p IH]; intros a; cbn [strstr].
  - destruct (strip_prefix n []) eqn:E; [done|]. intros _ H. symmetry in H.
    apply app_nil in H as [-> H]. rewrite <- H, strip_prefix_app in E. done.
  - destruct (strip_prefix n (c :: p)) eqn:E; [done|].
    destruct (strstr n p) as [[]|]; [done|]. intros _. destruct a as [|a0 a]; intros H.
    + cbn [app] in H. rewrite H in E. by rewrite strip_prefix_app in E.
    + injection H as _ H. by apply (IH a eq_refl).
Qed.

Lemma char_before_app last a b : char_before last (a ++ b) = char_before (char_before last a) b.
Proof. unfold char_before. rewrite last_app. by destruct (list.last b). Qed.
Lemma char_before_in last a : a <> [] -> exists c, c ∈ a /\ char_before last a = Some c.
Proof.
  intros Ha. unfold char_before. destruct (list.last a) as [c|] eqn:E.
  - exists c. split; [|done]. apply last_Some in E as [l ->]. apply elem_of_app. right. by left.
  - by apply last_None in E.
Qed.

Section words.
Context (n : list ascii) (Hne : n <> []) (Hspace : " "%char ∉ n).

(** A word after an occurrence starts at its end or later: inside, the character
    before it is one of the needle. *)
Lemma word_after last before rest :
  (forall a b, before ++ n ++ rest = a ++ n ++ b -> (length before <= length a)%nat) ->
  ~ (space_or_end (char_before last before) /\ space_or_end (head rest)) ->
  word_in last n (before ++ n ++ rest) <-> word_in (list.last n) n rest.
Proof.
  intros Hfirst Hnot.
  assert (Hend : forall a, a <> [] -> a `suffix_of` n \/ a `prefix_of` n -> ~ space_or_end (char_before last (before ++ a))).
  { intros a Ha Hin Hs. rewrite char_before_app in Hs.
    destruct (char_before_in (char_before last before) a Ha) as (c & Hc & He).
    rewrite He in Hs. cbn in Hs. apply Hspace. rewrite <- Hs.
    destruct Hin as [[k ->]|[k ->]]; apply elem_of_app; auto. }
  split.
  - intros (a & b & Hab & Hl & Hr). pose proof (Hfirst a b Hab) as Hlen.
    assert (Ha : a = before ++ drop (length before) a).
    { apply (f_equal (take (length before))) in Hab.
      rewrite take_app_length, take_app_le in Hab by done.
      rewrite Hab at 1. by rewrite take_drop. }
    set (a' := drop (length before) a) in *. clearbody a'. subst a. clear Hfirst Hlen.
    rewrite <- app_assoc in Hab. apply app_inv_head in Hab.
    destruct (decide (length a' < length n)%nat) as [Hlt|Hge].
    + assert (Hpre : a' `prefix_of` n).
      { apply (f_equal (take (length a'))) in Hab. rewrite take_app_length, take_app_le in Hab by lia.
        rewrite <- Hab. apply prefix_take. }
      destruct a' as [|c a'].
      * cbn [app] in Hab. apply app_inv_head in Hab as <-. rewrite app_nil_r in Hl. by destruct Hnot.
      * exfalso. apply (Hend (c :: a')); [done|by right|done].
    + assert (Ha' : a' = n ++ drop (length n) a').
      { apply (f_equal (take (length n))) in Hab. rewrite take_app_length, take_app_le in Hab by lia.
        rewrite Hab at 1. by rewrite take_drop. }
      set (a2 := drop (length n) a') in *. clearbody a2. subst a'.
      rewrite <- app_assoc in Hab. apply app_inv_head in Hab.
      exists a2, b. split; [done|]. split; [|done].
      rewrite !char_before_app in Hl. unfold char_before at 2 in Hl. unfold char_before in Hl |- *.
      destruct (list.last a2); [done|]. destruct (list.last n) eqn:En; [done|]. by apply last_None in En.
  - intros (a & b & -> & Hl & Hr). exists (before ++ n ++ a), b.
    split; [by rewrite <- !app_assoc|]. split; [|done].
    rewrite !char_before_app. unfold char_before at 2. unfold char_before in Hl |- *.
    destruct (list.last a); [done|]. destruct (list.last n) eqn:En; [done|]. by apply last_None in En.
Qed.

Lemma extension_loop_spec fuel p last :
  (length p < fuel)%nat -> extension_loop fuel n p last = true <-> word_in last n p.
Proof.
  revert p last. induction fuel as [|fuel IH]; intros p last Hf; [lia|]. cbn [extension_loop].
  destruct (strstr n p) as [[before q]|] eqn:E.
  2:{ split; [done|]. intros (a & b & Hab & _). exfalso. by eapply strstr_None. }
  apply strstr_Some in E as (Hp & (rest & ->) & Hfirst). subst p.
  rewrite drop_app_length, take_app_length. fold (char_before last before).
  set (ok := match char_before last before with None => true | Some c => _ end && _).
  assert (Hok : ok = true <-> space_or_end (char_before last before) /\ space_or_end (head rest)).
  { unfold ok. rewrite andb_true_iff, space_or_end_test. unfold space_or_end at 2.
    destruct rest as [|c rest]; cbn; [by intuition|]. by rewrite Ascii.eqb_eq. }
  clearbody ok. destruct ok.
  - split; [|done]. intros _. destruct (proj1 Hok eq_refl) as [H1 H2]. by exists before, rest.
  - assert (Hlen : (length rest < fuel)%nat).
    { rewrite !length_app in Hf. destruct n; [done|]. cbn [length] in Hf. lia. }
    rewrite (IH rest _ Hlen). symmetry. apply word_after; [exact Hfirst|]. intros Hb. by apply Hok in Hb.
Qed.
End words.

(** [extension_list_has] finds exactly the words of the device's extension list:
    an extension whose name only contains the needle does not count, and an overlap
    of two occurrences hides none. *)
Theorem extension_list_words extensions needle :
  needle <> ""%string -> " "%char ∉ chars needle ->
  extension_list_has extensions needle = true <->
  exists a b, chars extensions = a ++ chars needle ++ b /\
    (a = [] \/ exists a', a = a' ++ [" "%char]) /\ (b = [] \/ exists b', b = " "%char :: b').
Proof.
  intros Hne Hs. unfold extension_list_has.
  destruct (chars needle) as [|c n] eqn:E.
  { destruct Hne. by destruct needle. }
  rewrite extension_loop_spec by (done || lia). unfold word_in, space_or_end.
  assert (Hl : forall a, default " "%char (char_before None a) = " "%char <->
    a = [] \/ exists a', a = a' ++ [" "%char]).
  { intros a. destruct a as [|x a _] using rev_ind; [by split; [left|]|].
    unfold char_before. rewrite last_snoc. cbn. split; [intros ->; right; by exists a|].
    intros [H|(a' & H)]; [by apply app_nil in H as [_ ?]|]. by apply app_inj_tail in H as [_ ->]. }
  assert (Hr : forall b, default " "%char (head b) = " "%char <-> b = [] \/ exists b', b = " "%char :: b').
  { intros [|x b]; cbn; [by split; [left|]|]. split; [intros ->; right; by exists b|].
    intros [H|(b' & H)]; [done|]. by injection H as -> ->. }
  by setoid_rewrite Hl; setoid_rewrite Hr.
Qed.

Lemma extension_list_words_witness :
  extension_list_has "cl_khr_fp64_x cl_khr_fp64" "cl_khr_fp64" = true <->
  exists a b, chars "cl_khr_fp64_x cl_khr_fp64" = a ++ chars "cl_khr_fp64" ++ b /\
    (a = [] \/ exists a', a = a' ++ [" "%char]) /\ (b = [] \/ exists b', b = " "%char :: b').
Proof.
  apply (extension_list_words "cl_khr_fp64_x cl_khr_fp64" "cl_khr_fp64").
  - discriminate.
  - apply (bool_decide_unpack (" "%char ∉ chars "cl_khr_fp64")). vm_compute. exact I.
Defined.

(** * The devices of the whole system *)

(** Whether the enumeration looks into a platform. *)
Definition listed (platform : cl_platform) : bool :=
  (cp_count_rc platform =? CL_SUCCESS) && negb (length (cp_devices platform) =? 0)%nat &&
  (cp_list_rc platform =? CL_SUCCESS).
Definition is_gpu (device : cl_device) : bool := (cd_type_rc device =? CL_SUCCESS) && cd_gpu device.

(** The GPUs, platform by platform, by their two indices. *)
Definition gpus_of (devices : list cl_device) : list Z :=
  omap (fun '(d, device) => if is_gpu device then Some (Z.of_nat d) else None)
    (imap (fun d device => (d, device)) devices).
Definition all_gpus (platforms : list cl_platform) : list (Z * Z) :=
  concat (imap (fun p platform =>
    if listed platform then (fun d => (Z.of_nat p, d)) <$> gpus_of (cp_devices platform) else []) platforms).

Lemma gpu_devices_take config max p devices d found :
  (length found <= max)%nat ->
  gpu_devices config max p (Z.of_nat d) devices found =
  take max (found ++ (device_of_config config p <$>
    omap (fun '(i, device) => if is_gpu device then Some (Z.of_nat i) else None)
      (imap (fun i device => ((d + i)%nat, device)) devices))).
Proof.
  revert d found. induction devices as [|device devices IH]; intros d found Hle; cbn [gpu_devices].
  { cbn. by rewrite app_nil_r, take_ge. }
  rewrite imap_cons. cbn [omap list_omap]. rewrite Nat.add_0_r.
  assert (Hext : imap ((fun i device => ((d + i)%nat, device)) ∘ S) devices =
    imap (fun i device => ((S d + i)%nat, device)) devices)
    by (apply imap_ext; intros i x _; cbn; by rewrite Nat.add_succ_r).
  rewrite Hext. replace (Z.of_nat d + 1) with (Z.of_nat (S d)) by lia.
  destruct (Nat.ltb_spec (length found) max) as [Hlt|Hge].
  2:{ rewrite take_app_le, take_ge by lia. done. }
  unfold is_gpu at 1. destruct (cd_type_rc device =? CL_SUCCESS), (cd_gpu device); cbn [negb orb andb].
  1: rewrite IH by (rewrite length_app; cbn; lia); by rewrite fmap_cons, <- app_assoc.
  all: by rewrite IH.
Qed.
Lemma gpu_devices_from_0 config max p devices found :
  (length found <= max)%nat ->
  gpu_devices config max p 0 devices found = take max (found ++ (device_of_config config p <$> gpus_of devices)).
Proof. exact (gpu_devices_take config max p devices 0 found). Qed.

Lemma gpu_platforms_take config max platforms p found :
  (length found <= max)%nat ->
  gpu_platforms config max (Z.of_nat p) platforms found =
  take max (found ++ (uncurry (device_of_config config) <$>
    concat (imap (fun i platform =>
      if listed platform then (fun d => (Z.of_nat (p + i), d)) <$> gpus_of (cp_devices platform) else []) platforms))).
Proof.
  revert p found. induction platforms as [|platform platforms IH]; intros p found Hle; cbn [gpu_platforms].
  { cbn. by rewrite app_nil_r, take_ge. }
  rewrite imap_cons. cbn [concat]. rewrite Nat.add_0_r.
  assert (Hext : imap ((fun i platform => if listed platform
      then (fun d => (Z.of_nat (p + i), d)) <$> gpus_of (cp_devices platform) else []) ∘ S) platforms =
    imap (fun i platform => if listed platform
      then (fun d => (Z.of_nat (S p + i), d)) <$> gpus_of (cp_devices platform) else []) platforms)
    by (apply imap_ext; intros i x _; unfold compose; by rewrite Nat.add_succ_r).
  rewrite Hext. replace (Z.of_nat p + 1) with (Z.of_nat (S p)) by lia.
  destruct (Nat.ltb_spec (length found) max) as [Hlt|Hge].
  2:{ rewrite take_app_le, take_ge by lia. done. }
  rewrite fmap_app. unfold listed at 1.
  destruct (cp_count_rc platform =? CL_SUCCESS), (length (cp_devices platform) =? 0)%nat, (cp_list_rc platform =? CL_SUCCESS);
    cbn [negb orb andb]; try by rewrite IH.
  rewrite gpu_devices_from_0, IH by (rewrite ?length_take; lia).
  rewrite <- list_fmap_compose. rewrite app_assoc.
  change (uncurry (device_of_config config) ∘ (fun d => (Z.of_nat p, d))) with (device_of_config config (Z.of_nat p)).
  set (l := found ++ _). set (r := _ <$> concat _).
  destruct (Nat.le_gt_cases (length l) max).
  - by rewrite (take_ge l) by done.
  - rewrite (take_app_le l) by lia. rewrite take_app_le by (rewrite length_take; lia). by rewrite take_take, Nat.min_id.
Qed.

(** With all devices asked for, the miner gets the GPUs of every platform that
    answers, in their order, up to the number there is room for, each with the
    settings of the configuration; none is left out for a platform or a device whose
    queries fail, and none that is not a GPU gets in. *)
Theorem resolve_all_gpus lib rt g config max_devices :
  oc_enabled config = true -> 0 < max_devices -> oc_device_count config <= 0 -> oc_all_devices config = true ->
  snd (btcrig_opencl_load lib g) = inr tt ->
  cr_count_rc rt = CL_SUCCESS -> cr_list_rc rt = CL_SUCCESS -> all_gpus (cr_platforms rt) <> [] ->
  snd (opencl_miner_resolve_devices lib rt g config max_devices) =
  inr (take (Z.to_nat max_devices) (uncurry (device_of_config config) <$> all_gpus (cr_platforms rt))).
Proof.
  intros He Hmax Hc Ha Hl H1 H2 Hne. unfold opencl_miner_resolve_devices.
  rewrite He, Ha, (proj2 (Z.leb_gt _ _)), (proj2 (Z.ltb_ge 0 _)) by lia. cbn [negb orb].
  destruct (btcrig_opencl_load lib g) as [g' [error|[]]]; [done|]. rewrite H1, H2.
  destruct (cr_platforms rt) as [|platform platforms] eqn:Ep; [done|]. rewrite <- Ep in *. cbn [negb orb Z.eqb CL_SUCCESS].
  rewrite Ep at 1. cbn [length Nat.eqb].
  change 0 with (Z.of_nat 0). rewrite gpu_platforms_take by (cbn; lia). cbn [app].
  change (concat _) with (all_gpus (cr_platforms rt)) at 1 2.
  destruct (all_gpus (cr_platforms rt)) as [|x l]; [done|].
  destruct (Z.to_nat max_devices) eqn:Em; [lia|]. done.
Qed.

Lemma resolve_all_gpus_witness :
  let rt := ClRuntime 0 0
    [ClPlatform 0 (-1) [ClDevice 0 true "a" "" "" None 1];
     ClPlatform 0 0 [ClDevice 0 false "b" "" "" None 1; ClDevice (-1) true "c" "" "" None 1; ClDevice 0 true "d" "" "" None 1]] in
  let config := OpenclConfig true true 0 0 0 0 0 0 0 0 0 [] in
  snd (opencl_miner_resolve_devices (OpenclLibrary true (fun _ => true)) rt (OpenclLoader false false "") config 8) =
  inr (take 8 (uncurry (device_of_config config) <$> [(1, 2)])).
Proof.
  apply (resolve_all_gpus (OpenclLibrary true (fun _ => true))); try reflexivity; done.
Defined.
