(* ===== verification/OpenclHost.v ===== *)
(** The miner of an OpenCL device, src/src/opencl_miner.c from [build_program] on: its
    construction with the second attempt at the program, its release, the scan of a
    nonce range and the self-test.

    The runtime's replies are arguments.  As OpenCL documents it, a call that creates
    an object returns one exactly when its error code is [CL_SUCCESS]. *)
From stdpp Require Import base tactics list option numbers strings relations.
From Stdlib Require Import ZArith Lia.
From S2P Require Import Prelude Words Fips Sha256d Scan Simd X86ShaNi ArmSha2 Backends.
From S2P Require Import Float64 Target Hex Job Miner MinerSteps.
From S2P Require Import Resources GpuSha GpuScan CudaKernel GpuSelfTest OpenclKernel OpenclMiner.

#[local] Open Scope Z_scope.

(** * The miner *)

(** The handles of the structure that are not null. *)
Record opencl_handles := Handles {
  h_context : bool; h_queue : bool; h_program : bool; h_kernel : bool;
  h_count_buf : bool; h_matches_buf : bool; h_matches : bool;
}.
Record opencl_miner := OpenclMiner {
  om_batch_size : Z; om_local_work_size : Z; om_nonces_per_work_item : Z; om_max_results : Z;
  om_backend_variant : Z; om_kernel_variant : Z;
  om_backend_name : string; om_device_name : string; om_device_version : string;
  om_handles : opencl_handles;
}.

Inductive cl_resource :=
  | ClMiner | ClContext | ClQueue | ClProgram | ClKernel | ClCountBuf | ClMatchesBuf | ClMatches.
#[export] Instance cl_resource_eq_dec : EqDecision cl_resource.
Proof. solve_decision. Defined.

Definition opencl_backend_variant_name (variant : Z) : string :=
  if variant =? MINER_OPENCL_BACKEND_COMPAT10 then "compat10"
  else if variant =? MINER_OPENCL_BACKEND_MODERN then "modern"
  else "auto".
Definition opencl_kernel_variant_name (variant : Z) : string :=
  if variant =? MINER_OPENCL_KERNEL_COMPACT then "compact"
  else if variant =? MINER_OPENCL_KERNEL_UNROLLED then "unrolled"
  else if variant =? MINER_OPENCL_KERNEL_FIXED_NPI1 then "fixed-npi1"
  else if variant =? MINER_OPENCL_KERNEL_FIXED_NPI2 then "fixed-npi2"
  else if variant =? MINER_OPENCL_KERNEL_FIXED_NPI4 then "fixed-npi4"
  else if variant =? MINER_OPENCL_KERNEL_REGISTER_HEAVY then "register-heavy"
  else "auto".

(** The assignments to the fields the construction changes. *)
Definition set_handles (m : opencl_miner) (h : opencl_handles) : opencl_miner :=
  OpenclMiner (om_batch_size m) (om_local_work_size m) (om_nonces_per_work_item m) (om_max_results m)
    (om_backend_variant m) (om_kernel_variant m) (om_backend_name m) (om_device_name m) (om_device_version m) h.
Definition set_kernel_variant (m : opencl_miner) (v : Z) : opencl_miner :=
  OpenclMiner (om_batch_size m) (om_local_work_size m) (om_nonces_per_work_item m) (om_max_results m)
    (om_backend_variant m) v (om_backend_name m) (om_device_name m) (om_device_version m) (om_handles m).
Definition set_backend_name (m : opencl_miner) (n : string) : opencl_miner :=
  OpenclMiner (om_batch_size m) (om_local_work_size m) (om_nonces_per_work_item m) (om_max_results m)
    (om_backend_variant m) (om_kernel_variant m) n (om_device_name m) (om_device_version m) (om_handles m).
Definition set_program (h : opencl_handles) (program kernel : bool) : opencl_handles :=
  Handles (h_context h) (h_queue h) program kernel (h_count_buf h) (h_matches_buf h) (h_matches h).

(** [opencl_miner_destroy] *)
Definition opencl_miner_destroy (m : opencl_miner) : list (event cl_resource) :=
  let h := om_handles m in
  released_if (h_matches h) ClMatches ++ released_if (h_matches_buf h) ClMatchesBuf ++
  released_if (h_count_buf h) ClCountBuf ++ released_if (h_kernel h) ClKernel ++
  released_if (h_program h) ClProgram ++ released_if (h_queue h) ClQueue ++
  released_if (h_context h) ClContext ++ [Release ClMiner].

(** [release_program_objects] *)
Definition release_program_objects (m : opencl_miner) : opencl_miner * list (event cl_resource) :=
  let h := om_handles m in
  (set_handles m (set_program h false false),
   released_if (h_kernel h) ClKernel ++ released_if (h_program h) ClProgram).

(** * The program *)

(** The replies of the calls of [build_program]; the log is the text read back. *)
Record build_replies := BuildReplies {
  br_program : Z; br_build : Z; br_log : string; br_kernel : Z;
}.

(** [Some error] is the return of -1. *)
Definition build_program (m : opencl_miner) (r : build_replies)
    : option string * opencl_miner * list (event cl_resource) :=
  let h := om_handles m in
  if negb (br_program r =? CL_SUCCESS) then
    (Some "failed to create OpenCL program"%string, set_handles m (set_program h false (h_kernel h)), [])
  else
    let m := set_handles m (set_program h true (h_kernel h)) in
    let tr := [Acquire ClProgram] in
    if negb (br_build r =? CL_SUCCESS) then
      (Some ("failed to build OpenCL kernel: " ++ String.substring 0 1800 (br_log r))%string, m, tr)
    else if negb (br_kernel r =? CL_SUCCESS) then
      (Some "failed to create OpenCL kernel"%string, set_handles m (set_program h true false), tr)
    else (None, set_handles m (set_program h true true), tr ++ [Acquire ClKernel]).

(** * Construction *)

(** The fields [opencl_miner_create] sets from the configuration, and the two variants
    it asks for. *)
Definition initial_miner (config : option miner_opencl_config_t) : opencl_miner * Z * Z :=
  let batch := match config with
               | Some c => config_u32_or (oc_batch_size c) OPENCL_DEFAULT_BATCH_SIZE
               | None => OPENCL_DEFAULT_BATCH_SIZE end in
  let local := match config with Some c => oc_local_work_size c | None => 0 end in
  let npi := match config with
             | Some c => clamp_nonces_per_work_item (oc_nonces_per_work_item c)
             | None => OPENCL_DEFAULT_NONCES_PER_WORK_ITEM end in
  let max := match config with
             | Some c => config_u32_or (oc_max_results c) OPENCL_DEFAULT_MAX_RESULTS
             | None => OPENCL_DEFAULT_MAX_RESULTS end in
  let requested_kernel_variant :=
    match config with Some c => normalize_kernel_variant (oc_kernel_variant c)
                    | None => MINER_OPENCL_KERNEL_AUTO end in
  let requested_backend_variant :=
    match config with Some c => normalize_backend_variant (oc_backend_variant c)
                    | None => MINER_OPENCL_BACKEND_AUTO end in
  let kernel := if requested_kernel_variant =? MINER_OPENCL_KERNEL_AUTO
                then MINER_OPENCL_KERNEL_UNROLLED else requested_kernel_variant in
  let batch := if batch <? 1024 then 1024 else batch in
  let max := if max <? 1 then 1 else max in
  (OpenclMiner batch local npi max 0 kernel "" "" "" (Handles false false false false false false false),
   requested_kernel_variant, requested_backend_variant).

Definition or_unknown (text : string) : string := if String.eqb text "" then "unknown" else text.

(** From the texts of the device to the local work size. *)
Definition configure_miner (m : opencl_miner) (d : cl_device) (requested_backend_variant : Z)
    : string + opencl_miner :=
  let name := or_unknown (cd_name d) in
  let vendor := or_unknown (cd_vendor d) in
  let version := or_unknown (cd_version d) in
  match resolve_backend_variant (cd_extensions d) version requested_backend_variant with
  | inl error => inl error
  | inr backend =>
      let kernel := om_kernel_variant m in
      if kernel_variant_modern_only kernel && negb (backend =? MINER_OPENCL_BACKEND_MODERN) then
        inl "modern-only OpenCL kernels require backend=modern"%string
      else
        let forced_npi := kernel_variant_forced_npi kernel in
        let npi := if negb (forced_npi =? 0) then forced_npi else om_nonces_per_work_item m in
        let max_work_group := cd_max_work_group d in
        let local :=
          if om_local_work_size m =? 0 then default_local_work_size_for_device vendor name max_work_group
          else if (0 <? max_work_group) && (max_work_group <? om_local_work_size m) then u32 max_work_group
          else om_local_work_size m in
        inr (OpenclMiner (om_batch_size m) local npi (om_max_results m) backend kernel
               (om_backend_name m) name version (om_handles m))
  end.

(** The replies of the calls of [opencl_miner_create], in their order. *)
Record opencl_replies := OpenclReplies {
  or_miner : bool; or_context : Z; or_queue : Z; or_build : build_replies; or_build_again : build_replies;
  or_count_buf : Z; or_matches_buf : Z; or_matches : bool;
}.

(** The program, with the second attempt when the kernel was left to the miner. *)
Definition build_or_fall_back (m : opencl_miner) (requested_kernel_variant : Z) (r : opencl_replies)
    : option string * opencl_miner * list (event cl_resource) :=
  match build_program m (or_build r) with
  | (None, m, tr) => (None, m, tr)
  | (Some error, m, tr) =>
      if (requested_kernel_variant =? MINER_OPENCL_KERNEL_AUTO) &&
         (om_kernel_variant m =? MINER_OPENCL_KERNEL_UNROLLED)
      then
        let '(m, tr') := release_program_objects m in
        let m := set_kernel_variant m MINER_OPENCL_KERNEL_COMPACT in
        let '(error, m, tr'') := build_program m (or_build_again r) in
        (error, m, tr ++ tr' ++ tr'')
      else (Some error, m, tr)
  end.

(** The result with what was acquired and released on the way. *)
Definition opencl_miner_create (lib : opencl_library) (rt : cl_runtime) (r : opencl_replies)
    (g : btcrig_opencl_loader_t) (config : option miner_opencl_config_t)
    : btcrig_opencl_loader_t * (string + opencl_miner) * list (event cl_resource) :=
  match btcrig_opencl_load lib g with
  | (g, inl error) => (g, inl error, [])
  | (g, inr _) =>
      if negb (or_miner r) then (g, inl "OpenCL miner allocation failed"%string, [])
      else
        let '(m, requested_kernel_variant, requested_backend_variant) := initial_miner config in
        let tr := [Acquire ClMiner] in
        let fail error m tr := (g, inl error, tr ++ opencl_miner_destroy m) in
        match select_platform_device rt config with
        | inl error => fail error m tr
        | inr d =>
            match configure_miner m d requested_backend_variant with
            | inl error => fail error m tr
            | inr m =>
                if negb (or_context r =? CL_SUCCESS) then fail "failed to create OpenCL context"%string m tr else
                let m := set_handles m (Handles true false false false false false false) in
                let tr := tr ++ [Acquire ClContext] in
                if negb (or_queue r =? CL_SUCCESS) then
                  fail "failed to create OpenCL command queue"%string m tr else
                let m := set_handles m (Handles true true false false false false false) in
                let tr := tr ++ [Acquire ClQueue] in
                match build_or_fall_back m requested_kernel_variant r with
                | (Some error, m, tr') => fail error m (tr ++ tr')
                | (None, m, tr') =>
                    let tr := tr ++ tr' in
                    let m := set_backend_name m
                      (opencl_backend_variant_name (om_backend_variant m) ++ "-" ++
                       opencl_kernel_variant_name (om_kernel_variant m)) in
                    if negb (or_count_buf r =? CL_SUCCESS) then
                      fail "failed to create OpenCL result count buffer"%string m tr else
                    let m := set_handles m (Handles true true true true true false false) in
                    let tr := tr ++ [Acquire ClCountBuf] in
                    if negb (or_matches_buf r =? CL_SUCCESS) then
                      fail "failed to create OpenCL matches buffer"%string m tr else
                    let m := set_handles m (Handles true true true true true true false) in
                    let tr := tr ++ [Acquire ClMatchesBuf] in
                    if negb (or_matches r) then
                      fail "OpenCL host result allocation failed"%string m tr else
                    let m := set_handles m (Handles true true true true true true true) in
                    (g, inr m, tr ++ [Acquire ClMatches])
                end
            end
        end
  end.

(** * Scan *)

(** The replies of the calls of a scan; [os_set_args] are those of the 25 calls of
    [clSetKernelArg]. *)
Record opencl_scan_replies := OpenclScanReplies {
  os_write : Z; os_set_args : list Z; os_launch : Z; os_read_count : Z; os_read_matches : Z;
}.
Definition scan_success (r : opencl_scan_replies) : Prop :=
  os_write r = CL_SUCCESS /\ Forall (eq CL_SUCCESS) (os_set_args r) /\ os_launch r = CL_SUCCESS /\
  os_read_count r = CL_SUCCESS /\ os_read_matches r = CL_SUCCESS.

(** The global work size, a multiple of the local one. *)
Definition global_work_size (nonce_count npi local : Z) : Z :=
  let global := u64 (u64 (nonce_count + npi) - 1) / npi in
  if 0 <? local then
    let rem := global mod local in
    if negb (rem =? 0) then u64 (global + (local - rem)) else global
  else global.

Definition launch_items (k : cl_kernel) (a : scan_args) (global : Z) : list (list match_t) :=
  (fun gid => k a (Z.of_nat gid)) <$> seq 0 (Z.to_nat global).

(** [miner->matches + (size_t)i * 9U] *)
Definition opencl_slot (i : nat) : nat := (i * 9)%nat.

Section scan.
Context `{O : OpenSSL} `{G : Gpu} {A : Type}.

(** [buf] is what the matches buffer holds before the launch. *)
Definition opencl_miner_scan (m : opencl_miner) (k : cl_kernel) (r : opencl_scan_replies) (buf : list Z)
    (state : sha256_midstate_t O) (tail_words target_words : list Z) (start_nonce nonce_count : Z)
    (opaque : A) (on_match : on_match_t A) : Z * A :=
  if nonce_count =? 0 then (0, opaque)
  else if negb (os_write r =? CL_SUCCESS) then (-1, opaque)
  else
    let args := ScanArgs (ms_fast_state state) target_words
      [tail_words !!! 0%nat; tail_words !!! 1%nat; tail_words !!! 2%nat]
      start_nonce nonce_count (om_nonces_per_work_item m) (om_max_results m) in
    let rc := foldl Z.lor (os_write r) (os_set_args r) in
    if negb (rc =? CL_SUCCESS) then (-1, opaque)
    else
      let global := global_work_size nonce_count (om_nonces_per_work_item m) (om_local_work_size m) in
      if negb (os_launch r =? CL_SUCCESS) then (-1, opaque)
      else
        let s := run_device (om_max_results m) (launched buf (launch_items k args global)) in
        if negb (os_read_count r =? CL_SUCCESS) then (-1, opaque)
        else
          match on_match with
          | Some f =>
              if result_count s =? 0 then (0, opaque)
              else if negb (os_read_matches r =? CL_SUCCESS) then (-1, opaque)
              else (0, foldl (fun a '(nonce, h) => f nonce h a) opaque
                         (read_matches opencl_slot s (om_max_results m)))
          | None => (0, opaque)
          end.
End scan.

(** * Resources *)

Definition all_cl_resources : list cl_resource :=
  [ClMiner; ClContext; ClQueue; ClProgram; ClKernel; ClCountBuf; ClMatchesBuf; ClMatches].

Ltac split_test :=
  match goal with
  | |- context [if ?b then _ else _] => destruct b
  end.

(** The stages up to the queue, and the program with its second attempt: what is held
    before them is held after them, with the program and its kernel or released. *)
Lemma build_trace m v r :
  om_handles m = Handles true true false false false false false ->
  match build_or_fall_back m v r with
  | (None, m', tr) =>
      om_handles m' = Handles true true true true false false false /\
      foldl track (Some [ClMiner; ClContext; ClQueue]) tr =
        Some [ClMiner; ClContext; ClQueue; ClProgram; ClKernel]
  | (Some _, m', tr) =>
      foldl track (Some [ClMiner; ClContext; ClQueue]) (tr ++ opencl_miner_destroy m') = Some []
  end.
Proof.
  destruct m as [batch local npi max backend kernel bname dname version h]. cbn [om_handles]. intros ->.
  destruct r as [miner ctx queue [p1 b1 l1 k1] [p2 b2 l2 k2] cb mb mm].
  unfold build_or_fall_back, build_program. cbn [or_build or_build_again br_program br_build br_kernel].
  destruct (negb (p1 =? CL_SUCCESS)); [|destruct (negb (b1 =? CL_SUCCESS)); [|destruct (negb (k1 =? CL_SUCCESS))]];
    cbn [set_handles om_kernel_variant];
    try (by vm_compute);
    (destruct ((v =? MINER_OPENCL_KERNEL_AUTO) && (kernel =? MINER_OPENCL_KERNEL_UNROLLED));
     [|vm_compute; reflexivity]); cbn [release_program_objects];
    repeat split_test; vm_compute; done.
Qed.

(** C11.  [opencl_miner_create] neither leaks nor frees twice: on every error path, the
    failure of both attempts at the program included, what was acquired has been
    released, each resource once; a miner that is returned holds all eight resources,
    and [opencl_miner_destroy] then releases exactly those. *)
Theorem opencl_create_releases lib rt r g config :
  match opencl_miner_create lib rt r g config with
  | (_, inl _, tr) => held_after tr = Some []
  | (_, inr m, tr) =>
      held_after tr = Some all_cl_resources /\ held_after (tr ++ opencl_miner_destroy m) = Some []
  end.
Proof.
  unfold opencl_miner_create. destruct (btcrig_opencl_load lib g) as [g' [error|[]]]; [done|].
  split_test; [done|]. destruct (initial_miner config) as [[m vk] vb] eqn:Ei.
  assert (Hm : om_handles m = Handles false false false false false false false)
    by (injection Ei as <- _ _; reflexivity).
  destruct (select_platform_device rt config) as [error|d].
  { unfold opencl_miner_destroy. rewrite Hm. done. }
  destruct (configure_miner m d vb) as [error|m1] eqn:Ec.
  { unfold opencl_miner_destroy. rewrite Hm. done. }
  assert (Hm1 : om_handles m1 = om_handles m).
  { unfold configure_miner in Ec. destruct (resolve_backend_variant _ _ _); [done|].
    destruct (_ && _); [done|]. by injection Ec as <-. }
  rewrite Hm in Hm1. split_test.
  { unfold opencl_miner_destroy. rewrite Hm1. done. }
  split_test; [done|].
  set (m2 := set_handles _ _). pose proof (build_trace m2 vk r eq_refl) as Hb.
  destruct (build_or_fall_back m2 vk r) as [[[error|] m3] tr].
  - rewrite <- app_assoc, (held_after_app _ _ [ClMiner; ClContext; ClQueue]); [exact Hb|done].
  - destruct Hb as [Hm3 Hb].
    set (pre := (_ ++ [Acquire ClQueue]) ++ tr).
    assert (Hpre : held_after pre = Some [ClMiner; ClContext; ClQueue; ClProgram; ClKernel])
      by (unfold pre; by rewrite (held_after_app _ _ [ClMiner; ClContext; ClQueue])).
    clearbody pre. repeat (split_test; [rewrite <- ?app_assoc, (held_after_app _ _ _ Hpre);
      unfold opencl_miner_destroy; cbn [set_backend_name set_handles om_handles]; rewrite ?Hm3; done|]).
    rewrite <- !app_assoc, !(held_after_app _ _ _ Hpre). done.
Qed.

(** * The miners [opencl_miner_create] makes

    As for CUDA, the sizes that fit are those for which the 32-bit indices of the
    last work items and of the last result slot do not wrap. *)
Record opencl_miner_ok (m : opencl_miner) : Prop := {
  oo_npi : 1 <= om_nonces_per_work_item m <= OPENCL_MAX_NONCES_PER_WORK_ITEM;
  oo_local : 0 <= om_local_work_size m;
  oo_max : 1 <= om_max_results m /\ 9 * om_max_results m <= 2 ^ 32;
  oo_batch : 1024 <= om_batch_size m /\
    om_batch_size m + Z.max 1 (om_local_work_size m) * om_nonces_per_work_item m <= 2 ^ 32;
  oo_backend : om_backend_variant m ∈ [MINER_OPENCL_BACKEND_COMPAT10; MINER_OPENCL_BACKEND_MODERN];
  oo_kernel : MINER_OPENCL_KERNEL_COMPACT <= om_kernel_variant m <= MINER_OPENCL_KERNEL_REGISTER_HEAVY;
  oo_modern : kernel_variant_modern_only (om_kernel_variant m) = true ->
    om_backend_variant m = MINER_OPENCL_BACKEND_MODERN;
  oo_forced : kernel_variant_forced_npi (om_kernel_variant m) <> 0 ->
    om_nonces_per_work_item m = kernel_variant_forced_npi (om_kernel_variant m);
}.

Definition opencl_config_fits (config : option miner_opencl_config_t) : Prop :=
  match config with
  | None => True
  | Some c =>
      0 <= oc_batch_size c /\ 0 <= oc_local_work_size c /\ 0 <= oc_nonces_per_work_item c /\
      0 <= oc_max_results c /\
      Z.max OPENCL_DEFAULT_BATCH_SIZE (oc_batch_size c) + 64 * Z.max 512 (oc_local_work_size c) <= 2 ^ 32 /\
      9 * oc_max_results c <= 2 ^ 32
  end.

Lemma clamp_npi_bounds v : 0 <= v -> 1 <= clamp_nonces_per_work_item v <= OPENCL_MAX_NONCES_PER_WORK_ITEM.
Proof.
  intros Hv. unfold clamp_nonces_per_work_item, OPENCL_DEFAULT_NONCES_PER_WORK_ITEM, OPENCL_MAX_NONCES_PER_WORK_ITEM.
  destruct (Z.eqb_spec v 0); [lia|]. destruct (Z.ltb_spec 64 v); lia.
Qed.

Lemma config_u32_bounds v fallback :
  0 <= v -> 0 < fallback -> 1 <= config_u32_or v fallback <= Z.max v fallback.
Proof. intros Hv Hf. unfold config_u32_or. destruct (Z.eqb_spec v 0); lia. Qed.

Lemma choose_local_bounds preferred mwg :
  0 <= preferred <= 512 -> 0 <= choose_local_work_size preferred mwg <= 512 /\
  (0 < mwg -> choose_local_work_size preferred mwg <= mwg).
Proof.
  intros Hp. unfold choose_local_work_size. destruct (Z.eqb_spec mwg 0) as [->|Hne]; [lia|].
  destruct ((0 <? preferred) && (preferred <=? mwg)) eqn:E.
  { apply andb_true_iff in E as [_ E%Z.leb_le]. lia. }
  destruct (list_find _ local_work_candidates) as [[i c]|] eqn:Ef; [|lia].
  apply list_find_Some in Ef as (Hi & Hc%Z.leb_le & _). split; [|lia].
  assert (Hall : Forall (fun c => 0 <= c <= 512) local_work_candidates) by (repeat constructor; lia).
  by apply (proj1 (list.Forall_lookup _ _) Hall i).
Qed.

Lemma default_local_bounds vendor name mwg :
  0 <= default_local_work_size_for_device vendor name mwg <= 512.
Proof.
  unfold default_local_work_size_for_device. apply choose_local_bounds. by repeat split_test.
Qed.

Lemma resolve_backend_range ext version requested backend :
  resolve_backend_variant ext version requested = inr backend ->
  backend ∈ [MINER_OPENCL_BACKEND_COMPAT10; MINER_OPENCL_BACKEND_MODERN].
Proof.
  unfold resolve_backend_variant. split_test.
  - destruct (validate_modern_device version); [done|]. intros [= <-]. right. by left.
  - destruct (validate_compat10_device ext version); [done|]. intros [= <-]. by left.
Qed.

Lemma normalize_kernel_range v :
  MINER_OPENCL_KERNEL_AUTO <= normalize_kernel_variant v <= MINER_OPENCL_KERNEL_REGISTER_HEAVY.
Proof.
  unfold normalize_kernel_variant, MINER_OPENCL_KERNEL_AUTO, MINER_OPENCL_KERNEL_COMPACT, MINER_OPENCL_KERNEL_UNROLLED,
    MINER_OPENCL_KERNEL_FIXED_NPI1, MINER_OPENCL_KERNEL_FIXED_NPI2, MINER_OPENCL_KERNEL_FIXED_NPI4,
    MINER_OPENCL_KERNEL_REGISTER_HEAVY.
  destruct (_ || _) eqn:E; [|lia]. rewrite !orb_true_iff, !Z.eqb_eq in E. lia.
Qed.

(** What the program stage leaves of the miner. *)
Lemma build_fields m v r m' tr :
  build_or_fall_back m v r = (None, m', tr) ->
  (om_kernel_variant m' = om_kernel_variant m \/
   v = MINER_OPENCL_KERNEL_AUTO /\ om_kernel_variant m' = MINER_OPENCL_KERNEL_COMPACT) /\
  m' = set_handles (set_kernel_variant m (om_kernel_variant m')) (om_handles m').
Proof.
  destruct m as [batch local npi max backend kernel bname dname version h].
  destruct r as [miner ctx queue [p1 b1 l1 k1] [p2 b2 l2 k2] cb mb mm].
  unfold build_or_fall_back, build_program. cbn [or_build or_build_again br_program br_build br_kernel].
  destruct (negb (p1 =? CL_SUCCESS)), (negb (b1 =? CL_SUCCESS)), (negb (k1 =? CL_SUCCESS));
    cbn [set_handles om_kernel_variant];
    (destruct (Z.eqb_spec v MINER_OPENCL_KERNEL_AUTO); cbn [andb]; [destruct (kernel =? MINER_OPENCL_KERNEL_UNROLLED)|]);
    cbn [release_program_objects]; repeat split_test; intros [= <- _]; cbn; auto.
Qed.

(** A miner that is returned comes from a device by [configure_miner] and the program
    stage. *)
Lemma create_opencl_miner lib rt r g config m g' tr :
  opencl_miner_create lib rt r g config = (g', inr m, tr) ->
  exists m0 vk vb d m1 m2 m3 tr', initial_miner config = (m0, vk, vb) /\
    configure_miner m0 d vb = inr m1 /\ build_or_fall_back m2 vk r = (None, m3, tr') /\
    m2 = set_handles m1 (om_handles m2) /\
    m = set_handles (set_backend_name m3 (om_backend_name m)) (om_handles m).
Proof.
  unfold opencl_miner_create. destruct (btcrig_opencl_load lib g) as [g1 [error|[]]]; [done|].
  split_test; [done|]. destruct (initial_miner config) as [[m0 vk] vb].
  destruct (select_platform_device rt config) as [error|d]; [done|].
  destruct (configure_miner m0 d vb) as [error|m1] eqn:Ec; [done|].
  split_test; [done|]. split_test; [done|].
  set (m2 := set_handles (set_handles m1 _) _).
  destruct (build_or_fall_back m2 vk r) as [[[error|] m3] tr'] eqn:Eb; [done|].
  repeat (split_test; [done|]). intros [= _ <- _].
  exists m0, vk, vb, d, m1, m2, m3, tr'. done.
Qed.

Lemma configured_ok config m0 vk vb d m1 :
  opencl_config_fits config -> initial_miner config = (m0, vk, vb) -> configure_miner m0 d vb = inr m1 ->
  opencl_miner_ok m1.
Proof.
  intros Hf Hi. unfold configure_miner.
  destruct (resolve_backend_variant _ _ _) as [|backend] eqn:Er; [done|]. apply resolve_backend_range in Er.
  destruct (kernel_variant_modern_only _ && _) eqn:Em; [done|].
  assert (Hmod : kernel_variant_modern_only (om_kernel_variant m0) = true -> backend = MINER_OPENCL_BACKEND_MODERN).
  { intros Ht. rewrite Ht in Em. cbn [andb] in Em. by apply negb_false_iff, Z.eqb_eq in Em. }
  clear Em. set (kernel := om_kernel_variant m0) in *. set (name := or_unknown (cd_name d)).
  set (vendor := or_unknown (cd_vendor d)). set (mwg := cd_max_work_group d).
  set (local := if om_local_work_size m0 =? 0 then _ else _). set (npi := if negb _ then _ else _).
  assert (Hs : 1 <= om_nonces_per_work_item m0 <= 64 /\ 0 <= om_local_work_size m0 /\
    (1 <= om_max_results m0 /\ 9 * om_max_results m0 <= 2 ^ 32) /\
    (1024 <= om_batch_size m0 /\ om_batch_size m0 + 64 * Z.max 512 (om_local_work_size m0) <= 2 ^ 32) /\
    MINER_OPENCL_KERNEL_COMPACT <= kernel <= MINER_OPENCL_KERNEL_REGISTER_HEAVY).
  { subst kernel. injection Hi as <- _ _. cbn [om_nonces_per_work_item om_local_work_size om_max_results om_batch_size om_kernel_variant].
    unfold OPENCL_DEFAULT_BATCH_SIZE, OPENCL_DEFAULT_MAX_RESULTS, OPENCL_DEFAULT_NONCES_PER_WORK_ITEM.
    destruct config as [c|]; [|cbn; unfold MINER_OPENCL_KERNEL_COMPACT, MINER_OPENCL_KERNEL_REGISTER_HEAVY, MINER_OPENCL_KERNEL_UNROLLED; lia].
    destruct Hf as (F1 & F2 & F3 & F4 & F5 & F6). pose proof (clamp_npi_bounds _ F3) as Hn.
    pose proof (normalize_kernel_range (oc_kernel_variant c)) as Hk.
    unfold OPENCL_DEFAULT_BATCH_SIZE, OPENCL_MAX_NONCES_PER_WORK_ITEM, MINER_OPENCL_KERNEL_AUTO, MINER_OPENCL_KERNEL_COMPACT,
      MINER_OPENCL_KERNEL_REGISTER_HEAVY, MINER_OPENCL_KERNEL_UNROLLED in *.
    pose proof (config_u32_bounds (oc_batch_size c) 1048576 F1 ltac:(lia)) as Hb.
    pose proof (config_u32_bounds (oc_max_results c) 256 F4 ltac:(lia)) as Hm.
    split_and!; repeat (match goal with
      | |- context [?x <? ?y] => destruct (Z.ltb_spec x y)
      | |- context [normalize_kernel_variant ?x =? ?y] => destruct (Z.eqb_spec (normalize_kernel_variant x) y) end); lia. }
  clearbody kernel. destruct Hs as (Hn & Hl & Hmax & Hb & Hk).
  assert (Hlocal : 0 <= local <= Z.max 512 (om_local_work_size m0)).
  { subst local. pose proof (default_local_bounds vendor name mwg).
    destruct (Z.eqb_spec (om_local_work_size m0) 0); [lia|].
    destruct (Z.ltb_spec 0 mwg), (Z.ltb_spec mwg (om_local_work_size m0)); cbn [andb]; try lia.
    rewrite u32_small by (unfold is_u32; lia). lia. }
  clearbody local.
  assert (Hfr : 0 <= kernel_variant_forced_npi kernel <= 4)
    by (unfold kernel_variant_forced_npi, kernel_variant_fixed_npi; cbv zeta; by repeat case_match).
  assert (Hnpi : 1 <= npi <= 64 /\ (kernel_variant_forced_npi kernel <> 0 -> npi = kernel_variant_forced_npi kernel))
    by (subst npi; destruct (Z.eqb_spec (kernel_variant_forced_npi kernel) 0); cbn [negb]; lia).
  clearbody npi. intros [= <-]. unfold OPENCL_MAX_NONCES_PER_WORK_ITEM.
  split; cbn [om_nonces_per_work_item om_local_work_size om_max_results om_batch_size om_kernel_variant om_backend_variant];
    [exact (proj1 Hnpi) | lia | exact Hmax | nia | exact Er | exact Hk | exact Hmod | exact (proj2 Hnpi)].
Qed.

(** Falling back to the compact kernel keeps a miner well-formed, whatever was asked. *)
Lemma compact_ok m : opencl_miner_ok m -> opencl_miner_ok (set_kernel_variant m MINER_OPENCL_KERNEL_COMPACT).
Proof. intros []. split; try assumption; [done|by vm_compute|by vm_compute]. Qed.

Lemma opencl_create_ok lib rt r g config m g' tr :
  opencl_config_fits config ->
  opencl_miner_create lib rt r g config = (g', inr m, tr) -> opencl_miner_ok m.
Proof.
  intros Hf (m0 & vk & vb & d & m1 & m2 & m3 & tr' & Hi & Hc & Hb & Hm2 & Hm)%create_opencl_miner.
  apply build_fields in Hb as [Hk Hm3]. pose proof (configured_ok _ _ _ _ _ _ Hf Hi Hc) as Hok.
  assert (Hwf : opencl_miner_ok (set_kernel_variant m1 (om_kernel_variant m3))).
  { destruct Hk as [Hk|[_ Hk]]; rewrite Hk; [|by apply compact_ok].
    rewrite Hm2. cbn [set_handles om_kernel_variant]. destruct Hok. by split. }
  rewrite Hm, Hm3, Hm2. destruct Hwf. split; assumption.
Qed.

(** A miner [opencl_miner_create] returns is well-formed whenever the configured
    sizes fit 32-bit indexing: 1 to 64 nonces an item, as many as the kernel is written
    for when it is a fixed one, a backend and a kernel that are known, and kernels for
    modern devices only on the modern backend, after a fall-back too. *)
Theorem opencl_create_well_formed lib rt r g config m g' tr :
  opencl_config_fits config ->
  opencl_miner_create lib rt r g config = (g', inr m, tr) -> opencl_miner_ok m.
Proof. apply opencl_create_ok. Qed.

(** * The kernel of a miner *)

Definition miner_program (m : opencl_miner) : list source :=
  program_sources (om_backend_variant m) (om_kernel_variant m).
Definition miner_kernel (m : opencl_miner) : option cl_kernel :=
  program_kernel (program_kernels (miner_program m))
    (kernel_name_for_variant (om_kernel_variant m) (om_nonces_per_work_item m)).

(** Any [scan_one_nonce] that hashes makes the four kernels of the common text
    correct; the one a miner asks for is the one of its number of nonces. *)
Lemma tail_kernel one npi a :
  (forall nonce, one a nonce = thread_hits a [nonce]) ->
  nonces_per_thread a = npi -> 1 <= npi -> 0 <= nonce_count a -> nonce_count a + npi <= 2 ^ 32 ->
  exists k, program_kernel (source_kernels one k_opencl_kernel_tail_kernels) (kernel_name_for_npi npi) = Some k /\
    cl_kernel_correct k npi a.
Proof.
  intros Hone Hnpi H1 Hc Hfit. unfold kernel_name_for_npi.
  destruct (Z.eqb_spec npi 1) as [->|]; [eexists; split; [reflexivity|]; by apply npi1_correct|].
  destruct (Z.eqb_spec npi 2) as [->|]; [eexists; split; [reflexivity|]; by apply npi2_correct|].
  destruct (Z.eqb_spec npi 4) as [->|]; [eexists; split; [reflexivity|]; by apply npi4_correct|].
  eexists; split; [reflexivity|]. rewrite <- Hnpi. apply range_kernel_correct; [done|done|lia|lia].
Qed.

(** Every kernel variant and backend of a well-formed miner. *)
Lemma program_cases (P : Z -> Z -> Prop) backend kernel :
  backend ∈ [MINER_OPENCL_BACKEND_COMPAT10; MINER_OPENCL_BACKEND_MODERN] ->
  MINER_OPENCL_KERNEL_COMPACT <= kernel <= MINER_OPENCL_KERNEL_REGISTER_HEAVY ->
  (kernel_variant_modern_only kernel = true -> backend = MINER_OPENCL_BACKEND_MODERN) ->
  P 1 1 -> P 1 2 -> P 2 1 -> P 2 2 -> P 2 3 -> P 2 4 -> P 2 5 -> P 2 6 -> P backend kernel.
Proof.
  unfold MINER_OPENCL_KERNEL_COMPACT, MINER_OPENCL_KERNEL_REGISTER_HEAVY. intros Hb Hk Hm ????????.
  assert (Hk' : In kernel (seqZ 1 6)) by (apply list_elem_of_In, elem_of_seqZ; lia).
  apply list_elem_of_In in Hb. destruct Hb as [<-|[<-|[]]].
  - repeat (destruct Hk' as [<-|Hk']; [assumption || by (specialize (Hm eq_refl))|]). done.
  - by repeat (destruct Hk' as [<-|Hk']; [assumption|]).
Qed.

#[local] Opaque scan_one_nonce_modern scan_one_nonce_arrays thread_hits.

(** The texts of the program fit together, it has the kernel the miner asks for, and
    that kernel is correct for the miner's number of nonces an item. *)
Lemma miner_kernel_correct m a :
  opencl_miner_ok m -> nonces_per_thread a = om_nonces_per_work_item m ->
  length (fast a) = 8%nat -> is_words (fast a) ->
  0 <= nonce_count a -> nonce_count a + om_nonces_per_work_item m <= 2 ^ 32 ->
  well_linked [] (miner_program m) = true /\
  exists k, miner_kernel m = Some k /\ cl_kernel_correct k (om_nonces_per_work_item m) a.
Proof.
  intros [Hn _ _ _ Hb Hk Hmod Hf] Hnpi Hl Hw Hc Hfit. unfold miner_kernel, miner_program. revert Hf.
  rewrite <- Hnpi in *. set (npi := nonces_per_thread a) in *.
  pose proof (fun one H => tail_kernel one npi a H eq_refl (proj1 Hn) Hc Hfit) as Htail.
  assert (Hforced : forall v, (kernel_variant_forced_npi v <> 0 -> npi = kernel_variant_forced_npi v) ->
    forall p, kernel_variant_forced_npi v = p -> p <> 0 -> npi = p) by (intros v H p <- Hp; by apply H).
  pattern (om_backend_variant m), (om_kernel_variant m).
  apply program_cases; try assumption; intros Hf; (split; [vm_compute; reflexivity|]).
  - apply (Htail _ (compact_hits a Hl Hw)).
  - apply (Htail _ (unrolled_hits a Hl Hw)).
  - apply (Htail _ (compact_hits a Hl Hw)).
  - apply (Htail _ (modern_hits a Hl Hw)).
  - rewrite (Hforced _ Hf 1 eq_refl) by lia. eexists. split; [reflexivity|].
    apply (npi1_correct a _ (modern_hits a Hl Hw) Hc).
  - rewrite (Hforced _ Hf 2 eq_refl) by lia. eexists. split; [reflexivity|].
    apply (npi2_correct a _ (modern_hits a Hl Hw) Hc). rewrite (Hforced _ Hf 2 eq_refl) in Hfit; lia.
  - rewrite (Hforced _ Hf 4 eq_refl) by lia. eexists. split; [reflexivity|].
    apply (npi4_correct a _ (modern_hits a Hl Hw) Hc). rewrite (Hforced _ Hf 4 eq_refl) in Hfit; lia.
  - rewrite (Hforced _ Hf 2 eq_refl) by lia. eexists. split; [reflexivity|].
    apply register_heavy_correct; try assumption. rewrite (Hforced _ Hf 2 eq_refl) in Hfit; lia.
Qed.

(** * Exactness of a scan *)

Lemma lor_all l rc : foldl Z.lor rc l = CL_SUCCESS -> rc = CL_SUCCESS /\ Forall (eq CL_SUCCESS) l.
Proof.
  revert rc. induction l as [|x l IH]; intros rc; cbn [foldl]; [done|].
  intros [H Hl]%IH. apply Z.lor_eq_0_iff in H as [-> ->]. by split; [|constructor].
Qed.

Lemma global_size count npi local :
  0 < count -> 1 <= npi -> 0 <= local -> count + Z.max 1 local * npi <= 2 ^ 32 ->
  let global := global_work_size count npi local in
  count <= global * npi /\ (global - 1) * npi < count + Z.max 1 local * npi.
Proof.
  intros Hc Hn Hl Hfit. unfold global_work_size.
  rewrite (u64_small (count + npi)) by (unfold is_u64; nia).
  rewrite u64_small by (unfold is_u64; nia).
  set (work := (count + npi - 1) / npi).
  pose proof (div_up count npi ltac:(lia) ltac:(lia)) as Hw. fold work in Hw.
  destruct (Z.ltb_spec 0 local) as [Hpos|]; cbv zeta; [|nia].
  pose proof (Z.mod_pos_bound work local Hpos) as Hm.
  destruct (Z.eqb_spec (work mod local) 0); cbn [negb]; [nia|].
  rewrite u64_small by (unfold is_u64; nia). nia.
Qed.

Lemma launch_items_work (k : cl_kernel) per a global :
  cl_kernel_correct k per a -> 0 < per -> (global - 1) * per < 2 ^ 32 ->
  launch_items k a global =
  (fun g => thread_hits a (thread_nonces (start_nonce a) (Z.to_nat (nonce_count a)) (Z.to_nat per) g))
    <$> seq 0 (Z.to_nat global).
Proof.
  intros Hk Hp Hfit. unfold launch_items. apply list_fmap_ext. intros i g Hi.
  apply lookup_seq in Hi as [Hi Hlt]. rewrite (Hk (Z.of_nat g)) by (lia || nia). by rewrite Nat2Z.id.
Qed.

Section exact.
Context `{O : OpenSSL} `{G : Gpu} `{!GpuLaws G}.

Lemma opencl_launch m k S T tgt start count buf :
  opencl_miner_ok m -> miner_kernel m = Some k ->
  length S = 8%nat -> is_words S -> 0 < count ->
  count + Z.max 1 (om_local_work_size m) * om_nonces_per_work_item m <= 2 ^ 32 ->
  length buf = Z.to_nat (9 * om_max_results m) ->
  let npi := om_nonces_per_work_item m in
  let a := ScanArgs S tgt T start count npi (om_max_results m) in
  let global := global_work_size count npi (om_local_work_size m) in
  let s := run_device (om_max_results m) (launched buf (launch_items k a global)) in
  exists order, order ≡ₚ matches (nonce_hash S T) tgt start (Z.to_nat count) /\
    result_count s = Z.of_nat (length order) /\
    read_matches opencl_slot s (om_max_results m) =
      (fun nonce => (nonce, nonce_hash S T nonce)) <$> take (Z.to_nat (om_max_results m)) order.
Proof.
  intros Hm Hk Hl Hw Hc Hfit Hbuf npi a global. cbv zeta.
  pose proof Hm as [Hn Hlocal Hmax _ _ _ _ _]. fold npi in Hn, Hfit.
  destruct (global_size count npi (om_local_work_size m)) as [Hg1 Hg2]; [lia|lia|exact Hlocal|exact Hfit|].
  fold global in Hg1, Hg2.
  destruct (miner_kernel_correct m a Hm eq_refl Hl Hw) as (_ & k' & Hk' & Hcorrect); [cbn; lia|cbn; nia|].
  rewrite Hk in Hk'. injection Hk' as <-.
  apply (launch_exact (nonce_hash S T) tgt start (Z.to_nat count) (Z.to_nat npi) (Z.to_nat global)
           (om_max_results m) buf (launch_items k a global)).
  - intros nonce. apply length_nonce_hash.
  - nia.
  - nia.
  - rewrite (launch_items_work k npi a global Hcorrect) by nia. reflexivity.
  - lia.
  - lia.
  - exact Hbuf.
  - intros i Hi. unfold opencl_slot. lia.
  - apply run_device_steps.
  - apply run_device_completes.
Qed.

Context {A : Type}.

Lemma opencl_scan_cases m k r buf S (st : sha256_midstate_t O) T tgt start count (opaque : A) f :
  opencl_miner_ok m -> miner_kernel m = Some k -> midstate_of S st -> 0 <= count ->
  count + Z.max 1 (om_local_work_size m) * om_nonces_per_work_item m <= 2 ^ 32 ->
  length buf = Z.to_nat (9 * om_max_results m) ->
  exists order, order ≡ₚ matches (nonce_hash S T) tgt start (Z.to_nat count) /\
    (opencl_miner_scan m k r buf st T tgt start count opaque (Some f) =
       (0, report (nonce_hash S T) (Some f) (take (Z.to_nat (om_max_results m)) order) opaque) \/
     ~ scan_success r /\ opencl_miner_scan m k r buf st T tgt start count opaque (Some f) = (-1, opaque)).
Proof.
  intros Hm Hk HS Hc Hfit Hbuf. unfold opencl_miner_scan, scan_success.
  destruct (Z.eqb_spec count 0) as [->|Hne].
  { exists []. split; [done|]. left. by rewrite take_nil. }
  rewrite (mo_fast _ _ HS). set (T' := [T !!! 0%nat; T !!! 1%nat; T !!! 2%nat]).
  destruct (opencl_launch m k S T' tgt start count buf Hm Hk (mo_length _ _ HS) (mo_words _ _ HS)
    ltac:(lia) Hfit Hbuf) as (order & Hp & Hn & Hread).
  change (nonce_hash S T') with (nonce_hash S T) in Hp, Hread.
  exists order. split; [exact Hp|]. cbv zeta in Hn, Hread |- *. set (s := run_device _ _) in *.
  destruct (Z.eqb_spec (os_write r) CL_SUCCESS) as [Hw|Hw]; cbn [negb]; [|right; by intuition].
  destruct (Z.eqb_spec (foldl Z.lor (os_write r) (os_set_args r)) CL_SUCCESS) as [[_ Ha]%lor_all|Ha]; cbn [negb].
  2:{ right. split; [|done]. intros (_ & Hall & _). apply Ha. rewrite Hw. clear -Hall.
      induction Hall as [|x l <- _ IH]; [done|exact IH]. }
  destruct (Z.eqb_spec (os_launch r) CL_SUCCESS); cbn [negb]; [|right; by intuition].
  destruct (Z.eqb_spec (os_read_count r) CL_SUCCESS); cbn [negb]; [|right; by intuition].
  rewrite Hn. destruct order as [|x order].
  { left. cbn. by rewrite take_nil. }
  rewrite (proj2 (Z.eqb_neq _ 0)) by (cbn; lia).
  destruct (Z.eqb_spec (os_read_matches r) CL_SUCCESS); cbn [negb]; [|right; by intuition].
  left. rewrite Hread. f_equal. unfold report. by rewrite foldl_fmap.
Qed.

(** C10.  The OpenCL scan is exact: whatever order the device runs its work items in and
    whatever the calls reply, the scan fails without a callback, and then a call
    failed, or the callback has been called on matches of the range only, each once,
    with their hashes, in some order; on all of them when they fit the result buffer,
    and on [max_results] of them otherwise. *)
Theorem opencl_scan_exact m k r buf S (st : sha256_midstate_t O) T tgt start count (opaque : A) f :
  opencl_miner_ok m -> miner_kernel m = Some k -> midstate_of S st -> 0 <= count ->
  count + Z.max 1 (om_local_work_size m) * om_nonces_per_work_item m <= 2 ^ 32 ->
  length buf = Z.to_nat (9 * om_max_results m) ->
  exists order, order ≡ₚ matches (nonce_hash S T) tgt start (Z.to_nat count) /\
    (opencl_miner_scan m k r buf st T tgt start count opaque (Some f) =
       (0, report (nonce_hash S T) (Some f) (take (Z.to_nat (om_max_results m)) order) opaque) \/
     ~ scan_success r /\ opencl_miner_scan m k r buf st T tgt start count opaque (Some f) = (-1, opaque)).
Proof. apply opencl_scan_cases. Qed.
End exact.

(** * The self-test *)

Section self_test.
Context `{O : OpenSSL} `{G : Gpu}.

(** The callback and its context are the text of the CUDA host again. *)
Definition opencl_self_test_match : Z -> list Z -> cuda_self_test_context_t -> cuda_self_test_context_t :=
  cuda_self_test_match.

(** The configuration of the test. *)
Definition self_test_config (config : option miner_opencl_config_t) : miner_opencl_config_t :=
  let c := match config with Some config => config | None => miner_opencl_config_defaults end in
  OpenclConfig (oc_enabled c) (oc_all_devices c) (oc_platform c) (oc_device c) 1024
    (oc_local_work_size c) (oc_nonces_per_work_item c) 32 (oc_backend_variant c) (oc_kernel_variant c)
    (oc_device_count c) (oc_devices c).

(** [None] is the return of 0.  The kernel is whatever function the runtime found. *)
Definition opencl_miner_self_test (lib : opencl_library) (rt : cl_runtime) (r : opencl_replies)
    (g : btcrig_opencl_loader_t) (config : option miner_opencl_config_t) (kernel : cl_kernel)
    (sr : opencl_scan_replies) (buf : list Z) : btcrig_opencl_loader_t * option string :=
  match opencl_miner_create lib rt r g (Some (self_test_config config)) with
  | (g, inl create_error, _) =>
      (g, Some (if String.eqb create_error "" then "OpenCL self-test setup failed"%string else create_error))
  | (g, inr miner, _) =>
      let '(rc, context) :=
        opencl_miner_scan miner kernel sr buf self_test_midstate self_test_tail self_test_target
          (st_start_nonce self_test_start) (st_nonce_count self_test_start)
          self_test_start (Some opencl_self_test_match) in
      if negb (rc =? 0) then (g, Some "OpenCL self-test scan failed"%string)
      else if negb (self_test_passed context) then
        (g, Some "OpenCL self-test hash verification failed"%string)
      else (g, None)
  end.

(** The scan with a callback that lists its calls. *)
Definition test_reports (m : opencl_miner) (k : cl_kernel) (sr : opencl_scan_replies) (buf : list Z)
    : Z * list match_t :=
  opencl_miner_scan m k sr buf self_test_midstate self_test_tail self_test_target test_start 16 []
    (Some (fun nonce h l => l ++ [(nonce, h)])).

(** Any callback sees the calls of the listed one. *)
Lemma scan_listed {A} m k sr buf st T tgt start count (f : Z -> list Z -> A -> A) (opaque : A) rc l :
  opencl_miner_scan m k sr buf st T tgt start count [] (Some (fun nonce h l => l ++ [(nonce, h)])) = (rc, l) ->
  opencl_miner_scan (O := O) m k sr buf st T tgt start count opaque (Some f) =
    (rc, foldl (fun a '(nonce, h) => f nonce h a) opaque l).
Proof.
  unfold opencl_miner_scan. cbv zeta.
  assert (Hlist : forall l0 l : list match_t, foldl (fun a '(nonce, h) => a ++ [(nonce, h)]) l0 l = l0 ++ l).
  { intros l0 l'. revert l0. induction l' as [|[nonce h] l' IH]; intros l0; cbn [foldl]; [by rewrite app_nil_r|].
    rewrite IH. by rewrite <- app_assoc. }
  rewrite Hlist. cbn [app]. repeat split_test; intros [= <- <-]; done.
Qed.
End self_test.

Section self_test_spec.
Context `{O : OpenSSL} `{!OpenSSLLaws O} `{G : Gpu}.

(** C12.  The self-test is sound: when it returns 0, whatever the kernel and the device
    did, the device was made, the scan succeeded and reported each of the sixteen
    nonces once, with the double SHA-256 of the test header. *)
Theorem opencl_self_test_sound lib rt r g config k sr buf g' :
  opencl_miner_self_test lib rt r g config k sr buf = (g', None) ->
  exists m tr l, opencl_miner_create lib rt r g (Some (self_test_config config)) = (g', inr m, tr) /\
    test_reports m k sr buf = (0, l) /\ fst <$> l ≡ₚ test_nonces /\ Forall report_right l.
Proof.
  unfold opencl_miner_self_test.
  destruct (opencl_miner_create lib rt r g _) as [[g1 [error|m]] tr]; [done|].
  change (st_start_nonce self_test_start) with test_start. change (st_nonce_count self_test_start) with 16.
  destruct (test_reports m k sr buf) as [rc l] eqn:El.
  rewrite (scan_listed _ _ _ _ _ _ _ _ _ opencl_self_test_match self_test_start _ _ El).
  destruct (Z.eqb_spec rc 0) as [->|]; cbn [negb]; [|done].
  destruct (self_test_passed _) eqn:Hp; cbn [negb]; [|done].
  intros [= <-]. apply self_test_passed_iff in Hp as [H1 H2]. by exists m, tr, l.
Qed.

Context `{!GpuLaws G}.

(** And it accepts a device that works, in any order of its work items. *)
Lemma opencl_self_test_passes lib rt r g config g' m tr k sr buf :
  opencl_config_fits (Some (self_test_config config)) ->
  opencl_miner_create lib rt r g (Some (self_test_config config)) = (g', inr m, tr) ->
  om_max_results m = 32 ->
  16 + Z.max 1 (om_local_work_size m) * om_nonces_per_work_item m <= 2 ^ 32 ->
  miner_kernel m = Some k -> scan_success sr -> length buf = 288%nat ->
  opencl_miner_self_test lib rt r g config k sr buf = (g', None).
Proof.
  intros Hf Hc Hmax Hfit Hk Hsr Hbuf. unfold opencl_miner_self_test. rewrite Hc.
  pose proof (opencl_create_ok _ _ _ _ _ _ _ _ Hf Hc) as Hm.
  destruct (opencl_scan_cases m k sr buf test_chain self_test_midstate self_test_tail self_test_target
    test_start 16 self_test_start opencl_self_test_match Hm Hk test_midstate) as (order & Hp & [Hscan|[Hn _]]);
    [lia|exact Hfit|by rewrite Hmax, Hbuf| |by destruct Hn].
  change (st_start_nonce self_test_start) with test_start.
  change (st_nonce_count self_test_start) with 16. rewrite Hscan. cbn [negb Z.eqb].
  change (Z.to_nat 16) with 16%nat in Hp. rewrite test_matches in Hp.
  assert (Hlen : length order = 16%nat) by (by rewrite Hp).
  rewrite Hmax, take_ge by (rewrite Hlen; vm_compute; lia).
  pose proof (test_reports_pass order Hp) as Hpass. unfold run_test in Hpass. rewrite foldl_fmap in Hpass.
  unfold report, opencl_self_test_match. by rewrite Hpass.
Qed.
End self_test_spec.

(** * Evaluations *)

#[local] Existing Instances ref_openssl ref_openssl_laws seq_gpu seq_gpu_laws.

(** One platform with a CPU and a GPU. *)
Definition wdevice : cl_device :=
  ClDevice 0 true "Radeon" "Advanced Micro Devices" "OpenCL 2.0 AMD-APP" (Some "cl_khr_fp64") 256.
Definition wruntime : cl_runtime :=
  ClRuntime 0 0 [ClPlatform 0 0 [ClDevice 0 false "CPU" "" "OpenCL 1.0" None 1; wdevice]].
Definition wlibrary : opencl_library := OpenclLibrary true (fun _ => true).
Definition wloader : btcrig_opencl_loader_t := OpenclLoader false false "".
(** The first build fails, the second succeeds. *)
Definition wreplies : opencl_replies :=
  OpenclReplies true 0 0 (BuildReplies 0 (-11) "log" 0) (BuildReplies 0 0 "" 0) 0 0 true.
Definition wconfig : miner_opencl_config_t := OpenclConfig true false 0 1 4096 0 3 4 0 0 0 [].
Definition wclminer : opencl_miner :=
  OpenclMiner 4096 256 3 4 2 1 "modern-compact" "Radeon" "OpenCL 2.0 AMD-APP"
    (Handles true true true true true true true).
Definition wtrace : list (event cl_resource) :=
  (Acquire <$> [ClMiner; ClContext; ClQueue; ClProgram]) ++ [Release ClProgram] ++
  (Acquire <$> [ClProgram; ClKernel; ClCountBuf; ClMatchesBuf; ClMatches]).

Lemma opencl_create_well_formed_witness : opencl_miner_ok wclminer.
Proof.
  refine (opencl_create_well_formed wlibrary wruntime wreplies wloader (Some wconfig) wclminer
    (OpenclLoader true true "") wtrace _ _).
  - cbn. unfold OPENCL_DEFAULT_BATCH_SIZE. lia.
  - vm_compute. reflexivity.
Defined.

Definition wkernel : cl_kernel := scan_nonce_range (scan_one_nonce_arrays (fun st w => fst (compress_compact st w))).
Lemma wclminer_ok : opencl_miner_ok wclminer.
Proof.
  unfold wclminer. split; cbn; unfold OPENCL_MAX_NONCES_PER_WORK_ITEM, MINER_OPENCL_KERNEL_COMPACT,
    MINER_OPENCL_KERNEL_REGISTER_HEAVY; [lia|lia|lia|lia| |lia|done|done].
  right. by left.
Qed.
Definition wcltarget : list Z := replicate 8 UINT32_MAX.
Definition wclstate : sha256_midstate_t ref_openssl := Midstate Fips.H0 Fips.H0 Fips.H0.
Lemma wclmidstate : midstate_of Fips.H0 wclstate.
Proof. split; try done. apply Fips.H0_words. Qed.
Definition wcollect (nonce : Z) (_ : list Z) (found : list Z) : list Z := found ++ [nonce].

Lemma opencl_scan_exact_witness :
  exists order, order ≡ₚ matches (nonce_hash Fips.H0 [1; 2; 3; 4]) wcltarget 7 2 /\
    (opencl_miner_scan wclminer wkernel (OpenclScanReplies 0 (replicate 25 0) 0 0 0) (replicate 36 0)
       wclstate [1; 2; 3; 4] wcltarget 7 2 [] (Some wcollect) =
     (0, report (nonce_hash Fips.H0 [1; 2; 3; 4]) (Some wcollect) (take 4 order) []) \/
     ~ scan_success (OpenclScanReplies 0 (replicate 25 0) 0 0 0) /\
     opencl_miner_scan wclminer wkernel (OpenclScanReplies 0 (replicate 25 0) 0 0 0) (replicate 36 0)
       wclstate [1; 2; 3; 4] wcltarget 7 2 [] (Some wcollect) = (-1, [])).
Proof.
  refine (opencl_scan_exact wclminer wkernel (OpenclScanReplies 0 (replicate 25 0) 0 0 0) (replicate 36 0)
    Fips.H0 wclstate [1; 2; 3; 4] wcltarget 7 2 [] wcollect wclminer_ok eq_refl wclmidstate _ _ eq_refl).
  - lia.
  - cbn. lia.
Defined.

(** The miner of the test. *)
Definition wtestminer : opencl_miner :=
  OpenclMiner 1024 256 3 32 2 1 "modern-compact" "Radeon" "OpenCL 2.0 AMD-APP"
    (Handles true true true true true true true).

Lemma opencl_self_test_sound_witness :
  exists m tr l, opencl_miner_create wlibrary wruntime wreplies wloader (Some (self_test_config (Some wconfig))) =
      (OpenclLoader true true "", inr m, tr) /\
    test_reports (O := ref_openssl) m wkernel (OpenclScanReplies 0 (replicate 25 0) 0 0 0) (replicate 288 0) = (0, l) /\
    fst <$> l ≡ₚ test_nonces /\ Forall report_right l.
Proof.
  refine (opencl_self_test_sound wlibrary wruntime wreplies wloader (Some wconfig) wkernel
    (OpenclScanReplies 0 (replicate 25 0) 0 0 0) (replicate 288 0) (OpenclLoader true true "") _).
  refine (opencl_self_test_passes wlibrary wruntime wreplies wloader (Some wconfig) (OpenclLoader true true "")
    wtestminer wtrace wkernel (OpenclScanReplies 0 (replicate 25 0) 0 0 0) (replicate 288 0)
    _ _ eq_refl _ eq_refl _ eq_refl).
  - cbn. unfold OPENCL_DEFAULT_BATCH_SIZE. lia.
  - vm_compute. reflexivity.
  - cbn. lia.
  - unfold scan_success. cbn. split_and!; try done. by repeat constructor.
Defined.
