(* ===== verification/GpuDevices.v ===== *)
(** The GPU miners as devices of the worker threads: what [cuda_miner_scan] and
    [opencl_miner_scan] report is what the model of the miner (MinerSteps.v) expects
    of a device, so the properties of the shares hold for the devices the hosts
    create, without a hypothesis on them. *)
From stdpp Require Import base tactics list option numbers strings relations.
From Stdlib Require Import ZArith Lia.
From S2P Require Import Prelude Words Fips Sha256d Scan Simd X86ShaNi ArmSha2 Backends.
From S2P Require Import Float64 Target Hex Job Miner MinerSteps MinerSafety Json Stratum PoolMessages StratumNet.
From S2P Require Import Client ClientSafety SessionTrace.
From S2P Require Import Resources GpuSha GpuScan CudaKernel CudaMiner OpenclKernel OpenclMiner OpenclHost.

#[local] Open Scope Z_scope.

(** The callback that lists its calls, [queue_scan_match] later taking them one at a time. *)
Definition collect (nonce : Z) (hash_words : list Z) (found : list match_t) : list match_t :=
  found ++ [(nonce, hash_words)].

Lemma report_collect hash ns :
  report hash (Some collect) ns [] = (fun nonce => (nonce, hash nonce)) <$> ns.
Proof.
  unfold report, collect. enough (H : forall acc, foldl (fun found nonce => found ++ [(nonce, hash nonce)]) acc ns =
    acc ++ ((fun nonce => (nonce, hash nonce)) <$> ns)) by apply (H []).
  induction ns as [|x ns IH]; intros acc; cbn [foldl].
  - by rewrite app_nil_r.
  - by rewrite IH, <- app_assoc.
Qed.

(** * The miners the hosts create *)

Definition cuda_created (m : cuda_miner) : Prop :=
  exists lib r g config g' tr,
    config_fits (match config with Some c => c | None => miner_cuda_config_defaults end) /\
    cuda_miner_create lib r g config = (g', inr m, tr).
Definition opencl_created (m : opencl_miner) : Prop :=
  exists lib rt r g config g' tr, opencl_config_fits config /\
    opencl_miner_create lib rt r g config = (g', inr m, tr).

Lemma cuda_created_ok m : cuda_created m -> cuda_miner_ok m.
Proof. intros (lib & r & g & config & g' & tr & Hf & Hc). by destruct (create_ok lib r g config m g' tr). Qed.
Lemma opencl_created_ok m : opencl_created m -> opencl_miner_ok m.
Proof. intros (lib & rt & r & g & config & g' & tr & Hf & Hc). by eapply opencl_create_ok. Qed.

(** * What they report *)

Section devices.
Context `{O : OpenSSL} `{P : PTX}.
Implicit Types j : active_job_t O.

(** A scan of a batch that returned 0, for some order of the threads, some replies and
    some old contents of the device's buffer. *)
Definition cuda_reports (m : cuda_miner) j (start n : Z) (rest : list match_t) : Prop :=
  0 <= n <= cm_batch_size m /\
  exists (G : Gpu) k r buf, GpuLaws G /\
    module_function cuda_module (cuda_miner_kernel_function_name (cm_kernel_variant m)) = Some k /\
    length buf = Z.to_nat (9 * cm_max_results m) /\
    cuda_miner_scan m k r buf (aj_midstate j) (aj_tail_words j) (aj_target_words j) start n [] (Some collect)
    = (0, rest).
Definition opencl_reports (m : opencl_miner) j (start n : Z) (rest : list match_t) : Prop :=
  0 <= n <= om_batch_size m /\
  exists (G : Gpu) k r buf, GpuLaws G /\ miner_kernel m = Some k /\
    length buf = Z.to_nat (9 * om_max_results m) /\
    opencl_miner_scan m k r buf (aj_midstate j) (aj_tail_words j) (aj_target_words j) start n [] (Some collect)
    = (0, rest).

Context (cudas : list cuda_miner) (opencls : list opencl_miner).
Definition gpu_reports j (start n : Z) (rest : list match_t) : Prop :=
  (exists m, m ∈ cudas /\ cuda_reports m j start n rest) \/
  (exists m, m ∈ opencls /\ opencl_reports m j start n rest).
End devices.

Section honest.
Context `{O : OpenSSL} `{!OpenSSLLaws O} `{P : PTX} `{!PTXLaws P}.
Implicit Types j : active_job_t O.

(** Matches of a range, in any order and cut off anywhere, are good matches. *)
Lemma ordered_good j start n max order :
  prepared j -> order ≡ₚ matches (job_hash j) (aj_target_words j) start n ->
  Forall (fun '(nonce, hw) => good_match (public_job j) nonce (sha256d_words_to_hash hw))
    ((fun nonce => (nonce, job_hash j nonce)) <$> take max order).
Proof.
  intros Hp Ho. apply list.Forall_forall. intros [nonce hw] (x & [= -> ->] & Hx)%list_elem_of_fmap.
  apply meets_good; [done|].
  assert (Hin : x ∈ order) by (rewrite <- (take_drop max order); apply elem_of_app; by left).
  rewrite Ho in Hin. by apply elem_of_matches in Hin as [Hm _].
Qed.

Lemma batch_fits m n : cuda_miner_ok m -> 0 <= n <= cm_batch_size m ->
  n + cm_threads_per_block m * cm_nonces_per_thread m <= 2 ^ 32.
Proof. intros Hm Hn. destruct (mk_batch m Hm). lia. Qed.
Lemma opencl_batch_fits m n : opencl_miner_ok m -> 0 <= n <= om_batch_size m ->
  n + Z.max 1 (om_local_work_size m) * om_nonces_per_work_item m <= 2 ^ 32.
Proof. intros Hm Hn. destruct (oo_batch m Hm). lia. Qed.

(** A report lists matches of the range, in some order, up to the buffer's capacity. *)
Lemma cuda_reports_order m j start n rest :
  cuda_miner_ok m -> prepared j -> cuda_reports m j start n rest ->
  exists order, order ≡ₚ matches (job_hash j) (aj_target_words j) start (Z.to_nat n) /\
    rest = (fun nonce => (nonce, job_hash j nonce)) <$> take (Z.to_nat (cm_max_results m)) order.
Proof.
  intros Hm Hp [Hn (G & k & r & buf & HG & Hk & Hbuf & Hs)].
  destruct (cuda_scan_cases m k r buf _ (aj_midstate j) (aj_tail_words j) (aj_target_words j) start n [] collect
    Hm Hk (pr_midstate j Hp)) as (order & Ho & [He|[_ He]]); [lia|by apply batch_fits|done| |by rewrite Hs in He].
  rewrite Hs, report_collect, <- (mo_fast _ _ (pr_midstate j Hp)) in He.
  rewrite <- (mo_fast _ _ (pr_midstate j Hp)) in Ho. apply (f_equal snd) in He. by exists order.
Qed.

Lemma cuda_reports_good m j start n rest :
  cuda_miner_ok m -> prepared j -> cuda_reports m j start n rest ->
  Forall (fun '(nonce, hw) => good_match (public_job j) nonce (sha256d_words_to_hash hw)) rest.
Proof. intros Hm Hp Hr. destruct (cuda_reports_order m j start n rest Hm Hp Hr) as (order & Ho & ->). by eapply ordered_good. Qed.

Lemma opencl_reports_good m j start n rest :
  opencl_miner_ok m -> prepared j -> opencl_reports m j start n rest ->
  Forall (fun '(nonce, hw) => good_match (public_job j) nonce (sha256d_words_to_hash hw)) rest.
Proof.
  intros Hm Hp [Hn (G & k & r & buf & HG & Hk & Hbuf & Hs)].
  destruct (opencl_scan_cases m k r buf _ (aj_midstate j) (aj_tail_words j) (aj_target_words j) start n [] collect
    Hm Hk (pr_midstate j Hp)) as (order & Ho & [He|[_ He]]); [lia|by apply opencl_batch_fits|done| |by rewrite Hs in He].
  rewrite Hs, report_collect, <- (mo_fast _ _ (pr_midstate j Hp)) in He.
  rewrite <- (mo_fast _ _ (pr_midstate j Hp)) in Ho. apply (f_equal snd) in He. cbn [snd] in He. subst rest.
  by eapply ordered_good.
Qed.

Lemma gpu_reports_honest cudas opencls :
  Forall cuda_created cudas -> Forall opencl_created opencls -> devices_honest (gpu_reports cudas opencls).
Proof.
  intros Hc Ho j start n rest Hp [(m & Hm & Hr)|(m & Hm & Hr)].
  - eapply cuda_reports_good; [|done|exact Hr]. apply cuda_created_ok. by eapply list.Forall_forall in Hc.
  - eapply opencl_reports_good; [|done|exact Hr]. apply opencl_created_ok. by eapply list.Forall_forall in Ho.
Qed.

#[local] Opaque matches.

(** A device never blocks a worker: a batch of a job has an outcome. *)
Lemma cuda_reports_exist m j start n :
  cuda_miner_ok m -> prepared j -> 0 <= n <= cm_batch_size m -> exists rest, cuda_reports m j start n rest.
Proof.
  intros Hm Hp Hn. pose proof (batch_fits m n Hm Hn) as Hfit.
  pose proof (mk_npt m Hm) as Hnpt. pose proof (mk_threads m Hm) as Hthreads.
  destruct (CudaMiner.miner_kernel m (ScanArgs (ms_fast_state (aj_midstate j)) [] [] 0 0 (cm_nonces_per_thread m) 0))
    as (k & Hk & _); [done|done| | |cbn; lia|cbn; nia|].
  { cbn. rewrite (mo_fast _ _ (pr_midstate j Hp)). exact (mo_length _ _ (pr_midstate j Hp)). }
  { cbn. rewrite (mo_fast _ _ (pr_midstate j Hp)). exact (mo_words _ _ (pr_midstate j Hp)). }
  set (buf := replicate (Z.to_nat (9 * cm_max_results m)) 0).
  assert (Hbuf : length buf = Z.to_nat (9 * cm_max_results m)) by apply length_replicate.
  destruct (cuda_scan_cases (G := seq_gpu) (GpuLaws0 := seq_gpu_laws) m k (ScanReplies 0 0 0 0 0 0) buf _
    (aj_midstate j) (aj_tail_words j) (aj_target_words j) start n [] collect Hm Hk (pr_midstate j Hp))
    as (order & _ & [He|[Hbad _]]); [lia|exact Hfit|exact Hbuf| |by destruct Hbad].
  eexists. split; [exact Hn|]. exists seq_gpu, k, (ScanReplies 0 0 0 0 0 0), buf.
  split; [exact seq_gpu_laws|]. split; [exact Hk|]. split; [exact Hbuf|exact He].
Qed.

Lemma opencl_reports_exist m j start n :
  opencl_miner_ok m -> prepared j -> 0 <= n <= om_batch_size m -> exists rest, opencl_reports m j start n rest.
Proof.
  intros Hm Hp Hn. pose proof (opencl_batch_fits m n Hm Hn) as Hfit. pose proof (oo_npi m Hm) as Hnpi.
  destruct (miner_kernel_correct m (ScanArgs (ms_fast_state (aj_midstate j)) [] [] 0 0 (om_nonces_per_work_item m) 0))
    as (_ & k & Hk & _); [done|done| | |cbn; lia|cbn; nia|].
  { cbn. rewrite (mo_fast _ _ (pr_midstate j Hp)). exact (mo_length _ _ (pr_midstate j Hp)). }
  { cbn. rewrite (mo_fast _ _ (pr_midstate j Hp)). exact (mo_words _ _ (pr_midstate j Hp)). }
  set (buf := replicate (Z.to_nat (9 * om_max_results m)) 0).
  assert (Hbuf : length buf = Z.to_nat (9 * om_max_results m)) by apply length_replicate.
  destruct (opencl_scan_cases (G := seq_gpu) (GpuLaws0 := seq_gpu_laws) m k (OpenclScanReplies 0 [] 0 0 0) buf _
    (aj_midstate j) (aj_tail_words j) (aj_target_words j) start n [] collect Hm Hk (pr_midstate j Hp))
    as (order & _ & [He|[Hbad _]]); [lia|exact Hfit|exact Hbuf| |].
  2:{ destruct Hbad. unfold scan_success. cbn. by split_and!. }
  eexists. split; [exact Hn|]. exists seq_gpu, k, (OpenclScanReplies 0 [] 0 0 0), buf.
  split; [exact seq_gpu_laws|]. split; [exact Hk|]. split; [exact Hbuf|exact He].
Qed.

(** A batch of one nonce that meets the target is reported. *)
Lemma cuda_reports_match m j start :
  cuda_miner_ok m -> prepared j -> 1 <= cm_batch_size m ->
  matches (job_hash j) (aj_target_words j) start 1 = [start] ->
  cuda_reports m j start 1 [(start, job_hash j start)].
Proof.
  intros Hm Hp Hb Hmatch. destruct (cuda_reports_exist m j start 1 Hm Hp ltac:(lia)) as (rest & Hr).
  destruct (cuda_reports_order m j start 1 rest Hm Hp Hr) as (order & Ho & ->).
  change (Z.to_nat 1) with 1%nat in Ho. rewrite Hmatch in Ho. apply Permutation_singleton_r in Ho as ->.
  rewrite take_ge in Hr by (pose proof (mk_max m Hm); cbn; lia). exact Hr.
Qed.

(** C8.  The GPUs are the devices the miner assumes: whatever miners the two hosts
    create from configurations whose sizes fit, every report of a scan, in any order
    of the device's threads, is of a nonce whose double SHA-256 meets the job's
    target; and a scan of a batch always has an outcome. *)
Theorem gpu_devices_honest cudas opencls :
  Forall cuda_created cudas -> Forall opencl_created opencls ->
  devices_honest (gpu_reports cudas opencls) /\
  (forall m j start n, m ∈ cudas -> prepared j -> 0 <= n <= cm_batch_size m ->
     exists rest, gpu_reports cudas opencls j start n rest) /\
  (forall m j start n, m ∈ opencls -> prepared j -> 0 <= n <= om_batch_size m ->
     exists rest, gpu_reports cudas opencls j start n rest).
Proof.
  intros Hc Ho. split; [by apply gpu_reports_honest|]. split; intros m j start n Hm Hp Hn.
  - destruct (cuda_reports_exist m j start n) as [rest Hr]; [|done|done|exists rest; left; by exists m].
    apply cuda_created_ok. by eapply list.Forall_forall in Hc.
  - destruct (opencl_reports_exist m j start n) as [rest Hr]; [|done|done|exists rest; right; by exists m].
    apply opencl_created_ok. by eapply list.Forall_forall in Ho.
Qed.
End honest.

(** * The client with its GPUs *)

Section client.
Context `{J : Jansson} `{O : OpenSSL} `{!OpenSSLLaws O} `{X : X86} `{!X86Laws X} `{A : ARM} `{!ARMLaws A}.
Context `{P : PTX} `{!PTXLaws P} {D : Type}.
Context (backend : sha256d_backend_t) (cudas : list cuda_miner) (opencls : list opencl_miner).
Context (write_result : nat -> option nat) (BTCRIG_USER_AGENT : string) (cf : client_config).

(** C6.  The client end to end: CPU workers on any backend and workers for any GPUs the
    hosts created, a pool that sends anything, every interleaving.  Each share that is
    submitted answers the pool: its hash is the double SHA-256 of the header that the
    template of the last mining.notify, the extranonce1 the pool last gave, an
    extranonce2 of the size it last gave and the share's nonce determine, and it meets
    the target of the last difficulty, "last" being as of the lines the session had
    handled by some point of the run.  The shares are exactly the submit requests among
    the bytes sent. *)
Theorem client_submissions_valid url host port now (m : miner O D) workers lines w :
  Forall cuda_created cudas -> Forall opencl_created opencls -> initial (Sys m workers []) ->
  world_run (J := J) backend (gpu_reports cudas opencls) write_result cf
    (world_start (J := J) write_result BTCRIG_USER_AGENT cf url host port now m workers) lines w ->
  Forall (fun '(_, share, _) => exists before t extranonce1 extranonce2 d, before `prefix_of` lines /\
    pool_work before t extranonce1 extranonce2 d /\ answers t extranonce1 extranonce2 d share)
    (submitted (w_client w)) /\
  exists cmds part, session_log BTCRIG_USER_AGENT cf (w_client w) cmds part /\
    omap submission cmds = fst <$> submitted (w_client w).
Proof. intros Hc Ho. by apply submissions_answer, gpu_reports_honest. Qed.
End client.

(** * Evaluations *)

#[local] Existing Instances ref_openssl ref_openssl_laws ref_x86 ref_x86_laws ref_arm ref_arm_laws
  ref_jansson ref_ptx ref_ptx_laws.

Definition wcuda : cuda_miner := CudaMiner 4194304 96 4 256 8 true true true true true.
Lemma wcuda_created : cuda_created wcuda.
Proof.
  exists (CudaLibrary true (fun _ => true) 0), (CreateReplies (0, 2) true 0 0 0 0 0 0 true),
    (CudaDriver false false), (Some (CudaConfig true 1 4194304 65 3 256 8)), (CudaDriver true true),
    (Acquire <$> all_resources).
  split; [unfold config_fits, is_u32; cbn; lia|vm_compute; reflexivity].
Qed.
Lemma wopencl_created : opencl_created wclminer.
Proof.
  exists wlibrary, wruntime, wreplies, wloader, (Some wconfig), (OpenclLoader true true ""), wtrace.
  split; [cbn; unfold OPENCL_DEFAULT_BATCH_SIZE; lia|vm_compute; reflexivity].
Qed.

Lemma wcudas : Forall cuda_created [wcuda].
Proof. by repeat constructor; apply wcuda_created. Qed.
Lemma wopencls : Forall opencl_created [wclminer].
Proof. by repeat constructor; apply wopencl_created. Qed.

(** A batch of 4096 nonces on the OpenCL device, for the job of MinerSafety.v. *)
Lemma gpu_devices_honest_witness :
  devices_honest (gpu_reports (O := ref_openssl) (P := ref_ptx) [wcuda] [wclminer]) /\
  exists rest, gpu_reports (O := ref_openssl) (P := ref_ptx) [wcuda] [wclminer] (job wm1) 7 4096 rest.
Proof.
  destruct (gpu_devices_honest (O := ref_openssl) (P := ref_ptx) [wcuda] [wclminer] wcudas wopencls)
    as (Hhonest & _ & Hopencl).
  split; [exact Hhonest|]. apply (Hopencl wclminer).
  - by left.
  - exact (proj1 (set_job_prepared m0 wjob wjob_wf)).
  - cbn. lia.
Defined.

(** A match of the first nonce is one the CUDA device reports. *)
Lemma wcuda_match (m : miner ref_openssl unit) :
  prepared (job m) -> matches (job_hash (with_epoch m)) (aj_target_words (with_epoch m)) 0 1 = [0] ->
  gpu_reports (O := ref_openssl) (P := ref_ptx) [wcuda] [wclminer] (with_epoch m) 0 1 [(0, job_hash (with_epoch m) 0)].
Proof.
  intros Hp Hmatch. left. exists wcuda. split; [by left|]. apply cuda_reports_match.
  - apply cuda_created_ok, wcuda_created.
  - by apply (prepared_ext (job m)).
  - cbn. lia.
  - exact Hmatch.
Qed.

(** The run in which the pool's work reaches the device and its share the pool. *)
Lemma client_submissions_valid_witness :
  let w := snd (wsubmitted wcf wbegin) in
  length (submitted (w_client w)) = 1%nat /\
  Forall (fun '(_, share, _) => exists before t extranonce1 extranonce2 d, before `prefix_of` wlines /\
    pool_work before t extranonce1 extranonce2 d /\ answers t extranonce1 extranonce2 d share)
    (submitted (w_client w)).
Proof.
  pose proof (templated_run wcf (gpu_reports (O := ref_openssl) (P := ref_ptx) [wcuda] [wclminer]) wbegin) as Ht.
  pose proof (run_prepared _ _ _ _ _ _ _ _ _ _ _ _ _ _ (gpu_reports_honest _ _ wcudas wopencls) winitial Ht
    (mr_miner _ _ wbegin_ready) (mr_job _ _ wbegin_ready)) as Hp.
  pose proof (submitted_run wcf _ wbegin wbegin_ready eq_refl (wcuda_match _ Hp (mr_matches _ _ wbegin_ready))) as Hrun.
  rewrite wbegin_lines in Hrun. split; [exact wbegin_submits|].
  exact (proj1 (client_submissions_valid (J := ref_jansson) (O := ref_openssl) (X := ref_x86) (A := ref_arm)
    (P := ref_ptx) SHA256D_BACKEND_FAST_C [wcuda] [wclminer] (fun _ => None) "btcrig" wcf "pool:3333" "pool" "3333"
    (f64_of_Z 0) m0 [Worker cuda_worker 1 AtTop] _ _ wcudas wopencls winitial Hrun)).
Defined.
