(* ===== verification/SelfCheck.v ===== *)
(** The check of the hash backends at the start of the benchmark program
    (src/src/main.c, [sha256d_self_check]): each available backend is run on a few
    nonces against the direct double hash, one by one and through its scan. *)
From stdpp Require Import base tactics list numbers strings.
From Stdlib Require Import ZArith Lia.
From S2P Require Import Prelude Words Fips Sha256d Scan Simd X86ShaNi ArmSha2 Backends GpuScan GpuSelfTest.

#[local] Open Scope Z_scope.

Definition make_test_header : list Z :=
  let header := replicate 80 0 in
  let header := <[0%nat := 0x01]> header in
  let header := <[68%nat := 0xff]> header in
  let header := <[69%nat := 0xff]> header in
  let header := <[70%nat := 0x00]> header in
  <[71%nat := 0x1d]> header.

Record range_self_check_t := RangeCheck {
  rc_header : list Z; rc_expected_nonce : Z; rc_seen : nat; rc_failed : bool;
}.

Section check.
Context `{O : OpenSSL}.

(** The callback of the scan. *)
Definition range_self_check_match (nonce : Z) (hash_words : list Z) (ctx : range_self_check_t) : range_self_check_t :=
  let '(RangeCheck header expected seen failed) := ctx in
  if negb (nonce =? add32 expected (u32 (Z.of_nat seen))) then RangeCheck header expected seen true
  else
    let header := store_le32 header 76 nonce in
    let full := sha256d_80 header in
    let mid := sha256d_words_to_hash hash_words in
    if negb (bool_decide (full = mid)) then RangeCheck header expected seen true
    else RangeCheck header expected (S seen) failed.

Context `{X : X86} `{A : ARM} (c : cpu).

Definition range_check_count : Z := 5.
Definition check_nonces : list Z := [0; 1; 0x13579bdf; 0xffffffff].

(** The loop over the nonces: the header it leaves, [None] when a hash is wrong. *)
Fixpoint check_each (g_backend : sha256d_backend_t) (midstate : sha256_midstate_t O) (nonces header : list Z)
    : option (list Z) :=
  match nonces with
  | [] => Some header
  | nonce :: nonces =>
      let header := store_le32 header 76 nonce in
      let full := sha256d_80 header in
      let mid := sha256d_80_midstate_hash g_backend midstate (drop 64 header) in
      if negb (bool_decide (full = mid)) then None else check_each g_backend midstate nonces header
  end.

(** The return value, and the selected backend. *)
Definition sha256d_self_check_backend (g_backend backend : sha256d_backend_t) : Z * sha256d_backend_t :=
  let '(rc, g_backend) := sha256d_set_backend c g_backend backend in
  if negb (rc =? 0) then (-1, g_backend)
  else
    let header := make_test_header in
    let midstate := sha256d_80_midstate_prepare (take 64 header) in
    match check_each g_backend midstate check_nonces header with
    | None => (-1, g_backend)
    | Some header =>
        let tail_words := for_range 0 4 (fun i t => <[i := load_be32 header (64 + i * 4)]> t) (replicate 4 0) in
        let target_words := for_range 0 8 (fun i t => <[i := 0xffffffff]> t) (replicate 8 0) in
        let range_check :=
          sha256d_nonce_range_func g_backend midstate tail_words target_words 0 range_check_count
            (Some range_self_check_match) (RangeCheck header 0 0 false) in
        if rc_failed range_check || negb (Z.of_nat (rc_seen range_check) =? range_check_count)
        then (-1, g_backend) else (0, g_backend)
    end.

(** The backends one after the other; those the processor lacks are passed over. *)
Fixpoint check_backends (backends : list (bool * sha256d_backend_t)) (g_backend : sha256d_backend_t)
    : Z * sha256d_backend_t :=
  match backends with
  | [] => (0, g_backend)
  | (wanted, backend) :: backends =>
      if negb wanted then check_backends backends g_backend
      else
        let '(rc, g_backend) := sha256d_self_check_backend g_backend backend in
        if negb (rc =? 0) then (-1, g_backend) else check_backends backends g_backend
  end.
Definition sha256d_self_check (g_backend : sha256d_backend_t) : Z * sha256d_backend_t :=
  check_backends
    [(true, SHA256D_BACKEND_OPENSSL); (true, SHA256D_BACKEND_FAST_C);
     (sha256d_backend_available c SHA256D_BACKEND_ARM_SHA2, SHA256D_BACKEND_ARM_SHA2);
     (sha256d_backend_available c SHA256D_BACKEND_X86_SHA_NI, SHA256D_BACKEND_X86_SHA_NI)] g_backend.
End check.

(** * What the callback checks *)

(** The hash of a header with a nonce, as the direct function gives it. *)
Definition hash_with `{O : OpenSSL} (header : list Z) (nonce : Z) : list Z := sha256d_80 (take 76 header ++ le 4 nonce).

Section callback.
Context `{O : OpenSSL} (header : list Z) (expected : Z) (Hheader : length header = 80%nat).

(** The reports of a scan, taken from a start. *)
Definition run_check (l : list match_t) (ctx : range_self_check_t) : range_self_check_t :=
  foldl (fun ctx '(nonce, h) => range_self_check_match nonce h ctx) ctx l.
Definition check_start : range_self_check_t := RangeCheck header expected 0 false.

(** The i-th report is of the i-th nonce, with its hash. *)
Definition report_exact (i : nat) (m : match_t) : Prop :=
  fst m = u32 (expected + Z.of_nat i) /\ sha256d_words_to_hash (snd m) = hash_with header (fst m).

Record check_inv (l : list match_t) (ctx : range_self_check_t) : Prop := {
  ci_header : length (rc_header ctx) = 80%nat /\ take 76 (rc_header ctx) = take 76 header;
  ci_expected : rc_expected_nonce ctx = expected;
  ci_failed : rc_failed ctx = false <-> (forall i m, l !! i = Some m -> report_exact i m);
  ci_seen : rc_failed ctx = false -> rc_seen ctx = length l;
}.

Lemma store_header h nonce : length h = 80%nat -> take 76 h = take 76 header ->
  length (store_le32 h 76 nonce) = 80%nat /\ take 76 (store_le32 h 76 nonce) = take 76 header /\
  sha256d_80 (store_le32 h 76 nonce) = hash_with header nonce.
Proof.
  intros Hl Ht. rewrite store_nonce by done. split_and!.
  - rewrite length_app, length_take, length_le. lia.
  - rewrite take_app_le by (rewrite length_take; lia). by rewrite take_take.
  - by rewrite Ht.
Qed.

Lemma exact_snoc l m :
  (forall i x, (l ++ [m]) !! i = Some x -> report_exact i x) <->
  (forall i x, l !! i = Some x -> report_exact i x) /\ report_exact (length l) m.
Proof.
  split.
  - intros H. split; [intros i x Hx|]; apply H; [|by rewrite list_lookup_middle].
    rewrite lookup_app_l; [done|by eapply lookup_lt_Some].
  - intros [H1 H2] i x. rewrite lookup_snoc_Some. intros [[_ ?]|[-> <-]]; auto.
Qed.

Lemma match_check l m ctx : check_inv l ctx -> check_inv (l ++ [m]) (range_self_check_match (fst m) (snd m) ctx).
Proof.
  destruct m as [nonce h], ctx as [hd ex seen failed]. intros [[Hl Ht] He Hf Hs]. cbn in He, Hl, Ht, Hs, Hf. subst ex.
  destruct (store_header hd nonce Hl Ht) as (Hl' & Ht' & Hh). cbn [fst snd range_self_check_match].
  assert (Hadd : add32 expected (u32 (Z.of_nat seen)) = u32 (expected + Z.of_nat seen))
    by (unfold add32, u32; by rewrite Z.add_mod_idemp_r).
  rewrite Hadd, Hh.
  destruct (Z.eqb_spec nonce (u32 (expected + Z.of_nat seen))) as [Hn|Hn]; cbn [negb];
    [destruct (bool_decide_reflect (hash_with header nonce = sha256d_words_to_hash h)) as [Hw|Hw]; cbn [negb]|];
    (split; [done|done| |]); cbn [rc_failed rc_seen]; rewrite ?exact_snoc, ?length_app; try unfold report_exact at 2; cbn [fst snd length].
  - rewrite Hf. split; [|by intros []]. intros Hall. rewrite <- (Hs (proj2 Hf Hall)). by split_and!.
  - intros Hfail. rewrite Hs by done. lia.
  - split; [done|]. intros (Hall & _ & Hx). by destruct Hw.
  - done.
  - split; [done|]. intros (Hall & Hx & _). destruct Hn. by rewrite (Hs (proj2 Hf Hall)).
  - done.
Qed.

Lemma run_check_inv l : check_inv l (run_check l check_start).
Proof.
  unfold run_check. induction l as [|[nonce h] l IH] using rev_ind; [by split|].
  rewrite foldl_app. by apply (match_check l (nonce, h)) in IH.
Qed.

(** Nothing failed and [n] hashes were counted exactly when [n] reports came, in order,
    each with its hash. *)
Lemma run_check_exact l n :
  let ctx := run_check l check_start in
  rc_failed ctx = false /\ rc_seen ctx = n <->
  length l = n /\ forall i m, l !! i = Some m -> report_exact i m.
Proof.
  destruct (run_check_inv l) as [_ _ Hf Hs]. cbv zeta. rewrite Hf. split.
  - intros [H <-]. split; [|done]. symmetry. by apply Hs, Hf.
  - intros [<- H]. split; [done|]. by apply Hs, Hf.
Qed.
End callback.

(** * Working backends pass *)

Section pass.
Context `{O : OpenSSL} `{!OpenSSLLaws O} `{X : X86} `{!X86Laws X} `{A : ARM} `{!ARMLaws A} (c : cpu).

Lemma check_header : make_test_header = make_self_test_header.
Proof. reflexivity. Qed.

(** The header the loop leaves. *)
Definition store_all (nonces header : list Z) : list Z := foldl (fun h nonce => store_le32 h 76 nonce) header nonces.

Lemma check_each_passes b nonces header :
  length header = 80%nat -> take 76 header = take 76 make_test_header ->
  check_each b (sha256d_80_midstate_prepare (take 64 make_test_header)) nonces header = Some (store_all nonces header).
Proof.
  revert header. induction nonces as [|nonce nonces IH]; intros header Hl Ht; [done|].
  cbn [check_each]. destruct (store_header make_test_header eq_refl header nonce Hl Ht) as (Hl' & Ht' & _).
  set (h := store_le32 header 76 nonce) in *.
  assert (H64 : take 64 make_test_header = take 64 h).
  { transitivity (take 64 (take 76 make_test_header)); [reflexivity|]. by rewrite <- Ht', take_take. }
  destruct (midstate_hash_80 b h Hl') as [Hm _].
  { unfold h. rewrite store_nonce, Ht by done. apply Forall_app_2; [|apply le_bytes].
    apply Forall_take, header_bytes. }
  rewrite H64, Hm, bool_decide_true by done. cbn [negb]. rewrite <- H64. by apply IH.
Qed.

Definition checked_header : list Z := store_all check_nonces make_test_header.
Lemma checked_header_start : length checked_header = 80%nat /\ take 76 checked_header = take 76 make_test_header.
Proof. by vm_compute. Qed.

(** The words after the midstate; what a scan uses of them is that of the self-test. *)
Definition checked_tail : list Z :=
  for_range 0 4 (fun i t => <[i := load_be32 checked_header (64 + i * 4)]> t) (replicate 4 0).
Lemma checked_tail_words : length checked_tail = 4%nat /\ is_words checked_tail.
Proof. split; [reflexivity|]. apply (bool_decide_unpack (Forall is_u32 _)). vm_compute. exact I. Qed.
Lemma checked_tail_hash : nonce_hash test_chain checked_tail = nonce_hash test_chain self_test_tail.
Proof.
  unfold nonce_hash. assert (H : take 3 checked_tail = take 3 self_test_tail) by by vm_compute.
  change (checked_tail !!! 0%nat) with (take 3 checked_tail !!! 0%nat).
  change (checked_tail !!! 1%nat) with (take 3 checked_tail !!! 1%nat).
  change (checked_tail !!! 2%nat) with (take 3 checked_tail !!! 2%nat). by rewrite H.
Qed.

Lemma check_target : for_range 0 8 (fun i t => <[i := 0xffffffff]> t) (replicate 8 0) = self_test_target.
Proof. reflexivity. Qed.

(** The scan of five nonces from zero, reported as the callback expects them. *)
Lemma range_reports header :
  length header = 80%nat -> take 76 header = take 76 make_test_header ->
  let ctx := report (nonce_hash test_chain self_test_tail) (Some range_self_check_match) (nonces 0 0 5)
               (RangeCheck header 0 0 false) in
  rc_failed ctx = false /\ rc_seen ctx = 5%nat.
Proof.
  intros Hl Ht. set (l := (fun nonce => (nonce, nonce_hash test_chain self_test_tail nonce)) <$> nonces 0 0 5).
  change (let ctx := run_check l (check_start header 0) in rc_failed ctx = false /\ rc_seen ctx = 5%nat).
  apply (run_check_exact header 0 Hl). split; [done|]. intros i m Hm.
  apply list_lookup_fmap_Some in Hm as (nonce & -> & Hn). unfold report_exact, hash_with. cbn [fst snd]. rewrite Ht. split.
  - assert (Hi : (i < 5)%nat) by (by apply lookup_lt_Some in Hn).
    do 5 (destruct i as [|i]; [by injection Hn as <-|]). lia.
  - rewrite check_header. rewrite sha256d_80_spec.
    + apply (test_hash_right nonce).
    + by rewrite length_app, length_le.
    + apply Forall_app_2; [|apply le_bytes]. apply Forall_take, header_bytes.
Qed.

Lemma backend_passes b g :
  sha256d_self_check_backend c g b = if sha256d_backend_available c b then (0, b) else (-1, g).
Proof.
  unfold sha256d_self_check_backend, sha256d_set_backend. destruct (sha256d_backend_available c b); [|done]. cbn [negb fst snd].
  change (negb (0 =? 0)) with false. cbv iota.
  rewrite check_each_passes by done. fold checked_header. fold checked_tail. rewrite check_target.
  destruct checked_tail_words as [HTl HTw]. destruct checked_header_start as [Hl Ht].
  rewrite (nonce_range_scan b _ test_chain) by (done || exact test_midstate). unfold scan.
  rewrite checked_tail_hash, test_all_match. change (Z.to_nat range_check_count) with 5%nat.
  destruct (range_reports checked_header Hl Ht) as [-> ->]. done.
Qed.

Lemma backends_pass l g :
  Forall (fun '(wanted, b) => wanted = true -> sha256d_backend_available c b = true) l ->
  fst (check_backends c l g) = 0.
Proof.
  intros H. revert g. induction H as [|[wanted b] l Hb Hl IH]; intros g; [done|]. cbn [check_backends].
  destruct wanted; [|apply IH]. rewrite backend_passes, Hb by done. apply IH.
Qed.
End pass.

(** * Properties *)

(** C3.  The check tells working backends from others: on every processor it passes,
    and a single backend passes exactly when the processor has it; and in general the
    callback of the scan is satisfied exactly by the right reports, each nonce of the
    range once, in order, with its double SHA-256. *)
Theorem self_check_decides `{O : OpenSSL} `{!OpenSSLLaws O} `{X : X86} `{!X86Laws X} `{A : ARM} `{!ARMLaws A}
    (c : cpu) (g : sha256d_backend_t) :
  fst (sha256d_self_check c g) = 0 /\
  (forall b, fst (sha256d_self_check_backend c g b) = 0 <-> sha256d_backend_available c b = true) /\
  (forall header expected (reports : list match_t) n, length header = 80%nat ->
     let ctx := run_check reports (check_start header expected) in
     rc_failed ctx = false /\ rc_seen ctx = n <->
     length reports = n /\ forall i m, reports !! i = Some m -> report_exact header expected i m).
Proof.
  split_and!.
  - apply backends_pass. by repeat constructor.
  - intros b. rewrite backend_passes. by destruct (sha256d_backend_available c b).
  - intros header expected reports n Hl. by apply run_check_exact.
Qed.

(** A scan that skips a nonce does not satisfy the callback. *)
Lemma self_check_decides_witness :
  let h nonce := nonce_hash test_chain self_test_tail nonce in
  let ctx := run_check (O := ref_openssl) [(0, h 0); (2, h 2)] (check_start make_test_header 0) in
  ~ (rc_failed ctx = false /\ rc_seen ctx = 2%nat).
Proof.
  intros h ctx [Hf Hs].
  destruct (@self_check_decides ref_openssl ref_openssl_laws ref_x86 ref_x86_laws ref_arm ref_arm_laws
    (Cpu true true true 0 1) SHA256D_BACKEND_OPENSSL) as (_ & _ & H).
  destruct (proj1 (H make_test_header 0 [(0, h 0); (2, h 2)] 2%nat eq_refl) (conj Hf Hs)) as [_ He].
  destruct (He 1%nat (2, h 2) eq_refl) as [Hn _]. discriminate Hn.
Defined.
