(* ===== verification/AutotuneSave.v ===== *)
(** What autotuning writes: src/src/stratum_main.c's [save_autotune_config], which
    puts the selected settings into the configuration file, and that
    [load_config_file] reads them back.

    A JSON value that C changes through a pointer into its parent is changed here and
    put back under its key: the objects of a parsed file are not shared. *)
From stdpp Require Import base tactics list option strings.
From Stdlib Require Import ZArith Lia Ascii SpecFloat.
From S2P Require Import Prelude Words Fips Sha256d Float64 Hex Target Job Miner Json Stratum FrontEnd AppConfig.

#[local] Open Scope Z_scope.

(** * Results *)

Record autotune_result_t := AutotuneResult {
  ar_name : string; ar_cpu_threads : Z; ar_cpu_affinity : bool; ar_opencl : miner_opencl_config_t;
  ar_cuda : miner_cuda_config_t; ar_hashrate : double; ar_ok : bool;
}.

Definition autotune_opencl_mode_name (opencl : option miner_opencl_config_t) : string :=
  match opencl with
  | None => "off"
  | Some opencl =>
      if negb (oc_enabled opencl) then "off"
      else if 0 <? oc_device_count opencl then "devices"
      else if oc_all_devices opencl then "all-gpu" else "single"
  end.
Definition autotune_cuda_mode_name (cuda : option miner_cuda_config_t) : string :=
  match cuda with Some cuda => if cc_enabled cuda then "single" else "off" | None => "off" end.

(** * The file *)

Section json.
Context `{J : Jansson}.

Definition utf8_bom : list Z := [0xef; 0xbb; 0xbf].
(** [content] is what the file holds; [None] when it cannot be read.  A text that does
    not parse is tried again without its byte order mark. *)
Definition json_load_file_allow_bom (content : option string) : option (json_t J) :=
  text ← content;
  match json_loads text with
  | Some root => Some root
  | None =>
      if bool_decide (take 3 (code <$> chars text) = utf8_bom) then json_loads (of_chars (drop 3 (chars text)))
      else None
  end.

Definition json_bool (b : bool) : option (json_t J) := Some (if b then json_true else json_false).
Definition json_int (z : Z) : option (json_t J) := Some (json_integer z).

Definition json_object_get_or_create (parent : json_t J) (key : string) : json_t J :=
  match json_object_get (Some parent) key with
  | Some value => if json_is_object' value then value else json_object
  | None => json_object
  end.

(** [json_object_set_new(o, key, value)] for each key in order. *)
Definition set_fields (fields : list (string * option (json_t J))) (o : json_t J) : json_t J :=
  foldl (fun o '(key, value) => json_object_set_new o key value) o fields.

Definition save_cpu (c : app_config_t) : json_t J -> json_t J :=
  set_fields
    [("enabled", json_bool (ac_cpu_enabled c));
     ("threads", json_int (ac_thread_count c));
     ("affinity", json_bool (ac_cpu_affinity c))]%string.

(** The settings of one device; [max_results] where the sources save it too. *)
Definition device_fields (device : miner_opencl_device_config_t) (max_results : list (string * option (json_t J)))
  : list (string * option (json_t J)) :=
  [("platform", json_int (od_platform device));
   ("device", json_int (od_device device));
   ("batch-size", json_int (od_batch_size device));
   ("local-work-size", json_int (od_local_work_size device));
   ("nonces-per-work-item", json_int (od_nonces_per_work_item device))]%string
  ++ max_results ++
  [("backend", json_string (opencl_backend_variant_name (od_backend_variant device)));
   ("kernel", json_string (opencl_kernel_variant_name (od_kernel_variant device)))]%string.
Definition save_device (device : miner_opencl_device_config_t) : json_t J :=
  set_fields (device_fields device [("max-results", json_int (od_max_results device))]%string) json_object.

Definition opencl_fields (oc : miner_opencl_config_t) : list (string * option (json_t J)) :=
  [("enabled", json_bool (oc_enabled oc));
   ("all-devices", json_bool (oc_all_devices oc));
   ("platform", json_int (oc_platform oc));
   ("device", json_int (oc_device oc));
   ("batch-size", json_int (oc_batch_size oc));
   ("local-work-size", json_int (oc_local_work_size oc));
   ("nonces-per-work-item", json_int (oc_nonces_per_work_item oc));
   ("max-results", json_int (oc_max_results oc));
   ("backend", json_string (opencl_backend_variant_name (oc_backend_variant oc)));
   ("kernel", json_string (opencl_kernel_variant_name (oc_kernel_variant oc)))]%string.
(** The devices in use. *)
Definition used_devices (oc : miner_opencl_config_t) : list miner_opencl_device_config_t :=
  take (Z.to_nat (oc_device_count oc)) (oc_devices oc).
Definition save_opencl (oc : miner_opencl_config_t) (o : json_t J) : json_t J :=
  let o := set_fields (opencl_fields oc) o in
  if oc_enabled oc && (0 <? oc_device_count oc)
  then json_object_set_new o "devices" (Some (json_array_of (Some ∘ save_device <$> used_devices oc)))
  else json_object_del' o "devices".

Definition cuda_fields (cc : miner_cuda_config_t) : list (string * option (json_t J)) :=
  [("enabled", json_bool (cc_enabled cc));
   ("device", json_int (cc_device cc));
   ("batch-size", json_int (cc_batch_size cc));
   ("threads-per-block", json_int (cc_threads_per_block cc));
   ("nonces-per-thread", json_int (cc_nonces_per_thread cc));
   ("kernel", json_string (cuda_kernel_variant_name (cc_kernel_variant cc)));
   ("max-results", json_int (cc_max_results cc))]%string.

(** One entry of [results]. *)
Definition save_result (r : autotune_result_t) : json_t J :=
  let item := set_fields
    [("mode", json_string (ar_name r));
     ("ok", json_bool (ar_ok r));
     ("hashrate", json_real (ar_hashrate r));
     ("cpu-threads", json_int (ar_cpu_threads r));
     ("cpu-affinity", json_bool (ar_cpu_affinity r));
     ("opencl", json_string (autotune_opencl_mode_name (Some (ar_opencl r))));
     ("cuda", json_string (autotune_cuda_mode_name (Some (ar_cuda r))))]%string json_object in
  let item :=
    if cc_enabled (ar_cuda r) then
      set_fields
        [("cuda-device", json_int (cc_device (ar_cuda r)));
         ("cuda-kernel", json_string (cuda_kernel_variant_name (cc_kernel_variant (ar_cuda r))));
         ("cuda-batch-size", json_int (cc_batch_size (ar_cuda r)));
         ("cuda-threads-per-block", json_int (cc_threads_per_block (ar_cuda r)));
         ("cuda-nonces-per-thread", json_int (cc_nonces_per_thread (ar_cuda r)))]%string item
    else item in
  if 0 <? oc_device_count (ar_opencl r) then
    json_object_set_new item "devices"
      (Some (json_array_of ((fun d => Some (set_fields (device_fields d []) json_object)) <$> used_devices (ar_opencl r))))
  else item.

(** The old spellings of the flags are removed. *)
Definition save_autotune (c : app_config_t) (results : list autotune_result_t) (best : option autotune_result_t)
    (o : json_t J) : json_t J :=
  let o := set_fields
    [("enabled", json_bool (ac_autotune_enabled c));
     ("cpu-self-test", json_bool (ac_cpu_autotune_done c));
     ("gpu-self-test", json_bool (ac_gpu_autotune_done c))]%string o in
  let o := foldl json_object_del' o ["self-test"; "self_test"; "done"; "completed"]%string in
  let o := set_fields [("seconds", json_real (ac_autotune_seconds c))]%string o in
  let o :=
    match best with
    | Some best => set_fields [("selected", json_string (ar_name best)); ("selected-hashrate", json_real (ar_hashrate best))]%string o
    | None => o
    end in
  json_object_set_new o "results" (Some (json_array_of (Some ∘ save_result <$> results))).

(** The object the save starts from. *)
Definition old_root (file : option (json_t J)) : json_t J :=
  match file with Some root => if json_is_object' root then root else json_object | None => json_object end.
(** A nested object fetched, or created, and changed. *)
Definition json_object_update (parent : json_t J) (key : string) (f : json_t J -> json_t J) : json_t J :=
  json_object_set_new parent key (Some (f (json_object_get_or_create parent key))).

(** The value written, from what the file held. *)
Definition saved_root (file : option (json_t J)) (c : app_config_t) (results : list autotune_result_t)
    (best : option autotune_result_t) : json_t J :=
  let root := json_object_set_new (old_root file) "autosave" (json_bool (ac_autosave c)) in
  let root := json_object_update root "cpu" (save_cpu c) in
  let root := json_object_update root "opencl" (save_opencl (ac_opencl c)) in
  let root := json_object_update root "cuda" (set_fields (cuda_fields (ac_cuda c))) in
  json_object_update root "autotune" (save_autotune c results best).

(** The new text of the file at [path]; [None] when nothing is written. *)
Definition save_autotune_config (path : option string) (content : option string) (c : app_config_t)
    (results : list autotune_result_t) (best : option autotune_result_t) : option string :=
  match path with
  | None => None
  | Some path =>
      if String.eqb path "" then None
      else json_dump_text (saved_root (json_load_file_allow_bom content) c results best)
  end.
End json.

(** * What is read back *)

(** A device as the client knows it after a restart: no kernel and no backend. *)
Definition reloaded_device (d : miner_opencl_device_config_t) : miner_opencl_device_config_t :=
  OpenclDevice (od_platform d) (od_device d) (od_batch_size d) (od_local_work_size d) (od_nonces_per_work_item d)
    (od_max_results d) MINER_OPENCL_BACKEND_AUTO MINER_OPENCL_KERNEL_AUTO.
Definition reloaded_opencl (base oc : miner_opencl_config_t) : miner_opencl_config_t :=
  let saved := oc_enabled oc && (0 <? oc_device_count oc) in
  OpenclConfig (oc_enabled oc) (if saved then false else oc_all_devices oc) (oc_platform oc) (oc_device oc)
    (oc_batch_size oc) (oc_local_work_size oc) (oc_nonces_per_work_item oc) (oc_max_results oc)
    MINER_OPENCL_BACKEND_AUTO MINER_OPENCL_KERNEL_AUTO
    (if saved then oc_device_count oc else oc_device_count base)
    (if saved then (reloaded_device <$> used_devices oc) ++ drop (Z.to_nat (oc_device_count oc)) (oc_devices base)
     else oc_devices base).
Definition reloaded_cuda (cc : miner_cuda_config_t) : miner_cuda_config_t :=
  CudaConfig (cc_enabled cc) (cc_device cc) (cc_batch_size cc) (cc_threads_per_block cc) (cc_nonces_per_thread cc)
    (cc_max_results cc) MINER_CUDA_KERNEL_STANDARD.
(** The settings autotuning selects come from [c], all others from [file]. *)
Definition reloaded (base c file : app_config_t) : app_config_t :=
  AppConfig (ac_pools file) (ac_pool_count file) (ac_retries file) (ac_reconnect_delay file) (ac_thread_count c)
    (ac_cpu_affinity c) (ac_cpu_enabled c) (ac_enable_mining file) (ac_autosave c) (ac_autotune_enabled c)
    (ac_cpu_autotune_done c) (ac_gpu_autotune_done c) (reloaded_opencl (ac_opencl base) (ac_opencl c))
    (reloaded_cuda (ac_cuda c)) (ac_runtime_seconds file) (ac_stats_interval file) (ac_autotune_seconds c)
    (ac_donate_level file).

Section reload.
Context `{J : Jansson} `{!JanssonLaws J}.

(** No key of [keys] is in the object. *)
Definition absent (o : json_t J) (keys : list string) : Prop :=
  Forall (fun k => json_object_get' o k = None) keys.

(** Other spellings of the keys that are saved; the loader reads them last. *)
Definition opencl_aliases : list string :=
  ["all_devices"; "batch_size"; "local_work_size"; "nonces_per_work_item"; "npi"; "max_results";
   "backend-variant"; "backend_variant"; "kernel-variant"; "kernel_variant"].
Definition cuda_aliases : list string :=
  ["batch_size"; "threads_per_block"; "block"; "nonces_per_thread"; "npt"; "max_results"; "kernel-variant";
   "kernel_variant"].
Definition autotune_aliases : list string :=
  ["cpu_self_test"; "gpu_self_test"; "opencl-self-test"; "opencl_self_test"].
Record no_aliases (root : json_t J) : Prop := {
  na_root : absent root ["threads"]%string;
  na_opencl : absent (json_object_get_or_create root "opencl") opencl_aliases;
  na_cuda : absent (json_object_get_or_create root "cuda") cuda_aliases;
  na_autotune : absent (json_object_get_or_create root "autotune") autotune_aliases;
}.

(** ** Objects *)

(** The value under a key after [set_fields]. *)
Fixpoint field (fields : list (string * option (json_t J))) (key : string) (old : option (json_t J))
  : option (json_t J) :=
  match fields with
  | [] => old
  | (k, v) :: fields =>
      field fields key (if String.eqb key k then match v with Some v => Some v | None => old end else old)
  end.
Definition ascii_keys (fields : list (string * option (json_t J))) : bool :=
  forallb (fun '(key, _) => ascii_key key) fields.
Lemma set_fields_spec fields o :
  json_is_object' o = true -> ascii_keys fields = true ->
  json_is_object' (set_fields fields o) = true /\
  forall key, json_object_get' (set_fields fields o) key = field fields key (json_object_get' o key).
Proof.
  revert o. induction fields as [|[k v] fields IH]; intros o Ho Hk; [done|].
  unfold ascii_keys in Hk. cbn [forallb] in Hk. apply andb_true_iff in Hk as [Hk Hks]. destruct v as [v|].
  2: { destruct (IH o Ho Hks) as [Hi Hg]. split; [exact Hi|]. intros key.
       refine (eq_trans (Hg key) _). cbn [field]. by case_match. }
  cbn [set_fields foldl field json_object_set_new from_option].
  destruct (IH (json_object_set_new' o k v)) as [Hi Hg]; [by apply object_set_is|done|].
  split; [exact Hi|]. intros key. rewrite Hg. by rewrite object_get_set.
Qed.
Lemma get_or_create_is root key : json_is_object' (json_object_get_or_create root key) = true.
Proof. unfold json_object_get_or_create. repeat case_match; try done; apply object_is. Qed.
Lemma old_root_is file : json_is_object' (old_root file) = true.
Proof. unfold old_root. repeat case_match; try done; apply object_is. Qed.

(** Reading what [set_fields] wrote. *)
Lemma json_bool_reads b fallback : json_bool_value (json_bool (J := J) b) fallback = b.
Proof.
  unfold json_bool_value, json_bool. destruct boolean_is as [H1 H2], boolean_value as [H3 H4].
  destruct b; cbn; by rewrite ?H1, ?H2, ?H3, ?H4.
Qed.
Lemma json_int_reads z fallback : is_i32 z -> json_int_value (json_int (J := J) z) fallback = z.
Proof.
  intros Hz. unfold json_int_value, json_int. cbn. rewrite integer_is, integer_value by (unfold is_i32 in Hz; lia).
  unfold i32. rewrite Z.mod_small; unfold is_i32 in Hz; lia.
Qed.
Lemma json_u32_reads z fallback : is_u32 z -> json_u32_value (json_int (J := J) z) fallback = z.
Proof.
  intros [Hl Hh]. unfold json_u32_value, json_int. cbn. rewrite integer_is, integer_value by lia. cbn [negb].
  destruct (Z.ltb_spec z 0); [lia|]. destruct (Z.ltb_spec UINT32_MAX z); [unfold UINT32_MAX in *; lia|done].
Qed.

(** The value read under keys of which only the first is present. *)
Lemma read_first {A} (value : option (json_t J) -> A -> A) o key aliases x v :
  json_object_get' o key = v -> absent o aliases -> (forall x, value None x = x) ->
  read_keys value (Some o) (key :: aliases) x = value v x.
Proof.
  intros Hv Ha Hn. unfold read_keys. cbn [fold_left]. cbn [json_object_get mbind option_bind]. rewrite Hv.
  generalize (value v x). induction Ha as [|k ks Hk _ IH]; intros y; [done|]. cbn [fold_left].
  cbn [json_object_get mbind option_bind]. rewrite Hk, Hn. apply IH.
Qed.
(** A variant's last spelling is absent, which resets it. *)
Lemma read_variant dflt table o keys last x :
  json_object_get' o last = None ->
  read_keys (fun v => parse_variant dflt table (json_string_value v)) (Some o) (keys ++ [last]) x = dflt.
Proof.
  intros Hl. unfold read_keys. rewrite fold_left_app. cbn [fold_left]. cbn [json_object_get mbind option_bind]. by rewrite Hl.
Qed.

Lemma read_bool_key o key aliases x b :
  json_object_get' o key = json_bool b -> absent o aliases ->
  read_keys json_bool_value (Some o) (key :: aliases) x = b.
Proof. intros Hg Ha. erewrite read_first by done. apply json_bool_reads. Qed.
Lemma read_int_key o key aliases x z :
  json_object_get' o key = json_int z -> absent o aliases -> is_i32 z ->
  read_keys json_int_value (Some o) (key :: aliases) x = z.
Proof. intros Hg Ha Hz. erewrite read_first by done. by apply json_int_reads. Qed.
Lemma read_u32_key o key aliases x z :
  json_object_get' o key = json_int z -> absent o aliases -> is_u32 z ->
  read_keys json_u32_value (Some o) (key :: aliases) x = z.
Proof. intros Hg Ha Hz. erewrite read_first by done. by apply json_u32_reads. Qed.
Lemma read_number_key o key aliases x v d :
  json_object_get' o key = Some v -> json_is_number' v = true -> json_number_value' v = d -> absent o aliases ->
  read_keys json_number_value_or (Some o) (key :: aliases) x = d.
Proof. intros Hg Hn Hv Ha. erewrite read_first by done. unfold json_number_value_or. cbn. by rewrite Hn. Qed.

Definition disjoint_keys (keys written : list string) : bool :=
  forallb (fun k => negb (existsb (String.eqb k) written)) keys.
Lemma field_other fields key old : existsb (String.eqb key) fields.*1 = false -> field fields key old = old.
Proof.
  revert old. induction fields as [|[k v] fields IH]; intros old; [done|]. cbn [field existsb fmap list_fmap fst].
  destruct (String.eqb key k); [done|]. apply IH.
Qed.
Lemma absent_set_fields fields o keys :
  json_is_object' o = true -> ascii_keys fields = true -> disjoint_keys keys fields.*1 = true -> absent o keys -> absent (set_fields fields o) keys.
Proof.
  intros Ho Hk Hd Ha. destruct (set_fields_spec fields o Ho Hk) as [_ Hg]. unfold absent in *.
  rewrite list.Forall_forall in *. intros k Hin. rewrite Hg, field_other; [by apply Ha|].
  unfold disjoint_keys in Hd. rewrite forallb_forall in Hd. apply negb_true_iff, Hd. by apply list_elem_of_In.
Qed.
Lemma absent_nil o : absent o [].
Proof. by apply list.Forall_nil. Qed.
Lemma absent_empty keys : absent json_object keys.
Proof. apply Forall_true. intros k. apply object_get_empty. Qed.
Lemma existsb_keys k keys : existsb (String.eqb k) keys = true <-> k ∈ keys.
Proof.
  rewrite existsb_exists. split.
  - intros (x & Hx & He). apply String.eqb_eq in He as ->. by apply list_elem_of_In.
  - intros Hk. exists k. split; [by apply list_elem_of_In|apply String.eqb_refl].
Qed.
(** Among the keys that are absent. *)
Lemma absent_among o keys keys' :
  forallb (fun k => existsb (String.eqb k) keys) keys' = true -> absent o keys -> absent o keys'.
Proof.
  unfold absent. rewrite forallb_forall, !list.Forall_forall. intros Hs Ha k Hk.
  apply Ha, existsb_keys, Hs. by apply list_elem_of_In.
Qed.

Lemma reload_device oc d : device_ok d -> load_opencl_device oc (Some (save_device d)) = reloaded_device d.
Proof.
  intros H. unfold load_opencl_device, reloaded_device.
  destruct (set_fields_spec (device_fields d [("max-results"%string, json_int (od_max_results d))]) json_object object_is eq_refl)
    as [_ Hg].
  pose proof (fun ks Hk => absent_set_fields
    (device_fields d [("max-results"%string, json_int (od_max_results d))]) json_object ks object_is eq_refl Hk (absent_empty ks)) as Ha.
  fold (save_device d) in Hg, Ha. destruct H.
  f_equal;
    try first [apply read_int_key|apply read_u32_key]; try assumption;
    try (by rewrite Hg); try (by apply Ha).
  - apply (read_variant _ _ _ ["backend"; "backend-variant"]%string).
    exact (Forall_inv (Ha ["backend_variant"%string] eq_refl)).
  - apply (read_variant _ _ _ ["kernel"; "kernel-variant"]%string).
    exact (Forall_inv (Ha ["kernel_variant"%string] eq_refl)).
Qed.

(** [devices] aside, what [save_opencl] leaves under a key. *)
Lemma save_opencl_spec oc o :
  json_is_object' o = true ->
  json_is_object' (save_opencl oc o) = true /\
  (forall key, key <> "devices"%string ->
     json_object_get' (save_opencl oc o) key = field (opencl_fields oc) key (json_object_get' o key)) /\
  json_object_get' (save_opencl oc o) "devices" =
    if oc_enabled oc && (0 <? oc_device_count oc)
    then Some (json_array_of (Some ∘ save_device <$> used_devices oc)) else None.
Proof.
  intros Ho. unfold save_opencl. cbv zeta. destruct (set_fields_spec (opencl_fields oc) o Ho eq_refl) as [Hi Hg].
  destruct (oc_enabled oc && (0 <? oc_device_count oc)).
  - cbn [json_object_set_new from_option]. split; [by apply object_set_is|]. split.
    + intros key Hk. rewrite object_get_set by done. destruct (String.eqb_spec key "devices"); [done|]. apply Hg.
    + by rewrite object_get_set.
  - split; [by apply object_del_is|]. split.
    + intros key Hk. rewrite object_get_del by done. destruct (String.eqb_spec key "devices"); [done|]. apply Hg.
    + by rewrite object_get_del.
Qed.

(** The loop over [devices] puts them in the first slots. *)
Lemma reload_devices devices oc :
  Forall device_ok devices -> (length devices <= MINER_OPENCL_MAX_DEVICES)%nat ->
  length (oc_devices oc) = MINER_OPENCL_MAX_DEVICES ->
  let a := Some (json_array_of (Some ∘ save_device <$> devices)) in
  for_range 0 (length devices) (add_opencl_device a) (set_devices 0 (oc_devices oc) oc) =
  set_devices (Z.of_nat (length devices))
    ((reloaded_device <$> devices) ++ drop (length devices) (oc_devices oc)) oc.
Proof.
  intros Hd Hl Ho a.
  assert (Hget : forall i d, devices !! i = Some d -> json_array_get a i = Some (save_device d)).
  { intros i d Hi. unfold a. rewrite list_fmap_compose. cbn [json_array_get mbind option_bind].
    apply array_of_spec. by rewrite list_lookup_fmap, Hi. }
  assert (H : forall n, (n <= length devices)%nat ->
    for_range 0 n (add_opencl_device a) (set_devices 0 (oc_devices oc) oc) =
    set_devices (Z.of_nat n) ((reloaded_device <$> take n devices) ++ drop n (oc_devices oc)) oc).
  { induction n as [|n IH]; intros Hn; [by rewrite drop_0|]. rewrite for_range_S_r, IH by lia. cbn [Nat.add].
    destruct (lookup_lt_is_Some_2 devices n) as [d Ed]; [lia|]. unfold add_opencl_device. rewrite (Hget _ _ Ed).
    cbn [json_is_object from_option]. destruct (set_fields_spec (device_fields d [("max-results"%string, json_int (od_max_results d))])
      json_object object_is eq_refl) as [Hi _]. fold (save_device d) in Hi. rewrite Hi. cbn [negb orb set_devices oc_device_count].
    destruct (Z.leb_spec (Z.of_nat MINER_OPENCL_MAX_DEVICES) (Z.of_nat n)); [lia|].
    assert (Hdk : device_ok d) by (rewrite list.Forall_forall in Hd; apply Hd; by eapply list_elem_of_lookup_2).
    rewrite reload_device by done. unfold set_devices. cbn. f_equal; [lia|].
    rewrite (take_S_r _ _ _ Ed), fmap_app, Nat2Z.id.
    destruct (lookup_lt_is_Some_2 (oc_devices oc) n) as [d' Ed']; [lia|]. rewrite (drop_S _ _ _ Ed').
    rewrite insert_app_r_alt by (rewrite length_fmap, length_take; lia).
    rewrite length_fmap, length_take, Nat.min_l, Nat.sub_diag by lia. cbn [list_insert insert]. by rewrite <- app_assoc. }
  rewrite H by done. by rewrite take_ge.
Qed.

Lemma absent_save_opencl oc o keys :
  json_is_object' o = true -> disjoint_keys keys ("devices"%string :: (opencl_fields oc).*1) = true ->
  forallb (fun k => existsb (String.eqb k) opencl_aliases) keys = true -> absent o opencl_aliases ->
  absent (save_opencl oc o) keys.
Proof.
  intros Ho Hd Hs Ha. apply (absent_among _ _ keys Hs) in Ha. destruct (save_opencl_spec oc o Ho) as (_ & Hg & _).
  unfold absent, disjoint_keys in *. rewrite list.Forall_forall in *. rewrite forallb_forall in Hd. intros k Hk.
  specialize (Hd k (proj1 (list_elem_of_In _ _) Hk)). apply negb_true_iff in Hd. cbn [existsb] in Hd.
  apply orb_false_iff in Hd as [Hkd Hf]. apply String.eqb_neq in Hkd.
  rewrite Hg, field_other by done. by apply Ha.
Qed.

Lemma reload_opencl base oc o :
  json_is_object' o = true -> absent o opencl_aliases -> opencl_ok oc ->
  length (oc_devices base) = MINER_OPENCL_MAX_DEVICES ->
  load_opencl (Some (save_opencl oc o)) base = reloaded_opencl base oc.
Proof.
  intros Ho Ha Hok Hb. destruct (save_opencl_spec oc o Ho) as (Hi & Hg & Hd).
  pose proof (fun ks H1 H2 => absent_save_opencl oc o ks Ho H1 H2 Ha) as Hab.
  unfold load_opencl. cbn [json_is_object from_option]. rewrite Hi. cbv zeta.
  cbn [json_object_get mbind option_bind]. rewrite Hd.
  match goal with |- context [set_devices 0 (oc_devices ?r) ?r] =>
    assert (Hr : r = OpenclConfig (oc_enabled oc) (oc_all_devices oc) (oc_platform oc) (oc_device oc) (oc_batch_size oc)
      (oc_local_work_size oc) (oc_nonces_per_work_item oc) (oc_max_results oc) MINER_OPENCL_BACKEND_AUTO
      MINER_OPENCL_KERNEL_AUTO (oc_device_count base) (oc_devices base)) end.
  { destruct Hok. f_equal;
      try first [apply read_bool_key|apply read_int_key|apply read_u32_key]; try assumption;
      try (by rewrite Hg); try (by apply Hab).
    - apply (read_variant _ _ _ ["backend"; "backend-variant"]%string).
      exact (Forall_inv (Hab ["backend_variant"%string] eq_refl eq_refl)).
    - apply (read_variant _ _ _ ["kernel"; "kernel-variant"]%string).
      exact (Forall_inv (Hab ["kernel_variant"%string] eq_refl eq_refl)). }
  rewrite Hr. clear Hr. unfold reloaded_opencl. destruct (oc_enabled oc && (0 <? oc_device_count oc)) eqn:Es; [|done].
  destruct (array_of_spec (save_device <$> used_devices oc)) as (Har & Hsz & _).
  rewrite <- list_fmap_compose, length_fmap in Hsz. rewrite <- list_fmap_compose in Har.
  cbn [json_is_array from_option json_array_size]. rewrite Har, Hsz.
  assert (Hlen : length (used_devices oc) = Z.to_nat (oc_device_count oc)).
  { unfold used_devices. rewrite length_take, (ok_length _ Hok). pose proof (ok_count _ Hok). lia. }
  match goal with |- for_range _ _ ?f (set_all_devices false (set_devices 0 ?l ?r)) = _ =>
    change (for_range 0 (length (used_devices oc)) f (set_devices 0 (oc_devices (set_all_devices false r)) (set_all_devices false r)) =
      OpenclConfig (oc_enabled oc) false (oc_platform oc) (oc_device oc) (oc_batch_size oc) (oc_local_work_size oc)
        (oc_nonces_per_work_item oc) (oc_max_results oc) MINER_OPENCL_BACKEND_AUTO MINER_OPENCL_KERNEL_AUTO
        (oc_device_count oc)
        ((reloaded_device <$> used_devices oc) ++ drop (Z.to_nat (oc_device_count oc)) (oc_devices base))) end.
  rewrite reload_devices.
  - unfold set_devices. cbn. rewrite Hlen. f_equal. apply andb_true_iff in Es as [_ Hc]. apply Z.ltb_lt in Hc. lia.
  - unfold used_devices. apply Forall_take, Hok.
  - rewrite Hlen. pose proof (ok_count _ Hok). lia.
  - done.
Qed.

Lemma reload_cuda base cc o :
  json_is_object' o = true -> absent o cuda_aliases -> cuda_ok cc ->
  load_cuda (Some (set_fields (cuda_fields cc) o)) base = reloaded_cuda cc.
Proof.
  intros Ho Ha Hok. destruct (set_fields_spec (cuda_fields cc) o Ho eq_refl) as (Hi & Hg).
  assert (Hab : forall ks, disjoint_keys ks (cuda_fields cc).*1 = true ->
    forallb (fun k => existsb (String.eqb k) cuda_aliases) ks = true -> absent (set_fields (cuda_fields cc) o) ks).
  { intros ks H1 H2. apply (absent_set_fields (cuda_fields cc) o ks Ho eq_refl H1). by apply (absent_among o cuda_aliases). }
  unfold load_cuda. cbn [json_is_object from_option]. rewrite Hi. destruct Hok. unfold reloaded_cuda.
  f_equal;
    try first [apply read_bool_key|apply read_int_key|apply read_u32_key]; try assumption;
    try (by rewrite Hg); try (by apply Hab).
  apply (read_variant _ _ _ ["kernel"; "kernel-variant"]%string).
  exact (Forall_inv (Hab ["kernel_variant"%string] eq_refl eq_refl)).
Qed.

Lemma reload_cpu c base o :
  json_is_object' o = true -> is_i32 (ac_thread_count c) ->
  load_cpu (Some (save_cpu c o)) base =
  AppConfig.set_cpu_affinity (ac_cpu_affinity c)
    (AppConfig.set_thread_count (ac_thread_count c) (set_cpu_enabled (ac_cpu_enabled c) base)).
Proof.
  intros Ho Ht. unfold save_cpu. match goal with |- context [set_fields ?fs o] => set (fields := fs) end.
  destruct (set_fields_spec fields o Ho eq_refl) as (Hi & Hg).
  unfold load_cpu. cbn [json_is_object from_option]. rewrite Hi. cbv zeta.
  rewrite (read_bool_key _ "enabled" [] _ (ac_cpu_enabled c)) by (first [by rewrite Hg|apply absent_nil]).
  rewrite (read_int_key _ "threads" [] _ (ac_thread_count c)) by (first [by rewrite Hg|apply absent_nil|done]).
  by rewrite (read_bool_key _ "affinity" [] _ (ac_cpu_affinity c)) by (first [by rewrite Hg|apply absent_nil]).
Qed.

Lemma delete_keys_spec keys o :
  json_is_object' o = true ->
  json_is_object' (foldl json_object_del' o keys) = true /\
  forall key, json_object_get' (foldl json_object_del' o keys) key =
    if existsb (String.eqb key) keys then None else json_object_get' o key.
Proof.
  revert o. induction keys as [|k keys IH]; intros o Ho; [done|]. cbn [foldl existsb].
  destruct (IH (json_object_del' o k)) as [Hi Hg]; [by apply object_del_is|]. split; [done|].
  intros key. rewrite Hg, object_get_del by done. destruct (String.eqb key k), (existsb (String.eqb key) keys); done.
Qed.

Lemma save_autotune_spec c results best o :
  json_is_object' o = true ->
  json_is_object' (save_autotune c results best o) = true /\
  forall key, existsb (String.eqb key) ["selected"; "selected-hashrate"; "results"]%string = false ->
    json_object_get' (save_autotune c results best o) key =
    field [("seconds"%string, json_real (ac_autotune_seconds c))] key
      (if existsb (String.eqb key) ["self-test"; "self_test"; "done"; "completed"]%string then None
       else field [("enabled", json_bool (ac_autotune_enabled c));
                   ("cpu-self-test", json_bool (ac_cpu_autotune_done c));
                   ("gpu-self-test", json_bool (ac_gpu_autotune_done c))]%string key (json_object_get' o key)).
Proof.
  intros Ho. unfold save_autotune. cbv zeta.
  match goal with |- context [set_fields ?fs o] => destruct (set_fields_spec fs o Ho eq_refl) as [Hi1 Hg1]; set (o1 := set_fields fs o) in * end.
  match goal with |- context [foldl json_object_del' o1 ?ks] =>
    destruct (delete_keys_spec ks o1 Hi1) as [Hi2 Hg2]; set (o2 := foldl json_object_del' o1 ks) in * end.
  match goal with |- context [set_fields ?fs o2] => destruct (set_fields_spec fs o2 Hi2 eq_refl) as [Hi3 Hg3]; set (o3 := set_fields fs o2) in * end.
  match goal with |- context [json_object_set_new ?x] => set (o4 := x) end.
  assert (H4 : json_is_object' o4 = true /\
    forall key, existsb (String.eqb key) ["selected"; "selected-hashrate"]%string = false -> json_object_get' o4 key = json_object_get' o3 key).
  { unfold o4. destruct best as [best|]; [|done]. match goal with |- context [set_fields ?fs o3] =>
      destruct (set_fields_spec fs o3 Hi3 eq_refl) as [Hi Hg] end. split; [done|]. intros key Hk. rewrite Hg. by apply field_other. }
  clearbody o4. destruct H4 as [Hi4 Hg4]. cbn [json_object_set_new from_option]. split; [by apply object_set_is|].
  intros key Hk. cbn [existsb] in Hk. apply orb_false_iff in Hk as [Hk1 Hk]. apply orb_false_iff in Hk as [Hk2 Hk].
  apply orb_false_iff in Hk as [Hk3 _].
  rewrite object_get_set, Hk3 by done. rewrite Hg4 by (cbn [existsb]; by rewrite Hk1, Hk2).
  by rewrite Hg3, Hg2, Hg1.
Qed.

(** A key that is not there leaves the value alone. *)
Lemma read_skip {A} (value : option (json_t J) -> A -> A) o key keys x :
  json_object_get' o key = None -> (forall x, value None x = x) ->
  read_keys value (Some o) (key :: keys) x = read_keys value (Some o) keys x.
Proof.
  intros Hk Hn. unfold read_keys. cbn [fold_left]. cbn [json_object_get mbind option_bind]. by rewrite Hk, Hn.
Qed.

Lemma reload_autotune c results best base o :
  json_is_object' o = true -> absent o autotune_aliases -> f64_finite (ac_autotune_seconds c) = true ->
  load_autotune (Some (save_autotune c results best o)) base =
  AppConfig.set_autotune_seconds (ac_autotune_seconds c)
    (set_gpu_autotune_done (ac_gpu_autotune_done c)
      (set_cpu_autotune_done (ac_cpu_autotune_done c)
        (set_autotune_enabled (ac_autotune_enabled c) base))).
Proof.
  intros Ho Ha Hs. destruct (save_autotune_spec c results best o Ho) as [Hi Hg].
  set (o' := save_autotune c results best o) in *. clearbody o'.
  assert (Hab : forall k, existsb (String.eqb k) autotune_aliases = true -> json_object_get' o' k = None).
  { intros k Hk. unfold absent in Ha. rewrite list.Forall_forall in Ha. pose proof (proj1 (existsb_keys _ _) Hk) as Hin.
    specialize (Ha k Hin). unfold autotune_aliases in Hk. cbn [existsb] in Hk.
    repeat (apply orb_true_iff in Hk as [Hk|Hk]; [apply String.eqb_eq in Hk as ->; by rewrite Hg|]). done. }
  assert (Hone : forall k, existsb (String.eqb k) autotune_aliases = true -> absent o' [k]).
  { intros k Hk. apply list.Forall_singleton. by apply Hab. }
  unfold load_autotune. cbn [json_is_object from_option]. rewrite Hi. cbv zeta.
  rewrite (read_bool_key _ "enabled" [] _ (ac_autotune_enabled c)) by (first [by rewrite Hg|apply absent_nil]).
  rewrite (read_skip _ _ "self-test"), (read_skip _ _ "self_test"), (read_skip _ _ "done"), (read_skip _ _ "completed")
    by (first [done|by rewrite Hg]).
  rewrite (read_bool_key _ "cpu-self-test" _ _ (ac_cpu_autotune_done c)) by (first [by rewrite Hg|by apply Hone]).
  rewrite (read_bool_key _ "gpu-self-test" _ _ (ac_gpu_autotune_done c)).
  - destruct (real_value _ Hs) as (v & Ev & Hn & Hv).
    rewrite (read_number_key _ "seconds" [] _ v (ac_autotune_seconds c)); [done| |done|done|apply absent_nil].
    rewrite Hg by done. cbn. by rewrite Ev.
  - by rewrite Hg.
  - repeat apply list.Forall_cons_2; try (by apply Hab). by apply list.Forall_nil.
Qed.

Lemma get_or_create_same a b key :
  json_object_get' a key = json_object_get' b key -> json_object_get_or_create a key = json_object_get_or_create b key.
Proof. intros H. unfold json_object_get_or_create. cbn [json_object_get mbind option_bind]. by rewrite H. Qed.

Lemma update_spec r root k f :
  ascii_key k = true -> json_is_object' r = true -> json_object_get' r k = json_object_get' root k ->
  json_is_object' (json_object_update r k f) = true /\
  forall key, json_object_get' (json_object_update r k f) key =
    if String.eqb key k then Some (f (json_object_get_or_create root k)) else json_object_get' r key.
Proof.
  intros Hascii Hr Hk. unfold json_object_update. cbn [json_object_set_new from_option].
  rewrite (get_or_create_same r root k Hk). split; [by apply object_set_is|]. intros key. by apply object_get_set.
Qed.

Definition saved_keys : list string := ["autosave"; "cpu"; "opencl"; "cuda"; "autotune"].
Lemma saved_root_spec file c results best :
  let root := old_root file in
  let s := saved_root file c results best in
  json_is_object' s = true /\
  json_object_get' s "autosave" = json_bool (ac_autosave c) /\
  json_object_get' s "cpu" = Some (save_cpu c (json_object_get_or_create root "cpu")) /\
  json_object_get' s "opencl" = Some (save_opencl (ac_opencl c) (json_object_get_or_create root "opencl")) /\
  json_object_get' s "cuda" = Some (set_fields (cuda_fields (ac_cuda c)) (json_object_get_or_create root "cuda")) /\
  json_object_get' s "autotune" = Some (save_autotune c results best (json_object_get_or_create root "autotune")) /\
  forall key, existsb (String.eqb key) saved_keys = false -> json_object_get' s key = json_object_get' root key.
Proof.
  intros root s. pose proof (old_root_is file) as Hr. fold root in Hr. unfold s, saved_root. fold root.
  set (r1 := json_object_set_new root "autosave" (json_bool (ac_autosave c))).
  assert (H1 : json_is_object' r1 = true) by (by apply object_set_is).
  assert (G1 : forall key, json_object_get' r1 key =
    if String.eqb key "autosave" then json_bool (ac_autosave c) else json_object_get' root key)
    by (intros key; by apply object_get_set).
  clearbody r1. cbv zeta.
  destruct (update_spec r1 root "cpu" (save_cpu c) eq_refl H1) as [H2 G2]; [by rewrite G1|]. set (r2 := json_object_update r1 _ _) in *.
  destruct (update_spec r2 root "opencl" (save_opencl (ac_opencl c)) eq_refl H2) as [H3 G3]; [by rewrite G2, G1|].
  set (r3 := json_object_update r2 _ _) in *.
  destruct (update_spec r3 root "cuda" (set_fields (cuda_fields (ac_cuda c))) eq_refl H3) as [H4 G4]; [by rewrite G3, G2, G1|].
  set (r4 := json_object_update r3 _ _) in *.
  destruct (update_spec r4 root "autotune" (save_autotune c results best) eq_refl H4) as [H5 G5]; [by rewrite G4, G3, G2, G1|].
  split_and!; [done|by rewrite G5, G4, G3, G2, G1..|].
  intros key Hk. cbn [existsb saved_keys] in Hk. repeat (apply orb_false_iff in Hk as [? Hk]).
  rewrite G5, G4, G3, G2, G1. by repeat match goal with H : String.eqb key _ = false |- _ => rewrite H; clear H end.
Qed.

Lemma read_keys_same {A} (value : option (json_t J) -> A -> A) o o' keys x :
  Forall (fun k => json_object_get' o k = json_object_get' o' k) keys ->
  read_keys value (Some o) keys x = read_keys value (Some o') keys x.
Proof.
  intros H. unfold read_keys. revert x. induction H as [|k keys Hk _ IH]; intros x; [done|]. cbn [fold_left].
  cbn [json_object_get mbind option_bind]. rewrite Hk. apply IH.
Qed.

(** Two of the loaders change only their own settings. *)
Lemma load_cpu_only cpu c : exists e t a, load_cpu cpu c =
  AppConfig.set_cpu_affinity a (AppConfig.set_thread_count t (set_cpu_enabled e c)).
Proof.
  unfold load_cpu. destruct (json_is_object cpu); [by do 3 eexists|].
  exists (ac_cpu_enabled c), (ac_thread_count c), (ac_cpu_affinity c). by destruct c.
Qed.
Lemma load_autotune_only autotune c : exists e d g s, load_autotune autotune c =
  AppConfig.set_autotune_seconds s (set_gpu_autotune_done g (set_cpu_autotune_done d (set_autotune_enabled e c))).
Proof.
  unfold load_autotune. destruct (json_is_object autotune); [by do 4 eexists|].
  exists (ac_autotune_enabled c), (ac_cpu_autotune_done c), (ac_gpu_autotune_done c), (ac_autotune_seconds c). by destruct c.
Qed.
(** [load_pools] looks at the pools only, and changes nothing else. *)
Lemma load_pools_only pools base : exists l n, forall c,
  ac_pools c = ac_pools base -> ac_pool_count c = ac_pool_count base ->
  load_pools pools c = set_pool_count n (set_pools l c).
Proof.
  exists (ac_pools (load_pools pools base)), (ac_pool_count (load_pools pools base)). intros c Hp Hn.
  unfold load_pools. destruct (json_is_array pools); [|rewrite <- Hp, <- Hn; by destruct c].
  rewrite Hp. destruct (for_range _ _ _ _) as [dst count]. destruct (0 <? count)%nat; [done|].
  cbn. rewrite <- Hn. by destruct c.
Qed.

(** Computes the fields of updated configurations. *)
Ltac config_fields :=
  lazy zeta beta iota delta [reloaded set_pool_count set_pools AppConfig.set_retries set_reconnect_delay
    AppConfig.set_thread_count AppConfig.set_cpu_affinity AppConfig.set_cpu_enabled set_enable_mining
    set_autosave set_autotune_enabled set_cpu_autotune_done set_gpu_autotune_done set_opencl set_cuda
    set_runtime_seconds set_stats_interval AppConfig.set_autotune_seconds set_donate_level ac_pools
    ac_pool_count ac_retries ac_reconnect_delay ac_thread_count ac_cpu_affinity ac_cpu_enabled
    ac_enable_mining ac_autosave ac_autotune_enabled ac_cpu_autotune_done ac_gpu_autotune_done ac_opencl
    ac_cuda ac_runtime_seconds ac_stats_interval ac_autotune_seconds ac_donate_level].

Lemma saved_root_reloads base file c results best :
  config_ok c -> length (oc_devices (ac_opencl base)) = MINER_OPENCL_MAX_DEVICES ->
  f64_finite (ac_autotune_seconds c) = true -> no_aliases (old_root file) ->
  exists c0, load_config_file base (Some (old_root file)) true = Some c0 /\
    load_config_file base (Some (saved_root file c results best)) true = Some (reloaded base c c0).
Proof.
  intros Hc Hb Hf [Hroot Hopencl Hcuda Hautotune].
  destruct (saved_root_spec file c results best) as (Hi & Hsave & Hcpu & Hocl & Hcu & Hat & Hother).
  set (s := saved_root file c results best) in *. clearbody s. set (root := old_root file) in *.
  eexists. split; [reflexivity|]. unfold load_config_file. cbv zeta.
  rewrite (read_bool_key s "autosave" [] _ (ac_autosave c) Hsave (absent_nil s)).
  cbn [json_object_get mbind option_bind]. rewrite Hcpu, Hocl, Hcu, Hat.
  rewrite reload_autotune by (done || apply get_or_create_is). rewrite reload_cpu by (apply get_or_create_is || apply Hc).
  rewrite reload_opencl by (done || apply get_or_create_is || apply Hc).
  rewrite reload_cuda by (done || apply get_or_create_is || apply Hc).
  assert (Hsame : forall A (value : option (json_t J) -> A -> A) keys x,
    forallb (fun k => negb (existsb (String.eqb k) saved_keys)) keys = true ->
    read_keys value (Some s) keys x = read_keys value (Some root) keys x).
  { intros A value keys x Hk. apply read_keys_same. rewrite forallb_forall in Hk. apply list.Forall_forall.
    intros k Hin. apply Hother, negb_true_iff, Hk. by apply list_elem_of_In. }
  rewrite !Hsame by done. rewrite (read_skip _ root "threads") by (first [exact (Forall_inv Hroot)|done]).
  rewrite (Hother "donate-level"%string), (Hother "pools"%string) by done.
  destruct (load_pools_only (json_object_get' root "pools") base) as (l & n & Hpools).
  match goal with |- context [load_autotune ?o ?c] => destruct (load_autotune_only o c) as (? & ? & ? & ? & ->) end.
  match goal with |- context [load_cpu ?o ?c] => destruct (load_cpu_only o c) as (? & ? & ? & ->) end.
  f_equal. unfold app_config_set_donate_level.
  destruct (json_is_integer (json_object_get' root "donate-level"));
    [match goal with |- context [donation_level_valid ?x] => destruct (donation_level_valid x) end|];
    rewrite !Hpools by reflexivity.
  all: config_fields; reflexivity.
Qed.

(** The file's own spelling with underscores is read after the saved one. *)
Lemma alias_overrides base oc o v :
  json_is_object' o = true -> json_object_get' o "batch_size" = json_int v -> is_u32 v ->
  oc_batch_size (load_opencl (Some (save_opencl oc o)) base) = v.
Proof.
  intros Ho Hv Hu. destruct (save_opencl_spec oc o Ho) as (Hi & Hg & _).
  assert (Hread : forall x, read_keys json_u32_value (Some (save_opencl oc o)) ["batch-size"; "batch_size"]%string x = v).
  { intros x. unfold read_keys. cbn [fold_left]. cbn [json_object_get mbind option_bind].
    rewrite (Hg "batch_size"%string) by done. cbn [field opencl_fields String.eqb Ascii.eqb Bool.eqb]. rewrite Hv.
    by apply json_u32_reads. }
  unfold load_opencl. cbn [json_is_object from_option]. rewrite Hi. cbv zeta. rewrite Hread.
  destruct (json_is_array _); [|done].
  apply (for_range_inv (fun _ oc => oc_batch_size oc = v)); [done|].
  intros i x _ Hx. unfold add_opencl_device. cbv zeta. by case_match.
Qed.

(** C15.  What autotuning selected survives a restart: loading the saved text gives the
    selected settings for everything autotuning sets, and for everything else what the
    file said before, provided the file does not spell the saved keys in another way.
    The kernels and backends alone fall back to automatic. *)
Theorem autotune_save_reloads base path content c results best text :
  path <> ""%string -> config_ok c -> length (oc_devices (ac_opencl base)) = MINER_OPENCL_MAX_DEVICES ->
  f64_finite (ac_autotune_seconds c) = true -> no_aliases (old_root (json_load_file_allow_bom content)) ->
  save_autotune_config (Some path) content c results best = Some text ->
  exists root c0, json_load_file_allow_bom (Some text) = Some root /\
    load_config_file base (Some (old_root (json_load_file_allow_bom content))) true = Some c0 /\
    load_config_file base (Some root) true = Some (reloaded base c c0).
Proof.
  intros Hp Hc Hb Hf Ha. unfold save_autotune_config. destruct (String.eqb_spec path ""); [done|]. intros Ht.
  destruct (saved_root_reloads base (json_load_file_allow_bom content) c results best Hc Hb Hf Ha) as (c0 & H0 & H1).
  exists (saved_root (json_load_file_allow_bom content) c results best), c0.
  split; [|done]. unfold json_load_file_allow_bom at 1. cbn [mbind option_bind]. by rewrite (dump_text_loads _ _ Ht).
Qed.
End reload.

(** * Concrete instances *)

(** The sample file after a run that selected both kinds of device. *)
Definition wtuned : app_config_t :=
  AppConfig.set_cuda (CudaConfig true 0 8388608 512 2 256 MINER_CUDA_KERNEL_LOP3)
    (AppConfig.set_cpu_autotune_done true (AppConfig.set_thread_count 6 sample_loaded)).
Definition wcontent : option string := json_dump_text (Jansson := ref_jansson) sample_config.

Lemma wtuned_ok : config_ok wtuned.
Proof.
  unfold wtuned. apply ok_cuda; [|by repeat split].
  apply ok_flag, ok_thread_count; [|done]. unfold sample_loaded.
  destruct (load_config_file _ _ _) as [c|] eqn:E; [|done]. by apply (load_config_ok _ _ _ _ defaults_ok E).
Qed.
Lemma wcontent_loads : json_load_file_allow_bom (J := ref_jansson) wcontent = Some sample_config.
Proof. unfold wcontent, json_load_file_allow_bom. cbn [mbind option_bind json_dump_text ref_jansson].
  by rewrite (dump_text_loads (J := ref_jansson) sample_config _ eq_refl). Qed.
Lemma sample_no_aliases : no_aliases (J := ref_jansson) sample_config.
Proof. split; vm_compute; repeat constructor. Qed.

Lemma dumped v : exists text, json_dump_text (Jansson := ref_jansson) v = Some text.
Proof. by eexists. Qed.

Lemma autotune_save_reloads_witness : exists text root c0,
  save_autotune_config (J := ref_jansson) (Some "config.json"%string) wcontent wtuned [] None = Some text /\
  json_load_file_allow_bom (J := ref_jansson) (Some text) = Some root /\
  load_config_file app_config_set_defaults (Some root) true = Some (reloaded app_config_set_defaults wtuned c0).
Proof.
  assert (E : exists text, save_autotune_config (J := ref_jansson) (Some "config.json"%string) wcontent wtuned [] None = Some text)
    by exact (dumped _).
  destruct E as [text E]. exists text. pose proof wcontent_loads as Hw.
  destruct (autotune_save_reloads (J := ref_jansson) app_config_set_defaults "config.json" wcontent wtuned [] None text)
    as (root & c0 & H1 & _ & H2);
    [done|exact wtuned_ok|reflexivity|reflexivity|rewrite Hw; exact sample_no_aliases|exact E|].
  exists root, c0. split; [exact E|]. split; [exact H1|exact H2].
Defined.
