(* ===== verification/Autotune.v ===== *)
(** Autotuning: src/src/stratum_main.c's benchmark of the modes a machine can mine in
    and the choice among them ([run_autotune]).

    A measurement starts the miner of Miner.v and reads its counter of hashes before
    and after some seconds.  What comes from outside in one measurement, the results
    of [miner_start], the clock and what the workers do meanwhile, is a [run_env], and
    the measurements of a session take them in order.  Printing is left out. *)
From stdpp Require Import base tactics list option strings numbers.
From Stdlib Require Import ZArith Lia Ascii SpecFloat.
From S2P Require Import Prelude Words Fips Sha256d Float64 FloatOrder Hex Target Job Miner Json Stratum FrontEnd.
From S2P Require Import AppConfig AutotuneSave CpuInfo OpenclMiner.

#[local] Open Scope Z_scope.

Definition AUTOTUNE_MAX_RESULTS : nat := 96.
Definition AUTOTUNE_MAX_CPU_THREAD_CANDIDATES : Z := 8.
Definition AUTOTUNE_SELECT_CLOSE_RATIO : double := f64_div (f64_of_Z 90) (f64_of_Z 100).

(** * Configurations to measure *)

Definition autotune_make_job : miner_job_t :=
  MinerJob 0 (copy_string 128 (Some "autotune"%string)) (copy_string 32 (Some "00000000"%string))
    (copy_string 16 (Some "00000000"%string))
    (<[71%nat := 0x1d]> (<[70%nat := 0x00]> (<[69%nat := 0xff]> (<[68%nat := 0xff]>
      (<[0%nat := 0x01]> (replicate 80 0))))))
    (replicate 32 0).

Definition set_enabled (v : bool) (oc : miner_opencl_config_t) : miner_opencl_config_t :=
  OpenclConfig v (oc_all_devices oc) (oc_platform oc) (oc_device oc) (oc_batch_size oc) (oc_local_work_size oc)
    (oc_nonces_per_work_item oc) (oc_max_results oc) (oc_backend_variant oc) (oc_kernel_variant oc)
    (oc_device_count oc) (oc_devices oc).
Definition set_place (platform device : Z) (oc : miner_opencl_config_t) : miner_opencl_config_t :=
  OpenclConfig (oc_enabled oc) (oc_all_devices oc) platform device (oc_batch_size oc) (oc_local_work_size oc)
    (oc_nonces_per_work_item oc) (oc_max_results oc) (oc_backend_variant oc) (oc_kernel_variant oc)
    (oc_device_count oc) (oc_devices oc).
Definition set_cuda_enabled (v : bool) (cc : miner_cuda_config_t) : miner_cuda_config_t :=
  CudaConfig v (cc_device cc) (cc_batch_size cc) (cc_threads_per_block cc) (cc_nonces_per_thread cc)
    (cc_max_results cc) (cc_kernel_variant cc).

Definition autotune_disable_opencl : miner_opencl_config_t := set_enabled false miner_opencl_config_defaults.
Definition autotune_disable_cuda : miner_cuda_config_t := set_cuda_enabled false miner_cuda_config_defaults.

Definition autotune_all_gpu_config (base : option miner_opencl_config_t) : miner_opencl_config_t :=
  let out := default miner_opencl_config_defaults base in
  set_devices 0 (oc_devices out) (set_all_devices true (set_enabled true out)).

(** The first [MINER_OPENCL_MAX_DEVICES] of [devices] go to the front of the array. *)
Definition autotune_device_list_config (base : option miner_opencl_config_t)
    (devices : list miner_opencl_device_config_t) : miner_opencl_config_t :=
  let out := default miner_opencl_config_defaults base in
  let out := set_all_devices false (set_enabled (0 <? length devices)%nat out) in
  let placed := take MINER_OPENCL_MAX_DEVICES devices in
  let out := set_devices (Z.of_nat (length placed)) (placed ++ drop (length placed) (oc_devices out)) out in
  match placed with
  | [] => out
  | first :: _ => set_place (od_platform first) (od_device first) out
  end.

(** ** Values to try *)

Definition value_seen_u32 (values : list Z) (value : Z) : bool := existsb (Z.eqb value) values.
(** The loops that fill the arrays of candidates: each value once, in order. *)
Definition candidates (raw : list Z) : list Z :=
  foldl (fun values value => if value_seen_u32 values value then values else values ++ [value]) [] raw.

Definition percent (n : Z) : double := f64_div (f64_of_Z n) (f64_of_Z 100).
Definition rate_is_better (threshold candidate best : double) : bool :=
  if f64_le best (f64_of_Z 0) then true else f64_lt (f64_mul best threshold) candidate.
Definition autotune_hashrate_is_better : double -> double -> bool := rate_is_better (percent 102).
Definition autotune_batch_hashrate_is_better : double -> double -> bool := rate_is_better (percent 101).

Definition opencl_local_candidates (base : miner_opencl_config_t) (device : miner_opencl_device_config_t) : list Z :=
  candidates [od_local_work_size device; oc_local_work_size base; 64; 128; 256; 512].
Definition opencl_npi_candidates (base : miner_opencl_config_t) (device : miner_opencl_device_config_t) : list Z :=
  candidates ((fun v => if v =? 0 then 1 else v) <$>
    [od_nonces_per_work_item device; oc_nonces_per_work_item base; 1; 2; 4]).
Definition opencl_batch_candidates (base : miner_opencl_config_t) (device : miner_opencl_device_config_t) : list Z :=
  candidates ((fun v => if v <? 1024 then 1024 else v) <$>
    [od_batch_size device; oc_batch_size base; 524288; 1048576; 2097152; 4194304; 8388608; 16777216]).
Definition is_opencl_kernel_candidate (v : Z) : bool :=
  negb ((v <? MINER_OPENCL_KERNEL_COMPACT) || (MINER_OPENCL_KERNEL_REGISTER_HEAVY <? v)).
Definition opencl_kernel_candidates (base : miner_opencl_config_t) (device : miner_opencl_device_config_t) : list Z :=
  candidates (List.filter is_opencl_kernel_candidate (u32 <$>
    [od_kernel_variant device; oc_kernel_variant base; MINER_OPENCL_KERNEL_UNROLLED; MINER_OPENCL_KERNEL_COMPACT;
     MINER_OPENCL_KERNEL_FIXED_NPI1; MINER_OPENCL_KERNEL_FIXED_NPI2; MINER_OPENCL_KERNEL_FIXED_NPI4;
     MINER_OPENCL_KERNEL_REGISTER_HEAVY])).
Definition opencl_backend_candidates (base : miner_opencl_config_t) (device : miner_opencl_device_config_t) : list Z :=
  let requested_backend :=
    if negb (od_backend_variant device =? MINER_OPENCL_BACKEND_AUTO) then od_backend_variant device
    else oc_backend_variant base in
  if requested_backend =? MINER_OPENCL_BACKEND_COMPAT10 then [MINER_OPENCL_BACKEND_COMPAT10]
  else if requested_backend =? MINER_OPENCL_BACKEND_MODERN then [MINER_OPENCL_BACKEND_MODERN]
  else [MINER_OPENCL_BACKEND_COMPAT10; MINER_OPENCL_BACKEND_MODERN].

Definition autotune_cuda_block_value (value : Z) : Z :=
  let value := if value =? 0 then MINER_CUDA_DEFAULT_THREADS_PER_BLOCK else value in
  let value := if value <? 32 then 32 else value in
  let value := if 1024 <? value then 1024 else value in
  Z.land (u32 (value + 31)) (not32 31).
Definition autotune_cuda_npt_value (value : Z) : Z :=
  let value := if value =? 0 then MINER_CUDA_DEFAULT_NONCES_PER_THREAD else value in
  let value := if value <? 1 then 1 else value in
  if 16 <? value then 16 else value.
Definition autotune_cuda_batch_value (value : Z) : Z :=
  let value := if value =? 0 then MINER_CUDA_DEFAULT_BATCH_SIZE else value in
  if value <? 1024 then 1024 else value.
Definition autotune_cuda_kernel_forced_npt (variant : Z) : Z :=
  if (variant =? MINER_CUDA_KERNEL_FIXED_NPT1) || (variant =? MINER_CUDA_KERNEL_FIXED_LOP3_NPT1) then 1
  else if (variant =? MINER_CUDA_KERNEL_FIXED_NPT2) || (variant =? MINER_CUDA_KERNEL_FIXED_LOP3_NPT2) then 2
  else if (variant =? MINER_CUDA_KERNEL_FIXED_NPT4) || (variant =? MINER_CUDA_KERNEL_FIXED_LOP3_NPT4) then 4
  else 0.

Definition cuda_block_candidates (c : miner_cuda_config_t) : list Z :=
  candidates (autotune_cuda_block_value <$> [cc_threads_per_block c; MINER_CUDA_DEFAULT_THREADS_PER_BLOCK; 128; 256; 512]).
Definition cuda_npt_candidates (c : miner_cuda_config_t) : list Z :=
  candidates (autotune_cuda_npt_value <$> [cc_nonces_per_thread c; MINER_CUDA_DEFAULT_NONCES_PER_THREAD; 1; 2; 4]).
Definition cuda_batch_candidates (c : miner_cuda_config_t) : list Z :=
  candidates (autotune_cuda_batch_value <$>
    [cc_batch_size c; MINER_CUDA_DEFAULT_BATCH_SIZE; 1048576; 2097152; 4194304; 8388608; 16777216]).
Definition cuda_kernel_candidates (c : miner_cuda_config_t) : list Z :=
  candidates (List.filter (fun v => v <=? MINER_CUDA_KERNEL_LAST)
    (u32 (cc_kernel_variant c) ::
    [MINER_CUDA_KERNEL_STANDARD; MINER_CUDA_KERNEL_DUAL; MINER_CUDA_KERNEL_FIXED_NPT1; MINER_CUDA_KERNEL_FIXED_NPT2;
     MINER_CUDA_KERNEL_FIXED_NPT4; MINER_CUDA_KERNEL_LOP3; MINER_CUDA_KERNEL_FIXED_LOP3_NPT1;
     MINER_CUDA_KERNEL_FIXED_LOP3_NPT2; MINER_CUDA_KERNEL_FIXED_LOP3_NPT4])).

(** * A measurement *)

(** What is measured. *)
Record setup := Setup {
  su_cpu_threads : Z; su_cpu_affinity : bool; su_opencl : option miner_opencl_config_t;
  su_cuda : option miner_cuda_config_t;
}.

Section measure.
Context `{O : OpenSSL} {D : Type}.

(** The outcome of starting, the readings of [monotonic_seconds], and the states of the
    miner in which its counter is read, as the workers make them from the first. *)
Record run_env := RunEnv {
  re_start : Miner.start_env D; re_clock : list double; re_run : miner O D -> miner O D * miner O D;
}.

(** [while (monotonic_seconds() < stop_at) sleep_milliseconds(50)]: the readings that
    are left; [None] when they run out before the time has come. *)
Fixpoint wait_until (stop_at : double) (clock : list double) : option (list double) :=
  match clock with
  | [] => None
  | now :: clock => if f64_lt now stop_at then wait_until stop_at clock else Some clock
  end.

(** The hash rate and [*ok]; [None] while the measurement has not returned. *)
Definition autotune_run_mode (re : run_env) (su : setup) (seconds : double) : option (double * bool) :=
  let unavailable := (f64_of_Z 0, false) in
  let quarter := f64_div (f64_of_Z 1) (f64_of_Z 4) in
  let seconds := if f64_lt seconds quarter then quarter else seconds in
  let m := miner_create_with_backend_options (su_cpu_threads su) (su_opencl su) (su_cuda su) in
  let m := miner_set_cpu_affinity (su_cpu_affinity su) m in
  let '(m, _, rc) := miner_start (re_start re) m in
  if negb (rc =? 0) then Some unavailable
  else if from_option oc_enabled false (su_opencl su) && (miner_thread_count m <=? su_cpu_threads su)
  then Some unavailable
  else if from_option cc_enabled false (su_cuda su) && (miner_thread_count m <=? su_cpu_threads su)
  then Some unavailable
  else
    let m := miner_set_job m autotune_make_job in
    match re_clock re with
    | [] => None
    | started_at :: clock =>
        let stop_at := f64_add started_at seconds in
        let '(m_start, m_end) := re_run re m in
        let start_hashes := miner_hashes m_start in
        clock ← wait_until stop_at clock;
        ended_at ← head clock;
        let end_hashes := miner_hashes m_end in
        let elapsed := f64_sub ended_at started_at in
        if f64_le elapsed (f64_of_Z 0) || (end_hashes <=? start_hashes) then Some unavailable
        else Some (f64_div (f64_of_Z (end_hashes - start_hashes)) elapsed, true)
    end.
End measure.
Arguments run_env _ _ : clear implicits.

(** * Sessions of measurements *)

(** A measurement made, and its result. *)
Record run := Run { run_setup : setup; run_rate : double; run_ok : bool }.

(** The [n]-th measurement happens in the [n]-th environment; what has been measured is
    kept.  [None] is a session that has not returned. *)
Definition tuning (A : Type) : Type := list run -> option (A * list run).
#[export] Instance tuning_ret : MRet tuning := fun A a runs => Some (a, runs).
#[export] Instance tuning_bind : MBind tuning := fun A B f c runs =>
  match c runs with Some (a, runs) => f a runs | None => None end.
(** No result to go on with. *)
Definition no_result {A} : tuning A := fun _ => None.
(** [for (x in l) s = body(x, s)] *)
Fixpoint for_each {A S} (l : list A) (body : A -> S -> tuning S) (s : S) : tuning S :=
  match l with
  | [] => mret s
  | x :: l => s ← body x s; for_each l body s
  end.

Section sessions.
Context `{O : OpenSSL} {D : Type} (env : nat -> run_env O D).

Definition run_mode (su : setup) (seconds : double) : tuning (double * bool) := fun runs =>
  match autotune_run_mode (env (length runs)) su seconds with
  | Some (hashrate, ok) => Some ((hashrate, ok), runs ++ [Run su hashrate ok])
  | None => None
  end.

(** ** OpenCL parameters *)

(** The best so far: [best_device], [best_hashrate], [best_ok]. *)
Definition best_opencl : Type := miner_opencl_device_config_t * double * bool.

Definition opencl_candidate (device : miner_opencl_device_config_t) (batch local npi backend kernel : Z)
  : miner_opencl_device_config_t :=
  OpenclDevice (od_platform device) (od_device device) batch local npi (od_max_results device) backend kernel.

(** The body of the four loops over kernels and sizes. *)
Definition opencl_try_kernel (base : miner_opencl_config_t) (device : miner_opencl_device_config_t) (seconds : double)
    (backend kernel local npi : Z) (best : best_opencl) : tuning best_opencl :=
  let '(best_device, best_hashrate, best_ok) := best in
  let forced_npi := opencl_kernel_forced_npi kernel in
  if negb (forced_npi =? 0) && negb (npi =? forced_npi) then mret best
  else
    let npi := if negb (forced_npi =? 0) then forced_npi else npi in
    let candidate := opencl_candidate device (od_batch_size best_device) local npi backend kernel in
    let opencl := autotune_device_list_config (Some base) [candidate] in
    '(hashrate, ok) ← run_mode (Setup 0 false (Some opencl) None) seconds;
    mret (if ok && (negb best_ok || autotune_hashrate_is_better hashrate best_hashrate)
          then (candidate, hashrate, true) else best).
Definition opencl_try_batch (base : miner_opencl_config_t) (seconds : double) (batch : Z) (best : best_opencl)
  : tuning best_opencl :=
  let '(device, best_hashrate, best_ok) := best in
  let candidate :=
    opencl_candidate device batch (od_local_work_size device) (od_nonces_per_work_item device)
      (od_backend_variant device) (od_kernel_variant device) in
  let opencl := autotune_device_list_config (Some base) [candidate] in
  '(hashrate, ok) ← run_mode (Setup 0 false (Some opencl) None) seconds;
  mret (if ok && autotune_batch_hashrate_is_better hashrate best_hashrate
        then (candidate, hashrate, best_ok) else best).

(** The new [*device]. *)
Definition autotune_opencl_device_params (base : miner_opencl_config_t) (seconds : double)
    (device : miner_opencl_device_config_t) : tuning miner_opencl_device_config_t :=
  best ← for_each (opencl_backend_candidates base device) (fun backend =>
           for_each (opencl_kernel_candidates base device) (fun kernel best =>
             if negb (opencl_kernel_backend_compatible backend kernel) then mret best
             else
               for_each (opencl_local_candidates base device) (fun local =>
                 for_each (opencl_npi_candidates base device) (fun npi =>
                   opencl_try_kernel base device seconds backend kernel local npi)) best))
         (device, f64_of_Z 0, false);
  let '(_, _, best_ok) := best in
  if negb best_ok then mret device
  else
    best ← for_each (opencl_batch_candidates base device) (opencl_try_batch base seconds) best;
    let '(device, _, _) := best in mret device.

(** ** CUDA parameters *)

Definition best_cuda : Type := miner_cuda_config_t * double * bool.
Definition cuda_candidate (c : miner_cuda_config_t) (batch block npt kernel : Z) : miner_cuda_config_t :=
  CudaConfig (cc_enabled c) (cc_device c) batch block npt (cc_max_results c) kernel.

Definition cuda_try_kernel (seconds : double) (kernel block npt : Z) (best : best_cuda) : tuning best_cuda :=
  let '(best_config, best_hashrate, best_ok) := best in
  let forced_npt := autotune_cuda_kernel_forced_npt kernel in
  if negb (forced_npt =? 0) && negb (npt =? forced_npt) then mret best
  else
    let npt := if negb (forced_npt =? 0) then forced_npt else npt in
    let candidate := cuda_candidate best_config (cc_batch_size best_config) block npt kernel in
    '(hashrate, ok) ← run_mode (Setup 0 false None (Some candidate)) seconds;
    mret (if ok && (negb best_ok || autotune_hashrate_is_better hashrate best_hashrate)
          then (candidate, hashrate, true) else best).
Definition cuda_try_batch (seconds : double) (batch : Z) (best : best_cuda) : tuning best_cuda :=
  let '(best_config, best_hashrate, best_ok) := best in
  let candidate :=
    cuda_candidate best_config batch (cc_threads_per_block best_config) (cc_nonces_per_thread best_config)
      (cc_kernel_variant best_config) in
  '(hashrate, ok) ← run_mode (Setup 0 false None (Some candidate)) seconds;
  mret (if ok && autotune_batch_hashrate_is_better hashrate best_hashrate
        then (candidate, hashrate, best_ok) else best).

(** What is measured first, to warm the device up. *)
Definition cuda_first_config (c : miner_cuda_config_t) : miner_cuda_config_t :=
  let kernel := in_range (cc_kernel_variant c) MINER_CUDA_KERNEL_STANDARD MINER_CUDA_KERNEL_LAST
                  MINER_CUDA_DEFAULT_KERNEL_VARIANT in
  let forced_npt := autotune_cuda_kernel_forced_npt kernel in
  CudaConfig true (cc_device c) (autotune_cuda_batch_value (cc_batch_size c))
    (autotune_cuda_block_value (cc_threads_per_block c))
    (if negb (forced_npt =? 0) then forced_npt else autotune_cuda_npt_value (cc_nonces_per_thread c))
    (cc_max_results c) kernel.

Definition autotune_cuda_params (seconds : double) (config : miner_cuda_config_t) : tuning miner_cuda_config_t :=
  let best_config := cuda_first_config config in
  _ ← run_mode (Setup 0 false None (Some best_config)) seconds;
  best ← for_each (cuda_kernel_candidates config) (fun kernel =>
           for_each (cuda_block_candidates config) (fun block =>
             for_each (cuda_npt_candidates config) (fun npt => cuda_try_kernel seconds kernel block npt)))
         (best_config, f64_of_Z 0, false);
  let '(_, _, best_ok) := best in
  if negb best_ok then mret config
  else
    best ← for_each (cuda_batch_candidates config) (cuda_try_batch seconds) best;
    let '(best_config, _, _) := best in mret best_config.

(** ** Modes *)

(** [None] for the arguments stands for NULL; [inl] is the return of -1. *)
Definition autotune_append_result (results : list autotune_result_t) (name : string) (cpu_threads : Z)
    (cpu_affinity : bool) (opencl : option miner_opencl_config_t) (cuda : option miner_cuda_config_t) (seconds : double)
    : tuning (unit + list autotune_result_t) :=
  if (AUTOTUNE_MAX_RESULTS <=? length results)%nat then mret (inl tt)
  else
    let affinity := cpu_affinity && (0 <? cpu_threads) in
    let opencl := default autotune_disable_opencl opencl in
    let cuda := default autotune_disable_cuda cuda in
    '(hashrate, ok) ← run_mode (Setup cpu_threads affinity (Some opencl) (Some cuda)) seconds;
    mret (inr (results ++
      [AutotuneResult (copy_string 96 (Some name)) cpu_threads affinity opencl cuda hashrate ok])).

(** The result of a call whose return code is not looked at. *)
Definition ignore_full (results : list autotune_result_t) (c : tuning (unit + list autotune_result_t))
    : tuning (list autotune_result_t) :=
  r ← c; mret (match r with inr results => results | inl _ => results end).

Definition name_with (base suffix : string) (n : Z) : string := snprintf_s 96 (base ++ suffix ++ decimal n).
(** The loop over the thread counts, left when the results are full. *)
Fixpoint append_thread_results (base_name : string) (full_threads : Z) (opencl : option miner_opencl_config_t)
    (cuda : option miner_cuda_config_t) (seconds : double) (affinity_supported : bool) (counts : list Z)
    (results : list autotune_result_t) : tuning (list autotune_result_t) :=
  match counts with
  | [] => mret results
  | n :: counts =>
      let name := if n =? full_threads then copy_string 96 (Some base_name) else name_with base_name "-" n in
      r ← autotune_append_result results name n false opencl cuda seconds;
      match r with
      | inl _ => mret results
      | inr results =>
          if affinity_supported then
            let name :=
              if n =? full_threads then snprintf_s 96 (base_name ++ "-affinity") else name_with base_name "-affinity-" n in
            r ← autotune_append_result results name n true opencl cuda seconds;
            match r with
            | inl _ => mret results
            | inr results =>
                append_thread_results base_name full_threads opencl cuda seconds affinity_supported counts results
            end
          else append_thread_results base_name full_threads opencl cuda seconds affinity_supported counts results
      end
  end.
Definition autotune_append_cpu_thread_results (affinity_supported : bool) (results : list autotune_result_t)
    (base_name : string) (full_threads : Z) (opencl : option miner_opencl_config_t)
    (cuda : option miner_cuda_config_t) (seconds : double) : tuning (list autotune_result_t) :=
  append_thread_results base_name full_threads opencl cuda seconds affinity_supported
    (autotune_cpu_thread_candidates full_threads AUTOTUNE_MAX_CPU_THREAD_CANDIDATES) results.

(** ** The benchmark *)

Section run_autotune.
Context (affinity_supported : bool) (lib : opencl_library) (rt : cl_runtime) (g : btcrig_opencl_loader_t).

(** A GPU mode, and the same with all CPU threads. *)
Definition gpu_modes (full_threads : Z) (cpu_affinity : bool) (seconds : double) (gpu_name : string)
    (opencl : miner_opencl_config_t) (results : list autotune_result_t) : tuning (list autotune_result_t) :=
  results ← ignore_full results
    (autotune_append_result results (snprintf_s 96 gpu_name) 0 false (Some opencl) (Some autotune_disable_cuda) seconds);
  if 0 <? full_threads then
    ignore_full results
      (autotune_append_result results (snprintf_s 96 ("cpu+" ++ gpu_name)) full_threads cpu_affinity (Some opencl)
         (Some autotune_disable_cuda) seconds)
  else mret results.

(** The modes of the devices found: all, each, and all but one. *)
Definition opencl_modes (config : app_config_t) (full_threads : Z) (seconds : double)
    (resolved : list miner_opencl_device_config_t) (results : list autotune_result_t)
    : tuning (list autotune_result_t) :=
  let list_config devices := autotune_device_list_config (Some (ac_opencl config)) devices in
  let all_gpu_opencl := list_config resolved in
  results ← ignore_full results
    (autotune_append_result results "all-gpu" 0 false (Some all_gpu_opencl) (Some autotune_disable_cuda) seconds);
  results ←
    (if 0 <? full_threads then
       autotune_append_cpu_thread_results affinity_supported results "cpu+all-gpu" full_threads (Some all_gpu_opencl)
         (Some autotune_disable_cuda) seconds
     else mret results);
  results ← for_each (imap (fun i device => (Z.of_nat i, device)) resolved) (fun p =>
      gpu_modes full_threads (ac_cpu_affinity config) seconds ("gpu" ++ decimal p.1) (list_config [p.2])) results;
  if (2 <? length resolved)%nat then
    for_each (seq 0 (length resolved)) (fun skip =>
      gpu_modes full_threads (ac_cpu_affinity config) seconds ("all-gpu-minus-gpu" ++ decimal (Z.of_nat skip))
        (list_config (delete skip resolved))) results
  else mret results.

(** One device after the other is tuned. *)
Fixpoint tune_devices (base : miner_opencl_config_t) (seconds : double) (devices : list miner_opencl_device_config_t)
    : tuning (list miner_opencl_device_config_t) :=
  match devices with
  | [] => mret []
  | device :: devices =>
      device ← autotune_opencl_device_params base seconds device;
      devices ← tune_devices base seconds devices;
      mret (device :: devices)
  end.

(** All measurements of [run_autotune]; the results in order. *)
Definition autotune_measure (config : app_config_t) (full_threads : Z) (seconds : double)
    : tuning (list autotune_result_t) :=
  results ←
    (if 0 <? full_threads then
       autotune_append_cpu_thread_results affinity_supported [] "cpu" full_threads (Some autotune_disable_opencl)
         (Some autotune_disable_cuda) seconds
     else mret []);
  results ←
    (if oc_enabled (ac_opencl config) then
       match snd (opencl_miner_resolve_devices lib rt g (autotune_all_gpu_config (Some (ac_opencl config)))
                    (Z.of_nat MINER_OPENCL_MAX_DEVICES)) with
       | inl _ | inr [] => mret results
       | inr resolved =>
           resolved ← tune_devices (ac_opencl config) seconds resolved;
           opencl_modes config full_threads seconds resolved results
       end
     else mret results);
  if cc_enabled (ac_cuda config) then
    cuda_config ← autotune_cuda_params seconds (set_cuda_enabled true (ac_cuda config));
    results ← ignore_full results
      (autotune_append_result results "cuda" 0 false (Some autotune_disable_opencl) (Some cuda_config) seconds);
    if 0 <? full_threads then
      autotune_append_cpu_thread_results affinity_supported results "cpu+cuda" full_threads
        (Some autotune_disable_opencl) (Some cuda_config) seconds
    else mret results
  else mret results.
End run_autotune.
End sessions.

(** * The choice *)

Definition autotune_result_priority (result : autotune_result_t) : Z :=
  let has_cpu := 0 <? ar_cpu_threads result in
  let has_gpu := oc_enabled (ar_opencl result) || cc_enabled (ar_cuda result) in
  if has_gpu && negb has_cpu then 0
  else if has_cpu && negb has_gpu then 1
  else if has_cpu && has_gpu then 2
  else 3.

(** The first loop: the fastest mode that works. *)
Definition fastest_result (results : list autotune_result_t) : option autotune_result_t :=
  foldl (fun fastest r =>
      if negb (ar_ok r) then fastest
      else
        match fastest with
        | None => Some r
        | Some f => if f64_lt (ar_hashrate f) (ar_hashrate r) then Some r else fastest
        end) None results.
Definition cpu_autotune_ok (results : list autotune_result_t) : bool :=
  existsb (fun r => ar_ok r && (0 <? ar_cpu_threads r)) results.
Definition gpu_autotune_ok (results : list autotune_result_t) : bool :=
  existsb (fun r => ar_ok r && (oc_enabled (ar_opencl r) || cc_enabled (ar_cuda r))) results.

(** The second loop: the preferred kind among the modes close to the fastest. *)
Definition preferred (r best : autotune_result_t) : bool :=
  (autotune_result_priority r <? autotune_result_priority best) ||
  ((autotune_result_priority r =? autotune_result_priority best) && f64_lt (ar_hashrate best) (ar_hashrate r)).
Definition best_result (close_floor : double) (results : list autotune_result_t) : option autotune_result_t :=
  foldl (fun best r =>
      if negb (ar_ok r) || f64_lt (ar_hashrate r) close_floor then best
      else
        match best with
        | None => Some r
        | Some b => if preferred r b then Some r else best
        end) None results.

(** The settings of the chosen mode. *)
Definition apply_result (best : autotune_result_t) (cpu_ok gpu_ok : bool) (config : app_config_t) : app_config_t :=
  let config := set_cpu_enabled (0 <? ar_cpu_threads best) config in
  let config := AppConfig.set_thread_count (ar_cpu_threads best) config in
  let config := AppConfig.set_cpu_affinity (ar_cpu_affinity best) config in
  let config := set_opencl (ar_opencl best) config in
  let config := set_cuda (ar_cuda best) config in
  let config := if cpu_ok then set_cpu_autotune_done true config else config in
  if gpu_ok then set_gpu_autotune_done true config else config.

(** [Some None] when no mode works; [None] when the second loop finds no mode, whose
    null pointer would be followed. *)
Definition autotune_select (results : list autotune_result_t) (config : app_config_t)
    : option (option (app_config_t * autotune_result_t)) :=
  match fastest_result results with
  | None => Some None
  | Some fastest =>
      best ← best_result (f64_mul (ar_hashrate fastest) AUTOTUNE_SELECT_CLOSE_RATIO) results;
      Some (Some (apply_result best (cpu_autotune_ok results) (gpu_autotune_ok results) config, best))
  end.

(** All CPU threads there are to use, and the time of one measurement. *)
Definition autotune_full_threads (default_threads : Z) (config : app_config_t) : Z :=
  let full_threads := if 0 <? ac_thread_count config then ac_thread_count config else default_threads in
  let full_threads := if full_threads <? 0 then 0 else full_threads in
  if negb (ac_cpu_enabled config) then 0 else full_threads.
Definition autotune_run_seconds (config : app_config_t) : double :=
  if f64_lt (f64_of_Z 0) (ac_autotune_seconds config) then ac_autotune_seconds config else DEFAULT_AUTOTUNE_SECONDS.

Section run.
Context `{O : OpenSSL} {D : Type} `{J : Jansson} (env : nat -> run_env O D).
Context (affinity_supported : bool) (lib : opencl_library) (rt : cl_runtime) (g : btcrig_opencl_loader_t).

(** [Some None] is the return of -1, which leaves the configuration alone.  Otherwise the
    new configuration, the results with the one chosen, and the new text of the file if
    it is written. *)
Definition run_autotune (default_threads : Z) (path content : option string) (config : app_config_t)
    : tuning (option (app_config_t * list autotune_result_t * autotune_result_t * option string)) :=
  let full_threads := autotune_full_threads default_threads config in
  let seconds := autotune_run_seconds config in
  results ← autotune_measure env affinity_supported lib rt g config full_threads seconds;
  match autotune_select results config with
  | None => no_result
  | Some None => mret None
  | Some (Some (config, best)) =>
      mret (Some (config, results, best,
        if ac_autosave config then save_autotune_config path content config results (Some best) else None))
  end.
End run.

(** * Rules for sessions *)

(** The session returns and its result satisfies [Q]. *)
Definition wp {A} (c : tuning A) (Q : A -> list run -> Prop) (runs : list run) : Prop :=
  exists a runs', c runs = Some (a, runs') /\ Q a runs'.

Lemma wp_ret {A} (a : A) (Q : A -> list run -> Prop) runs : Q a runs -> wp (mret a) Q runs.
Proof. intros H. by exists a, runs. Qed.
Lemma wp_bind {A B} (c : tuning A) (f : A -> tuning B) Q runs :
  wp c (fun a => wp (f a) Q) runs -> wp (c ≫= f) Q runs.
Proof.
  intros (a & r1 & Hc & b & r2 & Hf & HQ). exists b, r2. split; [|done].
  unfold mbind, tuning_bind. by rewrite Hc.
Qed.
Lemma wp_mono {A} (c : tuning A) (Q Q' : A -> list run -> Prop) runs :
  wp c Q runs -> (forall a r, Q a r -> Q' a r) -> wp c Q' runs.
Proof. intros (a & r & Hc & HQ) H. exists a, r. auto. Qed.
Lemma wp_and {A} (c : tuning A) (Q Q' : A -> list run -> Prop) runs :
  wp c Q runs -> wp c Q' runs -> wp c (fun a r => Q a r /\ Q' a r) runs.
Proof. intros (a & r & Hc & HQ) (a' & r' & Hc' & HQ'). rewrite Hc in Hc'. injection Hc' as <- <-. by exists a, r. Qed.

(** New measurements: all with [P], at most [k]. *)
Definition grown (P : run -> Prop) (k : nat) (runs runs' : list run) : Prop :=
  exists new, runs' = runs ++ new /\ Forall P new /\ (length new <= k)%nat.
Lemma grown_refl P k runs : grown P k runs runs.
Proof. exists []. split; [by rewrite app_nil_r|]. split; [constructor|cbn; lia]. Qed.
Lemma grown_trans P k1 k2 k r1 r2 r3 : (k1 + k2 <= k)%nat -> grown P k1 r1 r2 -> grown P k2 r2 r3 -> grown P k r1 r3.
Proof.
  intros Hk (n1 & -> & H1 & L1) (n2 & -> & H2 & L2). exists (n1 ++ n2). rewrite app_assoc, length_app.
  split; [done|]. split; [by apply Forall_app|lia].
Qed.
Lemma grown_mono P k k' r1 r2 : (k <= k')%nat -> grown P k r1 r2 -> grown P k' r1 r2.
Proof. intros Hk (n & ? & ? & ?). exists n. split; [done|]. split; [done|lia]. Qed.
Lemma grown_one (P : run -> Prop) runs r : P r -> grown P 1 runs (runs ++ [r]).
Proof. intros Hr. exists [r]. split; [done|]. split; [by constructor|done]. Qed.
Lemma grown_in P k runs runs' r : grown P k runs runs' -> r ∈ runs -> r ∈ runs'.
Proof. intros (n & -> & _) H. apply elem_of_app. by left. Qed.

(** A loop whose body keeps [I] and makes at most [k] measurements a turn. *)
Lemma wp_for_each {A S} (I : S -> list run -> Prop) (P : run -> Prop) (k : nat) (l : list A) (body : A -> S -> tuning S) s runs :
  (forall x s runs, x ∈ l -> I s runs -> wp (body x s) (fun s' runs' => I s' runs' /\ grown P k runs runs') runs) ->
  I s runs -> wp (for_each l body s) (fun s' runs' => I s' runs' /\ grown P (length l * k) runs runs') runs.
Proof.
  revert s runs. induction l as [|x l IH]; intros s runs Hb Hs; [apply wp_ret; split; [done|apply grown_refl]|].
  cbn [for_each]. apply wp_bind. eapply wp_mono; [apply (Hb x s runs); [by left|done]|].
  intros s' r' [Hs' Hg]. eapply wp_mono; [apply IH; [|done]|].
  - intros y s1 r1 Hy. apply Hb. by right.
  - intros s2 r2 [Hs2 Hg2]. split; [done|]. eapply grown_trans; [|exact Hg|exact Hg2]. cbn. lia.
Qed.

(** * The choice among the results *)

Definition rates_ok (results : list autotune_result_t) : Prop := Forall (fun r => nonneg (ar_hashrate r)) results.
Lemma rates_snoc l r : rates_ok (l ++ [r]) -> rates_ok l /\ nonneg (ar_hashrate r).
Proof. intros H. apply Forall_app in H as [H1 H2]. split; [done|]. exact (Forall_inv H2). Qed.
Lemma rates_in l r : rates_ok l -> r ∈ l -> nonneg (ar_hashrate r).
Proof. unfold rates_ok. rewrite list.Forall_forall. auto. Qed.
Lemma elem_snoc {A} (l : list A) x r : r ∈ l ++ [x] -> r ∈ l \/ r = x.
Proof. rewrite elem_of_app, list_elem_of_singleton. done. Qed.

(** No working mode is faster. *)
Definition is_fastest (f : autotune_result_t) (results : list autotune_result_t) : Prop :=
  f ∈ results /\ ar_ok f = true /\
  forall r, r ∈ results -> ar_ok r = true -> f64_lt (ar_hashrate f) (ar_hashrate r) = false.
Lemma fastest_spec results :
  rates_ok results ->
  match fastest_result results with
  | None => Forall (fun r => ar_ok r = false) results
  | Some f => is_fastest f results
  end.
Proof.
  induction results as [|x l IH] using rev_ind; intros Hr; [constructor|]. apply rates_snoc in Hr as [Hr Hx].
  specialize (IH Hr). unfold fastest_result in *. rewrite foldl_app. cbn [foldl].
  set (acc := foldl _ None l) in *. clearbody acc.
  destruct (ar_ok x) eqn:Ex; cbn [negb].
  - destruct acc as [f|].
    + destruct IH as (Hf & Hok & Hmax). pose proof (rates_in _ _ Hr Hf) as Nf.
      destruct (f64_lt (ar_hashrate f) (ar_hashrate x)) eqn:E.
      * split; [apply elem_of_app; right; by apply list_elem_of_singleton|]. split; [done|].
        intros r [Hi| ->]%elem_snoc Hrok; [|apply f64_lt_irrefl]. apply not_true_iff_false. intros Hlt.
        specialize (Hmax r Hi Hrok). by rewrite (f64_lt_trans _ _ _ Nf Hx (rates_in _ _ Hr Hi) E Hlt) in Hmax.
      * split; [apply elem_of_app; by left|]. split; [done|].
        intros r [Hi| ->]%elem_snoc Hrok; [by apply Hmax|done].
    + split; [apply elem_of_app; right; by apply list_elem_of_singleton|]. split; [done|].
      intros r [Hi| ->]%elem_snoc Hrok; [|apply f64_lt_irrefl]. rewrite list.Forall_forall in IH.
      by rewrite (IH r Hi) in Hrok.
  - destruct acc as [f|].
    + destruct IH as (Hf & Hok & Hmax). split; [apply elem_of_app; by left|]. split; [done|].
      intros r [Hi| ->]%elem_snoc Hrok; [by apply Hmax|by rewrite Ex in Hrok].
    + apply Forall_app. split; [done|]. by apply list.Forall_singleton.
Qed.

(** The preferred kind first, then the rate. *)
Definition at_least (best r : autotune_result_t) : Prop :=
  autotune_result_priority best < autotune_result_priority r \/
  autotune_result_priority best = autotune_result_priority r /\ f64_lt (ar_hashrate best) (ar_hashrate r) = false.
Lemma preferred_false r best : preferred r best = false <-> at_least best r.
Proof.
  unfold preferred, at_least. destruct (Z.ltb_spec (autotune_result_priority r) (autotune_result_priority best)),
    (Z.eqb_spec (autotune_result_priority r) (autotune_result_priority best)); cbn [orb andb]; try lia.
  all: split; intros H1; first [done|left; lia|right; split; [lia|done]|destruct H1 as [?|[? ?]]; first [lia|done]].
Qed.
Lemma preferred_trans r x best :
  nonneg (ar_hashrate r) -> nonneg (ar_hashrate x) -> nonneg (ar_hashrate best) ->
  preferred x best = true -> at_least best r -> at_least x r.
Proof.
  intros Nr Nx Nb Hx Hr. unfold preferred in Hx. apply orb_true_iff in Hx as [Hx|Hx].
  - apply Z.ltb_lt in Hx. destruct Hr as [?|[? _]]; left; lia.
  - apply andb_true_iff in Hx as [He Hlt]. apply Z.eqb_eq in He. destruct Hr as [?|[? Hn]]; [left; lia|].
    right. split; [lia|]. apply not_true_iff_false. intros Hxr. by rewrite (f64_lt_trans _ _ _ Nb Nx Nr Hlt Hxr) in Hn.
Qed.

(** The modes the second loop considers. *)
Definition close_to (close_floor : double) (r : autotune_result_t) : Prop :=
  ar_ok r = true /\ f64_lt (ar_hashrate r) close_floor = false.
Lemma best_spec close_floor results :
  rates_ok results ->
  match best_result close_floor results with
  | None => forall r, r ∈ results -> ~ close_to close_floor r
  | Some best => best ∈ results /\ close_to close_floor best /\
      forall r, r ∈ results -> close_to close_floor r -> at_least best r
  end.
Proof.
  induction results as [|x l IH] using rev_ind; intros Hr; [intros r Hi; by apply elem_of_nil in Hi|].
  apply rates_snoc in Hr as [Hr Hx]. specialize (IH Hr). unfold best_result in *. rewrite foldl_app. cbn [foldl].
  set (acc := foldl _ None l) in *. clearbody acc.
  assert (Hself : at_least x x) by (right; split; [done|apply f64_lt_irrefl]).
  destruct (negb (ar_ok x) || f64_lt (ar_hashrate x) close_floor) eqn:Ex.
  - assert (Hnc : ~ close_to close_floor x).
    { intros [H1 H2]. by rewrite H1, H2 in Ex. }
    destruct acc as [best|]; [|intros r [Hi| ->]%elem_snoc; [by apply IH|done]]. destruct IH as (Hb & Hc & Hbest).
    split; [apply elem_of_app; by left|]. split; [done|]. intros r [Hi| ->]%elem_snoc Hcr; [by apply Hbest|done].
  - apply orb_false_iff in Ex as [E1 E2]. apply negb_false_iff in E1.
    assert (Hcx : close_to close_floor x) by done.
    destruct acc as [best|].
    + destruct IH as (Hb & Hc & Hbest). pose proof (rates_in _ _ Hr Hb) as Nb. destruct (preferred x best) eqn:Ep.
      * split; [apply elem_of_app; right; by apply list_elem_of_singleton|]. split; [done|].
        intros r [Hi| ->]%elem_snoc Hcr; [|done]. apply (preferred_trans r x best); try done; [by apply (rates_in l)|by apply Hbest].
      * split; [apply elem_of_app; by left|]. split; [done|].
        intros r [Hi| ->]%elem_snoc Hcr; [by apply Hbest|by apply preferred_false].
    + split; [apply elem_of_app; right; by apply list_elem_of_singleton|]. split; [done|].
      intros r [Hi| ->]%elem_snoc Hcr; [by destruct (IH r Hi)|done].
Qed.

Lemma ratio_below_one : below_one AUTOTUNE_SELECT_CLOSE_RATIO.
Proof. vm_compute. done. Qed.

(** What [run_autotune] chooses. *)
Definition selected (results : list autotune_result_t) (best : autotune_result_t) : Prop :=
  exists fastest, is_fastest fastest results /\
    let close := close_to (f64_mul (ar_hashrate fastest) AUTOTUNE_SELECT_CLOSE_RATIO) in
    best ∈ results /\ close best /\ forall r, r ∈ results -> close r -> at_least best r.

Lemma select_spec results config :
  rates_ok results ->
  exists o, autotune_select results config = Some o /\
    match o with
    | None => Forall (fun r => ar_ok r = false) results
    | Some (config', best) => selected results best /\
        config' = apply_result best (cpu_autotune_ok results) (gpu_autotune_ok results) config
    end.
Proof.
  intros Hr. unfold autotune_select. pose proof (fastest_spec results Hr) as Hf.
  destruct (fastest_result results) as [fastest|]; [|by exists None].
  set (close_floor := f64_mul (ar_hashrate fastest) AUTOTUNE_SELECT_CLOSE_RATIO).
  pose proof (best_spec close_floor results Hr) as Hb. pose proof Hf as (Hi & Hok & _).
  destruct (best_result close_floor results) as [best|].
  - eexists. split; [reflexivity|]. split; [by exists fastest|done].
  - exfalso. apply (Hb fastest Hi). split; [done|].
    exact (proj1 (f64_scale_le _ _ (rates_in _ _ Hr Hi) ratio_below_one)).
Qed.

(** C13.  Of the modes measured autotuning takes a working one within ten percent of the
    fastest, of the preferred kind among these (GPU alone, then CPU alone, then both)
    and the fastest of that kind; it fails exactly when no mode works.  This is the
    margin [AUTOTUNE_SELECT_CLOSE_RATIO] of stratum_main.c, and not what README.md,
    BUILD_LINUX.md and BUILD_WINDOWS.md say, that the fastest mode is the one saved: the
    witness takes a mode slower than the fastest by five percent. *)
Theorem autotune_selects results config :
  rates_ok results ->
  exists o, autotune_select results config = Some o /\
    match o with
    | None => Forall (fun r => ar_ok r = false) results
    | Some (config', best) => selected results best /\
        config' = apply_result best (cpu_autotune_ok results) (gpu_autotune_ok results) config
    end.
Proof. apply select_spec. Qed.

(** * Concrete instances *)

(** A GPU alone is preferred to a GPU with the CPU that is five percent faster. *)
Definition wcuda_on : miner_cuda_config_t := set_cuda_enabled true miner_cuda_config_defaults.
Definition wresult (name : string) (threads : Z) (cuda : miner_cuda_config_t) (rate : Z) : autotune_result_t :=
  AutotuneResult name threads false autotune_disable_opencl cuda (f64_of_Z rate) true.
Definition wresults : list autotune_result_t :=
  [wresult "cpu" 4 autotune_disable_cuda 50; wresult "cpu+cuda" 4 wcuda_on 100; wresult "cuda" 0 wcuda_on 95].
Lemma autotune_selects_witness : exists config' best,
  autotune_select wresults app_config_set_defaults = Some (Some (config', best)) /\
  ar_name best = "cuda"%string /\ selected wresults best.
Proof.
  destruct (autotune_selects wresults app_config_set_defaults) as (o & E & H).
  - repeat apply list.Forall_cons_2; [vm_compute; by split..|apply list.Forall_nil; exact I].
  - assert (En : from_option (fun r => from_option (fun p => ar_name (snd p)) ""%string r) ""%string
      (autotune_select wresults app_config_set_defaults) = "cuda"%string) by (vm_compute; reflexivity).
    rewrite E in En. destruct o as [[config' best]|]; [|discriminate En]. exists config', best.
    split; [exact E|]. split; [exact En|]. exact (proj1 H).
Defined.
