(* ===== verification/AutotuneRun.v ===== *)
(** Autotuning from end to end: every configuration it measures is well formed, it
    returns, and what it leaves is a configuration the client can mine with, also as
    part of [main] (src/src/stratum_main.c). *)
From stdpp Require Import base tactics list option strings numbers.
From Stdlib Require Import ZArith Lia Ascii SpecFloat.
From S2P Require Import Prelude Words Fips Sha256d Float64 FloatOrder Hex Target Job Miner Json Stratum FrontEnd.
From S2P Require Import AppConfig AutotuneSave CpuInfo OpenclMiner Autotune.

#[local] Open Scope Z_scope.

(** * What is assumed of the outside *)

Section env.
Context `{O : OpenSSL} {D : Type}.

(** The clock gives finite numbers and passes the end of the measurement; the counters
    are 64-bit numbers. *)
Record env_ok (seconds : double) (re : run_env O D) : Prop := {
  eo_clock : exists started_at waits now ended_at rest,
    re_clock re = started_at :: waits ++ now :: ended_at :: rest /\
    let quarter := f64_div (f64_of_Z 1) (f64_of_Z 4) in
    f64_lt now (f64_add started_at (if f64_lt seconds quarter then quarter else seconds)) = false;
  eo_readings : Forall (fun t => valid_binary prec emax t = true /\ f64_finite t = true) (re_clock re);
  eo_hashes : forall m, is_u64 (miner_hashes (fst (re_run re m))) /\ is_u64 (miner_hashes (snd (re_run re m)));
}.

Lemma wait_until_returns stop_at waits now ended_at rest :
  f64_lt now stop_at = false ->
  exists t clock, wait_until stop_at (waits ++ now :: ended_at :: rest) = Some (t :: clock) /\
    t ∈ waits ++ now :: ended_at :: rest.
Proof.
  intros Hn. induction waits as [|w waits IH]; cbn [app wait_until].
  - rewrite Hn. exists ended_at, rest. split; [done|]. right. by left.
  - destruct (f64_lt w stop_at).
    + destruct IH as (t & clock & -> & Ht). exists t, clock. split; [done|by right].
    + destruct waits as [|w' waits]; cbn [app]; do 2 eexists; (split; [done|]); right; by left.
Qed.

Lemma run_mode_returns seconds re su :
  env_ok seconds re -> exists hashrate ok, autotune_run_mode re su seconds = Some (hashrate, ok) /\ nonneg hashrate.
Proof.
  intros [(started_at & waits & now & ended_at & rest & Hc & Hnow) Hr Hh]. unfold autotune_run_mode. cbv zeta in *.
  assert (H0 : nonneg (f64_of_Z 0)) by done.
  destruct (miner_start _ _) as [[m spawned] rc]. destruct (negb (rc =? 0)); [by eauto|].
  destruct (_ && _); [by eauto|]. destruct (_ && _); [by eauto|].
  rewrite Hc. set (m1 := miner_set_job m autotune_make_job). specialize (Hh m1).
  destruct (re_run re m1) as [ms me]. cbn [fst snd] in Hh.
  destruct (wait_until_returns _ waits now ended_at rest Hnow) as (t & clock & Hw & Ht). rewrite Hw. cbn [mbind option_bind head].
  rewrite Hc in Hr. apply list.Forall_cons in Hr as [[Vs Fs] Hr]. rewrite list.Forall_forall in Hr. destruct (Hr t Ht) as [Vt Ft].
  destruct (f64_le (f64_sub t started_at) (f64_of_Z 0)) eqn:El; cbn [orb]; [by eauto|].
  destruct (Z.leb_spec (miner_hashes me) (miner_hashes ms)) as [|Hlt]; [by eauto|].
  do 2 eexists. split; [done|]. destruct Hh as [[? _] [_ ?]].
  destruct (f64_of_count (miner_hashes me - miner_hashes ms)) as (mm & e & ->); [lia|].
  apply f64_div_nonneg; [by apply f64_sub_positive|done].
Qed.

Context (env : nat -> run_env O D) (seconds : double) (Henv : forall n, env_ok seconds (env n)).

Lemma wp_run_mode su (Q : double * bool -> list run -> Prop) runs :
  (forall hashrate ok, nonneg hashrate -> Q (hashrate, ok) (runs ++ [Run su hashrate ok])) ->
  wp (run_mode env su seconds) Q runs.
Proof.
  intros HQ. destruct (run_mode_returns seconds (env (length runs)) su (Henv _)) as (hashrate & ok & E & Hn).
  exists (hashrate, ok), (runs ++ [Run su hashrate ok]). split; [|by apply HQ].
  unfold run_mode. by rewrite E.
Qed.
End env.

(** * The configurations measured are well formed *)

Lemma candidates_step values raw :
  let out := foldl (fun values value => if value_seen_u32 values value then values else values ++ [value]) values raw in
  (forall v, v ∈ out <-> v ∈ values \/ v ∈ raw) /\ (length out <= length values + length raw)%nat /\
  (NoDup values -> NoDup out).
Proof.
  revert values. induction raw as [|x raw IH]; intros values; cbn [foldl].
  - split; [|split; [cbn; lia|done]]. intros v. split; [by left|]. intros [H|H]; [done|by apply elem_of_nil in H].
  - assert (Hs : value_seen_u32 values x = true <-> x ∈ values).
    { unfold value_seen_u32. rewrite existsb_exists. split.
      - intros (y & Hy & E). apply Z.eqb_eq in E as ->. by apply list_elem_of_In.
      - intros H. exists x. split; [by apply list_elem_of_In|apply Z.eqb_refl]. }
    destruct (value_seen_u32 values x) eqn:E.
    + destruct (IH values) as (H1 & H2 & H3). split; [|split; [cbn; lia|done]].
      intros v. rewrite H1, elem_of_cons. split; [tauto|]. intros [H|[->|H]]; [by left|left; by apply Hs|by right].
    + destruct (IH (values ++ [x])) as (H1 & H2 & H3). rewrite length_app in H2. cbn [length] in *.
      split; [|split; [lia|]].
      * intros v. rewrite H1, elem_of_app, list_elem_of_singleton, elem_of_cons. tauto.
      * intros Hn. apply H3, list.NoDup_app. split; [done|]. split; [|by apply NoDup_singleton].
        intros y Hy ->%list_elem_of_singleton. apply Hs in Hy. done.
Qed.
(** Each value of the array is tried, and once. *)
Lemma candidates_spec raw :
  (forall v, v ∈ candidates raw <-> v ∈ raw) /\ (length (candidates raw) <= length raw)%nat /\ NoDup (candidates raw).
Proof.
  destruct (candidates_step [] raw) as (H1 & H2 & H3). split; [|split; [exact H2|apply H3; constructor]].
  intros v. unfold candidates. rewrite H1, elem_of_nil. tauto.
Qed.
Lemma candidates_in (P : Z -> Prop) raw v : Forall P raw -> v ∈ candidates raw -> P v.
Proof. intros H Hv. apply (proj1 (candidates_spec raw)) in Hv. rewrite list.Forall_forall in H. auto. Qed.

Lemma device_list_ok base devices :
  opencl_ok base -> Forall device_ok devices -> opencl_ok (autotune_device_list_config (Some base) devices).
Proof.
  intros Hb Hd. unfold autotune_device_list_config. cbn [default].
  assert (Hp : Forall device_ok (take MINER_OPENCL_MAX_DEVICES devices)) by (by apply Forall_take).
  assert (Hl : (length (take MINER_OPENCL_MAX_DEVICES devices) <= MINER_OPENCL_MAX_DEVICES)%nat) by (rewrite length_take; lia).
  cbv zeta. set (placed := take MINER_OPENCL_MAX_DEVICES devices) in *. clearbody placed.
  assert (Hall : length (placed ++ drop (length placed) (oc_devices base)) = MINER_OPENCL_MAX_DEVICES /\
    Forall device_ok (placed ++ drop (length placed) (oc_devices base))).
  { destruct Hb. rewrite length_app, length_drop, ok_length. split; [lia|]. apply Forall_app. split; [done|by apply Forall_drop]. }
  destruct Hall as [Ha1 Ha2].
  destruct placed as [|first rest]; destruct Hb; split; cbn [set_place set_devices set_all_devices set_enabled oc_platform
    oc_device oc_batch_size oc_local_work_size oc_nonces_per_work_item oc_max_results oc_backend_variant oc_kernel_variant
    oc_device_count oc_devices] in *; try done; try lia; try (apply list.Forall_cons in Hp as [[] _]; done).
Qed.
Lemma device_list_enabled base devices :
  oc_enabled (autotune_device_list_config base devices) = (0 <? length devices)%nat.
Proof. unfold autotune_device_list_config. cbv zeta. by case_match. Qed.

(** A kernel that can be built and launched with its settings. *)
Record opencl_runnable (d : miner_opencl_device_config_t) : Prop := {
  or_kernel : MINER_OPENCL_KERNEL_COMPACT <= od_kernel_variant d <= MINER_OPENCL_KERNEL_REGISTER_HEAVY;
  or_backend : MINER_OPENCL_BACKEND_COMPAT10 <= od_backend_variant d <= MINER_OPENCL_BACKEND_MODERN;
  or_fits : opencl_kernel_backend_compatible (od_backend_variant d) (od_kernel_variant d) = true;
  or_npi : 1 <= od_nonces_per_work_item d;
  or_forced : opencl_kernel_forced_npi (od_kernel_variant d) <> 0 ->
    od_nonces_per_work_item d = opencl_kernel_forced_npi (od_kernel_variant d);
}.
Definition same_device (d d' : miner_opencl_device_config_t) : Prop :=
  od_platform d = od_platform d' /\ od_device d = od_device d' /\ od_max_results d = od_max_results d'.

Record cuda_runnable (c : miner_cuda_config_t) : Prop := {
  cr_enabled : cc_enabled c = true;
  cr_block : 32 <= cc_threads_per_block c <= 1024 /\ cc_threads_per_block c mod 32 = 0;
  cr_npt : 1 <= cc_nonces_per_thread c <= 16;
  cr_batch : 1024 <= cc_batch_size c;
  cr_forced : autotune_cuda_kernel_forced_npt (cc_kernel_variant c) <> 0 ->
    cc_nonces_per_thread c = autotune_cuda_kernel_forced_npt (cc_kernel_variant c);
}.

(** What every measurement is given. *)
Record setup_ok (su : setup) : Prop := {
  so_threads : is_i32 (su_cpu_threads su) /\ 0 <= su_cpu_threads su;
  so_affinity : su_cpu_affinity su = true -> 0 < su_cpu_threads su;
  so_opencl : forall oc, su_opencl su = Some oc -> opencl_ok oc;
  so_cuda : forall cc, su_cuda su = Some cc -> cuda_ok cc;
}.
Definition run_setup_ok (r : run) : Prop := setup_ok (run_setup r).

Lemma forced_npi_range k : 0 <= opencl_kernel_forced_npi k <= 4.
Proof. unfold opencl_kernel_forced_npi, opencl_kernel_fixed_npi. repeat case_match; lia. Qed.
Lemma tuned_npt_range k : 0 <= autotune_cuda_kernel_forced_npt k <= 4.
Proof. unfold autotune_cuda_kernel_forced_npt. repeat case_match; lia. Qed.

Section params.
Context `{O : OpenSSL} {D : Type} (env : nat -> run_env O D) (seconds : double).
Context (Henv : forall n, env_ok seconds (env n)).

Lemma gpu_setup_ok opencl cuda :
  (forall oc, opencl = Some oc -> opencl_ok oc) -> (forall cc, cuda = Some cc -> cuda_ok cc) ->
  setup_ok (Setup 0 false opencl cuda).
Proof. by split. Qed.

(** Values of an explicit list of candidates. *)
Ltac by_values :=
  apply list.Forall_forall; intros v Hv; refine (candidates_in _ _ v _ Hv); clear v Hv; cbn [fmap list_fmap];
  repeat (apply list.Forall_cons_2); try apply list.Forall_nil; cbn beta;
  repeat match goal with
  | |- context [?x =? ?y] => destruct (Z.eqb_spec x y)
  | |- context [?x <? ?y] => destruct (Z.ltb_spec x y)
  end; lia.

(** ** OpenCL *)

Section opencl.
Context (base : miner_opencl_config_t) (device : miner_opencl_device_config_t).
Context (Hbase : opencl_ok base) (Hdevice : device_ok device).

Lemma opencl_candidates_ok :
  Forall is_u32 (opencl_local_candidates base device) /\
  Forall (fun v => is_u32 v /\ 1 <= v) (opencl_npi_candidates base device) /\
  Forall (fun v => is_u32 v /\ 1024 <= v) (opencl_batch_candidates base device) /\
  Forall (fun v => MINER_OPENCL_KERNEL_COMPACT <= v <= MINER_OPENCL_KERNEL_REGISTER_HEAVY)
    (opencl_kernel_candidates base device) /\
  Forall (fun v => MINER_OPENCL_BACKEND_COMPAT10 <= v <= MINER_OPENCL_BACKEND_MODERN)
    (opencl_backend_candidates base device).
Proof.
  destruct Hbase, Hdevice. unfold is_u32 in *. split_and!.
  - by_values.
  - by_values.
  - by_values.
  - apply list.Forall_forall. intros v Hv. apply (proj1 (candidates_spec _)), list_elem_of_In, filter_In in Hv as [_ Hv].
    apply negb_true_iff, orb_false_iff in Hv as [H1 H2]. apply Z.ltb_ge in H1, H2. done.
  - unfold opencl_backend_candidates. repeat case_match; repeat apply list.Forall_cons_2; by try apply list.Forall_nil.
Qed.

(** What the loops keep: the best device so far, and that it was measured. *)
Definition measured_opencl (d : miner_opencl_device_config_t) (runs : list run) : Prop :=
  exists hashrate, nonneg hashrate /\
    Run (Setup 0 false (Some (autotune_device_list_config (Some base) [d])) None) hashrate true ∈ runs.
Definition best_opencl_inv (best : best_opencl) (runs : list run) : Prop :=
  let '(d, hashrate, ok) := best in
  device_ok d /\ same_device d device /\ nonneg hashrate /\
  (ok = true -> opencl_runnable d /\ measured_opencl d runs) /\ (ok = false -> d = device).

Lemma measured_grown d P k runs runs' : grown P k runs runs' -> measured_opencl d runs -> measured_opencl d runs'.
Proof. intros Hg (h & Hn & Hi). exists h. split; [done|]. by eapply grown_in. Qed.

Lemma try_opencl d best runs better :
  device_ok d -> same_device d device -> opencl_runnable d -> best_opencl_inv best runs ->
  wp ('(hashrate, ok) ← run_mode env (Setup 0 false (Some (autotune_device_list_config (Some base) [d])) None) seconds;
      mret (if ok && better hashrate then (d, hashrate, true) else best))
    (fun best' runs' => best_opencl_inv best' runs' /\ grown run_setup_ok 1 runs runs') runs.
Proof.
  intros Hd Hs Hr Hb. apply wp_bind, (wp_run_mode env seconds Henv). intros hashrate ok Hn. apply wp_ret.
  assert (Hg : forall b, grown run_setup_ok 1 runs
    (runs ++ [Run (Setup 0 false (Some (autotune_device_list_config (Some base) [d])) None) hashrate b])).
  { intros b. apply grown_one, gpu_setup_ok; [|done]. intros oc [= <-]. apply device_list_ok; [done|by constructor]. }
  split; [|apply Hg]. destruct (ok && better hashrate) eqn:E.
  - apply andb_true_iff in E as [-> _]. split_and!; try done. intros _. split; [done|].
    exists hashrate. split; [done|]. apply elem_of_app. right. by apply list_elem_of_singleton.
  - destruct best as [[d' h'] ok']. destruct Hb as (H1 & H2 & H3 & H4 & H5). split_and!; try done.
    intros Hok. destruct (H4 Hok) as [? Hm]. split; [done|]. by eapply measured_grown.
Qed.

Lemma try_kernel_keeps backend kernel local npi best runs :
  backend ∈ opencl_backend_candidates base device -> kernel ∈ opencl_kernel_candidates base device ->
  opencl_kernel_backend_compatible backend kernel = true ->
  local ∈ opencl_local_candidates base device -> npi ∈ opencl_npi_candidates base device ->
  best_opencl_inv best runs ->
  wp (opencl_try_kernel env base device seconds backend kernel local npi best)
    (fun best' runs' => best_opencl_inv best' runs' /\ grown run_setup_ok 1 runs runs') runs.
Proof.
  intros Hb Hk Hc Hl Hn Hi. destruct opencl_candidates_ok as (Cl & Cn & _ & Ck & Cb).
  rewrite list.Forall_forall in Cl, Cn, Ck, Cb. specialize (Cl _ Hl). specialize (Cb _ Hb). specialize (Ck _ Hk).
  destruct (Cn _ Hn) as [Cn1 Cn2]. destruct best as [[d h] ok]. unfold opencl_try_kernel.
  pose proof (forced_npi_range kernel) as Hf.
  destruct (Z.eqb_spec (opencl_kernel_forced_npi kernel) 0) as [E0|E0]; cbn [negb andb].
  2: destruct (Z.eqb_spec npi (opencl_kernel_forced_npi kernel)) as [->|]; cbn [negb];
       [|apply wp_ret; split; [done|apply grown_refl]].
  all: apply (try_opencl _ (d, h, ok) runs (fun r => negb ok || autotune_hashrate_is_better r h)); [..|done].
  all: destruct Hi as ([] & Hs & _), Hdevice; try done; split; cbn [opencl_candidate od_platform od_device od_batch_size
    od_local_work_size od_nonces_per_work_item od_max_results od_backend_variant od_kernel_variant]; try done;
    unfold opencl_backend_ok, opencl_kernel_ok, MINER_OPENCL_KERNEL_COMPACT, MINER_OPENCL_KERNEL_AUTO,
      MINER_OPENCL_BACKEND_AUTO, MINER_OPENCL_BACKEND_COMPAT10, is_u32 in *; lia.
Qed.

Definition tuned_inv (best : best_opencl) (runs : list run) : Prop := best_opencl_inv best runs /\ snd best = true.
Lemma try_batch_keeps batch best runs :
  batch ∈ opencl_batch_candidates base device -> tuned_inv best runs ->
  wp (opencl_try_batch env base seconds batch best)
    (fun best' runs' => tuned_inv best' runs' /\ grown run_setup_ok 1 runs runs') runs.
Proof.
  intros Hb [Hi Hok]. destruct opencl_candidates_ok as (_ & _ & Cb & _). rewrite list.Forall_forall in Cb.
  destruct (Cb _ Hb) as [Cb1 Cb2]. destruct best as [[d h] ok]. cbn [snd] in Hok. subst ok. unfold opencl_try_batch.
  pose proof Hi as (Hd & Hs & _ & Hr & _). destruct (Hr eq_refl) as [[] _].
  eapply wp_mono; [apply (wp_and _ (fun b r => best_opencl_inv b r /\ grown run_setup_ok 1 runs r) (fun b _ => snd b = true))|
                   intros b r [[H1 H2] H3]; done].
  - apply (try_opencl _ (d, h, true) runs (fun r => autotune_batch_hashrate_is_better r h)); [| | |done].
    + destruct Hd; by split.
    + done.
    + by split.
  - apply wp_bind, (wp_run_mode env seconds Henv). intros. apply wp_ret. by case_match.
Qed.

Lemma opencl_params_ok runs :
  wp (autotune_opencl_device_params env base seconds device)
    (fun d runs' => (device_ok d /\ same_device d device /\
       (d = device \/ opencl_runnable d /\ measured_opencl d runs')) /\ grown run_setup_ok 488 runs runs') runs.
Proof.
  assert (Hlen : (length (opencl_backend_candidates base device) <= 2)%nat /\
    (length (opencl_kernel_candidates base device) <= 8)%nat /\ (length (opencl_local_candidates base device) <= 6)%nat /\
    (length (opencl_npi_candidates base device) <= 5)%nat /\ (length (opencl_batch_candidates base device) <= 8)%nat).
  { split_and!; [unfold opencl_backend_candidates; repeat case_match; cbn; lia| |apply candidates_spec..].
    etransitivity; [apply candidates_spec|]. etransitivity; [apply List.filter_length_le|]. done. }
  destruct Hlen as (Lb & Lk & Ll & Ln & Lba).
  unfold autotune_opencl_device_params. apply wp_bind.
  eapply wp_mono.
  - apply (wp_for_each best_opencl_inv run_setup_ok (8 * (6 * 5))).
    + intros backend best r Hb Hi. eapply wp_mono; [apply (wp_for_each best_opencl_inv run_setup_ok (6 * 5)); [|exact Hi]|].
      * intros kernel b r1 Hk Hi1. destruct (opencl_kernel_backend_compatible backend kernel) eqn:Ec; cbn [negb];
          [|apply wp_ret; split; [done|apply grown_refl]].
        eapply wp_mono; [apply (wp_for_each best_opencl_inv run_setup_ok 5); [|exact Hi1]|].
        -- intros local b2 r2 Hl Hi2. eapply wp_mono; [apply (wp_for_each best_opencl_inv run_setup_ok 1); [|exact Hi2]|].
           ++ intros npi b3 r3 Hn Hi3. by apply try_kernel_keeps.
           ++ intros b3 r3 [Hi3 Hg]. split; [done|]. eapply grown_mono; [|exact Hg]. lia.
        -- intros b2 r2 [Hi2 Hg]. split; [done|]. eapply grown_mono; [|exact Hg]. lia.
      * intros b r1 [Hi1 Hg]. split; [done|]. eapply grown_mono; [|exact Hg]. lia.
    + split_and!; try done.
  - intros [[d h] ok] r [Hi Hg]. destruct ok; cbn [negb].
    + apply wp_bind. eapply wp_mono; [apply (wp_for_each tuned_inv run_setup_ok 1); [|by split]|].
      * intros batch b r1 Hb Hi1. by apply try_batch_keeps.
      * intros [[d2 h2] ok2] r2 [[(Hd & Hs & _ & Hr & _) Hok] Hg2]. cbn [snd] in Hok. apply wp_ret.
        split; [split_and!; [done|done|right; by apply Hr]|]. eapply grown_trans; [|exact Hg|exact Hg2]. lia.
    + apply wp_ret. destruct Hi as (Hd & Hs & _ & _ & He). specialize (He eq_refl). subst d.
      split; [split_and!; [done|done|by left]|]. eapply grown_mono; [|exact Hg]. lia.
Qed.
End opencl.

(** ** The CUDA device *)

Lemma cuda_block_value v : is_u32 v -> 32 <= autotune_cuda_block_value v <= 1024 /\ autotune_cuda_block_value v mod 32 = 0.
Proof.
  intros Hv. unfold autotune_cuda_block_value. cbv zeta. fold (add32 (if 1024 <? (if (if v =? 0 then
    MINER_CUDA_DEFAULT_THREADS_PER_BLOCK else v) <? 32 then 32 else if v =? 0 then MINER_CUDA_DEFAULT_THREADS_PER_BLOCK else v)
    then 1024 else if (if v =? 0 then MINER_CUDA_DEFAULT_THREADS_PER_BLOCK else v) <? 32 then 32
    else if v =? 0 then MINER_CUDA_DEFAULT_THREADS_PER_BLOCK else v) 31).
  match goal with |- context [add32 ?u 31] => assert (Hu : 32 <= u <= 1024); [|set (x := u) in *; clearbody x] end.
  { repeat match goal with
    | |- context [?x =? ?y] => destruct (Z.eqb_spec x y)
    | |- context [?x <? ?y] => destruct (Z.ltb_spec x y)
    end; lia. }
  rewrite round_up_32 by done. pose proof (Z.div_mod (x + 31) 32 ltac:(lia)).
  pose proof (Z.mod_pos_bound (x + 31) 32 ltac:(lia)). split; [lia|].
  rewrite Z.mul_comm. apply Z.mod_mul. lia.
Qed.
Lemma cuda_npt_value v : is_u32 v -> 1 <= autotune_cuda_npt_value v <= 16.
Proof.
  intros Hv. unfold autotune_cuda_npt_value, is_u32, MINER_CUDA_DEFAULT_NONCES_PER_THREAD in *. cbv zeta.
  repeat match goal with
  | |- context [?x =? ?y] => destruct (Z.eqb_spec x y)
  | |- context [?x <? ?y] => destruct (Z.ltb_spec x y)
  end; lia.
Qed.
Lemma cuda_batch_value v : is_u32 v -> is_u32 (autotune_cuda_batch_value v) /\ 1024 <= autotune_cuda_batch_value v.
Proof.
  intros Hv. unfold autotune_cuda_batch_value, is_u32, MINER_CUDA_DEFAULT_BATCH_SIZE in *. cbv zeta.
  repeat match goal with
  | |- context [?x =? ?y] => destruct (Z.eqb_spec x y)
  | |- context [?x <? ?y] => destruct (Z.ltb_spec x y)
  end; lia.
Qed.

Section cuda.
Context (config : miner_cuda_config_t) (Hconfig : cuda_ok config).

Lemma mapped_candidates (f : Z -> Z) (P : Z -> Prop) raw :
  (forall v, is_u32 v -> P (f v)) -> Forall is_u32 raw -> Forall P (candidates (f <$> raw)).
Proof.
  intros Hf Hr. apply list.Forall_forall. intros v Hv. refine (candidates_in P _ v _ Hv).
  apply Forall_fmap. eapply list.Forall_impl; [exact Hr|]. intros x Hx. by apply Hf.
Qed.
Lemma cuda_candidates_ok :
  Forall (fun v => 32 <= v <= 1024 /\ v mod 32 = 0) (cuda_block_candidates config) /\
  Forall (fun v => 1 <= v <= 16) (cuda_npt_candidates config) /\
  Forall (fun v => is_u32 v /\ 1024 <= v) (cuda_batch_candidates config) /\
  Forall cuda_kernel_ok (cuda_kernel_candidates config).
Proof.
  destruct Hconfig. split_and!.
  - apply mapped_candidates; [exact cuda_block_value|]. repeat apply list.Forall_cons_2; by try apply list.Forall_nil.
  - apply mapped_candidates; [exact cuda_npt_value|]. repeat apply list.Forall_cons_2; by try apply list.Forall_nil.
  - apply mapped_candidates; [exact cuda_batch_value|]. repeat apply list.Forall_cons_2; by try apply list.Forall_nil.
  - apply list.Forall_forall. intros v Hv. apply (proj1 (candidates_spec _)), list_elem_of_In, filter_In in Hv as [Hin Hv].
    apply Z.leb_le in Hv. split; [|done]. destruct Hin as [<-|Hin]; [apply u32_range|].
    repeat (destruct Hin as [<-|Hin]; [done|]). done.
Qed.

Definition measured_cuda (c : miner_cuda_config_t) (runs : list run) : Prop :=
  exists hashrate, nonneg hashrate /\ Run (Setup 0 false None (Some c)) hashrate true ∈ runs.
Definition best_cuda_inv (best : best_cuda) (runs : list run) : Prop :=
  let '(c, hashrate, ok) := best in
  cuda_ok c /\ cuda_runnable c /\ nonneg hashrate /\ cc_device c = cc_device config /\
  cc_max_results c = cc_max_results config /\ (ok = true -> measured_cuda c runs).

Lemma first_config_inv runs : best_cuda_inv (cuda_first_config config, f64_of_Z 0, false) runs.
Proof.
  destruct Hconfig. unfold cuda_first_config. cbv zeta.
  set (k := in_range _ _ _ _).
  assert (Hk : cuda_kernel_ok k).
  { unfold k, in_range. destruct (Z.ltb_spec (cc_kernel_variant config) MINER_CUDA_KERNEL_STANDARD); [done|].
    by destruct (Z.ltb_spec MINER_CUDA_KERNEL_LAST (cc_kernel_variant config)). }
  pose proof (tuned_npt_range k) as Hf. pose proof (cuda_npt_value _ ck_npt) as Hn.
  pose proof (cuda_block_value _ ck_threads) as Hb. pose proof (cuda_batch_value _ ck_batch) as Ha.
  assert (Hnpt : 1 <= (if negb (autotune_cuda_kernel_forced_npt k =? 0) then autotune_cuda_kernel_forced_npt k
    else autotune_cuda_npt_value (cc_nonces_per_thread config)) <= 16)
    by (destruct (Z.eqb_spec (autotune_cuda_kernel_forced_npt k) 0); cbn [negb]; lia).
  split_and!; try done.
  - split; cbn; try done; [apply Ha|unfold is_u32; lia..].
  - split; cbn; try done; [apply Ha|]. intros Hne. by destruct (Z.eqb_spec (autotune_cuda_kernel_forced_npt k) 0).
Qed.

Lemma try_cuda c best runs better :
  cuda_ok c -> cuda_runnable c -> cc_device c = cc_device config -> cc_max_results c = cc_max_results config ->
  best_cuda_inv best runs ->
  wp ('(hashrate, ok) ← run_mode env (Setup 0 false None (Some c)) seconds;
      mret (if ok && better hashrate then (c, hashrate, true) else best))
    (fun best' runs' => best_cuda_inv best' runs' /\ grown run_setup_ok 1 runs runs') runs.
Proof.
  intros Hc Hr Hd Hm Hb. apply wp_bind, (wp_run_mode env seconds Henv). intros hashrate ok Hn. apply wp_ret.
  assert (Hg : forall b, grown run_setup_ok 1 runs (runs ++ [Run (Setup 0 false None (Some c)) hashrate b])).
  { intros b. apply grown_one, gpu_setup_ok; [done|]. by intros cc [= <-]. }
  split; [|apply Hg]. destruct (ok && better hashrate) eqn:E.
  - apply andb_true_iff in E as [-> _]. split_and!; try done. intros _.
    exists hashrate. split; [done|]. apply elem_of_app. right. by apply list_elem_of_singleton.
  - destruct best as [[c' h'] ok']. destruct Hb as (H1 & H2 & H3 & H4 & H5 & H6). split_and!; try done.
    intros Hok. destruct (H6 Hok) as (h & Hh & Hi). exists h. split; [done|]. eapply grown_in; [apply Hg|done].
Qed.

Lemma try_cuda_kernel_keeps kernel block npt best runs :
  kernel ∈ cuda_kernel_candidates config -> block ∈ cuda_block_candidates config -> npt ∈ cuda_npt_candidates config ->
  best_cuda_inv best runs ->
  wp (cuda_try_kernel env seconds kernel block npt best)
    (fun best' runs' => best_cuda_inv best' runs' /\ grown run_setup_ok 1 runs runs') runs.
Proof.
  intros Hk Hb Hn Hi. destruct cuda_candidates_ok as (Cb & Cn & _ & Ck). rewrite list.Forall_forall in Cb, Cn, Ck.
  specialize (Ck _ Hk). specialize (Cb _ Hb) as [Cb1 Cb2]. specialize (Cn _ Hn).
  destruct best as [[c h] ok]. unfold cuda_try_kernel. pose proof (tuned_npt_range kernel) as Hf.
  destruct (Z.eqb_spec (autotune_cuda_kernel_forced_npt kernel) 0) as [E0|E0]; cbn [negb andb].
  2: destruct (Z.eqb_spec npt (autotune_cuda_kernel_forced_npt kernel)) as [->|]; cbn [negb];
       [|apply wp_ret; split; [done|apply grown_refl]].
  all: apply (try_cuda _ (c, h, ok) runs (fun r => negb ok || autotune_hashrate_is_better r h)); [..|done].
  all: destruct Hi as ([] & [] & _ & Hd & Hm & _); try done; split; cbn [cuda_candidate cc_enabled cc_device cc_batch_size
    cc_threads_per_block cc_nonces_per_thread cc_max_results cc_kernel_variant]; try done; unfold is_u32; lia.
Qed.

Definition tuned_cuda_inv (best : best_cuda) (runs : list run) : Prop := best_cuda_inv best runs /\ snd best = true.
Lemma try_cuda_batch_keeps batch best runs :
  batch ∈ cuda_batch_candidates config -> tuned_cuda_inv best runs ->
  wp (cuda_try_batch env seconds batch best)
    (fun best' runs' => tuned_cuda_inv best' runs' /\ grown run_setup_ok 1 runs runs') runs.
Proof.
  intros Hb [Hi Hok]. destruct cuda_candidates_ok as (_ & _ & Cb & _). rewrite list.Forall_forall in Cb.
  destruct (Cb _ Hb) as [Cb1 Cb2]. destruct best as [[c h] ok]. cbn [snd] in Hok. subst ok. unfold cuda_try_batch.
  pose proof Hi as (Hc & Hr & _ & Hd & Hm & _).
  eapply wp_mono; [apply (wp_and _ (fun b r => best_cuda_inv b r /\ grown run_setup_ok 1 runs r) (fun b _ => snd b = true))|
                   intros b r [[H1 H2] H3]; done].
  - apply (try_cuda _ (c, h, true) runs (fun r => autotune_batch_hashrate_is_better r h)); [| |done..].
    + destruct Hc; by split.
    + destruct Hr; by split.
  - apply wp_bind, (wp_run_mode env seconds Henv). intros. apply wp_ret. by case_match.
Qed.

Lemma cuda_params_ok runs :
  wp (autotune_cuda_params env seconds config)
    (fun c runs' => (cuda_ok c /\ (c = config \/ cuda_runnable c /\ measured_cuda c runs')) /\
       grown run_setup_ok 258 runs runs') runs.
Proof.
  assert (Hlen : (length (cuda_kernel_candidates config) <= 10)%nat /\ (length (cuda_block_candidates config) <= 5)%nat /\
    (length (cuda_npt_candidates config) <= 5)%nat /\ (length (cuda_batch_candidates config) <= 7)%nat).
  { split_and!; [|apply candidates_spec..].
    etransitivity; [apply candidates_spec|]. etransitivity; [apply List.filter_length_le|]. done. }
  destruct Hlen as (Lk & Lb & Ln & La). unfold autotune_cuda_params. cbv zeta.
  apply wp_bind, (wp_run_mode env seconds Henv). intros h0 ok0 _.
  set (r0 := runs ++ _). assert (G0 : grown run_setup_ok 1 runs r0).
  { apply grown_one, gpu_setup_ok; [done|]. intros cc [= <-]. apply (first_config_inv []). }
  clearbody r0. apply wp_bind. eapply wp_mono.
  - apply (wp_for_each best_cuda_inv run_setup_ok (5 * 5)); [|apply first_config_inv].
    intros kernel b r1 Hk Hi1. eapply wp_mono; [apply (wp_for_each best_cuda_inv run_setup_ok 5); [|exact Hi1]|].
    + intros block b2 r2 Hb Hi2. eapply wp_mono; [apply (wp_for_each best_cuda_inv run_setup_ok 1); [|exact Hi2]|].
      * intros npt b3 r3 Hn Hi3. by apply try_cuda_kernel_keeps.
      * intros b3 r3 [Hi3 Hg]. split; [done|]. eapply grown_mono; [|exact Hg]. lia.
    + intros b2 r2 [Hi2 Hg]. split; [done|]. eapply grown_mono; [|exact Hg]. lia.
  - intros [[c h] ok] r [Hi Hg]. destruct ok; cbn [negb].
    + apply wp_bind. eapply wp_mono; [apply (wp_for_each tuned_cuda_inv run_setup_ok 1); [|by split]|].
      * intros batch b r1 Hb Hi1. by apply try_cuda_batch_keeps.
      * intros [[c2 h2] ok2] r2 [[(Hc & Hr & _ & _ & _ & Hm) Hok] Hg2]. cbn [snd] in Hok. apply wp_ret.
        split; [split; [done|right; by auto]|].
        refine (grown_trans _ _ _ _ _ _ _ _ G0 (grown_trans _ _ _ (250 + 7) _ _ _ _ Hg Hg2)); lia.
    + apply wp_ret. split; [split; [done|by left]|]. refine (grown_trans _ _ _ _ _ _ _ _ G0 Hg); lia.
Qed.
End cuda.
End params.

(** ** The devices found *)

(** Platforms and devices are numbered with an [int]. *)
Definition runtime_small (rt : cl_runtime) : Prop :=
  Z.of_nat (length (cr_platforms rt)) < 2 ^ 31 /\
  Forall (fun p => Z.of_nat (length (cp_devices p)) < 2 ^ 31) (cr_platforms rt).

Lemma device_of_config_ok config p d :
  opencl_ok config -> is_i32 p -> is_i32 d -> device_ok (device_of_config config p d).
Proof.
  intros [] Hp Hd. unfold is_u32, opencl_backend_ok, opencl_kernel_ok in *.
  split; cbn [device_of_config od_platform od_device od_batch_size od_local_work_size od_nonces_per_work_item
    od_max_results od_backend_variant od_kernel_variant]; try done.
  - unfold is_u32, config_u32_or, OPENCL_DEFAULT_BATCH_SIZE. case_match; lia.
  - unfold is_u32, clamp_nonces_per_work_item, OPENCL_DEFAULT_NONCES_PER_WORK_ITEM, OPENCL_MAX_NONCES_PER_WORK_ITEM.
    destruct (_ =? 0); [lia|]. destruct (64 <? _); lia.
  - unfold is_u32, config_u32_or, OPENCL_DEFAULT_MAX_RESULTS. case_match; lia.
  - unfold normalize_backend_variant. by case_match.
  - unfold normalize_kernel_variant. by case_match.
Qed.

Lemma gpu_devices_ok config max p devices d found :
  opencl_ok config -> is_i32 p -> 0 <= d -> d + Z.of_nat (length devices) < 2 ^ 31 ->
  Forall device_ok found -> (length found <= max)%nat ->
  let out := gpu_devices config max p d devices found in Forall device_ok out /\ (length out <= max)%nat.
Proof.
  intros Hc Hp. revert d found. induction devices as [|device devices IH]; intros d found Hd Hb Hf Hl; [done|].
  cbn [gpu_devices length] in *. destruct (Nat.ltb_spec (length found) max); [|done].
  destruct (_ || _); apply IH; try lia; try done.
  - apply Forall_app. split; [done|]. apply list.Forall_singleton, device_of_config_ok; try done. unfold is_i32. lia.
  - rewrite length_app. cbn. lia.
Qed.
Lemma gpu_platforms_ok config max platforms p found :
  opencl_ok config -> 0 <= p -> p + Z.of_nat (length platforms) < 2 ^ 31 ->
  Forall (fun p => Z.of_nat (length (cp_devices p)) < 2 ^ 31) platforms ->
  Forall device_ok found -> (length found <= max)%nat ->
  let out := gpu_platforms config max p platforms found in Forall device_ok out /\ (length out <= max)%nat.
Proof.
  intros Hc. revert p found. induction platforms as [|platform platforms IH]; intros p found Hp Hb Hs Hf Hl; [done|].
  cbn [gpu_platforms length] in *. apply list.Forall_cons in Hs as [Hs1 Hs].
  destruct (Nat.ltb_spec (length found) max); [|done]. destruct (_ || _); [apply IH; try lia; done|].
  destruct (gpu_devices_ok config max p (cp_devices platform) 0 found) as [H1 H2]; try done; [unfold is_i32; lia|].
  apply IH; try lia; done.
Qed.

Lemma resolved_ok lib rt g base resolved :
  opencl_ok base -> runtime_small rt ->
  snd (opencl_miner_resolve_devices lib rt g (autotune_all_gpu_config (Some base)) (Z.of_nat MINER_OPENCL_MAX_DEVICES)) = inr resolved ->
  Forall device_ok resolved /\ (length resolved <= MINER_OPENCL_MAX_DEVICES)%nat.
Proof.
  intros Hb [Hr1 Hr2]. unfold opencl_miner_resolve_devices.
  assert (Hc : opencl_ok (autotune_all_gpu_config (Some base))) by (destruct Hb; by split).
  set (config := autotune_all_gpu_config (Some base)) in *.
  change (negb (oc_enabled config) || (Z.of_nat MINER_OPENCL_MAX_DEVICES <=? 0)) with false.
  change (0 <? oc_device_count config) with false. change (negb (oc_all_devices config)) with false. cbv iota.
  destruct (btcrig_opencl_load lib g) as [g' [error|[]]]; [done|].
  destruct (_ || _); [done|]. destruct (negb _); [done|]. cbv zeta. destruct (_ =? 0)%nat; [done|]. cbn [snd].
  intros E. apply (inj inr) in E as <-.
  apply gpu_platforms_ok; try done; cbn; lia.
Qed.

(** ** Thread counts *)

Lemma thread_candidates_ok full :
  0 < full -> let counts := autotune_cpu_thread_candidates full AUTOTUNE_MAX_CPU_THREAD_CANDIDATES in
  Forall (fun n => 1 <= n <= full) counts /\ (length counts <= 6)%nat.
Proof.
  intros Hf. unfold autotune_cpu_thread_candidates, AUTOTUNE_MAX_CPU_THREAD_CANDIDATES.
  destruct (Z.leb_spec full 0) as [|_]; [lia|]. cbn [orb Z.leb].
  assert (H : forall raw out max, Forall (fun n => 1 <= n <= full) out ->
    Forall (fun n => 1 <= n <= full) (add_candidates full max raw out) /\
    (length (add_candidates full max raw out) <= length out + length raw)%nat).
  { induction raw as [|x raw IH]; intros out max Ho; cbn [add_candidates length]; [split; [done|lia]|].
    destruct (_ <? _)%nat; [|split; [done|lia]].
    destruct (Z.ltb_spec x 1); [destruct (IH out max Ho); split; [done|lia]|]. cbv zeta.
    destruct (int_value_seen out _); cbn [negb]; [destruct (IH out max Ho); split; [done|lia]|].
    match goal with |- context [out ++ [?v]] => destruct (IH (out ++ [v]) max) as [H1 H2] end.
    - apply Forall_app. split; [done|]. apply list.Forall_singleton. destruct (Z.ltb_spec full x); lia.
    - split; [done|]. rewrite length_app in H2. cbn [length] in H2. lia. }
  destruct (H [full; full - 1; Z.quot (full * 3 + 3) 4; Z.quot (full * 2 + 2) 3; Z.quot full 2; 1] []
    (Z.to_nat 8)) as [H1 H2]; [constructor|]. split; [exact H1|exact H2].
Qed.

(** * The modes measured *)

Section modes.
Context `{O : OpenSSL} {D : Type} (env : nat -> run_env O D) (seconds : double).
Context (Henv : forall n, env_ok seconds (env n)).
Context (full_threads : Z) (Hfull : is_i32 full_threads /\ 0 <= full_threads).

(** A result is a measurement of a mode with something to mine with. *)
Record mode_ok (threads : Z) (opencl : miner_opencl_config_t) (cuda : miner_cuda_config_t) : Prop := {
  mo_threads : 0 <= threads <= full_threads;
  mo_opencl : opencl_ok opencl;
  mo_cuda : cuda_ok cuda;
  mo_works : (0 <? threads) || oc_enabled opencl || cc_enabled cuda = true;
}.
Record result_ok (runs : list run) (r : autotune_result_t) : Prop := {
  ro_mode : mode_ok (ar_cpu_threads r) (ar_opencl r) (ar_cuda r);
  ro_affinity : ar_cpu_affinity r = true -> 0 < ar_cpu_threads r;
  ro_rate : nonneg (ar_hashrate r);
  ro_measured : Run (Setup (ar_cpu_threads r) (ar_cpu_affinity r) (Some (ar_opencl r)) (Some (ar_cuda r)))
                  (ar_hashrate r) (ar_ok r) ∈ runs;
}.
Definition results_ok (n : nat) (results : list autotune_result_t) (runs : list run) : Prop :=
  (length results <= n)%nat /\ Forall (result_ok runs) results.

Lemma result_ok_grown P k runs runs' r : grown P k runs runs' -> result_ok runs r -> result_ok runs' r.
Proof. intros Hg []. split; try done. by eapply grown_in. Qed.
Lemma results_ok_grown P k n results runs runs' :
  grown P k runs runs' -> results_ok n results runs -> results_ok n results runs'.
Proof.
  intros Hg [Hl Hr]. split; [done|]. eapply list.Forall_impl; [exact Hr|]. intros r. by apply (result_ok_grown P k).
Qed.
Lemma results_ok_mono n n' results runs : (n <= n')%nat -> results_ok n results runs -> results_ok n' results runs.
Proof. intros Hn [Hl Hr]. split; [lia|done]. Qed.

(** There is room for every mode, so none is refused. *)
Lemma append_result_ok n results name threads affinity opencl cuda runs :
  (n < AUTOTUNE_MAX_RESULTS)%nat -> mode_ok threads opencl cuda -> results_ok n results runs ->
  wp (autotune_append_result env results name threads affinity (Some opencl) (Some cuda) seconds)
    (fun r runs' => (exists results', r = inr results' /\ results_ok (S n) results' runs') /\
       grown run_setup_ok 1 runs runs') runs.
Proof.
  intros Hn Hm [Hl Hr]. unfold autotune_append_result. destruct (Nat.leb_spec AUTOTUNE_MAX_RESULTS (length results)); [lia|].
  cbn [default from_option id]. apply wp_bind, (wp_run_mode env seconds Henv). intros hashrate ok Hh. apply wp_ret.
  assert (Ha : affinity && (0 <? threads) = true -> 0 < threads).
  { intros E. apply andb_true_iff in E as [_ E]. by apply Z.ltb_lt. }
  set (su := Setup _ _ _ _). assert (Hg : grown run_setup_ok 1 runs (runs ++ [Run su hashrate ok])).
  { apply grown_one. destruct Hm as [Ht Ho Hc _]. unfold is_i32 in Hfull.
    split; cbn [su_cpu_threads su_cpu_affinity su_opencl su_cuda su run_setup].
    - unfold is_i32. lia.
    - exact Ha.
    - by intros oc [= <-].
    - by intros cc [= <-]. }
  split; [|exact Hg]. eexists. split; [done|]. split; [rewrite length_app; cbn; lia|].
  apply Forall_app. split; [eapply list.Forall_impl; [exact Hr|]; intros r; by apply (result_ok_grown _ _ _ _ _ Hg)|].
  apply list.Forall_singleton. split; try done. apply elem_of_app. right. by apply list_elem_of_singleton.
Qed.
Lemma ignore_full_ok n results name threads affinity opencl cuda runs :
  (n < AUTOTUNE_MAX_RESULTS)%nat -> mode_ok threads opencl cuda -> results_ok n results runs ->
  wp (ignore_full results (autotune_append_result env results name threads affinity (Some opencl) (Some cuda) seconds))
    (fun results' runs' => results_ok (S n) results' runs' /\ grown run_setup_ok 1 runs runs') runs.
Proof.
  intros Hn Hm Hr. apply wp_bind. eapply wp_mono; [by apply (append_result_ok n)|].
  intros r runs' [(results' & -> & Hr') Hg]. by apply wp_ret.
Qed.

Lemma thread_results_ok supported base_name opencl cuda counts n results runs :
  (n + 2 * length counts <= AUTOTUNE_MAX_RESULTS)%nat -> Forall (fun k => 1 <= k <= full_threads) counts ->
  opencl_ok opencl -> cuda_ok cuda -> results_ok n results runs ->
  wp (append_thread_results env base_name full_threads (Some opencl) (Some cuda) seconds supported counts results)
    (fun results' runs' => results_ok (n + 2 * length counts) results' runs' /\
       grown run_setup_ok (2 * length counts) runs runs') runs.
Proof.
  intros Hn Hc Ho Hcu. revert n results runs Hn. induction Hc as [|k counts Hk Hc IH]; intros n results runs Hn Hr.
  { apply wp_ret. split; [by rewrite Nat.add_0_r|apply grown_refl]. }
  cbn [append_thread_results length] in *. cbv zeta.
  assert (Hm : mode_ok k opencl cuda).
  { split; [lia|done|done|]. by rewrite (proj2 (Z.ltb_lt 0 k)) by lia. }
  apply wp_bind. eapply wp_mono; [apply (append_result_ok n); [lia|done|done]|].
  intros r1 runs1 [(results1 & -> & Hr1) Hg1]. destruct supported.
  - apply wp_bind. eapply wp_mono; [apply (append_result_ok (S n)); [lia|done|done]|].
    intros r2 runs2 [(results2 & -> & Hr2) Hg2].
    eapply wp_mono; [apply (IH (S (S n))); [lia|done]|]. intros r3 runs3 [Hr3 Hg3].
    split; [eapply results_ok_mono; [|exact Hr3]; lia|].
    eapply (grown_trans _ 1 _ _ _ _ _ _ Hg1 (grown_trans _ 1 _ _ _ _ _ (Nat.le_refl _) Hg2 Hg3)). Unshelve. lia.
  - eapply wp_mono; [apply (IH (S n)); [lia|done]|]. intros r3 runs3 [Hr3 Hg3].
    split; [eapply results_ok_mono; [|exact Hr3]; lia|]. eapply grown_trans; [|exact Hg1|exact Hg3]. lia.
Qed.
Lemma cpu_results_ok supported base_name opencl cuda n results runs :
  0 < full_threads -> (n + 12 <= AUTOTUNE_MAX_RESULTS)%nat -> opencl_ok opencl -> cuda_ok cuda -> results_ok n results runs ->
  wp (autotune_append_cpu_thread_results env supported results base_name full_threads (Some opencl) (Some cuda) seconds)
    (fun results' runs' => results_ok (n + 12) results' runs' /\ grown run_setup_ok 12 runs runs') runs.
Proof.
  intros Hf Hn Ho Hc Hr. destruct (thread_candidates_ok full_threads Hf) as [H1 H2].
  eapply wp_mono; [apply (thread_results_ok supported base_name opencl cuda _ n); try done; lia|].
  intros r runs' [Hr' Hg]. split; [eapply results_ok_mono; [|exact Hr']; lia|]. eapply grown_mono; [|exact Hg]. lia.
Qed.

Lemma disabled_opencl_ok : opencl_ok autotune_disable_opencl.
Proof. destruct (co_opencl _ defaults_ok); by split. Qed.
Lemma disabled_cuda_ok : cuda_ok autotune_disable_cuda.
Proof. destruct (co_cuda _ defaults_ok); by split. Qed.

Section measure.
Context (supported : bool) (lib : opencl_library) (rt : cl_runtime) (g : btcrig_opencl_loader_t).
Context (config : app_config_t) (Hconfig : config_ok config) (Hrt : runtime_small rt).

Lemma gpu_modes_ok affinity name opencl n results runs :
  (n + 2 <= AUTOTUNE_MAX_RESULTS)%nat -> opencl_ok opencl -> oc_enabled opencl = true -> results_ok n results runs ->
  wp (gpu_modes env full_threads affinity seconds name opencl results)
    (fun results' runs' => results_ok (n + 2) results' runs' /\ grown run_setup_ok 2 runs runs') runs.
Proof.
  intros Hn Ho He Hr. unfold gpu_modes. apply wp_bind.
  assert (Hm : forall t, 0 <= t <= full_threads -> mode_ok t opencl autotune_disable_cuda).
  { intros t Ht. split; [done|done|exact disabled_cuda_ok|]. rewrite He. by rewrite orb_true_r. }
  eapply wp_mono; [apply (ignore_full_ok n); [lia|apply Hm; lia|done]|]. intros r1 runs1 [Hr1 Hg1].
  destruct (Z.ltb_spec 0 full_threads).
  - eapply wp_mono; [apply (ignore_full_ok (S n)); [lia|apply Hm; lia|done]|]. intros r2 runs2 [Hr2 Hg2].
    split; [eapply results_ok_mono; [|exact Hr2]; lia|]. eapply grown_trans; [|exact Hg1|exact Hg2]. lia.
  - apply wp_ret. split; [eapply results_ok_mono; [|exact Hr1]; lia|]. eapply grown_mono; [|exact Hg1]. lia.
Qed.

(** The same for a list of GPU modes. *)
Lemma gpu_modes_loop {A} affinity (name : A -> string) (opencl : A -> miner_opencl_config_t) (l : list A) n results runs :
  (n + 2 * length l <= AUTOTUNE_MAX_RESULTS)%nat -> Forall (fun x => opencl_ok (opencl x) /\ oc_enabled (opencl x) = true) l ->
  results_ok n results runs ->
  wp (for_each l (fun x => gpu_modes env full_threads affinity seconds (name x) (opencl x)) results)
    (fun results' runs' => results_ok (n + 2 * length l) results' runs' /\ grown run_setup_ok (2 * length l) runs runs') runs.
Proof.
  intros Hn Hl. revert n results runs Hn. induction Hl as [|x l [Ho He] Hl IH]; intros n results runs Hn Hr.
  { apply wp_ret. split; [by rewrite Nat.add_0_r|apply grown_refl]. }
  cbn [for_each length] in *. apply wp_bind. eapply wp_mono; [apply (gpu_modes_ok affinity _ _ n); try done; lia|].
  intros r1 runs1 [Hr1 Hg1]. eapply wp_mono; [apply (IH (n + 2)%nat); [lia|done]|]. intros r2 runs2 [Hr2 Hg2].
  split; [eapply results_ok_mono; [|exact Hr2]; lia|]. eapply grown_trans; [|exact Hg1|exact Hg2]. lia.
Qed.

Lemma opencl_modes_ok resolved n results runs :
  (n + 45 <= AUTOTUNE_MAX_RESULTS)%nat -> Forall device_ok resolved -> resolved <> [] ->
  (length resolved <= MINER_OPENCL_MAX_DEVICES)%nat -> results_ok n results runs ->
  wp (opencl_modes env supported config full_threads seconds resolved results)
    (fun results' runs' => results_ok (n + 45) results' runs' /\ grown run_setup_ok 45 runs runs') runs.
Proof.
  intros Hn Hd Hne Hl Hr. change MINER_OPENCL_MAX_DEVICES with 8%nat in Hl.
  assert (Hlist : forall ds, Forall device_ok ds -> ds <> [] ->
    opencl_ok (autotune_device_list_config (Some (ac_opencl config)) ds) /\
    oc_enabled (autotune_device_list_config (Some (ac_opencl config)) ds) = true).
  { intros ds Hds Hdn. split; [by apply device_list_ok; [apply Hconfig|]|]. rewrite device_list_enabled. by destruct ds. }
  destruct (Hlist resolved Hd Hne) as [Ho He]. unfold opencl_modes. cbv zeta. apply wp_bind.
  eapply wp_mono; [apply (ignore_full_ok n); [lia| |done]|].
  { split; [lia|done|exact disabled_cuda_ok|]. by rewrite He. }
  intros r1 runs1 [Hr1 Hg1]. apply wp_bind.
  apply (wp_mono _ (fun r runs2 => results_ok (S n + 12) r runs2 /\ grown run_setup_ok 12 runs1 runs2)).
  { destruct (Z.ltb_spec 0 full_threads).
    - apply cpu_results_ok; first [done|lia|exact disabled_cuda_ok].
    - apply wp_ret. split; [eapply results_ok_mono; [|exact Hr1]; lia|apply grown_refl]. }
  intros r2 runs2 [Hr2 Hg2]. apply wp_bind. eapply wp_mono.
  { match goal with |- context [for_each (imap ?f ?l)] => set (pairs := imap f l) end.
    assert (Hp : length pairs = length resolved) by apply length_imap.
    apply (gpu_modes_loop (ac_cpu_affinity config) (fun x => ("gpu" ++ decimal x.1)%string)
      (fun x => autotune_device_list_config (Some (ac_opencl config)) [x.2]) pairs (S n + 12)); [rewrite Hp; lia| |done].
    apply list.Forall_forall. intros [i d] Hi. apply list_elem_of_lookup in Hi as [j Hj]. unfold pairs in Hj.
    rewrite list_lookup_imap in Hj. destruct (resolved !! j) as [d'|] eqn:E; [|done]. cbn in Hj.
    injection Hj as _ <-. apply Hlist; [|done]. apply list.Forall_singleton. rewrite list.Forall_forall in Hd.
    by apply Hd, (list_elem_of_lookup_2 _ _ _ E). }
  intros r3 runs3 [Hr3 Hg3]. rewrite length_imap in Hr3, Hg3.
  assert (Hg : grown run_setup_ok 29 runs runs3).
  { refine (grown_trans _ 1 28 _ _ _ _ _ Hg1 (grown_trans _ 12 16 _ _ _ _ _ Hg2 (grown_mono _ _ 16 _ _ _ Hg3))); lia. }
  destruct (Nat.ltb_spec 2 (length resolved)).
  - eapply wp_mono.
    + apply (gpu_modes_loop (ac_cpu_affinity config) (fun skip => ("all-gpu-minus-gpu" ++ decimal (Z.of_nat skip))%string)
        (fun skip => autotune_device_list_config (Some (ac_opencl config)) (delete skip resolved)) _
        (S n + 12 + 2 * length resolved)); [rewrite length_seq; lia| |done].
      apply list.Forall_forall. intros k Hk. apply elem_of_seq in Hk. apply Hlist; [by apply Forall_delete|].
      intros E. apply (f_equal length) in E. assert (is_Some (resolved !! k)) by (apply lookup_lt_is_Some_2; lia).
      rewrite length_delete in E by done. cbn in E. lia.
    + intros r4 runs4 [Hr4 Hg4]. rewrite length_seq in Hr4, Hg4.
      split; [eapply results_ok_mono; [|exact Hr4]; lia|].
      refine (grown_trans _ 29 16 _ _ _ _ _ Hg (grown_mono _ _ 16 _ _ _ Hg4)); lia.
  - apply wp_ret. split; [eapply results_ok_mono; [|exact Hr3]; lia|]. eapply grown_mono; [|exact Hg]. lia.
Qed.

Lemma tune_devices_ok devices runs :
  Forall device_ok devices ->
  wp (tune_devices env (ac_opencl config) seconds devices)
    (fun ds runs' => (Forall device_ok ds /\ length ds = length devices) /\
       grown run_setup_ok (488 * length devices) runs runs') runs.
Proof.
  intros Hd. revert runs. induction Hd as [|d devices Hd Hds IH]; intros runs.
  { apply wp_ret. split; [done|apply grown_refl]. }
  cbn [tune_devices]. apply wp_bind. eapply wp_mono; [apply (opencl_params_ok env seconds Henv); [apply Hconfig|done]|].
  intros d' r1 [[Hd' _] Hg1]. apply wp_bind. eapply wp_mono; [apply IH|]. intros ds r2 [[Hds' Hl] Hg2]. apply wp_ret.
  split; [split; [by constructor|cbn; by rewrite Hl]|]. eapply grown_trans; [|exact Hg1|exact Hg2]. cbn. lia.
Qed.

Definition MOST_MEASUREMENTS : nat := 12 + (488 * 8 + 45) + (258 + 13).
Lemma measure_ok runs :
  wp (autotune_measure env supported lib rt g config full_threads seconds)
    (fun results runs' => results_ok 70 results runs' /\ grown run_setup_ok MOST_MEASUREMENTS runs runs') runs.
Proof.
  unfold autotune_measure. apply wp_bind.
  apply (wp_mono _ (fun r1 runs1 => results_ok 12 r1 runs1 /\ grown run_setup_ok 12 runs runs1)).
  { assert (H0 : results_ok 0 [] runs) by (split; [done|constructor]). destruct (Z.ltb_spec 0 full_threads).
    - apply (cpu_results_ok _ _ _ _ 0); first [done|exact disabled_opencl_ok|exact disabled_cuda_ok|unfold AUTOTUNE_MAX_RESULTS; lia].
    - apply wp_ret. split; [eapply results_ok_mono; [|exact H0]; lia|apply grown_refl]. }
  intros r1 runs1 [Hr1 Hg1]. apply wp_bind.
  apply (wp_mono _ (fun r2 runs2 => results_ok 57 r2 runs2 /\ grown run_setup_ok (488 * 8 + 45) runs1 runs2)).
  { assert (Hskip : wp (mret r1 : tuning _) (fun r2 runs2 => results_ok 57 r2 runs2 /\ grown run_setup_ok (488 * 8 + 45) runs1 runs2) runs1).
    { apply wp_ret. split; [eapply results_ok_mono; [|exact Hr1]; lia|apply grown_refl]. }
    destruct (oc_enabled (ac_opencl config)); [|exact Hskip].
    destruct (snd _) as [error|[|d ds]] eqn:E; [exact Hskip..|].
    apply resolved_ok in E as [Hd Hl]; [|apply Hconfig|done]. apply wp_bind.
    eapply wp_mono; [by apply tune_devices_ok|]. intros resolved r [[Hd' Hl'] Hg].
    eapply wp_mono; [apply (opencl_modes_ok resolved 12)|].
    - unfold AUTOTUNE_MAX_RESULTS. lia.
    - done.
    - by destruct resolved.
    - by rewrite Hl'.
    - by eapply results_ok_grown.
    - intros r2 runs2 [Hr2 Hg2]. split; [exact Hr2|]. change MINER_OPENCL_MAX_DEVICES with 8%nat in Hl.
      eapply grown_trans; [|exact Hg|exact Hg2]. lia. }
  intros r2 runs2 [Hr2 Hg2].
  assert (Hg12 : grown run_setup_ok (12 + (488 * 8 + 45)) runs runs2) by (by eapply grown_trans; [|exact Hg1|exact Hg2]).
  destruct (cc_enabled (ac_cuda config)).
  2: { apply wp_ret. split; [eapply results_ok_mono; [|exact Hr2]; lia|]. eapply grown_mono; [|exact Hg12]. unfold MOST_MEASUREMENTS. lia. }
  assert (Hen : cuda_ok (set_cuda_enabled true (ac_cuda config))) by (destruct (co_cuda _ Hconfig); by split).
  apply wp_bind. eapply wp_mono.
  { apply (wp_and _ (fun c r => (cuda_ok c /\ (c = set_cuda_enabled true (ac_cuda config) \/ cuda_runnable c /\ measured_cuda c r)) /\
      grown run_setup_ok 258 runs2 r) (fun _ _ => True)).
    - exact (cuda_params_ok env seconds Henv _ Hen runs2).
    - eapply wp_mono; [exact (cuda_params_ok env seconds Henv _ Hen runs2)|done]. }
  intros cc r [[[Hc Hce] Hg3] _].
  assert (He : cc_enabled cc = true) by (destruct Hce as [->|[[] _]]; done).
  apply wp_bind. eapply wp_mono.
  { apply (ignore_full_ok 57); [unfold AUTOTUNE_MAX_RESULTS; lia| |by eapply results_ok_grown].
    split; [lia|exact disabled_opencl_ok|done|]. rewrite He. by rewrite orb_true_r. }
  intros r4 runs4 [Hr4 Hg4].
  assert (Hg34 : grown run_setup_ok 259 runs2 runs4) by (by eapply (grown_trans _ 258 1)).
  destruct (Z.ltb_spec 0 full_threads).
  - eapply wp_mono; [apply (cpu_results_ok _ _ _ _ 58); first [done|exact disabled_opencl_ok|unfold AUTOTUNE_MAX_RESULTS; lia]|].
    intros r5 runs5 [Hr5 Hg5]. split; [exact Hr5|].
    refine (grown_trans _ _ 271 _ _ _ _ _ Hg12 (grown_trans _ _ _ _ _ _ _ _ Hg34 Hg5)); unfold MOST_MEASUREMENTS; lia.
  - apply wp_ret. split; [eapply results_ok_mono; [|exact Hr4]; lia|].
    refine (grown_trans _ _ 259 _ _ _ _ _ Hg12 Hg34); unfold MOST_MEASUREMENTS; lia.
Qed.
End measure.
End modes.

(** * The whole run *)

Section run_theorems.
Context `{O : OpenSSL} {D : Type} `{J : Jansson} (env : nat -> run_env O D).
Context (supported : bool) (lib : opencl_library) (rt : cl_runtime) (g : btcrig_opencl_loader_t).

(** What is given to the run. *)
Record run_given (default_threads : Z) (config : app_config_t) : Prop := {
  rg_env : forall n, env_ok (autotune_run_seconds config) (env n);
  rg_threads : is_i32 default_threads;
  rg_config : config_ok config;
  rg_runtime : runtime_small rt;
}.

Lemma full_threads_ok default_threads config :
  is_i32 default_threads -> config_ok config ->
  is_i32 (autotune_full_threads default_threads config) /\ 0 <= autotune_full_threads default_threads config.
Proof.
  intros Hd Hc. unfold autotune_full_threads. cbv zeta. pose proof (co_threads _ Hc) as Ht.
  destruct (ac_cpu_enabled config); cbn [negb]; [|done]. unfold is_i32 in *.
  destruct (Z.ltb_spec 0 (ac_thread_count config));
    match goal with |- context [?x <? 0] => destruct (Z.ltb_spec x 0) end; lia.
Qed.

Lemma run_spec default_threads path content config :
  run_given default_threads config ->
  exists o runs results,
    run_autotune env supported lib rt g default_threads path content config [] = Some (o, runs) /\
    Forall run_setup_ok runs /\ (length runs <= MOST_MEASUREMENTS)%nat /\
    results_ok (autotune_full_threads default_threads config) 70 results runs /\
    match o with
    | None => Forall (fun r => ar_ok r = false) results
    | Some (config', results', best, _) => results' = results /\ selected results best /\
        config' = apply_result best (cpu_autotune_ok results) (gpu_autotune_ok results) config
    end.
Proof.
  intros [He Hd Hc Hr]. unfold run_autotune. cbv zeta. unfold mbind, tuning_bind.
  destruct (measure_ok env _ He _ (full_threads_ok _ _ Hd Hc) supported lib rt g config Hc Hr [])
    as (results & runs & -> & Hres & (new & -> & Hs & Hl)).
  destruct (select_spec results config) as (o & -> & Ho).
  { destruct Hres as [_ Hres]. eapply list.Forall_impl; [exact Hres|]. by intros r []. }
  destruct o as [[config' best]|]; do 3 eexists; (split; [reflexivity|]); split_and!; try done; by destruct Ho.
Qed.


Lemma works_cpu results best : best ∈ results -> ar_ok best = true -> 0 < ar_cpu_threads best -> cpu_autotune_ok results = true.
Proof.
  intros Hi Ho Ht. apply existsb_exists. exists best. split; [by apply list_elem_of_In|].
  rewrite Ho. by apply Z.ltb_lt.
Qed.
Lemma works_gpu results best :
  best ∈ results -> ar_ok best = true -> oc_enabled (ar_opencl best) || cc_enabled (ar_cuda best) = true ->
  gpu_autotune_ok results = true.
Proof.
  intros Hi Ho Ht. apply existsb_exists. exists best. split; [by apply list_elem_of_In|]. by rewrite Ho.
Qed.

Lemma autotuned_ok default_threads path content config config' results best text runs :
  run_given default_threads config -> limits_ok config ->
  run_autotune env supported lib rt g default_threads path content config [] =
    Some (Some (config', results, best, text), runs) ->
  Forall run_setup_ok runs /\ config_ok config' /\ limits_ok config' /\ (pools_set config -> pools_set config') /\
  ac_cpu_enabled config' || oc_enabled (ac_opencl config') || cc_enabled (ac_cuda config') = true /\
  app_config_autotune_required config' = 0.
Proof.
  intros Hg Hlim Hrun. destruct (run_spec default_threads path content config Hg) as (o & runs' & results' & E & Hs & _ & [_ Hr] & Ho).
  rewrite E in Hrun. injection Hrun as -> ->. destruct Ho as (-> & (fastest & _ & Hb & [Hok _] & _) & ->).
  pose proof Hr as Hbest. rewrite list.Forall_forall in Hbest. destruct (Hbest best Hb) as [[Ht Hoc Hcc Hw] _ _ _].
  destruct Hg as [_ Hd Hc _]. pose proof (full_threads_ok _ _ Hd Hc) as [Hf1 Hf2].
  set (cpu_ok := cpu_autotune_ok results'). set (gpu_ok := gpu_autotune_ok results').
  assert (Hcpu : 0 < ar_cpu_threads best -> cpu_ok = true) by (by apply works_cpu).
  assert (Hgpu : oc_enabled (ar_opencl best) || cc_enabled (ar_cuda best) = true -> gpu_ok = true) by (by apply works_gpu).
  clearbody cpu_ok gpu_ok. split; [done|].
  assert (Hthreads : is_i32 (ar_cpu_threads best)) by (unfold is_i32 in *; lia).
  split_and!.
  - destruct Hc. unfold apply_result. destruct cpu_ok, gpu_ok; by split.
  - destruct Hlim. unfold apply_result. destruct cpu_ok, gpu_ok; split; try done; cbn;
      destruct (Z.ltb_spec 0 (ar_cpu_threads best)); lia.
  - unfold apply_result. by destruct cpu_ok, gpu_ok.
  - unfold apply_result. by destruct cpu_ok, gpu_ok.
  - unfold app_config_autotune_required, apply_result.
    destruct (Z.ltb_spec 0 (ar_cpu_threads best)) as [Hl|Hl]; [specialize (Hcpu Hl); subst cpu_ok|clear Hcpu];
      destruct (oc_enabled (ar_opencl best) || cc_enabled (ar_cuda best)) eqn:Eg;
      try (specialize (Hgpu eq_refl); subst gpu_ok); try destruct cpu_ok; try destruct gpu_ok; cbn;
      rewrite ?Eg; destruct (negb (ac_autotune_enabled config) || negb (ac_enable_mining config)); cbn;
      rewrite ?andb_false_r; done.
Qed.

(** C38.  Everything autotuning measures is a well-formed set-up, and what it leaves is a
    well-formed configuration with something to mine with, which needs no further
    autotuning. *)
Theorem autotuned_config_ok default_threads path content config config' results best text runs :
  run_given default_threads config -> limits_ok config -> pools_set config ->
  run_autotune env supported lib rt g default_threads path content config [] =
    Some (Some (config', results, best, text), runs) ->
  Forall run_setup_ok runs /\ config_ok config' /\ limits_ok config' /\ pools_set config' /\
  ac_cpu_enabled config' || oc_enabled (ac_opencl config') || cc_enabled (ac_cuda config') = true /\
  app_config_autotune_required config' = 0.
Proof.
  intros Hg Hlim Hp Hrun. destruct (autotuned_ok _ _ _ _ _ _ _ _ _ Hg Hlim Hrun) as (H1 & H2 & H3 & H4 & H5).
  do 3 (split; [done|]). split; [by apply H4|exact H5].
Qed.
End run_theorems.

(** Tuning a GPU returns the settings it was given, when nothing works, or settings of
    the same device that were measured to work: a kernel its backend can build, with the
    nonces per item that kernel needs, or on CUDA the sizes the device accepts. *)
Theorem gpu_params_tuned `{O : OpenSSL} {D : Type} (env : nat -> run_env O D) seconds base device config runs :
  (forall n, env_ok seconds (env n)) -> opencl_ok base -> device_ok device -> cuda_ok config ->
  (exists d runs', autotune_opencl_device_params env base seconds device runs = Some (d, runs') /\
     same_device d device /\ (d = device \/ opencl_runnable d /\ measured_opencl base d runs')) /\
  (exists c runs', autotune_cuda_params env seconds config runs = Some (c, runs') /\
     (c = config \/ cuda_runnable c /\ measured_cuda c runs')).
Proof.
  intros Henv Hb Hd Hc. split.
  - destruct (opencl_params_ok env seconds Henv base device Hb Hd runs) as (d & r & E & (_ & Hs & Hr) & _). by exists d, r.
  - destruct (cuda_params_ok env seconds Henv config Hc runs) as (c & r & E & (_ & Hr) & _). by exists c, r.
Qed.

(** * Concrete instances *)

(** A machine without GPUs whose threads make 1,000 hashes in every measurement. *)
Definition wclock : list double := [f64_of_Z 1; f64_of_Z 2; f64_of_Z 3; f64_of_Z 3].
Definition wenv (n : nat) : run_env ref_openssl unit :=
  RunEnv (Miner.StartEnv unit true [0] [] (fun _ => true) (fun _ => None) (fun _ => true) (fun _ => None)
            (fun _ => true) (fun _ => true) true)
    wclock (fun m => (set_hashes 0 m, set_hashes 1000 m)).
Definition wrt : cl_runtime := ClRuntime (-1) (-1) [].
Definition wlib : opencl_library := OpenclLibrary false (fun _ => false).
Definition wloader : btcrig_opencl_loader_t := OpenclLoader false false "".
Definition wconfig : app_config_t := AppConfig.set_thread_count 1 app_config_set_defaults.

Lemma wenv_ok n : env_ok (autotune_run_seconds wconfig) (wenv n).
Proof.
  split.
  - exists (f64_of_Z 1), [f64_of_Z 2], (f64_of_Z 3), (f64_of_Z 3), []. split; [done|]. by vm_compute.
  - unfold wenv, wclock. cbn [re_clock]. repeat apply list.Forall_cons_2; [by vm_compute..|by apply list.Forall_nil].
  - intros m. by split.
Qed.
Lemma wgiven : run_given wenv wrt 1 wconfig.
Proof. split; [exact wenv_ok|done|by apply ok_thread_count; [exact defaults_ok|]|by split; [|constructor]]. Qed.

Lemma wruns : exists config' results best text runs,
  run_autotune (J := ref_jansson) wenv true wlib wrt wloader 1 None None wconfig [] =
  Some (Some (config', results, best, text), runs).
Proof. do 5 eexists. lazy. reflexivity. Qed.
Lemma autotuned_config_ok_witness : exists config',
  config_ok config' /\ limits_ok config' /\ pools_set config' /\ app_config_autotune_required config' = 0.
Proof.
  destruct wruns as (config' & results & best & text & runs & E). exists config'.
  destruct (autotuned_config_ok (J := ref_jansson) wenv true wlib wrt wloader 1 None None wconfig config' results best text runs
    wgiven) as (_ & H1 & H2 & H3 & _ & H4); [|exact defaults_set|exact E|].
  - split; [reflexivity|vm_compute; discriminate|vm_compute; reflexivity|vm_compute; reflexivity].
  - split; [exact H1|]. split; [exact H2|]. split; [exact H3|exact H4].
Defined.

Definition wdevice_config : miner_opencl_device_config_t := OpenclDevice 0 0 1048576 64 1 256 0 0.
Lemma gpu_params_tuned_witness : exists d runs',
  autotune_opencl_device_params wenv miner_opencl_config_defaults (autotune_run_seconds wconfig) wdevice_config []
    = Some (d, runs') /\ same_device d wdevice_config.
Proof.
  destruct (gpu_params_tuned wenv (autotune_run_seconds wconfig) miner_opencl_config_defaults
    wdevice_config miner_cuda_config_defaults [] wenv_ok) as [(d & r & E & Hs & _) _].
  - exact (co_opencl _ defaults_ok).
  - split; vm_compute; split; first [discriminate|reflexivity].
  - exact (co_cuda _ defaults_ok).
  - exists d, r. split; [exact E|exact Hs].
Defined.
