(* ===== verification/ClientStart.v ===== *)
(** [main] of src/src/stratum_main.c up to the first session: the command line and the
    file (Startup.v), then autotuning where it is required (AutotuneRun.v). *)
From stdpp Require Import base tactics list option strings numbers.
From Stdlib Require Import ZArith Lia Ascii SpecFloat.
From S2P Require Import Prelude Words Fips Sha256d Simd X86ShaNi ArmSha2 Backends Float64 FloatOrder Hex Target Job Miner Json Stratum FrontEnd.
From S2P Require Import AppConfig AutotuneSave CpuInfo OpenclMiner Autotune AutotuneRun Startup.

#[local] Open Scope Z_scope.

Section client_prepare.
Context `{O : OpenSSL} {D : Type} `{J : Jansson} `{Q : QSort}.
Context (e : Startup.start_env J) (content : string -> option string) (env : nat -> run_env O D).
Context (lib : opencl_library) (rt : cl_runtime) (g : btcrig_opencl_loader_t).

Definition default_thread_count : Z := cpu_info_recommended_threads (se_sysfs e) (se_online e) (se_cpu_dir e).
(** [cpu_info_affinity_supported]: on Linux. *)
Definition cpu_info_affinity_supported : bool := true.

(** The exit code, or the configuration the sessions run with.  [content] is what the
    files hold when the result is saved. *)
Definition client_prepare (args : list string) : tuning (Z + app_config_t) :=
  match client_setup e args with
  | inl rc => mret (inl rc)
  | inr (config, false) => mret (inr config)
  | inr (config, true) =>
      let path := fst (config_path e args) in
      o ← run_autotune env cpu_info_affinity_supported lib rt g default_thread_count path
            (path ← path; content path) config;
      mret (match o with
            | None => inl 1
            | Some (config, _, _, _) => inr config
            end)
  end.

Context `{!QSortLaws Q}.

(** C37.  Whatever the configuration file, the command line and the measurements say, the
    client comes to its first session with a well-formed configuration within the limits
    [main] sets, or it ends: with the code of a usage or load error, or 1 when no mode
    works.  With [--help] and the like aside nothing else ends it, and after
    autotuning there is something to mine with. *)
Theorem client_prepared args :
  (forall config, client_setup e args = inr (config, true) -> forall n, env_ok (autotune_run_seconds config) (env n)) ->
  runtime_small rt ->
  exists o runs, client_prepare args [] = Some (o, runs) /\
    match o with
    | inr config => config_ok config /\ limits_ok config /\
        (Forall (fun a => a ∉ pool_options) args -> pools_set config) /\
        (runs <> [] -> ac_cpu_enabled config || oc_enabled (ac_opencl config) || cc_enabled (ac_cuda config) = true)
    | inl rc => args <> [] \/ rc = 1 \/
        rc = 2 /\ fst (configure_sha_backend_from_env (se_cpu e) g_backend_initial (se_backend e)) <> 0
    end.
Proof.
  intros Henv Hrt. unfold client_prepare. pose proof (client_setup_ok e args) as Hsetup.
  destruct (client_setup e args) as [rc|[config [|]]] eqn:Es.
  - exists (inl rc), []. split; [done|]. destruct Hsetup; auto.
  - destruct Hsetup as (Hc & Hl & Hp). cbv zeta. set (path := fst (config_path e args)). set (text := path ≫= content).
    assert (Hg : run_given env rt default_thread_count config).
    { split; [by apply Henv| |done|done]. unfold default_thread_count.
      pose proof (recommended_threads_range (se_sysfs e) (se_online e) (se_cpu_dir e)). unfold is_i32. lia. }
    destruct (run_spec env cpu_info_affinity_supported lib rt g default_thread_count path text config Hg)
      as (o & runs & results & E & _ & _ & _ & _).
    unfold mbind, tuning_bind. fold text. rewrite E. destruct o as [[[[config' results'] best] saved]|].
    + destruct (autotuned_ok env cpu_info_affinity_supported lib rt g _ path text config config' results' best saved runs Hg Hl E)
        as (_ & H1 & H2 & H3 & H4 & _).
      exists (inr config'), runs. split_and!; [done..| |done]. intros Ha. by apply H3, Hp.
    + exists (inl 1), runs. split; [done|]. by right; left.
  - exists (inr config), []. split; [done|]. destruct Hsetup as (Hc & Hl & Hp). by split_and!.
Qed.
End client_prepare.

(** * A concrete instance *)

(** The sample options, which leave autotuning on, on the machine of AutotuneRun.v. *)
Lemma sample_seconds config :
  client_setup (J := ref_jansson) (Q := ref_qsort) sample_env sample_args = inr (config, true) ->
  autotune_run_seconds config = autotune_run_seconds wconfig.
Proof.
  intros E. assert (H : match client_setup (J := ref_jansson) (Q := ref_qsort) sample_env sample_args with
    | inr (c, _) => autotune_run_seconds c = autotune_run_seconds wconfig | inl _ => False end) by (vm_compute; reflexivity).
  by rewrite E in H.
Qed.
Lemma sample_prepared : exists config runs,
  client_prepare (J := ref_jansson) (Q := ref_qsort) sample_env (fun _ => None) wenv wlib wrt wloader sample_args [] =
    Some (inr config, runs) /\ runs <> [].
Proof. do 2 eexists. split; [lazy; reflexivity|discriminate]. Qed.

Lemma client_prepared_witness : exists config, config_ok config /\ limits_ok config /\
  ac_cpu_enabled config || oc_enabled (ac_opencl config) || cc_enabled (ac_cuda config) = true.
Proof.
  destruct sample_prepared as (config & runs & E & Hr). exists config.
  destruct (client_prepared (J := ref_jansson) (Q := ref_qsort) sample_env (fun _ => None) wenv wlib wrt wloader sample_args)
    as (o & runs' & E' & H).
  - intros c Ec n. rewrite (sample_seconds c Ec). apply wenv_ok.
  - split; [reflexivity|apply list.Forall_nil; exact I].
  - rewrite E in E'. assert (Eo : Some (inr config, runs) = Some (o, runs')) by exact E'.
    injection Eo as <- <-. destruct H as (H1 & H2 & _ & H3). split; [exact H1|]. split; [exact H2|exact (H3 Hr)].
Defined.
