(* ===== verification/Bench.v ===== *)
(** The benchmark program (src/src/main.c): the CPU workers, the runs and their median,
    the GPU runs, and [main].

    Clock readings, the results of system calls and what the GPU hosts return are
    arguments; a run that has used up its clock readings has not returned yet and is
    [None].  Printing is left out. *)
From stdpp Require Import base tactics sorting list option numbers strings.
From Stdlib Require Import ZArith Lia Ascii SpecFloat.
From S2P Require Import Prelude Words Fips Sha256d Scan Simd X86ShaNi ArmSha2 Backends Float64 FloatOrder Hex.
From S2P Require Import Miner CpuInfo FrontEnd Startup GpuScan GpuSelfTest SelfCheck Autotune AutotuneRun.

#[local] Open Scope Z_scope.

(** * Numbers and names on the command line *)

Definition parse_int_in (min_value : Z) (text : option string) (fallback : Z) : Z :=
  match text with
  | None => fallback
  | Some text => default fallback (parse_int_option text min_value 1024)
  end.
Definition parse_positive_int : option string -> Z -> Z := parse_int_in 1.
Definition parse_nonnegative_int : option string -> Z -> Z := parse_int_in 0.

(** [strtoul] takes a minus sign and negates in its type. *)
Definition parse_positive_u32 (text : option string) (fallback : Z) : Z :=
  match text with
  | None => fallback
  | Some text =>
      match scan_number (chars text) with
      | Some (negative, v, []) =>
          let value := if negative : bool then u64 (- v) else v in
          if (ULONG_MAX <? v) || (value =? 0) || (UINT32_MAX <? value) then fallback else u32 value
      | _ => fallback
      end
  end.

(** The comparisons of a [parse_..._variant], which tell cases apart. *)
Definition parse_name (dflt : Z) (table : list (string * Z)) (value : option string) (fallback : Z) : Z :=
  match value with
  | None => dflt
  | Some value =>
      if String.eqb value "" then dflt
      else match List.find (fun '(name, _) => String.eqb value name) table with
           | Some (_, v) => v
           | None => fallback
           end
  end.
Definition parse_opencl_backend_variant : option string -> Z -> Z :=
  parse_name MINER_OPENCL_BACKEND_AUTO
    [("auto", MINER_OPENCL_BACKEND_AUTO);
     ("compat10", MINER_OPENCL_BACKEND_COMPAT10); ("compat", MINER_OPENCL_BACKEND_COMPAT10);
     ("modern", MINER_OPENCL_BACKEND_MODERN)]%string.
Definition parse_opencl_kernel_variant : option string -> Z -> Z :=
  parse_name MINER_OPENCL_KERNEL_AUTO
    [("auto", MINER_OPENCL_KERNEL_AUTO); ("compact", MINER_OPENCL_KERNEL_COMPACT);
     ("unrolled", MINER_OPENCL_KERNEL_UNROLLED);
     ("fixed-npi1", MINER_OPENCL_KERNEL_FIXED_NPI1); ("fixed_npi1", MINER_OPENCL_KERNEL_FIXED_NPI1);
     ("fixed-npi2", MINER_OPENCL_KERNEL_FIXED_NPI2); ("fixed_npi2", MINER_OPENCL_KERNEL_FIXED_NPI2);
     ("fixed-npi4", MINER_OPENCL_KERNEL_FIXED_NPI4); ("fixed_npi4", MINER_OPENCL_KERNEL_FIXED_NPI4);
     ("register-heavy", MINER_OPENCL_KERNEL_REGISTER_HEAVY);
     ("register_heavy", MINER_OPENCL_KERNEL_REGISTER_HEAVY)]%string.
Definition parse_cuda_kernel_variant : option string -> Z -> Z :=
  parse_name MINER_CUDA_KERNEL_STANDARD cuda_kernel_names.

(** * The CPU workers *)

Definition bench_scan_match (nonce : Z) (hash_words : list Z) (sink : Z) : Z :=
  Z.lxor sink (u8 (Z.lxor (hash_words !!! 0%nat) nonce)).

(** The loop of [worker_main]: the clock is read before each scan. *)
Section worker_loop.
Context {B : Type} (scan : Z -> B -> B) (mix : Z -> B -> B) (deadline : double) (thread_count : Z).
Fixpoint bench_loop (clock : list double) (nonce hashes : Z) (sink : B) : option (Z * B) :=
  match clock with
  | [] => None
  | now :: clock =>
      if negb (f64_lt now deadline) then Some (hashes, sink)
      else
        let sink := scan nonce sink in
        let sink := mix nonce sink in
        bench_loop clock (add32 nonce (u32 (4096 * u32 thread_count))) (u64 (hashes + 4096)) sink
  end.
End worker_loop.

Record worker_arg_t := WorkerArg {
  wa_id : Z; wa_thread_count : Z; wa_target_cpu : Z; wa_seconds : Z; wa_backend : sha256d_backend_t;
}.
Record bench_result_t := BenchResult {
  br_threads : Z; br_seconds : Z; br_elapsed : double; br_rate : double; br_hashes : Z; br_sink : Z;
}.

Section bench.
Context `{O : OpenSSL} `{X : X86} `{A : ARM} `{Q : QSort} (c : cpu).

(** The worker's [hashes] and [sink]; whether the binding succeeds is only printed. *)
Definition worker_main (g_backend : sha256d_backend_t) (arg : worker_arg_t) (clock : list double) : option (Z * Z) :=
  let nonce := u32 (u32 (wa_id arg) * 4096) in
  match clock with
  | [] => None
  | now :: clock =>
      let deadline := f64_add now (f64_of_Z (wa_seconds arg)) in
      let g_backend := snd (sha256d_set_backend c g_backend (wa_backend arg)) in
      let header := make_test_header in
      let midstate := sha256d_80_midstate_prepare (take 64 header) in
      let tail_words := for_range 0 4 (fun i t => <[i := load_be32 header (64 + i * 4)]> t) (replicate 4 0) in
      let target_words := replicate 8 0 in
      bench_loop
        (fun nonce sink => sha256d_nonce_range_func g_backend midstate tail_words target_words nonce 4096
                             (Some bench_scan_match) sink)
        (fun nonce sink => Z.lxor sink (u8 nonce)) deadline (wa_thread_count arg) clock nonce 0 0
  end.

(** What one run meets: the allocations, the processors, which threads could be created,
    the clocks of the threads and of the main thread. *)
Record once_env := OnceEnv {
  oe_alloc : bool; oe_affinity_supported : bool; oe_sysfs : files; oe_online : Z; oe_cpu_dir : option (list (list ascii));
  oe_created : nat -> bool; oe_clock : nat -> list double; oe_start : double; oe_end : double;
}.

(** How many threads are created before the first failure. *)
Fixpoint started (created : nat -> bool) (i n : nat) : nat :=
  match n with
  | 0%nat => i
  | S n => if created i then started created (S i) n else i
  end.

(** [total] and the sink over the joined threads. *)
Definition join_workers (results : list (Z * Z)) : Z * Z :=
  foldl (fun '(total, sink) '(hashes, s) => (u64 (total + hashes), Z.lxor sink s)) (0, 0) results.

Definition bench_rate (total : Z) (elapsed : double) : double :=
  if f64_lt (f64_of_Z 0) elapsed then f64_div (f64_of_Z total) elapsed else f64_of_Z 0.

(** The arguments of the threads. *)
Definition bench_args (threads seconds : Z) (backend : sha256d_backend_t) (cpu_order : list Z) (n : nat)
    : list worker_arg_t :=
  (fun i => WorkerArg (Z.of_nat i) threads
      (match cpu_order with [] => -1 | _ => cpu_order !!! (i mod length cpu_order)%nat end) seconds backend) <$> seq 0 n.

(** [inl] is the return code of a failure. *)
Definition run_bench_once (g_backend : sha256d_backend_t) (threads seconds : Z) (backend : sha256d_backend_t)
    (affinity : bool) (e : once_env) : option (Z + bench_result_t) :=
  if negb (oe_alloc e) then Some (inl 1)
  else
    let cpu_order :=
      if affinity && oe_affinity_supported e
      then cpu_info_affinity_plan (oe_online e) (Some (cpu_info_detect (oe_sysfs e) (oe_online e) (oe_cpu_dir e)))
             (Z.of_nat CPU_INFO_MAX_CPUS)
      else [] in
    let running := started (oe_created e) 0 (Z.to_nat threads) in
    let args := bench_args threads seconds backend cpu_order running in
    results ← mapM (fun arg => worker_main g_backend arg (oe_clock e (Z.to_nat (wa_id arg)))) args;
    let '(total, sink) := join_workers results in
    let elapsed := f64_sub (oe_end e) (oe_start e) in
    Some (inr (BenchResult (Z.of_nat running) seconds elapsed (bench_rate total elapsed) total sink)).

(** * Repeated runs *)

Definition compare_double_ascending (a b : double) : Z := Z.b2z (f64_lt b a) - Z.b2z (f64_lt a b).

(** The median; the array is not looked at when there is none. *)
Definition median_rate (values : list double) : double :=
  match values with
  | [] => f64_of_Z 0
  | _ =>
      let sorted := qsort compare_double_ascending values in
      let count := length sorted in
      if Nat.odd count then nth (count / 2) sorted (f64_of_Z 0)
      else f64_div (f64_add (nth (count / 2 - 1) sorted (f64_of_Z 0)) (nth (count / 2) sorted (f64_of_Z 0))) (f64_of_Z 2)
  end.

Definition no_bench_result : bench_result_t := BenchResult 0 0 (S754_zero false) (S754_zero false) 0 0.

(** The loop over the repeats: the return code, the last result and all rates. *)
Fixpoint repeat_bench (g_backend : sha256d_backend_t) (threads seconds : Z) (backend : sha256d_backend_t)
    (affinity : bool) (envs : nat -> once_env) (i n : nat) (last : bench_result_t) (rates : list double)
    : option (Z * bench_result_t * list double) :=
  match n with
  | 0%nat => Some (0, last, rates)
  | S n =>
      once ← run_bench_once g_backend threads seconds backend affinity (envs i);
      match once with
      | inl rc => Some (rc, last, rates)
      | inr last => repeat_bench g_backend threads seconds backend affinity envs (S i) n last (rates ++ [br_rate last])
      end
  end.

(** The return code, [*result] and the selected backend; [alloc] is whether the array of
    rates could be allocated. *)
Definition run_bench (g_backend : sha256d_backend_t) (threads seconds : Z) (backend : sha256d_backend_t)
    (repeat : Z) (affinity : bool) (alloc : bool) (envs : nat -> once_env)
    : option (Z * option bench_result_t * sha256d_backend_t) :=
  let repeat := if repeat <=? 0 then 1 else repeat in
  let '(rc, g_backend) := sha256d_self_check_backend c g_backend backend in
  if negb (rc =? 0) then Some (1, None, g_backend)
  else
    let '(rc, g_backend) := sha256d_set_backend c g_backend backend in
    if negb (rc =? 0) then Some (2, None, g_backend)
    else if (1 <? repeat) && negb alloc then Some (1, None, g_backend)
    else
      '(rc, last, rates) ← repeat_bench g_backend threads seconds backend affinity envs 0 (Z.to_nat repeat) no_bench_result [];
      let last :=
        if (rc =? 0) && (1 <? repeat)
        then BenchResult (br_threads last) (br_seconds last) (br_elapsed last) (median_rate rates) (br_hashes last) (br_sink last)
        else last in
      Some (rc, Some last, g_backend).
End bench.

(** * The GPU runs *)

Section gpu_runs.
Context `{O : OpenSSL}.

(** A call of [opencl_miner_scan] or [cuda_miner_scan] with the callback and the sink: the
    return code, and the sink it leaves. *)
Definition gpu_scan_t : Type :=
  sha256_midstate_t O -> list Z -> list Z -> Z -> Z -> (Z -> list Z -> Z -> Z) -> Z -> Z * Z.

(** The loop over batches: the hashes and the sink; the inner [None] is a failed scan,
    after which the device is destroyed. *)
Fixpoint gpu_bench_loop (midstate : sha256_midstate_t O) (tail_words target_words : list Z) (deadline : double)
    (batch_size : Z) (clock : list double) (scans : list gpu_scan_t) (nonce total sink : Z)
    : option (option (Z * Z) * list double) :=
  match clock with
  | [] => None
  | now :: clock =>
      if negb (f64_lt now deadline) then Some (Some (total, sink), clock)
      else
        match scans with
        | [] => None
        | scan :: scans =>
            let '(rc, sink) := scan midstate tail_words target_words nonce batch_size bench_scan_match sink in
            if negb (rc =? 0) then Some (None, clock)
            else
              gpu_bench_loop midstate tail_words target_words deadline batch_size clock scans
                (add32 nonce batch_size) (u64 (total + batch_size)) sink
        end
  end.

(** What a GPU run meets: the batch size of the device when it could be created, the
    clock and the scans. *)
Record gpu_env := GpuEnv { ge_created : option Z; ge_clock : list double; ge_scans : list gpu_scan_t }.

(** The return code or, when it is 0, the hashes, the rate and the sink. *)
Definition gpu_measure (seconds : Z) (e : gpu_env) : option (Z + Z * double * Z) :=
  match ge_created e with
  | None => Some (inl 1)
  | Some batch_size =>
      let header := make_test_header in
      let midstate := sha256d_80_midstate_prepare (take 64 header) in
      let tail_words := for_range 0 4 (fun i t => <[i := load_be32 header (64 + i * 4)]> t) (replicate 4 0) in
      let target_words := replicate 8 0 in
      match ge_clock e with
      | [] => None
      | start :: clock =>
          '(totals, clock) ← gpu_bench_loop midstate tail_words target_words (f64_add start (f64_of_Z seconds))
                               batch_size clock (ge_scans e) 0 0 0;
          match totals with
          | None => Some (inl 1)
          | Some (total, sink) =>
              finish ← head clock;
              Some (inr (total, bench_rate total (f64_sub finish start), sink))
          end
      end
  end.
Definition run_opencl_bench (seconds self_test_rc : Z) (e : gpu_env) : option Z :=
  if negb (self_test_rc =? 0) then Some 1
  else r ← gpu_measure seconds e; Some (match r with inl rc => rc | inr _ => 0 end).
Definition run_cuda_measure : Z -> gpu_env -> option (Z + Z * double * Z) := gpu_measure.
Definition run_cuda_bench (seconds self_test_rc : Z) (e : gpu_env) : option Z :=
  if negb (self_test_rc =? 0) then Some 1
  else r ← run_cuda_measure seconds e; Some (match r with inl _ => 1 | inr _ => 0 end).
End gpu_runs.
Definition self_test_command (self_test_rc : Z) : Z := if negb (self_test_rc =? 0) then 1 else 0.

(** * Tuning CUDA *)

(** [run_cuda_autotune] measures with [run_cuda_measure]; the [n]-th measurement meets
    the [n]-th environment, and what was measured is kept as in Autotune.v.  The values
    and candidates are computed by the same code as there. *)
Section cuda_tuning.
Context `{O : OpenSSL} (env : nat -> gpu_env) (seconds : Z).

(** The rate, or that the measurement failed. *)
Definition cuda_measurement (config : miner_cuda_config_t) : tuning (option double) := fun runs =>
  r ← run_cuda_measure seconds (env (length runs));
  let '(rate, ok) := match r with inl _ => (f64_of_Z 0, false) | inr (_, rate, _) => (rate, true) end in
  Some (if ok : bool then Some rate else None, runs ++ [Run (Setup 0 false None (Some config)) rate ok]).

(** [base] with its values brought into range. *)
Definition bench_base (config : miner_cuda_config_t) : miner_cuda_config_t :=
  let kernel := in_range (cc_kernel_variant config) MINER_CUDA_KERNEL_STANDARD MINER_CUDA_KERNEL_LAST
                  MINER_CUDA_DEFAULT_KERNEL_VARIANT in
  let forced_npt := autotune_cuda_kernel_forced_npt kernel in
  CudaConfig (cc_enabled config) (cc_device config) (autotune_cuda_batch_value (cc_batch_size config))
    (autotune_cuda_block_value (cc_threads_per_block config))
    (if negb (forced_npt =? 0) then forced_npt else autotune_cuda_npt_value (cc_nonces_per_thread config))
    (cc_max_results config) kernel.

(** The bodies of the loops, on [best], its rate and [best_ok]. *)
Definition bench_try_kernel (base : miner_cuda_config_t) (kernel block npt : Z) (best : best_cuda) : tuning best_cuda :=
  let '(_, best_rate, best_ok) := best in
  let forced_npt := autotune_cuda_kernel_forced_npt kernel in
  if negb (forced_npt =? 0) && negb (npt =? forced_npt) then mret best
  else
    let npt := if negb (forced_npt =? 0) then forced_npt else npt in
    let candidate := cuda_candidate base (cc_batch_size base) block npt kernel in
    r ← cuda_measurement candidate;
    mret (match r with
          | None => best
          | Some rate => if negb best_ok || autotune_hashrate_is_better rate best_rate then (candidate, rate, true) else best
          end).
Definition bench_try_batch (batch : Z) (best : best_cuda) : tuning best_cuda :=
  let '(config, best_rate, best_ok) := best in
  let candidate := cuda_candidate config batch (cc_threads_per_block config) (cc_nonces_per_thread config)
                     (cc_kernel_variant config) in
  r ← cuda_measurement candidate;
  mret (match r with
        | None => best
        | Some rate => if autotune_batch_hashrate_is_better rate best_rate then (candidate, rate, best_ok) else best
        end).

(** The loops and the choice: the exit code, and what was selected. *)
Definition cuda_tuning_loops (base : miner_cuda_config_t) : tuning (Z * option best_cuda) :=
  best ← for_each (cuda_kernel_candidates base) (fun kernel =>
           for_each (cuda_block_candidates base) (fun block =>
             for_each (cuda_npt_candidates base) (fun npt => bench_try_kernel base kernel block npt)))
         (base, S754_zero false, false);
  let '(_, _, best_ok) := best in
  if negb best_ok then mret (1, None)
  else
    best ← for_each (cuda_batch_candidates base) bench_try_batch best;
    mret (0, Some best).
Definition run_cuda_autotune (self_test_rc : Z) (config : miner_cuda_config_t) : tuning (Z * option best_cuda) :=
  let base := bench_base config in
  if negb (self_test_rc =? 0) then mret (1, None)
  else
    _ ← cuda_measurement base;
    cuda_tuning_loops base.
End cuda_tuning.

(** * The options *)

Record bench_options := BenchOptions {
  bo_threads : Z; bo_seconds : Z; bo_repeat : Z; bo_all : bool; bo_sweep : bool; bo_affinity : bool;
  bo_opencl : bool; bo_opencl_self_test : bool; bo_cuda : bool; bo_cuda_info : bool; bo_cuda_autotune : bool; bo_cuda_self_test : bool;
  bo_backend : sha256d_backend_t; bo_opencl_config : miner_opencl_config_t; bo_cuda_config : miner_cuda_config_t;
}.
Definition set_bo_threads (v : Z) (x : bench_options) : bench_options :=
  BenchOptions v (bo_seconds x) (bo_repeat x) (bo_all x) (bo_sweep x) (bo_affinity x) (bo_opencl x)
    (bo_opencl_self_test x) (bo_cuda x) (bo_cuda_info x) (bo_cuda_autotune x) (bo_cuda_self_test x)
    (bo_backend x) (bo_opencl_config x) (bo_cuda_config x).
Definition set_bo_seconds (v : Z) (x : bench_options) : bench_options :=
  BenchOptions (bo_threads x) v (bo_repeat x) (bo_all x) (bo_sweep x) (bo_affinity x) (bo_opencl x)
    (bo_opencl_self_test x) (bo_cuda x) (bo_cuda_info x) (bo_cuda_autotune x) (bo_cuda_self_test x)
    (bo_backend x) (bo_opencl_config x) (bo_cuda_config x).
Definition set_bo_repeat (v : Z) (x : bench_options) : bench_options :=
  BenchOptions (bo_threads x) (bo_seconds x) v (bo_all x) (bo_sweep x) (bo_affinity x) (bo_opencl x)
    (bo_opencl_self_test x) (bo_cuda x) (bo_cuda_info x) (bo_cuda_autotune x) (bo_cuda_self_test x)
    (bo_backend x) (bo_opencl_config x) (bo_cuda_config x).
Definition set_bo_all (v : bool) (x : bench_options) : bench_options :=
  BenchOptions (bo_threads x) (bo_seconds x) (bo_repeat x) v (bo_sweep x) (bo_affinity x) (bo_opencl x)
    (bo_opencl_self_test x) (bo_cuda x) (bo_cuda_info x) (bo_cuda_autotune x) (bo_cuda_self_test x)
    (bo_backend x) (bo_opencl_config x) (bo_cuda_config x).
Definition set_bo_sweep (v : bool) (x : bench_options) : bench_options :=
  BenchOptions (bo_threads x) (bo_seconds x) (bo_repeat x) (bo_all x) v (bo_affinity x) (bo_opencl x)
    (bo_opencl_self_test x) (bo_cuda x) (bo_cuda_info x) (bo_cuda_autotune x) (bo_cuda_self_test x)
    (bo_backend x) (bo_opencl_config x) (bo_cuda_config x).
Definition set_bo_affinity (v : bool) (x : bench_options) : bench_options :=
  BenchOptions (bo_threads x) (bo_seconds x) (bo_repeat x) (bo_all x) (bo_sweep x) v (bo_opencl x)
    (bo_opencl_self_test x) (bo_cuda x) (bo_cuda_info x) (bo_cuda_autotune x) (bo_cuda_self_test x)
    (bo_backend x) (bo_opencl_config x) (bo_cuda_config x).
Definition set_bo_opencl (v : bool) (x : bench_options) : bench_options :=
  BenchOptions (bo_threads x) (bo_seconds x) (bo_repeat x) (bo_all x) (bo_sweep x) (bo_affinity x) v
    (bo_opencl_self_test x) (bo_cuda x) (bo_cuda_info x) (bo_cuda_autotune x) (bo_cuda_self_test x)
    (bo_backend x) (bo_opencl_config x) (bo_cuda_config x).
Definition set_bo_opencl_self_test (v : bool) (x : bench_options) : bench_options :=
  BenchOptions (bo_threads x) (bo_seconds x) (bo_repeat x) (bo_all x) (bo_sweep x) (bo_affinity x) (bo_opencl x)
    v (bo_cuda x) (bo_cuda_info x) (bo_cuda_autotune x) (bo_cuda_self_test x) (bo_backend x)
    (bo_opencl_config x) (bo_cuda_config x).
Definition set_bo_cuda (v : bool) (x : bench_options) : bench_options :=
  BenchOptions (bo_threads x) (bo_seconds x) (bo_repeat x) (bo_all x) (bo_sweep x) (bo_affinity x) (bo_opencl x)
    (bo_opencl_self_test x) v (bo_cuda_info x) (bo_cuda_autotune x) (bo_cuda_self_test x) (bo_backend x)
    (bo_opencl_config x) (bo_cuda_config x).
Definition set_bo_cuda_info (v : bool) (x : bench_options) : bench_options :=
  BenchOptions (bo_threads x) (bo_seconds x) (bo_repeat x) (bo_all x) (bo_sweep x) (bo_affinity x) (bo_opencl x)
    (bo_opencl_self_test x) (bo_cuda x) v (bo_cuda_autotune x) (bo_cuda_self_test x) (bo_backend x)
    (bo_opencl_config x) (bo_cuda_config x).
Definition set_bo_cuda_autotune (v : bool) (x : bench_options) : bench_options :=
  BenchOptions (bo_threads x) (bo_seconds x) (bo_repeat x) (bo_all x) (bo_sweep x) (bo_affinity x) (bo_opencl x)
    (bo_opencl_self_test x) (bo_cuda x) (bo_cuda_info x) v (bo_cuda_self_test x) (bo_backend x)
    (bo_opencl_config x) (bo_cuda_config x).
Definition set_bo_cuda_self_test (v : bool) (x : bench_options) : bench_options :=
  BenchOptions (bo_threads x) (bo_seconds x) (bo_repeat x) (bo_all x) (bo_sweep x) (bo_affinity x) (bo_opencl x)
    (bo_opencl_self_test x) (bo_cuda x) (bo_cuda_info x) (bo_cuda_autotune x) v (bo_backend x)
    (bo_opencl_config x) (bo_cuda_config x).
Definition set_bo_backend (v : sha256d_backend_t) (x : bench_options) : bench_options :=
  BenchOptions (bo_threads x) (bo_seconds x) (bo_repeat x) (bo_all x) (bo_sweep x) (bo_affinity x) (bo_opencl x)
    (bo_opencl_self_test x) (bo_cuda x) (bo_cuda_info x) (bo_cuda_autotune x) (bo_cuda_self_test x) v
    (bo_opencl_config x) (bo_cuda_config x).
Definition set_bo_opencl_config (v : miner_opencl_config_t) (x : bench_options) : bench_options :=
  BenchOptions (bo_threads x) (bo_seconds x) (bo_repeat x) (bo_all x) (bo_sweep x) (bo_affinity x) (bo_opencl x)
    (bo_opencl_self_test x) (bo_cuda x) (bo_cuda_info x) (bo_cuda_autotune x) (bo_cuda_self_test x)
    (bo_backend x) v (bo_cuda_config x).
Definition set_bo_cuda_config (v : miner_cuda_config_t) (x : bench_options) : bench_options :=
  BenchOptions (bo_threads x) (bo_seconds x) (bo_repeat x) (bo_all x) (bo_sweep x) (bo_affinity x) (bo_opencl x)
    (bo_opencl_self_test x) (bo_cuda x) (bo_cuda_info x) (bo_cuda_autotune x) (bo_cuda_self_test x)
    (bo_backend x) (bo_opencl_config x) v.

(** An option with a value; the inner [inl] is the exit code. *)
Definition bench_value_option (opt v : string) (o : bench_options) : option (Z + bench_options) :=
  let ocl := bo_opencl_config o in
  let cuda := bo_cuda_config o in
  let set_ocl x := Some (inr (set_bo_opencl_config x o)) in
  let set_cuda x := Some (inr (set_bo_cuda_config x o)) in
  let one_device x := set_oc_device_count 0 (set_oc_all_devices false x) in
  if String.eqb opt "-t" then Some (inr (set_bo_threads (parse_positive_int (Some v) (bo_threads o)) o))
  else if String.eqb opt "-s" then Some (inr (set_bo_seconds (parse_positive_int (Some v) (bo_seconds o)) o))
  else if String.eqb opt "--repeat" then Some (inr (set_bo_repeat (parse_positive_int (Some v) (bo_repeat o)) o))
  else if String.eqb opt "--backend" then
    Some (match sha256d_parse_backend (Some v) with Some b => inr (set_bo_backend b o) | None => inl 2 end)
  else if String.eqb opt "--opencl-platform" then
    set_ocl (one_device (set_oc_platform (parse_nonnegative_int (Some v) (oc_platform ocl)) ocl))
  else if String.eqb opt "--opencl-device" then
    set_ocl (one_device (set_oc_device (parse_nonnegative_int (Some v) (oc_device ocl)) ocl))
  else if String.eqb opt "--opencl-batch" then
    set_ocl (set_oc_batch_size (parse_positive_u32 (Some v) (oc_batch_size ocl)) ocl)
  else if String.eqb opt "--opencl-local" then
    set_ocl (set_oc_local_work_size (parse_positive_u32 (Some v) (oc_local_work_size ocl)) ocl)
  else if String.eqb opt "--opencl-npi" || String.eqb opt "--opencl-nonces-per-work-item" then
    set_ocl (set_oc_nonces_per_work_item (parse_positive_u32 (Some v) (oc_nonces_per_work_item ocl)) ocl)
  else if String.eqb opt "--opencl-backend" then
    let parsed := parse_opencl_backend_variant (Some v) (-1) in
    if parsed <? 0 then Some (inl 2) else set_ocl (set_oc_backend_variant parsed ocl)
  else if String.eqb opt "--opencl-kernel" then
    let parsed := parse_opencl_kernel_variant (Some v) (-1) in
    if parsed <? 0 then Some (inl 2) else set_ocl (set_oc_kernel_variant parsed ocl)
  else if String.eqb opt "--cuda-device" then set_cuda (set_cc_device (parse_nonnegative_int (Some v) (cc_device cuda)) cuda)
  else if String.eqb opt "--cuda-batch" then set_cuda (set_cc_batch_size (parse_positive_u32 (Some v) (cc_batch_size cuda)) cuda)
  else if String.eqb opt "--cuda-block" then
    set_cuda (set_cc_threads_per_block (parse_positive_u32 (Some v) (cc_threads_per_block cuda)) cuda)
  else if String.eqb opt "--cuda-npt" then
    set_cuda (set_cc_nonces_per_thread (parse_positive_u32 (Some v) (cc_nonces_per_thread cuda)) cuda)
  else if String.eqb opt "--cuda-kernel" then
    let parsed := parse_cuda_kernel_variant (Some v) (-1) in
    if parsed <? 0 then Some (inl 2) else set_cuda (set_cc_kernel_variant parsed cuda)
  else None.

Definition bench_flag_option (opt : string) (o : bench_options) : Z + bench_options :=
  if String.eqb opt "--per-thread" then inr o
  else if String.eqb opt "--cpu-sweep" then inr (set_bo_sweep true o)
  else if String.eqb opt "--affinity" then inr (set_bo_affinity true o)
  else if String.eqb opt "--all" then inr (set_bo_all true o)
  else if String.eqb opt "--cpu-info" then inl 0
  else if String.eqb opt "--opencl" then
    inr (set_bo_opencl true (set_bo_opencl_config (set_oc_enabled true (bo_opencl_config o)) o))
  else if String.eqb opt "--opencl-self-test" then
    inr (set_bo_opencl_self_test true (set_bo_opencl_config (set_oc_enabled true (bo_opencl_config o)) o))
  else if String.eqb opt "--cuda-info" then inr (set_bo_cuda_info true o)
  else if String.eqb opt "--cuda" then inr (set_bo_cuda true o)
  else if String.eqb opt "--cuda-autotune" then inr (set_bo_cuda_autotune true o)
  else if String.eqb opt "--cuda-self-test" then inr (set_bo_cuda_self_test true o)
  else if String.eqb opt "--version" then inl 0
  else if String.eqb opt "-h" || String.eqb opt "--help" then inl 0
  else inl 2.

Fixpoint parse_bench_args (args : list string) (o : bench_options) : Z + bench_options :=
  match args with
  | [] => inr o
  | opt :: rest =>
      let alone :=
        match bench_flag_option opt o with inr o => parse_bench_args rest o | inl rc => inl rc end in
      match rest with
      | [] => alone
      | v :: rest =>
          match bench_value_option opt v o with
          | Some (inr o) => parse_bench_args rest o
          | Some (inl rc) => inl rc
          | None => alone
          end
      end
  end.

(** * [main] *)

(** What the program meets besides the runs: the processors, the environment variable
    BTC_MINER_SHA_BACKEND, and what the GPU hosts return. *)
Record bench_env `{O : OpenSSL} := BenchEnv {
  be_sysfs : files; be_online : Z; be_cpu_dir : option (list (list ascii));
  be_backend : option string;
  be_opencl_self_test : miner_opencl_config_t -> Z; be_opencl : gpu_env;
  be_cuda_self_test : miner_cuda_config_t -> Z; be_cuda : gpu_env;
  be_cuda_devices : Z; be_cuda_available : bool; be_cuda_tuning : nat -> gpu_env;
  be_alloc : bool; be_once : sha256d_backend_t -> Z -> nat -> once_env;
}.

Section main.
Context `{O : OpenSSL} `{X : X86} `{A : ARM} `{Q : QSort} (c : cpu) (e : bench_env).

(** [None] for the error return. *)
Definition configure_backend_from_env (backend : sha256d_backend_t) : option sha256d_backend_t :=
  match be_backend e with
  | None => Some backend
  | Some text =>
      if String.eqb text "" || String.eqb text "auto" then Some backend else sha256d_parse_backend (Some text)
  end.

(** The runs with 1, 2, ... threads, until one fails. *)
Fixpoint sweep_from (g_backend : sha256d_backend_t) (backend : sha256d_backend_t) (seconds repeat : Z) (affinity : bool)
    (threads : Z) (n : nat) : option (Z * sha256d_backend_t) :=
  match n with
  | 0%nat => Some (0, g_backend)
  | S n =>
      '(rc, _, g_backend) ← run_bench c g_backend threads seconds backend repeat affinity (be_alloc e) (be_once e backend threads);
      if negb (rc =? 0) then Some (rc, g_backend)
      else sweep_from g_backend backend seconds repeat affinity (threads + 1) n
  end.
Definition run_cpu_sweep (g_backend : sha256d_backend_t) (max_threads seconds : Z) (backend : sha256d_backend_t)
    (repeat : Z) (affinity : bool) : option (Z * sha256d_backend_t) :=
  let max_threads := if max_threads <=? 0 then 1 else max_threads in
  sweep_from g_backend backend seconds repeat affinity 1 (Z.to_nat max_threads).

(** The CPU run asked for. *)
Definition cpu_command (o : bench_options) (backend : sha256d_backend_t) (g_backend : sha256d_backend_t)
    : option (Z * sha256d_backend_t) :=
  if bo_sweep o then run_cpu_sweep g_backend (bo_threads o) (bo_seconds o) backend (bo_repeat o) (bo_affinity o)
  else
    '(rc, _, g_backend) ← run_bench c g_backend (bo_threads o) (bo_seconds o) backend (bo_repeat o) (bo_affinity o)
                            (be_alloc e) (be_once e backend (bo_threads o));
    Some (rc, g_backend).

(** [--all]: the backends the processor has, until one fails, then CUDA. *)
Fixpoint all_backends (o : bench_options) (l : list (bool * sha256d_backend_t)) (g_backend : sha256d_backend_t)
    : option Z :=
  match l with
  | [] =>
      if be_cuda_available e then run_cuda_bench (bo_seconds o) (be_cuda_self_test e (bo_cuda_config o)) (be_cuda e)
      else Some 0
  | (wanted, backend) :: l =>
      if negb wanted then all_backends o l g_backend
      else
        '(rc, g_backend) ← cpu_command o backend g_backend;
        if negb (rc =? 0) then Some rc else all_backends o l g_backend
  end.

Definition bench_dispatch (o : bench_options) (g_backend : sha256d_backend_t) : option Z :=
  if bo_opencl_self_test o then Some (self_test_command (be_opencl_self_test e (bo_opencl_config o)))
  else if bo_opencl o then run_opencl_bench (bo_seconds o) (be_opencl_self_test e (bo_opencl_config o)) (be_opencl e)
  else if bo_cuda_info o then Some (be_cuda_devices e)
  else if bo_cuda_self_test o then Some (self_test_command (be_cuda_self_test e (bo_cuda_config o)))
  else if bo_cuda_autotune o then
    '((rc, _), _) ← run_cuda_autotune (be_cuda_tuning e) (bo_seconds o) (be_cuda_self_test e (bench_base (bo_cuda_config o)))
                      (bo_cuda_config o) [];
    Some rc
  else if bo_cuda o then run_cuda_bench (bo_seconds o) (be_cuda_self_test e (bo_cuda_config o)) (be_cuda e)
  else if bo_all o then
    all_backends o
      [(true, SHA256D_BACKEND_OPENSSL); (true, SHA256D_BACKEND_FAST_C);
       (sha256d_backend_available c SHA256D_BACKEND_ARM_SHA2, SHA256D_BACKEND_ARM_SHA2);
       (sha256d_backend_available c SHA256D_BACKEND_X86_SHA_NI, SHA256D_BACKEND_X86_SHA_NI)] g_backend
  else '(rc, _) ← cpu_command o (bo_backend o) g_backend; Some rc.

(** The exit code. *)
Definition bench_main (args : list string) : option Z :=
  let threads := cpu_info_recommended_threads (be_sysfs e) (be_online e) (be_cpu_dir e) in
  let threads := if threads <=? 0 then 1 else threads in
  let '(rc, g_backend) := sha256d_self_check c g_backend_initial in
  if negb (rc =? 0) then Some 1
  else
    match configure_backend_from_env (sha256d_auto_backend c) with
    | None => Some 2
    | Some backend =>
        match parse_bench_args args
                (BenchOptions threads 5 1 false false false false false false false false false backend
                   miner_opencl_config_defaults miner_cuda_config_defaults) with
        | inl rc => Some rc
        | inr o => bench_dispatch o g_backend
        end
    end.
End main.

(** * What the workers scan *)

(** The start of the i-th block of 4096 nonces of a worker. *)
Definition block_start (id thread_count : Z) (i : nat) : Z := u32 ((id + Z.of_nat i * thread_count) * 4096).

(** How often the clock is below the deadline before it is not. *)
Fixpoint turns (deadline : double) (clock : list double) : option nat :=
  match clock with
  | [] => None
  | now :: clock => if negb (f64_lt now deadline) then Some 0%nat else S <$> turns deadline clock
  end.

Section loop.
Context {B : Type} (scan : Z -> B -> B) (mix : Z -> B -> B) (deadline : double) (id thread_count : Z).

Lemma bench_loop_blocks clock i hashes sink :
  bench_loop scan mix deadline thread_count clock (block_start id thread_count i) hashes sink =
  n ← turns deadline clock;
  Some (if n is 0%nat then hashes else u64 (hashes + 4096 * Z.of_nat n),
        foldl (fun s nonce => mix nonce (scan nonce s)) sink (block_start id thread_count <$> seq i n)).
Proof.
  revert i hashes sink. induction clock as [|now clock IH]; intros i hashes sink; [done|]. cbn [bench_loop turns].
  destruct (f64_lt now deadline); [|done]. cbn [negb].
  assert (Hn : add32 (block_start id thread_count i) (u32 (4096 * u32 thread_count)) = block_start id thread_count (S i)).
  { unfold block_start, add32, u32. rewrite <- Zplus_mod, Z.add_mod, Z.mul_mod_idemp_r, <- Z.add_mod by done. f_equal. lia. }
  rewrite Hn, IH. destruct (turns deadline clock) as [n|]; [|done]. cbn [fmap option_fmap option_map mbind option_bind].
  cbn [seq fmap list_fmap foldl]. do 2 f_equal. unfold u64. destruct n as [|n].
  - done.
  - rewrite Zplus_mod_idemp_l. f_equal. lia.
Qed.
End loop.

(** Blocks of different threads or turns do not overlap until the nonces wrap. *)
Lemma blocks_disjoint threads i j a b x y :
  0 <= i < threads -> 0 <= j < threads -> 0 <= x < 4096 -> 0 <= y < 4096 ->
  4096 * (threads * (Z.of_nat a + 1)) <= 2 ^ 32 -> 4096 * (threads * (Z.of_nat b + 1)) <= 2 ^ 32 ->
  add32 (block_start i threads a) x = add32 (block_start j threads b) y -> i = j /\ a = b /\ x = y.
Proof.
  intros Hi Hj Hx Hy Ha Hb. unfold add32, block_start, u32. rewrite !Zplus_mod_idemp_l.
  assert (Hrange : forall k c z, 0 <= k < threads -> 0 <= z < 4096 -> 4096 * (threads * (Z.of_nat c + 1)) <= 2 ^ 32 ->
    0 <= (k + Z.of_nat c * threads) * 4096 + z < 2 ^ 32).
  { intros k d z Hk Hz Hd. nia. }
  rewrite !Z.mod_small by (by apply Hrange). intros E.
  assert (H1 : i + Z.of_nat a * threads = j + Z.of_nat b * threads) by lia. assert (x = y) by lia.
  assert (Hab : Z.of_nat a = Z.of_nat b).
  { destruct (Z.lt_trichotomy (Z.of_nat a) (Z.of_nat b)) as [?|[?|?]]; nia. }
  split_and!; [nia|lia|done].
Qed.

(** The nonces of a block, as a number of the unary kind. *)
Definition block : nat := Z.to_nat 4096.
Lemma block_value : Z.of_nat block = 4096.
Proof. done. Qed.
Lemma block_of_Z : Z.to_nat 4096 = block.
Proof. done. Qed.
#[local] Opaque block.

(** All nonces the threads scan, [rounds] turns each. *)
Definition worker_nonces (threads id : Z) (n : nat) : list Z :=
  concat ((fun i => nonces (block_start id threads i) 0 block) <$> seq 0 n).
Definition scanned (threads : Z) (rounds : list nat) : list Z :=
  concat (imap (fun id n => worker_nonces threads (Z.of_nat id) n) rounds).

Lemma elem_worker threads id n nonce :
  nonce ∈ worker_nonces threads id n <->
  exists i x, (i < n)%nat /\ 0 <= x < 4096 /\ nonce = add32 (block_start id threads i) x.
Proof.
  pose proof block_value. unfold worker_nonces, nonces. rewrite list_elem_of_In, in_concat. setoid_rewrite <- list_elem_of_In. split.
  - intros (l & (i & -> & Hi%elem_of_seq)%list_elem_of_fmap & (x & -> & Hx%elem_of_seq)%list_elem_of_fmap).
    exists i, (Z.of_nat x). unfold nonce_at. split_and!; [lia..|done].
  - intros (i & x & Hi & Hx & ->). eexists.
    split; [apply list_elem_of_fmap; exists i; split; [reflexivity|apply elem_of_seq; lia]|].
    apply list_elem_of_fmap. exists (Z.to_nat x). unfold nonce_at. rewrite elem_of_seq, Z2Nat.id by lia.
    split; [done|]. lia.
Qed.

Lemma worker_length threads id n : length (worker_nonces threads id n) = (block * n)%nat.
Proof.
  unfold worker_nonces. induction n as [|n IH] using nat_ind; [by rewrite Nat.mul_0_r|].
  rewrite seq_S, fmap_app, concat_app, length_app, IH. cbn [fmap list_fmap concat]. rewrite app_nil_r.
  unfold nonces. rewrite length_fmap, length_seq. lia.
Qed.

Lemma worker_distinct threads id n :
  0 <= id < threads -> 4096 * (threads * Z.of_nat n) <= 2 ^ 32 -> NoDup (worker_nonces threads id n).
Proof.
  pose proof block_value. intros Hid. unfold worker_nonces. induction n as [|n IH] using nat_ind; intros Hn; [apply NoDup_nil_2|].
  rewrite seq_S, fmap_app, concat_app. cbn [fmap list_fmap concat]. rewrite app_nil_r.
  apply list.NoDup_app. split_and!; [apply IH; nia| |apply nonces_NoDup; lia].
  intros nonce H1 H2. apply (elem_worker threads id n) in H1 as (i & x & Hi & Hx & ->).
  apply list_elem_of_fmap in H2 as (y & E & Hy%elem_of_seq). unfold nonce_at in E.
  apply (blocks_disjoint threads id id i n x (Z.of_nat y)) in E; try lia; nia.
Qed.

(** Numbered lists from an offset, for the inductions. *)
Definition scanned_from (threads : Z) (k : nat) (rounds : list nat) : list Z :=
  concat (imap (fun id n => worker_nonces threads (Z.of_nat (k + id)) n) rounds).
Lemma scanned_cons threads k n rounds :
  scanned_from threads k (n :: rounds) = worker_nonces threads (Z.of_nat k) n ++ scanned_from threads (S k) rounds.
Proof.
  unfold scanned_from. cbn [imap concat]. rewrite Nat.add_0_r. f_equal. f_equal.
  apply imap_ext. intros i x _. cbn. by rewrite Nat.add_succ_r.
Qed.

Lemma scanned_length threads k rounds : length (scanned_from threads k rounds) = (block * sum_list rounds)%nat.
Proof.
  revert k. induction rounds as [|n rounds IH]; intros k; [by rewrite Nat.mul_0_r|].
  rewrite scanned_cons, length_app, worker_length, IH. change (sum_list (n :: rounds)) with (n + sum_list rounds)%nat. lia.
Qed.

Lemma elem_scanned threads k rounds nonce :
  nonce ∈ scanned_from threads k rounds ->
  exists id n, rounds !! id = Some n /\ nonce ∈ worker_nonces threads (Z.of_nat (k + id)) n.
Proof.
  revert k. induction rounds as [|n rounds IH]; intros k; [by intros H%elem_of_nil|].
  rewrite scanned_cons, elem_of_app. intros [H|H].
  - exists 0%nat, n. by rewrite Nat.add_0_r.
  - apply IH in H as (id & m & H1 & H2). exists (S id), m. by rewrite Nat.add_succ_r.
Qed.

Lemma scanned_distinct threads k rounds :
  Z.of_nat (k + length rounds) <= threads -> Forall (fun n => 4096 * (threads * Z.of_nat n) <= 2 ^ 32) rounds ->
  NoDup (scanned_from threads k rounds).
Proof.
  intros Hk Hr. revert k Hk. induction Hr as [|n rounds Hn Hr IH]; intros k Hk; [apply NoDup_nil_2|].
  cbn [length] in Hk. cbn beta in Hn. rewrite scanned_cons. apply list.NoDup_app. split_and!; [apply worker_distinct; lia| |apply IH; lia].
  intros nonce H1 H2. apply elem_scanned in H2 as (id & m & Hm & H2). pose proof (lookup_lt_Some _ _ _ Hm) as Hid.
  rewrite Forall_lookup in Hr. specialize (Hr id m Hm). cbn beta in Hr.
  apply elem_worker in H1 as (a & x & Ha & Hx & ->). apply elem_worker in H2 as (b & y & Hb & Hy & E).
  apply blocks_disjoint in E as (E & _); try lia; nia.
Qed.

(** * What a run reports *)

Lemma test_tail_words : length self_test_tail = 4%nat /\ is_words self_test_tail.
Proof. split; [reflexivity|]. apply (bool_decide_unpack (Forall is_u32 _)). vm_compute. exact I. Qed.

(** One block in a worker's sink: the matches of the benchmark's zero target. *)
Definition scan_block `{O : OpenSSL} (sink nonce : Z) : Z :=
  Z.lxor (report (nonce_hash test_chain self_test_tail) (Some bench_scan_match)
            (matches (nonce_hash test_chain self_test_tail) (replicate 8 0) nonce block) sink) (u8 nonce).

(** How many turns a worker takes, from its clock. *)
Definition worker_turns (seconds : Z) (clock : list double) : option nat :=
  match clock with
  | [] => None
  | now :: clock => turns (f64_add now (f64_of_Z seconds)) clock
  end.

Lemma bench_tail : for_range 0 4 (fun i t => <[i := load_be32 make_test_header (64 + i * 4)]> t) (replicate 4 0) = self_test_tail.
Proof. reflexivity. Qed.
Lemma bench_midstate `{O : OpenSSL} `{!OpenSSLLaws O} :
  midstate_of test_chain (sha256d_80_midstate_prepare (take 64 make_test_header)).
Proof. exact test_midstate. Qed.
#[local] Opaque self_test_tail make_test_header make_self_test_header test_chain sha256d_nonce_range_func sha256d_80_midstate_prepare.

Section results.
Context `{O : OpenSSL} `{!OpenSSLLaws O} `{X : X86} `{!X86Laws X} `{A : ARM} `{!ARMLaws A} `{Q : QSort} (c : cpu).

(** One turn of a worker. *)
Lemma turn_scan g nonce sink :
  Z.lxor (sha256d_nonce_range_func g (sha256d_80_midstate_prepare (take 64 make_test_header)) self_test_tail
            (replicate 8 0) nonce 4096 (Some bench_scan_match) sink) (u8 nonce) =
  scan_block sink nonce.
Proof.
  rewrite (nonce_range_scan _ _ test_chain self_test_tail);
    [unfold scan, scan_block; rewrite block_of_Z; reflexivity|exact bench_midstate|exact (proj1 test_tail_words)|exact (proj2 test_tail_words)|by split].
Qed.

Lemma worker_main_spec g arg clock :
  worker_main c g arg clock =
  n ← worker_turns (wa_seconds arg) clock;
  Some (u64 (4096 * Z.of_nat n),
        foldl scan_block 0 (block_start (wa_id arg) (wa_thread_count arg) <$> seq 0 n)).
Proof.
  unfold worker_main, worker_turns. destruct clock as [|now clock]; [reflexivity|].
  rewrite bench_tail.
  replace (u32 (u32 (wa_id arg) * 4096)) with (block_start (wa_id arg) (wa_thread_count arg) 0)
    by (unfold block_start, u32; rewrite Z.mul_mod_idemp_l by done; f_equal; lia).
  rewrite bench_loop_blocks. destruct (turns _ clock) as [n|]; [|reflexivity]. cbn [mbind option_bind].
  match goal with |- Some (_, foldl ?f _ _) = _ => assert (H : forall l sink, foldl f sink l = foldl scan_block sink l) end.
  { intros l. induction l as [|nonce l IH]; intros sink; [reflexivity|]. cbn [foldl]. by rewrite turn_scan. }
  rewrite H. by destruct n.
Qed.
(** The results of the threads from the k-th on. *)
Lemma workers_spec g seconds backend threads cpu_of clock k n results :
  mapM (fun arg => worker_main c g arg (clock (Z.to_nat (wa_id arg))))
    ((fun i => WorkerArg (Z.of_nat i) threads (cpu_of i) seconds backend) <$> seq k n) = Some results ->
  exists rounds, length rounds = n /\
    (forall i r, rounds !! i = Some r -> worker_turns seconds (clock (k + i)%nat) = Some r) /\
    results = imap (fun i r => (u64 (4096 * Z.of_nat r),
                                foldl scan_block 0 (block_start (Z.of_nat (k + i)) threads <$> seq 0 r))) rounds.
Proof.
  revert k results. induction n as [|n IH] using nat_ind; intros k results; cbn [seq fmap list_fmap mapM].
  { intros [= <-]. by exists []. }
  rewrite worker_main_spec. cbn [wa_id wa_seconds wa_thread_count]. rewrite Nat2Z.id.
  destruct (worker_turns seconds (clock k)) as [r|] eqn:Er; [|done]. cbn [mbind option_bind].
  destruct (mapM _ _) as [rest|] eqn:Em; [|done]. cbn [mbind option_bind mret option_ret]. intros [= <-].
  apply IH in Em as (rounds & Hl & Ht & ->). exists (r :: rounds). split_and!.
  - cbn [length]. by rewrite Hl.
  - intros [|i] x; cbn [lookup list_lookup]; [intros [= <-]; by rewrite Nat.add_0_r|]. rewrite Nat.add_succ_r. apply (Ht i).
  - cbn [imap]. rewrite Nat.add_0_r. f_equal. apply imap_ext. intros i x _. cbn. by rewrite Nat.add_succ_r.
Qed.

Lemma join_spec (f : nat -> nat -> Z) rounds total sink :
  foldl (fun '(total, sink) '(hashes, s) => (u64 (total + hashes), Z.lxor sink s)) (u64 total, sink)
    (imap (fun i r => (u64 (4096 * Z.of_nat r), f i r)) rounds) =
  (u64 (total + 4096 * Z.of_nat (sum_list rounds)), foldl Z.lxor sink (imap f rounds)).
Proof.
  revert f total sink. induction rounds as [|r rounds IH]; intros f total sink; cbn [imap foldl].
  { by rewrite Z.mul_0_r, Z.add_0_r. }
  assert (Hu : u64 (u64 total + u64 (4096 * Z.of_nat r)) = u64 (total + 4096 * Z.of_nat r))
    by (unfold u64; by rewrite <- Zplus_mod).
  rewrite Hu, (IH (fun i => f (S i))). change (sum_list (r :: rounds)) with (r + sum_list rounds)%nat.
  f_equal. unfold u64. f_equal. lia.
Qed.

Lemma started_le created i n : (i <= started created i n <= i + n)%nat.
Proof.
  revert i. induction n as [|n IH] using nat_ind; intros i; cbn [started]; [lia|].
  destruct (created i); [|lia]. specialize (IH (S i)). lia.
Qed.
End results.

(** * What tuning CUDA ends with *)

Section tuned.
Context `{O : OpenSSL} (env : nat -> gpu_env) (seconds : Z) (Hreturns : forall n, is_Some (gpu_measure seconds (env n))).

Definition measured_at (c : miner_cuda_config_t) (rate : double) (runs : list run) : Prop :=
  Run (Setup 0 false None (Some c)) rate true ∈ runs.

(** [r0] is what was measured before the loops. *)
Definition bench_best_inv (base : miner_cuda_config_t) (r0 : list run) (best : best_cuda) (runs : list run) : Prop :=
  let '(c, rate, ok) := best in
  cc_device c = cc_device base /\ (ok = true -> measured_at c rate runs) /\
  (ok = false -> exists new, runs = r0 ++ new /\ Forall (fun r => run_ok r = false) new).

Lemma wp_measurement c (Q : option double -> list run -> Prop) runs :
  (forall rate, Q (Some rate) (runs ++ [Run (Setup 0 false None (Some c)) rate true])) ->
  Q None (runs ++ [Run (Setup 0 false None (Some c)) (f64_of_Z 0) false]) ->
  wp (cuda_measurement env seconds c) Q runs.
Proof.
  intros H1 H2. destruct (Hreturns (length runs)) as [r Hr]. unfold wp, cuda_measurement, run_cuda_measure. rewrite Hr.
  destruct r as [rc|[[total rate] sink]]; cbn [mbind option_bind]; eauto.
Qed.

Lemma try_measured base r0 c best runs better :
  cc_device c = cc_device base -> bench_best_inv base r0 best runs ->
  (snd best = false -> forall rate, better rate = true) ->
  wp (r ← cuda_measurement env seconds c;
      mret (match r with None => best | Some rate => if better rate then (c, rate, true) else best end))
    (fun best' runs' => (bench_best_inv base r0 best' runs' /\ (snd best = true -> snd best' = true)) /\
       grown (fun _ => True) 1 runs runs') runs.
Proof.
  intros Hc Hb Hfirst. destruct best as [[c0 h0] ok]. destruct Hb as (Hd & Ht & Hf). cbn [snd] in *.
  assert (Hkept : forall x, (ok = false -> run_ok x = false) -> bench_best_inv base r0 (c0, h0, ok) (runs ++ [x])).
  { intros x Hx. split_and!; [done| |].
    - intros Hok. apply elem_of_app. left. by apply Ht.
    - intros Hok. destruct (Hf Hok) as (new & -> & Hn). exists (new ++ [x]). rewrite app_assoc. split; [done|].
      apply Forall_app_2; [done|]. apply list.Forall_singleton. by apply Hx. }
  apply wp_bind, wp_measurement; [intros rate|]; apply wp_ret; (split; [|by apply grown_one]).
  - destruct (better rate) eqn:E.
    + split; [|done]. split_and!; [done| |done]. intros _. apply elem_of_app. right. by apply list_elem_of_singleton.
    + split; [|done]. apply Hkept. intros Hok. by rewrite Hfirst in E.
  - split; [|done]. by apply Hkept.
Qed.

Lemma bench_try_kernel_keeps base r0 kernel block npt best runs :
  bench_best_inv base r0 best runs ->
  wp (bench_try_kernel env seconds base kernel block npt best)
    (fun best' runs' => bench_best_inv base r0 best' runs' /\ grown (fun _ => True) 1 runs runs') runs.
Proof.
  intros Hb. destruct best as [[c h] ok] eqn:Eb. rewrite <- Eb in Hb. unfold bench_try_kernel.
  destruct (_ && _); [apply wp_ret; split; [by rewrite <- Eb|apply grown_refl]|]. rewrite <- Eb.
  eapply wp_mono; [apply (try_measured base r0 _ best runs (fun rate => negb ok || autotune_hashrate_is_better rate h)); [done|done|]|].
  - rewrite Eb. cbn. by intros ->.
  - intros b r [[H1 _] H2]. done.
Qed.

Definition bench_tuned_inv (base : miner_cuda_config_t) (r0 : list run) (best : best_cuda) (runs : list run) : Prop :=
  bench_best_inv base r0 best runs /\ snd best = true.
Lemma bench_try_batch_keeps base r0 batch best runs :
  bench_tuned_inv base r0 best runs ->
  wp (bench_try_batch env seconds batch best)
    (fun best' runs' => bench_tuned_inv base r0 best' runs' /\ grown (fun _ => True) 1 runs runs') runs.
Proof.
  intros [Hb Hok]. destruct best as [[c h] ok]. cbn [snd] in Hok. subst ok. unfold bench_try_batch.
  pose proof (proj1 Hb) as Hd.
  eapply wp_mono; [apply (try_measured base r0 _ (c, h, true) runs (fun rate => autotune_batch_hashrate_is_better rate h));
    [exact Hd|exact Hb|done]|].
  intros b r [[H1 H2] H3]. split; [|done]. split; [done|by apply H2].
Qed.

(** At most 257 measurements, then a setting that was measured or a failure. *)
Definition tuning_result (config : miner_cuda_config_t) (a : Z * option best_cuda) (runs : list run) : Prop :=
  (length runs <= 258)%nat /\
  match snd a with
  | Some (c, rate, _) => fst a = 0 /\ cc_device c = cc_device config /\ measured_at c rate runs
  | None => fst a = 1 /\ Forall (fun r => run_ok r = false) (drop 1 runs)
  end.

Lemma tuning_loops_spec base w : wp (cuda_tuning_loops env seconds base) (tuning_result base) [w].
Proof.
  assert (Hlen : (length (cuda_kernel_candidates base) <= 10)%nat /\ (length (cuda_block_candidates base) <= 5)%nat /\
    (length (cuda_npt_candidates base) <= 5)%nat /\ (length (cuda_batch_candidates base) <= 7)%nat).
  { split_and!; [|apply candidates_spec..].
    etransitivity; [apply candidates_spec|]. etransitivity; [apply List.filter_length_le|]. done. }
  destruct Hlen as (Lk & Lb & Ln & La). unfold cuda_tuning_loops. apply wp_bind. eapply wp_mono.
  - apply (wp_for_each (bench_best_inv base [w]) (fun _ => True) (5 * 5)).
    + intros kernel b r1 Hk Hi1. eapply wp_mono; [apply (wp_for_each (bench_best_inv base [w]) (fun _ => True) 5); [|exact Hi1]|].
      * intros block b2 r2 Hb Hi2.
        eapply wp_mono; [apply (wp_for_each (bench_best_inv base [w]) (fun _ => True) 1); [|exact Hi2]|].
        -- intros npt b3 r3 Hn Hi3. by apply bench_try_kernel_keeps.
        -- intros b3 r3 [Hi3 Hg]. split; [done|]. eapply grown_mono; [|exact Hg]. lia.
      * intros b2 r2 [Hi2 Hg]. split; [done|]. eapply grown_mono; [|exact Hg]. lia.
    + split_and!; [done|done|]. intros _. exists []. by split.
  - intros [[c h] ok] r [Hi Hg]. apply (grown_mono _ _ 250) in Hg; [|lia]. destruct ok; cbn [negb].
    + apply wp_bind. eapply wp_mono; [apply (wp_for_each (bench_tuned_inv base [w]) (fun _ => True) 1); [|by split]|].
      * intros batch b r1 Hb Hi1. by apply bench_try_batch_keeps.
      * intros [[c2 h2] ok2] r2 [[(Hd & Ht & _) Hok] Hg2]. cbn [snd] in Hok. apply (grown_mono _ _ 7) in Hg2; [|lia].
        apply wp_ret. split; [|split_and!; [done|exact Hd|by apply Ht]].
        destruct (grown_trans _ 250 7 257 _ _ _ ltac:(lia) Hg Hg2) as (new & -> & _ & Hl). rewrite length_app. cbn [length]. lia.
    + apply wp_ret. destruct Hi as (_ & _ & Hf). destruct (Hf eq_refl) as (new & -> & Hn).
      split; [|split; [done|exact Hn]]. destruct Hg as (new' & E & _ & Hl).
      apply (f_equal length) in E. rewrite !length_app in *. cbn [length] in *. lia.
Qed.

Lemma bench_tuning_spec config :
  wp (run_cuda_autotune env seconds 0 config) (tuning_result config) [].
Proof.
  unfold run_cuda_autotune. change (negb (0 =? 0)) with false. cbv iota. apply wp_bind, wp_measurement; [intros rate|];
    exact (tuning_loops_spec (bench_base config) _).
Qed.
End tuned.

(** * Properties *)

(** C36.  A benchmark counts exactly what it scans: each thread that was started scans
    whole blocks of 4096 nonces until its clock passes the deadline, the hashes
    reported are the number of nonces all of them scanned, no nonce is scanned twice
    while the threads do not wrap around the 32 bits, and the checksum is that of the
    matches in these blocks, whatever backend scans. *)
Theorem bench_counts_scans `{O : OpenSSL} `{!OpenSSLLaws O} `{X : X86} `{!X86Laws X} `{A : ARM} `{!ARMLaws A}
    `{Q : QSort} (c : cpu) g threads seconds backend affinity e r :
  0 < threads -> run_bench_once c g threads seconds backend affinity e = Some (inr r) ->
  exists rounds,
    br_threads r = Z.of_nat (length rounds) /\ br_threads r <= threads /\
    (forall i n, rounds !! i = Some n -> worker_turns seconds (oe_clock e i) = Some n) /\
    br_hashes r = u64 (Z.of_nat (length (scanned threads rounds))) /\
    (Forall (fun n => 4096 * (threads * Z.of_nat n) <= 2 ^ 32) rounds -> NoDup (scanned threads rounds)) /\
    br_sink r = foldl Z.lxor 0 (imap (fun i n => foldl scan_block 0 (block_start (Z.of_nat i) threads <$> seq 0 n)) rounds).
Proof.
  intros Hthreads. unfold run_bench_once. destruct (oe_alloc e); [|done]. cbn [negb].
  set (order := if affinity && _ then _ else _). clearbody order.
  pose proof (started_le (oe_created e) 0 (Z.to_nat threads)) as Hs. set (running := started _ _ _) in *. clearbody running.
  unfold bench_args. destruct (mapM _ _) as [results|] eqn:Em; [|done]. cbn [mbind option_bind].
  apply (workers_spec c g seconds backend threads (fun i => match order with [] => -1 | _ => order !!! (i mod length order)%nat end)
    (oe_clock e)) in Em as (rounds & Hl & Ht & ->).
  unfold join_workers. change (0, 0) with (u64 0, 0).
  rewrite (join_spec (fun i r => foldl scan_block 0 (block_start (Z.of_nat (0 + i)) threads <$> seq 0 r))).
  intros H. injection H as <-. cbn [br_threads br_hashes br_sink]. exists rounds.
  change (scanned threads rounds) with (scanned_from threads 0 rounds).
  rewrite scanned_length, Nat2Z.inj_mul, block_value. split_and!; [by rewrite Hl|lia|exact Ht|done| |done].
  intros Hr. apply scanned_distinct; [lia|done].
Qed.

Lemma run_bench_unavailable `{O : OpenSSL} `{!OpenSSLLaws O} `{X : X86} `{!X86Laws X} `{A : ARM} `{!ARMLaws A}
    `{Q : QSort} (c : cpu) g threads seconds backend repeat affinity alloc envs :
  sha256d_backend_available c backend = false ->
  run_bench c g threads seconds backend repeat affinity alloc envs = Some (1, None, g).
Proof. intros Hb. unfold run_bench. by rewrite backend_passes, Hb. Qed.

(** The check of the hashes never stops the program; an unknown backend in the
    environment and the command line do. *)
Lemma bench_main_starts `{O : OpenSSL} `{!OpenSSLLaws O} `{X : X86} `{!X86Laws X} `{A : ARM} `{!ARMLaws A}
    `{Q : QSort} `{!QSortLaws Q} (c : cpu) (e : bench_env) args :
  exists g, bench_main c e args =
    match configure_backend_from_env e (sha256d_auto_backend c) with
    | None => Some 2
    | Some backend =>
        match parse_bench_args args
                (BenchOptions (cpu_info_recommended_threads (be_sysfs e) (be_online e) (be_cpu_dir e)) 5 1
                   false false false false false false false false false backend
                   miner_opencl_config_defaults miner_cuda_config_defaults) with
        | inl rc => Some rc
        | inr o => bench_dispatch c e o g
        end
    end.
Proof.
  assert (Hp : fst (sha256d_self_check c g_backend_initial) = 0).
  { apply backends_pass. by repeat constructor. }
  unfold bench_main. destruct (sha256d_self_check c g_backend_initial) as [rc g]. cbn [fst] in Hp. subst rc. exists g.
  change (negb (0 =? 0)) with false. cbv iota.
  pose proof (recommended_threads_range (be_sysfs e) (be_online e) (be_cpu_dir e)) as Hr.
  by rewrite (proj2 (Z.leb_gt _ _)) by lia.
Qed.

(** * Concrete runs *)

(** Two threads; the clock of the first is below the deadline once, that of the second
    is past it at the first reading. *)
Definition wonce : once_env :=
  OnceEnv true false (fun _ => None) 2 None (fun _ => true)
    (fun i => match i with
              | 0%nat => [f64_of_Z 0; f64_of_Z 0; f64_of_Z 2]
              | _ => [f64_of_Z 0; f64_of_Z 2]
              end) (f64_of_Z 0) (f64_of_Z 2).

#[local] Existing Instances ref_openssl ref_openssl_laws ref_x86 ref_x86_laws ref_arm ref_arm_laws.

Lemma wonce_returns : exists r,
  @run_bench_once ref_openssl ref_x86 ref_arm ref_qsort (Cpu true true true 0 1) SHA256D_BACKEND_OPENSSL 2 1
    SHA256D_BACKEND_X86_SHA_NI false wonce = Some (inr r) /\ br_threads r = 2.
Proof.
  unfold run_bench_once. change (oe_alloc wonce) with true. cbn [negb andb].
  change (started (oe_created wonce) 0 (Z.to_nat 2)) with 2%nat. unfold bench_args. cbn [seq fmap list_fmap mapM].
  rewrite !worker_main_spec by apply _. cbn [wa_id wa_seconds wa_thread_count].
  change (worker_turns 1 (oe_clock wonce (Z.to_nat (Z.of_nat 0)))) with (Some 1%nat).
  change (worker_turns 1 (oe_clock wonce (Z.to_nat (Z.of_nat 1)))) with (Some 0%nat).
  cbn [mbind option_bind mret option_ret]. destruct (join_workers _) as [total sink]. eexists. split; reflexivity.
Qed.

Lemma bench_counts_scans_witness : exists r,
  @run_bench_once ref_openssl ref_x86 ref_arm ref_qsort (Cpu true true true 0 1) SHA256D_BACKEND_OPENSSL 2 1
    SHA256D_BACKEND_X86_SHA_NI false wonce = Some (inr r) /\ br_hashes r = 4096.
Proof.
  destruct wonce_returns as (r & E & Ht). exists r. split; [exact E|].
  destruct (@bench_counts_scans ref_openssl ref_openssl_laws ref_x86 ref_x86_laws ref_arm ref_arm_laws ref_qsort
    _ _ 2 1 _ _ _ _ eq_refl E) as (rounds & Hl & _ & Hr & -> & _). rewrite Ht in Hl.
  destruct rounds as [|a [|b [|x rounds]]]; cbn [length] in Hl; try lia.
  assert (Ha : Some 1%nat = Some a) by exact (Hr 0%nat a eq_refl).
  assert (Hb : Some 0%nat = Some b) by exact (Hr 1%nat b eq_refl). injection Ha as <-. injection Hb as <-.
  change (scanned 2 [1%nat; 0%nat]) with (scanned_from 2 0 [1%nat; 0%nat]).
  rewrite scanned_length, Nat2Z.inj_mul, block_value. reflexivity.
Defined.
