(* ===== verification/Stats.v ===== *)
(** The hash rates a session reports (src/src/stratum.c): the windows over the counters
    of the miner, what is computed from them, and the unit it is printed in.  The text
    itself is left out. *)
From stdpp Require Import base tactics list option numbers strings.
From Stdlib Require Import ZArith Lia Ascii SpecFloat.
From S2P Require Import Prelude Words Fips Sha256d Float64 Hex Target Job Miner.

#[local] Open Scope Z_scope.

(** * Rates *)

(** The value printed and its unit. *)
Definition hashrate_value (hashes_per_second : double) : double * string :=
  let at_least (limit : Z) := f64_le (f64_of_Z limit) hashes_per_second in
  let scaled (limit : Z) := f64_div hashes_per_second (f64_of_Z limit) in
  if at_least (10 ^ 12) then (scaled (10 ^ 12), "TH/s"%string)
  else if at_least (10 ^ 9) then (scaled (10 ^ 9), "GH/s"%string)
  else if at_least (10 ^ 6) then (scaled (10 ^ 6), "MH/s"%string)
  else if at_least (10 ^ 3) then (scaled (10 ^ 3), "kH/s"%string)
  else (hashes_per_second, "H/s"%string).

(** [if (elapsed <= 0.0) elapsed = 0.001] *)
Definition positive_elapsed (elapsed : double) : double :=
  if f64_le elapsed (f64_of_Z 0) then f64_div (f64_of_Z 1) (f64_of_Z 1000) else elapsed.

(** The hashes between two readings of a counter. *)
Definition counted (current last : Z) : Z := u64 (current - last).
Definition counted_rate (current last : Z) (elapsed : double) : double :=
  f64_div (f64_of_Z (counted current last)) elapsed.

(** * Windows *)

(** The variables of [stratum_run_client] the statistics keep. *)
Record windows := Windows {
  last_stats_time : double; last_hashes : Z; last_thread_hashes : list Z; last_thread_time : double;
}.

(** What a report shows: the window's length, the total and the rate of each thread with
    its counter. *)
Record thread_report := ThreadReport {
  tp_window : double; tp_total : double; tp_threads : list (double * Z);
}.

(** Writing the first entries of an array. *)
Definition write_front {A : Type} (new old : list A) : list A := new ++ drop (length new) old.

Section stats.
Context `{O : OpenSSL} {D : Type}.

Definition reset_thread_hashrate_window (m : option (miner O D)) (thread_count : Z) (now : double) (w : windows) : windows :=
  match m with
  | Some m =>
      if thread_count <=? 0 then w
      else
        Windows (last_stats_time w) (last_hashes w)
          (write_front (miner_snapshot_thread_hashes m thread_count) (last_thread_hashes w)) now
  | None => w
  end.

(** [alloc] is whether the array of current counters could be allocated. *)
Definition print_thread_hashrates (m : option (miner O D)) (thread_count : Z) (alloc : bool) (now : double) (w : windows)
    : option thread_report * windows :=
  match m with
  | Some m =>
      if (thread_count <=? 0) || negb alloc then (None, w)
      else
        let current := miner_snapshot_thread_hashes m thread_count in
        let elapsed := positive_elapsed (f64_sub now (last_thread_time w)) in
        let rates := zip_with (fun current last => counted_rate current last elapsed) current (last_thread_hashes w) in
        (Some (ThreadReport elapsed (foldl f64_add (f64_of_Z 0) rates) (zip rates current)),
         Windows (last_stats_time w) (last_hashes w) (write_front current (last_thread_hashes w)) now)
  | None => (None, w)
  end.

(** The keys that report or restart a window; pausing and resuming start a new one. *)
Definition key_windows (m : option (miner O D)) (ch : ascii) (thread_count : Z) (alloc : bool) (now : double) (w : windows)
    : option thread_report * windows :=
  if Ascii.eqb ch "h" || Ascii.eqb ch "H" then print_thread_hashrates m thread_count alloc now w
  else if Ascii.eqb ch "p" || Ascii.eqb ch "P" then
    (None, match m with
           | Some m' => if miner_is_paused m' then w
                        else reset_thread_hashrate_window (Some (miner_set_paused m' true)) thread_count now w
           | None => w
           end)
  else if Ascii.eqb ch "r" || Ascii.eqb ch "R" then
    (None, match m with
           | Some m' => if negb (miner_is_paused m') then w
                        else reset_thread_hashrate_window (Some (miner_set_paused m' false)) thread_count now w
           | None => w
           end)
  else (None, w).

(** The rate of a statistics line, when one is due. *)
Definition maybe_print_stats (m : option (miner O D)) (stats_interval now : double) (w : windows) : option double * windows :=
  match m with
  | Some m =>
      if f64_le stats_interval (f64_of_Z 0) then (None, w)
      else if f64_lt (f64_sub now (last_stats_time w)) stats_interval then (None, w)
      else
        (Some (counted_rate (miner_hashes m) (last_hashes w) (f64_sub now (last_stats_time w))),
         Windows now (miner_hashes m) (last_thread_hashes w) (last_thread_time w))
  | None => (None, w)
  end.

(** The average of [print_results]. *)
Definition average_rate (m : option (miner O D)) (started_at now : double) : double :=
  f64_div (f64_of_Z (match m with Some m => miner_hashes m | None => 0 end)) (positive_elapsed (f64_sub now started_at)).

(** The lines of a session, one tick per turn of the loop. *)
Fixpoint stats_lines (stats_interval : double) (ticks : list (option (miner O D) * double)) (w : windows)
    : list double * windows :=
  match ticks with
  | [] => ([], w)
  | (m, now) :: ticks =>
      let '(line, w) := maybe_print_stats m stats_interval now w in
      let '(lines, w) := stats_lines stats_interval ticks w in
      (match line with Some rate => rate :: lines | None => lines end, w)
  end.

(** * No hash is counted twice *)

(** Consecutive readings of the clock and the counter, and what a line says of two. *)
Fixpoint consecutive {A B : Type} (f : A -> A -> B) (a : A) (l : list A) : list B :=
  match l with [] => [] | b :: l => f a b :: consecutive f b l end.
Definition line_rate (a b : double * Z) : double := counted_rate (snd b) (snd a) (f64_sub (fst b) (fst a)).
Definition long_enough (stats_interval : double) (a b : double * Z) : Prop :=
  f64_lt (f64_sub (fst b) (fst a)) stats_interval = false.

Lemma counted_sum (l : list (double * Z)) a :
  u64 (foldr Z.add 0 (consecutive (fun a b => counted (snd b) (snd a)) a l)) = u64 (snd (List.last l a) - snd a).
Proof.
  revert a. induction l as [|b l IH]; intros a; [cbn; by rewrite Z.sub_diag|].
  change (List.last (b :: l) a) with (match l with [] => b | _ => List.last l a end).
  assert (Hl : match l with [] => b | _ => List.last l a end = List.last l b).
  { destruct l as [|c l]; [done|]. clear. revert c. induction l as [|d l IHl]; [done|]. intros c. apply IHl. }
  rewrite Hl. cbn [consecutive foldr]. unfold counted at 1. specialize (IH b). unfold u64 in *.
  rewrite Zplus_mod_idemp_l. rewrite <- Zplus_mod_idemp_r, IH, Zplus_mod_idemp_r. f_equal. lia.
Qed.

(** The lines of a session are cut from the counter without gaps: each line's window
    begins where the last one ended and is at least as long as asked for, and the counts
    of all lines together are what the counter has grown by. *)
Theorem stats_lines_partition stats_interval ticks w :
  exists cuts,
    let a := (last_stats_time w, last_hashes w) in
    let '(lines, w') := stats_lines stats_interval ticks w in
    lines = consecutive line_rate a cuts /\
    (last_stats_time w', last_hashes w') = List.last cuts a /\
    Forall (fun P => P) (consecutive (long_enough stats_interval) a cuts) /\
    u64 (foldr Z.add 0 (consecutive (fun a b => counted (snd b) (snd a)) a cuts)) = u64 (last_hashes w' - last_hashes w).
Proof.
  assert (H : exists cuts,
    let a := (last_stats_time w, last_hashes w) in
    let '(lines, w') := stats_lines stats_interval ticks w in
    lines = consecutive line_rate a cuts /\
    (last_stats_time w', last_hashes w') = List.last cuts a /\
    Forall (fun P => P) (consecutive (long_enough stats_interval) a cuts)).
  { revert w. induction ticks as [|[m now] ticks IH]; intros w; [by exists []|]. cbn [stats_lines].
    destruct (maybe_print_stats m stats_interval now w) as [line w1] eqn:E. destruct (IH w1) as [cuts H]. cbv zeta in *.
    destruct (stats_lines stats_interval ticks w1) as [lines w2]. destruct H as (H1 & H2 & H3).
    unfold maybe_print_stats in E. destruct m as [m|]; [|injection E as <- <-; by exists cuts].
    destruct (f64_le _ _); [injection E as <- <-; by exists cuts|].
    destruct (f64_lt _ _) eqn:Elt; injection E as <- <-; [by exists cuts|]. cbn [last_stats_time last_hashes] in *.
    exists ((now, miner_hashes m) :: cuts). cbn [consecutive]. split_and!.
    - by rewrite H1.
    - rewrite H2. destruct cuts as [|c cuts]; [done|]. clear. cbn [List.last]. revert c.
      induction cuts as [|d cuts IHc]; [done|]. intros c. apply IHc.
    - by apply Forall_cons_2. }
  destruct H as [cuts H]. exists cuts. cbv zeta in *. destruct (stats_lines stats_interval ticks w) as [lines w'].
  destruct H as (H1 & H2 & H3). split_and!; [done..|]. rewrite counted_sum, <- H2. done.
Qed.

(** The counters fit the array that was allocated for them. *)
Lemma write_front_length {A : Type} (new old : list A) :
  (length new <= length old)%nat -> length (write_front new old) = length old.
Proof. intros H. unfold write_front. rewrite length_app, length_drop. lia. Qed.
Lemma snapshot_fits (m : miner O D) n :
  0 <= thread_count m <= Z.of_nat (length (thread_hashes m)) ->
  (length (miner_snapshot_thread_hashes m n) <= Z.to_nat n)%nat.
Proof. intros H. rewrite (proj1 (snapshot_exact m n H)), length_take. lia. Qed.
Lemma windows_in_range m ch n alloc now w :
  length (last_thread_hashes w) = Z.to_nat n ->
  (forall m' : miner O D, m = Some m' -> 0 <= thread_count m' <= Z.of_nat (length (thread_hashes m'))) ->
  length (last_thread_hashes (snd (key_windows m ch n alloc now w))) = Z.to_nat n.
Proof.
  intros Hl Hm. unfold key_windows, print_thread_hashrates, reset_thread_hashrate_window.
  repeat case_match; try done; cbn [snd last_thread_hashes]; rewrite write_front_length; try done; rewrite Hl;
    apply snapshot_fits; unfold miner_set_paused; repeat case_match; exact (Hm _ eq_refl).
Qed.
End stats.
