(* ===== verification/Lifetime.v ===== *)
(** Lifetimes: traces that create, use and free items of some type, used where the
    programs hold sockets, TLS objects, files and memory.

    An item's [life] through a trace tells whether it is held at the end, and fails when
    it was created twice, or used or freed without being held. *)
From stdpp Require Import base tactics list option.

Section lifetime.
Context {I : Type} `{!EqDecision I}.

Inductive happening := Get (i : I) | Use (i : I) | Put (i : I).
#[export] Instance happening_eq_dec : EqDecision happening.
Proof using EqDecision0. solve_decision. Defined.
Definition about (e : happening) : I := match e with Get i | Use i | Put i => i end.

(** Whether [i] is held after a trace; [None] when it was created twice without being
    freed between, or used or freed without being held. *)
Definition life_step (i : I) (held : option bool) (e : happening) : option bool :=
  held ← held;
  if decide (about e = i) then
    match e, held with
    | Get _, false => Some true
    | Use _, true => Some true
    | Put _, true => Some false
    | _, _ => None
    end
  else Some held.
Definition life (i : I) (tr : list happening) : option bool := foldl (life_step i) (Some false) tr.

Definition put_if (b : bool) (i : I) : list happening := if b then [Put i] else [].

(** The part of a trace that is about an item. *)
Definition touches (i : I) (l : list happening) : list happening := filter (fun e => about e = i) l.
End lifetime.
Arguments happening _ : clear implicits.

(** Prefixing what happened before the rest of a function. *)
Definition log {E A : Type} (l : list E) (rest : list E * A) : list E * A := (l ++ fst rest, snd rest).

Abbreviation lives i := (foldl (life_step i)).

Section facts.
Context {I : Type} `{!EqDecision I}.
Implicit Types (i : I) (l : list (happening I)).

Lemma lives_None i l : lives i None l = None.
Proof. by induction l. Qed.
Lemma lives_prefix i h l1 l2 : is_Some (lives i h (l1 ++ l2)) -> is_Some (lives i h l1).
Proof. rewrite foldl_app. destruct (lives i h l1); [eauto|]. rewrite lives_None. by intros []. Qed.
Lemma lives_touches i h l : lives i h l = lives i h (touches i l).
Proof.
  revert h. unfold touches. induction l as [|e l IH]; intros h; [done|]. rewrite filter_cons. cbn [foldl].
  destruct (decide (about e = i)) as [H|H]; [apply IH|]. rewrite <- IH.
  by destruct h; cbn; [rewrite decide_False|].
Qed.
Lemma touches_none i l : Forall (fun e => about e <> i) l -> touches i l = [].
Proof. induction 1 as [|e l He Hl IH]; [done|]. unfold touches. by rewrite filter_cons_False. Qed.
Lemma touches_app i l1 l2 : touches i (l1 ++ l2) = touches i l1 ++ touches i l2.
Proof. apply list.filter_app. Qed.
Lemma lives_none i h l : Forall (fun e => about e <> i) l -> lives i h l = h.
Proof. intros H. by rewrite lives_touches, touches_none. Qed.

Lemma touches_move i e l1 l2 : touches i l1 = [] \/ about e <> i -> touches i (l1 ++ e :: l2) = touches i (e :: l1 ++ l2).
Proof.
  unfold touches. rewrite list.filter_app, !filter_cons, list.filter_app. intros [H|H]; [by rewrite H|].
  by rewrite !decide_False by done.
Qed.

(** The same for the events of a kind. *)
Lemma filter_move (P : happening I -> Prop) `{!forall e, Decision (P e)} e l1 l2 :
  filter P l1 = [] \/ ~ P e -> filter P (l1 ++ e :: l2) = filter P (e :: l1 ++ l2).
Proof.
  rewrite list.filter_app, !filter_cons, list.filter_app. intros [Hn|Hn]; [by rewrite Hn|]. by rewrite !decide_False by done.
Qed.
Lemma filter_none (P : happening I -> Prop) `{!forall e, Decision (P e)} l : Forall (fun e => ~ P e) l -> filter P l = [].
Proof. induction 1 as [|e l He Hl IH]; [done|]. by rewrite filter_cons_False. Qed.
Lemma filter_all (P : happening I -> Prop) `{!forall e, Decision (P e)} l : Forall P l -> filter P l = l.
Proof. induction 1 as [|e l He Hl IH]; [done|]. by rewrite filter_cons_True, IH. Qed.

Lemma life_snoc i tr e held held' :
  life i tr = Some held -> lives i (Some held) [e] = Some held' -> life i (tr ++ [e]) = Some held'.
Proof. intros H1 H2. unfold life in *. by rewrite foldl_app, H1. Qed.

Lemma lives_uses i h l :
  Forall (fun e => exists j, e = Use j) l -> (h = true \/ Use i ∉ l) -> lives i (Some h) l = Some h.
Proof.
  induction 1 as [|e l [j ->] _ IH]; intros Hi; [done|]. cbn [foldl].
  assert (Hs : life_step i (Some h) (Use j) = Some h).
  { cbn. destruct (decide (j = i)) as [->|]; [|done]. destruct Hi as [->|Hi]; [done|]. by destruct Hi; left. }
  rewrite Hs. apply IH. destruct Hi as [Hi|Hi]; [by left|right]. intros H. apply Hi. by right.
Qed.
End facts.

(** * Opening a socket *)

Section sockets.
Context {I : Type} (addresses : I) (tried : nat -> I).

(** One address after another, until a socket for it opens and works. *)
Fixpoint try_addresses (i : nat) (tries : list (bool * bool)) : list (happening I) * option nat :=
  match tries with
  | [] => ([], None)
  | (opens, works) :: tries =>
      if negb opens then try_addresses (S i) tries
      else log [Get (tried i)]
             (if works then ([], Some i) else log [Put (tried i)] (try_addresses (S i) tries))
  end.

(** The addresses a name resolves to, [None] when it does not; they are freed before the
    descriptor is returned. *)
Definition open_socket (resolved : option (list (bool * bool))) : list (happening I) * option nat :=
  match resolved with
  | None => ([], None)
  | Some tries =>
      let '(l, fd) := try_addresses 0 tries in ([Get addresses] ++ l ++ [Put addresses], fd)
  end.

Lemma try_addresses_all (P : happening I -> Prop) k tries :
  (forall k, P (Get (tried k)) /\ P (Put (tried k))) -> Forall P (fst (try_addresses k tries)).
Proof.
  intros HP. revert k. induction tries as [|[opens works] tries IH]; intros k; [constructor|]. cbn [try_addresses].
  destruct opens; [|apply IH]. destruct works; cbn; repeat (apply Forall_cons_2; [apply HP|]); [done|apply IH].
Qed.
Lemma open_socket_all (P : happening I -> Prop) resolved :
  P (Get addresses) -> P (Put addresses) -> (forall k, P (Get (tried k)) /\ P (Put (tried k))) ->
  Forall P (fst (open_socket resolved)).
Proof.
  intros Hg Hp HP. destruct resolved as [tries|]; [|constructor]. unfold open_socket.
  pose proof (try_addresses_all P 0 tries HP) as H. destruct (try_addresses 0 tries). cbn.
  apply Forall_cons_2; [done|]. apply Forall_app_2; [done|]. by apply Forall_singleton.
Qed.

Context `{!EqDecision I} `{!Inj (=) (=) tried} (tried_other : forall k, tried k <> addresses).

(** The socket that was opened. *)
Definition opened (fd : option nat) (i : I) : bool :=
  match fd with Some k => bool_decide (i = tried k) | None => false end.

Lemma try_lives tries k i :
  lives i (Some false) (fst (try_addresses k tries)) = Some (opened (snd (try_addresses k tries)) i).
Proof using Type*.
  revert k. induction tries as [|[opens works] tries IH]; intros k; [done|]. cbn [try_addresses].
  destruct opens; [|apply IH]. cbn [negb]. destruct works; cbn [log fst snd app].
  - cbn. destruct (decide (tried k = i)) as [<-|H]; [by rewrite bool_decide_true|].
    rewrite bool_decide_false; [done|congruence].
  - rewrite <- IH. cbn [foldl]. f_equal. cbn. by repeat (case_decide; cbn).
Qed.

(** What is left open is the socket returned, and nothing else. *)
Lemma open_socket_lives r i : lives i (Some false) (fst (open_socket r)) = Some (opened (snd (open_socket r)) i).
Proof using Type*.
  destruct r as [tries|]; [|done]. unfold open_socket.
  assert (Ha : Forall (fun e => about e <> addresses) (fst (try_addresses 0 tries))).
  { apply try_addresses_all. intros k. by split; apply tried_other. }
  pose proof (try_lives tries 0 i) as H.
  destruct (try_addresses 0 tries) as [l fd]. cbn [fst snd] in *. rewrite !foldl_app.
  destruct (decide (i = addresses)) as [->|Hi].
  - cbn [foldl life_step about mbind option_bind]. rewrite decide_True by done. rewrite lives_none by done.
    cbn. rewrite decide_True by done. destruct fd as [k|]; cbn; [|done].
    rewrite bool_decide_false; [done|]. intros Hk. by apply (tried_other k).
  - rewrite (lives_none i _ [Get addresses]) by (apply Forall_singleton; by intros <-).
    rewrite H. apply lives_none, Forall_singleton. by intros <-.
Qed.
End sockets.
