(* ===== verification/ClientRun.v ===== *)
(** [stratum_run_client] of src/src/stratum.c as a whole: opening the connection, which
    transport it gets and what it holds, starting the miner, the session of Client.v with
    the workers, and what is freed on the way out.

    Everything that is created, used or freed is an event of Lifetime.v; the results of
    system calls and of OpenSSL are arguments, printing is left out. *)
From stdpp Require Import base tactics list option strings relations.
From Stdlib Require Import ZArith Lia Ascii SpecFloat.
From S2P Require Import Prelude Lifetime Words Fips Sha256d Scan Simd X86ShaNi ArmSha2 Backends.
From S2P Require Import Float64 Hex Target Job Miner MinerSteps MinerSafety Json Stratum PoolMessages StratumNet.
From S2P Require Import Client ClientSafety SessionTrace.

#[local] Open Scope Z_scope.

(** What a run holds; the [k]-th attempt at a connection has items of its own. *)
Inductive item :=
  | Addresses (k : nat) | Tried (k i : nat) | TlsContext (k : nat) | TlsSession (k : nat)
  | MinerObject | ThreadHashes | RawTerminal.
#[export] Instance item_eq_dec : EqDecision item.
Proof. solve_decision. Defined.

(** * The connection *)

(** [conn_verify] is the mode set in the TLS context. *)
Record stratum_conn_t := StratumConn {
  conn_fd : option item; conn_ctx : option item; conn_verify : bool; conn_ssl : option item; conn_use_tls : bool;
}.
Definition no_conn (use_tls : bool) : stratum_conn_t := StratumConn None None false None use_tls.

Definition put_item (i : option item) : list (happening item) := match i with Some i => [Put i] | None => [] end.
Definition use_item (i : option item) : list (happening item) := match i with Some i => [Use i] | None => [] end.

(** [SSL_shutdown] writes to the socket. *)
Definition conn_close (conn : stratum_conn_t) : list (happening item) * stratum_conn_t :=
  (match conn_ssl conn with Some ssl => [Use ssl] ++ use_item (conn_fd conn) ++ [Put ssl] | None => [] end ++
   put_item (conn_ctx conn) ++ put_item (conn_fd conn), no_conn false).

(** The answers of the calls of one attempt. *)
Record tries := Tries {
  tr_resolved : option (list (bool * bool)); tr_ssl_ctx_new : bool; tr_ssl_new : bool; tr_ssl_connect : bool;
}.

Definition connect_tcp (k : nat) (t : tries) : list (happening item) * option nat :=
  open_socket (Addresses k) (Tried k) (tr_resolved t).

(** The connection, whether the attempt succeeded, and [*tls_handshake_failed]. *)
Definition conn_open_once (k : nat) (endpoint : pool_endpoint_t) (verify_tls : bool) (t : tries)
    : list (happening item) * (stratum_conn_t * bool * bool) :=
  let failed (conn : stratum_conn_t) (handshake : bool) :=
    let '(l, conn) := conn_close conn in (l, (conn, false, handshake)) in
  let '(l, fd) := connect_tcp k t in
  log l
    match fd with
    | None => ([], (no_conn (ep_use_tls endpoint), false, false))
    | Some i =>
        let fd := Tried k i in
        let conn := StratumConn (Some fd) None false None (ep_use_tls endpoint) in
        if negb (ep_use_tls endpoint) then ([], (conn, true, false))
        else if negb (tr_ssl_ctx_new t) then failed conn false
        else
          let ctx := TlsContext k in
          let conn := StratumConn (Some fd) (Some ctx) verify_tls None true in
          log [Get ctx; Use ctx]
            (if negb (tr_ssl_new t) then failed conn false
             else
               let ssl := TlsSession k in
               let conn := StratumConn (Some fd) (Some ctx) verify_tls (Some ssl) true in
               log [Get ssl; Use ssl; Use fd]
                 (if negb (tr_ssl_connect t) then failed conn true else ([], (conn, true, false))))
    end.

(** The attempts; [tries k] are the answers the [k]-th of them gets. *)
Definition conn_open (endpoint : pool_endpoint_t) (attempts : nat -> tries)
    : list (happening item) * (stratum_conn_t * bool) :=
  let '(l, (conn, ok, handshake_failed)) := conn_open_once 0 endpoint (ep_verify_tls endpoint) (attempts 0%nat) in
  log l
    (if (ok : bool) then ([], (conn, true))
     else
       let '(l, (conn, ok, calls)) :=
         if ep_use_tls endpoint && ep_verify_tls endpoint && handshake_failed then
           let '(l, (conn, ok, _)) := conn_open_once 1 endpoint false (attempts 1%nat) in (l, (conn, ok, 2%nat))
         else ([], (conn, false, 1%nat)) in
       log l
         (if (ok : bool) then ([], (conn, true))
          else if ep_use_tls endpoint then
            let plain := PoolEndpoint (ep_host endpoint) (ep_port endpoint) false false in
            let '(l, (conn, ok, _)) := conn_open_once calls plain false (attempts calls) in (l, (conn, ok))
          else ([], (conn, false)))).

(** * The run *)

Record stratum_client_config_t := StratumClientConfig {
  scc_thread_count : Z; scc_cpu_affinity : bool; scc_enable_mining : bool;
  scc_opencl : miner_opencl_config_t; scc_cuda : miner_cuda_config_t;
  scc_stats_interval : double; scc_stop_at : double; scc_session_seconds : double;
}.

Section run.
Context `{J : Jansson} `{O : OpenSSL} `{X : X86} `{A : ARM} {D : Type}.
Context (backend : sha256d_backend_t) (device_reports : active_job_t O -> Z -> Z -> list (Z * list Z) -> Prop).
Context (write_result : nat -> option nat) (BTCRIG_USER_AGENT : string).

(** What the run meets: the attempts at a connection, whether the miner can be created
    and what its start meets, whether the counters can be allocated, whether the standard
    input is a terminal, the batch sizes of the devices, the clock. *)
Record run_env := RunEnv {
  rn_attempts : nat -> tries; rn_create : bool; rn_start : start_env D; rn_calloc : bool; rn_terminal : bool;
  rn_batch : worker_kind -> Z; rn_connected_at : double;
}.
Context (e : run_env) (url user password : string) (suggest_difficulty : double)
  (config : option stratum_client_config_t).

Definition run_thread_count : Z :=
  match config with
  | Some config => if 0 <=? scc_thread_count config then scc_thread_count config else 1
  | None => 1
  end.
Definition run_enable_mining : bool := match config with Some config => scc_enable_mining config | None => true end.
Definition session_config (use_tls : bool) : client_config :=
  match config with
  | Some config => ClientConfig user password suggest_difficulty (scc_stop_at config) (scc_session_seconds config) use_tls
  | None => ClientConfig user password suggest_difficulty (f64_of_Z 0) (f64_of_Z 0) use_tls
  end.

(** A session about to begin: its endpoint, its connection, and the miner with its workers. *)
Record ready := Ready {
  rd_endpoint : pool_endpoint_t; rd_conn : stratum_conn_t; rd_miner : option (miner O D);
  rd_workers : list (worker O);
}.

(** The miner of the run before it is started. *)
Definition run_miner : miner O D :=
  let m := miner_create_with_backend_options run_thread_count (scc_opencl <$> config) (scc_cuda <$> config) in
  match config with Some config => miner_set_cpu_affinity (scc_cpu_affinity config) m | None => m end.

(** Up to the subscription: what was created and freed, and the session or the result of
    a failed run. *)
Definition start_mining (endpoint : pool_endpoint_t) (conn : stratum_conn_t)
    : list (happening item) * (Z + ready) :=
  let close := fst (conn_close conn) in
  if negb (rn_create e) then (close, inl 1)
  else
    log [Get MinerObject; Use MinerObject]
      (let '(m, spawned, rc) := miner_start (rn_start e) run_miner in
       if negb (rc =? 0) then ([Put MinerObject] ++ close, inl 1)
       else if negb (rn_calloc e) then ([Put MinerObject] ++ close, inl 1)
       else ([Get ThreadHashes; Use MinerObject; Use ThreadHashes],
             inr (Ready endpoint conn (Some m) ((fun k => Worker k (rn_batch e k) AtTop) <$> spawned)))).
Definition run_setup : list (happening item) * (Z + ready) :=
  match parse_pool_url url with
  | None => ([], inl 2)
  | Some endpoint =>
      let '(l, (conn, ok)) := conn_open endpoint (rn_attempts e) in
      log l
        (if negb ok then ([], inl 1)
         else if run_enable_mining then start_mining endpoint conn
         else ([], inr (Ready endpoint conn None [])))
  end.

(** The session with the workers, from the subscription on. *)
Definition session_start (r : ready) : world O D :=
  World (client_start (J := J) write_result BTCRIG_USER_AGENT (session_config (conn_use_tls (rd_conn r))) url
           (ep_host (rd_endpoint r)) (ep_port (rd_endpoint r)) (rn_connected_at e) (rd_miner r))
    (rd_workers r) [].
Definition session_run (r : ready) : list string -> world O D -> Prop :=
  world_run (J := J) backend device_reports write_result (session_config (conn_use_tls (rd_conn r))) (session_start r).




End run.

(** * What an attempt leaves open *)

Definition conn_holds (conn : stratum_conn_t) (i : item) : bool :=
  bool_decide (conn_fd conn = Some i \/ conn_ctx conn = Some i \/ conn_ssl conn = Some i).


Ltac items := repeat first
  [ progress (subst; cbn) | case_decide | case_bool_decide | progress simplify_eq/= ]; try done; try tauto; try naive_solver.


(** The same answers as StratumNet.v takes them. *)
Definition attempt_of (k : nat) (t : tries) : attempt :=
  Attempt (bool_decide (is_Some (snd (connect_tcp k t)))) (tr_ssl_ctx_new t) (tr_ssl_new t) (tr_ssl_connect t).
Definition transport_of (conn : stratum_conn_t) : transport :=
  if conn_use_tls conn then tls (conn_verify conn) else plain_tcp.

Lemma conn_open_once_agrees k endpoint verify t :
  let '(_, (conn, ok, handshake_failed)) := conn_open_once k endpoint verify t in
  StratumNet.conn_open_once endpoint verify (attempt_of k t) =
    (if ok then Some (transport_of conn) else None, handshake_failed).
Proof.
  unfold conn_open_once, StratumNet.conn_open_once, attempt_of. destruct (connect_tcp k t) as [l [j|]]; cbn; [|done].
  destruct endpoint as [h p [] v], t as [r [] [] []]; done.
Qed.

(** ** All attempts *)


Lemma conn_open_agrees endpoint attempts :
  let '(_, (conn, ok)) := conn_open endpoint attempts in
  fst (StratumNet.conn_open endpoint (fun k => attempt_of k (attempts k))) =
    if ok then Some (transport_of conn) else None.
Proof.
  unfold conn_open, StratumNet.conn_open.
  pose proof (conn_open_once_agrees 0 endpoint (ep_verify_tls endpoint) (attempts 0%nat)) as H0.
  destruct (conn_open_once 0 _ _ _) as [l0 [[conn0 ok0] hf0]]. rewrite H0. destruct ok0; [done|]. cbn [log fst snd].
  destruct (_ && hf0).
  - pose proof (conn_open_once_agrees 1 endpoint false (attempts 1%nat)) as H1.
    destruct (conn_open_once 1 _ _ _) as [l1 [[conn1 ok1] hf1]]. rewrite H1. cbn [fst]. destruct ok1; [done|].
    cbn [fst snd]. destruct (ep_use_tls endpoint); [|done]. set (plain := PoolEndpoint _ _ _ _).
    pose proof (conn_open_once_agrees 2 plain false (attempts 2%nat)) as H2.
    destruct (conn_open_once 2 plain _ _) as [l2 [[conn2 ok2] hf2]]. by rewrite H2.
  - cbn [fst snd]. destruct (ep_use_tls endpoint); [|done]. set (plain := PoolEndpoint _ _ _ _).
    pose proof (conn_open_once_agrees 1 plain false (attempts 1%nat)) as H2.
    destruct (conn_open_once 1 plain _ _) as [l2 [[conn2 ok2] hf2]]. by rewrite H2.
Qed.

(** The handles of a connection that was opened are its own, and distinct. *)
Definition own_connection (i : item) : bool :=
  match i with Addresses _ | Tried _ _ | TlsContext _ | TlsSession _ => true | _ => false end.
Record conn_ok (conn : stratum_conn_t) : Prop := {
  co_fd : exists k j, conn_fd conn = Some (Tried k j);
  co_ctx : conn_ctx conn = None \/ exists k, conn_ctx conn = Some (TlsContext k);
  co_ssl : conn_ssl conn = None \/ exists k, conn_ssl conn = Some (TlsSession k);
}.

Lemma conn_open_once_ok k endpoint verify t :
  let '(_, (conn, ok, _)) := conn_open_once k endpoint verify t in ok = true -> conn_ok conn.
Proof.
  unfold conn_open_once. destruct (connect_tcp k t) as [l [j|]]; [|done].
  destruct (ep_use_tls endpoint), t as [r [] [] []]; cbn; try done; split; eauto.
Qed.
Lemma conn_open_ok endpoint attempts :
  let '(_, (conn, ok)) := conn_open endpoint attempts in ok = true -> conn_ok conn.
Proof.
  unfold conn_open. pose proof (conn_open_once_ok 0 endpoint (ep_verify_tls endpoint) (attempts 0%nat)) as H0.
  destruct (conn_open_once 0 _ _ _) as [l0 [[conn0 [|]] hf0]]; cbn [log fst snd]; [done|].
  set (second := if _ && _ then _ else _).
  assert (H1 : let '(_, (conn, ok, _)) := second in ok = true -> conn_ok conn).
  { subst second. destruct (_ && _); [|done].
    pose proof (conn_open_once_ok 1 endpoint false (attempts 1%nat)) as H.
    by destruct (conn_open_once 1 _ _ _) as [l1 [[conn1 ok1] hf1]]. }
  destruct second as [l1 [[conn1 [|]] calls]]; cbn [log fst snd]; [done|].
  destruct (ep_use_tls endpoint); [|done].
  pose proof (conn_open_once_ok calls (PoolEndpoint (ep_host endpoint) (ep_port endpoint) false false) false
    (attempts calls)) as H2.
  by destruct (conn_open_once calls _ _ _) as [l2 [[conn2 ok2] hf2]].
Qed.

(** Closing frees what the connection holds, the session before the context before the
    socket. *)
Lemma conn_close_lives conn i :
  conn_ok conn -> lives i (Some (conn_holds conn i)) (fst (conn_close conn)) = Some false.
Proof.
  intros [(k & j & Hf) Hc Hs]. unfold conn_close, conn_holds. destruct conn as [fd ctx v ssl u]. cbn in Hf, Hc, Hs. subst fd.
  destruct Hc as [->|[kc ->]], Hs as [->|[ks ->]]; cbn; items.
Qed.

(** * The run *)

Section run_facts.
Context `{J : Jansson} `{O : OpenSSL} `{!OpenSSLLaws O} `{X : X86} `{!X86Laws X} `{A : ARM} `{!ARMLaws A} {D : Type}.
Context (backend : sha256d_backend_t) (device_reports : active_job_t O -> Z -> Z -> list (Z * list Z) -> Prop).
Context (write_result : nat -> option nat) (BTCRIG_USER_AGENT : string).
Context (e : run_env (D := D)) (url user password : string) (suggest_difficulty : double)
  (config : option stratum_client_config_t).

(** What a ready session holds. *)
Definition ready_holds (r : ready (O := O) (D := D)) (i : item) : bool :=
  match i with
  | MinerObject | ThreadHashes => match rd_miner r with Some _ => true | None => false end
  | _ => conn_holds (rd_conn r) i
  end.

Lemma conn_holds_own conn i : conn_ok conn -> own_connection i = false -> conn_holds conn i = false.
Proof.
  intros [(k & j & Hf) Hc Hs] Hi. unfold conn_holds. apply bool_decide_eq_false_2. rewrite Hf.
  intros [[= <-]|[H|H]]; [done|..].
  - destruct Hc as [Hc|[kc Hc]]; rewrite Hc in H; [done|]. by injection H as <-.
  - destruct Hs as [Hs|[ks Hs]]; rewrite Hs in H; [done|]. by injection H as <-.
Qed.

Lemma miner_balanced i h :
  (i = MinerObject -> h = false) -> lives i (Some h) [Get MinerObject; Use MinerObject; Put MinerObject] = Some h.
Proof. intros Hh. destruct i; try done. by rewrite Hh. Qed.
Lemma mining_started endpoint conn m workers i :
  (i = MinerObject \/ i = ThreadHashes -> conn_holds conn i = false) ->
  lives i (Some (conn_holds conn i))
    [Get MinerObject; Use MinerObject; Get ThreadHashes; Use MinerObject; Use ThreadHashes] =
  Some (ready_holds (Ready endpoint conn (Some m) workers) i).
Proof. intros Hh. destruct i; try done; by rewrite Hh by auto. Qed.

(** Before the session: a failed run has freed everything, a session holds its
    connection and its miner. *)
Lemma start_mining_lives endpoint conn i :
  conn_ok conn ->
  let '(l, r) := start_mining (O := O) e config endpoint conn in
  lives i (Some (conn_holds conn i)) l =
    Some (match r with inl _ => false | inr r => ready_holds r i end) /\
  match r with inl rc => rc = 1 | inr r => rd_conn r = conn /\ rd_endpoint r = endpoint end.
Proof.
  intros Hconn. pose proof (conn_close_lives conn i Hconn) as Hclose.
  assert (Hm : i = MinerObject \/ i = ThreadHashes -> conn_holds conn i = false).
  { intros [-> | ->]; by apply conn_holds_own. }
  unfold start_mining. destruct (rn_create e); cbn [negb log fst snd]; [|by split].
  destruct (miner_start _ _) as [[m spawned] rc].
  assert (Hfail : lives i (Some (conn_holds conn i))
    ([Get MinerObject; Use MinerObject] ++ [Put MinerObject] ++ fst (conn_close conn)) = Some false).
  { rewrite app_assoc, foldl_app. etransitivity; [|exact Hclose]. f_equal. by apply miner_balanced; auto. }
  destruct (negb (rc =? 0)); [|destruct (rn_calloc e)]; cbn [negb fst snd]; (split; [|by split_and?]); [done| |done].
  by apply mining_started.
Qed.


(** Which connection a ready session has, and the result of a failed start. *)
Lemma run_setup_result :
  match snd (run_setup (O := O) e url config) with
  | inl rc => rc = match parse_pool_url url with Some _ => 1 | None => 2 end
  | inr r =>
      conn_ok (rd_conn r) /\ parse_pool_url url = Some (rd_endpoint r) /\
      fst (StratumNet.conn_open (rd_endpoint r) (fun k => attempt_of k (rn_attempts e k))) = Some (transport_of (rd_conn r))
  end.
Proof.
  unfold run_setup. destruct (parse_pool_url url) as [endpoint|]; [|done].
  pose proof (conn_open_ok endpoint (rn_attempts e)) as Hok. pose proof (conn_open_agrees endpoint (rn_attempts e)) as Ha.
  destruct (conn_open endpoint (rn_attempts e)) as [l [conn [|]]]; cbn [negb log fst snd]; [|done].
  specialize (Hok eq_refl). destruct (run_enable_mining config); cbn [snd]; [|done].
  pose proof (start_mining_lives endpoint conn RawTerminal Hok) as Hm.
  destruct (start_mining e config endpoint conn) as [l' [rc|r]]; cbn [snd]; [apply Hm|].
  destruct Hm as [_ [-> ->]]. done.
Qed.







(** ** The session's result *)








(** ** Without a miner nothing is submitted *)

Definition idle (lines : list string) (c : client O D) : Prop :=
  follows (J := J) lines (cl_state c) /\ client_miner c = None /\ submitted c = [].

Lemma client_step_idle cf lines c c' :
  client_step write_result cf c c' -> idle lines c -> idle (lines ++ handled c) c'.
Proof.
  intros Hs (Hf & Hm & H0). split; [by apply (client_step_follows write_result cf)|]. unfold client_miner in *.
  assert (Hupdate : forall more (s s' : stratum_state_t O D),
    miner_update (J := J) more s s' -> st_miner s = None -> st_miner s' = None).
  { intros more s s' [->|(m & j & -> & _)]; done. }
  destruct Hs as [now keys H|k ks H|H|now H|H|H|events r H Hr|line now H|now H].
  - unfold loop_top. by repeat case_match.
  - unfold handle_key. by rewrite Hm.
  - done.
  - unfold flush_share. cbv zeta. by rewrite Hm.
  - unfold roll_take. by rewrite Hm.
  - split; [|done]. exact (Hupdate _ _ _ (proj2 (rebuild_follows lines (cl_state c) Hf)) Hm).
  - unfold after_read. cbv zeta. by repeat case_match.
  - split; [|done]. exact (Hupdate _ _ _ (proj2 (line_follows lines line (cl_state c) now Hf)) Hm).
  - destruct (after_line_keeps write_result cf c now) as [E1 E2]. by rewrite E1, E2.
Qed.
Lemma session_idle r lines w :
  rd_miner r = None ->
  session_run backend device_reports write_result BTCRIG_USER_AGENT e url user password suggest_difficulty config r lines w ->
  idle lines (w_client w).
Proof.
  intros Hn Hr. induction Hr as [|lines w line w' _ IH Hs].
  - unfold session_start. rewrite Hn. apply client_started.
  - destruct Hs as [c _ Hs|m s Hm Hs]; [by eapply client_step_idle|]. by destruct IH as (_ & H & _); rewrite H in Hm.
Qed.

(** The miner and the workers of a session are the initial state of MinerSafety.v. *)
Lemma ready_initial l r m :
  (forall k, is_u32 (rn_batch e k)) -> run_setup (O := O) e url config = (l, inr r) -> rd_miner r = Some m ->
  initial (Sys m (rd_workers r) []).
Proof.
  unfold run_setup. intros Hb. destruct (parse_pool_url url) as [endpoint|]; [|done].
  destruct (conn_open endpoint _) as [l0 [conn [|]]]; cbn [negb log fst snd]; [|done].
  destruct (run_enable_mining config); cbn [fst snd]; [|by intros [= _ <-]].
  unfold start_mining. destruct (rn_create e); [|done]. cbn [negb].
  assert (Hm0 : exists n ocl cuda affinity, run_miner config =
    miner_set_cpu_affinity affinity (miner_create_with_backend_options (O := O) (D := D) n ocl cuda)).
  { unfold run_miner, run_thread_count. destruct config as [c|]; [by eexists _, _, _, _|]. by exists 1, None, None, false. }
  destruct Hm0 as (n & ocl & cuda & affinity & Em). rewrite Em.
  destruct (miner_start _ _) as [[m' spawned] rc] eqn:Es. destruct (Z.eqb_spec rc 0) as [->|]; [|done]. cbn [negb].
  destruct (rn_calloc e); [|done]. cbn [negb fst snd]. intros [= _ <-] [= <-].
  exact (proj1 (start_makes_initial (rn_start e) n ocl cuda affinity (rn_batch e) m' spawned Hb Es)).
Qed.

(** * Properties *)


(** C7.  From the program's start to the pool: whatever the address resolves to, however
    the attempts at a connection and the start of the miner go, and however the session
    and the workers then interleave, every share submitted answers the lines the session
    had handled by some point of it: its hash is the double SHA-256 of the header that
    their last template, their last extranonce1, an extranonce2 of the size they last
    gave and the share's nonce determine, and meets the target of their last difficulty.
    The shares are exactly the submit requests among the bytes sent, and the transport is
    the one of StratumNet.v.  Without mining nothing is submitted. *)
Theorem run_client_submissions l r lines w :
  devices_honest device_reports -> (forall k, is_u32 (rn_batch e k)) ->
  run_setup (O := O) e url config = (l, inr r) ->
  session_run backend device_reports write_result BTCRIG_USER_AGENT e url user password suggest_difficulty config r lines w ->
  Forall (fun '(_, share, _) => exists before t extranonce1 extranonce2 d, before `prefix_of` lines /\
    pool_work before t extranonce1 extranonce2 d /\ answers t extranonce1 extranonce2 d share)
    (submitted (w_client w)) /\
  (rd_miner r = None -> submitted (w_client w) = []) /\
  (rd_miner r <> None -> exists cmds part, omap submission cmds = fst <$> submitted (w_client w) /\
     session_log BTCRIG_USER_AGENT (session_config user password suggest_difficulty config (conn_use_tls (rd_conn r)))
       (w_client w) cmds part) /\
  fst (StratumNet.conn_open (rd_endpoint r) (fun k => attempt_of k (rn_attempts e k))) = Some (transport_of (rd_conn r)).
Proof.
  intros Hd Hb Hsetup Hrun. pose proof run_setup_result as Hres. rewrite Hsetup in Hres. cbn [snd] in Hres.
  destruct (rd_miner r) as [m|] eqn:Em.
  - pose proof (ready_initial _ _ _ Hb Hsetup Em) as Hi. unfold session_run, session_start in Hrun. rewrite Em in Hrun.
    destruct (submissions_answer _ _ _ _ _ _ _ _ _ _ _ _ _ Hd Hi Hrun) as (Hvalid & cmds & part & Hlog & Hsub).
    split_and!; [exact Hvalid|done| |apply Hres]. intros _. by exists cmds, part.
  - destruct (session_idle _ _ _ Em Hrun) as (_ & _ & ->). split_and!; [constructor|done|done|apply Hres].
Qed.
End run_facts.

(** * A concrete run: the verified handshake fails, the second attempt succeeds, two CPU
    threads start, and the subscription cannot be written *)

#[local] Existing Instances ref_openssl ref_openssl_laws ref_x86 ref_x86_laws ref_arm ref_arm_laws ref_jansson.

Definition wtries (handshake : bool) : tries := Tries (Some [(true, false); (true, true)]) true true handshake.



(** ** A run that submits: a plain connection, a CUDA device with batches of one nonce,
    and the messages of SessionTrace.v *)

Definition wdig : run_env (D := unit) :=
  RunEnv (fun _ => wtries true) true
    (StartEnv unit false [] [] (fun _ => true) (fun _ => None) (fun _ => true) (fun _ => Some tt)
       (fun _ => true) (fun _ => true) true) true true (fun _ => 1) (f64_of_Z 0).
Definition wdig_config : stratum_client_config_t :=
  StratumClientConfig 0 false true miner_opencl_config_defaults (CudaConfig true 0 4194304 256 1 256 0)
    (f64_of_Z 5) (f64_of_Z 0) (f64_of_Z 0).
Definition wdig_setup : list (happening item) * (Z + ready (O := ref_openssl) (D := unit)) :=
  run_setup wdig "stratum+tcp://pool:3333" (Some wdig_config).
Definition wdig_ready : ready (O := ref_openssl) (D := unit) :=
  match snd wdig_setup with inr r => r | inl _ => Ready (PoolEndpoint "" "" false false) (no_conn false) None [] end.
Definition wdig_session : client_config := session_config "user" "x" (f64_of_Z 0) (Some wdig_config) false.
Definition wopen : world ref_openssl unit :=
  session_start (J := ref_jansson) (fun _ => None) "btcrig" wdig "stratum+tcp://pool:3333" "user" "x" (f64_of_Z 0)
    (Some wdig_config) wdig_ready.
Definition wfirst_job : active_job_t ref_openssl := with_epoch (wmining wdig_session wopen).

Lemma wdig_ready_setup : run_setup wdig "stratum+tcp://pool:3333" (Some wdig_config) = (fst wdig_setup, inr wdig_ready).
Proof.
  change (wdig_setup = (fst wdig_setup, inr wdig_ready)). unfold wdig_ready.
  assert (H : match snd wdig_setup with inr _ => true | inl _ => false end = true) by (vm_compute; reflexivity).
  destruct wdig_setup as [l [rc|r]]; [discriminate H|reflexivity].
Qed.
Lemma wopen_ready : mining_ready wdig_session wopen.
Proof. apply wmining_ready. vm_compute. reflexivity. Qed.
Lemma wopen_lines : fst (wtemplated wdig_session wopen) ++ fst (wsubmitted wdig_session wopen) = wlines.
Proof. apply (bool_decide_unpack _). vm_compute. exact I. Qed.
Lemma wopen_submits : length (submitted (w_client (snd (wsubmitted wdig_session wopen)))) = 1%nat.
Proof. vm_compute. reflexivity. Qed.
Lemma wopen_reports : wreports wfirst_job 0 1 [(0, job_hash wfirst_job 0)].
Proof. split; [unfold is_u32; lia|]. apply (bool_decide_unpack _). vm_compute. exact I. Qed.

Lemma wbatch k : is_u32 (rn_batch wdig k).
Proof. unfold is_u32. cbn. lia. Qed.
Lemma wopen_run :
  session_run (J := ref_jansson) SHA256D_BACKEND_FAST_C wreports (fun _ => None) "btcrig" wdig "stratum+tcp://pool:3333"
    "user" "x" (f64_of_Z 0) (Some wdig_config) wdig_ready wlines (snd (wsubmitted wdig_session wopen)).
Proof.
  assert (Hc : conn_use_tls (rd_conn wdig_ready) = false) by (vm_compute; reflexivity).
  assert (Hw : (fun w => (w_kind w, w_batch w, match w_pc w with AtTop => true | _ => false end)) <$> w_workers wopen =
    [(cuda_worker, 1, true)]) by (vm_compute; reflexivity).
  pose proof (submitted_run wdig_session wreports wopen wopen_ready) as Hrun. rewrite wopen_lines in Hrun.
  unfold session_run. rewrite Hc. apply Hrun; [|exact wopen_reports].
  destruct (w_workers wopen) as [|[kind b []] []]; try discriminate Hw. by injection Hw as -> ->.
Qed.

Lemma run_client_submissions_witness :
  let w := snd (wsubmitted wdig_session wopen) in
  length (submitted (w_client w)) = 1%nat /\
  Forall (fun '(_, share, _) => exists before t extranonce1 extranonce2 d, before `prefix_of` wlines /\
    pool_work before t extranonce1 extranonce2 d /\ answers t extranonce1 extranonce2 d share)
    (submitted (w_client w)).
Proof.
  split; [exact wopen_submits|].
  exact (proj1 (run_client_submissions (J := ref_jansson) (O := ref_openssl) (D := unit)
    SHA256D_BACKEND_FAST_C wreports (fun _ => None) "btcrig" wdig "stratum+tcp://pool:3333" "user" "x" (f64_of_Z 0)
    (Some wdig_config) _ wdig_ready _ _ wreports_honest wbatch wdig_ready_setup wopen_run)).
Defined.
