(* ===== verification/ProxyServer.v ===== *)
(** The accepting side of the proxy: src/src/proxy_main.c's [main] from the
    certificate to its end, with the threads of its clients (ProxyRelay.v) running
    beside it.

    What matters here is who holds what: every call that creates or frees something
    is an event, and the threads of all clients interleave with [main] one event at a
    time.  The results of the calls are arguments. *)
From stdpp Require Import base tactics list numbers strings relations.
From Stdlib Require Import ZArith Lia.
From S2P Require Import Prelude Lifetime Json ProxyRelay ProxyConfig.

#[local] Open Scope Z_scope.

(** * What is created and freed *)

Inductive item :=
  | KeyContext | PrivateKey | Certificate | File      (** generating and printing the certificate *)
  | ServerCtx                                         (** [config.server_ctx] *)
  | Addresses                                         (** the result of [getaddrinfo] *)
  | Tried (i : nat)                                   (** the socket for the i-th address *)
  | Arg (n : nat)                                     (** the [client_arg_t] of the n-th turn of the loop *)
  | Own (n : nat) (r : resource).                     (** what the n-th client's thread uses *)

#[export] Instance item_eq_dec : EqDecision item.
Proof. solve_decision. Defined.

(** * The certificate *)

(** The answers of the calls of [generate_self_signed_cert]. *)
Record cert_env := CertEnv {
  ce_context : bool; ce_keygen : bool; ce_x509 : bool; ce_sign : bool;
  ce_key_open : bool; ce_key_written : bool; ce_cert_open : bool; ce_cert_written : bool;
}.

(** The code after the label [done]: which pointers are set, and [ok]. *)
Definition cert_done (fp cert pkey pctx ok : bool) : list (happening item) * bool :=
  (put_if fp File ++ put_if cert Certificate ++ put_if pkey PrivateKey ++ put_if pctx KeyContext, ok).

Definition generate_self_signed_cert (e : cert_env) : list (happening item) * bool :=
  if negb (ce_context e) then cert_done false false false false false
  else log [Get KeyContext] (
    if negb (ce_keygen e) then cert_done false false false true false
    else log [Get PrivateKey] (
      if negb (ce_x509 e) then cert_done false false true true false
      else log [Get Certificate] (
        if negb (ce_sign e) then cert_done false true true true false
        else if negb (ce_key_open e) then cert_done false true true true false
        else log [Get File] (
          if negb (ce_key_written e) then cert_done true true true true false
          else log [Put File] (
            if negb (ce_cert_open e) then cert_done false true true true false
            else log [Get File] (
              if negb (ce_cert_written e) then cert_done true true true true false
              else log [Put File] (cert_done false true true true true))))))).

(** Whether the file opens, and whether a certificate is read from it. *)
Definition print_certificate_fingerprint (opens reads : bool) : list (happening item) :=
  if negb opens then []
  else [Get File] ++ (if reads then [Get Certificate] else []) ++ [Put File] ++ put_if reads Certificate.

(** * Sockets *)

(** For each address the name resolves to, whether [socket] and [connect] succeed. *)
Definition connect_tcp : option (list (bool * bool)) -> list (happening item) * option nat :=
  open_socket Addresses Tried.

(** The same with [socket], [bind] and [listen]. *)
Definition create_listener (resolved : option (list (bool * bool * bool))) : list (happening item) * option nat :=
  connect_tcp (fmap (M := option) (fmap (M := list)
    (fun '(opens, binds, listens) => (opens, binds && listens))) resolved).

(** * The threads of the clients *)

(** What an event of ProxyRelay.v is for the n-th client. *)
Definition of_event (n : nat) (e : event) : list (happening item) :=
  match e with
  | Acquire r => [Get (Own n r)]
  | Release r => [Put (Own n r)]
  | Forward => [Use (Own n (Socket client_side)); Use (Own n (Socket upstream_side))]
  end.

(** [client_thread] on its argument: [SSL_new] reads the server's context, and every
    path frees the argument last. *)
Definition thread_events (c : proxy_config_t) (n : nat) (e : thread_env) : list (happening item) :=
  [Use (Arg n)] ++
  (if 0 <? client_uses_tls (te_peek e) (listen_mode c) then [Use ServerCtx] else []) ++
  flat_map (of_event n) (drop 1 (client_thread e (listen_mode c) (e_use_tls (upstream c)))) ++
  [Put (Arg n)].

(** * Accepting *)

(** What [accept] answers: a client, EAGAIN or EINTR, another error. *)
Inductive accept_result := Accepted | WouldBlock | AcceptError.
Record accept_env := AcceptEnv {
  ae_calloc : bool; ae_accept : accept_result; ae_create : bool; ae_thread : thread_env;
}.

(** What [main] does: an event, or starting the thread of the n-th client. *)
Inductive action := Do (e : happening item) | Spawn (n : nat) (thread : list (happening item)).

(** The loop from turn [n], and whether it was left. *)
Fixpoint accept_loop (c : proxy_config_t) (n : nat) (ios : list accept_env) : list action * bool :=
  match ios with
  | [] => ([], false)
  | io :: ios =>
      if negb (ae_calloc io) then ([], true)
      else log [Do (Get (Arg n))]
        match ae_accept io with
        | WouldBlock => log [Do (Put (Arg n))] (accept_loop c (S n) ios)
        | AcceptError => ([Do (Put (Arg n))], true)
        | Accepted =>
            log [Do (Get (Own n (Socket client_side)))]
              (if negb (ae_create io)
               then log [Do (Put (Own n (Socket client_side))); Do (Put (Arg n))] (accept_loop c (S n) ios)
               else log [Spawn n (thread_events c n (ae_thread io))] (accept_loop c (S n) ios))
        end
  end.

(** * [main] *)

(** The answers of the calls after the command line. *)
Record server_env := ServerEnv {
  se_cert : cert_env; se_opens : bool; se_reads : bool;
  se_listen : string -> string -> option (list (bool * bool * bool));
}.

Section main.
Context `{J : Jansson} (e : proxy_env J) (x : server_env).

(** The certificate part, with what it creates. *)
Definition prepare_server (c : proxy_config_t) : list (happening item) * outcome proxy_config_t :=
  if listen_mode c =? LISTEN_TCP then ([], Go c)
  else
    match certificate_paths e c with
    | Quit rc => ([], Quit rc)
    | Go c =>
        let '(made, ok) :=
          if certificate_missing e c then generate_self_signed_cert (se_cert x) else ([], true) in
        log made
          (if negb ok then ([], Quit 1)
           else if negb (pe_ctx_new e) then ([], Quit 1)
           else log [Get ServerCtx]
             (if negb (pe_use_certificate e (cert_path c) (key_path c)) then ([Put ServerCtx], Quit 1)
              else (print_certificate_fingerprint (se_opens x) (se_reads x), Go c)))
    end.

Definition has_context (c : proxy_config_t) : bool := negb (listen_mode c =? LISTEN_TCP).

(** What [main] does when the loop is left. *)
Definition server_close (c : proxy_config_t) (fd : nat) : list (happening item) :=
  [Put (Tried fd)] ++ put_if (has_context c) ServerCtx.

(** The accept loop and what follows it. *)
Definition serve (c : proxy_config_t) (fd : nat) (ios : list accept_env) : list action * option Z :=
  let '(loop, ended) := accept_loop c 0 ios in
  log loop (if (ended : bool) then (Do <$> server_close c fd, Some 0) else ([], None)).

(** Everything [main] does, and its exit code once it has one. *)
Definition proxy_main (args : list string) (ios : list accept_env) : list action * option Z :=
  match proxy_settings e args with
  | Quit rc => ([], Some rc)
  | Go c =>
      let '(before, prepared) := prepare_server c in
      log (Do <$> before)
        match prepared with
        | Quit rc => ([], Some rc)
        | Go c =>
            let '(opening, fd) := create_listener (se_listen x (listen_host c) (listen_port c)) in
            log (Do <$> opening)
              match fd with
              | None => (Do <$> put_if (has_context c) ServerCtx, Some 1)
              | Some fd => serve c fd ios
              end
        end
  end.
End main.

(** * The process: [main] and the threads, one event at a time *)

Record server := Server {
  sv_main : list action; sv_threads : list (list (happening item)); sv_trace : list (happening item);
}.
Definition server_start (main : list action) : server := Server main [] [].

Inductive server_step : server -> server -> Prop :=
  | main_does e m ts tr :
      server_step (Server (Do e :: m) ts tr) (Server m ts (tr ++ [e]))
  | main_spawns n t m ts tr :
      server_step (Server (Spawn n t :: m) ts tr) (Server m (ts ++ [t]) tr)
  | thread_does ts1 e t ts2 m tr :
      server_step (Server m (ts1 ++ (e :: t) :: ts2) tr) (Server m (ts1 ++ t :: ts2) (tr ++ [e])).

(** A run in a given order: [0] lets [main] do something, [S k] the k-th thread. *)
Definition step_of (who : nat) (s : server) : server :=
  match who, s with
  | O, Server (Do e :: m) ts tr => Server m ts (tr ++ [e])
  | O, Server (Spawn _ t :: m) ts tr => Server m (ts ++ [t]) tr
  | S k, Server m ts tr =>
      match ts !! k with
      | Some (e :: t) => Server m (<[k := t]> ts) (tr ++ [e])
      | _ => s
      end
  | _, _ => s
  end.
Definition run_server (order : list nat) (s : server) : server := foldl (fun s who => step_of who s) s order.

(** Everything has been done. *)
Definition finished (s : server) : Prop := sv_main s = [] /\ Forall (fun t => t = []) (sv_threads s).

(** * Whose an item is *)

Definition client_of (i : item) : option nat :=
  match i with Arg n | Own n _ => Some n | _ => None end.
(** An event of the n-th client's thread. *)
Definition of_client (n : nat) (e : happening item) : Prop :=
  client_of (about e) = Some n \/ e = Use ServerCtx.

Lemma of_event_client n l : Forall (fun e => client_of (about e) = Some n) (flat_map (of_event n) l).
Proof.
  induction l as [|[r|r|] l IH]; [done|..]; cbn [flat_map of_event app]; repeat (apply Forall_cons_2; [done|]); done.
Qed.
Lemma thread_of_client c n te : Forall (of_client n) (thread_events c n te).
Proof.
  unfold thread_events.
  repeat apply Forall_app_2; [| |eapply list.Forall_impl; [apply of_event_client|by left]|]; try (apply Forall_singleton; by left).
  case_match; [|done]. apply Forall_singleton. by right.
Qed.

(** * A client's thread frees what it was given and what it made *)

Definition relay_step (r : resource) (held : option bool) (e : event) : option bool :=
  match e with
  | Acquire r' => if decide (r' = r) then held ← held; if (held : bool) then None else Some true else held
  | Release r' => if decide (r' = r) then held ← held; if (held : bool) then Some false else None else held
  | Forward =>
      if decide (r = Socket client_side \/ r = Socket upstream_side)
      then held ← held; if (held : bool) then Some true else None else held
  end.

Lemma of_event_lives n r h l : lives (Own n r) h (flat_map (of_event n) l) = foldl (relay_step r) h l.
Proof.
  revert h. induction l as [|e l IH]; intros h; [done|]. cbn [flat_map foldl]. rewrite foldl_app, <- IH. f_equal.
  assert (Hown : forall r' : resource, Own n r' = Own n r <-> r' = r) by (intros r'; split; congruence).
  destruct h as [h|]; [|by destruct e; cbn; case_decide].
  destruct e as [r'|r'|]; cbn [of_event foldl life_step relay_step about mbind option_bind].
  - destruct (decide (r' = r)) as [->|Hne]; [by rewrite decide_True|]. rewrite decide_False; [done|]. by rewrite Hown.
  - destruct (decide (r' = r)) as [->|Hne]; [by rewrite decide_True|]. rewrite decide_False; [done|]. by rewrite Hown.
  - destruct r as [[]|[]|[]], h; cbn; repeat (case_decide; try congruence; cbn); intuition congruence.
Qed.

Lemma client_thread_lives te m tls r :
  foldl (relay_step r) (Some (bool_decide (r = Socket client_side))) (drop 1 (client_thread te m tls)) = Some false.
Proof.
  destruct te as [peek b1 b2 b3 b4 b5 b6]. unfold client_thread, stream_open_client. cbn [te_peek].
  assert (Hmode : exists u : Z, client_uses_tls peek m = u /\ (u = -1 \/ u = 0 \/ u = 1)).
  { eexists. split; [reflexivity|]. unfold client_uses_tls. repeat case_match; auto. }
  destruct Hmode as (u & -> & Hu).
  destruct Hu as [-> | [-> | ->]], b1, b2, b3, b4, b5, b6, tls, r as [[]|[]|[]]; vm_compute; reflexivity.
Qed.

Lemma thread_lives_own c n te r :
  lives (Own n r) (Some (bool_decide (r = Socket client_side))) (thread_events c n te) = Some false.
Proof.
  unfold thread_events. rewrite !foldl_app.
  rewrite (lives_none _ _ [Use (Arg n)]) by by repeat constructor.
  rewrite (lives_none _ _ (if (_ : bool) then _ else _)) by (case_match; by repeat constructor).
  rewrite of_event_lives, client_thread_lives. by rewrite lives_none by by repeat constructor.
Qed.
Lemma thread_lives_arg c n te : lives (Arg n) (Some true) (thread_events c n te) = Some false.
Proof.
  unfold thread_events. rewrite !foldl_app.
  rewrite (lives_none _ _ (if (_ : bool) then _ else _)) by (case_match; by repeat constructor).
  rewrite (lives_none _ _ (flat_map _ _)); [by cbn; destruct (decide (Arg n = Arg n))|].
  generalize (drop 1 (client_thread te (listen_mode c) (e_use_tls (upstream c)))). intros l.
  induction l as [|[r|r|] l IH]; [by constructor|..]; cbn [flat_map of_event app]; repeat (apply Forall_cons_2; [done|]); done.
Qed.

(** * What [main] does, one thread after the other *)

(** The events when each thread runs to its end before [main] goes on. *)
Definition events_of (a : action) : list (happening item) := match a with Do e => [e] | Spawn _ t => t end.
Definition in_order (m : list action) : list (happening item) := flat_map events_of m.

(** Threads get numbers [main] has not used, and are of the client they are for. *)
Fixpoint fresh (ns : list nat) (m : list action) : Prop :=
  match m with
  | [] => True
  | Do e :: m => (forall n, client_of (about e) = Some n -> (n ∉ ns)) /\ fresh ns m
  | Spawn n t :: m => (n ∉ ns) /\ Forall (of_client n) t /\ fresh (ns ++ [n]) m
  end.

(** [main] treats the server's context well, from whether it holds it now to whether
    it does at the end: it starts threads that use it only while it holds it, and has
    nothing more to do with it or them once it freed it. *)
Fixpoint keeps_context (at_end held : bool) (m : list action) : Prop :=
  match m with
  | [] => held = at_end
  | Do e :: m =>
      match e with
      | Get ServerCtx => held = false /\ keeps_context at_end true m
      | Use ServerCtx => held = true /\ keeps_context at_end held m
      | Put ServerCtx => held = true
      | _ => keeps_context at_end held m
      end
  | Spawn n t :: m => (Use ServerCtx ∈ t -> held = true) /\ keeps_context at_end held m
  end.

Lemma in_order_app m1 m2 : in_order (m1 ++ m2) = in_order m1 ++ in_order m2.
Proof. apply flat_map_app. Qed.
Lemma in_order_do l : in_order (Do <$> l) = l.
Proof. induction l as [|e l IH]; [done|]. change (e :: in_order (Do <$> l) = e :: l). by rewrite IH. Qed.

Lemma fresh_app ns m1 l : fresh ns m1 -> Forall (fun e => client_of (about e) = None) l -> fresh ns (m1 ++ (Do <$> l)).
Proof.
  revert ns. induction m1 as [|[e|n t] m1 IH]; intros ns H Hl; cbn in *.
  - induction Hl as [|e l He Hl IHl]; cbn; [done|]. by rewrite He.
  - destruct H. split; [done|]. by apply IH.
  - destruct H as (?&?&?). split_and!; [done..|]. by apply IH.
Qed.
Lemma fresh_before ns l m : fresh ns m -> Forall (fun e => client_of (about e) = None) l -> fresh ns ((Do <$> l) ++ m).
Proof. intros Hm Hl. induction Hl as [|e l He Hl IHl]; cbn; [done|]. by rewrite He. Qed.

(** ** The loop *)

#[local] Arguments thread_events : simpl never.

Lemma loop_fresh c ios n ns :
  Forall (fun k => (k < n)%nat) ns -> fresh ns (fst (accept_loop c n ios)).
Proof.
  revert n ns. induction ios as [|io ios IH]; intros n ns Hns; [done|]. cbn [accept_loop].
  assert (Hn : n ∉ ns) by (intros H; eapply Forall_forall in Hns; [|exact H]; lia).
  assert (Hdo : forall k, Some n = Some k -> k ∉ ns) by (by intros k [= <-]).
  assert (Hnext : fresh ns (fst (accept_loop c (S n) ios)))
    by (apply IH; eapply list.Forall_impl; [exact Hns|]; cbn; lia).
  destruct (ae_calloc io); [|done]. destruct (ae_accept io); cbn; [|by split_and!..].
  destruct (ae_create io); cbn; [|by split_and!]. split_and!; try done; [apply thread_of_client|].
  apply IH, Forall_app_2; [|by apply Forall_singleton; lia]. eapply list.Forall_impl; [exact Hns|]. cbn. lia.
Qed.

(** What [main] gets and frees in one turn. *)
Lemma turn_lives c n te i :
  client_of i <> None ->
  lives i (Some false) ([Get (Arg n); Get (Own n (Socket client_side))] ++ thread_events c n te) = Some false /\
  lives i (Some false) [Get (Arg n); Put (Arg n)] = Some false /\
  lives i (Some false) [Get (Arg n); Get (Own n (Socket client_side)); Put (Own n (Socket client_side)); Put (Arg n)]
    = Some false.
Proof.
  intros Hi. split_and!.
  - rewrite foldl_app. pose proof (thread_of_client c n te) as Ht.
    destruct (decide (client_of i = Some n)) as [Hn|Hn].
    + destruct i; try done; cbn in Hn; injection Hn as ->.
      * etransitivity; [|exact (thread_lives_arg c n te)]. f_equal. cbn. by destruct (decide (Arg n = Arg n)).
      * etransitivity; [|exact (thread_lives_own c n te r)]. f_equal. cbn.
        destruct (decide (Own n (Socket client_side) = Own n r)) as [Hr|Hr].
        -- injection Hr as <-. by rewrite bool_decide_true.
        -- rewrite bool_decide_false; [done|congruence].
    + rewrite (lives_none i _ [_; _]) by (apply Forall_cons_2; [|apply Forall_singleton]; intros <-; by apply Hn).
      apply lives_none. eapply list.Forall_impl; [exact Ht|]. intros e [He|He] <-; [done|].
      by rewrite He in Hi.
  - cbn. by case_decide.
  - cbn. case_decide; subst; cbn; [done|]. by case_decide.
Qed.

Lemma loop_lives c ios n i :
  client_of i <> None -> lives i (Some false) (in_order (fst (accept_loop c n ios))) = Some false.
Proof.
  intros Hi. revert n. induction ios as [|io ios IH]; intros n; [done|]. cbn [accept_loop].
  destruct (ae_calloc io); [|done]. cbn [negb].
  destruct (turn_lives c n (ae_thread io) i Hi) as (H1 & H2 & H3).
  destruct (ae_accept io); [|exact (eq_trans (foldl_app _ [_;_] _ _) (eq_trans (f_equal (fun h => lives i h _) H2) (IH _)))|exact H2].
  destruct (ae_create io).
  - change (lives i (Some false) (([Get (Arg n); Get (Own n (Socket client_side))] ++
      (thread_events c n (ae_thread io) ++ in_order (fst (accept_loop c (S n) ios))))) = Some false).
    by rewrite app_assoc, foldl_app, H1.
  - change (lives i (Some false) ([Get (Arg n); Get (Own n (Socket client_side));
      Put (Own n (Socket client_side)); Put (Arg n)] ++ in_order (fst (accept_loop c (S n) ios))) = Some false).
    by rewrite foldl_app, H3.
Qed.

Lemma loop_others c ios n i :
  client_of i = None -> i <> ServerCtx -> Forall (fun e => about e <> i) (in_order (fst (accept_loop c n ios))).
Proof.
  intros Hi Hc. revert n. induction ios as [|io ios IH]; intros n; [constructor|]. cbn [accept_loop].
  assert (Harg : forall k, Arg k <> i) by (by intros k <-).
  assert (Hown : forall k r, Own k r <> i) by (by intros k r <-).
  assert (Hthread : Forall (fun e => about e <> i) (thread_events c n (ae_thread io))).
  { eapply list.Forall_impl; [apply thread_of_client|]. intros e [He| ->]; [|by intros <-]. intros <-. congruence. }
  destruct (ae_calloc io); [|constructor]. destruct (ae_accept io); [destruct (ae_create io)|..]; cbn.
  { do 2 (apply Forall_cons_2; [first [apply Harg | apply Hown]|]). apply Forall_app_2; [done|apply IH]. }
  all: repeat (apply Forall_cons_2; [first [apply Harg | apply Hown]|]); apply Forall_nil_2 || apply IH.
Qed.

Lemma keeps_do fin h e m : about e <> ServerCtx -> keeps_context fin h m -> keeps_context fin h (Do e :: m).
Proof. by destruct e as [[]|[]|[]]. Qed.
Lemma keeps_dos fin h l m :
  Forall (fun e => about e <> ServerCtx) l -> keeps_context fin h m -> keeps_context fin h ((Do <$> l) ++ m).
Proof. intros Hl Hm. induction Hl as [|e l He Hl IH]; [done|]. by apply keeps_do. Qed.

Lemma loop_keeps c ios n fin h rest :
  (has_context c = true -> h = true) -> keeps_context fin h rest ->
  keeps_context fin h (fst (accept_loop c n ios) ++ rest).
Proof.
  intros Hh Hrest. revert n. induction ios as [|io ios IH]; intros n; [done|]. cbn [accept_loop].
  destruct (ae_calloc io); [|done]. destruct (ae_accept io); [|by repeat (apply keeps_do; [done|])..].
  destruct (ae_create io); [|by repeat (apply keeps_do; [done|])]. cbn. split; [|apply IH].
  intros Huse. apply Hh. unfold has_context. destruct (Z.eqb_spec (listen_mode c) LISTEN_TCP) as [Hm|]; [|done].
  exfalso. unfold thread_events, client_uses_tls in Huse. rewrite Hm in Huse.
  repeat (apply elem_of_app in Huse as [Huse|Huse]); try by (apply list_elem_of_singleton in Huse).
  - by apply elem_of_nil in Huse.
  - pose proof (proj1 (Forall_forall _ _) (of_event_client n _) _ Huse) as He. discriminate He.
Qed.

(** ** Before the loop *)

Ltac certificate_paths e :=
  unfold generate_self_signed_cert; destruct e; cbn [ce_context ce_keygen ce_x509 ce_sign ce_key_open
    ce_key_written ce_cert_open ce_cert_written];
  repeat match goal with |- context [if negb ?b then _ else _] => destruct b; cbn [negb] end.
Ltac each_item i :=
  destruct i; first [vm_compute; reflexivity | apply lives_none; repeat (apply Forall_cons_2; [done|]); done].

Lemma certificate_lives e i : lives i (Some false) (fst (generate_self_signed_cert e)) = Some false.
Proof. certificate_paths e; each_item i. Qed.
Lemma fingerprint_lives opens reads i h :
  i <> File -> i <> Certificate -> lives i h (print_certificate_fingerprint opens reads) = h.
Proof. intros. apply lives_none. destruct opens, reads; cbn; repeat (apply Forall_cons_2; [done|]); done. Qed.
Lemma fingerprint_balanced opens reads i :
  lives i (Some false) (print_certificate_fingerprint opens reads) = Some false.
Proof. destruct opens, reads; each_item i. Qed.

(** The socket that was opened. *)
Definition holds : option nat -> item -> bool := opened Tried.

Lemma connect_lives r i : lives i (Some false) (fst (connect_tcp r)) = Some (holds (snd (connect_tcp r)) i).
Proof. apply open_socket_lives; [by intros ?? [=]|done]. Qed.

(** Neither a client's nor the context. *)
Definition own_item (e : happening item) : Prop := client_of (about e) = None /\ about e <> ServerCtx.
Lemma connect_own r : Forall own_item (fst (connect_tcp r)).
Proof. by apply open_socket_all. Qed.
Lemma certificate_own e : Forall own_item (fst (generate_self_signed_cert e)).
Proof. certificate_paths e; repeat (apply Forall_cons_2; [by split|]); constructor. Qed.
Lemma fingerprint_own opens reads : Forall own_item (print_certificate_fingerprint opens reads).
Proof. destruct opens, reads; repeat (apply Forall_cons_2; [by split|]); constructor. Qed.
Lemma own_client l : Forall own_item l -> Forall (fun e => client_of (about e) = None) l.
Proof. intros H. eapply list.Forall_impl; [exact H|]. by intros e []. Qed.
Lemma own_context l : Forall own_item l -> Forall (fun e => about e <> ServerCtx) l.
Proof. intros H. eapply list.Forall_impl; [exact H|]. by intros e []. Qed.

(** ** [main] as a whole *)

Section main_facts.
Context `{J : Jansson} (e : proxy_env J) (x : server_env).

Lemma paths_mode c c' : certificate_paths e c = Go c' -> listen_mode c' = listen_mode c.
Proof. unfold certificate_paths. repeat case_match; by intros [= <-]. Qed.

(** What the certificate part leaves. *)
Record prepared (l : list (happening item)) (r : outcome proxy_config_t) : Prop := {
  pr_client : Forall (fun e => client_of (about e) = None) l;
  pr_lives i : i <> ServerCtx -> lives i (Some false) l = Some false;
  pr_context fin m :
    match r with Go c => keeps_context fin (has_context c) m | Quit _ => fin = false /\ m = [] end ->
    keeps_context fin false ((Do <$> l) ++ m);
}.
Lemma prepared_quit rc : prepared [] (Quit rc).
Proof. split; [constructor|done|]. by intros fin m [-> ->]. Qed.
Lemma prepared_own l l' r :
  Forall own_item l -> (forall i, lives i (Some false) l = Some false) ->
  prepared l' r -> prepared (l ++ l') r.
Proof.
  intros Hl Hb [H1 H2 H3]. split.
  - apply Forall_app_2; [by apply own_client|done].
  - intros i Hi. rewrite foldl_app, Hb. by apply H2.
  - intros fin m Hm. rewrite fmap_app, <- app_assoc. apply keeps_dos; [by apply own_context|]. by apply H3.
Qed.

Lemma prepare_server_prepared c : prepared (fst (prepare_server e x c)) (snd (prepare_server e x c)).
Proof.
  unfold prepare_server. destruct (Z.eqb_spec (listen_mode c) LISTEN_TCP) as [Hm|Hm].
  { split; [constructor|done|]. intros fin m. unfold has_context. cbn [fst snd]. by rewrite Hm. }
  destruct (certificate_paths e c) as [c1|rc] eqn:Ep; [|apply prepared_quit]. apply paths_mode in Ep.
  set (made := if certificate_missing e c1 then _ else _).
  assert (Hmade : Forall own_item (fst made) /\ forall i, lives i (Some false) (fst made) = Some false).
  { subst made. destruct (certificate_missing e c1); [|by split]. split; [apply certificate_own|apply certificate_lives]. }
  destruct made as [l ok]. cbn [fst] in Hmade. destruct Hmade as [Hown Hl]. unfold log at 1 2. cbn [fst snd].
  apply prepared_own; [done..|]. destruct ok; [|apply prepared_quit]. destruct (pe_ctx_new e); [|apply prepared_quit].
  cbn [negb log fst snd]. destruct (pe_use_certificate _ _ _); cbn [negb fst snd]; split.
  - apply Forall_app_2; [by apply Forall_singleton|]. apply own_client, fingerprint_own.
  - intros i Hi. rewrite foldl_app, (lives_none i _ [_]) by (apply Forall_singleton; by intros <-).
    apply fingerprint_balanced.
  - intros fin m Hk. cbn. split; [done|]. apply keeps_dos; [apply own_context, fingerprint_own|].
    unfold has_context in Hk. rewrite Ep in Hk. by rewrite (proj2 (Z.eqb_neq _ _) Hm) in Hk.
  - by repeat constructor.
  - intros i Hi. apply lives_none. apply Forall_cons_2; [|apply Forall_singleton]; by intros <-.
  - intros fin m _. by cbn.
Qed.

(** Everything [main] does, the threads one after the other, leaves the listening
    socket if it is still in the loop and nothing otherwise. *)
Record main_fine (m : list action) (rc : option Z) : Prop := {
  mf_fresh : fresh [] m;
  mf_lives : exists fd, (rc = None <-> fd <> None) /\
    forall i, i <> ServerCtx -> lives i (Some false) (in_order m) = Some (holds fd i);
  mf_context : exists fin, (fin = true -> rc = None) /\ keeps_context fin false m;
}.

Lemma serve_fine before c ios k opening :
  prepared before (Go c) -> Forall own_item opening ->
  (forall i, lives i (Some false) opening = Some (holds (Some k) i)) ->
  let p := log (Do <$> before) (log (Do <$> opening) (serve c k ios)) in
  main_fine (fst p) (snd p).
Proof.
  unfold serve. intros [B1 B2 B3] Hown Hopen. pose proof (loop_fresh c ios 0 [] ltac:(constructor)) as Hf.
  pose proof (loop_lives c ios 0) as Hl. pose proof (loop_others c ios 0) as Ho.
  pose proof (loop_keeps c ios 0) as Hk. destruct (accept_loop c 0 ios) as [loop ended]. cbn [fst] in *.
  set (close := if ended then _ else _). cbn [log fst snd].
  assert (Hclose : exists l, fst close = Do <$> l /\ Forall (fun e => client_of (about e) = None) l).
  { subst close. destruct ended; [|by exists []]. eexists. split; [reflexivity|].
    unfold server_close. destruct (has_context c); by repeat constructor. }
  assert (Hfd : exists fd, (snd close = None <-> fd <> None) /\
    forall i, i <> ServerCtx -> lives i (Some (holds (Some k) i)) (in_order (fst close)) = Some (holds fd i)).
  { subst close. destruct ended; [exists None|exists (Some k)]; (split; [by split|]); intros i Hi; [|done].
    cbn [fst]. rewrite in_order_do. unfold server_close.
    rewrite foldl_app, (lives_none i _ (put_if _ _)) by (destruct (has_context c); [|constructor]; apply Forall_singleton; by intros <-).
    cbn. case_decide as H; [|by rewrite bool_decide_false by congruence]. by rewrite bool_decide_true. }
  split.
  - apply fresh_before; [|done]. apply fresh_before; [|by apply own_client].
    destruct Hclose as (l & -> & Hc). by apply fresh_app.
  - destruct Hfd as (fd & H1 & H2). exists fd. split; [done|]. intros i Hi.
    rewrite !in_order_app, !in_order_do, !foldl_app, B2 by done. rewrite Hopen.
    destruct (client_of i) eqn:Ei.
    + assert (Hh : holds (Some k) i = false) by (cbn; rewrite bool_decide_false; [done|by intros ->]).
      rewrite Hh, Hl by (by rewrite Ei). rewrite <- H2 by done. by rewrite Hh.
    + rewrite (lives_none i _ (in_order loop)) by by apply Ho. by apply H2.
  - exists (if ended then false else has_context c). split.
    { subst close. by destruct ended. }
    apply B3, keeps_dos; [by apply own_context|]. apply Hk; [done|]. subst close. destruct ended; [|done].
    apply keeps_do; [done|]. by destruct (has_context c).
Qed.

Lemma main_fine_quit before rc : prepared before (Quit rc) -> main_fine (Do <$> before) (Some rc).
Proof.
  intros [B1 B2 B3]. split.
  - rewrite <- (app_nil_r (Do <$> before)). by apply fresh_before.
  - exists None. split; [by split|]. intros i Hi. rewrite in_order_do. by apply B2.
  - exists false. split; [done|]. rewrite <- (app_nil_r (Do <$> before)). by apply B3.
Qed.

Lemma proxy_main_fine args ios : main_fine (fst (proxy_main e x args ios)) (snd (proxy_main e x args ios)).
Proof.
  unfold proxy_main. destruct (proxy_settings e args) as [c|rc]; [|apply (main_fine_quit [] rc), prepared_quit].
  pose proof (prepare_server_prepared c) as Hp. destruct (prepare_server e x c) as [before [c'|rc]]; cbn [fst snd] in Hp.
  2:{ cbn [log fst snd]. rewrite app_nil_r. by apply main_fine_quit. }
  set (r := se_listen x _ _). pose proof (connect_own (fmap (M := option) (fmap (M := list)
    (fun '(opens, binds, listens) => (opens, binds && listens))) r)) as Ho.
  pose proof (fun i => connect_lives (fmap (M := option) (fmap (M := list)
    (fun '(opens, binds, listens) => (opens, binds && listens))) r) i) as Hl.
  fold (create_listener r) in Ho, Hl. destruct (create_listener r) as [opening [k|]]; cbn [fst snd] in *.
  { by apply serve_fine. }
  cbn [log fst snd]. rewrite <- fmap_app, <- fmap_app.
  apply main_fine_quit. destruct Hp as [B1 B2 B3]. split.
  - apply Forall_app_2; [done|]. apply Forall_app_2; [by apply own_client|]. destruct (has_context c'); by repeat constructor.
  - intros i Hi. rewrite !foldl_app, B2, Hl by done. apply lives_none.
    destruct (has_context c'); [|constructor]. apply Forall_singleton. by intros <-.
  - intros fin m [-> ->]. rewrite fmap_app, <- app_assoc. apply B3. rewrite fmap_app, <- app_assoc.
    apply keeps_dos; [by apply own_context|]. by destruct (has_context c').
Qed.

(** The configuration it serves with is the one of [proxy_setup]. *)
Hypothesis generate_answers : forall cert key, pe_generate e cert key = snd (generate_self_signed_cert (se_cert x)).
Hypothesis listen_answers : forall host port,
  pe_listen e host port = bool_decide (is_Some (snd (create_listener (se_listen x host port)))).

Lemma prepare_server_config c : snd (prepare_server e x c) = prepare_certificate e c.
Proof.
  unfold prepare_server, prepare_certificate. destruct (listen_mode c =? LISTEN_TCP); [done|].
  destruct (certificate_paths e c) as [c1|rc]; [|done]. rewrite generate_answers.
  destruct (certificate_missing e c1); [destruct (generate_self_signed_cert _) as [l [|]]|];
    cbn [snd andb negb log]; try done;
    by destruct (pe_ctx_new e), (pe_use_certificate e (cert_path c1) (key_path c1)).
Qed.

Lemma proxy_main_setup args ios :
  match proxy_setup e args with
  | Quit rc => snd (proxy_main e x args ios) = Some rc
  | Go c => exists before fd, proxy_main e x args ios = log before (serve c fd ios)
  end.
Proof.
  unfold proxy_setup, proxy_main. destruct (proxy_settings e args) as [c|rc]; [|done].
  rewrite <- prepare_server_config. destruct (prepare_server e x c) as [before [c1|rc]]; [|done]. cbn [snd].
  rewrite listen_answers. destruct (create_listener _) as [opening [fd|]]; cbn; [|done].
  exists ((Do <$> before) ++ (Do <$> opening)), fd. unfold log. cbn [fst snd]. by rewrite app_assoc.
Qed.
End main_facts.

(** * Every interleaving *)

Definition all_events (s : server) : list (happening item) :=
  sv_trace s ++ concat (sv_threads s) ++ in_order (sv_main s).

#[local] Arguments touches : simpl never.
#[local] Arguments all_events : simpl never.

(** [total] is what [main] and the threads do in order, [fin] whether the context is
    held at the end. *)
Record server_ok (total : list (happening item)) (fin : bool) (s : server) : Prop := {
  so_owners : exists ns, NoDup ns /\ Forall2 (fun n t => Forall (of_client n) t) ns (sv_threads s) /\
    fresh ns (sv_main s);
  so_events i : i <> ServerCtx -> touches i (all_events s) = touches i total;
  so_context : Put ServerCtx ∈ sv_trace s \/
    exists held, life ServerCtx (sv_trace s) = Some held /\ keeps_context fin held (sv_main s) /\
      (Use ServerCtx ∈ concat (sv_threads s) -> held = true);
}.

Lemma server_start_ok m rc fin :
  main_fine m rc -> keeps_context fin false m -> server_ok (in_order m) fin (server_start m).
Proof.
  intros [Hf _ _] Hk. split; cbn.
  - exists []. split_and!; [constructor|constructor|done].
  - done.
  - right. exists false. split_and!; [done..|]. by intros H%elem_of_nil.
Qed.

(** Threads have nothing of what is not their client's. *)
Lemma threads_touch ns ts i :
  Forall2 (fun n t => Forall (of_client n) t) ns ts -> i <> ServerCtx ->
  (forall n, client_of i = Some n -> (n ∉ ns)) -> touches i (concat ts) = [].
Proof.
  intros H Hi. induction H as [|n t ns ts Ht H IH]; intros Hn; [done|]. cbn [concat]. rewrite touches_app, IH.
  2:{ intros k Hk Hin. apply (Hn k Hk). by right. }
  rewrite app_nil_r. apply touches_none. eapply list.Forall_impl; [exact Ht|].
  intros e [He| ->]; [|by intros <-]. intros <-. apply (Hn n He). by left.
Qed.

(** What the server's context sees of an event. *)
Definition context_step_ok (held : bool) (e : happening item) (held' : bool) : Prop :=
  lives ServerCtx (Some held) [e] = Some held'.

Lemma do_context fin held e m :
  keeps_context fin held (Do e :: m) ->
  e = Put ServerCtx \/ exists held', context_step_ok held e held' /\ keeps_context fin held' m /\ (held = true -> held' = true).
Proof.
  intros H. destruct (decide (about e = ServerCtx)) as [He|He].
  - destruct e as [i|i|i]; cbn in He; subst i; cbn in H; [|destruct H as [-> H]|by left]; right; exists true.
    + destruct H as [-> H]. by split_and!.
    + by split_and!.
  - right. exists held. split_and!; [apply lives_none; by apply Forall_singleton| |done].
    by destruct e as [[]|[]|[]].
Qed.

Lemma step_ok total fin s s' : server_ok total fin s -> server_step s s' -> server_ok total fin s'.
Proof.
  intros [(ns & Hnd & Hts & Hf) He Hc] Hstep. destruct Hstep as [e m ts tr|n t m ts tr|ts1 e t ts2 m tr]; cbn in *.
  - destruct Hf as [Hn Hf]. split; cbn.
    + exists ns. by split_and!.
    + intros i Hi. rewrite <- He by done. unfold all_events. cbn [sv_trace sv_threads sv_main in_order flat_map events_of]. rewrite <- !app_assoc, !(touches_app i tr).
      f_equal. cbn [app]. symmetry. apply touches_move.
      destruct (decide (about e = i)) as [<-|H]; [left|by right]. by eapply threads_touch.
    + destruct Hc as [Hc|(held & H1 & H2 & H3)]; [left; apply elem_of_app; by left|].
      apply do_context in H2 as [-> |(held' & H4 & H5 & H6)]; [left; apply elem_of_app; right; by left|].
      right. exists held'. split_and!; [by eapply life_snoc|done|by auto].
  - destruct Hf as (Hn & Ht & Hf). split; cbn.
    + exists (ns ++ [n]). split_and!; [|by apply Forall2_app; [|repeat constructor]|done].
      apply list.NoDup_app. split_and!; [done|intros k Hk Hin; apply list_elem_of_singleton in Hin; by subst|apply NoDup_singleton].
    + intros i Hi. rewrite <- He by done. unfold all_events. cbn [sv_trace sv_threads sv_main in_order flat_map events_of]. rewrite concat_app. cbn. by rewrite app_nil_r, <- !app_assoc.
    + destruct Hc as [Hc|(held & H1 & [H2 H4] & H3)]; [by left|right]. exists held. split_and!; [done..|].
      rewrite concat_app. cbn. rewrite app_nil_r. intros [H|H]%elem_of_app; auto.
  - assert (Hsplit : exists ns1 n ns2, ns = ns1 ++ n :: ns2 /\ Forall2 (fun n t => Forall (of_client n) t) ns1 ts1 /\
      (of_client n e /\ Forall (of_client n) t) /\ Forall2 (fun n t => Forall (of_client n) t) ns2 ts2).
    { apply Forall2_app_inv_r in Hts as (ns1 & ns' & H1 & H2 & ->).
      apply Forall2_cons_inv_r in H2 as (n & ns2 & H3 & H4 & ->). apply Forall_cons in H3. by exists ns1, n, ns2. }
    destruct Hsplit as (ns1 & n & ns2 & -> & H1 & [Hen Ht] & H2). split; cbn.
    + exists (ns1 ++ n :: ns2). split_and!; [done| |done]. apply Forall2_app; [done|]. by constructor.
    + intros i Hi. rewrite <- He by done. unfold all_events. cbn [sv_trace sv_threads sv_main in_order flat_map events_of]. rewrite <- !app_assoc, !(touches_app i tr).
      f_equal. rewrite !concat_app. cbn [concat]. rewrite <- !app_assoc. cbn [app]. symmetry. apply touches_move.
      destruct (decide (about e = i)) as [<-|H]; [left|by right]. eapply threads_touch; [done..|].
      destruct Hen as [Hen| ->]; [|done]. rewrite Hen. intros k [= <-] Hin.
      apply list.NoDup_app in Hnd as (_ & Hnd & _). apply (Hnd n Hin). by left.
    + destruct Hc as [Hc|(held & H3 & H4 & H5)]; [left; apply elem_of_app; by left|].
      assert (Hsub : Use ServerCtx ∈ concat (ts1 ++ t :: ts2) -> held = true).
      { intros H. apply H5. rewrite concat_app in *. apply elem_of_app in H as [H|H]; apply elem_of_app; [by left|right; by right]. }
      right. exists held. split_and!; [|done..]. eapply life_snoc; [exact H3|]. destruct Hen as [Hen| ->].
      * apply lives_none, Forall_singleton. intros E. by rewrite E in Hen.
      * rewrite H5; [done|]. rewrite concat_app. cbn. apply elem_of_app. right. by left.
Qed.

Lemma run_ok total fin s s' : server_ok total fin s -> rtc server_step s s' -> server_ok total fin s'.
Proof. intros H Hr. induction Hr as [|a b d Hs Hr IH]; [done|]. apply IH. by eapply step_ok. Qed.

(** * Progress *)

Fixpoint work (m : list action) : nat :=
  match m with
  | [] => 0
  | Do _ :: m => S (work m)
  | Spawn _ t :: m => S (length t + work m)
  end.
Definition left_to_do (s : server) : nat := work (sv_main s) + length (concat (sv_threads s)).

Lemma finished_threads s : finished s -> concat (sv_threads s) = [].
Proof. intros [_ H]. induction H as [|t ts Ht _ IH]; [done|]. cbn. by rewrite Ht, IH. Qed.
Lemma nothing_left s : left_to_do s = 0%nat <-> finished s.
Proof.
  split.
  - intros H. unfold left_to_do in H. split; [by destruct (sv_main s) as [|[] ?]; cbn in *; try lia|].
    assert (Hc : length (concat (sv_threads s)) = 0%nat) by lia. clear H.
    induction (sv_threads s) as [|[|e t] ts IH]; [constructor|by constructor; [|apply IH]|done].
  - intros H. unfold left_to_do. rewrite finished_threads by done. by rewrite (proj1 H).
Qed.

Lemma run_server_steps order s : rtc server_step s (run_server order s).
Proof.
  revert s. induction order as [|who order IH]; intros s; [constructor|]. cbn. etransitivity; [|apply IH].
  destruct who as [|k], s as [m ts tr]; cbn.
  { destruct m as [|[e|n t] m]; [done|apply rtc_once; constructor..]. }
  destruct (ts !! k) as [[|e t]|] eqn:E; [done| |done]. apply rtc_once.
  pose proof (take_drop_middle ts k (e :: t) E) as Ht. rewrite <- Ht at 1.
  rewrite insert_take_drop by (by eapply lookup_lt_Some). constructor.
Qed.


(** ** How much there is to do *)






(** ** What happens for each client *)

Definition client_events (n : nat) (l : list (happening item)) : list (happening item) :=
  filter (fun ev => client_of (about ev) = Some n) l.




Lemma client_events_app n l1 l2 : client_events n (l1 ++ l2) = client_events n l1 ++ client_events n l2.
Proof. apply list.filter_app. Qed.
Lemma client_events_other n k l : n <> k -> Forall (of_client k) l -> client_events n l = [].
Proof.
  intros Hne H. apply filter_none. eapply list.Forall_impl; [exact H|]. intros ev [->| ->]; [congruence|done].
Qed.




(** Every interleaving keeps each client's events in their order. *)
Lemma threads_clients ns ts n :
  Forall2 (fun n t => Forall (of_client n) t) ns ts -> n ∉ ns -> client_events n (concat ts) = [].
Proof.
  induction 1 as [|k t ns ts Ht H IH]; intros Hn; [done|]. cbn [concat]. rewrite client_events_app, IH, app_nil_r.
  - apply (client_events_other n k); [|done]. intros ->. apply Hn. by left.
  - intros Hin. apply Hn. by right.
Qed.
Lemma step_clients total fin s s' n :
  server_ok total fin s -> server_step s s' -> client_events n (all_events s') = client_events n (all_events s).
Proof.
  intros [(ns & Hnd & Hts & Hf) _ _] Hstep. unfold all_events, client_events.
  destruct Hstep as [e m ts tr|k t m ts tr|ts1 e t ts2 m tr]; cbn [sv_main sv_threads sv_trace] in *.
  - cbn [in_order flat_map events_of]. rewrite <- !app_assoc, !(list.filter_app _ tr). f_equal. cbn [app]. symmetry.
    apply filter_move. destruct (decide (client_of (about e) = Some n)) as [H|H]; [left|by right].
    eapply threads_clients; [exact Hts|]. by apply Hf.
  - cbn [in_order flat_map events_of]. rewrite concat_app. cbn. by rewrite app_nil_r, <- !app_assoc.
  - rewrite <- !app_assoc, !(list.filter_app _ tr). f_equal. rewrite !concat_app. cbn [concat].
    rewrite <- !app_assoc. cbn [app]. symmetry. apply filter_move.
    destruct (decide (client_of (about e) = Some n)) as [H|H]; [left|by right].
    apply Forall2_app_inv_r in Hts as (ns1 & ns' & H1 & H2 & ->).
    apply Forall2_cons_inv_r in H2 as (k & ns2 & H3 & H4 & ->). apply Forall_cons in H3 as [[He| ->] _]; [|done].
    eapply threads_clients; [exact H1|]. rewrite H in He. injection He as <-.
    apply list.NoDup_app in Hnd as (_ & Hnd & _). intros Hin. apply (Hnd n Hin). by left.
Qed.

(** What holds in every interleaving, shared by the properties. *)
Lemma served `{J : Jansson} (e : proxy_env J) (x : server_env) args ios s :
  rtc server_step (server_start (fst (proxy_main e x args ios))) s ->
  exists fd, (snd (proxy_main e x args ios) = None <-> fd <> None) /\
    (forall i, i <> ServerCtx -> lives i (Some false) (all_events s) = Some (holds fd i)) /\
    (forall n, client_events n (all_events s) = client_events n (in_order (fst (proxy_main e x args ios)))) /\
    exists fin, (fin = true -> snd (proxy_main e x args ios) = None) /\
    (Put ServerCtx ∈ sv_trace s \/
       exists held, life ServerCtx (sv_trace s) = Some held /\ keeps_context fin held (sv_main s)).
Proof.
  pose proof (proxy_main_fine e x args ios) as Hm. destruct (proxy_main e x args ios) as [m rc]. cbn [fst snd] in *.
  intros Hrun. destruct (mf_context _ _ Hm) as (fin & Hfin & Hk). destruct (mf_lives _ _ Hm) as (fd & Hfd & Hl).
  pose proof (server_start_ok _ _ _ Hm Hk) as H0. exists fd. split; [done|]. split; [|split].
  - intros i Hi. rewrite lives_touches, (so_events _ _ _ (run_ok _ _ _ _ H0 Hrun)), <- lives_touches by done. by apply Hl.
  - intros n. change (in_order m) with (all_events (server_start m)). revert H0. generalize (in_order m). intros total H0.
    induction Hrun as [|a b d Hs Hr IH]; [done|]. rewrite IH by by eapply step_ok.
    by eapply step_clients.
  - exists fin. split; [done|]. destruct (so_context _ _ _ (run_ok _ _ _ _ H0 Hrun)) as [Hc|(held & Hc & Hk' & _)]; eauto.
Qed.

(** * Properties *)

(** C32.  The proxy serves its clients without leaks or double frees, in every
    interleaving of [main] and the threads and for all results of their calls.  Every
    descriptor, context, session and block of memory is used and freed only while it
    is held, the context of the server for as long as [main] has not freed it; when
    [main] and all threads are done nothing is held, and while [main] waits for the
    next client and the others have left, only the listening socket (and the context). *)
Theorem server_safe `{J : Jansson} (e : proxy_env J) (x : server_env) args ios s :
  rtc server_step (server_start (fst (proxy_main e x args ios))) s ->
  (forall i, i <> ServerCtx -> is_Some (life i (sv_trace s))) /\
  (Put ServerCtx ∉ sv_trace s -> is_Some (life ServerCtx (sv_trace s))) /\
  (finished s -> exists fd, (snd (proxy_main e x args ios) = None <-> fd <> None) /\
     (forall i, i <> ServerCtx -> life i (sv_trace s) = Some (holds fd i)) /\
     (snd (proxy_main e x args ios) <> None -> Put ServerCtx ∈ sv_trace s \/ life ServerCtx (sv_trace s) = Some false)).
Proof.
  intros Hrun. destruct (served e x args ios s Hrun) as (fd & Hfd & Hall & _ & fin & Hfin & Hc). split_and!.
  - intros i Hi. apply (lives_prefix i _ _ (concat (sv_threads s) ++ in_order (sv_main s))).
    fold (all_events s). rewrite Hall; eauto.
  - intros Hput. destruct Hc as [Hc|(held & Hc & _)]; [done|eauto].
  - intros [Hm0 Ht0]. exists fd. split; [done|]. split.
    + intros i Hi. rewrite <- Hall by done. unfold life, all_events. rewrite Hm0.
      by rewrite finished_threads, !app_nil_r.
    + intros Hrc. destruct Hc as [Hc|(held & Hc & Hkeep)]; [by left|right]. rewrite Hm0 in Hkeep. cbn in Hkeep.
      subst held. rewrite Hc. destruct fin; [|done]. by destruct Hrc; apply Hfin.
Qed.


(** * A concrete run: one client over TLS, then an error of [accept] *)

Definition wserver : server_env :=
  ServerEnv (CertEnv true true true true true true true true) true true (fun _ _ => Some [(true, true, false); (true, true, true)]).
Definition wthread : thread_env := ThreadEnv (Some 0x16) true true true true true true.
Definition wserved : list accept_env :=
  [AcceptEnv true WouldBlock true wthread; AcceptEnv true Accepted true wthread; AcceptEnv true AcceptError true wthread].
Definition wprocess : server :=
  server_start (fst (proxy_main wenv wserver ["--listen-tls"; "127.0.0.1:3334"]%string wserved)).
(** [main] up to the thread, the thread to its end, then [main] again. *)
Definition client_first : list nat := replicate 25 0%nat ++ replicate 14 1%nat ++ replicate 4 0%nat.
(** [main] to its end before the thread starts. *)
Definition main_first : list nat := replicate 29 0%nat ++ replicate 2 1%nat.

Lemma server_safe_witness :
  life (Own 1 (Session client_side)) (sv_trace (run_server client_first wprocess)) = Some false.
Proof.
  destruct (server_safe wenv wserver ["--listen-tls"; "127.0.0.1:3334"]%string wserved (run_server client_first wprocess)
    (run_server_steps client_first wprocess)) as (_ & _ & H).
  destruct (H ltac:(split; [vm_compute; reflexivity|
    apply (bool_decide_unpack (Forall (fun t => t = []) _)); vm_compute; exact I])) as (fd & _ & Hl & _).
  rewrite (Hl (Own 1 (Session client_side))) by discriminate. by destruct fd.
Defined.


(** After an error of [accept], [main] frees the server's context while the threads of
    its clients still run: one that has just been started creates its session from the
    freed context. *)
Example server_context_race :
  snd (proxy_main wenv wserver ["--listen-tls"; "127.0.0.1:3334"]%string wserved) = Some 0 /\
  life ServerCtx (sv_trace (run_server client_first wprocess)) = Some false /\
  life ServerCtx (sv_trace (run_server main_first wprocess)) = None.
Proof. vm_compute. by split_and!. Qed.
